(* ===== verification/_CoqProject ===== *)
-Q . S2P
Prelude.v
Flows.v
JsNumber.v
JsString.v
DomainEvents.v
CoreDomain.v
MasterData.v
Lifecycles.v
PurchaseOrderAggregate.v
Decimal.v
Subscriptions.v
Database.v
Costing.v
CostingFacts.v
Receipts.v
PurchaseOrders.v
PurchaseOrderFacts.v
Transfers.v
TransferFacts.v
Reservations.v
ReservationFacts.v
InventoryStock.v
StockFacts.v
FulfillmentFacts.v
Reorder.v
ReorderFacts.v
Outbox.v
Orders.v
Kitchen.v
SalesFacts.v
KitchenFacts.v
OrderFacts.v
SubscriptionService.v
Billing.v
PaymentFacts.v
BillingFacts.v
InvoiceFacts.v
InvoiceExport.v
ExportFacts.v
Historical.v
HistoricalFacts.v
Averages.v
AverageFacts.v
Valuation.v
ValuationFacts.v
Expiry.v
OutboxFacts.v
ExpiryFacts.v
FeatureFlags.v
FeatureFlagFacts.v
Tenants.v
SuperAdmin.v
TenantFacts.v
