(* ===== verification/Prelude.v ===== *)
(** Verification of the ERP Multi-Business API (src/apps/api): root of the development.

    The program is a multi-tenant ERP back end in TypeScript (NestJS over Prisma and
    PostgreSQL).  Requests reach services, services run Prisma transactions on the
    database, aggregates hold the rules of single objects and record domain events, and
    events leave through an outbox table.  The development follows that shape: aggregates
    are records with functions that return a value or the exception thrown, services are
    transactions over a store of tables, and what runs in several transactions or asks
    the outside is a flow.  File names below are relative to src/apps/api/src.

    ** Foundations
    - Prelude: exceptions and outcomes, nullable fields, transactions ([Tx]: an exception
      rolls back), tactics, list lemmas.
    - Flows: programs of several transactions and questions to the outside; [exec] runs
      one among other commits, a [Pool] runs any number at once, with crashes.
    - JsNumber, JsString: IEEE doubles as integers of 2^-1074 with rounding, and Latin-1
      strings with the methods the code uses.
    - Decimal: Prisma.Decimal and numeric columns as a class of operations with laws, and
      a fixed-point instance that satisfies them.
    - Database: the rows of the tables (prisma/schema.prisma), the Prisma calls, and
      frames: which tables a run may write.

    ** Aggregates
    - DomainEvents, CoreDomain: core/events/domain-events.ts, core/domain.
    - MasterData: inventory items, warehouses, suppliers, products, recipes, payments,
      users (modules/*/domain).  Lifecycles: reservations, orders and kitchen tickets,
      behind the interface [Lifecycle].
    - PurchaseOrderAggregate, Subscriptions: modules/purchase-orders/domain,
      modules/subscription/domain and plans/plan-catalog.ts.

    ** Services
    - Costing, Historical, Averages: modules/inventory/inventory-costing.service.ts; the last
      two rebuild FIFO layers and moving averages from the movements.
    - Receipts, PurchaseOrders: modules/purchase-orders/purchase-order.service.ts.
    - Transfers: modules/inventory/warehouse-transfer.service.ts.
    - Reservations: modules/inventory/inventory-reservation.service.ts.  Expiry:
      modules/inventory/reservation.repository.ts, which repeats it, and the job of
      apps/worker that expires reservations.
    - Valuation: getValuation and configureValuation (inventory.repository.ts).
    - InventoryStock: stock-ins, adjustments, wastes and the fulfillment of orders
      (modules/inventory/inventory.repository.ts, modules/fulfillment).  StockFacts: what
      a stock row, its movement and the costing of it do together.
    - Reorder: balances, availability and reorder rules (inventory.repository.ts).
    - Orders: modules/orders (service, repository, order-orchestrator.service.ts) and
      modules/payments.  Kitchen: modules/kitchen.  They are flows: an event reaches the
      orchestrator, and then the other subscribers, before the publishing method goes on.
    - Outbox: core/events and infrastructure/events/outbox.publisher.ts.
    - SubscriptionService: modules/subscription (repository and service).
    - Billing: modules/billing (repository, service, gateway/xendit-payment.gateway.ts).
    - InvoiceExport: modules/billing/invoice-export.ts with the query behind it.
    - FeatureFlags: modules/feature-flags, with Redis and the bus as questions.
    - Tenants: modules/business-registry and modules/tenants, two views of one table.
      SuperAdmin: modules/super-admin and modules/audit-logs/platform-audit-log.service.ts.
    A state change of the code is a change of a row of the table of the same name; a
    handler keeps its name, and the part inside [$transaction] is called [..._tx].

    ** Theorems (in the file of the component or its ...Facts file)
    - Billing: no invoice is charged twice, however many requests run at once
      (PaymentFacts); invoices are settled at most once and never change after, a period
      is billed at most once (InvoiceFacts); what a webhook does, and that redelivery is
      harmless (BillingFacts).  The three concurrency theorems are invariants of pools.
    - Purchase orders: receipts are idempotent and stay within the order; the status
      follows what arrived; the service refines the aggregate, and a status is not changed
      when its announcement fails (PurchaseOrderFacts).
    - Stock: reservations take what an order requires and release gives it back, and are
      settled once (ReservationFacts); transfers ship and receive within bounds, once per
      key (TransferFacts); stock and cost layers stay balanced through every manual
      operation and fulfillment, and an order takes what it needs once (FulfillmentFacts).
    - Sales: along every interleaving of the calls on orders, payments and tickets an
      order moves along its lifecycle and its payments add up (SalesFacts); what a call on
      a ticket does, and what it answers (KitchenFacts); what a new order holds, that the
      payment of a retail order is handled once, and where it gets stuck (OrderFacts).
    - Replenishment: which rules are accepted and what replaces what, that a suggestion
      restores the stock, and that availability adds up (ReorderFacts).
    - Costing: FIFO issues conserve value and take the oldest layers, restoring undoes an
      issue, averages stay between the costs they average (CostingFacts); a reconstructed
      warehouse has layers for exactly its stock, first in, first out (HistoricalFacts),
      and a reconstructed average lies between the costs it averages (AverageFacts).
    - Valuation: choosing FIFO opens books that balance, balanced books are valued to the
      unit, and an item is configured until it is locked (ValuationFacts).
    - Expiry: reservations that are due are given back exactly, once; the repository
      does what the reservation service does (ExpiryFacts).
    - Platform: of which flags the cache of the feature flags may be out of date, and that
      it holds what the database holds of the others (FeatureFlagFacts); a tenant is
      deactivated exactly when it is deleted, and the audit log replays to its status
      (TenantFacts).
    - Outbox: every dispatch settles the oldest pending events, and the events that the
      code writes are read back (OutboxFacts).
    - Export: it ends, is complete and repeats nothing; the CSV can be read back
      (ExportFacts).
    - Subscriptions: the event log replays to the state; renewal; access.
    - Aggregates: guards, transitions, histories, totals (in their files).
    Every property with hypotheses has a witness, a run on a small store.

    ** Bounds and fuel
    The export loop is the one loop that needs fuel, one unit per page; its theorem asks
    for more units of 500 than there are invoices.  Statements about decimals hold for
    amounts on the grid of the columns (multiples of 10^-6) below the 18 digits of a
    column, totals below 20 digits; the historical theorems for whole quantities below
    10^11 in total, those on balanced books for less than 10^12 units.  Numbers are exact up to 2^53.

    ** Parameters
    Cuids, SHA-256, the collation and the local time zone ([Platform]), decimals
    ([Decimal]), [new Date(text)], event handlers, the answers of the gateway and what
    the subscribers of an event throw, the answers of Redis, [new URL] and the time zones
    of Intl in the platform settings.

    ** Not modelled, and simplifications
    - A transaction runs alone: row locks and status checks are in the model, the
      interleavings they exclude are not; code outside a transaction is interleaved
      (flows).  [createInvoiceForBillingPeriod], whose transaction reads before it
      inserts, is two steps.
    - A text that [JSON.stringify] makes is kept as what it parses to: dates are ISO texts,
      numbers that are not finite are null.
    - The clock is read once per call.  An Int column has no range.  Logging, the tenant
      guard of the Prisma client (queries name the tenant), and request contexts other
      than their fields are left out.
    - A line of an order carries the columns of its product that are read through it.
      The queue of the kitchen compares texts with a parameter ([contains]).
    - The repositories of the catalogue, the creation of inventory items, and the listings
      and figures of the inventory, the orders and the platform are queries with no rule of
      their own, and are left out.
    - Authentication, users, roles and invitations rest on password hashing, tokens and
      cookies of third-party packages.  Analytics, the audit log of the tenants and
      notifications are read models and delivery.  Controllers, infrastructure and the web
      client are glue. *)

From stdpp Require Import base option list gmap strings sorting.
From Stdlib Require Import ZArith Lia.

(** * Outcomes *)

(** The exceptions the modelled code throws: the NestJS HTTP exceptions, plain
    [Error]s, and errors that carry a Prisma code (such as P2034, a write
    conflict). *)
Inductive exn :=
| BadRequestException (msg : string)
| NotFoundException (msg : string)
| ConflictException (msg : string)
| BadGatewayException (msg : string)
| InternalServerErrorException (msg : string)
| JsError (msg : string)
| PrismaError (code : string).

(** The outcome of a call: a value or a thrown exception. *)
Inductive result (A : Type) :=
| Ok (a : A)
| Err (e : exn).
Arguments Ok {A} a.
Arguments Err {A} e.

#[export] Instance exn_eq_dec : EqDecision exn.
Proof. solve_decision. Defined.
#[export] Instance result_eq_dec `{EqDecision A} : EqDecision (result A).
Proof. solve_decision. Defined.

#[export] Instance result_ret : MRet result := λ A a, Ok a.
#[export] Instance result_bind : MBind result := λ A B f r,
  match r with Ok a => f a | Err e => Err e end.
#[export] Instance result_fmap : FMap result := λ A B f r,
  match r with Ok a => Ok (f a) | Err e => Err e end.

Definition is_ok {A} (r : result A) : bool :=
  match r with Ok _ => true | Err _ => false end.

(** [if (c) throw e] in statement position. *)
Definition throw_if (c : bool) (e : exn) : result unit :=
  if c then Err e else Ok tt.
Definition from_option {A} (o : option A) (e : exn) : result A :=
  match o with Some a => Ok a | None => Err e end.

(** [for (const x of l) { ... }] where the body may throw. *)
Fixpoint for_each {A S} (body : S → A → result S) (l : list A) (s : S) : result S :=
  match l with
  | [] => Ok s
  | x :: l' => match body s x with Ok s' => for_each body l' s' | Err e => Err e end
  end.
(** [l.map(f)] where the callback may throw. *)
Fixpoint map_result {A B} (f : A → result B) (l : list A) : result (list B) :=
  match l with
  | [] => Ok []
  | x :: l' =>
      match f x with
      | Ok y => match map_result f l' with Ok ys => Ok (y :: ys) | Err e => Err e end
      | Err e => Err e
      end
  end.

(** [l.forEach(x => { ... throw ... })]: the first failing check is thrown. *)
Definition check_all {A} (check : A → result unit) (l : list A) : result unit :=
  for_each (λ _ x, check x) l tt.

(** [new Set(l).size !== l.length]. *)
Definition has_duplicates (l : list string) : bool :=
  negb (size (list_to_set l : gset string) =? length l).

(** [l.sort((a, b) => ...)], which is stable, for a comparison [le]. *)
Fixpoint insert_by {A} (le : A → A → bool) (x : A) (l : list A) : list A :=
  match l with
  | [] => [x]
  | y :: l' => if le x y then x :: y :: l' else y :: insert_by le x l'
  end.
Definition sort_by {A} (le : A → A → bool) (l : list A) : list A :=
  foldr (insert_by le) [] l.

(** * Optional and nullable fields

    A field [f?: T | null] may be absent, [null] or a value; a field [f?: T] or
    [f: T | null] is an [option]. *)
Inductive opt (A : Type) :=
| Undefined
| Null
| Value (a : A).
Arguments Undefined {A}.
Arguments Null {A}.
Arguments Value {A} a.

#[export] Instance opt_eq_dec `{EqDecision A} : EqDecision (opt A).
Proof. solve_decision. Defined.

(** [x ?? null], as stored in a nullable column. *)
Definition opt_nullable {A} (x : opt A) : option A :=
  match x with Value a => Some a | _ => None end.
Definition opt_of_nullable {A} (x : option A) : opt A :=
  match x with Some a => Value a | None => Null end.
(** [x ?? d] on optional fields that may be null. *)
Definition opt_coalesce {A} (x d : opt A) : opt A :=
  match x with Value a => Value a | _ => d end.

(** * Transactions

    [prisma.$transaction(async (tx) => ...)] threads a store through the
    callback; an exception aborts the whole callback and the store it started
    from is kept. *)
Definition Tx (S A : Type) : Type := S → result (A * S).

#[export] Instance tx_ret {S} : MRet (Tx S) := λ A a s, Ok (a, s).
#[export] Instance tx_bind {S} : MBind (Tx S) := λ A B f m s,
  match m s with Ok (a, s') => f a s' | Err e => Err e end.

Definition tx_get {S} : Tx S S := λ s, Ok (s, s).
Definition tx_modify {S} (f : S → S) : Tx S unit := λ s, Ok (tt, f s).
Definition tx_throw {S A} (e : exn) : Tx S A := λ _, Err e.
Definition tx_lift {S A} (r : result A) : Tx S A := λ s,
  match r with Ok a => Ok (a, s) | Err e => Err e end.
Definition tx_when {S} (c : bool) (m : Tx S unit) : Tx S unit :=
  if c then m else mret tt.
Definition tx_throw_if {S} (c : bool) (e : exn) : Tx S unit :=
  tx_lift (throw_if c e).

(** [for (const x of l) { await body(x) }]. *)
Fixpoint tx_for_each {S A} (body : A → Tx S unit) (l : list A) : Tx S unit :=
  match l with
  | [] => mret tt
  | x :: l' => body x ≫= λ _, tx_for_each body l'
  end.

(** Commit or roll back. *)
Definition transaction {S A} (m : Tx S A) (s : S) : result A * S :=
  match m s with Ok (a, s') => (Ok a, s') | Err e => (Err e, s) end.

(** * Tactics *)

(** [inv_ok H] decomposes a successful run: every [match] or [if] that guards
    the [Ok] in [H] is split, and the branches that throw are discarded. *)
Ltac inv_ok_step H :=
  lazymatch type of H with
  | Ok _ = Ok _ => injection H; clear H; intros
  | Err _ = Ok _ => discriminate H
  | Ok _ = Err _ => discriminate H
  | mbind _ ?x = Ok _ =>
      let E := fresh "E" in
      destruct x eqn:E; unfold mbind, result_bind in H; cbn beta iota in H;
      try discriminate H
  | (match ?x with _ => _ end) = _ =>
      let E := fresh "E" in destruct x eqn:E; try discriminate H
  | (match ?x with _ => _ end) _ = _ =>
      let E := fresh "E" in destruct x eqn:E; try discriminate H
  | tx_throw _ _ = _ => discriminate H
  | mret _ _ = Ok _ => injection H; clear H; intros
  end.
Ltac inv_ok H := repeat (inv_ok_step H; try (cbn in H)).

(** Split every condition of the goal. *)
Ltac split_ifs :=
  repeat match goal with
  | |- context [if ?b then _ else _] => let E := fresh "E" in destruct b eqn:E
  end.

Ltac bool_hyps :=
  repeat match goal with
  | H : _ && _ = true |- _ => apply andb_true_iff in H as [??]
  | H : _ || _ = false |- _ => apply orb_false_iff in H as [??]
  | H : negb _ = true |- _ => apply negb_true_iff in H
  | H : negb _ = false |- _ => apply negb_false_iff in H
  | H : bool_decide _ = true |- _ => apply bool_decide_eq_true_1 in H
  | H : bool_decide _ = false |- _ => apply bool_decide_eq_false_1 in H
  end.

(** * Generic lemmas *)

Lemma set_size_le (l : list string) : size (list_to_set l : gset string) ≤ length l.
Proof.
  induction l as [|x l IH]; [done|]. rewrite list_to_set_cons. cbn [length].
  rewrite size_union_alt, size_singleton.
  pose proof (subseteq_size (list_to_set l ∖ {[x]} : gset string) (list_to_set l)
    ltac:(set_solver)). lia.
Qed.

Lemma has_duplicates_false (l : list string) : has_duplicates l = false ↔ NoDup l.
Proof.
  unfold has_duplicates. rewrite negb_false_iff, Nat.eqb_eq.
  split; [|apply size_list_to_set].
  induction l as [|x l IH]; [constructor|].
  rewrite list_to_set_cons. cbn [length]. rewrite NoDup_cons.
  destruct (decide (x ∈ l)) as [Hx|Hx].
  - assert (({[x]} ∪ list_to_set l : gset string) = list_to_set l) as -> by set_solver.
    pose proof (set_size_le l). lia.
  - rewrite size_union by set_solver. rewrite size_singleton.
    intros H. split; [done|]. apply IH. lia.
Qed.

Lemma filter_none {A} (p : A → bool) l : Forall (λ x, p x = false) l → List.filter p l = [].
Proof. induction 1 as [|x l Hx _ IH]; simpl; [done|]. by rewrite Hx. Qed.
Lemma filter_every {A} (p : A → bool) l : Forall (λ x, p x = true) l → List.filter p l = l.
Proof. induction 1 as [|x l Hx _ IH]; simpl; [done|]. by rewrite Hx, IH. Qed.

(** Members of a list with distinct keys are equal when their keys are. *)
Lemma same_key {A K} (key : A → K) l x y :
  NoDup (map key l) → x ∈ l → y ∈ l → key x = key y → x = y.
Proof.
  induction l as [|z l IH]; simpl; intros Hnd Hx Hy E; [by apply elem_of_nil in Hx|].
  apply NoDup_cons in Hnd as [Hz Hnd].
  apply elem_of_cons in Hx as [->|Hx]; apply elem_of_cons in Hy as [->|Hy]; auto.
  - exfalso. apply Hz. rewrite E. by apply list_elem_of_fmap_2.
  - exfalso. apply Hz. rewrite <- E. by apply list_elem_of_fmap_2.
Qed.

Lemma filter_keys {A K} (key : A → K) (p : A → bool) l :
  NoDup (map key l) → NoDup (map key (List.filter p l)).
Proof.
  induction l as [|x l IH]; simpl; intros Hnd; [done|].
  apply NoDup_cons in Hnd as [Hx Hnd]. destruct (p x); [|by apply IH].
  simpl. apply NoDup_cons. split; [|by apply IH]. intros Hin. apply Hx.
  apply list_elem_of_fmap in Hin as (y & -> & Hy%list_elem_of_In%filter_In).
  apply list_elem_of_fmap_2. apply list_elem_of_In. tauto.
Qed.
Lemma find_app {A} (p : A → bool) l1 l2 :
  List.find p (l1 ++ l2) =
    match List.find p l1 with Some x => Some x | None => List.find p l2 end.
Proof. induction l1 as [|x l1 IH]; simpl; [done|]. by destruct (p x). Qed.

Lemma filter_and {A} (p q : A → bool) l :
  List.filter (λ x, p x && q x) l = List.filter q (List.filter p l).
Proof.
  induction l as [|x l IH]; simpl; [done|]. destruct (p x); simpl; [|done].
  by destruct (q x); rewrite IH.
Qed.
Lemma find_head {A} (p : A → bool) l : List.find p l = head (List.filter p l).
Proof. induction l as [|x l IH]; simpl; [done|]. by destruct (p x). Qed.

Section sorting.
Context {A : Type} (le : A → A → bool).

Lemma insert_by_perm x l : insert_by le x l ≡ₚ x :: l.
Proof.
  induction l as [|y l IH]; simpl; [done|]. destruct (le x y); [done|].
  rewrite IH. apply perm_swap.
Qed.
Lemma sort_by_perm l : sort_by le l ≡ₚ l.
Proof. induction l as [|x l IH]; simpl; [done|]. by rewrite insert_by_perm, IH. Qed.

Lemma insert_by_sorted x l :
  (∀ a b, le a b = false → le b a = true) →
  Sorted (λ a b, le a b = true) l → Sorted (λ a b, le a b = true) (insert_by le x l).
Proof.
  intros Ht. induction 1 as [|y l Hl IH Hd]; simpl; [repeat constructor|].
  destruct (le x y) eqn:E; [by repeat constructor|].
  constructor; [done|]. destruct l as [|z l]; simpl; [constructor; auto|].
  inversion Hd; subst. destruct (le x z); constructor; auto.
Qed.
Lemma sort_by_sorted l :
  (∀ a b, le a b = false → le b a = true) → Sorted (λ a b, le a b = true) (sort_by le l).
Proof. intros Ht. induction l as [|x l IH]; simpl; [constructor|]. by apply insert_by_sorted. Qed.
End sorting.

Section transactions.
Context {S A B : Type}.
Implicit Types (m : Tx S A) (f : A → Tx S B).

(** Step over the first statement of a run. *)
Lemma tx_bind_run m f s a s' : m s = Ok (a, s') → (m ≫= f) s = f a s'.
Proof. unfold mbind, tx_bind. by intros ->. Qed.
Lemma tx_bind_err m f s e : m s = Err e → (m ≫= f) s = Err e.
Proof. unfold mbind, tx_bind. by intros ->. Qed.
Lemma tx_throw_if_false e s : tx_throw_if (S := S) false e s = Ok (tt, s).
Proof. done. Qed.
Lemma tx_throw_if_true e s : tx_throw_if (S := S) true e s = Err e.
Proof. done. Qed.
End transactions.

Section results.
Context {A B : Type}.

Lemma throw_if_ok (c : bool) (e : exn) (u : unit) : throw_if c e = Ok u ↔ c = false.
Proof. destruct c, u; simpl; naive_solver. Qed.

(** A step that throws or goes on. *)
Lemma tx_lift_ok {S} (r : result A) (s s' : S) a : tx_lift r s = Ok (a, s') → r = Ok a ∧ s' = s.
Proof. unfold tx_lift. destruct r; [|done]. by intros [= -> ->]. Qed.
Lemma tx_bind_ok {S} (m : Tx S A) (f : A → Tx S B) (s s' : S) (b : B) :
  (m ≫= f) s = Ok (b, s') ↔ ∃ a s1, m s = Ok (a, s1) ∧ f a s1 = Ok (b, s').
Proof.
  unfold mbind, tx_bind. destruct (m s) as [[a s1]|e]; split; intros H.
  - eauto.
  - destruct H as (a' & s1' & [= -> ->] & H). exact H.
  - discriminate.
  - destruct H as (? & ? & ? & _). discriminate.
Qed.

Lemma check_all_ok (check : A → result unit) (l : list A) :
  check_all check l = Ok tt ↔ Forall (λ x, check x = Ok tt) l.
Proof.
  unfold check_all. induction l as [|x l IH]; simpl.
  - split; [constructor|done].
  - destruct (check x) as [[]|e] eqn:E.
    + rewrite IH. split; [by constructor|by inversion 1].
    + split; [done|]. inversion 1. congruence.
Qed.

Lemma map_result_length (f : A → result B) (l : list A) (ys : list B) :
  map_result f l = Ok ys → length ys = length l.
Proof.
  revert ys. induction l as [|x l IH]; simpl; intros ys H; inv_ok H; subst; simpl; auto.
Qed.

Lemma map_result_Forall2 (f : A → result B) (l : list A) (ys : list B) :
  map_result f l = Ok ys ↔ Forall2 (λ x y, f x = Ok y) l ys.
Proof.
  revert ys. induction l as [|x l IH]; simpl; intros ys.
  - split; intros H; inversion H; subst; constructor.
  - split; intros H.
    + inv_ok H. subst. constructor; [done|]. by apply IH.
    + inversion H as [|? y ? ys' Hx Hl]; subst. rewrite Hx. apply IH in Hl. by rewrite Hl.
Qed.
End results.
