(* ===== verification/Flows.v ===== *)
(** Programs that run several transactions and ask an outside service.

    An asynchronous method outside a transaction is a sequence of database calls, each
    of which commits by itself, and of calls to other systems; anything else may commit
    in between.  A [Flow] is such a program: it has returned or thrown, or it is about
    to run a transaction or to ask a question, and goes on with the outcome. *)

From stdpp Require Import base list option relations.
From Stdlib Require Import Lia.
From S2P Require Import Prelude.

Section flows.
(** The store, the questions to the outside and the answers. *)
Context {S Q R : Type}.

Inductive Flow (A : Type) :=
| Return (r : result A)
| Transact (X : Type) (m : Tx S X) (k : result X → Flow A)
| Ask (q : Q) (k : R → Flow A).
Arguments Return {A} r.
Arguments Transact {A} X m k.
Arguments Ask {A} q k.

#[export] Instance flow_ret : MRet Flow := λ A a, Return (Ok a).
(** [await m] followed by [f]; an exception passes. *)
#[export] Instance flow_bind : MBind Flow := λ A B f, fix bind m :=
  match m with
  | Return (Ok a) => f a
  | Return (Err e) => Return (Err e)
  | Transact X t k => Transact X t (λ r, bind (k r))
  | Ask q k => Ask q (λ r, bind (k r))
  end.
Definition throw {A} (e : exn) : Flow A := Return (Err e).
(** [try { m } catch (e) { h(e) }]. *)
Fixpoint catch {A} (h : exn → Flow A) (m : Flow A) : Flow A :=
  match m with
  | Return (Ok a) => Return (Ok a)
  | Return (Err e) => h e
  | Transact X t k => Transact X t (λ r, catch h (k r))
  | Ask q k => Ask q (λ r, catch h (k r))
  end.
(** A database call: a statement, or a whole [$transaction]. *)
Definition call {A} (m : Tx S A) : Flow A := Transact A m Return.
Definition ask (q : Q) : Flow R := Ask q (λ r, Return (Ok r)).

(** ** Running alone, or among others

    [exec env answer]: before its n-th step the others commit [env n]. *)
Section exec.
Context {W : Type} (env : nat → S → S) (answer : Q → W → R * W).

Fixpoint exec {A} (n : nat) (f : Flow A) (s : S) (w : W) : result A * S * W :=
  match f with
  | Return r => (r, s, w)
  | Transact X m k => let '(r, s') := transaction m (env n s) in exec (Datatypes.S n) (k r) s' w
  | Ask q k => let '(r, w') := answer q w in exec (Datatypes.S n) (k r) s w'
  end.

Lemma exec_bind {A B} (m : Flow A) (f : A → Flow B) n s w :
  ∃ n', exec n (m ≫= f) s w =
    let '(r, s', w') := exec n m s w in
    match r with Ok a => exec n' (f a) s' w' | Err e => (Err e, s', w') end.
Proof.
  revert n s w. induction m as [[a|e]|X m k IH|q k IH]; simpl; intros n s w.
  - by exists n.
  - by exists n.
  - destruct (transaction m (env n s)) as [r s']. apply IH.
  - destruct (answer q w) as [r w']. apply IH.
Qed.
End exec.

Lemma bind_call {A B} (m : Tx S A) (f : A → Flow B) :
  mbind f (call m) = Transact A m (λ r, match r with Ok a => f a | Err e => Return (Err e) end).
Proof. done. Qed.

(** *** Alone *)

Section alone.
Context {W : Type} (answer : Q → W → R * W).

Definition alone {A} (f : Flow A) (s : S) (w : W) : result A * S * W :=
  exec (λ _ s, s) answer 0 f s w.
Lemma alone_from {A} n (f : Flow A) s w : exec (λ _ s, s) answer n f s w = alone f s w.
Proof.
  unfold alone. generalize 0 at 1. revert n s w.
  induction f as [r|X m k IH|q k IH]; simpl; intros n s w n'; [done| |].
  - destruct (transaction m s) as [r s']. apply IH.
  - destruct (answer q w) as [r w']. apply IH.
Qed.
Lemma alone_return {A} (r : result A) s w : alone (Return r) s w = (r, s, w).
Proof. done. Qed.
Lemma alone_call {A} (m : Tx S A) s w :
  alone (call m) s w = let '(r, s') := transaction m s in (r, s', w).
Proof. unfold alone. simpl. by destruct (transaction m s). Qed.
Lemma alone_ask q s w : alone (ask q) s w = let '(r, w') := answer q w in (Ok r, s, w').
Proof. unfold alone. simpl. by destruct (answer q w). Qed.
Lemma alone_bind {A B} (m : Flow A) (f : A → Flow B) s w :
  alone (m ≫= f) s w =
    let '(r, s', w') := alone m s w in
    match r with Ok a => alone (f a) s' w' | Err e => (Err e, s', w') end.
Proof.
  unfold alone at 1 2. destruct (exec_bind (λ _ s, s) answer m f 0 s w) as [n ->].
  destruct (exec (λ _ s, s) answer 0 m s w) as [[[a|e] s'] w']; [apply alone_from|done].
Qed.
Lemma alone_bind_ok {A B} (m : Flow A) (f : A → Flow B) s w b s' w' :
  alone (m ≫= f) s w = (Ok b, s', w') →
  ∃ a s1 w1, alone m s w = (Ok a, s1, w1) ∧ alone (f a) s1 w1 = (Ok b, s', w').
Proof.
  rewrite alone_bind. destruct (alone m s w) as [[[a|e] s1] w1]; [|done]. eauto.
Qed.
(** A call, and what follows it. *)
Lemma alone_step {A B} (m : Tx S A) (f : A → Flow B) s w :
  alone (call m ≫= f) s w =
    match m s with Ok (a, s') => alone (f a) s' w | Err e => (Err e, s, w) end.
Proof.
  rewrite alone_bind, alone_call. unfold transaction. by destruct (m s) as [[a s']|e].
Qed.
Lemma alone_catch {A} (h : exn → Flow A) (m : Flow A) s w :
  alone (catch h m) s w =
    let '(r, s', w') := alone m s w in
    match r with Ok a => (Ok a, s', w') | Err e => alone (h e) s' w' end.
Proof.
  revert s w. induction m as [[a|e]|X m k IH|q k IH]; intros s w; [done|done| |].
  - unfold alone. simpl. destruct (transaction m s) as [r s']. rewrite !alone_from. apply IH.
  - unfold alone. simpl. destruct (answer q w) as [r w']. rewrite !alone_from. apply IH.
Qed.
End alone.

(** ** Many at once

    A pool of running flows over one store.  A step is one step of one of them, a
    commit of someone else that keeps [rely], a flow that starts, or one that dies
    without a word.  The questions that were asked are logged with their answers. *)
Section pools.
Context {A : Type} (rely : S → S → Prop) (starts : Flow A → Prop).

Record Pool := { store : S; running : list (Flow A); log : list (Q * R) }.

Inductive pool_step (p : Pool) : Pool → Prop :=
| pool_transact i X m k r s :
    running p !! i = Some (Transact X m k) → transaction m (store p) = (r, s) →
    pool_step p {| store := s; running := <[i := k r]> (running p); log := log p |}
| pool_ask i q k r :
    running p !! i = Some (Ask q k) →
    pool_step p {| store := store p; running := <[i := k r]> (running p);
                   log := log p ++ [(q, r)] |}
| pool_other s :
    rely (store p) s → pool_step p {| store := s; running := running p; log := log p |}
| pool_start f :
    starts f →
    pool_step p {| store := store p; running := running p ++ [f]; log := log p |}
| pool_crash i :
    pool_step p {| store := store p; running := delete i (running p); log := log p |}.

(** A schedule that is carried out: which flow goes on, and with which answer. *)
Inductive action := GoOn (i : nat) (r : R) | Start (f : Flow A).
Definition act (p : Pool) (a : action) : option Pool :=
  match a with
  | GoOn i a =>
      match running p !! i with
      | Some (Transact X m k) =>
          let '(r, s) := transaction m (store p) in
          Some {| store := s; running := <[i := k r]> (running p); log := log p |}
      | Some (Ask q k) =>
          Some {| store := store p; running := <[i := k a]> (running p);
                  log := log p ++ [(q, a)] |}
      | _ => None
      end
  | Start f => Some {| store := store p; running := running p ++ [f]; log := log p |}
  end.
Fixpoint act_all (p : Pool) (l : list action) : option Pool :=
  match l with
  | [] => Some p
  | a :: l => p' ← act p a; act_all p' l
  end.

Lemma act_all_steps p l p' :
  Forall (λ a, match a with Start f => starts f | _ => True end) l →
  act_all p l = Some p' → rtc pool_step p p'.
Proof.
  intros Hf. revert p. induction Hf as [|a l Ha _ IH]; simpl; intros p H.
  { injection H as ->. reflexivity. }
  destruct (act p a) as [q|] eqn:E; [|done]. simpl in H. eapply rtc_l; [|by apply IH].
  destruct a as [i r|f]; simpl in E; [|injection E as <-; by apply pool_start].
  destruct (running p !! i) as [[r'|X m k|q' k]|] eqn:Hi; [done| | |done].
  - destruct (transaction m (store p)) as [o s] eqn:Et. injection E as <-.
    by eapply pool_transact.
  - injection E as <-. by eapply pool_ask.
Qed.
End pools.
(** ** What every transaction of a flow keeps *)

(** Every transaction of the flow that commits keeps [K]. *)
Fixpoint keeping (K : S → S → Prop) {A} (f : Flow A) : Prop :=
  match f with
  | Return _ => True
  | Transact X m k => (∀ s a s', m s = Ok (a, s') → K s s') ∧ ∀ r, keeping K (k r)
  | Ask q k => ∀ a, keeping K (k a)
  end.

Section keeping.
Context (K : S → S → Prop) `{!PreOrder K}.

Lemma keeping_call {A} (m : Tx S A) :
  (∀ s a s', m s = Ok (a, s') → K s s') → keeping K (call m).
Proof. done. Qed.
Lemma keeping_bind {A B} (m : Flow A) (f : A → Flow B) :
  keeping K m → (∀ a, keeping K (f a)) → keeping K (m ≫= f).
Proof.
  intros Hm Hf. induction m as [r|X x k IH|q k IH]; simpl in *.
  - destruct r; [apply Hf|done].
  - destruct Hm as [Hx Hk]. split; [done|]. intros r. by apply IH.
  - intros a. by apply IH.
Qed.
Lemma keeping_catch {A} (m : Flow A) h :
  keeping K m → (∀ e, keeping K (h e)) → keeping K (catch h m).
Proof.
  intros Hm Hh. induction m as [r|X x k IH|q k IH]; simpl in *.
  - destruct r; [done|apply Hh].
  - destruct Hm as [Hx Hk]. split; [done|]. intros r. by apply IH.
  - intros a. by apply IH.
Qed.
Lemma transaction_keeps {A} (m : Tx S A) s r s' :
  (∀ s a s', m s = Ok (a, s') → K s s') → transaction m s = (r, s') → K s s'.
Proof.
  intros Hm E. unfold transaction in E.
  destruct (m s) as [[a s1]|e] eqn:Em; injection E as _ <-; [by eapply Hm|reflexivity].
Qed.
Lemma exec_keeps {W} (env : nat → S → S) (answer : Q → W → R * W) {A} n (f : Flow A) s w r s' w' :
  (∀ n s, K s (env n s)) → keeping K f →
  exec env answer n f s w = (r, s', w') → K s s'.
Proof.
  intros He. revert n s w. induction f as [o|X m k IH|q k IH]; simpl; intros n s w Hf E.
  - injection E as _ <- _. reflexivity.
  - destruct Hf as [Hm Hk]. destruct (transaction m (env n s)) as [o s1] eqn:Et.
    etrans; [apply He|]. etrans; [by eapply transaction_keeps|]. by eapply IH.
  - destruct (answer q w) as [o w1]. by eapply IH.
Qed.

Lemma keeping_mono (K' : S → S → Prop) {A} (f : Flow A) :
  (∀ s s', K s s' → K' s s') → keeping K f → keeping K' f.
Proof.
  intros HK. induction f as [r|X m k IH|q k IH]; simpl; [done| |intros Hf a; by apply IH].
  intros [Hm Hk]. split; [intros s a s' E; by eapply HK, Hm|intros r; by apply IH].
Qed.

(** A pool of flows that keep it, among others that keep it. *)
Lemma pool_keeps {A} (rely : S → S → Prop) (starts : Flow A → Prop) (p p' : Pool (A := A)) :
  (∀ s s', rely s s' → K s s') → (∀ f, starts f → keeping K f) →
  Forall (keeping K) (running p) → rtc (pool_step rely starts) p p' → K (store p) (store p').
Proof.
  intros Hrely Hstarts Hp Hs. induction Hs as [p|p q p' Hstep _ IH]; [reflexivity|].
  assert (K (store p) (store q) ∧ Forall (keeping K) (running q)) as [HK Hq].
  { destruct Hstep as [i X m k r s Hi Ht|i q k r Hi|s Hr|f Hf|i]; simpl.
    - pose proof (Forall_lookup_1 _ _ _ _ Hp Hi) as [Hm Hk]. split.
      + by eapply transaction_keeps.
      + by apply Forall_insert.
    - split; [reflexivity|]. apply Forall_insert; [done|].
      by apply (Forall_lookup_1 _ _ _ _ Hp Hi).
    - auto.
    - split; [reflexivity|]. apply Forall_app. auto using Forall_cons, Forall_nil.
    - split; [reflexivity|]. by apply Forall_delete. }
  etrans; [done|by apply IH].
Qed.
End keeping.

(** ** An invariant that what was read depends on

    Each transaction of the flow, run where [I] holds, leaves [I], and so does what the
    flow does with the outcome. *)
Fixpoint safe (I : S → Prop) {A} (f : Flow A) : Prop :=
  match f with
  | Return _ => True
  | Transact X m k => ∀ s r s', I s → transaction m s = (r, s') → I s' ∧ safe I (k r)
  | Ask q k => ∀ a, safe I (k a)
  end.

Section safe.
Context (I : S → Prop).

Lemma safe_call_bind {A B} (m : Tx S A) (f : A → Flow B) :
  (∀ s a s', I s → m s = Ok (a, s') → I s' ∧ safe I (f a)) → safe I (call m ≫= f).
Proof.
  intros H s r s' Hs E. unfold transaction in E.
  destruct (m s) as [[a d]|e] eqn:Em; injection E as <- <-; [by eapply H|done].
Qed.
Lemma safe_call {A} (m : Tx S A) : (∀ s a s', I s → m s = Ok (a, s') → I s') → safe I (call m).
Proof.
  intros H s r s' Hs E. split; [|done]. unfold transaction in E.
  destruct (m s) as [[a d]|e] eqn:Em; injection E as _ <-; [by eapply H|done].
Qed.
Lemma safe_bind {A B} (m : Flow A) (f : A → Flow B) :
  safe I m → (∀ a, safe I (f a)) → safe I (m ≫= f).
Proof.
  intros Hm Hf. induction m as [r|X x k IH|q k IH]; simpl in *.
  - destruct r; [apply Hf|done].
  - intros s r s' Hs E. destruct (Hm s r s' Hs E) as [H1 H2]. split; [done|by apply IH].
  - intros a. by apply IH.
Qed.

(** A pool of such flows, among others that keep the invariant. *)
Lemma pool_safe {A} (rely : S → S → Prop) (starts : Flow A → Prop) (p p' : Pool (A := A)) :
  (∀ s s', rely s s' → I s → I s') → (∀ f, starts f → safe I f) →
  I (store p) → Forall (safe I) (running p) → rtc (pool_step rely starts) p p' → I (store p').
Proof.
  intros Hrely Hstarts Hp Hr Hs.
  induction Hs as [p|p q p' Hstep _ IH]; [done|].
  assert (I (store q) ∧ Forall (safe I) (running q)) as [Hq Hrq]; [|by apply IH].
  destruct Hstep as [i X m k r s Hi Ht|i q k r Hi|s Hrl|f Hf|i]; simpl.
  - pose proof (Forall_lookup_1 _ _ _ _ Hr Hi) as Hm. destruct (Hm _ _ _ Hp Ht) as [H1 H2].
    split; [done|]. by apply Forall_insert.
  - split; [done|]. apply Forall_insert; [done|]. by apply (Forall_lookup_1 _ _ _ _ Hr Hi).
  - eauto.
  - split; [done|]. apply Forall_app. auto using Forall_cons, Forall_nil.
  - split; [done|]. by apply Forall_delete.
Qed.
End safe.
End flows.
Arguments Return {S Q R A} r.
Arguments Transact {S Q R A} X m k.
Arguments Ask {S Q R A} q k.
Arguments Flow S Q R A : clear implicits.
Arguments Pool S Q R A : clear implicits.
Arguments action S Q R A : clear implicits.
