(* ===== verification/JsNumber.v ===== *)
(** JavaScript numbers.

    A [number] is an IEEE 754 binary64 value.  A finite one is an integer
    number of units of 2^-1074 (the least subnormal), so that comparison and
    [Math.min] are those of [Z], and an arithmetic operation is the exact
    operation followed by one rounding to 53 significant bits (to nearest, ties
    to even).  The two zeros are identified: the modelled code never divides by
    a zero of known sign and never tells them apart. *)

From stdpp Require Import base numbers.
From Stdlib Require Import ZArith Lia.
From S2P Require Import Prelude.
Local Open Scope Z_scope.

Inductive number :=
| Fin (units : Z)
| PosInf
| NegInf
| NaN.

#[export] Instance number_eq_dec : EqDecision number.
Proof. solve_decision. Defined.

(** The number 1, in units. *)
Definition one_units : Z := 2 ^ 1074.

(** [n / d] (with [d > 0]) rounded to an integer of at most 53 significant
    bits, to nearest, ties to even. *)
Definition round_ratio (n d : Z) : Z :=
  let a := Z.abs n in
  let k := Z.max 0 (Z.log2 (a / d) - 52) in
  let p := d * 2 ^ k in
  let m := a / p in
  let r := a - m * p in
  let m' := if p <? 2 * r then m + 1
            else if (2 * r =? p) && Z.odd m then m + 1 else m in
  Z.sgn n * (m' * 2 ^ k).

(** Finite values stop below 2^1024. *)
Definition of_units (z : Z) : number :=
  if 2 ^ 2098 <=? z then PosInf else if z <=? - 2 ^ 2098 then NegInf else Fin z.

(** The double nearest to the rational [n / d]; decimal literals of the source
    are written this way. *)
Definition of_ratio (n d : Z) : number := of_units (round_ratio (n * one_units) d).
Definition of_Z (n : Z) : number := of_ratio n 1.

Definition add (x y : number) : number :=
  match x, y with
  | Fin a, Fin b => of_units (round_ratio (a + b) 1)
  | NaN, _ | _, NaN => NaN
  | PosInf, NegInf | NegInf, PosInf => NaN
  | PosInf, _ | _, PosInf => PosInf
  | NegInf, _ | _, NegInf => NegInf
  end.
Definition neg (x : number) : number :=
  match x with Fin a => Fin (- a) | PosInf => NegInf | NegInf => PosInf | NaN => NaN end.
Definition sub (x y : number) : number := add x (neg y).

Definition sgn (x : number) : Z :=
  match x with Fin a => Z.sgn a | PosInf => 1 | NegInf => -1 | NaN => 0 end.
Definition of_sign (s : Z) : number :=
  if 0 <? s then PosInf else if s <? 0 then NegInf else NaN.
Definition mul (x y : number) : number :=
  match x, y with
  | Fin a, Fin b => of_units (round_ratio (a * b) one_units)
  | NaN, _ | _, NaN => NaN
  | _, _ => of_sign (sgn x * sgn y)
  end.

(** Comparisons are false on NaN. *)
Definition ltb (x y : number) : bool :=
  match x, y with
  | Fin a, Fin b => a <? b
  | NaN, _ | _, NaN => false
  | NegInf, NegInf | PosInf, PosInf => false
  | NegInf, _ | _, PosInf => true
  | _, _ => false
  end.
Definition eqb (x y : number) : bool :=
  match x, y with
  | Fin a, Fin b => a =? b
  | PosInf, PosInf | NegInf, NegInf => true
  | _, _ => false
  end.
Definition leb (x y : number) : bool := ltb x y || eqb x y.
Definition gtb (x y : number) : bool := ltb y x.
Definition geb (x y : number) : bool := leb y x.

Definition isFinite (x : number) : bool := match x with Fin _ => true | _ => false end.
Definition isInteger (x : number) : bool :=
  match x with Fin a => a mod one_units =? 0 | _ => false end.
Definition min (x y : number) : number :=
  match x, y with NaN, _ | _, NaN => NaN | _, _ => if ltb y x then y else x end.
Definition max (x y : number) : number :=
  match x, y with NaN, _ | _, NaN => NaN | _, _ => if ltb x y then y else x end.
Definition abs (x : number) : number := if ltb x (Fin 0) then neg x else x.

(** [Number.isSafeInteger], [Math.ceil], and the integer a number truncates to. *)
Definition isSafeInteger (x : number) : bool :=
  isInteger x && leb (abs x) (of_Z (2 ^ 53 - 1)).
Definition ceil (x : number) : number :=
  match x with Fin a => of_units (- (- a / one_units) * one_units) | _ => x end.
Definition to_Z (x : number) : Z :=
  match x with Fin a => a ÷ one_units | _ => 0 end.

Declare Scope js_scope.
Delimit Scope js_scope with js.
Notation "x + y" := (add x y) : js_scope.
Notation "x - y" := (sub x y) : js_scope.
Notation "x * y" := (mul x y) : js_scope.
Notation "x <? y" := (ltb x y) : js_scope.
Notation "x <=? y" := (leb x y) : js_scope.
Notation "x >? y" := (gtb x y) (at level 70, no associativity) : js_scope.
Notation "x >=? y" := (geb x y) (at level 70, no associativity) : js_scope.
Notation "x =? y" := (eqb x y) : js_scope.
Notation "# n" := (of_Z n) (at level 1, format "# n") : js_scope.

Example add_tenths : add (of_ratio 1 10) (of_ratio 2 10) ≠ of_ratio 3 10.
Proof. vm_compute. discriminate. Qed.
Example add_halves : add (of_ratio 1 2) (of_ratio 1 4) = of_ratio 3 4.
Proof. vm_compute. reflexivity. Qed.
Example max_safe : add (of_Z (2 ^ 53)) (of_Z 1) = of_Z (2 ^ 53).
Proof. vm_compute. reflexivity. Qed.

(** * Exactness

    A result with at most 53 significant bits is not rounded. *)

Lemma one_units_pos : 0 < one_units.
Proof. unfold one_units. apply Z.pow_pos_nonneg; lia. Qed.

Lemma round_ratio_exact_nonneg (m j d : Z) :
  0 <= m < 2 ^ 53 → 0 <= j → 0 < d → round_ratio (m * 2 ^ j * d) d = m * 2 ^ j.
Proof.
  intros Hm Hj Hd. unfold round_ratio.
  assert (H2 : 0 < 2 ^ j) by (apply Z.pow_pos_nonneg; lia).
  rewrite (Z.abs_eq (m * 2 ^ j * d)) by nia.
  rewrite Z.div_mul by lia.
  set (k := Z.max 0 (Z.log2 (m * 2 ^ j) - 52)).
  assert (Hk : 0 <= k <= j).
  { subst k. split; [lia|]. destruct (decide (m = 0)) as [->|Hm0].
    - rewrite Z.mul_0_l. change (Z.log2 0) with 0. lia.
    - rewrite Z.log2_mul_pow2 by lia.
      assert (Z.log2 m < 53) by (apply Z.log2_lt_pow2; lia). lia. }
  assert (Hp : 2 ^ j = 2 ^ (j - k) * 2 ^ k).
  { rewrite <- Z.pow_add_r by lia. f_equal. lia. }
  assert (H2k : 0 < 2 ^ k) by (apply Z.pow_pos_nonneg; lia).
  assert (Hq : m * 2 ^ j * d / (d * 2 ^ k) = m * 2 ^ (j - k)).
  { rewrite Hp. replace (m * (2 ^ (j - k) * 2 ^ k) * d)
      with (m * 2 ^ (j - k) * (d * 2 ^ k)) by ring. apply Z.div_mul. nia. }
  cbv zeta. rewrite Hq.
  replace (m * 2 ^ j * d - m * 2 ^ (j - k) * (d * 2 ^ k)) with 0 by (rewrite Hp; ring).
  assert (0 < d * 2 ^ k) by nia.
  destruct (Z.ltb_spec (d * 2 ^ k) (2 * 0)); [lia|].
  destruct (Z.eqb_spec (2 * 0) (d * 2 ^ k)); [lia|]. simpl.
  replace (m * 2 ^ (j - k) * 2 ^ k) with (m * 2 ^ j) by (rewrite Hp; ring).
  destruct (Z.sgn_spec (m * 2 ^ j * d)) as [[? ->]|[[Hz ->]|[? ->]]]; [lia| |nia].
  assert (m * 2 ^ j = 0) by nia. lia.
Qed.

Lemma round_ratio_opp (n d : Z) : round_ratio (- n) d = - round_ratio n d.
Proof.
  unfold round_ratio. rewrite Z.abs_opp, Z.sgn_opp.
  cbv zeta. apply Z.mul_opp_l.
Qed.

Lemma round_ratio_exact (m j d : Z) :
  Z.abs m <= 2 ^ 53 → 0 <= j → 0 < d → round_ratio (m * 2 ^ j * d) d = m * 2 ^ j.
Proof.
  assert (Hpos : ∀ m j, 0 <= m <= 2 ^ 53 → 0 <= j → 0 < d →
    round_ratio (m * 2 ^ j * d) d = m * 2 ^ j).
  { clear m j. intros m j Hm Hj Hd. destruct (decide (m = 2 ^ 53)) as [->|].
    - replace (2 ^ 53 * 2 ^ j) with (2 ^ 52 * 2 ^ (j + 1)).
      + apply round_ratio_exact_nonneg; lia.
      + rewrite Z.pow_add_r by lia. change (2 ^ 53) with (2 ^ 52 * 2 ^ 1). ring.
    - apply round_ratio_exact_nonneg; lia. }
  intros Hm Hj Hd. destruct (Z.le_gt_cases 0 m).
  - apply Hpos; lia.
  - replace (m * 2 ^ j * d) with (- (- m * 2 ^ j * d)) by ring.
    rewrite round_ratio_opp, Hpos by lia. ring.
Qed.

(** Integers up to 2^53 in absolute value are represented exactly, and the
    arithmetic on them is that of [Z]. *)
Definition max_exact : Z := 2 ^ 53.

Lemma of_units_small (n : Z) : Z.abs n <= max_exact → of_units (n * one_units) = Fin (n * one_units).
Proof.
  unfold max_exact, of_units. intros Hn.
  assert (Hb : 2 ^ 2098 = 2 ^ 1024 * one_units).
  { unfold one_units. rewrite <- Z.pow_add_r by lia. reflexivity. }
  assert (2 ^ 53 < 2 ^ 1024) by (apply Z.pow_lt_mono_r; lia).
  pose proof one_units_pos. rewrite Hb.
  destruct (Z.leb_spec (2 ^ 1024 * one_units) (n * one_units)); [nia|].
  destruct (Z.leb_spec (n * one_units) (- (2 ^ 1024 * one_units))); [nia|]. done.
Qed.

Lemma round_int (n d : Z) :
  Z.abs n <= max_exact → 0 < d → round_ratio (n * one_units * d) d = n * one_units.
Proof. intros. apply round_ratio_exact; [done|lia|done]. Qed.

Lemma of_Z_exact (n : Z) : Z.abs n <= max_exact → of_Z n = Fin (n * one_units).
Proof.
  intros Hn. unfold of_Z, of_ratio.
  pose proof (round_int n 1 Hn) as Hr. rewrite Z.mul_1_r in Hr.
  rewrite Hr by lia. by apply of_units_small.
Qed.

Lemma add_of_Z (a b : Z) :
  Z.abs a <= max_exact → Z.abs b <= max_exact → Z.abs (a + b) <= max_exact →
  add (of_Z a) (of_Z b) = of_Z (a + b).
Proof.
  intros Ha Hb Hab. rewrite !of_Z_exact by done. simpl.
  rewrite <- Z.mul_add_distr_r.
  pose proof (round_int (a + b) 1 Hab) as Hr. rewrite Z.mul_1_r in Hr.
  rewrite Hr by lia. by apply of_units_small.
Qed.

Lemma neg_of_Z (a : Z) : Z.abs a <= max_exact → neg (of_Z a) = of_Z (- a).
Proof. intros Ha. rewrite !of_Z_exact by lia. simpl. f_equal. ring. Qed.

Lemma sub_of_Z (a b : Z) :
  Z.abs a <= max_exact → Z.abs b <= max_exact → Z.abs (a - b) <= max_exact →
  sub (of_Z a) (of_Z b) = of_Z (a - b).
Proof. intros. unfold sub. rewrite neg_of_Z by done. apply add_of_Z; lia. Qed.

Lemma mul_of_Z (a b : Z) :
  Z.abs a <= max_exact → Z.abs b <= max_exact → Z.abs (a * b) <= max_exact →
  mul (of_Z a) (of_Z b) = of_Z (a * b).
Proof.
  intros Ha Hb Hab. rewrite !of_Z_exact by done. simpl.
  replace (a * one_units * (b * one_units)) with (a * b * one_units * one_units) by ring.
  rewrite round_int by (done || apply one_units_pos). by apply of_units_small.
Qed.

Lemma ltb_of_Z (a b : Z) :
  Z.abs a <= max_exact → Z.abs b <= max_exact → ltb (of_Z a) (of_Z b) = (a <? b).
Proof.
  intros Ha Hb. rewrite !of_Z_exact by done. simpl. pose proof one_units_pos.
  destruct (Z.ltb_spec a b), (Z.ltb_spec (a * one_units) (b * one_units)); nia.
Qed.
Lemma eqb_of_Z (a b : Z) :
  Z.abs a <= max_exact → Z.abs b <= max_exact → eqb (of_Z a) (of_Z b) = (a =? b).
Proof.
  intros Ha Hb. rewrite !of_Z_exact by done. simpl. pose proof one_units_pos.
  destruct (Z.eqb_spec a b), (Z.eqb_spec (a * one_units) (b * one_units)); nia.
Qed.
Lemma leb_of_Z (a b : Z) :
  Z.abs a <= max_exact → Z.abs b <= max_exact → leb (of_Z a) (of_Z b) = (a <=? b).
Proof.
  intros Ha Hb. unfold leb. rewrite ltb_of_Z, eqb_of_Z by done.
  destruct (Z.ltb_spec a b), (Z.eqb_spec a b), (Z.leb_spec a b); simpl; lia.
Qed.
Lemma min_of_Z (a b : Z) :
  Z.abs a <= max_exact → Z.abs b <= max_exact → min (of_Z a) (of_Z b) = of_Z (Z.min a b).
Proof.
  intros Ha Hb. transitivity (if ltb (of_Z b) (of_Z a) then of_Z b else of_Z a).
  - by rewrite !of_Z_exact by done.
  - rewrite ltb_of_Z by done. destruct (Z.ltb_spec b a); f_equal; lia.
Qed.
Lemma isInteger_of_Z (a : Z) : Z.abs a <= max_exact → isInteger (of_Z a) = true.
Proof.
  intros Ha. rewrite of_Z_exact by done. simpl. apply Z.eqb_eq.
  rewrite Z.mod_mul; [done|]. pose proof one_units_pos. lia.
Qed.
Lemma of_Z_inj (a b : Z) :
  Z.abs a <= max_exact → Z.abs b <= max_exact → of_Z a = of_Z b → a = b.
Proof. intros Ha Hb. rewrite !of_Z_exact by done. intros [= H]. pose proof one_units_pos. nia. Qed.

(** * Order *)

Lemma ltb_irrefl (x : number) : ltb x x = false.
Proof. destruct x; simpl; try done. apply Z.ltb_irrefl. Qed.
Lemma ltb_leb (x y : number) : ltb x y = true → leb x y = true.
Proof. unfold leb. by intros ->. Qed.
Lemma leb_refl (x : number) : x ≠ NaN → leb x x = true.
Proof. unfold leb. intros. destruct x; simpl; rewrite ?Z.ltb_irrefl, ?Z.eqb_refl; done. Qed.
Lemma leb_Fin (a b : Z) : leb (Fin a) (Fin b) = (a <=? b).
Proof.
  unfold leb. simpl. destruct (Z.ltb_spec a b), (Z.eqb_spec a b), (Z.leb_spec a b);
    simpl; lia.
Qed.
Lemma min_le_r (x y : number) : x ≠ NaN → y ≠ NaN → leb (min x y) y = true.
Proof.
  intros Hx Hy. destruct (ltb y x) eqn:E.
  - replace (min x y) with y by (destruct x, y; simpl in *; rewrite ?E; done). by apply leb_refl.
  - destruct x as [a| | |], y as [b| | |]; simpl in *; try done.
    rewrite E. rewrite leb_Fin. apply Z.leb_le. apply Z.ltb_ge in E. lia.
Qed.
Lemma ltb_gt_false (x y : number) : x ≠ NaN → y ≠ NaN → ltb x y = false → leb y x = true.
Proof.
  intros Hx Hy H. destruct x as [a| | |], y as [b| | |]; simpl in *; try done.
  rewrite leb_Fin. apply Z.leb_le. apply Z.ltb_ge in H. lia.
Qed.
Lemma gtb_leb_false (x y : number) : gtb x y = true → leb x y = false.
Proof.
  unfold gtb. destruct x as [a| | |], y as [b| | |]; simpl; try done.
  rewrite leb_Fin. intros H. apply Z.ltb_lt in H. apply Z.leb_gt. lia.
Qed.
Lemma leb_false_gtb (x y : number) : x ≠ NaN → y ≠ NaN → leb x y = false → gtb x y = true.
Proof.
  unfold gtb. destruct x as [a| | |], y as [b| | |]; try done.
  rewrite leb_Fin. intros _ _ H. apply Z.leb_gt in H. by apply Z.ltb_lt.
Qed.
Lemma isInteger_not_nan (x : number) : isInteger x = true → x ≠ NaN.
Proof. by intros ? ->. Qed.
Lemma of_Z_zero : of_Z 0 = Fin 0.
Proof. reflexivity. Qed.
Lemma of_Z_not_nan (n : Z) : of_Z n ≠ NaN.
Proof. unfold of_Z, of_ratio, of_units. by repeat case_match. Qed.

(** Rounding a positive exact result does not lose it. *)
Lemma round_ratio_pos (n : Z) : 0 < n → 0 < round_ratio n 1.
Proof.
  intros Hn. unfold round_ratio. rewrite Z.abs_eq, Z.div_1_r, Z.sgn_pos, !Z.mul_1_l by lia.
  set (k := Z.max 0 (Z.log2 n - 52)).
  assert (Hp : 0 < 2 ^ k) by (apply Z.pow_pos_nonneg; lia).
  assert (2 ^ k <= n).
  { pose proof (Z.log2_spec n Hn) as [Hlog _]. pose proof (Z.log2_nonneg n).
    etrans; [|exact Hlog]. apply Z.pow_le_mono_r; lia. }
  assert (1 <= n / 2 ^ k) by (apply Z.div_le_lower_bound; lia).
  cbv zeta. repeat case_match; nia.
Qed.

Lemma add_pos (x y : number) :
  isFinite x = true → ltb x (of_Z 0) = false → isFinite y = true → gtb y (of_Z 0) = true →
  gtb (add x y) (of_Z 0) = true.
Proof.
  rewrite of_Z_zero. unfold gtb. destruct x as [a| | |], y as [b| | |]; try done.
  cbn. intros _ Ha _ Hb. apply Z.ltb_ge in Ha. apply Z.ltb_lt in Hb.
  pose proof (round_ratio_pos (a + b) ltac:(lia)) as Hr. unfold of_units.
  destruct (Z.leb_spec (2 ^ 2098) (round_ratio (a + b) 1)); [done|].
  destruct (Z.leb_spec (round_ratio (a + b) 1) (- 2 ^ 2098)); [lia|]. by apply Z.ltb_lt.
Qed.

(** Sums of what is not at most zero. *)
Lemma add_not_leb (x y : number) :
  leb x (of_Z 0) = false ∨ x = of_Z 0 → leb y (of_Z 0) = false →
  leb (add x y) (of_Z 0) = false.
Proof.
  intros Hx Hy. destruct x as [a| | |], y as [b| | |]; rewrite ?of_Z_zero in *;
    try (destruct Hx; discriminate); try done.
  apply gtb_leb_false. rewrite <- of_Z_zero. apply add_pos; rewrite ?of_Z_zero; try done.
  - unfold ltb. apply Z.ltb_ge. destruct Hx as [Hx|[= ->]]; [|lia].
    rewrite leb_Fin in Hx. apply Z.leb_gt in Hx. lia.
  - unfold gtb, ltb. apply Z.ltb_lt. rewrite leb_Fin in Hy. by apply Z.leb_gt in Hy.
Qed.
Lemma sub_pos (x y : number) : isFinite y = true → ltb y x = true → gtb (sub x y) (of_Z 0) = true.
Proof.
  rewrite of_Z_zero. unfold gtb, sub. destruct x as [a| | |], y as [b| | |]; try done.
  cbn. intros _ Hb. apply Z.ltb_lt in Hb.
  pose proof (round_ratio_pos (a + - b) ltac:(lia)) as Hr. unfold of_units.
  destruct (Z.leb_spec (2 ^ 2098) (round_ratio (a + - b) 1)); [done|].
  destruct (Z.leb_spec (round_ratio (a + - b) 1) (- 2 ^ 2098)); [lia|]. by apply Z.ltb_lt.
Qed.
Lemma max_pos (x : number) : gtb x (of_Z 0) = true → max (of_Z 0) x = x.
Proof. rewrite of_Z_zero. unfold gtb. destruct x; simpl; try done. by intros ->. Qed.
Lemma leb_ltb_trans (x y z : number) : leb x y = true → ltb y z = true → ltb x z = true.
Proof.
  unfold leb. destruct x, y, z; simpl; try done.
  rewrite orb_true_iff, !Z.ltb_lt, Z.eqb_eq. lia.
Qed.
Lemma leb_finite (x y : number) :
  ltb x (of_Z 0) = false → x ≠ NaN → leb x y = true → isFinite y = true → isFinite x = true.
Proof. rewrite of_Z_zero. by destruct x, y. Qed.
Lemma gtb_not_nan (x y : number) : gtb x y = true → x ≠ NaN ∧ y ≠ NaN.
Proof. by destruct x, y. Qed.
Lemma gtb_false_leb (x y : number) : x ≠ NaN → y ≠ NaN → gtb x y = false → leb x y = true.
Proof. unfold gtb. intros. by apply ltb_gt_false. Qed.
Lemma gtb_zero_nonneg (x : number) : gtb x (of_Z 0) = true → ltb x (of_Z 0) = false.
Proof.
  rewrite of_Z_zero. unfold gtb. destruct x as [a| | |]; try done.
  unfold ltb. intros H. apply Z.ltb_lt in H. apply Z.ltb_ge. lia.
Qed.
Lemma isFinite_not_nan (x : number) : isFinite x = true → x ≠ NaN.
Proof. by intros ? ->. Qed.
Lemma add_finite_not_nan (x y : number) :
  isFinite x = true → isFinite y = true → add x y ≠ NaN.
Proof.
  destruct x as [a| | |], y as [b| | |]; try done. intros _ _. unfold add, of_units.
  generalize (round_ratio (a + b) 1). intros z. repeat case_match; done.
Qed.
(** The smaller of a non-negative number and a finite one is finite and
    non-negative. *)
Lemma min_bounds (x y : number) :
  gtb x (of_Z 0) = true → isFinite y = true → ltb y (of_Z 0) = false →
  isFinite (min x y) = true ∧ ltb (min x y) (of_Z 0) = false.
Proof.
  rewrite of_Z_zero. unfold gtb. destruct y as [b| | |]; try done.
  destruct x as [a| | |]; try done; intros Hx _ Hy.
  - unfold min, ltb in *. destruct (b <? a); [done|].
    apply Z.ltb_lt in Hx. split; [done|]. apply Z.ltb_ge. lia.
Qed.
Lemma leb_nonneg (x y : number) :
  ltb x (of_Z 0) = false → isFinite x = true → leb x y = true → ltb y (of_Z 0) = false.
Proof.
  rewrite of_Z_zero. destruct x as [a| | |]; try done.
  destruct y as [b| | |]; try done; intros Hx _ Hle.
  rewrite leb_Fin in Hle. unfold ltb in *. apply Z.ltb_ge in Hx. apply Z.leb_le in Hle.
  apply Z.ltb_ge. lia.
Qed.
Lemma at_least_pos (x y : number) :
  isFinite x = true → ltb x y = false → gtb y (of_Z 0) = true → gtb x (of_Z 0) = true.
Proof.
  rewrite of_Z_zero. unfold gtb. destruct x as [a| | |]; try done.
  destruct y as [b| | |]; try done. intros _ Hx Hy. unfold ltb in *.
  apply Z.ltb_ge in Hx. apply Z.ltb_lt in Hy. apply Z.ltb_lt. lia.
Qed.
(** Taking away no more than there is leaves no negative number. *)
Lemma sub_nonneg (x y : number) : leb y x = true → ltb (sub x y) (of_Z 0) = false.
Proof.
  rewrite of_Z_zero. destruct y as [b| | |], x as [a| | |]; try done.
  rewrite leb_Fin. unfold sub, add, neg, ltb. intros H%Z.leb_le.
  assert (0 <= round_ratio (a + - b) 1).
  { destruct (decide (a = b)) as [->|].
    - rewrite Z.add_opp_diag_r. done.
    - pose proof (round_ratio_pos (a + - b)). lia. }
  unfold of_units. destruct (_ <=? _); [done|].
  destruct (Z.leb_spec (round_ratio (a + - b) 1) (- 2 ^ 2098)); [lia|]. by apply Z.ltb_ge.
Qed.
Lemma isInteger_finite (x : number) : isInteger x = true → isFinite x = true.
Proof. by destruct x. Qed.

#[global] Arguments of_Z : simpl never.
#[global] Arguments of_ratio : simpl never.
#[global] Arguments round_ratio : simpl never.
#[global] Arguments add : simpl never.
#[global] Arguments sub : simpl never.
#[global] Arguments mul : simpl never.
#[global] Arguments ltb : simpl never.
#[global] Arguments leb : simpl never.
#[global] Arguments gtb : simpl never.
#[global] Arguments geb : simpl never.
#[global] Arguments eqb : simpl never.
#[global] Arguments min : simpl never.
#[global] Arguments max : simpl never.
#[global] Arguments isInteger : simpl never.
