(* ===== verification/JsString.v ===== *)
(** JavaScript strings.

    A string is a list of code units; the development keeps to code units below
    256 (Latin-1), one [ascii] each.  [trim] removes the JavaScript white space
    and line terminators of that range: TAB, LF, VT, FF, CR, SPACE and NBSP. *)

From stdpp Require Import base list strings pretty.
From Stdlib Require Import ZArith Ascii String.
From S2P Require Import Prelude.

Definition is_space (c : ascii) : bool :=
  let n := nat_of_ascii c in
  (9 <=? n) && (n <=? 13) || (n =? 32) || (n =? 160).

Fixpoint trimStart (s : string) : string :=
  match s with
  | EmptyString => EmptyString
  | String c s' => if is_space c then trimStart s' else s
  end.
Fixpoint trimEnd (s : string) : string :=
  match s with
  | EmptyString => EmptyString
  | String c s' =>
      match trimEnd s' with
      | EmptyString => if is_space c then EmptyString else String c EmptyString
      | t => String c t
      end
  end.
Definition trim (s : string) : string := trimEnd (trimStart s).

(** [!s]: the empty string is falsy. *)
Definition is_empty (s : string) : bool :=
  match s with EmptyString => true | _ => false end.
(** [!s.trim()]. *)
Definition blank (s : string) : bool := is_empty (trim s).
(** A nullable string in a condition: [null] and the empty string are falsy. *)
Definition truthy (s : option string) : bool :=
  match s with Some s => negb (is_empty s) | None => false end.

Definition startsWith (s p : string) : bool := String.prefix p s.
Fixpoint includes (s p : string) : bool :=
  String.prefix p s ||
  match s with EmptyString => false | String _ s' => includes s' p end.
Fixpoint slice (n : nat) (s : string) : string :=
  match n, s with
  | 0, _ => s
  | _, EmptyString => EmptyString
  | S n, String _ s' => slice n s'
  end.

(** [s.padStart(width, '0')]. *)
Definition padStart (width : nat) (s : string) : string :=
  (fold_right (λ _ t, String.append "0" t) s (seq 0 (width - String.length s)))%string.

(** [s.toUpperCase()], where a code unit whose upper case is beyond Latin-1 (the micro
    sign and y with diaeresis) is left as it is. *)
Definition upper (c : ascii) : string :=
  let n := nat_of_ascii c in
  if n =? 223 then "SS"%string
  else if ((97 <=? n) && (n <=? 122)) || ((224 <=? n) && (n <=? 254) && negb (n =? 247))
  then String (ascii_of_nat (n - 32)) EmptyString
  else String c EmptyString.
Fixpoint toUpperCase (s : string) : string :=
  match s with
  | EmptyString => EmptyString
  | String c s' => String.append (upper c) (toUpperCase s')
  end.

(** ** Dates as text

    [toISOString] of a time in milliseconds since the epoch. *)
Section dates.
Local Open Scope Z_scope.

(** The civil date of a day number. *)
Definition civil_date (day : Z) : Z * Z * Z :=
  let z := day + 719468 in
  let era := z / 146097 in
  let doe := z mod 146097 in
  let yoe := (doe - doe / 1460 + doe / 36524 - doe / 146096) / 365 in
  let doy := doe - (365 * yoe + yoe / 4 - yoe / 100) in
  let mp := (5 * doy + 2) / 153 in
  let m := if mp <? 10 then mp + 3 else mp - 9 in
  ((if m <=? 2 then yoe + era * 400 + 1 else yoe + era * 400), m,
   doy - (153 * mp + 2) / 5 + 1).
Definition digits (width : nat) (n : Z) : string := padStart width (pretty n).
(** Years before 0 and after 9999 have a sign and six digits. *)
Definition year_text (y : Z) : string :=
  if (0 <=? y) && (y <=? 9999) then digits 4 y
  else if y <? 0 then String.append "-" (digits 6 (- y)) else String.append "+" (digits 6 y).
Definition toISOString (t : Z) : string :=
  let '(y, m, d) := civil_date (t / 86400000) in
  let ms := t mod 86400000 in
  (year_text y ++ "-" ++ digits 2 m ++ "-" ++ digits 2 d ++ "T" ++
   digits 2 (ms / 3600000) ++ ":" ++ digits 2 (ms / 60000 mod 60) ++ ":" ++
   digits 2 (ms / 1000 mod 60) ++ "." ++ digits 3 (ms mod 1000) ++ "Z")%string.
End dates.

Example epoch_text : toISOString 0 = "1970-01-01T00:00:00.000Z"%string.
Proof. reflexivity. Qed.
Example leap_text : toISOString 1709251199999 = "2024-02-29T23:59:59.999Z"%string.
Proof. reflexivity. Qed.
Example early_text : toISOString (-62198755200000) = "-000001-01-01T00:00:00.000Z"%string.
Proof. reflexivity. Qed.
Example upper_text : toUpperCase "business" = "BUSINESS"%string.
Proof. reflexivity. Qed.

Example trim_ex : trim "  a b "%string = "a b"%string.
Proof. reflexivity. Qed.

(** * Lemmas *)

Lemma trimEnd_cons (c : ascii) (s : string) :
  trimEnd (String c s) =
    match trimEnd s with
    | EmptyString => if is_space c then EmptyString else String c EmptyString
    | t => String c t
    end.
Proof. done. Qed.

Lemma trimEnd_idem (s : string) : trimEnd (trimEnd s) = trimEnd s.
Proof.
  induction s as [|c s IH]; [done|]. rewrite trimEnd_cons.
  destruct (trimEnd s) as [|d t].
  - destruct (is_space c) eqn:Hc; [done|]. rewrite trimEnd_cons. simpl. by rewrite Hc.
  - by rewrite trimEnd_cons, IH.
Qed.

Lemma trimStart_trimEnd (s : string) :
  trimStart s = s → trimStart (trimEnd s) = trimEnd s.
Proof.
  destruct s as [|c s]; simpl; [done|].
  destruct (is_space c) eqn:Hc.
  - intros H. exfalso. assert (Hl : ∀ s, String.length (trimStart s) ≤ String.length s).
    { clear. induction s as [|c s IH]; simpl; [lia|]. destruct (is_space c); simpl; lia. }
    specialize (Hl s). rewrite H in Hl. simpl in Hl. lia.
  - intros _. destruct (trimEnd s); simpl; by rewrite Hc.
Qed.

Lemma trimStart_idem (s : string) : trimStart (trimStart s) = trimStart s.
Proof.
  induction s as [|c s IH]; simpl; [done|].
  destruct (is_space c) eqn:Hc; [done|]. simpl. by rewrite Hc.
Qed.

Lemma trim_idem (s : string) : trim (trim s) = trim s.
Proof.
  unfold trim. rewrite (trimStart_trimEnd (trimStart s)) by apply trimStart_idem.
  apply trimEnd_idem.
Qed.

Lemma blank_trim (s : string) : blank (trim s) = blank s.
Proof. unfold blank. by rewrite trim_idem. Qed.

Lemma is_empty_spec (s : string) : is_empty s = true ↔ s = EmptyString.
Proof. destruct s; simpl; naive_solver. Qed.
