(* ===== verification/DomainEvents.v ===== *)
(** The domain events (core/events/domain-events.ts): one inductive type per
    section of the file, the union [DomainEvent], the wire names and the tenant
    each payload carries.  An optional payload field is an [option], an optional
    nullable one an [opt]; [occurredAt], which no aggregate sets, is added by
    the code that writes an event to the outbox. *)

From stdpp Require Import base strings list.
From S2P Require Import Prelude JsNumber.

(** * Payloads *)

Inductive OrderEvent :=
| OrderCreatedEvent (orderId tenantId : string) (outletId : opt string)
| SalesOrderCreatedEvent (orderId tenantId : string) (outletId : opt string)
| OrderReservedEvent (orderId tenantId : string)
| OrderPaymentSuccessEvent (orderId tenantId paymentId : string) (isFullyPaid : option bool)
| SalesOrderPaidEvent (orderId tenantId paymentId : string)
| OrderPaymentFailedEvent (orderId tenantId : string) (paymentId reason : option string)
| SalesOrderCancelledEvent (orderId tenantId : string) (reason : option string)
| OrderFulfillmentStartedEvent (orderId tenantId : string)
| SalesOrderCompletedEvent (orderId tenantId : string)
| SalesOrderRefundedEvent (orderId tenantId : string) (reason : option string)
| SalesOrderCompletedV2Event (orderId tenantId : string)
| SalesOrderConfirmedEvent (orderId tenantId : string).

Inductive UserEvent :=
| UserLoginEvent (userId tenantId : string) (outletId : opt string)
| UserLogoutEvent (userId tenantId : string) (outletId : opt string).

Inductive ProductEvent :=
| ProductCreatedEvent (productId tenantId : string) (outletId : opt string)
| ProductUpdatedEvent (productId tenantId : string) (outletId : opt string)
| ProductDeletedEvent (productId tenantId : string) (outletId : opt string).

Inductive PurchaseOrderEvent :=
| PurchaseOrderCreatedEvent (purchaseOrderId tenantId : string) (outletId : opt string)
| PurchaseOrderPendingApprovalEvent (purchaseOrderId tenantId : string) (outletId : opt string)
| PurchaseOrderApprovedEvent (purchaseOrderId tenantId : string) (outletId : opt string)
| PurchaseOrderRejectedEvent (purchaseOrderId tenantId : string) (outletId : opt string) (reason : option string)
| PurchaseOrderSentEvent (purchaseOrderId tenantId : string) (outletId : opt string)
| PurchaseOrderPartiallyReceivedEvent (purchaseOrderId tenantId : string) (outletId : opt string)
| PurchaseOrderReceivedEvent (purchaseOrderId tenantId : string) (outletId : opt string)
| PurchaseOrderCompletedEvent (purchaseOrderId tenantId : string) (outletId : opt string)
| PurchaseOrderCancelledEvent (purchaseOrderId tenantId : string) (outletId : opt string) (reason : option string).

Record WarehouseTransferEventPayload := {
  we_transferId : string;
  we_tenantId : string;
  we_receiptId : option string;
}.

Inductive InventoryEvent :=
| StockAdjustedEvent (inventoryItemId tenantId : string) (outletId : opt string)
| WarehouseTransferCreatedEvent (payload : WarehouseTransferEventPayload)
| WarehouseTransferShippedEvent (payload : WarehouseTransferEventPayload)
| WarehouseTransferPartiallyReceivedEvent (payload : WarehouseTransferEventPayload)
| WarehouseTransferReceivedEvent (payload : WarehouseTransferEventPayload)
| WarehouseTransferCancelledEvent (payload : WarehouseTransferEventPayload).

Inductive KitchenEvent :=
| KitchenCookingStartedEvent (ticketId salesOrderId tenantId : string) (outletId : opt string)
| KitchenReadyEvent (ticketId salesOrderId tenantId : string) (outletId : opt string)
| KitchenServedEvent (ticketId salesOrderId tenantId : string) (outletId : opt string)
| KitchenCancelledEvent (ticketId salesOrderId tenantId : string) (outletId : opt string) (reason : option string)
| KitchenRecalledEvent (ticketId salesOrderId tenantId : string) (outletId : opt string) (reason : option string).

Inductive FeatureFlagEvent :=
| FeatureFlagCreatedEvent (featureFlagId key tenantId : string) (enabled : bool)
| FeatureFlagEnabledEvent (featureFlagId key tenantId : string)
| FeatureFlagDisabledEvent (featureFlagId key tenantId : string)
| FeatureFlagUpdatedEvent (featureFlagId key tenantId : string) (changes : list string)
| FeatureFlagArchivedEvent (featureFlagId key tenantId : string)
| FeatureFlagRestoredEvent (featureFlagId key tenantId : string)
| FeatureFlagOverrideChangedEvent (featureFlagId key tenantId : string) (outletId : opt string).

Inductive BusinessEvent :=
| BusinessCreatedEvent (tenantId businessId name businessType : string)
| BusinessUpdatedEvent (tenantId businessId : string) (changes : list string)
| BusinessActivatedEvent (tenantId businessId : string)
| BusinessSuspendedEvent (tenantId businessId : string) (reason : option string)
| BusinessArchivedEvent (tenantId businessId : string)
| BusinessRestoredEvent (tenantId businessId : string)
| BusinessTypeChangedEvent (tenantId businessId oldBusinessType newBusinessType : string).

Inductive SuperAdminEvent :=
| SuperAdminTenantActivatedEvent (tenantId targetTenantId actionedByPlatformIdentityId : string)
| SuperAdminTenantSuspendedEvent (tenantId targetTenantId actionedByPlatformIdentityId : string) (reason : option string)
| SuperAdminTenantDeactivatedEvent (tenantId targetTenantId actionedByPlatformIdentityId : string) (reason : option string)
| SuperAdminTenantRestoredEvent (tenantId targetTenantId actionedByPlatformIdentityId : string)
| SuperAdminPlanChangeScheduledEvent (tenantId targetTenantId oldPlanId newPlanId actionedByPlatformIdentityId : string)
| SuperAdminSubscriptionChangedEvent (tenantId targetTenantId subscriptionId actionedByPlatformIdentityId : string) (reason : option string).

Inductive SubscriptionEvent :=
| SubscriptionCreatedEvent (subscriptionId tenantId planType : string)
| SubscriptionActivatedEvent (subscriptionId tenantId planType : string)
| SubscriptionRenewedEvent (subscriptionId tenantId planType billingPeriodStart billingPeriodEnd : string)
| SubscriptionCancelledEvent (subscriptionId tenantId : string) (reason : option string)
| SubscriptionExpiredEvent (subscriptionId tenantId : string)
| SubscriptionPlanChangedEvent (subscriptionId tenantId oldPlanType newPlanType : string)
| SubscriptionPlanChangeScheduledEvent (subscriptionId tenantId currentPlanId : string) (previousPendingPlanId pendingPlanId : option string) (effectiveAt : string)
| SubscriptionSuspendedEvent (subscriptionId tenantId : string) (reason : option string)
| SubscriptionPastDueEvent (subscriptionId tenantId : string) (dueAmountCents : number).

Inductive BillingEvent :=
| PaymentRequiredEvent (subscriptionId tenantId : string) (amountCents : number) (billingPeriod : string)
| InvoiceCreatedEvent (invoiceId invoiceNumber tenantId : string) (subscriptionId : option string) (amountCents : number) (currency : string)
| InvoicePaidEvent (invoiceId invoiceNumber tenantId : string) (subscriptionId : option string) (amountCents : number)
| InvoiceFailedEvent (invoiceId invoiceNumber tenantId : string) (subscriptionId reason : option string)
| InvoiceCancelledEvent (invoiceId invoiceNumber tenantId : string).

Inductive DomainEvent :=
| EvOrder (e : OrderEvent)
| EvUser (e : UserEvent)
| EvProduct (e : ProductEvent)
| EvPurchaseOrder (e : PurchaseOrderEvent)
| EvInventory (e : InventoryEvent)
| EvKitchen (e : KitchenEvent)
| EvFeatureFlag (e : FeatureFlagEvent)
| EvBusiness (e : BusinessEvent)
| EvSuperAdmin (e : SuperAdminEvent)
| EvSubscription (e : SubscriptionEvent)
| EvBilling (e : BillingEvent).

#[export] Instance WarehouseTransferEventPayload_eq_dec : EqDecision WarehouseTransferEventPayload.
Proof. solve_decision. Defined.
#[export] Instance OrderEvent_eq_dec : EqDecision OrderEvent.
Proof. solve_decision. Defined.
#[export] Instance UserEvent_eq_dec : EqDecision UserEvent.
Proof. solve_decision. Defined.
#[export] Instance ProductEvent_eq_dec : EqDecision ProductEvent.
Proof. solve_decision. Defined.
#[export] Instance PurchaseOrderEvent_eq_dec : EqDecision PurchaseOrderEvent.
Proof. solve_decision. Defined.
#[export] Instance InventoryEvent_eq_dec : EqDecision InventoryEvent.
Proof. solve_decision. Defined.
#[export] Instance KitchenEvent_eq_dec : EqDecision KitchenEvent.
Proof. solve_decision. Defined.
#[export] Instance FeatureFlagEvent_eq_dec : EqDecision FeatureFlagEvent.
Proof. solve_decision. Defined.
#[export] Instance BusinessEvent_eq_dec : EqDecision BusinessEvent.
Proof. solve_decision. Defined.
#[export] Instance SuperAdminEvent_eq_dec : EqDecision SuperAdminEvent.
Proof. solve_decision. Defined.
#[export] Instance SubscriptionEvent_eq_dec : EqDecision SubscriptionEvent.
Proof. solve_decision. Defined.
#[export] Instance BillingEvent_eq_dec : EqDecision BillingEvent.
Proof. solve_decision. Defined.
#[export] Instance DomainEvent_eq_dec : EqDecision DomainEvent.
Proof. solve_decision. Defined.

(** * Wire names *)

(** [Object.values(DOMAIN_EVENTS)]. *)
Definition DOMAIN_EVENTS : list string :=
  ["user.login"; "user.logout"; "product.created"; "product.updated";
   "product.deleted"; "order.created"; "order.reserved";
   "order.reservation.expired"; "order.payment.success";
   "order.payment.failed"; "order.fulfillment.started";
   "sales-order.completed"; "sales-order.created"; "sales-order.confirmed";
   "sales-order.paid"; "sales-order.cancelled"; "sales-order.refunded";
   "sales-order.completed.v2"; "purchase-order.created";
   "purchase-order.pending-approval"; "purchase-order.approved";
   "purchase-order.rejected"; "purchase-order.sent";
   "purchase-order.partially-received"; "purchase-order.received";
   "purchase-order.completed"; "purchase-order.cancelled"; "stock.adjusted";
   "warehouse-transfer.created"; "warehouse-transfer.shipped";
   "warehouse-transfer.partially-received"; "warehouse-transfer.received";
   "warehouse-transfer.cancelled"; "kitchen.cooking.started"; "kitchen.ready";
   "kitchen.served"; "kitchen.cancelled"; "kitchen.recalled";
   "feature-flag.created"; "feature-flag.enabled"; "feature-flag.disabled";
   "feature-flag.updated"; "feature-flag.archived"; "feature-flag.restored";
   "feature-flag.override.changed"; "business.created"; "business.updated";
   "business.activated"; "business.suspended"; "business.archived";
   "business.restored"; "business.type.changed";
   "super-admin.tenant.activated"; "super-admin.tenant.suspended";
   "super-admin.tenant.deactivated"; "super-admin.tenant.restored";
   "super-admin.plan-change.scheduled"; "super-admin.subscription.changed";
   "subscription.created"; "subscription.activated"; "subscription.renewed";
   "subscription.cancelled"; "subscription.expired";
   "subscription.plan.changed"; "subscription.plan-change.scheduled";
   "subscription.suspended"; "subscription.past-due";
   "billing.payment.required"; "invoice.created"; "invoice.paid";
   "invoice.failed"; "invoice.cancelled"].

Definition OrderEvent_type (e : OrderEvent) : string :=
  match e with
  | OrderCreatedEvent _ _ _ => "order.created"
  | SalesOrderCreatedEvent _ _ _ => "sales-order.created"
  | OrderReservedEvent _ _ => "order.reserved"
  | OrderPaymentSuccessEvent _ _ _ _ => "order.payment.success"
  | SalesOrderPaidEvent _ _ _ => "sales-order.paid"
  | OrderPaymentFailedEvent _ _ _ _ => "order.payment.failed"
  | SalesOrderCancelledEvent _ _ _ => "sales-order.cancelled"
  | OrderFulfillmentStartedEvent _ _ => "order.fulfillment.started"
  | SalesOrderCompletedEvent _ _ => "sales-order.completed"
  | SalesOrderRefundedEvent _ _ _ => "sales-order.refunded"
  | SalesOrderCompletedV2Event _ _ => "sales-order.completed.v2"
  | SalesOrderConfirmedEvent _ _ => "sales-order.confirmed"
  end.

Definition UserEvent_type (e : UserEvent) : string :=
  match e with
  | UserLoginEvent _ _ _ => "user.login"
  | UserLogoutEvent _ _ _ => "user.logout"
  end.

Definition ProductEvent_type (e : ProductEvent) : string :=
  match e with
  | ProductCreatedEvent _ _ _ => "product.created"
  | ProductUpdatedEvent _ _ _ => "product.updated"
  | ProductDeletedEvent _ _ _ => "product.deleted"
  end.

Definition PurchaseOrderEvent_type (e : PurchaseOrderEvent) : string :=
  match e with
  | PurchaseOrderCreatedEvent _ _ _ => "purchase-order.created"
  | PurchaseOrderPendingApprovalEvent _ _ _ => "purchase-order.pending-approval"
  | PurchaseOrderApprovedEvent _ _ _ => "purchase-order.approved"
  | PurchaseOrderRejectedEvent _ _ _ _ => "purchase-order.rejected"
  | PurchaseOrderSentEvent _ _ _ => "purchase-order.sent"
  | PurchaseOrderPartiallyReceivedEvent _ _ _ => "purchase-order.partially-received"
  | PurchaseOrderReceivedEvent _ _ _ => "purchase-order.received"
  | PurchaseOrderCompletedEvent _ _ _ => "purchase-order.completed"
  | PurchaseOrderCancelledEvent _ _ _ _ => "purchase-order.cancelled"
  end.

Definition InventoryEvent_type (e : InventoryEvent) : string :=
  match e with
  | StockAdjustedEvent _ _ _ => "stock.adjusted"
  | WarehouseTransferCreatedEvent _ => "warehouse-transfer.created"
  | WarehouseTransferShippedEvent _ => "warehouse-transfer.shipped"
  | WarehouseTransferPartiallyReceivedEvent _ => "warehouse-transfer.partially-received"
  | WarehouseTransferReceivedEvent _ => "warehouse-transfer.received"
  | WarehouseTransferCancelledEvent _ => "warehouse-transfer.cancelled"
  end.

Definition KitchenEvent_type (e : KitchenEvent) : string :=
  match e with
  | KitchenCookingStartedEvent _ _ _ _ => "kitchen.cooking.started"
  | KitchenReadyEvent _ _ _ _ => "kitchen.ready"
  | KitchenServedEvent _ _ _ _ => "kitchen.served"
  | KitchenCancelledEvent _ _ _ _ _ => "kitchen.cancelled"
  | KitchenRecalledEvent _ _ _ _ _ => "kitchen.recalled"
  end.

Definition FeatureFlagEvent_type (e : FeatureFlagEvent) : string :=
  match e with
  | FeatureFlagCreatedEvent _ _ _ _ => "feature-flag.created"
  | FeatureFlagEnabledEvent _ _ _ => "feature-flag.enabled"
  | FeatureFlagDisabledEvent _ _ _ => "feature-flag.disabled"
  | FeatureFlagUpdatedEvent _ _ _ _ => "feature-flag.updated"
  | FeatureFlagArchivedEvent _ _ _ => "feature-flag.archived"
  | FeatureFlagRestoredEvent _ _ _ => "feature-flag.restored"
  | FeatureFlagOverrideChangedEvent _ _ _ _ => "feature-flag.override.changed"
  end.

Definition BusinessEvent_type (e : BusinessEvent) : string :=
  match e with
  | BusinessCreatedEvent _ _ _ _ => "business.created"
  | BusinessUpdatedEvent _ _ _ => "business.updated"
  | BusinessActivatedEvent _ _ => "business.activated"
  | BusinessSuspendedEvent _ _ _ => "business.suspended"
  | BusinessArchivedEvent _ _ => "business.archived"
  | BusinessRestoredEvent _ _ => "business.restored"
  | BusinessTypeChangedEvent _ _ _ _ => "business.type.changed"
  end.

Definition SuperAdminEvent_type (e : SuperAdminEvent) : string :=
  match e with
  | SuperAdminTenantActivatedEvent _ _ _ => "super-admin.tenant.activated"
  | SuperAdminTenantSuspendedEvent _ _ _ _ => "super-admin.tenant.suspended"
  | SuperAdminTenantDeactivatedEvent _ _ _ _ => "super-admin.tenant.deactivated"
  | SuperAdminTenantRestoredEvent _ _ _ => "super-admin.tenant.restored"
  | SuperAdminPlanChangeScheduledEvent _ _ _ _ _ => "super-admin.plan-change.scheduled"
  | SuperAdminSubscriptionChangedEvent _ _ _ _ _ => "super-admin.subscription.changed"
  end.

Definition SubscriptionEvent_type (e : SubscriptionEvent) : string :=
  match e with
  | SubscriptionCreatedEvent _ _ _ => "subscription.created"
  | SubscriptionActivatedEvent _ _ _ => "subscription.activated"
  | SubscriptionRenewedEvent _ _ _ _ _ => "subscription.renewed"
  | SubscriptionCancelledEvent _ _ _ => "subscription.cancelled"
  | SubscriptionExpiredEvent _ _ => "subscription.expired"
  | SubscriptionPlanChangedEvent _ _ _ _ => "subscription.plan.changed"
  | SubscriptionPlanChangeScheduledEvent _ _ _ _ _ _ => "subscription.plan-change.scheduled"
  | SubscriptionSuspendedEvent _ _ _ => "subscription.suspended"
  | SubscriptionPastDueEvent _ _ _ => "subscription.past-due"
  end.

Definition BillingEvent_type (e : BillingEvent) : string :=
  match e with
  | PaymentRequiredEvent _ _ _ _ => "billing.payment.required"
  | InvoiceCreatedEvent _ _ _ _ _ _ => "invoice.created"
  | InvoicePaidEvent _ _ _ _ _ => "invoice.paid"
  | InvoiceFailedEvent _ _ _ _ _ => "invoice.failed"
  | InvoiceCancelledEvent _ _ _ => "invoice.cancelled"
  end.


Definition event_type (e : DomainEvent) : string :=
  match e with
  | EvOrder e => OrderEvent_type e
  | EvUser e => UserEvent_type e
  | EvProduct e => ProductEvent_type e
  | EvPurchaseOrder e => PurchaseOrderEvent_type e
  | EvInventory e => InventoryEvent_type e
  | EvKitchen e => KitchenEvent_type e
  | EvFeatureFlag e => FeatureFlagEvent_type e
  | EvBusiness e => BusinessEvent_type e
  | EvSuperAdmin e => SuperAdminEvent_type e
  | EvSubscription e => SubscriptionEvent_type e
  | EvBilling e => BillingEvent_type e
  end.

(** * The tenant of a payload *)

Definition OrderEvent_tenantId (e : OrderEvent) : string :=
  match e with
  | OrderCreatedEvent _ tenantId _ => tenantId
  | SalesOrderCreatedEvent _ tenantId _ => tenantId
  | OrderReservedEvent _ tenantId => tenantId
  | OrderPaymentSuccessEvent _ tenantId _ _ => tenantId
  | SalesOrderPaidEvent _ tenantId _ => tenantId
  | OrderPaymentFailedEvent _ tenantId _ _ => tenantId
  | SalesOrderCancelledEvent _ tenantId _ => tenantId
  | OrderFulfillmentStartedEvent _ tenantId => tenantId
  | SalesOrderCompletedEvent _ tenantId => tenantId
  | SalesOrderRefundedEvent _ tenantId _ => tenantId
  | SalesOrderCompletedV2Event _ tenantId => tenantId
  | SalesOrderConfirmedEvent _ tenantId => tenantId
  end.

Definition UserEvent_tenantId (e : UserEvent) : string :=
  match e with
  | UserLoginEvent _ tenantId _ => tenantId
  | UserLogoutEvent _ tenantId _ => tenantId
  end.

Definition ProductEvent_tenantId (e : ProductEvent) : string :=
  match e with
  | ProductCreatedEvent _ tenantId _ => tenantId
  | ProductUpdatedEvent _ tenantId _ => tenantId
  | ProductDeletedEvent _ tenantId _ => tenantId
  end.

Definition PurchaseOrderEvent_tenantId (e : PurchaseOrderEvent) : string :=
  match e with
  | PurchaseOrderCreatedEvent _ tenantId _ => tenantId
  | PurchaseOrderPendingApprovalEvent _ tenantId _ => tenantId
  | PurchaseOrderApprovedEvent _ tenantId _ => tenantId
  | PurchaseOrderRejectedEvent _ tenantId _ _ => tenantId
  | PurchaseOrderSentEvent _ tenantId _ => tenantId
  | PurchaseOrderPartiallyReceivedEvent _ tenantId _ => tenantId
  | PurchaseOrderReceivedEvent _ tenantId _ => tenantId
  | PurchaseOrderCompletedEvent _ tenantId _ => tenantId
  | PurchaseOrderCancelledEvent _ tenantId _ _ => tenantId
  end.

Definition InventoryEvent_tenantId (e : InventoryEvent) : string :=
  match e with
  | StockAdjustedEvent _ tenantId _ => tenantId
  | WarehouseTransferCreatedEvent p => we_tenantId p
  | WarehouseTransferShippedEvent p => we_tenantId p
  | WarehouseTransferPartiallyReceivedEvent p => we_tenantId p
  | WarehouseTransferReceivedEvent p => we_tenantId p
  | WarehouseTransferCancelledEvent p => we_tenantId p
  end.

Definition KitchenEvent_tenantId (e : KitchenEvent) : string :=
  match e with
  | KitchenCookingStartedEvent _ _ tenantId _ => tenantId
  | KitchenReadyEvent _ _ tenantId _ => tenantId
  | KitchenServedEvent _ _ tenantId _ => tenantId
  | KitchenCancelledEvent _ _ tenantId _ _ => tenantId
  | KitchenRecalledEvent _ _ tenantId _ _ => tenantId
  end.

Definition FeatureFlagEvent_tenantId (e : FeatureFlagEvent) : string :=
  match e with
  | FeatureFlagCreatedEvent _ _ tenantId _ => tenantId
  | FeatureFlagEnabledEvent _ _ tenantId => tenantId
  | FeatureFlagDisabledEvent _ _ tenantId => tenantId
  | FeatureFlagUpdatedEvent _ _ tenantId _ => tenantId
  | FeatureFlagArchivedEvent _ _ tenantId => tenantId
  | FeatureFlagRestoredEvent _ _ tenantId => tenantId
  | FeatureFlagOverrideChangedEvent _ _ tenantId _ => tenantId
  end.

Definition BusinessEvent_tenantId (e : BusinessEvent) : string :=
  match e with
  | BusinessCreatedEvent tenantId _ _ _ => tenantId
  | BusinessUpdatedEvent tenantId _ _ => tenantId
  | BusinessActivatedEvent tenantId _ => tenantId
  | BusinessSuspendedEvent tenantId _ _ => tenantId
  | BusinessArchivedEvent tenantId _ => tenantId
  | BusinessRestoredEvent tenantId _ => tenantId
  | BusinessTypeChangedEvent tenantId _ _ _ => tenantId
  end.

Definition SuperAdminEvent_tenantId (e : SuperAdminEvent) : string :=
  match e with
  | SuperAdminTenantActivatedEvent tenantId _ _ => tenantId
  | SuperAdminTenantSuspendedEvent tenantId _ _ _ => tenantId
  | SuperAdminTenantDeactivatedEvent tenantId _ _ _ => tenantId
  | SuperAdminTenantRestoredEvent tenantId _ _ => tenantId
  | SuperAdminPlanChangeScheduledEvent tenantId _ _ _ _ => tenantId
  | SuperAdminSubscriptionChangedEvent tenantId _ _ _ _ => tenantId
  end.

Definition SubscriptionEvent_tenantId (e : SubscriptionEvent) : string :=
  match e with
  | SubscriptionCreatedEvent _ tenantId _ => tenantId
  | SubscriptionActivatedEvent _ tenantId _ => tenantId
  | SubscriptionRenewedEvent _ tenantId _ _ _ => tenantId
  | SubscriptionCancelledEvent _ tenantId _ => tenantId
  | SubscriptionExpiredEvent _ tenantId => tenantId
  | SubscriptionPlanChangedEvent _ tenantId _ _ => tenantId
  | SubscriptionPlanChangeScheduledEvent _ tenantId _ _ _ _ => tenantId
  | SubscriptionSuspendedEvent _ tenantId _ => tenantId
  | SubscriptionPastDueEvent _ tenantId _ => tenantId
  end.

Definition BillingEvent_tenantId (e : BillingEvent) : string :=
  match e with
  | PaymentRequiredEvent _ tenantId _ _ => tenantId
  | InvoiceCreatedEvent _ _ tenantId _ _ _ => tenantId
  | InvoicePaidEvent _ _ tenantId _ _ => tenantId
  | InvoiceFailedEvent _ _ tenantId _ _ => tenantId
  | InvoiceCancelledEvent _ _ tenantId => tenantId
  end.


Definition payload_tenantId (e : DomainEvent) : string :=
  match e with
  | EvOrder e => OrderEvent_tenantId e
  | EvUser e => UserEvent_tenantId e
  | EvProduct e => ProductEvent_tenantId e
  | EvPurchaseOrder e => PurchaseOrderEvent_tenantId e
  | EvInventory e => InventoryEvent_tenantId e
  | EvKitchen e => KitchenEvent_tenantId e
  | EvFeatureFlag e => FeatureFlagEvent_tenantId e
  | EvBusiness e => BusinessEvent_tenantId e
  | EvSuperAdmin e => SuperAdminEvent_tenantId e
  | EvSubscription e => SubscriptionEvent_tenantId e
  | EvBilling e => BillingEvent_tenantId e
  end.

(** * Lemmas *)

Lemma DOMAIN_EVENTS_NoDup : NoDup DOMAIN_EVENTS.
Proof. apply (bool_decide_unpack _). vm_compute. exact I. Qed.

Lemma event_type_registered (e : DomainEvent) : event_type e ∈ DOMAIN_EVENTS.
Proof.
  apply (bool_decide_unpack _).
  destruct e as [[]|[]|[]|[]|[]|[]|[]|[]|[]|[]|[]]; vm_compute; exact I.
Qed.
