(* ===== verification/CoreDomain.v ===== *)
(** The shared domain kernel (core/domain): the aggregate root with its queue
    of domain events, and the value objects [Money], [Quantity], [SKU],
    [OrderNumber] and [UUID].  A constructor that throws is a function to
    [result]; a value object is its validated content. *)

From stdpp Require Import base list strings gmap.
From Stdlib Require Import ZArith.
From S2P Require Import Prelude JsNumber JsString DomainEvents.

(** * Aggregate root *)

(** An aggregate: its private [props] and the events it has recorded. *)
Record aggregate (P : Type) := Aggregate {
  props : P;
  domainEvents : list DomainEvent;
}.
Arguments Aggregate {P} props domainEvents.
Arguments props {P} a.
Arguments domainEvents {P} a.

Section aggregate_root.
Context {P : Type}.

(** [new A(props)]: no event recorded yet. *)
Definition newAggregate (p : P) : aggregate P := Aggregate p [].
Definition addDomainEvent (e : DomainEvent) (a : aggregate P) : aggregate P :=
  Aggregate (props a) (domainEvents a ++ [e]).
Definition peekDomainEvents (a : aggregate P) : list DomainEvent := domainEvents a.
Definition pullDomainEvents (a : aggregate P) : list DomainEvent * aggregate P :=
  (domainEvents a, Aggregate (props a) []).
(** [this.props = p]. *)
Definition setProps (p : P) (a : aggregate P) : aggregate P :=
  Aggregate p (domainEvents a).

(** Calls that record events, with a pull after each one: what the callers of
    an aggregate see. *)
Definition emits (es : list DomainEvent) (a b : aggregate P) : Prop :=
  domainEvents b = domainEvents a ++ es.

Lemma emits_nil a p : emits [] a (setProps p a).
Proof. unfold emits. simpl. by rewrite app_nil_r. Qed.
Lemma emits_refl a : emits [] a a.
Proof. unfold emits. by rewrite app_nil_r. Qed.
Lemma emits_add e a b es : emits es a b → emits (es ++ [e]) a (addDomainEvent e b).
Proof. unfold emits. simpl. intros ->. by rewrite app_assoc. Qed.
Lemma emits_trans es1 es2 a b c : emits es1 a b → emits es2 b c → emits (es1 ++ es2) a c.
Proof. unfold emits. intros H1 ->. by rewrite H1, app_assoc. Qed.

(** An event recorded after a pull is the only one of the next pull. *)
Lemma pull_add e a :
  pullDomainEvents (addDomainEvent e (snd (pullDomainEvents a))) =
    ([e], Aggregate (props a) []).
Proof. done. Qed.
End aggregate_root.

(** * Money *)

Module Money.
Definition mk (amount : number) : result number :=
  if negb (isInteger amount) || ltb amount (of_Z 0)
  then Err (JsError "Money amount must be a non-negative integer")
  else Ok amount.
Definition fromInteger (amount : number) : result number := mk amount.
Definition plus (a other : number) : result number := mk (add a other).
Definition multiply (a factor : number) : result number :=
  if negb (isInteger factor) || ltb factor (of_Z 0)
  then Err (JsError "Money can only be multiplied by a non-negative integer")
  else mk (mul a factor).

(** The class invariant. *)
Definition valid (a : number) : bool := isInteger a && negb (ltb a (of_Z 0)).

Lemma mk_ok a b : mk a = Ok b ↔ a = b ∧ valid a = true.
Proof.
  unfold mk, valid. destruct (isInteger a), (ltb a (of_Z 0)); simpl; naive_solver.
Qed.

(** The non-negative integers up to 2^53 are exactly the amounts a [Money]
    of that size holds. *)
Lemma valid_of_Z (n : Z) : (Z.abs n <= max_exact)%Z → valid (of_Z n) = (0 <=? n)%Z.
Proof.
  intros Hn. unfold valid. rewrite isInteger_of_Z by done.
  rewrite ltb_of_Z by (done || unfold max_exact; lia). simpl.
  destruct (Z.ltb_spec n 0), (Z.leb_spec 0 n); simpl; lia.
Qed.
End Money.

(** * Quantity, SKU, OrderNumber, UUID *)

Module Quantity.
Definition create (amount : number) : result number :=
  if negb (isInteger amount) || leb amount (of_Z 0)
  then Err (JsError "Quantity must be a positive integer")
  else Ok amount.
End Quantity.

(** The three string value objects share their shape: the factory trims, the
    constructor rejects an empty or blank string. *)
Section string_values.
Variable message : string.
Definition new_string_value (value : string) : result string :=
  if is_empty value || blank value then Err (JsError message) else Ok value.
Definition create_string_value (value : string) : result string :=
  new_string_value (trim value).

Lemma create_string_value_ok v w :
  create_string_value v = Ok w ↔ w = trim v ∧ blank v = false.
Proof.
  unfold create_string_value, new_string_value. rewrite blank_trim.
  replace (is_empty (trim v)) with (blank v) by done.
  destruct (blank v); simpl; naive_solver.
Qed.
End string_values.

Module SKU.
Definition create : string → result string :=
  create_string_value "SKU must be a non-empty string".
End SKU.
Module OrderNumber.
Definition create : string → result string :=
  create_string_value "Order number must be a non-empty string".
End OrderNumber.
Module UUID.
Definition create : string → result string :=
  create_string_value "UUID must be a non-empty string".
End UUID.

(** * Properties *)

(** The constructor of [Money] is the only way to make one, so every amount a
    run produces is a non-negative integer; sums and products that leave the
    exact range or overflow are still integers or are rejected, and within 2^53
    they are the exact sum and product. *)
Theorem money_closed :
  (∀ a b r : number,
     Money.plus a b = Ok r ∨ Money.multiply a b = Ok r → Money.valid r = true) ∧
  ∀ a b : Z,
    (0 <= a → 0 <= b → a + b <= max_exact → a * b <= max_exact →
     a <= max_exact → b <= max_exact →
     Money.plus (of_Z a) (of_Z b) = Ok (of_Z (a + b)) ∧
     Money.multiply (of_Z a) (of_Z b) = Ok (of_Z (a * b)))%Z.
Proof.
  split.
  - intros a b r [H|H]; unfold Money.plus, Money.multiply in H.
    + by apply Money.mk_ok in H as [<- H].
    + destruct (_ || _) in H; [done|]. by apply Money.mk_ok in H as [<- H].
  - intros a b Ha Hb Hs Hm Ha' Hb'. unfold Money.plus, Money.multiply.
    assert (H0 : (Z.abs 0 <= max_exact)%Z) by (unfold max_exact; lia).
    rewrite add_of_Z, mul_of_Z by nia.
    rewrite isInteger_of_Z, ltb_of_Z by lia.
    destruct (Z.ltb_spec b 0); [lia|]. simpl.
    split; apply Money.mk_ok; (split; [done|]);
      rewrite Money.valid_of_Z by nia; apply Z.leb_le; nia.
Qed.

Lemma money_closed_witness :
  Money.multiply (of_Z 1500) (of_Z 3) = Ok (of_Z 4500) ∧ Money.valid (of_Z 4500) = true.
Proof.
  assert (H : Money.multiply (of_Z 1500) (of_Z 3) = Ok (of_Z 4500))
    by (apply (proj2 money_closed); unfold max_exact; lia).
  split; [exact H|]. apply (proj1 money_closed (of_Z 1500) (of_Z 3)). right. exact H.
Defined.
