(* ===== verification/MasterData.v ===== *)
(** The master-data aggregates: inventory items, warehouses, suppliers,
    products, recipes, payments and users.  Each [props] type is a record with
    the source's fields (its getters are the projections); each method maps the
    aggregate to a new one or throws.  A method that throws has assigned
    nothing, so the aggregate of the caller is unchanged. *)

From stdpp Require Import base list strings gmap.
From Stdlib Require Import ZArith.
From S2P Require Import Prelude JsNumber JsString DomainEvents CoreDomain.

(** [Date] values are milliseconds since the epoch. *)
Definition Date := Z.

(** * Inventory items *)

Inductive InventoryItemType := PRODUCT | INGREDIENT | MATERIAL | ASSET | SUPPLY | SERVICE.

Module InventoryItem.
Record InventoryItemProps := {
  id : string;
  tenantId : string;
  code : string;
  name : string;
  description : opt string;
  unit : opt string;
  type : InventoryItemType;
  isActive : bool;
  createdAt : Date;
}.
Abbreviation t := (aggregate InventoryItemProps).

Definition create (p : InventoryItemProps) : result t :=
  if blank (code p) then Err (JsError "Inventory item code must not be empty")
  else if blank (name p) then Err (JsError "Inventory item name must not be empty")
  else Ok (newAggregate p).

Definition set_name (n : string) (p : InventoryItemProps) : InventoryItemProps :=
  {| id := id p; tenantId := tenantId p; code := code p; name := n;
     description := description p; unit := unit p; type := type p;
     isActive := isActive p; createdAt := createdAt p |}.
Definition set_isActive (b : bool) (p : InventoryItemProps) : InventoryItemProps :=
  {| id := id p; tenantId := tenantId p; code := code p; name := name p;
     description := description p; unit := unit p; type := type p;
     isActive := b; createdAt := createdAt p |}.

Definition rename (n : string) (a : t) : result t :=
  if blank n then Err (JsError "Inventory item name must not be empty")
  else Ok (setProps (set_name n (props a)) a).
Definition deactivate (a : t) : t :=
  if negb (isActive (props a)) then a else setProps (set_isActive false (props a)) a.
Definition toPersistence (a : t) : InventoryItemProps :=
  let p := props a in
  {| id := id p; tenantId := tenantId p; code := code p; name := name p;
     description := description p; unit := unit p; type := type p;
     isActive := isActive p; createdAt := createdAt p |}.

(** What [create] establishes. *)
Definition wf (a : t) : Prop :=
  blank (code (props a)) = false ∧ blank (name (props a)) = false.
End InventoryItem.

(** * Warehouses *)

Module Warehouse.
Record WarehouseProps := {
  id : string;
  tenantId : string;
  name : string;
  code : string;
  outletId : opt string;
  isActive : bool;
  createdAt : Date;
}.
Abbreviation t := (aggregate WarehouseProps).

Definition create (p : WarehouseProps) : result t :=
  if blank (name p) then Err (JsError "Warehouse name must not be empty")
  else if blank (code p) then Err (JsError "Warehouse code must not be empty")
  else Ok (newAggregate p).
Definition set_name_code (n c : string) (p : WarehouseProps) : WarehouseProps :=
  {| id := id p; tenantId := tenantId p; name := n; code := c; outletId := outletId p;
     isActive := isActive p; createdAt := createdAt p |}.
Definition rename (n : string) (a : t) : result t :=
  if blank n then Err (JsError "Warehouse name must not be empty")
  else Ok (setProps (set_name_code n (code (props a)) (props a)) a).
Definition changeCode (c : string) (a : t) : result t :=
  if blank c then Err (JsError "Warehouse code must not be empty")
  else Ok (setProps (set_name_code (name (props a)) c (props a)) a).
Definition toPersistence (a : t) : WarehouseProps :=
  let p := props a in
  {| id := id p; tenantId := tenantId p; name := name p; code := code p;
     outletId := outletId p; isActive := isActive p; createdAt := createdAt p |}.

Definition wf (a : t) : Prop :=
  blank (name (props a)) = false ∧ blank (code (props a)) = false.
End Warehouse.

(** * Suppliers *)

Module Supplier.
Record SupplierProps := {
  id : string;
  tenantId : string;
  name : string;
  phone : opt string;
  email : opt string;
  address : opt string;
  isActive : option bool;
  createdAt : Date;
}.
Abbreviation t := (aggregate SupplierProps).

(** The argument of [updateDetails]: an absent field is [Undefined] or
    [None]. *)
Record Details := {
  d_name : option string;
  d_phone : opt string;
  d_email : opt string;
  d_address : opt string;
  d_isActive : option bool;
}.

Definition create (p : SupplierProps) : result t :=
  if blank (name p) then Err (JsError "Supplier name must not be empty")
  else Ok (newAggregate p).

(** [x === null ? null : (x ?? old)]. *)
Definition patch {A} (x old : opt A) : opt A :=
  match x with Null => Null | _ => opt_coalesce x old end.

Definition updateDetails (d : Details) (a : t) : result t :=
  let p := props a in
  if match d_name d with Some n => blank n | None => false end
  then Err (JsError "Supplier name must not be empty")
  else Ok (setProps
    {| id := id p; tenantId := tenantId p;
       name := default (name p) (d_name d);
       phone := patch (d_phone d) (phone p);
       email := patch (d_email d) (email p);
       address := patch (d_address d) (address p);
       isActive := match d_isActive d with Some b => Some b | None => isActive p end;
       createdAt := createdAt p |} a).

Definition get_isActive (a : t) : bool := default true (isActive (props a)).
Definition toPersistence (a : t) : SupplierProps :=
  let p := props a in
  {| id := id p; tenantId := tenantId p; name := name p; phone := phone p;
     email := email p; address := address p; isActive := Some (get_isActive a);
     createdAt := createdAt p |}.

Definition wf (a : t) : Prop := blank (name (props a)) = false.
End Supplier.

(** * Products *)

Module Product.
Record ProductProps := {
  id : string;
  tenantId : string;
  name : string;
  description : opt string;
  sku : opt string;
  price : number;
  inventoryItemId : opt string;
  isActive : bool;
  outletId : opt string;
  createdAt : Date;
}.
Abbreviation t := (aggregate ProductProps).

Record Details := {
  d_name : option string;
  d_description : opt string;
  d_sku : opt string;
  d_price : option number;
}.

(** The price is a [Money], so it is revalidated; a falsy [sku] is dropped. *)
Definition create_sku (s : opt string) : result (opt string) :=
  match s with
  | Value s => if is_empty s then Ok Undefined else c ← SKU.create s; Ok (Value c)
  | _ => Ok Undefined
  end.
Definition with_price_sku (pr : number) (s : opt string) (p : ProductProps) : ProductProps :=
  {| id := id p; tenantId := tenantId p; name := name p; description := description p;
     sku := s; price := pr; inventoryItemId := inventoryItemId p;
     isActive := isActive p; outletId := outletId p; createdAt := createdAt p |}.
Definition create (p : ProductProps) : result t :=
  pr ← Money.fromInteger (price p);
  s ← create_sku (sku p);
  Ok (newAggregate (with_price_sku pr s p)).

Definition updateDetails (d : Details) (a : t) : result t :=
  let p := props a in
  if match d_name d with Some n => blank n | None => false end
  then Err (JsError "Product name must not be empty") else
  _ ← match d_sku d with Value s => c ← SKU.create s; Ok tt | _ => Ok tt end;
  if match d_price d with Some x => ltb x (of_Z 0) | None => false end
  then Err (JsError "Product price must be a non-negative integer") else
  Ok (addDomainEvent
    (EvProduct (ProductUpdatedEvent (id p) (tenantId p) (outletId p)))
    (setProps
      {| id := id p; tenantId := tenantId p; name := default (name p) (d_name d);
         description := match d_description d with Undefined => description p | x => x end;
         sku := match d_sku d with Null => Null | x => opt_coalesce x (sku p) end;
         price := default (price p) (d_price d);
         inventoryItemId := inventoryItemId p; isActive := isActive p;
         outletId := outletId p; createdAt := createdAt p |} a)).

Definition deactivate (a : t) : t :=
  let p := props a in
  if negb (isActive p) then a else
  addDomainEvent (EvProduct (ProductDeletedEvent (id p) (tenantId p) (outletId p)))
    (setProps
      {| id := id p; tenantId := tenantId p; name := name p; description := description p;
         sku := sku p; price := price p; inventoryItemId := inventoryItemId p;
         isActive := false; outletId := outletId p; createdAt := createdAt p |} a).

Definition toPersistence (a : t) : ProductProps :=
  let p := props a in
  {| id := id p; tenantId := tenantId p; name := name p; description := description p;
     sku := sku p; price := price p; inventoryItemId := inventoryItemId p;
     isActive := isActive p; outletId := outletId p; createdAt := createdAt p |}.

(** A price is a valid [Money] and a sku is never blank. *)
Definition wf (a : t) : Prop :=
  Money.valid (price (props a)) = true ∧
  match sku (props a) with Value s => blank s = false | _ => True end.
End Product.

(** * Recipes *)

Module Recipe.
Record RecipeItemProps := { inventoryItemId : string; quantity : number }.
Record RecipeProps := {
  id : string;
  tenantId : string;
  productId : string;
  items : list RecipeItemProps;
  createdAt : Date;
}.
Abbreviation t := (aggregate RecipeProps).

Definition check_item (i : RecipeItemProps) : result unit :=
  if blank (inventoryItemId i) then Err (JsError "Inventory item id must not be empty")
  else if negb (isInteger (quantity i)) || leb (quantity i) (of_Z 0)
  then Err (JsError "Inventory item quantity must be a positive integer")
  else Ok tt.

Definition create (p : RecipeProps) : result t :=
  if blank (productId p) then Err (JsError "Recipe product id must not be empty")
  else if length (items p) =? 0
  then Err (JsError "Recipe must contain at least one inventory item")
  else if has_duplicates (map inventoryItemId (items p))
  then Err (JsError "Duplicate inventory items detected")
  else _ ← check_all check_item (items p); Ok (newAggregate p).

Definition wf (p : RecipeProps) : Prop :=
  blank (productId p) = false ∧ items p ≠ [] ∧
  NoDup (map inventoryItemId (items p)) ∧
  Forall (λ i, blank (inventoryItemId i) = false ∧ isInteger (quantity i) = true ∧
               gtb (quantity i) (of_Z 0) = true) (items p).
End Recipe.

(** * Payments *)

Inductive PaymentStatus := PaymentPending | PaymentPaid | PaymentFailed | PaymentRefunded.
#[export] Instance PaymentStatus_eq_dec : EqDecision PaymentStatus.
Proof. solve_decision. Defined.

Module Payment.
Record PaymentProps := {
  id : string;
  tenantId : string;
  orderId : string;
  amount : number;
  method : string;
  status : PaymentStatus;
  paidAt : Date;
  createdAt : Date;
}.
Abbreviation t := (aggregate PaymentProps).

Definition create (p : PaymentProps) : result t :=
  if leb (amount p) (of_Z 0) then Err (JsError "Payment amount must be greater than zero")
  else if blank (orderId p) then Err (JsError "Payment must reference an order")
  else if blank (method p) then Err (JsError "Payment method must not be empty")
  else Ok (newAggregate p).
Definition toPersistence (a : t) : PaymentProps :=
  let p := props a in
  {| id := id p; tenantId := tenantId p; orderId := orderId p; amount := amount p;
     method := method p; status := status p; paidAt := paidAt p;
     createdAt := createdAt p |}.
End Payment.

(** * Users *)

Module User.
Record UserProps := {
  id : string;
  email : string;
  passwordHash : option string;
  tenantId : string;
  createdAt : Date;
  updatedAt : Date;
}.
(** The columns of the [User] row the aggregate reads. *)
Record UserRow := {
  row_id : string;
  row_email : string;
  row_password : option string;
  row_tenantId : string;
  row_createdAt : Date;
  row_updatedAt : Date;
}.
Definition create (p : UserProps) : result UserProps :=
  if is_empty (email p) || blank (email p) then Err (JsError "Email is required") else Ok p.
Definition fromPersistence (r : UserRow) : UserProps :=
  {| id := row_id r; email := row_email r; passwordHash := row_password r;
     tenantId := row_tenantId r; createdAt := row_createdAt r;
     updatedAt := row_updatedAt r |}.
End User.

(** * Lemmas *)

Lemma recipe_check_item_ok (i : Recipe.RecipeItemProps) :
  Recipe.check_item i = Ok tt ↔
    blank (Recipe.inventoryItemId i) = false ∧ isInteger (Recipe.quantity i) = true ∧
    gtb (Recipe.quantity i) (of_Z 0) = true.
Proof.
  unfold Recipe.check_item. destruct (blank _); simpl; [naive_solver|].
  destruct (isInteger (Recipe.quantity i)) eqn:Hi; simpl; [|naive_solver].
  destruct (leb (Recipe.quantity i) (of_Z 0)) eqn:Hl; split.
  - done.
  - intros (_ & _ & H). apply gtb_leb_false in H. congruence.
  - intros _. repeat split; try done. by apply leb_false_gtb; [apply isInteger_not_nan| |].
  - done.
Qed.

Lemma product_sku_step (s r : opt string) :
  Product.create_sku s = Ok r →
  match r with Value s => blank s = false ∧ trim s = s | _ => True end.
Proof.
  destruct s as [| |s]; simpl; try (intros [= <-]; done).
  destruct (is_empty s); [by intros [= <-]|]. intros H. inv_ok H. subst.
  apply create_string_value_ok in E as [-> Hb]. by rewrite blank_trim, trim_idem.
Qed.

Lemma product_create_ok (p : Product.ProductProps) (a : aggregate Product.ProductProps) :
  Product.create p = Ok a → ∃ pr s,
    Money.fromInteger (Product.price p) = Ok pr ∧ Product.create_sku (Product.sku p) = Ok s ∧
    a = newAggregate (Product.with_price_sku pr s p).
Proof. unfold Product.create. intros H. inv_ok H. subst. eauto. Qed.

(** * Properties *)

(** The string guards of the constructors and of [rename] and [changeCode] keep
    names and codes non-blank through every sequence of these calls. *)
Theorem master_data_wf :
  (∀ p a, InventoryItem.create p = Ok a → InventoryItem.wf a) ∧
  (∀ n a b, InventoryItem.wf a → InventoryItem.rename n a = Ok b → InventoryItem.wf b) ∧
  (∀ a, InventoryItem.wf a → InventoryItem.wf (InventoryItem.deactivate a)) ∧
  (∀ p a, Warehouse.create p = Ok a → Warehouse.wf a) ∧
  (∀ n a b, Warehouse.wf a → Warehouse.rename n a = Ok b → Warehouse.wf b) ∧
  (∀ c a b, Warehouse.wf a → Warehouse.changeCode c a = Ok b → Warehouse.wf b) ∧
  (∀ p a, Supplier.create p = Ok a → Supplier.wf a) ∧
  (∀ d a b, Supplier.wf a → Supplier.updateDetails d a = Ok b → Supplier.wf b).
Proof.
  split_and!;
    unfold InventoryItem.create, InventoryItem.rename, InventoryItem.deactivate,
      Warehouse.create, Warehouse.rename, Warehouse.changeCode, Supplier.create,
      Supplier.updateDetails, InventoryItem.wf, Warehouse.wf, Supplier.wf.
  all: try (intros ?????; match goal with H : _ = Ok _ |- _ => inv_ok H end; subst;
            simpl in *; tauto).
  all: try (intros ???; match goal with H : _ = Ok _ |- _ => inv_ok H end; subst;
            simpl in *; tauto).
  - intros a Ha. by destruct (InventoryItem.isActive (props a)).
  - intros d a b Ha H. inv_ok H. subst. simpl. by destruct (Supplier.d_name d).
Qed.

(** [Recipe.create] accepts exactly the well-formed recipes. *)
Theorem recipe_create_iff (p : Recipe.RecipeProps) (a : aggregate Recipe.RecipeProps) :
  Recipe.create p = Ok a ↔ Recipe.wf p ∧ a = newAggregate p.
Proof.
  unfold Recipe.create, Recipe.wf.
  destruct (blank (Recipe.productId p)); [naive_solver|].
  destruct (Recipe.items p) as [|i l] eqn:Hi; simpl length; cbv beta iota.
  { simpl. naive_solver. }
  rewrite <- Hi. simpl Nat.eqb. cbv iota.
  pose proof (has_duplicates_false (map Recipe.inventoryItemId (Recipe.items p))) as Hd.
  destruct (has_duplicates _); [naive_solver|].
  pose proof (check_all_ok Recipe.check_item (Recipe.items p)) as Hc.
  setoid_rewrite recipe_check_item_ok in Hc.
  destruct (check_all _ _) as [[]|e]; simpl; rewrite Hi in *; naive_solver.
Qed.

(** A product keeps a valid price and a non-blank sku: [create] establishes it
    and [updateDetails] and [deactivate] keep it. *)
Theorem product_wf :
  (∀ p a, Product.create p = Ok a → Product.wf a) ∧
  (∀ d a b, Product.wf a →
     (∀ x, Product.d_price d = Some x → Money.valid x = true) →
     Product.updateDetails d a = Ok b → Product.wf b) ∧
  (∀ a, Product.wf a → Product.wf (Product.deactivate a)).
Proof.
  split_and!.
  - intros p a H. apply product_create_ok in H as (pr & s & Hp & Hs & ->).
    split; simpl; [by apply Money.mk_ok in Hp as [<- ?]|].
    apply product_sku_step in Hs. destruct s; tauto.
  - intros d a b [Hp Hs] Hd H. unfold Product.updateDetails in H. inv_ok H. subst.
    split; simpl.
    + destruct (Product.d_price d); simpl; auto.
    + destruct (Product.d_sku d) as [| |s]; simpl; try done.
      destruct (SKU.create s) eqn:E'; [|done].
      apply create_string_value_ok in E' as [_ ?]. done.
  - intros a [Hp Hs]. unfold Product.deactivate. by split_ifs.
Qed.

(** [create] stores the trimmed sku; [updateDetails] validates the sku it is given
    but stores it as given, so a product can hold a sku that [SKU.create] would have
    changed. *)
Theorem product_sku_trimmed :
  (∀ (p : Product.ProductProps) (a : aggregate Product.ProductProps) (s : string),
     Product.create p = Ok a → Product.sku (props a) = Value s → SKU.create s = Ok s) ∧
  ∀ a : aggregate Product.ProductProps, ∃ d b s, Product.updateDetails d a = Ok b ∧
    Product.sku (props b) = Value s ∧ SKU.create s ≠ Ok s.
Proof.
  split.
  - intros p a s H Hs. apply product_create_ok in H as (pr & s' & _ & H & ->).
    apply product_sku_step in H. simpl in Hs. subst. unfold SKU.create.
    destruct H as [Hb Ht]. apply create_string_value_ok. by rewrite Ht.
  - intros a.
    exists {| Product.d_name := None; Product.d_description := Undefined;
              Product.d_sku := Value " A1 "; Product.d_price := None |}.
    eexists _, " A1 "%string. split_and!; [reflexivity|reflexivity|].
    by vm_compute.
Qed.

(** * Concrete aggregates, for the witnesses *)

Module MasterDataExamples.
Definition warehouse : Warehouse.WarehouseProps :=
  {| Warehouse.id := "w-1"; Warehouse.tenantId := "t-1"; Warehouse.name := "Main";
     Warehouse.code := "MAIN"; Warehouse.outletId := Null; Warehouse.isActive := true;
     Warehouse.createdAt := 0%Z |}.
Definition product : Product.ProductProps :=
  {| Product.id := "p-1"; Product.tenantId := "t-1"; Product.name := "Latte";
     Product.description := Undefined; Product.sku := Value " LAT-1 "; Product.price := of_Z 25000;
     Product.inventoryItemId := Null; Product.isActive := true; Product.outletId := Null;
     Product.createdAt := 0%Z |}.

Lemma master_data_wf_witness :
  ∃ a b, Warehouse.create warehouse = Ok a ∧ Warehouse.rename "North" a = Ok b ∧
    Warehouse.wf b.
Proof.
  do 2 eexists. split; [reflexivity|]. split; [reflexivity|].
  destruct master_data_wf as (_ & _ & _ & Hc & Hr & _).
  apply (Hr "North"%string (newAggregate warehouse)); [|reflexivity].
  apply (Hc warehouse). reflexivity.
Defined.

Lemma product_wf_witness : ∃ a, Product.create product = Ok a ∧ Product.wf (Product.deactivate a).
Proof.
  destruct (Product.create product) as [a|e] eqn:E; [|vm_compute in E; discriminate E].
  exists a. split; [reflexivity|].
  destruct product_wf as (Hc & _ & Hd). apply Hd. exact (Hc product a E).
Defined.

Lemma product_sku_trimmed_witness :
  ∃ a, Product.create product = Ok a ∧ Product.sku (props a) = Value "LAT-1"%string ∧
    SKU.create "LAT-1" = Ok "LAT-1"%string.
Proof.
  destruct (Product.create product) as [a|e] eqn:E; [|vm_compute in E; discriminate E].
  exists a. split; [reflexivity|].
  assert (Hs : Product.sku (props a) = Value "LAT-1"%string)
    by (vm_compute in E; injection E as <-; reflexivity).
  split; [exact Hs|]. exact (proj1 product_sku_trimmed product a _ E Hs).
Defined.
End MasterDataExamples.
