(* ===== verification/Lifecycles.v ===== *)
(** State machines: the interface of a status with a transition table, and the
    three aggregates whose methods walk one - stock reservations, sales orders
    and kitchen tickets. *)

From stdpp Require Import base list strings relations.
From Stdlib Require Import ZArith.
From S2P Require Import Prelude JsNumber JsString DomainEvents CoreDomain MasterData.

(** * The interface *)

(** A status type with the table of its allowed transitions, and the statuses
    that end it. *)
Class Lifecycle (S : Type) `{EqDecision S} := {
  allowed : S → list S;
  final : S → bool;
  final_allowed : ∀ s, final s = true → allowed s = [];
}.

Section lifecycle.
Context {S : Type} `{Lifecycle S}.

Definition can_go (s s' : S) : bool := bool_decide (s' ∈ allowed s).
Definition goes (s s' : S) : Prop := s' ∈ allowed s.
Definition reaches : S → S → Prop := rtc goes.

Lemma can_go_spec s s' : can_go s s' = true ↔ goes s s'.
Proof. apply bool_decide_eq_true. Qed.

(** A final status is never left. *)
Lemma final_stuck s s' : final s = true → ¬ goes s s'.
Proof. intros Hf. unfold goes. rewrite final_allowed by done. apply not_elem_of_nil. Qed.
Lemma final_reaches s s' : final s = true → reaches s s' → s' = s.
Proof. intros Hf Hr. inversion Hr as [|? s2 ? Hg]; [done|]. by apply final_stuck in Hg. Qed.
End lifecycle.

(** Decide a statement about a status by running through its values. *)
Ltac by_status := repeat match goal with |- ∀ _, _ => intro end;
  repeat match goal with s : _ |- _ => progress (is_var s; destruct s) end; vm_compute;
  try tauto; try congruence.

(** * Stock reservations *)

Inductive ReservationStatus :=
| ReservationPENDING | RESERVED | COMMITTED | RELEASED | EXPIRED | ReservationCANCELLED.
#[export] Instance ReservationStatus_eq_dec : EqDecision ReservationStatus.
Proof. solve_decision. Defined.

Module Reservation.
Record ReservationProps := {
  orderId : string;
  tenantId : string;
  outletId : opt string;
  status : ReservationStatus;
  reservedAt : Date;
}.
Abbreviation t := (aggregate ReservationProps).

Definition create (now : Date) (o t' : string) (out : opt string) : t :=
  newAggregate {| orderId := o; tenantId := t';
                  outletId := opt_coalesce out Null;
                  status := ReservationPENDING; reservedAt := now |}.
Definition fromPersistence (p : ReservationProps) : t := newAggregate p.

Definition set_status (s : ReservationStatus) (a : t) : t :=
  let p := props a in
  setProps {| orderId := orderId p; tenantId := tenantId p; outletId := outletId p;
              status := s; reservedAt := reservedAt p |} a.
Definition guarded (from to : ReservationStatus) (msg : string) (a : t) : result t :=
  if bool_decide (status (props a) ≠ from) then Err (JsError msg)
  else Ok (set_status to a).

Definition reserve : t → result t :=
  guarded ReservationPENDING RESERVED "Reservation cannot be reserved from current state".
Definition commit : t → result t :=
  guarded RESERVED COMMITTED "Only reserved reservations can be committed".
Definition release : t → result t :=
  guarded RESERVED RELEASED "Only reserved reservations can be released".
Definition expire : t → result t :=
  guarded RESERVED EXPIRED "Only reserved reservations can expire".
Definition cancel : t → result t :=
  guarded RESERVED ReservationCANCELLED "Only reserved reservations can be cancelled".

(** The methods, as data. *)
Inductive op := Reserve | Commit | Release | Expire | Cancel.
Definition run (o : op) : t → result t :=
  match o with
  | Reserve => reserve | Commit => commit | Release => release
  | Expire => expire | Cancel => cancel
  end.
Definition target (o : op) : ReservationStatus :=
  match o with
  | Reserve => RESERVED | Commit => COMMITTED | Release => RELEASED
  | Expire => EXPIRED | Cancel => ReservationCANCELLED
  end.
(** A sequence of successful calls. *)
Fixpoint run_all (os : list op) (a : t) : result t :=
  match os with [] => Ok a | o :: os => b ← run o a; run_all os b end.
End Reservation.

#[export] Instance reservation_lifecycle : Lifecycle ReservationStatus.
Proof.
  refine {|
    allowed s :=
      match s with
      | ReservationPENDING => [RESERVED]
      | RESERVED => [COMMITTED; RELEASED; EXPIRED; ReservationCANCELLED]
      | _ => []
      end;
    final s := negb (bool_decide (s = ReservationPENDING ∨ s = RESERVED))
  |}.
  by intros [].
Defined.

(** * Sales orders *)

Inductive OrderStatus :=
| OrderPENDING | PAID | OrderCOMPLETED | OrderCANCELLED | IN_PROGRESS | OrderREADY.
#[export] Instance OrderStatus_eq_dec : EqDecision OrderStatus.
Proof. solve_decision. Defined.

Module Order.
Record OrderItemDetails := {
  productId : string;
  quantity : number;
  price : number;
  subtotal : number;
}.
(** [SalesOrderWithItems]: the columns of the order the aggregate reads. *)
Record SalesOrder := {
  id : string;
  tenantId : string;
  outletId : option string;
  status : OrderStatus;
  orderNumber : string;
  totalAmount : number;
  items : list OrderItemDetails;
}.
Abbreviation t := (aggregate SalesOrder).

Definition fromPersistence (o : SalesOrder) : t := newAggregate o.
Definition set_status (s : OrderStatus) (a : t) : t :=
  let p := props a in
  setProps {| id := id p; tenantId := tenantId p; outletId := outletId p; status := s;
              orderNumber := orderNumber p; totalAmount := totalAmount p;
              items := items p |} a.

Definition markPaid (a : t) : result t :=
  if bool_decide (status (props a) = OrderCANCELLED)
  then Err (JsError "Cannot mark a cancelled order as paid")
  else if bool_decide (status (props a) = OrderCOMPLETED)
  then Err (JsError "Cannot mark a completed order as paid")
  else Ok (set_status PAID a).
Definition complete (a : t) : result t :=
  if bool_decide (status (props a) = OrderCANCELLED)
  then Err (JsError "Cannot complete a cancelled order")
  else if bool_decide (status (props a) ≠ PAID)
  then Err (JsError "Only paid orders can be completed")
  else Ok (set_status OrderCOMPLETED a).
Definition cancel (a : t) : result t :=
  if bool_decide (status (props a) = OrderCOMPLETED)
  then Err (JsError "Cannot cancel a completed order")
  else if bool_decide (status (props a) = OrderCANCELLED) then Ok a
  else Ok (set_status OrderCANCELLED a).

Inductive op := MarkPaid | Complete | Cancel.
Definition run (o : op) : t → result t :=
  match o with MarkPaid => markPaid | Complete => complete | Cancel => cancel end.
Fixpoint run_all (os : list op) (a : t) : result t :=
  match os with [] => Ok a | o :: os => b ← run o a; run_all os b end.
End Order.

(** * Kitchen tickets *)

Inductive KitchenStatus :=
| NEW | QUEUED | COOKING | READY | SERVED | KitchenCANCELLED | RECALLED.
#[export] Instance KitchenStatus_eq_dec : EqDecision KitchenStatus.
Proof. solve_decision. Defined.

Definition KITCHEN_VALID_TRANSITIONS (s : KitchenStatus) : list KitchenStatus :=
  match s with
  | NEW => [QUEUED; KitchenCANCELLED]
  | QUEUED => [COOKING; KitchenCANCELLED]
  | COOKING => [READY; KitchenCANCELLED; RECALLED]
  | READY => [SERVED; RECALLED]
  | SERVED => []
  | KitchenCANCELLED => []
  | RECALLED => [COOKING; QUEUED; KitchenCANCELLED]
  end.

#[export] Instance kitchen_lifecycle : Lifecycle KitchenStatus.
Proof.
  refine {|
    allowed := KITCHEN_VALID_TRANSITIONS;
    final s := bool_decide (s = SERVED ∨ s = KitchenCANCELLED)
  |}.
  by intros [].
Defined.

Definition KitchenStatus_name (s : KitchenStatus) : string :=
  match s with
  | NEW => "NEW" | QUEUED => "QUEUED" | COOKING => "COOKING" | READY => "READY"
  | SERVED => "SERVED" | KitchenCANCELLED => "CANCELLED" | RECALLED => "RECALLED"
  end.

Module KitchenTicket.
Record KitchenTicketItem := {
  productId : string;
  productName : string;
  quantity : number;
}.
Record KitchenTicketProps := {
  id : string;
  ticketNumber : string;
  salesOrderId : string;
  tenantId : string;
  outletId : option string;
  items : list KitchenTicketItem;
  status : KitchenStatus;
  priority : number;
  waitingTooLong : option bool;
  createdById : option string;
  createdAt : Date;
  updatedAt : Date;
}.
Abbreviation t := (aggregate KitchenTicketProps).

(** The argument of [create] omits status, priority and the two dates. *)
Definition create (now : Date) (i n o t' : string) (out : option string)
    (its : list KitchenTicketItem) (w : option bool) (by_ : option string) : t :=
  newAggregate {| id := i; ticketNumber := n; salesOrderId := o; tenantId := t';
                  outletId := out; items := its; status := NEW; priority := of_Z 0;
                  waitingTooLong := w; createdById := by_;
                  createdAt := now; updatedAt := now |}.
Definition fromPersistence (p : KitchenTicketProps) : t := newAggregate p.

Definition set_status (s : KitchenStatus) (now : Date) (a : t) : t :=
  let p := props a in
  setProps {| id := id p; ticketNumber := ticketNumber p; salesOrderId := salesOrderId p;
              tenantId := tenantId p; outletId := outletId p; items := items p;
              status := s; priority := priority p; waitingTooLong := waitingTooLong p;
              createdById := createdById p; createdAt := createdAt p; updatedAt := now |} a.
Definition set_priority (n : number) (a : t) : t :=
  let p := props a in
  setProps {| id := id p; ticketNumber := ticketNumber p; salesOrderId := salesOrderId p;
              tenantId := tenantId p; outletId := outletId p; items := items p;
              status := status p; priority := n; waitingTooLong := waitingTooLong p;
              createdById := createdById p; createdAt := createdAt p;
              updatedAt := updatedAt p |} a.

Definition transitionTo (next : KitchenStatus) (now : Date) (a : t) : result t :=
  if negb (bool_decide (next ∈ KITCHEN_VALID_TRANSITIONS (status (props a))))
  then Err (JsError ("Invalid kitchen ticket transition from " ++
                     KitchenStatus_name (status (props a)) ++ " to " ++
                     KitchenStatus_name next))
  else Ok (set_status next now a).

Definition enqueue := transitionTo QUEUED.
Definition startCooking := transitionTo COOKING.
Definition markReady (now : Date) (a : t) : result t :=
  if bool_decide (status (props a) ≠ COOKING)
  then Err (JsError "Only COOKING tickets can be marked READY")
  else transitionTo READY now a.
Definition markServed (now : Date) (a : t) : result t :=
  if bool_decide (status (props a) ≠ READY)
  then Err (JsError "Only READY tickets can be marked SERVED")
  else transitionTo SERVED now a.
Definition cancel := transitionTo KitchenCANCELLED.
Definition recall := transitionTo RECALLED.
Definition setPriority (n : number) (a : t) : t := set_priority (max (of_Z 0) n) a.

Inductive op := Enqueue | StartCooking | MarkReady | MarkServed | Cancel | Recall.
Definition run (o : op) : Date → t → result t :=
  match o with
  | Enqueue => enqueue | StartCooking => startCooking | MarkReady => markReady
  | MarkServed => markServed | Cancel => cancel | Recall => recall
  end.
Definition target (o : op) : KitchenStatus :=
  match o with
  | Enqueue => QUEUED | StartCooking => COOKING | MarkReady => READY
  | MarkServed => SERVED | Cancel => KitchenCANCELLED | Recall => RECALLED
  end.
Fixpoint run_all (os : list op) (now : Date) (a : t) : result t :=
  match os with [] => Ok a | o :: os => b ← run o now a; run_all os now b end.
End KitchenTicket.

(** * Properties *)

Lemma reservation_run_ok (o : Reservation.op) (a b : Reservation.t) :
  Reservation.run o a = Ok b ↔
    goes (Reservation.status (props a)) (Reservation.target o) ∧
    b = Reservation.set_status (Reservation.target o) a.
Proof.
  rewrite <- can_go_spec.
  destruct a as [[oi ti ou [] r] es], o; vm_compute; naive_solver.
Qed.

(** A reservation method succeeds exactly when the lifecycle has its transition,
    and then it changes the status and nothing else.  So whatever sequence of calls
    succeeds, a reservation is settled at most once: its status follows the
    lifecycle, and after [commit], [release], [expire] or [cancel] no further call
    succeeds. *)
Theorem reservation_settled_once :
  (∀ (o : Reservation.op) (a b : Reservation.t),
     Reservation.run o a = Ok b ↔
       goes (Reservation.status (props a)) (Reservation.target o) ∧
       b = Reservation.set_status (Reservation.target o) a) ∧
  ∀ (os : list Reservation.op) (a b : Reservation.t),
    Reservation.run_all os a = Ok b →
    reaches (Reservation.status (props a)) (Reservation.status (props b)) ∧
    (Reservation.status (props a) = ReservationPENDING →
     os = [] ∨ os = [Reservation.Reserve] ∨
     ∃ o, o ≠ Reservation.Reserve ∧ os = [Reservation.Reserve; o]).
Proof.
  split; [apply reservation_run_ok|].
  intros os a b. revert a. induction os as [|o os IH]; intros a H; simpl in H.
  { injection H as <-. split; [constructor|by left]. }
  inv_ok H. apply reservation_run_ok in E as [Hg ->].
  pose proof H as H'. apply IH in H' as [Hr _]. split.
  { by eapply rtc_l. }
  intros Hp. right. rewrite Hp in Hg. unfold goes in Hg. simpl in Hg.
  apply list_elem_of_singleton in Hg.
  assert (o = Reservation.Reserve) as -> by (by destruct o).
  destruct os as [|o' os]; [by left|]. right. exists o'.
  simpl in H. inv_ok H. apply reservation_run_ok in E as [Hg' ->].
  apply can_go_spec in Hg'. split; [by intros ->|].
  destruct os as [|o'' os]; [done|]. exfalso.
  simpl in H. inv_ok H. apply reservation_run_ok in E as [Hg'' _].
  revert Hg''. apply final_stuck. by destruct o'.
Qed.

Lemma order_completed_after_paid (os : list Order.op) (a b : Order.t) :
  Order.run_all os a = Ok b →
  Order.status (props b) = OrderCOMPLETED → Order.status (props a) ≠ OrderCOMPLETED →
  ∃ os1 os2 c, os = os1 ++ Order.Complete :: os2 ∧ Order.run_all os1 a = Ok c ∧
    Order.status (props c) = PAID.
Proof.
  revert a. induction os as [|o os IH]; intros a H Hb Ha; simpl in H.
  { injection H as <-. done. }
  destruct (Order.run o a) as [c|] eqn:E; [|done]. simpl in H.
  destruct (decide (Order.status (props c) = OrderCOMPLETED)) as [Hc|Hc].
  - exists [], os, a. assert (o = Order.Complete ∧ Order.status (props a) = PAID) as [-> ?].
    { destruct a as [[i ti ou [] n tot its] es], o; vm_compute in E; naive_solver. }
    done.
  - apply IH in H as (os1 & os2 & d & -> & H1 & Hd); [|done..].
    exists (o :: os1), os2, d. simpl. rewrite E. done.
Qed.

(** Every order status change of the aggregate goes through the paid state: an
    order that was not completed and is completed after some calls was paid when
    it was completed; a cancelled order only accepts being cancelled again, which
    changes nothing; a completed order accepts no call. *)
Theorem order_completed_only_if_paid (os : list Order.op) (a b : Order.t) :
  Order.run_all os a = Ok b →
  (Order.status (props b) = OrderCOMPLETED → Order.status (props a) ≠ OrderCOMPLETED →
   ∃ os1 os2 c, os = os1 ++ Order.Complete :: os2 ∧ Order.run_all os1 a = Ok c ∧
     Order.status (props c) = PAID) ∧
  (Order.status (props a) = OrderCANCELLED → b = a ∧ Forall (λ o, o = Order.Cancel) os) ∧
  (Order.status (props a) = OrderCOMPLETED → os = []).
Proof.
  intros H. split; [by apply order_completed_after_paid|].
  split; intros Ha; revert H.
  - induction os as [|o os IH]; simpl; intros H; [naive_solver|].
    assert (Order.run o a = Ok a ∧ o = Order.Cancel) as [E ->].
    { destruct a as [[i ti ou [] n tot its] es], o; vm_compute in Ha, H |- *; naive_solver. }
    rewrite E in H. apply IH in H as [-> ?]. naive_solver.
  - destruct os as [|o os]; [done|]. simpl.
    by destruct a as [[i ti ou [] n tot its] es], o; vm_compute in Ha |- *.
Qed.

Lemma kitchen_run_ok (o : KitchenTicket.op) (now : Date) (a b : KitchenTicket.t) :
  KitchenTicket.run o now a = Ok b ↔
    goes (KitchenTicket.status (props a)) (KitchenTicket.target o) ∧
    b = KitchenTicket.set_status (KitchenTicket.target o) now a.
Proof.
  rewrite <- can_go_spec.
  destruct a as [[i n oo ti ou its [] p w c ct ut] es], o; vm_compute; naive_solver.
Qed.

(** A kitchen call succeeds exactly when the transition table has the move (the
    guards of [markReady] and [markServed] only change the message).  Served and
    cancelled tickets are final; from every other status the calls can still bring
    the ticket to SERVED. *)
Theorem kitchen_progress (now : Date) (a : KitchenTicket.t) :
  (∀ o b, KitchenTicket.run o now a = Ok b ↔
     goes (KitchenTicket.status (props a)) (KitchenTicket.target o) ∧
     b = KitchenTicket.set_status (KitchenTicket.target o) now a) ∧
  (final (KitchenTicket.status (props a)) = true →
     ∀ o b, KitchenTicket.run o now a ≠ Ok b) ∧
  (final (KitchenTicket.status (props a)) = false →
     ∃ os b, KitchenTicket.run_all os now a = Ok b ∧
       KitchenTicket.status (props b) = SERVED).
Proof.
  split; [intros; apply kitchen_run_ok|]. split.
  - intros Hf o b H. apply kitchen_run_ok in H as [H _]. by apply final_stuck in H.
  - intros Hf. pose (os := match KitchenTicket.status (props a) with
      | NEW => [KitchenTicket.Enqueue; KitchenTicket.StartCooking; KitchenTicket.MarkReady;
                KitchenTicket.MarkServed]
      | QUEUED | RECALLED =>
          [KitchenTicket.StartCooking; KitchenTicket.MarkReady; KitchenTicket.MarkServed]
      | COOKING => [KitchenTicket.MarkReady; KitchenTicket.MarkServed]
      | _ => [KitchenTicket.MarkServed]
      end).
    exists os. destruct a as [[i n oo ti ou its [] p w c ct ut] es]; simpl in *;
      try (by vm_compute in Hf); eexists; split; reflexivity.
Qed.

(** A priority set on a ticket is never negative. *)
Lemma kitchen_priority_nonneg (n : number) (a : KitchenTicket.t) :
  ltb (KitchenTicket.priority (props (KitchenTicket.setPriority n a))) (of_Z 0) = false.
Proof.
  simpl. destruct (decide (n = NaN)) as [->|Hn]; [done|].
  unfold max. rewrite of_Z_zero. destruct n as [z| | |]; try done.
  destruct (ltb (Fin 0) (Fin z)) eqn:E; [|by apply ltb_irrefl].
  unfold ltb in *. apply Z.ltb_lt in E. apply Z.ltb_ge. lia.
Qed.

(** * Concrete runs, for the witnesses *)

Module LifecycleExamples.
Definition order (s : OrderStatus) : Order.t :=
  newAggregate {| Order.id := "o-1"; Order.tenantId := "t-1"; Order.outletId := None;
                  Order.status := s; Order.orderNumber := "SO-1"; Order.totalAmount := of_Z 5000;
                  Order.items := [] |}.
Definition reservation (s : ReservationStatus) : Reservation.t :=
  newAggregate {| Reservation.orderId := "o-1"; Reservation.tenantId := "t-1";
                  Reservation.outletId := Null; Reservation.status := s;
                  Reservation.reservedAt := 0%Z |}.
Definition ticket (s : KitchenStatus) : KitchenTicket.t :=
  newAggregate {| KitchenTicket.id := "k-1"; KitchenTicket.ticketNumber := "K-1";
                  KitchenTicket.salesOrderId := "o-1"; KitchenTicket.tenantId := "t-1";
                  KitchenTicket.outletId := None; KitchenTicket.items := [];
                  KitchenTicket.status := s; KitchenTicket.priority := of_Z 0;
                  KitchenTicket.waitingTooLong := None; KitchenTicket.createdById := None;
                  KitchenTicket.createdAt := 0%Z; KitchenTicket.updatedAt := 0%Z |}.

Lemma order_completed_only_if_paid_witness :
  Order.run_all [Order.MarkPaid; Order.Complete] (order OrderPENDING) =
    Ok (order OrderCOMPLETED) ∧
  ∃ os1 os2 c, [Order.MarkPaid; Order.Complete] = os1 ++ Order.Complete :: os2 ∧
    Order.run_all os1 (order OrderPENDING) = Ok c ∧ Order.status (props c) = PAID.
Proof.
  assert (H : Order.run_all [Order.MarkPaid; Order.Complete] (order OrderPENDING) =
              Ok (order OrderCOMPLETED)) by reflexivity.
  split; [exact H|].
  apply (order_completed_only_if_paid _ _ _ H); [reflexivity|discriminate].
Defined.

Lemma reservation_settled_once_witness :
  Reservation.run_all [Reservation.Reserve; Reservation.Commit] (reservation ReservationPENDING) =
    Ok (reservation COMMITTED) ∧
  reaches ReservationPENDING COMMITTED.
Proof.
  assert (H : Reservation.run_all [Reservation.Reserve; Reservation.Commit]
                (reservation ReservationPENDING) = Ok (reservation COMMITTED)) by reflexivity.
  split; [exact H|]. exact (proj1 (proj2 reservation_settled_once _ _ _ H)).
Defined.

Lemma kitchen_progress_witness :
  ∃ os b, KitchenTicket.run_all os 5%Z (ticket RECALLED) = Ok b ∧
    KitchenTicket.status (props b) = SERVED.
Proof. apply (kitchen_progress 5%Z (ticket RECALLED)). reflexivity. Defined.
End LifecycleExamples.
