(* ===== verification/PurchaseOrderAggregate.v ===== *)
(** The purchase order aggregate
    (modules/purchase-orders/domain/purchase-order.aggregate.ts): validated
    construction, the approval lifecycle, and partial receiving. *)

From stdpp Require Import base list strings gmap relations.
From Stdlib Require Import ZArith.
From S2P Require Import Prelude JsNumber JsString DomainEvents CoreDomain MasterData Lifecycles.

Inductive PurchaseOrderStatus :=
| DRAFT | PENDING | APPROVED | REJECTED | PARTIALLY_RECEIVED | RECEIVED | COMPLETED | CANCELLED.
#[export] Instance PurchaseOrderStatus_eq_dec : EqDecision PurchaseOrderStatus.
Proof. solve_decision. Defined.

Definition PurchaseOrderStatus_name (s : PurchaseOrderStatus) : string :=
  match s with
  | DRAFT => "DRAFT" | PENDING => "PENDING" | APPROVED => "APPROVED"
  | REJECTED => "REJECTED" | PARTIALLY_RECEIVED => "PARTIALLY_RECEIVED"
  | RECEIVED => "RECEIVED" | COMPLETED => "COMPLETED" | CANCELLED => "CANCELLED"
  end.

(** The table inside [assertAllowedTransition]. *)
Definition validTransitions (s : PurchaseOrderStatus) : list PurchaseOrderStatus :=
  match s with
  | DRAFT => [PENDING; CANCELLED]
  | PENDING => [APPROVED; REJECTED; CANCELLED]
  | APPROVED => [PARTIALLY_RECEIVED; RECEIVED; CANCELLED]
  | PARTIALLY_RECEIVED => [RECEIVED; CANCELLED]
  | RECEIVED => [COMPLETED]
  | REJECTED => [CANCELLED]
  | CANCELLED => []
  | COMPLETED => []
  end.

#[export] Instance purchase_order_lifecycle : Lifecycle PurchaseOrderStatus.
Proof.
  refine {|
    allowed := validTransitions;
    final s := bool_decide (s = CANCELLED ∨ s = COMPLETED)
  |}.
  by intros [].
Defined.

Module PO.
Record PurchaseOrderItemProps := {
  inventoryItemId : string;
  quantity : number;
  unitPrice : number;
  subtotal : number;
  receivedQuantity : number;
}.
Record PurchaseOrderProps := {
  id : string;
  poNumber : string;
  status : PurchaseOrderStatus;
  supplierId : string;
  tenantId : string;
  warehouseId : opt string;
  expectedDeliveryDate : opt Date;
  totalAmount : number;
  notes : opt string;
  receivedAt : opt Date;
  completedAt : opt Date;
  items : list PurchaseOrderItemProps;
  createdAt : Date;
  updatedAt : Date;
}.
Abbreviation t := (aggregate PurchaseOrderProps).

Record Receipt := { r_inventoryItemId : string; r_receivedQuantity : number }.
Record ReceivingMovementSpec := { m_inventoryItemId : string; m_deltaQuantity : number }.

(** ** Construction *)

Definition check_item (i : PurchaseOrderItemProps) : result unit :=
  if blank (inventoryItemId i) then Err (JsError "Inventory item id must not be empty")
  else if negb (isInteger (quantity i)) || leb (quantity i) (of_Z 0)
  then Err (JsError "Purchase order item quantity must be a positive integer")
  else if negb (isInteger (unitPrice i)) || ltb (unitPrice i) (of_Z 0)
  then Err (JsError "Purchase order item unit price must be a non-negative integer")
  else if negb (eqb (subtotal i) (mul (quantity i) (unitPrice i)))
  then Err (JsError "Purchase order item subtotal must equal quantity times unit price")
  else if negb (isInteger (receivedQuantity i)) || ltb (receivedQuantity i) (of_Z 0)
  then Err (JsError "Purchase order item receivedQuantity must be >= 0")
  else if gtb (receivedQuantity i) (quantity i)
  then Err (JsError "receivedQuantity cannot exceed ordered quantity")
  else Ok tt.

Definition create (p : PurchaseOrderProps) : result t :=
  if blank (supplierId p) then Err (JsError "Supplier is required")
  else if length (items p) =? 0
  then Err (JsError "Purchase order must include at least one item")
  else if has_duplicates (map inventoryItemId (items p))
  then Err (JsError "Purchase order contains duplicate inventory items")
  else _ ← check_all check_item (items p); Ok (newAggregate p).

(** [fromPersistence] copies the row and its items into [props]. *)
Definition fromPersistence (p : PurchaseOrderProps) : t := newAggregate p.
Definition getPersistedSnapshot (a : t) : PurchaseOrderProps := props a.

(** [remainingByItem]: a later item with the same id overwrites. *)
Definition remainingByItem (a : t) : gmap string number :=
  fold_left (λ m i, <[inventoryItemId i := sub (quantity i) (receivedQuantity i)]> m)
    (items (props a)) ∅.

(** ** Lifecycle *)

Definition assertNotCancelledOrCompleted (a : t) : result unit :=
  if bool_decide (status (props a) = CANCELLED)
  then Err (JsError "Cannot transition a cancelled purchase order")
  else if bool_decide (status (props a) = COMPLETED)
  then Err (JsError "Cannot transition a completed purchase order")
  else Ok tt.

Definition assertAllowedTransition (to : PurchaseOrderStatus) (a : t) : result unit :=
  if bool_decide (to = status (props a)) then Ok tt else
  _ ← assertNotCancelledOrCompleted a;
  if negb (bool_decide (to ∈ validTransitions (status (props a))))
  then Err (JsError ("Cannot transition purchase order from " ++
                     PurchaseOrderStatus_name (status (props a)) ++ " to " ++
                     PurchaseOrderStatus_name to))
  else Ok tt.

Definition set_status (to : PurchaseOrderStatus) (now : Date) (p : PurchaseOrderProps) :=
  {| id := id p; poNumber := poNumber p; status := to; supplierId := supplierId p;
     tenantId := tenantId p; warehouseId := warehouseId p;
     expectedDeliveryDate := expectedDeliveryDate p; totalAmount := totalAmount p;
     notes := notes p;
     receivedAt := if bool_decide (to = RECEIVED) then Value now else receivedAt p;
     completedAt := if bool_decide (to = COMPLETED) then Value now else completedAt p;
     items := items p; createdAt := createdAt p; updatedAt := now |}.

Definition transitionTo (to : PurchaseOrderStatus) (now : Date) (a : t) : result t :=
  if bool_decide (to = status (props a)) then Ok a else
  _ ← assertAllowedTransition to a;
  Ok (setProps (set_status to now (props a)) a).

Definition pendingApproval := transitionTo PENDING.
Definition approve := transitionTo APPROVED.
Definition reject := transitionTo REJECTED.
Definition cancel := transitionTo CANCELLED.
Definition sent (now : Date) (a : t) : result t :=
  if bool_decide (status (props a) = APPROVED) then Ok a else transitionTo APPROVED now a.

Definition fully_received (i : PurchaseOrderItemProps) : bool :=
  geb (receivedQuantity i) (quantity i).

Definition complete (now : Date) (a : t) : result t :=
  _ ← assertNotCancelledOrCompleted a;
  if bool_decide (status (props a) = COMPLETED) then Ok a
  else if bool_decide (status (props a) ≠ RECEIVED)
  then Err (JsError "Only RECEIVED purchase orders can be completed")
  else if negb (forallb fully_received (items (props a)))
  then Err (JsError "Cannot complete PO until all items are fully received")
  else transitionTo COMPLETED now a.

(** ** Receiving *)

(** The body of the first loop: one receipt is checked and added to the map. *)
Definition add_receipt (m : gmap string number) (r : Receipt) : result (gmap string number) :=
  if blank (r_inventoryItemId r) then Err (JsError "inventoryItemId must not be empty")
  else if negb (isFinite (r_receivedQuantity r)) || leb (r_receivedQuantity r) (of_Z 0)
  then Err (JsError "receivedQuantity must be > 0")
  else match m !! r_inventoryItemId r with
       | Some _ => Err (JsError "Duplicate receipt inventoryItemId")
       | None => Ok (<[r_inventoryItemId r := r_receivedQuantity r]> m)
       end.

Definition check_belongs (its : list PurchaseOrderItemProps) (r : Receipt) : result unit :=
  if negb (existsb (λ i, bool_decide (inventoryItemId i = r_inventoryItemId r)) its)
  then Err (JsError "Receipt inventory item does not belong to PO")
  else Ok tt.

Definition set_received (q : number) (i : PurchaseOrderItemProps) : PurchaseOrderItemProps :=
  {| inventoryItemId := inventoryItemId i; quantity := quantity i;
     unitPrice := unitPrice i; subtotal := subtotal i; receivedQuantity := q |}.

(** The callback of [items.map]: the next item and the movement it pushes. *)
Definition next_item (m : gmap string number) (i : PurchaseOrderItemProps)
  : result (PurchaseOrderItemProps * option ReceivingMovementSpec) :=
  match m !! inventoryItemId i with
  | None => Ok (i, None)
  | Some inc =>
      let nextReceived := add (receivedQuantity i) inc in
      if gtb nextReceived (quantity i)
      then Err (JsError "Cannot receive more than ordered quantity")
      else Ok (set_received nextReceived i,
               Some {| m_inventoryItemId := inventoryItemId i; m_deltaQuantity := inc |})
  end.

Definition set_items (its : list PurchaseOrderItemProps) (s : PurchaseOrderStatus)
    (now : Date) (p : PurchaseOrderProps) : PurchaseOrderProps :=
  {| id := id p; poNumber := poNumber p; status := s; supplierId := supplierId p;
     tenantId := tenantId p; warehouseId := warehouseId p;
     expectedDeliveryDate := expectedDeliveryDate p; totalAmount := totalAmount p;
     notes := notes p;
     receivedAt := if bool_decide (s = RECEIVED) then Value now else receivedAt p;
     completedAt := completedAt p; items := its; createdAt := createdAt p;
     updatedAt := now |}.

Definition receive (now : Date) (receipts : list Receipt) (a : t)
  : result (list ReceivingMovementSpec * t) :=
  let p := props a in
  _ ← assertNotCancelledOrCompleted a;
  if negb (bool_decide (status p = APPROVED) || bool_decide (status p = PARTIALLY_RECEIVED))
  then Err (JsError ("Cannot receive purchase order while in " ++
                     PurchaseOrderStatus_name (status p)))
  else if length receipts =? 0 then Err (JsError "At least one receipt item is required")
  else
    receiptByItem ← for_each add_receipt receipts ∅;
    _ ← check_all (check_belongs (items p)) receipts;
    next ← map_result (next_item receiptByItem) (items p);
    let nextItems := map fst next in
    let movements := omap snd next in
    let allReceived := forallb fully_received nextItems in
    let anyReceived := existsb (λ i, gtb (receivedQuantity i) (of_Z 0)) nextItems in
    if negb anyReceived then Ok ([], a) else
    let nextStatus := if allReceived then RECEIVED else PARTIALLY_RECEIVED in
    _ ← (if bool_decide (nextStatus = RECEIVED) then assertAllowedTransition RECEIVED a
         else if bool_decide (status p = PARTIALLY_RECEIVED) then Ok tt
         else assertAllowedTransition PARTIALLY_RECEIVED a);
    Ok (movements, setProps (set_items nextItems nextStatus now p) a).

(** ** Specification *)

(** What [create] accepts. *)
Definition item_wf (i : PurchaseOrderItemProps) : Prop :=
  blank (inventoryItemId i) = false ∧
  isInteger (quantity i) = true ∧ gtb (quantity i) (of_Z 0) = true ∧
  isInteger (unitPrice i) = true ∧ ltb (unitPrice i) (of_Z 0) = false ∧
  eqb (subtotal i) (mul (quantity i) (unitPrice i)) = true ∧
  isInteger (receivedQuantity i) = true ∧ ltb (receivedQuantity i) (of_Z 0) = false ∧
  leb (receivedQuantity i) (quantity i) = true.
Definition wf (p : PurchaseOrderProps) : Prop :=
  blank (supplierId p) = false ∧ items p ≠ [] ∧
  NoDup (map inventoryItemId (items p)) ∧ Forall item_wf (items p).

(** The calls of the lifecycle. *)
Inductive call :=
| PendingApproval | Approve | Reject | Cancel | Sent | Complete
| Receive (receipts : list Receipt).
Definition run (c : call) (now : Date) (a : t) : result t :=
  match c with
  | PendingApproval => pendingApproval now a
  | Approve => approve now a
  | Reject => reject now a
  | Cancel => cancel now a
  | Sent => sent now a
  | Complete => complete now a
  | Receive rs => r ← receive now rs a; Ok (snd r)
  end.
(** A history of calls, each at its time, all of which succeed. *)
Fixpoint run_all (cs : list (call * Date)) (a : t) : result t :=
  match cs with
  | [] => Ok a
  | (c, now) :: cs => b ← run c now a; run_all cs b
  end.
(** The quantities a history receives of an item, in order. *)
Fixpoint increments (k : string) (cs : list (call * Date)) : list number :=
  match cs with
  | [] => []
  | (Receive rs, _) :: cs =>
      map r_receivedQuantity
        (List.filter (λ r, bool_decide (r_inventoryItemId r = k)) rs) ++ increments k cs
  | _ :: cs => increments k cs
  end.
(** The item after a history. *)
Definition after_history (cs : list (call * Date)) (i : PurchaseOrderItemProps)
  : PurchaseOrderItemProps :=
  set_received (fold_left add (increments (inventoryItemId i) cs) (receivedQuantity i)) i.
End PO.

(** * Lemmas *)

Section purchase_order.
Import PO.
Implicit Types (a b : t) (i : PurchaseOrderItemProps) (r : Receipt).

Lemma po_check_item_ok i : check_item i = Ok tt ↔ item_wf i.
Proof.
  unfold check_item, item_wf.
  destruct (blank _); simpl; [naive_solver|].
  destruct (isInteger (quantity i)) eqn:Hq; simpl; [|naive_solver].
  destruct (leb (quantity i) (of_Z 0)) eqn:Hq0; simpl.
  { split; [done|]. intros (_ & _ & H & _). apply gtb_leb_false in H. congruence. }
  apply leb_false_gtb in Hq0; [|by apply isInteger_not_nan|by apply of_Z_not_nan].
  destruct (isInteger (unitPrice i)); simpl; [|naive_solver].
  destruct (ltb (unitPrice i) _); simpl; [naive_solver|].
  destruct (eqb _ _); simpl; [|naive_solver].
  destruct (isInteger (receivedQuantity i)) eqn:Hr; simpl; [|naive_solver].
  destruct (ltb (receivedQuantity i) _); simpl; [naive_solver|].
  destruct (gtb (receivedQuantity i) (quantity i)) eqn:Hg; simpl.
  - apply gtb_leb_false in Hg. naive_solver congruence.
  - apply gtb_false_leb in Hg; [naive_solver|by apply isInteger_not_nan..].
Qed.

Lemma po_transition_ok to now a b :
  transitionTo to now a = Ok b ↔
    (to = status (props a) ∧ b = a) ∨
    (goes (status (props a)) to ∧ b = setProps (set_status to now (props a)) a).
Proof.
  rewrite <- can_go_spec. destruct a as [[i n [] su ti w ex tot nt ra ca its cr up] es];
    destruct to; vm_compute; naive_solver.
Qed.

Lemma po_create_ok (p : PurchaseOrderProps) a :
  create p = Ok a ↔ wf p ∧ a = newAggregate p.
Proof.
  unfold create, wf. destruct (blank (supplierId p)); [naive_solver|].
  destruct (length (items p) =? 0) eqn:Hl.
  { apply Nat.eqb_eq, nil_length_inv in Hl. naive_solver. }
  assert (items p ≠ []) by (by intros Hn; rewrite Hn in Hl).
  pose proof (has_duplicates_false (map inventoryItemId (items p))) as Hd.
  destruct (has_duplicates _); [naive_solver|].
  pose proof (check_all_ok check_item (items p)) as Hc. setoid_rewrite po_check_item_ok in Hc.
  destruct (check_all _ _) as [[]|e]; simpl; naive_solver.
Qed.

(** ** The receipt map *)

Fixpoint receipt_of (k : string) (rs : list Receipt) : option number :=
  match rs with
  | [] => None
  | r :: rs => if bool_decide (r_inventoryItemId r = k) then Some (r_receivedQuantity r)
               else receipt_of k rs
  end.

Lemma receipt_of_None k rs : receipt_of k rs = None ↔ k ∉ map r_inventoryItemId rs.
Proof.
  induction rs as [|r rs IH]; simpl; [split; [by intros _ ?%not_elem_of_nil|done]|].
  rewrite not_elem_of_cons. case_bool_decide; naive_solver.
Qed.
Lemma receipt_of_Some k q rs :
  NoDup (map r_inventoryItemId rs) →
  receipt_of k rs = Some q ↔ {| r_inventoryItemId := k; r_receivedQuantity := q |} ∈ rs.
Proof.
  induction rs as [|r rs IH]; simpl; intros Hnd.
  { split; [done|by intros ?%not_elem_of_nil]. }
  apply NoDup_cons in Hnd as [Hr Hnd]. rewrite elem_of_cons.
  case_bool_decide as Hk.
  - subst. split; [intros [= <-]; left; by destruct r|].
    intros [<-|Hin]; [done|]. exfalso. apply Hr. apply list_elem_of_fmap.
    eexists. split; [|exact Hin]. done.
  - rewrite (IH Hnd). naive_solver.
Qed.

Lemma add_receipts_ok rs m0 m :
  for_each add_receipt rs m0 = Ok m →
  NoDup (map r_inventoryItemId rs) ∧
  Forall (λ r, m0 !! r_inventoryItemId r = None ∧ blank (r_inventoryItemId r) = false ∧
               isFinite (r_receivedQuantity r) = true ∧
               gtb (r_receivedQuantity r) (of_Z 0) = true) rs ∧
  ∀ k, m !! k = match receipt_of k rs with Some q => Some q | None => m0 !! k end.
Proof.
  revert m0. induction rs as [|r rs IH]; simpl; intros m0 H.
  { injection H as <-. split_and!; [constructor|done|done]. }
  destruct (add_receipt m0 r) as [m1|] eqn:E; [|done].
  unfold add_receipt in E. inv_ok E. subst m1.
  apply IH in H as (Hnd & Hf & Hm). rewrite Forall_forall in Hf. bool_hyps.
  split_and!.
  - apply NoDup_cons. split; [|done]. intros Hin.
    apply list_elem_of_fmap in Hin as (r' & He & Hin). apply Hf in Hin as (Hn & _).
    rewrite He, lookup_insert_eq in Hn. done.
  - apply Forall_cons. split.
    + split_and!; [done..|]. apply leb_false_gtb; [|apply of_Z_not_nan|done].
      by apply isFinite_not_nan.
    + apply Forall_forall. intros r' Hin. apply Hf in Hin as (Hn & ? & ? & ?).
      split_and!; [|done..]. by apply lookup_insert_None in Hn as [? _].
  - intros k. rewrite Hm. case_bool_decide as Hk.
    + subst. destruct (receipt_of _ rs) eqn:Ho; [|by rewrite lookup_insert_eq].
      exfalso. apply receipt_of_Some in Ho; [|done]. apply Hf in Ho as (Hn & _). simpl in Hn.
      by rewrite lookup_insert_eq in Hn.
    + destruct (receipt_of k rs); [done|]. by rewrite lookup_insert_ne.
Qed.

(** ** The next items *)

(** The item after a set of receipts: untouched, or increased by its one. *)
Definition received_item rs i : PurchaseOrderItemProps :=
  match receipt_of (inventoryItemId i) rs with
  | Some inc => set_received (add (receivedQuantity i) inc) i
  | None => i
  end.
Definition received_movement rs i : option ReceivingMovementSpec :=
  match receipt_of (inventoryItemId i) rs with
  | Some inc => Some {| m_inventoryItemId := inventoryItemId i; m_deltaQuantity := inc |}
  | None => None
  end.
Definition movement_of r : ReceivingMovementSpec :=
  {| m_inventoryItemId := r_inventoryItemId r; m_deltaQuantity := r_receivedQuantity r |}.

(** Quantities within their bounds, whatever their integrality. *)
Definition item_bounds i : Prop :=
  isFinite (quantity i) = true ∧ gtb (quantity i) (of_Z 0) = true ∧
  ltb (receivedQuantity i) (of_Z 0) = false ∧
  leb (receivedQuantity i) (quantity i) = true.

Lemma item_wf_bounds i : item_wf i → item_bounds i.
Proof.
  intros (_ & Hq & Hq0 & _ & _ & _ & _ & Hr & Hle). split_and!; try done.
  by apply isInteger_finite.
Qed.

Lemma item_bounds_received i :
  item_bounds i → isFinite (receivedQuantity i) = true.
Proof.
  intros (Hq & _ & Hr & Hle). eapply leb_finite; [done| |done|done].
  intros HN. rewrite HN in Hle. by destruct (quantity i).
Qed.

Section next_items.
Context (rs : list Receipt) (m : gmap string number).
Hypothesis Hm : ∀ k, m !! k = receipt_of k rs.
Hypothesis Hpos : Forall (λ r, isFinite (r_receivedQuantity r) = true ∧
                               gtb (r_receivedQuantity r) (of_Z 0) = true) rs.
Hypothesis Hnd : NoDup (map r_inventoryItemId rs).

Lemma receipt_of_pos k q :
  receipt_of k rs = Some q → isFinite q = true ∧ gtb q (of_Z 0) = true.
Proof.
  intros H. apply receipt_of_Some in H; [|done].
  rewrite Forall_forall in Hpos. by apply Hpos in H.
Qed.

Lemma next_item_ok i p :
  next_item m i = Ok p →
  p = (received_item rs i, received_movement rs i) ∧
  (item_bounds i → item_bounds (received_item rs i)).
Proof.
  unfold next_item, received_item, received_movement. rewrite Hm.
  destruct (receipt_of _ rs) as [inc|] eqn:Hr; [|by intros [= <-]].
  intros H. inv_ok H. subst p. split; [done|].
  intros Hb. pose proof (item_bounds_received i Hb) as Hf.
  destruct Hb as (Hq & Hq0 & Hr0 & Hle). apply receipt_of_pos in Hr as [Hfi Hi].
  assert (Hp : gtb (add (receivedQuantity i) inc) (of_Z 0) = true) by by apply add_pos.
  split_and!; simpl; try done.
  - by apply gtb_zero_nonneg.
  - apply gtb_false_leb; [by apply gtb_not_nan in Hp as [? _]| |done].
    by apply isFinite_not_nan.
Qed.

Lemma next_items_ok its next :
  map_result (next_item m) its = Ok next →
  map fst next = map (received_item rs) its ∧
  omap snd next = omap (received_movement rs) its ∧
  (Forall item_bounds its → Forall item_bounds (map (received_item rs) its)).
Proof.
  revert next. induction its as [|i its IH]; simpl; intros next H.
  { injection H as <-. done. }
  inv_ok H. subst next. apply next_item_ok in E as [-> Hb].
  destruct (IH _ eq_refl) as (H1 & H2 & H3).
  unfold omap in *. simpl. rewrite H1, H2. split_and!; [done|done|].
  rewrite !Forall_cons. naive_solver.
Qed.

Lemma movements_of_receipts its :
  NoDup (map inventoryItemId its) →
  Forall (λ r, r_inventoryItemId r ∈ map inventoryItemId its) rs →
  omap (received_movement rs) its ≡ₚ map movement_of rs.
Proof.
  intros Hi Hb. apply NoDup_Permutation.
  - clear Hb. induction its as [|i its IH]; simpl; [constructor|].
    apply NoDup_cons in Hi as [Hni Hi]. unfold received_movement at 1.
    destruct (receipt_of _ rs) as [q|] eqn:Hr; [|by apply IH].
    apply NoDup_cons. split; [|by apply IH]. intros Hin.
    apply list_elem_of_omap in Hin as (j & Hj & He). unfold received_movement in He.
    destruct (receipt_of (inventoryItemId j) rs); [|done]. injection He as He _.
    apply Hni. apply list_elem_of_fmap. by eexists.
  - apply (NoDup_fmap_1 m_inventoryItemId). rewrite <- list_fmap_compose. exact Hnd.
  - intros mv. rewrite list_elem_of_omap. setoid_rewrite list_elem_of_fmap. split.
    + intros (i & _ & He). unfold received_movement in He.
      destruct (receipt_of _ rs) as [q|] eqn:Hr; [|done]. injection He as <-.
      apply receipt_of_Some in Hr; [|done]. eexists. split; [|exact Hr]. done.
    + intros (r & -> & Hin). rewrite Forall_forall in Hb.
      pose proof (Hb _ Hin) as Hi'. apply list_elem_of_fmap in Hi' as (i & He & Hii).
      exists i. split; [done|]. unfold received_movement.
      rewrite (proj2 (receipt_of_Some _ (r_receivedQuantity r) rs Hnd)).
      * unfold movement_of. by rewrite He.
      * rewrite <- He. by destruct r.
Qed.
End next_items.

Lemma check_belongs_ok its rs :
  check_all (check_belongs its) rs = Ok tt →
  Forall (λ r, r_inventoryItemId r ∈ map inventoryItemId its) rs.
Proof.
  intros Hall%check_all_ok. apply (Forall_impl _ _ _ Hall).
  intros r H. unfold check_belongs in H.
  inv_ok H. bool_hyps. apply existsb_exists in E as (i & Hin & He). bool_hyps.
  apply list_elem_of_fmap. exists i. by rewrite list_elem_of_In.
Qed.

(** ** When [receive] succeeds *)

(** The receipts [receive] accepts for an order. *)
Definition receipts_valid rs : Prop :=
  rs ≠ [] ∧ NoDup (map r_inventoryItemId rs) ∧
  Forall (λ r, blank (r_inventoryItemId r) = false ∧
               isFinite (r_receivedQuantity r) = true ∧
               gtb (r_receivedQuantity r) (of_Z 0) = true) rs.
Definition accepts rs a : Prop :=
  (status (props a) = APPROVED ∨ status (props a) = PARTIALLY_RECEIVED) ∧
  receipts_valid rs ∧
  Forall (λ r, r_inventoryItemId r ∈ map inventoryItemId (items (props a))) rs ∧
  Forall (λ i, gtb (receivedQuantity (received_item rs i)) (quantity i) = false)
    (filter (λ i, is_Some (receipt_of (inventoryItemId i) rs)) (items (props a))).

(** The order after the receipts. *)
Definition received_props now rs (p : PurchaseOrderProps) : PurchaseOrderProps :=
  let its := map (received_item rs) (items p) in
  set_items its (if forallb fully_received its then RECEIVED else PARTIALLY_RECEIVED) now p.

Lemma add_receipts_total rs m0 :
  NoDup (map r_inventoryItemId rs) →
  Forall (λ r, blank (r_inventoryItemId r) = false ∧
               isFinite (r_receivedQuantity r) = true ∧
               gtb (r_receivedQuantity r) (of_Z 0) = true) rs →
  Forall (λ r, m0 !! r_inventoryItemId r = None) rs →
  is_ok (for_each add_receipt rs m0) = true.
Proof.
  revert m0. induction rs as [|r rs IH]; simpl; intros m0 Hnd Hv Hm; [done|].
  apply NoDup_cons in Hnd as [Hr Hnd].
  apply Forall_cons in Hv as [(Hb & Hf & Hp) Hv]. apply Forall_cons in Hm as [Hm0 Hm].
  unfold add_receipt at 1. rewrite Hb, Hf, (gtb_leb_false _ _ Hp), Hm0. simpl.
  apply IH; [done|done|]. rewrite Forall_forall in Hm |- *. intros r' Hin.
  rewrite lookup_insert_ne; [by apply Hm|].
  intros He. apply Hr. apply list_elem_of_fmap. by eexists.
Qed.

Lemma next_items_total m rs its :
  (∀ k, m !! k = receipt_of k rs) →
  Forall (λ i, gtb (receivedQuantity (received_item rs i)) (quantity i) = false)
    (filter (λ i, is_Some (receipt_of (inventoryItemId i) rs)) its) ↔
  is_ok (map_result (next_item m) its) = true.
Proof.
  intros Hm. induction its as [|i its IH]; simpl; [split; [done|constructor]|].
  unfold next_item at 1. rewrite Hm. rewrite filter_cons.
  unfold received_item at 1. destruct (receipt_of _ rs) as [q|] eqn:Hr.
  - rewrite decide_True by eauto. rewrite Forall_cons, Hr. simpl.
    destruct (gtb _ _); [naive_solver|]. rewrite IH.
    destruct (map_result _ _); simpl; naive_solver.
  - rewrite decide_False by (by intros [? ?]). rewrite IH.
    destruct (map_result _ _); simpl; naive_solver.
Qed.

Lemma any_received rs a :
  Forall item_bounds (items (props a)) → accepts rs a →
  existsb (λ i, gtb (receivedQuantity i) (of_Z 0))
    (map (received_item rs) (items (props a))) = true.
Proof.
  intros Hb (_ & (Hne & Hnd & Hv) & Hbel & _). destruct rs as [|r rs]; [done|].
  apply Forall_cons in Hbel as [Hin _]. apply list_elem_of_fmap in Hin as (i & He & Hin).
  apply existsb_exists. exists (received_item (r :: rs) i). split.
  { apply in_map. by apply list_elem_of_In. }
  unfold received_item. simpl. rewrite bool_decide_true by done. simpl.
  rewrite Forall_forall in Hb. apply Hb in Hin. apply Forall_cons in Hv as [(_ & ? & ?) _].
  apply add_pos; [by apply item_bounds_received|by destruct Hin as (?&?&?&?)|done..].
Qed.

Lemma po_receive_ok now rs a ms b :
  Forall item_bounds (items (props a)) → receive now rs a = Ok (ms, b) →
  accepts rs a ∧ ms = omap (received_movement rs) (items (props a)) ∧
  b = setProps (received_props now rs (props a)) a ∧ Forall item_bounds (items (props b)).
Proof.
  intros Hb H. unfold receive in H.
  destruct (assertNotCancelledOrCompleted a); [|done]. simpl in H.
  destruct (negb _) eqn:Hs in H; [done|]. destruct (length rs =? 0) eqn:Hl; [done|].
  destruct (for_each add_receipt rs ∅) as [m|] eqn:Hm; [|done]. simpl in H.
  destruct (check_all _ rs) as [[]|] eqn:Hc; [|done]. simpl in H.
  destruct (map_result _ _) as [next|] eqn:Hn; [|done].
  pose proof Hm as Hm'. apply add_receipts_ok in Hm' as (Hnd & Hv & Hlook).
  assert (Hlook' : ∀ k, m !! k = receipt_of k rs).
  { intros k. rewrite Hlook. by destruct (receipt_of k rs). }
  assert (Hacc : accepts rs a).
  { bool_hyps. split_and!.
    - apply orb_true_iff in Hs as [?%bool_decide_eq_true_1|?%bool_decide_eq_true_1]; auto.
    - split_and!; [by intros ->|done|]. apply (Forall_impl _ _ _ Hv). naive_solver.
    - by apply check_belongs_ok.
    - apply (next_items_total m rs _ Hlook'). by rewrite Hn. }
  pose proof (any_received rs a Hb Hacc) as Hany.
  apply (next_items_ok rs m Hlook') in Hn as (H1 & H2 & H3);
    [|apply (Forall_impl _ _ _ Hv); naive_solver|done].
  simpl in H. rewrite H1, H2, Hany in H. simpl in H. inv_ok H. subst.
  split_and!; [done|done|done|]. simpl. by apply H3.
Qed.

Lemma assert_open a :
  status (props a) = APPROVED ∨ status (props a) = PARTIALLY_RECEIVED →
  assertNotCancelledOrCompleted a = Ok tt ∧ assertAllowedTransition RECEIVED a = Ok tt.
Proof.
  unfold assertAllowedTransition, assertNotCancelledOrCompleted. by intros [-> | ->].
Qed.

Lemma po_receive_total now rs a : accepts rs a → is_ok (receive now rs a) = true.
Proof.
  intros (Hs & (Hne & Hnd & Hv) & Hbel & Hfit). unfold receive.
  pose proof (assert_open a Hs) as [-> Hrec]. simpl.
  replace (bool_decide _ || _) with true by (by destruct Hs as [-> | ->]). simpl.
  destruct rs as [|r rs'] eqn:Hrs; [done|]. rewrite <- Hrs in *. simpl length.
  replace (length rs =? 0) with false by (by rewrite Hrs).
  pose proof (add_receipts_total rs ∅ Hnd Hv
    (proj2 (Forall_forall _ _) (λ r _, lookup_empty _))) as Hm.
  destruct (for_each add_receipt rs ∅) as [m|] eqn:Em; simpl; [|done].
  apply add_receipts_ok in Em as (_ & _ & Hlook).
  assert (Hlook' : ∀ k, m !! k = receipt_of k rs).
  { intros k. rewrite Hlook. by destruct (receipt_of k rs). }
  replace (check_all (check_belongs (items (props a))) rs) with (Ok tt); simpl.
  2: { symmetry. apply check_all_ok. apply (Forall_impl _ _ _ Hbel). intros r' Hin.
       unfold check_belongs. apply list_elem_of_fmap in Hin as (i & He & Hin).
       assert (existsb (λ i, bool_decide (inventoryItemId i = r_inventoryItemId r'))
                 (items (props a)) = true) as ->; [|done].
       apply existsb_exists. exists i. rewrite <- list_elem_of_In.
       split; [done|]. by apply bool_decide_eq_true_2. }
  apply (next_items_total m rs _ Hlook') in Hfit.
  destruct (map_result _ _) as [next|]; [|done]. simpl.
  destruct (existsb _ _); [|done]. simpl.
  destruct (forallb _ _); simpl.
  - by rewrite Hrec.
  - unfold assertAllowedTransition, assertNotCancelledOrCompleted.
    by destruct Hs as [Hs|Hs]; rewrite Hs.
Qed.

(** ** Histories *)

Lemma set_received_self i : set_received (receivedQuantity i) i = i.
Proof. by destruct i. Qed.

Lemma increments_receive k rs :
  NoDup (map r_inventoryItemId rs) →
  map r_receivedQuantity (List.filter (λ r, bool_decide (r_inventoryItemId r = k)) rs) =
    match receipt_of k rs with Some q => [q] | None => [] end.
Proof.
  induction rs as [|r rs IH]; simpl; intros Hnd; [done|].
  apply NoDup_cons in Hnd as [Hr Hnd]. specialize (IH Hnd).
  case_bool_decide as Hk; [|done]. simpl. rewrite IH. subst.
  by rewrite (proj2 (receipt_of_None _ rs)).
Qed.

Lemma received_item_after now rs i :
  NoDup (map r_inventoryItemId rs) → received_item rs i = after_history [(Receive rs, now)] i.
Proof.
  intros Hnd. unfold after_history, received_item. simpl.
  rewrite (increments_receive _ _ Hnd), app_nil_r.
  destruct (receipt_of _ rs); simpl; [done|by rewrite set_received_self].
Qed.

(** Received or completed orders have nothing outstanding. *)
Definition nothing_outstanding a : Prop :=
  status (props a) = RECEIVED ∨ status (props a) = COMPLETED →
  forallb fully_received (items (props a)) = true.

Lemma po_transition_keeps to now a b :
  transitionTo to now a = Ok b → to ≠ RECEIVED → to ≠ COMPLETED →
  items (props b) = items (props a) ∧ (nothing_outstanding a → nothing_outstanding b).
Proof.
  unfold nothing_outstanding.
  intros [[_ ->] | [_ ->]]%po_transition_ok ??; simpl; naive_solver.
Qed.

Lemma po_complete_keeps now a b :
  complete now a = Ok b →
  items (props b) = items (props a) ∧ (nothing_outstanding a → nothing_outstanding b).
Proof.
  intros H. unfold complete in H. inv_ok H; subst; [done|]. bool_hyps.
  apply po_transition_ok in H as [[_ ->] | [_ ->]]; simpl; [done|].
  split; [done|]. intros _ _. done.
Qed.

Lemma po_run_keeps c now a b :
  Forall item_bounds (items (props a)) → nothing_outstanding a → run c now a = Ok b →
  Forall item_bounds (items (props b)) ∧ nothing_outstanding b ∧
  items (props b) = map (after_history [(c, now)]) (items (props a)).
Proof.
  intros Hb Hn H.
  assert (Hid : (∀ k, increments k [(c, now)] = []) →
                map (after_history [(c, now)]) (items (props a)) = items (props a)).
  { intros Hi. rewrite <- (map_id (items (props a))) at 2. apply map_ext. intros i.
    unfold after_history. rewrite Hi. apply set_received_self. }
  assert (Hsame : items (props b) = items (props a) ∧
                  (nothing_outstanding a → nothing_outstanding b) ∧
                  (∀ k, increments k [(c, now)] = []) →
    Forall item_bounds (items (props b)) ∧ nothing_outstanding b ∧
    items (props b) = map (after_history [(c, now)]) (items (props a))).
  { intros (He & Hno & Hi). rewrite Hid by done. rewrite He. auto. }
  destruct c as [| | | | | |rs]; simpl in H.
  1-4: by apply Hsame; apply po_transition_keeps in H as [??].
  - unfold sent in H. destruct (bool_decide _); [injection H as <-; by apply Hsame|].
    by apply Hsame; apply po_transition_keeps in H as [??].
  - by apply Hsame; apply po_complete_keeps in H as [??].
  - clear Hid Hsame. destruct (receive now rs a) as [[ms b']|] eqn:E; [|done].
    injection H as <-. simpl.
    apply po_receive_ok in E as ((_ & (_ & Hnd & _) & _) & _ & -> & Hb'); [|done].
    split_and!; [done| |].
    + unfold nothing_outstanding. simpl.
      destruct (forallb _ _) eqn:Hf; simpl; naive_solver.
    + simpl. apply map_ext. intros i. by apply received_item_after.
Qed.

Lemma after_history_cons c now cs i :
  after_history cs (after_history [(c, now)] i) = after_history ((c, now) :: cs) i.
Proof.
  unfold after_history, set_received. simpl. f_equal.
  destruct c as [| | | | | |rs]; simpl; try done.
  by rewrite app_nil_r, fold_left_app.
Qed.
End purchase_order.

(** * Properties *)

Section properties.
Import PO.
Implicit Types (a b : t).

(** C40: [create] accepts exactly the well-formed orders: a supplier, at least one
    item, distinct items, positive integer quantities, non-negative integer
    prices, exact subtotals and received quantities within bounds. *)
Theorem po_create_iff (p : PurchaseOrderProps) a : create p = Ok a ↔ wf p ∧ a = newAggregate p.
Proof. apply po_create_ok. Qed.

(** receiving: on an order whose quantities are within bounds, [receive]
    succeeds exactly for the acceptable receipts, and then the movements are
    the receipts (reordered), each received item grows by its receipt and
    stays within the ordered quantity, every other item is untouched, and the
    status is RECEIVED exactly when nothing remains. *)
Theorem po_receive_spec (now : Date) (rs : list Receipt) a :
  wf (props a) →
  (is_ok (receive now rs a) = true ↔ accepts rs a) ∧
  ∀ ms b, receive now rs a = Ok (ms, b) →
    ms ≡ₚ map movement_of rs ∧
    b = setProps (received_props now rs (props a)) a ∧
    Forall item_bounds (items (props b)) ∧
    (status (props b) = RECEIVED ↔ Forall (λ i, fully_received i = true) (items (props b))).
Proof.
  intros (_ & _ & Hnd & Hwf).
  assert (Hb : Forall item_bounds (items (props a))).
  { apply (Forall_impl _ _ _ Hwf), item_wf_bounds. }
  split.
  { split; [|apply po_receive_total]. destruct (receive now rs a) as [[ms b]|] eqn:E; [|done].
    intros _. by apply po_receive_ok in E as [? _]. }
  intros ms b H. apply po_receive_ok in H as (Hacc & -> & -> & Hb'); [|done].
  split_and!; [|done|done|].
  - destruct Hacc as (_ & (_ & Hnr & Hv) & Hbel & _). by apply movements_of_receipts.
  - simpl. rewrite Forall_forall. setoid_rewrite list_elem_of_In. rewrite <- forallb_forall.
    destruct (forallb _ _); simpl; naive_solver.
Qed.

(** along every history of successful calls on a well-formed order that is not
    yet received: the received quantity of each item is exactly the sum, in
    order, of what was received of it; it never exceeds the ordered quantity;
    and the order is RECEIVED or COMPLETED only when every item has arrived in
    full. *)
Theorem po_history (cs : list (call * Date)) a b :
  wf (props a) → status (props a) ≠ RECEIVED → status (props a) ≠ COMPLETED →
  run_all cs a = Ok b →
  items (props b) = map (after_history cs) (items (props a)) ∧
  Forall (λ i, leb (receivedQuantity i) (quantity i) = true) (items (props b)) ∧
  (status (props b) = RECEIVED ∨ status (props b) = COMPLETED →
   forallb fully_received (items (props b)) = true).
Proof.
  intros (_ & _ & _ & Hwf) Hr Hc H.
  assert (Hb : Forall item_bounds (items (props a))).
  { apply (Forall_impl _ _ _ Hwf), item_wf_bounds. }
  assert (Hn : nothing_outstanding a) by (intros [?|?]; done). clear Hwf Hr Hc.
  revert a Hb Hn H. induction cs as [|[c now] cs IH]; simpl; intros a Hb Hn H.
  - injection H as <-. split_and!; [|by eapply Forall_impl; [exact Hb|intros i (?&?&?&?)]|done].
    rewrite <- (map_id (items (props a))) at 1. apply map_ext. intros i.
    symmetry. apply set_received_self.
  - destruct (run c now a) as [a'|] eqn:E; [|done]. simpl in H.
    apply po_run_keeps in E as (Hb' & Hn' & He); [|done..].
    destruct (IH a' Hb' Hn' H) as (-> & ? & ?). split; [|done].
    rewrite He, map_map. apply map_ext. intros i. apply after_history_cons.
Qed.

(** A transition method succeeds exactly when the order already has the status
    (and then nothing changes) or the table has the move. *)
Theorem po_transition_iff (to : PurchaseOrderStatus) (now : Date) a b :
  transitionTo to now a = Ok b ↔
    (to = status (props a) ∧ b = a) ∨
    (goes (status (props a)) to ∧ b = setProps (set_status to now (props a)) a).
Proof. apply po_transition_ok. Qed.

(** [complete] on a completed order throws, although its second statement
    returns when the order is already completed: the assertion before it is
    reached first. *)
Theorem po_complete_not_idempotent (now : Date) a :
  status (props a) = COMPLETED →
  complete now a = Err (JsError "Cannot transition a completed purchase order").
Proof. unfold complete, assertNotCancelledOrCompleted. by intros ->. Qed.

(** ** A concrete order, for the witnesses *)

Definition sample_item (k : string) (q r : Z) : PurchaseOrderItemProps :=
  {| inventoryItemId := k; quantity := of_Z q; unitPrice := of_Z 250;
     subtotal := of_Z (q * 250); receivedQuantity := of_Z r |}.
Definition sample_order (s : PurchaseOrderStatus) : PurchaseOrderProps :=
  {| id := "po-1"; poNumber := "PO-0001"; status := s; supplierId := "sup-1";
     tenantId := "t-1"; warehouseId := Value "w-1"%string; expectedDeliveryDate := Undefined;
     totalAmount := of_Z 1750; notes := Null; receivedAt := Null; completedAt := Null;
     items := [sample_item "flour" 5 0; sample_item "sugar" 2 0];
     createdAt := 0%Z; updatedAt := 0%Z |}.
Definition sample_calls : list (call * Date) :=
  [(Receive [{| r_inventoryItemId := "flour"; r_receivedQuantity := of_Z 2 |}], 10%Z);
   (Receive [{| r_inventoryItemId := "sugar"; r_receivedQuantity := of_Z 2 |};
             {| r_inventoryItemId := "flour"; r_receivedQuantity := of_Z 3 |}], 20%Z);
   (Complete, 30%Z)].

Lemma sample_wf (s : PurchaseOrderStatus) : wf (sample_order s).
Proof.
  apply (po_create_ok _ (newAggregate (sample_order s))). vm_compute. reflexivity.
Qed.

Lemma po_history_witness :
  ∃ b, run_all sample_calls (newAggregate (sample_order APPROVED)) = Ok b ∧
    status (props b) = COMPLETED ∧ forallb fully_received (items (props b)) = true.
Proof.
  eexists. split; [vm_compute; reflexivity|]. split; [reflexivity|].
  eapply (po_history sample_calls (newAggregate (sample_order APPROVED)));
    [exact (sample_wf APPROVED)|discriminate|discriminate| |right; reflexivity].
  vm_compute. reflexivity.
Defined.

Lemma po_receive_spec_witness :
  is_ok (receive 5%Z [{| r_inventoryItemId := "flour"; r_receivedQuantity := of_Z 2 |}]
           (newAggregate (sample_order APPROVED))) = true ∧
  accepts [{| r_inventoryItemId := "flour"; r_receivedQuantity := of_Z 2 |}]
    (newAggregate (sample_order APPROVED)).
Proof.
  assert (H : is_ok (receive 5%Z
      [{| r_inventoryItemId := "flour"; r_receivedQuantity := of_Z 2 |}]
      (newAggregate (sample_order APPROVED))) = true) by (vm_compute; reflexivity).
  split; [exact H|].
  apply (proj1 (po_receive_spec 5%Z _ (newAggregate (sample_order APPROVED))
                  (sample_wf APPROVED))), H.
Defined.

Lemma po_complete_not_idempotent_witness :
  complete 7%Z (newAggregate (sample_order COMPLETED)) =
    Err (JsError "Cannot transition a completed purchase order").
Proof. apply po_complete_not_idempotent. reflexivity. Defined.
End properties.
