(* ===== verification/Decimal.v ===== *)
(** Decimal arithmetic: the interface of [Prisma.Decimal] and of the
    [Decimal(18, 6)] columns.

    Both are outside the repository (decimal.js inside the Prisma client, and
    PostgreSQL's [numeric]), so their operations are the class [Decimal] and what
    the code relies on is the class [DecimalLaws]: decimal.js keeps 20
    significant digits, so sums, differences and products that fit are exact,
    and division is correctly rounded; a column keeps six decimals.  The laws
    are stated on two grids, the multiples of 10^-6 ([micro]) and of 10^-12
    ([pico], where a product of two micro amounts lies).

    [fixed_point] instantiates both classes with integers, for the witnesses. *)

From stdpp Require Import base list option.
From Stdlib Require Import ZArith Lia.
From S2P Require Import Prelude JsNumber.

Local Open Scope Z_scope.

(** * The operations *)

Class Decimal := {
  D : Type;
  (** [new Prisma.Decimal(x)] for a number. *)
  d_of_number : number → D;
  (** [d.toNumber()]. *)
  d_to_number : D → number;
  d_add : D → D → D;
  d_sub : D → D → D;
  d_mul : D → D → D;
  d_div : D → D → D;
  d_min : D → D → D;
  d_lte : D → D → bool;
  d_gt : D → D → bool;
  d_gte : D → D → bool;
  (** [-d] and the absolute value. *)
  d_abs : D → D;
  (** The value a [Decimal(18, 6)] column holds after a write; [None] when the
      database refuses it. *)
  d_column : D → option D;
  (** [{ increment: d }] and [{ decrement: d }] on such a column. *)
  col_add : D → D → option D;
  col_sub : D → D → option D;
}.

Definition d_zero `{Decimal} : D := d_of_number (of_Z 0).
(** [new Prisma.Decimal(0)] folded over a list of products. *)
Definition d_total `{Decimal} (parts : list (D * D)) : D :=
  fold_left (λ total p, d_add total (d_mul (fst p) (snd p))) parts d_zero.

(** * The laws *)

(** The largest amount of a [Decimal(18, 6)] column, in millionths, and the
    largest integer of 20 digits. *)
Definition micro_max : Z := 10 ^ 18.
Definition digits20 : Z := 10 ^ 20.
Definition million : Z := 10 ^ 6.

Class DecimalLaws (dec : Decimal) := {
  micro : Z → D;
  pico : Z → D;
  (** The number of millionths of a decimal on the micro grid. *)
  unmicro : D → Z;
  unmicro_micro a : Z.abs a < micro_max → unmicro (micro a) = a;
  of_number_int n : Z.abs n < 10 ^ 12 → d_of_number (of_Z n) = micro (n * million);
  micro_pico a : Z.abs a < 10 ^ 14 → micro a = pico (a * million);
  micro_lte a b : Z.abs a < micro_max → Z.abs b < micro_max →
    d_lte (micro a) (micro b) = (a <=? b);
  micro_gte a b : Z.abs a < micro_max → Z.abs b < micro_max →
    d_gte (micro a) (micro b) = (b <=? a);
  micro_gt a b : Z.abs a < micro_max → Z.abs b < micro_max →
    d_gt (micro a) (micro b) = (b <? a);
  micro_min a b : Z.abs a < micro_max → Z.abs b < micro_max →
    d_min (micro a) (micro b) = micro (Z.min a b);
  micro_add a b : Z.abs a < micro_max → Z.abs b < micro_max →
    d_add (micro a) (micro b) = micro (a + b);
  micro_sub a b : Z.abs a < micro_max → Z.abs b < micro_max →
    d_sub (micro a) (micro b) = micro (a - b);
  micro_mul a b : 0 <= a < micro_max → 0 <= b < micro_max → a * b < digits20 →
    d_mul (micro a) (micro b) = pico (a * b);
  pico_add a b : 0 <= a → 0 <= b → a + b < digits20 → d_add (pico a) (pico b) = pico (a + b);
  micro_column a : Z.abs a < micro_max → d_column (micro a) = Some (micro a);
  micro_col_add a b : Z.abs a < micro_max → Z.abs b < micro_max → Z.abs (a + b) < micro_max →
    col_add (micro a) (micro b) = Some (micro (a + b));
  micro_col_sub a b : Z.abs a < micro_max → Z.abs b < micro_max → Z.abs (a - b) < micro_max →
    col_sub (micro a) (micro b) = Some (micro (a - b));
  (** A stored total is within half a millionth of the total. *)
  pico_column x : 0 <= x < digits20 →
    ∃ m, d_column (pico x) = Some (micro m) ∧ Z.abs (m * million - x) <= million / 2;
  (** A column holds multiples of a millionth, and rounding keeps the sign. *)
  column_range d r : d_column d = Some r →
    ∃ c, r = micro c ∧ Z.abs c < micro_max ∧ (d_lte (micro 0) d = true → 0 <= c);
  (** Division is monotone and exact where the quotient is a column value. *)
  div_column_bounds x y lo hi : 0 <= x < digits20 → 0 < y < micro_max →
    0 <= lo → hi < micro_max → lo * y <= x <= hi * y →
    ∃ m, d_column (d_div (pico x) (micro y)) = Some (micro m) ∧ lo <= m <= hi;
  to_number_int n : Z.abs n < 10 ^ 12 → d_to_number (micro (n * million)) = of_Z n;
  (** Rounding is monotone: bounds that are exact carry over to products, sums and
      quotients of amounts between them. *)
  mul_between q lo hi d : 0 <= q < micro_max → 0 <= lo → 0 <= hi < micro_max → q * hi < digits20 →
    d_lte (micro lo) d = true → d_lte d (micro hi) = true →
    d_lte (pico (q * lo)) (d_mul (micro q) d) = true ∧
    d_lte (d_mul (micro q) d) (pico (q * hi)) = true;
  add_between a b lo hi lo' hi' : 0 <= lo → 0 <= lo' → hi + hi' < digits20 →
    d_lte (pico lo) a = true → d_lte a (pico hi) = true →
    d_lte (pico lo') b = true → d_lte b (pico hi') = true →
    d_lte (pico (lo + lo')) (d_add a b) = true ∧ d_lte (d_add a b) (pico (hi + hi')) = true;
  div_between x y lo hi : 0 < y < micro_max → 0 <= lo → hi < micro_max → y * hi < digits20 →
    d_lte (pico (y * lo)) x = true → d_lte x (pico (y * hi)) = true →
    d_lte (micro lo) (d_div x (micro y)) = true ∧ d_lte (d_div x (micro y)) (micro hi) = true;
}.

(** Turn the bounds into literals, for [lia] and [nia]. *)
Ltac literals :=
  unfold micro_max, digits20, million in *;
  change (10 ^ 6 / 2) with 500000 in *; change (10 ^ 6) with 1000000 in *;
  change (10 ^ 12) with 1000000000000 in *; change (10 ^ 14) with 100000000000000 in *;
  change (10 ^ 18) with 1000000000000000000 in *;
  change (10 ^ 20) with 100000000000000000000 in *;
  change (10 ^ 24) with 1000000000000000000000000 in *.

(** * An instance

    Integers counting 10^-12: additions are exact, quotients and products are
    rounded down, columns are rounded to a multiple of 10^6 and bounded. *)
Module FixedPoint.

Definition scale : Z := 10 ^ 12.
Definition of_number (x : number) : Z :=
  match x with Fin z => z * scale / one_units | _ => 0 end.
Definition column (z : Z) : option Z :=
  let m := (z + million / 2) / million in
  if Z.abs m <? micro_max then Some (m * million) else None.

#[export] Instance decimal : Decimal := {|
  D := Z;
  d_of_number := of_number;
  d_to_number d := of_ratio d scale;
  d_add := Z.add;
  d_sub := Z.sub;
  d_mul x y := x * y / scale;
  d_div x y := x * scale / y;
  d_min := Z.min;
  d_lte := Z.leb;
  d_gt x y := y <? x;
  d_gte x y := y <=? x;
  d_abs := Z.abs;
  d_column := column;
  col_add x y := column (x + y);
  col_sub x y := column (x - y);
|}.

Lemma column_micro a : Z.abs a < micro_max → column (a * million) = Some (a * million).
Proof.
  unfold column. intros Ha. literals.
  replace ((a * 1000000 + 500000) / 1000000) with a by (Z.to_euclidean_division_equations; lia).
  by rewrite (proj2 (Z.ltb_lt _ _)).
Qed.

Lemma of_number_micro n : Z.abs n < 10 ^ 12 → of_number (of_Z n) = n * million * million.
Proof.
  intros Hn. rewrite of_Z_exact by (unfold max_exact; lia). unfold of_number.
  replace (n * one_units * scale) with (n * scale * one_units) by ring.
  rewrite Z.div_mul by (pose proof one_units_pos; lia). unfold scale, million. ring.
Qed.

Lemma column_half x : 0 <= x < digits20 →
  ∃ m, column x = Some (m * million) ∧ Z.abs (m * million - x) <= million / 2.
Proof.
  unfold column. intros Hx. literals.
  destruct (Z.ltb_spec (Z.abs ((x + 500000) / 1000000)) 1000000000000000000) as [_|H].
  - eexists. split; [reflexivity|]. Z.to_euclidean_division_equations. lia.
  - Z.to_euclidean_division_equations. lia.
Qed.

Lemma div_bounds x y lo hi : 0 <= x < digits20 → 0 < y < micro_max →
  0 <= lo → hi < micro_max → lo * y <= x <= hi * y →
  ∃ m, column (x * scale / (y * million)) = Some (m * million) ∧ lo <= m <= hi.
Proof.
  intros Hx Hy Hlo Hhi Hb.
  assert (Hq : lo * million <= x * scale / (y * million) <= hi * million).
  { unfold scale. literals. split.
    - apply Z.div_le_lower_bound; [lia|]. nia.
    - apply Z.div_le_upper_bound; [lia|]. nia. }
  remember (x * scale / (y * million)) as q eqn:Eq. clear Eq. unfold column.
  literals. destruct (Z.ltb_spec (Z.abs ((q + 500000) / 1000000)) 1000000000000000000) as [_|H].
  - eexists. split; [reflexivity|]. Z.to_euclidean_division_equations. lia.
  - Z.to_euclidean_division_equations. lia.
Qed.

#[export] Instance laws : DecimalLaws decimal.
Proof.
  refine {| micro a := a * million : @D decimal; pico a := a : @D decimal;
            unmicro (d : @D decimal) := d / million |};
    cbn [D d_of_number d_to_number d_add d_sub d_mul d_div d_min d_lte d_gt d_gte d_column
         col_add col_sub decimal].
  - intros a _. by apply Z.div_mul.
  - intros n Hn. by apply of_number_micro.
  - done.
  - intros a b _ _. unfold million. destruct (Z.leb_spec a b); [apply Z.leb_le|apply Z.leb_gt]; lia.
  - intros a b _ _. unfold million. destruct (Z.leb_spec b a); [apply Z.leb_le|apply Z.leb_gt]; lia.
  - intros a b _ _. unfold million. destruct (Z.ltb_spec b a); [apply Z.ltb_lt|apply Z.ltb_ge]; lia.
  - intros a b _ _. unfold million. lia.
  - intros a b _ _. ring.
  - intros a b _ _. ring.
  - intros a b _ _ _. replace (a * million * (b * million)) with (a * b * scale)
      by (unfold scale, million; ring). by apply Z.div_mul.
  - done.
  - intros a Ha. by apply column_micro.
  - intros a b _ _ H. rewrite <- Z.mul_add_distr_r. by apply column_micro.
  - intros a b _ _ H. rewrite <- Z.mul_sub_distr_r. by apply column_micro.
  - intros x Hx. by apply column_half.
  - unfold column. intros d r. destruct (Z.ltb_spec (Z.abs ((d + million / 2) / million)) micro_max)
      as [Hr|]; [|done].
    intros [= <-]. eexists. split; [reflexivity|]. split; [done|]. intros Hd%Z.leb_le.
    literals. Z.to_euclidean_division_equations. lia.
  - intros x y lo hi. apply div_bounds.
  - intros n Hn. assert (Hm : Z.abs n <= max_exact) by (unfold max_exact; literals; lia).
    rewrite of_Z_exact by done. unfold of_ratio.
    replace (n * million * million * one_units) with (n * one_units * scale)
      by (unfold scale, million; ring).
    rewrite round_int by done. by apply of_units_small.
  - intros q lo hi d Hq Hlo Hhi _ H1%Z.leb_le H2%Z.leb_le. unfold scale. literals.
    split; apply Z.leb_le; [apply Z.div_le_lower_bound|apply Z.div_le_upper_bound]; nia.
  - intros a b lo hi lo' hi' _ _ _ H1%Z.leb_le H2%Z.leb_le H3%Z.leb_le H4%Z.leb_le.
    split; apply Z.leb_le; lia.
  - intros x y lo hi Hy Hlo Hhi _ H1%Z.leb_le H2%Z.leb_le. unfold scale. literals.
    split; apply Z.leb_le; [apply Z.div_le_lower_bound|apply Z.div_le_upper_bound]; nia.
Defined.

End FixedPoint.

(** * Lemmas *)

Section decimals.
Context {dec : Decimal} {laws : DecimalLaws dec}.

Lemma d_zero_micro : d_zero = micro 0.
Proof. unfold d_zero. by rewrite of_number_int by lia. Qed.
Lemma d_zero_pico : d_zero = pico 0.
Proof. rewrite d_zero_micro. by rewrite micro_pico by lia. Qed.

(** The total of amounts (quantity, unit cost) on the micro grid. *)
Definition value (parts : list (Z * Z)) : Z :=
  fold_right (λ p t, fst p * snd p + t) 0 parts.
Definition amounts (parts : list (Z * Z)) : Prop :=
  Forall (λ p, 0 <= fst p < micro_max ∧ 0 <= snd p < micro_max) parts.

Lemma value_nonneg parts : amounts parts → 0 <= value parts.
Proof. induction 1 as [|p parts [??] _ IH]; simpl; [lia|]. nia. Qed.

Lemma value_app xs ys : value (xs ++ ys) = value xs + value ys.
Proof. induction xs as [|p xs IH]; simpl; [done|]. rewrite IH. ring. Qed.

Lemma d_total_from t parts :
  amounts parts → 0 <= t → t + value parts < digits20 →
  fold_left (λ total p, d_add total (d_mul (fst p) (snd p)))
    (map (prod_map micro micro) parts) (pico t) = pico (t + value parts).
Proof.
  intros H. revert t. induction H as [|p parts [Hp Hp'] Hf IH]; simpl; intros t Ht Hv.
  { by rewrite Z.add_0_r. }
  pose proof (value_nonneg parts Hf).
  rewrite micro_mul by nia. rewrite pico_add by nia. rewrite IH by nia. f_equal. ring.
Qed.

(** Adding up stays exact while the total has 20 digits. *)
Lemma d_total_exact parts :
  amounts parts → value parts < digits20 →
  d_total (map (prod_map micro micro) parts) = pico (value parts).
Proof. intros. unfold d_total. rewrite d_zero_pico. by rewrite d_total_from. Qed.

End decimals.
