(* ===== verification/Subscriptions.v ===== *)
(** The subscription of a tenant: its aggregate
    (modules/subscription/domain/subscription.aggregate.ts) and the plan catalogue
    (modules/subscription/plans/plan-catalog.ts).  A call takes the time the code
    reads from the clock. *)

From stdpp Require Import base list strings.
From Stdlib Require Import ZArith Lia.
From S2P Require Import Prelude JsNumber JsString DomainEvents CoreDomain MasterData.

Inductive SubscriptionStatus :=
| TRIAL | SubscriptionACTIVE | PAST_DUE | SubscriptionSUSPENDED | SubscriptionCANCELLED
| SubscriptionEXPIRED.
#[export] Instance SubscriptionStatus_eq_dec : EqDecision SubscriptionStatus.
Proof. solve_decision. Defined.

Inductive PlanType := FREE | STARTER | BUSINESS | ENTERPRISE.
#[export] Instance PlanType_eq_dec : EqDecision PlanType.
Proof. solve_decision. Defined.
Definition PlanType_name (p : PlanType) : string :=
  match p with
  | FREE => "FREE" | STARTER => "STARTER" | BUSINESS => "BUSINESS" | ENTERPRISE => "ENTERPRISE"
  end.

Module Subscription.

Record SubscriptionProps := {
  id : string;
  tenantId : string;
  planId : string;
  pendingPlanId : opt string;
  status : SubscriptionStatus;
  startedAt : Date;
  endedAt : option Date;
  deletedAt : option Date;
}.
Record PlanProps := {
  plan_id : string;
  plan_type : PlanType;
  plan_name : string;
  plan_priceCents : number;
}.
#[export] Instance PlanProps_eq_dec : EqDecision PlanProps.
Proof. solve_decision. Defined.
(** The private state of the aggregate: [props], [plan] and [pendingPlan]. *)
Record State := {
  sub : SubscriptionProps;
  plan : PlanProps;
  pendingPlan : option PlanProps;
}.
Abbreviation t := (aggregate State).

Definition set_status (s : SubscriptionStatus) (p : SubscriptionProps) : SubscriptionProps :=
  {| id := id p; tenantId := tenantId p; planId := planId p; pendingPlanId := pendingPlanId p;
     status := s; startedAt := startedAt p; endedAt := endedAt p; deletedAt := deletedAt p |}.
Definition set_endedAt (d : Date) (p : SubscriptionProps) : SubscriptionProps :=
  {| id := id p; tenantId := tenantId p; planId := planId p; pendingPlanId := pendingPlanId p;
     status := status p; startedAt := startedAt p; endedAt := Some d; deletedAt := deletedAt p |}.
Definition set_plans (plan : string) (pending : opt string) (p : SubscriptionProps)
  : SubscriptionProps :=
  {| id := id p; tenantId := tenantId p; planId := plan; pendingPlanId := pending;
     status := status p; startedAt := startedAt p; endedAt := endedAt p;
     deletedAt := deletedAt p |}.
(** [this.props.f = ...], and an event recorded. *)
Definition with_sub (f : SubscriptionProps → SubscriptionProps) (a : t) : t :=
  setProps {| sub := f (sub (props a)); plan := plan (props a);
              pendingPlan := pendingPlan (props a) |} a.
Definition with_plans (pl : PlanProps) (pending : option PlanProps) (a : t) : t :=
  setProps {| sub := sub (props a); plan := pl; pendingPlan := pending |} a.
Definition emit (e : SubscriptionEvent) (a : t) : t := addDomainEvent (EvSubscription e) a.

Definition create (p : SubscriptionProps) (pl : PlanProps) : t :=
  let a := newAggregate {| sub := p; plan := pl; pendingPlan := None |} in
  if bool_decide (status p = SubscriptionACTIVE) then
    emit (SubscriptionActivatedEvent (id p) (tenantId p) (PlanType_name (plan_type pl)))
      (emit (SubscriptionCreatedEvent (id p) (tenantId p) (PlanType_name (plan_type pl))) a)
  else a.
Definition reconstitute (p : SubscriptionProps) (pl : PlanProps) (pending : option PlanProps)
  : t := newAggregate {| sub := p; plan := pl; pendingPlan := pending |}.

Definition get_status (a : t) : SubscriptionStatus := status (sub (props a)).
(** [this.props.pendingPlanId ?? null]. *)
Definition get_pendingPlanId (a : t) : option string :=
  opt_nullable (pendingPlanId (sub (props a))).
Definition get_planType (a : t) : string := PlanType_name (plan_type (plan (props a))).

Definition isExpired (now : Date) (a : t) : bool :=
  match endedAt (sub (props a)) with Some d => (d <? now)%Z | None => false end.
Definition isDeleted (a : t) : bool :=
  match deletedAt (sub (props a)) with Some _ => true | None => false end.
Definition isActive (now : Date) (a : t) : bool :=
  bool_decide (get_status a = SubscriptionACTIVE) && negb (isDeleted a) &&
  negb (isExpired now a).
Definition canActivate (now : Date) (a : t) : bool :=
  bool_decide (get_status a ∈ [TRIAL; PAST_DUE; SubscriptionSUSPENDED]) &&
  negb (isDeleted a) && negb (isExpired now a).

Definition activate (now : Date) (a : t) : result t :=
  let p := sub (props a) in
  if bool_decide (get_status a = SubscriptionACTIVE) then Ok a
  else if bool_decide (get_status a = SubscriptionCANCELLED)
  then Err (JsError "Cannot activate a cancelled subscription")
  else if bool_decide (get_status a = SubscriptionEXPIRED)
  then Err (JsError "Cannot activate an expired subscription")
  else if isDeleted a || isExpired now a
  then Err (JsError "Cannot activate an expired subscription")
  else Ok (emit (SubscriptionActivatedEvent (id p) (tenantId p) (get_planType a))
             (with_sub (set_status SubscriptionACTIVE) a)).

(** [if (this.pendingPlan) { ... }] of [renew]. *)
Definition apply_pending (a : t) : t :=
  match pendingPlan (props a) with
  | Some pl =>
      emit (SubscriptionPlanChangedEvent (id (sub (props a))) (tenantId (sub (props a)))
              (get_planType a) (PlanType_name (plan_type pl)))
        (with_sub (set_plans (plan_id pl) Null) (with_plans pl None a))
  | None => a
  end.
Definition renew (billingPeriodStart billingPeriodEnd : Date) (a : t) : result t :=
  let p := sub (props a) in
  if bool_decide (get_status a = SubscriptionCANCELLED)
  then Err (JsError "Cannot renew a cancelled subscription")
  else if isDeleted a then Err (JsError "Cannot renew a deleted subscription")
  else if (billingPeriodEnd <=? billingPeriodStart)%Z
  then Err (JsError "Billing period start must be before its end")
  else if bool_decide (get_status a = SubscriptionACTIVE) &&
          match endedAt p with Some d => (billingPeriodEnd <=? d)%Z | None => false end
  then Ok a
  else if truthy (get_pendingPlanId a) && bool_decide (pendingPlan (props a) = None)
  then Err (JsError ("Subscription " ++ id p ++ " has a pending plan ID without its plan"))
  else
    let b := apply_pending a in
    Ok (emit (SubscriptionRenewedEvent (id p) (tenantId p) (get_planType b)
                (toISOString billingPeriodStart) (toISOString billingPeriodEnd))
          (with_sub (λ p, set_endedAt billingPeriodEnd (set_status SubscriptionACTIVE p)) b)).

Definition cancel (reason : option string) (a : t) : result t :=
  let p := sub (props a) in
  if bool_decide (get_status a = SubscriptionCANCELLED) then Ok a
  else if bool_decide (get_status a = SubscriptionEXPIRED)
  then Err (JsError "Cannot cancel an already expired subscription")
  else Ok (emit (SubscriptionCancelledEvent (id p) (tenantId p) reason)
             (with_sub (set_status SubscriptionCANCELLED) a)).

Definition expire (a : t) : t :=
  let p := sub (props a) in
  if bool_decide (get_status a = SubscriptionEXPIRED) then a
  else emit (SubscriptionExpiredEvent (id p) (tenantId p))
         (with_sub (set_status SubscriptionEXPIRED) a).

Definition suspend (reason : option string) (a : t) : result t :=
  let p := sub (props a) in
  if bool_decide (get_status a = SubscriptionSUSPENDED) then Ok a
  else if bool_decide (get_status a = SubscriptionCANCELLED)
  then Err (JsError "Cannot suspend a cancelled subscription")
  else if bool_decide (get_status a = SubscriptionEXPIRED)
  then Err (JsError "Cannot suspend an expired subscription")
  else Ok (emit (SubscriptionSuspendedEvent (id p) (tenantId p) reason)
             (with_sub (set_status SubscriptionSUSPENDED) a)).

Definition schedulePlanChange (newPlan : PlanProps) (a : t) : t :=
  let p := sub (props a) in
  let previousPendingPlanId := get_pendingPlanId a in
  let nextPendingPlan :=
    if bool_decide (plan_id newPlan = plan_id (plan (props a))) then None else Some newPlan in
  let nextPendingPlanId := plan_id <$> nextPendingPlan in
  if bool_decide (previousPendingPlanId = nextPendingPlanId) then a
  else emit (SubscriptionPlanChangeScheduledEvent (id p) (tenantId p) (planId p)
               previousPendingPlanId nextPendingPlanId "NEXT_RENEWAL")
         (with_sub (λ p, set_plans (planId p) (opt_of_nullable nextPendingPlanId) p)
            (with_plans (plan (props a)) nextPendingPlan a)).

Definition markPastDue (dueAmountCents : number) (a : t) : t :=
  let p := sub (props a) in
  emit (SubscriptionPastDueEvent (id p) (tenantId p) dueAmountCents)
    (with_sub (set_status PAST_DUE) a).

(** ** Histories of calls *)

Inductive call :=
| Activate
| Renew (billingPeriodStart billingPeriodEnd : Date)
| Cancel (reason : option string)
| Expire
| Suspend (reason : option string)
| SchedulePlanChange (newPlan : PlanProps)
| MarkPastDue (dueAmountCents : number).
Definition run (c : call) (now : Date) (a : t) : result t :=
  match c with
  | Activate => activate now a
  | Renew s e => renew s e a
  | Cancel r => cancel r a
  | Expire => Ok (expire a)
  | Suspend r => suspend r a
  | SchedulePlanChange p => Ok (schedulePlanChange p a)
  | MarkPastDue n => Ok (markPastDue n a)
  end.
Fixpoint run_all (cs : list (call * Date)) (a : t) : result t :=
  match cs with
  | [] => Ok a
  | (c, now) :: cs => b ← run c now a; run_all cs b
  end.
End Subscription.

(** * The plan catalogue *)

Module PlanCatalog.
Record PlanCatalogEntry := {
  id : string;
  type : PlanType;
  name : string;
  priceCents : Z;
  maxOutlets : Z;
  maxUsers : Z;
  maxCategories : Z;
  trialDays : Z;
  trialEligible : bool;
}.
(** [Number.MAX_SAFE_INTEGER]. *)
Definition unlimited : Z := (2 ^ 53 - 1)%Z.
Definition DEFAULT_PLAN_CATALOG (p : PlanType) : PlanCatalogEntry :=
  match p with
  | FREE => {| id := "plan-free"; type := FREE; name := "Free"; priceCents := 0; maxOutlets := 1;
               maxUsers := 2; maxCategories := 1; trialDays := 0; trialEligible := false |}
  | STARTER => {| id := "plan-starter"; type := STARTER; name := "Starter";
                  priceCents := 199000; maxOutlets := 2; maxUsers := 5; maxCategories := 1;
                  trialDays := 0; trialEligible := false |}
  | BUSINESS => {| id := "plan-business"; type := BUSINESS; name := "Business";
                   priceCents := 499000; maxOutlets := 5; maxUsers := 20; maxCategories := 2;
                   trialDays := 30; trialEligible := true |}
  | ENTERPRISE => {| id := "plan-enterprise"; type := ENTERPRISE; name := "Enterprise";
                     priceCents := 0; maxOutlets := unlimited; maxUsers := unlimited;
                     maxCategories := unlimited; trialDays := 0; trialEligible := false |}
  end%Z.
Definition plan_types : list PlanType := [FREE; STARTER; BUSINESS; ENTERPRISE].
Definition getPlanCatalogEntry (type : string) : result PlanCatalogEntry :=
  match List.find (λ p, bool_decide (PlanType_name p = toUpperCase type)) plan_types with
  | Some p => Ok (DEFAULT_PLAN_CATALOG p)
  | None => Err (JsError ("Unsupported plan type: " ++ type))
  end.
End PlanCatalog.

(** * Properties *)

Module SubscriptionFacts.
Import Subscription.
Implicit Types (a b : t) (c : call).

(** The plan ids are those of the plans, and the scheduled plan is another one than
    the current plan. *)
Definition consistent a : Prop :=
  planId (sub (props a)) = plan_id (plan (props a)) ∧
  get_pendingPlanId a = plan_id <$> pendingPlan (props a) ∧
  ∀ p, pendingPlan (props a) = Some p → plan_id p ≠ plan_id (plan (props a)).

(** What a reader of the events knows of a subscription. *)
Record View := { v_status : SubscriptionStatus; v_planType : string; v_pending : option string }.
Definition view a : View :=
  {| v_status := get_status a; v_planType := get_planType a; v_pending := get_pendingPlanId a |}.
Definition replay (v : View) (e : DomainEvent) : View :=
  let at_status s := {| v_status := s; v_planType := v_planType v; v_pending := v_pending v |} in
  match e with
  | EvSubscription (SubscriptionActivatedEvent _ _ _)
  | EvSubscription (SubscriptionRenewedEvent _ _ _ _ _) => at_status SubscriptionACTIVE
  | EvSubscription (SubscriptionCancelledEvent _ _ _) => at_status SubscriptionCANCELLED
  | EvSubscription (SubscriptionExpiredEvent _ _) => at_status SubscriptionEXPIRED
  | EvSubscription (SubscriptionSuspendedEvent _ _ _) => at_status SubscriptionSUSPENDED
  | EvSubscription (SubscriptionPastDueEvent _ _ _) => at_status PAST_DUE
  | EvSubscription (SubscriptionPlanChangedEvent _ _ _ new) =>
      {| v_status := v_status v; v_planType := new; v_pending := None |}
  | EvSubscription (SubscriptionPlanChangeScheduledEvent _ _ _ _ pending _) =>
      {| v_status := v_status v; v_planType := v_planType v; v_pending := pending |}
  | _ => v
  end.

(** What no call changes. *)
Definition identity a : string * string * Date * option Date :=
  let p := sub (props a) in (id p, tenantId p, startedAt p, deletedAt p).

(** One call: it either changes nothing and says nothing, or says what it changes. *)
Definition call_ok a b : Prop :=
  identity b = identity a ∧ (consistent a → consistent b) ∧
  ∃ es, emits es a b ∧ view b = fold_left replay es (view a) ∧ (es = [] → b = a).

Lemma call_ok_refl a : call_ok a a.
Proof. split_and!; [done|done|]. exists []. by split_and!; [apply emits_refl|..]. Qed.

Lemma emit_status_ok (s : SubscriptionStatus) (e : SubscriptionEvent) a :
  (∀ v, replay v (EvSubscription e) =
     {| v_status := s; v_planType := v_planType v; v_pending := v_pending v |}) →
  call_ok a (emit e (with_sub (set_status s) a)).
Proof.
  intros Hr. split_and!; [done|done|]. exists [EvSubscription e].
  split_and!; [done| |done]. cbn [fold_left]. by rewrite Hr.
Qed.

Lemma with_endedAt_ok (d : Date) (s : SubscriptionStatus) (e : SubscriptionEvent) a :
  (∀ v, replay v (EvSubscription e) =
     {| v_status := s; v_planType := v_planType v; v_pending := v_pending v |}) →
  call_ok a (emit e (with_sub (λ p, set_endedAt d (set_status s p)) a)).
Proof.
  intros Hr. split_and!; [done|done|]. exists [EvSubscription e].
  split_and!; [done| |done]. cbn [fold_left]. by rewrite Hr.
Qed.

Lemma call_ok_trans a b d : call_ok a b → call_ok b d → call_ok a d.
Proof.
  intros (I1 & C1 & es1 & E1 & V1 & N1) (I2 & C2 & es2 & E2 & V2 & N2).
  split_and!; [congruence|auto|]. exists (es1 ++ es2).
  split_and!; [by eapply emits_trans|by rewrite fold_left_app, <- V1|].
  intros [-> ->]%app_eq_nil. rewrite N2, N1; done.
Qed.

Lemma apply_pending_ok a : call_ok a (apply_pending a).
Proof.
  unfold apply_pending. destruct (pendingPlan (props a)) as [pl|] eqn:E; [|apply call_ok_refl].
  split_and!; [done| |].
  - intros (H1 & H2 & H3). unfold consistent. simpl. by split_and!.
  - eexists [_]. by split_and!.
Qed.

Lemma run_ok c now a b : run c now a = Ok b → call_ok a b.
Proof.
  destruct c; simpl; intros H.
  - unfold activate in H. inv_ok H; subst; [apply call_ok_refl|]. by apply emit_status_ok.
  - unfold renew in H. inv_ok H; subst; [apply call_ok_refl|].
    eapply call_ok_trans; [apply apply_pending_ok|]. by apply with_endedAt_ok.
  - unfold cancel in H. inv_ok H; subst; [apply call_ok_refl|]. by apply emit_status_ok.
  - injection H as <-. unfold expire. case_bool_decide; [apply call_ok_refl|].
    by apply emit_status_ok.
  - unfold suspend in H. inv_ok H; subst; [apply call_ok_refl|]. by apply emit_status_ok.
  - injection H as <-. unfold schedulePlanChange. case_bool_decide as E; [apply call_ok_refl|].
    split_and!; [done| |eexists [_]; split_and!; [done| |done]].
    + intros (H1 & H2 & H3). unfold consistent, get_pendingPlanId. simpl. split_and!; [done| |].
      * by destruct (bool_decide _).
      * intros p. case_bool_decide; [done|]. by intros [= <-].
    + unfold view, get_status, get_planType, get_pendingPlanId. simpl. by case_bool_decide.
  - injection H as <-. by apply emit_status_ok.
Qed.

(** C32: The events of a subscription tell its story: along every history of successful
    calls the status, the plan and the scheduled plan are what replaying the recorded
    events gives, no call changes anything without an event, the plan ids stay those
    of the plans, and identity, tenant, start and deletion never change. *)
Theorem subscription_log (cs : list (call * Date)) a b :
  run_all cs a = Ok b →
  identity b = identity a ∧ (consistent a → consistent b) ∧
  ∃ es, emits es a b ∧ view b = fold_left replay es (view a) ∧ (es = [] → b = a).
Proof.
  revert a. induction cs as [|[c now] cs IH]; simpl; intros a H.
  { injection H as <-. apply call_ok_refl. }
  inv_ok H. eapply call_ok_trans; [by eapply run_ok|]. by apply IH.
Qed.

Lemma renew_covered (s e d : Date) b :
  get_status b = SubscriptionACTIVE → isDeleted b = false →
  endedAt (sub (props b)) = Some d → (s < e)%Z → (e <= d)%Z →
  renew s e b = Ok b ∧ ∀ now, (now <= d)%Z → isActive now b = true.
Proof.
  intros H1 H2 H3 Hs He. unfold renew, isActive, isExpired. rewrite H1, H2, H3.
  rewrite (bool_decide_false (SubscriptionACTIVE = SubscriptionCANCELLED)) by done.
  rewrite bool_decide_true by done.
  replace (e <=? s)%Z with false by (symmetry; apply Z.leb_gt; exact Hs).
  replace (e <=? d)%Z with true by (symmetry; apply Z.leb_le; exact He).
  split; [done|]. intros now Hn. simpl. apply negb_true_iff, Z.ltb_ge. exact Hn.
Qed.

(** Renewal: it succeeds on any subscription that is neither cancelled nor deleted,
    for a proper period, when the scheduled plan is loaded.  An active subscription
    that already runs to the end of the period is left alone; any other one becomes
    active until that end on the scheduled plan, if there is one, which is scheduled
    no longer.  So renewing twice for a period - or for one that ends earlier -
    renews once. *)
Theorem subscription_renew (s e : Date) a :
  consistent a →
  (is_ok (renew s e a) = true ↔
     get_status a ≠ SubscriptionCANCELLED ∧ isDeleted a = false ∧ (s < e)%Z) ∧
  ∀ b, renew s e a = Ok b →
    (b = a ∧ get_status a = SubscriptionACTIVE ∧
       (∃ d, endedAt (sub (props a)) = Some d ∧ (e <= d)%Z) ∨
     get_status b = SubscriptionACTIVE ∧ endedAt (sub (props b)) = Some e ∧
       plan (props b) = default (plan (props a)) (pendingPlan (props a)) ∧
       pendingPlan (props b) = None) ∧
    (∀ now, (now <= e)%Z → isActive now b = true) ∧
    (∀ s' e', (s' < e')%Z → (e' <= e)%Z → renew s' e' b = Ok b).
Proof.
  intros (_ & Hp & _). unfold renew at 1 2.
  replace (truthy (get_pendingPlanId a) && bool_decide (pendingPlan (props a) = None))
    with false by (rewrite Hp; destruct (pendingPlan (props a)); [|done];
      by rewrite bool_decide_false, andb_false_r by done).
  destruct (bool_decide (get_status a = SubscriptionCANCELLED)) eqn:Hc; bool_hyps.
  { split; [|done]. split; [done|]. by intros (? & _). }
  destruct (isDeleted a) eqn:Hd. { split; [|done]. split; [done|]. by intros (_ & ? & _). }
  destruct (e <=? s)%Z eqn:Hse.
  { apply Z.leb_le in Hse. split; [|done]. split; [done|]. intros (_ & _ & ?). lia. }
  apply Z.leb_gt in Hse. destruct (_ && _) eqn:Hcov; (split; [done|]); intros b [= <-].
  - bool_hyps. destruct (endedAt (sub (props a))) as [d|] eqn:Hend; [|done].
    match goal with H : (_ <=? _)%Z = true |- _ => apply Z.leb_le in H as Hle end.
    split_and!; [left; eauto| |].
    + intros now Hnow. apply (renew_covered s e d); [done..|]. by etrans.
    + intros s' e' Hs' He'. apply (renew_covered s' e' d); [done..|]. by etrans.
  - match goal with |- context [emit ?ev _] => set (ev' := ev) end. set (b := emit ev' _).
    assert (Hb : get_status b = SubscriptionACTIVE ∧ isDeleted b = false ∧
                 endedAt (sub (props b)) = Some e ∧ pendingPlan (props b) = None ∧
                 plan (props b) = default (plan (props a)) (pendingPlan (props a))).
    { subst b ev'. unfold apply_pending, isDeleted in *.
      destruct (pendingPlan (props a)) eqn:E; simpl in *; rewrite ?E; by split_and!. }
    destruct Hb as (H1 & H2 & H3 & H4 & H5). split_and!.
    + right. by split_and!.
    + intros now Hnow. by apply (renew_covered s e e).
    + intros s' e' Hs' He'. by apply (renew_covered s' e' e).
Qed.

Definition live (s : SubscriptionStatus) : bool :=
  bool_decide (s ∈ [TRIAL; PAST_DUE; SubscriptionSUSPENDED]).

(** Access: activating succeeds exactly on a subscription that is already active or
    that [canActivate] admits, and an admitted one is active afterwards; cancelling,
    suspending, expiring and marking as past due end the access at once and for all
    times.  The calls that succeed on a cancelled subscription and change its status
    are expiry and being marked as past due: but the latter has no guard, and a
    subscription that is past due can be activated, so the two together revive a
    cancelled subscription that [activate] alone refuses. *)
Theorem subscription_access (now : Date) a :
  (is_ok (activate now a) = true ↔
     get_status a = SubscriptionACTIVE ∨ canActivate now a = true) ∧
  (canActivate now a = true → ∃ b, activate now a = Ok b ∧ isActive now b = true) ∧
  (∀ c later now' b,
     match c with Cancel _ | Suspend _ | Expire | MarkPastDue _ => True | _ => False end →
     run c later a = Ok b → isActive now' b = false) ∧
  (get_status a = SubscriptionCANCELLED →
     (∀ c b, run c now a = Ok b → get_status b = SubscriptionCANCELLED ∨
        c = Expire ∨ ∃ n, c = MarkPastDue n) ∧
     (is_ok (activate now a) = false) ∧
     (isDeleted a = false → isExpired now a = false →
      ∀ n, ∃ b, run_all [(MarkPastDue n, now); (Activate, now)] a = Ok b ∧
        isActive now b = true)).
Proof.
  split_and!.
  - unfold activate, canActivate, get_status. destruct (status (sub (props a))); simpl;
      destruct (isDeleted a), (isExpired now a); simpl; naive_solver.
  - unfold activate, canActivate, isActive, isDeleted, isExpired, get_status.
    destruct (status (sub (props a))), (deletedAt (sub (props a))) eqn:Ed; simpl; try done;
      destruct (endedAt (sub (props a))) eqn:Ee; simpl; try (destruct (_ <? _)%Z eqn:El);
      simpl; try done; intros _; eexists; (split; [done|]); simpl;
      rewrite ?Ed, ?Ee, ?El; done.
  - intros c later now' b Hc H. unfold isActive.
    rewrite bool_decide_false; [done|]. revert H.
    destruct c; try done; simpl; unfold cancel, suspend, expire; intros H; inv_ok H; subst;
      bool_hyps; unfold get_status in *; try case_bool_decide; simpl in *; congruence.
  - intros Hs. split_and!.
    + intros c b H. destruct c; simpl in H; eauto; left;
        unfold activate, renew, cancel, suspend, get_status in *; rewrite ?Hs in H; simpl in H;
        try discriminate H; injection H as <-; [done|].
      unfold schedulePlanChange. by case_bool_decide.
    + unfold activate. by rewrite Hs.
    + intros Hd He n. unfold isDeleted, isExpired in *. eexists. split.
      * simpl. unfold activate, isDeleted, isExpired, get_status. simpl.
        destruct (deletedAt (sub (props a))); [done|]. simpl. rewrite He. reflexivity.
      * unfold isActive, isDeleted, isExpired, get_status. simpl.
        destruct (deletedAt (sub (props a))); [done|]. by rewrite He.
Qed.
End SubscriptionFacts.

(** * A concrete subscription, for the witnesses *)

Module SubscriptionExamples.
Import Subscription SubscriptionFacts.

Definition starter : PlanProps :=
  {| plan_id := "plan-starter"; plan_type := STARTER; plan_name := "Starter";
     plan_priceCents := of_Z 199000 |}.
Definition business : PlanProps :=
  {| plan_id := "plan-business"; plan_type := BUSINESS; plan_name := "Business";
     plan_priceCents := of_Z 499000 |}.
Definition sample (s : SubscriptionStatus) (pending : option PlanProps) : t :=
  reconstitute {| id := "s-1"; tenantId := "t-1"; planId := "plan-starter";
                  pendingPlanId := opt_of_nullable (plan_id <$> pending); status := s;
                  startedAt := 0%Z; endedAt := Some 100%Z; deletedAt := None |} starter pending.

Lemma sample_consistent s : consistent (sample s (Some business)).
Proof. split_and!; [done|done|]. by intros p [= <-]. Qed.

Lemma subscription_log_witness :
  ∃ b es, run_all [(Suspend None, 10%Z); (Activate, 20%Z); (Renew 100%Z 200%Z, 90%Z);
                   (Cancel None, 95%Z)] (sample SubscriptionACTIVE (Some business)) = Ok b ∧
    emits es (sample SubscriptionACTIVE (Some business)) b ∧
    view b = fold_left replay es (view (sample SubscriptionACTIVE (Some business))).
Proof.
  destruct (run_all _ (sample SubscriptionACTIVE (Some business))) as [b|e] eqn:E;
    [|vm_compute in E; discriminate E].
  pose proof (subscription_log _ _ _ E) as (_ & _ & es & H1 & H2 & _).
  exists b, es. split; [reflexivity|]. split; [exact H1|exact H2].
Defined.

Lemma subscription_renew_witness :
  ∃ b, renew 100%Z 200%Z (sample PAST_DUE (Some business)) = Ok b ∧ renew 100%Z 200%Z b = Ok b.
Proof.
  destruct (renew 100%Z 200%Z (sample PAST_DUE (Some business))) as [b|e] eqn:E;
    [|vm_compute in E; discriminate E].
  exists b. split; [reflexivity|].
  apply (proj2 (subscription_renew 100%Z 200%Z _ (sample_consistent PAST_DUE)) b E);
    [reflexivity|discriminate].
Defined.

Lemma subscription_access_witness :
  ∃ b, run_all [(MarkPastDue (of_Z 199000), 50%Z); (Activate, 50%Z)]
         (sample SubscriptionCANCELLED None) = Ok b ∧ isActive 50%Z b = true.
Proof.
  apply (subscription_access 50%Z (sample SubscriptionCANCELLED None)); reflexivity.
Defined.
End SubscriptionExamples.
