(* ===== verification/Database.v ===== *)
(** The store: the tables of the database the services use, the Prisma calls on
    them, and the transaction that runs a service method.

    A table is the list of its rows in insertion order, which is the order an
    unordered query returns here.  A transaction runs alone: the row locks and
    status checks of the code are in the model, the interleaving they exclude is
    not.  Text and number columns are values of their type; a [Decimal(18, 6)]
    column is a [D]. *)

From stdpp Require Import base list strings option sorting sets pretty.
From Stdlib Require Import ZArith Eqdep_dec.
From S2P Require Import Prelude JsNumber JsString DomainEvents CoreDomain MasterData Lifecycles.
From S2P Require Import PurchaseOrderAggregate Subscriptions Decimal.

(** * Enumerations and JSON *)

Inductive InventoryMovementType :=
| STOCK_IN | SALE | WASTE | ADJUSTMENT | RETURN | STOCK_OUT | PURCHASE | CONSUMPTION
| PRODUCTION | TRANSFER.
#[export] Instance InventoryMovementType_eq_dec : EqDecision InventoryMovementType.
Proof. solve_decision. Defined.
Inductive InventoryValuationMethod := FIFO | MOVING_WEIGHTED_AVERAGE | STANDARD_COST.
#[export] Instance InventoryValuationMethod_eq_dec : EqDecision InventoryValuationMethod.
Proof. solve_decision. Defined.
Inductive MovingAverageScope := PER_WAREHOUSE | PER_ITEM.
#[export] Instance MovingAverageScope_eq_dec : EqDecision MovingAverageScope.
Proof. solve_decision. Defined.
Inductive InventoryReorderScope := ReorderPER_WAREHOUSE | TENANT_ITEM_TOTAL.
#[export] Instance InventoryReorderScope_eq_dec : EqDecision InventoryReorderScope.
Proof. solve_decision. Defined.
Inductive InventoryReorderQuantityStrategy := TARGET_STOCK | FIXED_QUANTITY.
#[export] Instance InventoryReorderQuantityStrategy_eq_dec :
  EqDecision InventoryReorderQuantityStrategy.
Proof. solve_decision. Defined.
Inductive InventoryReorderAction := ALERT_ONLY | ALERT_AND_SUGGEST.
#[export] Instance InventoryReorderAction_eq_dec : EqDecision InventoryReorderAction.
Proof. solve_decision. Defined.
Inductive WarehouseTransferStatus :=
| TransferPENDING | IN_TRANSIT | TransferPARTIALLY_RECEIVED | TransferRECEIVED
| TransferCANCELLED.
#[export] Instance WarehouseTransferStatus_eq_dec : EqDecision WarehouseTransferStatus.
Proof. solve_decision. Defined.
Definition WarehouseTransferStatus_name (s : WarehouseTransferStatus) : string :=
  match s with
  | TransferPENDING => "PENDING" | IN_TRANSIT => "IN_TRANSIT"
  | TransferPARTIALLY_RECEIVED => "PARTIALLY_RECEIVED" | TransferRECEIVED => "RECEIVED"
  | TransferCANCELLED => "CANCELLED"
  end.
Inductive BusinessType := CAFE | RETAIL | LAUNDRY | GYM | HOTEL | MANUFACTURING.
#[export] Instance BusinessType_eq_dec : EqDecision BusinessType.
Proof. solve_decision. Defined.
(** enum TenantStatus *)
Inductive TenantStatus := TenantACTIVE | TenantSUSPENDED | TenantDEACTIVATED.
#[export] Instance TenantStatus_eq_dec : EqDecision TenantStatus.
Proof. solve_decision. Defined.
Inductive OrderMode := REGULAR | OPEN_BILL.
#[export] Instance OrderMode_eq_dec : EqDecision OrderMode.
Proof. solve_decision. Defined.
Inductive PaymentMethod := CASH | QRIS | PaymentTRANSFER.
#[export] Instance PaymentMethod_eq_dec : EqDecision PaymentMethod.
Proof. solve_decision. Defined.
(** XenditPaymentRequestAttemptState *)
Inductive AttemptState := AttemptIN_PROGRESS | AttemptREJECTED | AttemptUNKNOWN | AttemptCOMPLETED.
#[export] Instance AttemptState_eq_dec : EqDecision AttemptState.
Proof. solve_decision. Defined.

Inductive OutboxEventStatus := OutboxPENDING | PROCESSING | PROCESSED | OutboxFAILED.
#[export] Instance OutboxEventStatus_eq_dec : EqDecision OutboxEventStatus.
Proof. solve_decision. Defined.

(** A value that [JSON.stringify] writes; a property that is [undefined] is left out where
    the value is made. *)
Inductive json :=
| JNull
| JBool (b : bool)
| JNumber (n : number)
| JString (s : string)
| JDate (d : Date)
| JArray (l : list json)
| JObject (l : list (string * json)).
Definition JNullable (s : option string) : json :=
  match s with Some s => JString s | None => JNull end.
(** [JSON.parse(JSON.stringify(j))]: a date becomes its ISO text, and a number that is not
    finite becomes null. *)
Fixpoint stringified (j : json) : json :=
  match j with
  | JNumber n => if isFinite n then JNumber n else JNull
  | JDate d => JString (toISOString d)
  | JArray l => JArray (map stringified l)
  | JObject l => JObject (map (λ p, (fst p, stringified (snd p))) l)
  | _ => j
  end.
(** The [Json] column of an event: a text, kept as what it parses to ([None] where it does
    not parse), or a value. *)
Inductive payload_column := PayloadText (parsed : option json) | PayloadValue (j : json).
Definition JSON_stringify (j : json) : payload_column := PayloadText (Some (stringified j)).

(** * What the code gets from its platform *)

Class Platform := {
  (** The ids of [@default(cuid())]: the n-th one made. *)
  cuid : nat → string;
  (** [createHash('sha256').update(JSON.stringify(j)).digest('hex')], and of a text. *)
  sha256 : json → string;
  sha256_text : string → string;
  (** [a.localeCompare(b) <= 0], and [a <= b] in the collation of the database. *)
  localeLe : string → string → bool;
  collateLe : string → string → bool;
  (** [getFullYear()], [getMonth()] and [new Date(year, month, day, h, m, s, ms)] in the
      time zone of the server. *)
  getFullYear : Date → Z;
  getMonth : Date → Z;
  newDate : Z → Z → Z → Z → Z → Z → Z → Date;
}.

(** The year and the padded month that document numbers carry. *)
Definition yearMonth `{Platform} (d : Date) : string :=
  (pretty (getFullYear d) ++ padStart 2 (pretty (getMonth d + 1)%Z))%string.

(** Ids are not made twice. *)
Class UniqueIds `{Platform} : Prop := cuid_inj :: Inj (=) (=) cuid.

(** * Rows *)

(** An ingredient of a recipe, with the item it includes. *)
Record RecipeLine := { rl_itemId : string; rl_itemName : string; rl_quantity : number }.
(** An order line with the relations the services include: the product's name, its
    inventory item and its recipe. *)
Record OrderLine := {
  line_productId : string;
  line_quantity : number;
  line_price : number;
  line_subtotal : number;
  line_productName : string;
  line_inventoryItem : option string;
  line_inventoryItemId : option string;
  line_recipe : option (list RecipeLine);
}.

Section rows.
Context {dec : Decimal}.

(** model InventoryItem *)
Record ItemRow := {
  it_id : string; it_tenantId : string;
  it_valuationMethod : option InventoryValuationMethod;
  it_movingAverageScope : option MovingAverageScope; it_standardCost : option D;
  it_averageUnitCost : option D; it_valuationLockedAt : option Date;
}.
(** model InventoryStock *)
Record StockRow := {
  st_id : string; st_warehouseId : option string; st_inventoryItemId : string;
  st_quantity : number; st_averageUnitCost : option D; st_createdAt : Date;
  st_updatedAt : Date;
}.
(** model InventoryMovement *)
Record MovementRow := {
  mv_id : string; mv_tenantId : string; mv_type : InventoryMovementType;
  mv_quantity : number; mv_note : option string; mv_createdAt : Date;
  mv_beforeQuantity : option number; mv_afterQuantity : option number;
  mv_createdById : option string; mv_inventoryItemId : string;
  mv_referenceId : option string; mv_referenceType : option string;
  mv_warehouseId : option string; mv_unitCost : option D; mv_totalCost : option D;
}.
(** model InventoryCostLayer *)
Record LayerRow := {
  ly_id : string; ly_tenantId : string; ly_inventoryItemId : string;
  ly_warehouseId : option string; ly_sourceMovementId : option string;
  ly_sourceType : string; ly_sourceReferenceId : option string; ly_receivedQuantity : D;
  ly_remainingQuantity : D; ly_unitCost : D; ly_createdAt : Date;
}.
(** model InventoryMovementCostAllocation *)
Record AllocationRow := {
  al_id : string; al_movementId : string; al_costLayerId : option string; al_quantity : D;
  al_unitCost : D;
}.
(** model InventoryPurchasePriceVariance *)
Record VarianceRow := {
  pv_id : string; pv_tenantId : string; pv_receiptId : string; pv_receiptItemId : string;
  pv_purchaseOrderId : string; pv_purchaseOrderItemId : string; pv_inventoryItemId : string;
  pv_warehouseId : string; pv_quantity : D; pv_standardUnitCost : D; pv_actualUnitCost : D;
  pv_varianceAmount : D; pv_currencyCode : option string;
}.
(** model PurchaseOrder *)
Record OrderRow := {
  po_id : string; po_tenantId : string; po_poNumber : string;
  po_status : PurchaseOrderStatus; po_supplierId : string; po_warehouseId : option string;
  po_expectedDeliveryDate : option Date; po_totalAmount : number;
  po_currencyCode : option string; po_notes : option string; po_receivedAt : option Date;
  po_completedAt : option Date; po_createdAt : Date; po_updatedAt : Date;
}.
(** model PurchaseOrderItem *)
Record OrderItemRow := {
  oi_id : string; oi_purchaseOrderId : string; oi_inventoryItemId : string;
  oi_quantity : number; oi_unitPrice : number; oi_subtotal : number;
  oi_receivedQuantity : number;
}.
(** model PurchaseOrderReceipt *)
Record ReceiptRow := {
  rc_id : string; rc_tenantId : string; rc_purchaseOrderId : string;
  rc_createdById : option string; rc_idempotencyKey : string; rc_requestHash : string;
  rc_statusAfter : PurchaseOrderStatus; rc_note : option string; rc_createdAt : Date;
}.
(** model PurchaseOrderReceiptItem *)
Record ReceiptItemRow := {
  ri_id : string; ri_tenantId : string; ri_receiptId : string;
  ri_purchaseOrderItemId : string; ri_inventoryItemId : string;
  ri_receivedQuantity : number;
}.
(** model WarehouseTransfer *)
Record TransferRow := {
  tr_id : string; tr_tenantId : string; tr_sourceWarehouseId : string;
  tr_destinationWarehouseId : string; tr_createdById : string;
  tr_shippedById : option string; tr_idempotencyKey : string; tr_requestHash : string;
  tr_status : WarehouseTransferStatus; tr_note : option string; tr_createdAt : Date;
  tr_shippedAt : option Date; tr_receivedAt : option Date;
}.
(** model WarehouseTransferItem *)
Record TransferItemRow := {
  ti_id : string; ti_transferId : string; ti_inventoryItemId : string; ti_quantity : number;
  ti_receivedQuantity : number;
}.
(** model WarehouseTransferReceipt *)
Record TransferReceiptRow := {
  tc_id : string; tc_tenantId : string; tc_transferId : string; tc_createdById : string;
  tc_idempotencyKey : string; tc_requestHash : string; tc_note : option string;
  tc_createdAt : Date;
}.
(** model WarehouseTransferReceiptItem *)
Record TransferReceiptItemRow := {
  tj_id : string; tj_tenantId : string; tj_receiptId : string; tj_transferItemId : string;
  tj_inventoryItemId : string; tj_receivedQuantity : number;
}.
(** model InventoryReorderRule *)
Record ReorderRuleRow := {
  rr_id : string; rr_tenantId : string; rr_inventoryItemId : string;
  rr_warehouseId : option string; rr_locationKey : string; rr_scope : InventoryReorderScope;
  rr_quantityStrategy : InventoryReorderQuantityStrategy;
  rr_action : InventoryReorderAction; rr_reorderPoint : number;
  rr_targetStock : option number; rr_fixedOrderQuantity : option number;
  rr_createdAt : Date; rr_updatedAt : Date;
}.
(** model Warehouse *)
Record WarehouseRow := {
  wh_id : string; wh_tenantId : string; wh_outletId : option string; wh_isActive : bool;
}.
(** model Supplier *)
Record SupplierRow := {
  su_id : string; su_tenantId : string; su_isActive : bool;
}.
(** model Tenant *)
Record TenantRow := {
  tn_id : string; tn_name : string; tn_contactEmail : option string;
  tn_contactPhone : option string; tn_address : option string; tn_createdAt : Date;
  tn_businessType : BusinessType; tn_kitchenWaitThresholdMinutes : number;
  tn_currencyCode : option string; tn_status : TenantStatus; tn_deletedAt : option Date;
}.
(** model SalesOrder, with the relations [OrderWithRelations] includes *)
Record SalesOrderRow := {
  so_id : string; so_tenantId : string; so_outletId : option string;
  so_orderNumber : string; so_status : OrderStatus; so_orderMode : OrderMode;
  so_paymentStatus : PaymentStatus; so_paidAmount : number;
  so_kitchenReleasedAt : option Date; so_kitchenPriority : number;
  so_totalAmount : number; so_currencyCode : option string; so_createdAt : Date;
  so_SalesOrderItem : list OrderLine;
}.
(** model Product, with the relations the orders include *)
Record ProductRow := {
  pd_id : string; pd_tenantId : string; pd_name : string; pd_price : number;
  pd_isActive : bool; pd_inventoryItemId : option string;
  pd_Recipe : option (list RecipeLine);
}.
(** model Payment *)
Record PaymentRow := {
  py_id : string; py_orderId : string; py_tenantId : string; py_method : PaymentMethod;
  py_status : PaymentStatus; py_amount : number; py_paidAt : option Date;
  py_createdAt : Date;
}.
(** model AuditLog *)
Record AuditRow := {
  au_id : string; au_userId : option string; au_tenantId : string;
  au_outletId : option string; au_entity : string; au_entityId : string;
  au_action : string; au_metadata : json; au_createdAt : Date;
}.
(** model OutboxEvent *)
Record OutboxRow := {
  ob_id : string; ob_tenantId : option string; ob_outletId : option string;
  ob_type : string; ob_payload : payload_column; ob_status : OutboxEventStatus;
  ob_error : option string; ob_createdAt : Date; ob_processedAt : option Date;
}.
(** model Plan *)
Record PlanRow := {
  pn_id : string; pn_type : PlanType; pn_name : string; pn_priceCents : number;
  pn_deletedAt : option Date;
}.
(** model Subscription *)
Record SubscriptionRow := {
  sb_id : string; sb_tenantId : string; sb_planId : string; sb_pendingPlanId : option string;
  sb_status : SubscriptionStatus; sb_startedAt : Date; sb_endedAt : option Date;
  sb_createdAt : Date; sb_deletedAt : option Date;
}.
(** model SubscriptionHistory *)
Record HistoryRow := {
  sh_id : string; sh_subscriptionId : string; sh_tenantId : string; sh_eventType : string;
  sh_actorUserId : option string; sh_actorPlatformIdentityId : option string;
  sh_actorType : string; sh_metadata : json;
  sh_createdAt : Date;
}.
(** model Invoice *)
Record InvoiceRow := {
  iv_id : string; iv_tenantId : string; iv_subscriptionId : option string;
  iv_invoiceNumber : string; iv_amountCents : number; iv_currency : string;
  iv_status : string; iv_providerReferenceId : option string;
  iv_providerPaymentRequestId : option string; iv_providerPaymentId : option string;
  iv_providerStatus : option string; iv_billingPeriodKey : option string;
  iv_dueAt : option Date; iv_paidAt : option Date; iv_createdAt : Date;
  iv_deletedAt : option Date;
}.
(** model InvoiceNumberCounter: its key is its id *)
Record CounterRow := { nc_key : string; nc_value : Z }.
(** model XenditPaymentRequestAttempt *)
Record AttemptRow := {
  xa_id : string; xa_invoiceId : string; xa_tenantId : string; xa_state : AttemptState;
  xa_providerPaymentRequestId : option string;
}.
(** model XenditWebhookReceipt *)
Record WebhookRow := {
  xw_id : string; xw_idempotencyKey : string; xw_paymentRequestId : option string;
  xw_paymentId : string; xw_referenceId : option string; xw_eventType : string;
  xw_paymentStatus : string; xw_outcome : string; xw_processedAt : option Date;
}.
(** model FeatureFlag *)
Record FlagRow := {
  ff_id : string; ff_tenantId : string; ff_key : string; ff_enabled : bool;
  ff_payload : option json; ff_createdAt : Date; ff_deletedAt : option Date;
}.
(** model PlatformAuditLog *)
Record PlatformAuditRow := {
  pl_id : string; pl_actorPlatformIdentityId : option string; pl_actorType : string;
  pl_action : string; pl_resourceType : string; pl_resourceId : string;
  pl_targetTenantId : option string; pl_requestId : option string;
  pl_correlationId : option string; pl_metadata : option json; pl_outcome : string;
  pl_createdAt : Date;
}.
(** model PlatformSetting: its key is its id *)
Record SettingRow := {
  ps_key : string; ps_value : string; ps_version : number; ps_updatedAt : Date;
}.

(** * Tables *)

Inductive table :=
| TItem | TStock | TMovement | TLayer | TAllocation | TVariance | TOrder | TOrderItem |
TReceipt | TReceiptItem | TTransfer | TTransferItem | TTransferReceipt |
TTransferReceiptItem | TWarehouse | TSupplier | TTenant | TSalesOrder | TOutbox | TPlan |
TSubscription | THistory | TInvoice | TCounter | TAttempt | TWebhook | TReorderRule |
TProduct | TPayment | TAudit | TFlag | TPlatformAudit | TSetting.
#[export] Instance table_eq_dec : EqDecision table.
Proof. solve_decision. Defined.

Definition row (t : table) : Type :=
  match t with
  | TItem => ItemRow
  | TStock => StockRow
  | TMovement => MovementRow
  | TLayer => LayerRow
  | TAllocation => AllocationRow
  | TVariance => VarianceRow
  | TOrder => OrderRow
  | TOrderItem => OrderItemRow
  | TReceipt => ReceiptRow
  | TReceiptItem => ReceiptItemRow
  | TTransfer => TransferRow
  | TTransferItem => TransferItemRow
  | TTransferReceipt => TransferReceiptRow
  | TTransferReceiptItem => TransferReceiptItemRow
  | TWarehouse => WarehouseRow
  | TSupplier => SupplierRow
  | TTenant => TenantRow
  | TSalesOrder => SalesOrderRow
  | TOutbox => OutboxRow
  | TPlan => PlanRow
  | TSubscription => SubscriptionRow
  | THistory => HistoryRow
  | TInvoice => InvoiceRow
  | TCounter => CounterRow
  | TAttempt => AttemptRow
  | TWebhook => WebhookRow
  | TReorderRule => ReorderRuleRow
  | TProduct => ProductRow
  | TPayment => PaymentRow
  | TAudit => AuditRow
  | TFlag => FlagRow
  | TPlatformAudit => PlatformAuditRow
  | TSetting => SettingRow
  end.
Definition row_id (t : table) : row t → string :=
  match t with
  | TItem => it_id
  | TStock => st_id
  | TMovement => mv_id
  | TLayer => ly_id
  | TAllocation => al_id
  | TVariance => pv_id
  | TOrder => po_id
  | TOrderItem => oi_id
  | TReceipt => rc_id
  | TReceiptItem => ri_id
  | TTransfer => tr_id
  | TTransferItem => ti_id
  | TTransferReceipt => tc_id
  | TTransferReceiptItem => tj_id
  | TWarehouse => wh_id
  | TSupplier => su_id
  | TTenant => tn_id
  | TSalesOrder => so_id
  | TOutbox => ob_id
  | TPlan => pn_id
  | TSubscription => sb_id
  | THistory => sh_id
  | TInvoice => iv_id
  | TCounter => nc_key
  | TAttempt => xa_id
  | TWebhook => xw_id
  | TReorderRule => rr_id
  | TProduct => pd_id
  | TPayment => py_id
  | TAudit => au_id
  | TFlag => ff_id
  | TPlatformAudit => pl_id
  | TSetting => ps_key
  end.

(** The database: the rows of each table, and the number of ids made so far. *)
Record Db := {
  rows : ∀ t, list (row t);
  serial : nat;
}.
Definition emptyDb : Db := {| rows t := []; serial := 0 |}.

(** Replace the rows of one table. *)
Definition on (t : table) (f : list (row t) → list (row t)) (db : Db) : Db :=
  {| rows := λ t', match decide (t = t') with
                   | left e => match e in _ = t' return list (row t') with
                               | eq_refl => f (rows db t)
                               end
                   | right _ => rows db t'
                   end;
     serial := serial db |}.

(** * Queries *)

(** [findMany({ where })]. *)
Definition select (t : table) (p : row t → bool) : Tx Db (list (row t)) :=
  λ db, Ok (List.filter p (rows db t), db).
(** [findFirst({ where })], [findUnique({ where })]. *)
Definition select_first (t : table) (p : row t → bool) : Tx Db (option (row t)) :=
  λ db, Ok (List.find p (rows db t), db).
Definition count (t : table) (p : row t → bool) : Tx Db nat :=
  λ db, Ok (length (List.filter p (rows db t)), db).
Definition has_id (t : table) (i : string) (r : row t) : bool := bool_decide (row_id t r = i).
Definition find_id (t : table) (i : string) : Tx Db (option (row t)) :=
  select_first t (has_id t i).

(** * Updates *)

Definition map_where {A} (p : A → bool) (f : A → A) (l : list A) : list A :=
  map (λ x, if p x then f x else x) l.
(** [updateMany({ where, data })], which returns how many rows matched. *)
Definition update_many (t : table) (p : row t → bool) (f : row t → row t) : Tx Db nat :=
  λ db, Ok (length (List.filter p (rows db t)), on t (map_where p f) db).
(** [update({ where: { id }, data })], which throws when there is no such row. *)
Definition update_id (t : table) (i : string) (f : row t → row t) : Tx Db unit :=
  n ← update_many t (has_id t i) f; tx_throw_if (n =? 0) (PrismaError "P2025").
(** [create({ data })]: the row gets the next id. *)
Definition insert `{Platform} (t : table) (mk : string → row t) : Tx Db (row t) :=
  λ db, let r := mk (cuid (serial db)) in
        let db' := on t (λ l, l ++ [r]) db in
        Ok (r, {| rows := rows db'; serial := S (serial db) |}).
(** [createMany({ data })]. *)
Fixpoint insert_all `{Platform} (t : table) (mks : list (string → row t))
  : Tx Db (list (row t)) :=
  match mks with
  | [] => mret []
  | mk :: mks => r ← insert t mk; rs ← insert_all t mks; mret (r :: rs)
  end.
Definition delete_many (t : table) (p : row t → bool) : Tx Db nat :=
  λ db, Ok (length (List.filter p (rows db t)), on t (List.filter (λ r, negb (p r))) db).

(** [SELECT "id" ... WHERE ... FOR UPDATE] with the check that it returns one row. *)
Definition lock_row (t : table) (p : row t → bool) (e : exn) : Tx Db unit :=
  n ← count t p; tx_throw_if (negb (n =? 1)) e.
(** [findFirst] followed by the check for null. *)
Definition load_row (t : table) (p : row t → bool) (e : exn) : Tx Db (row t) :=
  r ← select_first t p;
  match r with Some r => mret r | None => tx_throw e end.

(** Write a decimal to its column. *)
Definition to_column (d : D) : Tx Db D :=
  tx_lift (Prelude.from_option (d_column d) (PrismaError "P2020")).
Definition column_result (d : option D) : Tx Db D :=
  tx_lift (Prelude.from_option d (PrismaError "P2020")).

(** * Lemmas *)

Lemma rows_on_same t f db : rows (on t f db) t = f (rows db t).
Proof.
  simpl. destruct (decide (t = t)) as [e|]; [|done].
  by rewrite (UIP_dec (λ x y : table, decide (x = y)) e eq_refl).
Qed.
Lemma rows_on_other t t' f db : t ≠ t' → rows (on t f db) t' = rows db t'.
Proof. intros. simpl. by destruct (decide (t = t')). Qed.


(** A run touched only some tables. *)
Definition only (ts : list table) (db db' : Db) : Prop :=
  ∀ t, t ∉ ts → rows db' t = rows db t.

Lemma only_refl ts db : only ts db db.
Proof. done. Qed.
Lemma only_trans ts db1 db2 db3 : only ts db1 db2 → only ts db2 db3 → only ts db1 db3.
Proof. intros H1 H2 t Ht. rewrite H2, H1; done. Qed.
Lemma only_weaken ts ts' db db' : ts ⊆ ts' → only ts db db' → only ts' db db'.
Proof. intros Hs H t Ht. apply H. set_solver. Qed.
Lemma only_on t ts f db : t ∈ ts → only ts db (on t f db).
Proof. intros Hin t' Ht'. apply rows_on_other. intros ->. done. Qed.
Lemma only_insert `{Platform} t ts mk db r db' :
  t ∈ ts → insert t mk db = Ok (r, db') → only ts db db'.
Proof. unfold insert. intros Hin [= <- <-]. exact (only_on t ts (λ l, l ++ [mk (cuid (serial db))]) db Hin). Qed.

Lemma insert_rows `{Platform} t mk db r db' :
  insert t mk db = Ok (r, db') → r = mk (cuid (serial db)) ∧ rows db' t = rows db t ++ [r].
Proof. unfold insert. intros [= <- <-]. split; [done|]. exact (rows_on_same t (λ l, l ++ [mk (cuid (serial db))]) db). Qed.

(** *** Fresh ids *)

Definition fresh `{Platform} (t : table) (db : Db) : Prop :=
  ∀ n, serial db <= n → cuid n ∉ map (row_id t) (rows db t).

Lemma insert_run `{Platform} t mk db :
  insert t mk db =
    Ok (mk (cuid (serial db)),
        {| rows := rows (on t (λ l, l ++ [mk (cuid (serial db))]) db); serial := S (serial db) |}).
Proof. done. Qed.
Lemma insert_serial `{Platform} t mk db r db' :
  insert t mk db = Ok (r, db') → serial db' = S (serial db).
Proof. unfold insert. by intros [= _ <-]. Qed.

(** *** Primary keys *)

Definition keyed (t : table) (db : Db) : Prop := NoDup (map (row_id t) (rows db t)).

Lemma find_id_in t i r db :
  keyed t db → r ∈ rows db t → row_id t r = i → List.find (has_id t i) (rows db t) = Some r.
Proof.
  unfold keyed, has_id. intros Hk Hin <-. induction (rows db t) as [|x l IH].
  - by apply elem_of_nil in Hin.
  - simpl in *. apply NoDup_cons in Hk as [Hx Hk].
    apply elem_of_cons in Hin as [->|Hin]; [by rewrite bool_decide_true|].
    rewrite bool_decide_false; [by apply IH|]. intros E. apply Hx. rewrite E.
    by apply list_elem_of_fmap_2.
Qed.

Lemma find_some_in {A} (p : A → bool) l x : List.find p l = Some x → x ∈ l ∧ p x = true.
Proof. intros [Hin Hp]%find_some. by rewrite list_elem_of_In. Qed.

Lemma filter_length_zero {A} (p : A → bool) l :
  (length (List.filter p l) =? 0) = negb (existsb p l).
Proof. induction l as [|x l IH]; simpl; [done|]. by destruct (p x). Qed.

(** [update] on a row that exists replaces it. *)
Lemma update_id_ok t i f db :
  existsb (has_id t i) (rows db t) = true →
  update_id t i f db = Ok (tt, on t (map_where (has_id t i) f) db).
Proof.
  intros He. unfold update_id, update_many, tx_throw_if, mbind, tx_bind, tx_lift, throw_if.
  by rewrite filter_length_zero, He.
Qed.
Lemma update_id_inv t i f db u db' :
  update_id t i f db = Ok (u, db') →
  existsb (has_id t i) (rows db t) = true ∧ db' = on t (map_where (has_id t i) f) db.
Proof.
  unfold update_id, update_many, tx_throw_if, mbind, tx_bind, tx_lift, throw_if.
  rewrite filter_length_zero. destruct (existsb _ _); simpl; [|done]. by intros [= _ <-].
Qed.
Lemma has_id_in t r db : r ∈ rows db t → existsb (has_id t (row_id t r)) (rows db t) = true.
Proof.
  intros Hin. apply existsb_exists. exists r. split; [by apply list_elem_of_In|].
  by apply bool_decide_true.
Qed.

Lemma map_where_id {A} (p : A → bool) (f : A → A) l :
  (∀ x, x ∈ l → p x = true → f x = x) → map_where p f l = l.
Proof.
  intros Hf. unfold map_where. rewrite <- (map_id l) at 2. apply map_ext_in.
  intros x Hin%list_elem_of_In. destruct (p x) eqn:E; [by apply Hf|done].
Qed.
Lemma find_map_where {A} (q p : A → bool) (f : A → A) l :
  (∀ x, q (f x) = q x) →
  List.find q (map_where p f l) = (λ x, if p x then f x else x) <$> List.find q l.
Proof.
  intros Hq. unfold map_where. induction l as [|x l IH]; simpl; [done|].
  rewrite IH. destruct (p x) eqn:E; rewrite ?Hq; by destruct (q x); simpl; rewrite ?E.
Qed.
Lemma filter_map_where {A} (q p : A → bool) (f : A → A) l :
  (∀ x, q (f x) = q x) →
  List.filter q (map_where p f l) = map_where p f (List.filter q l).
Proof.
  intros Hq. unfold map_where. induction l as [|x l IH]; simpl; [done|].
  rewrite IH. destruct (p x) eqn:E; rewrite ?Hq; by destruct (q x); simpl; rewrite ?E.
Qed.
(** An update of the one row that has the id. *)
Lemma keyed_filter t (p : row t → bool) r db :
  keyed t db → r ∈ rows db t → p r = true → (∀ x, p x = true → row_id t x = row_id t r) →
  List.filter p (rows db t) = [r].
Proof.
  intros Hk Hin Hp Hid. unfold keyed in Hk. induction (rows db t) as [|x l IH]; simpl in *.
  { by apply elem_of_nil in Hin. }
  apply NoDup_cons in Hk as [Hx Hk]. apply elem_of_cons in Hin as [<-|Hin].
  - rewrite Hp. f_equal. apply filter_none, Forall_forall. intros y Hy.
    destruct (p y) eqn:E; [|done]. exfalso. apply Hx. rewrite <- (Hid y E).
    by apply list_elem_of_fmap_2.
  - destruct (p x) eqn:E; [|by apply IH]. exfalso. apply Hx. rewrite (Hid x E).
    by apply list_elem_of_fmap_2.
Qed.
Lemma keyed_map_where t (p : row t → bool) f r db :
  keyed t db → r ∈ rows db t → p r = true → (∀ x, p x = true → row_id t x = row_id t r) →
  map_where p f (rows db t) = map_where (has_id t (row_id t r)) f (rows db t).
Proof.
  intros Hk Hin Hp Hid. unfold map_where. apply map_ext_in. intros x Hx%list_elem_of_In.
  destruct (has_id t (row_id t r) x) eqn:E.
  - unfold has_id in E. bool_hyps. rewrite (same_key (row_id t) _ _ _ Hk Hx Hin E). by rewrite Hp.
  - destruct (p x) eqn:Ep; [|done]. unfold has_id in E. bool_hyps. by apply Hid in Ep.
Qed.
(** *** A row that is locked, loaded and updated *)

Section locked.
Context (t : table) (p : row t → bool).

(** [p] selects the row [r] and no other. *)
Definition found (db : Db) (r : row t) : Prop :=
  length (List.filter p (rows db t)) = 1 ∧ List.find p (rows db t) = Some r.

Lemma found_filter db r : found db r ↔ List.filter p (rows db t) = [r].
Proof.
  unfold found. rewrite find_head. split.
  - intros [Hc Hf]. destruct (List.filter _ _) as [|x [|]]; [done| |done]. by injection Hf as ->.
  - intros E. split; [|by rewrite E]. transitivity (length [r]); [by rewrite <- E|done].
Qed.
Lemma found_in db r : found db r → r ∈ rows db t ∧ p r = true.
Proof. intros [_ Hf]. by apply find_some_in. Qed.
Lemma found_unique db r r' : found db r → found db r' → r = r'.
Proof. intros [_ H] [_ H']. congruence. Qed.
Lemma found_rows db db' r : rows db' t = rows db t → found db r → found db' r.
Proof. unfold found. by intros ->. Qed.

Lemma load_found e e' db A (k : row t → Tx Db A) out db' :
  (_ ← lock_row t p e; r ← load_row t p e'; k r) db = Ok (out, db') →
  ∃ r, found db r ∧ k r db = Ok (out, db').
Proof.
  intros H. apply tx_bind_ok in H as ([] & d1 & E & H). unfold lock_row, count in E.
  apply tx_bind_ok in E as (n & d2 & [= <- <-] & E).
  unfold tx_throw_if, tx_lift, throw_if in E.
  destruct (length (List.filter p (rows db t)) =? 1) eqn:Hc; [|done].
  injection E as <-. apply tx_bind_ok in H as (r & d1 & E & H).
  unfold load_row, select_first in E. apply tx_bind_ok in E as (f & d2 & [= <- <-] & E).
  destruct (List.find p (rows db t)) as [r'|] eqn:Hf; [|done].
  injection E as -> <-. exists r. split; [|done]. split; [|done]. by apply Nat.eqb_eq.
Qed.
Lemma load_found_run e e' db A (k : row t → Tx Db A) r :
  found db r → (_ ← lock_row t p e; r ← load_row t p e'; k r) db = k r db.
Proof.
  intros [Hc Hf]. unfold lock_row, load_row, count, select_first, mbind, tx_bind.
  rewrite Hc. simpl. by rewrite Hf.
Qed.
Lemma load_missing e e' db A (k : row t → Tx Db A) :
  (¬ ∃ r, found db r) →
  ∃ e'', (_ ← lock_row t p e; r ← load_row t p e'; k r) db = Err e''.
Proof.
  intros Hn. match goal with |- ∃ e, ?m = Err e => destruct m as [[out db']|x] eqn:E end;
    [|by eexists].
  apply load_found in E as (r & Hr & _). exfalso. eauto.
Qed.
Lemma found_dec db : (∃ r, found db r) ∨ ¬ ∃ r, found db r.
Proof.
  destruct (List.filter p (rows db t)) as [|r [|r' l]] eqn:E.
  2: { left. exists r. by apply found_filter. }
  all: right; intros [x Hx]; apply found_filter in Hx; congruence.
Qed.

(** The row after an update that keeps its key. *)
Lemma found_update q f db r :
  (∀ x, p (f x) = p x) → found db r →
  found (on t (map_where q f) db) (if q r then f r else r).
Proof.
  intros Hp Hr. apply found_filter in Hr. apply found_filter.
  rewrite rows_on_same, (filter_map_where p q f), Hr by done. done.
Qed.
(** An update with a further condition that the row meets counts one row. *)
Lemma guarded_update (q : row t → bool) f db r :
  found db r → q r = true →
  update_many t (λ x, p x && q x) f db = Ok (1, on t (map_where (λ x, p x && q x) f) db).
Proof.
  intros Hr Hq. apply found_filter in Hr. unfold update_many.
  rewrite filter_and, Hr. simpl. by rewrite Hq.
Qed.
Lemma guarded_found (q : row t → bool) f db r :
  (∀ x, p (f x) = p x) → found db r → q r = true →
  found (on t (map_where (λ x, p x && q x) f) db) (f r).
Proof.
  intros Hp Hr Hq. pose proof (found_update (λ x, p x && q x) f db r Hp Hr) as H.
  simpl in H. rewrite Hq, (proj2 (found_in _ _ Hr)) in H. exact H.
Qed.
Lemma load_row_run e db r : found db r → load_row t p e db = Ok (r, db).
Proof. intros [_ Hf]. unfold load_row, select_first, mbind, tx_bind. by rewrite Hf. Qed.
End locked.

Lemma map_where_keys {A} (g : A → string) (p : A → bool) (f : A → A) l :
  (∀ x, g (f x) = g x) → map g (map_where p f l) = map g l.
Proof.
  intros Hf. unfold map_where. rewrite map_map. apply map_ext. intros x.
  destruct (p x); [apply Hf|done].
Qed.

End rows.

(** * Frames

    [writes ts m]: a successful run of [m] changes no table outside [ts]. *)

Section frames.
Context {dec : Decimal}.

Definition writes {A} (ts : list table) (m : Tx Db A) : Prop :=
  ∀ db a db', m db = Ok (a, db') → only ts db db'.

Lemma writes_ret {A} ts (a : A) : writes ts (mret a).
Proof. intros db a' db' [= _ <-]. apply only_refl. Qed.
Lemma writes_throw {A} ts e : writes ts (tx_throw (A := A) e).
Proof. by intros db a db' H. Qed.
Lemma writes_lift {A} ts (r : result A) : writes ts (tx_lift r).
Proof.
  intros db a db'. unfold tx_lift. destruct r; [|done]. intros [= _ <-]. apply only_refl.
Qed.
Lemma writes_throw_if ts c e : writes ts (tx_throw_if c e).
Proof. apply writes_lift. Qed.
Lemma writes_get ts : writes ts tx_get.
Proof. intros db a db' [= _ <-]. apply only_refl. Qed.
Lemma writes_bind {A B} ts (m : Tx Db A) (f : A → Tx Db B) :
  writes ts m → (∀ a, writes ts (f a)) → writes ts (m ≫= f).
Proof.
  intros Hm Hf db b db' H. apply tx_bind_ok in H as (a & s & E & H).
  eapply only_trans; [by eapply Hm|by eapply Hf].
Qed.
Lemma writes_for_each {A} ts (body : A → Tx Db unit) l :
  (∀ x, writes ts (body x)) → writes ts (tx_for_each body l).
Proof.
  intros Hb. induction l; simpl; [apply writes_ret|]. by apply writes_bind.
Qed.
Lemma writes_when ts c m : writes ts m → writes ts (tx_when c m).
Proof. intros. unfold tx_when. destruct c; [done|apply writes_ret]. Qed.
Lemma writes_select ts t p : writes ts (select t p).
Proof. intros db a db' [= _ <-]. apply only_refl. Qed.
Lemma writes_select_first ts t p : writes ts (select_first t p).
Proof. intros db a db' [= _ <-]. apply only_refl. Qed.
Lemma writes_count ts t p : writes ts (count t p).
Proof. intros db a db' [= _ <-]. apply only_refl. Qed.
Lemma writes_update_many ts t p f : t ∈ ts → writes ts (update_many t p f).
Proof. intros Hin db a db' [= _ <-]. by apply only_on. Qed.
Lemma writes_update_id ts t i f : t ∈ ts → writes ts (update_id t i f).
Proof. intros Hin db a db' H. apply update_id_inv in H as [_ ->]. by apply only_on. Qed.
Lemma writes_delete_many ts t p : t ∈ ts → writes ts (delete_many t p).
Proof. intros Hin db a db' [= _ <-]. by apply only_on. Qed.
Lemma writes_to_column ts d : writes ts (to_column d).
Proof. apply writes_lift. Qed.
Lemma writes_column_result ts d : writes ts (column_result d).
Proof. apply writes_lift. Qed.
Lemma writes_insert {plat : Platform} ts t mk : t ∈ ts → writes ts (insert t mk).
Proof. intros Hin db a db' H. by eapply only_insert. Qed.
Lemma writes_insert_all {plat : Platform} ts t mks : t ∈ ts → writes ts (insert_all t mks).
Proof.
  intros Hin. induction mks as [|mk mks IH]; simpl; [apply writes_ret|].
  apply writes_bind; [by apply writes_insert|]. intros r.
  apply writes_bind; [done|]. intros rs. apply writes_ret.
Qed.

(** What [insert_all] adds. *)
Lemma insert_all_rows {plat : Platform} t mks db rs db' :
  insert_all t mks db = Ok (rs, db') → rows db' t = rows db t ++ rs.
Proof.
  revert db rs. induction mks as [|mk mks IH]; simpl; intros db rs H.
  { injection H as <- <-. by rewrite app_nil_r. }
  apply tx_bind_ok in H as (r & db1 & E & H). apply tx_bind_ok in H as (rs' & db2 & E2 & H).
  injection H as <- <-. apply insert_rows in E as [_ R1]. apply IH in E2. rewrite E2, R1.
  by rewrite <- app_assoc.
Qed.
Lemma insert_all_forall {plat : Platform} t (P : row t → Prop) mks db rs db' :
  insert_all t mks db = Ok (rs, db') → Forall (λ mk, ∀ i, P (mk i)) mks → Forall P rs.
Proof.
  revert db rs. induction mks as [|mk mks IH]; simpl; intros db rs H Hf.
  { injection H as <- <-. constructor. }
  apply Forall_cons in Hf as [Hmk Hf].
  apply tx_bind_ok in H as (r & db1 & E & H). apply tx_bind_ok in H as (rs' & db2 & E2 & H).
  injection H as <- <-. apply insert_rows in E as [-> _]. constructor; [done|]. by eapply IH.
Qed.

End frames.

(** A run that keeps a preorder on stores. *)
Section respects.
Context {dec : Decimal} (R : relation Db) `{!PreOrder R}.

Definition respects {A} (m : Tx Db A) : Prop := ∀ db a db', m db = Ok (a, db') → R db db'.

Lemma respects_writes {A} ts (m : Tx Db A) :
  writes ts m → (∀ db db', only ts db db' → R db db') → respects m.
Proof. intros Hm HR db a db' E. by eapply HR, Hm. Qed.
Lemma respects_bind {A B} (m : Tx Db A) (f : A → Tx Db B) :
  respects m → (∀ a, respects (f a)) → respects (m ≫= f).
Proof.
  intros Hm Hf db b db' H. apply tx_bind_ok in H as (a & s & E & H).
  etrans; [by eapply Hm|by eapply Hf].
Qed.
Lemma respects_for_each {A} (body : A → Tx Db unit) l :
  (∀ x, respects (body x)) → respects (tx_for_each body l).
Proof.
  intros Hb. induction l; simpl.
  - intros db a db' [= _ <-]. reflexivity.
  - by apply respects_bind.
Qed.
Lemma respects_when c m : respects m → respects (tx_when c m).
Proof. intros Hm. unfold tx_when. destruct c; [done|]. intros db a db' [= _ <-]. reflexivity. Qed.
End respects.

Create HintDb writes.
#[export] Hint Resolve writes_ret writes_throw writes_lift writes_throw_if writes_get
  writes_to_column writes_column_result : writes.
#[export] Hint Extern 1 (writes _ (select ?t _)) => apply (writes_select _ t) : writes.
#[export] Hint Extern 1 (writes _ (select_first ?t _)) => apply (writes_select_first _ t) : writes.
#[export] Hint Extern 1 (writes _ (find_id ?t _)) => apply (writes_select_first _ t) : writes.
#[export] Hint Extern 1 (writes _ (lock_row ?t _ _)) => unfold lock_row : writes.
#[export] Hint Extern 1 (writes _ (load_row ?t _ _)) => unfold load_row : writes.
#[export] Hint Extern 1 (writes _ (count ?t _)) => apply (writes_count _ t) : writes.
#[export] Hint Extern 1 (writes _ (update_many ?t _ _)) => apply (writes_update_many _ t) : writes.
#[export] Hint Extern 1 (writes _ (update_id ?t _ _)) => apply (writes_update_id _ t) : writes.
#[export] Hint Extern 1 (writes _ (delete_many ?t _)) => apply (writes_delete_many _ t) : writes.
#[export] Hint Extern 1 (writes _ (insert ?t _)) => apply (writes_insert _ t) : writes.
#[export] Hint Extern 1 (writes _ (insert_all ?t _)) => apply (writes_insert_all _ t) : writes.
#[export] Hint Extern 1 (@elem_of table _ _ _ _) => set_solver : writes.

(** Prove a frame by walking through the statements. *)
Ltac solve_writes :=
  repeat first
    [ progress intros
    | progress cbv zeta
    | solve [auto with writes]
    | apply writes_bind
    | apply writes_when
    | apply writes_for_each
    | case_match
    | set_solver ].

(** ** Ids stay unique

    Every table is keyed, and the ids to come are not in it. *)
Section ids.
Context {dec : Decimal} {plat : Platform} {uniq : UniqueIds}.

Definition sound (db : Db) : Prop := ∀ t, keyed t db ∧ fresh t db.
Definition keeps_ids (db db' : Db) : Prop := sound db → sound db'.
#[export] Instance keeps_ids_preorder : PreOrder keeps_ids.
Proof. split; unfold keeps_ids; [by intros db|by intros db1 db2 db3 H12 H23 H; apply H23, H12]. Qed.

Lemma sound_on t f db :
  map (row_id t) (f (rows db t)) = map (row_id t) (rows db t) → sound db → sound (on t f db).
Proof.
  intros Hf Hs t'. unfold keyed, fresh. destruct (decide (t = t')) as [<-|Hn].
  - rewrite rows_on_same, Hf. apply Hs.
  - rewrite rows_on_other by done. apply Hs.
Qed.
Lemma sound_insert t mk db r db' :
  (∀ i, row_id t (mk i) = i) → insert t mk db = Ok (r, db') → sound db → sound db'.
Proof.
  intros Hmk E Hs t'. destruct (decide (t = t')) as [<-|Hn].
  - pose proof (insert_rows _ _ _ _ _ E) as [Er R]. pose proof (insert_serial _ _ _ _ _ E) as Es.
    destruct (Hs t) as [Hk Hf]. unfold keyed, fresh. rewrite R, map_app, Er. simpl. rewrite Hmk.
    split.
    + apply NoDup_app. split; [done|]. split; [|repeat constructor; set_solver].
      intros x Hx Hin%list_elem_of_singleton. subst x. by apply (Hf (serial db)).
    + intros n Hn [Hin|Hin%list_elem_of_singleton]%elem_of_app; [by apply (Hf n); [lia|]|].
      apply (inj cuid) in Hin. lia.
  - destruct (Hs t') as [Hk Hf]. pose proof (insert_serial _ _ _ _ _ E) as Es.
    assert (R : rows db' t' = rows db t').
    { apply (only_insert t [t] mk db r db'); [by left|done|].
      intros Hin%list_elem_of_singleton. by subst. }
    unfold keyed, fresh. rewrite R. split; [done|]. intros n Hle. apply Hf. lia.
Qed.

Lemma ids_reads {A} (m : Tx Db A) :
  (∀ db a db', m db = Ok (a, db') → db' = db) → respects keeps_ids m.
Proof. intros Hm db a db' ->%Hm. by intros Hs. Qed.
Lemma ids_ret {A} (a : A) : respects keeps_ids (mret a).
Proof. apply ids_reads. by intros db x db' [= _ <-]. Qed.
Lemma ids_lift {A} (r : result A) : respects keeps_ids (tx_lift r).
Proof. apply ids_reads. by intros db x db' [_ ->]%tx_lift_ok. Qed.
Lemma ids_throw {A} e : respects keeps_ids (tx_throw (A := A) e).
Proof. by intros db a db' H. Qed.
Lemma ids_get : respects keeps_ids tx_get.
Proof. apply ids_reads. by intros db x db' [= _ <-]. Qed.
Lemma ids_select t p : respects keeps_ids (select t p).
Proof. apply ids_reads. by intros db x db' [= _ <-]. Qed.
Lemma ids_select_first t p : respects keeps_ids (select_first t p).
Proof. apply ids_reads. by intros db x db' [= _ <-]. Qed.
Lemma ids_count t p : respects keeps_ids (count t p).
Proof. apply ids_reads. by intros db x db' [= _ <-]. Qed.
Lemma ids_update_many t p f :
  (∀ r, row_id t (f r) = row_id t r) → respects keeps_ids (update_many t p f).
Proof. intros Hf db a db' [= _ <-] Hs. apply sound_on; [|done]. by apply map_where_keys. Qed.
Lemma ids_update_id t i f :
  (∀ r, row_id t (f r) = row_id t r) → respects keeps_ids (update_id t i f).
Proof.
  intros Hf db a db' [_ ->]%update_id_inv Hs. apply sound_on; [|done]. by apply map_where_keys.
Qed.
Lemma ids_insert t mk : (∀ i, row_id t (mk i) = i) → respects keeps_ids (insert t mk).
Proof. intros Hmk db r db' E Hs. exact (sound_insert t mk db r db' Hmk E Hs). Qed.

End ids.

Create HintDb ids.
(** Walk through the statements of a method that keeps ids unique. *)
Ltac solve_ids :=
  repeat first
    [ solve [auto 2 with ids nocore]
    | progress intros
    | progress cbv zeta
    | apply ids_ret | apply ids_lift | apply ids_throw | apply ids_get
    | lazymatch goal with
      | |- respects _ (select ?t _) => apply (ids_select t)
      | |- respects _ (select_first ?t _) => apply (ids_select_first t)
      | |- respects _ (find_id ?t _) => apply (ids_select_first t)
      | |- respects _ (count ?t _) => apply (ids_count t)
      | |- respects _ (update_many ?t _ _) => apply (ids_update_many t); reflexivity
      | |- respects _ (update_id ?t _ _) => apply (ids_update_id t); reflexivity
      | |- respects _ (insert ?t _) => apply (ids_insert t); reflexivity
      | |- respects _ (load_row _ _ _) => unfold load_row
      end
    | apply respects_when; [exact _|]
    | apply respects_for_each; [exact _|]
    | apply respects_bind; [exact _|..]
    | case_match ].

(** * A concrete platform, for the examples

    Ids are numbered, texts compare by code unit, and a request is its own digest. *)
Module SamplePlatform.

Local Open Scope string_scope.

Fixpoint json_text (j : json) : string :=
  match j with
  | JNull => "null"
  | JBool b => if b then "true" else "false"
  | JNumber (Fin z) => pretty z
  | JNumber _ => "null"
  | JString s => "'" ++ s ++ "'"
  | JDate d => "'" ++ pretty d ++ "'"
  | JArray l => "[" ++ foldr (λ x t, json_text x ++ "," ++ t) "]" l
  | JObject l =>
      "{" ++ foldr (λ x t, fst x ++ ":" ++ json_text (snd x) ++ "," ++ t) "}" l
  end.

(** The day number of a civil date; the server runs on UTC. *)
Definition day_number (y m d : Z) : Z :=
  let y' := if (m <=? 2)%Z then (y - 1)%Z else y in
  let era := (y' / 400)%Z in
  let yoe := (y' - era * 400)%Z in
  let doy := ((153 * (if (2 <? m)%Z then m - 3 else m + 9) + 2) / 5 + d - 1)%Z in
  (era * 146097 + (yoe * 365 + yoe / 4 - yoe / 100 + doy) - 719468)%Z.

#[export] Instance platform : Platform := {|
  cuid n := "id" ++ pretty n;
  sha256 := json_text;
  sha256_text s := s;
  localeLe a b := String.leb a b;
  collateLe a b := String.leb a b;
  getFullYear d := fst (fst (civil_date (d / 86400000)%Z));
  getMonth d := (snd (fst (civil_date (d / 86400000))) - 1)%Z;
  newDate y mo d h mi s ms :=
    ((day_number (y + mo / 12) (mo mod 12 + 1) 1 + d - 1) * 86400000 +
     h * 3600000 + mi * 60000 + s * 1000 + ms)%Z;
|}.

#[export] Instance unique_ids : UniqueIds.
Proof.
  intros m n E. unfold cuid, platform in E.
  assert (H : pretty m = pretty n) by by injection E.
  by apply (inj pretty) in H.
Qed.

(** A written-out store is sound: its ids are different, and none is one to come. *)
Ltac sample_sound :=
  let t := fresh "t" in let n := fresh "n" in let Hin := fresh "Hin" in
  intros t; split;
  [ destruct t; apply (bool_decide_unpack _); vm_compute; exact I
  | intros n _ Hin; destruct t; simpl in Hin;
    repeat (apply elem_of_cons in Hin as [Hin|Hin]; [discriminate Hin|]);
    by apply elem_of_nil in Hin ].

End SamplePlatform.
