(* ===== verification/Costing.v ===== *)
(** Inventory costing (modules/inventory/inventory-costing.service.ts): the FIFO
    cost layers, the moving averages and the standard cost behind every stock
    movement.  [receive] and [issue] are called for each movement in or out;
    [receiveTransfer] carries the cost of a shipment to the destination, in
    slices when it is received in parts; [restore] puts a released reservation
    back. *)

From stdpp Require Import base list strings option sets.
From Stdlib Require Import ZArith.
From S2P Require Import Prelude JsNumber JsString DomainEvents CoreDomain MasterData Lifecycles.
From S2P Require Import PurchaseOrderAggregate Decimal Database.

(** * Rows with a changed column *)

Section updates.
Context {dec : Decimal}.

Definition set_remaining (d : D) (l : LayerRow) : LayerRow :=
  {| ly_id := ly_id l; ly_tenantId := ly_tenantId l;
     ly_inventoryItemId := ly_inventoryItemId l; ly_warehouseId := ly_warehouseId l;
     ly_sourceMovementId := ly_sourceMovementId l; ly_sourceType := ly_sourceType l;
     ly_sourceReferenceId := ly_sourceReferenceId l;
     ly_receivedQuantity := ly_receivedQuantity l; ly_remainingQuantity := d;
     ly_unitCost := ly_unitCost l; ly_createdAt := ly_createdAt l |}.
Definition set_cost (unitCost totalCost : D) (m : MovementRow) : MovementRow :=
  {| mv_id := mv_id m; mv_tenantId := mv_tenantId m; mv_type := mv_type m;
     mv_quantity := mv_quantity m; mv_note := mv_note m; mv_createdAt := mv_createdAt m;
     mv_beforeQuantity := mv_beforeQuantity m; mv_afterQuantity := mv_afterQuantity m;
     mv_createdById := mv_createdById m; mv_inventoryItemId := mv_inventoryItemId m;
     mv_referenceId := mv_referenceId m; mv_referenceType := mv_referenceType m;
     mv_warehouseId := mv_warehouseId m; mv_unitCost := Some unitCost;
     mv_totalCost := Some totalCost |}.
Definition set_item_average (d : D) (i : ItemRow) : ItemRow :=
  {| it_id := it_id i; it_tenantId := it_tenantId i;
     it_valuationMethod := it_valuationMethod i;
     it_movingAverageScope := it_movingAverageScope i;
     it_standardCost := it_standardCost i; it_averageUnitCost := Some d;
     it_valuationLockedAt := it_valuationLockedAt i |}.
Definition set_valuationLockedAt (now : Date) (i : ItemRow) : ItemRow :=
  {| it_id := it_id i; it_tenantId := it_tenantId i;
     it_valuationMethod := it_valuationMethod i;
     it_movingAverageScope := it_movingAverageScope i;
     it_standardCost := it_standardCost i; it_averageUnitCost := it_averageUnitCost i;
     it_valuationLockedAt := Some now |}.
Definition set_stock_average (d : D) (s : StockRow) : StockRow :=
  {| st_id := st_id s; st_warehouseId := st_warehouseId s;
     st_inventoryItemId := st_inventoryItemId s; st_quantity := st_quantity s;
     st_averageUnitCost := Some d; st_createdAt := st_createdAt s;
     st_updatedAt := st_updatedAt s |}.
End updates.

(** * The service *)

Module Costing.

Section service.
Context {dec : Decimal} {plat : Platform}.

Record CostAllocation := {
  ca_costLayerId : option string;
  ca_quantity : D;
  ca_unitCost : D;
}.
Record InventoryIssueCost := {
  ic_unitCost : D;
  ic_totalCost : D;
  ic_allocations : list CostAllocation;
}.
(** [total + quantity * unitCost] over the allocations. *)
Definition allocations_total (als : list CostAllocation) : D :=
  d_total (map (λ a, (ca_quantity a, ca_unitCost a)) als).

Definition lockItem (tenantId itemId : string) : Tx Db ItemRow :=
  found ← select_first TItem (λ r, bool_decide (it_id r = itemId) &&
                                   bool_decide (it_tenantId r = tenantId));
  match found with
  | None => tx_throw (BadRequestException "Inventory item not found")
  | Some item =>
      if bool_decide (it_valuationMethod item = None)
      then tx_throw (BadRequestException
             "Configure an inventory valuation method before changing stock")
      else if bool_decide (it_valuationMethod item = Some MOVING_WEIGHTED_AVERAGE) &&
              bool_decide (it_movingAverageScope item = None)
      then tx_throw (BadRequestException
             "Configure the moving average cost scope before changing stock")
      else if bool_decide (it_valuationMethod item = Some STANDARD_COST) &&
              negb (bool_decide (is_Some (it_standardCost item)))
      then tx_throw (BadRequestException "Configure a standard cost before changing stock")
      else mret item
  end.

(** [item.standardCost!]: not null for an item [lockItem] returned with the
    standard cost method. *)
Definition standardCost (item : ItemRow) : D := default d_zero (it_standardCost item).

Definition movementQuantityDelta (m : MovementRow) : option number :=
  match mv_beforeQuantity m, mv_afterQuantity m with
  | Some before, Some after => Some (sub after before)
  | _, _ =>
      match mv_type m with
      | ADJUSTMENT => Some (mv_quantity m)
      | STOCK_IN | PURCHASE | PRODUCTION | RETURN => Some (abs (mv_quantity m))
      | SALE | WASTE | STOCK_OUT | CONSUMPTION => Some (neg (abs (mv_quantity m)))
      | TRANSFER =>
          if bool_decide (mv_referenceType m = Some "WAREHOUSE_TRANSFER_RECEIPT"%string)
          then Some (abs (mv_quantity m)) else Some (neg (abs (mv_quantity m)))
      end
  end.

(** ** Shared steps *)

Definition write_cost (movementId : string) (unitCost totalCost : D) : Tx Db unit :=
  u ← to_column unitCost; t ← to_column totalCost;
  update_id TMovement movementId (set_cost u t).
Definition lock_valuation (now : Date) (item : ItemRow) (itemId : string) : Tx Db unit :=
  tx_when (bool_decide (it_valuationLockedAt item = None))
    (update_id TItem itemId (set_valuationLockedAt now)).
Definition write_allocations (movementId : string) (als : list CostAllocation) : Tx Db unit :=
  tx_for_each (λ a,
    q ← to_column (ca_quantity a); u ← to_column (ca_unitCost a);
    _ ← insert TAllocation (λ i, {| al_id := i; al_movementId := movementId;
          al_costLayerId := ca_costLayerId a; al_quantity := q; al_unitCost := u |});
    mret tt) als.
Definition create_layer (now : Date) (tenantId itemId : string) (warehouseId : option string)
    (movementId sourceType : string) (reference : option string) (quantity unitCost : D)
  : Tx Db unit :=
  q ← to_column quantity; u ← to_column unitCost;
  _ ← insert TLayer (λ i, {| ly_id := i; ly_tenantId := tenantId;
        ly_inventoryItemId := itemId; ly_warehouseId := warehouseId;
        ly_sourceMovementId := Some movementId; ly_sourceType := sourceType;
        ly_sourceReferenceId := reference; ly_receivedQuantity := q;
        ly_remainingQuantity := q; ly_unitCost := u; ly_createdAt := now |});
  mret tt.
(** [remainingQuantity: { increment: d }] or [decrement] on one layer. *)
Definition change_layer (op : D → D → option D) (layerId : string) (d : D) : Tx Db unit :=
  found ← find_id TLayer layerId;
  match found with
  | None => tx_throw (PrismaError "P2025")
  | Some l => r ← column_result (op (ly_remainingQuantity l) d);
              update_id TLayer layerId (set_remaining r)
  end.

(** ** Moving averages *)

Definition stocks_of (itemId : string) (s : StockRow) : bool :=
  bool_decide (st_inventoryItemId s = itemId).
Definition stock_at (itemId : string) (warehouseId : option string) (s : StockRow) : bool :=
  bool_decide (st_inventoryItemId s = itemId) && bool_decide (st_warehouseId s = warehouseId).
Definition total_quantity (stocks : list StockRow) : number :=
  fold_left (λ total s, add total (st_quantity s)) stocks (of_Z 0).

Definition averageCost (item : ItemRow) (warehouseId : option string) : Tx Db D :=
  if bool_decide (it_movingAverageScope item = Some PER_ITEM) then
    match it_averageUnitCost item with
    | None => tx_throw (BadRequestException
                "Opening cost is required before issuing this inventory item")
    | Some c => mret c
    end
  else
    stock ← select_first TStock (stock_at (it_id item) warehouseId);
    match stock ≫= st_averageUnitCost with
    | None => tx_throw (BadRequestException
                "Opening cost is required before issuing stock from this warehouse")
    | Some c => mret c
    end.

(** [(previousQuantity * average + quantity * unitCost) / total]. *)
Definition new_average (previousQuantity : D) (average : option D) (value total : D) : D :=
  d_div (d_add (d_mul previousQuantity (default d_zero average)) value) total.

Definition updateMovingAverage (item : ItemRow)
    (warehouseId : option string) (quantity_ : number) (quantity unitCost : D) : Tx Db unit :=
  if bool_decide (it_movingAverageScope item = Some PER_ITEM) then
    stocks ← select TStock (stocks_of (it_id item));
    let totalQuantity := total_quantity stocks in
    let previousQuantity := sub totalQuantity quantity_ in
    if gtb previousQuantity (of_Z 0) && bool_decide (it_averageUnitCost item = None)
    then tx_throw (BadRequestException
           "Opening cost is required before receiving additional stock")
    else
      average ← to_column (new_average (d_of_number previousQuantity) (it_averageUnitCost item)
                             (d_mul quantity unitCost) (d_of_number totalQuantity));
      update_id TItem (it_id item) (set_item_average average)
  else
    stock ← select_first TStock (stock_at (it_id item) warehouseId);
    let stockAverage := stock ≫= st_averageUnitCost in
    let previousQuantity := sub (default (of_Z 0) (st_quantity <$> stock)) quantity_ in
    if gtb previousQuantity (of_Z 0) && bool_decide (stockAverage = None)
    then tx_throw (BadRequestException
           "Opening cost is required before receiving additional stock")
    else
      average ← to_column (new_average (d_of_number previousQuantity) stockAverage
                             (d_mul quantity unitCost)
                             (d_of_number (default quantity_ (st_quantity <$> stock))));
      _ ← update_many TStock (stock_at (it_id item) warehouseId) (set_stock_average average);
      mret tt.

Definition restoreMovingAverage (item : ItemRow) (warehouseId : option string)
    (quantity value : D) : Tx Db unit :=
  if bool_decide (it_movingAverageScope item = Some PER_ITEM) then
    stocks ← select TStock (stocks_of (it_id item));
    let totalQuantity := d_of_number (total_quantity stocks) in
    average ← to_column (new_average (d_sub totalQuantity quantity) (it_averageUnitCost item)
                           value totalQuantity);
    update_id TItem (it_id item) (set_item_average average)
  else
    stock ← select_first TStock (stock_at (it_id item) warehouseId);
    match stock with
    | None => tx_throw (BadRequestException "Restored stock balance was not found")
    | Some s =>
        if leb (st_quantity s) (of_Z 0)
        then tx_throw (BadRequestException "Restored stock balance was not found")
        else
          let total := d_of_number (st_quantity s) in
          average ← to_column (new_average (d_sub total quantity) (st_averageUnitCost s)
                                 value total);
          _ ← update_many TStock (stock_at (it_id item) warehouseId)
                (set_stock_average average);
          mret tt
    end.

(** ** FIFO *)

(** The order of the layers: the movement a layer comes from when there is one
    (the left join), otherwise the layer itself; then its id. *)
Definition source_of (ms : list MovementRow) (movementId : option string)
  : option MovementRow :=
  movementId ≫= λ m, List.find (λ r, bool_decide (mv_id r = m)) ms.
Definition layer_key (ms : list MovementRow) (l : LayerRow) : Date * string * string :=
  match source_of ms (ly_sourceMovementId l) with
  | Some m => (mv_createdAt m, mv_id m, ly_id l)
  | None => (ly_createdAt l, ly_id l, ly_id l)
  end.
Definition lex {A} (eq le : A → A → bool) (a b : A) (rest : bool) : bool :=
  if eq a b then rest else le a b.
Definition str_eq (a b : string) : bool := bool_decide (a = b).
Definition key_le (a b : Date * string * string) : bool :=
  let '(t, s, i) := a in let '(t', s', i') := b in
  lex Z.eqb Z.leb t t' (lex str_eq collateLe s s' (collateLe i i')).

Definition layer_open (tenantId itemId : string) (warehouseId : option string)
    (l : LayerRow) : bool :=
  bool_decide (ly_tenantId l = tenantId) && bool_decide (ly_inventoryItemId l = itemId) &&
  bool_decide (ly_warehouseId l = warehouseId) && d_gt (ly_remainingQuantity l) d_zero.
Definition open_layers (tenantId itemId : string) (warehouseId : option string) (db : Db)
  : list LayerRow :=
  sort_by (λ a b, key_le (layer_key (rows db TMovement) a) (layer_key (rows db TMovement) b))
    (List.filter (layer_open tenantId itemId warehouseId) (rows db TLayer)).

(** The loop: the allocations made and what remains to be issued. *)
Fixpoint consume_layers (remaining : D) (layers : list LayerRow)
  : Tx Db (list CostAllocation * D) :=
  match layers with
  | [] => mret ([], remaining)
  | layer :: layers =>
      if d_lte remaining d_zero then mret ([], remaining) else
      let consumed := d_min (ly_remainingQuantity layer) remaining in
      _ ← change_layer col_sub (ly_id layer) consumed;
      rest ← consume_layers (d_sub remaining consumed) layers;
      mret ({| ca_costLayerId := Some (ly_id layer); ca_quantity := consumed;
               ca_unitCost := ly_unitCost layer |} :: fst rest, snd rest)
  end.
Definition consumeFifoLayers (tenantId itemId : string) (warehouseId : option string)
    (quantity : D) : Tx Db (list CostAllocation) :=
  db ← tx_get;
  out ← consume_layers quantity (open_layers tenantId itemId warehouseId db);
  if d_gt (snd out) d_zero
  then tx_throw (BadRequestException "FIFO cost layers do not cover the requested stock issue; enter opening costs before continuing")
  else mret (fst out).

(** ** The entry points *)

Record ReceiveInput := {
  rv_tenantId : string;
  rv_inventoryItemId : string;
  rv_warehouseId : option string;
  rv_quantity : number;
  rv_unitCost : option (number + D);
  rv_sourceType : string;
  rv_sourceReferenceId : option string;
  rv_movementId : string;
}.
(** [new Prisma.Decimal(x)] of a number or a decimal. *)
Definition to_decimal (x : number + D) : D :=
  match x with inl n => d_of_number n | inr d => d end.

Definition receive (now : Date) (input : ReceiveInput) : Tx Db (D * D) :=
  item ← lockItem (rv_tenantId input) (rv_inventoryItemId input);
  let quantity := d_of_number (rv_quantity input) in
  let standard := bool_decide (it_valuationMethod item = Some STANDARD_COST) in
  _ ← tx_throw_if (negb standard && match rv_unitCost input with None => true | _ => false end)
        (BadRequestException "Unit cost is required for this inventory valuation method");
  let suppliedUnitCost := to_decimal (default (inl (of_Z 0)) (rv_unitCost input)) in
  let unitCost := if standard then standardCost item else suppliedUnitCost in
  let totalCost := d_mul quantity unitCost in
  _ ← (if bool_decide (it_valuationMethod item = Some FIFO) then
         create_layer now (rv_tenantId input) (rv_inventoryItemId input)
           (rv_warehouseId input) (rv_movementId input) (rv_sourceType input)
           (rv_sourceReferenceId input) quantity unitCost
       else tx_when (bool_decide (it_valuationMethod item = Some MOVING_WEIGHTED_AVERAGE))
              (updateMovingAverage item (rv_warehouseId input) (rv_quantity input)
                 quantity unitCost));
  _ ← write_cost (rv_movementId input) unitCost totalCost;
  _ ← lock_valuation now item (rv_inventoryItemId input);
  mret (unitCost, totalCost).

Record IssueInput := {
  is_tenantId : string;
  is_inventoryItemId : string;
  is_warehouseId : option string;
  is_quantity : number;
  is_movementId : string;
}.
Definition issue (now : Date) (input : IssueInput) : Tx Db InventoryIssueCost :=
  item ← lockItem (is_tenantId input) (is_inventoryItemId input);
  let quantity := d_of_number (is_quantity input) in
  allocations ←
    (if bool_decide (it_valuationMethod item = Some FIFO) then
       consumeFifoLayers (is_tenantId input) (is_inventoryItemId input)
         (is_warehouseId input) quantity
     else
       unitCost ← (if bool_decide (it_valuationMethod item = Some STANDARD_COST)
                   then mret (standardCost item)
                   else averageCost item (is_warehouseId input));
       mret [{| ca_costLayerId := None; ca_quantity := quantity; ca_unitCost := unitCost |}]);
  let totalCost := allocations_total allocations in
  let unitCost := d_div totalCost quantity in
  _ ← write_cost (is_movementId input) unitCost totalCost;
  _ ← write_allocations (is_movementId input) allocations;
  _ ← lock_valuation now item (is_inventoryItemId input);
  mret {| ic_unitCost := unitCost; ic_totalCost := totalCost; ic_allocations := allocations |}.

(** *** Transfers *)

Definition option_le {A} (le : A → A → bool) (a b : option A) : bool :=
  match a, b with
  | Some a, Some b => le a b
  | _, None => true
  | None, Some _ => false
  end.
(** [COALESCE(source, layer)] over the two left joins, nulls last. *)
Definition allocation_key (db : Db) (a : AllocationRow) : option (Date * string) :=
  match al_costLayerId a ≫= λ l, List.find (λ r, bool_decide (ly_id r = l)) (rows db TLayer) with
  | None => None
  | Some l => match source_of (rows db TMovement) (ly_sourceMovementId l) with
              | Some m => Some (mv_createdAt m, mv_id m)
              | None => Some (ly_createdAt l, ly_id l)
              end
  end.
Definition pair_le (a b : Date * string) : bool :=
  lex Z.eqb Z.leb (fst a) (fst b) (collateLe (snd a) (snd b)).
Definition allocation_le (db : Db) (a b : AllocationRow) : bool :=
  if bool_decide (allocation_key db a = allocation_key db b) then collateLe (al_id a) (al_id b)
  else option_le pair_le (allocation_key db a) (allocation_key db b).
Definition source_allocations (db : Db) (movementId : string) : list AllocationRow :=
  sort_by (allocation_le db)
    (List.filter (λ a, bool_decide (al_movementId a = movementId)) (rows db TAllocation)).

(** The loop: skip what earlier receipts took, copy what this one takes. *)
Fixpoint copy_allocations (skip remaining : D) (als : list AllocationRow)
  : list CostAllocation * D :=
  match als with
  | [] => ([], remaining)
  | a :: als =>
      if d_lte remaining d_zero then ([], remaining)
      else if d_gte skip (al_quantity a)
      then copy_allocations (d_sub skip (al_quantity a)) remaining als
      else
        let available := d_sub (al_quantity a) skip in
        let copiedQuantity := d_min available remaining in
        let out := copy_allocations d_zero (d_sub remaining copiedQuantity) als in
        ({| ca_costLayerId := None; ca_quantity := copiedQuantity;
            ca_unitCost := al_unitCost a |} :: fst out, snd out)
  end.

Record ReceiveTransferInput := {
  rt_tenantId : string;
  rt_inventoryItemId : string;
  rt_warehouseId : string;
  rt_quantity : number;
  rt_alreadyReceived : number;
  rt_sourceMovementId : string;
  rt_movementId : string;
  rt_sourceReferenceId : string;
}.
Definition receiveTransfer (now : Date) (input : ReceiveTransferInput) : Tx Db unit :=
  item ← lockItem (rt_tenantId input) (rt_inventoryItemId input);
  source ← find_id TMovement (rt_sourceMovementId input);
  match source ≫= mv_unitCost, source ≫= mv_totalCost with
  | Some sourceUnitCost, Some _ =>
      let quantity := d_of_number (rt_quantity input) in
      _ ← (if bool_decide (it_valuationMethod item = Some FIFO) then
             db ← tx_get;
             let out := copy_allocations (d_of_number (rt_alreadyReceived input)) quantity
                          (source_allocations db (rt_sourceMovementId input)) in
             _ ← tx_throw_if (d_gt (snd out) d_zero)
                   (BadRequestException
                      "Transfer cost allocation does not cover the received quantity");
             _ ← tx_for_each (λ a,
                   create_layer now (rt_tenantId input) (rt_inventoryItemId input)
                     (Some (rt_warehouseId input)) (rt_movementId input)
                     "WAREHOUSE_TRANSFER_RECEIPT" (Some (rt_sourceReferenceId input))
                     (ca_quantity a) (ca_unitCost a)) (fst out);
             let totalCost := allocations_total (fst out) in
             write_cost (rt_movementId input) (d_div totalCost quantity) totalCost
           else
             _ ← receive now
                   {| rv_tenantId := rt_tenantId input;
                      rv_inventoryItemId := rt_inventoryItemId input;
                      rv_warehouseId := Some (rt_warehouseId input);
                      rv_quantity := rt_quantity input;
                      rv_unitCost := Some (inr sourceUnitCost);
                      rv_sourceType := "WAREHOUSE_TRANSFER_RECEIPT";
                      rv_sourceReferenceId := Some (rt_sourceReferenceId input);
                      rv_movementId := rt_movementId input |};
             mret tt);
      lock_valuation now item (rt_inventoryItemId input)
  | _, _ => tx_throw (BadRequestException
              "Transfer source movement has no complete inventory cost")
  end.

(** *** Released reservations *)

Record RestoreInput := {
  rs_tenantId : string;
  rs_inventoryItemId : string;
  rs_warehouseId : option string;
  rs_quantity : number;
  rs_sourceMovementId : string;
  rs_reversalMovementId : string;
}.
Definition allocation_of (a : AllocationRow) : CostAllocation :=
  {| ca_costLayerId := al_costLayerId a; ca_quantity := al_quantity a;
     ca_unitCost := al_unitCost a |}.
Definition restore_layer (a : AllocationRow) : Tx Db unit :=
  match al_costLayerId a with
  | None => tx_throw (BadRequestException
              "FIFO cost layer is missing for the reserved stock movement")
  | Some l => if is_empty l
              then tx_throw (BadRequestException
                     "FIFO cost layer is missing for the reserved stock movement")
              else change_layer col_add l (al_quantity a)
  end.
Definition restore (input : RestoreInput) : Tx Db unit :=
  item ← lockItem (rs_tenantId input) (rs_inventoryItemId input);
  found ← select TAllocation (λ a, bool_decide (al_movementId a = rs_sourceMovementId input));
  let allocations := sort_by (λ a b, collateLe (al_id a) (al_id b)) found in
  let total := allocations_total (map allocation_of allocations) in
  _ ← tx_throw_if (length allocations =? 0)
        (BadRequestException "Cost allocation is missing for the reserved stock movement");
  _ ← (if bool_decide (it_valuationMethod item = Some FIFO) then
         tx_for_each restore_layer allocations
       else tx_when (bool_decide (it_valuationMethod item = Some MOVING_WEIGHTED_AVERAGE))
              (restoreMovingAverage item (rs_warehouseId input)
                 (d_of_number (rs_quantity input)) total));
  _ ← write_allocations (rs_reversalMovementId input) (map allocation_of allocations);
  write_cost (rs_reversalMovementId input) (d_div total (d_of_number (rs_quantity input))) total.

(** *** What the steps write *)

Definition receive_tables : list table := [TLayer; TItem; TStock; TMovement].
Definition issue_tables : list table := [TLayer; TItem; TAllocation; TMovement].

End service.
End Costing.

Section frames.
Context {dec : Decimal} {plat : Platform}.

Lemma writes_lockItem ts tenantId itemId : writes ts (Costing.lockItem tenantId itemId).
Proof. unfold Costing.lockItem. solve_writes. Qed.
Hint Resolve writes_lockItem : writes.
Lemma writes_costing_receive ts now input :
  Costing.receive_tables ⊆ ts → writes ts (Costing.receive now input).
Proof.
  unfold Costing.receive, Costing.create_layer, Costing.updateMovingAverage,
    Costing.write_cost, Costing.lock_valuation, Costing.receive_tables.
  intros. solve_writes.
Qed.
Hint Resolve writes_costing_receive : writes.
Lemma writes_consume ts q ls : TLayer ∈ ts → writes ts (Costing.consume_layers q ls).
Proof.
  intros Hin. revert q. induction ls as [|l ls IH]; intros q; simpl; [solve_writes|].
  unfold Costing.change_layer. solve_writes.
Qed.
Hint Resolve writes_consume : writes.
Lemma writes_costing_issue ts now input :
  Costing.issue_tables ⊆ ts → writes ts (Costing.issue now input).
Proof.
  unfold Costing.issue, Costing.consumeFifoLayers, Costing.averageCost, Costing.write_cost,
    Costing.write_allocations, Costing.lock_valuation, Costing.issue_tables.
  intros. solve_writes.
Qed.
Lemma writes_receiveTransfer ts now input :
  Costing.receive_tables ⊆ ts → writes ts (Costing.receiveTransfer now input).
Proof.
  unfold Costing.receiveTransfer, Costing.create_layer, Costing.write_cost,
    Costing.lock_valuation.
  intros Hs. pose proof Hs as Hs'. unfold Costing.receive_tables in Hs'. solve_writes.
Qed.
Lemma writes_restore ts input :
  Costing.issue_tables ⊆ ts → TStock ∈ ts → writes ts (Costing.restore input).
Proof.
  unfold Costing.restore, Costing.restore_layer, Costing.change_layer,
    Costing.restoreMovingAverage, Costing.write_allocations, Costing.write_cost,
    Costing.issue_tables.
  intros. solve_writes.
Qed.

End frames.

#[export] Hint Resolve writes_lockItem writes_costing_receive writes_costing_issue
  writes_receiveTransfer writes_restore : writes.
#[export] Hint Extern 1 (Costing.receive_tables ⊆ _) => unfold Costing.receive_tables; set_solver : writes.
#[export] Hint Extern 1 (Costing.issue_tables ⊆ _) => unfold Costing.issue_tables; set_solver : writes.
