(* ===== verification/CostingFacts.v ===== *)
(** What the costing service guarantees: FIFO issues take the oldest layers
    first and conserve value, a restore undoes an issue, the slices of a transfer
    add up to its cost, and a moving average stays between the old average and
    the receipt. *)

From stdpp Require Import base list strings option sets sorting.
From Stdlib Require Import ZArith Lia.
From S2P Require Import Prelude JsNumber JsString DomainEvents CoreDomain MasterData Lifecycles.
From S2P Require Import PurchaseOrderAggregate Decimal Database Costing.

Import Costing.

(** * Changing several layers *)

Section layers.
Context {dec : Decimal} {plat : Platform}.
Implicit Types (op : D → D → option D) (cs : list (string * D)).

(** A layer after a list of changes, at most one per layer. *)
Definition changed op cs (l : LayerRow) : LayerRow :=
  match List.find (λ c, bool_decide (fst c = ly_id l)) cs with
  | Some c => match op (ly_remainingQuantity l) (snd c) with
              | Some r => set_remaining r l
              | None => l
              end
  | None => l
  end.
Definition change_layers op cs : Tx Db unit :=
  tx_for_each (λ c, change_layer op (fst c) (snd c)) cs.
(** The change finds its layer, and the database accepts it. *)
Definition applies op (db : Db) (c : string * D) : Prop :=
  ∃ l r, l ∈ rows db TLayer ∧ ly_id l = fst c ∧ op (ly_remainingQuantity l) (snd c) = Some r.

Lemma changed_id op cs l : ly_id (changed op cs l) = ly_id l.
Proof. unfold changed. destruct (List.find _ _); [|done]. by destruct (op _ _). Qed.

Lemma changed_absent op cs l : ly_id l ∉ map fst cs → changed op cs l = l.
Proof.
  intros Hn. unfold changed. destruct (List.find _ cs) as [c|] eqn:E; [|done].
  apply find_some in E as [Hin E]. apply bool_decide_eq_true_1 in E.
  exfalso. apply Hn. rewrite <- E. apply list_elem_of_fmap_2. by apply list_elem_of_In.
Qed.

Lemma change_layer_ok op c db :
  keyed TLayer db → applies op db c →
  ∃ db', change_layer op (fst c) (snd c) db = Ok (tt, db') ∧
    rows db' TLayer = map (changed op [c]) (rows db TLayer) ∧ only [TLayer] db db'.
Proof.
  intros Hk (l & r & Hin & Hid & Hop). unfold change_layer, find_id, select_first.
  unfold mbind, tx_bind. rewrite (find_id_in TLayer _ l) by done.
  unfold column_result, tx_lift, Prelude.from_option. rewrite Hop.
  rewrite update_id_ok by (rewrite <- Hid; by apply (has_id_in TLayer l)).
  eexists. split; [reflexivity|]. split; [|apply only_on; set_solver].
  rewrite rows_on_same. unfold map_where. apply map_ext_in. intros x Hx%list_elem_of_In.
  unfold changed, has_id. simpl. rewrite (bool_decide_ext (ly_id x = fst c) (fst c = ly_id x)).
  2: { split; congruence. }
  case_bool_decide as E; [|done].
  assert (x = l) as ->; [|by rewrite Hop].
  pose proof (find_id_in TLayer (fst c) x db Hk Hx (eq_sym E)) as Ex.
  pose proof (find_id_in TLayer (fst c) l db Hk Hin Hid) as El. congruence.
Qed.

Lemma changed_cons op c cs l :
  fst c ∉ map fst cs → changed op cs (changed op [c] l) = changed op (c :: cs) l.
Proof.
  intros Hc. unfold changed at 2 3. simpl. case_bool_decide as E.
  - destruct (op _ _) eqn:Eo; apply changed_absent; simpl; congruence.
  - done.
Qed.

Lemma change_layers_ok op cs db :
  keyed TLayer db → NoDup (map fst cs) → Forall (applies op db) cs →
  ∃ db', change_layers op cs db = Ok (tt, db') ∧
    rows db' TLayer = map (changed op cs) (rows db TLayer) ∧ only [TLayer] db db'.
Proof.
  revert db. induction cs as [|c cs IH]; intros db Hk Hnd Hf.
  { exists db. split_and!; [done| |apply only_refl].
    rewrite <- (map_id (rows db TLayer)) at 1. by apply map_ext. }
  apply NoDup_cons in Hnd as [Hc Hnd]. apply Forall_cons in Hf as [Ha Hf].
  destruct (change_layer_ok op c db Hk Ha) as (db1 & E1 & R1 & O1).
  destruct (IH db1) as (db2 & E2 & R2 & O2).
  - unfold keyed. rewrite R1, map_map. rewrite (map_ext _ ly_id); [done|].
    intros x. apply changed_id.
  - done.
  - rewrite Forall_forall in Hf |- *. intros c' Hc'.
    destruct (Hf c' Hc') as (l & r & Hin & Hid & Hop).
    exists l, r. split_and!; [|done|done]. rewrite R1. apply list_elem_of_fmap.
    exists l. split; [|done]. symmetry. apply changed_absent.
    rewrite Hid. simpl. intros E%list_elem_of_singleton. apply Hc. rewrite <- E.
    by apply list_elem_of_fmap_2.
  - exists db2. split_and!.
    + unfold change_layers in *. simpl. unfold mbind, tx_bind. by rewrite E1.
    + rewrite R2, R1, map_map. apply map_ext. intros l. by apply changed_cons.
    + by eapply only_trans.
Qed.

End layers.

(** * FIFO consumption *)

Section fifo.
Context {dec : Decimal} {plat : Platform}.

(** The loop of [consumeFifoLayers] without its writes. *)
Fixpoint plan_layers (remaining : D) (layers : list LayerRow) : list CostAllocation * D :=
  match layers with
  | [] => ([], remaining)
  | layer :: layers =>
      if d_lte remaining d_zero then ([], remaining) else
      let consumed := d_min (ly_remainingQuantity layer) remaining in
      let rest := plan_layers (d_sub remaining consumed) layers in
      ({| ca_costLayerId := Some (ly_id layer); ca_quantity := consumed;
          ca_unitCost := ly_unitCost layer |} :: fst rest, snd rest)
  end.
(** The changes an allocation list makes to the layers. *)
Definition layer_changes (als : list CostAllocation) : list (string * D) :=
  omap (λ a, (λ l, (l, ca_quantity a)) <$> ca_costLayerId a) als.

Lemma consume_layers_plan q ls db :
  consume_layers q ls db =
    match change_layers col_sub (layer_changes (fst (plan_layers q ls))) db with
    | Ok (_, db') => Ok (plan_layers q ls, db')
    | Err e => Err e
    end.
Proof.
  revert q db. induction ls as [|l ls IH]; intros q db; simpl; [done|].
  destruct (d_lte q d_zero); [done|]. unfold layer_changes, change_layers in *. simpl.
  unfold mbind, tx_bind. destruct (change_layer _ _ _ db) as [[[] db1]|e]; [|done].
  rewrite IH. destruct (tx_for_each _ _ db1) as [[[] db2]|e]; [|done]. simpl.
  by destruct (plan_layers _ ls).
Qed.

Context {laws : DecimalLaws dec}.
Local Open Scope Z_scope.

Definition sumZ (l : list Z) : Z := fold_right Z.add 0 l.
(** A layer on the grid: its remaining quantity and unit cost in millionths. *)
Definition layer_at (l : LayerRow) (p : Z * Z) : Prop :=
  ly_remainingQuantity l = micro (fst p) ∧ ly_unitCost l = micro (snd p) ∧
  0 <= fst p < micro_max ∧ 0 <= snd p < micro_max.

Lemma sumZ_nonneg rs : Forall (λ r, 0 <= r) rs → 0 <= sumZ rs.
Proof. induction 1; simpl; lia. Qed.
Lemma sumZ_app l1 l2 : sumZ (l1 ++ l2) = sumZ l1 + sumZ l2.
Proof. induction l1; simpl; lia. Qed.

(** ** The worth of the layers *)

Definition rem_of (l : LayerRow) : Z := unmicro (ly_remainingQuantity l).
Definition cost_of (l : LayerRow) : Z := unmicro (ly_unitCost l).
Definition on_grid (l : LayerRow) : Prop := layer_at l (rem_of l, cost_of l).
(** What remains, weighted by what does not change of a layer: by its cost it is the
    worth of the layers, in units of 10^-12. *)
Definition weighted (weight : LayerRow → Z) (ls : list LayerRow) : Z :=
  sumZ (map (λ l, rem_of l * weight l) ls).
Definition worth : list LayerRow → Z := weighted cost_of.

Lemma layer_at_grid l p : layer_at l p → on_grid l ∧ p = (rem_of l, cost_of l).
Proof.
  intros H. unfold on_grid, rem_of, cost_of. pose proof H as (-> & -> & ? & ?).
  rewrite !unmicro_micro by (literals; lia). split; [|by destruct p].
  by destruct p.
Qed.

Lemma weighted_app f l1 l2 : weighted f (l1 ++ l2) = weighted f l1 + weighted f l2.
Proof. unfold weighted. induction l1 as [|x l1 IH]; simpl in *; [done|]. rewrite IH. ring. Qed.
Lemma worth_app l1 l2 : worth (l1 ++ l2) = worth l1 + worth l2.
Proof. apply weighted_app. Qed.

(** ** What FIFO means *)

(** Oldest first, each layer as far as it goes. *)
Fixpoint fifo_plan (q : Z) (ls : list LayerRow) : list (LayerRow * Z) :=
  match ls with
  | [] => []
  | l :: ls => if q <=? 0 then []
               else let t := Z.min (rem_of l) q in (l, t) :: fifo_plan (q - t) ls
  end.
Definition taken (lts : list (LayerRow * Z)) : Z := sumZ (map snd lts).
Definition cost_taken (lts : list (LayerRow * Z)) : Z :=
  sumZ (map (λ lt, snd lt * cost_of (fst lt)) lts).
Definition allocation_for (lt : LayerRow * Z) : CostAllocation :=
  {| ca_costLayerId := Some (ly_id (fst lt)); ca_quantity := micro (snd lt);
     ca_unitCost := ly_unitCost (fst lt) |}.

Lemma on_grid_rem l : on_grid l → 0 <= rem_of l < micro_max.
Proof. by intros (_ & _ & ? & _). Qed.

Lemma rem_nonneg ls : Forall on_grid ls → Forall (λ r, 0 <= r) (map rem_of ls).
Proof.
  intros H. apply Forall_map. apply (Forall_impl _ _ _ H).
  intros l Hl%on_grid_rem. simpl. lia.
Qed.

Lemma fifo_plan_taken q ls :
  Forall on_grid ls → 0 <= q → taken (fifo_plan q ls) = Z.min q (sumZ (map rem_of ls)).
Proof.
  intros H. revert q. induction H as [|l ls Hl Hls IH]; intros q Hq; simpl; [unfold taken; simpl; lia|].
  pose proof (sumZ_nonneg _ (rem_nonneg _ Hls)). apply on_grid_rem in Hl.
  destruct (Z.leb_spec q 0); unfold taken in *; simpl; [lia|]. rewrite IH by lia. lia.
Qed.

Lemma worth_nonneg ls : Forall on_grid ls → 0 <= worth ls.
Proof.
  intros H. apply sumZ_nonneg, Forall_map. apply (Forall_impl _ _ _ H).
  intros l (_ & _ & ? & ?). simpl in *. nia.
Qed.

(** An issue costs at most what the layers are worth. *)
Lemma cost_taken_worth q ls :
  Forall on_grid ls → 0 <= q → cost_taken (fifo_plan q ls) <= worth ls.
Proof.
  intros H. revert q. induction H as [|l ls Hl Hls IH]; intros q Hq; [done|].
  pose proof (worth_nonneg ls Hls) as Hw. destruct Hl as (_ & _ & Hr & Hc). simpl in Hr, Hc.
  unfold cost_taken, worth, weighted in *. simpl. destruct (Z.leb_spec q 0); simpl; [nia|].
  specialize (IH (q - Z.min (rem_of l) q)). nia.
Qed.

Lemma fifo_plan_prefix q ls : map fst (fifo_plan q ls) `prefix_of` ls.
Proof.
  revert q. induction ls as [|l ls IH]; intros q; simpl; [done|].
  destruct (q <=? 0); simpl; [apply prefix_nil|]. by apply prefix_cons.
Qed.

Lemma fifo_plan_ok q ls lt :
  Forall on_grid ls → Forall (λ l, 0 < rem_of l) ls → lt ∈ fifo_plan q ls →
  fst lt ∈ ls ∧ on_grid (fst lt) ∧ 0 < snd lt <= rem_of (fst lt).
Proof.
  intros H. revert q. induction H as [|l ls Hl Hls IH]; simpl; intros q Hp Hin;
    [by apply elem_of_nil in Hin|].
  apply Forall_cons in Hp as [Hp0 Hp].
  destruct (Z.leb_spec q 0); [by apply elem_of_nil in Hin|].
  apply elem_of_cons in Hin as [->|Hin]; simpl.
  - split_and!; [by left|by destruct Hl as (?&?&?&?)..|lia|lia].
  - destruct (IH _ Hp Hin) as (? & ? & ?). split; [by right|done].
Qed.

(** All but the last layer of the plan are exhausted. *)
Lemma fifo_plan_exhausts q ls lts lt :
  Forall on_grid ls → 0 <= q → fifo_plan q ls = lts ++ [lt] →
  Forall (λ x, snd x = rem_of (fst x)) lts.
Proof.
  intros H. revert q lts. induction H as [|l ls Hl Hls IH]; intros q lts Hq E; simpl in E.
  { by destruct lts. }
  apply on_grid_rem in Hl. destruct (Z.leb_spec q 0); [by destruct lts|].
  destruct lts as [|x lts]; [constructor|]. injection E as <- E. simpl.
  constructor; [|apply (IH (q - Z.min (rem_of l) q)); [lia|done]].
  simpl. destruct (Z.min_spec (rem_of l) q) as [[_ ->]|[Hle Em]]; [done|].
  rewrite Em, Z.sub_diag in E. destruct ls; simpl in E; by destruct lts.
Qed.

(** The code computes the plan. *)
Lemma plan_layers_spec q ls :
  Forall on_grid ls → 0 <= q < micro_max →
  plan_layers (micro q) ls =
    (map allocation_for (fifo_plan q ls), micro (q - taken (fifo_plan q ls))).
Proof.
  intros H. revert q. induction H as [|l ls Hl Hls IH]; intros q Hq; simpl.
  { unfold taken. simpl. by rewrite Z.sub_0_r. }
  pose proof (on_grid_rem l Hl) as Hr. destruct Hl as (Er & _ & _ & _). simpl in Er.
  rewrite d_zero_micro, micro_lte by (literals; lia).
  destruct (Z.leb_spec q 0); [unfold taken; simpl; by rewrite Z.sub_0_r|].
  rewrite Er. rewrite micro_min by (literals; lia). rewrite micro_sub by (literals; lia).
  rewrite IH by lia. simpl. f_equal. f_equal. unfold taken. simpl. lia.
Qed.

(** Taking [t] from layer [l]. *)
Definition takes_changes (lts : list (LayerRow * Z)) : list (string * D) :=
  map (λ lt, (ly_id (fst lt), micro (snd lt))) lts.
Definition take_ok (ls : list LayerRow) (lt : LayerRow * Z) : Prop :=
  fst lt ∈ ls ∧ on_grid (fst lt) ∧ 0 <= snd lt <= rem_of (fst lt).

Lemma changed_take l t :
  on_grid l → 0 <= t <= rem_of l →
  changed col_sub [(ly_id l, micro t)] l = set_remaining (micro (rem_of l - t)) l.
Proof.
  intros (Hr & _ & Hb & _) Ht. unfold changed. simpl. rewrite bool_decide_true by done.
  rewrite Hr at 1. simpl in *. by rewrite micro_col_sub by (literals; lia).
Qed.

Section weights.
Context (weight : LayerRow → Z) (constant : ∀ d l, weight (set_remaining d l) = weight l).

Lemma weighted_take l t ls :
  NoDup (map ly_id ls) → take_ok ls (l, t) →
  weighted weight (map (changed col_sub [(ly_id l, micro t)]) ls) =
    weighted weight ls - t * weight l.
Proof.
  intros Hnd (Hin & Hg & Ht). simpl in *.
  apply list_elem_of_split in Hin as (l1 & l2 & ->).
  rewrite map_app in Hnd. simpl in Hnd. apply NoDup_app in Hnd as (_ & H1 & H2).
  apply NoDup_cons in H2 as [H2 _].
  assert (Hsame : ∀ ls, ly_id l ∉ map ly_id ls →
            map (changed col_sub [(ly_id l, micro t)]) ls = ls).
  { intros ls Hni. rewrite <- (map_id ls) at 2. apply map_ext_in. intros x Hx.
    apply changed_absent. simpl. intros E%list_elem_of_singleton. apply Hni. rewrite <- E.
    apply list_elem_of_fmap_2. by apply list_elem_of_In. }
  rewrite map_app. simpl. rewrite !Hsame; [|done|].
  2: { intros Hx. apply (H1 _ Hx). by left. }
  rewrite changed_take by done. rewrite !weighted_app. unfold weighted at 2 4. simpl.
  rewrite constant. unfold rem_of at 1. simpl. destruct Hg as (_ & _ & Hb & _).
  rewrite unmicro_micro by (simpl in *; literals; lia). unfold weighted. ring.
Qed.

Lemma weighted_takes lts ls :
  NoDup (map ly_id ls) → NoDup (map (λ lt, ly_id (fst lt)) lts) → Forall (take_ok ls) lts →
  weighted weight (map (changed col_sub (takes_changes lts)) ls) =
    weighted weight ls - sumZ (map (λ lt, snd lt * weight (fst lt)) lts).
Proof.
  revert ls. induction lts as [|[l t] lts IH]; intros ls Hls Hnd Hf; simpl.
  { rewrite Z.sub_0_r. f_equal. rewrite <- (map_id ls) at 2. by apply map_ext. }
  apply NoDup_cons in Hnd as [Hl Hnd]. apply Forall_cons in Hf as [Ht Hf].
  assert (Hc : ly_id l ∉ map fst (takes_changes lts)).
  { unfold takes_changes. by rewrite map_map. }
  rewrite (map_ext _ (λ x, changed col_sub (takes_changes lts)
                             (changed col_sub [(ly_id l, micro t)] x))).
  2: { intros x. by rewrite changed_cons. }
  rewrite <- map_map. rewrite IH.
  - rewrite weighted_take by done. lia.
  - rewrite map_map. rewrite (map_ext _ ly_id); [done|]. intros x. apply changed_id.
  - done.
  - rewrite Forall_forall in Hf |- *. intros [l' t'] Hin.
    destruct (Hf _ Hin) as (Hin' & Hg & Hb). split; [|done]. simpl in *.
    apply list_elem_of_fmap. exists l'. split; [|done]. symmetry. apply changed_absent.
    simpl. intros E%list_elem_of_singleton. apply Hl. rewrite <- E.
    by apply (list_elem_of_fmap_2 (λ lt, ly_id (fst lt)) _ (l', t')).
Qed.
End weights.

Lemma worth_takes lts ls :
  NoDup (map ly_id ls) → NoDup (map (λ lt, ly_id (fst lt)) lts) → Forall (take_ok ls) lts →
  worth (map (changed col_sub (takes_changes lts)) ls) =
    worth ls - cost_taken lts.
Proof. by apply weighted_takes. Qed.

(** ** [consumeFifoLayers] *)

Section consume.
Context (tenantId itemId : string) (warehouseId : option string) (db : Db).
Let ls := open_layers tenantId itemId warehouseId db.
Hypothesis Hkey : keyed TLayer db.
Hypothesis Hgrid : Forall on_grid ls.

Lemma open_layers_in l :
  l ∈ ls → l ∈ rows db TLayer ∧ layer_open tenantId itemId warehouseId l = true.
Proof.
  unfold ls, open_layers. rewrite sort_by_perm, list_elem_of_In. intros [Hin Hp]%filter_In.
  by rewrite list_elem_of_In.
Qed.

Lemma open_layers_keys : NoDup (map ly_id ls).
Proof.
  unfold ls, open_layers. rewrite sort_by_perm. by apply filter_keys.
Qed.

Lemma open_layers_pos : Forall (λ l, 0 < rem_of l) ls.
Proof.
  rewrite Forall_forall in Hgrid |- *. intros l Hl. pose proof (Hgrid l Hl) as (Er & _ & Hb & _).
  apply open_layers_in in Hl as [_ Ho]. unfold layer_open in Ho. bool_hyps. simpl in *.
  rewrite Er, d_zero_micro, micro_gt in * by (literals; lia). by apply Z.ltb_lt.
Qed.

Lemma fifo_plan_keys q : NoDup (map (λ lt, ly_id (fst lt)) (fifo_plan q ls)).
Proof.
  pose proof open_layers_keys as Hnd. destruct (fifo_plan_prefix q ls) as [k Hk].
  rewrite Hk, map_app, map_map in Hnd. by apply NoDup_app in Hnd as [? _].
Qed.

Lemma fifo_plan_takes q : Forall (take_ok (rows db TLayer)) (fifo_plan q ls).
Proof.
  apply Forall_forall. intros lt Hin.
  apply fifo_plan_ok in Hin as (Hin & ? & ?); [|apply Hgrid|apply open_layers_pos].
  apply open_layers_in in Hin as [Hin _]. split; [done|]. split; [done|lia].
Qed.

Lemma layer_changes_takes lts :
  layer_changes (map allocation_for lts) = takes_changes lts.
Proof. induction lts as [|lt lts IH]; [done|]. simpl. unfold layer_changes in *. simpl. by rewrite IH. Qed.

Lemma takes_apply q : Forall (applies col_sub db) (takes_changes (fifo_plan q ls)).
Proof.
  apply Forall_map. apply (Forall_impl _ _ _ (fifo_plan_takes q)).
  intros [l t] (Hin & (Er & _ & Hb & _) & Ht). simpl in *. exists l. eexists. simpl.
  split; [done|]. split; [done|]. rewrite Er. by rewrite micro_col_sub by (literals; lia).
Qed.

(** With enough stock the plan is carried out on the layers; otherwise the
    issue is refused. *)
Lemma consume_spec q :
  0 <= q < micro_max →
  (q <= sumZ (map rem_of ls) →
   ∃ db', consumeFifoLayers tenantId itemId warehouseId (micro q) db =
            Ok (map allocation_for (fifo_plan q ls), db') ∧
     rows db' TLayer =
       map (changed col_sub (takes_changes (fifo_plan q ls))) (rows db TLayer) ∧
     only [TLayer] db db') ∧
  (sumZ (map rem_of ls) < q →
   ∃ m, consumeFifoLayers tenantId itemId warehouseId (micro q) db =
          Err (BadRequestException m)).
Proof.
  intros Hq.
  destruct (change_layers_ok col_sub (takes_changes (fifo_plan q ls)) db)
    as (db' & E & R & O); [done| |apply takes_apply|].
  { unfold takes_changes. rewrite map_map. apply fifo_plan_keys. }
  assert (Hc : consume_layers (micro q) ls db =
    Ok ((map allocation_for (fifo_plan q ls), micro (q - taken (fifo_plan q ls))), db')).
  { rewrite consume_layers_plan, plan_layers_spec by done. simpl.
    by rewrite layer_changes_takes, E. }
  unfold consumeFifoLayers, tx_get. unfold mbind, tx_bind. fold ls. rewrite Hc. simpl.
  rewrite fifo_plan_taken by (done || lia).
  pose proof (sumZ_nonneg _ (rem_nonneg _ Hgrid)).
  rewrite d_zero_micro, micro_gt by (literals; lia).
  split; intros Hs.
  - destruct (Z.ltb_spec 0 (q - Z.min q (sumZ (map rem_of ls)))); [lia|].
    exists db'. done.
  - destruct (Z.ltb_spec 0 (q - Z.min q (sumZ (map rem_of ls)))); [|lia]. by eexists.
Qed.

End consume.
End fifo.

(** * The writes around an issue *)

Section writes.
Context {dec : Decimal} {plat : Platform}.

Lemma lockItem_ok tenantId itemId db item db' :
  lockItem tenantId itemId db = Ok (item, db') →
  db' = db ∧ item ∈ rows db TItem ∧ it_id item = itemId ∧ it_tenantId item = tenantId ∧
  it_valuationMethod item ≠ None ∧
  (it_valuationMethod item = Some STANDARD_COST → is_Some (it_standardCost item)) ∧
  (it_valuationMethod item = Some MOVING_WEIGHTED_AVERAGE →
   is_Some (it_movingAverageScope item)).
Proof.
  unfold lockItem, select_first, mbind, tx_bind. intros E.
  destruct (List.find _ (rows db TItem)) as [it|] eqn:Ef; [|done].
  apply find_some_in in Ef as [Hin Hp]. inv_ok E. bool_hyps. subst.
  split_and!; auto.
  - intros Hm. rewrite Hm in *. simpl in *. by destruct (it_standardCost item).
  - intros Hm. rewrite Hm in *. simpl in *. by destruct (it_movingAverageScope item).
Qed.

Lemma to_column_ok d r db : d_column d = Some r → to_column d db = Ok (r, db).
Proof. unfold to_column, tx_lift, Prelude.from_option. by intros ->. Qed.

Lemma write_cost_ok i u t u' t' db :
  d_column u = Some u' → d_column t = Some t' →
  existsb (has_id TMovement i) (rows db TMovement) = true →
  write_cost i u t db = Ok (tt, on TMovement (map_where (has_id TMovement i) (set_cost u' t')) db).
Proof.
  intros Hu Ht Hi. unfold write_cost.
  rewrite (tx_bind_run _ _ _ u' db) by by apply to_column_ok.
  rewrite (tx_bind_run _ _ _ t' db) by by apply to_column_ok. by apply update_id_ok.
Qed.

Lemma lock_valuation_ok now item db :
  item ∈ rows db TItem →
  ∃ db', lock_valuation now item (it_id item) db = Ok (tt, db') ∧ only [TItem] db db'.
Proof.
  intros Hin. unfold lock_valuation, tx_when. case_bool_decide.
  - rewrite update_id_ok by by apply (has_id_in TItem item). eexists. split; [done|].
    apply only_on. by left.
  - exists db. split; [done|]. apply only_refl.
Qed.

(** The rows [write_allocations] adds. *)
Lemma write_allocations_ok i als db :
  Forall (λ a, d_column (ca_quantity a) = Some (ca_quantity a) ∧
               d_column (ca_unitCost a) = Some (ca_unitCost a)) als →
  ∃ db' new, write_allocations i als db = Ok (tt, db') ∧ only [TAllocation] db db' ∧
    rows db' TAllocation = rows db TAllocation ++ new ∧ map allocation_of new = als ∧
    Forall (λ r, al_movementId r = i) new.
Proof.
  revert db. induction als as [|a als IH]; intros db Hf.
  { exists db, []. split_and!; [done|apply only_refl|by rewrite app_nil_r|done|constructor]. }
  apply Forall_cons in Hf as [[Hq Hu] Hf].
  destruct (insert TAllocation (λ id, {| al_id := id; al_movementId := i;
          al_costLayerId := ca_costLayerId a; al_quantity := ca_quantity a;
          al_unitCost := ca_unitCost a |}) db) as [[r db1]|] eqn:Ei; [|done].
  pose proof (insert_rows _ _ _ _ _ Ei) as [Er R1].
  pose proof (only_insert TAllocation [TAllocation] _ _ _ _ (list_elem_of_here _ _) Ei) as O1.
  destruct (IH db1 Hf) as (db2 & new & E2 & O2 & R2 & M2 & F2).
  exists db2, (r :: new). split_and!.
  - unfold write_allocations in *. simpl. rewrite (tx_bind_run _ _ _ tt db1); [exact E2|].
    rewrite (tx_bind_run _ _ _ _ db (to_column_ok _ _ _ Hq)).
    rewrite (tx_bind_run _ _ _ _ db (to_column_ok _ _ _ Hu)).
    by rewrite (tx_bind_run _ _ _ r db1 Ei).
  - by eapply only_trans.
  - rewrite R2, R1. by rewrite <- app_assoc.
  - simpl. rewrite M2, Er. by destruct a.
  - constructor; [|done]. by rewrite Er.
Qed.

End writes.

(** * FIFO issues and their reversal *)

Section issue.
Context {dec : Decimal} {plat : Platform} {laws : DecimalLaws dec}.
Local Open Scope Z_scope.

Lemma allocations_total_plan lts :
  Forall (λ lt, on_grid (fst lt) ∧ 0 <= snd lt < micro_max) lts →
  cost_taken lts < digits20 →
  allocations_total (map allocation_for lts) = pico (cost_taken lts).
Proof.
  intros Hf Hc. unfold allocations_total. rewrite map_map.
  pose (ps := map (λ lt, (snd lt, cost_of (fst lt))) lts).
  assert (Hv : value ps = cost_taken lts).
  { unfold ps, cost_taken. clear. induction lts as [|lt lts IH]; simpl; [done|]. by rewrite IH. }
  rewrite <- Hv in *. rewrite <- d_total_exact; [|clear Hv Hc|done].
  - f_equal. unfold ps. rewrite map_map. apply map_ext_in. intros lt Hin%list_elem_of_In.
    rewrite Forall_forall in Hf. destruct (Hf _ Hin) as [(_ & Hu & _) _].
    simpl in *. by rewrite Hu.
  - unfold ps, amounts. apply Forall_map. apply (Forall_impl _ _ _ Hf).
    intros lt [(_ & _ & _ & Hb) ?]. done.
Qed.

(** The average cost of an issue fits its column. *)
Lemma cost_taken_bound lts :
  Forall (λ lt, on_grid (fst lt) ∧ 0 <= snd lt < micro_max) lts →
  0 <= cost_taken lts <= (micro_max - 1) * taken lts.
Proof.
  induction 1 as [|lt lts [(_ & _ & _ & Hb) Ht] _ IH]; unfold cost_taken, taken in *; simpl in *;
    [lia|]. nia.
Qed.

Context (now : Date) (input : IssueInput) (item : ItemRow) (q : Z) (db : Db).
Let ls := open_layers (is_tenantId input) (is_inventoryItemId input) (is_warehouseId input) db.
Hypothesis Hkey : keyed TLayer db.
Hypothesis Hgrid : Forall on_grid ls.
Hypothesis Hitem : lockItem (is_tenantId input) (is_inventoryItemId input) db = Ok (item, db).
Hypothesis Hfifo : it_valuationMethod item = Some FIFO.
Hypothesis Hmovement :
  existsb (has_id TMovement (is_movementId input)) (rows db TMovement) = true.
Hypothesis Hquantity : d_of_number (is_quantity input) = micro q.
Hypothesis Hq : 0 < q < micro_max.
Hypothesis Hcost : cost_taken (fifo_plan q ls) < digits20.

Lemma fifo_plan_forall :
  Forall (λ lt, on_grid (fst lt) ∧ 0 <= snd lt < micro_max) (fifo_plan q ls).
Proof.
  apply Forall_forall. intros lt Hin.
  apply fifo_plan_ok in Hin as (_ & Hg & Ht); [|done|by apply open_layers_pos].
  split; [done|]. apply on_grid_rem in Hg. lia.
Qed.

Lemma issue_fifo_ok :
  q <= sumZ (map rem_of ls) →
  ∃ out db' new, issue now input db = Ok (out, db') ∧
    ic_allocations out = map allocation_for (fifo_plan q ls) ∧
    ic_totalCost out = pico (cost_taken (fifo_plan q ls)) ∧
    rows db' TLayer = map (changed col_sub (takes_changes (fifo_plan q ls))) (rows db TLayer) ∧
    rows db' TAllocation = rows db TAllocation ++ new ∧
    map allocation_of new = map allocation_for (fifo_plan q ls) ∧
    Forall (λ r, al_movementId r = is_movementId input) new ∧
    only [TLayer; TMovement; TAllocation; TItem] db db'.
Proof.
  intros Hs. pose proof (lockItem_ok _ _ _ _ _ Hitem) as (_ & Hin & Hid & _).
  destruct (proj1 (consume_spec _ _ _ db Hkey Hgrid q ltac:(lia)) Hs) as (db1 & E1 & R1 & O1).
  fold ls in E1, R1. pose proof fifo_plan_forall as Hplan.
  pose proof (cost_taken_bound _ Hplan) as Hcb.
  rewrite fifo_plan_taken in Hcb by (done || lia). rewrite Z.min_l in Hcb by done.
  pose proof (conj (proj1 Hcb) Hcost) as Hc.
  destruct (pico_column (cost_taken (fifo_plan q ls)) Hc) as (mt & Et & _).
  destruct (div_column_bounds (cost_taken (fifo_plan q ls)) q 0 (micro_max - 1) Hc Hq)
    as (mu & Eu & _); [lia|lia|lia|].
  set (db2 := on TMovement (map_where (has_id TMovement (is_movementId input))
                              (set_cost (micro mu) (micro mt))) db1).
  destruct (write_allocations_ok (is_movementId input)
    (map allocation_for (fifo_plan q ls)) db2) as (db3 & new & E3 & O3 & R3 & M3 & F3).
  { apply Forall_map. apply (Forall_impl _ _ _ Hplan). intros lt ((_ & Hu & _ & Hb) & Ht).
    simpl in *. rewrite Hu. split; apply micro_column; lia. }
  assert (O13 : only [TLayer; TMovement; TAllocation] db db3).
  { apply (only_trans _ _ db1); [apply (only_weaken [TLayer]); [set_solver|done]|].
    apply (only_trans _ _ db2); [apply only_on; set_solver|].
    apply (only_weaken [TAllocation]); [set_solver|done]. }
  destruct (lock_valuation_ok now item db3) as (db4 & E4 & O4).
  { rewrite O13 by set_solver. done. }
  assert (O34 : ∀ t, t ≠ TItem → rows db4 t = rows db3 t) by (intros; apply O4; set_solver).
  eexists _, db4, new. split; [|split; [|split; [|split; [|split; [|split; [|split]]]]]].
  - unfold issue. rewrite (tx_bind_run _ _ _ _ _ Hitem).
    rewrite Hfifo. rewrite bool_decide_true by done. rewrite Hquantity.
    rewrite (tx_bind_run _ _ _ _ _ E1).
    rewrite allocations_total_plan by done. cbv zeta.
    rewrite (tx_bind_run _ _ _ tt db2).
    2: { apply write_cost_ok; [done..|]. rewrite O1 by set_solver. done. }
    rewrite (tx_bind_run _ _ _ _ _ E3). rewrite <- Hid at 1.
    rewrite (tx_bind_run _ _ _ _ _ E4). reflexivity.
  - done.
  - done.
  - rewrite O34 by done. rewrite (O3 TLayer) by set_solver.
    unfold db2. rewrite rows_on_other by done. done.
  - rewrite O34 by done. rewrite R3. unfold db2. rewrite rows_on_other by done.
    by rewrite O1 by set_solver.
  - done.
  - done.
  - apply (only_trans _ _ db3); [apply (only_weaken [TLayer; TMovement; TAllocation]);
      [set_solver|done]|]. apply (only_weaken [TItem]); [set_solver|done].
Qed.

End issue.

Section restore.
Context {dec : Decimal} {plat : Platform} {laws : DecimalLaws dec}.
Local Open Scope Z_scope.
Implicit Types (lts : list (LayerRow * Z)).

Lemma changed_perm op cs cs' l :
  NoDup (map fst cs) → cs ≡ₚ cs' → changed op cs l = changed op cs' l.
Proof.
  intros Hnd Hp.
  assert (Hfind : ∀ (ds : list (string * D)) c, NoDup (map fst ds) → c ∈ ds → fst c = ly_id l →
    List.find (λ c, bool_decide (fst c = ly_id l)) ds = Some c).
  { clear. intros ds c Hnd Hin E. induction ds as [|d ds IH]; [by apply elem_of_nil in Hin|].
    simpl in *. apply NoDup_cons in Hnd as [Hd Hnd].
    apply elem_of_cons in Hin as [->|Hin]; [by rewrite bool_decide_true|].
    rewrite bool_decide_false; [by apply IH|]. intros E'. apply Hd. rewrite E', <- E.
    by apply list_elem_of_fmap_2. }
  unfold changed. destruct (List.find _ cs) as [c|] eqn:E.
  - apply find_some_in in E as [Hin E]. bool_hyps. rewrite (Hfind cs' c); [done| | |done].
    + by rewrite <- Hp.
    + by rewrite <- Hp.
  - destruct (List.find _ cs') as [c|] eqn:E'; [|done].
    apply find_some_in in E' as [Hin E']. bool_hyps.
    rewrite (Hfind cs c) in E; [done|done| |done]. by rewrite Hp.
Qed.

Lemma set_remaining_self l : set_remaining (ly_remainingQuantity l) l = l.
Proof. by destruct l. Qed.

(** Putting back what was taken. *)
Lemma changed_back lts lts' ls l :
  NoDup (map ly_id ls) → NoDup (map (λ lt, ly_id (fst lt)) lts) → Forall (take_ok ls) lts →
  lts ≡ₚ lts' → l ∈ ls →
  changed col_add (takes_changes lts') (changed col_sub (takes_changes lts) l) = l.
Proof.
  intros Hls Hnd Hf Hp Hl.
  assert (Hnd' : NoDup (map fst (takes_changes lts))) by (unfold takes_changes; by rewrite map_map).
  rewrite <- (changed_perm _ (takes_changes lts)); [|done|by apply Permutation_map].
  destruct (decide (ly_id l ∈ map fst (takes_changes lts))) as [Hin|Hin].
  2: { rewrite !changed_absent; [done|done|by rewrite changed_id]. }
  unfold takes_changes in Hin. rewrite map_map in Hin.
  apply list_elem_of_fmap in Hin as ([l0 t] & Hid & Hin). simpl in Hid.
  rewrite Forall_forall in Hf. destruct (Hf _ Hin) as (Hin0 & Hg & Ht). simpl in *.
  assert (l0 = l) as ->.
  { by apply (same_key ly_id ls). }
  assert (Hfind : ∀ x, ly_id x = ly_id l →
    List.find (λ c, bool_decide (fst c = ly_id x)) (takes_changes lts) = Some (ly_id l, micro t)).
  { intros x ->. clear -Hnd Hin. induction lts as [|[l1 t1] lts IH]; [by apply elem_of_nil in Hin|].
    simpl in *. apply NoDup_cons in Hnd as [Hx Hnd].
    apply elem_of_cons in Hin as [[= -> ->]|Hin]; [by rewrite bool_decide_true|].
    rewrite bool_decide_false; [by apply IH|]. intros E. apply Hx. rewrite E.
    by apply (list_elem_of_fmap_2 (λ lt, ly_id (fst lt)) _ (l, t)). }
  destruct Hg as (Er & _ & Hb & _). simpl in *.
  unfold changed at 2. rewrite Hfind by done. simpl. rewrite Er at 1.
  rewrite micro_col_sub by (literals; lia). unfold changed. rewrite Hfind by done. simpl.
  rewrite micro_col_add by (literals; lia). rewrite Z.sub_add, <- Er. by destruct l.
Qed.

Lemma restore_layers_changes found lts :
  map allocation_of found = map allocation_for lts →
  Forall (λ lt, is_empty (ly_id (fst lt)) = false) lts →
  ∀ db, tx_for_each restore_layer found db = change_layers col_add (takes_changes lts) db.
Proof.
  revert lts. induction found as [|a found IH]; intros [|lt lts] E Hf db; try done.
  simpl in E. injection E as El Eq Eu E. apply Forall_cons in Hf as [Hlt Hf].
  assert (restore_layer a = change_layer col_add (ly_id (fst lt)) (micro (snd lt))) as Ha.
  { unfold restore_layer. by rewrite El, Hlt, Eq. }
  unfold change_layers in *. simpl. rewrite Ha. unfold mbind, tx_bind. destruct (change_layer _ _ _ db) as [[[] db1]|]; [|done].
  by apply IH.
Qed.

Context (input : RestoreInput) (item : ItemRow) (q : Z) (db0 db : Db)
  (lts : list (LayerRow * Z)).
Hypothesis Hkey : keyed TLayer db0.
Hypothesis Hplan : Forall (take_ok (rows db0 TLayer)) lts.
Hypothesis Hkeys : NoDup (map (λ lt, ly_id (fst lt)) lts).
Hypothesis Hids : Forall (λ lt, is_empty (ly_id (fst lt)) = false) lts.
Hypothesis Hcost : cost_taken lts < digits20.
Hypothesis Hq : 0 < q < micro_max.
Hypothesis Htaken : taken lts = q.
Hypothesis Hlayers :
  rows db TLayer = map (changed col_sub (takes_changes lts)) (rows db0 TLayer).
Hypothesis Hfound :
  map allocation_of (List.filter
    (λ a, bool_decide (al_movementId a = rs_sourceMovementId input)) (rows db TAllocation)) =
  map allocation_for lts.
Hypothesis Hitem : lockItem (rs_tenantId input) (rs_inventoryItemId input) db = Ok (item, db).
Hypothesis Hfifo : it_valuationMethod item = Some FIFO.
Hypothesis Hreversal :
  existsb (has_id TMovement (rs_reversalMovementId input)) (rows db TMovement) = true.
Hypothesis Hquantity : d_of_number (rs_quantity input) = micro q.

Lemma restore_applies lts' :
  lts ≡ₚ lts' → Forall (applies col_add db) (takes_changes lts').
Proof.
  intros Hp. apply Forall_map. rewrite <- Hp. rewrite Forall_forall in Hplan |- *.
  intros [l t] Hin. destruct (Hplan _ Hin) as (Hl & Hg & Ht). simpl in *.
  exists (changed col_sub (takes_changes lts) l), (micro (rem_of l)). simpl.
  split; [|split; [by rewrite changed_id|]].
  { rewrite Hlayers. by apply list_elem_of_fmap_2. }
  assert (Hnd' : NoDup (map fst (takes_changes lts))).
  { unfold takes_changes. by rewrite map_map. }
  apply list_elem_of_split in Hin as (l1 & l2 & E).
  assert (Hp' : takes_changes lts ≡ₚ (ly_id l, micro t) :: takes_changes (l1 ++ l2)).
  { rewrite E. unfold takes_changes. rewrite !map_app. simpl. symmetry.
    apply Permutation_middle. }
  rewrite (changed_perm _ _ _ _ Hnd' Hp').
  rewrite <- changed_cons.
  2: { rewrite Hp' in Hnd'. simpl in Hnd'. by apply NoDup_cons in Hnd' as [? _]. }
  rewrite (changed_absent _ (takes_changes (l1 ++ l2))).
  2: { rewrite changed_id. rewrite Hp' in Hnd'. simpl in Hnd'.
       by apply NoDup_cons in Hnd' as [? _]. }
  rewrite changed_take by done. simpl. destruct Hg as (_ & _ & Hb & _). simpl in Hb.
  rewrite micro_col_add by (literals; lia). by rewrite Z.sub_add.
Qed.

Lemma restore_fifo_ok :
  ∃ db', restore input db = Ok (tt, db') ∧ rows db' TLayer = rows db0 TLayer.
Proof.
  set (sorted := sort_by (λ a b, collateLe (al_id a) (al_id b))
    (List.filter (λ a, bool_decide (al_movementId a = rs_sourceMovementId input))
       (rows db TAllocation))).
  assert (Hperm : map allocation_of sorted ≡ₚ map allocation_for lts).
  { rewrite <- Hfound. apply Permutation_map, sort_by_perm. }
  symmetry in Hperm. apply Permutation_sym, Permutation_map_inv in Hperm as (lts' & E & Hp).
  assert (Hkeys' : NoDup (map (λ lt, ly_id (fst lt)) lts')) by (by rewrite <- Hp).
  assert (Hct : cost_taken lts' = cost_taken lts).
  { unfold cost_taken. clear -Hp. induction Hp; simpl in *; lia. }
  assert (Hgrid' : Forall (λ lt, on_grid (fst lt) ∧ 0 <= snd lt < micro_max) lts').
  { rewrite <- Hp. apply (Forall_impl _ _ _ Hplan). intros lt (_ & Hg & Ht).
    split; [done|]. apply on_grid_rem in Hg. lia. }
  pose proof (cost_taken_bound _ Hgrid') as Hcb. rewrite Hct in Hcb.
  assert (Htk : taken lts' = q).
  { rewrite <- Htaken. unfold taken. clear -Hp. induction Hp; simpl in *; lia. }
  rewrite Htk in Hcb. pose proof (conj (proj1 Hcb) Hcost) as Hc.
  destruct (pico_column (cost_taken lts) Hc) as (mt & Et & _).
  destruct (div_column_bounds (cost_taken lts) q 0 (micro_max - 1) Hc Hq)
    as (mu & Eu & _); [lia|lia|lia|].
  destruct (change_layers_ok col_add (takes_changes lts') db) as (db1 & E1 & R1 & O1).
  { unfold keyed. rewrite Hlayers, map_map. rewrite (map_ext _ ly_id); [done|].
    intros x. apply changed_id. }
  { unfold takes_changes. rewrite map_map. done. }
  { by apply restore_applies. }
  destruct (write_allocations_ok (rs_reversalMovementId input)
    (map allocation_for lts') db1) as (db2 & new & E2 & O2 & R2 & _).
  { apply Forall_map. apply (Forall_impl _ _ _ Hgrid'). intros lt ((_ & Hu & _ & Hb) & Ht).
    simpl in *. rewrite Hu. split; apply micro_column; lia. }
  eexists. split.
  - unfold restore. rewrite (tx_bind_run _ _ _ _ _ Hitem). unfold select at 1.
    rewrite (tx_bind_run _ _ _ _ db eq_refl). cbv zeta.
    repeat match goal with |- context [sort_by ?f ?l] => change (sort_by f l) with sorted end.
    rewrite (tx_bind_run _ _ _ tt db).
    2: { assert (length sorted ≠ 0%nat) as Hl%Nat.eqb_neq; [|by rewrite Hl].
         rewrite <- (length_map allocation_of), E. intros Hz%length_zero_iff_nil.
         apply map_eq_nil in Hz as ->. unfold taken in Htk. simpl in Htk. lia. }
    rewrite Hfifo, bool_decide_true by done.
    rewrite (tx_bind_run _ _ _ tt db1).
    2: { rewrite (restore_layers_changes _ lts'); [done|done|by rewrite <- Hp]. }
    rewrite E. rewrite (tx_bind_run _ _ _ _ _ E2).
    rewrite allocations_total_plan by (done || lia). rewrite Hct, Hquantity.
    apply write_cost_ok; [done..|]. rewrite O2, O1 by set_solver. done.
  - rewrite rows_on_other by done. rewrite (O2 TLayer) by set_solver.
    rewrite R1, Hlayers, map_map. rewrite <- (map_id (rows db0 TLayer)) at 2.
    apply map_ext_in. intros l Hl%list_elem_of_In. by eapply changed_back.
Qed.

End restore.

(** * Transfers in slices *)

Section slices.
Context {dec : Decimal} {plat : Platform} {laws : DecimalLaws dec}.
Local Open Scope Z_scope.

Definition allocation_at (quantity unitCost : D) (p : Z * Z) : Prop :=
  quantity = micro (fst p) ∧ unitCost = micro (snd p) ∧
  0 <= fst p < micro_max ∧ 0 <= snd p < micro_max.
Definition row_at (a : AllocationRow) := allocation_at (al_quantity a) (al_unitCost a).
Definition copy_at (a : CostAllocation) := allocation_at (ca_quantity a) (ca_unitCost a).

(** The quantity and the cost of the first [x] units of a shipment. *)
Definition quantity_of (ps : list (Z * Z)) : Z := sumZ (map fst ps).
Fixpoint first_cost (x : Z) (ps : list (Z * Z)) : Z :=
  match ps with
  | [] => 0
  | p :: ps => Z.min x (fst p) * snd p + first_cost (x - Z.min x (fst p)) ps
  end.

Lemma quantity_nonneg ps : amounts ps → 0 <= quantity_of ps.
Proof. induction 1 as [|p ps [? _] _ IH]; unfold quantity_of in *; simpl in *; lia. Qed.
Lemma first_cost_zero ps : amounts ps → first_cost 0 ps = 0.
Proof.
  induction 1 as [|p ps [Hp _] _ IH]; simpl; [done|].
  rewrite Z.min_l by lia. rewrite Z.sub_diag, IH. done.
Qed.
Lemma first_cost_all ps x : amounts ps → quantity_of ps <= x → first_cost x ps = value ps.
Proof.
  intros H. revert x. induction H as [|p ps [Hp _] Hps IH]; simpl; intros x Hx; [done|].
  unfold quantity_of in *. simpl in Hx. pose proof (quantity_nonneg ps Hps) as Hn.
  unfold quantity_of in Hn. rewrite Z.min_r by lia. rewrite IH by lia. done.
Qed.
Lemma amounts_at {A} (f : A → Z * Z → Prop) als ps :
  (∀ a p, f a p → 0 <= fst p < micro_max ∧ 0 <= snd p < micro_max) →
  Forall2 f als ps → amounts ps.
Proof. intros Hf. induction 1; constructor; eauto. Qed.

(** One receipt copies the costs of the units from [s] to [s + q]. *)
Lemma copy_allocations_spec als ps s q :
  Forall2 row_at als ps → 0 <= s → 0 <= q → s + q < micro_max →
  ∃ cs, Forall2 copy_at (fst (copy_allocations (micro s) (micro q) als)) cs ∧
    value cs = first_cost (s + q) ps - first_cost s ps ∧
    quantity_of cs = Z.min (s + q) (quantity_of ps) - Z.min s (quantity_of ps) ∧
    snd (copy_allocations (micro s) (micro q) als) = micro (q - quantity_of cs).
Proof.
  intros H. revert s q. induction H as [|a [x u] als ps Ha Hps IH]; intros s q Hs Hq Hsq.
  { exists []. simpl. unfold quantity_of. simpl. split_and!; [constructor|done|lia|].
    by rewrite Z.sub_0_r. }
  assert (Hamt : amounts ps) by (by eapply (amounts_at row_at); [intros ?? (_&_&?&?)|]).
  pose proof (quantity_nonneg ps Hamt) as Hn.
  destruct Ha as (Ex & Eu & Hx & Hu). simpl in *. unfold quantity_of in *. simpl.
  rewrite d_zero_micro, Ex. rewrite micro_lte by (literals; lia).
  destruct (Z.leb_spec q 0) as [Hq0|Hq0].
  { assert (q = 0) as -> by lia. exists []. rewrite Z.add_0_r. simpl.
    split_and!; [constructor|lia|lia|done]. }
  rewrite micro_gte by (literals; lia). rewrite !micro_sub by (literals; lia).
  destruct (Z.leb_spec x s) as [Hsx|Hsx].
  - destruct (IH (s - x) q) as (cs & Hcs & Hv & Hqc & Hr); [lia..|].
    exists cs. split_and!; [done| | |done].
    + rewrite Hv, !Z.min_r by lia. replace (s - x + q) with (s + q - x) by lia. lia.
    + rewrite Hqc. lia.
  - rewrite micro_min by (literals; lia). rewrite micro_sub by (literals; lia). simpl.
    destruct (IH 0 (q - Z.min (x - s) q)) as (cs & Hcs & Hv & Hqc & Hr); [lia..|].
    exists ((Z.min (x - s) q, u) :: cs). simpl. split_and!.
    + constructor; [|done]. unfold copy_at, allocation_at. simpl. split_and!; auto; lia.
    + rewrite Hv, first_cost_zero by done. rewrite (Z.min_l s x) by lia.
      rewrite Z.sub_diag, first_cost_zero by done.
      replace (Z.min (s + q) x) with (s + Z.min (x - s) q) by lia.
      replace (0 + (q - Z.min (x - s) q)) with (s + q - (s + Z.min (x - s) q)) by lia. ring.
    + rewrite Hqc. lia.
    + rewrite Hr. f_equal. lia.
Qed.

(** The copies of a sequence of receipts, each starting where the last ended. *)
Fixpoint receive_slices (s : Z) (qs : list Z) (als : list AllocationRow)
  : list (list CostAllocation * D) :=
  match qs with
  | [] => []
  | q :: qs => copy_allocations (micro s) (micro q) als :: receive_slices (s + q) qs als
  end.

Lemma receive_slices_spec als ps qs s :
  Forall2 row_at als ps → Forall (λ q, 0 <= q) qs → 0 <= s →
  s + sumZ qs <= quantity_of ps < micro_max →
  Forall (λ out, snd out = micro 0) (receive_slices s qs als) ∧
  ∃ cs, Forall2 copy_at (concat (map fst (receive_slices s qs als))) cs ∧
    value cs = first_cost (s + sumZ qs) ps - first_cost s ps.
Proof.
  intros Hps Hqs. revert s. induction Hqs as [|q qs Hq Hqs IH]; intros s Hs Hb; simpl in *.
  { split; [constructor|]. exists []. split; [constructor|]. simpl. rewrite Z.add_0_r. lia. }
  pose proof (sumZ_nonneg qs Hqs).
  destruct (copy_allocations_spec als ps s q Hps Hs Hq) as (cs1 & H1 & V1 & Q1 & R1); [lia|].
  destruct (IH (s + q)) as (Hz & cs2 & H2 & V2); [lia|lia|].
  split.
  - constructor; [|done]. rewrite R1, Q1. f_equal. lia.
  - exists (cs1 ++ cs2). split; [by apply Forall2_app|].
    rewrite value_app, V1, V2. rewrite Z.add_assoc. lia.
Qed.

Lemma allocations_total_at als cs :
  Forall2 copy_at als cs → value cs < digits20 → allocations_total als = pico (value cs).
Proof.
  intros H Hv. unfold allocations_total. rewrite <- d_total_exact; [|by eapply (amounts_at copy_at); [intros ?? (_&_&?&?)|]|done].
  f_equal. clear Hv. induction H as [|a p als cs (Ea & Eu & _) _ IH]; simpl; [done|].
  rewrite IH. by rewrite Ea, Eu.
Qed.

End slices.

(** * Moving averages *)

Section averages.
Context {dec : Decimal} {plat : Platform} {laws : DecimalLaws dec}.
Local Open Scope Z_scope.

(** Mixing [p] units at [a] with [q] at [c]. *)
Lemma new_average_between p a q c :
  0 <= p → 0 < q → p + q < micro_max → 0 <= a < micro_max → 0 <= c < micro_max →
  p * a + q * c < digits20 →
  ∃ m, d_column (new_average (micro p) (Some (micro a)) (d_mul (micro q) (micro c))
                   (micro (p + q))) = Some (micro m) ∧
    Z.min a c <= m <= Z.max a c.
Proof.
  intros Hp Hq Hpq Ha Hc Hv. unfold new_average. simpl.
  rewrite !micro_mul by (literals; nia). rewrite pico_add by nia.
  apply div_column_bounds; [nia|lia|lia|lia|]. nia.
Qed.

End averages.

Section average_updates.
Context {dec : Decimal} {plat : Platform} {laws : DecimalLaws dec}.
Local Open Scope Z_scope.

(** The quantities of the theorem: [P] units at [a] before, [Q] received at [c]. *)
Definition average_inputs (P Q a c : Z) : Prop :=
  0 <= P ∧ 0 < Q ∧ P + Q < 10 ^ 12 ∧ 0 <= a < micro_max ∧ 0 <= c < micro_max ∧
  P * million * a + Q * million * c < digits20.

Lemma average_between P Q a c :
  average_inputs P Q a c →
  ∃ m, d_column (new_average (d_of_number (sub (of_Z (P + Q)) (of_Z Q))) (Some (micro a))
                   (d_mul (micro (Q * million)) (micro c)) (d_of_number (of_Z (P + Q)))) =
         Some (micro m) ∧
    Z.min a c <= m <= Z.max a c.
Proof.
  intros (HP & HQ & HPQ & Ha & Hc & Hv).
  assert (Hsub : sub (of_Z (P + Q)) (of_Z Q) = of_Z P).
  { rewrite sub_of_Z by (unfold max_exact; lia). f_equal. lia. }
  rewrite Hsub, !of_number_int by lia. rewrite Z.mul_add_distr_r.
  apply new_average_between; literals; lia.
Qed.

Lemma update_average_item item wh P Q a c db :
  average_inputs P Q a c →
  it_movingAverageScope item = Some PER_ITEM → it_averageUnitCost item = Some (micro a) →
  item ∈ rows db TItem →
  total_quantity (List.filter (stocks_of (it_id item)) (rows db TStock)) = of_Z (P + Q) →
  ∃ m, updateMovingAverage item wh (of_Z Q) (micro (Q * million)) (micro c) db =
         Ok (tt, on TItem (map_where (has_id TItem (it_id item)) (set_item_average (micro m))) db) ∧
    Z.min a c <= m <= Z.max a c.
Proof.
  intros Hin Hs Ha Hitem Ht. destruct (average_between P Q a c Hin) as (m & Em & Hm).
  exists m. split; [|done]. unfold updateMovingAverage.
  rewrite Hs, bool_decide_true by done. unfold select.
  rewrite (tx_bind_run _ _ _ _ db eq_refl), Ha. cbv zeta.
  match goal with |- context [total_quantity ?x] =>
    replace (total_quantity x) with (of_Z (P + Q)) by (symmetry; exact Ht) end.
  rewrite (bool_decide_false (Some (micro a) = None)) by done. rewrite andb_false_r.
  rewrite (tx_bind_run _ _ _ _ db (to_column_ok _ _ db Em)).
  apply update_id_ok. by apply (has_id_in TItem item).
Qed.

Lemma update_average_stock item wh s P Q a c db :
  average_inputs P Q a c →
  it_movingAverageScope item = Some PER_WAREHOUSE →
  List.find (stock_at (it_id item) wh) (rows db TStock) = Some s →
  st_averageUnitCost s = Some (micro a) → st_quantity s = of_Z (P + Q) →
  ∃ m, updateMovingAverage item wh (of_Z Q) (micro (Q * million)) (micro c) db =
         Ok (tt, on TStock (map_where (stock_at (it_id item) wh) (set_stock_average (micro m))) db) ∧
    Z.min a c <= m <= Z.max a c.
Proof.
  intros Hin Hs Hf Ha Ht. destruct (average_between P Q a c Hin) as (m & Em & Hm).
  exists m. split; [|done]. unfold updateMovingAverage.
  rewrite Hs, bool_decide_false by done. unfold select_first.
  rewrite (tx_bind_run _ _ _ (Some s) db) by (by rewrite <- Hf).
  cbn [default fmap option_fmap option_map mbind option_bind]. cbv zeta. rewrite Ht, Ha.
  rewrite (bool_decide_false (Some (micro a) = None)) by done. rewrite andb_false_r.
  by rewrite (tx_bind_run _ _ _ _ db (to_column_ok _ _ db Em)).
Qed.

End average_updates.

(** * Properties *)

Section properties.
Context {dec : Decimal} {plat : Platform} {laws : DecimalLaws dec}.
Local Open Scope Z_scope.

(** What an issue of [q] millionths from FIFO layers supposes: unique layer ids,
    layers on the grid, an item valued by FIFO, the movement to cost, and a cost
    within twenty digits. *)
Definition fifo_issue_ready (input : IssueInput) (item : ItemRow) (q : Z) (db : Db) : Prop :=
  let ls := open_layers (is_tenantId input) (is_inventoryItemId input) (is_warehouseId input) db in
  keyed TLayer db ∧ Forall on_grid ls ∧
  lockItem (is_tenantId input) (is_inventoryItemId input) db = Ok (item, db) ∧
  it_valuationMethod item = Some FIFO ∧
  existsb (has_id TMovement (is_movementId input)) (rows db TMovement) = true ∧
  d_of_number (is_quantity input) = micro q ∧ 0 < q < micro_max ∧
  cost_taken (fifo_plan q ls) < digits20.

(** C18: issuing stock valued by FIFO takes exactly the quantity asked for, the
    total cost is the cost of what was taken, and value is conserved: the worth
    of the layers afterwards is the worth before less that cost.  When the open
    layers do not cover the quantity the issue throws. *)
Theorem issue_fifo_conserves (now : Date) (input : IssueInput) (item : ItemRow) (q : Z) (db : Db) :
  fifo_issue_ready input item q db →
  let ls := open_layers (is_tenantId input) (is_inventoryItemId input) (is_warehouseId input) db in
  (q <= sumZ (map rem_of ls) →
   ∃ out db', issue now input db = Ok (out, db') ∧
     ic_allocations out = map allocation_for (fifo_plan q ls) ∧
     taken (fifo_plan q ls) = q ∧
     ic_totalCost out = pico (cost_taken (fifo_plan q ls)) ∧
     worth (rows db' TLayer) = worth (rows db TLayer) - cost_taken (fifo_plan q ls) ∧
     only [TLayer; TMovement; TAllocation; TItem] db db') ∧
  (sumZ (map rem_of ls) < q →
   ∃ m, issue now input db = Err (BadRequestException m)).
Proof.
  intros (Hk & Hg & Hi & Hf & Hm & Hqn & Hq & Hc). simpl. split; intros Hs.
  - destruct (issue_fifo_ok now input item q db) as (out & db' & new & ? & ? & ? & R & ? & ? & ? & ?);
      try done.
    exists out, db'. split_and!; try done.
    + rewrite fifo_plan_taken by (done || lia). lia.
    + rewrite R. apply worth_takes; [done|by apply fifo_plan_keys|by apply fifo_plan_takes].
  - destruct (proj2 (consume_spec _ _ _ db Hk Hg q ltac:(lia)) Hs) as (m & E).
    exists m. unfold issue. rewrite (tx_bind_run _ _ _ _ _ Hi), Hf, bool_decide_true by done.
    rewrite Hqn. apply (tx_bind_err _ _ _ _ E).
Qed.

(** layers are consumed oldest first: they are visited in the order of the
    movement they come from, the ones used are the first of that order, and only
    the last of them can be left with stock. *)
Theorem fifo_oldest_first (tenantId itemId : string) (warehouseId : option string) (q : Z)
    (db db' : Db) (als : list CostAllocation) :
  let ls := open_layers tenantId itemId warehouseId db in
  let key := layer_key (rows db TMovement) in
  (∀ a b, collateLe a b = false → collateLe b a = true) →
  keyed TLayer db → Forall on_grid ls → 0 <= q < micro_max →
  consumeFifoLayers tenantId itemId warehouseId (micro q) db = Ok (als, db') →
  Sorted (λ a b, key_le (key a) (key b) = true) ls ∧
  ∃ lts, als = map allocation_for lts ∧ map fst lts `prefix_of` ls ∧
    ∀ lts' lt, lts = lts' ++ [lt] → Forall (λ x, snd x = rem_of (fst x)) lts'.
Proof.
  intros ls key Ht Hk Hg Hq E. split.
  - apply sort_by_sorted. intros a b. unfold key_le. fold key.
    destruct (key a) as [[t s] i], (key b) as [[t' s'] i']. unfold lex, str_eq.
    rewrite (Z.eqb_sym t' t), (bool_decide_ext (s' = s) (s = s')) by (split; congruence).
    destruct (Z.eqb_spec t t'); [destruct (bool_decide (s = s')); apply Ht|].
    intros ?%Z.leb_gt. apply Z.leb_le. lia.
  - exists (fifo_plan q ls). split_and!.
    + destruct (Z.le_gt_cases q (sumZ (map rem_of ls))) as [Hs|Hs].
      * destruct (proj1 (consume_spec _ _ _ db Hk Hg q Hq) Hs) as (db1 & E1 & _).
        rewrite E1 in E. by injection E as <- _.
      * destruct (proj2 (consume_spec _ _ _ db Hk Hg q Hq) Hs) as (m & E1). by rewrite E1 in E.
    + apply fifo_plan_prefix.
    + intros lts' lt El. by apply (fifo_plan_exhausts q ls lts' lt Hg); [lia|].
Qed.

(** C19: releasing a reservation undoes its issue: after [issue] for a movement
    that had no allocations, [restore] from that movement - whatever happened to
    the other tables in between - brings every cost layer back to what it was. *)
Theorem issue_restore_roundtrip (now : Date) (input : IssueInput) (item item' : ItemRow) (q : Z)
    (back : RestoreInput) (out : InventoryIssueCost) (db db1 db2 : Db) :
  fifo_issue_ready input item q db →
  Forall (λ l, is_empty (ly_id l) = false) (rows db TLayer) →
  Forall (λ a, al_movementId a ≠ is_movementId input) (rows db TAllocation) →
  issue now input db = Ok (out, db1) →
  rows db2 TLayer = rows db1 TLayer → rows db2 TAllocation = rows db1 TAllocation →
  rs_sourceMovementId back = is_movementId input →
  lockItem (rs_tenantId back) (rs_inventoryItemId back) db2 = Ok (item', db2) →
  it_valuationMethod item' = Some FIFO →
  existsb (has_id TMovement (rs_reversalMovementId back)) (rows db2 TMovement) = true →
  d_of_number (rs_quantity back) = micro q →
  ∃ db3, restore back db2 = Ok (tt, db3) ∧ rows db3 TLayer = rows db TLayer.
Proof.
  intros Hready Hids Hnone Hissue HL HA Hsrc Hi' Hf' Hrev Hqb.
  pose proof Hready as (Hk & Hg & Hi & Hf & Hm & Hqn & Hq & Hc).
  set (ls := open_layers (is_tenantId input) (is_inventoryItemId input) (is_warehouseId input) db)
    in *.
  destruct (Z.le_gt_cases q (sumZ (map rem_of ls))) as [Hs|Hs].
  2: { exfalso. destruct (proj2 (consume_spec _ _ _ db Hk Hg q ltac:(lia)) Hs) as (m & E).
       unfold issue in Hissue. rewrite (tx_bind_run _ _ _ _ _ Hi), Hf, bool_decide_true in Hissue by done.
       rewrite Hqn, (tx_bind_err _ _ _ _ E) in Hissue. done. }
  destruct (issue_fifo_ok now input item q db) as (out' & db' & new & E & _ & _ & R & RA & MA & FA & _);
    try done.
  rewrite Hissue in E. injection E as <- <-. fold ls in R, MA.
  apply (restore_fifo_ok back item' q db db2 (fifo_plan q ls)); try done.
  - by apply fifo_plan_takes.
  - by apply fifo_plan_keys.
  - apply Forall_forall. intros lt Hin.
    pose proof (fifo_plan_takes _ _ _ db Hg q) as Ht. rewrite Forall_forall in Ht.
    destruct (Ht lt Hin) as (Hl & _). by apply (proj1 (Forall_forall _ _) Hids).
  - rewrite fifo_plan_taken by (done || lia). lia.
  - by rewrite HL, R.
  - rewrite HA, RA, Hsrc. rewrite List.filter_app, map_app, <- MA.
    rewrite (filter_none _ (rows db TAllocation)), (filter_every _ new); [done| |].
    + apply (Forall_impl _ _ _ FA). intros r. by apply bool_decide_true.
    + apply (Forall_impl _ _ _ Hnone). intros r. by apply bool_decide_false.
Qed.

(** a transfer carries its cost whole: when the receipts of a FIFO shipment
    cover the shipped quantity, none falls short, and the costs copied to the
    destination add up to the cost of the shipment. *)
Theorem transfer_slices_conserve (als : list AllocationRow) (ps : list (Z * Z)) (qs : list Z) :
  Forall2 row_at als ps → Forall (λ q, 0 <= q) qs → sumZ qs = quantity_of ps →
  quantity_of ps < micro_max → value ps < digits20 →
  Forall (λ out, snd out = micro 0) (receive_slices 0 qs als) ∧
  allocations_total (concat (map fst (receive_slices 0 qs als))) =
    allocations_total (map allocation_of als) ∧
  allocations_total (map allocation_of als) = pico (value ps).
Proof.
  intros Hps Hqs Hs Hq Hv.
  assert (Hamt : amounts ps) by (by eapply (amounts_at row_at); [intros ?? (_&_&?&?)|]).
  destruct (receive_slices_spec als ps qs 0 Hps Hqs) as (Hz & cs & Hcs & Hval); [lia..|].
  rewrite Hs, Z.add_0_l, first_cost_all, first_cost_zero, Z.sub_0_r in Hval by (done || lia).
  assert (Hall : allocations_total (map allocation_of als) = pico (value ps)).
  { apply allocations_total_at; [|done]. clear -Hps. induction Hps; constructor; done. }
  split; [done|]. split; [|done].
  rewrite (allocations_total_at _ cs Hcs) by lia. by rewrite Hval, Hall.
Qed.

(** a moving average, per item or per warehouse, moves towards the receipt:
    after receiving [Q] units at [c] on top of [P] units at [a] the stored average
    lies between the two costs, and nothing else changes. *)
Theorem moving_average_between (item : ItemRow) (wh : option string) (s : StockRow)
    (P Q a c : Z) (db : Db) :
  average_inputs P Q a c →
  (it_movingAverageScope item = Some PER_ITEM → it_averageUnitCost item = Some (micro a) →
   item ∈ rows db TItem →
   total_quantity (List.filter (stocks_of (it_id item)) (rows db TStock)) = of_Z (P + Q) →
   ∃ m, updateMovingAverage item wh (of_Z Q) (micro (Q * million)) (micro c) db =
      Ok (tt, on TItem (map_where (has_id TItem (it_id item)) (set_item_average (micro m))) db) ∧
      Z.min a c <= m <= Z.max a c) ∧
  (it_movingAverageScope item = Some PER_WAREHOUSE →
   List.find (stock_at (it_id item) wh) (rows db TStock) = Some s →
   st_averageUnitCost s = Some (micro a) → st_quantity s = of_Z (P + Q) →
   ∃ m, updateMovingAverage item wh (of_Z Q) (micro (Q * million)) (micro c) db =
      Ok (tt, on TStock (map_where (stock_at (it_id item) wh) (set_stock_average (micro m))) db) ∧
      Z.min a c <= m <= Z.max a c).
Proof.
  intros Hin. split.
  - by apply update_average_item.
  - intros. by apply (update_average_stock item wh s P Q a c db).
Qed.

End properties.

(** * Examples

    Flour valued by FIFO: five units at 100 from an older receipt and three at 120
    from a newer one, stored newest first. *)
Module CostingExamples.

Import FixedPoint SamplePlatform.
Local Open Scope Z_scope.

Definition flour (m : InventoryValuationMethod) : ItemRow :=
  {| it_id := "flour"; it_tenantId := "t1"; it_valuationMethod := Some m;
     it_movingAverageScope := Some PER_ITEM; it_standardCost := None;
     it_averageUnitCost := Some (100 * million * million : @D FixedPoint.decimal);
     it_valuationLockedAt := None |}.
Definition movement (i : string) (t : Date) : MovementRow :=
  {| mv_id := i; mv_tenantId := "t1"; mv_type := STOCK_IN; mv_quantity := of_Z 1;
     mv_note := None; mv_createdAt := t; mv_beforeQuantity := None; mv_afterQuantity := None;
     mv_createdById := None; mv_inventoryItemId := "flour"; mv_referenceId := None;
     mv_referenceType := None; mv_warehouseId := Some "w1"%string; mv_unitCost := None;
     mv_totalCost := None |}.
Definition layer (i m : string) (n cost : Z) : LayerRow :=
  {| ly_id := i; ly_tenantId := "t1"; ly_inventoryItemId := "flour";
     ly_warehouseId := Some "w1"%string; ly_sourceMovementId := Some m;
     ly_sourceType := "PURCHASE_ORDER_RECEIPT"; ly_sourceReferenceId := None;
     ly_receivedQuantity := (n * million * million : @D FixedPoint.decimal);
     ly_remainingQuantity := (n * million * million : @D FixedPoint.decimal);
     ly_unitCost := (cost * million * million : @D FixedPoint.decimal); ly_createdAt := 9 |}.
Definition stock (n : Z) : StockRow :=
  {| st_id := "s1"; st_warehouseId := Some "w1"%string; st_inventoryItemId := "flour";
     st_quantity := of_Z n; st_averageUnitCost := None; st_createdAt := 0; st_updatedAt := 0 |}.
Definition store (m : InventoryValuationMethod) : Db :=
  on TItem (λ _, [flour m]) (on TStock (λ _, [stock 8])
    (on TLayer (λ _, [layer "newer" "in2" 3 120; layer "older" "in1" 5 100])
      (on TMovement (λ _, [movement "in1" 1; movement "in2" 2; movement "out" 3;
                           movement "back" 4]) emptyDb))).
Definition issue_input (n : Z) : IssueInput :=
  {| is_tenantId := "t1"; is_inventoryItemId := "flour"; is_warehouseId := Some "w1"%string;
     is_quantity := of_Z n; is_movementId := "out" |}.
Definition restore_input (n : Z) : RestoreInput :=
  {| rs_tenantId := "t1"; rs_inventoryItemId := "flour"; rs_warehouseId := Some "w1"%string;
     rs_quantity := of_Z n; rs_sourceMovementId := "out"; rs_reversalMovementId := "back" |}.

Lemma on_grid_layer i m n cost :
  0 <= n < 1000 → 0 <= cost < 1000 → on_grid (layer i m n cost).
Proof.
  intros Hn Hc. apply (layer_at_grid _ (n * million, cost * million)).
  unfold layer_at. simpl. literals. lia.
Qed.

Lemma ready (n : Z) :
  0 < n < 1000 → fifo_issue_ready (issue_input n) (flour FIFO) (n * million) (store FIFO).
Proof.
  intros Hn. unfold fifo_issue_ready.
  assert (E : open_layers (is_tenantId (issue_input n)) (is_inventoryItemId (issue_input n))
                (is_warehouseId (issue_input n)) (store FIFO) =
              [layer "older" "in1" 5 100; layer "newer" "in2" 3 120]) by reflexivity.
  rewrite E. split; [|split; [|split; [|split; [|split; [|split; [|split]]]]]].
  - apply (bool_decide_unpack _). vm_compute. exact I.
  - repeat constructor; apply on_grid_layer; lia.
  - reflexivity.
  - reflexivity.
  - reflexivity.
  - simpl. unfold of_number. change (of_Z n) with (of_Z n).
    exact (of_number_micro n ltac:(lia)).
  - literals. lia.
  - eapply Z.le_lt_trans; [apply cost_taken_worth; [|literals; lia]|reflexivity].
    repeat constructor; apply on_grid_layer; lia.
Qed.

Lemma issue_fifo_conserves_witness :
  ∃ out db', issue 50 (issue_input 6) (store FIFO) = Ok (out, db') ∧
    ic_totalCost out = pico (620 * million * million) ∧
    worth (rows db' TLayer) = 240 * million * million.
Proof.
  destruct (proj1 (issue_fifo_conserves 50 (issue_input 6) (flour FIFO) (6 * million)
    (store FIFO) (ready 6 ltac:(lia)))) as (out & db' & E & _ & _ & Ht & Hw & _).
  { vm_compute. discriminate. }
  exists out, db'. split; [exact E|]. split; [rewrite Ht|rewrite Hw]; vm_compute; reflexivity.
Defined.

Lemma fifo_oldest_first_witness :
  Sorted (λ a b, key_le (layer_key (rows (store FIFO) TMovement) a)
                        (layer_key (rows (store FIFO) TMovement) b) = true)
    (open_layers "t1" "flour" (Some "w1"%string) (store FIFO)).
Proof.
  assert (C : is_ok (consumeFifoLayers "t1" "flour" (Some "w1"%string) (micro (6 * million))
                       (store FIFO)) = true) by (vm_compute; reflexivity).
  destruct (consumeFifoLayers "t1" "flour" (Some "w1"%string) (micro (6 * million)) (store FIFO))
    as [[als db']|e] eqn:E; [clear C|discriminate C].
  apply (fifo_oldest_first "t1" "flour" (Some "w1"%string) (6 * million) (store FIFO) db' als);
    [|apply (ready 6); lia|apply (ready 6); lia|literals; lia|exact E].
  intros a b. simpl. unfold String.leb. rewrite (String.compare_antisym b a).
  by destruct (String.compare a b).
Defined.

Lemma issue_restore_roundtrip_witness :
  ∃ out db1 db3, issue 50 (issue_input 6) (store FIFO) = Ok (out, db1) ∧
    rows db1 TLayer ≠ rows (store FIFO) TLayer ∧
    restore (restore_input 6) db1 = Ok (tt, db3) ∧ rows db3 TLayer = rows (store FIFO) TLayer.
Proof.
  assert (C : match issue 50 (issue_input 6) (store FIFO) with
              | Ok (_, d) =>
                  match lockItem "t1" "flour" d with
                  | Ok (it, _) => bool_decide (it_valuationMethod it = Some FIFO)
                  | Err _ => false
                  end && existsb (has_id TMovement "back") (rows d TMovement) &&
                  (worth (rows d TLayer) =? 240 * million * million)
              | Err _ => false
              end = true) by (vm_compute; reflexivity).
  destruct (issue 50 (issue_input 6) (store FIFO)) as [[out db1]|e] eqn:E; [|discriminate C].
  destruct (lockItem "t1" "flour" db1) as [[it db1']|] eqn:Hl; [|discriminate C].
  apply andb_true_iff in C as [C Hw]. apply andb_true_iff in C as [Hf Hm].
  apply bool_decide_eq_true_1 in Hf. apply Z.eqb_eq in Hw.
  pose proof (lockItem_ok _ _ _ _ _ Hl) as [-> _].
  assert (Hne : rows db1 TLayer ≠ rows (store FIFO) TLayer).
  { intros Heq. rewrite Heq in Hw. vm_compute in Hw. discriminate Hw. }
  destruct (issue_restore_roundtrip 50 (issue_input 6) (flour FIFO)
    it (6 * million) (restore_input 6) out
    (store FIFO) db1 db1) as (db3 & E3 & R3);
    [apply ready; lia|repeat constructor|constructor|exact E|reflexivity|reflexivity|reflexivity
    |exact Hl|exact Hf|exact Hm|exact (of_number_micro 6 ltac:(lia))|].
  exists out, db1, db3. split; [reflexivity|]. split; [exact Hne|]. split; [exact E3|exact R3].
Defined.

Definition allocation (i : string) (n cost : Z) : AllocationRow :=
  {| al_id := i; al_movementId := "ship"; al_costLayerId := None;
     al_quantity := (n * million * million : @D FixedPoint.decimal);
     al_unitCost := (cost * million * million : @D FixedPoint.decimal) |}.

Lemma transfer_slices_conserve_witness :
  allocations_total (concat (map fst (receive_slices 0 [3 * million; 4 * million; 1 * million]
    [allocation "a" 5 100; allocation "b" 3 120]))) = pico (860 * million * million).
Proof.
  destruct (transfer_slices_conserve [allocation "a" 5 100; allocation "b" 3 120]
    [(5 * million, 100 * million); (3 * million, 120 * million)]
    [3 * million; 4 * million; 1 * million]) as (_ & E & E').
  - repeat constructor; vm_compute; congruence.
  - repeat constructor; vm_compute; discriminate.
  - reflexivity.
  - reflexivity.
  - reflexivity.
  - rewrite E, E'. reflexivity.
Defined.

Lemma moving_average_between_witness :
  ∃ m, updateMovingAverage (flour MOVING_WEIGHTED_AVERAGE) None (of_Z 3) (micro (3 * million))
         (micro (120 * million)) (store MOVING_WEIGHTED_AVERAGE) =
       Ok (tt, on TItem (map_where (has_id TItem "flour") (set_item_average (micro m)))
                 (store MOVING_WEIGHTED_AVERAGE)) ∧
    100 * million <= m <= 120 * million.
Proof.
  apply (moving_average_between (flour MOVING_WEIGHTED_AVERAGE) None (stock 8) 5 3
    (100 * million) (120 * million) (store MOVING_WEIGHTED_AVERAGE)).
  - unfold average_inputs. literals. lia.
  - reflexivity.
  - reflexivity.
  - by left.
  - vm_compute. reflexivity.
Defined.

End CostingExamples.
