(* ===== verification/Receipts.v ===== *)
(** What the two receiving services share - purchase orders
    (purchase-order.service.ts, receivePurchaseOrder) and warehouse transfers
    (warehouse-transfer.service.ts, receive): the idempotency key, the request
    lines, the plan of a partial receipt with its tolerance of 10^-9, and the
    stock row it lands in.  A service's order line is an instance of
    [ReceivableLine]. *)

From stdpp Require Import base list strings option sets.
From Stdlib Require Import ZArith Ascii String.
From S2P Require Import Prelude JsNumber JsString DomainEvents CoreDomain MasterData Lifecycles.
From S2P Require Import PurchaseOrderAggregate Decimal Database.

(** * The request *)

(** [/^[\x21-\x7e]+$/]. *)
Definition visible (c : ascii) : bool :=
  let n := nat_of_ascii c in (33 <=? n)%nat && (n <=? 126)%nat.
Definition validIdempotencyKey (k : string) : bool :=
  negb (is_empty k) && (String.length k <=? 128)%nat &&
  forallb visible (String.list_ascii_of_string k).
Definition key_error : exn :=
  BadRequestException "A valid Idempotency-Key header of 1 to 128 visible ASCII characters is required".
Definition assertIdempotencyKey (k : string) : result unit :=
  throw_if (negb (validIdempotencyKey k)) key_error.

(** [dto.note?.trim() || null]. *)
Definition clean_note (note : option string) : option string :=
  match note with
  | Some n => if is_empty (trim n) then None else Some (trim n)
  | None => None
  end.

(** A line of a request: what it refers to, and a quantity. *)
Record RequestLine := { rq_ref : string; rq_quantity : number }.

Definition normalize_lines : list RequestLine → list RequestLine :=
  map (λ l, {| rq_ref := trim (rq_ref l); rq_quantity := rq_quantity l |}).

Section requests.
Context (missing : exn) (bad_quantity : number → bool) (bad : exn) (twice : exn).

(** The loop over the normalised lines, with the set of references seen. *)
Definition check_line (seen : list string) (l : RequestLine) : result (list string) :=
  if is_empty (rq_ref l) then Err missing
  else if negb (isFinite (rq_quantity l)) || bad_quantity (rq_quantity l) then Err bad
  else if bool_decide (rq_ref l ∈ seen) then Err twice
  else Ok (rq_ref l :: seen).
Definition check_lines (ls : list RequestLine) : result (list string) :=
  for_each check_line ls [].

Lemma check_lines_from seen ls seen' :
  for_each check_line ls seen = Ok seen' →
  NoDup (map rq_ref ls) ∧ Forall (λ r, r ∉ seen) (map rq_ref ls) ∧
  Forall (λ l, isFinite (rq_quantity l) = true ∧ bad_quantity (rq_quantity l) = false) ls.
Proof.
  revert seen. induction ls as [|l ls IH]; intros seen; simpl.
  { intros _. split_and!; constructor. }
  intros E. destruct (check_line seen l) as [s1|] eqn:El; [|done].
  unfold check_line in El. inv_ok El. subst s1. apply IH in E as (Hnd & Hs & Hf). bool_hyps.
  split_and!.
  - apply NoDup_cons. split; [|done]. intros Hin. rewrite Forall_forall in Hs.
    apply (Hs _ Hin). by left.
  - constructor; [done|]. apply (Forall_impl _ _ _ Hs). intros r Hr Hin. apply Hr. by right.
  - constructor; [done|done].
Qed.
Lemma check_lines_ok ls seen :
  check_lines ls = Ok seen →
  NoDup (map rq_ref ls) ∧
  Forall (λ l, isFinite (rq_quantity l) = true ∧ bad_quantity (rq_quantity l) = false) ls.
Proof. intros E. by apply check_lines_from in E as (? & _ & ?). Qed.

End requests.

(** [lines.sort((a, b) => a.ref.localeCompare(b.ref))]. *)
Definition sort_lines `{Platform} : list RequestLine → list RequestLine :=
  sort_by (λ a b, localeLe (rq_ref a) (rq_ref b)).

(** The digest of a receipt request; [key] is the property name of the reference. *)
Definition lines_json (key quantityKey : string) (ls : list RequestLine) : json :=
  JArray (map (λ l, JObject [(key, JString (rq_ref l)); (quantityKey, JNumber (rq_quantity l))]) ls).
Definition receipt_hash `{Platform} (key : string) (ls : list RequestLine) (note : option string)
  : string :=
  sha256 (JObject [("items"%string, lines_json key "receivedQuantity" ls);
                   ("note"%string, JNullable note)]).

(** * The plan *)

Class ReceivableLine (L : Type) := {
  line_id : L → string;
  line_item : L → string;
  ordered : L → number;
  received : L → number;
  not_mine : exn;
  too_much : exn;
}.

Record Planned (L : Type) := { pl_line : L; pl_delta : number; pl_next : number }.
Arguments pl_line {L} p.
Arguments pl_delta {L} p.
Arguments pl_next {L} p.
Arguments Build_Planned {L}.

(** [1e-9]. *)
Definition epsilon : number := of_ratio 1 1000000000.
#[global] Opaque epsilon.

Section plan.
Context `{ReceivableLine L}.

Definition plan_line (lines : list L) (r : RequestLine) : result (Planned L) :=
  match List.find (λ l, bool_decide (line_id l = rq_ref r)) lines with
  | None => Err not_mine
  | Some l =>
      let nextReceived := add (received l) (rq_quantity r) in
      if gtb (sub nextReceived (ordered l)) epsilon then Err too_much
      else Ok {| pl_line := l; pl_delta := sub (min nextReceived (ordered l)) (received l);
                 pl_next := min nextReceived (ordered l) |}
  end.
Definition plan_receipt (lines : list L) (rs : list RequestLine) : result (list (Planned L)) :=
  map_result (plan_line lines) rs.

Definition planned_for (ps : list (Planned L)) (l : L) : option (Planned L) :=
  List.find (λ p, bool_decide (line_id (pl_line p) = line_id l)) ps.
(** What a line has received once the plan is carried out. *)
Definition next_received (ps : list (Planned L)) (l : L) : number :=
  match planned_for ps l with Some p => pl_next p | None => received l end.
Definition all_received (lines : list L) (ps : list (Planned L)) : bool :=
  forallb (λ l, geb (next_received ps l) (sub (ordered l) epsilon)) lines.

(** A line within its bounds: its numbers are finite, and what was received is
    not negative and not more than what was ordered. *)
Definition within (r o : number) : Prop :=
  isFinite o = true ∧ isFinite r = true ∧ ltb r (of_Z 0) = false ∧ leb r o = true.
Definition line_ok (l : L) : Prop := within (received l) (ordered l).
(** A request for a positive quantity. *)
Definition request_ok (r : RequestLine) : Prop :=
  isFinite (rq_quantity r) = true ∧ gtb (rq_quantity r) (of_Z 0) = true.

Lemma plan_line_ok lines r p :
  plan_line lines r = Ok p → pl_line p ∈ lines ∧ line_id (pl_line p) = rq_ref r.
Proof.
  unfold plan_line. destruct (List.find _ lines) as [l|] eqn:E; [|done].
  apply find_some_in in E as [Hin E]. bool_hyps.
  destruct (gtb _ _); [discriminate|]. intros [= <-]. split; [exact Hin|exact E].
Qed.

Lemma plan_line_bound lines r p :
  plan_line lines r = Ok p → line_ok (pl_line p) → request_ok r →
  within (pl_next p) (ordered (pl_line p)).
Proof.
  unfold plan_line. destruct (List.find _ lines) as [l|] eqn:E; [|done].
  destruct (gtb _ _); [discriminate|]. intros [= <-]. cbn [pl_line pl_next].
  intros (Ho & Hr & Hr0 & Hle) [Hq Hq0].
  assert (Hp : gtb (add (received l) (rq_quantity r)) (of_Z 0) = true) by by apply add_pos.
  destruct (min_bounds (add (received l) (rq_quantity r)) (ordered l)) as [??];
    [done|done|by eapply leb_nonneg|].
  split_and!; [done..|].
  apply min_le_r; [by apply add_finite_not_nan|by apply isFinite_not_nan].
Qed.

Lemma plan_receipt_ok lines rs ps :
  plan_receipt lines rs = Ok ps →
  map (λ p, line_id (pl_line p)) ps = map rq_ref rs ∧ Forall (λ p, pl_line p ∈ lines) ps.
Proof.
  intros E%map_result_Forall2. induction E as [|r p rs ps Hp _ [IH1 IH2]]; [by split|].
  apply plan_line_ok in Hp as [Hin Hid]. simpl. rewrite IH1, Hid. by split; [|constructor].
Qed.

(** No line of the plan exceeds what was ordered. *)
Lemma plan_receipt_bound lines rs ps :
  plan_receipt lines rs = Ok ps → NoDup (map line_id lines) → Forall line_ok lines →
  Forall request_ok rs →
  Forall (λ l, within (next_received ps l) (ordered l)) lines.
Proof.
  intros E Hnd Hl Hq. pose proof (plan_receipt_ok _ _ _ E) as [_ Hin].
  assert (Hb : Forall (λ p, within (pl_next p) (ordered (pl_line p))) ps).
  { apply map_result_Forall2 in E. rewrite Forall_forall in Hl. revert Hin Hq.
    induction E as [|r p rs ps Hp _ IH]; intros Hin Hq; [constructor|].
    apply Forall_cons in Hin as [Hin0 Hin]. apply Forall_cons in Hq as [Hq0 Hq].
    constructor; [|by apply IH]. eapply plan_line_bound; [exact Hp|by apply Hl|done]. }
  apply Forall_forall. intros l Hmem. unfold next_received, planned_for.
  destruct (List.find _ ps) as [p|] eqn:Ef.
  2: { rewrite Forall_forall in Hl. by apply Hl. }
  apply find_some_in in Ef as [Hp Hid]. bool_hyps.
  rewrite Forall_forall in Hb, Hin.
  rewrite <- (same_key line_id lines (pl_line p) l Hnd (Hin p Hp) Hmem Hid). by apply Hb.
Qed.

End plan.

(** * The effect of a plan on the lines

    [mine] tells the lines of the document from those of others, and
    [set_received] is the write of a line. *)

Class LineUpdate {L} `{ReceivableLine L} (mine : L → bool) (set_received : number → L → L) := {
  set_received_id q l : line_id (set_received q l) = line_id l;
  set_received_ordered q l : ordered (set_received q l) = ordered l;
  set_received_received q l : received (set_received q l) = q;
  set_received_mine q l : mine (set_received q l) = mine l;
}.

Section effect.
Context {L : Type} {line : ReceivableLine L} (mine : L → bool) (set_received : number → L → L).
Context {laws : LineUpdate mine set_received}.

(** A line after the plan. *)
Definition apply_plan (ps : list (Planned L)) (r : L) : L :=
  match planned_for ps r with
  | Some p => if mine r then set_received (pl_next p) r else r
  | None => r
  end.
(** The write of one planned line. *)
Definition apply_line (p : Planned L) : list L → list L :=
  map_where (λ r, bool_decide (line_id r = line_id (pl_line p)) && mine r)
    (set_received (pl_next p)).
(** Whether the lines are complete, up to the tolerance. *)
Definition complete_up_to_epsilon (lines : list L) : bool :=
  forallb (λ l, geb (received l) (sub (ordered l) epsilon)) lines.

Lemma apply_plan_id ps r : line_id (apply_plan ps r) = line_id r.
Proof.
  unfold apply_plan. destruct (planned_for ps r); [|done].
  destruct (mine r); [apply set_received_id|done].
Qed.
Lemma apply_plan_ordered ps r : ordered (apply_plan ps r) = ordered r.
Proof.
  unfold apply_plan. destruct (planned_for ps r); [|done].
  destruct (mine r); [apply set_received_ordered|done].
Qed.
Lemma apply_plan_received ps r :
  mine r = true → received (apply_plan ps r) = next_received ps r.
Proof.
  intros Hi. unfold apply_plan, next_received. destruct (planned_for ps r); [|done].
  rewrite Hi. apply set_received_received.
Qed.
Lemma apply_plan_mine ps r : mine (apply_plan ps r) = mine r.
Proof.
  unfold apply_plan. destruct (planned_for ps r); [|done].
  destruct (mine r) eqn:E; [by rewrite set_received_mine|done].
Qed.
Lemma apply_plan_other ps r : mine r = false → apply_plan ps r = r.
Proof. unfold apply_plan. intros ->. by destruct (planned_for ps r). Qed.

Lemma planned_for_cons p ps (r : L) :
  planned_for (p :: ps) r =
    if bool_decide (line_id (pl_line p) = line_id r) then Some p else planned_for ps r.
Proof. done. Qed.
Lemma planned_for_absent ps (r : L) :
  line_id r ∉ map (λ p, line_id (pl_line p)) ps → planned_for ps r = None.
Proof.
  induction ps as [|p ps IH]; intros Hn; [done|]. rewrite planned_for_cons. simpl in Hn.
  apply not_elem_of_cons in Hn as [H1 H2]. rewrite bool_decide_false by congruence.
  by apply IH.
Qed.

Lemma apply_plan_step p ps l :
  line_id (pl_line p) ∉ map (λ p, line_id (pl_line p)) ps →
  map (apply_plan ps) (apply_line p l) = map (apply_plan (p :: ps)) l.
Proof.
  intros Hp. unfold apply_line, map_where. rewrite map_map. apply map_ext. intros r.
  unfold apply_plan at 2. rewrite planned_for_cons.
  case_bool_decide as E1; case_bool_decide as E2; try congruence; simpl; [|done].
  destruct (mine r) eqn:Ei; unfold apply_plan.
  - rewrite planned_for_absent; [done|]. by rewrite set_received_id, E1.
  - rewrite planned_for_absent; [done|]. by rewrite E1.
Qed.

Lemma filter_plan ps l :
  List.filter mine (map (apply_plan ps) l) = map (apply_plan ps) (List.filter mine l).
Proof.
  induction l as [|r l IH]; simpl; [done|]. rewrite apply_plan_mine, IH.
  by destruct (mine r).
Qed.

Lemma all_received_after ps l :
  all_received (List.filter mine l) ps =
  complete_up_to_epsilon (List.filter mine (map (apply_plan ps) l)).
Proof.
  rewrite filter_plan. unfold complete_up_to_epsilon, all_received.
  assert (Hf : Forall (λ r, mine r = true) (List.filter mine l)).
  { apply Forall_forall. by intros r [_ ?]%list_elem_of_In%filter_In. }
  induction Hf as [|r rs Hr _ IH]; [done|]. cbn [forallb map]. rewrite IH.
  by rewrite apply_plan_received, apply_plan_ordered.
Qed.

(** A plan keeps every line within its bounds and leaves the others alone. *)
Lemma apply_plan_bounds l rs ps :
  plan_receipt (List.filter mine l) rs = Ok ps →
  NoDup (map line_id l) → Forall line_ok l → Forall request_ok rs →
  Forall line_ok (map (apply_plan ps) l) ∧
  map line_id (map (apply_plan ps) l) = map line_id l ∧
  List.filter (λ r, negb (mine r)) (map (apply_plan ps) l) = List.filter (λ r, negb (mine r)) l.
Proof.
  intros Hplan Hk Hok Hlines. rewrite Forall_forall in Hok.
  assert (Hb : Forall (λ l, within (next_received ps l) (ordered l)) (List.filter mine l)).
  { apply (plan_receipt_bound _ _ _ Hplan); [by apply filter_keys| |done].
    apply Forall_forall. intros x [Hr _]%list_elem_of_In%filter_In.
    by apply Hok, list_elem_of_In. }
  rewrite Forall_forall in Hb. split; [|split].
  - apply Forall_map, Forall_forall. intros r Hr. unfold line_ok.
    rewrite apply_plan_ordered. destruct (mine r) eqn:Ei.
    + rewrite (apply_plan_received _ _ Ei). apply Hb.
      apply list_elem_of_In, filter_In. by rewrite <- list_elem_of_In.
    + rewrite (apply_plan_other _ _ Ei). by apply Hok.
  - rewrite map_map. apply map_ext. intros r. apply apply_plan_id.
  - clear - laws. induction l as [|r l IH]; simpl; [done|].
    rewrite apply_plan_mine, IH. destruct (mine r) eqn:Ei; simpl; [done|].
    by rewrite (apply_plan_other _ _ Ei).
Qed.

End effect.

(** * Stock, movements and the outbox *)

Section stock.
Context {dec : Decimal} {plat : Platform}.

Definition set_stock_quantity (q : number) (updatedAt : Date) (s : StockRow) : StockRow :=
  {| st_id := st_id s; st_warehouseId := st_warehouseId s;
     st_inventoryItemId := st_inventoryItemId s; st_quantity := q;
     st_averageUnitCost := st_averageUnitCost s; st_createdAt := st_createdAt s;
     st_updatedAt := updatedAt |}.
(** [quantity: { increment: d }, updatedAt: now]. *)
Definition increment (now : Date) (d : number) (s : StockRow) : StockRow :=
  set_stock_quantity (add (st_quantity s) d) now s.

(** The unique key [warehouseId_inventoryItemId]. *)
Definition stock_key (warehouseId itemId : string) (s : StockRow) : bool :=
  bool_decide (st_warehouseId s = Some warehouseId) &&
  bool_decide (st_inventoryItemId s = itemId).

Definition stock_place (s : StockRow) : option string * string :=
  (st_warehouseId s, st_inventoryItemId s).

(** [inventoryStock.upsert]: the row after the write. *)
Definition upsert_stock (now : Date) (warehouseId itemId : string) (delta : number)
  : Tx Db StockRow :=
  found ← select_first TStock (stock_key warehouseId itemId);
  match found with
  | Some s => _ ← update_many TStock (stock_key warehouseId itemId) (increment now delta);
              mret (increment now delta s)
  | None => insert TStock (λ i, {| st_id := i; st_warehouseId := Some warehouseId;
              st_inventoryItemId := itemId; st_quantity := delta;
              st_averageUnitCost := None; st_createdAt := now; st_updatedAt := now |})
  end.

Record MovementData := {
  md_tenantId : string; md_warehouseId : option string; md_inventoryItemId : string;
  md_type : InventoryMovementType; md_quantity : number; md_before : option number;
  md_after : option number; md_note : option string; md_createdById : option string;
  md_referenceType : string; md_referenceId : string;
}.
(** [inventoryMovement.create]. *)
Definition create_movement (now : Date) (d : MovementData) : Tx Db MovementRow :=
  insert TMovement (λ i, {| mv_id := i; mv_tenantId := md_tenantId d; mv_type := md_type d;
    mv_quantity := md_quantity d; mv_note := md_note d; mv_createdAt := now;
    mv_beforeQuantity := md_before d; mv_afterQuantity := md_after d;
    mv_createdById := md_createdById d; mv_inventoryItemId := md_inventoryItemId d;
    mv_referenceId := Some (md_referenceId d); mv_referenceType := Some (md_referenceType d);
    mv_warehouseId := md_warehouseId d; mv_unitCost := None; mv_totalCost := None |}).

(** [outboxEvent.create] with the event as text. *)
Definition write_outbox (now : Date) (tenantId type : string) (payload : list (string * string))
  : Tx Db unit :=
  _ ← insert TOutbox (λ i, {| ob_id := i; ob_tenantId := Some tenantId; ob_outletId := None;
        ob_type := type;
        ob_payload := JSON_stringify (JObject
          [("type"%string, JString type);
           ("payload"%string, JObject (map (λ p, (fst p, JString (snd p))) payload));
           ("occurredAt"%string, JDate now)]);
        ob_status := OutboxPENDING; ob_error := None; ob_createdAt := now;
        ob_processedAt := None |});
  mret tt.

Lemma writes_upsert_stock ts now wh i d : TStock ∈ ts → writes ts (upsert_stock now wh i d).
Proof. unfold upsert_stock. intros. solve_writes. Qed.
Lemma writes_create_movement ts now d : TMovement ∈ ts → writes ts (create_movement now d).
Proof. unfold create_movement. intros. solve_writes. Qed.
Lemma writes_outbox ts now t ty p : TOutbox ∈ ts → writes ts (write_outbox now t ty p).
Proof. unfold write_outbox. intros. solve_writes. Qed.

Lemma write_outbox_run now t ty p db :
  ∃ db', write_outbox now t ty p db = Ok (tt, db') ∧ only [TOutbox] db db'.
Proof.
  eexists. assert (H : ∀ db', write_outbox now t ty p db = Ok (tt, db') → only [TOutbox] db db').
  { intros db'. apply (writes_outbox [TOutbox]). set_solver. }
  unfold write_outbox, insert, mbind, tx_bind in *. split; [reflexivity|]. by apply H.
Qed.

End stock.

#[export] Hint Resolve writes_upsert_stock writes_create_movement writes_outbox : writes.
