(* ===== verification/PurchaseOrders.v ===== *)
(** The purchase order service (modules/purchase-orders/purchase-order.service.ts
    and purchase-order.repository.ts): creation through the aggregate, edits,
    status changes, receiving and deletion over the store. *)

From stdpp Require Import base list strings option gmap.
From stdpp Require Import pretty.
From Stdlib Require Import ZArith.
From S2P Require Import Prelude JsNumber JsString DomainEvents CoreDomain MasterData Lifecycles.
From S2P Require Import PurchaseOrderAggregate Decimal Database Costing Receipts.

Module PurchaseOrders.

Section service.
Context {dec : Decimal} {plat : Platform}.
(** The subscribers of the event bus: what the first that throws throws, and what they do
    to the state [W] of everything else. *)
Context {W : Type} (answer : DomainEvent → W → option exn * W).

(** [await this.eventBus.publish(event)], for events in turn. *)
Fixpoint publish_all (events : list DomainEvent) (w : W) : option exn * W :=
  match events with
  | [] => (None, w)
  | event :: events => match answer event w with
                       | (None, w') => publish_all events w'
                       | threw => threw
                       end
  end.

Definition of_tenant (poId tenantId : string) (r : OrderRow) : bool :=
  bool_decide (po_id r = poId) && bool_decide (po_tenantId r = tenantId).
Definition items_of (poId : string) (r : OrderItemRow) : bool :=
  bool_decide (oi_purchaseOrderId r = poId).
Definition not_found : exn := NotFoundException "Purchase Order not found".

(** [SELECT "id" ... FOR UPDATE] and its check. *)
Definition lockOrder (poId tenantId : string) : Tx Db unit :=
  lock_row TOrder (of_tenant poId tenantId) not_found.
Definition findOne (tenantId poId : string) : Tx Db OrderRow :=
  load_row TOrder (of_tenant poId tenantId) not_found.

Definition set_order (status : PurchaseOrderStatus) (now : Date)
    (receivedAt completedAt : option Date) (r : OrderRow) : OrderRow :=
  {| po_id := po_id r; po_tenantId := po_tenantId r; po_poNumber := po_poNumber r;
     po_status := status; po_supplierId := po_supplierId r;
     po_warehouseId := po_warehouseId r; po_expectedDeliveryDate := po_expectedDeliveryDate r;
     po_totalAmount := po_totalAmount r; po_currencyCode := po_currencyCode r;
     po_notes := po_notes r;
     po_receivedAt := match receivedAt with Some d => Some d | None => po_receivedAt r end;
     po_completedAt := match completedAt with Some d => Some d | None => po_completedAt r end;
     po_createdAt := po_createdAt r; po_updatedAt := now |}.
Definition set_item_received (q : number) (r : OrderItemRow) : OrderItemRow :=
  {| oi_id := oi_id r; oi_purchaseOrderId := oi_purchaseOrderId r;
     oi_inventoryItemId := oi_inventoryItemId r; oi_quantity := oi_quantity r;
     oi_unitPrice := oi_unitPrice r; oi_subtotal := oi_subtotal r; oi_receivedQuantity := q |}.

(** ** Receiving *)

#[export] Instance order_line : ReceivableLine OrderItemRow := {|
  line_id := oi_id;
  line_item := oi_inventoryItemId;
  ordered := oi_quantity;
  received := oi_receivedQuantity;
  not_mine := BadRequestException "Receipt item does not belong to this purchase order";
  too_much := BadRequestException "Cannot receive more than the ordered quantity";
|}.

Record ReceiveDto := { dto_items : list RequestLine; dto_note : option string }.
Definition receipt : Type := ReceiptRow * list ReceiptItemRow.

(** [0.1]. *)
Definition min_receipt : number := of_ratio 1 10.
Definition check_request (key : string) (dto : ReceiveDto) : result (list RequestLine) :=
  _ ← assertIdempotencyKey key;
  _ ← throw_if (length (dto_items dto) =? 0)
        (BadRequestException "At least one receipt item is required");
  let normalizedItems := normalize_lines (dto_items dto) in
  _ ← check_lines (BadRequestException "Purchase order item id is required")
        (λ q, ltb q min_receipt)
        (BadRequestException "Received quantity must be a finite number of at least 0.1")
        (BadRequestException "A purchase order item may only appear once per receipt")
        normalizedItems;
  Ok (sort_lines normalizedItems).
Definition request_hash (lines : list RequestLine) (note : option string) : string :=
  receipt_hash "purchaseOrderItemId" lines note.

Definition existing_receipt (poId key : string) (r : ReceiptRow) : bool :=
  bool_decide (rc_purchaseOrderId r = poId) && bool_decide (rc_idempotencyKey r = key).
Definition receipt_items (receiptId : string) (r : ReceiptItemRow) : bool :=
  bool_decide (ri_receiptId r = receiptId).

(** The variance of a standard-cost item against the purchase price. *)
Definition create_variance (tenantId poId warehouseId : string) (currency : option string)
    (rc : receipt) (item : ItemRow) (p : Planned OrderItemRow) : Tx Db unit :=
  match it_valuationMethod item, it_standardCost item with
  | Some STANDARD_COST, Some standardUnitCost =>
      match List.find (λ i, bool_decide (ri_purchaseOrderItemId i = oi_id (pl_line p))) (snd rc) with
      | None => tx_throw (BadRequestException "Purchase order receipt item was not persisted")
      | Some receiptItem =>
          let actualUnitCost := d_of_number (oi_unitPrice (pl_line p)) in
          let varianceAmount :=
            d_mul (d_sub actualUnitCost standardUnitCost) (d_of_number (pl_delta p)) in
          q ← to_column (d_of_number (pl_delta p));
          s ← to_column standardUnitCost;
          a ← to_column actualUnitCost;
          v ← to_column varianceAmount;
          _ ← insert TVariance (λ i, {| pv_id := i; pv_tenantId := tenantId;
                pv_receiptId := rc_id (fst rc); pv_receiptItemId := ri_id receiptItem;
                pv_purchaseOrderId := poId; pv_purchaseOrderItemId := oi_id (pl_line p);
                pv_inventoryItemId := oi_inventoryItemId (pl_line p);
                pv_warehouseId := warehouseId; pv_quantity := q; pv_standardUnitCost := s;
                pv_actualUnitCost := a; pv_varianceAmount := v; pv_currencyCode := currency |});
          mret tt
      end
  | _, _ => mret tt
  end.

(** The body of the loop over the planned items. *)
Definition receive_line (now : Date) (tenantId userId warehouseId poId : string) (po : OrderRow)
    (note currency : option string) (rc : receipt) (p : Planned OrderItemRow) : Tx Db unit :=
  let line := pl_line p in
  inventoryItem ← Costing.lockItem tenantId (oi_inventoryItemId line);
  n ← update_many TOrderItem (λ r, bool_decide (oi_id r = oi_id line) && items_of poId r)
        (set_item_received (pl_next p));
  _ ← tx_throw_if (negb (n =? 1)) (PrismaError "P2034");
  stock ← upsert_stock now warehouseId (oi_inventoryItemId line) (pl_delta p);
  movement ← create_movement now
    {| md_tenantId := tenantId; md_warehouseId := Some warehouseId;
       md_inventoryItemId := oi_inventoryItemId line; md_type := STOCK_IN;
       md_quantity := pl_delta p; md_before := Some (sub (st_quantity stock) (pl_delta p));
       md_after := Some (st_quantity stock);
       md_note := Some (default ("PO " ++ po_poNumber po ++ " receipt")%string note);
       md_createdById := Some userId; md_referenceType := "PURCHASE_ORDER_RECEIPT";
       md_referenceId := rc_id (fst rc) |};
  _ ← Costing.receive now
    {| Costing.rv_tenantId := tenantId; Costing.rv_inventoryItemId := oi_inventoryItemId line;
       Costing.rv_warehouseId := Some warehouseId; Costing.rv_quantity := pl_delta p;
       Costing.rv_unitCost := Some (inl (oi_unitPrice line));
       Costing.rv_sourceType := "PURCHASE_ORDER_RECEIPT";
       Costing.rv_sourceReferenceId := Some (rc_id (fst rc));
       Costing.rv_movementId := mv_id movement |};
  create_variance tenantId poId warehouseId currency rc inventoryItem p.

(** The writes of a planned receipt: the receipt with its items, each line, the
    status of the order, and the event. *)
Definition write_receipt (now : Date) (tenantId poId userId key warehouseId : string)
    (po : OrderRow) (currency note : option string) (hash : string)
    (receiptStatus : PurchaseOrderStatus) (plannedItems : list (Planned OrderItemRow))
  : Tx Db receipt :=
  r ← insert TReceipt (λ i, {| rc_id := i; rc_tenantId := tenantId;
        rc_purchaseOrderId := poId; rc_createdById := Some userId;
        rc_idempotencyKey := key; rc_requestHash := hash;
        rc_statusAfter := receiptStatus; rc_note := note; rc_createdAt := now |});
  rows ← insert_all TReceiptItem (map (λ p i, {| ri_id := i; ri_tenantId := tenantId;
        ri_receiptId := rc_id r; ri_purchaseOrderItemId := oi_id (pl_line p);
        ri_inventoryItemId := oi_inventoryItemId (pl_line p);
        ri_receivedQuantity := pl_delta p |}) plannedItems);
  _ ← tx_for_each (receive_line now tenantId userId warehouseId poId po note currency (r, rows))
        plannedItems;
  n ← update_many TOrder (λ o, of_tenant poId tenantId o &&
                               bool_decide (po_status o = po_status po))
        (set_order receiptStatus now
           (if bool_decide (receiptStatus = RECEIVED) then Some now else None) None);
  _ ← tx_throw_if (negb (n =? 1)) (PrismaError "P2034");
  let type := event_type (EvPurchaseOrder
    (if bool_decide (receiptStatus = RECEIVED)
     then PurchaseOrderReceivedEvent poId tenantId Undefined
     else PurchaseOrderPartiallyReceivedEvent poId tenantId Undefined)) in
  _ ← write_outbox now tenantId type
        [("purchaseOrderId"%string, poId); ("receiptId"%string, rc_id r);
         ("tenantId"%string, tenantId)];
  mret (r, rows).

(** A request whose key is new: the checks, the plan and the writes. *)
Definition receive_new (now : Date) (tenantId poId userId key : string)
    (lines : list RequestLine) (note : option string) (po : OrderRow)
    (items : list OrderItemRow) (tenant : option TenantRow) : Tx Db receipt :=
  _ ← tx_throw_if (negb (bool_decide (po_status po = APPROVED) ||
                         bool_decide (po_status po = PARTIALLY_RECEIVED)))
        (BadRequestException ("Cannot receive purchase order while in " ++
                              PurchaseOrderStatus_name (po_status po)));
  let warehouseId := default ""%string (po_warehouseId po) in
  _ ← tx_throw_if (is_empty warehouseId)
        (BadRequestException "Warehouse is required for receiving/receipting");
  plannedItems ← tx_lift (plan_receipt items lines);
  let receiptStatus := if all_received items plannedItems then RECEIVED else PARTIALLY_RECEIVED in
  let currency := match po_currencyCode po with
                  | Some c => Some c
                  | None => tenant ≫= tn_currencyCode
                  end in
  write_receipt now tenantId poId userId key warehouseId po currency note
    (request_hash lines note) receiptStatus plannedItems.

(** The transaction, for a checked request. *)
Definition receive_tx (now : Date) (tenantId poId userId key : string)
    (lines : list RequestLine) (note : option string) : Tx Db receipt :=
  _ ← lockOrder poId tenantId;
  po ← findOne tenantId poId;
  items ← select TOrderItem (items_of poId);
  tenant ← find_id TTenant tenantId;
  existing ← select_first TReceipt (existing_receipt poId key);
  match existing with
  | Some r =>
      rows ← select TReceiptItem (receipt_items (rc_id r));
      _ ← tx_throw_if (negb (bool_decide (rc_requestHash r = request_hash lines note)))
            (ConflictException "Idempotency-Key was already used with a different receipt request");
      mret (r, rows)
  | None => receive_new now tenantId poId userId key lines note po items tenant
  end.

Definition receivePurchaseOrder (now : Date) (tenantId poId userId key : string)
    (dto : ReceiveDto) (db : Db) : result receipt * Db :=
  match check_request key dto with
  | Err e => (Err e, db)
  | Ok lines =>
      transaction (receive_tx now tenantId poId userId key lines (clean_note (dto_note dto))) db
  end.

(** ** Creation *)

Record CreateItem := { ci_inventoryItemId : string; ci_quantity : number; ci_unitPrice : number }.
Record CreateDto := {
  cd_supplierId : string;
  cd_warehouseId : option string;
  cd_expectedDeliveryDate : option Date;
  cd_notes : option string;
  cd_items : list CreateItem;
}.

Definition generatePoNumber (now : Date) (tenantId : string) : Tx Db string :=
  n ← count TOrder (λ r, bool_decide (po_tenantId r = tenantId));
  mret ("PO-" ++ yearMonth now ++ "-" ++ padStart 5 (pretty (S n)))%string.

Definition check_supplier (tenantId supplierId message : string) : Tx Db unit :=
  s ← find_id TSupplier supplierId;
  match s with
  | Some s =>
      if bool_decide (su_tenantId s = tenantId)
      then tx_throw_if (negb (su_isActive s)) (BadRequestException message)
      else tx_throw (NotFoundException "Supplier not found")
  | None => tx_throw (NotFoundException "Supplier not found")
  end.
Definition check_warehouse (tenantId warehouseId message : string) : Tx Db unit :=
  w ← select_first TWarehouse (λ w, bool_decide (wh_id w = warehouseId) &&
                                    bool_decide (wh_tenantId w = tenantId));
  match w with
  | Some w => tx_throw_if (negb (wh_isActive w)) (BadRequestException message)
  | None => tx_throw (NotFoundException "Warehouse not found")
  end.

(** The aggregate the repository builds; [provisionalId] is made from the clock
    and a random number, and is not stored. *)
Definition created_props (now : Date) (provisionalId tenantId poNumber : string) (dto : CreateDto)
  : PO.PurchaseOrderProps :=
  let items := map (λ i, {| PO.inventoryItemId := ci_inventoryItemId i;
    PO.quantity := ci_quantity i; PO.unitPrice := ci_unitPrice i;
    PO.subtotal := mul (ci_quantity i) (ci_unitPrice i);
    PO.receivedQuantity := of_Z 0 |}) (cd_items dto) in
  {| PO.id := provisionalId; PO.poNumber := poNumber; PO.status := DRAFT;
     PO.supplierId := cd_supplierId dto; PO.tenantId := tenantId;
     PO.warehouseId := opt_of_nullable (cd_warehouseId dto);
     PO.expectedDeliveryDate := opt_of_nullable (cd_expectedDeliveryDate dto);
     PO.totalAmount := fold_left (λ sum i, add sum (PO.subtotal i)) items (of_Z 0);
     PO.notes := opt_of_nullable (cd_notes dto); PO.receivedAt := Null; PO.completedAt := Null;
     PO.items := items; PO.createdAt := now; PO.updatedAt := now |}.

Definition item_props (r : OrderItemRow) : PO.PurchaseOrderItemProps :=
  {| PO.inventoryItemId := oi_inventoryItemId r; PO.quantity := oi_quantity r;
     PO.unitPrice := oi_unitPrice r; PO.subtotal := oi_subtotal r;
     PO.receivedQuantity := oi_receivedQuantity r |}.
Definition row_props (r : OrderRow) (items : list OrderItemRow) : PO.PurchaseOrderProps :=
  {| PO.id := po_id r; PO.poNumber := po_poNumber r; PO.status := po_status r;
     PO.supplierId := po_supplierId r; PO.tenantId := po_tenantId r;
     PO.warehouseId := opt_of_nullable (po_warehouseId r);
     PO.expectedDeliveryDate := opt_of_nullable (po_expectedDeliveryDate r);
     PO.totalAmount := po_totalAmount r; PO.notes := opt_of_nullable (po_notes r);
     PO.receivedAt := opt_of_nullable (po_receivedAt r);
     PO.completedAt := opt_of_nullable (po_completedAt r);
     PO.items := map item_props items; PO.createdAt := po_createdAt r;
     PO.updatedAt := po_updatedAt r |}.

(** [createPurchaseOrder]: the aggregate validates, the base currency is read, and
    the unique key of the number is checked by the insert. *)
Definition createPurchaseOrder (now : Date) (provisionalId tenantId poNumber : string)
    (dto : CreateDto) : Tx Db PO.t :=
  a ← tx_lift (PO.create (created_props now provisionalId tenantId poNumber dto));
  let p := props a in
  tenant ← select_first TTenant (λ t, bool_decide (tn_id t = tenantId) &&
                                      bool_decide (tn_deletedAt t = None));
  let currencyCode := trim <$> (tenant ≫= tn_currencyCode) in
  _ ← tx_throw_if (negb (truthy currencyCode))
        (BadRequestException "Configure the tenant base currency before creating financial transactions");
  n ← count TOrder (λ r, bool_decide (po_tenantId r = tenantId) &&
                         bool_decide (po_poNumber r = PO.poNumber p));
  _ ← tx_throw_if (negb (n =? 0)) (PrismaError "P2002");
  r ← insert TOrder (λ i, {| po_id := i; po_tenantId := PO.tenantId p;
        po_poNumber := PO.poNumber p; po_status := PO.status p;
        po_supplierId := PO.supplierId p; po_warehouseId := opt_nullable (PO.warehouseId p);
        po_expectedDeliveryDate := opt_nullable (PO.expectedDeliveryDate p);
        po_totalAmount := PO.totalAmount p; po_currencyCode := currencyCode;
        po_notes := opt_nullable (PO.notes p); po_receivedAt := None; po_completedAt := None;
        po_createdAt := now; po_updatedAt := now |});
  rows ← insert_all TOrderItem (map (λ item i, {| oi_id := i; oi_purchaseOrderId := po_id r;
        oi_inventoryItemId := PO.inventoryItemId item; oi_quantity := PO.quantity item;
        oi_unitPrice := PO.unitPrice item; oi_subtotal := PO.subtotal item;
        oi_receivedQuantity := of_Z 0 |}) (PO.items p));
  mret (PO.fromPersistence (row_props r rows)).

(** [create] up to the announcement: the checks, and the new order. *)
Definition create_order (now : Date) (provisionalId tenantId : string) (dto : CreateDto)
  : Tx Db PO.t :=
  _ ← check_supplier tenantId (cd_supplierId dto)
        "Inactive suppliers cannot be used for new purchase orders";
  _ ← (if truthy (cd_warehouseId dto)
       then check_warehouse tenantId (default ""%string (cd_warehouseId dto))
              "Inactive warehouses cannot be assigned to new purchase orders"
       else mret tt);
  n ← count TItem (λ r, bool_decide (it_id r ∈ map ci_inventoryItemId (cd_items dto)) &&
                        bool_decide (it_tenantId r = tenantId));
  _ ← tx_throw_if (negb (n =? length (cd_items dto)))
        (BadRequestException "Some inventory items not found");
  poNumber ← generatePoNumber now tenantId;
  createPurchaseOrder now provisionalId tenantId poNumber dto.

(** [create]: the event is published outside any transaction, so when a subscriber
    throws the caller sees its exception and the order stays. *)
Definition create (now : Date) (provisionalId tenantId : string) (dto : CreateDto) (db : Db) (w : W)
  : result PO.t * Db * W :=
  match create_order now provisionalId tenantId dto db with
  | Err e => (Err e, db, w)
  | Ok (a, db') =>
      let event := EvPurchaseOrder (PurchaseOrderCreatedEvent (PO.id (props a)) tenantId Undefined) in
      let '(threw, w') := publish_all [event] w in
      (match threw with Some e => Err e | None => Ok a end, db', w')
  end.

(** ** Edits *)

Record UpdateItem := {
  ui_inventoryItemId : option string; ui_quantity : option number; ui_unitPrice : option number
}.
Record UpdateDto := {
  ud_supplierId : option string;
  ud_warehouseId : opt string;
  ud_expectedDeliveryDate : opt Date;
  ud_notes : opt string;
  ud_items : option (list UpdateItem);
}.
Definition parse_item (i : UpdateItem) : result CreateItem :=
  let inventoryItemId := default ""%string (ui_inventoryItemId i) in
  let quantity := default (of_Z 0) (ui_quantity i) in
  let unitPrice := default (of_Z 0) (ui_unitPrice i) in
  if is_empty inventoryItemId || leb quantity (of_Z 0) || ltb unitPrice (of_Z 0)
  then Err (BadRequestException "Invalid purchase order item")
  else Ok {| ci_inventoryItemId := inventoryItemId; ci_quantity := quantity;
             ci_unitPrice := unitPrice |}.
Definition item_total (i : CreateItem) : number := mul (ci_quantity i) (ci_unitPrice i).

Definition edit_order (now : Date) (supplierId : string) (warehouseId : option string)
    (expected : option Date) (notes : option string) (total : number) (r : OrderRow) : OrderRow :=
  {| po_id := po_id r; po_tenantId := po_tenantId r; po_poNumber := po_poNumber r;
     po_status := po_status r; po_supplierId := supplierId; po_warehouseId := warehouseId;
     po_expectedDeliveryDate := expected; po_totalAmount := total;
     po_currencyCode := po_currencyCode r; po_notes := notes;
     po_receivedAt := po_receivedAt r; po_completedAt := po_completedAt r;
     po_createdAt := po_createdAt r; po_updatedAt := now |}.

Definition update (now : Date) (tenantId poId : string) (dto : UpdateDto) : Tx Db OrderRow :=
  po ← findOne tenantId poId;
  _ ← tx_throw_if (negb (bool_decide (po_status po ∈ [DRAFT; PENDING])))
        (BadRequestException "Can only edit PO in DRAFT or PENDING status");
  _ ← match ud_warehouseId dto with
      | Value w =>
          if bool_decide (Some w = po_warehouseId po) || is_empty w then mret tt
          else check_warehouse tenantId w
                 "Inactive warehouses cannot be assigned to purchase orders"
      | _ => mret tt
      end;
  _ ← match ud_supplierId dto with
      | Some s =>
          if bool_decide (s = po_supplierId po) then mret tt
          else check_supplier tenantId s
                 "Inactive suppliers cannot be assigned to purchase orders"
      | None => mret tt
      end;
  parsed ← match ud_items dto with
           | Some (i :: rest) =>
               parsedItems ← tx_lift (map_result parse_item (i :: rest)); mret (Some parsedItems)
           | _ => mret None
           end;
  let totalAmount := match parsed with
                     | Some l => fold_left (λ sum i, add sum (item_total i)) l (of_Z 0)
                     | None => po_totalAmount po
                     end in
  let expected := match ud_expectedDeliveryDate dto with
                  | Undefined => po_expectedDeliveryDate po
                  | d => opt_nullable d
                  end in
  let notes := match ud_notes dto with Undefined => po_notes po | n => opt_nullable n end in
  let warehouseId := match ud_warehouseId dto with
                     | Value w => Some w
                     | _ => po_warehouseId po
                     end in
  n ← update_many TOrder (of_tenant poId tenantId)
        (edit_order now (default (po_supplierId po) (ud_supplierId dto)) warehouseId expected
           notes totalAmount);
  _ ← tx_throw_if (negb (n =? 1)) (BadRequestException "Purchase Order not found");
  _ ← match parsed with
      | Some l =>
          _ ← delete_many TOrderItem (items_of poId);
          _ ← insert_all TOrderItem (map (λ item i, {| oi_id := i; oi_purchaseOrderId := poId;
                oi_inventoryItemId := ci_inventoryItemId item; oi_quantity := ci_quantity item;
                oi_unitPrice := ci_unitPrice item; oi_subtotal := item_total item;
                oi_receivedQuantity := of_Z 0 |}) l);
          mret tt
      | None => mret tt
      end;
  findOne tenantId poId.

(** ** Status changes *)

(** The table inside [updateStatus]: receiving has its own endpoint. *)
Definition serviceTransitions (s : PurchaseOrderStatus) : list PurchaseOrderStatus :=
  match s with
  | DRAFT => [PENDING; CANCELLED]
  | PENDING => [APPROVED; REJECTED; CANCELLED]
  | APPROVED => [CANCELLED]
  | PARTIALLY_RECEIVED => [CANCELLED]
  | RECEIVED => [COMPLETED]
  | REJECTED => [CANCELLED]
  | CANCELLED => []
  | COMPLETED => []
  end.
Definition status_events (poId tenantId : string) (s : PurchaseOrderStatus) : list DomainEvent :=
  match s with
  | PENDING => [EvPurchaseOrder (PurchaseOrderPendingApprovalEvent poId tenantId Undefined)]
  | APPROVED => [EvPurchaseOrder (PurchaseOrderApprovedEvent poId tenantId Undefined)]
  | REJECTED => [EvPurchaseOrder (PurchaseOrderRejectedEvent poId tenantId Undefined None)]
  | COMPLETED => [EvPurchaseOrder (PurchaseOrderCompletedEvent poId tenantId Undefined)]
  | CANCELLED => [EvPurchaseOrder (PurchaseOrderCancelledEvent poId tenantId Undefined None)]
  | _ => []
  end.
(** The transaction up to the announcement: the order when it already has the status,
    nothing when it was given it. *)
Definition change_status (now : Date) (tenantId poId : string) (status : PurchaseOrderStatus)
  : Tx Db (option OrderRow) :=
  _ ← lockOrder poId tenantId;
  po ← findOne tenantId poId;
  if bool_decide (po_status po = status) then mret (Some po) else
  _ ← tx_throw_if ((bool_decide (status = PARTIALLY_RECEIVED) || bool_decide (status = RECEIVED)) &&
                   (bool_decide (po_status po = APPROVED) ||
                    bool_decide (po_status po = PARTIALLY_RECEIVED)))
        (BadRequestException "Use the purchase order receipt endpoint to receive items");
  _ ← tx_throw_if (negb (bool_decide (status ∈ serviceTransitions (po_status po))))
        (BadRequestException ("Cannot transition from " ++
           PurchaseOrderStatus_name (po_status po) ++ " to " ++ PurchaseOrderStatus_name status));
  n ← update_many TOrder (λ r, of_tenant poId tenantId r &&
                               bool_decide (po_status r = po_status po))
        (set_order status now None (if bool_decide (status = COMPLETED) then Some now else None));
  _ ← tx_throw_if (negb (n =? 1)) (PrismaError "P2034");
  mret None.
(** The body of the transaction.  The announcement is awaited inside it: the exception of
    a subscriber is the transaction's own, while what the subscribers have done stays
    done. *)
Definition update_status_tx (now : Date) (tenantId poId : string) (status : PurchaseOrderStatus)
    (db : Db) (w : W) : result (OrderRow * Db) * W :=
  match change_status now tenantId poId status db with
  | Err e => (Err e, w)
  | Ok (Some po, db') => (Ok (po, db'), w)
  | Ok (None, db') =>
      match publish_all (status_events poId tenantId status) w with
      | (Some e, w') => (Err e, w')
      | (None, w') => (findOne tenantId poId db', w')
      end
  end.

(** [statusTransitionLocks]: the keys in flight.  A call whose key is taken is
    refused, and the key is removed on the way out. *)
Definition updateStatus (now : Date) (tenantId poId : string) (status : PurchaseOrderStatus)
    (locks : gset string) (db : Db) (w : W) : result OrderRow * gset string * Db * W :=
  let lockKey := (tenantId ++ ":" ++ poId)%string in
  if bool_decide (lockKey ∈ locks) then (Err (PrismaError "P2034"), locks, db, w)
  else
    let locked := {[lockKey]} ∪ locks in
    match update_status_tx now tenantId poId status db w with
    | (Ok (r, db'), w') => (Ok r, locked ∖ {[lockKey]}, db', w')
    | (Err e, w') => (Err e, locked ∖ {[lockKey]}, db, w')
    end.

(** ** Deletion

    The foreign keys cascade to the items, the receipts with their items, and the
    variances. *)
Definition delete (tenantId poId : string) : Tx Db unit :=
  po ← findOne tenantId poId;
  _ ← tx_throw_if (negb (bool_decide (po_status po = DRAFT)))
        (BadRequestException "Can only delete PO in DRAFT status");
  _ ← delete_many TOrder (of_tenant poId tenantId);
  _ ← delete_many TOrderItem (items_of poId);
  receipts ← select TReceipt (λ r, bool_decide (rc_purchaseOrderId r = poId));
  _ ← delete_many TReceiptItem (λ r, bool_decide (ri_receiptId r ∈ map rc_id receipts));
  _ ← delete_many TVariance (λ r, bool_decide (pv_purchaseOrderId r = poId));
  _ ← delete_many TReceipt (λ r, bool_decide (rc_purchaseOrderId r = poId));
  mret tt.

End service.
End PurchaseOrders.
