(* ===== verification/PurchaseOrderFacts.v ===== *)
(** What the purchase order service guarantees: receiving is idempotent, never
    exceeds an order and moves the status with the quantities; status changes
    follow the aggregate's table without its receiving moves. *)

From stdpp Require Import base list strings option gmap pretty.
From Stdlib Require Import ZArith Lia.
From S2P Require Import Prelude JsNumber JsString DomainEvents CoreDomain MasterData Lifecycles.
From S2P Require Import PurchaseOrderAggregate Decimal Database Costing Receipts PurchaseOrders.

Section receiving.
Import PurchaseOrders.
Context {dec : Decimal} {plat : Platform}.

(** ** One line *)

Definition line_tables : list table :=
  [TOrderItem; TStock; TMovement; TLayer; TItem; TVariance].

Lemma writes_variance t po w c rc item p :
  writes [TVariance] (create_variance t po w c rc item p).
Proof. unfold create_variance. solve_writes. Qed.

Lemma writes_receive_line now t u w po row note c rc p :
  writes line_tables (receive_line now t u w po row note c rc p).
Proof.
  unfold receive_line, create_variance, line_tables. solve_writes.
Qed.

Lemma receive_line_items now t u w po row note c rc p db x db' :
  receive_line now t u w po row note c rc p db = Ok (x, db') →
  rows db' TOrderItem = apply_line (items_of po) set_item_received p (rows db TOrderItem).
Proof.
  unfold receive_line. cbv zeta. intros H.
  apply tx_bind_ok in H as (item & db1 & E1 & H). apply writes_lockItem with (ts := []) in E1.
  apply tx_bind_ok in H as (n & db2 & E2 & H). injection E2 as _ <-.
  apply tx_bind_ok in H as ([] & db3 & E3 & H). apply writes_throw_if with (ts := []) in E3.
  apply tx_bind_ok in H as (s & db4 & E4 & H). apply (writes_upsert_stock [TStock]) in E4; [|set_solver].
  apply tx_bind_ok in H as (mv & db5 & E5 & H). apply (writes_create_movement [TMovement]) in E5; [|set_solver].
  apply tx_bind_ok in H as (cc & db6 & E6 & H). apply (writes_costing_receive Costing.receive_tables) in E6; [|set_solver].
  apply writes_variance in H.
  rewrite H, E6, E5, E4, E3 by (unfold Costing.receive_tables; set_solver). rewrite rows_on_same.
  by rewrite E1 by set_solver.
Qed.

(** ** All lines *)

#[export] Instance order_update poId : LineUpdate (items_of poId) set_item_received.
Proof. by split. Qed.
(** The order lines after a plan. *)
Definition planned_order (poId : string) (ps : list (Planned OrderItemRow))
  : list OrderItemRow → list OrderItemRow :=
  map (apply_plan (items_of poId) set_item_received ps).

Lemma receive_lines_items now t u w po row note c rc ps db x db' :
  NoDup (map (λ p, oi_id (pl_line p)) ps) →
  tx_for_each (receive_line now t u w po row note c rc) ps db = Ok (x, db') →
  rows db' TOrderItem = planned_order po ps (rows db TOrderItem).
Proof.
  revert db. induction ps as [|p ps IH]; intros db Hnd H; simpl in H.
  { injection H as _ <-. rewrite <- (map_id (rows db TOrderItem)) at 1. by apply map_ext. }
  apply NoDup_cons in Hnd as [Hp Hnd]. apply tx_bind_ok in H as ([] & db1 & E & H).
  apply receive_line_items in E. rewrite (IH _ Hnd H), E.
  exact (apply_plan_step (items_of po) set_item_received p ps _ Hp).
Qed.

(** ** The whole receipt *)

(** The order a call works on. *)
Definition order_found (db : Db) (tenantId poId : string) : OrderRow → Prop :=
  found TOrder (of_tenant poId tenantId) db.

(** The writes of a receipt. *)
Record receipt_written (tenantId poId key hash : string) (now : Date) (db db' : Db) (po : OrderRow)
    (rc : receipt) (status : PurchaseOrderStatus) (ps : list (Planned OrderItemRow)) : Prop := {
  rw_receipts : rows db' TReceipt = rows db TReceipt ++ [fst rc];
  rw_found : existing_receipt poId key (fst rc) = true;
  rw_hash : rc_requestHash (fst rc) = hash;
  rw_id : rc_id (fst rc) = cuid (serial db);
  rw_items : rows db' TReceiptItem = rows db TReceiptItem ++ snd rc;
  rw_mine : Forall (λ r, ri_receiptId r = rc_id (fst rc)) (snd rc);
  rw_lines : NoDup (map (λ p, oi_id (pl_line p)) ps) →
    rows db' TOrderItem = planned_order poId ps (rows db TOrderItem);
  rw_orders : rows db' TOrder =
    map_where (λ o, of_tenant poId tenantId o && bool_decide (po_status o = po_status po))
      (set_order status now (if bool_decide (status = RECEIVED) then Some now else None) None)
      (rows db TOrder);
}.

Lemma write_receipt_ok now t poId u key w po c note hash status ps db rc db' :
  write_receipt now t poId u key w po c note hash status ps db = Ok (rc, db') →
  receipt_written t poId key hash now db db' po rc status ps.
Proof.
  unfold write_receipt. cbv zeta. intros H.
  apply tx_bind_ok in H as (r & db1 & Er & H).
  pose proof (only_insert TReceipt [TReceipt] _ _ _ _ (list_elem_of_here _ _) Er) as O1.
  apply (insert_rows TReceipt) in Er as [Hr R1].
  apply tx_bind_ok in H as (rs & db2 & Ei & H).
  pose proof (writes_insert_all [TReceiptItem] TReceiptItem _ (list_elem_of_here _ _) _ _ _ Ei)
    as O2.
  pose proof (insert_all_rows TReceiptItem _ _ _ _ Ei) as R2.
  apply (insert_all_forall TReceiptItem (λ x, ri_receiptId x = rc_id r)) in Ei.
  2: { apply Forall_map, Forall_forall. done. }
  apply tx_bind_ok in H as ([] & db3 & El & H).
  pose proof (writes_for_each _ _ ps (writes_receive_line now t u w poId po note c (r, rs))
    _ _ _ El) as O3.
  apply tx_bind_ok in H as (n & db4 & Eo & H). injection Eo as _ <-.
  apply tx_bind_ok in H as ([] & db5 & Et & H). apply writes_throw_if with (ts := []) in Et.
  apply tx_bind_ok in H as ([] & db6 & Ew & H). apply (writes_outbox [TOutbox]) in Ew; [|set_solver].
  injection H as <- <-. unfold line_tables in *.
  assert (O4 : ∀ t, t ≠ TOrder → t ≠ TOutbox → rows db6 t = rows db3 t).
  { intros t' ??. rewrite Ew, Et by set_solver. by apply rows_on_other. }
  constructor; cbn [fst snd].
  - rewrite O4 by done. by rewrite O3, O2 by set_solver.
  - rewrite Hr. unfold existing_receipt. simpl. by rewrite !bool_decide_true.
  - by rewrite Hr.
  - by rewrite Hr.
  - rewrite O4 by done. rewrite O3 by set_solver. by rewrite R2, O1 by set_solver.
  - done.
  - intros Hnd. rewrite O4 by done. rewrite (receive_lines_items _ _ _ _ _ _ _ _ _ _ _ _ _ Hnd El).
    by rewrite O2, O1 by set_solver.
  - rewrite Ew, Et by set_solver. rewrite rows_on_same. by rewrite O3, O2, O1 by set_solver.
Qed.

(** Either the request was seen before and nothing happens, or it is new, was
    planned and written. *)
Lemma receive_tx_cases now t poId u key lines note db rc db' :
  receive_tx now t poId u key lines note db = Ok (rc, db') →
  ∃ po, order_found db t poId po ∧
  ((∃ r, List.find (existing_receipt poId key) (rows db TReceipt) = Some r ∧
      rc_requestHash r = request_hash lines note ∧
      rc = (r, List.filter (receipt_items (rc_id r)) (rows db TReceiptItem)) ∧ db' = db) ∨
   ∃ ps, let items := List.filter (items_of poId) (rows db TOrderItem) in
      List.find (existing_receipt poId key) (rows db TReceipt) = None ∧
      (po_status po = APPROVED ∨ po_status po = PARTIALLY_RECEIVED) ∧
      plan_receipt items lines = Ok ps ∧
      receipt_written t poId key (request_hash lines note) now db db' po rc
        (if all_received items ps then RECEIVED else PARTIALLY_RECEIVED) ps).
Proof.
  intros H. apply (load_found TOrder) in H as (po & Hpo & H). exists po. split; [done|].
  apply tx_bind_ok in H as (items & d1 & [= <- <-] & H).
  apply tx_bind_ok in H as (tenant & d1 & [= <- <-] & H).
  apply tx_bind_ok in H as (existing & d1 & [= <- <-] & H).
  destruct (List.find (existing_receipt poId key) (rows db TReceipt)) as [r|] eqn:Hex.
  - left. apply tx_bind_ok in H as (rs & d1 & [= <- <-] & H).
    apply tx_bind_ok in H as ([] & d1 & E & H).
    unfold tx_throw_if, tx_lift, throw_if in E. case_bool_decide as Hh; [|done].
    injection E as <-. injection H as <- <-. by exists r.
  - right. unfold receive_new in H. apply tx_bind_ok in H as ([] & d1 & E & H).
    unfold tx_throw_if at 1, tx_lift, throw_if in E.
    destruct (bool_decide (po_status po = APPROVED) ||
              bool_decide (po_status po = PARTIALLY_RECEIVED)) eqn:Hs; [|done].
    injection E as <-. cbv zeta in H. apply tx_bind_ok in H as ([] & d1 & E & H).
    unfold tx_throw_if, tx_lift, throw_if in E. destruct (is_empty _); [done|].
    injection E as <-. apply tx_bind_ok in H as (ps & d1 & E & H). unfold tx_lift in E.
    destruct (plan_receipt _ lines) as [ps'|] eqn:Hp; [|done]. injection E as -> <-.
    apply write_receipt_ok in H. exists ps. split; [done|]. split; [|by split].
    apply orb_true_iff in Hs as [?%bool_decide_eq_true_1|?%bool_decide_eq_true_1]; auto.
Qed.

End receiving.

Section consequences.
Import PurchaseOrders.
Context {dec : Decimal} {plat : Platform}.

Lemma order_found_after now t poId db db' po rc status ps key hash :
  order_found db t poId po → receipt_written t poId key hash now db db' po rc status ps →
  ∃ po', order_found db' t poId po' ∧ po_status po' = status.
Proof.
  intros Hpo Hw. pose proof (rw_orders _ _ _ _ _ _ _ _ _ _ _ Hw) as Hrows.
  set (f := set_order status now _ _) in Hrows.
  set (q := λ o, bool_decide (po_status o = po_status po)).
  exists (f po). split; [|done].
  apply (found_rows TOrder _ (on TOrder (map_where (λ o, of_tenant poId t o && q o) f) db)).
  - rewrite rows_on_same. exact Hrows.
  - apply (guarded_found TOrder _ q); [done..|]. by apply bool_decide_true.
Qed.

Lemma request_lines_ok key dto lines :
  check_request key dto = Ok lines →
  NoDup (map rq_ref lines) ∧ Forall request_ok lines.
Proof.
  unfold check_request. destruct (assertIdempotencyKey key); [|done]. simpl.
  destruct (throw_if _ _); [|done]. simpl.
  destruct (check_lines _ _ _ _ _) as [seen|] eqn:E; [|done]. simpl. intros [= <-].
  apply check_lines_ok in E as [Hnd Hf]. unfold sort_lines. split.
  - by rewrite sort_by_perm.
  - rewrite sort_by_perm. apply (Forall_impl _ _ _ Hf). intros l [Hfin Hmin].
    split; [done|]. by apply (at_least_pos _ min_receipt).
Qed.

End consequences.

(** * Properties *)

Section status_changes.
Import PurchaseOrders.
Context {dec : Decimal} {plat : Platform}.

Lemma no_receiving_move s s' :
  s' ∈ serviceTransitions s →
  (bool_decide (s' = PARTIALLY_RECEIVED) || bool_decide (s' = RECEIVED)) = false.
Proof.
  intros Hin. assert (E : bool_decide (s' ∈ serviceTransitions s) = true)
    by by apply bool_decide_true.
  clear Hin. by destruct s, s'.
Qed.

Lemma change_status_missing now t poId status db :
  (¬ ∃ po, order_found db t poId po) → ∃ e, change_status now t poId status db = Err e.
Proof. intros Hn. unfold change_status. by apply (load_missing TOrder). Qed.

(** The order after a move to [status]. *)
Definition moved (now : Date) (status : PurchaseOrderStatus) : OrderRow → OrderRow :=
  set_order status now None (if bool_decide (status = COMPLETED) then Some now else None).

Lemma change_status_run now t poId status db po :
  order_found db t poId po →
  match change_status now t poId status db with
  | Err _ => po_status po ≠ status ∧ status ∉ serviceTransitions (po_status po)
  | Ok (Some r, db') => po_status po = status ∧ r = po ∧ db' = db
  | Ok (None, db') =>
      po_status po ≠ status ∧ status ∈ serviceTransitions (po_status po) ∧
      order_found db' t poId (moved now status po) ∧ only [TOrder] db db' ∧
      rows db' TOrder = map_where (of_tenant poId t) (moved now status) (rows db TOrder)
  end.
Proof.
  intros Hpo. unfold change_status, lockOrder, findOne.
  rewrite (load_found_run TOrder _ _ _ _ _ _ _ Hpo). case_bool_decide as Hs; [done|].
  destruct (decide (status ∈ serviceTransitions (po_status po))) as [Hin|Hin].
  2: { rewrite (bool_decide_false (status ∈ _)) by done. unfold mbind, tx_bind.
       by destruct (tx_throw_if _ _ db) as [[[] ?]|]. }
  rewrite (no_receiving_move _ _ Hin), (bool_decide_true (status ∈ _)) by done.
  cbn [andb negb]. rewrite (tx_bind_run _ _ _ tt db eq_refl).
  rewrite (tx_bind_run _ _ _ tt db eq_refl).
  assert (Hq : bool_decide (po_status po = po_status po) = true) by by apply bool_decide_true.
  set (q := λ r, bool_decide (po_status r = po_status po)) in *. fold (moved now status).
  rewrite (tx_bind_run _ _ _ _ _ (guarded_update TOrder _ q _ db po Hpo Hq)).
  rewrite (tx_bind_run _ _ _ tt _ eq_refl). split_and!; [done|done| | |].
  - by apply (guarded_found TOrder (of_tenant poId t) q (moved now status) db po (λ x, eq_refl)).
  - apply only_on. set_solver.
  - rewrite rows_on_same. apply (map_ext_in (A := OrderRow)). intros x Hx.
    destruct (of_tenant poId t x) eqn:Ex; [|done].
    assert (x = po) as ->; [|unfold q; by rewrite Hq]. apply found_filter in Hpo.
    assert (Hf : In x (List.filter (of_tenant poId t) (rows db TOrder))) by by apply filter_In.
    cbn [row] in *. rewrite Hpo in Hf. by destruct Hf as [->|[]].
Qed.

End status_changes.

Section properties.
Import PurchaseOrders.
Context {dec : Decimal} {plat : Platform}.

(** C11: receiving is idempotent: once a request has succeeded, the same request
    under the same key - at any later time, by any user - answers with the same
    receipt and changes nothing; a different request under that key is refused and
    changes nothing.  (Ids are fresh: no receipt item refers yet to the id the
    receipt gets.) *)
Theorem receive_idempotent (now : Date) (tenantId poId userId key : string) (dto : ReceiveDto)
    (db db1 : Db) (rc : receipt) :
  Forall (λ r, ri_receiptId r ≠ cuid (serial db)) (rows db TReceiptItem) →
  receivePurchaseOrder now tenantId poId userId key dto db = (Ok rc, db1) →
  (∀ now' userId',
     receivePurchaseOrder now' tenantId poId userId' key dto db1 = (Ok rc, db1)) ∧
  (∀ now' userId' dto' lines',
     check_request key dto' = Ok lines' →
     request_hash lines' (clean_note (dto_note dto')) ≠ rc_requestHash (fst rc) →
     ∃ m, receivePurchaseOrder now' tenantId poId userId' key dto' db1 =
            (Err (ConflictException m), db1)).
Proof.
  intros Hfresh H. unfold receivePurchaseOrder in *.
  destruct (check_request key dto) as [lines|] eqn:Hreq; [|done].
  unfold transaction in *. destruct (receive_tx _ _ _ _ _ _ _ db) as [[rc' db']|] eqn:E; [|done].
  injection H as -> ->. apply receive_tx_cases in E as (po & Hpo & Hcases).
  assert (Hafter : (∃ po', order_found db1 tenantId poId po') ∧
    List.find (existing_receipt poId key) (rows db1 TReceipt) = Some (fst rc) ∧
    List.filter (receipt_items (rc_id (fst rc))) (rows db1 TReceiptItem) = snd rc ∧
    rc_requestHash (fst rc) = request_hash lines (clean_note (dto_note dto))).
  { destruct Hcases as [(r & Hr & Hh & -> & ->)|(ps & Hn & _ & _ & Hw)]; [by eauto|].
    destruct (order_found_after _ _ _ _ _ _ _ _ _ _ _ Hpo Hw) as (po' & Hpo' & _).
    pose proof Hw as [Hrs Hf Hh Hid Hri Hm _ _].
    split; [by eexists|]. rewrite Hrs, Hri, List.filter_app. split; [|split; [|done]].
    - rewrite find_app, Hn. simpl. by rewrite Hf.
    - rewrite filter_none, filter_every; [done| |].
      + apply (Forall_impl _ _ _ Hm). intros r. by apply bool_decide_true.
      + apply (Forall_impl _ _ _ Hfresh). intros r Hr. apply bool_decide_false. congruence. }
  destruct Hafter as ((po' & Hpo') & Hfind & Hitems & Hhash). split.
  - intros now' u'. unfold receive_tx, lockOrder, findOne. rewrite (load_found_run TOrder _ _ _ _ _ _ _ Hpo').
    unfold select, find_id, select_first, mbind, tx_bind. cbn [row]. rewrite Hfind. simpl.
    rewrite Hhash, bool_decide_true by done. simpl. rewrite Hitems. by destruct rc.
  - intros now' u' dto' lines' -> Hne. unfold receive_tx, lockOrder, findOne.
    rewrite (load_found_run TOrder _ _ _ _ _ _ _ Hpo').
    unfold select, find_id, select_first, mbind, tx_bind. cbn [row]. rewrite Hfind. simpl.
    rewrite bool_decide_false by congruence. by eexists.
Qed.

(** C12: whatever receipts are sent - partial, repeated, malformed - a purchase
    order line is never received beyond its ordered quantity, and the lines of
    other orders are untouched. *)
Theorem receive_within_order (now : Date) (tenantId poId userId key : string) (dto : ReceiveDto)
    (db db1 : Db) (out : result receipt) :
  keyed TOrderItem db → Forall line_ok (rows db TOrderItem) →
  receivePurchaseOrder now tenantId poId userId key dto db = (out, db1) →
  Forall line_ok (rows db1 TOrderItem) ∧
  map oi_id (rows db1 TOrderItem) = map oi_id (rows db TOrderItem) ∧
  List.filter (λ r, negb (items_of poId r)) (rows db1 TOrderItem) =
    List.filter (λ r, negb (items_of poId r)) (rows db TOrderItem).
Proof.
  intros Hk Hok H. unfold receivePurchaseOrder in H.
  destruct (check_request key dto) as [lines|] eqn:Hreq; [|by injection H as _ <-].
  apply request_lines_ok in Hreq as [Hnd Hlines]. unfold transaction in H.
  destruct (receive_tx _ _ _ _ _ _ _ db) as [[rc db']|] eqn:E; [|by injection H as _ <-].
  injection H as _ <-. apply receive_tx_cases in E as (po & Hpo & Hcases).
  destruct Hcases as [(r & _ & _ & _ & ->)|(ps & _ & _ & Hplan & Hw)]; [done|].
  pose proof (plan_receipt_ok _ _ _ Hplan) as [Hids _].
  rewrite (rw_lines _ _ _ _ _ _ _ _ _ _ _ Hw) by (simpl in Hids; by rewrite Hids).
  exact (apply_plan_bounds (items_of poId) set_item_received _ _ _ Hplan Hk Hok Hlines).
Qed.

(** the status tells the truth: when a receipt is new, the order was approved
    or partially received before it, and afterwards it is RECEIVED when every line
    has arrived up to 10^-9 and PARTIALLY_RECEIVED otherwise; the change is one the
    aggregate allows. *)
Theorem receive_status (now : Date) (tenantId poId userId key : string) (dto : ReceiveDto)
    (db db1 : Db) (rc : receipt) :
  receivePurchaseOrder now tenantId poId userId key dto db = (Ok rc, db1) →
  List.find (existing_receipt poId key) (rows db TReceipt) = None →
  ∃ po po', order_found db tenantId poId po ∧ order_found db1 tenantId poId po' ∧
    (po_status po = APPROVED ∨ po_status po = PARTIALLY_RECEIVED) ∧
    po_status po' =
      (if complete_up_to_epsilon (List.filter (items_of poId) (rows db1 TOrderItem))
       then RECEIVED else PARTIALLY_RECEIVED) ∧
    (po_status po = po_status po' ∨ goes (po_status po) (po_status po')).
Proof.
  intros H Hnone. unfold receivePurchaseOrder in H.
  destruct (check_request key dto) as [lines|] eqn:Hreq; [|done].
  apply request_lines_ok in Hreq as [Hnd _]. unfold transaction in H.
  destruct (receive_tx _ _ _ _ _ _ _ db) as [[rc' db']|] eqn:E; [|done].
  injection H as -> ->. apply receive_tx_cases in E as (po & Hpo & Hcases).
  destruct Hcases as [(r & Hr & _)|(ps & _ & Hs & Hplan & Hw)]; [congruence|].
  destruct (order_found_after _ _ _ _ _ _ _ _ _ _ _ Hpo Hw) as (po' & Hpo' & Hst).
  pose proof (plan_receipt_ok _ _ _ Hplan) as [Hids _].
  exists po, po'. do 3 (split; [done|]).
  rewrite (rw_lines _ _ _ _ _ _ _ _ _ _ _ Hw) by (simpl in Hids; by rewrite Hids).
  unfold planned_order. rewrite <- (all_received_after (items_of poId) set_item_received). split; [done|]. rewrite Hst.
  destruct Hs as [-> | ->], (all_received _ ps); rewrite <- can_go_spec; auto.
Qed.

(** C26: [updateStatus] has the aggregate's transitions except those that receive goods.
    It succeeds exactly when no other change of the order is in flight, the order exists
    once, and either it already has the status or the table has the move and no subscriber
    of its event throws: the announcement is part of the transaction.  An order that
    already has the status is returned as it is, without an announcement; otherwise the
    order has the new status, no other order and no other table has changed, and its event
    was announced.  A call that fails changes nothing in the database, also when it was
    the announcement that failed. *)
Theorem update_status_iff {W : Type} (answer : DomainEvent → W → option exn * W) (now : Date)
    (tenantId poId : string) (status : PurchaseOrderStatus) (locks : gset string) (db : Db) (w : W) :
  (∀ s, serviceTransitions s =
     List.filter (λ s', negb (bool_decide (s' ∈ [PARTIALLY_RECEIVED; RECEIVED])))
       (validTransitions s)) ∧
  (let '(threw, announced) := publish_all answer (status_events poId tenantId status) w in
   let '(out, _, db', w') := updateStatus answer now tenantId poId status locks db w in
   (is_ok out = true ↔ (tenantId ++ ":" ++ poId)%string ∉ locks ∧
      ∃ po, order_found db tenantId poId po ∧
        (po_status po = status ∨
         status ∈ serviceTransitions (po_status po) ∧ threw = None)) ∧
   (∀ r, out = Ok r → ∃ po, order_found db tenantId poId po ∧
      (po_status po = status ∧ r = po ∧ db' = db ∧ w' = w ∨
       status ∈ serviceTransitions (po_status po) ∧ w' = announced ∧
       r = moved now status po ∧ only [TOrder] db db' ∧
       rows db' TOrder = map_where (of_tenant poId tenantId) (moved now status) (rows db TOrder))) ∧
   (∀ e, out = Err e → db' = db ∧ (w' = w ∨ threw = Some e ∧ w' = announced))).
Proof.
  split; [by intros []|].
  destruct (publish_all answer (status_events poId tenantId status) w) as [threw w1] eqn:Ep.
  unfold updateStatus, update_status_tx. case_bool_decide as Hl.
  { split_and!; [naive_solver|done|intros e _; auto]. }
  destruct (found_dec TOrder (of_tenant poId tenantId) db) as [[po Hpo]|Hno].
  - pose proof (change_status_run now tenantId poId status db po Hpo) as Hrun.
    assert (Hu : ∀ x, order_found db tenantId poId x → x = po).
    { intros x Hx. by apply (found_unique TOrder _ _ _ _ Hx Hpo). }
    destruct (change_status now tenantId poId status db) as [[[r|] d]|e].
    + destruct Hrun as (Hs & -> & ->). split_and!; [|naive_solver|done]. split; [|done].
      intros _. split; [done|]. exists po. auto.
    + destruct Hrun as (Hs & Hin & Hf & Ho & Hr). rewrite Ep. destruct threw as [e|].
      * split_and!; [split; [done|naive_solver]|done|]. intros x [= ->]. auto.
      * unfold findOne. rewrite (load_row_run TOrder _ _ _ _ Hf).
        split_and!; [|intros r [= <-]; exists po; auto 10|done]. split; [|done].
        intros _. split; [done|]. exists po. auto.
    + destruct Hrun as [Hs Hin]. split_and!; [split; [done|naive_solver]|done|]. auto.
  - destruct (change_status_missing now tenantId poId status db Hno) as [e E]. rewrite E.
    split_and!; [split; [done|naive_solver]|done|]. auto.
Qed.

(** the number of a new order is one more than the tenant's count of orders, so
    when that number is already taken - which a deletion brings about - no order can
    be created for the tenant: the insert violates the unique key. *)
Theorem po_number_clash {W : Type} (answer : DomainEvent → W → option exn * W) (now : Date)
    (provisionalId tenantId : string) (dto : CreateDto) (db : Db) (w : W) :
  let n := length (List.filter (λ r, bool_decide (po_tenantId r = tenantId)) (rows db TOrder)) in
  let number := ("PO-" ++ yearMonth now ++ "-" ++ padStart 5 (pretty (S n)))%string in
  Exists (λ r, po_tenantId r = tenantId ∧ po_poNumber r = number) (rows db TOrder) →
  is_ok (fst (fst (create answer now provisionalId tenantId dto db w))) = false.
Proof.
  intros n number Hex. unfold create.
  destruct (create_order now provisionalId tenantId dto db) as [[a db']|e] eqn:H; [|done].
  exfalso. unfold create_order in H.
  apply tx_bind_ok in H as ([] & d1 & E & H).
  assert (W1 : writes [] (check_supplier tenantId (cd_supplierId dto)
    "Inactive suppliers cannot be used for new purchase orders")).
  { unfold check_supplier. solve_writes. }
  apply W1 in E. apply tx_bind_ok in H as ([] & d2 & E2 & H).
  assert (W2 : rows d2 TOrder = rows d1 TOrder).
  { destruct (truthy _); [|by injection E2 as <-].
    assert (writes [] (check_warehouse tenantId (default ""%string (cd_warehouseId dto))
      "Inactive warehouses cannot be assigned to new purchase orders")) as Hc.
    { unfold check_warehouse. solve_writes. }
    apply Hc in E2. by apply E2; set_solver. }
  apply tx_bind_ok in H as (k & d3 & [= _ <-] & H).
  apply tx_bind_ok in H as ([] & d4 & E4 & H). apply writes_throw_if with (ts := []) in E4.
  apply tx_bind_ok in H as (no & d5 & E5 & H). unfold generatePoNumber in E5.
  apply tx_bind_ok in E5 as (m & d6 & [= <- <-] & E5). injection E5 as <- <-.
  rename H into E7. unfold createPurchaseOrder in E7.
  apply tx_bind_ok in E7 as (p & d8 & E8 & E7). unfold tx_lift in E8.
  destruct (PO.create _) as [p'|] eqn:Ep; [|done]. injection E8 as -> <-.
  apply po_create_ok in Ep as [_ ->]. apply tx_bind_ok in E7 as (tn & d9 & [= <- <-] & E7).
  apply tx_bind_ok in E7 as ([] & d9 & E9 & E7). apply writes_throw_if with (ts := []) in E9.
  apply tx_bind_ok in E7 as (c & d10 & [= <- <-] & E7).
  apply tx_bind_ok in E7 as ([] & d11 & E11 & _).
  unfold tx_throw_if, tx_lift, throw_if in E11. rewrite filter_length_zero, negb_involutive in E11.
  rewrite E9, E4, W2, E in E11 by set_solver. simpl in E11.
  assert (Hb : existsb (λ r, bool_decide (po_tenantId r = tenantId) &&
    bool_decide (po_poNumber r = number)) (rows db TOrder) = true).
  { apply Exists_exists in Hex as (r & Hin & Ht & Hnum). apply existsb_exists. exists r.
    split; [by apply list_elem_of_In|]. by rewrite !bool_decide_true. }
  unfold number, n in Hb. by rewrite Hb in E11.
Qed.

End properties.

(** * Examples

    An approved order for five units of flour (FIFO) and two of sugar (standard
    cost), received in two parts; and a tenant that deletes a draft. *)
Module PurchaseOrderExamples.

Import PurchaseOrders FixedPoint SamplePlatform.
Local Open Scope Z_scope.

Definition item (i : string) (m : InventoryValuationMethod) : ItemRow :=
  {| it_id := i; it_tenantId := "t1"; it_valuationMethod := Some m;
     it_movingAverageScope := None;
     it_standardCost := Some (200 * million * million : @D FixedPoint.decimal);
     it_averageUnitCost := None; it_valuationLockedAt := None |}.
Definition line (i itemId : string) (q : Z) : OrderItemRow :=
  {| oi_id := i; oi_purchaseOrderId := "po1"; oi_inventoryItemId := itemId;
     oi_quantity := of_Z q; oi_unitPrice := of_Z 250; oi_subtotal := of_Z (q * 250);
     oi_receivedQuantity := of_Z 0 |}.
Definition order (s : PurchaseOrderStatus) : OrderRow :=
  {| po_id := "po1"; po_tenantId := "t1"; po_poNumber := "PO-7"; po_status := s;
     po_supplierId := "s1"; po_warehouseId := Some "w1"%string;
     po_expectedDeliveryDate := None; po_totalAmount := of_Z 1750;
     po_currencyCode := Some "USD"%string; po_notes := None; po_receivedAt := None;
     po_completedAt := None; po_createdAt := 0; po_updatedAt := 0 |}.
Definition store (s : PurchaseOrderStatus) : Db :=
  on TItem (λ _, [item "flour" FIFO; item "sugar" STANDARD_COST])
    (on TOrder (λ _, [order s]) (on TOrderItem (λ _, [line "l1" "flour" 5; line "l2" "sugar" 2])
      (on TTenant (λ _, [{| tn_id := "t1"; tn_name := "Acme"%string; tn_contactEmail := None;
                            tn_contactPhone := None; tn_address := None; tn_createdAt := 0%Z;
                            tn_status := TenantACTIVE; tn_currencyCode := Some "USD"%string;
                            tn_businessType := CAFE; tn_deletedAt := None;
                            tn_kitchenWaitThresholdMinutes := of_Z 15 |}])
        (on TSupplier (λ _, [{| su_id := "s1"; su_tenantId := "t1"; su_isActive := true |}])
          emptyDb)))).
Definition request (l1 l2 : Z) : ReceiveDto :=
  {| dto_items := [{| rq_ref := " l1 "; rq_quantity := of_Z l1 |};
                   {| rq_ref := "l2"; rq_quantity := of_Z l2 |}]; dto_note := None |}.
Definition lines_of (dto : ReceiveDto) : list RequestLine :=
  match check_request "key-1" dto with Ok ls => ls | Err _ => [] end.

Lemma receive_idempotent_witness :
  ∃ rc db1, receivePurchaseOrder 5 "t1" "po1" "u1" "key-1" (request 3 2) (store APPROVED) =
              (Ok rc, db1) ∧
    receivePurchaseOrder 9 "t1" "po1" "u2" "key-1" (request 3 2) db1 = (Ok rc, db1) ∧
    ∃ m, receivePurchaseOrder 9 "t1" "po1" "u1" "key-1" (request 1 1) db1 =
           (Err (ConflictException m), db1).
Proof.
  assert (C : match receivePurchaseOrder 5 "t1" "po1" "u1" "key-1" (request 3 2)
                      (store APPROVED) with
              | (Ok rc, _) => negb (bool_decide
                  (request_hash (lines_of (request 1 1)) None = rc_requestHash (fst rc)))
              | _ => false
              end = true) by (vm_compute; reflexivity).
  destruct (receivePurchaseOrder 5 "t1" "po1" "u1" "key-1" (request 3 2) (store APPROVED))
    as [[rc|e] db1] eqn:E; [|discriminate C].
  apply negb_true_iff in C. apply bool_decide_eq_false_1 in C.
  destruct (receive_idempotent 5 "t1" "po1" "u1" "key-1" (request 3 2) (store APPROVED) db1 rc
    ltac:(constructor) E) as [H1 H2].
  exists rc, db1. split; [reflexivity|]. split; [apply H1|].
  apply (H2 9 "u1"%string (request 1 1) (lines_of (request 1 1))); [vm_compute; reflexivity|exact C].
Defined.

Lemma line_ok_sample (i itemId : string) (q : Z) : 0 < q < 1000 → line_ok (line i itemId q).
Proof.
  intros Hq. unfold line_ok, within. simpl.
  split_and!; [| |reflexivity|rewrite leb_of_Z by (unfold max_exact; lia); apply Z.leb_le; lia].
  - apply isInteger_finite, isInteger_of_Z. unfold max_exact. lia.
  - reflexivity.
Qed.

Lemma receive_within_order_witness :
  let '(out, db1) := receivePurchaseOrder 5 "t1" "po1" "u1" "key-1" (request 3 2)
                       (store APPROVED) in
  is_ok out = true ∧ Forall line_ok (rows db1 TOrderItem).
Proof.
  assert (C : is_ok (fst (receivePurchaseOrder 5 "t1" "po1" "u1" "key-1" (request 3 2)
    (store APPROVED))) = true) by (vm_compute; reflexivity).
  destruct (receivePurchaseOrder 5 "t1" "po1" "u1" "key-1" (request 3 2) (store APPROVED))
    as [out db1] eqn:E. split; [exact C|].
  apply (receive_within_order 5 "t1" "po1" "u1" "key-1" (request 3 2) (store APPROVED) db1 out);
    [| |exact E].
  - apply (bool_decide_unpack _). vm_compute. exact I.
  - repeat constructor; apply line_ok_sample; lia.
Defined.

Lemma receive_status_witness :
  ∃ rc db1 po', receivePurchaseOrder 5 "t1" "po1" "u1" "key-1" (request 3 2) (store APPROVED) =
      (Ok rc, db1) ∧
    order_found db1 "t1" "po1" po' ∧ po_status po' = PARTIALLY_RECEIVED.
Proof.
  assert (C : match receivePurchaseOrder 5 "t1" "po1" "u1" "key-1" (request 3 2)
                      (store APPROVED) with
              | (Ok _, d) => negb (complete_up_to_epsilon
                                (List.filter (items_of "po1") (rows d TOrderItem)))
              | _ => false
              end = true) by (vm_compute; reflexivity).
  destruct (receivePurchaseOrder 5 "t1" "po1" "u1" "key-1" (request 3 2) (store APPROVED))
    as [[rc|e] db1] eqn:E; [|discriminate C].
  destruct (receive_status 5 "t1" "po1" "u1" "key-1" (request 3 2) (store APPROVED) db1 rc E
    eq_refl) as (po & po' & _ & Hpo' & _ & Hst & _).
  apply negb_true_iff in C. exists rc, db1, po'. split; [reflexivity|]. split; [exact Hpo'|].
  rewrite Hst, C. reflexivity.
Defined.

(** An order is approved when the subscribers of its event let it be, and stays as it is
    when the mail server of one is down. *)
Definition mail (up : bool) (e : DomainEvent) (sent : list DomainEvent) : option exn * list DomainEvent :=
  if up then (None, sent ++ [e]) else (Some (JsError "mail server down"), sent).
Definition approve (up : bool) :=
  updateStatus (mail up) 5 "t1" "po1" APPROVED ∅ (store PENDING) [].
Lemma update_status_iff_witness :
  is_ok (fst (fst (fst (approve true)))) = true ∧
  is_ok (fst (fst (fst (approve false)))) = false ∧ snd (fst (approve false)) = store PENDING.
Proof.
  assert (F : order_found (store PENDING) "t1" "po1" (order PENDING)) by (split; reflexivity).
  split.
  - pose proof (proj2 (update_status_iff (mail true) 5 "t1" "po1" APPROVED ∅ (store PENDING) []))
      as H. fold (approve true) in H.
    destruct (publish_all (mail true) (status_events "po1" "t1" APPROVED) []) as [threw sent] eqn:E.
    injection E as <- _. destruct (approve true) as [[[out l] db'] w'].
    destruct H as (H1 & _). apply H1. split; [apply not_elem_of_empty|].
    exists (order PENDING). split; [exact F|]. right. split; [|reflexivity].
    apply (bool_decide_unpack _). vm_compute. exact I.
  - pose proof (proj2 (update_status_iff (mail false) 5 "t1" "po1" APPROVED ∅ (store PENDING) []))
      as H. fold (approve false) in H.
    destruct (publish_all (mail false) (status_events "po1" "t1" APPROVED) []) as [threw sent] eqn:E.
    injection E as <- _. destruct (approve false) as [[[[r|e] l] db'] w'].
    + exfalso. destruct H as (H1 & _). destruct (proj1 H1 eq_refl) as (_ & po & Hpo & [Hs|[_ Hs]]);
        [|discriminate Hs].
      rewrite (found_unique TOrder _ _ _ _ Hpo F) in Hs. discriminate Hs.
    + destruct H as (_ & _ & H3). split; [reflexivity|]. apply (H3 e eq_refl).
Defined.

(** Two drafts are created, the first is deleted: the next creation fails. *)
Definition draft (q : Z) : CreateDto :=
  {| cd_supplierId := "s1"; cd_warehouseId := None; cd_expectedDeliveryDate := None;
     cd_notes := None;
     cd_items := [{| ci_inventoryItemId := "flour"; ci_quantity := of_Z q;
                     ci_unitPrice := of_Z 250 |}] |}.
Definition after_deletion : Tx Db unit :=
  a ← create_order 5 "tmp" "t1" (draft 1);
  _ ← create_order 5 "tmp" "t1" (draft 2);
  delete "t1" (PO.id (props a)).

Lemma po_number_clash_witness :
  ∃ db, after_deletion (on TOrder (λ _, []) (store DRAFT)) = Ok (tt, db) ∧
    is_ok (fst (fst (create (mail true) 5 "tmp" "t1" (draft 3) db []))) = false.
Proof.
  assert (C : match after_deletion (on TOrder (λ _, []) (store DRAFT)) with
              | Ok (_, d) =>
                  existsb (λ r, bool_decide (po_tenantId r = "t1"%string) &&
                    bool_decide (po_poNumber r = ("PO-" ++ yearMonth 5 ++ "-" ++
                      padStart 5 (pretty (S (length (List.filter
                        (λ r, bool_decide (po_tenantId r = "t1"%string)) (rows d TOrder))))))%string))
                    (rows d TOrder)
              | Err _ => false
              end = true) by (vm_compute; reflexivity).
  destruct (after_deletion (on TOrder (λ _, []) (store DRAFT))) as [[[] db]|e] eqn:E;
    [|discriminate C].
  exists db. split; [reflexivity|]. apply po_number_clash.
  apply existsb_exists in C as (r & Hin & C). apply andb_true_iff in C as [C1 C2].
  apply bool_decide_eq_true_1 in C1. apply bool_decide_eq_true_1 in C2.
  apply Exists_exists. exists r. split; [by apply list_elem_of_In|]. by split.
Defined.

End PurchaseOrderExamples.
