(* ===== verification/Transfers.v ===== *)
(** The warehouse transfer service (modules/inventory/warehouse-transfer.service.ts):
    a transfer is created under an idempotency key, shipped out of the stock of its
    source, received in parts into the stock of its destination, or cancelled before
    it ships. *)

From stdpp Require Import base list strings option.
From Stdlib Require Import ZArith.
From S2P Require Import Prelude JsNumber JsString DomainEvents CoreDomain MasterData Lifecycles.
From S2P Require Import PurchaseOrderAggregate Decimal Database Costing Receipts.

Module Transfers.

Section service.
Context {dec : Decimal} {plat : Platform}.

Definition of_tenant (transferId tenantId : string) (r : TransferRow) : bool :=
  bool_decide (tr_id r = transferId) && bool_decide (tr_tenantId r = tenantId).
Definition items_of (transferId : string) (r : TransferItemRow) : bool :=
  bool_decide (ti_transferId r = transferId).
Definition not_found : exn := NotFoundException "Warehouse transfer not found".

(** [transferDetailInclude]: the transfer with its items, and its receipts, the
    newest first, with theirs. *)
Record Detail := {
  dt_transfer : TransferRow;
  dt_items : list TransferItemRow;
  dt_receipts : list (TransferReceiptRow * list TransferReceiptItemRow);
}.
Definition receipt_items (receiptId : string) (r : TransferReceiptItemRow) : bool :=
  bool_decide (tj_receiptId r = receiptId).
Definition newest_first (t t' : Date) (i i' : string) : bool :=
  Costing.lex Z.eqb Z.leb t' t (collateLe i' i).
Definition detail (db : Db) (t : TransferRow) : Detail :=
  {| dt_transfer := t;
     dt_items := List.filter (items_of (tr_id t)) (rows db TTransferItem);
     dt_receipts :=
       map (λ r, (r, List.filter (receipt_items (tc_id r)) (rows db TTransferReceiptItem)))
         (sort_by (λ a b, newest_first (tc_createdAt a) (tc_createdAt b) (tc_id a) (tc_id b))
            (List.filter (λ r, bool_decide (tc_transferId r = tr_id t))
               (rows db TTransferReceipt))) |}.

Definition lockTransfer (tenantId transferId : string) : Tx Db unit :=
  lock_row TTransfer (of_tenant transferId tenantId) not_found.
(** The transfer without what it includes. *)
Definition load_transfer (tenantId transferId : string) : Tx Db TransferRow :=
  load_row TTransfer (of_tenant transferId tenantId) not_found.
Definition findOneInTransaction (tenantId transferId : string) : Tx Db Detail :=
  t ← load_transfer tenantId transferId;
  db ← tx_get; mret (detail db t).
Definition findOne : string → string → Tx Db Detail := findOneInTransaction.

Definition set_transfer (status : WarehouseTransferStatus) (shipped : option (Date * string))
    (receivedAt : option Date) (r : TransferRow) : TransferRow :=
  {| tr_id := tr_id r; tr_tenantId := tr_tenantId r;
     tr_sourceWarehouseId := tr_sourceWarehouseId r;
     tr_destinationWarehouseId := tr_destinationWarehouseId r;
     tr_createdById := tr_createdById r;
     tr_shippedById := match shipped with Some (_, u) => Some u | None => tr_shippedById r end;
     tr_idempotencyKey := tr_idempotencyKey r; tr_requestHash := tr_requestHash r;
     tr_status := status; tr_note := tr_note r; tr_createdAt := tr_createdAt r;
     tr_shippedAt := match shipped with Some (d, _) => Some d | None => tr_shippedAt r end;
     tr_receivedAt := match receivedAt with Some d => Some d | None => tr_receivedAt r end |}.
(** [updateMany({ where: { id, tenantId, status } })] and its check. *)
Definition move (tenantId transferId : string) (before status : WarehouseTransferStatus)
    (shipped : option (Date * string)) (receivedAt : option Date) (changed : string)
  : Tx Db unit :=
  n ← update_many TTransfer (λ r, of_tenant transferId tenantId r &&
                                  bool_decide (tr_status r = before))
        (set_transfer status shipped receivedAt);
  tx_throw_if (negb (n =? 1)) (ConflictException changed).

Definition payload_of (tenantId transferId : string) (receiptId : option string)
  : WarehouseTransferEventPayload :=
  {| we_transferId := transferId; we_tenantId := tenantId; we_receiptId := receiptId |}.
Definition writeOutbox (now : Date) (tenantId : string) (e : InventoryEvent)
    (payload : list (string * string)) : Tx Db unit :=
  write_outbox now tenantId (event_type (EvInventory e)) payload.
Definition transfer_payload (transferId tenantId : string) : list (string * string) :=
  [("transferId"%string, transferId); ("tenantId"%string, tenantId)].

Definition different_request : exn :=
  ConflictException "Idempotency-Key was already used with a different transfer request".
Definition replayOrConflict {A} (hash requestHash : string) (existing : A) : result A :=
  if bool_decide (hash = requestHash) then Ok existing else Err different_request.

(** ** Creation *)

Record CreateDto := {
  cd_sourceWarehouseId : string;
  cd_destinationWarehouseId : string;
  cd_items : list RequestLine;
  cd_note : option string;
}.
(** What the checks of [create] leave: trimmed ids and sorted lines. *)
Record CreateRequest := {
  cr_source : string; cr_destination : string; cr_lines : list RequestLine;
  cr_note : option string;
}.
Definition check_create (key : string) (dto : CreateDto) : result CreateRequest :=
  _ ← assertIdempotencyKey key;
  let source := trim (cd_sourceWarehouseId dto) in
  let destination := trim (cd_destinationWarehouseId dto) in
  _ ← throw_if (is_empty source || is_empty destination)
        (BadRequestException "Both warehouse ids are required");
  _ ← throw_if (bool_decide (source = destination))
        (BadRequestException "Source and destination warehouses must be different");
  _ ← throw_if ((length (cd_items dto) <? 1) || (100 <? length (cd_items dto)))
        (BadRequestException "A transfer must contain between 1 and 100 inventory items");
  let normalizedItems := normalize_lines (cd_items dto) in
  _ ← check_lines (BadRequestException "Inventory item id is required")
        (λ q, ltb q (of_ratio 1 10))
        (BadRequestException "Transfer quantity must be a finite number of at least 0.1")
        (BadRequestException "An inventory item may only appear once per transfer")
        normalizedItems;
  Ok {| cr_source := source; cr_destination := destination;
        cr_lines := sort_lines normalizedItems; cr_note := clean_note (cd_note dto) |}.
Definition create_hash (rq : CreateRequest) : string :=
  sha256 (JObject [("sourceWarehouseId"%string, JString (cr_source rq));
                   ("destinationWarehouseId"%string, JString (cr_destination rq));
                   ("items"%string, lines_json "inventoryItemId" "quantity" (cr_lines rq));
                   ("note"%string, JNullable (cr_note rq))]).
(** The unique key [tenantId_idempotencyKey]. *)
Definition by_key (tenantId key : string) (r : TransferRow) : bool :=
  bool_decide (tr_tenantId r = tenantId) && bool_decide (tr_idempotencyKey r = key).

Definition warehouse_of (tenantId warehouseId : string) : Tx Db (option WarehouseRow) :=
  select_first TWarehouse (λ w, bool_decide (wh_id w = warehouseId) &&
                                bool_decide (wh_tenantId w = tenantId)).
Definition check_warehouses (source destination : option WarehouseRow) : result unit :=
  match source, destination with
  | Some s, Some d =>
      throw_if (negb (wh_isActive s) || negb (wh_isActive d))
        (BadRequestException "Inactive warehouses cannot be used for new transfers")
  | _, _ => Err (NotFoundException "Source or destination warehouse not found")
  end.

(** The transaction of [create]; the insert checks the unique key. *)
Definition create_tx (now : Date) (tenantId userId key : string) (rq : CreateRequest)
  : Tx Db Detail :=
  source ← warehouse_of tenantId (cr_source rq);
  destination ← warehouse_of tenantId (cr_destination rq);
  n ← count TItem (λ r, bool_decide (it_id r ∈ map rq_ref (cr_lines rq)) &&
                        bool_decide (it_tenantId r = tenantId));
  _ ← tx_lift (check_warehouses source destination);
  _ ← tx_throw_if (negb (n =? length (cr_lines rq)))
        (NotFoundException "One or more inventory items were not found in this tenant");
  taken ← count TTransfer (by_key tenantId key);
  _ ← tx_throw_if (negb (taken =? 0)) (PrismaError "P2002");
  t ← insert TTransfer (λ i, {| tr_id := i; tr_tenantId := tenantId;
        tr_sourceWarehouseId := cr_source rq; tr_destinationWarehouseId := cr_destination rq;
        tr_createdById := userId; tr_shippedById := None; tr_idempotencyKey := key;
        tr_requestHash := create_hash rq; tr_status := TransferPENDING;
        tr_note := cr_note rq; tr_createdAt := now; tr_shippedAt := None;
        tr_receivedAt := None |});
  _ ← insert_all TTransferItem (map (λ l i, {| ti_id := i; ti_transferId := tr_id t;
        ti_inventoryItemId := rq_ref l; ti_quantity := rq_quantity l;
        ti_receivedQuantity := of_Z 0 |}) (cr_lines rq));
  db ← tx_get;
  _ ← writeOutbox now tenantId
        (WarehouseTransferCreatedEvent (payload_of tenantId (tr_id t) None))
        (transfer_payload (tr_id t) tenantId);
  mret (detail db t).

(** [create] reads the store three times: before the transaction, in it, and after
    a unique-key error.  [between] and [after] are what other requests commit in
    the meantime. *)
Definition create (now : Date) (between after : Db → Db) (tenantId userId key : string)
    (dto : CreateDto) (db : Db) : result Detail * Db :=
  match check_create key dto with
  | Err e => (Err e, db)
  | Ok rq =>
      let find db := List.find (by_key tenantId key) (rows db TTransfer) in
      let replay db t := (replayOrConflict (tr_requestHash t) (create_hash rq) (detail db t), db) in
      match find db with
      | Some t => replay db t
      | None =>
          match transaction (create_tx now tenantId userId key rq) (between db) with
          | (Ok d, db') => (Ok d, db')
          | (Err e, db') =>
              if bool_decide (e = PrismaError "P2002") then
                match find (after db') with
                | Some t => replay (after db') t
                | None => (Err e, after db')
                end
              else (Err e, db')
          end
      end
  end.

(** ** Queries *)

Record Page := {
  pg_data : list TransferRow; pg_total : nat; pg_skip : Z; pg_take : Z; pg_pages : number
}.
Definition safe_skip (skip : number) : Z :=
  if isSafeInteger skip && gtb skip (of_Z 0) then to_Z skip else 0.
Definition safe_take (take : number) : Z :=
  if isSafeInteger take && gtb take (of_Z 0) then Z.min (to_Z take) 100 else 20.
Definition sorted_transfers (tenantId : string) (db : Db) : list TransferRow :=
  sort_by (λ a b, newest_first (tr_createdAt a) (tr_createdAt b) (tr_id a) (tr_id b))
    (List.filter (λ r, bool_decide (tr_tenantId r = tenantId)) (rows db TTransfer)).
Definition findAll (tenantId : string) (skip take : number) : Tx Db Page :=
  db ← tx_get;
  let all := sorted_transfers tenantId db in
  mret {| pg_data := firstn (Z.to_nat (safe_take take)) (skipn (Z.to_nat (safe_skip skip)) all);
          pg_total := length all; pg_skip := safe_skip skip; pg_take := safe_take take;
          pg_pages := ceil (of_ratio (Z.of_nat (length all)) (safe_take take)) |}.

(** ** Shipping *)

Definition insufficient (itemId : string) : exn :=
  BadRequestException ("Insufficient source stock for inventory item " ++ itemId).
(** [new Map(stocks.map(...)).get(itemId)]: the last entry of a key counts. *)
Definition stock_for (stocks : list StockRow) (itemId : string) : option StockRow :=
  List.find (λ s, bool_decide (st_inventoryItemId s = itemId)) (rev stocks).

(** The body of the loop over the items, with the stock read before the loop. *)
Definition ship_item (now : Date) (tenantId userId : string) (t : TransferRow)
    (stocks : list StockRow) (item : TransferItemRow) : Tx Db unit :=
  _ ← Costing.lockItem tenantId (ti_inventoryItemId item);
  match stock_for stocks (ti_inventoryItemId item) with
  | None => tx_throw (insufficient (ti_inventoryItemId item))
  | Some stock =>
      _ ← tx_throw_if (ltb (st_quantity stock) (ti_quantity item))
            (insufficient (ti_inventoryItemId item));
      n ← update_many TStock (λ s, bool_decide (st_id s = st_id stock) &&
                                   geb (st_quantity s) (ti_quantity item))
            (λ s, set_stock_quantity (sub (st_quantity s) (ti_quantity item)) now s);
      _ ← tx_throw_if (negb (n =? 1)) (insufficient (ti_inventoryItemId item));
      movement ← create_movement now
        {| md_tenantId := tenantId; md_warehouseId := Some (tr_sourceWarehouseId t);
           md_inventoryItemId := ti_inventoryItemId item; md_type := TRANSFER;
           md_quantity := ti_quantity item; md_before := Some (st_quantity stock);
           md_after := Some (sub (st_quantity stock) (ti_quantity item));
           md_note := Some (default ("Warehouse transfer " ++ tr_id t ++ " shipped")%string
                              (tr_note t));
           md_createdById := Some userId; md_referenceType := "WAREHOUSE_TRANSFER_SHIPMENT";
           md_referenceId := tr_id t |};
      _ ← Costing.issue now
        {| Costing.is_tenantId := tenantId;
           Costing.is_inventoryItemId := ti_inventoryItemId item;
           Costing.is_warehouseId := Some (tr_sourceWarehouseId t);
           Costing.is_quantity := ti_quantity item;
           Costing.is_movementId := mv_id movement |};
      mret tt
  end.

Definition source_stocks (t : TransferRow) (items : list TransferItemRow) (s : StockRow) : bool :=
  bool_decide (st_warehouseId s = Some (tr_sourceWarehouseId t)) &&
  bool_decide (st_inventoryItemId s ∈ map ti_inventoryItemId items).

Definition ship_tx (now : Date) (tenantId transferId userId : string) : Tx Db Detail :=
  _ ← lockTransfer tenantId transferId;
  t ← load_transfer tenantId transferId;
  items ← select TTransferItem (items_of (tr_id t));
  if bool_decide (tr_status t ∈ [IN_TRANSIT; TransferPARTIALLY_RECEIVED; TransferRECEIVED])
  then findOneInTransaction tenantId transferId
  else
  _ ← tx_throw_if (negb (bool_decide (tr_status t = TransferPENDING)))
        (BadRequestException ("Cannot ship a transfer while in " ++
                              WarehouseTransferStatus_name (tr_status t)));
  (* [Prisma.join] refuses an empty list *)
  _ ← tx_throw_if (length items =? 0)
        (JsError "Expected `join([])` to be called with an array of multiple elements, but got an empty array");
  stocks ← select TStock (source_stocks t items);
  _ ← tx_for_each (ship_item now tenantId userId t stocks) items;
  _ ← move tenantId transferId TransferPENDING IN_TRANSIT (Some (now, userId)) None
        "Warehouse transfer changed while it was being shipped";
  _ ← writeOutbox now tenantId
        (WarehouseTransferShippedEvent (payload_of tenantId transferId None))
        (transfer_payload transferId tenantId);
  findOneInTransaction tenantId transferId.
Definition ship (now : Date) (tenantId transferId userId : string) (db : Db)
  : result Detail * Db :=
  transaction (ship_tx now tenantId transferId userId) db.

(** ** Receiving *)

#[export] Instance transfer_line : ReceivableLine TransferItemRow := {|
  line_id := ti_id;
  line_item := ti_inventoryItemId;
  ordered := ti_quantity;
  received := ti_receivedQuantity;
  not_mine := BadRequestException "Receipt item does not belong to this transfer";
  too_much := BadRequestException "Cannot receive more than the quantity shipped";
|}.
Definition set_item_received (q : number) (r : TransferItemRow) : TransferItemRow :=
  {| ti_id := ti_id r; ti_transferId := ti_transferId r;
     ti_inventoryItemId := ti_inventoryItemId r; ti_quantity := ti_quantity r;
     ti_receivedQuantity := q |}.

Record ReceiveDto := { dto_items : list RequestLine; dto_note : option string }.
Definition receipt : Type := TransferReceiptRow * list TransferReceiptItemRow.

Definition check_receive (key : string) (dto : ReceiveDto) : result (list RequestLine) :=
  _ ← assertIdempotencyKey key;
  _ ← throw_if ((length (dto_items dto) <? 1) || (100 <? length (dto_items dto)))
        (BadRequestException "A receipt must contain between 1 and 100 transfer items");
  let normalizedItems := normalize_lines (dto_items dto) in
  _ ← check_lines (BadRequestException "Transfer item id is required")
        (λ q, leb q (of_Z 0))
        (BadRequestException "Received quantity must be a finite positive number")
        (BadRequestException "A transfer item may only appear once per receipt")
        normalizedItems;
  Ok (sort_lines normalizedItems).
Definition request_hash (lines : list RequestLine) (note : option string) : string :=
  receipt_hash "transferItemId" lines note.
Definition existing_receipt (transferId key : string) (r : TransferReceiptRow) : bool :=
  bool_decide (tc_transferId r = transferId) && bool_decide (tc_idempotencyKey r = key).
(** The movement that shipped an item. *)
Definition shipment_of (tenantId : string) (t : TransferRow) (itemId : string)
    (m : MovementRow) : bool :=
  bool_decide (mv_tenantId m = tenantId) &&
  bool_decide (mv_warehouseId m = Some (tr_sourceWarehouseId t)) &&
  bool_decide (mv_inventoryItemId m = itemId) &&
  bool_decide (mv_referenceType m = Some "WAREHOUSE_TRANSFER_SHIPMENT"%string) &&
  bool_decide (mv_referenceId m = Some (tr_id t)).

(** The body of the loop over the planned items. *)
Definition receive_line (now : Date) (tenantId userId transferId : string) (t : TransferRow)
    (note : option string) (receiptId : string) (p : Planned TransferItemRow) : Tx Db unit :=
  let line := pl_line p in
  _ ← Costing.lockItem tenantId (ti_inventoryItemId line);
  n ← update_many TTransferItem (λ r, bool_decide (ti_id r = ti_id line) && items_of transferId r)
        (set_item_received (pl_next p));
  _ ← tx_throw_if (negb (n =? 1))
        (ConflictException "Transfer item changed during receipt processing");
  stock ← upsert_stock now (tr_destinationWarehouseId t) (ti_inventoryItemId line) (pl_delta p);
  movement ← create_movement now
    {| md_tenantId := tenantId; md_warehouseId := Some (tr_destinationWarehouseId t);
       md_inventoryItemId := ti_inventoryItemId line; md_type := TRANSFER;
       md_quantity := pl_delta p; md_before := Some (sub (st_quantity stock) (pl_delta p));
       md_after := Some (st_quantity stock);
       md_note := Some (default ("Warehouse transfer " ++ tr_id t ++ " received")%string note);
       md_createdById := Some userId; md_referenceType := "WAREHOUSE_TRANSFER_RECEIPT";
       md_referenceId := receiptId |};
  source ← select_first TMovement (shipment_of tenantId t (ti_inventoryItemId line));
  match source with
  | None => tx_throw (BadRequestException "Transfer shipment movement is missing")
  | Some sourceMovement =>
      Costing.receiveTransfer now
        {| Costing.rt_tenantId := tenantId;
           Costing.rt_inventoryItemId := ti_inventoryItemId line;
           Costing.rt_warehouseId := tr_destinationWarehouseId t;
           Costing.rt_quantity := pl_delta p;
           Costing.rt_alreadyReceived := ti_receivedQuantity line;
           Costing.rt_sourceMovementId := mv_id sourceMovement;
           Costing.rt_movementId := mv_id movement;
           Costing.rt_sourceReferenceId := receiptId |}
  end.

(** The writes of a planned receipt. *)
Definition write_receipt (now : Date) (tenantId transferId userId key : string) (t : TransferRow)
    (note : option string) (hash : string) (receiptStatus : WarehouseTransferStatus)
    (plannedItems : list (Planned TransferItemRow)) : Tx Db receipt :=
  r ← insert TTransferReceipt (λ i, {| tc_id := i; tc_tenantId := tenantId;
        tc_transferId := transferId; tc_createdById := userId; tc_idempotencyKey := key;
        tc_requestHash := hash; tc_note := note; tc_createdAt := now |});
  rows ← insert_all TTransferReceiptItem (map (λ p i, {| tj_id := i; tj_tenantId := tenantId;
        tj_receiptId := tc_id r; tj_transferItemId := ti_id (pl_line p);
        tj_inventoryItemId := ti_inventoryItemId (pl_line p);
        tj_receivedQuantity := pl_delta p |}) plannedItems);
  _ ← tx_for_each (receive_line now tenantId userId transferId t note (tc_id r)) plannedItems;
  let complete := bool_decide (receiptStatus = TransferRECEIVED) in
  _ ← move tenantId transferId (tr_status t) receiptStatus None
        (if complete then Some now else None)
        "Warehouse transfer changed while it was being received";
  let payload := payload_of tenantId transferId (Some (tc_id r)) in
  _ ← writeOutbox now tenantId
        (if complete then WarehouseTransferReceivedEvent payload
         else WarehouseTransferPartiallyReceivedEvent payload)
        [("transferId"%string, transferId); ("receiptId"%string, tc_id r);
         ("tenantId"%string, tenantId)];
  mret (r, rows).

Definition receive_new (now : Date) (tenantId transferId userId key : string)
    (lines : list RequestLine) (note : option string) (t : TransferRow)
    (items : list TransferItemRow) : Tx Db receipt :=
  _ ← tx_throw_if (negb (bool_decide (tr_status t = IN_TRANSIT) ||
                         bool_decide (tr_status t = TransferPARTIALLY_RECEIVED)))
        (BadRequestException ("Cannot receive a transfer while in " ++
                              WarehouseTransferStatus_name (tr_status t)));
  plannedItems ← tx_lift (plan_receipt items lines);
  write_receipt now tenantId transferId userId key t note (request_hash lines note)
    (if all_received items plannedItems then TransferRECEIVED else TransferPARTIALLY_RECEIVED)
    plannedItems.

Definition receive_tx (now : Date) (tenantId transferId userId key : string)
    (lines : list RequestLine) (note : option string) : Tx Db receipt :=
  _ ← lockTransfer tenantId transferId;
  t ← load_transfer tenantId transferId;
  items ← select TTransferItem (items_of (tr_id t));
  existing ← select_first TTransferReceipt (existing_receipt transferId key);
  match existing with
  | Some r =>
      rows ← select TTransferReceiptItem (receipt_items (tc_id r));
      tx_lift (replayOrConflict (tc_requestHash r) (request_hash lines note) (r, rows))
  | None => receive_new now tenantId transferId userId key lines note t items
  end.
Definition receive (now : Date) (tenantId transferId userId key : string) (dto : ReceiveDto)
    (db : Db) : result receipt * Db :=
  match check_receive key dto with
  | Err e => (Err e, db)
  | Ok lines =>
      transaction (receive_tx now tenantId transferId userId key lines
                     (clean_note (dto_note dto))) db
  end.

(** ** Cancellation *)

Definition cancel_tx (now : Date) (tenantId transferId : string) : Tx Db Detail :=
  _ ← lockTransfer tenantId transferId;
  t ← load_transfer tenantId transferId;
  if bool_decide (tr_status t = TransferCANCELLED)
  then findOneInTransaction tenantId transferId
  else
  _ ← tx_throw_if (negb (bool_decide (tr_status t = TransferPENDING)))
        (BadRequestException "Only pending transfers can be cancelled");
  _ ← move tenantId transferId TransferPENDING TransferCANCELLED None None
        "Warehouse transfer changed while it was being cancelled";
  _ ← writeOutbox now tenantId
        (WarehouseTransferCancelledEvent (payload_of tenantId transferId None))
        (transfer_payload transferId tenantId);
  findOneInTransaction tenantId transferId.
Definition cancel (now : Date) (tenantId transferId : string) (db : Db) : result Detail * Db :=
  transaction (cancel_tx now tenantId transferId) db.

End service.
End Transfers.
