(* ===== verification/TransferFacts.v ===== *)
(** What the transfer service guarantees: creation, shipping and receiving are
    idempotent, a transfer is shipped in full or not at all and out of stock that
    covers it, no line is received beyond what was shipped, and the status moves
    one way. *)

From stdpp Require Import base list strings option relations sets.
From Stdlib Require Import ZArith Lia.
From S2P Require Import Prelude JsNumber JsString DomainEvents CoreDomain MasterData Lifecycles.
From S2P Require Import PurchaseOrderAggregate Decimal Database Costing Receipts Transfers.

Section receiving.
Import Transfers.
Context {dec : Decimal} {plat : Platform}.

(** The transfer a call works on. *)
Definition transfer_found (db : Db) (tenantId transferId : string) : TransferRow → Prop :=
  found TTransfer (of_tenant transferId tenantId) db.

#[export] Instance transfer_update transferId :
  LineUpdate (items_of transferId) set_item_received.
Proof. by split. Qed.

(** ** One line *)

Definition transfer_line_tables : list table := [TTransferItem; TStock; TMovement; TLayer; TItem].
(** What a receipt writes before the status of the transfer. *)
Definition untouched (db db' : Db) : Prop := only transfer_line_tables db db'.

Lemma transfer_writes_receive_line now t u w tr note rc p :
  writes transfer_line_tables (receive_line now t u w tr note rc p).
Proof. unfold receive_line, transfer_line_tables. solve_writes. Qed.

Lemma transfer_receive_line_items now t u w tr note rc p db x db' :
  receive_line now t u w tr note rc p db = Ok (x, db') →
  rows db' TTransferItem = apply_line (items_of w) set_item_received p (rows db TTransferItem).
Proof.
  unfold receive_line. cbv zeta. intros H.
  apply tx_bind_ok in H as (item & db1 & E1 & H). apply (writes_lockItem []) in E1.
  apply tx_bind_ok in H as (n & db2 & E2 & H). injection E2 as _ <-.
  match type of H with ?m _ = _ => assert (W : writes [TStock; TMovement; TLayer; TItem] m) end.
  { solve_writes. }
  rewrite (W _ _ _ H) by set_solver. rewrite rows_on_same. by rewrite E1 by set_solver.
Qed.

Lemma transfer_receive_lines_items now t u w tr note rc ps db x db' :
  NoDup (map (λ p, ti_id (pl_line p)) ps) →
  tx_for_each (receive_line now t u w tr note rc) ps db = Ok (x, db') →
  rows db' TTransferItem =
    map (apply_plan (items_of w) set_item_received ps) (rows db TTransferItem).
Proof.
  revert db. induction ps as [|p ps IH]; intros db Hnd H; simpl in H.
  { injection H as _ <-. rewrite <- (map_id (rows db TTransferItem)) at 1. by apply map_ext. }
  apply NoDup_cons in Hnd as [Hp Hnd]. apply tx_bind_ok in H as ([] & db1 & E & H).
  apply transfer_receive_line_items in E. rewrite (IH _ Hnd H), E.
  exact (apply_plan_step (items_of w) set_item_received p ps _ Hp).
Qed.

(** ** The whole receipt *)

Record transfer_receipt_written (tenantId transferId key hash : string) (now : Date) (db db' : Db)
    (t : TransferRow) (rc : receipt) (status : WarehouseTransferStatus)
    (ps : list (Planned TransferItemRow)) : Prop := {
  rw_receipts : rows db' TTransferReceipt = rows db TTransferReceipt ++ [fst rc];
  rw_found : existing_receipt transferId key (fst rc) = true;
  rw_hash : tc_requestHash (fst rc) = hash;
  rw_id : tc_id (fst rc) = cuid (serial db);
  rw_items : rows db' TTransferReceiptItem = rows db TTransferReceiptItem ++ snd rc;
  rw_mine : Forall (λ r, tj_receiptId r = tc_id (fst rc)) (snd rc);
  rw_lines : NoDup (map (λ p, ti_id (pl_line p)) ps) →
    rows db' TTransferItem =
      map (apply_plan (items_of transferId) set_item_received ps) (rows db TTransferItem);
  rw_transfers : rows db' TTransfer =
    map_where (λ r, of_tenant transferId tenantId r && bool_decide (tr_status r = tr_status t))
      (set_transfer status None
         (if bool_decide (status = TransferRECEIVED) then Some now else None))
      (rows db TTransfer);
}.

Lemma move_ok tenantId transferId before status shipped received msg db u db' :
  move tenantId transferId before status shipped received msg db = Ok (u, db') →
  db' = on TTransfer (map_where (λ r, of_tenant transferId tenantId r &&
                                      bool_decide (tr_status r = before))
                        (set_transfer status shipped received)) db.
Proof.
  unfold move. intros H. apply tx_bind_ok in H as (n & db1 & E & H). injection E as _ <-.
  unfold tx_throw_if, tx_lift, throw_if in H. by destruct (negb _); [|injection H as _ <-].
Qed.

Lemma transfer_write_receipt_ok now t tid u key tr note hash status ps db rc db' :
  write_receipt now t tid u key tr note hash status ps db = Ok (rc, db') →
  transfer_receipt_written t tid key hash now db db' tr rc status ps.
Proof.
  unfold write_receipt. cbv zeta. intros H.
  apply tx_bind_ok in H as (r & db1 & Er & H).
  pose proof (only_insert TTransferReceipt [TTransferReceipt] _ _ _ _ (list_elem_of_here _ _) Er)
    as O1.
  apply (insert_rows TTransferReceipt) in Er as [Hr R1].
  apply tx_bind_ok in H as (rs & db2 & Ei & H).
  pose proof (writes_insert_all [TTransferReceiptItem] TTransferReceiptItem _
    (list_elem_of_here _ _) _ _ _ Ei) as O2.
  pose proof (insert_all_rows TTransferReceiptItem _ _ _ _ Ei) as R2.
  apply (insert_all_forall TTransferReceiptItem (λ x, tj_receiptId x = tc_id r)) in Ei.
  2: { apply Forall_map, Forall_forall. done. }
  apply tx_bind_ok in H as ([] & db3 & El & H).
  pose proof (writes_for_each _ _ ps (transfer_writes_receive_line now t u tid tr note (tc_id r))
    _ _ _ El) as O3.
  apply tx_bind_ok in H as ([] & db4 & Em & H). apply move_ok in Em as ->.
  apply tx_bind_ok in H as ([] & db6 & Ew & H).
  apply (writes_outbox [TOutbox]) in Ew; [|set_solver].
  injection H as <- <-. unfold transfer_line_tables in *.
  assert (O4 : ∀ t, t ≠ TTransfer → t ≠ TOutbox → rows db6 t = rows db3 t).
  { intros t' ??. rewrite Ew by set_solver. by apply rows_on_other. }
  constructor; cbn [fst snd].
  - rewrite O4 by done. by rewrite O3, O2 by set_solver.
  - rewrite Hr. unfold existing_receipt. simpl. by rewrite !bool_decide_true.
  - by rewrite Hr.
  - by rewrite Hr.
  - rewrite O4 by done. rewrite O3 by set_solver. by rewrite R2, O1 by set_solver.
  - done.
  - intros Hnd. rewrite O4 by done.
    rewrite (transfer_receive_lines_items _ _ _ _ _ _ _ _ _ _ _ Hnd El).
    by rewrite O2, O1 by set_solver.
  - rewrite Ew by set_solver. rewrite rows_on_same. by rewrite O3, O2, O1 by set_solver.
Qed.

Lemma transfer_found_id db t tid tr : transfer_found db t tid tr → tr_id tr = tid ∧ tr_tenantId tr = t.
Proof. intros [_ H]%found_in. unfold of_tenant in H. by bool_hyps. Qed.

(** Either the request was seen before and nothing happens, or it is new, was
    planned and written. *)
Lemma transfer_receive_tx_cases now t tid u key lines note db rc db' :
  receive_tx now t tid u key lines note db = Ok (rc, db') →
  ∃ tr, transfer_found db t tid tr ∧
  ((∃ r, List.find (existing_receipt tid key) (rows db TTransferReceipt) = Some r ∧
      tc_requestHash r = request_hash lines note ∧
      rc = (r, List.filter (receipt_items (tc_id r)) (rows db TTransferReceiptItem)) ∧
      db' = db) ∨
   ∃ ps, let items := List.filter (items_of tid) (rows db TTransferItem) in
      List.find (existing_receipt tid key) (rows db TTransferReceipt) = None ∧
      (tr_status tr = IN_TRANSIT ∨ tr_status tr = TransferPARTIALLY_RECEIVED) ∧
      plan_receipt items lines = Ok ps ∧
      transfer_receipt_written t tid key (request_hash lines note) now db db' tr rc
        (if all_received items ps then TransferRECEIVED else TransferPARTIALLY_RECEIVED) ps).
Proof.
  intros H. apply (load_found TTransfer) in H as (tr & Htr & H). exists tr. split; [done|].
  apply tx_bind_ok in H as (items & d1 & [= <- <-] & H).
  rewrite (proj1 (transfer_found_id _ _ _ _ Htr)) in H.
  apply tx_bind_ok in H as (existing & d1 & [= <- <-] & H).
  destruct (List.find (existing_receipt tid key) (rows db TTransferReceipt)) as [r|] eqn:Hex.
  - left. apply tx_bind_ok in H as (rs & d1 & [= <- <-] & H).
    unfold tx_lift, replayOrConflict in H. case_bool_decide as Hh; [|done].
    injection H as <- <-. by exists r.
  - right. unfold receive_new in H. apply tx_bind_ok in H as ([] & d1 & E & H).
    unfold tx_throw_if, tx_lift, throw_if in E.
    destruct (bool_decide (tr_status tr = IN_TRANSIT) ||
              bool_decide (tr_status tr = TransferPARTIALLY_RECEIVED)) eqn:Hs; [|done].
    injection E as <-. apply tx_bind_ok in H as (ps & d1 & E & H). unfold tx_lift in E.
    destruct (plan_receipt _ lines) as [ps'|] eqn:Hp; [|done]. injection E as -> <-.
    apply transfer_write_receipt_ok in H. exists ps. split; [done|]. split; [|by split].
    apply orb_true_iff in Hs as [?%bool_decide_eq_true_1|?%bool_decide_eq_true_1]; auto.
Qed.

Lemma transfer_found_after now t tid db db' tr rc status ps key hash :
  transfer_found db t tid tr → transfer_receipt_written t tid key hash now db db' tr rc status ps →
  ∃ tr', transfer_found db' t tid tr' ∧ tr_status tr' = status.
Proof.
  intros Htr Hw. pose proof (rw_transfers _ _ _ _ _ _ _ _ _ _ _ Hw) as Hrows.
  set (f := set_transfer status _ _) in Hrows.
  set (q := λ r, bool_decide (tr_status r = tr_status tr)).
  exists (f tr). split; [|done].
  apply (found_rows TTransfer _ (on TTransfer (map_where (λ r, of_tenant tid t r && q r) f) db)).
  - rewrite rows_on_same. exact Hrows.
  - apply (guarded_found TTransfer _ q); [done..|]. by apply bool_decide_true.
Qed.

Lemma receive_lines_ok key dto lines :
  check_receive key dto = Ok lines → NoDup (map rq_ref lines) ∧ Forall request_ok lines.
Proof.
  unfold check_receive. destruct (assertIdempotencyKey key); [|done]. simpl.
  destruct (throw_if _ _); [|done]. simpl.
  destruct (check_lines _ _ _ _ _) as [seen|] eqn:E; [|done]. simpl. intros [= <-].
  apply check_lines_ok in E as [Hnd Hf]. unfold sort_lines. split.
  - by rewrite sort_by_perm.
  - rewrite sort_by_perm. apply (Forall_impl _ _ _ Hf). intros l [Hfin Hmin].
    split; [done|]. apply leb_false_gtb; [by apply isFinite_not_nan|apply of_Z_not_nan|done].
Qed.

End receiving.

(** * Shipping *)

Section shipping.
Import Transfers.
Context {dec : Decimal} {plat : Platform}.

Definition ship_tables : list table := [TStock; TMovement; TLayer; TAllocation; TItem].

Lemma writes_ship_item now t u tr stocks item :
  writes ship_tables (ship_item now t u tr stocks item).
Proof. unfold ship_item, ship_tables. solve_writes. Qed.

Lemma findOne_run tenantId transferId db tr :
  transfer_found db tenantId transferId tr →
  findOneInTransaction tenantId transferId db = Ok (detail db tr, db).
Proof.
  intros H. unfold findOneInTransaction, load_transfer.
  rewrite (tx_bind_run _ _ _ _ _ (load_row_run TTransfer _ _ _ _ H)). done.
Qed.

(** A transfer after [move]. *)
Lemma move_found tenantId transferId tr before status shipped received db :
  transfer_found db tenantId transferId tr → tr_status tr = before →
  transfer_found
    (on TTransfer (map_where (λ r, of_tenant transferId tenantId r &&
                                   bool_decide (tr_status r = before))
                     (set_transfer status shipped received)) db)
    tenantId transferId (set_transfer status shipped received tr).
Proof.
  intros H Hb. apply (guarded_found TTransfer _ (λ r, bool_decide (tr_status r = before)));
    [done..|]. by apply bool_decide_true.
Qed.

Lemma move_run tenantId transferId tr before status shipped received msg db :
  transfer_found db tenantId transferId tr → tr_status tr = before →
  move tenantId transferId before status shipped received msg db =
    Ok (tt, on TTransfer (map_where (λ r, of_tenant transferId tenantId r &&
                                          bool_decide (tr_status r = before))
                            (set_transfer status shipped received)) db).
Proof.
  intros H Hb. unfold move.
  rewrite (tx_bind_run _ _ _ _ _ (guarded_update TTransfer _
    (λ r, bool_decide (tr_status r = before)) _ _ _ H (bool_decide_true _ Hb))). done.
Qed.

Lemma ship_tx_cases now t tid u db d db' :
  ship_tx now t tid u db = Ok (d, db') →
  ∃ tr, transfer_found db t tid tr ∧
  let items := List.filter (items_of tid) (rows db TTransferItem) in
  ((tr_status tr ∈ [IN_TRANSIT; TransferPARTIALLY_RECEIVED; TransferRECEIVED] ∧
    d = detail db tr ∧ db' = db) ∨
   (tr_status tr = TransferPENDING ∧ items ≠ [] ∧
    d = detail db' (set_transfer IN_TRANSIT (Some (now, u)) None tr) ∧
    transfer_found db' t tid (set_transfer IN_TRANSIT (Some (now, u)) None tr) ∧
    only (TTransfer :: TOutbox :: ship_tables) db db' ∧
    rows db' TTransfer =
      map_where (λ r, of_tenant tid t r && bool_decide (tr_status r = TransferPENDING))
        (set_transfer IN_TRANSIT (Some (now, u)) None) (rows db TTransfer) ∧
    ∃ db1, rows db' TStock = rows db1 TStock ∧
      tx_for_each
        (ship_item now t u tr (List.filter (source_stocks tr items) (rows db TStock))) items db =
        Ok (tt, db1))).
Proof.
  intros H. apply (load_found TTransfer) in H as (tr & Htr & H). exists tr. split; [done|].
  apply tx_bind_ok in H as (items & d1 & [= <- <-] & H).
  rewrite (proj1 (transfer_found_id _ _ _ _ Htr)) in H. cbv zeta.
  destruct (bool_decide (tr_status tr ∈ [IN_TRANSIT; TransferPARTIALLY_RECEIVED; TransferRECEIVED]))
    eqn:Hs.
  { left. apply bool_decide_eq_true_1 in Hs. rewrite (findOne_run _ _ _ _ Htr) in H. by injection H as <- <-. }
  right. apply tx_bind_ok in H as ([] & d1 & E & H).
  unfold tx_throw_if, tx_lift, throw_if in E.
  destruct (bool_decide (tr_status tr = TransferPENDING)) eqn:Hp; [|done]. injection E as <-.
  apply bool_decide_eq_true_1 in Hp.
  apply tx_bind_ok in H as ([] & d1 & E & H). unfold tx_throw_if, tx_lift, throw_if in E.
  set (items := List.filter (items_of tid) (rows db TTransferItem)) in *.
  destruct (length items =? 0) eqn:Hl; [done|]. injection E as <-.
  apply tx_bind_ok in H as (stocks & d1 & [= <- <-] & H).
  apply tx_bind_ok in H as ([] & db1 & Ei & H).
  pose proof (writes_for_each _ _ items (writes_ship_item now t u tr _) _ _ _ Ei) as O1.
  assert (Htr1 : transfer_found db1 t tid tr).
  { apply (found_rows TTransfer _ db); [|done]. apply O1. unfold ship_tables. set_solver. }
  apply tx_bind_ok in H as ([] & db2 & Em & H). apply move_ok in Em as ->.
  apply (λ H, move_found _ _ _ _ IN_TRANSIT (Some (now, u)) None _ H Hp) in Htr1.
  apply tx_bind_ok in H as ([] & db3 & Ew & H).
  apply (writes_outbox [TOutbox]) in Ew; [|set_solver].
  assert (Htr3 : transfer_found db3 t tid (set_transfer IN_TRANSIT (Some (now, u)) None tr)).
  { eapply (found_rows TTransfer); [|exact Htr1]. apply Ew. set_solver. }
  rewrite (findOne_run _ _ _ _ Htr3) in H. injection H as <- <-.
  assert (O3 : ∀ t', t' ≠ TTransfer → t' ≠ TOutbox → rows db3 t' = rows db1 t').
  { intros t' ??. rewrite Ew by set_solver. by apply rows_on_other. }
  split_and!; [done| |done|done| | |].
  - intros Hnil. by rewrite Hnil in Hl.
  - intros t' Ht'. rewrite O3 by set_solver. apply O1. set_solver.
  - rewrite Ew by set_solver. rewrite rows_on_same.
    by rewrite (O1 TTransfer) by (unfold ship_tables; set_solver).
  - exists db1. split; [by apply O3|done].
Qed.

(** ** The stock *)

(** A stock row once the items have been taken from it. *)
Definition ship_stock (now : Date) (tr : TransferRow) (items : list TransferItemRow)
    (s : StockRow) : StockRow :=
  if bool_decide (st_warehouseId s = Some (tr_sourceWarehouseId tr)) then
    match List.find (λ i, bool_decide (ti_inventoryItemId i = st_inventoryItemId s)) items with
    | Some i => set_stock_quantity (sub (st_quantity s) (ti_quantity i)) now s
    | None => s
    end
  else s.
(** The source has enough of the item. *)
Definition covered (tr : TransferRow) (stock : list StockRow) (i : TransferItemRow) : Prop :=
  ∃ s, s ∈ stock ∧ st_warehouseId s = Some (tr_sourceWarehouseId tr) ∧
    st_inventoryItemId s = ti_inventoryItemId i ∧ leb (ti_quantity i) (st_quantity s) = true.

Lemma ship_stock_id now tr items s : st_id (ship_stock now tr items s) = st_id s.
Proof. unfold ship_stock. by repeat case_match. Qed.

Lemma ship_item_stock now t u tr stocks item db x db' :
  ship_item now t u tr stocks item db = Ok (x, db') →
  ∃ s, stock_for stocks (ti_inventoryItemId item) = Some s ∧
    let p := λ r, bool_decide (st_id r = st_id s) && geb (st_quantity r) (ti_quantity item) in
    length (List.filter p (rows db TStock)) = 1 ∧
    rows db' TStock =
      map_where p (λ r, set_stock_quantity (sub (st_quantity r) (ti_quantity item)) now r)
        (rows db TStock).
Proof.
  unfold ship_item. intros H. apply tx_bind_ok in H as (it & d1 & E1 & H).
  apply (writes_lockItem []) in E1.
  destruct (stock_for stocks _) as [s|]; [|done]. exists s. split; [done|].
  apply tx_bind_ok in H as ([] & d2 & E2 & H). apply (writes_throw_if []) in E2.
  assert (Hrows : rows d2 TStock = rows db TStock) by (rewrite E2, E1; set_solver).
  apply tx_bind_ok in H as (n & d3 & E3 & H). injection E3 as <- <-.
  apply tx_bind_ok in H as ([] & d4 & E4 & H).
  unfold tx_throw_if, tx_lift, throw_if in E4. rewrite <- Hrows. cbv zeta.
  destruct (_ =? 1) eqn:Hn in E4; [|done]. apply Nat.eqb_eq in Hn. injection E4 as <-.
  split; [exact Hn|].
  match type of H with ?m _ = _ =>
    assert (W : writes [TMovement; TLayer; TAllocation; TItem] m) by solve_writes end.
  rewrite (W _ _ _ H) by set_solver. by rewrite rows_on_same.
Qed.

Lemma stock_for_in stocks i s :
  stock_for stocks i = Some s → s ∈ stocks ∧ st_inventoryItemId s = i.
Proof.
  unfold stock_for. intros [Hin Hb]%find_some_in. bool_hyps. split; [|done].
  apply list_elem_of_In, in_rev, list_elem_of_In. exact Hin.
Qed.

Lemma find_item_app done i (s : StockRow) :
  ti_inventoryItemId i ∉ map ti_inventoryItemId done →
  List.find (λ j, bool_decide (ti_inventoryItemId j = st_inventoryItemId s)) (done ++ [i]) =
  if bool_decide (ti_inventoryItemId i = st_inventoryItemId s) then Some i
  else List.find (λ j, bool_decide (ti_inventoryItemId j = st_inventoryItemId s)) done.
Proof.
  intros Hn. rewrite find_app. simpl.
  destruct (List.find _ done) as [j|] eqn:E; case_bool_decide as Hi; try done.
  apply find_some_in in E as [Hj Hb]. bool_hyps. exfalso. apply Hn.
  rewrite Hi, <- Hb. by apply list_elem_of_fmap_2.
Qed.
Lemma find_item_none done i (s : StockRow) :
  ti_inventoryItemId i ∉ map ti_inventoryItemId done →
  st_inventoryItemId s = ti_inventoryItemId i →
  List.find (λ j, bool_decide (ti_inventoryItemId j = st_inventoryItemId s)) done = None.
Proof.
  intros Hn Hs. destruct (List.find _ done) as [j|] eqn:E; [|done].
  apply find_some_in in E as [Hj Hb]. bool_hyps. exfalso. apply Hn.
  rewrite <- Hs, <- Hb. by apply list_elem_of_fmap_2.
Qed.

(** One more item taken. *)
Lemma ship_stock_step now tr stock done i s :
  NoDup (map st_id stock) → NoDup (map stock_place stock) →
  ti_inventoryItemId i ∉ map ti_inventoryItemId done →
  s ∈ stock → st_warehouseId s = Some (tr_sourceWarehouseId tr) →
  st_inventoryItemId s = ti_inventoryItemId i →
  let p := λ r, bool_decide (st_id r = st_id s) && geb (st_quantity r) (ti_quantity i) in
  length (List.filter p (map (ship_stock now tr done) stock)) = 1 →
  leb (ti_quantity i) (st_quantity s) = true ∧
  map_where p (λ r, set_stock_quantity (sub (st_quantity r) (ti_quantity i)) now r)
    (map (ship_stock now tr done) stock) = map (ship_stock now tr (done ++ [i])) stock.
Proof.
  intros Hid Hplace Hn Hs Hw Hi q Hlen.
  assert (Hsame : ship_stock now tr done s = s).
  { unfold ship_stock. rewrite bool_decide_true by done. by rewrite (find_item_none done i). }
  assert (Hle : leb (ti_quantity i) (st_quantity s) = true).
  { destruct (List.filter q _) as [|x l] eqn:E; [done|].
    assert (Hx : In x (List.filter q (map (ship_stock now tr done) stock))) by (rewrite E; by left).
    apply filter_In in Hx as [Hx Hq]. apply list_elem_of_In, list_elem_of_fmap in Hx as (y & -> & Hy).
    unfold q in Hq. rewrite ship_stock_id in Hq. bool_hyps.
    rewrite (same_key st_id stock y s Hid Hy Hs) in * by done. by rewrite Hsame in *. }
  split; [done|]. unfold map_where. rewrite map_map. apply map_ext_in.
  intros x Hx%list_elem_of_In. unfold q. rewrite ship_stock_id.
  destruct (decide (st_id x = st_id s)) as [E|E].
  - rewrite (same_key st_id stock x s Hid Hx Hs E). rewrite bool_decide_true, Hsame by done.
    unfold geb. rewrite Hle. simpl. unfold ship_stock. rewrite bool_decide_true by done.
    rewrite (find_item_app done i) by done. by rewrite bool_decide_true.
  - rewrite bool_decide_false by done. simpl. unfold ship_stock.
    case_bool_decide as Hxw; [|done]. rewrite (find_item_app done i) by done.
    rewrite bool_decide_false; [done|]. intros Hxi. apply E. f_equal.
    apply (same_key stock_place stock); [done..|]. unfold stock_place. congruence.
Qed.

Lemma ship_items_stock now t u tr stocks stock items :
  NoDup (map st_id stock) → NoDup (map stock_place stock) →
  Forall (λ s, s ∈ stock ∧ st_warehouseId s = Some (tr_sourceWarehouseId tr)) stocks →
  ∀ done db x db', NoDup (map ti_inventoryItemId (done ++ items)) →
  rows db TStock = map (ship_stock now tr done) stock →
  tx_for_each (ship_item now t u tr stocks) items db = Ok (x, db') →
  rows db' TStock = map (ship_stock now tr (done ++ items)) stock ∧
  Forall (covered tr stock) items.
Proof.
  intros Hid Hplace Hstocks. induction items as [|i items IH]; simpl; intros done db x db' Hnd Hr H.
  { injection H as _ <-. by rewrite app_nil_r. }
  apply tx_bind_ok in H as ([] & db1 & E & H).
  apply ship_item_stock in E as (s & Hs & Hlen & Hrows).
  apply stock_for_in in Hs as [Hin Hi]. rewrite Forall_forall in Hstocks.
  destruct (Hstocks s Hin) as [Hs Hw].
  assert (Hn : ti_inventoryItemId i ∉ map ti_inventoryItemId done).
  { rewrite map_app in Hnd. apply NoDup_app in Hnd as (_ & Hd & _). intros Hx.
    apply (Hd _ Hx). by left. }
  rewrite Hr in Hlen, Hrows.
  destruct (ship_stock_step now tr stock done i s Hid Hplace Hn Hs Hw Hi Hlen)
    as [Hle Hstep].
  rewrite Hstep in Hrows.
  replace (done ++ i :: items) with ((done ++ [i]) ++ items) in Hnd |- * by by rewrite <- app_assoc.
  destruct (IH (done ++ [i]) db1 x db' Hnd Hrows H) as [H1 H2]. split; [done|].
  constructor; [|done]. by exists s.
Qed.

End shipping.

(** * The status machine *)

Section histories.
Import Transfers.
Context {dec : Decimal} {plat : Platform}.

(** The moves a transfer makes. *)
Inductive transfer_goes : WarehouseTransferStatus → WarehouseTransferStatus → Prop :=
| goes_ship : transfer_goes TransferPENDING IN_TRANSIT
| goes_cancel : transfer_goes TransferPENDING TransferCANCELLED
| goes_part : transfer_goes IN_TRANSIT TransferPARTIALLY_RECEIVED
| goes_whole : transfer_goes IN_TRANSIT TransferRECEIVED
| goes_again : transfer_goes TransferPARTIALLY_RECEIVED TransferPARTIALLY_RECEIVED
| goes_rest : transfer_goes TransferPARTIALLY_RECEIVED TransferRECEIVED.

(** A call of the service on an existing transfer, whatever its arguments and its
    outcome. *)
Inductive transfer_step : Db → Db → Prop :=
| step_ship now tenantId transferId userId db :
    transfer_step db (snd (ship now tenantId transferId userId db))
| step_receive now tenantId transferId userId key dto db :
    transfer_step db (snd (receive now tenantId transferId userId key dto db))
| step_cancel now tenantId transferId db :
    transfer_step db (snd (cancel now tenantId transferId db)).

(** The same transfer, later. *)
Definition same_transfer (r r' : TransferRow) : Prop :=
  tr_id r' = tr_id r ∧ tr_tenantId r' = tr_tenantId r ∧
  tr_sourceWarehouseId r' = tr_sourceWarehouseId r ∧
  tr_destinationWarehouseId r' = tr_destinationWarehouseId r ∧
  rtc transfer_goes (tr_status r) (tr_status r').

#[export] Instance same_transfer_preorder : PreOrder same_transfer.
Proof.
  split.
  - intros r. by repeat split.
  - intros a b c (? & ? & ? & ? & Hab) (? & ? & ? & ? & Hbc).
    split_and!; [congruence..|]. by etrans.
Qed.

Lemma same_transfer_refl l : Forall2 same_transfer l l.
Proof. reflexivity. Qed.

Lemma moved_transfers (p : TransferRow → bool) before status shipped received l :
  transfer_goes before status →
  Forall2 same_transfer l
    (map_where (λ r, p r && bool_decide (tr_status r = before))
       (set_transfer status shipped received) l).
Proof.
  intros Hg. unfold map_where. apply Forall2_fmap_r, Forall_Forall2_diag, Forall_forall.
  intros r _. unfold compose. destruct (p r && bool_decide (tr_status r = before)) eqn:E; [|reflexivity]. bool_hyps. repeat split.
  simpl. apply rtc_once. congruence.
Qed.

Lemma cancel_tx_cases now t tid db d db' :
  cancel_tx now t tid db = Ok (d, db') →
  ∃ tr, transfer_found db t tid tr ∧
  ((tr_status tr = TransferCANCELLED ∧ d = detail db tr ∧ db' = db) ∨
   (tr_status tr = TransferPENDING ∧
    transfer_found db' t tid (set_transfer TransferCANCELLED None None tr) ∧
    d = detail db' (set_transfer TransferCANCELLED None None tr) ∧
    only [TTransfer; TOutbox] db db' ∧
    rows db' TTransfer =
      map_where (λ r, of_tenant tid t r && bool_decide (tr_status r = TransferPENDING))
        (set_transfer TransferCANCELLED None None) (rows db TTransfer))).
Proof.
  intros H. apply (load_found TTransfer) in H as (tr & Htr & H). exists tr. split; [done|].
  destruct (bool_decide (tr_status tr = TransferCANCELLED)) eqn:Hc.
  { left. rewrite (findOne_run _ _ _ _ Htr) in H. injection H as <- <-. by bool_hyps. }
  right. apply tx_bind_ok in H as ([] & d1 & E & H).
  unfold tx_throw_if, tx_lift, throw_if in E.
  destruct (bool_decide (tr_status tr = TransferPENDING)) eqn:Hp; [|done]. injection E as <-.
  bool_hyps. apply tx_bind_ok in H as ([] & db2 & Em & H). apply move_ok in Em as ->.
  pose proof (move_found _ _ _ _ TransferCANCELLED None None _ Htr Hp) as Htr1.
  apply tx_bind_ok in H as ([] & db3 & Ew & H).
  apply (writes_outbox [TOutbox]) in Ew; [|set_solver].
  assert (Htr3 : transfer_found db3 t tid (set_transfer TransferCANCELLED None None tr)).
  { eapply (found_rows TTransfer); [|exact Htr1]. apply Ew. set_solver. }
  rewrite (findOne_run _ _ _ _ Htr3) in H. injection H as <- <-.
  split_and!; [done..| |].
  - intros t' Ht'. rewrite Ew by set_solver. apply rows_on_other. set_solver.
  - rewrite Ew by set_solver. by rewrite rows_on_same.
Qed.

Lemma cancel_tx_run now t tid tr db :
  transfer_found db t tid tr →
  tr_status tr = TransferPENDING ∨ tr_status tr = TransferCANCELLED →
  is_ok (cancel_tx now t tid db) = true.
Proof.
  intros Htr Hs. unfold cancel_tx, lockTransfer, load_transfer.
  rewrite (load_found_run TTransfer _ _ _ _ _ _ _ Htr).
  destruct Hs as [Hs|Hs]; rewrite Hs; simpl; [|by rewrite (findOne_run _ _ _ _ Htr)].
  rewrite (tx_bind_run _ _ _ tt db eq_refl).
  rewrite (tx_bind_run _ _ _ _ _ (move_run _ _ _ _ _ _ _ _ _ Htr Hs)).
  pose proof (move_found _ _ _ _ TransferCANCELLED None None _ Htr Hs) as Htr1.
  match goal with |- context [(writeOutbox ?n ?t ?e ?p ≫= _) ?d] =>
    destruct (write_outbox_run n t (event_type (EvInventory e)) p d) as (db3 & Ew & Ho) end.
  rewrite (tx_bind_run _ _ _ _ _ Ew).
  rewrite (findOne_run _ _ _ (set_transfer TransferCANCELLED None None tr)); [done|].
  eapply (found_rows TTransfer); [|exact Htr1]. apply (Ho TTransfer). set_solver.
Qed.

(** What a call does to the transfers and their lines. *)
Lemma step_effect db db' :
  transfer_step db db' →
  Forall2 same_transfer (rows db TTransfer) (rows db' TTransfer) ∧
  (rows db' TTransferItem = rows db TTransferItem ∨
   ∃ tid lines ps, plan_receipt (List.filter (items_of tid) (rows db TTransferItem)) lines = Ok ps ∧
     Forall request_ok lines ∧
     rows db' TTransferItem =
       map (apply_plan (items_of tid) set_item_received ps) (rows db TTransferItem)).
Proof.
  intros [now t tid u d|now t tid u key dto d|now t tid d].
  - unfold ship, transaction. destruct (ship_tx _ _ _ _ d) as [[out d']|] eqn:E; simpl.
    2: { split; [apply same_transfer_refl|by left]. }
    apply ship_tx_cases in E as (tr & _ & [(_ & _ & ->)|(Hp & _ & _ & _ & Ho & Hr & _)]).
    { split; [apply same_transfer_refl|by left]. }
    split; [|left; apply (Ho TTransferItem); unfold ship_tables; set_solver].
    rewrite Hr. apply moved_transfers. constructor.
  - unfold receive. destruct (check_receive key dto) as [lines|] eqn:Hreq; simpl.
    2: { split; [apply same_transfer_refl|by left]. }
    apply receive_lines_ok in Hreq as [Hnd Hlines]. unfold transaction.
    destruct (receive_tx _ _ _ _ _ _ _ d) as [[rc d']|] eqn:E; simpl.
    2: { split; [apply same_transfer_refl|by left]. }
    apply transfer_receive_tx_cases in E as (tr & _ & [(r & _ & _ & _ & ->)|(ps & _ & Hs & Hplan & Hw)]).
    { split; [apply same_transfer_refl|by left]. }
    pose proof (plan_receipt_ok _ _ _ Hplan) as [Hids _]. split.
    + rewrite (rw_transfers _ _ _ _ _ _ _ _ _ _ _ Hw). apply moved_transfers.
      destruct Hs as [-> | ->], (all_received _ ps); constructor.
    + right. exists tid, lines, ps. split_and!; [done..|].
      apply (rw_lines _ _ _ _ _ _ _ _ _ _ _ Hw). simpl in Hids. by rewrite Hids.
  - unfold cancel, transaction. destruct (cancel_tx _ _ _ d) as [[out d']|] eqn:E; simpl.
    2: { split; [apply same_transfer_refl|by left]. }
    apply cancel_tx_cases in E as (tr & _ & [(_ & _ & ->)|(Hp & _ & _ & Ho & Hr)]).
    { split; [apply same_transfer_refl|by left]. }
    split; [|left; apply (Ho TTransferItem); set_solver].
    rewrite Hr. apply moved_transfers. constructor.
Qed.

(** Statuses that cannot be left, and that shipping excludes cancelling. *)
Lemma goes_final s s' :
  rtc transfer_goes s s' →
  (s = TransferRECEIVED → s' = TransferRECEIVED) ∧
  (s = TransferCANCELLED → s' = TransferCANCELLED) ∧
  (s ≠ TransferPENDING → s ≠ TransferCANCELLED → s' ≠ TransferCANCELLED ∧ s' ≠ TransferPENDING).
Proof.
  induction 1 as [s|s s1 s2 Hs _ (IH1 & IH2 & IH3)]; [by split_and!|].
  destruct Hs; split_and!; try done; intros _ _; apply IH3; done.
Qed.

End histories.

(** * Properties *)

Section properties.
Import Transfers.
Context {dec : Decimal} {plat : Platform}.

(** C20: along every history of shipping, receiving and cancelling calls, with any
    arguments, successful or not: no line is ever received beyond what was shipped,
    transfers are neither lost nor redirected, each status is reached from the
    earlier one by the moves above, and so a received or cancelled transfer stays
    so and a shipped one is never cancelled. *)
Theorem transfer_history (db db' : Db) :
  keyed TTransferItem db → Forall line_ok (rows db TTransferItem) →
  rtc transfer_step db db' →
  Forall line_ok (rows db' TTransferItem) ∧
  map ti_id (rows db' TTransferItem) = map ti_id (rows db TTransferItem) ∧
  Forall2 same_transfer (rows db TTransfer) (rows db' TTransfer) ∧
  ∀ s s', rtc transfer_goes s s' →
    (s = TransferRECEIVED → s' = TransferRECEIVED) ∧
    (s = TransferCANCELLED → s' = TransferCANCELLED) ∧
    (s ≠ TransferPENDING → s ≠ TransferCANCELLED → s' ≠ TransferCANCELLED ∧ s' ≠ TransferPENDING).
Proof.
  intros Hk Hok H.
  cut ((Forall line_ok (rows db' TTransferItem) ∧
        map ti_id (rows db' TTransferItem) = map ti_id (rows db TTransferItem)) ∧
       Forall2 same_transfer (rows db TTransfer) (rows db' TTransfer)).
  { intros [[??]?]. do 3 (split; [done|]). apply goes_final. }
  revert Hk Hok. induction H as [d|d d1 d2 Hs _ IH]; intros Hk Hok.
  { split; [done|apply same_transfer_refl]. }
  apply step_effect in Hs as [Ht Hi].
  assert (Hi' : Forall line_ok (rows d1 TTransferItem) ∧
                map ti_id (rows d1 TTransferItem) = map ti_id (rows d TTransferItem)).
  { destruct Hi as [->|(tid & lines & ps & Hplan & Hl & ->)]; [done|].
    pose proof (apply_plan_bounds (items_of tid) set_item_received _ _ _ Hplan Hk Hok Hl)
      as (? & ? & _). done. }
  destruct Hi' as [Hok1 Hids]. destruct IH as [[H1 H2] H3].
  - unfold keyed in *. simpl in *. by rewrite Hids.
  - done.
  - split; [split; [done|congruence]|]. by etrans.
Qed.

(** receiving is idempotent: once a request has succeeded, the same request
    under the same key answers with the same receipt and changes nothing, at any
    later time and by any user; a different request under that key is refused and
    changes nothing.  (Ids are fresh: no receipt item refers yet to the id the
    receipt gets.) *)
Theorem transfer_receive_idempotent (now : Date) (tenantId transferId userId key : string)
    (dto : ReceiveDto) (db db1 : Db) (rc : receipt) :
  Forall (λ r, tj_receiptId r ≠ cuid (serial db)) (rows db TTransferReceiptItem) →
  receive now tenantId transferId userId key dto db = (Ok rc, db1) →
  (∀ now' userId', receive now' tenantId transferId userId' key dto db1 = (Ok rc, db1)) ∧
  (∀ now' userId' dto' lines',
     check_receive key dto' = Ok lines' →
     request_hash lines' (clean_note (dto_note dto')) ≠ tc_requestHash (fst rc) →
     receive now' tenantId transferId userId' key dto' db1 = (Err different_request, db1)).
Proof.
  intros Hfresh H. unfold receive in *.
  destruct (check_receive key dto) as [lines|] eqn:Hreq; [|done].
  unfold transaction in *. destruct (receive_tx _ _ _ _ _ _ _ db) as [[rc' db']|] eqn:E; [|done].
  injection H as -> ->. apply transfer_receive_tx_cases in E as (tr & Htr & Hcases).
  assert (Hafter : (∃ tr', transfer_found db1 tenantId transferId tr') ∧
    List.find (existing_receipt transferId key) (rows db1 TTransferReceipt) = Some (fst rc) ∧
    List.filter (receipt_items (tc_id (fst rc))) (rows db1 TTransferReceiptItem) = snd rc ∧
    tc_requestHash (fst rc) = request_hash lines (clean_note (dto_note dto))).
  { destruct Hcases as [(r & Hr & Hh & -> & ->)|(ps & Hn & _ & _ & Hw)]; [by eauto|].
    destruct (transfer_found_after _ _ _ _ _ _ _ _ _ _ _ Htr Hw) as (tr' & Htr' & _).
    pose proof Hw as [Hrs Hf Hh Hid Hri Hm _ _].
    split; [by eexists|]. rewrite Hrs, Hri, List.filter_app. split; [|split; [|done]].
    - rewrite find_app, Hn. simpl. by rewrite Hf.
    - rewrite filter_none, filter_every; [done| |].
      + apply (Forall_impl _ _ _ Hm). intros r. by apply bool_decide_true.
      + apply (Forall_impl _ _ _ Hfresh). intros r Hr. apply bool_decide_false. congruence. }
  destruct Hafter as ((tr' & Htr') & Hfind & Hitems & Hhash). split.
  - intros now' u'. unfold receive_tx, lockTransfer, load_transfer.
    rewrite (load_found_run TTransfer _ _ _ _ _ _ _ Htr').
    unfold select, select_first, mbind, tx_bind. cbn [row]. rewrite Hfind. simpl.
    unfold replayOrConflict. rewrite bool_decide_true by congruence. simpl. rewrite Hitems.
    by destruct rc.
  - intros now' u' dto' lines' -> Hne. unfold receive_tx, lockTransfer, load_transfer.
    rewrite (load_found_run TTransfer _ _ _ _ _ _ _ Htr').
    unfold select, select_first, mbind, tx_bind. cbn [row]. rewrite Hfind. simpl.
    unfold replayOrConflict. by rewrite bool_decide_false by congruence.
Qed.

(** C21: a pending transfer is shipped in full or not at all.  A successful call
    finds every item covered by the stock of the source, takes exactly the items'
    quantities from the rows of the source and from no other row, leaves no stock
    negative that was not, and puts the transfer in transit; shipping it again, at
    any time and by anyone, changes nothing.  A call that fails leaves the store
    as it was. *)
Theorem transfer_ship (now : Date) (tenantId transferId userId : string) (db db' : Db)
    (tr : TransferRow) (out : result Detail) :
  let items := List.filter (items_of transferId) (rows db TTransferItem) in
  transfer_found db tenantId transferId tr → tr_status tr = TransferPENDING →
  keyed TStock db → NoDup (map stock_place (rows db TStock)) →
  NoDup (map ti_inventoryItemId items) →
  ship now tenantId transferId userId db = (out, db') →
  match out with
  | Err _ => db' = db
  | Ok d =>
      Forall (covered tr (rows db TStock)) items ∧
      rows db' TStock = map (ship_stock now tr items) (rows db TStock) ∧
      (Forall (λ s, ltb (st_quantity s) (of_Z 0) = false) (rows db TStock) →
       Forall (λ s, ltb (st_quantity s) (of_Z 0) = false) (rows db' TStock)) ∧
      tr_status (dt_transfer d) = IN_TRANSIT ∧
      transfer_found db' tenantId transferId (dt_transfer d) ∧
      ∀ now' userId', ship now' tenantId transferId userId' db' =
        (Ok (detail db' (dt_transfer d)), db')
  end.
Proof.
  intros items Htr Hp Hk Hplace Hnd H. unfold ship, transaction in H.
  destruct (ship_tx _ _ _ _ db) as [[d d']|] eqn:E; [|by injection H as <- <-].
  injection H as <- <-. apply ship_tx_cases in E as (tr0 & Htr0 & Hcases).
  rewrite (found_unique TTransfer _ _ _ _ Htr0 Htr) in Hcases. clear tr0 Htr0.
  destruct Hcases as [(Hin & _)|(_ & _ & -> & Hafter & _ & _ & db1 & Hst & Hrun)].
  { rewrite Hp in Hin. set_solver. }
  fold items in Hrun. eapply (ship_items_stock now tenantId userId tr _ (rows db TStock) items)
    with (done := []) in Hrun as [Hrows Hcov]; [| done..| | |]; cycle 1.
  { apply Forall_forall. intros s [Hin Hs]%list_elem_of_In%filter_In. unfold source_stocks in Hs.
    bool_hyps. split; [by apply list_elem_of_In|done]. }
  { done. }
  { rewrite <- (map_id (rows db TStock)) at 1. apply map_ext. intros s. unfold ship_stock. simpl.
    by destruct (bool_decide _). }
  rewrite Hst, Hrows. simpl. split_and!; [done|done| |done|done|].
  - intros Hpos. apply Forall_map, Forall_forall. intros s Hs.
    rewrite Forall_forall in Hpos. unfold ship_stock. case_bool_decide as Hw; [|by apply Hpos].
    destruct (List.find _ items) as [i|] eqn:Ei; [|by apply Hpos]. simpl. apply sub_nonneg.
    apply find_some_in in Ei as [Hi Hb]. bool_hyps. rewrite Forall_forall in Hcov.
    destruct (Hcov i Hi) as (s' & Hs' & Hw' & Hi' & Hle).
    rewrite (same_key stock_place _ s s' Hplace Hs Hs'); [done|]. unfold stock_place. congruence.
  - intros now' u'. unfold ship, transaction, ship_tx, lockTransfer, load_transfer.
    rewrite (load_found_run TTransfer _ _ _ _ _ _ _ Hafter). unfold select, mbind, tx_bind.
    cbn [tr_status set_transfer]. rewrite bool_decide_true by set_solver.
    by rewrite (findOne_run _ _ _ _ Hafter).
Qed.

(** cancelling succeeds exactly on a transfer that is pending or already
    cancelled; it then is cancelled, and only the transfer and the outbox were
    written. *)
Theorem transfer_cancel_iff (now : Date) (tenantId transferId : string) (db : Db) :
  let '(out, db') := cancel now tenantId transferId db in
  (is_ok out = true ↔ ∃ tr, transfer_found db tenantId transferId tr ∧
     (tr_status tr = TransferPENDING ∨ tr_status tr = TransferCANCELLED)) ∧
  only [TTransfer; TOutbox] db db' ∧
  ∀ d, out = Ok d → tr_status (dt_transfer d) = TransferCANCELLED ∧
    transfer_found db' tenantId transferId (dt_transfer d).
Proof.
  unfold cancel, transaction. destruct (cancel_tx _ _ _ db) as [[d d']|e] eqn:E.
  - apply cancel_tx_cases in E as (tr & Htr & [(Hc & -> & ->)|(Hp & Ha & -> & Ho & _)]); simpl.
    + split_and!; [split; [intros _; eauto|done]|apply only_refl|]. by intros ? [= <-].
    + split_and!; [split; [intros _; eauto|done]|done|]. by intros ? [= <-].
  - simpl. split_and!; [|apply only_refl|done]. split; [done|].
    intros (tr & Htr & Hs). pose proof (cancel_tx_run now _ _ _ _ Htr Hs) as Hok.
    by rewrite E in Hok.
Qed.

Lemma create_tx_ok now t u key rq db d db' :
  create_tx now t u key rq db = Ok (d, db') →
  List.filter (by_key t key) (rows db TTransfer) = [] ∧
  by_key t key (dt_transfer d) = true ∧ tr_requestHash (dt_transfer d) = create_hash rq ∧
  rows db' TTransfer = rows db TTransfer ++ [dt_transfer d].
Proof.
  unfold create_tx, warehouse_of. intros H.
  apply tx_bind_ok in H as (s & d1 & [= _ <-] & H).
  apply tx_bind_ok in H as (s' & d1 & [= _ <-] & H).
  apply tx_bind_ok in H as (n & d1 & [= _ <-] & H).
  apply tx_bind_ok in H as ([] & d1 & E & H). apply (writes_lift []) in E as O1.
  apply tx_bind_ok in H as ([] & d2 & E2 & H). apply (writes_throw_if []) in E2 as O2.
  apply tx_bind_ok in H as (m & d3 & [= <- <-] & H).
  apply tx_bind_ok in H as ([] & d4 & E4 & H).
  unfold tx_throw_if, tx_lift, throw_if in E4.
  assert (Hrows : rows d2 TTransfer = rows db TTransfer) by (rewrite O2, O1; set_solver).
  destruct (_ =? 0) eqn:Hm in E4; [|done]. apply Nat.eqb_eq, nil_length_inv in Hm.
  injection E4 as <-. cbn [row] in Hm. rewrite Hrows in Hm.
  apply tx_bind_ok in H as (tr & d5 & Et & H). apply (insert_rows TTransfer) in Et as [Htr R].
  apply tx_bind_ok in H as (is_ & d6 & Ei & H).
  apply (writes_insert_all [TTransferItem]) in Ei; [|set_solver].
  apply tx_bind_ok in H as (g & d7 & [= <- <-] & H).
  apply tx_bind_ok in H as ([] & d8 & Ew & H).
  apply (writes_outbox [TOutbox]) in Ew; [|set_solver].
  injection H as <- <-. cbn [dt_transfer detail]. split_and!; [done| | |].
  - rewrite Htr. unfold by_key. simpl. by rewrite !bool_decide_true.
  - by rewrite Htr.
  - rewrite Ew, Ei, R by set_solver. by rewrite Hrows.
Qed.

Lemma replay_ok {A} hash hash' (x y : A) :
  replayOrConflict hash hash' x = Ok y → y = x ∧ hash = hash'.
Proof. unfold replayOrConflict. case_bool_decide; [|done]. by intros [= <-]. Qed.

Lemma create_replay now between after t u key dto rq db tr :
  check_create key dto = Ok rq →
  List.find (by_key t key) (rows db TTransfer) = Some tr →
  tr_requestHash tr = create_hash rq →
  create now between after t u key dto db = (Ok (detail db tr), db).
Proof.
  intros Hreq Hf Hh. unfold create. rewrite Hreq. cbn [row]. rewrite Hf.
  unfold replayOrConflict. by rewrite bool_decide_true.
Qed.

(** an idempotency key creates at most one transfer, whatever other requests
    commit while this one runs.  A call that succeeds answers with the transfer that
    holds the key in the store and whose digest is that of the request; it answers
    the same request later with that transfer as it then is, and writes nothing.  A
    call that fails writes nothing. *)
Theorem transfer_created_once (now : Date) (between after : Db → Db)
    (tenantId userId key : string) (dto : CreateDto) (rq : CreateRequest) (db db' : Db)
    (out : result Detail) :
  let once d := length (List.filter (by_key tenantId key) (rows d TTransfer)) <= 1 in
  check_create key dto = Ok rq →
  (∀ d, once d → once (between d)) → (∀ d, once d → once (after d)) → once db →
  create now between after tenantId userId key dto db = (out, db') →
  once db' ∧
  match out with
  | Ok d =>
      List.find (by_key tenantId key) (rows db' TTransfer) = Some (dt_transfer d) ∧
      tr_requestHash (dt_transfer d) = create_hash rq ∧
      (∀ now' between' after' userId' db2 t2,
         List.find (by_key tenantId key) (rows db2 TTransfer) = Some t2 →
         tr_requestHash t2 = tr_requestHash (dt_transfer d) →
         create now' between' after' tenantId userId' key dto db2 = (Ok (detail db2 t2), db2))
  | Err _ => db' = db ∨ db' = between db ∨ db' = after (between db)
  end.
Proof.
  intros once Hreq Hb Ha Hdb H.
  assert (Hlater : ∀ d, tr_requestHash (dt_transfer d) = create_hash rq →
    ∀ now' (between' after' : Db → Db) userId' db2 t2,
    List.find (by_key tenantId key) (rows db2 TTransfer) = Some t2 →
    tr_requestHash t2 = tr_requestHash (dt_transfer d) →
    create now' between' after' tenantId userId' key dto db2 = (Ok (detail db2 t2), db2)).
  { intros d Hd n' b' a' u' db2 t2 Hf Ht. rewrite Hd in Ht. by eapply create_replay. }
  unfold create in H. rewrite Hreq in H.
  destruct (List.find (by_key tenantId key) (rows db TTransfer)) as [t|] eqn:Hf.
  - injection H as <- <-. split; [done|].
    destruct (replayOrConflict _ _ (detail db t)) as [o|e] eqn:E; [|by left].
    apply replay_ok in E as [-> Hh]. split_and!; [done..|]. by apply Hlater.
  - unfold transaction in H.
    destruct (create_tx now tenantId userId key rq (between db)) as [[d d']|e] eqn:E.
    + injection H as <- <-. apply create_tx_ok in E as (Hn & Hk & Hh & Hr).
      cbn [row] in *. split.
      * unfold once. rewrite Hr, List.filter_app, Hn. simpl. rewrite Hk. simpl. lia.
      * split_and!; [|done|by apply Hlater]. rewrite Hr, find_app, find_head, Hn. simpl.
        by rewrite Hk.
    + case_bool_decide as He; [|injection H as <- <-; by auto].
      destruct (List.find (by_key tenantId key) (rows (after (between db)) TTransfer))
        as [t|] eqn:Hf2; injection H as <- <-; [|by auto].
      split; [by apply Ha, Hb|].
      destruct (replayOrConflict _ _ (detail _ t)) as [o|e'] eqn:E'; [|by auto].
      apply replay_ok in E' as [-> Hh]. split_and!; [done..|]. by apply Hlater.
Qed.

End properties.

(** * Examples

    A transfer of three flour and two sugar from w1 to w2: shipped, received in two
    parts, raced by another request, and cancelled. *)
Module TransferExamples.

Import Transfers FixedPoint SamplePlatform.
Local Open Scope Z_scope.
Local Open Scope string_scope.

Definition item (i : string) (m : InventoryValuationMethod) : ItemRow :=
  {| it_id := i; it_tenantId := "t1"; it_valuationMethod := Some m;
     it_movingAverageScope := None;
     it_standardCost := Some (200 * million * million : @D FixedPoint.decimal);
     it_averageUnitCost := None; it_valuationLockedAt := None |}.
Definition stock (i itemId : string) (q : Z) : StockRow :=
  {| st_id := i; st_warehouseId := Some "w1"; st_inventoryItemId := itemId;
     st_quantity := of_Z q; st_averageUnitCost := None; st_createdAt := 0; st_updatedAt := 0 |}.
Definition layer : LayerRow :=
  {| ly_id := "ly1"; ly_tenantId := "t1"; ly_inventoryItemId := "flour";
     ly_warehouseId := Some "w1"; ly_sourceMovementId := None; ly_sourceType := "OPENING";
     ly_sourceReferenceId := None;
     ly_receivedQuantity := (10 * million * million : @D FixedPoint.decimal);
     ly_remainingQuantity := (10 * million * million : @D FixedPoint.decimal);
     ly_unitCost := (7 * million * million : @D FixedPoint.decimal); ly_createdAt := 0 |}.
Definition warehouse (i : string) : WarehouseRow :=
  {| wh_id := i; wh_tenantId := "t1"; wh_outletId := None; wh_isActive := true |}.
Definition dto (flour : Z) : CreateDto :=
  {| cd_sourceWarehouseId := "w1"; cd_destinationWarehouseId := " w2 ";
     cd_items := [{| rq_ref := "sugar"; rq_quantity := of_Z 2 |};
                  {| rq_ref := "flour"; rq_quantity := of_Z flour |}];
     cd_note := None |}.
Definition checked (flour : Z) : CreateRequest :=
  {| cr_source := "w1"; cr_destination := "w2";
     cr_lines := [{| rq_ref := "flour"; rq_quantity := of_Z flour |};
                  {| rq_ref := "sugar"; rq_quantity := of_Z 2 |}]; cr_note := None |}.
Definition transfer : TransferRow :=
  {| tr_id := "tr1"; tr_tenantId := "t1"; tr_sourceWarehouseId := "w1";
     tr_destinationWarehouseId := "w2"; tr_createdById := "u1"; tr_shippedById := None;
     tr_idempotencyKey := "key-0"; tr_requestHash := create_hash (checked 3);
     tr_status := TransferPENDING; tr_note := None; tr_createdAt := 0; tr_shippedAt := None;
     tr_receivedAt := None |}.
Definition line (i itemId : string) (q : Z) : TransferItemRow :=
  {| ti_id := i; ti_transferId := "tr1"; ti_inventoryItemId := itemId;
     ti_quantity := of_Z q; ti_receivedQuantity := of_Z 0 |}.
Definition store : Db :=
  on TItem (λ _, [item "flour" FIFO; item "sugar" STANDARD_COST])
    (on TStock (λ _, [stock "s1" "flour" 10; stock "s2" "sugar" 2])
      (on TLayer (λ _, [layer]) (on TWarehouse (λ _, [warehouse "w1"; warehouse "w2"])
        (on TTransfer (λ _, [transfer])
          (on TTransferItem (λ _, [line "l1" "flour" 3; line "l2" "sugar" 2]) emptyDb))))).
Definition shipped : Db := snd (ship 1 "t1" "tr1" "u1" store).
Definition request (l1 l2 : Z) : ReceiveDto :=
  {| dto_items := [{| rq_ref := " l1 "; rq_quantity := of_Z l1 |};
                   {| rq_ref := "l2"; rq_quantity := of_Z l2 |}]; dto_note := None |}.
Definition lines_of (dto : ReceiveDto) : list RequestLine :=
  match check_receive "key-1" dto with Ok ls => ls | Err _ => [] end.

Lemma transfer_line_ok_sample (i itemId : string) (q : Z) : 0 < q < 1000 → line_ok (line i itemId q).
Proof.
  intros Hq. unfold line_ok, within. simpl.
  split_and!; [| |reflexivity|rewrite leb_of_Z by (unfold max_exact; lia); apply Z.leb_le; lia].
  - apply isInteger_finite, isInteger_of_Z. unfold max_exact. lia.
  - reflexivity.
Qed.

Lemma transfer_history_witness :
  let '(out, db') := receive 5 "t1" "tr1" "u1" "key-1" (request 2 2) shipped in
  is_ok out = true ∧ Forall line_ok (rows db' TTransferItem).
Proof.
  assert (C : is_ok (fst (receive 5 "t1" "tr1" "u1" "key-1" (request 2 2) shipped)) = true)
    by (vm_compute; reflexivity).
  destruct (receive 5 "t1" "tr1" "u1" "key-1" (request 2 2) shipped) as [out db'] eqn:E.
  split; [exact C|]. apply (transfer_history store db').
  - apply (bool_decide_unpack _). vm_compute. exact I.
  - repeat constructor; apply transfer_line_ok_sample; lia.
  - pose proof (step_receive 5 "t1" "tr1" "u1" "key-1" (request 2 2) shipped) as S.
    rewrite E in S. apply (rtc_l transfer_step store shipped db'); [|exact (rtc_once _ _ S)].
    exact (step_ship 1 "t1" "tr1" "u1" store).
Defined.

Lemma transfer_receive_idempotent_witness :
  ∃ rc db1, receive 5 "t1" "tr1" "u1" "key-1" (request 2 2) shipped = (Ok rc, db1) ∧
    receive 9 "t1" "tr1" "u2" "key-1" (request 2 2) db1 = (Ok rc, db1) ∧
    receive 9 "t1" "tr1" "u1" "key-1" (request 1 1) db1 = (Err different_request, db1).
Proof.
  assert (C : match receive 5 "t1" "tr1" "u1" "key-1" (request 2 2) shipped with
              | (Ok rc, _) => negb (bool_decide
                  (request_hash (lines_of (request 1 1)) None = tc_requestHash (fst rc)))
              | _ => false
              end = true) by (vm_compute; reflexivity).
  destruct (receive 5 "t1" "tr1" "u1" "key-1" (request 2 2) shipped)
    as [[rc|e] db1] eqn:E; [|discriminate C].
  apply negb_true_iff in C. apply bool_decide_eq_false_1 in C.
  assert (F : Forall (λ r, tj_receiptId r ≠ cuid (serial shipped))
                (rows shipped TTransferReceiptItem)) by (vm_compute; constructor).
  destruct (transfer_receive_idempotent 5 "t1" "tr1" "u1" "key-1" (request 2 2) shipped db1 rc
    F E) as [H1 H2].
  exists rc, db1. split; [reflexivity|]. split; [apply H1|].
  apply (H2 9 "u1" (request 1 1) (lines_of (request 1 1))); [vm_compute; reflexivity|exact C].
Defined.

Lemma transfer_found_store : transfer_found store "t1" "tr1" transfer.
Proof. split; reflexivity. Qed.

Lemma transfer_ship_witness :
  ∃ d db', ship 1 "t1" "tr1" "u1" store = (Ok d, db') ∧
    rows db' TStock = map (ship_stock 1 transfer (rows store TTransferItem)) (rows store TStock) ∧
    tr_status (dt_transfer d) = IN_TRANSIT.
Proof.
  assert (C : is_ok (fst (ship 1 "t1" "tr1" "u1" store)) = true) by (vm_compute; reflexivity).
  destruct (ship 1 "t1" "tr1" "u1" store) as [[d|e] db'] eqn:E; [|discriminate C].
  exists d, db'. split; [reflexivity|].
  assert (Hk : keyed TStock store) by (apply (bool_decide_unpack _); vm_compute; exact I).
  assert (Hp : NoDup (map stock_place (rows store TStock)))
    by (apply (bool_decide_unpack _); vm_compute; exact I).
  assert (Hi : NoDup (map ti_inventoryItemId (List.filter (items_of "tr1")
    (rows store TTransferItem)))) by (apply (bool_decide_unpack _); vm_compute; exact I).
  destruct (transfer_ship 1 "t1" "tr1" "u1" store db' transfer (Ok d) transfer_found_store eq_refl
    Hk Hp Hi E) as (_ & Hr & _ & Hs & _).
  split; [exact Hr|exact Hs].
Defined.

(** Between the check for the key and the transaction, the same request commits. *)
Definition raced : Db :=
  on TTransfer (λ l, app l [{| tr_id := "tr2"; tr_tenantId := "t1"; tr_sourceWarehouseId := "w1";
     tr_destinationWarehouseId := "w2"; tr_createdById := "u1"; tr_shippedById := None;
     tr_idempotencyKey := "key-1"; tr_requestHash := create_hash (checked 3);
     tr_status := TransferPENDING; tr_note := None; tr_createdAt := 1; tr_shippedAt := None;
     tr_receivedAt := None |}]) store.

Lemma transfer_created_once_witness :
  ∃ d, create 2 (λ _, raced) id "t1" "u1" "key-1" (dto 3) store = (Ok d, raced) ∧
    tr_id (dt_transfer d) = "tr2" ∧ tr_requestHash (dt_transfer d) = create_hash (checked 3).
Proof.
  assert (C : match create 2 (λ _, raced) id "t1" "u1" "key-1" (dto 3) store with
              | (Ok d, _) => bool_decide (tr_id (dt_transfer d) = "tr2")
              | _ => false
              end = true) by (vm_compute; reflexivity).
  assert (Hdb : snd (create 2 (λ _, raced) id "t1" "u1" "key-1" (dto 3) store) = raced)
    by reflexivity.
  destruct (create 2 (λ _, raced) id "t1" "u1" "key-1" (dto 3) store)
    as [[d|e] db'] eqn:E; [|discriminate C].
  simpl in Hdb. subst db'. exists d. split; [reflexivity|].
  apply bool_decide_eq_true_1 in C. split; [exact C|].
  assert (Hreq : check_create "key-1" (dto 3) = Ok (checked 3)) by (vm_compute; reflexivity).
  destruct (transfer_created_once 2 (λ _, raced) id "t1" "u1" "key-1" (dto 3) (checked 3) store
    raced (Ok d) Hreq) as (_ & _ & Hh & _).
  - intros d' _. vm_compute. lia.
  - intros d' Hd. exact Hd.
  - vm_compute. lia.
  - exact E.
  - exact Hh.
Defined.

End TransferExamples.
