(* ===== verification/Reservations.v ===== *)
(** The stock reservations of sales orders
    (modules/inventory/inventory-reservation.service.ts): an order's requirements
    are taken out of stock when it is placed, and the reservation is then either
    committed, which issues its cost, or released, which puts the stock back. *)

From stdpp Require Import base list strings option.
From Stdlib Require Import ZArith.
From S2P Require Import Prelude JsNumber JsString DomainEvents CoreDomain MasterData Lifecycles.
From S2P Require Import PurchaseOrderAggregate Decimal Database Costing Receipts.

Module Reservations.

Local Open Scope string_scope.

Definition ACTIVE_RESERVATION_REF : string := "ORDER_RESERVATION".
Definition COMMITTED_RESERVATION_REF : string := "ORDER_RESERVATION_COMMITTED".
Definition RELEASED_RESERVATION_REF : string := "ORDER_RESERVATION_RELEASED".
Definition RELEASE_MOVEMENT_REF : string := "ORDER_RESERVATION_RELEASE".

(** ** Requirements

    The [Map] from inventory items to quantities, in insertion order. *)

Definition StockRequirement : Type := string * number.

Fixpoint add_to (itemId : string) (quantity : number) (reqs : list StockRequirement)
  : list StockRequirement :=
  match reqs with
  | [] => [(itemId, add (of_Z 0) quantity)]
  | (i, q) :: reqs =>
      if bool_decide (i = itemId) then (i, add q quantity) :: reqs
      else (i, q) :: add_to itemId quantity reqs
  end.
Definition addRequirement (reqs : list StockRequirement) (r : option string * number)
  : list StockRequirement :=
  let (itemId, quantity) := r in
  if negb (truthy itemId) || leb quantity (of_Z 0) then reqs
  else add_to (default "" itemId) quantity reqs.

(** The calls of [addRequirement], in order. *)
Definition line_requirements (businessType : BusinessType) (l : OrderLine)
  : list (option string * number) :=
  match businessType with
  | RETAIL => [(match line_inventoryItem l with
                | Some i => Some i
                | None => line_inventoryItemId l
                end, line_quantity l)]
  | CAFE => match line_recipe l with
            | Some items => map (λ i, (Some (rl_itemId i), mul (rl_quantity i) (line_quantity l))) items
            | None => []
            end
  | _ => []
  end.
Definition buildRequirements (businessType : BusinessType) (lines : list OrderLine)
  : list StockRequirement :=
  fold_left addRequirement (concat (map (line_requirements businessType) lines)) [].

Definition getCommittedMovementType (b : BusinessType) : InventoryMovementType :=
  match b with CAFE => CONSUMPTION | RETAIL => SALE | _ => STOCK_OUT end.

Section service.
Local Open Scope nat_scope.
Context {dec : Decimal} {plat : Platform}.

Definition of_tenant (orderId tenantId : string) (o : SalesOrderRow) : bool :=
  bool_decide (so_id o = orderId) && bool_decide (so_tenantId o = tenantId).
Definition not_found : exn := BadRequestException "Order not found".
(** The order with its [Tenant], a required relation. *)
Definition load_order (orderId tenantId : string) : Tx Db (SalesOrderRow * TenantRow) :=
  o ← load_row TSalesOrder (of_tenant orderId tenantId) not_found;
  t ← find_id TTenant (so_tenantId o);
  match t with
  | Some t => mret (o, t)
  | None => tx_throw (JsError
      "Inconsistent query result: Field Tenant is required to return data, got `null` instead.")
  end.

Definition refers (tenantId orderId reference : string) (m : MovementRow) : bool :=
  bool_decide (mv_tenantId m = tenantId) && bool_decide (mv_referenceId m = Some orderId) &&
  bool_decide (mv_referenceType m = Some reference).
Definition has_reservation (tenantId orderId : string) (m : MovementRow) : bool :=
  refers tenantId orderId ACTIVE_RESERVATION_REF m ||
  refers tenantId orderId COMMITTED_RESERVATION_REF m.

(** [update({ quantity })] on a stock row, which leaves [updatedAt]. *)
Definition set_quantity (q : number) (s : StockRow) : StockRow :=
  set_stock_quantity q (st_updatedAt s) s.
Definition decrement (q : number) (s : StockRow) : StockRow :=
  set_quantity (sub (st_quantity s) q) s.
Definition increment (q : number) (s : StockRow) : StockRow :=
  set_quantity (add (st_quantity s) q) s.

(** ** Reserving *)

Definition item_of_tenant (tenantId itemId : string) (i : ItemRow) : bool :=
  bool_decide (it_id i = itemId) && bool_decide (it_tenantId i = tenantId).
(** The relation filter [InventoryItem: { tenantId }] of the stock queries holds for
    the stock of an item that was found in the tenant, so it is not repeated.
    [Warehouse: { tenantId, OR: [{ outletId }, { outletId: null }] }]. *)
Definition warehouse_serves (tenantId : string) (outletId : option string)
    (ws : list WarehouseRow) (warehouseId : option string) : bool :=
  existsb (λ w, bool_decide (Some (wh_id w) = warehouseId) &&
                bool_decide (wh_tenantId w = tenantId) &&
                (negb (truthy outletId) || bool_decide (wh_outletId w = outletId) ||
                 bool_decide (wh_outletId w = None))) ws.
Definition reservable (tenantId itemId : string) (outletId : option string)
    (ws : list WarehouseRow) (s : StockRow) : bool :=
  bool_decide (st_inventoryItemId s = itemId) && gtb (st_quantity s) (of_Z 0) &&
  warehouse_serves tenantId outletId ws (st_warehouseId s).
Definition oldest_first (a b : StockRow) : bool := (st_createdAt a <=? st_createdAt b)%Z.

Definition reserve_from (now : Date) (tenantId orderId itemId : string) (stock : StockRow)
    (quantityToReserve : number) : Tx Db unit :=
  ws ← select TWarehouse (λ _, true);
  n ← update_many TStock (λ s, bool_decide (st_id s = st_id stock) &&
          geb (st_quantity s) quantityToReserve &&
          warehouse_serves tenantId None ws (st_warehouseId s))
        (decrement quantityToReserve);
  _ ← tx_throw_if (negb (n =? 1))
        (BadRequestException "Stock changed while reserving inventory");
  _ ← create_movement now
    {| md_tenantId := tenantId; md_warehouseId := st_warehouseId stock;
       md_inventoryItemId := itemId; md_type := STOCK_OUT; md_quantity := quantityToReserve;
       md_before := Some (st_quantity stock);
       md_after := Some (sub (st_quantity stock) quantityToReserve);
       md_note := Some "Reserved stock for order"; md_createdById := None;
       md_referenceType := ACTIVE_RESERVATION_REF; md_referenceId := orderId |};
  mret tt.

(** The loop over the stocks; the result is what remains to be reserved. *)
Fixpoint reserve_stocks (now : Date) (tenantId orderId itemId : string) (remaining : number)
    (stocks : list StockRow) : Tx Db number :=
  match stocks with
  | [] => mret remaining
  | stock :: stocks =>
      if leb remaining (of_Z 0) then mret remaining else
      let quantityToReserve := min (st_quantity stock) remaining in
      _ ← reserve_from now tenantId orderId itemId stock quantityToReserve;
      reserve_stocks now tenantId orderId itemId (sub remaining quantityToReserve) stocks
  end.
Definition reserveRequirement (now : Date) (tenantId : string) (o : SalesOrderRow)
    (r : StockRequirement) : Tx Db unit :=
  n ← count TItem (item_of_tenant tenantId (fst r));
  _ ← tx_throw_if (n =? 0) (BadRequestException "Inventory item not found");
  ws ← select TWarehouse (λ _, true);
  found ← select TStock (reservable tenantId (fst r) (so_outletId o) ws);
  remaining ← reserve_stocks now tenantId (so_id o) (fst r) (snd r) (sort_by oldest_first found);
  tx_throw_if (gtb remaining (of_Z 0))
    (BadRequestException "Insufficient stock for order reservation").

Definition reserve_tx (now : Date) (orderId tenantId : string) : Tx Db bool :=
  n ← count TSalesOrder (of_tenant orderId tenantId);
  _ ← tx_throw_if (n =? 0) not_found;
  existing ← select_first TMovement (has_reservation tenantId orderId);
  match existing with
  | Some _ => mret true
  | None =>
      '(o, t) ← load_order orderId tenantId;
      _ ← tx_for_each (reserveRequirement now tenantId o)
            (buildRequirements (tn_businessType t) (so_SalesOrderItem o));
      mret true
  end.
(** The result is the field [reserved]. *)
Definition reserveStock (now : Date) (orderId tenantId : string) (db : Db) : result bool * Db :=
  transaction (reserve_tx now orderId tenantId) db.

(** ** Settling *)

(** [updateMany] of the reservations that were read, and its check; [None] when
    there is nothing to settle. *)
Definition claim (tenantId orderId : string) (f : MovementRow → MovementRow)
  : Tx Db (option (list MovementRow)) :=
  reservations ← select TMovement (refers tenantId orderId ACTIVE_RESERVATION_REF);
  if (length reservations =? 0)%nat then mret None else
  n ← update_many TMovement (λ m, bool_decide (mv_id m ∈ map mv_id reservations) &&
        bool_decide (mv_tenantId m = tenantId) &&
        bool_decide (mv_referenceType m = Some ACTIVE_RESERVATION_REF)) f;
  if (n =? 0)%nat then mret None else
  _ ← tx_throw_if (negb (n =? length reservations))
        (BadRequestException "Reservation already processed");
  mret (Some reservations).

Definition set_reference (type : string) (m : MovementRow) : MovementRow :=
  {| mv_id := mv_id m; mv_tenantId := mv_tenantId m; mv_type := mv_type m;
     mv_quantity := mv_quantity m; mv_note := mv_note m; mv_createdAt := mv_createdAt m;
     mv_beforeQuantity := mv_beforeQuantity m; mv_afterQuantity := mv_afterQuantity m;
     mv_createdById := mv_createdById m; mv_inventoryItemId := mv_inventoryItemId m;
     mv_referenceId := mv_referenceId m; mv_referenceType := Some type;
     mv_warehouseId := mv_warehouseId m; mv_unitCost := mv_unitCost m;
     mv_totalCost := mv_totalCost m |}.
Definition commit_movement (type : InventoryMovementType) (m : MovementRow) : MovementRow :=
  {| mv_id := mv_id m; mv_tenantId := mv_tenantId m; mv_type := type;
     mv_quantity := mv_quantity m; mv_note := Some "Committed order stock reservation";
     mv_createdAt := mv_createdAt m; mv_beforeQuantity := mv_beforeQuantity m;
     mv_afterQuantity := mv_afterQuantity m; mv_createdById := mv_createdById m;
     mv_inventoryItemId := mv_inventoryItemId m; mv_referenceId := mv_referenceId m;
     mv_referenceType := Some COMMITTED_RESERVATION_REF; mv_warehouseId := mv_warehouseId m;
     mv_unitCost := mv_unitCost m; mv_totalCost := mv_totalCost m |}.

Definition allocation_count (movementId : string) : Tx Db nat :=
  count TAllocation (λ a, bool_decide (al_movementId a = movementId)).

(** The body of the loop over the released reservations. *)
Definition release_movement (now : Date) (orderId tenantId : string) (m : MovementRow)
  : Tx Db unit :=
  let warehouseId := default "" (mv_warehouseId m) in
  _ ← tx_throw_if (is_empty warehouseId) (BadRequestException "Reservation has no warehouse");
  costAllocationCount ← allocation_count (mv_id m);
  let costed := negb (costAllocationCount =? 0)%nat in
  _ ← tx_when costed
        (_ ← Costing.lockItem tenantId (mv_inventoryItemId m); mret tt);
  stock ← select_first TStock (stock_key warehouseId (mv_inventoryItemId m));
  let beforeQuantity := match stock with Some s => st_quantity s | None => of_Z 0 end in
  _ ← match stock with
      | Some s => update_id TStock (st_id s) (increment (mv_quantity m))
      | None => _ ← insert TStock (λ i, {| st_id := i; st_warehouseId := Some warehouseId;
                      st_inventoryItemId := mv_inventoryItemId m;
                      st_quantity := mv_quantity m; st_averageUnitCost := None;
                      st_createdAt := now; st_updatedAt := now |});
                mret tt
      end;
  reversal ← create_movement now
    {| md_tenantId := tenantId; md_warehouseId := Some warehouseId;
       md_inventoryItemId := mv_inventoryItemId m; md_type := RETURN;
       md_quantity := mv_quantity m; md_before := Some beforeQuantity;
       md_after := Some (add beforeQuantity (mv_quantity m));
       md_note := Some "Released order stock reservation"; md_createdById := None;
       md_referenceType := RELEASE_MOVEMENT_REF; md_referenceId := orderId |};
  tx_when costed
    (Costing.restore
       {| Costing.rs_tenantId := tenantId; Costing.rs_inventoryItemId := mv_inventoryItemId m;
          Costing.rs_warehouseId := Some warehouseId; Costing.rs_quantity := mv_quantity m;
          Costing.rs_sourceMovementId := mv_id m;
          Costing.rs_reversalMovementId := mv_id reversal |}).

Definition releaseReservationInTransaction (now : Date) (orderId tenantId : string)
  : Tx Db bool :=
  claimed ← claim tenantId orderId (set_reference RELEASED_RESERVATION_REF);
  match claimed with
  | None => mret false
  | Some reservations =>
      _ ← tx_for_each (release_movement now orderId tenantId) reservations; mret true
  end.
(** The result is the field [released]. *)
Definition releaseReservation (now : Date) (orderId tenantId : string) (db : Db)
  : result bool * Db :=
  transaction (releaseReservationInTransaction now orderId tenantId) db.

(** The body of the loop over the committed reservations. *)
Definition commit_cost (now : Date) (tenantId : string) (m : MovementRow) : Tx Db unit :=
  costAllocationCount ← allocation_count (mv_id m);
  tx_when (costAllocationCount =? 0)%nat
    (_ ← Costing.issue now
       {| Costing.is_tenantId := tenantId;
          Costing.is_inventoryItemId := mv_inventoryItemId m;
          Costing.is_warehouseId := mv_warehouseId m; Costing.is_quantity := mv_quantity m;
          Costing.is_movementId := mv_id m |};
     mret tt).
Definition commit_tx (now : Date) (orderId tenantId : string) : Tx Db bool :=
  '(_, t) ← load_order orderId tenantId;
  claimed ← claim tenantId orderId
              (commit_movement (getCommittedMovementType (tn_businessType t)));
  match claimed with
  | None => mret false
  | Some reservations => _ ← tx_for_each (commit_cost now tenantId) reservations; mret true
  end.
(** The result is the field [committed]. *)
Definition commitReservation (now : Date) (orderId tenantId : string) (db : Db)
  : result bool * Db :=
  transaction (commit_tx now orderId tenantId) db.

End service.
End Reservations.
