(* ===== verification/ReservationFacts.v ===== *)
(** What the reservation service guarantees: a reservation takes exactly what the
    order requires, out of stock that has it; releasing it puts every row back; and
    it is settled once. *)

From stdpp Require Import base list strings option sets.
From Stdlib Require Import ZArith Lia.
From S2P Require Import Prelude JsNumber JsString DomainEvents CoreDomain MasterData Lifecycles.
From S2P Require Import PurchaseOrderAggregate Decimal Database Costing Receipts Reservations.

(** * What a reservation takes *)

Section takes.
Import Reservations.
Context {dec : Decimal} {plat : Platform}.

(** A stock row and how much is taken from it. *)
Definition Take : Type := StockRow * Z.
Definition take_id (t : Take) : string := st_id (fst t).
Definition take_item (t : Take) : string := st_inventoryItemId (fst t).
Definition total (ts : list Take) : Z := foldr (λ t n, (snd t + n)%Z) 0%Z ts.

(** A stock row after the takes were made ([decrement]) or put back ([increment]). *)
Definition adjust (f : number → StockRow → StockRow) (ts : list Take) (r : StockRow) : StockRow :=
  match List.find (λ t, bool_decide (take_id t = st_id r)) ts with
  | Some t => f (of_Z (snd t)) r
  | None => r
  end.
(** The row has the quantity, and it is taken from what the row has. *)
Definition covered_take (rows : list StockRow) (t : Take) : Prop :=
  fst t ∈ rows ∧ is_Some (st_warehouseId (fst t)) ∧
  ∃ z, st_quantity (fst t) = of_Z z ∧ (0 < snd t <= z)%Z ∧ (z <= max_exact)%Z.
(** The movement that records a take. *)
Definition take_movement (tenantId orderId : string) (t : Take) (m : MovementRow) : Prop :=
  refers tenantId orderId ACTIVE_RESERVATION_REF m = true ∧
  mv_inventoryItemId m = take_item t ∧ mv_warehouseId m = st_warehouseId (fst t) ∧
  mv_quantity m = of_Z (snd t).

Lemma take_absent ts r :
  st_id r ∉ map take_id ts → List.find (λ t, bool_decide (take_id t = st_id r)) ts = None.
Proof.
  intros Hn. destruct (List.find _ ts) as [t|] eqn:E; [|done].
  apply find_some_in in E as [Hin Hb]. bool_hyps. exfalso. apply Hn. rewrite <- Hb.
  by apply list_elem_of_fmap_2.
Qed.
Lemma adjust_absent f ts r : st_id r ∉ map take_id ts → adjust f ts r = r.
Proof. unfold adjust. intros. by rewrite take_absent. Qed.

Section adjusting.
Context (f : number → StockRow → StockRow) (f_id : ∀ q r, st_id (f q r) = st_id r).
Context (f_place : ∀ q r, st_warehouseId (f q r) = st_warehouseId r ∧
                          st_inventoryItemId (f q r) = st_inventoryItemId r).

Lemma adjust_id ts r : st_id (adjust f ts r) = st_id r.
Proof. unfold adjust. by case_match. Qed.
Lemma adjust_place ts r :
  st_warehouseId (adjust f ts r) = st_warehouseId r ∧
  st_inventoryItemId (adjust f ts r) = st_inventoryItemId r.
Proof. unfold adjust. case_match; [apply f_place|done]. Qed.

(** One more take. *)
Lemma adjust_snoc ts t rows :
  take_id t ∉ map take_id ts →
  map_where (λ s, bool_decide (st_id s = take_id t)) (f (of_Z (snd t))) (map (adjust f ts) rows) =
    map (adjust f (ts ++ [t])) rows.
Proof.
  intros Hn. unfold map_where. rewrite map_map. apply map_ext. intros r.
  rewrite adjust_id. unfold adjust at 3. rewrite find_app. simpl.
  case_bool_decide as E.
  - rewrite adjust_absent by congruence. rewrite take_absent by congruence.
    by rewrite bool_decide_true.
  - rewrite (bool_decide_false (take_id t = st_id r)) by congruence. unfold adjust.
    by destruct (List.find _ ts).
Qed.
End adjusting.

Lemma decrement_id q r : st_id (decrement q r) = st_id r.
Proof. done. Qed.

(** Taking and putting back. *)
Lemma increment_decrement t :
  covered_take [fst t] t →
  increment (of_Z (snd t)) (decrement (of_Z (snd t)) (fst t)) = fst t.
Proof.
  intros (_ & _ & z & Hz & Hq & Hm). destruct t as [r q]. cbn [fst snd] in *.
  unfold increment, decrement, set_quantity, set_stock_quantity. destruct r. cbn in *.
  rewrite Hz, sub_of_Z, add_of_Z by (unfold max_exact in *; lia).
  by rewrite Z.sub_add.
Qed.

Lemma adjust_round ts rows :
  NoDup (map st_id rows) → Forall (covered_take rows) ts →
  map (adjust increment ts) (map (adjust decrement ts) rows) = rows.
Proof.
  intros Hk Hts. rewrite map_map. rewrite <- (map_id rows) at 2. apply map_ext_in.
  intros r Hr%list_elem_of_In. unfold adjust at 1. rewrite adjust_id by done.
  unfold adjust. destruct (List.find _ ts) as [t|] eqn:E; [|done].
  apply find_some_in in E as [Hin Hb]. bool_hyps. rewrite Forall_forall in Hts.
  destruct (Hts t Hin) as (Hm & Hw & z & Hz & Hq & Hmax).
  rewrite (same_key st_id rows r (fst t) Hk Hr Hm) by (symmetry; exact Hb).
  apply increment_decrement. split; [by left|]. split; [done|eauto].
Qed.

(** ** One row *)

(** The store after some takes were recorded. *)
Record reserved (tenantId orderId : string) (db db' : Db) (ts : list Take) : Prop := {
  rv_stock : rows db' TStock = map (adjust decrement ts) (rows db TStock);
  rv_moves : ∃ news, rows db' TMovement = rows db TMovement ++ news ∧
    Forall2 (take_movement tenantId orderId) ts news ∧
    map mv_id news = map cuid (seq (serial db) (length news));
  rv_serial : serial db' = serial db + length ts;
  rv_only : only [TStock; TMovement] db db';
}.

Lemma reserved_refl t o db : reserved t o db db [].
Proof.
  split.
  - rewrite <- (map_id (rows db TStock)) at 1. by apply map_ext.
  - exists []. rewrite app_nil_r. repeat constructor.
  - simpl. lia.
  - apply only_refl.
Qed.

Lemma reserve_from_ok now t o i stock q db u db' :
  reserve_from now t o i stock (of_Z q) db = Ok (u, db') →
  NoDup (map st_id (rows db TStock)) → st_inventoryItemId stock = i →
  rows db' TStock =
    map_where (λ s, bool_decide (st_id s = st_id stock)) (decrement (of_Z q)) (rows db TStock) ∧
  (∃ m, rows db' TMovement = rows db TMovement ++ [m] ∧ take_movement t o (stock, q) m ∧
     mv_id m = cuid (serial db)) ∧
  serial db' = S (serial db) ∧ only [TStock; TMovement] db db'.
Proof.
  intros H Hk Hi. unfold reserve_from in H. apply tx_bind_ok in H as (ws & d1 & [= <- <-] & H).
  apply tx_bind_ok in H as (n & d2 & [= <- <-] & H).
  set (p := λ s, _ && _ && _) in H.
  apply tx_bind_ok in H as ([] & d3 & E & H). unfold tx_throw_if, tx_lift, throw_if in E.
  destruct (_ =? 1) eqn:Hn in E; [|done]. injection E as <-. apply Nat.eqb_eq in Hn.
  apply tx_bind_ok in H as (m & d4 & E & H). injection H as _ <-.
  pose proof (insert_rows TMovement _ _ _ _ E) as [Hm R].
  pose proof (insert_serial TMovement _ _ _ _ E) as Hs.
  apply (writes_create_movement [TMovement]) in E; [|set_solver].
  assert (Hp : ∀ s, s ∈ rows db TStock → p s = bool_decide (st_id s = st_id stock)).
  { intros s Hs'. unfold p. case_bool_decide as Hid; [|done]. simpl.
    destruct (List.filter p (rows db TStock)) as [|x l] eqn:Ef; [done|].
    assert (Hx : In x (List.filter p (rows db TStock))) by (rewrite Ef; by left).
    apply filter_In in Hx as [Hx Hq]. apply list_elem_of_In in Hx. unfold p in Hq.
    apply andb_true_iff in Hq as [Hq1 Hq3]. apply andb_true_iff in Hq1 as [Hq1 Hq2]. bool_hyps.
    rewrite (same_key st_id _ s x Hk Hs' Hx) by congruence. by rewrite Hq2, Hq3. }
  split_and!.
  - rewrite E by set_solver. rewrite rows_on_same. unfold map_where. apply map_ext_in.
    intros s Hs'%list_elem_of_In. by rewrite Hp.
  - exists m. rewrite R, rows_on_other by done. split; [done|]. rewrite Hm.
    unfold take_movement, refers. cbn. by rewrite !bool_decide_true.
  - by rewrite Hs.
  - eapply only_trans; [apply (only_on TStock); set_solver|].
    eapply only_weaken; [|exact E]. set_solver.
Qed.

Lemma seq_cuid_snoc a n : map cuid (seq a n) ++ [cuid (a + n)] = map cuid (seq a (S n)).
Proof. by rewrite seq_S, map_app. Qed.

(** One more take after others. *)
Lemma reserved_snoc now t o i stock q ts db db1 u db2 :
  reserved t o db db1 ts → NoDup (map st_id (rows db TStock)) →
  st_id stock ∉ map take_id ts → st_inventoryItemId stock = i →
  reserve_from now t o i stock (of_Z q) db1 = Ok (u, db2) →
  reserved t o db db2 (ts ++ [(stock, q)]).
Proof.
  intros [Hs (news & Hm & Hf & Hids) Hser Ho] Hk Hn Hi H.
  apply reserve_from_ok in H as (Hs2 & (m & Hm2 & Ht & Hid) & Hser2 & Ho2); [|clear H|done].
  2: { rewrite Hs, map_map. erewrite map_ext; [exact Hk|]. intros r. by apply adjust_id. }
  assert (Hl : length news = length ts) by (symmetry; by eapply Forall2_length).
  split.
  - rewrite Hs2, Hs. by apply (adjust_snoc decrement decrement_id ts (stock, q)).
  - exists (news ++ [m]). rewrite Hm2, Hm, <- app_assoc. split_and!; [done| |].
    + apply Forall2_app; [done|]. by constructor.
    + cbn [row] in *. rewrite map_app, Hids, length_app. simpl. rewrite Hid, Hser, <- Hl, Nat.add_1_r.
      apply seq_cuid_snoc.
  - rewrite Hser2, Hser, length_app. simpl. lia.
  - by eapply only_trans.
Qed.

End takes.

(** * A whole order *)

Section requirements.
Import Reservations.

Lemma add_to_keys itemId q reqs :
  NoDup (map fst reqs) → NoDup (map fst (add_to itemId q reqs)) ∧
  ∀ i, i ∈ map fst (add_to itemId q reqs) → i = itemId ∨ i ∈ map fst reqs.
Proof.
  induction reqs as [|[i q'] reqs IH]; simpl; intros Hnd.
  { split; [repeat constructor; set_solver|]. intros i. set_solver. }
  apply NoDup_cons in Hnd as [Hn Hnd]. case_bool_decide as Hi; simpl.
  - split; [by constructor|auto].
  - destruct (IH Hnd) as [H1 H2]. split.
    + constructor; [|done]. intros [->|?]%H2; done.
    + intros j [->|Hj]%elem_of_cons; [right; by left|]. destruct (H2 j Hj); [by left|].
      right. by right.
Qed.
Lemma requirements_keys b lines : NoDup (map fst (buildRequirements b lines)).
Proof.
  unfold buildRequirements.
  assert (H : ∀ l acc, NoDup (map fst acc) → NoDup (map fst (fold_left addRequirement l acc))).
  { induction l as [|[i q] l IH]; simpl; intros acc Ha; [done|]. apply IH.
    destruct (_ || _); [done|]. by apply add_to_keys. }
  apply H. constructor.
Qed.

End requirements.

Section order.
Import Reservations.
Context {dec : Decimal} {plat : Platform}.
Context (tenantId : string) (db : Db).
Hypothesis stock_keyed : keyed TStock db.

(** A whole number that binary64 holds exactly, such as a count of units. *)
Definition whole (q : number) : Prop := ∃ z, q = of_Z z ∧ (0 <= z <= max_exact)%Z.
Hypothesis stock_whole : Forall (λ s, whole (st_quantity s)) (rows db TStock).

Definition of_item (i : string) : list Take → list Take :=
  List.filter (λ t, bool_decide (take_item t = i)).

(** The takes account for the requirements. *)
Record accounted (orderId : string) (reqs : list StockRequirement) (db' : Db) (ts : list Take)
  : Prop := {
  ac_reserved : reserved tenantId orderId db db' ts;
  ac_nodup : NoDup (map take_id ts);
  ac_ok : Forall (covered_take (rows db TStock)) ts;
  ac_items : Forall (λ t, take_item t ∈ map fst reqs) ts;
  ac_amounts : Forall (λ r, snd r = of_Z (total (of_item (fst r) ts))) reqs;
}.

Lemma take_fst ts r :
  Forall (covered_take (rows db TStock)) ts → r ∈ rows db TStock → st_id r ∈ map take_id ts →
  ∃ t, t ∈ ts ∧ fst t = r.
Proof.
  intros Hok Hr Hin. apply list_elem_of_fmap in Hin as (t & E & Ht).
  rewrite Forall_forall in Hok. destruct (Hok t Ht) as (Hm & _). exists t. split; [done|].
  by apply (same_key st_id (rows db TStock)).
Qed.

Lemma total_app ts ts' : total (ts ++ ts') = (total ts + total ts')%Z.
Proof. induction ts as [|t ts IH]; simpl; [done|]. rewrite IH. lia. Qed.

(** The loop over the stocks of an item. *)
Lemma reserve_stocks_ok now o i stocks :
  NoDup (map st_id stocks) →
  ∀ ts db1 r rest db2,
  Forall (λ s, s ∈ rows db TStock ∧ st_inventoryItemId s = i ∧ is_Some (st_warehouseId s) ∧ (st_id s ∉ map take_id ts) ∧
               (∃ z, st_quantity s = of_Z z ∧ (0 < z <= max_exact)%Z)) stocks →
  reserved tenantId o db db1 ts → (0 <= r <= max_exact)%Z →
  reserve_stocks now tenantId o i (of_Z r) stocks db1 = Ok (rest, db2) →
  ∃ more, reserved tenantId o db db2 (ts ++ more) ∧
    Forall (covered_take (rows db TStock)) more ∧ Forall (λ t, take_item t = i) more ∧
    (∃ k, map fst more = firstn k stocks) ∧
    rest = of_Z (r - total more) ∧ (0 <= total more <= r)%Z.
Proof.
  induction stocks as [|s stocks IH]; intros Hnd ts db1 r rest db2 Hst Hres Hr H; simpl in H.
  { injection H as <- <-. exists []. rewrite app_nil_r. cbn [total foldr]. rewrite Z.sub_0_r.
    split_and!; try done; try lia. by exists 0. }
  rewrite leb_of_Z in H by (unfold max_exact in *; lia).
  destruct (Z.leb_spec r 0) as [Hr0|Hr0].
  { injection H as <- <-. exists []. rewrite app_nil_r. cbn [total foldr]. rewrite Z.sub_0_r.
    split_and!; try done; try lia. by exists 0. }
  apply NoDup_cons in Hnd as [Hns Hnd].
  apply Forall_cons in Hst as [(Hin & Hi & Hwh & Hn & z & Hz & Hzb) Hst]. rewrite Hz in H.
  rewrite min_of_Z in H by lia. apply tx_bind_ok in H as ([] & d1 & E & H).
  pose proof (reserved_snoc _ _ _ _ _ _ _ _ _ _ _ Hres stock_keyed Hn Hi E) as Hres1.
  rewrite sub_of_Z in H by (unfold max_exact in *; lia).
  assert (Htail : Forall (λ s', s' ∈ rows db TStock ∧ st_inventoryItemId s' = i ∧
      is_Some (st_warehouseId s') ∧ (st_id s' ∉ map take_id (ts ++ [(s, Z.min z r)])) ∧
      (∃ z, st_quantity s' = of_Z z ∧ (0 < z <= max_exact)%Z)) stocks).
  { rewrite Forall_forall in *. intros s' Hs'. destruct (Hst s' Hs') as (? & ? & ? & Hn' & ?).
    split_and!; [done..| |done]. rewrite map_app, elem_of_app. intros [?|Hx]; [done|].
    apply list_elem_of_singleton in Hx. unfold take_id in Hx. simpl in Hx. apply Hns. rewrite <- Hx.
    by apply list_elem_of_fmap_2. }
  destruct (IH Hnd _ d1 (r - Z.min z r)%Z rest db2 Htail Hres1 ltac:(lia) H)
    as (more & H1 & H2 & H3 & (k & H4) & H5 & H6).
  exists ((s, Z.min z r) :: more). rewrite <- app_assoc in H1.
  assert (Htot : total ((s, Z.min z r) :: more) = (Z.min z r + total more)%Z) by done.
  rewrite Htot. split_and!; [done| |by constructor|exists (S k); simpl; by rewrite H4| |lia|lia].
  - constructor; [|done]. split; [done|]. split; [done|]. exists z. split; [done|]. simpl. lia.
  - rewrite H5. f_equal. lia.
Qed.

(** One requirement. *)
Lemma reserveRequirement_ok now ord reqs ts db1 i q u db2 :
  accounted (so_id ord) reqs db1 ts → i ∉ map fst reqs → whole q →
  reserveRequirement now tenantId ord (i, q) db1 = Ok (u, db2) →
  ∃ ts', accounted (so_id ord) (reqs ++ [(i, q)]) db2 ts'.
Proof.
  intros [Hres Hnd Hok Hitems Ham] Hi (z & -> & Hz) H. unfold reserveRequirement in H.
  apply tx_bind_ok in H as (n & d1 & [= _ <-] & H).
  apply tx_bind_ok in H as ([] & d2 & E & H). unfold tx_throw_if, tx_lift, throw_if in E.
  destruct (_ =? 0); [done|]. injection E as <-.
  apply tx_bind_ok in H as (ws & d1 & [= <- <-] & H).
  apply tx_bind_ok in H as (found & d1 & [= <- <-] & H). cbn [fst snd] in H.
  apply tx_bind_ok in H as (rest & d2 & E & H). unfold tx_throw_if, tx_lift, throw_if in H.
  destruct (gtb rest (of_Z 0)) eqn:Hg; [done|]. injection H as _ <-.
  set (stocks := sort_by oldest_first _) in E.
  assert (Hmem : ∀ s, s ∈ stocks → s ∈ rows db TStock ∧ st_inventoryItemId s = i ∧
     is_Some (st_warehouseId s) ∧ (st_id s ∉ map take_id ts) ∧
    (∃ z, st_quantity s = of_Z z ∧ (0 < z <= max_exact)%Z)).
  { intros s Hs. unfold stocks in Hs. rewrite sort_by_perm in Hs.
    apply list_elem_of_In, filter_In in Hs as [Hs Hr]. apply list_elem_of_In in Hs.
    rewrite (rv_stock _ _ _ _ _ Hres) in Hs. apply list_elem_of_fmap in Hs as (r & -> & Hs).
    unfold reservable in Hr. apply andb_true_iff in Hr as [Hr Hwh].
    apply existsb_exists in Hwh as (w & _ & Hwh). apply andb_true_iff in Hwh as [Hwh _].
    apply andb_true_iff in Hwh as [Hwh _]. apply bool_decide_eq_true_1 in Hwh.
    apply andb_true_iff in Hr as [Hr Hp]. bool_hyps.
    pose proof (proj2 (adjust_place decrement ltac:(done) ts r)) as Hpl. cbn [row] in *.
    assert (Habs : st_id r ∉ map take_id ts).
    { intros Hin. destruct (take_fst ts r Hok Hs Hin) as (t & Ht & Hft).
      rewrite Forall_forall in Hitems. apply Hi. rewrite <- Hr, Hpl, <- Hft. by apply Hitems. }
    rewrite adjust_absent in * by done. split_and!; [done|done|by eexists|done|].
    rewrite Forall_forall in stock_whole. destruct (stock_whole r Hs) as (y & Hy & Hyb).
    exists y. split; [done|]. rewrite Hy in Hp. unfold gtb in Hp.
    rewrite ltb_of_Z in Hp by (unfold max_exact in *; lia). apply Z.ltb_lt in Hp. lia. }
  assert (Hnds : NoDup (map st_id stocks)).
  { unfold stocks. rewrite sort_by_perm. apply filter_keys.
    rewrite (rv_stock _ _ _ _ _ Hres), map_map. erewrite map_ext; [exact stock_keyed|].
    intros r. by apply adjust_id. }
  apply (reserve_stocks_ok now (so_id ord) i stocks Hnds ts) in E
    as (more & H1 & H2 & H3 & (k & H4) & H5 & H6); [|by apply Forall_forall|done|done].
  assert (Htot : total more = z).
  { rewrite H5 in Hg. unfold gtb in Hg.
    rewrite ltb_of_Z in Hg by (unfold max_exact in *; lia). apply Z.ltb_ge in Hg. lia. }
  assert (Hids : map take_id more = firstn k (map st_id stocks)).
  { transitivity (map st_id (map fst more)); [by rewrite map_map|].
    by rewrite H4, firstn_map. }
  exists (ts ++ more). split; [done| | | |].
  - rewrite map_app, Hids. apply NoDup_app. split_and!; [done| |].
    + intros x Hx Hin%elem_of_take. destruct Hin as (j & Hj & _).
      apply list_elem_of_lookup_2, list_elem_of_fmap in Hj as (s & -> & Hs).
      by destruct (Hmem s Hs) as (_ & _ & _ & ? & _).
    + apply (sublist_NoDup _ (map st_id stocks)); [done|apply sublist_take].
  - by apply Forall_app.
  - apply Forall_app. split.
    + apply (Forall_impl _ _ _ Hitems). intros t Ht. rewrite map_app. apply elem_of_app. by left.
    + apply (Forall_impl _ _ _ H3). intros t ->. rewrite map_app. apply elem_of_app. right. by left.
  - apply Forall_app. split.
    + rewrite Forall_forall in H3. apply Forall_forall. intros r Hr.
      rewrite Forall_forall in Ham. rewrite (Ham r Hr). unfold of_item.
      rewrite List.filter_app, (filter_none _ more), app_nil_r; [done|].
      apply Forall_forall. intros t Ht. apply bool_decide_false. rewrite (H3 t Ht). intros ->.
      apply Hi. by apply list_elem_of_fmap_2.
    + constructor; [|done]. cbn [fst snd]. f_equal. unfold of_item.
      rewrite List.filter_app, (filter_none _ ts), (filter_every _ more); [done| |].
      * apply (Forall_impl _ _ _ H3). intros t. apply bool_decide_true.
      * apply (Forall_impl _ _ _ Hitems). intros t Ht. apply bool_decide_false. intros E.
        apply Hi. congruence.
Qed.

Lemma reserve_all_ok now ord reqs : ∀ before ts db1 u db2,
  accounted (so_id ord) before db1 ts → NoDup (map fst (before ++ reqs)) →
  Forall (λ r, whole (snd r)) reqs →
  tx_for_each (reserveRequirement now tenantId ord) reqs db1 = Ok (u, db2) →
  ∃ ts', accounted (so_id ord) (before ++ reqs) db2 ts'.
Proof.
  induction reqs as [|[i q] reqs IH]; intros before ts db1 u db2 Ha Hnd Hw H; simpl in H.
  { injection H as _ <-. rewrite app_nil_r. eauto. }
  apply tx_bind_ok in H as ([] & d1 & E & H). apply Forall_cons in Hw as [Hq Hw].
  assert (Hi : i ∉ map fst before).
  { rewrite map_app in Hnd. apply NoDup_app in Hnd as (_ & Hd & _). intros Hx.
    apply (Hd _ Hx). by left. }
  destruct (reserveRequirement_ok _ _ _ _ _ _ _ _ _ Ha Hi Hq E) as (ts' & Ha').
  rewrite cons_middle, app_assoc in Hnd |- *. exact (IH _ _ _ _ _ Ha' Hnd Hw H).
Qed.

End order.

(** * Settling *)

Section settling.
Import Reservations.
Context {dec : Decimal} {plat : Platform}.

Lemma claim_news t o f (old news : list MovementRow) db :
  rows db TMovement = old ++ news → List.filter (refers t o ACTIVE_RESERVATION_REF) old = [] →
  Forall (λ m, refers t o ACTIVE_RESERVATION_REF m = true) news →
  NoDup (map mv_id (old ++ news)) →
  ∃ db', claim t o f db = Ok (match news with [] => None | _ => Some news end, db') ∧
    only [TMovement] db db'.
Proof.
  intros Hr Hold Hnew Hnd. unfold claim, select. cbn [row] in *.
  assert (Hf : List.filter (refers t o ACTIVE_RESERVATION_REF) (rows db TMovement) = news).
  { rewrite Hr, List.filter_app, Hold. by apply filter_every. }
  rewrite (tx_bind_run _ _ _ news db); [|by rewrite <- Hf].
  destruct news as [|m0 news0]; [exists db; split; [done|apply only_refl]|].
  set (news := m0 :: news0) in *. change (length news =? 0) with false. cbv iota.
  set (p := λ m, _ && _ && _).
  assert (Hc : List.filter p (rows db TMovement) = news).
  { rewrite Hr, List.filter_app, filter_none, filter_every; [done| |].
    - apply Forall_forall. intros m Hm. rewrite Forall_forall in Hnew. unfold p.
      specialize (Hnew m Hm). unfold refers in Hnew. bool_hyps.
      rewrite !bool_decide_true; [done|..]; try done. by apply list_elem_of_fmap_2.
    - apply Forall_forall. intros m Hm. unfold p. rewrite bool_decide_false; [done|].
      rewrite map_app in Hnd. apply NoDup_app in Hnd as (_ & Hd & _).
      apply Hd. by apply list_elem_of_fmap_2. }
  exists (on TMovement (map_where p f) db). split; [|apply only_on; set_solver].
  rewrite (tx_bind_run _ _ _ (length news) (on TMovement (map_where p f) db)).
  2: { unfold update_many. cbn [row] in *. by rewrite Hc. }
  change (length news =? 0) with false. cbv iota. by rewrite Nat.eqb_refl.
Qed.

Lemma find_place rows s :
  NoDup (map stock_place rows) → s ∈ rows → ∀ w, st_warehouseId s = Some w →
  List.find (stock_key w (st_inventoryItemId s)) rows = Some s.
Proof.
  intros Hnd Hs w Hw. destruct (List.find _ rows) as [x|] eqn:E.
  - apply find_some_in in E as [Hx Hk]. unfold stock_key in Hk. bool_hyps. f_equal.
    apply (same_key stock_place rows); [done..|]. unfold stock_place. congruence.
  - exfalso. eapply find_none in E; [|by apply list_elem_of_In]. unfold stock_key in E.
    by rewrite !bool_decide_true in E.
Qed.

Lemma adjust_places f ts l :
  (∀ q r, st_warehouseId (f q r) = st_warehouseId r ∧
          st_inventoryItemId (f q r) = st_inventoryItemId r) →
  map stock_place (map (adjust f ts) l) = map stock_place l.
Proof.
  intros Hf. rewrite map_map. apply map_ext. intros r. unfold stock_place.
  by destruct (adjust_place f Hf ts r) as [-> ->].
Qed.

(** Putting one take back. *)
Lemma release_movement_run now o tenantId t m before l db :
  NoDup (map st_id l) → NoDup (map stock_place l) →
  rows db TStock = map (adjust increment before) l →
  (∃ r, r ∈ l ∧ stock_place r = stock_place (fst t) ∧ st_id r = take_id t) →
  take_id t ∉ map take_id before →
  (∃ w, st_warehouseId (fst t) = Some w ∧ is_empty w = false) →
  take_movement tenantId o t m →
  List.filter (λ a, bool_decide (al_movementId a = mv_id m)) (rows db TAllocation) = [] →
  ∃ db', release_movement now o tenantId m db = Ok (tt, db') ∧
    rows db' TStock = map (adjust increment (before ++ [t])) l ∧ only [TStock; TMovement] db db'.
Proof.
  intros Hid Hpl Hr (r & Hrl & Hpr & Hri) Hn (w & Hw & Hwe) (_ & Hi & Hmw & Hq) Hal.
  unfold release_movement. rewrite Hmw, Hw, Hi, Hq. change (default ""%string (Some w)) with w. rewrite Hwe.
  rewrite (tx_bind_run _ _ _ tt db eq_refl).
  rewrite (tx_bind_run _ _ _ 0 db); [|exact (f_equal (λ l, Ok (length l, db)) Hal)].
  cbn [Nat.eqb negb tx_when]. rewrite (tx_bind_run _ _ _ tt db eq_refl).
  assert (Hin : adjust increment before r ∈ rows db TStock).
  { rewrite Hr. by apply list_elem_of_fmap_2. }
  destruct (adjust_place increment ltac:(done) before r) as [Pw Pi].
  assert (Hfind : List.find (stock_key w (take_item t)) (rows db TStock) =
    Some (adjust increment before r)).
  { unfold stock_place in Hpr. injection Hpr as Hrw Hrt. unfold take_item.
    rewrite <- Hrt, <- Pi. apply find_place; [|done|congruence].
    rewrite Hr, adjust_places; done. }
  rewrite (tx_bind_run _ _ _ (Some (adjust increment before r)) db);
    [|exact (f_equal (λ x, Ok (x, db)) Hfind)].
  assert (Hex : existsb (has_id TStock (take_id t)) (rows db TStock) = true).
  { apply existsb_exists. exists (adjust increment before r).
    split; [by apply list_elem_of_In|]. apply bool_decide_true. cbn [row_id].
    rewrite adjust_id by done. exact Hri. }
  rewrite (tx_bind_run _ _ _ tt (on TStock (map_where (has_id TStock (take_id t))
    (increment (of_Z (snd t)))) db)).
  2: { rewrite adjust_id, Hri by done. by apply update_id_ok. }
  eexists. split.
  { etrans; [exact (tx_bind_run _ _ _ _ _ (insert_run TMovement _ _))|reflexivity]. }
  split.
  - cbn [rows]. rewrite rows_on_other, rows_on_same, Hr by done.
    by apply (adjust_snoc increment).
  - intros x Hx. cbn [rows]. rewrite !rows_on_other by set_solver. done.
Qed.

Lemma release_all_run now o tenantId l ts news :
  NoDup (map st_id l) → NoDup (map stock_place l) →
  Forall2 (take_movement tenantId o) ts news →
  ∀ before db, NoDup (map take_id (before ++ ts)) →
  rows db TStock = map (adjust increment before) l →
  Forall (λ t, (∃ r, r ∈ l ∧ stock_place r = stock_place (fst t) ∧ st_id r = take_id t) ∧
               (∃ w, st_warehouseId (fst t) = Some w ∧ is_empty w = false)) ts →
  Forall (λ m, List.filter (λ a, bool_decide (al_movementId a = mv_id m)) (rows db TAllocation) = [])
    news →
  ∃ db', tx_for_each (release_movement now o tenantId) news db = Ok (tt, db') ∧
    rows db' TStock = map (adjust increment (before ++ ts)) l.
Proof.
  intros Hid Hpl. induction 1 as [|t m ts news Ht _ IH]; intros before db Hnd Hr Hts Hal.
  { exists db. by rewrite app_nil_r. }
  apply Forall_cons in Hts as [(Hrow & Hw) Hts]. apply Forall_cons in Hal as [Hm Hal].
  assert (Hn : take_id t ∉ map take_id before).
  { rewrite map_app in Hnd. apply NoDup_app in Hnd as (_ & Hd & _). intros Hx.
    apply (Hd _ Hx). by left. }
  destruct (release_movement_run now o tenantId t m before l db Hid Hpl Hr Hrow Hn Hw Ht Hm)
    as (db1 & E & Hr1 & Ho). simpl. rewrite (tx_bind_run _ _ _ _ _ E).
  rewrite cons_middle, app_assoc in Hnd |- *. apply IH; [done..|].
  by rewrite Ho by set_solver.
Qed.

(** ** References *)

(** How a movement refers to an order. *)
Definition reference (m : MovementRow) : string * option string * option string :=
  (mv_tenantId m, mv_referenceId m, mv_referenceType m).
(** The movements keep their references; those added are not active reservations. *)
Definition no_new_reservations (db db' : Db) : Prop :=
  ∃ more, map reference (rows db' TMovement) = map reference (rows db TMovement) ++ more ∧
    Forall (λ r, snd r ≠ Some ACTIVE_RESERVATION_REF) more.

#[export] Instance no_new_reservations_preorder : PreOrder no_new_reservations.
Proof.
  split.
  - intros db. exists []. by rewrite app_nil_r.
  - intros a b c (m1 & H1 & F1) (m2 & H2 & F2). exists (m1 ++ m2).
    rewrite H2, H1, <- app_assoc. split; [done|]. by apply Forall_app.
Qed.

Lemma keeps_references {A} ts (m : Tx Db A) :
  writes ts m → TMovement ∉ ts → respects no_new_reservations m.
Proof.
  intros Hm Hn. apply (respects_writes _ ts); [done|]. intros db db' Ho. exists [].
  rewrite app_nil_r. by rewrite Ho.
Qed.
Lemma keeps_write_cost i u v : respects no_new_reservations (Costing.write_cost i u v).
Proof.
  unfold Costing.write_cost. apply respects_bind; [exact _|eapply (keeps_references []); [solve_writes|set_solver]|intros].
  apply respects_bind; [exact _|eapply (keeps_references []); [solve_writes|set_solver]|intros].
  intros db x db' H. apply update_id_inv in H as [_ ->]. exists []. rewrite app_nil_r.
  rewrite rows_on_same. split; [|done]. unfold map_where. rewrite map_map. apply map_ext.
  intros r. by destruct (has_id TMovement i r).
Qed.
Lemma keeps_create_movement now d :
  md_referenceType d ≠ ACTIVE_RESERVATION_REF →
  respects no_new_reservations (create_movement now d).
Proof.
  intros Hd db r db' E. apply (insert_rows TMovement) in E as [-> R]. eexists.
  cbn [row] in *. rewrite R, map_app. split; [reflexivity|]. constructor; [|done].
  cbn. congruence.
Qed.

Lemma keeps_issue now input : respects no_new_reservations (Costing.issue now input).
Proof.
  unfold Costing.issue. apply respects_bind; [exact _|eapply (keeps_references []); [solve_writes|set_solver]|intros item].
  cbv zeta. apply respects_bind; [exact _| |intros als].
  { eapply (keeps_references [TLayer]); [|set_solver].
    unfold Costing.consumeFifoLayers, Costing.averageCost. pose proof @writes_consume. solve_writes. }
  apply respects_bind; [exact _|apply keeps_write_cost|intros _].
  eapply (keeps_references [TAllocation; TItem]); [|set_solver].
  unfold Costing.write_allocations, Costing.lock_valuation. solve_writes.
Qed.
Lemma keeps_restore input : respects no_new_reservations (Costing.restore input).
Proof.
  unfold Costing.restore. apply respects_bind; [exact _|eapply (keeps_references []); [solve_writes|set_solver]|intros item].
  apply respects_bind; [exact _|eapply (keeps_references []); [solve_writes|set_solver]|intros found].
  cbv zeta. apply respects_bind; [exact _|eapply (keeps_references []); [solve_writes|set_solver]|intros _].
  apply respects_bind; [exact _| |intros _].
  { eapply (keeps_references [TLayer; TItem; TStock]); [|set_solver].
    unfold Costing.restore_layer, Costing.change_layer, Costing.restoreMovingAverage.
    solve_writes. }
  apply respects_bind; [exact _| |intros _; apply keeps_write_cost].
  eapply (keeps_references [TAllocation]); [|set_solver].
  unfold Costing.write_allocations. solve_writes.
Qed.
Lemma keeps_commit_cost now t m : respects no_new_reservations (commit_cost now t m).
Proof.
  unfold commit_cost, allocation_count.
  apply respects_bind; [exact _|eapply (keeps_references []); [solve_writes|set_solver]|intros n].
  apply respects_when; [exact _|]. apply respects_bind; [exact _|apply keeps_issue|intros c].
  eapply (keeps_references []); [solve_writes|set_solver].
Qed.
Lemma keeps_release_movement now o t m : respects no_new_reservations (release_movement now o t m).
Proof.
  unfold release_movement, allocation_count. cbv zeta.
  do 4 (apply respects_bind;
    [exact _|eapply (keeps_references []); [solve_writes|set_solver]|intros ?]).
  apply respects_bind; [exact _| |intros _].
  { eapply (keeps_references [TStock]); [solve_writes|set_solver]. }
  apply respects_bind; [exact _|by apply keeps_create_movement|intros r].
  apply respects_when; [exact _|]. apply keeps_restore.
Qed.

(** No reservation of the order is active. *)
Definition settled (t o : string) (db : Db) : Prop :=
  List.filter (refers t o ACTIVE_RESERVATION_REF) (rows db TMovement) = [].

Lemma filter_nil_iff {A} (p : A → bool) l : List.filter p l = [] ↔ Forall (λ x, p x = false) l.
Proof.
  split; [|apply filter_none]. induction l as [|x l IH]; simpl; intros H; [constructor|].
  destruct (p x) eqn:E; [done|]. constructor; auto.
Qed.

Lemma settled_later t o db db' : no_new_reservations db db' → settled t o db → settled t o db'.
Proof.
  intros (more & Hm & Hf) Hs. unfold settled in *. apply filter_nil_iff in Hs.
  apply filter_nil_iff.
  set (q := λ r : string * option string * option string,
    bool_decide (fst (fst r) = t) && bool_decide (snd (fst r) = Some o) &&
    bool_decide (snd r = Some ACTIVE_RESERVATION_REF)).
  assert (H : ∀ l, Forall (λ m, refers t o ACTIVE_RESERVATION_REF m = false) l ↔
                   Forall (λ r, q r = false) (map reference l)).
  { intros l. by rewrite Forall_map. }
  apply H. apply H in Hs. cbn [row] in *. rewrite Hm. apply Forall_app. split; [done|].
  apply (Forall_impl _ _ _ Hf). intros r Hr. unfold q.
  rewrite (bool_decide_false (snd r = _)) by done. apply andb_false_r.
Qed.

Lemma claim_clears t o f db r db' :
  (∀ m, mv_referenceType (f m) ≠ Some ACTIVE_RESERVATION_REF) →
  claim t o f db = Ok (r, db') →
  settled t o db' ∧ only [TMovement] db db' ∧ (r = None → db' = db).
Proof.
  intros Hf H. unfold claim in H. apply tx_bind_ok in H as (rs & d1 & [= <- <-] & H).
  set (rs := List.filter (refers t o ACTIVE_RESERVATION_REF) (rows db TMovement)) in *.
  destruct (length rs =? 0) eqn:Hl.
  { injection H as <- <-. split_and!; [|apply only_refl|done].
    by apply Nat.eqb_eq, nil_length_inv in Hl. }
  apply tx_bind_ok in H as (n & d1 & [= <- <-] & H). cbn [row] in H.
  set (p := λ m, bool_decide _ && _ && _) in H.
  assert (Hp : ∀ m, m ∈ rs → p m = true).
  { intros m Hm. pose proof Hm as Hm'. apply list_elem_of_In, filter_In in Hm' as [_ Hr].
    unfold refers in Hr. unfold p. bool_hyps. rewrite !bool_decide_true; [done|..]; try done.
    by apply list_elem_of_fmap_2. }
  assert (Hn : (length (List.filter p (rows db TMovement)) =? 0) = false).
  { destruct rs as [|m rs'] eqn:Ers; [done|].
    assert (Hin : In m (List.filter p (rows db TMovement))).
    { apply filter_In. split; [|apply Hp; by left].
      assert (In m rs) as [? _]%filter_In by (rewrite Ers; by left). done. }
    by destruct (List.filter p (rows db TMovement)). }
  rewrite Hn in H. apply tx_bind_ok in H as ([] & d2 & E & H). injection H as <- <-.
  unfold tx_throw_if, tx_lift, throw_if in E. destruct (negb _); [done|]. injection E as <-.
  split_and!; [|apply only_on; set_solver|done].
  unfold settled. rewrite rows_on_same. apply filter_nil_iff. unfold map_where.
  apply Forall_map, Forall_forall. intros m Hm. destruct (p m) eqn:Epm.
  - unfold refers. rewrite (bool_decide_false (mv_referenceType _ = _)) by apply Hf.
    apply andb_false_r.
  - destruct (refers t o ACTIVE_RESERVATION_REF m) eqn:Er; [|done].
    rewrite Hp in Epm; [done|]. apply list_elem_of_In, filter_In. by rewrite <- list_elem_of_In.
Qed.

Lemma claim_settled t o f db : settled t o db → claim t o f db = Ok (None, db).
Proof.
  intros Hs. unfold claim. etrans; [refine (tx_bind_run _ _ _ [] db _)|reflexivity].
  exact (f_equal (λ l, Ok (l, db)) Hs).
Qed.

End settling.

(** * Properties *)

Section properties.
Import Reservations.
Context {dec : Decimal} {plat : Platform}.

(** The requirements of every order are whole quantities. *)
Definition whole_requirements (db : Db) : Prop :=
  ∀ o b, o ∈ rows db TSalesOrder →
    Forall (λ r, whole (snd r)) (buildRequirements b (so_SalesOrderItem o)).

Lemma load_order_ok orderId tenantId db o t db' :
  load_order orderId tenantId db = Ok (o, t, db') →
  db' = db ∧ List.find (of_tenant orderId tenantId) (rows db TSalesOrder) = Some o ∧
  List.find (has_id TTenant (so_tenantId o)) (rows db TTenant) = Some t.
Proof.
  unfold load_order, load_row. intros E. apply tx_bind_ok in E as (o' & d1 & E1 & E).
  apply tx_bind_ok in E1 as (fo & d2 & [= <- <-] & E1). cbn [row] in *.
  destruct (List.find (of_tenant orderId tenantId) (rows db TSalesOrder)) as [o2|]; [|done].
  injection E1 as -> <-. apply tx_bind_ok in E as (ft & d2 & [= <- <-] & E).
  match type of E with context [match ?x with _ => _ end] => destruct x as [t2|] eqn:Ht end; [|done].
  injection E as -> -> <-. split; [done|]. split; [done|exact Ht].
Qed.

Lemma reserve_tx_ok now orderId tenantId db db1 :
  keyed TStock db → Forall (λ s, whole (st_quantity s)) (rows db TStock) →
  whole_requirements db →
  List.find (has_reservation tenantId orderId) (rows db TMovement) = None →
  reserve_tx now orderId tenantId db = Ok (true, db1) →
  ∃ o t ts, List.find (of_tenant orderId tenantId) (rows db TSalesOrder) = Some o ∧
    List.find (has_id TTenant (so_tenantId o)) (rows db TTenant) = Some t ∧
    accounted tenantId db orderId
      (buildRequirements (tn_businessType t) (so_SalesOrderItem o)) db1 ts.
Proof.
  intros Hk Hw Hreq Hnone H. unfold reserve_tx in H.
  apply tx_bind_ok in H as (n & d1 & [= _ <-] & H).
  apply tx_bind_ok in H as ([] & d1 & E & H). apply (writes_throw_if []) in E as O1.
  unfold tx_throw_if, tx_lift, throw_if in E. destruct (_ =? 0); [done|]. injection E as <-.
  apply tx_bind_ok in H as (ex & d1 & [= <- <-] & H). cbn [row] in H. rewrite Hnone in H.
  apply tx_bind_ok in H as ([o t] & d1 & E & H). apply load_order_ok in E as (-> & Ho & Ht).
  apply tx_bind_ok in H as ([] & d2 & E & H). injection H as <-.
  pose proof Ho as Ho'. apply find_some_in in Ho' as [Hin Hid]. unfold of_tenant in Hid.
  apply andb_true_iff in Hid as [Hid _]. apply bool_decide_eq_true_1 in Hid. subst orderId.
  exists o, t. assert (Hempty : accounted tenantId db (so_id o) [] db []).
  { split; [apply reserved_refl|constructor..]. }
  destruct (reserve_all_ok tenantId db Hk Hw now o _ [] [] db tt d2 Hempty
    (requirements_keys _ _) (Hreq o (tn_businessType t) Hin) E) as (ts & Hts). by exists ts.
Qed.



(** C17: releasing undoes a reservation: whatever the order took out of stock, in
    whatever pieces and warehouses, each stock row has the quantity it had before. *)
Theorem reserve_release (now now' : Date) (orderId tenantId : string) (db db1 : Db) :
  UniqueIds → keyed TStock db → NoDup (map stock_place (rows db TStock)) →
  Forall (λ s, whole (st_quantity s) ∧ st_warehouseId s ≠ Some ""%string) (rows db TStock) →
  whole_requirements db → keyed TMovement db → fresh TMovement db →
  Forall (λ a, ∀ n, serial db <= n → al_movementId a ≠ cuid n) (rows db TAllocation) →
  List.find (has_reservation tenantId orderId) (rows db TMovement) = None →
  reserveStock now orderId tenantId db = (Ok true, db1) →
  ∃ released db2, releaseReservation now' orderId tenantId db1 = (Ok released, db2) ∧
    rows db2 TStock = rows db TStock.
Proof.
  intros Huniq Hk Hpl Hst Hreq Hkm Hfresh Hal Hnone H. unfold reserveStock, transaction in H.
  destruct (reserve_tx now orderId tenantId db) as [[b d]|e] eqn:E; [|done].
  injection H as -> ->. apply reserve_tx_ok in E as (o & t & ts & _ & _ & Hacc); [|done| |done|done].
  2: { apply (Forall_impl _ _ _ Hst). tauto. }
  destruct Hacc as [[Hs (news & Hm & Hf & Hids) Hser Hon] Hnd Hok _ _].
  assert (Hnew : Forall (λ m, refers tenantId orderId ACTIVE_RESERVATION_REF m = true) news).
  { clear - Hf. induction Hf as [|t m ts news (Hr & _) _ IH]; by constructor. }
  assert (Hold : List.filter (refers tenantId orderId ACTIVE_RESERVATION_REF) (rows db TMovement) = []).
  { apply filter_none, Forall_forall. intros m Hin%list_elem_of_In.
    apply (find_none _ _ Hnone) in Hin. unfold has_reservation in Hin. by bool_hyps. }
  assert (Hnid : ∀ m, m ∈ news → ∃ n, serial db <= n ∧ mv_id m = cuid n).
  { intros m Hin. assert (Hx : mv_id m ∈ map cuid (seq (serial db) (length news))).
    { rewrite <- Hids. by apply list_elem_of_fmap_2. }
    apply list_elem_of_fmap in Hx as (n & Hn & Hx). exists n. split; [|done].
    apply elem_of_seq in Hx. lia. }
  destruct (claim_news tenantId orderId (set_reference RELEASED_RESERVATION_REF)
    (rows db TMovement) news db1 Hm Hold Hnew) as (db2 & Hclaim & Ho2).
  { rewrite map_app. apply NoDup_app. split_and!; [done| |].
    - intros x Hx Hin. apply list_elem_of_fmap in Hin as (m & -> & Hin).
      destruct (Hnid m Hin) as (n & Hn & E). rewrite E in Hx. by apply (Hfresh n Hn).
    - cbn [row] in *. rewrite Hids. apply (NoDup_fmap_2 cuid), NoDup_seq. }
  assert (Hs2 : rows db2 TStock = map (adjust increment []) (rows db1 TStock)).
  { rewrite Ho2 by set_solver. rewrite <- (map_id (rows db1 TStock)) at 1. by apply map_ext. }
  destruct (release_all_run now' orderId tenantId (rows db1 TStock) ts news) with
    (before := @nil Take) (db := db2) as (db3 & Hrun & Hs3).
  - rewrite Hs, map_map. erewrite map_ext; [exact Hk|]. intros r. by apply adjust_id.
  - rewrite Hs, adjust_places; done.
  - done.
  - done.
  - done.
  - apply (Forall_impl _ _ _ Hok). intros tk (Hin & (w & Hw) & _). split.
    + exists (adjust decrement ts (fst tk)). split; [|split].
      * rewrite Hs. by apply list_elem_of_fmap_2.
      * unfold stock_place. by destruct (adjust_place decrement ltac:(done) ts (fst tk)) as [-> ->].
      * by apply adjust_id.
    + exists w. split; [done|]. rewrite Forall_forall in Hst.
      destruct (Hst _ Hin) as [_ Hne]. destruct (is_empty w) eqn:Ew; [|done].
      apply is_empty_spec in Ew. congruence.
  - apply Forall_forall. intros m Hin. rewrite Ho2, Hon by set_solver. apply filter_none.
    apply (Forall_impl _ _ _ Hal). intros a Ha. apply bool_decide_false.
    destruct (Hnid m Hin) as (n & Hn & ->). by apply Ha.
  - assert (Hround : rows db3 TStock = rows db TStock).
    { rewrite Hs3. cbn [app]. rewrite Hs. by apply adjust_round. }
    unfold releaseReservation, transaction, releaseReservationInTransaction.
    rewrite (tx_bind_run _ _ _ _ _ Hclaim). destruct news as [|m news'] eqn:En.
    + exists false, db2. split; [done|]. simpl in Hrun. injection Hrun as <-. done.
    + rewrite (tx_bind_run _ _ _ _ _ Hrun). by exists true, db3.
Qed.

(** a reservation is settled once.  After a commit or a release, whatever it
    found, releasing does nothing, and committing does nothing and never reports a
    commit. *)
Theorem stock_settled_once (now : Date) (orderId tenantId : string) (db db1 : Db) (b : bool) :
  commitReservation now orderId tenantId db = (Ok b, db1) ∨
  releaseReservation now orderId tenantId db = (Ok b, db1) →
  ∀ now', releaseReservation now' orderId tenantId db1 = (Ok false, db1) ∧
    ∃ out, commitReservation now' orderId tenantId db1 = (out, db1) ∧ out ≠ Ok true.
Proof.
  intros H now'. assert (Hs : settled tenantId orderId db1).
  { destruct H as [H|H].
    - unfold commitReservation, transaction in H.
      destruct (commit_tx now orderId tenantId db) as [[b' d]|e] eqn:E; [|done].
      injection H as -> ->. unfold commit_tx in E.
      apply tx_bind_ok in E as ([o t] & d1 & _ & E). apply tx_bind_ok in E as (r & d2 & Ec & E).
      apply claim_clears in Ec as (Hs & _ & Hn); [|done].
      destruct r as [rs|]; [|by injection E as _ <-].
      apply tx_bind_ok in E as ([] & d3 & El & E). injection E as _ <-.
      eapply settled_later; [|exact Hs]. eapply respects_for_each; [exact _| |exact El].
      intros m. apply keeps_commit_cost.
    - unfold releaseReservation, transaction in H.
      destruct (releaseReservationInTransaction now orderId tenantId db) as [[b' d]|e] eqn:E; [|done].
      injection H as -> ->. unfold releaseReservationInTransaction in E.
      apply tx_bind_ok in E as (r & d2 & Ec & E).
      apply claim_clears in Ec as (Hs & _ & Hn); [|done].
      destruct r as [rs|]; [|by injection E as _ <-].
      apply tx_bind_ok in E as ([] & d3 & El & E). injection E as _ <-.
      eapply settled_later; [|exact Hs]. eapply respects_for_each; [exact _| |exact El].
      intros m. apply keeps_release_movement. }
  split.
  - unfold releaseReservation, transaction, releaseReservationInTransaction.
    by rewrite (tx_bind_run _ _ _ _ _ (claim_settled _ _ _ _ Hs)).
  - unfold commitReservation, transaction, commit_tx.
    destruct (load_order orderId tenantId db1) as [[[o t] d]|e] eqn:E.
    + pose proof (load_order_ok _ _ _ _ _ _ E) as (-> & _). rewrite (tx_bind_run _ _ _ _ _ E).
      rewrite (tx_bind_run _ _ _ _ _ (claim_settled _ _ _ _ Hs)). by exists (Ok false).
    + rewrite (tx_bind_err _ _ _ _ E). by exists (Err e).
Qed.

End properties.

(** * Examples

    A retail order of five flour, taken from two warehouses. *)
Module ReservationExamples.

Import Reservations FixedPoint SamplePlatform.
Local Open Scope Z_scope.
Local Open Scope string_scope.

Definition stock (i w : string) (q : Z) : StockRow :=
  {| st_id := i; st_warehouseId := Some w; st_inventoryItemId := "flour";
     st_quantity := of_Z q; st_averageUnitCost := None; st_createdAt := q; st_updatedAt := 0 |}.
Definition line (q : Z) : OrderLine :=
  {| line_productId := "p1"; line_quantity := of_Z q; line_price := of_Z 300;
     line_subtotal := of_Z (300 * q); line_productName := "bread"; line_inventoryItem := Some "flour";
     line_inventoryItemId := Some "flour"; line_recipe := None |}.
Definition store : Db :=
  on TItem (λ _, [{| it_id := "flour"; it_tenantId := "t1";
                     it_valuationMethod := Some STANDARD_COST; it_movingAverageScope := None;
                     it_standardCost := Some (200 * million * million : @D FixedPoint.decimal);
                     it_averageUnitCost := None; it_valuationLockedAt := None |}])
    (on TStock (λ _, [stock "s1" "w1" 4; stock "s2" "w2" 3])
      (on TWarehouse (λ _, [{| wh_id := "w1"; wh_tenantId := "t1"; wh_outletId := None;
                               wh_isActive := true |};
                            {| wh_id := "w2"; wh_tenantId := "t1"; wh_outletId := None;
                               wh_isActive := true |}])
        (on TTenant (λ _, [{| tn_id := "t1"; tn_name := "Acme"%string; tn_contactEmail := None;
                              tn_contactPhone := None; tn_address := None; tn_createdAt := 0%Z;
                              tn_status := TenantACTIVE; tn_currencyCode := Some "USD";
                              tn_businessType := RETAIL; tn_deletedAt := None;
                              tn_kitchenWaitThresholdMinutes := of_Z 15 |}])
          (on TSalesOrder (λ _, [{| so_id := "o1"; so_tenantId := "t1"; so_outletId := None;
             so_orderNumber := "ORD-1"; so_status := OrderPENDING; so_orderMode := REGULAR;
             so_paymentStatus := PaymentPending; so_paidAmount := of_Z 0;
             so_kitchenReleasedAt := None; so_kitchenPriority := of_Z 0;
             so_totalAmount := of_Z 1500; so_currencyCode := Some "USD"; so_createdAt := 1;
             so_SalesOrderItem := [line 2; line 3] |}]) emptyDb)))).

Lemma store_keyed : keyed TStock store.
Proof. apply (bool_decide_unpack _). vm_compute. exact I. Qed.
Lemma store_whole : Forall (λ s, whole (st_quantity s)) (rows store TStock).
Proof.
  repeat constructor; [exists 4|exists 3]; (split; [reflexivity|unfold max_exact; lia]).
Qed.
Lemma store_requirements : whole_requirements store.
Proof.
  intros o b Ho. apply list_elem_of_singleton in Ho as ->.
  assert (H : buildRequirements b [line 2; line 3] = [] ∨
              buildRequirements b [line 2; line 3] = [("flour", of_Z 5)]).
  { destruct b; vm_compute; auto. }
  cbn [so_SalesOrderItem]. destruct H as [->| ->]; repeat constructor.
  exists 5. split; [reflexivity|unfold max_exact; lia].
Qed.


Lemma reserve_release_witness :
  ∃ db1 released db2, reserveStock 7 "o1" "t1" store = (Ok true, db1) ∧
    releaseReservation 8 "o1" "t1" db1 = (Ok released, db2) ∧
    rows db2 TStock = [stock "s1" "w1" 4; stock "s2" "w2" 3].
Proof.
  assert (C : bool_decide (fst (reserveStock 7 "o1" "t1" store) = Ok true) = true)
    by (vm_compute; reflexivity).
  apply bool_decide_eq_true_1 in C.
  destruct (reserveStock 7 "o1" "t1" store) as [out db1] eqn:E. cbn [fst] in C. subst out.
  assert (Hp : NoDup (map stock_place (rows store TStock)))
    by (apply (bool_decide_unpack _); vm_compute; exact I).
  assert (Hs : Forall (λ s, whole (st_quantity s) ∧ st_warehouseId s ≠ Some ""%string)
                 (rows store TStock)).
  { apply Forall_and. split; [exact store_whole|]. repeat constructor; discriminate. }
  assert (Hm : keyed TMovement store) by constructor.
  assert (Hf : fresh TMovement store) by (intros n _ Hin; inversion Hin).
  destruct (reserve_release 7 8 "o1" "t1" store db1 SamplePlatform.unique_ids store_keyed Hp Hs
    store_requirements Hm Hf ltac:(constructor) eq_refl E) as (released & db2 & Hr & Hst).
  exists db1, released, db2. split; [reflexivity|]. split; [exact Hr|exact Hst].
Defined.

Lemma stock_settled_once_witness :
  ∃ db1 db2, reserveStock 7 "o1" "t1" store = (Ok true, db1) ∧
    commitReservation 8 "o1" "t1" db1 = (Ok true, db2) ∧
    releaseReservation 9 "o1" "t1" db2 = (Ok false, db2).
Proof.
  assert (C : bool_decide (fst (commitReservation 8 "o1" "t1"
                (snd (reserveStock 7 "o1" "t1" store))) = Ok true) &&
              bool_decide (fst (reserveStock 7 "o1" "t1" store) = Ok true) = true)
    by (vm_compute; reflexivity).
  apply andb_true_iff in C as [C1 C2]. apply bool_decide_eq_true_1 in C1.
  apply bool_decide_eq_true_1 in C2.
  destruct (reserveStock 7 "o1" "t1" store) as [out db1]. cbn [fst snd] in *. subst out.
  destruct (commitReservation 8 "o1" "t1" db1) as [out db2] eqn:E. cbn [fst] in C1. subst out.
  exists db1, db2. split; [reflexivity|]. split; [exact E|].
  apply (stock_settled_once 8 "o1" "t1" db1 db2 true (or_introl E) 9).
Defined.

End ReservationExamples.
