(* ===== verification/InventoryStock.v ===== *)
(** The manual stock operations (modules/inventory/inventory.repository.ts: stockIn,
    adjustment, waste) and the fulfillment of paid orders (fulfillRetail and fulfillCafe
    there, called by modules/fulfillment/fulfillment.service.ts).  Each changes a stock
    row, books a movement with the balances before and after it, and has the costing
    service follow. *)

From stdpp Require Import base list strings option.
From Stdlib Require Import ZArith.
From S2P Require Import Prelude JsNumber JsString DomainEvents CoreDomain MasterData Lifecycles.
From S2P Require Import PurchaseOrderAggregate Decimal Database Costing Receipts Reservations.

Local Open Scope string_scope.

(** A movement of the repository, which may refer to a document. *)
Record StockMovement := {
  sm_tenantId : string; sm_warehouseId : option string; sm_inventoryItemId : string;
  sm_type : InventoryMovementType; sm_quantity : number; sm_before : number;
  sm_after : number; sm_note : option string; sm_createdById : option string;
  sm_reference : option (string * string);
}.

Section movements.
Context {dec : Decimal} {plat : Platform}.

Definition book_movement (now : Date) (d : StockMovement) : Tx Db MovementRow :=
  insert TMovement (λ i, {| mv_id := i; mv_tenantId := sm_tenantId d; mv_type := sm_type d;
    mv_quantity := sm_quantity d; mv_note := sm_note d; mv_createdAt := now;
    mv_beforeQuantity := Some (sm_before d); mv_afterQuantity := Some (sm_after d);
    mv_createdById := sm_createdById d; mv_inventoryItemId := sm_inventoryItemId d;
    mv_referenceId := snd <$> sm_reference d; mv_referenceType := fst <$> sm_reference d;
    mv_warehouseId := sm_warehouseId d; mv_unitCost := None; mv_totalCost := None |}).
(** [findUniqueOrThrow({ where: { id } })]. *)
Definition movement_by_id (i : string) : Tx Db MovementRow :=
  load_row TMovement (has_id TMovement i) (PrismaError "P2025").

End movements.

(** * The manual operations *)

Module InventoryStock.

Section service.
Context {dec : Decimal} {plat : Platform}.

Record StockInDto := {
  si_inventoryItemId : string; si_warehouseId : string; si_quantity : number;
  si_unitCost : option number; si_note : option string;
}.
Record StockAdjustmentDto := {
  sa_inventoryItemId : string; sa_warehouseId : string; sa_quantity : number;
  sa_unitCost : option number; sa_note : string;
}.
Record WasteDto := {
  wa_inventoryItemId : string; wa_warehouseId : string; wa_quantity : number;
  wa_note : string;
}.

Definition warehouse_of_tenant (tenantId warehouseId : string) (w : WarehouseRow) : bool :=
  bool_decide (wh_id w = warehouseId) && bool_decide (wh_tenantId w = tenantId).
Definition assertTenantStockScope (tenantId inventoryItemId warehouseId : string) : Tx Db unit :=
  item ← select_first TItem (Reservations.item_of_tenant tenantId inventoryItemId);
  warehouse ← select_first TWarehouse (warehouse_of_tenant tenantId warehouseId);
  match item, warehouse with
  | Some _, Some w =>
      tx_throw_if (negb (wh_isActive w))
        (BadRequestException "Inactive warehouses cannot receive new inventory movements")
  | _, _ => tx_throw (BadRequestException "Inventory resource not found")
  end.
(** The three statements each operation starts with. *)
Definition enter (tenantId inventoryItemId warehouseId : string) : Tx Db (option StockRow) :=
  _ ← assertTenantStockScope tenantId inventoryItemId warehouseId;
  _ ← Costing.lockItem tenantId inventoryItemId;
  select_first TStock (stock_key warehouseId inventoryItemId).

(** [update({ where: { id }, data: { quantity } })] leaves [updatedAt]. *)
Definition write_quantity (stock : StockRow) (q : number) : Tx Db unit :=
  update_id TStock (st_id stock) (λ s, set_stock_quantity q (st_updatedAt s) s).

Definition stockIn_tx (now : Date) (tenantId : string) (dto : StockInDto) (userId : string)
  : Tx Db MovementRow :=
  stock ← enter tenantId (si_inventoryItemId dto) (si_warehouseId dto);
  let beforeQty := match stock with Some s => st_quantity s | None => of_Z 0 end in
  _ ← match stock with
      | Some s =>
          update_id TStock (st_id s) (λ s, set_stock_quantity
            (add (st_quantity s) (si_quantity dto)) (st_updatedAt s) s)
      | None =>
          _ ← insert TStock (λ i, {| st_id := i; st_warehouseId := Some (si_warehouseId dto);
                st_inventoryItemId := si_inventoryItemId dto; st_quantity := si_quantity dto;
                st_averageUnitCost := None; st_createdAt := now; st_updatedAt := now |});
          mret tt
      end;
  movement ← book_movement now
    {| sm_tenantId := tenantId; sm_warehouseId := Some (si_warehouseId dto);
       sm_inventoryItemId := si_inventoryItemId dto; sm_type := STOCK_IN;
       sm_quantity := si_quantity dto; sm_before := beforeQty;
       sm_after := add beforeQty (si_quantity dto); sm_note := si_note dto;
       sm_createdById := Some userId; sm_reference := None |};
  _ ← Costing.receive now
    {| Costing.rv_tenantId := tenantId;
       Costing.rv_inventoryItemId := si_inventoryItemId dto;
       Costing.rv_warehouseId := Some (si_warehouseId dto);
       Costing.rv_quantity := si_quantity dto; Costing.rv_unitCost := inl <$> si_unitCost dto;
       Costing.rv_sourceType := "MANUAL_STOCK_IN";
       Costing.rv_sourceReferenceId := Some (mv_id movement);
       Costing.rv_movementId := mv_id movement |};
  movement_by_id (mv_id movement).

Definition stock_not_found : exn := BadRequestException "Stock not found".
Definition insufficient_stock : exn := BadRequestException "Insufficient stock".

Definition adjustment_tx (now : Date) (tenantId : string) (dto : StockAdjustmentDto)
    (userId : string) : Tx Db MovementRow :=
  stock ← enter tenantId (sa_inventoryItemId dto) (sa_warehouseId dto);
  match stock with
  | None => tx_throw stock_not_found
  | Some stock =>
      let beforeQty := st_quantity stock in
      let afterQty := add beforeQty (sa_quantity dto) in
      _ ← tx_throw_if (ltb afterQty (of_Z 0)) insufficient_stock;
      _ ← write_quantity stock afterQty;
      movement ← book_movement now
        {| sm_tenantId := tenantId; sm_warehouseId := Some (sa_warehouseId dto);
           sm_inventoryItemId := sa_inventoryItemId dto; sm_type := ADJUSTMENT;
           sm_quantity := sa_quantity dto; sm_before := beforeQty; sm_after := afterQty;
           sm_note := Some (sa_note dto); sm_createdById := Some userId;
           sm_reference := None |};
      _ ← (if gtb (sa_quantity dto) (of_Z 0) then
             _ ← Costing.receive now
               {| Costing.rv_tenantId := tenantId;
                  Costing.rv_inventoryItemId := sa_inventoryItemId dto;
                  Costing.rv_warehouseId := Some (sa_warehouseId dto);
                  Costing.rv_quantity := sa_quantity dto;
                  Costing.rv_unitCost := inl <$> sa_unitCost dto;
                  Costing.rv_sourceType := "MANUAL_ADJUSTMENT";
                  Costing.rv_sourceReferenceId := Some (mv_id movement);
                  Costing.rv_movementId := mv_id movement |};
             mret tt
           else if ltb (sa_quantity dto) (of_Z 0) then
             _ ← Costing.issue now
               {| Costing.is_tenantId := tenantId;
                  Costing.is_inventoryItemId := sa_inventoryItemId dto;
                  Costing.is_warehouseId := Some (sa_warehouseId dto);
                  Costing.is_quantity := abs (sa_quantity dto);
                  Costing.is_movementId := mv_id movement |};
             mret tt
           else mret tt);
      movement_by_id (mv_id movement)
  end.

Definition waste_tx (now : Date) (tenantId : string) (dto : WasteDto) (userId : string)
  : Tx Db MovementRow :=
  stock ← enter tenantId (wa_inventoryItemId dto) (wa_warehouseId dto);
  match stock with
  | None => tx_throw stock_not_found
  | Some stock =>
      _ ← tx_throw_if (ltb (st_quantity stock) (wa_quantity dto)) insufficient_stock;
      let beforeQty := st_quantity stock in
      let afterQty := sub beforeQty (wa_quantity dto) in
      _ ← write_quantity stock afterQty;
      movement ← book_movement now
        {| sm_tenantId := tenantId; sm_warehouseId := Some (wa_warehouseId dto);
           sm_inventoryItemId := wa_inventoryItemId dto; sm_type := WASTE;
           sm_quantity := wa_quantity dto; sm_before := beforeQty; sm_after := afterQty;
           sm_note := Some (wa_note dto); sm_createdById := Some userId;
           sm_reference := None |};
      _ ← Costing.issue now
        {| Costing.is_tenantId := tenantId;
           Costing.is_inventoryItemId := wa_inventoryItemId dto;
           Costing.is_warehouseId := Some (wa_warehouseId dto);
           Costing.is_quantity := wa_quantity dto;
           Costing.is_movementId := mv_id movement |};
      movement_by_id (mv_id movement)
  end.

Definition stockIn (now : Date) (tenantId : string) (dto : StockInDto) (userId : string)
    (db : Db) : result MovementRow * Db :=
  transaction (stockIn_tx now tenantId dto userId) db.
Definition adjustment (now : Date) (tenantId : string) (dto : StockAdjustmentDto)
    (userId : string) (db : Db) : result MovementRow * Db :=
  transaction (adjustment_tx now tenantId dto userId) db.
Definition waste (now : Date) (tenantId : string) (dto : WasteDto) (userId : string) (db : Db)
  : result MovementRow * Db :=
  transaction (waste_tx now tenantId dto userId) db.

End service.
End InventoryStock.

(** * Fulfillment *)

Module Fulfillment.

Section service.
Context {dec : Decimal} {plat : Platform}.

Definition set_so_status (s : OrderStatus) (o : SalesOrderRow) : SalesOrderRow :=
  {| so_id := so_id o; so_tenantId := so_tenantId o; so_outletId := so_outletId o;
     so_orderNumber := so_orderNumber o; so_status := s; so_orderMode := so_orderMode o;
     so_paymentStatus := so_paymentStatus o; so_paidAmount := so_paidAmount o;
     so_kitchenReleasedAt := so_kitchenReleasedAt o;
     so_kitchenPriority := so_kitchenPriority o; so_totalAmount := so_totalAmount o;
     so_currencyCode := so_currencyCode o; so_createdAt := so_createdAt o;
     so_SalesOrderItem := so_SalesOrderItem o |}.

(** What the bodies of the two loops share: take [quantity] from the stock of an item;
    [what] is how the messages name it. *)
Definition issue_stock (now : Date) (tenantId orderId : string) (type : InventoryMovementType)
    (what inventoryItemId : string) (quantity : number) : Tx Db unit :=
  let insufficient := BadRequestException ("Insufficient stock for " ++ what) in
  _ ← Costing.lockItem tenantId inventoryItemId;
  stock ← load_row TStock (Costing.stocks_of inventoryItemId)
            (BadRequestException ("Stock not found for " ++ what));
  _ ← tx_throw_if (ltb (st_quantity stock) quantity) insufficient;
  n ← update_many TStock
        (λ s, bool_decide (st_id s = st_id stock) && geb (st_quantity s) quantity)
        (λ s, set_stock_quantity (sub (st_quantity s) quantity) now s);
  _ ← tx_throw_if (negb (n =? 1)%nat) insufficient;
  movement ← book_movement now
    {| sm_tenantId := tenantId; sm_warehouseId := st_warehouseId stock;
       sm_inventoryItemId := inventoryItemId; sm_type := type; sm_quantity := quantity;
       sm_before := st_quantity stock; sm_after := sub (st_quantity stock) quantity;
       sm_note := None; sm_createdById := None; sm_reference := Some ("ORDER", orderId) |};
  _ ← Costing.issue now
    {| Costing.is_tenantId := tenantId; Costing.is_inventoryItemId := inventoryItemId;
       Costing.is_warehouseId := st_warehouseId stock; Costing.is_quantity := quantity;
       Costing.is_movementId := mv_id movement |};
  mret tt.

Definition retail_line (now : Date) (tenantId orderId : string) (l : OrderLine) : Tx Db unit :=
  let inventoryItemId :=
    match line_inventoryItem l with Some i => Some i | None => line_inventoryItemId l end in
  tx_when (truthy inventoryItemId)
    (issue_stock now tenantId orderId SALE (line_productName l) (default "" inventoryItemId)
       (line_quantity l)).
Definition cafe_line (now : Date) (tenantId orderId : string) (l : OrderLine) : Tx Db unit :=
  match line_recipe l with
  | None => mret tt
  | Some recipe =>
      tx_for_each (λ r,
        issue_stock now tenantId orderId CONSUMPTION ("ingredient " ++ rl_itemName r)
          (rl_itemId r) (mul (rl_quantity r) (line_quantity l))) recipe
  end.

(** What fulfillRetail and fulfillCafe share: [body] is the loop over the lines, which a
    committed reservation replaces. *)
Definition fulfill_tx (body : string → OrderLine → Tx Db unit) (orderId tenantId : string)
  : Tx Db bool :=
  order ← load_row TSalesOrder (Reservations.of_tenant orderId tenantId)
            Reservations.not_found;
  if bool_decide (so_status order = OrderCOMPLETED) then mret false else
  _ ← tx_throw_if (negb (bool_decide (so_status order = PAID)))
        (BadRequestException "Order must be PAID before fulfillment");
  hasCommittedReservation ← select_first TMovement
    (Reservations.refers tenantId (so_id order) Reservations.COMMITTED_RESERVATION_REF);
  _ ← tx_for_each (body (so_id order))
        match hasCommittedReservation with
         | Some _ => [] | None => so_SalesOrderItem order
         end;
  completed ← update_many TSalesOrder
    (λ o, Reservations.of_tenant (so_id order) tenantId o && bool_decide (so_status o = PAID))
    (set_so_status OrderCOMPLETED);
  mret (completed =? 1)%nat.

Definition fulfillRetail (now : Date) (orderId tenantId : string) : Tx Db bool :=
  fulfill_tx (retail_line now tenantId) orderId tenantId.
Definition fulfillCafe (now : Date) (orderId tenantId : string) : Tx Db bool :=
  fulfill_tx (cafe_line now tenantId) orderId tenantId.

Definition resolveTenantBusinessType (tenantId : string) : Tx Db BusinessType :=
  tenant ← load_row TTenant (has_id TTenant tenantId) (BadRequestException "Tenant not found");
  mret (tn_businessType tenant).

Definition BusinessType_name (b : BusinessType) : string :=
  match b with
  | CAFE => "CAFE" | RETAIL => "RETAIL" | LAUNDRY => "LAUNDRY" | GYM => "GYM"
  | HOTEL => "HOTEL" | MANUFACTURING => "MANUFACTURING"
  end.

(** FulfillmentService.processOrder: a query, then a transaction; [between] is what other
    requests commit in the meantime. *)
Definition processOrder (now : Date) (between : Db → Db) (orderId tenantId : string) (db : Db)
  : result bool * Db :=
  match resolveTenantBusinessType tenantId db with
  | Err e => (Err e, db)
  | Ok (RETAIL, db) => transaction (fulfillRetail now orderId tenantId) (between db)
  | Ok (CAFE, db) => transaction (fulfillCafe now orderId tenantId) (between db)
  | Ok (b, db) =>
      (Err (BadRequestException ("Unsupported business type: " ++ BusinessType_name b)), db)
  end.

End service.
End Fulfillment.
