(* ===== verification/StockFacts.v ===== *)
(** The books of the FIFO items, and that the manual stock operations keep them balanced:
    in every warehouse the cost layers of an item hold exactly its stock. *)

From stdpp Require Import base list strings option sets.
From Stdlib Require Import ZArith Lia.
From S2P Require Import Prelude JsNumber JsString DomainEvents CoreDomain MasterData Lifecycles.
From S2P Require Import PurchaseOrderAggregate Decimal Database Costing CostingFacts.
From S2P Require Import Receipts Reservations InventoryStock.

Import Costing InventoryStock.

(** What a run [E] left alone: [only ts] of its stores. *)
Ltac framed E ts :=
  lazymatch type of E with
  | ?m _ = Ok (_, _) =>
      let W := fresh "W" in assert (W : writes ts m) by solve_writes; apply W in E; clear W
  end.

(** * Sums over rows *)

Section sums.
Local Open Scope Z_scope.

(** Updating the one row with a key changes a sum by what the row changes. *)
Lemma sum_map_where {A} (key : A → string) (g : A → Z) p f l x :
  NoDup (map key l) → x ∈ l → p x = true → (∀ y, p y = true → key y = key x) →
  sumZ (map g (map_where p f l)) = sumZ (map g l) + (g (f x) - g x).
Proof.
  induction l as [|y l IH]; simpl; intros Hnd Hin Hp Hk; [by apply elem_of_nil in Hin|].
  change (map (λ x, if p x then f x else x) l) with (map_where p f l).
  apply NoDup_cons in Hnd as [Hy Hnd]. apply elem_of_cons in Hin as [->|Hin].
  - rewrite Hp. rewrite (map_where_id (A := A) p f l); [simpl; lia|].
    intros z Hz Hpz. exfalso. apply Hy. rewrite <- (Hk z Hpz). by apply list_elem_of_fmap_2.
  - destruct (p y) eqn:Hpy; simpl; [|rewrite IH by done; lia].
    exfalso. apply Hy. rewrite (Hk y Hpy). by apply list_elem_of_fmap_2.
Qed.

End sums.

(** * Layers and stock *)

Section books.
Context {dec : Decimal} {plat : Platform} {laws : DecimalLaws dec} {uniq : UniqueIds}.
Local Open Scope Z_scope.

(** The millionths of an item that the layers of a place hold. *)
Definition layer_of (tenantId itemId : string) (warehouseId : option string) (l : LayerRow)
  : bool :=
  bool_decide (ly_tenantId l = tenantId) && bool_decide (ly_inventoryItemId l = itemId) &&
  bool_decide (ly_warehouseId l = warehouseId).
Definition layer_sum (tenantId itemId : string) (warehouseId : option string) (db : Db) : Z :=
  weighted (λ l, Z.b2z (layer_of tenantId itemId warehouseId l)) (rows db TLayer).

(** The units the stock rows of some places hold; of an item in a warehouse. *)
Definition units (s : StockRow) : Z := to_Z (st_quantity s).
Definition stock_in (P : option string * string → bool) (db : Db) : Z :=
  sumZ (map (λ s, if P (stock_place s) then units s else 0) (rows db TStock)).
Definition place_of (itemId : string) (warehouseId : option string) (p : option string * string)
  : bool :=
  bool_decide (warehouseId = fst p) && bool_decide (itemId = snd p).
Definition stock_sum (itemId : string) (warehouseId : option string) (db : Db) : Z :=
  stock_in (place_of itemId warehouseId) db.

(** A whole balance of at most [n] units. *)
Definition holds (n : Z) (s : StockRow) : Prop :=
  ∃ z, st_quantity s = of_Z z ∧ 0 <= z <= n.

Lemma to_Z_of_Z z : Z.abs z <= max_exact → to_Z (of_Z z) = z.
Proof.
  intros Hz. rewrite of_Z_exact by done. simpl. pose proof one_units_pos.
  apply Z.quot_mul. lia.
Qed.
Lemma holds_units n s : n <= max_exact → holds n s →
  st_quantity s = of_Z (units s) ∧ 0 <= units s <= n.
Proof.
  intros Hn (z & E & Hz). unfold units. rewrite E, to_Z_of_Z by lia. done.
Qed.

(** The FIFO items. *)
Definition fifo_item (i : ItemRow) : Prop := it_valuationMethod i = Some FIFO.

(** The books balance: for every FIFO item and every warehouse, layers and stock agree.
    [n] bounds the balances. *)
Record balanced (n : Z) (db : Db) : Prop := {
  bk_sound : sound db;
  bk_layers : Forall on_grid (rows db TLayer);
  bk_stock : Forall (holds n) (rows db TStock);
  bk_agree : ∀ i w, i ∈ rows db TItem → fifo_item i →
    layer_sum (it_tenantId i) (it_id i) w db = million * stock_sum (it_id i) w db;
}.

(** A store with unique ids and whole balances. *)
Definition steady (n : Z) (db : Db) : Prop := sound db ∧ Forall (holds n) (rows db TStock).
Lemma balanced_steady n db : balanced n db → steady n db.
Proof. by intros [? _ ? _]. Qed.
Lemma steady_units n db s :
  steady n db → n <= max_exact → s ∈ rows db TStock →
  st_quantity s = of_Z (units s) ∧ 0 <= units s <= n.
Proof.
  intros [_ Hh] Hn Hin. apply (holds_units n s); [done|]. rewrite Forall_forall in Hh. by apply Hh.
Qed.

(** ** What costing leaves alone *)

(** The columns of stock and items the books depend on. *)
Definition stock_view (db : Db) :=
  map (λ s, (st_id s, st_warehouseId s, st_inventoryItemId s, st_quantity s)) (rows db TStock).
Definition item_view (db : Db) :=
  map (λ i, (it_id i, it_tenantId i, it_valuationMethod i)) (rows db TItem).
Definition same_view (db db' : Db) : Prop :=
  stock_view db' = stock_view db ∧ item_view db' = item_view db.
#[export] Instance same_view_preorder : PreOrder same_view.
Proof. split; [by intros db|]. intros d1 d2 d3 [H1 H2] [H3 H4]. split; congruence. Qed.

Lemma view_only ts db db' : only ts db db' → TStock ∉ ts → TItem ∉ ts → same_view db db'.
Proof. intros O H1 H2. unfold same_view, stock_view, item_view. by rewrite !O. Qed.
Lemma view_writes {A} ts (m : Tx Db A) :
  writes ts m → TStock ∉ ts → TItem ∉ ts → respects same_view m.
Proof. intros Hm ? ?. eapply respects_writes; [exact Hm|]. intros db db' O. by eapply view_only. Qed.
Lemma view_where {A B} (g : A → B) p f l :
  (∀ x, g (f x) = g x) → map g (map_where p f l) = map g l.
Proof.
  intros Hf. unfold map_where. rewrite map_map. apply map_ext. intros x.
  destruct (p x); [apply Hf|done].
Qed.
Lemma view_items p f db :
  (∀ i, it_id (f i) = it_id i ∧ it_tenantId (f i) = it_tenantId i ∧
        it_valuationMethod (f i) = it_valuationMethod i) →
  same_view db (on TItem (map_where p f) db).
Proof.
  intros Hf. split; [unfold stock_view; by rewrite rows_on_other|].
  unfold item_view. rewrite rows_on_same. apply (view_where (A := ItemRow)).
  intros i. by destruct (Hf i) as (-> & -> & ->).
Qed.
Lemma view_stock p f db :
  (∀ s, st_id (f s) = st_id s ∧ st_warehouseId (f s) = st_warehouseId s ∧
        st_inventoryItemId (f s) = st_inventoryItemId s ∧ st_quantity (f s) = st_quantity s) →
  same_view db (on TStock (map_where p f) db).
Proof.
  intros Hf. split; [|unfold item_view; by rewrite rows_on_other].
  unfold stock_view. rewrite rows_on_same. apply (view_where (A := StockRow)).
  intros i. by destruct (Hf i) as (-> & -> & -> & ->).
Qed.
Lemma view_update_item i f :
  (∀ i, it_id (f i) = it_id i ∧ it_tenantId (f i) = it_tenantId i ∧
        it_valuationMethod (f i) = it_valuationMethod i) →
  respects same_view (update_id TItem i f).
Proof. intros Hf db a db' [_ ->]%update_id_inv. by apply view_items. Qed.
Lemma view_lock_valuation now item i : respects same_view (lock_valuation now item i).
Proof. unfold lock_valuation. apply respects_when; [exact _|]. by apply view_update_item. Qed.
Lemma writes_average item w qn q u :
  writes [TStock; TItem] (updateMovingAverage item w qn q u).
Proof. unfold updateMovingAverage. solve_writes. Qed.
Lemma view_average item w qn q u : respects same_view (updateMovingAverage item w qn q u).
Proof.
  unfold updateMovingAverage. case_match.
  - apply respects_bind; [exact _| |intros stocks]; [by apply (view_writes []); [solve_writes|set_solver..]|].
    case_match; [by apply (view_writes []); [solve_writes|set_solver..]|].
    apply respects_bind; [exact _| |intros a]; [by apply (view_writes []); [solve_writes|set_solver..]|].
    by apply view_update_item.
  - apply respects_bind; [exact _| |intros stock]; [by apply (view_writes []); [solve_writes|set_solver..]|].
    case_match; [by apply (view_writes []); [solve_writes|set_solver..]|].
    apply respects_bind; [exact _| |intros a]; [by apply (view_writes []); [solve_writes|set_solver..]|].
    apply respects_bind; [exact _| |intros n]; [|by apply (view_writes []); [solve_writes|set_solver..]].
    intros db x db' [= _ <-]. by apply view_stock.
Qed.

(** ** An issue and a receipt on the layers *)

Lemma on_grid_set l r : on_grid l → 0 <= r < micro_max → on_grid (set_remaining (micro r) l).
Proof.
  intros (Hr & Hc & Hb & Hcb) H. unfold on_grid, rem_of, cost_of in *. simpl in *.
  rewrite unmicro_micro by lia. split; [done|]. split; [done|]. by split.
Qed.
Lemma changed_grid lts ls l :
  NoDup (map ly_id ls) → Forall (take_ok ls) lts → l ∈ ls → on_grid l →
  on_grid (changed col_sub (takes_changes lts) l).
Proof.
  intros Hnd Hf Hin Hg. unfold changed. destruct (List.find _ _) as [c|] eqn:E; [|done].
  apply find_some_in in E as [Hc E]. bool_hyps.
  apply list_elem_of_fmap in Hc as ([l0 t] & -> & Hlt). simpl in *.
  rewrite Forall_forall in Hf. destruct (Hf _ Hlt) as (H0 & _ & Ht). simpl in *.
  assert (l0 = l) as -> by by apply (same_key ly_id ls).
  pose proof (on_grid_rem l Hg) as Hb. pose proof Hg as (Hr & _). simpl in Hr. rewrite Hr.
  rewrite micro_col_sub by lia. apply on_grid_set; [done|lia].
Qed.

(** How much of [q] a change at a place makes in the sum of another. *)
Definition at_place (tenantId itemId : string) (warehouseId : option string)
    (t i : string) (w : option string) (q : Z) : Z :=
  if bool_decide (tenantId = t) && bool_decide (itemId = i) && bool_decide (warehouseId = w)
  then q else 0.

Lemma layer_sum_rows t i w db db' :
  rows db' TLayer = rows db TLayer → layer_sum t i w db' = layer_sum t i w db.
Proof. unfold layer_sum. by intros ->. Qed.

Lemma taken_at tenantId itemId warehouseId t i w lts :
  Forall (λ lt, layer_of tenantId itemId warehouseId (fst lt) = true) lts →
  sumZ (map (λ lt : LayerRow * Z, snd lt * Z.b2z (layer_of t i w (fst lt))) lts) =
    at_place tenantId itemId warehouseId t i w (taken lts).
Proof.
  unfold at_place, taken. induction 1 as [|lt lts Hl _ IH]; simpl; [by case_match|].
  rewrite IH. unfold layer_of in *. bool_hyps. subst. by destruct (_ && _); simpl; lia.
Qed.

Lemma consume_effect tenantId itemId warehouseId q db als db' :
  sound db → Forall on_grid (rows db TLayer) → 0 < q < micro_max →
  consumeFifoLayers tenantId itemId warehouseId (micro q) db = Ok (als, db') →
  Forall on_grid (rows db' TLayer) ∧ only [TLayer] db db' ∧
  ∀ t i w, layer_sum t i w db' =
    layer_sum t i w db - at_place tenantId itemId warehouseId t i w q.
Proof.
  intros Hs Hg Hq E. destruct (Hs TLayer) as [Hk _].
  set (ls := open_layers tenantId itemId warehouseId db).
  assert (Hls : Forall on_grid ls).
  { apply Forall_forall. intros l Hl. apply open_layers_in in Hl as [Hl _].
    rewrite Forall_forall in Hg. by apply Hg. }
  destruct (consume_spec tenantId itemId warehouseId db Hk Hls q ltac:(lia)) as [Hok Herr].
  fold ls in Hok, Herr. destruct (Z.le_gt_cases q (sumZ (map rem_of ls))) as [Hle|Hlt].
  2: { destruct (Herr Hlt) as [m Hm]. congruence. }
  destruct (Hok Hle) as (db1 & E1 & R & O). rewrite E in E1. injection E1 as -> <-.
  pose proof (fifo_plan_takes _ _ _ db Hls q) as Htakes. fold ls in Htakes.
  pose proof (fifo_plan_keys tenantId itemId warehouseId db Hk q) as Hkeys. fold ls in Hkeys.
  split; [|split; [done|]].
  - rewrite R. apply Forall_map, Forall_forall. intros l Hl. rewrite Forall_forall in Hg.
    apply (changed_grid _ (rows db TLayer)); auto.
  - intros t i w. unfold layer_sum. rewrite R, weighted_takes by done. f_equal.
    assert (Ht : taken (fifo_plan q ls) = q) by (rewrite fifo_plan_taken by (done || lia); lia).
    rewrite (taken_at tenantId itemId warehouseId); [by rewrite Ht|].
    apply Forall_forall. intros lt Hin.
    apply fifo_plan_ok in Hin as (Hin & _); [|done|by apply open_layers_pos].
    apply open_layers_in in Hin as [_ Ho]. unfold layer_open in Ho. unfold layer_of. bool_hyps.
    by rewrite !bool_decide_true.
Qed.

(** An item a call locks. *)
Definition locked (tenantId itemId : string) (item : ItemRow) (db : Db) : Prop :=
  item ∈ rows db TItem ∧ it_id item = itemId ∧ it_tenantId item = tenantId.
(** Costing follows a change of [q] millionths at a place: of a FIFO item the layers
    change by [q], otherwise they stay; nothing else the books depend on changes. *)
Definition follows_by (tenantId itemId : string) (warehouseId : option string) (q : Z)
    (db db' : Db) : Prop :=
  Forall on_grid (rows db' TLayer) ∧ same_view db db' ∧
  ∃ item, locked tenantId itemId item db ∧ ∀ t i w, layer_sum t i w db' =
    layer_sum t i w db +
    if bool_decide (fifo_item item) then at_place tenantId itemId warehouseId t i w q else 0.

Lemma issue_effect now input q db out db' :
  sound db → Forall on_grid (rows db TLayer) →
  d_of_number (is_quantity input) = micro q → 0 < q < micro_max →
  issue now input db = Ok (out, db') →
  follows_by (is_tenantId input) (is_inventoryItemId input) (is_warehouseId input) (- q) db db'.
Proof.
  intros Hs Hg Hq Hqb E. unfold issue in E. apply tx_bind_ok in E as (item & d0 & Ei & E).
  apply lockItem_ok in Ei as (-> & Hin & Hid & Htn & _). rewrite Hq in E. cbv zeta in E.
  apply tx_bind_ok in E as (als & db1 & E1 & E).
  apply tx_bind_ok in E as (u & db2 & E2 & E). apply tx_bind_ok in E as (u' & db3 & E3 & E).
  apply tx_bind_ok in E as (u'' & db4 & E4 & E). injection E as _ <-.
  unfold write_cost in E2. unfold write_allocations in E3. framed E2 [TMovement].
  framed E3 [TAllocation]. pose proof (view_lock_valuation _ _ _ _ _ _ E4) as V4.
  unfold lock_valuation in E4. framed E4 [TItem].
  assert (R : rows db4 TLayer = rows db1 TLayer) by by rewrite E4, E3, E2 by set_solver.
  assert (V : same_view db1 db4).
  { etrans; [apply (view_only [TMovement] _ db2); [done|set_solver..]|].
    etrans; [apply (view_only [TAllocation] _ db3); [done|set_solver..]|done]. }
  unfold follows_by. rewrite R. case_bool_decide as Hf.
  - apply (consume_effect _ _ _ q) in E1 as (Hg1 & O1 & Hsum); [|done..].
    split; [done|]. split.
    { etrans; [|exact V]. apply (view_only [TLayer]); [done|set_solver..]. }
    exists item. split; [done|]. intros t i w. rewrite bool_decide_true by done.
    rewrite (layer_sum_rows t i w db1) by done. rewrite Hsum. unfold at_place. case_match; lia.
  - unfold averageCost in E1. framed E1 ([] : list table).
    rewrite E1 by set_solver. split; [done|]. split.
    { etrans; [|exact V]. apply (view_only []); [done|set_solver..]. }
    exists item. split; [done|]. intros t i w. rewrite bool_decide_false by done.
    rewrite (layer_sum_rows t i w db1) by done. rewrite (layer_sum_rows t i w db); [lia|].
    apply E1; set_solver.
Qed.

(** A unit cost with at most six decimals, of at most twelve digits. *)
Definition cost_ok (x : number + D) : Prop := ∃ c, to_decimal x = micro c ∧ 0 <= c < micro_max.

Lemma to_column_inv a db r db' :
  Z.abs a < micro_max → to_column (micro a) db = Ok (r, db') → r = micro a ∧ db' = db.
Proof. intros Ha. rewrite (to_column_ok _ (micro a)) by by apply micro_column. by intros [= <- <-]. Qed.

Lemma create_layer_effect now tn i w mv st rf q c db u db' :
  Forall on_grid (rows db TLayer) → 0 <= q < micro_max → 0 <= c < micro_max →
  create_layer now tn i w mv st rf (micro q) (micro c) db = Ok (u, db') →
  Forall on_grid (rows db' TLayer) ∧ only [TLayer] db db' ∧
  ∀ t i' w', layer_sum t i' w' db' = layer_sum t i' w' db + at_place tn i w t i' w' q.
Proof.
  intros Hg Hq Hc E. pose proof E as O. unfold create_layer in O. framed O [TLayer].
  unfold create_layer in E. apply tx_bind_ok in E as (q' & d1 & E1 & E).
  apply to_column_inv in E1 as [-> ->]; [|lia].
  apply tx_bind_ok in E as (c' & d1 & E1 & E). apply to_column_inv in E1 as [-> ->]; [|lia].
  apply tx_bind_ok in E as (l & d1 & E1 & E). injection E as _ <-.
  apply insert_rows in E1 as [El R]. set (new := ly_id l) in *.
  assert (Hl : on_grid l).
  { rewrite El. unfold on_grid, rem_of, cost_of, layer_at. simpl.
    rewrite !unmicro_micro by lia. done. }
  split; [|split; [done|]].
  - rewrite R. apply Forall_app. split; [done|]. by constructor.
  - intros t i' w'. unfold layer_sum. rewrite R.
    etrans; [exact (weighted_app _ _ [l])|]. f_equal.
    unfold weighted, rem_of, layer_of, at_place. rewrite El. simpl.
    rewrite unmicro_micro by lia. case_match; simpl; lia.
Qed.

Lemma receive_effect now input q db out db' :
  Forall on_grid (rows db TLayer) →
  d_of_number (rv_quantity input) = micro q → 0 < q < micro_max →
  (∀ x, rv_unitCost input = Some x → cost_ok x) →
  receive now input db = Ok (out, db') →
  follows_by (rv_tenantId input) (rv_inventoryItemId input) (rv_warehouseId input) q db db'.
Proof.
  intros Hg Hq Hqb Hcost E. unfold receive in E. apply tx_bind_ok in E as (item & d0 & Ei & E).
  apply lockItem_ok in Ei as (-> & Hin & Hid & Htn & _). rewrite Hq in E. cbv zeta in E.
  apply tx_bind_ok in E as (u0 & d0 & E0 & E). apply tx_lift_ok in E0 as [E0 ->].
  apply tx_bind_ok in E as (u1 & db1 & E1 & E). apply tx_bind_ok in E as (u2 & db2 & E2 & E).
  apply tx_bind_ok in E as (u3 & db3 & E3 & E). injection E as _ <-.
  unfold write_cost in E2. framed E2 [TMovement].
  pose proof (view_lock_valuation _ _ _ _ _ _ E3) as V3.
  unfold lock_valuation in E3. framed E3 [TItem].
  assert (R : rows db3 TLayer = rows db1 TLayer) by by rewrite E3, E2 by set_solver.
  assert (V : same_view db1 db3).
  { etrans; [apply (view_only [TMovement] _ db2); [done|set_solver..]|done]. }
  unfold follows_by. rewrite R. destruct (decide (it_valuationMethod item = Some FIFO)) as [Hf|Hf].
  - rewrite Hf in E0, E1. rewrite bool_decide_true in E1 by done.
    destruct (rv_unitCost input) as [x|] eqn:Ex; [|done]. simpl in E1.
    destruct (Hcost x eq_refl) as (c & Hc & Hcb). simpl in E1. rewrite Hc in E1.
    apply create_layer_effect in E1 as (Hg1 & O1 & Hsum); [|done|lia|done].
    split; [done|]. split.
    { etrans; [|exact V]. apply (view_only [TLayer]); [done|set_solver..]. }
    exists item. split; [done|]. intros t i w. rewrite bool_decide_true by done.
    rewrite (layer_sum_rows t i w db1) by done. apply Hsum.
  - rewrite bool_decide_false in E1 by done.
    assert (V1 : same_view db db1 ∧ rows db1 TLayer = rows db TLayer).
    { unfold tx_when in E1. case_match.
      - split; [by apply view_average in E1|]. apply writes_average in E1. apply E1. set_solver.
      - by injection E1 as _ <-. }
    destruct V1 as [V1 R1]. rewrite R1. split; [done|]. split; [by etrans|].
    exists item. split; [done|]. intros t i w. rewrite bool_decide_false by done.
    rewrite (layer_sum_rows t i w db) by congruence. lia.
Qed.

Hint Resolve writes_consume : writes.
Lemma view_issue now input : respects same_view (issue now input).
Proof.
  unfold issue, consumeFifoLayers, averageCost, write_cost, write_allocations.
  apply respects_bind; [exact _|by apply (view_writes []); [solve_writes|set_solver..]|].
  intros item. cbv zeta. apply respects_bind; [exact _| |intros als].
  { apply (view_writes [TLayer]); [solve_writes|set_solver..]. }
  apply respects_bind; [exact _| |intros u].
  { apply (view_writes [TMovement]); [solve_writes|set_solver..]. }
  apply respects_bind; [exact _| |intros u'].
  { apply (view_writes [TAllocation]); [solve_writes|set_solver..]. }
  apply respects_bind; [exact _|apply view_lock_valuation|intros u''].
  by intros db a db' [= _ <-].
Qed.

Lemma ids_lockItem tn i : respects keeps_ids (lockItem tn i).
Proof. unfold lockItem. solve_ids. Qed.
Lemma ids_issue now input : respects keeps_ids (issue now input).
Proof.
  assert (Hc : ∀ ls q, respects keeps_ids (consume_layers q ls)).
  { induction ls as [|l ls IH]; intros q; simpl; [solve_ids|]. unfold change_layer, column_result.
    solve_ids. }
  unfold issue, consumeFifoLayers, averageCost, write_cost, write_allocations, lock_valuation,
    to_column.
  apply respects_bind; [exact _|apply ids_lockItem|]. intros item. cbv zeta.
  solve_ids.
Qed.
Lemma ids_receive now input : respects keeps_ids (receive now input).
Proof.
  unfold receive, create_layer, updateMovingAverage, write_cost, lock_valuation, to_column.
  apply respects_bind; [exact _|apply ids_lockItem|]. intros item. solve_ids.
Qed.

(** ** The books after a step *)

(** The stock at one place changes by [d] units. *)
Definition moves_stock (itemId : string) (warehouseId : option string) (d : Z) (db db' : Db)
  : Prop :=
  ∀ P : _ → bool, stock_in P db' = stock_in P db + if P (warehouseId, itemId) then d else 0.

Lemma stock_in_same P db db' : stock_view db' = stock_view db → stock_in P db' = stock_in P db.
Proof.
  intros Hs. pose (g := λ v : string * option string * string * number,
    let '(_, w', i', q) := v in if P (w', i') then to_Z q else 0).
  assert (H : ∀ d, stock_in P d = sumZ (map g (stock_view d))).
  { intros d. unfold stock_in, stock_view. by rewrite map_map. }
  by rewrite !H, Hs.
Qed.
Lemma stock_in_view P db db' : same_view db db' → stock_in P db' = stock_in P db.
Proof. intros [Hs _]. by apply stock_in_same. Qed.
Lemma holds_same n db db' :
  stock_view db' = stock_view db → Forall (holds n) (rows db TStock) →
  Forall (holds n) (rows db' TStock).
Proof.
  intros Hs. pose (P := λ v : string * option string * string * number,
    ∃ z, v.2 = of_Z z ∧ 0 <= z <= n).
  assert (H : ∀ d, Forall (holds n) (rows d TStock) ↔ Forall P (stock_view d)).
  { intros d. unfold stock_view. by rewrite Forall_map. }
  by rewrite !H, Hs.
Qed.
Lemma holds_view n db db' :
  same_view db db' → Forall (holds n) (rows db TStock) → Forall (holds n) (rows db' TStock).
Proof. intros [Hs _]. by apply holds_same. Qed.
Lemma item_view_in db db' i :
  item_view db' = item_view db → i ∈ rows db' TItem →
  ∃ i0, i0 ∈ rows db TItem ∧ it_id i0 = it_id i ∧ it_tenantId i0 = it_tenantId i ∧
    (fifo_item i0 ↔ fifo_item i).
Proof.
  intros Hv Hi. pose proof (list_elem_of_fmap_2 (λ i : ItemRow, (it_id i, it_tenantId i,
    it_valuationMethod i)) _ _ Hi) as Hin. cbn [row] in *.
  change (_ <$> rows db' TItem) with (item_view db') in Hin. rewrite Hv in Hin.
  apply list_elem_of_fmap in Hin as (i0 & E & H0). injection E as E1 E2 E3.
  exists i0. unfold fifo_item. rewrite E1, E2, E3. done.
Qed.

Lemma balanced_after n n' tn i w d db db1 db2 :
  balanced n db → sound db2 → rows db1 TLayer = rows db TLayer → item_view db1 = item_view db →
  moves_stock i w d db db1 → Forall (holds n') (rows db1 TStock) →
  follows_by tn i w (d * million) db1 db2 → balanced n' db2.
Proof.
  intros [Hs Hg Hh Ha] Hs2 HL HI Hm Hh1 (Hg2 & V & item & (Hin & Hid & Htn) & Hsum).
  split; [done|done|by eapply holds_view|].
  intros x w' Hx Hf. destruct (item_view_in db1 db2 x) as (x1 & Hx1 & Eid & Etn & Hf1);
    [by destruct V|done|].
  destruct (item_view_in db db1 x1) as (x0 & Hx0 & Eid0 & Etn0 & Hf0); [done|done|].
  unfold stock_sum. rewrite Hsum, (stock_in_view _ db1), Hm by done. unfold place_of at 2.
  cbn [fst snd].
  rewrite (layer_sum_rows _ _ _ db) by done.
  rewrite <- Eid, <- Etn, <- Eid0, <- Etn0, (Ha x0) by tauto. unfold stock_sum.
  unfold at_place. destruct (decide (i = it_id x0)) as [->|Hn].
  2: { rewrite (bool_decide_false (i = _)), (bool_decide_false (it_id x0 = _)) by done.
       rewrite !andb_false_r. simpl. case_bool_decide; lia. }
  assert (Hk : NoDup (map it_id (rows db1 TItem))).
  { assert (E : map it_id (rows db1 TItem) = map it_id (rows db TItem)).
    { unfold item_view in HI. apply (f_equal (map (λ v, v.1.1))) in HI.
      by rewrite !map_map in HI. }
    rewrite E. apply (Hs TItem). }
  assert (item = x1) as -> by (apply (same_key it_id (rows db1 TItem)); [done..|congruence]).
  rewrite bool_decide_true by tauto. rewrite (bool_decide_true (tn = _)) by congruence.
  rewrite (bool_decide_true (it_id x0 = _)) by done. rewrite !andb_true_r. simpl.
  rewrite (bool_decide_ext (w' = w) (w = w')) by done. destruct (bool_decide (w = w')); ring.
Qed.

(** ** The writes of the operations *)

(** A change of one stock row: the books see [d] units move at its place. *)
Lemma write_stock n n' (p : StockRow → bool) f s d db :
  steady n db → n <= n' <= max_exact → s ∈ rows db TStock →
  p s = true → (∀ y, p y = true → st_id y = st_id s) →
  (∀ y, st_id (f y) = st_id y ∧ stock_place (f y) = stock_place y) →
  st_quantity (f s) = of_Z (units s + d) → 0 <= units s + d <= n' →
  let db' := on TStock (map_where p f) db in
  sound db' ∧ rows db' TLayer = rows db TLayer ∧ item_view db' = item_view db ∧
  moves_stock (st_inventoryItemId s) (st_warehouseId s) d db db' ∧
  Forall (holds n') (rows db' TStock).
Proof.
  intros [Hs Hh] Hn Hin Hps Hp Hf Hq Hd db'. unfold db'. split_and!.
  - apply sound_on; [|done]. apply map_where_keys. intros y. apply Hf.
  - by apply rows_on_other.
  - unfold item_view. by rewrite rows_on_other.
  - intros P. unfold stock_in. rewrite rows_on_same.
    etrans; [exact (sum_map_where st_id _ p f _ s (proj1 (Hs TStock)) Hin Hps Hp)|].
    f_equal. destruct (Hf s) as [_ ->]. change (_, _) with (stock_place s).
    destruct (P (stock_place s)); [|lia]. unfold units at 1. rewrite Hq, to_Z_of_Z by lia. lia.
  - rewrite rows_on_same. unfold map_where. apply Forall_map, Forall_forall. intros y Hy.
    rewrite Forall_forall in Hh. destruct (p y) eqn:Hpy.
    + assert (y = s) as ->.
      { apply (same_key st_id (rows db TStock)); [apply (Hs TStock)|done..|by apply Hp]. }
      by exists (units s + d).
    + destruct (Hh y Hy) as (z & ? & ?). exists z. split; [done|lia].
Qed.
(** A new stock row. *)
Lemma insert_stock n n' mk i w d db r db' :
  steady n db → n <= n' <= max_exact → insert TStock mk db = Ok (r, db') →
  (∀ x, st_id (mk x) = x ∧ stock_place (mk x) = (w, i) ∧ st_quantity (mk x) = of_Z d) →
  0 <= d <= n' →
  sound db' ∧ rows db' TLayer = rows db TLayer ∧ item_view db' = item_view db ∧
  moves_stock i w d db db' ∧ Forall (holds n') (rows db' TStock).
Proof.
  intros [Hs Hh] Hn E Hmk Hd. pose proof (insert_rows _ _ _ _ _ E) as [Er R].
  assert (O : only [TStock] db db') by (eapply only_insert; [by left|done]). split_and!.
  - eapply sound_insert; [|done..]. intros x. apply Hmk.
  - rewrite O by set_solver. done.
  - unfold item_view. by rewrite O by set_solver.
  - intros P. unfold stock_in. rewrite R, map_app.
    etrans; [exact (sumZ_app _ _)|]. f_equal. simpl. unfold units.
    destruct (Hmk (cuid (serial db))) as (_ & Epl & Eq). rewrite <- Er in Epl, Eq.
    rewrite Epl, Eq, to_Z_of_Z by lia. destruct (P (w, i)); lia.
  - rewrite R. apply Forall_app. split.
    + apply (Forall_impl _ _ _ Hh). intros y (z & ? & ?). exists z. split; [done|lia].
    + constructor; [|constructor]. exists d. rewrite Er. split; [apply Hmk|done].
Qed.

(** A movement is booked, and costing follows the change of stock before it. *)
Lemma book_movement_frame now d db m db' :
  book_movement now d db = Ok (m, db') →
  same_view db db' ∧ rows db' TLayer = rows db TLayer ∧ (sound db → sound db').
Proof.
  intros E. pose proof E as O. unfold book_movement in O. framed O [TMovement].
  split_and!; [by apply (view_only [TMovement]); [done|set_solver..]|apply O; set_solver|].
  assert (H : respects keeps_ids (book_movement now d)) by (unfold book_movement; solve_ids).
  by apply H in E.
Qed.
Lemma movement_by_id_frame i db m db' : movement_by_id i db = Ok (m, db') → db' = db.
Proof.
  unfold movement_by_id, load_row. intros E. apply tx_bind_ok in E as (r & d & [= <- <-] & E).
  case_match; [|done]. by injection E as _ <-.
Qed.
Lemma enter_ok tn i w db s db' :
  enter tn i w db = Ok (s, db') → db' = db ∧
  ∀ r, s = Some r → r ∈ rows db TStock ∧ st_warehouseId r = Some w ∧ st_inventoryItemId r = i.
Proof.
  unfold enter. intros E. apply tx_bind_ok in E as (u & d1 & E1 & E).
  assert (d1 = db) as ->.
  { unfold assertTenantStockScope in E1. apply tx_bind_ok in E1 as (it & d2 & [= <- <-] & E1).
    apply tx_bind_ok in E1 as (wh & d2 & [= <- <-] & E1).
    repeat case_match; try done. by apply tx_lift_ok in E1 as [_ ->]. }
  apply tx_bind_ok in E as (item & d1 & E2 & E). apply lockItem_ok in E2 as [-> _].
  injection E as <- <-. split; [done|]. intros r Hr. apply find_some_in in Hr as [Hr Hp].
  unfold stock_key in Hp. by bool_hyps.
Qed.

(** The end of an operation: the movement is booked, costing follows the [d] units the
    stock moved by, and the books balance again. *)
Lemma settled n n' tn i w d now mv db db1 m db2 db3 :
  balanced n db →
  (sound db1 ∧ rows db1 TLayer = rows db TLayer ∧ item_view db1 = item_view db ∧
   moves_stock i w d db db1 ∧ Forall (holds n') (rows db1 TStock)) →
  book_movement now mv db1 = Ok (m, db2) → sound db3 →
  (Forall on_grid (rows db2 TLayer) → follows_by tn i w (d * million) db2 db3) →
  balanced n' db3.
Proof.
  intros Hb (Hs & HL & HI & Hm & Hh) E Hs3 Hf.
  apply book_movement_frame in E as (V & HL2 & _).
  apply (balanced_after n n' tn i w d db db2); [done|done|congruence| | | |].
  - destruct V. congruence.
  - intros P. rewrite (stock_in_view _ db1) by done. apply Hm.
  - by eapply holds_view.
  - apply Hf. rewrite HL2, HL. by apply bk_layers in Hb.
Qed.

(** Whole quantities below the bound of a [Decimal(18, 6)] column. *)
Definition limit : Z := 10 ^ 12.
Definition quantity_ok (x : number) : Prop := ∃ q, x = of_Z q ∧ Z.abs q < limit.
Lemma limit_micro q : 0 < q < limit → 0 < q * million < micro_max.
Proof. unfold limit. literals. lia. Qed.
Lemma limit_exact : limit <= max_exact.
Proof. by vm_compute. Qed.

(** What an operation brings in. *)
Definition brings (x : number) : Z := Z.max 0 (to_Z x).

Lemma settle_issue n n' now input d mv db db1 m db2 out db3 :
  balanced n db → issue now input db2 = Ok (out, db3) →
  book_movement now mv db1 = Ok (m, db2) →
  (sound db1 ∧ rows db1 TLayer = rows db TLayer ∧ item_view db1 = item_view db ∧
   moves_stock (is_inventoryItemId input) (is_warehouseId input) (- d) db db1 ∧
   Forall (holds n') (rows db1 TStock)) →
  is_quantity input = of_Z d → 0 < d < limit →
  balanced n' db3.
Proof.
  intros Hb E Em H1 Hq Hd. pose proof (proj1 H1) as Hs1.
  assert (Hs2 : sound db2) by (apply book_movement_frame in Em as (_ & _ & Hs); auto).
  eapply (settled n n' (is_tenantId input)); [done|exact H1|done|by eapply ids_issue|].
  intros Hg. rewrite Z.mul_opp_l. eapply issue_effect; [done|done| | |exact E].
  - rewrite Hq. apply of_number_int. unfold limit in Hd. lia.
  - by apply limit_micro.
Qed.
Lemma settle_receive n n' now input d mv db db1 m db2 out db3 :
  balanced n db → receive now input db2 = Ok (out, db3) →
  book_movement now mv db1 = Ok (m, db2) →
  (sound db1 ∧ rows db1 TLayer = rows db TLayer ∧ item_view db1 = item_view db ∧
   moves_stock (rv_inventoryItemId input) (rv_warehouseId input) d db db1 ∧
   Forall (holds n') (rows db1 TStock)) →
  rv_quantity input = of_Z d → 0 < d < limit → (∀ x, rv_unitCost input = Some x → cost_ok x) →
  balanced n' db3.
Proof.
  intros Hb E Em H1 Hq Hd Hc. pose proof (proj1 H1) as Hs1.
  assert (Hs2 : sound db2) by (apply book_movement_frame in Em as (_ & _ & Hs); auto).
  eapply (settled n n' (rv_tenantId input)); [done|exact H1|done|by eapply ids_receive|].
  intros Hg. eapply receive_effect; [done| |by apply limit_micro|done|exact E].
  rewrite Hq. apply of_number_int. unfold limit in Hd. lia.
Qed.

Lemma stockIn_books n now tn dto u db out db' :
  balanced n db → 0 <= n → quantity_ok (si_quantity dto) → (0 < to_Z (si_quantity dto)) →
  (∀ c, si_unitCost dto = Some c → cost_ok (inl c)) →
  n + brings (si_quantity dto) < limit →
  stockIn_tx now tn dto u db = Ok (out, db') → balanced (n + brings (si_quantity dto)) db'.
Proof.
  intros Hb Hn0 (q & Hq & Hqb) Hpos Hc Hlim E. pose proof limit_exact as Hle.
  unfold brings in *. rewrite Hq, to_Z_of_Z in * by lia. rewrite Z.max_r in * by lia.
  unfold stockIn_tx in E. apply tx_bind_ok in E as (s & d0 & E0 & E).
  apply enter_ok in E0 as [-> Hs]. cbv zeta in E. rewrite Hq in E.
  apply tx_bind_ok in E as (v & db1 & E1 & E). apply tx_bind_ok in E as (m & db2 & E2 & E).
  apply tx_bind_ok in E as (v' & db3 & E3 & E). apply movement_by_id_frame in E as ->.
  refine (settle_receive n (n + q) _ _ q _ _ _ _ _ _ _ Hb E3 E2 _ eq_refl _ _); [|lia|]; simpl.
  2: { intros x. destruct (si_unitCost dto) as [c|]; [|done]. intros [= <-]. by apply Hc. }
  destruct s as [s|].
  - destruct (Hs s eq_refl) as (Hin & <- & <-). apply update_id_inv in E1 as [_ ->].
    destruct (steady_units n db s (balanced_steady _ _ Hb) ltac:(lia) Hin) as [Eu Hu].
    apply (write_stock n); [by apply balanced_steady|lia|done|by apply bool_decide_true| |done| |lia].
    + unfold has_id. intros y. by intros ?%bool_decide_eq_true_1.
    + simpl. rewrite Eu at 1. apply add_of_Z; lia.
  - apply tx_bind_ok in E1 as (r & d1 & E1 & E4). injection E4 as _ <-.
    apply (insert_stock n (n + q) _ _ _ _ _ _ _ (balanced_steady _ _ Hb) ltac:(lia) E1); [done|lia].
Qed.

(** A movement of nothing. *)
Lemma settle_none n n' i w now mv db db1 m db2 :
  balanced n db →
  (sound db1 ∧ rows db1 TLayer = rows db TLayer ∧ item_view db1 = item_view db ∧
   moves_stock i w 0 db db1 ∧ Forall (holds n') (rows db1 TStock)) →
  book_movement now mv db1 = Ok (m, db2) → balanced n' db2.
Proof.
  intros [Hs Hg Hh Ha] (Hs1 & HL & HI & Hm & Hh1) E.
  apply book_movement_frame in E as (V & HL2 & Hs2).
  split; [auto|by rewrite HL2, HL|by eapply holds_view|]. intros x w' Hx Hf.
  destruct (item_view_in db db2 x) as (x0 & Hx0 & <- & <- & Hf0); [|done|].
  { destruct V. congruence. }
  unfold stock_sum. rewrite (stock_in_view _ db1), Hm by done.
  rewrite (layer_sum_rows _ _ _ db) by congruence. rewrite (Ha x0) by tauto.
  unfold stock_sum. destruct (place_of _ _ _); ring.
Qed.

(** [write_quantity] and the units it moves. *)
Lemma write_quantity_ok n n' s q d db u db1 i w :
  steady n db → n <= n' <= max_exact →
  s ∈ rows db TStock ∧ st_warehouseId s = Some w ∧ st_inventoryItemId s = i →
  q = of_Z (units s + d) → 0 <= units s + d <= n' →
  write_quantity s q db = Ok (u, db1) →
  sound db1 ∧ rows db1 TLayer = rows db TLayer ∧ item_view db1 = item_view db ∧
  moves_stock i (Some w) d db db1 ∧ Forall (holds n') (rows db1 TStock).
Proof.
  intros Hb Hn (Hin & <- & <-) Hq Hd E. apply update_id_inv in E as [_ ->].
  apply (write_stock n); [done|done|done|by apply bool_decide_true| |done|done|done].
  unfold has_id. intros y. by intros ?%bool_decide_eq_true_1.
Qed.

Lemma adjustment_books n now tn dto u db out db' :
  balanced n db → 0 <= n → quantity_ok (sa_quantity dto) →
  (∀ c, sa_unitCost dto = Some c → cost_ok (inl c)) →
  n + brings (sa_quantity dto) < limit →
  adjustment_tx now tn dto u db = Ok (out, db') → balanced (n + brings (sa_quantity dto)) db'.
Proof.
  intros Hb Hn0 (q & Hq & Hqb) Hc Hlim E. pose proof limit_exact as Hle.
  unfold brings in *. rewrite Hq, to_Z_of_Z in * by lia.
  unfold adjustment_tx in E. apply tx_bind_ok in E as (s & d0 & E0 & E).
  apply enter_ok in E0 as [-> Hs]. destruct s as [s|]; [|done]. cbv zeta in E.
  specialize (Hs s eq_refl). rewrite Hq in E.
  destruct (steady_units n db s (balanced_steady _ _ Hb) ltac:(lia) (proj1 Hs)) as [Eu Hu].
  rewrite Eu, add_of_Z in E by lia.
  apply tx_bind_ok in E as (v & d1 & E1 & E). apply tx_lift_ok in E1 as [E1 ->].
  apply throw_if_ok in E1. rewrite ltb_of_Z in E1 by lia. apply Z.ltb_ge in E1.
  apply tx_bind_ok in E as (v1 & db1 & E2 & E). apply tx_bind_ok in E as (m & db2 & E3 & E).
  apply tx_bind_ok in E as (v2 & db3 & E4 & E). apply movement_by_id_frame in E as ->.
  apply (write_quantity_ok n (n + Z.max 0 q) s _ q _ _ _ _ _ (balanced_steady _ _ Hb) ltac:(lia) Hs eq_refl
    ltac:(lia)) in E2.
  unfold gtb in E4. rewrite !ltb_of_Z in E4 by (cbn; lia).
  destruct (Z.ltb_spec 0 q); [|destruct (Z.ltb_spec q 0)].
  - apply tx_bind_ok in E4 as (v3 & d4 & E4 & [= _ ->]).
    refine (settle_receive n _ _ _ q _ _ _ _ _ _ _ Hb E4 E3 E2 eq_refl _ _); [lia|]. simpl.
    intros x. destruct (sa_unitCost dto) as [c|]; [|done]. intros [= <-]. by apply Hc.
  - apply tx_bind_ok in E4 as (v3 & d4 & E4 & [= _ ->]). rewrite <- (Z.opp_involutive q) in E2.
    refine (settle_issue n _ _ _ (- q) _ _ _ _ _ _ _ Hb E4 E3 _ _ _); [|simpl|lia].
    + by rewrite Z.opp_involutive in E2 at 2.
    + unfold abs. change (Fin 0) with (of_Z 0). rewrite ltb_of_Z by (cbn; lia).
      destruct (Z.ltb_spec q 0); [|lia]. by apply neg_of_Z; lia.
  - injection E4 as _ <-. assert (q = 0) as -> by lia.
    by eapply (settle_none n); [| |exact E3].
Qed.

Lemma waste_books n now tn dto u db out db' :
  balanced n db → 0 <= n < limit → quantity_ok (wa_quantity dto) →
  0 < to_Z (wa_quantity dto) →
  waste_tx now tn dto u db = Ok (out, db') → balanced n db'.
Proof.
  intros Hb Hn0 (q & Hq & Hqb) Hpos E. pose proof limit_exact as Hle.
  rewrite Hq, to_Z_of_Z in * by lia.
  unfold waste_tx in E. apply tx_bind_ok in E as (s & d0 & E0 & E).
  apply enter_ok in E0 as [-> Hs]. destruct s as [s|]; [|done]. cbv zeta in E.
  specialize (Hs s eq_refl). rewrite Hq in E.
  destruct (steady_units n db s (balanced_steady _ _ Hb) ltac:(lia) (proj1 Hs)) as [Eu Hu].
  rewrite Eu in E.
  apply tx_bind_ok in E as (v & d1 & E1 & E). apply tx_lift_ok in E1 as [E1 ->].
  apply throw_if_ok in E1. rewrite ltb_of_Z in E1 by lia. apply Z.ltb_ge in E1.
  rewrite sub_of_Z in E by lia.
  apply tx_bind_ok in E as (v1 & db1 & E2 & E). apply tx_bind_ok in E as (m & db2 & E3 & E).
  apply tx_bind_ok in E as (v2 & db3 & E4 & E). apply movement_by_id_frame in E as ->.
  refine (settle_issue n n _ _ q _ _ _ _ _ _ _ Hb E4 E3 _ eq_refl _); [|lia]. simpl.
  apply (write_quantity_ok n n s _ (- q) _ _ _ _ _ (balanced_steady _ _ Hb) ltac:(lia) Hs eq_refl ltac:(lia) E2).
Qed.

End books.

#[export] Hint Resolve ids_lockItem ids_issue ids_receive : ids.
