(* ===== verification/FulfillmentFacts.v ===== *)
(** What the fulfillment guarantees: an order takes its stock once, when it is paid, and
    exactly what its lines need; with the manual operations, in any order, it keeps the
    books of the FIFO items balanced. *)

From stdpp Require Import base list strings option sets.
From Stdlib Require Import ZArith Lia.
From S2P Require Import Prelude JsNumber JsString DomainEvents CoreDomain MasterData Lifecycles.
From S2P Require Import PurchaseOrderAggregate Decimal Database Costing CostingFacts.
From S2P Require Import Receipts Reservations InventoryStock StockFacts.

Import Costing InventoryStock Fulfillment.

(** * One need of an order *)

Section fulfillment.
Context {dec : Decimal} {plat : Platform} {laws : DecimalLaws dec} {uniq : UniqueIds}.
Local Open Scope Z_scope.

(** A whole positive need. *)
Definition need_ok (x : number) : Prop := quantity_ok x ∧ 0 < to_Z x.

(** A run of [issue_stock]: the row it takes from, the movement, the issue. *)
Lemma issue_stock_run n now tn o ty what i x db u db' :
  steady n db → n <= max_exact → need_ok x →
  issue_stock now tn o ty what i x db = Ok (u, db') →
  ∃ s db1 m db2 out,
    (sound db1 ∧ rows db1 TLayer = rows db TLayer ∧ item_view db1 = item_view db ∧
     moves_stock i (st_warehouseId s) (- to_Z x) db db1 ∧ Forall (holds n) (rows db1 TStock)) ∧
    only [TStock] db db1 ∧ s ∈ rows db TStock ∧ st_inventoryItemId s = i ∧
    to_Z x <= units s ∧
    book_movement now
      {| sm_tenantId := tn; sm_warehouseId := st_warehouseId s; sm_inventoryItemId := i;
         sm_type := ty; sm_quantity := x; sm_before := of_Z (units s);
         sm_after := of_Z (units s - to_Z x); sm_note := None; sm_createdById := None;
         sm_reference := Some ("ORDER"%string, o) |} db1 = Ok (m, db2) ∧
    issue now {| is_tenantId := tn; is_inventoryItemId := i;
                 is_warehouseId := st_warehouseId s; is_quantity := x;
                 is_movementId := mv_id m |} db2 = Ok (out, db').
Proof.
  intros Hst Hn [(q & -> & Hq) Hpos] E. pose proof limit_exact as Hle.
  rewrite to_Z_of_Z in * by lia. unfold issue_stock in E.
  apply tx_bind_ok in E as (item & d0 & E0 & E). apply lockItem_ok in E0 as [-> _].
  apply tx_bind_ok in E as (s & d0 & E0 & E). unfold load_row in E0.
  apply tx_bind_ok in E0 as (f & d1 & [= <- <-] & E0).
  destruct (List.find _ _) as [s'|] eqn:Ef; [|done]. injection E0 as -> <-.
  apply find_some_in in Ef as [Hin Hp]. unfold stocks_of in Hp. bool_hyps.
  destruct (steady_units n db s Hst Hn Hin) as [Eu Hu]. rewrite Eu in E.
  apply tx_bind_ok in E as (v & d1 & E1 & E). apply tx_lift_ok in E1 as [E1 ->].
  apply throw_if_ok in E1. rewrite ltb_of_Z in E1 by lia. apply Z.ltb_ge in E1.
  rewrite sub_of_Z in E by lia.
  apply tx_bind_ok in E as (c & db1 & E2 & E). injection E2 as _ <-.
  apply tx_bind_ok in E as (v1 & d1 & E2 & E). apply tx_lift_ok in E2 as [_ ->].
  apply tx_bind_ok in E as (m & db2 & E3 & E). apply tx_bind_ok in E as (out & db3 & E4 & E).
  injection E as _ <-. exists s. eexists. exists m, db2, out.
  split; [|split; [|split_and!; [done|done|done|exact E3|exact E4]]];
    [|by apply only_on; set_solver].
  rewrite <- Hp. apply (write_stock n); [done|lia|done| | |done| |lia].
  - rewrite bool_decide_true, Eu by done. unfold geb. rewrite leb_of_Z by lia. simpl. lia.
  - intros y. by intros [?%bool_decide_eq_true_1 _]%andb_true_iff.
  - simpl. rewrite Eu at 1. by rewrite sub_of_Z by lia.
Qed.

Lemma issue_stock_books n now tn o ty what i x db u db' :
  balanced n db → n < limit → need_ok x →
  issue_stock now tn o ty what i x db = Ok (u, db') → balanced n db'.
Proof.
  intros Hb Hn Hx E. pose proof limit_exact. pose proof (balanced_steady _ _ Hb) as Hst.
  apply (issue_stock_run n) in E as (s & db1 & m & db2 & out & H1 & _ & Hin & _ & Hle & E3 & E4);
    [|done|lia|done].
  destruct (steady_units n db s Hst ltac:(lia) Hin) as [_ Hu].
  destruct Hx as [(q & -> & Hq) Hpos]. rewrite to_Z_of_Z in * by lia.
  refine (settle_issue n n _ _ q _ _ _ _ _ _ _ Hb E4 E3 H1 eq_refl _). lia.
Qed.

(** ** The needs of an order

    An order line needs quantities of items; the loop bodies of the two fulfillments are
    the loop over its needs. *)

Record Need := { nd_what : string; nd_item : string; nd_quantity : number }.
Definition issue_need now tn (o : string) ty (x : Need) : Tx Db unit :=
  issue_stock now tn o ty (nd_what x) (nd_item x) (nd_quantity x).
Class FulfillmentBody now tn (body : string → OrderLine → Tx Db unit)
    (ty : InventoryMovementType) (needs : OrderLine → list Need) : Prop :=
  body_needs o l db : body o l db = tx_for_each (issue_need now tn o ty) (needs l) db.

Definition retail_needs (l : OrderLine) : list Need :=
  let item := match line_inventoryItem l with Some i => Some i | None => line_inventoryItemId l end in
  if truthy item
  then [{| nd_what := line_productName l; nd_item := default "" item;
           nd_quantity := line_quantity l |}]
  else [].
Definition cafe_needs (l : OrderLine) : list Need :=
  match line_recipe l with
  | Some recipe => map (λ r, {| nd_what := "ingredient " +:+ rl_itemName r;
                                nd_item := rl_itemId r;
                                nd_quantity := mul (rl_quantity r) (line_quantity l) |}) recipe
  | None => []
  end.
#[export] Instance retail_body now tn :
  FulfillmentBody now tn (retail_line now tn) SALE retail_needs.
Proof.
  intros o l db. unfold retail_line, retail_needs. destruct (truthy _); [|done]. simpl.
  unfold mbind, tx_bind, issue_need. simpl. by destruct (issue_stock _ _ _ _ _ _ _ _) as [[[] ?]|].
Qed.
#[export] Instance cafe_body now tn :
  FulfillmentBody now tn (cafe_line now tn) CONSUMPTION cafe_needs.
Proof.
  intros o l db. unfold cafe_line, cafe_needs. destruct (line_recipe l) as [rs|]; [|done].
  revert db. induction rs as [|r rs IH]; intros db; [done|]. simpl. unfold mbind, tx_bind, issue_need.
  simpl. destruct (issue_stock _ _ _ _ _ _ _ _) as [[[] d]|]; [|done]. apply IH.
Qed.

Lemma for_each_needs {A B} (body : A → Tx Db unit) (step : B → Tx Db unit) needs ls db :
  (∀ l db, body l db = tx_for_each step (needs l) db) →
  tx_for_each body ls db = tx_for_each step (concat (map needs ls)) db.
Proof.
  intros Hb. revert db. induction ls as [|l ls IH]; intros db; [done|]. simpl.
  transitivity ((tx_for_each step (needs l) ≫= λ _, tx_for_each body ls) db).
  { unfold mbind, tx_bind. by rewrite Hb. }
  generalize (needs l) db. clear Hb db. intros xs. induction xs as [|x xs IHx]; intros db; simpl.
  { apply IH. }
  unfold mbind, tx_bind in *. destruct (step x db) as [[[] d]|]; [|done]. apply IHx.
Qed.

(** What is on hand of an item, over all places, and what an order needs of it. *)
Definition on_hand (i : string) : Db → Z := stock_in (λ p, bool_decide (snd p = i)).
Definition needed (i : string) (xs : list Need) : Z :=
  sumZ (map (λ x, if bool_decide (nd_item x = i) then to_Z (nd_quantity x) else 0) xs).
(** The columns of a movement that costing does not write. *)
Definition moved (m : MovementRow) :=
  (mv_tenantId m, mv_type m, mv_inventoryItemId m, mv_quantity m,
   (mv_referenceType m, mv_referenceId m)).
Definition movements (db : Db) := map moved (rows db TMovement).
Definition same_movements (db db' : Db) : Prop := movements db' = movements db.
#[export] Instance same_movements_preorder : PreOrder same_movements.
Proof. unfold same_movements. split; [by intros db|intros d1 d2 d3; congruence]. Qed.

Lemma movements_writes {A} ts (m : Tx Db A) :
  writes ts m → TMovement ∉ ts → respects same_movements m.
Proof.
  intros Hm Hn. eapply respects_writes; [exact Hm|]. intros db db' O.
  unfold same_movements, movements. by rewrite O.
Qed.
Hint Resolve writes_consume : writes.
Lemma movements_issue now input : respects same_movements (issue now input).
Proof.
  unfold issue, consumeFifoLayers, averageCost, write_cost, write_allocations, lock_valuation.
  apply respects_bind; [exact _|by apply (movements_writes []); [solve_writes|set_solver]|].
  intros item. cbv zeta. apply respects_bind; [exact _| |intros als].
  { apply (movements_writes [TLayer]); [solve_writes|set_solver]. }
  apply respects_bind; [exact _| |intros u].
  { apply respects_bind; [exact _| |intros a]; [by apply (movements_writes []); [solve_writes|set_solver]|].
    apply respects_bind; [exact _| |intros b]; [by apply (movements_writes []); [solve_writes|set_solver]|].
    intros db c db' [_ ->]%update_id_inv. unfold same_movements, movements.
    rewrite rows_on_same. by apply (view_where (A := MovementRow)). }
  apply (movements_writes [TAllocation; TItem]); [solve_writes|set_solver].
Qed.

Definition fulfillment_tables : list table := [TStock; TMovement; TLayer; TAllocation; TItem].

Lemma issue_need_ok n now tn o ty x db u db' :
  steady n db → n <= max_exact → need_ok (nd_quantity x) →
  issue_need now tn o ty x db = Ok (u, db') →
  steady n db' ∧ only fulfillment_tables db db' ∧
  (∀ i, on_hand i db' = on_hand i db - needed i [x]) ∧
  movements db' = movements db ++
    [(tn, ty, nd_item x, nd_quantity x, (Some "ORDER"%string, Some o))].
Proof.
  intros Hst Hn Hx E. apply (issue_stock_run n) in E
    as (s & db1 & m & db2 & out & (Hs1 & HL & HI & Hm & Hh) & O1 & Hin & Hi & Hle & E3 & E4);
    [|done..].
  pose proof (book_movement_frame _ _ _ _ _ E3) as (V2 & _ & Hs2).
  pose proof (view_issue _ _ _ _ _ E4) as V3. pose proof (movements_issue _ _ _ _ _ E4) as M3.
  pose proof E3 as O2. unfold book_movement in O2. framed O2 [TMovement].
  pose proof E4 as O3. apply (writes_costing_issue fulfillment_tables) in O3;
    [|unfold issue_tables, fulfillment_tables; set_solver].
  split_and!.
  - split; [eapply ids_issue; [exact E4|auto]|]. eapply holds_view; [exact V3|].
    by eapply holds_view.
  - unfold fulfillment_tables in *. eapply only_trans; [|exact O3].
    eapply only_trans; (eapply only_weaken; [|eassumption]); set_solver.
  - intros i. unfold on_hand. rewrite (stock_in_view _ db2), (stock_in_view _ db1), Hm by done.
    unfold needed. simpl. case_bool_decide; lia.
  - rewrite M3. pose proof (insert_rows TMovement _ _ _ _ E3) as [Em R].
    unfold movements. rewrite R, map_app, Em. simpl. by rewrite O1 by set_solver.
Qed.

Lemma needs_ok n now tn o ty xs : n <= max_exact → ∀ db u db',
  steady n db → Forall (λ x, need_ok (nd_quantity x)) xs →
  tx_for_each (issue_need now tn o ty) xs db = Ok (u, db') →
  steady n db' ∧ only fulfillment_tables db db' ∧
  (∀ i, on_hand i db' = on_hand i db - needed i xs) ∧
  movements db' = movements db ++
    map (λ x, (tn, ty, nd_item x, nd_quantity x, (Some "ORDER"%string, Some o))) xs.
Proof.
  intros Hn. induction xs as [|x xs IH]; intros db u db' Hst Hx E.
  { injection E as _ <-. split_and!; [done|apply only_refl| |by rewrite app_nil_r].
    intros i. unfold needed. simpl. lia. }
  apply Forall_cons in Hx as [Hx Hxs]. simpl in E. apply tx_bind_ok in E as (v & d & E1 & E).
  apply (issue_need_ok n) in E1 as (Hst1 & O1 & H1 & M1); [|done..].
  apply IH in E as (Hst2 & O2 & H2 & M2); [|done..]. split_and!.
  - done.
  - by eapply only_trans.
  - intros i. rewrite H2, H1. unfold needed. simpl. lia.
  - rewrite M2, M1. by rewrite <- app_assoc.
Qed.

(** ** An order *)

Lemma writes_issue_stock now tn o ty what i x :
  writes fulfillment_tables (issue_stock now tn o ty what i x).
Proof.
  unfold issue_stock, book_movement, fulfillment_tables. solve_writes.
Qed.

Section order.
Context (now : Date) (tn : string) (ty : InventoryMovementType) (needs : OrderLine → list Need).

(** What an order takes: nothing when a committed reservation already did. *)
Definition takes (o : SalesOrderRow) (db : Db) : list Need :=
  match List.find (Reservations.refers tn (so_id o) Reservations.COMMITTED_RESERVATION_REF)
          (rows db TMovement) with
  | Some _ => []
  | None => concat (map needs (so_SalesOrderItem o))
  end.
Definition is_order (orderId : string) (db : Db) (s : OrderStatus) (o : SalesOrderRow) : Prop :=
  List.find (Reservations.of_tenant orderId tn) (rows db TSalesOrder) = Some o ∧ so_status o = s.
(** The order is paid, its stock is taken, and it becomes completed; [n] rows are updated. *)
Definition taken_by (n : nat) (oid : string) (db db' : Db) : Prop :=
  ∃ o db1, is_order oid db PAID o ∧
    tx_for_each (issue_need now tn (so_id o) ty) (takes o db) db = Ok (tt, db1) ∧
    update_many TSalesOrder (λ x, Reservations.of_tenant (so_id o) tn x &&
      bool_decide (so_status x = PAID)) (set_so_status OrderCOMPLETED) db1 = Ok (n, db').

Lemma fulfill_tx_cases `{FulfillmentBody now tn body ty needs} oid db out db' :
  fulfill_tx body oid tn db = Ok (out, db') →
  (out = false ∧ db' = db ∧ ∃ o, is_order oid db OrderCOMPLETED o) ∨
  ∃ n, out = (n =? 1)%nat ∧ taken_by n oid db db'.
Proof.
  unfold fulfill_tx, load_row. intros E. apply tx_bind_ok in E as (o & d & E1 & E).
  apply tx_bind_ok in E1 as (f & d1 & [= <- <-] & E1). cbn [row] in *.
  destruct (List.find (Reservations.of_tenant oid tn) (rows db TSalesOrder)) as [o'|] eqn:Ho;
    [|done].
  injection E1 as -> <-. case_bool_decide as Hc.
  { injection E as <- <-. left. split_and!; [done..|]. by exists o. }
  apply tx_bind_ok in E as (u & d & E1 & E). apply tx_lift_ok in E1 as [E1 ->].
  apply throw_if_ok in E1. bool_hyps. right.
  apply tx_bind_ok in E as (c & d & [= <- <-] & E).
  apply tx_bind_ok in E as ([] & d & E2 & E). apply tx_bind_ok in E as (n & d' & E3 & E).
  injection E as <- <-. exists n. split; [done|]. exists o, d. split; [done|].
  split; [|exact E3].
  rewrite (for_each_needs _ (issue_need now tn (so_id o) ty) needs) in E2 by apply body_needs.
  rewrite <- E2. unfold takes. cbn [row] in *.
  by destruct (List.find (Reservations.refers tn (so_id o) _) (rows db TMovement)).
Qed.

Lemma needs_writes o xs : writes fulfillment_tables (tx_for_each (issue_need now tn o ty) xs).
Proof. apply writes_for_each. intros x. apply writes_issue_stock. Qed.

Lemma set_so_status_key oid s (o : SalesOrderRow) :
  Reservations.of_tenant oid tn (set_so_status s o) = Reservations.of_tenant oid tn o.
Proof. done. Qed.

(** Afterwards the order is completed. *)
Lemma taken_completed n oid db db' :
  taken_by n oid db db' → ∃ o, is_order oid db' OrderCOMPLETED o.
Proof.
  intros (o & db1 & [Ho Hp] & E1 & [= _ <-]). apply needs_writes in E1.
  eexists. unfold is_order. rewrite rows_on_same.
  rewrite (find_map_where (A := SalesOrderRow)) by done.
  rewrite E1 by (unfold fulfillment_tables; set_solver). rewrite Ho. simpl.
  apply find_some_in in Ho as [_ Ht]. unfold Reservations.of_tenant in *. bool_hyps.
  by rewrite !bool_decide_true by done.
Qed.
Lemma completed_refused body oid db o :
  is_order oid db OrderCOMPLETED o → fulfill_tx body oid tn db = Ok (false, db).
Proof.
  intros [Ho Hs]. unfold fulfill_tx, load_row. unfold mbind, tx_bind, select_first. cbn [row] in *.
  rewrite Ho. unfold mret, tx_ret. by rewrite bool_decide_true.
Qed.

(** The stock it takes. *)
Lemma taken_stock n c oid db db' :
  steady n db → n <= max_exact → taken_by c oid db db' →
  (∀ o, is_order oid db PAID o → Forall (λ x, need_ok (nd_quantity x)) (takes o db)) →
  c = 1%nat ∧ ∃ o, is_order oid db PAID o ∧
    (∀ i, on_hand i db' = on_hand i db - needed i (takes o db)) ∧
    movements db' = movements db ++
      map (λ x, (tn, ty, nd_item x, nd_quantity x, (Some "ORDER"%string, Some (so_id o))))
        (takes o db) ∧
    rows db' TSalesOrder =
      map_where (has_id TSalesOrder (so_id o)) (set_so_status OrderCOMPLETED) (rows db TSalesOrder).
Proof.
  intros Hst Hn (o & db1 & Ho & E1 & [= <- <-]) Hx.
  assert (Hrow : ∀ x, Reservations.of_tenant (so_id o) tn x && bool_decide (so_status x = PAID) =
    true → so_id x = so_id o).
  { intros x Hp'. unfold Reservations.of_tenant in Hp'. by bool_hyps. }
  assert (Hself : Reservations.of_tenant (so_id o) tn o && bool_decide (so_status o = PAID) = true
    ∧ o ∈ rows db TSalesOrder).
  { destruct Ho as [Ho Hp]. pose proof (find_some_in _ _ _ Ho) as [Hin Ht].
    unfold Reservations.of_tenant in *. bool_hyps. by rewrite !bool_decide_true by done. }
  destruct Hself as [Hself Hin]. split.
  { pose proof (needs_writes _ _ _ _ _ E1) as O.
    rewrite O by (unfold fulfillment_tables; set_solver).
    pose proof (keyed_filter TSalesOrder _ o db (proj1 (proj1 Hst TSalesOrder)) Hin Hself Hrow)
      as Hone. cbn [row] in *. by rewrite Hone. }
  exists o. split; [done|]. pose proof E1 as E2. apply (needs_ok n) in E2 as (_ & O & Hh & Hm); [|done|done|by apply Hx].
  split_and!.
  - intros i. rewrite <- Hh. unfold on_hand, stock_in. by rewrite rows_on_other.
  - rewrite <- Hm. unfold movements. by rewrite rows_on_other.
  - rewrite rows_on_same. rewrite O by (unfold fulfillment_tables; set_solver).
    apply (keyed_map_where TSalesOrder _ _ o); [apply Hst|done..].
Qed.

End order.

(** ** Fulfillment by business type *)

Definition needs_of (b : BusinessType) : OrderLine → list Need :=
  match b with RETAIL => retail_needs | CAFE => cafe_needs | _ => λ _, [] end.
(** What the orders of a store need is whole and positive. *)
Definition whole_orders (db : Db) : Prop :=
  ∀ o b, o ∈ rows db TSalesOrder →
    Forall (λ x, need_ok (nd_quantity x)) (concat (map (needs_of b) (so_SalesOrderItem o))).
Lemma whole_takes tn b o db :
  whole_orders db → o ∈ rows db TSalesOrder →
  Forall (λ x, need_ok (nd_quantity x)) (takes tn (needs_of b) o db).
Proof. intros Hw Ho. unfold takes. case_match; [constructor|]. by apply Hw. Qed.

Definition type_of (b : BusinessType) : InventoryMovementType :=
  match b with CAFE => CONSUMPTION | _ => SALE end.
(** The transaction of a business type that has one. *)
Definition fulfillment now tn (b : BusinessType) (oid : string) : option (Tx Db bool) :=
  match b with
  | RETAIL => Some (fulfillRetail now oid tn)
  | CAFE => Some (fulfillCafe now oid tn)
  | _ => None
  end.
Lemma fulfillment_cases now tn b oid m db out db' :
  fulfillment now tn b oid = Some m → m db = Ok (out, db') →
  (out = false ∧ db' = db ∧ ∃ o, is_order tn oid db OrderCOMPLETED o) ∨
  ∃ n, out = (n =? 1)%nat ∧ taken_by now tn (type_of b) (needs_of b) n oid db db'.
Proof.
  intros Hm E. destruct b; simplify_eq/=; by eapply fulfill_tx_cases; [apply _|exact E].
Qed.
Lemma fulfillment_completed now tn b oid m db o :
  fulfillment now tn b oid = Some m → is_order tn oid db OrderCOMPLETED o →
  m db = Ok (false, db).
Proof. intros Hm Ho. destruct b; simplify_eq/=; by eapply completed_refused. Qed.

(** [processOrder] by cases. *)
Lemma processOrder_cases now between oid tn db out db' :
  processOrder now between oid tn db = (out, db') →
  (∃ e, out = Err e ∧ db' = db) ∨
  ∃ t m, List.find (has_id TTenant tn) (rows db TTenant) = Some t ∧
    fulfillment now tn (tn_businessType t) oid = Some m ∧
    transaction m (between db) = (out, db').
Proof.
  unfold processOrder, resolveTenantBusinessType, load_row, select_first, mbind, tx_bind.
  destruct (List.find (has_id TTenant tn) (rows db TTenant)) as [t|].
  2: { simpl. intros [= <- <-]. left. by eexists. }
  simpl. destruct (tn_businessType t) eqn:Hb; try (intros [= <- <-]; left; by eexists);
    intros E; right; exists t; rewrite Hb; eexists; split_and!; try done; exact E.
Qed.

End fulfillment.

(** * Histories *)

Section histories.
Context {dec : Decimal} {plat : Platform} {laws : DecimalLaws dec} {uniq : UniqueIds}.
Local Open Scope Z_scope.

(** The transactions that change the stock of FIFO items outside purchase orders,
    transfers and reservations. *)
Inductive StockOp :=
| StockIn (now : Date) (tn : string) (dto : StockInDto) (userId : string)
| Adjust (now : Date) (tn : string) (dto : StockAdjustmentDto) (userId : string)
| Waste (now : Date) (tn : string) (dto : WasteDto) (userId : string)
| FulfillRetail (now : Date) (orderId tn : string)
| FulfillCafe (now : Date) (orderId tn : string).
Definition run (op : StockOp) (db : Db) : Db :=
  match op with
  | StockIn now tn dto u => snd (stockIn now tn dto u db)
  | Adjust now tn dto u => snd (adjustment now tn dto u db)
  | Waste now tn dto u => snd (waste now tn dto u db)
  | FulfillRetail now o tn => snd (transaction (fulfillRetail now o tn) db)
  | FulfillCafe now o tn => snd (transaction (fulfillCafe now o tn) db)
  end.
Definition run_all (ops : list StockOp) (db : Db) : Db := fold_left (λ db op, run op db) ops db.

(** What the DTOs validate: whole quantities, positive where the code takes or receives
    them, and costs of at most six decimals. *)
Definition op_ok (op : StockOp) : Prop :=
  match op with
  | StockIn _ _ dto _ => need_ok (si_quantity dto) ∧
      (∀ c, si_unitCost dto = Some c → cost_ok (inl c))
  | Adjust _ _ dto _ => quantity_ok (sa_quantity dto) ∧
      (∀ c, sa_unitCost dto = Some c → cost_ok (inl c))
  | Waste _ _ dto _ => need_ok (wa_quantity dto)
  | _ => True
  end.
(** The units an operation may add to a stock row. *)
Definition op_brings (op : StockOp) : Z :=
  match op with
  | StockIn _ _ dto _ => brings (si_quantity dto)
  | Adjust _ _ dto _ => brings (sa_quantity dto)
  | _ => 0
  end.
Definition bring_all (ops : list StockOp) : Z := sumZ (map op_brings ops).

Lemma brings_nonneg op : 0 <= op_brings op.
Proof. destruct op; simpl; unfold brings; lia. Qed.
Lemma bring_all_nonneg ops : 0 <= bring_all ops.
Proof.
  unfold bring_all. apply sumZ_nonneg, Forall_map, Forall_forall. intros op _. apply brings_nonneg.
Qed.

Lemma balanced_weaken n n' db : n <= n' → balanced n db → balanced n' db.
Proof.
  intros Hn [Hs Hg Hh Ha]. split; [done|done| |done]. apply (Forall_impl _ _ _ Hh).
  intros s (z & ? & ?). exists z. split; [done|lia].
Qed.
Lemma needs_books n now tn o ty xs : n < limit → ∀ db u db',
  balanced n db → Forall (λ x, need_ok (nd_quantity x)) xs →
  tx_for_each (issue_need now tn o ty) xs db = Ok (u, db') → balanced n db'.
Proof.
  intros Hn. induction xs as [|x xs IH]; intros db u db' Hb Hx E.
  { by injection E as _ <-. }
  apply Forall_cons in Hx as [Hx Hxs]. simpl in E. apply tx_bind_ok in E as (v & d & E1 & E).
  eapply IH; [|done|exact E]. by eapply issue_stock_books.
Qed.
Lemma balanced_orders n p f db :
  (∀ o, so_id (f o) = so_id o) → balanced n db → balanced n (on TSalesOrder (map_where p f) db).
Proof.
  intros Hf [Hs Hg Hh Ha]. split.
  - apply sound_on; [|done]. by apply map_where_keys.
  - by rewrite rows_on_other.
  - by rewrite rows_on_other.
  - intros i w. rewrite rows_on_other by done. intros Hi Hfi. unfold layer_sum, stock_sum, stock_in.
    rewrite !rows_on_other by done. by apply Ha.
Qed.
Lemma fulfillment_books n now tn b oid m db out db' :
  balanced n db → n < limit → whole_orders db → fulfillment now tn b oid = Some m →
  m db = Ok (out, db') → balanced n db'.
Proof.
  intros Hb Hn Hw Hm E. eapply fulfillment_cases in E as [(_ & -> & _)|H]; [done| |done].
  destruct H as (c & _ & o & db1 & [Ho _] & E & [= _ <-]). apply balanced_orders; [done|].
  eapply needs_books; [done|done| |exact E]. apply whole_takes; [done|].
  by apply find_some_in in Ho as [? _].
Qed.

Lemma transaction_snd {S A} (m : Tx S A) (P : S → Prop) s :
  P s → (∀ a s', m s = Ok (a, s') → P s') → P (snd (transaction m s)).
Proof. intros H0 H. unfold transaction. destruct (m s) as [[a s']|] eqn:E; [by eapply H|done]. Qed.

(** One operation. *)
Lemma run_books n op db :
  balanced n db → 0 <= n → op_ok op → whole_orders db → n + op_brings op < limit →
  balanced (n + op_brings op) (run op db).
Proof.
  intros Hb Hn Hop Hw Hlim. pose proof (brings_nonneg op) as Hpos.
  assert (Hb' : balanced (n + op_brings op) db) by (eapply balanced_weaken; [|done]; lia).
  destruct op; simpl in *; unfold stockIn, adjustment, waste; apply transaction_snd; try done;
    intros out db' E.
  - destruct Hop as [[Hq Hp] Hc]. by eapply stockIn_books.
  - destruct Hop as [Hq Hc]. by eapply adjustment_books.
  - destruct Hop as [Hq Hp]. rewrite Z.add_0_r in *. by eapply waste_books.
  - rewrite Z.add_0_r in *. by eapply (fulfillment_books n _ _ RETAIL).
  - rewrite Z.add_0_r in *. by eapply (fulfillment_books n _ _ CAFE).
Qed.

(** The needs of the orders do not change. *)
Definition same_lines (db db' : Db) : Prop :=
  map so_SalesOrderItem (rows db' TSalesOrder) = map so_SalesOrderItem (rows db TSalesOrder).
Lemma whole_orders_lines db db' : same_lines db db' → whole_orders db → whole_orders db'.
Proof.
  intros Hl Hw o b Ho. apply (list_elem_of_fmap_2 so_SalesOrderItem) in Ho.
  change (so_SalesOrderItem <$> rows db' TSalesOrder)
    with (map so_SalesOrderItem (rows db' TSalesOrder)) in Ho.
  rewrite Hl in Ho. apply list_elem_of_fmap in Ho as (o' & -> & Ho). by apply Hw.
Qed.
Lemma writes_enter ts tn i w : writes ts (enter tn i w).
Proof. unfold enter, assertTenantStockScope. solve_writes. Qed.
Hint Resolve writes_enter : writes.
Definition stock_tables : list table := [TStock; TMovement; TLayer; TAllocation; TItem].
Lemma writes_stockIn now tn dto u : writes stock_tables (stockIn_tx now tn dto u).
Proof.
  unfold stockIn_tx, book_movement, movement_by_id, load_row, stock_tables. solve_writes.
Qed.
Lemma writes_adjustment now tn dto u : writes stock_tables (adjustment_tx now tn dto u).
Proof.
  unfold adjustment_tx, write_quantity, book_movement, movement_by_id, load_row, stock_tables.
  solve_writes.
Qed.
Lemma writes_waste now tn dto u : writes stock_tables (waste_tx now tn dto u).
Proof.
  unfold waste_tx, write_quantity, book_movement, movement_by_id, load_row, stock_tables.
  solve_writes.
Qed.
Lemma lines_only db db' : only stock_tables db db' → same_lines db db'.
Proof. intros O. unfold same_lines. by rewrite O by (unfold stock_tables; set_solver). Qed.
Lemma fulfillment_lines now tn b oid m db out db' :
  fulfillment now tn b oid = Some m → m db = Ok (out, db') → same_lines db db'.
Proof.
  intros Hm E. eapply fulfillment_cases in E as [(_ & -> & _)|H]; [done| |done].
  destruct H as (c & _ & o & db1 & _ & E & [= _ <-]). apply needs_writes in E.
  unfold same_lines. rewrite rows_on_same. rewrite <- (E TSalesOrder)
    by (unfold fulfillment_tables; set_solver). by apply (view_where (A := SalesOrderRow)).
Qed.
Lemma run_lines op db : same_lines db (run op db).
Proof.
  destruct op; simpl; unfold stockIn, adjustment, waste; apply transaction_snd; try done;
    intros out db' E.
  - apply lines_only. by eapply writes_stockIn.
  - apply lines_only. by eapply writes_adjustment.
  - apply lines_only. by eapply writes_waste.
  - by eapply (fulfillment_lines _ _ RETAIL).
  - by eapply (fulfillment_lines _ _ CAFE).
Qed.

(** C13: The books of every FIFO item stay balanced.  Where they balance - in every warehouse
    the cost layers hold exactly the units in stock, none of them negative - they still
    balance after any sequence of stock-ins, adjustments, wastes and fulfillments, of any
    tenants and in any order, whether the calls succeed or throw.  (Quantities are whole, as
    the DTOs validate, unit costs have six decimals, and all that is brought in stays below
    10^12.) *)
Theorem books_balanced (n : Z) (ops : list StockOp) (db : Db) :
  balanced n db → 0 <= n → whole_orders db → Forall op_ok ops → n + bring_all ops < limit →
  balanced (n + bring_all ops) (run_all ops db).
Proof.
  unfold run_all, bring_all. revert n db. induction ops as [|op ops IH];
    intros n db Hb Hn Hw Hops Hlim; simpl in *.
  { by rewrite Z.add_0_r. }
  apply Forall_cons in Hops as [Hop Hops]. pose proof (brings_nonneg op).
  pose proof (bring_all_nonneg ops) as Hr. unfold bring_all in Hr. rewrite Z.add_assoc in *.
  apply IH; [|lia| |done|done].
  - apply run_books; [done..|lia].
  - eapply whole_orders_lines; [apply run_lines|done].
Qed.

(** C14: A fulfillment takes exactly what the order needs, or has no effect.  When
    [processOrder] answers true the order was paid and is now completed, no other order
    changed, of every item the stock on hand went down by exactly what the lines need - by
    nothing when a committed reservation had taken it - and one movement per need refers to
    the order.  When it answers false the order was completed already; then, and when it
    throws, nothing changed. *)
Theorem order_fulfilled (n : Z) (now : Date) (between : Db → Db) (oid tn : string)
    (db : Db) (out : result bool) (db' : Db) :
  processOrder now between oid tn db = (out, db') →
  steady n (between db) → n <= max_exact → whole_orders (between db) →
  match out with
  | Err _ => db' = db ∨ db' = between db
  | Ok answer => ∃ t o, List.find (has_id TTenant tn) (rows db TTenant) = Some t ∧
      if answer then
        let xs := takes tn (needs_of (tn_businessType t)) o (between db) in
        is_order tn oid (between db) PAID o ∧
        (∀ i, on_hand i db' = on_hand i (between db) - needed i xs) ∧
        movements db' = movements (between db) ++
          map (λ x, (tn, type_of (tn_businessType t), nd_item x, nd_quantity x,
                     (Some "ORDER"%string, Some (so_id o)))) xs ∧
        rows db' TSalesOrder = map_where (has_id TSalesOrder (so_id o))
          (Fulfillment.set_so_status OrderCOMPLETED) (rows (between db) TSalesOrder)
      else is_order tn oid (between db) OrderCOMPLETED o ∧ db' = between db
  end.
Proof.
  intros E Hst Hn Hw. apply processOrder_cases in E as [(e & -> & ->)|(t & m & Ht & Hm & E)];
    [by left|].
  unfold transaction in E. destruct (m (between db)) as [[answer d]|e] eqn:Em;
    injection E as <- <-; [|by right].
  exists t. pose proof Em as H.
  eapply fulfillment_cases in H as [(-> & -> & o & Ho)|(c & -> & H)]; [by exists o| |done].
  pose proof H as H'. apply (taken_stock _ _ _ _ n) in H' as (-> & o & Ho & Hh & Hmv & Hr);
    [by exists o|done..|].
  intros o [Ho _]. apply whole_takes; [done|]. by apply find_some_in in Ho as [? _].
Qed.

(** The answers of the calls for one order, with what commits before and in each. *)
Fixpoint answers (oid tn : string) (calls : list (Date * (Db → Db) * (Db → Db))) (db : Db)
  : list (result bool) :=
  match calls with
  | [] => []
  | (now, before, between) :: calls =>
      let (out, db') := processOrder now between oid tn (before db) in
      out :: answers oid tn calls db'
  end.
Definition keeps_completed (oid tn : string) (f : Db → Db) : Prop :=
  ∀ db o, is_order tn oid db OrderCOMPLETED o → ∃ o', is_order tn oid (f db) OrderCOMPLETED o'.

Lemma completed_answers oid tn calls : ∀ db o,
  Forall (λ c, keeps_completed oid tn c.1.2 ∧ keeps_completed oid tn c.2) calls →
  is_order tn oid db OrderCOMPLETED o → Ok true ∉ answers oid tn calls db.
Proof.
  induction calls as [|[[now before] between] calls IH]; intros db o Hf Ho; simpl;
    [by intros ?%elem_of_nil|].
  apply Forall_cons in Hf as [[Hb Hw] Hf]. simpl in Hb, Hw. apply Hb in Ho as [o1 Ho1].
  destruct (processOrder now between oid tn (before db)) as [out db'] eqn:E.
  apply processOrder_cases in E as [(e & -> & ->)|(t & m & _ & Hm & E)].
  - intros [?|Hin]%elem_of_cons; [done|]. by eapply IH.
  - apply Hw in Ho1 as [o2 Ho2]. unfold transaction in E.
    rewrite (fulfillment_completed _ _ _ _ _ _ _ Hm Ho2) in E. injection E as <- <-.
    intros [?|Hin]%elem_of_cons; [done|]. by eapply IH.
Qed.

(** C15: An order is fulfilled at most once.  Of all calls of [processOrder] for an order at
    most one answers true - and so takes stock, completes the order and leads to the event -
    whatever other requests commit before, between and after them, as long as those leave a
    completed order completed. *)
Theorem fulfilled_once (oid tn : string) (calls : list (Date * (Db → Db) * (Db → Db))) (db : Db) :
  Forall (λ c, keeps_completed oid tn c.1.2 ∧ keeps_completed oid tn c.2) calls →
  (length (List.filter (λ r, bool_decide (r = Ok true)) (answers oid tn calls db)) <= 1)%nat.
Proof.
  revert db. induction calls as [|[[now before] between] calls IH]; intros db Hf; simpl; [lia|].
  apply Forall_cons in Hf as [_ Hf].
  destruct (processOrder now between oid tn (before db)) as [out db'] eqn:E. simpl.
  case_bool_decide as Ho; [|by apply IH]. subst out. simpl.
  apply processOrder_cases in E as [(e & ? & _)|(t & m & _ & Hm & E)]; [done|].
  unfold transaction in E. destruct (m (between (before db))) as [[answer d]|e] eqn:Em; [|done].
  injection E as -> <-. eapply fulfillment_cases in Em as [(? & _)|(c & _ & H)]; [done| |done].
  apply taken_completed in H as [o Ho]. apply (completed_answers _ _ calls) in Ho; [|done].
  rewrite filter_none; [simpl; lia|]. apply Forall_forall. intros r Hr.
  apply bool_decide_false. by intros ->.
Qed.

End histories.

(** * Examples

    A shop with four flour in one warehouse, bought at two each, and a paid order of three. *)
Module FulfillmentExamples.

Import FixedPoint SamplePlatform.
Local Open Scope Z_scope.
Local Open Scope string_scope.

Definition flour : ItemRow :=
  {| it_id := "flour"; it_tenantId := "t1"; it_valuationMethod := Some FIFO;
     it_movingAverageScope := None; it_standardCost := None; it_averageUnitCost := None;
     it_valuationLockedAt := None |}.
Definition layer : LayerRow :=
  {| ly_id := "l1"; ly_tenantId := "t1"; ly_inventoryItemId := "flour";
     ly_warehouseId := Some "w1"; ly_sourceMovementId := None; ly_sourceType := "OPENING";
     ly_sourceReferenceId := None; ly_receivedQuantity := micro (4 * million);
     ly_remainingQuantity := micro (4 * million); ly_unitCost := micro (2 * million);
     ly_createdAt := 1 |}.
Definition stock : StockRow :=
  {| st_id := "s1"; st_warehouseId := Some "w1"; st_inventoryItemId := "flour";
     st_quantity := of_Z 4; st_averageUnitCost := None; st_createdAt := 1; st_updatedAt := 1 |}.
Definition order : SalesOrderRow :=
  {| so_id := "o1"; so_tenantId := "t1"; so_outletId := None; so_orderNumber := "ORD-1";
     so_status := PAID; so_orderMode := REGULAR; so_paymentStatus := PaymentPaid;
     so_paidAmount := of_Z 900; so_kitchenReleasedAt := None; so_kitchenPriority := of_Z 0;
     so_totalAmount := of_Z 900; so_currencyCode := Some "USD"; so_createdAt := 1;
     so_SalesOrderItem := [{| line_productId := "p1"; line_quantity := of_Z 3;
       line_price := of_Z 300; line_subtotal := of_Z 900; line_productName := "bread";
       line_inventoryItem := Some "flour"; line_inventoryItemId := Some "flour";
       line_recipe := None |}] |}.
Definition store : Db :=
  on TItem (λ _, [flour]) (on TLayer (λ _, [layer]) (on TStock (λ _, [stock])
    (on TSalesOrder (λ _, [order])
      (on TWarehouse (λ _, [{| wh_id := "w1"; wh_tenantId := "t1"; wh_outletId := None;
                               wh_isActive := true |}])
        (on TTenant (λ _, [{| tn_id := "t1"; tn_name := "Acme"%string; tn_contactEmail := None;
                              tn_contactPhone := None; tn_address := None; tn_createdAt := 0%Z;
                              tn_status := TenantACTIVE; tn_currencyCode := Some "USD";
                              tn_businessType := RETAIL; tn_deletedAt := None;
                              tn_kitchenWaitThresholdMinutes := of_Z 15 |}]) emptyDb))))).

Lemma store_sound : sound store.
Proof. sample_sound. Qed.
Lemma store_steady : steady 4 store.
Proof.
  split; [exact store_sound|]. repeat constructor. exists 4. split; [reflexivity|lia].
Qed.
Lemma store_balanced : balanced 4 store.
Proof.
  destruct store_steady as [Hs Hh]. split; [done| |done|].
  - repeat constructor; vm_compute; discriminate.
  - intros i w Hi%list_elem_of_singleton _. subst i.
    unfold layer_sum, stock_sum, stock_in, weighted, layer_of, place_of. simpl.
    destruct (decide (w = Some "w1")) as [->|Hn]; [vm_compute; reflexivity|].
    rewrite (bool_decide_false (Some "w1" = w)), (bool_decide_false (w = Some "w1")) by congruence.
    vm_compute. reflexivity.
Qed.
Lemma store_whole_orders : whole_orders store.
Proof.
  intros o b Ho%list_elem_of_singleton. subst o. destruct b; repeat constructor.
  - exists 3. split; [reflexivity|]. vm_compute. reflexivity.
Qed.

Definition ops : list StockOp :=
  [StockIn 5 "t1" {| si_inventoryItemId := "flour"; si_warehouseId := "w1";
     si_quantity := of_Z 2; si_unitCost := Some (of_Z 3); si_note := None |} "u1";
   FulfillRetail 6 "o1" "t1";
   Waste 7 "t1" {| wa_inventoryItemId := "flour"; wa_warehouseId := "w1";
     wa_quantity := of_Z 1; wa_note := "spilled" |} "u1"].
Lemma ops_ok : Forall op_ok ops.
Proof.
  assert (Hn : ∀ z, 0 < z < 100 → need_ok (of_Z z)).
  { intros z Hz. split; [exists z; split; [done|unfold limit; lia]|].
    rewrite to_Z_of_Z by (unfold max_exact; lia). lia. }
  assert (Hc : cost_ok (inl (of_Z 3))).
  { exists (3 * million). cbn [to_decimal]. rewrite of_number_int by lia.
    split; [reflexivity|literals; lia]. }
  constructor; [|constructor; [done|constructor; [apply Hn; lia|constructor]]].
  split; [apply Hn; lia|]. intros c E. apply (inj Some) in E. rewrite <- E. exact Hc.
Qed.

Lemma books_balanced_witness :
  balanced 6 (run_all ops store) ∧ on_hand "flour" (run_all ops store) = 2.
Proof.
  split; [|vm_compute; reflexivity].
  assert (H : bring_all ops = 2) by (vm_compute; reflexivity).
  change 6 with (4 + 2). rewrite <- H.
  apply (books_balanced 4 ops store); [exact store_balanced|lia|exact store_whole_orders|
    exact ops_ok|]. rewrite H. unfold limit. lia.
Defined.

Lemma order_fulfilled_witness :
  ∃ db', processOrder 7 id "o1" "t1" store = (Ok true, db') ∧
    on_hand "flour" db' = on_hand "flour" store - 3.
Proof.
  assert (C : bool_decide (fst (processOrder 7 id "o1" "t1" store) = Ok true) = true)
    by (vm_compute; reflexivity).
  apply bool_decide_eq_true_1 in C.
  destruct (processOrder 7 id "o1" "t1" store) as [out db'] eqn:E. cbn [fst] in C. subst out.
  exists db'. split; [reflexivity|].
  destruct (order_fulfilled 4 7 id "o1" "t1" store (Ok true) db' E store_steady
    ltac:(vm_compute; discriminate) store_whole_orders) as (t & o & Ht & Ho & Hh & _).
  injection Ht as <-. destruct Ho as [Ho _]. injection Ho as <-.
  rewrite Hh. reflexivity.
Defined.

Definition calls : list (Date * (Db → Db) * (Db → Db)) := [(7, id, id); (8, id, id)].
Lemma fulfilled_once_witness :
  (length (List.filter (λ r, bool_decide (r = Ok true))
    (answers "o1" "t1" calls store)) ≤ 1)%nat.
Proof.
  apply (fulfilled_once "o1" "t1" calls store).
  repeat constructor; intros db o Ho; by exists o.
Defined.

End FulfillmentExamples.
