(* ===== verification/Reorder.v ===== *)
(** Availability and replenishment of an inventory item
    (modules/inventory/inventory.repository.ts): the balances of its warehouses, the
    stock its active reservations hold, the reorder rules and what they recommend. *)

From stdpp Require Import base list strings option sets gmap.
From Stdlib Require Import ZArith.
From S2P Require Import Prelude JsNumber JsString DomainEvents CoreDomain MasterData Lifecycles.
From S2P Require Import PurchaseOrderAggregate Decimal Database Costing Receipts Reservations.

Module Reorder.

Local Open Scope string_scope.

(** ** Maps

    A JavaScript [Map] with warehouses, or null, as keys: entries in insertion order. *)
Definition WMap (V : Type) : Type := list (option string * V).
Definition map_get {V} (m : WMap V) (k : option string) : option V :=
  snd <$> List.find (λ e, bool_decide (fst e = k)) m.
Fixpoint map_put {V} (m : WMap V) (k : option string) (v : V) : WMap V :=
  match m with
  | [] => [(k, v)]
  | (k', v') :: m => if bool_decide (k' = k) then (k', v) :: m else (k', v') :: map_put m k v
  end.

Section service.
Context {dec : Decimal} {plat : Platform}.

(** ** Rules *)

Record InventoryReorderRuleInputDto := {
  ru_warehouseId : option string; ru_reorderPoint : number;
  ru_quantityStrategy : InventoryReorderQuantityStrategy; ru_targetStock : option number;
  ru_fixedOrderQuantity : option number; ru_action : option InventoryReorderAction;
}.
Record InventoryReorderRulesDto := {
  rs_scope : InventoryReorderScope; rs_rules : list InventoryReorderRuleInputDto;
}.

Definition rule_of (tenantId inventoryItemId : string) (r : ReorderRuleRow) : bool :=
  bool_decide (rr_tenantId r = tenantId) && bool_decide (rr_inventoryItemId r = inventoryItemId).
(** [orderBy: [{ scope: 'asc' }, { locationKey: 'asc' }]]; an enumeration is ordered as it
    is declared. *)
Definition scope_rank (s : InventoryReorderScope) : Z :=
  match s with ReorderPER_WAREHOUSE => 0 | TENANT_ITEM_TOTAL => 1 end.
Definition rule_le (a b : ReorderRuleRow) : bool :=
  Costing.lex Z.eqb Z.leb (scope_rank (rr_scope a)) (scope_rank (rr_scope b))
    (collateLe (rr_locationKey a) (rr_locationKey b)).
Definition rules_of (tenantId inventoryItemId : string) : Tx Db (list ReorderRuleRow) :=
  rules ← select TReorderRule (rule_of tenantId inventoryItemId);
  mret (sort_by rule_le rules).

(** The check of one rule in the loop. *)
Definition check_rule (rule : InventoryReorderRuleInputDto) : result unit :=
  match ru_quantityStrategy rule with
  | TARGET_STOCK =>
      throw_if (match ru_targetStock rule with
                | None => true
                | Some t => leb t (ru_reorderPoint rule)
                end || bool_decide (is_Some (ru_fixedOrderQuantity rule)))
        (BadRequestException
           "Target stock must exceed the reorder point and fixed quantity must be omitted")
  | FIXED_QUANTITY =>
      throw_if (match ru_fixedOrderQuantity rule with
                | None => true
                | Some q => leb q (of_Z 0)
                end || bool_decide (is_Some (ru_targetStock rule)))
        (BadRequestException
           "A positive fixed order quantity is required and target stock must be omitted")
  end.
Definition location_key (scope : InventoryReorderScope) (rule : InventoryReorderRuleInputDto)
  : string :=
  match scope with
  | TENANT_ITEM_TOTAL => "ALL"
  | ReorderPER_WAREHOUSE => default "" (ru_warehouseId rule)
  end.
(** The checks before the rules are read as a whole. *)
Definition check_rules (dto : InventoryReorderRulesDto) : result unit :=
  let total := bool_decide (rs_scope dto = TENANT_ITEM_TOTAL) in
  _ ← throw_if (total && (1 <? length (rs_rules dto))%nat)
        (BadRequestException "Tenant-total scope supports one reorder rule per item");
  _ ← throw_if (negb total && existsb (λ r, negb (truthy (ru_warehouseId r))) (rs_rules dto))
        (BadRequestException "Each per-warehouse reorder rule requires a warehouse");
  _ ← throw_if (total && existsb (λ r, truthy (ru_warehouseId r)) (rs_rules dto))
        (BadRequestException "Tenant-total reorder rules cannot reference a warehouse");
  _ ← throw_if (has_duplicates (map (location_key (rs_scope dto)) (rs_rules dto)))
        (BadRequestException "Each inventory location can have only one reorder rule");
  check_all check_rule (rs_rules dto).
(** [.map((rule) => rule.warehouseId).filter(Boolean)]. *)
Definition warehouse_ids (dto : InventoryReorderRulesDto) : list string :=
  omap (λ r, if truthy (ru_warehouseId r) then ru_warehouseId r else None) (rs_rules dto).

Definition rule_row (now : Date) (tenantId inventoryItemId : string)
    (scope : InventoryReorderScope) (rule : InventoryReorderRuleInputDto) (i : string)
  : ReorderRuleRow :=
  {| rr_id := i; rr_tenantId := tenantId; rr_inventoryItemId := inventoryItemId;
     rr_warehouseId := ru_warehouseId rule;
     rr_locationKey := default "ALL" (ru_warehouseId rule); rr_scope := scope;
     rr_quantityStrategy := ru_quantityStrategy rule;
     rr_action := default ALERT_AND_SUGGEST (ru_action rule);
     rr_reorderPoint := ru_reorderPoint rule; rr_targetStock := ru_targetStock rule;
     rr_fixedOrderQuantity := ru_fixedOrderQuantity rule; rr_createdAt := now;
     rr_updatedAt := now |}.
(** [inventoryReorderRule.create]; the database checks that the warehouse exists. *)
Definition create_rule (now : Date) (tenantId inventoryItemId : string)
    (scope : InventoryReorderScope) (rule : InventoryReorderRuleInputDto) : Tx Db unit :=
  _ ← match ru_warehouseId rule with
      | Some w => n ← count TWarehouse (has_id TWarehouse w);
                  tx_throw_if (n =? 0)%nat (PrismaError "P2003")
      | None => mret tt
      end;
  _ ← insert TReorderRule (rule_row now tenantId inventoryItemId scope rule);
  mret tt.

Definition replaceReorderRules_tx (now : Date) (tenantId inventoryItemId : string)
    (dto : InventoryReorderRulesDto) : Tx Db (list ReorderRuleRow) :=
  _ ← load_row TItem (Reservations.item_of_tenant tenantId inventoryItemId)
        (NotFoundException "Inventory item not found");
  _ ← tx_lift (check_rules dto);
  let warehouseIds := warehouse_ids dto in
  _ ← tx_when (negb (length warehouseIds =? 0)%nat)
        (n ← count TWarehouse (λ w, bool_decide (wh_tenantId w = tenantId) &&
                                    bool_decide (wh_id w ∈ warehouseIds));
         tx_throw_if (negb (n =? size (list_to_set warehouseIds : gset string))%nat)
           (BadRequestException "Reorder rules can reference only warehouses in this tenant"));
  _ ← delete_many TReorderRule (rule_of tenantId inventoryItemId);
  _ ← tx_for_each (create_rule now tenantId inventoryItemId (rs_scope dto)) (rs_rules dto);
  rules_of tenantId inventoryItemId.
Definition replaceReorderRules (now : Date) (tenantId inventoryItemId : string)
    (dto : InventoryReorderRulesDto) (db : Db) : result (list ReorderRuleRow) * Db :=
  transaction (replaceReorderRules_tx now tenantId inventoryItemId dto) db.

(** ** Recommendations *)

Record Recommendation := {
  rd_scope : InventoryReorderScope; rd_warehouseId : option string;
  rd_action : InventoryReorderAction; rd_reorderRequired : bool;
  rd_reorderPoint : number; rd_availableQuantity : number;
  rd_recommendedQuantity : option number;
}.
(** The status is REORDER_REQUIRED when [rd_reorderRequired], otherwise SUFFICIENT. *)
Definition buildReorderRecommendation (rule : ReorderRuleRow) (availableQuantity : number)
  : Recommendation :=
  let reorderRequired := leb availableQuantity (rr_reorderPoint rule) in
  {| rd_scope := rr_scope rule; rd_warehouseId := rr_warehouseId rule;
     rd_action := rr_action rule; rd_reorderRequired := reorderRequired;
     rd_reorderPoint := rr_reorderPoint rule; rd_availableQuantity := availableQuantity;
     rd_recommendedQuantity :=
       if reorderRequired && bool_decide (rr_action rule = ALERT_AND_SUGGEST) then
         Some (match rr_quantityStrategy rule with
               | TARGET_STOCK =>
                   max (of_Z 0) (sub (default (of_Z 0) (rr_targetStock rule)) availableQuantity)
               | FIXED_QUANTITY => default (of_Z 0) (rr_fixedOrderQuantity rule)
               end)
       else None |}.

(** ** Balances *)

Definition findInventoryItem (tenantId inventoryItemId : string) : Tx Db ItemRow :=
  load_row TItem (Reservations.item_of_tenant tenantId inventoryItemId)
    (NotFoundException "Inventory item not found").
Definition getReorderRules (tenantId inventoryItemId : string) : Tx Db (list ReorderRuleRow) :=
  _ ← findInventoryItem tenantId inventoryItemId; rules_of tenantId inventoryItemId.

(** [OR: [{ warehouseId: null }, { Warehouse: { is: { tenantId } } }]]. *)
Definition in_tenant (tenantId : string) (ws : list WarehouseRow) (warehouseId : option string)
  : bool :=
  match warehouseId with
  | None => true
  | Some w => existsb (λ r, bool_decide (wh_id r = w) && bool_decide (wh_tenantId r = tenantId)) ws
  end.
Definition stock_rows (tenantId inventoryItemId : string) : Tx Db (list StockRow) :=
  ws ← select TWarehouse (λ _, true);
  select TStock (λ s, Costing.stocks_of inventoryItemId s && in_tenant tenantId ws (st_warehouseId s)).

Record StockBalance := { bb_quantity : number; bb_updatedAt : Date }.
(** [orderBy: [{ warehouseId: 'asc' }, { updatedAt: 'desc' }]]. *)
Definition stock_le (a b : StockRow) : bool :=
  if bool_decide (st_warehouseId a = st_warehouseId b)
  then (st_updatedAt b <=? st_updatedAt a)%Z
  else Costing.option_le collateLe (st_warehouseId a) (st_warehouseId b).
(** The body of the loop over the rows. *)
Definition add_balance (balances : WMap StockBalance) (s : StockRow) : WMap StockBalance :=
  match map_get balances (st_warehouseId s) with
  | Some current =>
      map_put balances (st_warehouseId s)
        {| bb_quantity := add (bb_quantity current) (st_quantity s);
           bb_updatedAt := if (bb_updatedAt current <? st_updatedAt s)%Z then st_updatedAt s
                           else bb_updatedAt current |}
  | None =>
      map_put balances (st_warehouseId s)
        {| bb_quantity := st_quantity s; bb_updatedAt := st_updatedAt s |}
  end.
(** The balances of the warehouses, and their total. *)
Definition stockBalances (tenantId inventoryItemId : string)
  : Tx Db (WMap StockBalance * number) :=
  _ ← findInventoryItem tenantId inventoryItemId;
  stocks ← stock_rows tenantId inventoryItemId;
  let balances := fold_left add_balance (sort_by stock_le stocks) [] in
  mret (balances, fold_left (λ total b, add total (bb_quantity (snd b))) balances (of_Z 0)).

(** ** Availability *)

Record Balance := { bl_available : number; bl_reserved : number }.
Record Location := {
  lc_warehouseId : option string; lc_available : number; lc_reserved : number;
  lc_onHand : number; lc_replenishment : option Recommendation;
}.
Record Totals := { to_available : number; to_reserved : number; to_onHand : number }.
Record Availability := {
  av_balances : list Location; av_totals : Totals;
  av_tenantTotalReplenishment : option Recommendation; av_reorderRules : list ReorderRuleRow;
}.

Definition active_reservation (tenantId inventoryItemId : string) (ws : list WarehouseRow)
    (m : MovementRow) : bool :=
  bool_decide (mv_tenantId m = tenantId) &&
  bool_decide (mv_inventoryItemId m = inventoryItemId) &&
  bool_decide (mv_referenceType m = Some Reservations.ACTIVE_RESERVATION_REF) &&
  in_tenant tenantId ws (mv_warehouseId m).
(** The bodies of the three loops. *)
Definition put_stock (balances : WMap Balance) (s : StockRow) : WMap Balance :=
  map_put balances (st_warehouseId s)
    {| bl_available := st_quantity s; bl_reserved := of_Z 0 |}.
Definition add_reservation (balances : WMap Balance) (m : MovementRow) : WMap Balance :=
  let balance := default {| bl_available := of_Z 0; bl_reserved := of_Z 0 |}
                   (map_get balances (mv_warehouseId m)) in
  map_put balances (mv_warehouseId m)
    {| bl_available := bl_available balance;
       bl_reserved := add (bl_reserved balance) (mv_quantity m) |}.
Definition add_ruled (balances : WMap Balance) (r : ReorderRuleRow) : WMap Balance :=
  if bool_decide (rr_scope r = ReorderPER_WAREHOUSE) && truthy (rr_warehouseId r) &&
     bool_decide (map_get balances (rr_warehouseId r) = None)
  then map_put balances (rr_warehouseId r)
         {| bl_available := of_Z 0; bl_reserved := of_Z 0 |}
  else balances.
Definition location (rules : list ReorderRuleRow) (b : option string * Balance) : Location :=
  {| lc_warehouseId := fst b; lc_available := bl_available (snd b);
     lc_reserved := bl_reserved (snd b);
     lc_onHand := add (bl_available (snd b)) (bl_reserved (snd b));
     lc_replenishment :=
       (λ r, buildReorderRecommendation r (bl_available (snd b))) <$>
       List.find (λ r, bool_decide (rr_scope r = ReorderPER_WAREHOUSE) &&
                       bool_decide (rr_warehouseId r = fst b)) rules |}.
Definition add_location (t : Totals) (l : Location) : Totals :=
  {| to_available := add (to_available t) (lc_available l);
     to_reserved := add (to_reserved t) (lc_reserved l);
     to_onHand := add (to_onHand t) (lc_onHand l) |}.
Definition no_totals : Totals :=
  {| to_available := of_Z 0; to_reserved := of_Z 0; to_onHand := of_Z 0 |}.

Definition availability (tenantId inventoryItemId : string) : Tx Db Availability :=
  _ ← findInventoryItem tenantId inventoryItemId;
  stocks ← stock_rows tenantId inventoryItemId;
  ws ← select TWarehouse (λ _, true);
  reservations ← select TMovement (active_reservation tenantId inventoryItemId ws);
  rules ← rules_of tenantId inventoryItemId;
  let balances :=
    fold_left add_ruled rules
      (fold_left add_reservation reservations (fold_left put_stock stocks [])) in
  let locations := map (location rules) balances in
  let totals := fold_left add_location locations no_totals in
  mret {| av_balances := locations; av_totals := totals;
          av_tenantTotalReplenishment :=
            (λ r, buildReorderRecommendation r (to_available totals)) <$>
            List.find (λ r, bool_decide (rr_scope r = TENANT_ITEM_TOTAL)) rules;
          av_reorderRules := rules |}.

End service.
End Reorder.
