(* ===== verification/ReorderFacts.v ===== *)
(** What availability and replenishment guarantee: the reorder rules of an item are
    replaced as a whole, by valid ones or not at all; what a rule recommends restocks the
    item; and the balances add up. *)

From stdpp Require Import base list strings option sets gmap.
From Stdlib Require Import ZArith Lia.
From S2P Require Import Prelude JsNumber JsString DomainEvents CoreDomain MasterData Lifecycles.
From S2P Require Import PurchaseOrderAggregate Decimal Database Costing CostingFacts.
From S2P Require Import Receipts Reservations InventoryStock StockFacts Reorder.

Import Reorder.

(** * Reorder rules *)

Section rules.
Context {dec : Decimal} {plat : Platform}.

(** A rule that can be stored: what it orders is given by its strategy alone, and is
    enough to leave the reorder point or positive. *)
Definition strategy_ok (s : InventoryReorderQuantityStrategy) (point : number)
    (target fixed : option number) : Prop :=
  match s with
  | TARGET_STOCK => fixed = None ∧ ∃ t, target = Some t ∧ leb t point = false
  | FIXED_QUANTITY => target = None ∧ ∃ q, fixed = Some q ∧ leb q (of_Z 0) = false
  end.
Definition dto_rule_ok (r : InventoryReorderRuleInputDto) : Prop :=
  strategy_ok (ru_quantityStrategy r) (ru_reorderPoint r) (ru_targetStock r)
    (ru_fixedOrderQuantity r).
Definition rule_ok (r : ReorderRuleRow) : Prop :=
  strategy_ok (rr_quantityStrategy r) (rr_reorderPoint r) (rr_targetStock r)
    (rr_fixedOrderQuantity r).
Definition scope_ok (dto : InventoryReorderRulesDto) : Prop :=
  match rs_scope dto with
  | TENANT_ITEM_TOTAL =>
      (length (rs_rules dto) ≤ 1)%nat ∧ Forall (λ r, truthy (ru_warehouseId r) = false) (rs_rules dto)
  | ReorderPER_WAREHOUSE => Forall (λ r, truthy (ru_warehouseId r) = true) (rs_rules dto)
  end.
(** The warehouse a rule names exists. *)
Definition known (db : Db) (r : InventoryReorderRuleInputDto) : bool :=
  match ru_warehouseId r with
  | Some w => existsb (has_id TWarehouse w) (rows db TWarehouse)
  | None => true
  end.
(** What [replaceReorderRules] accepts. *)
Record acceptable (tenantId itemId : string) (dto : InventoryReorderRulesDto) (db : Db) : Prop := {
  ac_item : ∃ i, List.find (Reservations.item_of_tenant tenantId itemId) (rows db TItem) = Some i;
  ac_scope : scope_ok dto;
  ac_keys : NoDup (map (location_key (rs_scope dto)) (rs_rules dto));
  ac_rules : Forall dto_rule_ok (rs_rules dto);
  ac_tenant : ∀ w, w ∈ warehouse_ids dto →
    ∃ r, r ∈ rows db TWarehouse ∧ wh_id r = w ∧ wh_tenantId r = tenantId;
  ac_exists : forallb (known db) (rs_rules dto) = true;
}.

Lemma check_rule_ok r : check_rule r = Ok tt ↔ dto_rule_ok r.
Proof.
  unfold check_rule, dto_rule_ok, strategy_ok.
  destruct (ru_quantityStrategy r); rewrite throw_if_ok, orb_false_iff, bool_decide_eq_false;
    rewrite <- eq_None_not_Some.
  - destruct (ru_targetStock r) as [t|]; split; [|..].
    + intros [? ?]. split; [done|]. by exists t.
    + intros [? (t' & [= <-] & ?)]. done.
    + by intros [? _].
    + by intros [_ (? & ? & _)].
  - destruct (ru_fixedOrderQuantity r) as [q|]; split; [|..].
    + intros [? ?]. split; [done|]. by exists q.
    + intros [? (t' & [= <-] & ?)]. done.
    + by intros [? _].
    + by intros [_ (? & ? & _)].
Qed.

Lemma existsb_false {A} (p : A → bool) l : existsb p l = false ↔ Forall (λ x, p x = false) l.
Proof.
  induction l as [|x l IH]; simpl; [by split|]. rewrite orb_false_iff, IH, Forall_cons. done.
Qed.

Lemma check_rules_ok dto :
  check_rules dto = Ok tt ↔
  scope_ok dto ∧ NoDup (map (location_key (rs_scope dto)) (rs_rules dto)) ∧
  Forall dto_rule_ok (rs_rules dto).
Proof.
  assert (Hb : ∀ (c : bool) e (m : result unit),
    (_ ← throw_if c e; m) = Ok tt ↔ c = false ∧ m = Ok tt).
  { intros [] e m; simpl; unfold mbind, result_bind; simpl; naive_solver. }
  unfold check_rules, scope_ok. cbv zeta. rewrite !Hb, check_all_ok, has_duplicates_false.
  rewrite (Forall_iff _ _ _ check_rule_ok).
  destruct (rs_scope dto); simpl.
  - rewrite existsb_false. setoid_rewrite negb_false_iff. tauto.
  - rewrite existsb_false, Nat.ltb_ge. tauto.
Qed.

(** The number of warehouses found tells whether all are in the tenant. *)
Lemma count_ids tn (ids : list string) (ws : list WarehouseRow) :
  NoDup (map wh_id ws) →
  length (List.filter (λ w, bool_decide (wh_tenantId w = tn) && bool_decide (wh_id w ∈ ids)) ws) =
    size (list_to_set ids : gset string) ↔
  ∀ w, w ∈ ids → ∃ r, r ∈ ws ∧ wh_id r = w ∧ wh_tenantId r = tn.
Proof.
  intros Hnd. set (found := List.filter _ ws).
  assert (Hf : NoDup (map wh_id found)) by by apply filter_keys.
  assert (Hm : ∀ r, r ∈ found ↔ r ∈ ws ∧ wh_tenantId r = tn ∧ wh_id r ∈ ids).
  { intros r. unfold found. rewrite list_elem_of_In, filter_In, <- list_elem_of_In.
    by rewrite andb_true_iff, !bool_decide_eq_true. }
  assert (Hsub : (list_to_set (map wh_id found) : gset string) ⊆ list_to_set ids).
  { intros w Hw. apply elem_of_list_to_set, list_elem_of_fmap in Hw as (r & -> & Hr).
    apply Hm in Hr. set_solver. }
  rewrite <- (length_map wh_id found), <- (size_list_to_set (C := gset string)) by done. split.
  - intros Hs w Hw. assert (E : (list_to_set (map wh_id found) : gset string) = list_to_set ids).
    { apply leibniz_equiv. apply set_subseteq_size_equiv; [done|lia]. }
    apply (elem_of_list_to_set (C := gset string)) in Hw. rewrite <- E in Hw.
    apply elem_of_list_to_set, list_elem_of_fmap in Hw as (r & -> & Hr).
    apply Hm in Hr as (? & ? & _). by exists r.
  - intros H. f_equal. apply leibniz_equiv. intros w. split; [apply Hsub|].
    intros Hw%elem_of_list_to_set. destruct (H w Hw) as (r & Hr & <- & Ht).
    apply elem_of_list_to_set. apply list_elem_of_fmap_2. by apply Hm.
Qed.

(** The loop that creates the rules. *)
Section create.
Context (now : Date) (tn item : string) (scope : InventoryReorderScope).

Lemma known_check w db :
  (n ← count TWarehouse (has_id TWarehouse w); tx_throw_if (n =? 0) (PrismaError "P2003")) db =
  if existsb (has_id TWarehouse w) (rows db TWarehouse) then Ok (tt, db)
  else Err (PrismaError "P2003").
Proof. unfold count, mbind, tx_bind. rewrite filter_length_zero. by destruct (existsb _ _). Qed.
Lemma create_rule_run r db :
  if known db r
  then ∃ db' i, create_rule now tn item scope r db = Ok (tt, db') ∧
    only [TReorderRule] db db' ∧
    rows db' TReorderRule = rows db TReorderRule ++ [rule_row now tn item scope r i]
  else ∃ e, create_rule now tn item scope r db = Err e.
Proof.
  assert (Hins : ∃ db' i, (_ ← insert TReorderRule (rule_row now tn item scope r); mret tt) db =
      Ok (tt, db') ∧ only [TReorderRule] db db' ∧
      rows db' TReorderRule = rows db TReorderRule ++ [rule_row now tn item scope r i]).
  { destruct (insert TReorderRule (rule_row now tn item scope r) db) as [[n db']|] eqn:E; [|done].
    exists db', (cuid (serial db)). split_and!.
    - by rewrite (tx_bind_run _ _ _ _ _ E).
    - eapply only_insert; [by left|done].
    - by apply insert_rows in E as [-> ->]. }
  unfold known, create_rule. destruct (ru_warehouseId r) as [w|] eqn:Ew; [|exact Hins].
  pose proof (known_check w db) as Hc. destruct (existsb _ _).
  - rewrite (tx_bind_run _ _ _ _ _ Hc). exact Hins.
  - eexists. exact (tx_bind_err _ _ _ _ Hc).
Qed.

Lemma create_rules_run rules : ∀ db,
  if forallb (known db) rules
  then ∃ db' news,
    tx_for_each (create_rule now tn item scope) rules db = Ok (tt, db') ∧
    only [TReorderRule] db db' ∧ rows db' TReorderRule = rows db TReorderRule ++ news ∧
    Forall2 (λ r n, ∃ i, n = rule_row now tn item scope r i) rules news
  else ∃ e, tx_for_each (create_rule now tn item scope) rules db = Err e.
Proof.
  induction rules as [|r rules IH]; intros db; simpl.
  { exists db, []. split_and!; [done|apply only_refl|by rewrite app_nil_r|constructor]. }
  pose proof (create_rule_run r db) as Hr. destruct (known db r); simpl.
  2: { destruct Hr as [e Hr]. exists e. by apply tx_bind_err. }
  destruct Hr as (db1 & i & E1 & O1 & R1). rewrite (tx_bind_run _ _ _ _ _ E1).
  specialize (IH db1). assert (Hk : ∀ x, known db1 x = known db x).
  { intros x. unfold known. by rewrite O1 by set_solver. }
  assert (Hf : forallb (known db1) rules = forallb (known db) rules).
  { clear -Hk. induction rules as [|x l IHl]; simpl; [done|]. by rewrite Hk, IHl. }
  rewrite Hf in IH. destruct (forallb (known db) rules); [|done].
  destruct IH as (db2 & news & E2 & O2 & R2 & F2). exists db2, (rule_row now tn item scope r i :: news).
  split_and!; [done|by eapply only_trans| |].
  - rewrite R2, R1. by rewrite <- app_assoc.
  - constructor; [by exists i|done].
Qed.
End create.

(** ** A replacement *)

Definition warehouses_checked tn (dto : InventoryReorderRulesDto) (db : Db) : Prop :=
  ∀ w, w ∈ warehouse_ids dto → ∃ r, r ∈ rows db TWarehouse ∧ wh_id r = w ∧ wh_tenantId r = tn.
Definition check_warehouses tn (dto : InventoryReorderRulesDto) : Tx Db unit :=
  tx_when (negb (length (warehouse_ids dto) =? 0))
    (n ← count TWarehouse (λ w, bool_decide (wh_tenantId w = tn) &&
                                bool_decide (wh_id w ∈ warehouse_ids dto));
     tx_throw_if (negb (n =? size (list_to_set (warehouse_ids dto) : gset string)))
       (BadRequestException "Reorder rules can reference only warehouses in this tenant")).
Lemma check_warehouses_ok tn dto db r :
  keyed TWarehouse db →
  check_warehouses tn dto db = Ok r ↔ r = (tt, db) ∧ warehouses_checked tn dto db.
Proof.
  intros Hk. pose proof (count_ids tn (warehouse_ids dto) _ Hk) as Hc. cbn [row] in *.
  unfold check_warehouses, warehouses_checked, tx_when, count, mbind, tx_bind in *.
  destruct (warehouse_ids dto) as [|w ids] eqn:Ew.
  { simpl. split; [intros [= <-]; split; [done|]; intros ? ?%elem_of_nil; done|].
    by intros [-> _]. }
  change (negb (length (w :: ids) =? 0)) with true. cbv iota.
  unfold tx_throw_if, tx_lift, throw_if.
  match goal with |- context [negb (?a =? ?b)] => destruct (Nat.eqb_spec a b) as [E|E] end;
    cbn [negb].
  - split; [intros [= <-]; split; [done|]; by apply Hc|]. by intros [-> _].
  - split; [done|]. intros [_ H]. exfalso. by apply E, Hc.
Qed.

Lemma load_item tn item db :
  findInventoryItem tn item db =
    match List.find (Reservations.item_of_tenant tn item) (rows db TItem) with
    | Some i => Ok (i, db)
    | None => Err (NotFoundException "Inventory item not found")
    end.
Proof.
  unfold findInventoryItem, load_row, select_first, mbind, tx_bind. cbn [row].
  by destruct (List.find (Reservations.item_of_tenant tn item) (rows db TItem)).
Qed.

(** It succeeds on what is acceptable, and only there. *)
Lemma replace_accepts now tn item dto db :
  keyed TWarehouse db → acceptable tn item dto db →
  ∃ news db', replaceReorderRules_tx now tn item dto db = Ok (sort_by rule_le news, db') ∧
    only [TReorderRule] db db' ∧
    rows db' TReorderRule =
      List.filter (λ r, negb (rule_of tn item r)) (rows db TReorderRule) ++ news ∧
    Forall2 (λ r n, ∃ i, n = rule_row now tn item (rs_scope dto) r i) (rs_rules dto) news.
Proof.
  intros Hk [[i Hi] Hs Hks Hr Ht He].
  set (db1 := on TReorderRule (List.filter (λ r, negb (rule_of tn item r))) db).
  pose proof (create_rules_run now tn item (rs_scope dto) (rs_rules dto) db1) as Hcr.
  assert (Hf : forallb (known db1) (rs_rules dto) = true).
  { rewrite <- He. apply f_equal2; [|done]. by unfold known, db1. }
  rewrite Hf in Hcr. destruct Hcr as (db2 & news & E2 & O2 & R2 & F2).
  exists news, db2. unfold db1 in R2. rewrite rows_on_same in R2. split_and!.
  - unfold replaceReorderRules_tx. fold (findInventoryItem tn item).
    rewrite (tx_bind_run _ _ _ i db) by by rewrite load_item, Hi.
    rewrite (tx_bind_run _ _ _ tt db).
    2: { by rewrite (proj2 (check_rules_ok dto) (conj Hs (conj Hks Hr))). }
    cbv zeta. fold (check_warehouses tn dto). rewrite (tx_bind_run _ _ _ tt db).
    2: { by apply check_warehouses_ok. }
    rewrite (tx_bind_run _ _ _ (length (List.filter (rule_of tn item) (rows db TReorderRule))) db1)
      by done.
    rewrite (tx_bind_run _ _ _ _ _ E2). unfold rules_of, select, mbind, tx_bind. rewrite R2.
    rewrite List.filter_app, (filter_none (rule_of tn item)), (filter_every _ news); [done| |].
    + clear -F2. induction F2 as [|r n rs ns [i ->] _ IH]; constructor; [|done].
      unfold rule_of. simpl. by rewrite !bool_decide_true by done.
    + apply Forall_forall. intros r [_ Hr']%list_elem_of_In%filter_In. by apply negb_true_iff.
  - eapply only_trans; [|exact O2]. apply only_on. by left.
  - done.
  - done.
Qed.

Lemma replace_refuses now tn item dto db out :
  keyed TWarehouse db → replaceReorderRules_tx now tn item dto db = Ok out →
  acceptable tn item dto db.
Proof.
  intros Hk E. destruct out as [rules db']. unfold replaceReorderRules_tx in E.
  fold (findInventoryItem tn item) in E. apply tx_bind_ok in E as (i & d & E1 & E).
  rewrite load_item in E1.
  destruct (List.find (Reservations.item_of_tenant tn item) (rows db TItem)) as [i'|] eqn:Hi; [|done].
  injection E1 as -> <-. apply tx_bind_ok in E as ([] & d & E1 & E).
  apply tx_lift_ok in E1 as [E1 ->]. apply check_rules_ok in E1 as (Hs & Hks & Hr).
  cbv zeta in E. fold (check_warehouses tn dto) in E. apply tx_bind_ok in E as ([] & d & E1 & E).
  apply check_warehouses_ok in E1 as [[= ->] Ht]; [|done].
  apply tx_bind_ok in E as (n & d & E1 & E). injection E1 as _ <-.
  apply tx_bind_ok in E as (u & d & E1 & E).
  pose proof (create_rules_run now tn item (rs_scope dto) (rs_rules dto)
    (on TReorderRule (List.filter (λ r, negb (rule_of tn item r))) db)) as Hcr.
  destruct (forallb _ (rs_rules dto)) eqn:Hf.
  2: { destruct Hcr as [e Hcr]. congruence. }
  split; [by exists i|done..|]. rewrite <- Hf. apply f_equal2; [|done]. by unfold known.
Qed.

(** What the stored rows have of their rules. *)
Lemma rows_ok now tn item scope rules news :
  Forall2 (λ r n, ∃ i, n = rule_row now tn item scope r i) rules news →
  Forall dto_rule_ok rules → Forall rule_ok news.
Proof.
  induction 1 as [|r n rs ns [i ->] _ IH]; intros H; [constructor|].
  apply Forall_cons in H as [Hr Hrs]. constructor; [exact Hr|by apply IH].
Qed.
Lemma rows_keys now tn item dto news :
  Forall2 (λ r n, ∃ i, n = rule_row now tn item (rs_scope dto) r i) (rs_rules dto) news →
  scope_ok dto → NoDup (map (location_key (rs_scope dto)) (rs_rules dto)) →
  NoDup (map rr_locationKey news).
Proof.
  intros F Hs Hk. unfold scope_ok in Hs. destruct (rs_scope dto).
  - assert (E : map rr_locationKey news = map (location_key ReorderPER_WAREHOUSE) (rs_rules dto)).
    { clear Hk. induction F as [|r n rs ns [i ->] _ IH]; [done|].
      apply Forall_cons in Hs as [Hr Hs]. simpl. rewrite IH by done.
      by destruct (ru_warehouseId r). }
    by rewrite E.
  - destruct Hs as [Hlen _]. rewrite (Forall2_length _ _ _ F) in Hlen.
    destruct news as [|n [|n' news]]; simpl in *; [constructor|repeat constructor; set_solver|lia].
Qed.

(** C22: The reorder rules of an item are replaced as a whole.  [replaceReorderRules] succeeds
    exactly on acceptable requests - the item is the tenant's, the rules fit the scope, each
    location has one rule, each rule orders either up to a target above its reorder point or a
    positive fixed quantity, and its warehouses are the tenant's.  Then the item has exactly
    the rules of the request, at distinct locations, which are also the answer, and every
    other rule is as before; otherwise nothing changes. *)
Theorem rules_replaced (now : Date) (tn item : string) (dto : InventoryReorderRulesDto)
    (db : Db) (out : result (list ReorderRuleRow)) (db' : Db) :
  keyed TWarehouse db → replaceReorderRules now tn item dto db = (out, db') →
  (is_ok out = true ↔ acceptable tn item dto db) ∧
  match out with
  | Err _ => db' = db
  | Ok rules => only [TReorderRule] db db' ∧ ∃ news, rules ≡ₚ news ∧
      rows db' TReorderRule =
        List.filter (λ r, negb (rule_of tn item r)) (rows db TReorderRule) ++ news ∧
      Forall2 (λ r n, ∃ i, n = rule_row now tn item (rs_scope dto) r i) (rs_rules dto) news ∧
      NoDup (map rr_locationKey news) ∧ Forall rule_ok news
  end.
Proof.
  intros Hk E. unfold replaceReorderRules, transaction in E.
  destruct (replaceReorderRules_tx now tn item dto db) as [[rules d]|e] eqn:Er;
    injection E as <- <-.
  - pose proof (replace_refuses _ _ _ _ _ _ Hk Er) as Ha.
    destruct (replace_accepts now tn item dto db Hk Ha) as (news & db2 & E2 & O & R & F).
    rewrite Er in E2. injection E2 as -> ->. destruct Ha as [? Hs Hks Hr ? ?].
    split; [by split|]. split; [done|]. exists news. split_and!; [apply sort_by_perm|done|done| |].
    + by eapply rows_keys.
    + by eapply rows_ok.
  - split; [|done]. split; [done|]. intros Ha. exfalso.
    destruct (replace_accepts now tn item dto db Hk Ha) as (news & db2 & E2 & _). congruence.
Qed.

(** ** What a rule recommends *)

(** The DTO refuses NaN and the infinities. *)
Definition validated (dto : InventoryReorderRulesDto) : Prop :=
  Forall (λ r, isFinite (ru_reorderPoint r) = true ∧
    (∀ t, ru_targetStock r = Some t → isFinite t = true) ∧
    (∀ q, ru_fixedOrderQuantity r = Some q → isFinite q = true)) (rs_rules dto).
Definition finite_rule (r : ReorderRuleRow) : Prop :=
  isFinite (rr_reorderPoint r) = true ∧ (∀ t, rr_targetStock r = Some t → isFinite t = true) ∧
  (∀ q, rr_fixedOrderQuantity r = Some q → isFinite q = true).

Lemma recommended_pos r a q :
  rule_ok r → finite_rule r → isFinite a = true →
  rd_recommendedQuantity (buildReorderRecommendation r a) = Some q → gtb q (of_Z 0) = true.
Proof.
  intros Hok (Hp & Ht & Hq) Ha. unfold buildReorderRecommendation. cbn [rd_recommendedQuantity].
  destruct (leb a (rr_reorderPoint r)) eqn:Hreq; [|done].
  destruct (bool_decide _); [|done]. simpl. unfold rule_ok, strategy_ok in Hok.
  destruct (rr_quantityStrategy r).
  - destruct Hok as (_ & t & Et & Hlt). rewrite Et. simpl. specialize (Ht t Et).
    apply leb_false_gtb in Hlt; [|by apply isFinite_not_nan..].
    assert (Hs : gtb (sub t a) (of_Z 0) = true).
    { apply sub_pos; [done|]. by eapply leb_ltb_trans. }
    rewrite max_pos by done. by intros [= <-].
  - destruct Hok as (_ & x & Ex & Hlt). rewrite Ex. simpl. intros [= <-].
    apply leb_false_gtb in Hlt; [done|apply isFinite_not_nan; by apply Hq|].
    apply of_Z_not_nan.
Qed.

(** A stored rule restocks.  Whatever rules a successful replacement stored, and whatever
    finite quantity is available: a reorder is required exactly at or below the reorder
    point; a quantity is recommended exactly when, in addition, the rule suggests; it is
    positive; and a whole quantity ordered up to a whole target brings the stock to exactly
    that target. *)
Theorem reorder_restocks (now : Date) (tn item : string) (dto : InventoryReorderRulesDto)
    (db db' : Db) (rules : list ReorderRuleRow) (r : ReorderRuleRow) (a : number) :
  keyed TWarehouse db → replaceReorderRules now tn item dto db = (Ok rules, db') →
  validated dto → r ∈ rules → isFinite a = true →
  let d := buildReorderRecommendation r a in
  rd_reorderRequired d = leb a (rr_reorderPoint r) ∧
  match rd_recommendedQuantity d with
  | None => rd_reorderRequired d = false ∨ rr_action r = ALERT_ONLY
  | Some q => rd_reorderRequired d = true ∧ rr_action r = ALERT_AND_SUGGEST ∧
      gtb q (of_Z 0) = true ∧
      ∀ x y, a = of_Z x → rr_targetStock r = Some (of_Z y) →
        (0 <= x <= max_exact)%Z → (0 <= y <= max_exact)%Z → add a q = of_Z y
  end.
Proof.
  intros Hk E Hv Hr Ha d. split; [done|].
  unfold replaceReorderRules, transaction in E.
  destruct (replaceReorderRules_tx now tn item dto db) as [[rules' db2]|e] eqn:Er; [|done].
  injection E as -> ->. pose proof (replace_refuses _ _ _ _ _ _ Hk Er) as Hacc.
  destruct (replace_accepts now tn item dto db Hk Hacc) as (news & db2 & E2 & _ & _ & F).
  rewrite Er in E2. injection E2 as -> _. rewrite sort_by_perm in Hr.
  assert (Hok : rule_ok r ∧ finite_rule r).
  { pose proof (rows_ok _ _ _ _ _ _ F (ac_rules _ _ _ _ Hacc)) as Ho.
    rewrite Forall_forall in Ho. split; [by apply Ho|]. unfold validated in Hv.
    clear -F Hv Hr. induction F as [|x n rs ns [i ->] _ IH]; [by apply elem_of_nil in Hr|].
    apply Forall_cons in Hv as [Hx Hv]. apply elem_of_cons in Hr as [->|Hr]; [exact Hx|by apply IH]. }
  destruct Hok as [Hok Hfin].
  destruct (rd_recommendedQuantity d) as [q|] eqn:Eq.
  - pose proof (recommended_pos r a q Hok Hfin Ha Eq) as Hpos.
    unfold d, buildReorderRecommendation in Eq |- *. cbn [rd_recommendedQuantity rd_reorderRequired] in *.
    destruct (leb a (rr_reorderPoint r)) eqn:Hreq; [|done]. case_bool_decide as Hact; [|done].
    simpl in Eq. split_and!; [done..|]. intros x y -> Et Hx Hy.
    unfold rule_ok, strategy_ok in Hok. rewrite Et in *. simpl in Eq.
    destruct (rr_quantityStrategy r); [|by destruct Hok].
    rewrite sub_of_Z in Eq by lia.
    assert (q = of_Z (y - x)) as ->.
    { destruct Hok as (_ & t & [= <-] & Hlt). destruct Hfin as (Hp & Ht & _).
      apply leb_false_gtb in Hlt; [|apply of_Z_not_nan|by apply isFinite_not_nan].
      pose proof (leb_ltb_trans _ _ _ Hreq Hlt) as Hxy.
      rewrite ltb_of_Z in Hxy by lia. apply Z.ltb_lt in Hxy.
      rewrite max_pos in Eq; [by injection Eq as <-|].
      unfold gtb. rewrite ltb_of_Z by lia. by apply Z.ltb_lt; lia. }
    rewrite add_of_Z by lia. f_equal. lia.
  - unfold d, buildReorderRecommendation in Eq |- *.
    cbn [rd_recommendedQuantity rd_reorderRequired] in *.
    destruct (leb a (rr_reorderPoint r)); [|by left]. right. simpl in Eq.
    case_bool_decide as Hact; [done|]. by destruct (rr_action r).
Qed.

End rules.

(** * Balances *)

Section tables.
Context {V : Type}.
Implicit Types (ks : list (option string)) (f : option string → V) (k : option string).

(** A map with the keys [ks], in this order, and the values of [f]. *)
Definition tab ks f : WMap V := map (λ k, (k, f k)) ks.
Definition add_key k ks : list (option string) := if bool_decide (k ∈ ks) then ks else ks ++ [k].
Definition upd k (v : V) f : option string → V := λ k', if bool_decide (k' = k) then v else f k'.

Lemma add_key_NoDup k ks : NoDup ks → NoDup (add_key k ks).
Proof.
  intros Hn. unfold add_key. case_bool_decide; [done|]. apply NoDup_app.
  split; [done|]. split; [|repeat constructor; set_solver]. set_solver.
Qed.
Lemma elem_add_key k k' ks : k' ∈ add_key k ks ↔ k' = k ∨ k' ∈ ks.
Proof. unfold add_key. case_bool_decide; set_solver. Qed.
Lemma tab_ext ks f g : (∀ k, k ∈ ks → f k = g k) → tab ks f = tab ks g.
Proof. intros H. apply map_ext_in. intros k Hk%list_elem_of_In. by rewrite H. Qed.
Lemma tab_get ks f k : map_get (tab ks f) k = if bool_decide (k ∈ ks) then Some (f k) else None.
Proof.
  unfold map_get. induction ks as [|k' ks IH]; simpl; [done|].
  destruct (decide (k' = k)) as [->|E].
  - by rewrite !bool_decide_true by set_solver.
  - rewrite (bool_decide_false (k' = k)) by done. rewrite IH.
    by rewrite (bool_decide_ext (k ∈ k' :: ks) (k ∈ ks)) by set_solver.
Qed.
Lemma tab_put ks f k v : NoDup ks → map_put (tab ks f) k v = tab (add_key k ks) (upd k v f).
Proof.
  induction ks as [|k' ks IH]; intros Hn; simpl.
  { unfold add_key, upd. simpl. by rewrite bool_decide_true by done. }
  apply NoDup_cons in Hn as [Hk Hn]. case_bool_decide as E.
  - subst k'. unfold add_key. rewrite bool_decide_true by set_solver. simpl. f_equal.
    + unfold upd. by rewrite bool_decide_true by done.
    + apply tab_ext. intros x Hx. unfold upd. rewrite bool_decide_false; [done|]. by intros ->.
  - rewrite IH by done. unfold add_key. destruct (decide (k ∈ ks)) as [Hin|Hin].
    + rewrite !bool_decide_true by set_solver. simpl. f_equal.
      unfold upd. by rewrite ?bool_decide_false by done.
    + rewrite !bool_decide_false by set_solver. simpl. f_equal.
      unfold upd. by rewrite ?bool_decide_false by done.
Qed.
End tables.

(** What the rows at a warehouse add up to. *)
Section sums.
Context {A : Type} (wh : A → option string) (q : A → number).
Local Open Scope Z_scope.
Implicit Types (l : list A).

Definition at_wh l (k : option string) : Z :=
  sumZ (map (λ x, if bool_decide (wh x = k) then to_Z (q x) else 0) l).
Definition all_wh l : Z := sumZ (map (λ x, to_Z (q x)) l).
(** Whole quantities that are not negative. *)
Definition wholes l : Prop := Forall (λ x, q x = of_Z (to_Z (q x)) ∧ 0 <= to_Z (q x)) l.

Lemma at_wh_bounds l k : wholes l → 0 <= at_wh l k <= all_wh l.
Proof.
  unfold at_wh, all_wh. induction 1 as [|x l [_ Hx] _ IH]; simpl; [lia|]. case_bool_decide; lia.
Qed.
Lemma all_wh_nonneg l : wholes l → 0 <= all_wh l.
Proof. intros H. pose proof (at_wh_bounds l None H). lia. Qed.
Lemma at_wh_absent l k : k ∉ map wh l → at_wh l k = 0.
Proof.
  unfold at_wh. induction l as [|x l IH]; simpl; intros Hk; [done|].
  apply not_elem_of_cons in Hk as [H1 H2]. rewrite bool_decide_false by congruence.
  rewrite IH by done. lia.
Qed.
Lemma all_wh_perm l l' : l ≡ₚ l' → all_wh l = all_wh l'.
Proof. unfold all_wh. induction 1; simpl; lia. Qed.
Lemma wholes_perm l l' : l ≡ₚ l' → wholes l → wholes l'.
Proof. unfold wholes. by intros ->. Qed.

(** Each row is at one of the warehouses. *)
Lemma sum_warehouses ks l :
  NoDup ks → (∀ x, x ∈ l → wh x ∈ ks) → sumZ (map (at_wh l) ks) = all_wh l.
Proof.
  intros Hn. unfold all_wh. induction l as [|x l IH]; intros Hin.
  { clear. induction ks; simpl; [done|]. unfold at_wh in *. simpl in *. lia. }
  assert (Hx : sumZ (map (λ k, if bool_decide (wh x = k) then to_Z (q x) else 0) ks) = to_Z (q x)).
  { specialize (Hin x ltac:(by left)). clear -Hn Hin.
    induction ks as [|k ks IH]; [by apply elem_of_nil in Hin|]. simpl.
    apply NoDup_cons in Hn as [Hk Hn]. case_bool_decide as E.
    - subst k. assert (H0 : sumZ (map (λ k, if bool_decide (wh x = k) then to_Z (q x) else 0) ks) = 0).
      { clear -Hk. induction ks as [|k ks IH]; simpl; [done|].
        apply not_elem_of_cons in Hk as [H1 H2]. rewrite bool_decide_false by done.
        rewrite IH by done. lia. }
      rewrite H0. lia.
    - rewrite IH; [lia|done|]. apply elem_of_cons in Hin as [?|?]; [done|done]. }
  simpl. rewrite <- IH by (intros y Hy; apply Hin; by right). rewrite <- Hx.
  clear. induction ks as [|k ks IH]; simpl; [lia|]. unfold at_wh in *. simpl in *. lia.
Qed.

(** [reduce((total, x) => total + x.quantity, acc)] over whole quantities. *)
Lemma reduce_add {B} (g : B → Z) (xs : list B) (acc : Z) (get : B → number) :
  Forall (λ x, get x = of_Z (g x) ∧ 0 <= g x) xs → 0 <= acc →
  acc + sumZ (map g xs) <= max_exact →
  fold_left (λ t x, add t (get x)) xs (of_Z acc) = of_Z (acc + sumZ (map g xs)).
Proof.
  intros H. revert acc. induction H as [|x xs [Hx Hp] Hxs IH]; intros acc Hacc Hb; simpl in *.
  { by rewrite Z.add_0_r. }
  assert (0 <= sumZ (map g xs)).
  { apply sumZ_nonneg, Forall_map. apply (Forall_impl _ _ _ Hxs). by intros ? [? ?]. }
  rewrite Hx, add_of_Z by lia. rewrite IH by lia. f_equal. lia.
Qed.
End sums.

Section balances.
Context {dec : Decimal} {plat : Platform}.
Local Open Scope Z_scope.

Definition bal (s r : option string → Z) (k : option string) : Balance :=
  {| bl_available := of_Z (s k); bl_reserved := of_Z (r k) |}.
Definition keys_of {A} (wh : A → option string) (l : list A) (ks : list (option string))
  : list (option string) := fold_left (λ ks x, add_key (wh x) ks) l ks.
Lemma keys_of_ok {A} (wh : A → option string) l ks :
  NoDup ks → NoDup (keys_of wh l ks) ∧
  ∀ k, k ∈ keys_of wh l ks ↔ k ∈ ks ∨ k ∈ map wh l.
Proof.
  revert ks. induction l as [|x l IH]; intros ks Hn; simpl.
  { split; [done|]. set_solver. }
  destruct (IH (add_key (wh x) ks)) as [H1 H2]; [by apply add_key_NoDup|]. split; [done|].
  intros k. rewrite H2, elem_add_key. set_solver.
Qed.
Abbreviation stock_at_wh := (at_wh st_warehouseId st_quantity).
Abbreviation reserved_at_wh := (at_wh mv_warehouseId mv_quantity).
Abbreviation all_stock := (all_wh st_quantity).
Abbreviation all_reserved := (all_wh mv_quantity).

Lemma at_wh_snoc {A} (wh : A → option string) q l x k :
  at_wh wh q (l ++ [x]) k = at_wh wh q l k + if bool_decide (wh x = k) then to_Z (q x) else 0.
Proof. unfold at_wh. rewrite map_app. etrans; [apply sumZ_app|]. simpl. lia. Qed.

Lemma put_stocks stocks :
  NoDup (map st_warehouseId stocks) → wholes st_quantity stocks →
  fold_left put_stock stocks [] =
    tab (map st_warehouseId stocks) (bal (stock_at_wh stocks) (λ _, 0)).
Proof.
  induction stocks as [|s stocks IH] using rev_ind; intros Hn Hw; [done|].
  rewrite map_app in Hn. apply NoDup_app in Hn as (Hn & Hs & _).
  apply Forall_app in Hw as [Hw [[Hq _] _]%Forall_cons].
  rewrite fold_left_app, IH by done. simpl. unfold put_stock. rewrite tab_put by done.
  assert (Hni : st_warehouseId s ∉ map st_warehouseId stocks).
  { intros Hin. apply (Hs _ Hin). by left. }
  unfold add_key. rewrite bool_decide_false by done. rewrite map_app. apply tab_ext.
  intros k _. unfold upd, bal. rewrite at_wh_snoc. case_bool_decide as E.
  - subst k. rewrite at_wh_absent by done. rewrite bool_decide_true by done. by rewrite Hq at 1.
  - rewrite bool_decide_false by congruence. by rewrite Z.add_0_r.
Qed.

Lemma add_reservations ks s ms :
  NoDup ks → (∀ k, k ∉ ks → s k = 0) → wholes mv_quantity ms → all_reserved ms <= max_exact →
  fold_left add_reservation ms (tab ks (bal s (λ _, 0))) =
    tab (keys_of mv_warehouseId ms ks) (bal s (reserved_at_wh ms)).
Proof.
  intros Hn Hs. induction ms as [|m ms IH] using rev_ind; intros Hw Hb; [done|].
  pose proof (at_wh_bounds mv_warehouseId _ _ (mv_warehouseId m) Hw) as Hbm.
  rewrite at_wh_snoc, bool_decide_true in Hbm by done.
  apply Forall_app in Hw as [Hw [[Hq Hq0] _]%Forall_cons].
  assert (Ha : all_reserved (ms ++ [m]) = all_reserved ms + to_Z (mv_quantity m)).
  { unfold all_wh. rewrite map_app. etrans; [apply sumZ_app|]. simpl. lia. }
  rewrite fold_left_app, IH by (done || lia). unfold keys_of. rewrite fold_left_app. simpl.
  fold (keys_of mv_warehouseId ms ks). destruct (keys_of_ok mv_warehouseId ms ks Hn) as [Hn' Hks].
  unfold add_reservation. rewrite tab_get.
  set (k0 := mv_warehouseId m) in *.
  assert (Hd : default {| bl_available := of_Z 0; bl_reserved := of_Z 0 |}
    (if bool_decide (k0 ∈ keys_of mv_warehouseId ms ks)
     then Some (bal s (reserved_at_wh ms) k0) else None) = bal s (reserved_at_wh ms) k0).
  { case_bool_decide as E; [done|]. rewrite Hks in E. unfold bal.
    rewrite Hs, at_wh_absent; [done|set_solver..]. }
  rewrite Hd, tab_put by done. apply tab_ext. intros k _. unfold upd, bal. simpl.
  rewrite at_wh_snoc. fold k0.
  pose proof (at_wh_bounds mv_warehouseId mv_quantity ms k0 Hw) as Hb0.
  destruct (decide (k = k0)) as [->|E].
  - rewrite !bool_decide_true by done. f_equal. rewrite Hq at 1. by rewrite add_of_Z by lia.
  - rewrite !bool_decide_false by congruence. by rewrite Z.add_0_r.
Qed.

Lemma add_ruled_keys rules s r : ∀ ks,
  NoDup ks → (∀ k, k ∉ ks → s k = 0 ∧ r k = 0) →
  ∃ ks', fold_left add_ruled rules (tab ks (bal s r)) = tab ks' (bal s r) ∧ NoDup ks' ∧ ks ⊆ ks' ∧
    ∀ x, x ∈ rules → rr_scope x = ReorderPER_WAREHOUSE → truthy (rr_warehouseId x) = true →
      rr_warehouseId x ∈ ks'.
Proof.
  induction rules as [|x rules IH]; intros ks Hn Hz; simpl.
  { exists ks. split_and!; [done..|]. intros x Hx. by apply elem_of_nil in Hx. }
  unfold add_ruled at 2. rewrite tab_get.
  destruct (bool_decide (rr_scope x = ReorderPER_WAREHOUSE)) eqn:Hsc; simpl.
  2: { destruct (IH ks Hn Hz) as (ks' & E & Hn' & Hsub & Hr). exists ks'. split_and!; [done..|].
       intros y [->|Hy]%elem_of_cons; [|by apply Hr]. bool_hyps. done. }
  destruct (truthy (rr_warehouseId x)) eqn:Ht; simpl.
  2: { destruct (IH ks Hn Hz) as (ks' & E & Hn' & Hsub & Hr). exists ks'. split_and!; [done..|].
       intros y [->|Hy]%elem_of_cons; [|by apply Hr]. intros _ ?. congruence. }
  destruct (decide (rr_warehouseId x ∈ ks)) as [Hin|Hin].
  - rewrite (bool_decide_true (_ ∈ ks)) by done. rewrite bool_decide_false by done.
    destruct (IH ks Hn Hz) as (ks' & E & Hn' & Hsub & Hr). exists ks'. split_and!; [done..|].
    intros y [->|Hy]%elem_of_cons; [by auto|by apply Hr].
  - rewrite (bool_decide_false (_ ∈ ks)) by done. rewrite bool_decide_true by done.
    rewrite tab_put by done.
    rewrite (tab_ext _ _ (bal s r)).
    2: { intros k _. unfold upd. destruct (decide (k = rr_warehouseId x)) as [->|E].
         - rewrite bool_decide_true by done. unfold bal. by destruct (Hz _ Hin) as [-> ->].
         - by rewrite bool_decide_false. }
    destruct (IH (add_key (rr_warehouseId x) ks)) as (ks' & E & Hn' & Hsub & Hr).
    + by apply add_key_NoDup.
    + intros k Hk. apply Hz. rewrite elem_add_key in Hk. tauto.
    + exists ks'. split_and!; [done..| |].
      * intros k Hk. apply Hsub, elem_add_key. by right.
      * intros y [->|Hy]%elem_of_cons; [|by apply Hr]. intros _ _. apply Hsub, elem_add_key. by left.
Qed.

(** [stockBalances] adds rows of one warehouse up. *)
Lemma add_balances stocks :
  wholes st_quantity stocks → all_stock stocks <= max_exact →
  ∃ d, fold_left add_balance stocks [] =
    tab (keys_of st_warehouseId stocks [])
      (λ k, {| bb_quantity := of_Z (stock_at_wh stocks k); bb_updatedAt := d k |}).
Proof.
  induction stocks as [|s stocks IH] using rev_ind; intros Hw Hb; [by exists (λ _, 0)|].
  pose proof (at_wh_bounds st_warehouseId _ _ (st_warehouseId s) Hw) as Hbs.
  rewrite at_wh_snoc, bool_decide_true in Hbs by done.
  apply Forall_app in Hw as [Hw [[Hq Hq0] _]%Forall_cons].
  assert (Ha : all_stock (stocks ++ [s]) = all_stock stocks + to_Z (st_quantity s)).
  { unfold all_wh. rewrite map_app. etrans; [apply sumZ_app|]. simpl. lia. }
  destruct IH as [d IH]; [done|lia|]. rewrite fold_left_app, IH. unfold keys_of.
  rewrite fold_left_app. simpl. fold (keys_of st_warehouseId stocks []).
  destruct (keys_of_ok st_warehouseId stocks []) as [Hn Hks]; [constructor|].
  unfold add_balance. rewrite tab_get. set (k0 := st_warehouseId s) in *.
  pose proof (at_wh_bounds st_warehouseId st_quantity stocks k0 Hw) as Hb0.
  assert (Hv : ∀ v, bb_quantity v = of_Z (stock_at_wh (stocks ++ [s]) k0) →
    ∃ d', map_put (tab (keys_of st_warehouseId stocks [])
        (λ k, {| bb_quantity := of_Z (stock_at_wh stocks k); bb_updatedAt := d k |})) k0 v =
      tab (add_key k0 (keys_of st_warehouseId stocks []))
        (λ k, {| bb_quantity := of_Z (stock_at_wh (stocks ++ [s]) k); bb_updatedAt := d' k |})).
  { intros v Hv. exists (λ k, if bool_decide (k = k0) then bb_updatedAt v else d k).
    rewrite tab_put by done. apply tab_ext. intros k _. unfold upd.
    destruct (decide (k = k0)) as [->|E].
    - rewrite !bool_decide_true by done. rewrite <- Hv. by destruct v.
    - rewrite !bool_decide_false by done. rewrite at_wh_snoc. fold k0.
      rewrite bool_decide_false by congruence. by rewrite Z.add_0_r. }
  destruct (decide (k0 ∈ keys_of st_warehouseId stocks [])) as [Hin|Hin].
  - rewrite bool_decide_true by done. apply Hv. simpl. rewrite Hq at 1. rewrite add_of_Z by lia.
    rewrite at_wh_snoc. by rewrite bool_decide_true.
  - rewrite bool_decide_false by done. apply Hv. simpl. rewrite Hq at 1. f_equal.
    rewrite at_wh_snoc, bool_decide_true by done. rewrite at_wh_absent; [lia|].
    rewrite Hks in Hin. set_solver.
Qed.

(** ** The answers *)

Lemma load_item_ok tn item db i d :
  findInventoryItem tn item db = Ok (i, d) → d = db.
Proof.
  rewrite load_item. by destruct (List.find (Reservations.item_of_tenant tn item) _);
    intros [=].
Qed.

(** The stock rows of an item a tenant sees, and its active reservations. *)
Definition stocks_seen (tn item : string) (db : Db) : list StockRow :=
  List.filter (λ s, Costing.stocks_of item s &&
    in_tenant tn (List.filter (λ _, true) (rows db TWarehouse)) (st_warehouseId s)) (rows db TStock).
Definition reservations_seen (tn item : string) (db : Db) : list MovementRow :=
  List.filter (active_reservation tn item (List.filter (λ _, true) (rows db TWarehouse)))
    (rows db TMovement).

Lemma stock_rows_ok tn item db : stock_rows tn item db = Ok (stocks_seen tn item db, db).
Proof. done. Qed.

Lemma add_locations rules ks s r :
  Forall (λ k, 0 <= s k ∧ 0 <= r k) ks →
  sumZ (map s ks) + sumZ (map r ks) <= max_exact →
  ∀ a b, 0 <= a → 0 <= b → a + b + sumZ (map s ks) + sumZ (map r ks) <= max_exact →
  fold_left add_location (map (location rules) (tab ks (bal s r)))
    {| to_available := of_Z a; to_reserved := of_Z b; to_onHand := of_Z (a + b) |} =
  {| to_available := of_Z (a + sumZ (map s ks)); to_reserved := of_Z (b + sumZ (map r ks));
     to_onHand := of_Z (a + sumZ (map s ks) + (b + sumZ (map r ks))) |}.
Proof.
  intros H _. induction H as [|k ks [Hs Hr] Hks IH]; intros a b Ha Hb Hle; simpl in *.
  { by rewrite !Z.add_0_r. }
  assert (0 <= sumZ (map s ks) ∧ 0 <= sumZ (map r ks)) as [??].
  { split; apply sumZ_nonneg, Forall_map; apply (Forall_impl _ _ _ Hks); by intros ? [? ?]. }
  unfold add_location at 2. simpl. rewrite !add_of_Z by lia.
  replace (a + b + (s k + r k)) with ((a + s k) + (b + r k)) by ring.
  rewrite IH by lia. f_equal; f_equal; lia.
Qed.

Lemma stock_balances_ok tn item db balances total db' :
  stockBalances tn item db = Ok (balances, total, db') →
  wholes st_quantity (stocks_seen tn item db) → all_stock (stocks_seen tn item db) <= max_exact →
  db' = db ∧ total = of_Z (all_stock (stocks_seen tn item db)).
Proof.
  intros E Hw Hb. unfold stockBalances in E. apply tx_bind_ok in E as (i & d & E1 & E).
  apply load_item_ok in E1 as ->. rewrite (tx_bind_run _ _ _ _ _ (stock_rows_ok tn item db)) in E.
  cbv zeta in E.
  pose proof (sort_by_perm stock_le (stocks_seen tn item db)) as Hp.
  set (sorted := sort_by stock_le (stocks_seen tn item db)) in *.
  rewrite (all_wh_perm st_quantity _ sorted) in * by done.
  apply (wholes_perm st_quantity _ sorted) in Hw; [|done].
  destruct (add_balances sorted Hw Hb) as [dt Hf]. rewrite Hf in E.
  injection E as _ <- <-. split; [done|].
  destruct (keys_of_ok st_warehouseId sorted []) as [Hn Hks]; [constructor|].
  assert (Hsum : sumZ (map (stock_at_wh sorted) (keys_of st_warehouseId sorted [])) =
    all_stock sorted).
  { apply sum_warehouses; [done|]. intros x Hx. apply Hks. right. by apply list_elem_of_fmap_2. }
  rewrite <- Hsum in Hb |- *.
  pose proof (reduce_add (λ b, stock_at_wh sorted (fst b))
    (tab (keys_of st_warehouseId sorted []) (λ k, {| bb_quantity := of_Z (stock_at_wh sorted k);
      bb_updatedAt := dt k |})) 0 (λ b, bb_quantity (snd b))) as Hr.
  unfold tab in Hr |- *. rewrite map_map in Hr. simpl in Hr. rewrite Hr; [done| |lia|exact Hb].
  apply Forall_map, Forall_forall. intros k _. split; [done|]. by apply at_wh_bounds.
Qed.

(** C23: The availability of an item adds up.  For whole quantities and one stock row per
    warehouse, every warehouse that holds stock or reservations or has a rule is listed once,
    with the stock as available, the active reservations as reserved and their sum as on
    hand; the totals are the sums over all rows, and the total of [stockBalances] - which
    also adds up several rows of a warehouse - is the available total.  Neither changes the
    store. *)
Theorem availability_adds_up (tn item : string) (db : Db) (av : Availability) (db1 db2 : Db)
    (balances : WMap StockBalance) (total : number) :
  availability tn item db = Ok (av, db1) → stockBalances tn item db = Ok (balances, total, db2) →
  let stocks := stocks_seen tn item db in let reserved := reservations_seen tn item db in
  NoDup (map st_warehouseId stocks) → wholes st_quantity stocks → wholes mv_quantity reserved →
  all_stock stocks + all_reserved reserved <= max_exact →
  db1 = db ∧ db2 = db ∧
  NoDup (map lc_warehouseId (av_balances av)) ∧
  Forall (λ l, let k := lc_warehouseId l in
    lc_available l = of_Z (stock_at_wh stocks k) ∧ lc_reserved l = of_Z (reserved_at_wh reserved k) ∧
    lc_onHand l = of_Z (stock_at_wh stocks k + reserved_at_wh reserved k)) (av_balances av) ∧
  (∀ k, k ∈ map st_warehouseId stocks ∨ k ∈ map mv_warehouseId reserved →
    k ∈ map lc_warehouseId (av_balances av)) ∧
  av_totals av = {| to_available := of_Z (all_stock stocks);
                    to_reserved := of_Z (all_reserved reserved);
                    to_onHand := of_Z (all_stock stocks + all_reserved reserved) |} ∧
  total = of_Z (all_stock stocks).
Proof.
  intros E E2 stocks reserved Hn Hws Hwr Hb.
  pose proof (all_wh_nonneg st_warehouseId _ _ Hws) as Hs0.
  pose proof (all_wh_nonneg mv_warehouseId _ _ Hwr) as Hr0.
  destruct (stock_balances_ok _ _ _ _ _ _ E2 Hws) as [-> ->]; [unfold stocks, reserved in *; lia|].
  unfold availability in E. apply tx_bind_ok in E as (i & d & E1 & E).
  apply load_item_ok in E1 as ->. rewrite (tx_bind_run _ _ _ _ _ (stock_rows_ok tn item db)) in E.
  apply tx_bind_ok in E as (ws & d & [= <- <-] & E).
  rewrite (tx_bind_run _ _ _ (reservations_seen tn item db) db) in E by done.
  apply tx_bind_ok in E as (rules & d & E1 & E).
  assert (d = db) as -> by by injection E1 as _ <-. clear E1.
  fold stocks reserved in E. cbv zeta in E.
  rewrite put_stocks, add_reservations in E;
    [|done|intros k; apply at_wh_absent|done|unfold stocks, reserved in *; lia|done|done].
  destruct (keys_of_ok mv_warehouseId reserved _ Hn) as [Hn' Hks].
  destruct (add_ruled_keys rules (stock_at_wh stocks) (reserved_at_wh reserved) _ Hn')
    as (ks & Er & Hnk & Hsub & _).
  { intros k Hk. rewrite Hks in Hk. split; apply at_wh_absent; set_solver. }
  rewrite Er in E. injection E as <- <-. cbn [av_balances av_totals].
  assert (Hmem : ∀ k, k ∈ map st_warehouseId stocks ∨ k ∈ map mv_warehouseId reserved → k ∈ ks).
  { intros k Hk. by apply Hsub, Hks. }
  assert (Hwh : map lc_warehouseId (map (location rules) (tab ks
    (bal (stock_at_wh stocks) (reserved_at_wh reserved)))) = ks).
  { unfold tab. rewrite !map_map. simpl. apply map_id. }
  assert (Hsum : sumZ (map (stock_at_wh stocks) ks) = all_stock stocks ∧
                 sumZ (map (reserved_at_wh reserved) ks) = all_reserved reserved).
  { split; apply sum_warehouses; try done; intros x Hx; apply Hmem;
      [left|right]; by apply list_elem_of_fmap_2. }
  destruct Hsum as [HS HR]. rewrite Hwh. split_and!; [done..| |done| |done].
  - unfold tab. rewrite map_map. apply Forall_map, Forall_forall. intros k _. simpl.
    pose proof (at_wh_bounds st_warehouseId _ _ k Hws).
    pose proof (at_wh_bounds mv_warehouseId _ _ k Hwr).
    split_and!; [done..|]. rewrite add_of_Z by (unfold stocks, reserved in *; lia). done.
  - pose proof (add_locations rules ks (stock_at_wh stocks) (reserved_at_wh reserved)) as Hl.
    rewrite HS, HR in Hl. specialize (Hl ltac:(by apply Forall_forall; intros k _; split;
      apply at_wh_bounds) ltac:(done) 0 0 ltac:(done) ltac:(done) ltac:(done)).
    exact Hl.
Qed.

End balances.

(** * Examples

    Flour in one warehouse, partly reserved, with a rule that orders up to ten. *)
Module ReorderExamples.

Import FixedPoint SamplePlatform.
Local Open Scope Z_scope.
Local Open Scope string_scope.

Definition flour : ItemRow :=
  {| it_id := "flour"; it_tenantId := "t1"; it_valuationMethod := Some FIFO;
     it_movingAverageScope := None; it_standardCost := None; it_averageUnitCost := None;
     it_valuationLockedAt := None |}.
Definition stock (i : string) (w : option string) (q : Z) : StockRow :=
  {| st_id := i; st_warehouseId := w; st_inventoryItemId := "flour"; st_quantity := of_Z q;
     st_averageUnitCost := None; st_createdAt := 1; st_updatedAt := 1 |}.
Definition reservation : MovementRow :=
  {| mv_id := "m1"; mv_tenantId := "t1"; mv_type := STOCK_OUT; mv_quantity := of_Z 1;
     mv_note := None; mv_createdAt := 2; mv_beforeQuantity := Some (of_Z 5);
     mv_afterQuantity := Some (of_Z 4); mv_createdById := None; mv_inventoryItemId := "flour";
     mv_referenceId := Some "o1"; mv_referenceType := Some Reservations.ACTIVE_RESERVATION_REF;
     mv_warehouseId := Some "w1"; mv_unitCost := None; mv_totalCost := None |}.
Definition store_of (stocks : list StockRow) : Db :=
  on TItem (λ _, [flour]) (on TStock (λ _, stocks) (on TMovement (λ _, [reservation])
    (on TWarehouse (λ _, [{| wh_id := "w1"; wh_tenantId := "t1"; wh_outletId := None;
                             wh_isActive := true |}]) emptyDb))).
Definition store : Db := store_of [stock "s1" (Some "w1") 4; stock "s2" None 2].
Definition dto : InventoryReorderRulesDto :=
  {| rs_scope := ReorderPER_WAREHOUSE;
     rs_rules := [{| ru_warehouseId := Some "w1"; ru_reorderPoint := of_Z 4;
       ru_quantityStrategy := TARGET_STOCK; ru_targetStock := Some (of_Z 10);
       ru_fixedOrderQuantity := None; ru_action := None |}] |}.

Lemma store_keyed_warehouses : keyed TWarehouse store.
Proof. apply (bool_decide_unpack _). vm_compute. exact I. Qed.
Lemma dto_replaces :
  match fst (replaceReorderRules 5 "t1" "flour" dto store) with Ok [_] => true | _ => false end =
    true.
Proof. vm_compute. reflexivity. Qed.

Lemma rules_replaced_witness :
  ∃ r db', replaceReorderRules 5 "t1" "flour" dto store = (Ok [r], db') ∧ rule_ok r ∧
    rows db' TReorderRule = [r].
Proof.
  pose proof dto_replaces as C.
  destruct (replaceReorderRules 5 "t1" "flour" dto store) as [[[|r [|]]|] db'] eqn:E;
    try discriminate C.
  destruct (rules_replaced 5 "t1" "flour" dto store _ db' store_keyed_warehouses E)
    as (_ & _ & news & Hp & Hr & _ & _ & Hok).
  apply Permutation_singleton_l in Hp. subst news. exists r, db'. split; [reflexivity|].
  split; [by apply Forall_cons in Hok as [? _]|exact Hr].
Defined.

Lemma reorder_restocks_witness :
  ∃ r db' q, replaceReorderRules 5 "t1" "flour" dto store = (Ok [r], db') ∧
    rd_recommendedQuantity (buildReorderRecommendation r (of_Z 3)) = Some q ∧
    add (of_Z 3) q = of_Z 10.
Proof.
  assert (Hv : validated dto).
  { repeat constructor; intros x Hx; [|done]. apply (inj Some) in Hx. by rewrite <- Hx. }
  pose proof dto_replaces as C.
  assert (C2 : match fst (replaceReorderRules 5 "t1" "flour" dto store) with
    | Ok [r] => bool_decide (rd_recommendedQuantity (buildReorderRecommendation r (of_Z 3)) =
                  Some (of_Z 7)) && bool_decide (rr_targetStock r = Some (of_Z 10))
    | _ => false end = true) by (vm_compute; reflexivity).
  destruct (replaceReorderRules 5 "t1" "flour" dto store) as [[[|r [|]]|] db'] eqn:E;
    try discriminate C.
  cbn [fst] in C2. apply andb_true_iff in C2 as [C2 C3].
  apply bool_decide_eq_true_1 in C2, C3. exists r, db', (of_Z 7). split; [reflexivity|].
  split; [exact C2|].
  destruct (reorder_restocks 5 "t1" "flour" dto store db' [r] r (of_Z 3) store_keyed_warehouses E
    Hv ltac:(by left) ltac:(reflexivity)) as [_ H]. rewrite C2 in H.
  destruct H as (_ & _ & _ & H). apply (H 3 10); [reflexivity|exact C3|unfold max_exact; lia..].
Defined.

Lemma availability_adds_up_witness :
  ∃ av balances total, availability "t1" "flour" store = Ok (av, store) ∧
    stockBalances "t1" "flour" store = Ok (balances, total, store) ∧
    av_totals av = {| to_available := of_Z 6; to_reserved := of_Z 1; to_onHand := of_Z 7 |} ∧
    total = of_Z 6.
Proof.
  destruct (availability "t1" "flour" store) as [[av db1]|] eqn:E; [|discriminate E].
  destruct (stockBalances "t1" "flour" store) as [[[bs total] db2]|] eqn:E2; [|discriminate E2].
  assert (Hw : ∀ z, 0 <= z < 100 → of_Z z = of_Z (to_Z (of_Z z)) ∧ 0 <= to_Z (of_Z z)).
  { intros z Hz. rewrite to_Z_of_Z by (unfold max_exact; lia). split; [done|lia]. }
  assert (H0 : all_wh st_quantity (stocks_seen "t1" "flour" store) = 6 ∧
               all_wh mv_quantity (reservations_seen "t1" "flour" store) = 1)
    by (split; vm_compute; reflexivity).
  destruct H0 as [Hs Hr].
  destruct (availability_adds_up "t1" "flour" store av db1 db2 bs total E E2)
    as (-> & -> & _ & _ & _ & Ht & Htot).
  - apply (bool_decide_unpack _). vm_compute. exact I.
  - constructor; [exact (Hw 4 ltac:(lia))|]. constructor; [exact (Hw 2 ltac:(lia))|constructor].
  - constructor; [exact (Hw 1 ltac:(lia))|constructor].
  - rewrite Hs, Hr. vm_compute. discriminate.
  - exists av, bs, total. rewrite Hs, Hr in Ht. rewrite Hs in Htot.
    split; [reflexivity|]. split; [reflexivity|]. split; [exact Ht|exact Htot].
Defined.

(** The unique key of a stock row does not bind rows without a warehouse, and
    [stockBalances] adds them up; [availability] keeps the last one only. *)
Definition unassigned : Db := store_of [stock "s1" None 4; stock "s2" None 2].
Example unassigned_rows_overwritten :
  match availability "t1" "flour" unassigned, stockBalances "t1" "flour" unassigned with
  | Ok (av, _), Ok (_, total, _) =>
      bool_decide (to_available (av_totals av) = of_Z 2) && bool_decide (total = of_Z 6)
  | _, _ => false
  end = true.
Proof. vm_compute. reflexivity. Qed.

End ReorderExamples.
