(* ===== verification/Outbox.v ===== *)
(** Domain events on their way out: the in-process bus
    (core/events/domain-event-bus.service.ts), the transactional outbox
    (infrastructure/events/outbox.publisher.ts) and its dispatcher
    (core/events/outbox-dispatcher.service.ts).

    The handlers are the rest of the program: a handler is any function on the
    state [W] of everything outside the outbox.  Spans, metrics and logging are not
    modelled. *)

From stdpp Require Import base list strings option sets.
From Stdlib Require Import ZArith Lia.
From S2P Require Import Prelude JsNumber JsString DomainEvents CoreDomain MasterData Lifecycles.
From S2P Require Import PurchaseOrderAggregate Decimal Database.

Module Outbox.

(** What a handler throws: an [Error] with its message, or another value. *)
Inductive thrown := ThrownError (message : string) | ThrownValue.

(** An event as it is published: its fields, with [occurredAt] as a date. *)
Record Event := {
  ev_fields : list (string * json);
  ev_type : string;
  ev_payload : json;
  ev_occurredAt : option Date;
}.

(** [JSON.parse] keeps the last value of a key. *)
Definition field (name : string) (fields : list (string * json)) : option json :=
  snd <$> List.find (λ f, bool_decide (fst f = name)) (rev fields).

Section bus.
Context {W : Type}.

(** ** The event bus *)

(** A handler runs in the request context of a tenant and an outlet. *)
Definition Handler : Type :=
  string → option string → Event → W → option thrown * W.
(** The handlers of each event name; a handler is known by its identity, and a
    [Set] keeps the order in which its elements were added. *)
Definition Bus : Type := list (string * list nat).

Definition handlers_of (bus : Bus) (name : string) : list nat :=
  match List.find (λ b, bool_decide (fst b = name)) bus with
  | Some (_, hs) => hs
  | None => []
  end.
Fixpoint set_handlers (bus : Bus) (name : string) (hs : list nat) : Bus :=
  match bus with
  | [] => [(name, hs)]
  | (n, old) :: bus => if bool_decide (n = name) then (n, hs) :: bus
                       else (n, old) :: set_handlers bus name hs
  end.
Definition subscribe (bus : Bus) (name : string) (h : nat) : Bus :=
  let hs := handlers_of bus name in
  set_handlers bus name (if bool_decide (h ∈ hs) then hs else hs ++ [h]).
(** The function [subscribe] returns. *)
Definition unsubscribe (bus : Bus) (name : string) (h : nat) : Bus :=
  set_handlers bus name (List.filter (λ x, negb (x =? h)) (handlers_of bus name)).

(** [publish]: the handlers in turn, up to the first that throws. *)
Fixpoint call_all (hs : list Handler) (tenantId : string) (outletId : option string)
    (e : Event) (w : W) : option thrown * W :=
  match hs with
  | [] => (None, w)
  | h :: hs => match h tenantId outletId e w with
               | (None, w') => call_all hs tenantId outletId e w'
               | threw => threw
               end
  end.
Definition with_occurredAt (now : Date) (e : Event) : Event :=
  {| ev_fields := ev_fields e; ev_type := ev_type e; ev_payload := ev_payload e;
     ev_occurredAt := Some (default now (ev_occurredAt e)) |}.
Definition publish (now : Date) (run : nat → Handler) (bus : Bus) (tenantId : string)
    (outletId : option string) (e : Event) : W → option thrown * W :=
  call_all (map run (handlers_of bus (ev_type e))) tenantId outletId (with_occurredAt now e).

End bus.

Section dispatcher.
Context {dec : Decimal} {plat : Platform}.
(** [new Date(s)]: [None] for an invalid date.  The formats beyond ISO 8601 are up
    to the implementation. *)
Context (parseDate : string → option Date).

(** ** Reading an event back *)

Definition isRecord (v : json) : bool :=
  match v with JObject _ | JArray _ => true | _ => false end.
Definition invalid : exn := JsError "Invalid domain event payload in outbox".
Definition invalid_date : exn := JsError "Invalid domain event occurredAt in outbox".

Definition normalizeDomainEvent (v : json) : result Event :=
  match v with
  | JObject fields =>
      match field "type" fields, field "payload" fields with
      | Some (JString type), Some payload =>
          if bool_decide (type ∈ DOMAIN_EVENTS) && isRecord payload then
            let event d := {| ev_fields := fields; ev_type := type; ev_payload := payload;
                              ev_occurredAt := d |} in
            match field "occurredAt" fields with
            | None => Ok (event None)
            | Some (JDate d) => Ok (event (Some d))
            | Some (JString s) => match parseDate s with
                                  | Some d => Ok (event (Some d))
                                  | None => Err invalid_date
                                  end
            | Some _ => Err invalid_date
            end
          else Err invalid
      | _, _ => Err invalid
      end
  | _ => Err invalid
  end.

Definition getEventTenantId (e : Event) : option string :=
  match ev_payload e with
  | JObject fields => match field "tenantId" fields with
                      | Some (JString t) => if is_empty t then None else Some t
                      | _ => None
                      end
  | _ => None
  end.

(** The event of a row and the tenant it belongs to. *)
Definition read_event (parse_error : string) (o : OutboxRow) : result (Event * string) :=
  parsed ← match ob_payload o with
           | PayloadText (Some j) => Ok j
           | PayloadText None => Err (JsError parse_error)
           | PayloadValue j => Ok j
           end;
  event ← normalizeDomainEvent parsed;
  match (match ob_tenantId o with Some t => Some t | None => getEventTenantId event end) with
  | Some t => if is_empty t then Err (JsError "OUTBOX_TENANT_CONTEXT_MISSING")
              else Ok (event, t)
  | None => Err (JsError "OUTBOX_TENANT_CONTEXT_MISSING")
  end.

(** ** Dispatching *)

Context {W : Type} (now : Date) (run : nat → Handler (W := W)) (bus : Bus).
(** The message of the [SyntaxError] of [JSON.parse]. *)
Context (parse_error : string).

Definition set_outbox (status : OutboxEventStatus) (error : option string)
    (processedAt : option Date) (o : OutboxRow) : OutboxRow :=
  {| ob_id := ob_id o; ob_tenantId := ob_tenantId o; ob_outletId := ob_outletId o;
     ob_type := ob_type o; ob_payload := ob_payload o; ob_status := status;
     ob_error := match error with Some m => Some m | None => ob_error o end;
     ob_createdAt := ob_createdAt o;
     ob_processedAt := match processedAt with Some d => Some d | None => ob_processedAt o end |}.

(** What becomes of a row: the message it fails with, if any, and the state the
    handlers leave. *)
Definition exn_message (e : exn) : string :=
  match e with
  | BadRequestException m | NotFoundException m | ConflictException m | BadGatewayException m
  | InternalServerErrorException m | JsError m | PrismaError m => m
  end.
Definition deliver (o : OutboxRow) (w : W) : option string * W :=
  match read_event parse_error o with
  | Err e => (Some (exn_message e), w)
  | Ok (event, tenantId) =>
      match publish now run bus tenantId (ob_outletId o) event w with
      | (None, w') => (None, w')
      | (Some (ThrownError m), w') => (Some m, w')
      | (Some ThrownValue, w') => (Some "Unknown outbox dispatch error"%string, w')
      end
  end.
Definition settle (failure : option string) : OutboxRow → OutboxRow :=
  match failure with
  | None => set_outbox PROCESSED None (Some now)
  | Some m => set_outbox OutboxFAILED (Some m) None
  end.

(** The body of the loop. *)
Definition dispatch_one (w : W) (o : OutboxRow) : Tx Db W :=
  let '(failure, w') := deliver o w in
  _ ← update_id TOutbox (ob_id o) (settle failure); mret w'.
Fixpoint dispatch_all (w : W) (os : list OutboxRow) : Tx Db W :=
  match os with
  | [] => mret w
  | o :: os => w' ← dispatch_one w o; dispatch_all w' os
  end.

Definition pending (o : OutboxRow) : bool := bool_decide (ob_status o = OutboxPENDING).
Definition batch (limit : nat) (db : Db) : list OutboxRow :=
  firstn limit (sort_by (λ a b, (ob_createdAt a <=? ob_createdAt b)%Z)
                  (List.filter pending (rows db TOutbox))).
Definition dispatchBatch (limit : nat) (w : W) : Tx Db W :=
  db ← tx_get; dispatch_all w (batch limit db).

End dispatcher.

(** ** Writing an event *)

Section publisher.
Context {dec : Decimal} {plat : Platform}.

(** The request context, as far as the publisher reads it. *)
Record Context_ := { cx_tenantId : option string; cx_outletId : option string }.

(** [OutboxPublisher.publish]; [fields] are the fields of the event without
    [occurredAt], and [observability] is the context as JSON. *)
Definition outbox_publish (now : Date) (ctx : Context_) (observability : json) (type : string)
    (payload : list (string * json)) (occurredAt : option Date) : Tx Db unit :=
  let tenantId := match cx_tenantId ctx with
                  | Some t => Some t
                  | None => match field "tenantId" payload with
                            | Some (JString t) => Some t
                            | _ => None
                            end
                  end in
  _ ← tx_throw_if (negb (truthy tenantId)) (JsError "OUTBOX_TENANT_CONTEXT_MISSING");
  _ ← insert TOutbox (λ i, {| ob_id := i; ob_tenantId := tenantId;
        ob_outletId := cx_outletId ctx; ob_type := type;
        ob_payload := JSON_stringify (JObject
          [("type"%string, JString type); ("payload"%string, JObject payload);
           ("occurredAt"%string, JDate (default now occurredAt));
           ("_observability"%string, observability)]);
        ob_status := OutboxPENDING; ob_error := None; ob_createdAt := now;
        ob_processedAt := None |});
  mret tt.

End publisher.
End Outbox.
