(* ===== verification/Orders.v ===== *)
(** Sales orders from their creation to their completion: the service and the repository
    of orders (modules/orders/orders.service.ts, orders.repository.ts), payments
    (modules/payments), and the orchestrator that reacts to the events of both
    (modules/orders/order-orchestrator.service.ts).

    The methods are flows: every call of the database commits by itself.  A published
    event reaches its subscribers before the method goes on.  The orchestrator is one of
    them; the others (audit log, notifications, websockets) are asked and may throw. *)

From stdpp Require Import base list strings option pretty.
From Stdlib Require Import ZArith.
From S2P Require Import Prelude Flows JsNumber JsString DomainEvents CoreDomain MasterData.
From S2P Require Import Lifecycles PurchaseOrderAggregate Decimal Database Costing Receipts.
From S2P Require Import Reservations InventoryStock Outbox.

Local Open Scope string_scope.

(** * Events *)

(** An event for the subscribers other than the orchestrator: of an event the
    orchestrator handles, those that registered before it or after it. *)
Inductive Notice := Subscribers (e : DomainEvent) | Before (e : DomainEvent) | After (e : DomainEvent).
(** The answer is what one of them throws, if any does. *)
Abbreviation OFlow A := (Flow Db Notice (option exn) A).

Section events.
Context {dec : Decimal}.
Definition inform (n : Notice) : OFlow unit :=
  threw ← ask n; match threw with None => mret tt | Some e => throw e end.
(** Code between two database calls: it returns or throws. *)
Definition lift {A} (r : result A) : OFlow A := Return r.
(** [events.publish] of an event the orchestrator does not handle, and of one it does. *)
Definition publish (e : DomainEvent) : OFlow unit := inform (Subscribers e).
Definition publish_handled (e : DomainEvent) (handle : OFlow unit) : OFlow unit :=
  _ ← inform (Before e); _ ← handle; inform (After e).

(** Run alone. *)
Lemma alone_lift {W A B} (answer : Notice → W → option exn * W) (r : result A)
    (f : A → OFlow B) db w :
  alone answer (lift r ≫= f) db w =
    match r with Ok a => alone answer (f a) db w | Err e => (Err e, db, w) end.
Proof. by rewrite alone_bind; destruct r. Qed.
Lemma alone_inform {W} (answer : Notice → W → option exn * W) n db w :
  alone answer (inform n) db w =
    let '(threw, w') := answer n w in
    (match threw with None => Ok tt | Some e => Err e end, db, w').
Proof.
  unfold inform. rewrite alone_bind, alone_ask. destruct (answer n w) as [[e|] w']; done.
Qed.
End events.

(** * The columns the services change *)

Definition edit_order {dec : Decimal} (status : OrderStatus) (paymentStatus : PaymentStatus)
    (paidAmount : number) (releasedAt : option Date) (priority : number) (o : SalesOrderRow)
  : SalesOrderRow :=
  {| so_id := so_id o; so_tenantId := so_tenantId o; so_outletId := so_outletId o;
     so_orderNumber := so_orderNumber o; so_status := status; so_orderMode := so_orderMode o;
     so_paymentStatus := paymentStatus; so_paidAmount := paidAmount;
     so_kitchenReleasedAt := releasedAt; so_kitchenPriority := priority;
     so_totalAmount := so_totalAmount o; so_currencyCode := so_currencyCode o;
     so_createdAt := so_createdAt o; so_SalesOrderItem := so_SalesOrderItem o |}.

(** * Orders *)

Module Orders.

Section service.
Context {dec : Decimal} {plat : Platform}.
Import Fulfillment.

Definition not_found : exn := BadRequestException "Order not found".
(** [{ id, tenantId, ...(outletId ? { outletId } : {}) }]. *)
Definition in_scope (id tenantId : string) (outletId : option string) (o : SalesOrderRow)
  : bool :=
  Reservations.of_tenant id tenantId o &&
  (negb (truthy outletId) || bool_decide (so_outletId o = outletId)).

(** ** The repository *)

Definition findOne (id tenantId : string) (outletId : option string)
  : Tx Db (option SalesOrderRow) :=
  select_first TSalesOrder (in_scope id tenantId outletId).
Definition product_in (tenantId : string) (ids : list string) (p : ProductRow) : bool :=
  bool_decide (pd_id p ∈ ids) && bool_decide (pd_tenantId p = tenantId).
Definition findProductsByIds (ids : list string) (tenantId : string)
  : Tx Db (list ProductRow) :=
  select TProduct (product_in tenantId ids).

(** A line with its product; the foreign key makes sure there is one. *)
Definition line_of (p : ProductRow) (i : Order.OrderItemDetails) : OrderLine :=
  {| line_productId := Order.productId i; line_quantity := Order.quantity i;
     line_price := Order.price i; line_subtotal := Order.subtotal i;
     line_productName := pd_name p; line_inventoryItem := pd_inventoryItemId p;
     line_inventoryItemId := pd_inventoryItemId p; line_recipe := pd_Recipe p |}.
Definition lines_of (products : list ProductRow) (items : list Order.OrderItemDetails)
  : result (list OrderLine) :=
  map_result (λ i,
    match List.find (λ p, bool_decide (pd_id p = Order.productId i)) products with
    | Some p => Ok (line_of p i)
    | None => Err (PrismaError "P2003")
    end) items.

Definition base_currency (tenantId : string) : Tx Db string :=
  tenant ← select_first TTenant (λ t, bool_decide (tn_id t = tenantId) &&
                                      bool_decide (tn_deletedAt t = None));
  match (t ← tenant; trim <$> tn_currencyCode t) with
  | Some c =>
      if is_empty c then tx_throw (BadRequestException
        "Configure the tenant base currency before creating financial transactions")
      else mret c
  | None => tx_throw (BadRequestException
      "Configure the tenant base currency before creating financial transactions")
  end.
Definition numbered (tenantId orderNumber : string) (o : SalesOrderRow) : bool :=
  bool_decide (so_tenantId o = tenantId) && bool_decide (so_orderNumber o = orderNumber).

Definition createOrder_tx (now : Date) (tenantId : string) (outletId : option string)
    (orderNumber : string) (totalAmount : number) (items : list Order.OrderItemDetails)
    (orderMode : OrderMode) : Tx Db SalesOrderRow :=
  currencyCode ← base_currency tenantId;
  n ← count TSalesOrder (numbered tenantId orderNumber);
  _ ← tx_throw_if (negb (n =? 0)%nat) (PrismaError "P2002");
  products ← select TProduct (λ _, true);
  lines ← tx_lift (lines_of products items);
  insert TSalesOrder (λ i,
    {| so_id := i; so_tenantId := tenantId; so_outletId := outletId;
       so_orderNumber := orderNumber; so_status := OrderPENDING; so_orderMode := orderMode;
       so_paymentStatus := PaymentPending; so_paidAmount := of_Z 0;
       so_kitchenReleasedAt := None; so_kitchenPriority := of_Z 0;
       so_totalAmount := totalAmount; so_currencyCode := Some currencyCode;
       so_createdAt := now; so_SalesOrderItem := lines |}).

(** An [updateMany] that must match one row, and the query that follows. *)
Definition updated_order (p : SalesOrderRow → bool) (f : SalesOrderRow → SalesOrderRow)
    (id tenantId : string) : OFlow (option SalesOrderRow) :=
  n ← call (update_many TSalesOrder p f);
  if negb (n =? 1)%nat then mret None else call (findOne id tenantId None).
Definition repo_updateStatus (id tenantId : string) (status : OrderStatus)
  : OFlow (option SalesOrderRow) :=
  updated_order (Reservations.of_tenant id tenantId) (set_so_status status) id tenantId.
Definition payable : list OrderStatus := [OrderPENDING; IN_PROGRESS; OrderREADY].
Definition repo_markPaid (id tenantId : string) : OFlow (option SalesOrderRow) :=
  updated_order (λ o, Reservations.of_tenant id tenantId o &&
                      bool_decide (so_status o ∈ payable))
    (set_so_status PAID) id tenantId.
Definition repo_markCompleted (id tenantId : string) : OFlow (option SalesOrderRow) :=
  updated_order (λ o, Reservations.of_tenant id tenantId o && bool_decide (so_status o = PAID))
    (set_so_status OrderCOMPLETED) id tenantId.

Definition set_released (now : Date) (o : SalesOrderRow) : SalesOrderRow :=
  edit_order (so_status o) (so_paymentStatus o) (so_paidAmount o) (Some now)
    (so_kitchenPriority o) o.
Definition releasable (id tenantId : string) (o : SalesOrderRow) : bool :=
  Reservations.of_tenant id tenantId o && negb (bool_decide (so_status o = OrderCANCELLED)) &&
  bool_decide (so_kitchenReleasedAt o = None) &&
  (bool_decide (so_orderMode o = OPEN_BILL) ||
   bool_decide (so_paymentStatus o = PaymentPaid)).
Definition repo_releaseToKitchen (now : Date) (id tenantId : string)
  : OFlow (option SalesOrderRow) :=
  _ ← call (update_many TSalesOrder (releasable id tenantId) (set_released now));
  call (findOne id tenantId None).

Definition cancellable (id tenantId : string) (outletId : option string) (o : SalesOrderRow)
  : bool :=
  in_scope id tenantId outletId o && negb (bool_decide (so_status o = OrderCOMPLETED)).
(** [cancelOrder] with the release that the service passes to it. *)
Definition cancel_tx (now : Date) (id tenantId : string) (outletId : option string)
  : Tx Db (option SalesOrderRow) :=
  n ← update_many TSalesOrder (cancellable id tenantId outletId)
        (set_so_status OrderCANCELLED);
  if negb (n =? 1)%nat then mret None else
  _ ← Reservations.releaseReservationInTransaction now id tenantId;
  findOne id tenantId outletId.

Definition to_aggregate (o : SalesOrderRow) : Order.t :=
  Order.fromPersistence
    {| Order.id := so_id o; Order.tenantId := so_tenantId o; Order.outletId := so_outletId o;
       Order.status := so_status o; Order.orderNumber := so_orderNumber o;
       Order.totalAmount := so_totalAmount o;
       Order.items := map (λ l, {| Order.productId := line_productId l;
                                   Order.quantity := line_quantity l;
                                   Order.price := line_price l;
                                   Order.subtotal := line_subtotal l |})
                        (so_SalesOrderItem o) |}.
Definition findOneAggregate (id tenantId : string) (outletId : option string)
  : Tx Db (option Order.t) :=
  o ← findOne id tenantId outletId; mret (to_aggregate <$> o).

(** ** The service *)

Definition or_not_found (o : option SalesOrderRow) : OFlow SalesOrderRow :=
  match o with Some o => mret o | None => throw not_found end.

Definition releaseToKitchen (now : Date) (id tenantId : string) : OFlow SalesOrderRow :=
  updated ← repo_releaseToKitchen now id tenantId; or_not_found updated.
Definition findOneByTenant (id tenantId : string) : OFlow (option SalesOrderRow) :=
  call (findOne id tenantId None).

(** What markPaid and markCompleted share. *)
Definition through (act : Order.t → result Order.t) (save : OFlow (option SalesOrderRow))
    (id tenantId : string) : OFlow SalesOrderRow :=
  aggregate ← call (findOneAggregate id tenantId None);
  match aggregate with
  | None => throw not_found
  | Some a => _ ← lift (act a); updated ← save; or_not_found updated
  end.
Definition markPaid (id tenantId : string) : OFlow SalesOrderRow :=
  through Order.markPaid (repo_markPaid id tenantId) id tenantId.
Definition markCompleted (id tenantId : string) : OFlow SalesOrderRow :=
  through Order.complete (repo_markCompleted id tenantId) id tenantId.

Definition cancelOrder (now : Date) (id tenantId : string) (outletId : option string)
  : OFlow (option SalesOrderRow) :=
  aggregate ← call (findOneAggregate id tenantId outletId);
  match aggregate with
  | None => mret None
  | Some a =>
      match Order.cancel a with
      | Err _ => call (findOne id tenantId None)
      | Ok _ =>
          updated ← call (cancel_tx now id tenantId outletId);
          o ← or_not_found updated; mret (Some o)
      end
  end.
(** The user is given by its tenant and its outlet, where null and the empty text are
    none. *)
Definition updateStatus (now : Date) (id tenantId : string) (outletId : option string)
    (status : OrderStatus) : OFlow (option SalesOrderRow) :=
  match status with
  | PAID => throw (BadRequestException "Use payment endpoint to mark order as paid")
  | OrderCANCELLED => cancelOrder now id tenantId outletId
  | _ => throw (BadRequestException
           "Order workflow status is managed by payment and kitchen actions")
  end.

End service.
End Orders.

(** * Payments *)

Module Payments.

Section service.
Context {dec : Decimal} {plat : Platform}.
(** The context of the request and its observability fields, for the outbox. *)
Context (ctx : Outbox.Context_) (observability : json).

Record CreatePaymentDto := {
  pay_orderId : string; pay_method : PaymentMethod; pay_amount : number
}.
Definition findOrderForPayment (orderId tenantId : string) : Tx Db (option SalesOrderRow) :=
  select_first TSalesOrder (Reservations.of_tenant orderId tenantId).

(** An order that takes no more payments, cancelled ones apart. *)
Definition already_paid (o : SalesOrderRow) : bool :=
  bool_decide (so_status o = PAID) || bool_decide (so_paymentStatus o = PaymentPaid) ||
  (bool_decide (so_status o = OrderCOMPLETED) && negb (bool_decide (so_orderMode o = OPEN_BILL))).
Definition outstanding (o : SalesOrderRow) : number := sub (so_totalAmount o) (so_paidAmount o).
Definition check_payment (order : SalesOrderRow) (amount : number) : result unit :=
  _ ← throw_if (bool_decide (so_status order = OrderCANCELLED))
        (BadRequestException "Cancelled orders cannot be paid");
  _ ← throw_if (already_paid order) (BadRequestException "Order already paid");
  _ ← throw_if (gtb amount (outstanding order))
        (BadRequestException "Payment amount exceeds the outstanding order balance");
  throw_if (negb (bool_decide (so_orderMode order = OPEN_BILL)) && ltb amount (outstanding order))
    (BadRequestException "Insufficient payment amount").

Definition record_payment (newPaidAmount : number) (status : PaymentStatus) (o : SalesOrderRow)
  : SalesOrderRow :=
  edit_order (so_status o) status newPaidAmount (so_kitchenReleasedAt o)
    (so_kitchenPriority o) o.
(** The conditions under which the transaction takes the payment. *)
Definition accepts_payment (o : SalesOrderRow) (amount : number) : bool :=
  negb (bool_decide (so_status o = OrderCANCELLED) || already_paid o) &&
  negb (leb amount (of_Z 0) || gtb amount (outstanding o) ||
        (bool_decide (so_orderMode o = REGULAR) && negb (eqb amount (outstanding o)))).

Definition createPayment_tx (now : Date) (orderId tenantId : string) (amount : number)
    (method : PaymentMethod) : Tx Db (option (PaymentRow * SalesOrderRow)) :=
  order ← findOrderForPayment orderId tenantId;
  match order with
  | None => mret None
  | Some order =>
      if negb (accepts_payment order amount) then mret None else
      let newPaidAmount := add (so_paidAmount order) amount in
      let fullyPaid := geb newPaidAmount (so_totalAmount order) in
      n ← update_many TSalesOrder (λ o, Reservations.of_tenant orderId tenantId o &&
              eqb (so_paidAmount o) (so_paidAmount order) &&
              negb (bool_decide (so_paymentStatus o = PaymentPaid)))
            (record_payment newPaidAmount (if fullyPaid then PaymentPaid else PaymentPending));
      if negb (n =? 1)%nat then mret None else
      created ← insert TPayment (λ i,
        {| py_id := i; py_orderId := orderId; py_tenantId := tenantId; py_method := method;
           py_status := PaymentPaid; py_amount := amount; py_paidAt := Some now;
           py_createdAt := now |});
      o ← find_id TSalesOrder orderId;
      mret ((λ o, (created, o)) <$> o)
  end.

Definition payment_success (orderId tenantId paymentId : string) (isFullyPaid : bool) : DomainEvent :=
  EvOrder (OrderPaymentSuccessEvent orderId tenantId paymentId (Some isFullyPaid)).
Definition paid_payload (orderId tenantId paymentId : string) : list (string * json) :=
  [("orderId", JString orderId); ("tenantId", JString tenantId);
   ("paymentId", JString paymentId)].
Definition pay (now : Date) (tenantId : string) (dto : CreatePaymentDto)
  : OFlow (PaymentRow * SalesOrderRow) :=
  order ← call (findOrderForPayment (pay_orderId dto) tenantId);
  match order with
  | None => throw Orders.not_found
  | Some order =>
      _ ← lift (check_payment order (pay_amount dto));
      payment ← call (createPayment_tx now (so_id order) tenantId (pay_amount dto)
                        (pay_method dto));
      match payment with
      | None => throw (ConflictException
          "The order balance changed while recording payment; refresh and retry")
      | Some (p, o) =>
          let isFullyPaid := bool_decide (so_paymentStatus o = PaymentPaid) in
          _ ← call (Outbox.outbox_publish now ctx observability
                (event_type (payment_success (so_id order) tenantId (py_id p) isFullyPaid))
                (paid_payload (so_id order) tenantId (py_id p) ++
                 [("isFullyPaid", JBool isFullyPaid)]) None);
          _ ← (if isFullyPaid then
                 call (Outbox.outbox_publish now ctx observability
                   (event_type (EvOrder (SalesOrderPaidEvent (so_id order) tenantId (py_id p))))
                   (paid_payload (so_id order) tenantId (py_id p)) None)
               else mret tt);
          mret (p, o)
      end
  end.

End service.
End Payments.

(** * The orchestrator *)

Module Orchestrator.

Section service.
Context {dec : Decimal} {plat : Platform}.
Import Fulfillment Orders.

(** FulfillmentService.processOrder, as a part of a flow. *)
Definition fulfill (now : Date) (orderId tenantId : string) : OFlow bool :=
  businessType ← call (resolveTenantBusinessType tenantId);
  match businessType with
  | RETAIL => call (fulfillRetail now orderId tenantId)
  | CAFE => call (fulfillCafe now orderId tenantId)
  | b => throw (BadRequestException ("Unsupported business type: " ++ BusinessType_name b))
  end.

Definition confirm_order (now : Date) (orderId tenantId : string) : OFlow unit :=
  _ ← call (Reservations.reserve_tx now orderId tenantId);
  businessType ← call (resolveTenantBusinessType tenantId);
  _ ← (if bool_decide (businessType = CAFE)
       then _ ← releaseToKitchen now orderId tenantId; mret tt else mret tt);
  _ ← publish (EvOrder (OrderReservedEvent orderId tenantId));
  publish (EvOrder (SalesOrderConfirmedEvent orderId tenantId)).
Definition handleOrderCreated (now : Date) (orderId tenantId : string) : OFlow unit :=
  order ← findOneByTenant orderId tenantId;
  match order with
  | Some o =>
      if negb (bool_decide (so_orderMode o = OPEN_BILL)) then mret tt else
      catch (λ e, _ ← cancelOrder now orderId tenantId None; throw e)
        (confirm_order now orderId tenantId)
  | None => mret tt
  end.

Definition is_completed (o : option SalesOrderRow) : bool :=
  match o with Some o => bool_decide (so_status o = OrderCOMPLETED) | None => false end.
Definition complete_retail (now : Date) (orderId tenantId : string) : OFlow unit :=
  _ ← call (Reservations.reserve_tx now orderId tenantId);
  _ ← call (Reservations.commit_tx now orderId tenantId);
  order ← findOneByTenant orderId tenantId;
  _ ← (if is_completed order then mret tt else _ ← markPaid orderId tenantId; mret tt);
  fulfillment ← fulfill now orderId tenantId;
  _ ← publish (EvOrder (OrderFulfillmentStartedEvent orderId tenantId));
  if (fulfillment : bool) then
    _ ← publish (EvOrder (SalesOrderCompletedEvent orderId tenantId));
    publish (EvOrder (SalesOrderCompletedV2Event orderId tenantId))
  else mret tt.
Definition handlePaymentSuccess (now : Date) (orderId tenantId : string)
    (isFullyPaid : option bool) : OFlow unit :=
  if bool_decide (isFullyPaid = Some false) then mret tt else
  businessType ← call (resolveTenantBusinessType tenantId);
  match businessType with
  | CAFE =>
      _ ← call (Reservations.reserve_tx now orderId tenantId);
      _ ← releaseToKitchen now orderId tenantId; mret tt
  | RETAIL => complete_retail now orderId tenantId
  | _ => mret tt
  end.
Definition handlePaymentFailed (now : Date) (orderId tenantId : string) : OFlow unit :=
  order ← findOneByTenant orderId tenantId;
  if match order with Some o => bool_decide (so_orderMode o = OPEN_BILL) | None => false end
  then mret tt
  else _ ← cancelOrder now orderId tenantId None; mret tt.

(** ** Creating an order (OrdersService.create) *)

Record OrderItemDto := { od_productId : string; od_quantity : number }.

(** The [map] over the items; the total is summed along the way. *)
Fixpoint price_items (products : list ProductRow) (items : list OrderItemDto)
    (totalAmount : number) : result (list Order.OrderItemDetails * number) :=
  match items with
  | [] => Ok ([], totalAmount)
  | i :: items =>
      match List.find (λ p, bool_decide (pd_id p = od_productId i)) products with
      | None => Err (BadRequestException "Product not found")
      | Some product =>
          let subtotal := mul (pd_price product) (od_quantity i) in
          '(orderItems, total) ← price_items products items (add totalAmount subtotal);
          Ok ({| Order.productId := pd_id product; Order.quantity := od_quantity i;
                 Order.price := pd_price product; Order.subtotal := subtotal |} :: orderItems,
              total)
      end
  end.
Definition outlet_field (outletId : option string) : opt string :=
  match outletId with Some o => Value o | None => Null end.
Definition create (now : Date) (tenantId : string) (outletId : option string)
    (items : list OrderItemDto) (orderMode : option OrderMode) : OFlow SalesOrderRow :=
  products ← call (findProductsByIds (map od_productId items) tenantId);
  _ ← lift (throw_if (negb (length products =? length items)%nat)
              (BadRequestException "Some products not found"));
  priced ← lift (price_items products items (of_Z 0));
  let '(orderItems, totalAmount) := priced in
  order ← call (createOrder_tx now tenantId outletId ("ORD-" ++ pretty now) totalAmount
                  orderItems (default REGULAR orderMode));
  _ ← publish_handled
        (EvOrder (OrderCreatedEvent (so_id order) tenantId (outlet_field outletId)))
        (handleOrderCreated now (so_id order) tenantId);
  _ ← publish (EvOrder (SalesOrderCreatedEvent (so_id order) tenantId (outlet_field outletId)));
  mret order.

End service.
End Orchestrator.
