(* ===== verification/Kitchen.v ===== *)
(** The kitchen (modules/kitchen/kitchen.service.ts, kitchen.repository.ts): the tickets
    are the released sales orders, their status is the status of the order, and cooking
    turns the reservation of the order into consumption. *)

From stdpp Require Import base list strings option.
From Stdlib Require Import ZArith.
From S2P Require Import Prelude Flows JsNumber JsString DomainEvents CoreDomain MasterData.
From S2P Require Import Lifecycles PurchaseOrderAggregate Decimal Database Costing Receipts.
From S2P Require Import Reservations InventoryStock Outbox Orders.

Module Kitchen.

Local Open Scope string_scope.

Section service.
Context {dec : Decimal} {plat : Platform}.
(** [contains] with [mode: 'insensitive'], as the database compares texts. *)
Context (contains : string → string → bool).
Import Fulfillment.

(** ** The repository *)

Definition mapKitchenStatusToOrderStatus (s : KitchenStatus) : OrderStatus :=
  match s with
  | NEW | QUEUED | RECALLED => OrderPENDING
  | COOKING => IN_PROGRESS
  | READY => OrderREADY
  | SERVED => OrderCOMPLETED
  | KitchenCANCELLED => OrderCANCELLED
  end.
Definition mapOrderStatusToKitchenStatus (s : OrderStatus) : KitchenStatus :=
  match s with
  | OrderPENDING => QUEUED
  | IN_PROGRESS => COOKING
  | OrderREADY => READY
  | OrderCOMPLETED => SERVED
  | OrderCANCELLED => KitchenCANCELLED
  | PAID => NEW
  end.

Definition toAggregate (now : Date) (order : SalesOrderRow) (tenant : TenantRow)
  : KitchenTicket.t :=
  let kitchenStatus := mapOrderStatusToKitchenStatus (so_status order) in
  let waitingTooLong :=
    bool_decide (kitchenStatus = QUEUED) &&
    match so_kitchenReleasedAt order with
    | Some d => geb (of_Z (now - d)) (mul (tn_kitchenWaitThresholdMinutes tenant) (of_Z 60000))
    | None => false
    end in
  KitchenTicket.fromPersistence
    {| KitchenTicket.id := so_id order; KitchenTicket.ticketNumber := so_orderNumber order;
       KitchenTicket.salesOrderId := so_id order; KitchenTicket.tenantId := so_tenantId order;
       KitchenTicket.outletId := so_outletId order;
       KitchenTicket.items :=
         map (λ l, {| KitchenTicket.productId := line_productId l;
                      KitchenTicket.productName := line_productName l;
                      KitchenTicket.quantity := line_quantity l |}) (so_SalesOrderItem order);
       KitchenTicket.status := kitchenStatus; KitchenTicket.priority := so_kitchenPriority order;
       KitchenTicket.waitingTooLong := Some waitingTooLong; KitchenTicket.createdById := None;
       KitchenTicket.createdAt := so_createdAt order;
       KitchenTicket.updatedAt := so_createdAt order |}.
(** The orders with their tenant, a required relation. *)
Definition to_tickets (now : Date) (orders : list SalesOrderRow) : Tx Db (list KitchenTicket.t) :=
  tenants ← select TTenant (λ _, true);
  tx_lift (map_result (λ o,
    match List.find (λ t, bool_decide (tn_id t = so_tenantId o)) tenants with
    | Some t => Ok (toAggregate now o t)
    | None => Err (JsError
        "Inconsistent query result: Field Tenant is required to return data, got `null` instead.")
    end) orders).

Definition open_statuses : list OrderStatus := [OrderPENDING; IN_PROGRESS; OrderREADY].
Definition ticket_in (statuses : list OrderStatus) (id tenantId : string)
    (outletId : option string) (o : SalesOrderRow) : bool :=
  Orders.in_scope id tenantId outletId o &&
  negb (bool_decide (so_kitchenReleasedAt o = None)) && bool_decide (so_status o ∈ statuses).
Definition first_ticket (now : Date) (statuses : list OrderStatus) (id tenantId : string)
    (outletId : option string) : Tx Db (option KitchenTicket.t) :=
  order ← select_first TSalesOrder (ticket_in statuses id tenantId outletId);
  tickets ← to_tickets now (option_list order); mret (head tickets).
Definition findBySalesOrderId (now : Date) (id tenantId : string) (outletId : option string)
  : Tx Db (option KitchenTicket.t) := first_ticket now open_statuses id tenantId outletId.
Definition findTicketBySalesOrderId (now : Date) (id tenantId : string)
    (outletId : option string) : Tx Db (option KitchenTicket.t) :=
  first_ticket now (open_statuses ++ [OrderCOMPLETED; OrderCANCELLED]) id tenantId outletId.

(** *** The queue *)

(** The status is one of QUEUED, COOKING and READY. *)
Record ListKitchenTicketsDto := {
  lk_status : option KitchenStatus; lk_search : option string;
  lk_skip : option nat; lk_take : option nat;
}.
Definition queued (tenantId : string) (outletId : option string) (query : ListKitchenTicketsDto)
    (o : SalesOrderRow) : bool :=
  let search := trim <$> lk_search query in
  bool_decide (so_tenantId o = tenantId) &&
  (negb (truthy outletId) || bool_decide (so_outletId o = outletId)) &&
  negb (bool_decide (so_kitchenReleasedAt o = None)) &&
  match lk_status query with
  | Some s => bool_decide (so_status o = mapKitchenStatusToOrderStatus s)
  | None => bool_decide (so_status o ∈ open_statuses)
  end &&
  (negb (truthy search) || contains (so_orderNumber o) (default "" search) ||
   contains (so_id o) (default "" search)).
(** [orderBy]: the priority, highest first, then the release, then the id. *)
Definition queue_le (a b : SalesOrderRow) : bool :=
  Costing.lex eqb (λ x y, geb x y) (so_kitchenPriority a) (so_kitchenPriority b)
    (Costing.lex Z.eqb Z.leb (default 0%Z (so_kitchenReleasedAt a))
       (default 0%Z (so_kitchenReleasedAt b)) (collateLe (so_id a) (so_id b))).
Definition page (query : ListKitchenTicketsDto) {A} (l : list A) : list A :=
  match lk_take query with
  | Some n => firstn n (skipn (default 0 (lk_skip query)) l)
  | None => l
  end.
Definition findManyByTenant (now : Date) (tenantId : string) (outletId : option string)
    (query : ListKitchenTicketsDto) : Tx Db (list KitchenTicket.t) :=
  orders ← select TSalesOrder (queued tenantId outletId query);
  to_tickets now (page query (sort_by queue_le orders)).

(** *** Priority and settings *)

Definition audit (now : Date) (tenantId userId : string) (outletId : option string)
    (entity entityId action : string) (metadata : list (string * json)) : Tx Db unit :=
  _ ← insert TAudit (λ i,
    {| au_id := i; au_userId := Some userId; au_tenantId := tenantId; au_outletId := outletId;
       au_entity := entity; au_entityId := entityId; au_action := action;
       au_metadata := JObject metadata; au_createdAt := now |});
  mret tt.
Definition set_priority (p : number) (o : SalesOrderRow) : SalesOrderRow :=
  edit_order (so_status o) (so_paymentStatus o) (so_paidAmount o) (so_kitchenReleasedAt o) p o.
Definition priority_tx (now : Date) (id tenantId : string) (priority : number)
    (userId : string) (outletId : option string) : Tx Db bool :=
  order ← select_first TSalesOrder (λ o,
    Reservations.of_tenant id tenantId o &&
    match outletId with Some _ => bool_decide (so_outletId o = outletId) | None => true end &&
    negb (bool_decide (so_kitchenReleasedAt o = None)) &&
    bool_decide (so_status o ∈ open_statuses));
  match order with
  | None => mret false
  | Some order =>
      _ ← tx_when (negb (eqb (so_kitchenPriority order) priority))
        (_ ← update_id TSalesOrder id (set_priority priority);
         audit now tenantId userId (so_outletId order) "SalesOrder" id "KITCHEN_PRIORITY_UPDATED"
           [("previousPriority", JNumber (so_kitchenPriority order));
            ("priority", JNumber priority)]);
      mret true
  end.
Definition repo_updatePriority (now : Date) (id tenantId : string) (priority : number)
    (userId : string) (outletId : option string) : OFlow (option KitchenTicket.t) :=
  updated ← call (priority_tx now id tenantId priority userId outletId);
  if (updated : bool) then call (findBySalesOrderId now id tenantId None) else mret None.

Definition repo_getSettings (tenantId : string) : Tx Db (option number) :=
  tenant ← find_id TTenant tenantId; mret (tn_kitchenWaitThresholdMinutes <$> tenant).
Definition set_threshold (n : number) (t : TenantRow) : TenantRow :=
  {| tn_id := tn_id t; tn_name := tn_name t; tn_contactEmail := tn_contactEmail t;
     tn_contactPhone := tn_contactPhone t; tn_address := tn_address t;
     tn_createdAt := tn_createdAt t; tn_businessType := tn_businessType t;
     tn_kitchenWaitThresholdMinutes := n; tn_currencyCode := tn_currencyCode t;
     tn_status := tn_status t; tn_deletedAt := tn_deletedAt t |}.
Definition repo_updateWaitThreshold (now : Date) (tenantId : string)
    (waitThresholdMinutes : number) (userId : string) : Tx Db (option number) :=
  tenant ← find_id TTenant tenantId;
  match tenant with
  | None => mret None
  | Some tenant =>
      let previous := tn_kitchenWaitThresholdMinutes tenant in
      _ ← tx_when (negb (eqb previous waitThresholdMinutes))
        (_ ← update_id TTenant tenantId (set_threshold waitThresholdMinutes);
         audit now tenantId userId None "Tenant" tenantId "KITCHEN_WAIT_THRESHOLD_UPDATED"
           [("previousWaitThresholdMinutes", JNumber previous);
            ("waitThresholdMinutes", JNumber waitThresholdMinutes)]);
      mret (Some waitThresholdMinutes)
  end.

(** *** Status *)

Definition consume_movement (m : MovementRow) : MovementRow :=
  {| mv_id := mv_id m; mv_tenantId := mv_tenantId m; mv_type := CONSUMPTION;
     mv_quantity := mv_quantity m;
     mv_note := Some "Committed cafe stock reservation when kitchen preparation started";
     mv_createdAt := mv_createdAt m; mv_beforeQuantity := mv_beforeQuantity m;
     mv_afterQuantity := mv_afterQuantity m; mv_createdById := mv_createdById m;
     mv_inventoryItemId := mv_inventoryItemId m; mv_referenceId := mv_referenceId m;
     mv_referenceType := Some Reservations.COMMITTED_RESERVATION_REF;
     mv_warehouseId := mv_warehouseId m; mv_unitCost := mv_unitCost m;
     mv_totalCost := mv_totalCost m |}.
(** The body of the loop over the reservations. *)
Definition consume_cost (now : Date) (tenantId reservationId : string) : Tx Db unit :=
  allocations ← Reservations.allocation_count reservationId;
  tx_when (allocations =? 0)%nat
    (movement ← find_id TMovement reservationId;
     match movement with
     | None => tx_throw (ConflictException "Kitchen inventory reservation no longer exists")
     | Some m =>
         _ ← Costing.issue now
           {| Costing.is_tenantId := tenantId;
              Costing.is_inventoryItemId := mv_inventoryItemId m;
              Costing.is_warehouseId := mv_warehouseId m;
              Costing.is_quantity := mv_quantity m; Costing.is_movementId := mv_id m |};
         mret tt
     end).
Definition consume_reservations (now : Date) (id tenantId : string) : Tx Db unit :=
  reservations ← select TMovement
    (Reservations.refers tenantId id Reservations.ACTIVE_RESERVATION_REF);
  tx_when (negb (length reservations =? 0)%nat)
    (committed ← update_many TMovement
       (λ m, bool_decide (mv_id m ∈ map mv_id reservations) &&
             bool_decide (mv_tenantId m = tenantId) &&
             bool_decide (mv_referenceType m = Some Reservations.ACTIVE_RESERVATION_REF))
       consume_movement;
     _ ← tx_throw_if (negb (committed =? length reservations)%nat)
           (ConflictException "Kitchen inventory reservation changed concurrently");
     tx_for_each (λ m, consume_cost now tenantId (mv_id m)) reservations).

Definition status_tx (now : Date) (id tenantId : string) (status expectedStatus : KitchenStatus)
    (releaseReservation : option (Tx Db bool)) (outletId : option string) : Tx Db bool :=
  n ← update_many TSalesOrder
        (λ o, Orders.in_scope id tenantId outletId o &&
              bool_decide (so_status o = mapKitchenStatusToOrderStatus expectedStatus) &&
              negb (bool_decide (so_kitchenReleasedAt o = None)))
        (set_so_status (mapKitchenStatusToOrderStatus status));
  if negb (n =? 1)%nat then mret false else
  _ ← tx_when (bool_decide (status = KitchenCANCELLED))
        match releaseReservation with Some release => _ ← release; mret tt | None => mret tt end;
  _ ← tx_when (bool_decide (status = COOKING)) (consume_reservations now id tenantId);
  mret true.
Definition repo_updateStatus (now : Date) (id tenantId : string)
    (status expectedStatus : KitchenStatus) (releaseReservation : option (Tx Db bool))
    (outletId : option string) : OFlow (option KitchenTicket.t) :=
  persisted ← call (status_tx now id tenantId status expectedStatus releaseReservation outletId);
  if (persisted : bool) then call (findBySalesOrderId now id tenantId None) else mret None.

(** ** The service *)

Definition getQueue (now : Date) (tenantId : string) (outletId : option string)
    (query : ListKitchenTicketsDto) : OFlow (list KitchenTicket.t) :=
  call (findManyByTenant now tenantId outletId query).
Definition getTicket (now : Date) (id tenantId : string) (outletId : option string)
  : OFlow KitchenTicket.t :=
  ticket ← call (findTicketBySalesOrderId now id tenantId outletId);
  match ticket with
  | Some t => mret t
  | None => throw (NotFoundException "Kitchen ticket not found")
  end.
Definition or_no_tenant (settings : option number) : OFlow number :=
  match settings with Some n => mret n | None => throw (BadRequestException "Tenant not found") end.
Definition getSettings (tenantId : string) : OFlow number :=
  settings ← call (repo_getSettings tenantId); or_no_tenant settings.
Definition updateWaitThreshold (now : Date) (tenantId : string) (waitThresholdMinutes : number)
    (userId : string) : OFlow number :=
  settings ← call (repo_updateWaitThreshold now tenantId waitThresholdMinutes userId);
  or_no_tenant settings.
Definition or_no_ticket (ticket : option KitchenTicket.t) : OFlow KitchenTicket.t :=
  match ticket with
  | Some t => mret t
  | None => throw (BadRequestException "Kitchen ticket not found")
  end.
Definition setPriority (now : Date) (id tenantId : string) (priority : number)
    (userId : string) (outletId : option string) : OFlow KitchenTicket.t :=
  ticket ← repo_updatePriority now id tenantId priority userId outletId; or_no_ticket ticket.

(** What startCooking, markReady, markServed, cancel and recall share. *)
Definition advance (op : KitchenTicket.op) (event : string → opt string → KitchenEvent)
    (now : Date) (id tenantId : string) (releaseReservation : option (Tx Db bool))
    (outletId : option string) : OFlow KitchenTicket.t :=
  found ← call (findBySalesOrderId now id tenantId outletId);
  ticket ← or_no_ticket found;
  let expectedStatus := KitchenTicket.status (props ticket) in
  ticket ← lift (KitchenTicket.run op now ticket);
  persisted ← repo_updateStatus now id tenantId (KitchenTicket.status (props ticket))
                expectedStatus releaseReservation outletId;
  match persisted with
  | None => throw (BadRequestException "Failed to persist kitchen ticket")
  | Some persisted =>
      _ ← publish (EvKitchen (event (KitchenTicket.id (props ticket))
            (Orchestrator.outlet_field (KitchenTicket.outletId (props ticket)))));
      mret persisted
  end.
Definition startCooking (now : Date) (id tenantId : string) (outletId : option string)
  : OFlow KitchenTicket.t :=
  advance KitchenTicket.StartCooking (λ t, KitchenCookingStartedEvent t id tenantId)
    now id tenantId None outletId.
Definition markReady (now : Date) (id tenantId : string) (outletId : option string)
  : OFlow KitchenTicket.t :=
  advance KitchenTicket.MarkReady (λ t, KitchenReadyEvent t id tenantId)
    now id tenantId None outletId.
Definition markServed (now : Date) (id tenantId : string) (outletId : option string)
  : OFlow KitchenTicket.t :=
  advance KitchenTicket.MarkServed (λ t, KitchenServedEvent t id tenantId)
    now id tenantId None outletId.
Definition cancel (now : Date) (id tenantId : string) (outletId : option string)
  : OFlow KitchenTicket.t :=
  advance KitchenTicket.Cancel (λ t o, KitchenCancelledEvent t id tenantId o None)
    now id tenantId (Some (Reservations.releaseReservationInTransaction now id tenantId))
    outletId.
Definition recall (now : Date) (id tenantId : string) (outletId : option string)
  : OFlow KitchenTicket.t :=
  advance KitchenTicket.Recall (λ t o, KitchenRecalledEvent t id tenantId o None)
    now id tenantId None outletId.

End service.
End Kitchen.
