(* ===== verification/SalesFacts.v ===== *)
(** Sales orders over time: however many calls of the services of orders, payments and the
    kitchen and of the orchestrator run at once, whichever of them die and whatever the
    subscribers of their events do, an order only moves along its lifecycle, and what is
    paid for it is what it costs at most. *)

From stdpp Require Import base list strings option relations sets.
From Stdlib Require Import ZArith Lia.
From S2P Require Import Prelude Flows JsNumber JsString DomainEvents CoreDomain MasterData.
From S2P Require Import Lifecycles PurchaseOrderAggregate Decimal Database Costing CostingFacts.
From S2P Require Import Receipts Reservations ReservationFacts InventoryStock StockFacts.
From S2P Require Import FulfillmentFacts Outbox Orders Kitchen.
Import Reservations Fulfillment.

(** * The lifecycle of a sales order

    Payment, the kitchen and the fulfillment each walk a part of it. *)
#[export] Instance sales_order_lifecycle : Lifecycle OrderStatus.
Proof.
  refine {|
    allowed s :=
      match s with
      | OrderPENDING => [PAID; IN_PROGRESS; OrderCANCELLED]
      | IN_PROGRESS => [OrderREADY; OrderPENDING; PAID; OrderCANCELLED]
      | OrderREADY => [OrderCOMPLETED; OrderPENDING; PAID; OrderCANCELLED]
      | PAID => [OrderCOMPLETED; OrderCANCELLED]
      | OrderCOMPLETED | OrderCANCELLED => []
      end;
    final s := bool_decide (s = OrderCOMPLETED ∨ s = OrderCANCELLED)
  |}.
  by intros [].
Defined.

Lemma reaches_cancelled (s : OrderStatus) : s ≠ OrderCOMPLETED → reaches s OrderCANCELLED.
Proof.
  intros Hs. destruct (decide (s = OrderCANCELLED)) as [->|]; [constructor|].
  apply rtc_once. unfold goes. destruct s; simpl; set_solver.
Qed.
Lemma reaches_paid (s : OrderStatus) : s ∈ Orders.payable → reaches s PAID.
Proof. intros Hs. apply rtc_once. unfold goes. destruct s; simpl; set_solver. Qed.
(** What a call on a ticket does to the status of its order. *)
Lemma reaches_kitchen (s s' : KitchenStatus) :
  s' ∈ KITCHEN_VALID_TRANSITIONS s →
  reaches (Kitchen.mapKitchenStatusToOrderStatus s) (Kitchen.mapKitchenStatusToOrderStatus s').
Proof.
  intros Hs. destruct (decide (Kitchen.mapKitchenStatusToOrderStatus s =
    Kitchen.mapKitchenStatusToOrderStatus s')) as [->|]; [constructor|].
  apply rtc_once. unfold goes. destruct s, s'; simpl in *; set_solver.
Qed.
Lemma ticket_transition op now (a b : KitchenTicket.t) :
  KitchenTicket.run op now a = Ok b →
  KitchenTicket.status (props b) ∈ KITCHEN_VALID_TRANSITIONS (KitchenTicket.status (props a)).
Proof.
  assert (Ht : ∀ next, KitchenTicket.transitionTo next now a = Ok b →
    KitchenTicket.status (props b) ∈ KITCHEN_VALID_TRANSITIONS (KitchenTicket.status (props a))).
  { intros next. unfold KitchenTicket.transitionTo. case_bool_decide as Hin; [|done].
    by intros [= <-]. }
  destruct op; simpl; try apply Ht; unfold KitchenTicket.markReady, KitchenTicket.markServed;
    case_bool_decide; try done; apply Ht.
Qed.

Section sales.
Context {dec : Decimal} {plat : Platform} {uniq : UniqueIds}.

(** * One order

    What an order is never changes; its status moves along the lifecycle; it is released
    to the kitchen once, and paid once. *)
Definition fixed (o : SalesOrderRow) :=
  (so_id o, so_tenantId o, so_outletId o, so_orderNumber o, so_orderMode o,
   so_totalAmount o, so_currencyCode o, so_createdAt o, so_SalesOrderItem o).
Record order_goes (o o' : SalesOrderRow) : Prop := {
  og_fixed : fixed o' = fixed o;
  og_status : reaches (so_status o) (so_status o');
  og_released : ∀ d, so_kitchenReleasedAt o = Some d → so_kitchenReleasedAt o' = Some d;
  og_paid : so_paymentStatus o = PaymentPaid → so_paymentStatus o' = PaymentPaid;
}.
#[export] Instance order_goes_preorder : PreOrder order_goes.
Proof.
  split; [intros o; split; [done|constructor|done|done]|].
  intros a b c [F1 S1 R1 P1] [F2 S2 R2 P2].
  split; [by rewrite F2|by etrans|intros d Hd; by apply R2, R1|intros Hp; by apply P2, P1].
Qed.
(** Orders are never lost. *)
Definition orders_go (db db' : Db) : Prop :=
  ∃ old new, rows db' TSalesOrder = old ++ new ∧ Forall2 order_goes (rows db TSalesOrder) old.
Lemma orders_go_rows db db' : rows db' TSalesOrder = rows db TSalesOrder → orders_go db db'.
Proof. intros E. exists (rows db TSalesOrder), []. by rewrite app_nil_r. Qed.
#[export] Instance orders_go_preorder : PreOrder orders_go.
Proof.
  split; [intros db; by apply orders_go_rows|].
  intros d1 d2 d3 (o1 & n1 & E1 & H1) (o2 & n2 & E2 & H2). rewrite E1 in H2.
  apply Forall2_app_inv_l in H2 as (o3 & n3 & Ho & Hn & ->).
  exists o3, (n3 ++ n2). rewrite E2. split; [by rewrite <- app_assoc|]. by transitivity o1.
Qed.

(** * The books

    The payments of an order add up to what it counts as paid, which is at most its
    total; it is PAID when nothing is outstanding, and a regular order is paid at once. *)
Definition paid_in (p : PaymentRow) : Z := to_Z (py_amount p).
Definition received (ps : list PaymentRow) : Z := foldr (λ p n, (paid_in p + n)%Z) 0%Z ps.
Definition paid_by (o : SalesOrderRow) (ps : list PaymentRow) : Prop :=
  Forall (λ p, py_tenantId p = so_tenantId o ∧ ∃ a, py_amount p = of_Z a ∧ (0 < a <= max_exact)%Z) ps ∧
  ∀ T, so_totalAmount o = of_Z T → (0 <= T <= max_exact)%Z →
    so_paidAmount o = of_Z (received ps) ∧ (received ps <= T)%Z ∧
    (so_paymentStatus o = PaymentPaid ↔ (0 < T ∧ received ps = T)%Z) ∧
    (so_orderMode o = REGULAR → length ps <= 1 ∧ (ps ≠ [] → received ps = T)).
Definition payments_of (orderId : string) (db : Db) : list PaymentRow :=
  List.filter (λ p, bool_decide (py_orderId p = orderId)) (rows db TPayment).
Record books (db : Db) : Prop := {
  bk_sound : sound db;
  bk_paid : Forall (λ o, paid_by o (payments_of (so_id o) db)) (rows db TSalesOrder);
  bk_orders : Forall (λ p, py_orderId p ∈ map so_id (rows db TSalesOrder)) (rows db TPayment);
}.

Definition money (o : SalesOrderRow) :=
  (so_id o, so_tenantId o, so_orderMode o, so_totalAmount o, so_paidAmount o, so_paymentStatus o).
Lemma paid_by_money o o' ps : money o' = money o → paid_by o ps → paid_by o' ps.
Proof. unfold paid_by. by intros [= _ -> -> -> -> ->]. Qed.

(** What every call of the services keeps. *)
Definition sales (db db' : Db) : Prop := orders_go db db' ∧ (books db → books db').
#[export] Instance sales_preorder : PreOrder sales.
Proof.
  split; [by intros db|]. intros a b c [O1 B1] [O2 B2]. split; [by etrans|auto].
Qed.

Lemma books_frame db db' :
  rows db' TSalesOrder = rows db TSalesOrder → rows db' TPayment = rows db TPayment →
  sound db' → books db → books db'.
Proof.
  intros Ho Hp Hs [_ H1 H2]. split; [done| |by rewrite Ho, Hp].
  rewrite Ho. unfold payments_of. by rewrite Hp.
Qed.
Lemma sales_frame {A} ts (m : Tx Db A) :
  respects keeps_ids m → writes ts m → TSalesOrder ∉ ts → TPayment ∉ ts → respects sales m.
Proof.
  intros Hi Hw Ho Hp db a db' E. pose proof (Hw _ _ _ E) as Hr. split.
  - apply orders_go_rows. by apply Hr.
  - intros Hb. apply (books_frame db); [by apply Hr..| |done]. by eapply Hi, Hb.
Qed.
Lemma sales_reads {A} (m : Tx Db A) : writes [] m → respects keeps_ids m → respects sales m.
Proof. intros Hw Hi. apply (sales_frame []); [done..| |]; set_solver. Qed.

Lemma sales_update (p : SalesOrderRow → bool) f :
  (∀ o, p o = true → order_goes o (f o)) → (∀ o, money (f o) = money o) →
  respects sales (update_many TSalesOrder p f).
Proof.
  intros Hg Hm db n db' E. injection E as _ <-.
  assert (Hw : ∀ o, money (if p o then f o else o) = money o) by (intros o; by destruct (p o)).
  assert (Hid : map so_id (map_where p f (rows db TSalesOrder)) = map so_id (rows db TSalesOrder)).
  { apply map_where_keys. intros o. by injection (Hm o). }
  split.
  - exists (map_where p f (rows db TSalesOrder)), []. rewrite rows_on_same, app_nil_r.
    split; [done|]. apply Forall2_fmap_r, Forall_Forall2_diag, Forall_forall. intros o _. simpl.
    destruct (p o) eqn:Ep; [by apply Hg|reflexivity].
  - intros [Hs H1 H2]. split.
    + apply sound_on; [exact Hid|done].
    + rewrite rows_on_same. unfold payments_of, map_where. rewrite rows_on_other by done.
      apply Forall_map. eapply Forall_impl; [exact H1|]. intros o Ho. simpl.
      apply (paid_by_money o); [done|]. specialize (Hw o).
      assert (so_id (if p o then f o else o) = so_id o) as -> by by injection Hw. exact Ho.
    + rewrite rows_on_same, rows_on_other by done. cbn [row] in *. by rewrite Hid.
Qed.
Lemma sales_status (p : SalesOrderRow → bool) s :
  (∀ o, p o = true → reaches (so_status o) s) →
  respects sales (update_many TSalesOrder p (set_so_status s)).
Proof. intros Hp. apply sales_update; [|done]. intros o Ho. split; [done|by apply Hp|done..]. Qed.

(** ** A payment *)

Lemma received_snoc ps p : received (ps ++ [p]) = (received ps + paid_in p)%Z.
Proof. unfold received. induction ps as [|x ps IH]; simpl; lia. Qed.
Lemma received_nonneg ps (o : SalesOrderRow) :
  Forall (λ p, py_tenantId p = so_tenantId o ∧
               ∃ a, py_amount p = of_Z a ∧ (0 < a <= max_exact)%Z) ps →
  (0 <= received ps)%Z ∧ (ps ≠ [] → 0 < received ps)%Z.
Proof.
  intros Hf. induction Hf as [|p ps (_ & a & Ea & Ha) _ [IH _]]; [done|]. simpl.
  assert (paid_in p = a) as -> by (unfold paid_in; rewrite Ea; apply to_Z_of_Z; lia).
  split; [|intros _]; lia.
Qed.
Lemma paid_by_payment (o : SalesOrderRow) ps (p : PaymentRow) :
  paid_by o ps → whole (py_amount p) → py_tenantId p = so_tenantId o →
  Payments.accepts_payment o (py_amount p) = true →
  let paid := add (so_paidAmount o) (py_amount p) in
  paid_by (Payments.record_payment paid
             (if geb paid (so_totalAmount o) then PaymentPaid else PaymentPending) o)
    (ps ++ [p]).
Proof.
  intros [Hps Ho] (a & Ea & Ha) Ht Hacc. cbv zeta. unfold Payments.accepts_payment in Hacc.
  rewrite Ea in *. apply andb_true_iff in Hacc as [Hopen Hacc].
  rewrite !negb_orb in Hacc. apply andb_true_iff in Hacc as [Hacc Hreg].
  apply andb_true_iff in Hacc as [Hpos Hmax].
  apply negb_true_iff in Hpos. rewrite leb_of_Z in Hpos by (unfold max_exact in *; lia).
  apply Z.leb_gt in Hpos.
  assert (Hin : paid_in p = a) by (unfold paid_in; rewrite Ea; apply to_Z_of_Z; lia).
  split.
  { apply Forall_app. split; [exact Hps|]. repeat constructor; [done|]. exists a. split; [done|lia]. }
  intros T ET HT. simpl in ET. destruct (Ho T ET HT) as (Ep & Hle & Hpaid & Hone).
  destruct (received_nonneg _ _ Hps) as [H0 Hne].
  assert (Hout : Payments.outstanding o = of_Z (T - received ps)).
  { unfold Payments.outstanding. rewrite ET, Ep. apply sub_of_Z; lia. }
  rewrite Hout in *. unfold gtb in Hmax. apply negb_true_iff in Hmax.
  rewrite ltb_of_Z in Hmax by lia. apply Z.ltb_ge in Hmax.
  assert (Ea' : add (so_paidAmount o) (of_Z a) = of_Z (received ps + a)).
  { rewrite Ep. apply add_of_Z; lia. }
  rewrite Ea', received_snoc, Hin. unfold Payments.record_payment. cbn [so_paidAmount
    so_paymentStatus so_orderMode edit_order]. unfold geb.
  rewrite ET, leb_of_Z by lia. split_and!; [done|lia| |].
  - destruct (Z.leb_spec T (received ps + a)); split; [lia|done|done|lia].
  - intros Hm. apply Hone in Hm as Hm'. destruct Hm' as [Hl Hall].
    rewrite Hm, bool_decide_true in Hreg by done. simpl in Hreg. rewrite negb_involutive in Hreg.
    rewrite eqb_of_Z in Hreg by lia. apply Z.eqb_eq in Hreg.
    destruct ps as [|x ps]; [|specialize (Hall ltac:(done)); lia]. unfold received in *. simpl in *. split; [lia|]. intros _. lia.
Qed.

Lemma payments_snoc i (p : PaymentRow) ps :
  List.filter (λ p, bool_decide (py_orderId p = i)) (ps ++ [p]) =
    List.filter (λ p, bool_decide (py_orderId p = i)) ps ++
      (if bool_decide (py_orderId p = i) then [p] else []).
Proof. rewrite List.filter_app. simpl. by case_bool_decide. Qed.

(** The books after a payment [p] of the order [o]. *)
Lemma books_payment (o : SalesOrderRow) paid st (p : PaymentRow) (w : SalesOrderRow → bool) db db' :
  books db → sound db' → o ∈ rows db TSalesOrder → w o = true →
  (∀ x, w x = true → so_id x = so_id o) → py_orderId p = so_id o →
  paid_by (Payments.record_payment paid st o) (payments_of (so_id o) db ++ [p]) →
  rows db' TSalesOrder = map_where w (Payments.record_payment paid st) (rows db TSalesOrder) →
  rows db' TPayment = rows db TPayment ++ [p] → books db'.
Proof.
  intros [Hs H1 H2] Hs' Ho Hw Hid Hp Hpay Ro Rp. destruct (Hs TSalesOrder) as [Hk _].
  rewrite (keyed_map_where TSalesOrder w _ o db Hk Ho Hw Hid) in Ro.
  assert (Hids : map so_id (rows db' TSalesOrder) = map so_id (rows db TSalesOrder)).
  { cbn [row] in *. rewrite Ro. by apply map_where_keys. }
  split; [done| |].
  - unfold payments_of. cbn [row] in *. rewrite Ro, Rp. apply Forall_map.
    rewrite Forall_forall in H1 |- *. intros x Hx. simpl. rewrite payments_snoc, Hp.
    unfold has_id. cbn [row_id]. case_bool_decide as E.
    + rewrite (same_key so_id _ _ _ Hk Hx Ho E). simpl. rewrite bool_decide_true by done. exact Hpay.
    + rewrite bool_decide_false by congruence. rewrite app_nil_r. by apply H1.
  - cbn [row] in *. rewrite Rp, Hids. apply Forall_app. split; [exact H2|].
    constructor; [|done]. rewrite Hp. by apply list_elem_of_fmap_2.
Qed.

(** A condition that fixes the id selects one row at most. *)
Lemma keyed_once t (p : row t → bool) i db :
  keyed t db → (∀ x, p x = true → row_id t x = i) →
  List.filter p (rows db t) = [] ∨ ∃ x, List.filter p (rows db t) = [x].
Proof.
  intros Hk Hp. pose proof (filter_keys (row_id t) p _ Hk) as Hn.
  destruct (List.filter p (rows db t)) as [|x [|y l]] eqn:E; [by left|right; by exists x|].
  assert (Hin : ∀ z, z ∈ x :: y :: l → row_id t z = i).
  { intros z Hz. rewrite <- E in Hz. apply list_elem_of_In, filter_In in Hz as [_ Hz]. by apply Hp. }
  simpl in Hn. apply NoDup_cons in Hn as [Hx _]. exfalso. apply Hx.
  rewrite (Hin x), (Hin y) by set_solver. by left.
Qed.

Lemma ids_createPayment now i tn a me : respects keeps_ids (Payments.createPayment_tx now i tn a me).
Proof. unfold Payments.createPayment_tx, Payments.findOrderForPayment. solve_ids. Qed.
Lemma sales_createPayment now i tn a me :
  whole a → respects sales (Payments.createPayment_tx now i tn a me).
Proof.
  intros Ha db out db' E. pose proof (ids_createPayment now i tn a me db out db' E) as Hids.
  unfold Payments.createPayment_tx, Payments.findOrderForPayment in E.
  apply tx_bind_ok in E as (o & d & [= <- <-] & E). cbn [row] in *.
  destruct (List.find (of_tenant i tn) (rows db TSalesOrder)) as [o|] eqn:Ho;
    [|injection E as _ <-; reflexivity].
  apply find_some_in in Ho as [Ho Hk]. unfold of_tenant in Hk. bool_hyps.
  destruct (Payments.accepts_payment o a) eqn:Hacc; [|injection E as _ <-; reflexivity].
  cbn [negb] in E. cbv zeta in E. set (w := λ x : SalesOrderRow, _) in E.
  apply tx_bind_ok in E as (n & d & E1 & E).
  assert (Hw : ∀ x, w x = true → so_id x = so_id o ∧ so_paymentStatus x ≠ PaymentPaid).
  { intros x Hx. unfold w, of_tenant in Hx. bool_hyps. split; congruence. }
  assert (Hg : ∀ paid st x, w x = true → order_goes x (Payments.record_payment paid st x)).
  { intros paid st x Hx. split; [done|constructor|done|]. intros Hp. by apply Hw in Hx as [_ ?]. }
  assert (orders_go db d) as Hgo.
  { injection E1 as _ <-. eexists _, []. rewrite rows_on_same, app_nil_r. split; [done|].
    apply Forall2_fmap_r, Forall_Forall2_diag, Forall_forall. intros x _. simpl.
    destruct (w x) eqn:Ex; [by apply Hg|reflexivity]. }
  destruct (n =? 1)%nat eqn:Hn; cbn [negb] in E.
  - apply tx_bind_ok in E as (p & d2 & E2 & E). apply tx_bind_ok in E as (f & d3 & [= <- <-] & E).
    injection E as _ <-. pose proof (insert_rows TPayment _ _ _ _ E2) as [Ep Rp].
    assert (Ro : rows d2 TSalesOrder = rows d TSalesOrder).
    { refine (only_insert TPayment [TPayment] _ d p d2 _ E2 TSalesOrder _); set_solver. }
    split.
    { etrans; [exact Hgo|]. by apply orders_go_rows. }
    intros Hb. injection E1 as <- <-. apply Nat.eqb_eq in Hn.
    destruct (List.filter w (rows db TSalesOrder)) as [|x [|]] eqn:Hf; [done| |done].
    assert (x ∈ rows db TSalesOrder ∧ w x = true) as [Hx Hwx].
    { assert (Hin : x ∈ List.filter w (rows db TSalesOrder)) by (rewrite Hf; by left).
      apply list_elem_of_In, filter_In in Hin as [Hin Hwx]. split; [by apply list_elem_of_In|done]. }
    destruct (Hw x Hwx) as [Hid _].
    pose proof (same_key so_id _ _ _ (proj1 (bk_sound _ Hb TSalesOrder)) Hx Ho Hid) as ->.
    rewrite rows_on_other in Rp by done. rewrite rows_on_same in Ro.
    assert (py_orderId p = so_id o ∧ py_tenantId p = so_tenantId o ∧ py_amount p = a) as (P1 & P2 & P3).
    { rewrite Ep. simpl. split_and!; congruence. }
    eapply (books_payment o _ _ p w db d2 Hb); [by apply Hids, Hb|done..| |done| |exact Ro|exact Rp].
    { intros y Hy. by apply Hw in Hy as [-> _]. }
    rewrite <- P3. apply paid_by_payment; [|by rewrite P3|done|by rewrite P3].
    pose proof (bk_paid _ Hb) as Hb1. rewrite Forall_forall in Hb1. by apply Hb1.
  - injection E as _ <-. split; [done|]. intros Hb. injection E1 as <- <-.
    destruct (keyed_once TSalesOrder w (so_id o) db) as [Hnil|[x Hx]];
      [apply Hb|intros x Hx; by apply Hw in Hx as [? _]| |cbn [row] in *; by rewrite Hx in Hn].
    apply (books_frame db); [|by rewrite rows_on_other|by apply Hids, Hb|done].
    rewrite rows_on_same. apply map_where_id. intros x Hx Hwx.
    apply filter_nil_iff in Hnil. rewrite Forall_forall in Hnil. by rewrite Hnil in Hwx.
Qed.

(** ** The stock side *)

Lemma ids_create_movement now d : respects keeps_ids (create_movement now d).
Proof. unfold create_movement. solve_ids. Qed.
Lemma ids_restore input : respects keeps_ids (Costing.restore input).
Proof.
  unfold Costing.restore, Costing.restore_layer, Costing.change_layer,
    Costing.restoreMovingAverage, Costing.write_allocations, Costing.write_cost,
    Costing.lockItem, to_column, column_result. solve_ids.
Qed.
#[local] Hint Resolve ids_create_movement ids_restore : ids.
Lemma ids_reserve now o tn : respects keeps_ids (reserve_tx now o tn).
Proof.
  unfold reserve_tx, load_order, reserveRequirement.
  assert (H : ∀ i q l, respects keeps_ids (reserve_stocks now tn o i q l)).
  { intros i q l. revert q. induction l as [|s l IH]; simpl; intros q; [solve_ids|].
    unfold reserve_from. solve_ids. }
  assert (H' : ∀ (x : SalesOrderRow) i q l, respects keeps_ids (reserve_stocks now tn (so_id x) i q l)).
  { intros x i q l. revert q. induction l as [|s l IH]; simpl; intros q; [solve_ids|].
    unfold reserve_from. solve_ids. }
  solve_ids.
Qed.
Lemma ids_claim tn o f : (∀ m, mv_id (f m) = mv_id m) → respects keeps_ids (claim tn o f).
Proof.
  intros Hf. unfold claim. apply respects_bind; [exact _|solve_ids|intros ms].
  case_match; [solve_ids|]. apply respects_bind; [exact _|by apply (ids_update_many TMovement)|].
  solve_ids.
Qed.
Lemma ids_release now o tn : respects keeps_ids (releaseReservationInTransaction now o tn).
Proof.
  unfold releaseReservationInTransaction.
  apply respects_bind; [exact _|by apply ids_claim|intros [ms|]; [|solve_ids]].
  unfold release_movement, allocation_count. solve_ids.
Qed.
Lemma ids_commit now o tn : respects keeps_ids (commit_tx now o tn).
Proof.
  unfold commit_tx, load_order. apply respects_bind; [exact _|solve_ids|intros [x t]].
  apply respects_bind; [exact _|by apply ids_claim|intros [ms|]; [|solve_ids]].
  unfold commit_cost, allocation_count. solve_ids.
Qed.
Lemma ids_issue_stock now tn o ty what i x : respects keeps_ids (issue_stock now tn o ty what i x).
Proof. unfold issue_stock, book_movement. solve_ids. Qed.
Lemma ids_consume now i tn : respects keeps_ids (Kitchen.consume_reservations now i tn).
Proof.
  unfold Kitchen.consume_reservations, Kitchen.consume_cost, allocation_count. solve_ids.
Qed.

Definition stock_side : list table :=
  [TStock; TMovement; TLayer; TAllocation; TItem].
Lemma writes_reserve now o tn : writes stock_side (reserve_tx now o tn).
Proof.
  unfold reserve_tx, load_order, reserveRequirement, stock_side.
  assert (H : ∀ (x : SalesOrderRow) i q l, writes [TStock; TMovement; TLayer; TAllocation; TItem]
    (reserve_stocks now tn (so_id x) i q l)).
  { intros x i q l. revert q. induction l as [|s l IH]; simpl; intros q; [solve_writes|].
    unfold reserve_from. solve_writes; auto. }
  solve_writes; auto.
Qed.
Lemma touches_claim tn o f : writes stock_side (claim tn o f).
Proof. unfold claim, stock_side. solve_writes. Qed.
Lemma writes_release now o tn : writes stock_side (releaseReservationInTransaction now o tn).
Proof.
  unfold releaseReservationInTransaction. apply writes_bind; [apply touches_claim|intros [ms|]].
  2: auto with writes. unfold release_movement, allocation_count. unfold stock_side in *.
  pose proof (writes_restore [TStock; TMovement; TLayer; TAllocation; TItem]). solve_writes; auto.
Qed.
Lemma writes_commit now o tn : writes stock_side (commit_tx now o tn).
Proof.
  unfold commit_tx, load_order. apply writes_bind; [solve_writes|intros [x t]].
  apply writes_bind; [apply touches_claim|intros [ms|]; [|auto with writes]].
  unfold commit_cost, allocation_count, stock_side. solve_writes.
Qed.
Lemma writes_consume_reservations now i tn :
  writes stock_side (Kitchen.consume_reservations now i tn).
Proof.
  unfold Kitchen.consume_reservations, Kitchen.consume_cost, allocation_count, stock_side.
  solve_writes.
Qed.

Lemma sales_stock {A} (m : Tx Db A) :
  writes stock_side m → respects keeps_ids m → respects sales m.
Proof. intros Hw Hi. apply (sales_frame stock_side); [done..| |]; unfold stock_side; set_solver. Qed.

(** ** The transactions of the services *)

#[local] Hint Resolve ids_reserve ids_release ids_commit ids_issue_stock ids_consume : ids.
Lemma sales_reserve now o tn : respects sales (reserve_tx now o tn).
Proof. apply sales_stock; [apply writes_reserve|apply ids_reserve]. Qed.
Lemma sales_release now o tn : respects sales (releaseReservationInTransaction now o tn).
Proof. apply sales_stock; [apply writes_release|apply ids_release]. Qed.
Lemma sales_commit now o tn : respects sales (commit_tx now o tn).
Proof. apply sales_stock; [apply writes_commit|apply ids_commit]. Qed.

(** What only reads. *)
Ltac by_reading := apply sales_reads; [solve_writes|solve_ids].
Lemma sales_findOne i tn out : respects sales (Orders.findOne i tn out).
Proof. unfold Orders.findOne. by_reading. Qed.
Lemma sales_ret {A} (a : A) : respects sales (mret a).
Proof. by_reading. Qed.

Lemma sales_insert (mk : string → SalesOrderRow) :
  (∀ i, so_id (mk i) = i ∧ so_paidAmount (mk i) = of_Z 0 ∧
        so_paymentStatus (mk i) = PaymentPending) →
  respects sales (insert TSalesOrder mk).
Proof.
  intros Hmk db r db' E. pose proof (insert_rows TSalesOrder _ _ _ _ E) as [Er Ro]. split.
  { exists (rows db TSalesOrder), [r]. done. }
  intros [Hs H1 H2].
  assert (Rp : rows db' TPayment = rows db TPayment).
  { refine (only_insert TSalesOrder [TSalesOrder] _ _ _ _ _ E TPayment _); set_solver. }
  assert (Hs' : sound db').
  { refine (sound_insert TSalesOrder _ _ _ _ _ E Hs). intros i. apply Hmk. }
  destruct (Hmk (cuid (serial db))) as (Ei & Ep & Est). cbn [row] in *.
  split; [done| |].
  - unfold payments_of. cbn [row] in *. rewrite Rp, Ro. apply Forall_app. split; [done|].
    constructor; [|done]. rewrite Er, Ei.
    assert (List.filter (λ p, bool_decide (py_orderId p = cuid (serial db))) (rows db TPayment) = [])
      as ->.
    { apply filter_none. eapply Forall_impl; [exact H2|]. intros p Hp. simpl.
      apply bool_decide_false. intros Hid.
      apply (proj2 (Hs TSalesOrder) (serial db)); [lia|]. rewrite <- Hid. exact Hp. }
    split; [done|]. intros T _ HT. rewrite Ep, Est. unfold received. simpl.
    split_and!; [done|lia|split; [done|lia]|]. split; [lia|done].
  - cbn [row] in *. rewrite Rp, Ro, map_app. eapply Forall_impl; [exact H2|].
    intros p Hp. apply elem_of_app. by left.
Qed.
Lemma sales_createOrder now tn out n total items m :
  respects sales (Orders.createOrder_tx now tn out n total items m).
Proof.
  unfold Orders.createOrder_tx, Orders.base_currency.
  do 5 (apply respects_bind; [exact _|by_reading|intros ?]).
  by apply sales_insert.
Qed.

Lemma goes_released now (o : SalesOrderRow) :
  so_kitchenReleasedAt o = None → order_goes o (Orders.set_released now o).
Proof. intros H. split; [done|constructor|by rewrite H|done]. Qed.
Lemma sales_released now i tn :
  respects sales (update_many TSalesOrder (Orders.releasable i tn) (Orders.set_released now)).
Proof.
  apply sales_update; [|done]. intros o Ho. apply goes_released. unfold Orders.releasable in Ho.
  by bool_hyps.
Qed.
Lemma sales_cancel now i tn out : respects sales (Orders.cancel_tx now i tn out).
Proof.
  unfold Orders.cancel_tx. apply respects_bind; [exact _| |intros n].
  { apply sales_status. intros o Ho. unfold Orders.cancellable in Ho. bool_hyps.
    by apply reaches_cancelled. }
  case_match; [apply sales_ret|].
  apply respects_bind; [exact _|apply sales_release|intros _; apply sales_findOne].
Qed.

Lemma writes_line_body now tn b (oid : string) (l : OrderLine) :
  (b = retail_line now tn ∨ b = cafe_line now tn) → writes stock_side (b oid l).
Proof.
  pose proof writes_issue_stock as H. unfold fulfillment_tables in H. unfold stock_side.
  intros [->| ->]; [unfold retail_line|unfold cafe_line]; solve_writes; apply H.
Qed.
Lemma sales_fulfill now tn b (oid : string) :
  (b = retail_line now tn ∨ b = cafe_line now tn) → respects sales (fulfill_tx b oid tn).
Proof.
  intros Hb. unfold fulfill_tx. apply respects_bind; [exact _|by_reading|intros o].
  case_match; [apply sales_ret|].
  apply respects_bind; [exact _|by_reading|intros _].
  apply respects_bind; [exact _|by_reading|intros c].
  apply respects_bind; [exact _| |intros _].
  { apply respects_for_each; [exact _|]. intros l. apply sales_stock; [by apply (writes_line_body now tn)|].
    destruct Hb as [->| ->]; [unfold retail_line|unfold cafe_line]; solve_ids. }
  apply respects_bind; [exact _| |intros n; apply sales_ret].
  apply sales_status. intros x Hx. bool_hyps. apply rtc_once. unfold goes.
  match goal with H : so_status x = PAID |- _ => rewrite H end. simpl. set_solver.
Qed.

(** *** The kitchen *)

Lemma sales_priority now i tn n u out : respects sales (Kitchen.priority_tx now i tn n u out).
Proof.
  unfold Kitchen.priority_tx. apply respects_bind; [exact _|by_reading|intros [o|]];
    [|apply sales_ret].
  apply respects_bind; [exact _| |intros _; apply sales_ret].
  apply respects_when; [exact _|]. apply respects_bind; [exact _| |intros _].
  - unfold update_id. apply respects_bind; [exact _| |intros k; by_reading].
    apply sales_update; [|done]. intros x _. split; [done|constructor|done|done].
  - unfold Kitchen.audit. apply (sales_frame [TAudit]); [solve_ids|solve_writes|set_solver..].
Qed.
Lemma sales_threshold now tn n u : respects sales (Kitchen.repo_updateWaitThreshold now tn n u).
Proof.
  unfold Kitchen.repo_updateWaitThreshold, Kitchen.audit.
  apply (sales_frame [TTenant; TAudit]); [solve_ids|solve_writes|set_solver..].
Qed.
Lemma sales_kitchen now i tn s e rel out :
  reaches (Kitchen.mapKitchenStatusToOrderStatus e) (Kitchen.mapKitchenStatusToOrderStatus s) →
  (∀ m, rel = Some m → respects sales m) →
  respects sales (Kitchen.status_tx now i tn s e rel out).
Proof.
  intros Hr Hrel. unfold Kitchen.status_tx. apply respects_bind; [exact _| |intros n].
  { apply sales_status. intros o Ho. bool_hyps. congruence. }
  case_match; [apply sales_ret|].
  apply respects_bind; [exact _| |intros _].
  { apply respects_when; [exact _|]. destruct rel as [m|]; [|apply sales_ret].
    apply respects_bind; [exact _|by apply Hrel|intros _; apply sales_ret]. }
  apply respects_bind; [exact _| |intros _; apply sales_ret].
  apply respects_when; [exact _|].
  apply sales_stock; [apply writes_consume_reservations|apply ids_consume].
Qed.

(** * The calls *)

Inductive SalesCall :=
| CreateOrder (now : Date) (tenantId : string) (outletId : option string)
    (items : list Orchestrator.OrderItemDto) (mode : option OrderMode)
| UpdateOrder (now : Date) (id tenantId : string) (outletId : option string) (s : OrderStatus)
| ReleaseOrder (now : Date) (id tenantId : string)
| MarkPaid (id tenantId : string)
| MarkCompleted (id tenantId : string)
| CancelOrder (now : Date) (id tenantId : string) (outletId : option string)
| Pay (ctx : Outbox.Context_) (observability : json) (now : Date) (tenantId : string)
    (dto : Payments.CreatePaymentDto)
| OnOrderCreated (now : Date) (id tenantId : string)
| OnPaymentSuccess (now : Date) (id tenantId : string) (isFullyPaid : option bool)
| OnPaymentFailed (now : Date) (id tenantId : string)
| StartCooking (now : Date) (id tenantId : string) (outletId : option string)
| MarkReady (now : Date) (id tenantId : string) (outletId : option string)
| MarkServed (now : Date) (id tenantId : string) (outletId : option string)
| CancelTicket (now : Date) (id tenantId : string) (outletId : option string)
| Recall (now : Date) (id tenantId : string) (outletId : option string)
| SetPriority (now : Date) (id tenantId : string) (n : number) (userId : string)
    (outletId : option string)
| SetThreshold (now : Date) (tenantId : string) (n : number) (userId : string).

Definition done_with {A} (f : OFlow A) : OFlow unit := _ ← f; mret tt.
Definition serve (c : SalesCall) : OFlow unit :=
  match c with
  | CreateOrder now tn out items m => done_with (Orchestrator.create now tn out items m)
  | UpdateOrder now i tn out s => done_with (Orders.updateStatus now i tn out s)
  | ReleaseOrder now i tn => done_with (Orders.releaseToKitchen now i tn)
  | MarkPaid i tn => done_with (Orders.markPaid i tn)
  | MarkCompleted i tn => done_with (Orders.markCompleted i tn)
  | CancelOrder now i tn out => done_with (Orders.cancelOrder now i tn out)
  | Pay ctx obs now tn dto => done_with (Payments.pay ctx obs now tn dto)
  | OnOrderCreated now i tn => Orchestrator.handleOrderCreated now i tn
  | OnPaymentSuccess now i tn full => Orchestrator.handlePaymentSuccess now i tn full
  | OnPaymentFailed now i tn => Orchestrator.handlePaymentFailed now i tn
  | StartCooking now i tn out => done_with (Kitchen.startCooking now i tn out)
  | MarkReady now i tn out => done_with (Kitchen.markReady now i tn out)
  | MarkServed now i tn out => done_with (Kitchen.markServed now i tn out)
  | CancelTicket now i tn out => done_with (Kitchen.cancel now i tn out)
  | Recall now i tn out => done_with (Kitchen.recall now i tn out)
  | SetPriority now i tn n u out => done_with (Kitchen.setPriority now i tn n u out)
  | SetThreshold now tn n u => done_with (Kitchen.updateWaitThreshold now tn n u)
  end.
(** The amount of a payment is a whole number, as its DTO makes sure. *)
Definition validated (c : SalesCall) : Prop :=
  match c with Pay _ _ _ _ dto => whole (Payments.pay_amount dto) | _ => True end.

Abbreviation kept f := (keeping sales f).
Lemma sales_kept_call {A} (m : Tx Db A) : respects sales m → kept (call m : OFlow A).
Proof. intros Hm. apply keeping_call. intros s a s' E. by eapply Hm. Qed.
Lemma kept_bind {A B} (m : OFlow A) (f : A → OFlow B) :
  kept m → (∀ a, kept (f a)) → kept (m ≫= f).
Proof. apply keeping_bind. Qed.
Lemma kept_lift {A B} (r : result A) (f : A → OFlow B) :
  (∀ a, r = Ok a → kept (f a)) → kept (lift r ≫= f).
Proof. intros Hf. destruct r as [a|e]; simpl; [by apply Hf|done]. Qed.
Lemma kept_inform n : kept (inform n).
Proof. unfold inform. by intros [e|]. Qed.
Lemma kept_publish e : kept (publish e).
Proof. apply kept_inform. Qed.
Lemma kept_done {A} (f : OFlow A) : kept f → kept (done_with f).
Proof. intros Hf. by apply kept_bind. Qed.
Lemma kept_or_not_found o : kept (Orders.or_not_found o).
Proof. by destruct o. Qed.

Ltac by_call := apply sales_kept_call; by_reading.
Lemma kept_find i tn out : kept (call (Orders.findOne i tn out) : OFlow _).
Proof. apply sales_kept_call, sales_findOne. Qed.
Lemma kept_updated p f i tn :
  respects sales (update_many TSalesOrder p f) → kept (Orders.updated_order p f i tn).
Proof.
  intros Hp. unfold Orders.updated_order. apply kept_bind; [by apply sales_kept_call|intros n].
  case_match; [done|apply kept_find].
Qed.
Lemma kept_release now i tn : kept (Orders.releaseToKitchen now i tn).
Proof.
  unfold Orders.releaseToKitchen, Orders.repo_releaseToKitchen.
  apply kept_bind; [|intros o; apply kept_or_not_found].
  apply kept_bind; [apply sales_kept_call, sales_released|intros _; apply kept_find].
Qed.
Lemma kept_through act save i tn : kept save → kept (Orders.through act save i tn).
Proof.
  intros Hs. unfold Orders.through. apply kept_bind.
  { unfold Orders.findOneAggregate, Orders.findOne. by_call. }
  intros [a|]; [|done]. apply kept_lift. intros b _. apply kept_bind; [done|].
  apply kept_or_not_found.
Qed.
Lemma kept_markPaid i tn : kept (Orders.markPaid i tn).
Proof.
  apply kept_through, kept_updated, sales_status. intros o Ho. bool_hyps. by apply reaches_paid.
Qed.
Lemma kept_markCompleted i tn : kept (Orders.markCompleted i tn).
Proof.
  apply kept_through, kept_updated, sales_status. intros o Ho. bool_hyps. apply rtc_once.
  unfold goes. match goal with H : so_status o = PAID |- _ => rewrite H end. simpl. set_solver.
Qed.
Lemma sales_kept_cancel now i tn out : kept (Orders.cancelOrder now i tn out).
Proof.
  unfold Orders.cancelOrder. apply kept_bind.
  { unfold Orders.findOneAggregate, Orders.findOne. by_call. }
  intros [a|]; [|done]. destruct (Order.cancel a); [|apply kept_find].
  apply kept_bind; [apply sales_kept_call, sales_cancel|intros o].
  apply kept_bind; [apply kept_or_not_found|done].
Qed.
Lemma kept_reserve now i tn : kept (call (reserve_tx now i tn) : OFlow _).
Proof. apply sales_kept_call, sales_reserve. Qed.
Lemma kept_business tn : kept (call (resolveTenantBusinessType tn) : OFlow _).
Proof. unfold resolveTenantBusinessType. by_call. Qed.

Lemma kept_order_created now i tn : kept (Orchestrator.handleOrderCreated now i tn).
Proof.
  unfold Orchestrator.handleOrderCreated. apply kept_bind; [apply kept_find|intros [o|]; [|done]].
  case_match; [done|]. apply keeping_catch.
  - unfold Orchestrator.confirm_order. apply kept_bind; [apply kept_reserve|intros _].
    apply kept_bind; [apply kept_business|intros b].
    apply kept_bind; [case_match; [|done]; apply kept_bind; [apply kept_release|done]|intros _].
    apply kept_bind; [apply kept_publish|intros _; apply kept_publish].
  - intros e. apply kept_bind; [apply sales_kept_cancel|done].
Qed.
Lemma kept_complete now i tn : kept (Orchestrator.complete_retail now i tn).
Proof.
  unfold Orchestrator.complete_retail, Orchestrator.fulfill.
  apply kept_bind; [apply kept_reserve|intros _].
  apply kept_bind; [apply sales_kept_call, sales_commit|intros _].
  apply kept_bind; [apply kept_find|intros o].
  apply kept_bind; [case_match; [done|]; apply kept_bind; [apply kept_markPaid|done]|intros _].
  apply kept_bind.
  { apply kept_bind; [apply kept_business|intros b]. destruct b; try done;
      apply sales_kept_call; [apply (sales_fulfill now tn); by right|apply (sales_fulfill now tn); by left]. }
  intros b. apply kept_bind; [apply kept_publish|intros _]. case_match; [|done].
  apply kept_bind; [apply kept_publish|intros _; apply kept_publish].
Qed.
Lemma kept_payment_success now i tn full : kept (Orchestrator.handlePaymentSuccess now i tn full).
Proof.
  unfold Orchestrator.handlePaymentSuccess. case_match; [done|].
  apply kept_bind; [apply kept_business|intros b]. destruct b; try done; [|apply kept_complete].
  apply kept_bind; [apply kept_reserve|intros _]. apply kept_bind; [apply kept_release|done].
Qed.
Lemma kept_payment_failed now i tn : kept (Orchestrator.handlePaymentFailed now i tn).
Proof.
  unfold Orchestrator.handlePaymentFailed. apply kept_bind; [apply kept_find|intros o].
  case_match; [done|]. apply kept_bind; [apply sales_kept_cancel|done].
Qed.
Lemma sales_kept_create now tn out items m : kept (Orchestrator.create now tn out items m).
Proof.
  unfold Orchestrator.create, publish_handled, Orders.findProductsByIds.
  apply kept_bind; [by_call|intros ps]. apply kept_lift. intros [] _.
  apply kept_lift. intros [its total] _.
  apply kept_bind; [apply sales_kept_call, sales_createOrder|intros o].
  apply kept_bind; [|intros _; apply kept_bind; [apply kept_publish|done]].
  apply kept_bind; [apply kept_inform|intros _].
  apply kept_bind; [apply kept_order_created|intros _; apply kept_inform].
Qed.

Lemma sales_outbox now ctx obs type payload d :
  respects sales (Outbox.outbox_publish now ctx obs type payload d).
Proof.
  unfold Outbox.outbox_publish.
  apply (sales_frame [TOutbox]); [solve_ids|solve_writes|set_solver..].
Qed.
Lemma kept_pay ctx obs now tn dto :
  whole (Payments.pay_amount dto) → kept (Payments.pay ctx obs now tn dto).
Proof.
  intros Hw. unfold Payments.pay. apply kept_bind.
  { unfold Payments.findOrderForPayment. by_call. }
  intros [o|]; [|done]. apply kept_lift. intros [] _.
  apply kept_bind; [by apply sales_kept_call, sales_createPayment|intros [[p x]|]; [|done]].
  cbv zeta. apply kept_bind; [apply sales_kept_call, sales_outbox|intros _].
  apply kept_bind; [|done]. case_match; [apply sales_kept_call, sales_outbox|done].
Qed.

Lemma kept_ticket now i tn out : kept (call (Kitchen.findBySalesOrderId now i tn out) : OFlow _).
Proof.
  unfold Kitchen.findBySalesOrderId, Kitchen.first_ticket, Kitchen.to_tickets. by_call.
Qed.
Lemma kept_advance op ev now i tn rel out :
  (∀ m, rel = Some m → respects sales m) → kept (Kitchen.advance op ev now i tn rel out).
Proof.
  intros Hrel. unfold Kitchen.advance. apply kept_bind; [apply kept_ticket|intros t].
  apply kept_bind; [by destruct t|intros a]. cbv zeta. apply kept_lift. intros b Hb.
  apply kept_bind; [|intros [t'|]; [|done]; apply kept_bind; [apply kept_publish|done]].
  unfold Kitchen.repo_updateStatus. apply kept_bind.
  - apply sales_kept_call, sales_kitchen; [|done]. by eapply reaches_kitchen, ticket_transition.
  - intros [|]; [apply kept_ticket|done].
Qed.
Lemma kept_priority now i tn n u out : kept (Kitchen.setPriority now i tn n u out).
Proof.
  unfold Kitchen.setPriority, Kitchen.repo_updatePriority.
  apply kept_bind; [|by intros [|]].
  apply kept_bind; [apply sales_kept_call, sales_priority|intros [|]; [apply kept_ticket|done]].
Qed.
Lemma kept_threshold now tn n u : kept (Kitchen.updateWaitThreshold now tn n u).
Proof.
  unfold Kitchen.updateWaitThreshold.
  apply kept_bind; [apply sales_kept_call, sales_threshold|by intros [|]].
Qed.

Lemma sales_kept_serve c : validated c → kept (serve c).
Proof.
  intros Hv. destruct c; cbn [serve validated] in *; try apply kept_done.
  - apply sales_kept_create.
  - unfold Orders.updateStatus. destruct s; try done. apply sales_kept_cancel.
  - apply kept_release.
  - apply kept_markPaid.
  - apply kept_markCompleted.
  - apply sales_kept_cancel.
  - by apply kept_pay.
  - apply kept_order_created.
  - apply kept_payment_success.
  - apply kept_payment_failed.
  - by apply kept_advance.
  - by apply kept_advance.
  - by apply kept_advance.
  - apply kept_advance. intros m [= <-]. apply sales_release.
  - by apply kept_advance.
  - apply kept_priority.
  - apply kept_threshold.
Qed.

(** Any number of calls at once, among others that keep [K]. *)
Definition sales_steps (K : relation Db) : relation (Pool Db Notice (option exn) unit) :=
  rtc (pool_step K (λ f, ∃ c, validated c ∧ f = serve c)).
Lemma sales_kept (K : relation Db) `{!PreOrder K} p p' :
  (∀ db db', sales db db' → K db db') → running p = [] → sales_steps K p p' →
  K (Flows.store p) (Flows.store p').
Proof.
  intros HK Hr Hs. refine (pool_keeps K _ _ p p' _ _ _ Hs); [done| |by rewrite Hr].
  intros f (c & Hv & ->). apply (keeping_mono sales); [exact HK|by apply sales_kept_serve].
Qed.
Definition keeps_books (db db' : Db) : Prop := books db → books db'.
#[export] Instance keeps_books_preorder : PreOrder keeps_books.
Proof. unfold keeps_books. split; [by intros db|by intros a b c Hab Hbc Ha; apply Hbc, Hab]. Qed.
End sales.

(** * Theorems *)

(** C7: The life of a sales order.  However many calls of the services run at once, among
    others that do the same, an order is never lost; its number, lines, total and mode
    stay; its status moves along the lifecycle, so a completed or cancelled order stays
    one; and once it is released to the kitchen or paid it stays so. *)
Theorem order_history {dec : Decimal} {plat : Platform} {uniq : UniqueIds}
    (p p' : Pool Db Notice (option exn) unit) (o : SalesOrderRow) :
  running p = [] → sales_steps orders_go p p' → o ∈ rows (store p) TSalesOrder →
  ∃ o', o' ∈ rows (store p') TSalesOrder ∧ fixed o' = fixed o ∧
    reaches (so_status o) (so_status o') ∧
    (final (so_status o) = true → so_status o' = so_status o) ∧
    (∀ d, so_kitchenReleasedAt o = Some d → so_kitchenReleasedAt o' = Some d) ∧
    (so_paymentStatus o = PaymentPaid → so_paymentStatus o' = PaymentPaid).
Proof.
  intros Hr Hs Hin.
  destruct (sales_kept orders_go p p' (λ _ _ H, proj1 H) Hr Hs) as (old & new & E & Hf).
  apply list_elem_of_lookup in Hin as (i & Hi).
  destruct (Forall2_lookup_l _ _ _ _ _ Hf Hi) as (o' & Hi' & [F S R P]). exists o'.
  split; [rewrite E; apply elem_of_app; left; by eapply list_elem_of_lookup_2|].
  split_and!; [done..| |done|done]. intros Hfin. by apply final_reaches.
Qed.

(** C6: Payments add up.  Where the books are in order they stay in order, however many
    calls run at once among others that keep them: the payments recorded for an order add
    up to its paid amount, which never exceeds its total; it counts as PAID exactly when its
    total is positive and has been received in full, so an order of nothing but free
    products never does; and a regular order is paid in one payment. *)
Theorem payments_add_up {dec : Decimal} {plat : Platform} {uniq : UniqueIds}
    (p p' : Pool Db Notice (option exn) unit) (o : SalesOrderRow) (T : Z) :
  running p = [] → sales_steps keeps_books p p' → books (store p) →
  o ∈ rows (store p') TSalesOrder → so_totalAmount o = of_Z T → (0 <= T <= max_exact)%Z →
  let ps := payments_of (so_id o) (store p') in
  so_paidAmount o = of_Z (received ps) ∧ (0 <= received ps <= T)%Z ∧
  (so_paymentStatus o = PaymentPaid ↔ (0 < T ∧ received ps = T)%Z) ∧
  (so_orderMode o = REGULAR → length ps <= 1 ∧ (ps ≠ [] → received ps = T)).
Proof.
  intros Hr Hs Hb Ho HT Hle ps.
  pose proof (sales_kept keeps_books p p' (λ _ _ H, proj2 H) Hr Hs Hb) as [_ Hp _].
  rewrite Forall_forall in Hp. destruct (Hp o Ho) as [Hps Hm].
  destruct (Hm T HT Hle) as (H1 & H2 & H3 & H4). destruct (received_nonneg _ _ Hps) as [H0 _].
  done.
Qed.

(** * Examples

    Two clients pay the same order at once, while the kitchen starts to cook it. *)
Module SalesExamples.
Import FixedPoint SamplePlatform.
Local Open Scope string_scope.

Definition order : SalesOrderRow :=
  {| so_id := "o1"; so_tenantId := "t1"; so_outletId := None; so_orderNumber := "ORD-1";
     so_status := OrderPENDING; so_orderMode := REGULAR; so_paymentStatus := PaymentPending;
     so_paidAmount := of_Z 0; so_kitchenReleasedAt := Some 2%Z; so_kitchenPriority := of_Z 0;
     so_totalAmount := of_Z 500; so_currencyCode := Some "USD"; so_createdAt := 1%Z;
     so_SalesOrderItem := [] |}.
Definition store0 : Db :=
  on TSalesOrder (λ _, [order])
    (on TTenant (λ _, [{| tn_id := "t1"; tn_name := "Acme"%string; tn_contactEmail := None;
                          tn_contactPhone := None; tn_address := None; tn_createdAt := 0%Z;
                          tn_status := TenantACTIVE; tn_currencyCode := Some "USD";
                          tn_businessType := CAFE; tn_deletedAt := None;
                          tn_kitchenWaitThresholdMinutes := of_Z 15 |}]) emptyDb).
Definition pool0 : Pool Db Notice (option exn) unit :=
  {| Flows.store := store0; running := []; log := [] |}.

Definition payment : SalesCall :=
  Pay {| Outbox.cx_tenantId := Some "t1"; Outbox.cx_outletId := None |} JNull 7%Z "t1"
    {| Payments.pay_orderId := "o1"; Payments.pay_method := CASH; Payments.pay_amount := of_Z 500 |}.
Definition cooking : SalesCall := StartCooking 8%Z "o1" "t1" None.
(** Both payments find the order unpaid; one of them is recorded. *)
Definition schedule : list (action Db Notice (option exn) unit) :=
  [Start (serve payment); Start (serve payment); Start (serve cooking);
   GoOn 0 None; GoOn 1 None; GoOn 2 None; GoOn 0 None; GoOn 1 None; GoOn 2 None; GoOn 0 None;
   GoOn 2 None; GoOn 0 None; GoOn 2 None].
Abbreviation end_pool := (act_all pool0 schedule).
Definition is_end (p : Pool Db Notice (option exn) unit) : bool :=
  match rows (Flows.store p) TSalesOrder with
  | [o] => bool_decide (so_totalAmount o = of_Z 500) && bool_decide (so_status o = IN_PROGRESS) &&
           bool_decide (so_paymentStatus o = PaymentPaid)
  | _ => false
  end && (length (running p) =? 3)%nat && (length (log p) =? 1)%nat.
Lemma sales_end : is_end <$> end_pool = Some true.
Proof. vm_compute. reflexivity. Qed.

Lemma whole_500 : whole (of_Z 500).
Proof. exists 500%Z. split; [reflexivity|unfold max_exact; lia]. Qed.
Lemma sales_schedule K p : end_pool = Some p → sales_steps K pool0 p.
Proof.
  intros Hp. refine (act_all_steps _ _ pool0 schedule p _ Hp).
  repeat (constructor; [first
    [ exact Logic.I
    | exists payment; split; [exact whole_500|reflexivity]
    | exists cooking; split; [exact Logic.I|reflexivity] ]|]).
  constructor.
Qed.
Lemma store_books : books store0.
Proof.
  split.
  - intros t. split.
    + destruct t; apply (bool_decide_unpack _); vm_compute; exact I.
    + intros n _ Hin. destruct t; simpl in Hin;
        repeat (apply elem_of_cons in Hin as [Hin|Hin]; [discriminate Hin|]);
        by apply elem_of_nil in Hin.
  - apply Forall_singleton. split; [constructor|]. cbn [so_totalAmount order]. intros T HT Hle.
    assert (T = 500%Z) as -> by (symmetry; apply (of_Z_inj 500 T); [unfold max_exact in *; lia..|exact HT]).
    split; [reflexivity|]. split; [vm_compute; discriminate|]. split.
    + split; [discriminate|]. intros [_ Hz]. discriminate Hz.
    + intros _. split; [apply Nat.le_0_l|]. intros Hn. contradiction Hn. reflexivity.
  - constructor.
Qed.

Lemma order_history_witness :
  ∃ p o', sales_steps orders_go pool0 p ∧ o' ∈ rows (Flows.store p) TSalesOrder ∧
    fixed o' = fixed order ∧ so_kitchenReleasedAt o' = Some 2%Z.
Proof.
  pose proof sales_end as E. destruct end_pool as [p|] eqn:Hp; [|discriminate E].
  pose proof (sales_schedule orders_go p Hp) as Hs.
  destruct (order_history pool0 p order eq_refl Hs (list_elem_of_here _ _))
    as (o' & Hin & Hf & _ & _ & Hr & _).
  exists p, o'. split; [exact Hs|]. split; [exact Hin|]. split; [exact Hf|].
  apply Hr. reflexivity.
Defined.
Lemma payments_add_up_witness :
  ∃ p o, sales_steps keeps_books pool0 p ∧ rows (Flows.store p) TSalesOrder = [o] ∧
    so_paymentStatus o = PaymentPaid ∧ received (payments_of (so_id o) (Flows.store p)) = 500%Z.
Proof.
  pose proof sales_end as E. destruct end_pool as [p|] eqn:Hp; [|discriminate E].
  assert (E1 : is_end p = true) by (by injection E). clear E. unfold is_end in E1.
  destruct (rows (Flows.store p) TSalesOrder) as [|o [|o' l]] eqn:Ho; [discriminate E1| |discriminate E1].
  apply andb_true_iff in E1 as [E1 _]. apply andb_true_iff in E1 as [E1 _].
  apply andb_true_iff in E1 as [E1 Hs]. apply andb_true_iff in E1 as [HT _].
  apply bool_decide_eq_true_1 in Hs, HT.
  pose proof (sales_schedule keeps_books p Hp) as Hsteps.
  assert (Hin : o ∈ rows (Flows.store p) TSalesOrder) by (rewrite Ho; apply list_elem_of_here).
  destruct (payments_add_up pool0 p o 500 eq_refl Hsteps store_books Hin HT
    ltac:(unfold max_exact; lia)) as (_ & _ & Hpaid & _).
  exists p, o. split; [exact Hsteps|]. split; [exact Ho|]. split; [exact Hs|].
  apply Hpaid, Hs.
Defined.
End SalesExamples.
