(* ===== verification/KitchenFacts.v ===== *)
(** What a call on a kitchen ticket does: it moves the order along the transitions of the
    ticket, but only a ticket that stays open is reported back. *)

From stdpp Require Import base list strings option relations sets.
From Stdlib Require Import ZArith Lia.
From S2P Require Import Prelude Flows JsNumber JsString DomainEvents CoreDomain MasterData.
From S2P Require Import Lifecycles PurchaseOrderAggregate Decimal Database Costing CostingFacts.
From S2P Require Import Receipts Reservations ReservationFacts InventoryStock StockFacts.
From S2P Require Import FulfillmentFacts Outbox Orders Kitchen SalesFacts.
Import Reservations Fulfillment Kitchen.

Section kitchen.
Context {dec : Decimal} {plat : Platform} {uniq : UniqueIds}.

(** The five methods of the service that move a ticket. *)
Inductive method := Start | Ready | Serve | Withdraw | CallBack.
Definition run_method (m : method) (now : Date) (id tenantId : string) (outletId : option string)
  : OFlow KitchenTicket.t :=
  match m with
  | Start => startCooking now id tenantId outletId
  | Ready => markReady now id tenantId outletId
  | Serve => markServed now id tenantId outletId
  | Withdraw => cancel now id tenantId outletId
  | CallBack => recall now id tenantId outletId
  end.
Definition op_of (m : method) : KitchenTicket.op :=
  match m with
  | Start => KitchenTicket.StartCooking | Ready => KitchenTicket.MarkReady
  | Serve => KitchenTicket.MarkServed | Withdraw => KitchenTicket.Cancel
  | CallBack => KitchenTicket.Recall
  end.
Definition event_of (m : method) (id tenantId : string) (ticketId : string) (o : opt string)
  : KitchenEvent :=
  match m with
  | Start => KitchenCookingStartedEvent ticketId id tenantId o
  | Ready => KitchenReadyEvent ticketId id tenantId o
  | Serve => KitchenServedEvent ticketId id tenantId o
  | Withdraw => KitchenCancelledEvent ticketId id tenantId o None
  | CallBack => KitchenRecalledEvent ticketId id tenantId o None
  end.
Definition release_of (m : method) (now : Date) (id tenantId : string) : option (Tx Db bool) :=
  match m with
  | Withdraw => Some (releaseReservationInTransaction now id tenantId)
  | _ => None
  end.
Lemma run_method_advance m now i tn out :
  run_method m now i tn out =
    advance (op_of m) (event_of m i tn) now i tn (release_of m now i tn) out.
Proof. by destruct m. Qed.
(** The status of the order before and after. *)
Definition moves_to (m : method) (s : OrderStatus) : option OrderStatus :=
  match m, s with
  | Start, OrderPENDING => Some IN_PROGRESS
  | Ready, IN_PROGRESS => Some OrderREADY
  | Serve, OrderREADY => Some OrderCOMPLETED
  | Withdraw, (OrderPENDING | IN_PROGRESS) => Some OrderCANCELLED
  | CallBack, (IN_PROGRESS | OrderREADY) => Some OrderPENDING
  | _, _ => None
  end.

(** *** Tickets *)

Definition ticket_status (t : KitchenTicket.t) : KitchenStatus := KitchenTicket.status (props t).
Definition tenant_in (db : Db) (o : SalesOrderRow) : option TenantRow :=
  List.find (λ t, bool_decide (tn_id t = so_tenantId o)) (rows db TTenant).
Lemma ticket_run now sts i tn out db :
  first_ticket now sts i tn out db =
    match List.find (ticket_in sts i tn out) (rows db TSalesOrder) with
    | None => Ok (None, db)
    | Some o => match tenant_in db o with
                | Some t => Ok (Some (toAggregate now o t), db)
                | None => Err (JsError
        "Inconsistent query result: Field Tenant is required to return data, got `null` instead.")
                end
    end.
Proof.
  unfold first_ticket, to_tickets, mbind, tx_bind, select_first, select. cbn [row] in *.
  destruct (List.find (ticket_in sts i tn out) (rows db TSalesOrder)) as [o|]; [|done].
  assert (E : List.filter (λ _, true) (rows db TTenant) = rows db TTenant).
  { apply filter_every. by apply Forall_forall. }
  cbn [row] in *. rewrite E. unfold tx_lift. simpl.
  change (List.find _ (rows db TTenant)) with (tenant_in db o). by destruct (tenant_in db o).
Qed.

(** What a method makes of a ticket. *)
Lemma run_ticket m now (o : SalesOrderRow) t :
  so_status o ∈ open_statuses →
  match moves_to m (so_status o) with
  | Some s => ∃ b, KitchenTicket.run (op_of m) now (toAggregate now o t) = Ok b ∧
      mapKitchenStatusToOrderStatus (ticket_status b) = s ∧
      KitchenTicket.id (props b) = so_id o ∧ KitchenTicket.outletId (props b) = so_outletId o
  | None => ∃ e, KitchenTicket.run (op_of m) now (toAggregate now o t) = Err e
  end.
Proof.
  intros Hs. unfold toAggregate, open_statuses in *. cbv zeta.
  match goal with |- context [Some (?a && ?b)] => generalize (a && b) end. intros late.
  destruct (so_status o); try (exfalso; set_solver); destruct m; cbn; eauto 10.
Qed.

(** *** The transaction *)

Lemma ticket_in_key sts i tn out (o : SalesOrderRow) :
  ticket_in sts i tn out o = true → so_id o = i ∧ so_tenantId o = tn.
Proof. unfold ticket_in, Orders.in_scope, of_tenant. intros H. by bool_hyps. Qed.
Lemma find_keyed (p : SalesOrderRow → bool) o db :
  keyed TSalesOrder db → o ∈ rows db TSalesOrder → p o = true →
  (∀ x, p x = true → so_id x = so_id o) → List.find p (rows db TSalesOrder) = Some o.
Proof.
  intros Hk Ho Hp Hid. rewrite find_head.
  pose proof (keyed_filter TSalesOrder p o db Hk Ho Hp Hid) as E. cbn [row] in *. by rewrite E.
Qed.

(** What [status_tx] does to the order [o] it is about. *)
Lemma status_tx_run now i tn s rel out db (o : SalesOrderRow) :
  keyed TSalesOrder db → o ∈ rows db TSalesOrder →
  ticket_in open_statuses i tn out o = true →
  (∀ m, rel = Some m → writes stock_side m) →
  match status_tx now i tn s (mapOrderStatusToKitchenStatus (so_status o)) rel out db with
  | Err _ => True
  | Ok (b, db') => b = true ∧ only (TSalesOrder :: stock_side) db db' ∧ keyed TSalesOrder db' ∧
      List.find (has_id TSalesOrder i) (rows db' TSalesOrder) =
        Some (set_so_status (mapKitchenStatusToOrderStatus s) o)
  end.
Proof.
  intros Hk Ho Hin Hrel. pose proof (ticket_in_key _ _ _ _ _ Hin) as [Hi Ht].
  destruct (status_tx _ _ _ _ _ _ _ _) as [[b db']|e] eqn:E; [|done].
  unfold status_tx in E. cbn [row] in E. set (p := λ x : SalesOrderRow, _) in E.
  set (f := set_so_status _) in E.
  assert (Hp : p o = true).
  { unfold ticket_in in Hin. bool_hyps. unfold p. rewrite !andb_true_iff. split_and!; [done| |].
    - apply bool_decide_true. unfold open_statuses in *.
      destruct (so_status o); [done|set_solver|set_solver|set_solver|done|done].
    - rewrite negb_true_iff. by apply bool_decide_false. }
  assert (Hpid : ∀ x, p x = true → so_id x = so_id o).
  { intros x Hx. unfold p, Orders.in_scope, of_tenant in Hx. bool_hyps. congruence. }
  apply tx_bind_ok in E as (n & d & E1 & E). injection E1 as <- <-.
  assert (Hf : List.filter p (rows db TSalesOrder) = [o]) by by apply (keyed_filter TSalesOrder).
  cbn [row] in *. rewrite Hf in E. cbn [length Nat.eqb negb] in E.
  set (d := on TSalesOrder (map_where p f) db) in E.
  assert (W : only stock_side d db' ∧ b = true).
  { apply tx_bind_ok in E as ([] & d2 & E1 & E). apply tx_bind_ok in E as ([] & d3 & E2 & E).
    injection E as <- <-. split; [|done]. eapply only_trans.
    - eapply (writes_when stock_side); [|exact E1]. destruct rel as [m|]; [|apply writes_ret].
      apply writes_bind; [by apply Hrel|intros; apply writes_ret].
    - eapply (writes_when stock_side); [|exact E2]. apply writes_consume_reservations. }
  destruct W as [W ->]. split; [done|].
  assert (Ro : rows db' TSalesOrder = map_where p f (rows db TSalesOrder)).
  { rewrite (W TSalesOrder) by (unfold stock_side; set_solver). unfold d. by rewrite rows_on_same. }
  split_and!.
  - intros t Hn. rewrite (W t) by set_solver. apply rows_on_other. set_solver.
  - unfold keyed. rewrite Ro. rewrite (map_where_keys (row_id TSalesOrder)) by done. exact Hk.
  - rewrite Ro, (find_map_where (A := row TSalesOrder)) by done.
    rewrite (find_id_in TSalesOrder i o db Hk Ho Hi). simpl. by rewrite Hp.
Qed.

(** The ticket that is read back. *)
Lemma read_back i tn sts (o : SalesOrderRow) db :
  keyed TSalesOrder db → List.find (has_id TSalesOrder i) (rows db TSalesOrder) = Some o →
  so_tenantId o = tn → so_kitchenReleasedAt o ≠ None →
  List.find (ticket_in sts i tn None) (rows db TSalesOrder) =
    if bool_decide (so_status o ∈ sts) then Some o else None.
Proof.
  intros Hk Hf Ht Hr. apply find_some_in in Hf as [Ho Hi]. unfold has_id in Hi. bool_hyps.
  assert (Hp : ticket_in sts i tn None o = bool_decide (so_status o ∈ sts)).
  { unfold ticket_in, Orders.in_scope, of_tenant. cbn [row_id] in *.
    rewrite (bool_decide_true (so_id o = i)), (bool_decide_true (so_tenantId o = tn)) by done.
    by rewrite (bool_decide_false (so_kitchenReleasedAt o = None)). }
  case_bool_decide as Hs.
  - apply find_keyed; [done..|]. intros x [-> _]%ticket_in_key. done.
  - destruct (List.find (ticket_in sts i tn None) (rows db TSalesOrder)) as [x|] eqn:E; [|done].
    apply find_some_in in E as [Hx Hpx]. pose proof (ticket_in_key _ _ _ _ _ Hpx) as [Hxi _].
    assert (x = o) as -> by (apply (same_key so_id _ _ _ Hk Hx Ho); cbn [row_id] in *; congruence).
    congruence.
Qed.

(** The ticket the method finds, and the status it gives the order. *)
Definition ticket_for (i tn : string) (out : option string) (db : Db) : option SalesOrderRow :=
  List.find (ticket_in open_statuses i tn out) (rows db TSalesOrder).
Definition move_of (m : method) (i tn : string) (out : option string) (db : Db)
  : option (SalesOrderRow * OrderStatus) :=
  o ← ticket_for i tn out db; s ← moves_to m (so_status o); Some (o, s).
Lemma writes_release_of m now i tn (r : Tx Db bool) :
  release_of m now i tn = Some r → writes stock_side r.
Proof. destruct m; simpl; try done. intros [= <-]. apply writes_release. Qed.

End kitchen.

(** * Theorems *)

(** C9: What a call on a ticket does.  Without an open ticket, or when its status does not
    allow the call, the call throws and nothing changes; so it does when the transaction
    fails.  Otherwise the order gets the new status.  A ticket that is still open is then
    announced and returned.  A ticket that was served or cancelled is not: the query that
    reads it back finds open tickets only, so the call throws after its transaction has
    committed, and its event is never published. *)
Theorem kitchen_call {dec : Decimal} {plat : Platform} {uniq : UniqueIds} {W : Type}
    (answer : Notice → W → option exn * W) (m : method) (now : Date) (i tn : string)
    (out : option string) (db : Db) (w : W) (r : result KitchenTicket.t) (db' : Db) (w' : W) :
  keyed TSalesOrder db → alone answer (run_method m now i tn out) db w = (r, db', w') →
  match move_of m i tn out db with
  | None => is_ok r = false ∧ db' = db ∧ w' = w
  | Some (o, s) =>
      (is_ok r = false ∧ db' = db ∧ w' = w ∧
       (tenant_in db o = None ∨ ∃ k e, mapKitchenStatusToOrderStatus k = s ∧
          status_tx now i tn k (mapOrderStatusToKitchenStatus (so_status o))
            (release_of m now i tn) out db = Err e)) ∨
      only (TSalesOrder :: stock_side) db db' ∧
      List.find (has_id TSalesOrder i) (rows db' TSalesOrder) = Some (set_so_status s o) ∧
      if bool_decide (s ∈ open_statuses) then
        ∃ t threw, ticket_status t = mapOrderStatusToKitchenStatus s ∧
          answer (Subscribers (EvKitchen (event_of m i tn i
                    (Orchestrator.outlet_field (so_outletId o))))) w = (threw, w') ∧
          r = match threw with None => Ok t | Some e => Err e end
      else r = Err (BadRequestException "Failed to persist kitchen ticket") ∧ w' = w
  end.
Proof.
  intros Hk E. rewrite run_method_advance in E. unfold advance, findBySalesOrderId in E.
  rewrite alone_step, ticket_run in E. unfold move_of, ticket_for.
  destruct (List.find (ticket_in open_statuses i tn out) (rows db TSalesOrder)) as [o|] eqn:Hf.
  2: { by injection E as <- <- <-. }
  destruct (tenant_in db o) as [t|] eqn:Hten.
  2: { injection E as <- <- <-. simpl. destruct (moves_to m (so_status o)); simpl; auto 10. }
  pose proof (find_some_in _ _ _ Hf) as [Ho Hin].
  pose proof (ticket_in_key _ _ _ _ _ Hin) as [Hi Ht].
  assert (Hop : so_status o ∈ open_statuses ∧ so_kitchenReleasedAt o ≠ None).
  { unfold ticket_in in Hin. by bool_hyps. }
  pose proof (run_ticket m now o t (proj1 Hop)) as Hrun. simpl.
  change (or_no_ticket (Some (toAggregate now o t))) with (lift (Ok (toAggregate now o t))) in E.
  rewrite !alone_lift in E.
  destruct (moves_to m (so_status o)) as [s|] eqn:Hm; simpl.
  2: { destruct Hrun as [e Hrun]. rewrite Hrun in E. by injection E as <- <- <-. }
  destruct Hrun as (b & Hrun & Hs & Hb & Hbo). rewrite Hrun in E.
  unfold repo_updateStatus in E. rewrite alone_bind, alone_step in E.
  pose proof (status_tx_run now i tn (ticket_status b) (release_of m now i tn) out db o Hk Ho Hin
    (writes_release_of m now i tn)) as Hst.
  change (KitchenTicket.status (props (toAggregate now o t)))
    with (mapOrderStatusToKitchenStatus (so_status o)) in E.
  change (KitchenTicket.status (props b)) with (ticket_status b) in E.
  destruct (status_tx _ _ _ _ _ _ _ _) as [[c d]|e] eqn:Etx.
  2: { injection E as <- <- <-. left. split_and!; [done..|]. right. eauto. }
  destruct Hst as (-> & Hw & Hkd & Hfd). right. rewrite Hs in Hfd.
  rewrite alone_call in E. unfold transaction, findBySalesOrderId in E. rewrite ticket_run in E.
  assert (Hr' : so_kitchenReleasedAt (set_so_status s o) ≠ None) by exact (proj2 Hop).
  rewrite (read_back i tn open_statuses (set_so_status s o) d Hkd Hfd Ht Hr') in E.
  cbn [so_status set_so_status] in E.
  assert (Hten' : tenant_in d (set_so_status s o) = Some t).
  { rewrite <- Hten. unfold tenant_in. rewrite (Hw TTenant); [done|]. unfold stock_side. set_solver. }
  case_bool_decide as Hopen.
  - rewrite Hten' in E. rewrite alone_bind in E. unfold publish in E. rewrite alone_inform in E.
    rewrite Hb, Hbo, Hi in E. destruct (answer _ w) as [threw w1] eqn:Ea.
    split_and!; [destruct threw; by injection E as <- <- <-|destruct threw; by injection E as <- <- <-|].
    exists (toAggregate now (set_so_status s o) t), threw.
    destruct threw; by injection E as <- <- <-.
  - injection E as <- <- <-. done.
Qed.

(** * Examples

    A ticket that is ready is served: the order is completed, and the caller is told that
    it was not. *)
Module KitchenExamples.
Import FixedPoint SamplePlatform SalesExamples.
Local Open Scope string_scope.

Definition ready : SalesOrderRow := set_so_status OrderREADY order.
Definition counter : Db := on TSalesOrder (λ _, [ready]) store0.
Definition told (n : Notice) (w : list Notice) : option exn * list Notice := (None, app w [n]).
Abbreviation served := (alone told (run_method Serve 9%Z "o1" "t1" None) counter []).

Lemma kitchen_call_witness :
  ∃ db', served = (Err (BadRequestException "Failed to persist kitchen ticket"), db', []) ∧
    List.find (has_id TSalesOrder "o1") (rows db' TSalesOrder) =
      Some (set_so_status OrderCOMPLETED ready).
Proof.
  destruct served as [[r db'] w'] eqn:E.
  assert (Hk : keyed TSalesOrder counter) by (apply (bool_decide_unpack _); vm_compute; exact I).
  assert (Hm : move_of Serve "o1" "t1" None counter = Some (ready, OrderCOMPLETED)) by reflexivity.
  pose proof (kitchen_call told Serve 9%Z "o1" "t1" None counter [] r db' w' Hk E) as H.
  rewrite Hm in H. destruct H as [(_ & _ & _ & [Ht|(k & e & Hk' & Ht)])|(_ & Hf & Hr & Hw)].
  - discriminate Ht.
  - assert (Hok : is_ok (status_tx 9%Z "o1" "t1" k READY None None counter) = true)
      by (destruct k; vm_compute; reflexivity).
    change (mapOrderStatusToKitchenStatus (so_status ready)) with READY in Ht.
    cbn [release_of] in Ht. rewrite Ht in Hok. discriminate Hok.
  - exists db'. rewrite Hr, Hw. split; [reflexivity|exact Hf].
Defined.
End KitchenExamples.
