(* ===== verification/OrderFacts.v ===== *)
(** What a new order holds, and what the payment of a retail order does: its stock is
    reserved and committed, it is marked as paid and completed, and delivering the event
    again changes nothing - unless the first delivery was interrupted between the last
    two steps. *)

From stdpp Require Import base list strings option relations sets.
From Stdlib Require Import ZArith Lia.
From S2P Require Import Prelude Flows JsNumber JsString DomainEvents CoreDomain MasterData.
From S2P Require Import Lifecycles PurchaseOrderAggregate Decimal Database Costing CostingFacts.
From S2P Require Import Receipts Reservations ReservationFacts InventoryStock StockFacts.
From S2P Require Import FulfillmentFacts Outbox Orders Kitchen SalesFacts.
Import Reservations Fulfillment Orchestrator.

Section orders.
Context {dec : Decimal} {plat : Platform} {uniq : UniqueIds}.

(** * Reservations of the order *)

(** A committed reservation of the order; movements keep their references. *)
Definition marked (tn oid : string) (db : Db) : Prop :=
  (tn, Some oid, Some COMMITTED_RESERVATION_REF) ∈ map reference (rows db TMovement).
Lemma marked_later tn oid db db' : no_new_reservations db db' → marked tn oid db → marked tn oid db'.
Proof. unfold marked. intros (more & -> & _) H. apply elem_of_app. by left. Qed.
Lemma marked_existing tn oid db :
  marked tn oid db → List.find (has_reservation tn oid) (rows db TMovement) ≠ None.
Proof.
  unfold marked. intros (m & E & Hm)%list_elem_of_fmap Hn.
  apply find_none with (x := m) in Hn; [|by apply list_elem_of_In].
  injection E as E1 E2 E3. unfold has_reservation, refers in Hn. rewrite <- E1, <- E2, <- E3 in Hn.
  by rewrite !bool_decide_true, orb_true_r in Hn.
Qed.

(** Requirements are positive. *)
Lemma requirements_positive b lines :
  Forall (λ r, leb (snd r) (of_Z 0) = false) (buildRequirements b lines).
Proof.
  unfold buildRequirements. generalize (concat (map (line_requirements b) lines)). intros l.
  assert (H : ∀ acc, Forall (λ r, leb (snd r) (of_Z 0) = false) acc →
    Forall (λ r, leb (snd r) (of_Z 0) = false) (fold_left addRequirement l acc)); [|by apply H].
  induction l as [|[i q] l IH]; simpl; intros acc Ha; [done|]. apply IH.
  destruct (negb (truthy i)); simpl; [done|]. destruct (leb q (of_Z 0)) eqn:Hq; [done|].
  clear IH. induction Ha as [|[j x] acc Hx Ha IH]; simpl.
  - repeat constructor. simpl. apply add_not_leb; [by right|done].
  - case_bool_decide; constructor; try done. apply add_not_leb; [by left|done].
Qed.

(** What a successful reservation leaves: a reservation, or an order that needs none. *)
Definition needs_nothing (tn oid : string) (db : Db) : Prop :=
  ∃ o t, List.find (of_tenant oid tn) (rows db TSalesOrder) = Some o ∧
    List.find (has_id TTenant (so_tenantId o)) (rows db TTenant) = Some t ∧
    buildRequirements (tn_businessType t) (so_SalesOrderItem o) = [].
Definition covered (tn oid : string) (db : Db) : Prop :=
  List.find (has_reservation tn oid) (rows db TMovement) ≠ None ∨ needs_nothing tn oid db.

Lemma needs_nothing_only ts tn oid db db' :
  only ts db db' → TSalesOrder ∉ ts → TTenant ∉ ts →
  needs_nothing tn oid db → needs_nothing tn oid db'.
Proof. intros Ho H1 H2 (o & t & H). exists o, t. by rewrite !Ho. Qed.

Lemma reserve_covers now tn oid db b db1 :
  keyed TStock db → Forall (λ s, whole (st_quantity s)) (rows db TStock) → whole_requirements db →
  reserve_tx now oid tn db = Ok (b, db1) → b = true ∧ covered tn oid db1.
Proof.
  intros Hk Hw Hr E. pose proof (writes_reserve now oid tn db b db1 E) as Hon.
  assert (b = true) as ->.
  { unfold reserve_tx in E. apply tx_bind_ok in E as (n & d & E1 & E).
    apply tx_bind_ok in E as (u & d1 & E2 & E). apply tx_bind_ok in E as (x & d2 & E3 & E).
    destruct x; [by injection E|]. apply tx_bind_ok in E as ([o t] & d3 & E4 & E).
    apply tx_bind_ok in E as (u' & d4 & E5 & E). by injection E. }
  split; [done|]. destruct (List.find (has_reservation tn oid) (rows db TMovement)) as [m|] eqn:Hm.
  - left. unfold reserve_tx in E. apply tx_bind_ok in E as (n & d & [= _ <-] & E).
    apply tx_bind_ok in E as ([] & d1 & [_ ->]%tx_lift_ok & E).
    apply tx_bind_ok in E as (x & d2 & [= <- <-] & E). cbn [row] in *. rewrite Hm in E.
    injection E as <-. by rewrite Hm.
  - destruct (reserve_tx_ok now oid tn db db1 Hk Hw Hr Hm E) as (o & t & ts & Ho & Ht & Hacc).
    pose proof (requirements_positive (tn_businessType t) (so_SalesOrderItem o)) as Hpos.
    destruct Hacc as [[_ (news & Rm & F & _) _ _] _ _ _ Ham].
    destruct (buildRequirements (tn_businessType t) (so_SalesOrderItem o)) as [|r reqs] eqn:Hreq.
    + right. eapply (needs_nothing_only stock_side); [exact Hon|unfold stock_side; set_solver..|].
      by exists o, t.
    + left. destruct ts as [|tk ts].
      { apply Forall_cons in Ham as [Ham _]. apply Forall_cons in Hpos as [Hpos _].
        rewrite Ham in Hpos. by rewrite leb_refl in Hpos by apply of_Z_not_nan. }
      inversion F as [|? m ? news' Hmv _ E1 E2]. subst news. intros Hn.
      apply find_none with (x := m) in Hn.
      2: { cbn [row] in *. rewrite Rm. apply in_or_app. right. by left. }
      destruct Hmv as (M1 & _). unfold has_reservation in Hn. by rewrite M1 in Hn.
Qed.

(** The commit settles the order's reservations and leaves them committed. *)
Lemma claim_rows tn oid f r db db1 :
  claim tn oid f db = Ok (r, db1) →
  ∃ p, rows db1 TMovement = map_where p f (rows db TMovement).
Proof.
  unfold claim. intros E. apply tx_bind_ok in E as (rs & d & [= <- <-] & E).
  assert (Hid : ∃ p, rows db TMovement = map_where p f (rows db TMovement)).
  { exists (λ _, false). symmetry. by apply map_where_id. }
  case_match; [by injection E as _ <-|]. apply tx_bind_ok in E as (n & d & E1 & E).
  assert (Hd : ∃ p, rows d TMovement = map_where p f (rows db TMovement)).
  { injection E1 as _ <-. rewrite rows_on_same. eauto. }
  case_match; [by injection E as _ <-|].
  apply tx_bind_ok in E as (u & d2 & [_ ->]%tx_lift_ok & E). by injection E as _ <-.
Qed.
Lemma claim_marks tn oid ty r db db1 :
  claim tn oid (commit_movement ty) db = Ok (r, db1) →
  List.find (has_reservation tn oid) (rows db TMovement) ≠ None → marked tn oid db1.
Proof.
  intros E Hm. pose proof (claim_clears tn oid (commit_movement ty) db r db1 ltac:(done) E)
    as (Hset & _ & _). apply claim_rows in E as [p R].
  destruct (List.find (has_reservation tn oid) (rows db TMovement)) as [m|] eqn:Hf; [|done].
  apply find_some_in in Hf as [Hin Hres]. unfold ReservationFacts.settled in Hset. apply filter_nil_iff in Hset.
  unfold marked, map_where in *. cbn [row] in *. rewrite R in Hset |- *.
  apply list_elem_of_fmap. exists (if p m then commit_movement ty m else m).
  split; [|by apply (list_elem_of_fmap_2 (λ x, if p x then commit_movement ty x else x))].
  rewrite Forall_map, Forall_forall in Hset. specialize (Hset m Hin). simpl in Hset.
  unfold has_reservation in Hres. apply orb_true_iff in Hres. unfold reference.
  destruct (p m); [|destruct Hres as [Hres|Hres]; [by rewrite Hres in Hset|]];
    unfold refers in Hres; try destruct Hres as [Hres|Hres]; bool_hyps; simpl; congruence.
Qed.
Lemma commit_settles now tn oid b db db1 :
  commit_tx now oid tn db = Ok (b, db1) →
  ReservationFacts.settled tn oid db1 ∧ (covered tn oid db → marked tn oid db1 ∨ needs_nothing tn oid db1).
Proof.
  intros E. pose proof (writes_commit now oid tn db b db1 E) as Hon. unfold commit_tx in E.
  apply tx_bind_ok in E as ([o t] & d & E1 & E). apply load_order_ok in E1 as (-> & _).
  apply tx_bind_ok in E as (r & d & E1 & E).
  assert (Hlater : no_new_reservations d db1).
  { destruct r as [ms|]; [|by injection E as _ <-].
    apply tx_bind_ok in E as (u & d2 & E2 & E). injection E as _ <-.
    eapply (respects_for_each no_new_reservations); [|exact E2]. intros m. apply keeps_commit_cost. }
  split.
  - eapply settled_later; [exact Hlater|]. eapply claim_clears; [|exact E1]. done.
  - intros [Hm|Hn].
    + left. eapply marked_later; [exact Hlater|]. by eapply claim_marks.
    + right. eapply (needs_nothing_only stock_side); [exact Hon|unfold stock_side; set_solver..|done].
Qed.

(** * The payment of a retail order *)

(** The stock of the order is settled for good: nothing is reserved, and what the order
    needs was committed. *)
Definition paid_up (tn oid : string) (db : Db) : Prop :=
  ReservationFacts.settled tn oid db ∧ (marked tn oid db ∨ needs_nothing tn oid db).
(** Orders that only changed their status. *)
Definition restated (db db' : Db) : Prop :=
  only [TSalesOrder] db db' ∧
  ∃ p s, rows db' TSalesOrder = map_where p (set_so_status s) (rows db TSalesOrder).
Lemma restated_on p s db : restated db (on TSalesOrder (map_where p (set_so_status s)) db).
Proof. split; [by apply only_on; set_solver|]. exists p, s. by rewrite rows_on_same. Qed.
Lemma restated_paid_up tn oid db db' : restated db db' → paid_up tn oid db → paid_up tn oid db'.
Proof.
  intros [Ho (p & s & R)] [Hs Hm]. unfold paid_up, ReservationFacts.settled, marked in *.
  rewrite (Ho TMovement) by set_solver. split; [done|]. destruct Hm as [Hm|(o & t & H1 & H2 & H3)]; [by left|].
  right. exists (if p o then set_so_status s o else o), t.
  rewrite (Ho TTenant) by set_solver. cbn [row] in *. rewrite R.
  rewrite (find_map_where (A := SalesOrderRow)) by done. rewrite H1. simpl. by destruct (p o).
Qed.

Lemma keeps_issue_stock now tn o ty what i x :
  respects no_new_reservations (issue_stock now tn o ty what i x).
Proof.
  unfold issue_stock.
  apply respects_bind; [exact _|eapply (keeps_references []); [solve_writes|set_solver]|intros _].
  apply respects_bind; [exact _|eapply (keeps_references []); [solve_writes|set_solver]|intros st].
  apply respects_bind; [exact _|eapply (keeps_references []); [solve_writes|set_solver]|intros _].
  apply respects_bind; [exact _|eapply (keeps_references [TStock]); [solve_writes|set_solver]|intros n].
  apply respects_bind; [exact _|eapply (keeps_references []); [solve_writes|set_solver]|intros _].
  apply respects_bind; [exact _| |intros m].
  { intros db m db' E. apply (insert_rows TMovement) in E as [-> R]. eexists.
    cbn [row] in *. rewrite R, map_app. split; [reflexivity|]. by repeat constructor. }
  apply respects_bind; [exact _|apply keeps_issue|intros c].
  eapply (keeps_references []); [solve_writes|set_solver].
Qed.
Lemma fulfilled_paid_up now tn oid db b db' :
  fulfillRetail now oid tn db = Ok (b, db') → paid_up tn oid db →
  paid_up tn oid db' ∧ (∃ o, is_order tn oid db' OrderCOMPLETED o) ∧
  rows db' TTenant = rows db TTenant.
Proof.
  intros E Hp. apply (fulfillment_cases now tn RETAIL oid) in E as [(_ & -> & Ho)|(n & _ & Ht)];
    [done| |done].
  assert (Hc : ∃ o, is_order tn oid db' OrderCOMPLETED o) by by eapply taken_completed.
  destruct Ht as (o & d & _ & E1 & [= _ <-]).
  assert (Ho : only fulfillment_tables db d) by by eapply needs_writes.
  assert (Hl : no_new_reservations db d).
  { eapply (respects_for_each no_new_reservations); [|exact E1]. intros x. apply keeps_issue_stock. }
  split_and!; [|done|].
  - eapply restated_paid_up; [apply restated_on|]. destruct Hp as [H1 H2]. split.
    + by eapply settled_later.
    + destruct H2 as [H2|H2]; [left; by eapply marked_later|right].
      eapply (needs_nothing_only fulfillment_tables); [exact Ho|unfold fulfillment_tables; set_solver..|done].
  - rewrite rows_on_other by done. apply Ho. unfold fulfillment_tables. set_solver.
Qed.

(** ** The flows *)

Context {W : Type} (answer : Notice → W → option exn * W).
(** No other subscriber throws. *)
Definition silent : Prop := ∀ n w, fst (answer n w) = None.

Lemma order_found i tn db :
  Orders.findOne i tn None db = Ok (List.find (of_tenant i tn) (rows db TSalesOrder), db).
Proof.
  unfold Orders.findOne, select_first. cbn [row]. apply (f_equal (λ x, Ok (x, db))).
  induction (rows db TSalesOrder) as [|o l IH]; simpl; [done|]. rewrite IH.
  unfold Orders.in_scope. simpl. by rewrite andb_true_r.
Qed.
Lemma resolve_run tn db :
  resolveTenantBusinessType tn db =
    match List.find (has_id TTenant tn) (rows db TTenant) with
    | Some t => Ok (tn_businessType t, db)
    | None => Err (BadRequestException "Tenant not found")
    end.
Proof.
  unfold resolveTenantBusinessType, load_row, mbind, tx_bind, select_first.
  set (f := @List.find (row TTenant) _ _).
  change (@List.find TenantRow (has_id TTenant tn) (rows db TTenant)) with f. by destruct f.
Qed.
Lemma inform_silent n db w r db' w' :
  alone answer (inform n) db w = (r, db', w') → silent → r = Ok tt ∧ db' = db.
Proof.
  intros E Hs. rewrite alone_inform in E. specialize (Hs n w). destruct (answer n w) as [x w1].
  simpl in Hs. subst x. by injection E as <- <- _.
Qed.

(** [markPaid] restates the order. *)
Lemma markPaid_restated i tn db w o db' w' :
  alone answer (Orders.markPaid i tn) db w = (Ok o, db', w') → restated db db'.
Proof.
  unfold Orders.markPaid, Orders.through, Orders.findOneAggregate. intros E. rewrite alone_step in E.
  rewrite (tx_bind_run _ _ _ _ _ (order_found i tn db)) in E. unfold mret, tx_ret in E.
  destruct (List.find (of_tenant i tn) (rows db TSalesOrder)) as [x|]; [|done].
  cbn [fmap option_fmap option_map] in E. rewrite alone_lift in E. destruct (Order.markPaid _) as [a|e]; [|done].
  unfold Orders.repo_markPaid, Orders.updated_order in E. rewrite alone_bind, alone_step in E.
  cbn [update_many] in E.
  set (p := λ o : SalesOrderRow, _) in E. set (d := on TSalesOrder _ db) in E.
  assert (Hr : restated db d) by apply restated_on. clearbody d.
  destruct (negb _); [done|]. rewrite alone_call in E. unfold transaction in E.
  rewrite order_found in E. destruct (List.find _ _) as [y|]; [|done]. by injection E as _ <- _.
Qed.

Lemma complete_paid_up now oid tn db w db' w' t :
  silent → List.find (has_id TTenant tn) (rows db TTenant) = Some t → tn_businessType t = RETAIL →
  keyed TStock db → Forall (λ s, whole (st_quantity s)) (rows db TStock) → whole_requirements db →
  alone answer (complete_retail now oid tn) db w = (Ok tt, db', w') →
  paid_up tn oid db' ∧ (∃ o, is_order tn oid db' OrderCOMPLETED o) ∧
  rows db' TTenant = rows db TTenant.
Proof.
  intros Hsil Ht Hb Hk Hw Hr E. unfold complete_retail in E.
  rewrite alone_step in E. destruct (reserve_tx now oid tn db) as [[b db1]|e] eqn:E1; [|done].
  pose proof (writes_reserve now oid tn db b db1 E1) as O1.
  apply reserve_covers in E1 as [-> Hc]; [|done..].
  rewrite alone_step in E. destruct (commit_tx now oid tn db1) as [[b db2]|e] eqn:E2; [|done].
  pose proof (writes_commit now oid tn db1 b db2 E2) as O2.
  apply commit_settles in E2 as [Hset Hm].
  assert (Hp : paid_up tn oid db2) by (split; auto). clear Hset Hm Hc.
  assert (Hten : rows db2 TTenant = rows db TTenant).
  { rewrite O2, O1 by (unfold stock_side; set_solver). done. }
  apply alone_bind_ok in E as (x & d & w1 & E3 & E).
  unfold Orders.findOneByTenant in E3. rewrite alone_call in E3. unfold transaction in E3.
  rewrite order_found in E3. injection E3 as <- <- <-.
  apply alone_bind_ok in E as ([] & db3 & w1 & E3 & E).
  assert (paid_up tn oid db3 ∧ rows db3 TTenant = rows db TTenant) as [Hp3 Hten3].
  { destruct (is_completed _).
    - by injection E3 as <- _.
    - apply alone_bind_ok in E3 as (o & d & w2 & E3 & E4). injection E4 as <- _.
      apply markPaid_restated in E3. split; [by eapply restated_paid_up|].
      rewrite (proj1 E3) by set_solver. done. }
  apply alone_bind_ok in E as (f & db4 & w2 & E4 & E). unfold fulfill in E4.
  rewrite alone_step, resolve_run in E4. rewrite Hten3, Ht, Hb in E4. rewrite alone_call in E4.
  unfold transaction in E4. destruct (fulfillRetail now oid tn db3) as [[b4 d4]|e] eqn:E5; [|done].
  injection E4 as -> -> ->. apply fulfilled_paid_up in E5 as (Hp4 & Hc4 & Ht4); [|done].
  assert (db' = db4) as ->.
  { apply alone_bind_ok in E as ([] & d & w3 & E6 & E). apply inform_silent in E6 as [_ ->]; [|done].
    destruct f; [|by injection E as <- _].
    apply alone_bind_ok in E as ([] & d & w4 & E6 & E). apply inform_silent in E6 as [_ ->]; [|done].
    by apply inform_silent in E as [_ ->]. }
  split_and!; [done..|congruence].
Qed.

(** Once more. *)
Lemma reserve_again now oid tn db o :
  paid_up tn oid db → is_order tn oid db OrderCOMPLETED o → reserve_tx now oid tn db = Ok (true, db).
Proof.
  intros [_ Hm] [Ho _]. unfold reserve_tx.
  assert (Hn : (length (List.filter (of_tenant oid tn) (rows db TSalesOrder)) =? 0) = false).
  { apply find_some_in in Ho as [Hin Hp].
    assert (In o (List.filter (of_tenant oid tn) (rows db TSalesOrder))) as Hi.
    { apply filter_In. by rewrite <- list_elem_of_In. }
    by destruct (List.filter (of_tenant oid tn) (rows db TSalesOrder)). }
  unfold count, select, select_first. unfold mbind, tx_bind. cbn [row] in *. rewrite Hn. simpl.
  destruct (List.find (has_reservation tn oid) (rows db TMovement)) eqn:Hf; [done|].
  destruct Hm as [Hm|(o' & t & H1 & H2 & H3)]; [by apply marked_existing in Hm|].
  unfold load_order, load_row, mbind, tx_bind, select_first. cbn [row] in *. rewrite H1. simpl.
  cbn [row_id has_id] in *. rewrite H2. simpl. by rewrite H3.
Qed.

Lemma commit_again now oid tn db o t :
  paid_up tn oid db → is_order tn oid db OrderCOMPLETED o →
  List.find (has_id TTenant tn) (rows db TTenant) = Some t →
  commit_tx now oid tn db = Ok (false, db).
Proof.
  intros [Hs _] [Ho _] Ht. unfold commit_tx.
  assert (E : load_order oid tn db = Ok (o, t, db)).
  { pose proof (find_some_in _ _ _ Ho) as [_ Hp]. unfold of_tenant in Hp. bool_hyps.
    unfold load_order, load_row, mbind, tx_bind, select_first. cbn [row] in *. rewrite Ho. simpl.
    subst tn. cbn [row] in *. by rewrite Ht. }
  rewrite (tx_bind_run _ _ _ _ _ E). cbv iota beta.
  by rewrite (tx_bind_run _ _ _ _ _ (claim_settled _ _ _ _ Hs)).
Qed.
Lemma complete_again now oid tn db w r db' w' t o :
  silent → List.find (has_id TTenant tn) (rows db TTenant) = Some t → tn_businessType t = RETAIL →
  paid_up tn oid db → is_order tn oid db OrderCOMPLETED o →
  alone answer (complete_retail now oid tn) db w = (r, db', w') → r = Ok tt ∧ db' = db.
Proof.
  intros Hsil Ht Hb Hp Ho E. unfold complete_retail in E.
  rewrite alone_step, (reserve_again _ _ _ _ o) in E by done.
  rewrite alone_step, (commit_again _ _ _ _ o t) in E by done.
  unfold Orders.findOneByTenant in E. rewrite alone_step, order_found in E.
  destruct Ho as [Ho Hc]. rewrite Ho in E. unfold is_completed in E. rewrite bool_decide_true in E by done.
  rewrite alone_bind in E. change (alone answer (mret tt) db w) with (@Ok unit tt, db, w) in E.
  cbv iota beta in E. unfold fulfill in E. rewrite alone_bind, alone_step, resolve_run, Ht, Hb in E.
  rewrite alone_call in E. unfold transaction in E.
  rewrite (fulfillment_completed now tn RETAIL oid _ db o eq_refl (conj Ho Hc)) in E.
  rewrite alone_bind in E. destruct (alone answer (publish _) db w) as [[x d] w1] eqn:E1.
  apply inform_silent in E1 as [-> ->]; [|done]. by injection E as <- <- _.
Qed.

(** The order that is already paid. *)
Lemma markPaid_refused i tn db w r db' w' o :
  keyed TSalesOrder db → is_order tn i db PAID o →
  alone answer (Orders.markPaid i tn) db w = (r, db', w') →
  is_ok r = false ∧ only [] db db' ∧ w' = w.
Proof.
  intros Hk [Ho Hp] E. unfold Orders.markPaid, Orders.through, Orders.findOneAggregate in E.
  rewrite alone_step in E. rewrite (tx_bind_run _ _ _ _ _ (order_found i tn db)) in E.
  unfold mret, tx_ret in E. rewrite Ho in E. cbn [fmap option_fmap option_map] in E.
  rewrite alone_lift in E. destruct (Order.markPaid _) as [a|e].
  2: { injection E as <- <- <-. split_and!; [done|apply only_refl|done]. }
  unfold Orders.repo_markPaid, Orders.updated_order in E. rewrite alone_bind, alone_step in E.
  cbn [update_many] in E. set (p := λ o : SalesOrderRow, _) in E.
  assert (Hn : Forall (λ x, p x = false) (rows db TSalesOrder)).
  { apply Forall_forall. intros x Hx. apply not_true_iff_false. intros Hpx.
    apply find_some_in in Ho as [Hin Hpo]. unfold p, of_tenant in Hpx, Hpo. bool_hyps.
    assert (x = o) as -> by (apply (same_key so_id _ _ _ Hk Hx Hin); congruence).
    rewrite Hp in *. unfold Orders.payable in *. set_solver. }
  unfold update_many in E. rewrite filter_none in E by done. injection E as <- <- <-.
  split_and!; [done| |done]. intros t _. destruct (decide (t = TSalesOrder)) as [->|Hne].
  - rewrite rows_on_same. apply (map_where_id (A := SalesOrderRow)).
    intros x Hx Hpx. rewrite Forall_forall in Hn. by rewrite Hn in Hpx.
  - by rewrite rows_on_other.
Qed.

End orders.

(** * A new order *)

Section creation.
Context {dec : Decimal} {plat : Platform} {uniq : UniqueIds}.

(** The line of an item: its product's price, times the quantity. *)
Definition item_of (p : ProductRow) (i : OrderItemDto) : Order.OrderItemDetails :=
  {| Order.productId := pd_id p; Order.quantity := od_quantity i; Order.price := pd_price p;
     Order.subtotal := mul (pd_price p) (od_quantity i) |}.
Definition sum_up (t : number) (xs : list number) : number := fold_left add xs t.
Lemma price_items_ok products its t xs total :
  price_items products its t = Ok (xs, total) →
  Forall2 (λ i x, ∃ p, p ∈ products ∧ pd_id p = od_productId i ∧ x = item_of p i) its xs ∧
  total = sum_up t (map Order.subtotal xs).
Proof.
  revert t xs. induction its as [|i its IH]; simpl; intros t xs E; [by injection E as <- <-|].
  destruct (List.find _ products) as [p|] eqn:Hp; [|done].
  destruct (price_items products its _) as [[ys tot]|e] eqn:E1; [|done]. simpl in E.
  injection E as <- <-. apply IH in E1 as [H1 H2]. split; [|done]. constructor; [|done].
  apply find_some_in in Hp as [Hin Hid]. bool_hyps. eauto.
Qed.
Lemma lines_of_ok products xs ls :
  Orders.lines_of products xs = Ok ls →
  Forall2 (λ x l, ∃ p, p ∈ products ∧ pd_id p = Order.productId x ∧ l = Orders.line_of p x) xs ls.
Proof.
  unfold Orders.lines_of. intros E%map_result_Forall2. eapply Forall2_impl; [exact E|].
  intros x l. simpl. destruct (List.find _ products) as [p|] eqn:Hp; [|done]. intros [= <-].
  apply find_some_in in Hp as [Hin Hid]. bool_hyps. eauto.
Qed.
(** As many products as items: the items name different products. *)
Lemma products_differ tn ids (products : list ProductRow) :
  NoDup (map pd_id products) → length (List.filter (Orders.product_in tn ids) products) = length ids →
  NoDup ids.
Proof.
  intros Hk Hl. apply NoDup_ListNoDup.
  set (ps := List.filter (Orders.product_in tn ids) products) in *.
  apply NoDup_incl_NoDup with (l := map pd_id ps).
  - apply NoDup_ListNoDup. subst ps. clear Hl. induction products as [|p ps IH]; simpl; [constructor|].
    apply NoDup_cons in Hk as [Hn Hk]. destruct (Orders.product_in tn ids p); [|by apply IH].
    simpl. apply NoDup_cons. split; [|by apply IH]. intros (q & Eq & Hq)%list_elem_of_fmap.
    apply Hn. apply list_elem_of_fmap. exists q. split; [done|].
    apply list_elem_of_In in Hq. apply filter_In in Hq as [Hq _]. by apply list_elem_of_In.
  - rewrite length_map, Hl. done.
  - intros i (p & <- & Hp)%in_map_iff. subst ps. apply filter_In in Hp as [_ Hp].
    unfold Orders.product_in in Hp. bool_hyps. by apply list_elem_of_In.
Qed.

Lemma find_new {A} (p : A → bool) l x :
  Forall (λ y, p y = false) l → p x = true → List.find p (l ++ [x]) = Some x.
Proof. intros Hl Hx. induction Hl as [|y l Hy _ IH]; simpl; [by rewrite Hx|by rewrite Hy]. Qed.

(** Creating the row. *)
Lemma createOrder_ok now tn out n total xs m db o db' :
  Orders.createOrder_tx now tn out n total xs m db = Ok (o, db') →
  ∃ cur ls, Orders.lines_of (rows db TProduct) xs = Ok ls ∧ is_empty cur = false ∧
    Forall (λ x, Orders.numbered tn n x = false) (rows db TSalesOrder) ∧
    only [TSalesOrder] db db' ∧ rows db' TSalesOrder = rows db TSalesOrder ++ [o] ∧
    o = {| so_id := cuid (serial db); so_tenantId := tn; so_outletId := out; so_orderNumber := n;
           so_status := OrderPENDING; so_orderMode := m; so_paymentStatus := PaymentPending;
           so_paidAmount := of_Z 0; so_kitchenReleasedAt := None;
           so_kitchenPriority := of_Z 0; so_totalAmount := total; so_currencyCode := Some cur;
           so_createdAt := now; so_SalesOrderItem := ls |}.
Proof.
  unfold Orders.createOrder_tx. intros E. apply tx_bind_ok in E as (cur & d & E1 & E).
  assert (d = db ∧ is_empty cur = false) as [-> Hcur].
  { unfold Orders.base_currency in E1. apply tx_bind_ok in E1 as (t & d1 & [= <- <-] & E1).
    destruct (_ ≫= _) as [c|]; [|done]. destruct (is_empty c) eqn:Hc; [done|].
    by injection E1 as <- <-. }
  apply tx_bind_ok in E as (c & d & [= <- <-] & E).
  apply tx_bind_ok in E as (u & d & E2 & E). apply tx_lift_ok in E2 as [E2 ->].
  apply throw_if_ok, negb_false_iff, Nat.eqb_eq, nil_length_inv in E2.
  apply tx_bind_ok in E as (ps & d & [= <- <-] & E).
  apply tx_bind_ok in E as (ls & d & E3 & E). apply tx_lift_ok in E3 as [E3 ->].
  exists cur, ls. split_and!; [|done|by apply filter_nil_iff| | |].
  - rewrite <- E3. f_equal. symmetry. apply filter_every. by apply Forall_forall.
  - refine (only_insert TSalesOrder [TSalesOrder] _ _ _ _ _ E). set_solver.
  - by apply (insert_rows TSalesOrder) in E as [_ R].
  - by apply (insert_rows TSalesOrder) in E as [-> _].
Qed.

End creation.

(** * Theorems *)

(** C8: The payment of a retail order is handled once.  For a tenant in retail, a store
    with whole quantities and subscribers that do not throw, let the handler of the
    payment event return.  When the event says that the order is not fully paid yet (a
    part of an open bill), nothing has happened.  Otherwise the order is completed, none of
    its reservations is active, and the stock it needs was committed or it needs none.
    When the event is delivered again, in both cases the handler returns and nothing
    changes. *)
Theorem payment_redelivered {dec : Decimal} {plat : Platform} {uniq : UniqueIds} {W : Type}
    (answer : Notice → W → option exn * W) (now now' : Date) (oid tn : string)
    (full : option bool) (db db1 db2 : Db) (w w1 w2 w3 : W) (r : result unit) (t : TenantRow) :
  silent answer → keyed TStock db → Forall (λ s, whole (st_quantity s)) (rows db TStock) →
  whole_requirements db → List.find (has_id TTenant tn) (rows db TTenant) = Some t →
  tn_businessType t = RETAIL →
  alone answer (handlePaymentSuccess now oid tn full) db w = (Ok tt, db1, w1) →
  alone answer (handlePaymentSuccess now' oid tn full) db1 w2 = (r, db2, w3) →
  r = Ok tt ∧ db2 = db1 ∧
  (full = Some false → db1 = db ∧ w1 = w ∧ w3 = w2) ∧
  (full ≠ Some false →
    (∃ o, is_order tn oid db1 OrderCOMPLETED o) ∧ ReservationFacts.settled tn oid db1 ∧
    (marked tn oid db1 ∨ needs_nothing tn oid db1)).
Proof.
  intros Hsil Hk Hw Hr Ht Hb E1 E2. unfold handlePaymentSuccess in E1, E2.
  case_bool_decide as Hf; [injection E1 as <- <-; by injection E2 as <- <- <-|].
  rewrite alone_step, resolve_run, Ht, Hb in E1.
  eapply complete_paid_up in E1 as (Hp & [o Ho] & Hten); [|done..].
  rewrite alone_step, resolve_run, Hten, Ht, Hb in E2.
  pose proof Hten as Ht1. eapply complete_again in E2; [|done| |done..]; [|by rewrite Hten].
  destruct Hp as [H1 H2]. destruct E2 as [-> ->].
  split_and!; [done..|intros _; split_and!; [by exists o|done..]].
Qed.

(** C10: An order that is left paid but not completed stays so.  For a tenant in retail,
    every further delivery of the payment event (but that of a partial payment) fails, and
    it leaves the order as it is: the handler marks the order as paid again, which only
    orders before payment allow. *)
Theorem paid_order_stuck {dec : Decimal} {plat : Platform} {uniq : UniqueIds} {W : Type}
    (answer : Notice → W → option exn * W) (now : Date) (oid tn : string)
    (full : option bool) (db db1 : Db) (w w1 : W) (r : result unit) (t : TenantRow)
    (o : SalesOrderRow) :
  keyed TSalesOrder db → is_order tn oid db PAID o →
  List.find (has_id TTenant tn) (rows db TTenant) = Some t →
  tn_businessType t = RETAIL → full ≠ Some false →
  alone answer (handlePaymentSuccess now oid tn full) db w = (r, db1, w1) →
  is_ok r = false ∧ rows db1 TSalesOrder = rows db TSalesOrder ∧ w1 = w.
Proof.
  intros Hk Ho Ht Hb Hf E. unfold handlePaymentSuccess in E.
  rewrite bool_decide_false in E by done. rewrite alone_step, resolve_run, Ht, Hb in E.
  unfold complete_retail in E. rewrite alone_step in E.
  destruct (reserve_tx now oid tn db) as [[b d1]|e] eqn:E1; [|by injection E as <- <- <-].
  apply writes_reserve in E1. rewrite alone_step in E.
  destruct (commit_tx now oid tn d1) as [[b' d2]|e] eqn:E2.
  2: { injection E as <- <- <-. split_and!; [done| |done]. apply E1. unfold stock_side. set_solver. }
  apply writes_commit in E2. unfold Orders.findOneByTenant in E. rewrite alone_step, order_found in E.
  assert (R : rows d2 TSalesOrder = rows db TSalesOrder).
  { rewrite E2, E1 by (unfold stock_side; set_solver). done. }
  cbn [row] in *. rewrite R in E. destruct Ho as [Ho Hp]. rewrite Ho in E. unfold is_completed in E.
  rewrite Hp in E. cbn [bool_decide] in E. rewrite alone_bind in E.
  rewrite bool_decide_false in E by done. rewrite alone_bind in E.
  destruct (alone answer (Orders.markPaid oid tn) d2 w) as [[x d3] w2] eqn:E3.
  pose proof E3 as E4. apply (markPaid_refused answer _ _ _ _ _ _ _ o) in E4 as (Hx & H3 & ->).
  2: { unfold keyed. cbn [row] in *. by rewrite R. }
  2: { split; [|done]. cbn [row] in *. by rewrite R. }
  destruct x as [x|e]; [done|]. injection E as <- <- <-.
  split_and!; [done| |done]. rewrite (H3 TSalesOrder) by set_solver. exact R.
Qed.

(** A regular order is created as it was asked for.  When the call returns an order,
    the items name different products of the tenant; the order has a line per item, with
    the price of its product and the price times the quantity; its total is the sum of
    the lines; it is pending and unpaid under a number the tenant had not used; and
    adding it is all that happened to the store. *)
Theorem order_created {dec : Decimal} {plat : Platform} {uniq : UniqueIds} {W : Type}
    (answer : Notice → W → option exn * W) (now : Date) (tn : string) (out : option string)
    (its : list OrderItemDto) (mode : option OrderMode) (db db' : Db) (w w' : W)
    (o : SalesOrderRow) :
  silent answer → sound db → mode ≠ Some OPEN_BILL →
  alone answer (create now tn out its mode) db w = (Ok o, db', w') →
  NoDup (map od_productId its) ∧
  Forall2 (λ i l, ∃ p, p ∈ rows db TProduct ∧ pd_tenantId p = tn ∧ pd_id p = od_productId i ∧
    l = Orders.line_of p (item_of p i)) its (so_SalesOrderItem o) ∧
  so_totalAmount o = sum_up (of_Z 0) (map line_subtotal (so_SalesOrderItem o)) ∧
  so_tenantId o = tn ∧ so_outletId o = out ∧ so_status o = OrderPENDING ∧
  so_orderMode o = REGULAR ∧ so_paymentStatus o = PaymentPending ∧ so_paidAmount o = of_Z 0 ∧
  Forall (λ x, Orders.numbered tn (so_orderNumber o) x = false) (rows db TSalesOrder) ∧
  rows db' TSalesOrder = rows db TSalesOrder ++ [o] ∧ only [TSalesOrder] db db'.
Proof.
  intros Hsil Hs Hmode E. unfold create in E. rewrite alone_step in E.
  cbn [Orders.findProductsByIds select] in E. cbn [row] in E.
  set (ids := map od_productId its) in *.
  set (ps := List.filter (Orders.product_in tn ids) (rows db TProduct)) in *.
  rewrite alone_lift in E. destruct (length ps =? length its) eqn:Hl; [|done]. simpl throw_if in E.
  cbv iota beta in E. rewrite alone_lift in E.
  destruct (price_items ps its (of_Z 0)) as [[xs total]|e] eqn:Hx; [|done]. cbv iota beta in E.
  rewrite alone_step in E. destruct (Orders.createOrder_tx _ _ _ _ _ _ _ _) as [[o1 d]|e] eqn:Ho; [|done].
  apply createOrder_ok in Ho as (cur & ls & Hls & _ & Hn & Hon & Ro & Eo).
  assert (Hd : db' = d ∧ o1 = o).
  { apply alone_bind_ok in E as ([] & d1 & w1 & E1 & E). unfold publish_handled in E1.
    apply alone_bind_ok in E1 as ([] & d2 & w2 & E2 & E1).
    apply inform_silent in E2 as [_ ->]; [|done].
    apply alone_bind_ok in E1 as ([] & d3 & w3 & E3 & E1).
    apply inform_silent in E1 as [_ ->]; [|done].
    assert (d3 = d) as ->.
    { unfold handleOrderCreated, Orders.findOneByTenant in E3. rewrite alone_step, order_found in E3.
      assert (Hf : List.find (of_tenant (so_id o1) tn) (rows d TSalesOrder) = Some o1).
      { cbn [row] in *. rewrite Ro. apply find_new.
        - apply Forall_forall. intros x Hx'. unfold of_tenant. rewrite Eo. cbn [so_id so_tenantId].
          rewrite (bool_decide_false (so_id x = _)); [done|]. intros Ei.
          apply (proj2 (Hs TSalesOrder) (serial db)); [lia|]. rewrite <- Ei.
          by apply (list_elem_of_fmap_2 so_id).
        - unfold of_tenant. rewrite Eo. cbn. by rewrite !bool_decide_true. }
      rewrite Hf in E3. rewrite Eo in E3. cbn in E3. destruct mode as [[]|]; try done;
        by injection E3 as <- _. }
    apply alone_bind_ok in E as ([] & d4 & w4 & E4 & E).
    apply inform_silent in E4 as [_ ->]; [|done]. by injection E as <- <- _. }
  destruct Hd as [-> ->]. apply Nat.eqb_eq in Hl. apply price_items_ok in Hx as [Hx ->].
  apply lines_of_ok in Hls. rewrite Eo. cbn.
  assert (Hm : default REGULAR mode = REGULAR) by by destruct mode as [[]|].
  split_and!; try done.
  - apply (products_differ tn ids (rows db TProduct)); [exact (proj1 (Hs TProduct))|]. unfold ids. by rewrite length_map.
  - eapply Forall2_trans; [|exact Hx|exact Hls].
    intros i x l (p & Hp & Hid & ->) (q & Hq & Hid' & ->). exists p.
    subst ps. apply list_elem_of_In in Hp. apply filter_In in Hp as [Hp Hin].
    apply list_elem_of_In in Hp. unfold Orders.product_in in Hin. bool_hyps.
    assert (q = p) as ->; [|done].
    by apply (same_key pd_id _ _ _ (proj1 (Hs TProduct)) Hq Hp).
  - assert (map line_subtotal ls = map Order.subtotal xs) as ->; [|done].
    clear -Hls. by induction Hls as [|x l xs ls (p & _ & _ & ->) _ IH]; simpl; [|rewrite IH].
  - by rewrite <- Eo.
Qed.

(** * Examples

    The order of five flour in ReservationExamples. *)
Module OrderExamples.

Import FixedPoint SamplePlatform ReservationExamples.
Local Open Scope string_scope.

Definition tenant : TenantRow :=
  {| tn_id := "t1"; tn_name := "Acme"%string; tn_contactEmail := None;
     tn_contactPhone := None; tn_address := None; tn_createdAt := 0%Z;
     tn_status := TenantACTIVE; tn_currencyCode := Some "USD"; tn_businessType := RETAIL;
     tn_deletedAt := None; tn_kitchenWaitThresholdMinutes := of_Z 15 |}.
Definition calm (n : Notice) (w : unit) : option exn * unit := (None, w).
Abbreviation deliver db :=
  (alone calm (handlePaymentSuccess 7%Z "o1" "t1" (Some true)) db tt).

Lemma delivered : fst (fst (deliver store)) = Ok tt.
Proof.
  assert (C : bool_decide (fst (fst (deliver store)) = Ok tt) = true) by (vm_compute; reflexivity).
  by apply bool_decide_eq_true_1 in C.
Qed.
Lemma payment_redelivered_witness :
  ∃ db1, deliver store = (Ok tt, db1, tt) ∧ ∃ db2, deliver db1 = (Ok tt, db2, tt) ∧ db2 = db1.
Proof.
  pose proof delivered as C.
  destruct (deliver store) as [[out db1] []] eqn:E1. cbn [fst] in C. subst out.
  exists db1. split; [reflexivity|]. destruct (deliver db1) as [[r db2] []] eqn:E2.
  assert (Hs : silent calm) by (intros n w; reflexivity).
  pose proof (payment_redelivered calm 7%Z 7%Z "o1" "t1" (Some true) store db1 db2 tt tt tt tt r
    tenant Hs store_keyed store_whole store_requirements eq_refl eq_refl E1 E2)
    as (P1 & P2 & _).
  exists db2. rewrite P1. split; [reflexivity|exact P2].
Defined.

Definition left_paid : Db := on TSalesOrder (map (set_so_status PAID)) store.
Definition paid : SalesOrderRow :=
  set_so_status PAID {| so_id := "o1"; so_tenantId := "t1"; so_outletId := None;
    so_orderNumber := "ORD-1"; so_status := OrderPENDING; so_orderMode := REGULAR;
    so_paymentStatus := PaymentPending; so_paidAmount := of_Z 0;
    so_kitchenReleasedAt := None; so_kitchenPriority := of_Z 0;
    so_totalAmount := of_Z 1500; so_currencyCode := Some "USD"; so_createdAt := 1%Z;
    so_SalesOrderItem := [line 2; line 3] |}.
Lemma paid_order_stuck_witness :
  ∃ e db1, deliver left_paid = (Err e, db1, tt) ∧
    map so_status (rows db1 TSalesOrder) = [PAID].
Proof.
  destruct (deliver left_paid) as [[r db1] []] eqn:E.
  assert (Hk : keyed TSalesOrder left_paid) by (apply (bool_decide_unpack _); vm_compute; exact I).
  pose proof (paid_order_stuck calm 7%Z "o1" "t1" (Some true) left_paid db1 tt tt r tenant paid
    Hk ltac:(split; reflexivity) eq_refl eq_refl ltac:(discriminate) E) as (Hr & Ho & _).
  destruct r as [u|e]; [discriminate|]. exists e, db1. split; [reflexivity|].
  cbn [row] in *. rewrite Ho. reflexivity.
Defined.

(** A payment that is recorded and an order that is cancelled before the payment event is
    delivered: the delivery takes the stock for the cancelled order, and then fails. *)
Definition cancelled : Db := on TSalesOrder (map (set_so_status OrderCANCELLED)) store.
Example cancelled_order_takes_stock :
  is_ok (fst (fst (deliver cancelled))) = false ∧
  map so_status (rows (snd (fst (deliver cancelled))) TSalesOrder) = [OrderCANCELLED] ∧
  map st_quantity (rows (snd (fst (deliver cancelled))) TStock) = [of_Z 2; of_Z 0] ∧
  map mv_referenceType (rows (snd (fst (deliver cancelled))) TMovement) =
    [Some COMMITTED_RESERVATION_REF; Some COMMITTED_RESERVATION_REF].
Proof. split_and!; vm_compute; reflexivity. Qed.

(** A customer orders five loaves. *)
Definition bread : ProductRow :=
  {| pd_id := "p1"; pd_tenantId := "t1"; pd_name := "bread"; pd_price := of_Z 300;
     pd_isActive := true; pd_inventoryItemId := Some "flour"; pd_Recipe := None |}.
Definition shop : Db := on TProduct (λ _, [bread]) store.
Abbreviation new_order :=
  (alone calm (create 9%Z "t1" None [{| od_productId := "p1"; od_quantity := of_Z 5 |}] None) shop tt).

Lemma shop_sound : sound shop.
Proof. sample_sound. Qed.
Lemma order_created_witness :
  ∃ o db', new_order = (Ok o, db', tt) ∧ so_status o = OrderPENDING ∧
    so_totalAmount o = sum_up (of_Z 0) (map line_subtotal (so_SalesOrderItem o)) ∧
    length (so_SalesOrderItem o) = 1 ∧
    rows db' TSalesOrder = app (rows shop TSalesOrder) [o].
Proof.
  assert (C : is_ok (fst (fst new_order)) = true) by (vm_compute; reflexivity).
  destruct new_order as [[[o|e] db'] []] eqn:E; [|discriminate C].
  destruct (order_created calm 9%Z "t1" None _ None shop db' tt tt o ltac:(done) shop_sound
    ltac:(discriminate) E) as (_ & Hl & Ht & _ & _ & Hs & _ & _ & _ & _ & Ho & _).
  exists o, db'. split; [reflexivity|]. split; [exact Hs|]. split; [exact Ht|].
  split; [|exact Ho]. apply Forall2_length in Hl. by rewrite <- Hl.
Defined.

End OrderExamples.
