(* ===== verification/SubscriptionService.v ===== *)
(** The subscriptions of the tenants in the store:
    modules/subscription/domain/subscription.repository.ts,
    modules/subscription/subscription.service.ts and the queries of
    modules/subscription/plans/plan.repository.ts they use.  [save] writes the row, the
    history and the outbox in one transaction. *)

From stdpp Require Import base list strings option.
From Stdlib Require Import ZArith Lia.
From S2P Require Import Prelude Flows JsNumber JsString DomainEvents CoreDomain MasterData.
From S2P Require Import Lifecycles PurchaseOrderAggregate Subscriptions Decimal Database.

(** [this.prisma...]: a flow of calls on the database; nothing outside is asked. *)
Abbreviation DbFlow A := (Flow _ Empty_set Empty_set A).

(** A write to a unique column, where another row holds the value. *)
Definition assert_unique {dec : Decimal} (t : table) (taken : row t → bool) : Tx Db unit :=
  n ← count t taken; tx_throw_if (negb (n =? 0)) (PrismaError "P2002").

(** [updateMany] of columns of which [taken] says that another row has the new value. *)
Definition update_unique {dec : Decimal} (t : table) (p taken : row t → bool)
    (f : row t → row t) : Tx Db nat :=
  n ← count t p;
  _ ← tx_when (negb (n =? 0)) (assert_unique t taken);
  update_many t p f.

(** A guarded [updateMany] is the plain one. *)
Lemma update_unique_inv {dec : Decimal} t p taken f db n db' :
  update_unique t p taken f db = Ok (n, db') →
  n = length (List.filter p (rows db t)) ∧ db' = on t (map_where p f) db.
Proof.
  unfold update_unique. intros H. apply tx_bind_ok in H as (c & d1 & [= <- <-] & H).
  apply tx_bind_ok in H as ([] & d2 & E & H).
  assert (d2 = db) as ->.
  { unfold tx_when in E. destruct (negb _); [|by injection E].
    unfold assert_unique in E. apply tx_bind_ok in E as (c & d1 & [= <- <-] & E).
    unfold tx_throw_if, tx_lift, throw_if in E. destruct (negb _); [done|]. by injection E. }
  by injection H as <- <-.
Qed.
(** [k: v] of an object literal, where an undefined value is left out of the text. *)
Definition defined (k : string) (v : option string) : list (string * json) :=
  match v with Some s => [(k, JString s)] | None => [] end.
(** The payload of a subscription, billing, business or administration event as [JSON.stringify] writes it. *)
Definition payload_json (e : DomainEvent) : list (string * json) :=
  let ids i t := [("subscriptionId"%string, JString i); ("tenantId"%string, JString t)] in
  let invoice i n t :=
    [("invoiceId"%string, JString i); ("invoiceNumber"%string, JString n);
     ("tenantId"%string, JString t)] in
  let business t b := [("tenantId"%string, JString t); ("businessId"%string, JString b)] in
  let target t u := [("tenantId"%string, JString t); ("targetTenantId"%string, JString u)] in
  let actioned a := [("actionedByPlatformIdentityId"%string, JString a)] in
  match e with
  | EvSubscription (SubscriptionCreatedEvent i t p)
  | EvSubscription (SubscriptionActivatedEvent i t p) =>
      ids i t ++ [("planType"%string, JString p)]
  | EvSubscription (SubscriptionRenewedEvent i t p s e) =>
      ids i t ++ [("planType"%string, JString p); ("billingPeriodStart"%string, JString s);
                  ("billingPeriodEnd"%string, JString e)]
  | EvSubscription (SubscriptionCancelledEvent i t r)
  | EvSubscription (SubscriptionSuspendedEvent i t r) => ids i t ++ defined "reason" r
  | EvSubscription (SubscriptionExpiredEvent i t) => ids i t
  | EvSubscription (SubscriptionPlanChangedEvent i t o n) =>
      ids i t ++ [("oldPlanType"%string, JString o); ("newPlanType"%string, JString n)]
  | EvSubscription (SubscriptionPlanChangeScheduledEvent i t c p n a) =>
      ids i t ++ [("currentPlanId"%string, JString c); ("previousPendingPlanId"%string, JNullable p);
                  ("pendingPlanId"%string, JNullable n); ("effectiveAt"%string, JString a)]
  | EvSubscription (SubscriptionPastDueEvent i t n) =>
      ids i t ++ [("dueAmountCents"%string, JNumber n)]
  | EvBilling (PaymentRequiredEvent s t n p) =>
      ids s t ++ [("amountCents"%string, JNumber n); ("billingPeriod"%string, JString p)]
  | EvBilling (InvoiceCreatedEvent i n t s a c) =>
      invoice i n t ++ defined "subscriptionId" s ++
      [("amountCents"%string, JNumber a); ("currency"%string, JString c)]
  | EvBilling (InvoicePaidEvent i n t s a) =>
      invoice i n t ++ defined "subscriptionId" s ++ [("amountCents"%string, JNumber a)]
  | EvBilling (InvoiceFailedEvent i n t s r) =>
      invoice i n t ++ defined "subscriptionId" s ++ defined "reason" r
  | EvBilling (InvoiceCancelledEvent i n t) => invoice i n t
  | EvBusiness (BusinessCreatedEvent t b n ty) =>
      business t b ++ [("name"%string, JString n); ("businessType"%string, JString ty)]
  | EvBusiness (BusinessUpdatedEvent t b cs) =>
      business t b ++ [("changes"%string, JArray (map JString cs))]
  | EvBusiness (BusinessActivatedEvent t b)
  | EvBusiness (BusinessArchivedEvent t b)
  | EvBusiness (BusinessRestoredEvent t b) => business t b
  | EvBusiness (BusinessSuspendedEvent t b r) => business t b ++ defined "reason" r
  | EvBusiness (BusinessTypeChangedEvent t b o n) =>
      business t b ++ [("oldBusinessType"%string, JString o); ("newBusinessType"%string, JString n)]
  | EvSuperAdmin (SuperAdminTenantActivatedEvent t u a)
  | EvSuperAdmin (SuperAdminTenantRestoredEvent t u a) => target t u ++ actioned a
  | EvSuperAdmin (SuperAdminTenantSuspendedEvent t u a r)
  | EvSuperAdmin (SuperAdminTenantDeactivatedEvent t u a r) =>
      target t u ++ actioned a ++ defined "reason" r
  | EvSuperAdmin (SuperAdminPlanChangeScheduledEvent t u o n a) =>
      target t u ++ [("oldPlanId"%string, JString o); ("newPlanId"%string, JString n)] ++ actioned a
  | EvSuperAdmin (SuperAdminSubscriptionChangedEvent t u s a r) =>
      target t u ++ [("subscriptionId"%string, JString s)] ++ actioned a ++ defined "reason" r
  | _ => []
  end.

(** An event as a text column of the outbox. *)
Definition post_event {dec : Decimal} {plat : Platform} (now : Date) (tenantId : option string)
    (e : DomainEvent) (occurredAt : option Date) : Tx Db unit :=
  _ ← insert TOutbox (λ i, {| ob_id := i; ob_tenantId := tenantId; ob_outletId := None;
        ob_type := event_type e;
        ob_payload := JSON_stringify (JObject
          ([("type"%string, JString (event_type e));
            ("payload"%string, JObject (payload_json e))] ++
           match occurredAt with Some d => [("occurredAt"%string, JDate d)] | None => [] end));
        ob_status := OutboxPENDING; ob_error := None; ob_createdAt := now;
        ob_processedAt := None |});
  mret tt.

Module SubscriptionService.
Section service.
Context {dec : Decimal} {plat : Platform}.

(** ** The repository *)

Definition of_tenant (id tenantId : string) (r : SubscriptionRow) : bool :=
  bool_decide (sb_id r = id) && bool_decide (sb_tenantId r = tenantId) &&
  bool_decide (sb_deletedAt r = None).

Definition plan_props (p : PlanRow) : Subscription.PlanProps :=
  {| Subscription.plan_id := pn_id p; Subscription.plan_type := pn_type p;
     Subscription.plan_name := pn_name p; Subscription.plan_priceCents := pn_priceCents p |}.
(** [include: { plan: true, pendingPlan: true }] and [toAggregate]. *)
Definition toAggregate (r : SubscriptionRow) : Tx Db Subscription.t :=
  plan ← load_row TPlan (has_id TPlan (sb_planId r)) (PrismaError "P2025");
  pending ← match sb_pendingPlanId r with
            | Some i => find_id TPlan i
            | None => mret None
            end;
  _ ← tx_throw_if (truthy (sb_pendingPlanId r) && bool_decide (plan_props <$> pending = None))
        (JsError ("Subscription " ++ sb_id r ++ " references missing pending plan " ++
                  default "" (sb_pendingPlanId r)));
  mret (Subscription.reconstitute
    {| Subscription.id := sb_id r; Subscription.tenantId := sb_tenantId r;
       Subscription.planId := sb_planId r;
       Subscription.pendingPlanId := opt_of_nullable (sb_pendingPlanId r);
       Subscription.status := sb_status r; Subscription.startedAt := sb_startedAt r;
       Subscription.endedAt := sb_endedAt r; Subscription.deletedAt := sb_deletedAt r |}
    (plan_props plan) (plan_props <$> pending)).

Definition findById (id tenantId : string) : Tx Db (option Subscription.t) :=
  r ← select_first TSubscription (of_tenant id tenantId);
  match r with
  | Some r => a ← toAggregate r; mret (Some a)
  | None => mret None
  end.

Definition by_tenant (tenantId : string) (r : SubscriptionRow) : bool :=
  bool_decide (sb_tenantId r = tenantId) && bool_decide (sb_deletedAt r = None).
Definition newest_first (a b : SubscriptionRow) : bool :=
  (sb_createdAt b <=? sb_createdAt a)%Z.
Definition findByTenantId (tenantId : string) : Tx Db (option Subscription.t) :=
  rs ← select TSubscription (by_tenant tenantId);
  match sort_by newest_first rs with
  | r :: _ => a ← toAggregate r; mret (Some a)
  | [] => mret None
  end.

Fixpoint toAggregates (rs : list SubscriptionRow) : Tx Db (list Subscription.t) :=
  match rs with
  | [] => mret []
  | r :: rs => a ← toAggregate r; l ← toAggregates rs; mret (a :: l)
  end.
Definition findAll (tenantId : string) : Tx Db (list Subscription.t) :=
  rs ← select TSubscription (by_tenant tenantId); toAggregates (sort_by newest_first rs).

(** [toSafeHistoryMetadata]. *)
Definition toSafeHistoryMetadata (e : DomainEvent) : json :=
  JObject match e with
  | EvSubscription (SubscriptionCreatedEvent _ _ p)
  | EvSubscription (SubscriptionActivatedEvent _ _ p) => [("planType"%string, JString p)]
  | EvSubscription (SubscriptionRenewedEvent _ _ p s e) =>
      [("planType"%string, JString p); ("billingPeriodStart"%string, JString s);
       ("billingPeriodEnd"%string, JString e)]
  | EvSubscription (SubscriptionPlanChangedEvent _ _ o n) =>
      [("oldPlanType"%string, JString o); ("newPlanType"%string, JString n)]
  | EvSubscription (SubscriptionPlanChangeScheduledEvent _ _ c p n a) =>
      [("currentPlanId"%string, JString c); ("previousPendingPlanId"%string, JNullable p);
       ("pendingPlanId"%string, JNullable n); ("effectiveAt"%string, JString a)]
  | EvSubscription (SubscriptionPastDueEvent _ _ n) => [("dueAmountCents"%string, JNumber n)]
  | _ => []
  end.

Definition set_row (a : Subscription.t) (r : SubscriptionRow) : SubscriptionRow :=
  let p := Subscription.sub (props a) in
  {| sb_id := sb_id r; sb_tenantId := sb_tenantId r; sb_planId := Subscription.planId p;
     sb_pendingPlanId := Subscription.get_pendingPlanId a;
     sb_status := Subscription.status p; sb_startedAt := sb_startedAt r;
     sb_endedAt := Subscription.endedAt p; sb_createdAt := sb_createdAt r;
     sb_deletedAt := sb_deletedAt r |}.
Definition new_row (now : Date) (a : Subscription.t) : SubscriptionRow :=
  let p := Subscription.sub (props a) in
  {| sb_id := Subscription.id p; sb_tenantId := Subscription.tenantId p;
     sb_planId := Subscription.planId p; sb_pendingPlanId := Subscription.get_pendingPlanId a;
     sb_status := Subscription.status p; sb_startedAt := Subscription.startedAt p;
     sb_endedAt := Subscription.endedAt p; sb_createdAt := now; sb_deletedAt := None |}.
(** [upsert({ where: { id } })]; the tenant of a subscription is unique. *)
Definition upsert (now : Date) (a : Subscription.t) : Tx Db unit :=
  let p := Subscription.sub (props a) in
  n ← update_many TSubscription (has_id TSubscription (Subscription.id p)) (set_row a);
  tx_when (n =? 0)%nat
    (_ ← assert_unique TSubscription (λ r, bool_decide (sb_tenantId r = Subscription.tenantId p));
     _ ← insert TSubscription (λ _, new_row now a); mret tt).

Definition history_row (now : Date) (userId : option string) (a : Subscription.t)
    (e : DomainEvent) (i : string) : HistoryRow :=
  let p := Subscription.sub (props a) in
  {| sh_id := i; sh_subscriptionId := Subscription.id p; sh_tenantId := Subscription.tenantId p;
     sh_eventType := event_type e; sh_actorUserId := userId;
     sh_actorPlatformIdentityId := None;
     sh_actorType := if truthy userId then "TENANT_USER" else "SYSTEM";
     sh_metadata := toSafeHistoryMetadata e; sh_createdAt := now |}.
Definition save_tx (now : Date) (userId : option string) (a : Subscription.t) : Tx Db unit :=
  _ ← upsert now a;
  _ ← insert_all THistory (map (history_row now userId a) (peekDomainEvents a));
  tx_for_each (λ e, post_event now (Some (Subscription.tenantId (Subscription.sub (props a))))
                      e (Some now))
    (peekDomainEvents a).
(** [save]: the aggregate without the events it had recorded. *)
Definition save (now : Date) (userId : option string) (a : Subscription.t)
  : DbFlow Subscription.t :=
  _ ← call (save_tx now userId a); mret (snd (pullDomainEvents a)).

(** [planRepository.findById]. *)
Definition findPlan (planId : string) : Tx Db (option PlanRow) :=
  select_first TPlan (λ p, bool_decide (pn_id p = planId) && bool_decide (pn_deletedAt p = None)).

(** ** The service *)

Definition no_subscription : exn := NotFoundException "Subscription not found".
Definition requireCurrentSubscription (tenantId subscriptionId : string)
  : DbFlow Subscription.t :=
  a ← call (findById subscriptionId tenantId);
  match a with Some a => mret a | None => throw no_subscription end.

(** [createSubscription]: [newId] is the random id. *)
Definition createSubscription (now : Date) (userId : option string) (newId tenantId planId : string)
  : DbFlow Subscription.t :=
  existing ← call (findByTenantId tenantId);
  match existing with
  | Some _ => throw (ConflictException "Tenant already has a subscription")
  | None =>
      plan ← call (findPlan planId);
      match plan with
      | None => throw (NotFoundException "Plan not found")
      | Some plan =>
          let a := Subscription.create
            {| Subscription.id := newId; Subscription.tenantId := tenantId;
               Subscription.planId := pn_id plan; Subscription.pendingPlanId := Undefined;
               Subscription.status := SubscriptionACTIVE; Subscription.startedAt := now;
               Subscription.endedAt := None; Subscription.deletedAt := None |}
            (plan_props plan) in
          match Subscription.activate now a with
          | Ok a => save now userId a
          | Err e => throw e
          end
      end
  end.

Definition changePlan (now : Date) (userId : option string) (tenantId subscriptionId planId : string)
  : DbFlow Subscription.t :=
  a ← requireCurrentSubscription tenantId subscriptionId;
  if negb (Subscription.isActive now a)
  then throw (BadRequestException "Cannot change plan on a non-active subscription")
  else
    plan ← call (findPlan planId);
    match plan with
    | None => throw (NotFoundException "Plan not found")
    | Some plan => save now userId (Subscription.schedulePlanChange (plan_props plan) a)
    end.

(** A method of the aggregate between loading and saving. *)
Definition with_current (now : Date) (userId : option string) (tenantId subscriptionId : string)
    (f : Subscription.t → result Subscription.t) : DbFlow Subscription.t :=
  a ← requireCurrentSubscription tenantId subscriptionId;
  match f a with
  | Ok a => save now userId a
  | Err e => throw e
  end.
Definition cancelSubscription (now : Date) (userId : option string)
    (tenantId subscriptionId : string) (reason : option string) : DbFlow Subscription.t :=
  with_current now userId tenantId subscriptionId (Subscription.cancel reason).
Definition suspendSubscription (now : Date) (userId : option string)
    (tenantId subscriptionId : string) (reason : option string) : DbFlow Subscription.t :=
  with_current now userId tenantId subscriptionId (Subscription.suspend reason).
Definition resumeSubscription (now : Date) (userId : option string)
    (tenantId subscriptionId : string) : DbFlow Subscription.t :=
  with_current now userId tenantId subscriptionId (λ a,
    if negb (Subscription.canActivate now a)
    then Err (BadRequestException "Subscription cannot be resumed")
    else Subscription.activate now a).

(** The loop of [handleExpiredSubscriptions]. *)
Fixpoint expire_all (now : Date) (userId : option string) (subs : list Subscription.t)
  : DbFlow unit :=
  match subs with
  | [] => mret tt
  | a :: subs =>
      if Subscription.isExpired now a &&
         bool_decide (Subscription.get_status a ≠ SubscriptionEXPIRED)
      then _ ← save now userId (Subscription.expire a); expire_all now userId subs
      else expire_all now userId subs
  end.
Definition handleExpiredSubscriptions (now : Date) (userId : option string) (tenantId : string)
  : DbFlow unit :=
  subs ← call (findAll tenantId); expire_all now userId subs.

End service.
End SubscriptionService.
