(* ===== verification/Billing.v ===== *)
(** Invoices and their payment: modules/billing/billing.repository.ts,
    modules/billing/billing.service.ts and the payment gateway
    modules/billing/gateway/xendit-payment.gateway.ts.

    The gateway is asked over HTTP: a question is a request, an answer what comes back.
    A service method is a [Flow]: each repository call commits by itself.  Logging is not
    modelled. *)

From stdpp Require Import base list strings option pretty.
From Stdlib Require Import ZArith Lia Ascii.
From S2P Require Import Prelude Flows JsNumber JsString DomainEvents CoreDomain MasterData.
From S2P Require Import Lifecycles PurchaseOrderAggregate Subscriptions Decimal Database Outbox.
From S2P Require Import SubscriptionService.

(** * The payment gateway *)

Module Gateway.

Record ChargeInput := {
  ci_amountCents : number; ci_currency : string; ci_description : string;
  ci_tenantId : string; ci_channelCode : string; ci_referenceId : string;
}.
Inductive PaymentState := StatePAID | StateFAILED | StatePENDING.
Record ChargeResult := {
  cr_transactionId : string; cr_paymentRequestId : option string; cr_status : PaymentState;
}.
(** [XenditPaymentRequestError]. *)
Inductive Outcome := OutcomeREJECTED | OutcomeUNKNOWN.
#[export] Instance Outcome_eq_dec : EqDecision Outcome.
Proof. solve_decision. Defined.
Record ChargeError := { ce_message : string; ce_outcome : Outcome }.

(** The body of the request, and what is read of a response; a transport failure has
    no response, and a body that is no JSON no data. *)
Record Request := {
  rq_apiKey : string; rq_reference_id : string; rq_request_amount : number;
  rq_currency : string; rq_channel_code : string; rq_description : string;
  rq_tenantId : string;
}.
Record Data_ := {
  dt_payment_request_id : option string; dt_status : option string;
  dt_latest_payment_id : option string; dt_message : option string;
}.
Record Response := { rs_status : Z; rs_data : option Data_ }.
Abbreviation Answer := (option Response).
Definition ok (r : Response) : bool := ((200 <=? rs_status r) && (rs_status r <? 300))%Z.

(** The checks before the request. *)
Definition check_input (apiKey : option string) (input : ChargeInput)
  : ChargeError + Request :=
  let rejected m := inl {| ce_message := m; ce_outcome := OutcomeREJECTED |} in
  if negb (isSafeInteger (ci_amountCents input)) || leb (ci_amountCents input) (of_Z 0)
  then rejected "Payment amount must be a positive safe integer in cents"%string
  else if blank (ci_currency input) || blank (ci_channelCode input)
  then rejected "Payment currency and channel are required"%string
  else if negb (truthy apiKey)
  then rejected "Xendit payment request configuration is incomplete"%string
  else inr {| rq_apiKey := default "" apiKey; rq_reference_id := ci_referenceId input;
              rq_request_amount := ci_amountCents input; rq_currency := ci_currency input;
              rq_channel_code := ci_channelCode input;
              rq_description := ci_description input; rq_tenantId := ci_tenantId input |}.

Definition status_outcome (status : Z) : Outcome :=
  if ((400 <=? status) && (status <? 500) && negb (status =? 408) && negb (status =? 409))%Z
  then OutcomeREJECTED else OutcomeUNKNOWN.
(** What is made of the answer. *)
Definition read_answer (a : Answer) : ChargeError + ChargeResult :=
  let unknown m := inl {| ce_message := m; ce_outcome := OutcomeUNKNOWN |} in
  match a with
  | None => unknown "Xendit payment request outcome is unknown after a transport failure"%string
  | Some r =>
      if ok r && match rs_data r with None => true | Some _ => false end
      then unknown "Xendit returned success without a readable Payment Request ID"%string
      else
        let data := default {| dt_payment_request_id := None; dt_status := None;
                               dt_latest_payment_id := None; dt_message := None |} (rs_data r) in
        if negb (ok r)
        then inl {| ce_message := default "Xendit payment request creation failed"%string
                                    (dt_message data);
                    ce_outcome := status_outcome (rs_status r) |}
        else if negb (truthy (dt_payment_request_id data))
        then unknown "Xendit response did not include the required payment_request_id"%string
        else inr {| cr_transactionId := default "" (dt_latest_payment_id data);
                    cr_paymentRequestId := dt_payment_request_id data;
                    cr_status := match dt_status data with
                      | Some s => if bool_decide (s = "SUCCEEDED"%string) then StatePAID
                                  else if bool_decide (s = "FAILED"%string) then StateFAILED
                                  else StatePENDING
                      | None => StatePENDING
                      end |}
  end.

Section gateway.
Context {S : Type}.

(** [charge], with the error it throws as a value. *)
Definition charge (apiKey : option string) (input : ChargeInput)
  : Flow S Request Answer (ChargeError + ChargeResult) :=
  match check_input apiKey input with
  | inl e => mret (inl e)
  | inr q => a ← ask q; mret (read_answer a)
  end.
End gateway.

(** [verifyWebhookSignature]: the token the provider calls back with. *)
Definition verifyWebhookSignature (token : option string) (signature : string) : bool :=
  truthy token && negb (is_empty signature) && bool_decide (token = Some signature).
End Gateway.
Import Gateway.

(** * Billing *)

Module Billing.
Section service.
Context {dec : Decimal} {plat : Platform}.

Abbreviation GFlow A := (Flow Db Request Answer A).

(** ** Invoices *)

Definition live (r : InvoiceRow) : bool := bool_decide (iv_deletedAt r = None).
Definition of_tenant (id tenantId : string) (r : InvoiceRow) : bool :=
  bool_decide (iv_id r = id) && bool_decide (iv_tenantId r = tenantId) && live r.
Definition has_status (s : string) (r : InvoiceRow) : bool := bool_decide (iv_status r = s).
(** [where: { id, tenantId, deletedAt: null, status: 'PENDING' }]. *)
Definition pending_of (id tenantId : string) (r : InvoiceRow) : bool :=
  of_tenant id tenantId r && has_status "PENDING" r.

Definition findInvoiceById (id tenantId : string) : Tx Db (option InvoiceRow) :=
  select_first TInvoice (of_tenant id tenantId).

(** The columns billing updates: the status, the time of payment and the provider's
    correlation; an undefined value leaves its column. *)
Record InvoiceData := {
  ivd_status : option string; ivd_paidAt : option Date; ivd_referenceId : option string;
  ivd_paymentRequestId : option string; ivd_paymentId : option string;
  ivd_providerStatus : option string;
}.
Definition overwrite {A} (new old : option A) : option A :=
  match new with Some v => Some v | None => old end.
Definition set_invoice (d : InvoiceData) (r : InvoiceRow) : InvoiceRow :=
  {| iv_id := iv_id r; iv_tenantId := iv_tenantId r; iv_subscriptionId := iv_subscriptionId r;
     iv_invoiceNumber := iv_invoiceNumber r; iv_amountCents := iv_amountCents r;
     iv_currency := iv_currency r; iv_status := default (iv_status r) (ivd_status d);
     iv_providerReferenceId := overwrite (ivd_referenceId d) (iv_providerReferenceId r);
     iv_providerPaymentRequestId :=
       overwrite (ivd_paymentRequestId d) (iv_providerPaymentRequestId r);
     iv_providerPaymentId := overwrite (ivd_paymentId d) (iv_providerPaymentId r);
     iv_providerStatus := overwrite (ivd_providerStatus d) (iv_providerStatus r);
     iv_billingPeriodKey := iv_billingPeriodKey r; iv_dueAt := iv_dueAt r;
     iv_paidAt := overwrite (ivd_paidAt d) (iv_paidAt r); iv_createdAt := iv_createdAt r;
     iv_deletedAt := iv_deletedAt r |}.
Definition status_only (s : string) : InvoiceData :=
  {| ivd_status := Some s; ivd_paidAt := None; ivd_referenceId := None;
     ivd_paymentRequestId := None; ivd_paymentId := None; ivd_providerStatus := None |}.

(** The unique columns of an invoice, when another invoice than [id] has the value. *)
Definition clashes (id : string) (column : InvoiceRow → option string) (v : option string)
    (r : InvoiceRow) : bool :=
  match v with
  | Some s => bool_decide (column r = Some s) && negb (bool_decide (iv_id r = id))
  | None => false
  end.
(** [invoice.updateMany({ where: { id, ... }, data })]. *)
Definition update_invoice (id : string) (p : InvoiceRow → bool) (d : InvoiceData) : Tx Db nat :=
  update_unique TInvoice p
    (λ r, clashes id iv_providerReferenceId (ivd_referenceId d) r ||
          clashes id iv_providerPaymentRequestId (ivd_paymentRequestId d) r ||
          clashes id iv_providerPaymentId (ivd_paymentId d) r)
    (set_invoice d).

(** ** Payment request attempts *)

Definition attempt_of (invoiceId tenantId : string) (r : AttemptRow) : bool :=
  bool_decide (xa_invoiceId r = invoiceId) && bool_decide (xa_tenantId r = tenantId).
Definition in_state (s : AttemptState) (r : AttemptRow) : bool := bool_decide (xa_state r = s).
Definition findXenditPaymentRequestAttempt (invoiceId tenantId : string)
  : Tx Db (option AttemptRow) :=
  select_first TAttempt (attempt_of invoiceId tenantId).
Definition set_attempt (s : AttemptState) (paymentRequestId : option string) (r : AttemptRow)
  : AttemptRow :=
  {| xa_id := xa_id r; xa_invoiceId := xa_invoiceId r; xa_tenantId := xa_tenantId r;
     xa_state := s;
     xa_providerPaymentRequestId :=
       overwrite paymentRequestId (xa_providerPaymentRequestId r) |}.

(** [updateMany] of attempts, which sets a provider id that is unique. *)
Definition update_attempt (invoiceId : string) (p : AttemptRow → bool) (s : AttemptState)
    (paymentRequestId : option string) : Tx Db nat :=
  update_unique TAttempt p
    (λ r, truthy paymentRequestId &&
          bool_decide (xa_providerPaymentRequestId r = paymentRequestId) &&
          negb (bool_decide (xa_invoiceId r = invoiceId)))
    (set_attempt s (if truthy paymentRequestId then paymentRequestId else None)).

(** [createMany({ skipDuplicates: true })] of one attempt; its invoice is unique. *)
Definition create_attempt (invoiceId tenantId : string) : Tx Db nat :=
  n ← count TAttempt (λ r, bool_decide (xa_invoiceId r = invoiceId));
  if (n =? 0)%nat then
    _ ← insert TAttempt (λ i, {| xa_id := i; xa_invoiceId := invoiceId; xa_tenantId := tenantId;
                                 xa_state := AttemptIN_PROGRESS;
                                 xa_providerPaymentRequestId := None |});
    mret 1
  else mret 0.

Record Claim := {
  cl_claimed : bool; cl_state : option AttemptState; cl_paymentRequestId : option string;
}.
Definition claimed : Claim :=
  {| cl_claimed := true; cl_state := None; cl_paymentRequestId := None |}.
Definition not_claimed : Claim :=
  {| cl_claimed := false; cl_state := None; cl_paymentRequestId := None |}.
Definition claimXenditPaymentRequest (invoiceId tenantId : string) : Tx Db Claim :=
  n ← count TInvoice (λ r, pending_of invoiceId tenantId r &&
                           bool_decide (iv_providerPaymentRequestId r = None));
  if negb (n =? 1)%nat then mret not_claimed else
  inserted ← create_attempt invoiceId tenantId;
  if (inserted =? 1)%nat then mret claimed else
  attempt ← findXenditPaymentRequestAttempt invoiceId tenantId;
  match attempt with
  | None => mret not_claimed
  | Some a =>
      let refused := {| cl_claimed := false; cl_state := Some (xa_state a);
                        cl_paymentRequestId := xa_providerPaymentRequestId a |} in
      if in_state AttemptREJECTED a then
        reclaimed ← update_many TAttempt (λ r, attempt_of invoiceId tenantId r &&
                                               in_state AttemptREJECTED r)
                      (set_attempt AttemptIN_PROGRESS None);
        mret (if (reclaimed =? 1)%nat then claimed else refused)
      else mret refused
  end.

Definition completeXenditPaymentRequest (invoiceId tenantId referenceId paymentRequestId : string)
  : Tx Db unit :=
  updatedInvoice ← update_invoice invoiceId
    (λ r, pending_of invoiceId tenantId r && bool_decide (iv_providerPaymentRequestId r = None))
    {| ivd_status := None; ivd_paidAt := None; ivd_referenceId := Some referenceId;
       ivd_paymentRequestId := Some paymentRequestId; ivd_paymentId := None;
       ivd_providerStatus := Some "PENDING"%string |};
  _ ← tx_throw_if (negb (updatedInvoice =? 1)%nat)
        (ConflictException "Invoice changed before Xendit payment correlation was persisted");
  completedAttempt ← update_attempt invoiceId
    (λ r, attempt_of invoiceId tenantId r &&
          bool_decide (xa_state r ∈ [AttemptIN_PROGRESS; AttemptUNKNOWN]) &&
          bool_decide (xa_providerPaymentRequestId r ∈ [None; Some paymentRequestId]))
    AttemptCOMPLETED (Some paymentRequestId);
  tx_throw_if (negb (completedAttempt =? 1)%nat)
    (ConflictException "Xendit payment-request creation attempt is not available to complete").

Definition recordXenditPaymentRequestOutcome (invoiceId tenantId : string) (state : AttemptState)
    (paymentRequestId : option string) : Tx Db nat :=
  update_attempt invoiceId (λ r, attempt_of invoiceId tenantId r && in_state AttemptIN_PROGRESS r)
    state paymentRequestId.

(** ** Paying an invoice *)

Section payment.
(** [XENDIT_API_KEY], and whether the gateway was injected. *)
Context (apiKey : option string) (gateway : bool).

Abbreviation Paid := (string * PaymentState)%type.

(** [recordPaymentRequestOutcome]: a failure to record is only logged. *)
Definition recordPaymentRequestOutcome (invoiceId tenantId : string) (state : AttemptState)
    (paymentRequestId : option string) : GFlow unit :=
  catch (λ _, mret tt)
    (_ ← call (recordXenditPaymentRequestOutcome invoiceId tenantId state paymentRequestId);
     mret tt).

Definition paymentRequestAttemptConflict (state : option AttemptState) : exn :=
  ConflictException
    (if bool_decide (state = Some AttemptUNKNOWN)
     then "Xendit request outcome is unknown; manual resolution is required before another request"
     else "A Xendit payment request operation is already in progress or completed").

Definition recoverXenditPaymentRequest (invoiceId tenantId referenceId paymentRequestId : string)
  : GFlow Paid :=
  _ ← catch (λ _, throw (InternalServerErrorException
        "The existing Xendit Payment Request ID could not yet be linked; no new request was created"))
        (call (completeXenditPaymentRequest invoiceId tenantId referenceId paymentRequestId));
  mret (paymentRequestId, StatePENDING).

(** [if (attempt?.providerPaymentRequestId) return this.recover...]. *)
Definition recover_or (invoice : InvoiceRow) (tenantId : string) (attempt : option AttemptRow)
    (rest : GFlow Paid) : GFlow Paid :=
  match attempt with
  | Some a =>
      if truthy (xa_providerPaymentRequestId a)
      then recoverXenditPaymentRequest (iv_id invoice) tenantId (iv_invoiceNumber invoice)
             (default "" (xa_providerPaymentRequestId a))
      else rest
  | None => rest
  end.

(** What the owner of the claim does with the answer of the gateway. *)
Definition settle_charge (invoice : InvoiceRow) (tenantId : string)
    (result : ChargeError + ChargeResult) : GFlow Paid :=
  match result with
  | inl e =>
      let state := match ce_outcome e with
                   | OutcomeREJECTED => AttemptREJECTED
                   | OutcomeUNKNOWN => AttemptUNKNOWN
                   end in
      _ ← recordPaymentRequestOutcome (iv_id invoice) tenantId state None;
      throw (BadGatewayException
        (if bool_decide (state = AttemptUNKNOWN)
         then "Xendit payment request outcome is unknown; automatic retry is blocked"
         else "Xendit rejected the payment request; a later retry may be attempted"))
  | inr r =>
      match cr_paymentRequestId r with
      | Some i =>
          if is_empty i then
            _ ← recordPaymentRequestOutcome (iv_id invoice) tenantId AttemptUNKNOWN None;
            throw (InternalServerErrorException
              "Xendit did not return a Payment Request ID; automatic retry is blocked")
          else
            _ ← catch (λ _,
                  _ ← recordPaymentRequestOutcome (iv_id invoice) tenantId AttemptUNKNOWN (Some i);
                  throw (InternalServerErrorException
                    "Xendit created a Payment Request but ERP correlation failed; its ID is retained for retry when possible"))
                  (call (completeXenditPaymentRequest (iv_id invoice) tenantId
                           (iv_invoiceNumber invoice) i));
            mret (i, cr_status r)
      | None =>
          _ ← recordPaymentRequestOutcome (iv_id invoice) tenantId AttemptUNKNOWN None;
          throw (InternalServerErrorException
            "Xendit did not return a Payment Request ID; automatic retry is blocked")
      end
  end.

Definition charge_input (invoice : InvoiceRow) (tenantId channelCode : string) : ChargeInput :=
  {| ci_amountCents := iv_amountCents invoice; ci_currency := iv_currency invoice;
     ci_description := "Invoice " ++ iv_invoiceNumber invoice; ci_tenantId := tenantId;
     ci_channelCode := channelCode; ci_referenceId := iv_invoiceNumber invoice |}.
(** After the claim. *)
Definition charge_claimed (invoice : InvoiceRow) (tenantId channelCode : string) : GFlow Paid :=
  result ← charge apiKey (charge_input invoice tenantId channelCode);
  settle_charge invoice tenantId result.

(** When another request has the claim. *)
Definition follow_claim (invoice : InvoiceRow) (tenantId : string) : GFlow Paid :=
  currentInvoice ← call (findInvoiceById (iv_id invoice) tenantId);
  match currentInvoice with
  | Some current =>
      if truthy (iv_providerPaymentRequestId current)
      then mret (default "" (iv_providerPaymentRequestId current), StatePENDING)
      else
        attempt ← call (findXenditPaymentRequestAttempt (iv_id invoice) tenantId);
        recover_or invoice tenantId attempt
          (throw (paymentRequestAttemptConflict (xa_state <$> attempt)))
  | None =>
      attempt ← call (findXenditPaymentRequestAttempt (iv_id invoice) tenantId);
      recover_or invoice tenantId attempt
        (throw (paymentRequestAttemptConflict (xa_state <$> attempt)))
  end.

Definition claim_and_charge (invoice : InvoiceRow) (tenantId channelCode : string)
  : GFlow Paid :=
  claim ← call (claimXenditPaymentRequest (iv_id invoice) tenantId);
  if cl_claimed claim then charge_claimed invoice tenantId channelCode
  else follow_claim invoice tenantId.

Definition createXenditPaymentRequest (tenantId invoiceId channelCode : string) : GFlow Paid :=
  invoice ← call (findInvoiceById invoiceId tenantId);
  match invoice with
  | None => throw (NotFoundException "Invoice not found")
  | Some invoice =>
      if negb (has_status "PENDING" invoice)
      then throw (ConflictException "Only pending invoices can be paid")
      else if truthy (iv_providerPaymentRequestId invoice)
      then mret (default "" (iv_providerPaymentRequestId invoice), StatePENDING)
      else if negb gateway
      then throw (InternalServerErrorException "Xendit payment gateway is not available")
      else
        attempt ← call (findXenditPaymentRequestAttempt (iv_id invoice) tenantId);
        recover_or invoice tenantId attempt
          match attempt with
          | Some a =>
              if in_state AttemptREJECTED a
              then claim_and_charge invoice tenantId channelCode
              else throw (paymentRequestAttemptConflict (Some (xa_state a)))
          | None => claim_and_charge invoice tenantId channelCode
          end
  end.
End payment.

(** ** Webhooks *)

Record XenditWebhookInput := {
  wi_eventType : string; wi_paymentRequestId : option string; wi_referenceId : option string;
  wi_paymentId : string; wi_amount : option number; wi_currency : option string;
  wi_status : option string; wi_captureIds : list string;
}.

(** [sort().join(',')] and the fingerprint of an event. *)
Fixpoint join (sep : string) (l : list string) : string :=
  match l with
  | [] => ""
  | [s] => s
  | s :: l => s ++ sep ++ join sep l
  end%string.
Definition idempotency_key (input : XenditWebhookInput) : string :=
  sha256_text (join (String Ascii.zero EmptyString)
    ["xendit-payments-v3"%string; wi_paymentId input; wi_eventType input;
     default "" (wi_status input);
     join "," (sort_by String.leb (wi_captureIds input))]).

Definition find_by (column : InvoiceRow → option string) (v : option string)
  : Tx Db (option InvoiceRow) :=
  match v with
  | Some s => if is_empty s then mret None
              else select_first TInvoice (λ r, bool_decide (column r = Some s) && live r)
  | None => mret None
  end.
Definition option_list {A} (o : option A) : list A :=
  match o with Some a => [a] | None => [] end.
(** The invoice an event is about. *)
Definition correlate (input : XenditWebhookInput) : Tx Db InvoiceRow :=
  byRequest ← find_by iv_providerPaymentRequestId (wi_paymentRequestId input);
  byPayment ← select_first TInvoice (λ r,
    bool_decide (iv_providerPaymentId r = Some (wi_paymentId input)) && live r);
  byReference ← find_by iv_providerReferenceId (wi_referenceId input);
  byNumber ← find_by (λ r, Some (iv_invoiceNumber r)) (wi_referenceId input);
  _ ← tx_throw_if (bool_decide (byRequest = None ∧ byPayment = None))
        (NotFoundException "Xendit payment ID is not pre-correlated to an ERP invoice");
  let invoices := option_list byRequest ++ option_list byPayment ++ option_list byReference ++
                  option_list byNumber in
  _ ← tx_throw_if (negb (forallb (λ r, forallb (λ r', bool_decide (iv_id r = iv_id r')) invoices)
                          invoices))
        (ConflictException "Xendit identifiers resolve to different ERP invoices");
  match invoices with
  | r :: _ => mret r
  | [] => tx_throw (NotFoundException "No ERP invoice matched the authenticated Xendit webhook")
  end.

(** [a && b !== a]: the provider's id is known and another one comes. *)
Definition differs (known given : option string) : bool :=
  truthy known && negb (bool_decide (given = known)).
Definition check_webhook (input : XenditWebhookInput) (invoice : InvoiceRow) : result string :=
  match wi_amount input, wi_currency input, wi_status input with
  | Some amount, Some currency, Some status =>
      if negb (isFinite amount) || is_empty currency || is_empty status
      then Err (BadRequestException "Xendit webhook is missing financial status, amount, or currency")
      else if negb (eqb (iv_amountCents invoice) amount)
      then Err (BadRequestException "Provider amount does not match ERP invoice")
      else if negb (bool_decide (iv_currency invoice = currency))
      then Err (BadRequestException "Provider currency does not match ERP invoice")
      else if differs (iv_providerPaymentRequestId invoice) (wi_paymentRequestId input) ||
              differs (iv_providerPaymentId invoice) (Some (wi_paymentId input)) ||
              differs (iv_providerReferenceId invoice) (wi_referenceId input)
      then Err (ConflictException "Xendit identifiers do not match the existing ERP correlation")
      else Ok status
  | _, _, _ =>
      Err (BadRequestException "Xendit webhook is missing financial status, amount, or currency")
  end.

Inductive Transition := ToPAID | ToFAILED | ToNONE.
#[export] Instance Transition_eq_dec : EqDecision Transition.
Proof. solve_decision. Defined.
Definition transition_of (eventType status : string) : result Transition :=
  if bool_decide (eventType = "payment.capture" ∧ status = "SUCCEEDED")%string then Ok ToPAID
  else if bool_decide (eventType = "payment.failure" ∧
                       status ∈ ["FAILED"; "EXPIRED"; "CANCELED"])%string then Ok ToFAILED
  else if bool_decide (eventType = "payment.authorization" ∧ status = "AUTHORIZED")%string
  then Ok ToNONE
  else Err (BadRequestException "Xendit event type and payment status are not a supported pair").
Definition transition_name (t : Transition) : string :=
  match t with ToPAID => "PAID" | ToFAILED => "FAILED" | ToNONE => "NONE" end.

Inductive WebhookOutcome := WebhookPROCESSED | WebhookDUPLICATE | WebhookIGNORED.
#[export] Instance WebhookOutcome_eq_dec : EqDecision WebhookOutcome.
Proof. solve_decision. Defined.

Definition by_key (key : string) (r : WebhookRow) : bool :=
  bool_decide (xw_idempotencyKey r = key).
(** [createMany({ skipDuplicates: true })] of one receipt. *)
Definition create_receipt (input : XenditWebhookInput) (key : string) : Tx Db nat :=
  n ← count TWebhook (by_key key);
  if (n =? 0)%nat then
    _ ← insert TWebhook (λ i, {| xw_id := i; xw_idempotencyKey := key;
          xw_paymentRequestId := wi_paymentRequestId input; xw_paymentId := wi_paymentId input;
          xw_referenceId := wi_referenceId input; xw_eventType := wi_eventType input;
          xw_paymentStatus := default "UNKNOWN"%string (wi_status input);
          xw_outcome := "PROCESSING"; xw_processedAt := None |});
    mret 1
  else mret 0.
Definition set_outcome (now : Date) (outcome : string) (r : WebhookRow) : WebhookRow :=
  {| xw_id := xw_id r; xw_idempotencyKey := xw_idempotencyKey r;
     xw_paymentRequestId := xw_paymentRequestId r; xw_paymentId := xw_paymentId r;
     xw_referenceId := xw_referenceId r; xw_eventType := xw_eventType r;
     xw_paymentStatus := xw_paymentStatus r; xw_outcome := outcome;
     xw_processedAt := Some now |}.
Definition close_receipt (now : Date) (key outcome : string) : Tx Db unit :=
  n ← update_many TWebhook (by_key key) (set_outcome now outcome);
  tx_throw_if (n =? 0)%nat (PrismaError "P2025").

(** [subscription.updateMany({ where: { id, tenantId }, data: { status } })]. *)
Definition set_subscription_status (s : SubscriptionStatus) (r : SubscriptionRow)
  : SubscriptionRow :=
  {| sb_id := sb_id r; sb_tenantId := sb_tenantId r; sb_planId := sb_planId r;
     sb_pendingPlanId := sb_pendingPlanId r; sb_status := s; sb_startedAt := sb_startedAt r;
     sb_endedAt := sb_endedAt r; sb_createdAt := sb_createdAt r;
     sb_deletedAt := sb_deletedAt r |}.
Definition subscription_of (id tenantId : string) (r : SubscriptionRow) : bool :=
  bool_decide (sb_id r = id) && bool_decide (sb_tenantId r = tenantId).
Definition update_subscription (id tenantId : string) (s : SubscriptionStatus) : Tx Db nat :=
  update_many TSubscription (subscription_of id tenantId) (set_subscription_status s).
(** [if (invoice.subscriptionId) ...]. *)
Definition when_subscribed (invoice : InvoiceRow) (f : string → Tx Db unit) : Tx Db unit :=
  match iv_subscriptionId invoice with
  | Some i => if is_empty i then mret tt else f i
  | None => mret tt
  end.

Definition paid_event (invoice : InvoiceRow) : DomainEvent :=
  EvBilling (InvoicePaidEvent (iv_id invoice) (iv_invoiceNumber invoice) (iv_tenantId invoice)
               (iv_subscriptionId invoice) (iv_amountCents invoice)).
Definition webhook_paid (now : Date) (invoice : InvoiceRow) : Tx Db unit :=
  _ ← when_subscribed invoice (λ i,
        _ ← update_subscription i (iv_tenantId invoice) SubscriptionACTIVE; mret tt);
  post_event now (Some (iv_tenantId invoice)) (paid_event invoice) None.
Definition webhook_failed (now : Date) (invoice : InvoiceRow) (status : string) : Tx Db unit :=
  let tenantId := iv_tenantId invoice in
  _ ← post_event now (Some tenantId)
        (EvBilling (InvoiceFailedEvent (iv_id invoice) (iv_invoiceNumber invoice) tenantId
                      (iv_subscriptionId invoice) (Some status))) None;
  when_subscribed invoice (λ i,
    subscription ← select_first TSubscription (λ r,
      subscription_of i tenantId r && bool_decide (sb_deletedAt r = None));
    match subscription with
    | None => mret tt
    | Some s =>
        _ ← update_subscription (sb_id s) tenantId PAST_DUE;
        post_event now (Some tenantId)
          (EvSubscription (SubscriptionPastDueEvent (sb_id s) tenantId (iv_amountCents invoice)))
          (Some now)
    end).

Definition webhook_data (now : Date) (input : XenditWebhookInput) (t : Transition) : InvoiceData :=
  {| ivd_status := Some (transition_name t);
     ivd_paidAt := if bool_decide (t = ToPAID) then Some now else None;
     ivd_referenceId := wi_referenceId input; ivd_paymentRequestId := wi_paymentRequestId input;
     ivd_paymentId := Some (wi_paymentId input); ivd_providerStatus := wi_status input |}.
(** The event once its receipt is made. *)
Definition process_new (now : Date) (input : XenditWebhookInput) (key : string)
  : Tx Db WebhookOutcome :=
  invoice ← correlate input;
  status ← tx_lift (check_webhook input invoice);
  transition ← tx_lift (transition_of (wi_eventType input) status);
  if bool_decide (transition = ToNONE) || negb (has_status "PENDING" invoice) then
    _ ← close_receipt now key "IGNORED"; mret WebhookIGNORED
  else
    updated ← update_invoice (iv_id invoice) (pending_of (iv_id invoice) (iv_tenantId invoice))
                (webhook_data now input transition);
    if negb (updated =? 1)%nat then
      _ ← close_receipt now key "IGNORED"; mret WebhookIGNORED
    else
      _ ← match transition with
          | ToPAID => webhook_paid now invoice
          | _ => webhook_failed now invoice status
          end;
      _ ← close_receipt now key "PROCESSED";
      mret WebhookPROCESSED.
Definition process_tx (now : Date) (input : XenditWebhookInput) (key : string)
  : Tx Db WebhookOutcome :=
  inserted ← create_receipt input key;
  if (inserted =? 0)%nat then mret WebhookDUPLICATE else process_new now input key.
Definition processXenditWebhookEvent (now : Date) (input : XenditWebhookInput) (key : string)
  : GFlow WebhookOutcome := call (process_tx now input key).
Definition handleXenditWebhookEvent (now : Date) (input : XenditWebhookInput)
  : GFlow WebhookOutcome := processXenditWebhookEvent now input (idempotency_key input).

(** ** Settling and cancelling by hand *)

Definition settle_tx (now : Date) (id tenantId : string) (paidAt : Date)
  : Tx Db (option InvoiceRow) :=
  invoice ← select_first TInvoice (pending_of id tenantId);
  match invoice with
  | None => mret None
  | Some invoice =>
      updated ← update_invoice id (pending_of id tenantId)
                  {| ivd_status := Some "PAID"%string; ivd_paidAt := Some paidAt;
                     ivd_referenceId := None; ivd_paymentRequestId := None;
                     ivd_paymentId := None; ivd_providerStatus := None |};
      if negb (updated =? 1)%nat then mret None else
      _ ← when_subscribed invoice (λ i,
            _ ← update_subscription i tenantId SubscriptionACTIVE; mret tt);
      _ ← post_event now None (paid_event invoice) None;
      findInvoiceById id tenantId
  end.
Definition handlePaymentSuccess (now : Date) (tenantId invoiceId : string) (paidAt : Date)
  : GFlow unit :=
  invoice ← call (findInvoiceById invoiceId tenantId);
  match invoice with
  | None => throw (NotFoundException "Invoice not found")
  | Some invoice =>
      if has_status "PAID" invoice then mret tt
      else _ ← call (settle_tx now invoiceId tenantId paidAt); mret tt
  end.

(** [updateInvoiceStatus] with an expected status. *)
Definition updateInvoiceStatus (id tenantId status expectedStatus : string)
  : GFlow (option InvoiceRow) :=
  updated ← call (update_invoice id
    (λ r, of_tenant id tenantId r && has_status expectedStatus r) (status_only status));
  if negb (updated =? 1)%nat then mret None else call (findInvoiceById id tenantId).

(** The context of the request, and its observability fields. *)
Context (ctx : Outbox.Context_) (observability : json).
Definition publish (now : Date) (e : DomainEvent) : Tx Db unit :=
  Outbox.outbox_publish now ctx observability (event_type e) (payload_json e) None.

(** The subscription calls that [Subscriptions] makes on the database alone. *)
Fixpoint on_gateway {A} (f : Flow Db Empty_set Empty_set A) : GFlow A :=
  match f with
  | Return r => Return r
  | Transact X m k => Transact X m (λ r, on_gateway (k r))
  | Ask q k => match q with end
  end.

Definition handlePaymentFailure (now : Date) (userId : option string)
    (tenantId invoiceId : string) (reason : option string) : GFlow unit :=
  invoice ← call (findInvoiceById invoiceId tenantId);
  match invoice with
  | None => throw (NotFoundException "Invoice not found")
  | Some invoice =>
      updated ← updateInvoiceStatus invoiceId tenantId "FAILED" "PENDING";
      match updated with
      | None => mret tt
      | Some _ =>
          _ ← call (publish now
                 (EvBilling (InvoiceFailedEvent (iv_id invoice) (iv_invoiceNumber invoice) tenantId
                               (iv_subscriptionId invoice) reason)));
          match iv_subscriptionId invoice with
          | Some i =>
              if is_empty i then mret tt else
              subscription ← call (SubscriptionService.findById i tenantId);
              match subscription with
              | None => mret tt
              | Some a =>
                  _ ← on_gateway (SubscriptionService.save now userId
                         (Subscription.markPastDue (iv_amountCents invoice) a));
                  mret tt
              end
          | None => mret tt
          end
      end
  end.

Definition cancel_tx (now : Date) (id tenantId : string) : Tx Db (option InvoiceRow) :=
  attempts ← select TAttempt (λ a, bool_decide (xa_invoiceId a = id));
  updated ← update_invoice id (λ r,
      pending_of id tenantId r && bool_decide (iv_providerPaymentRequestId r = None) &&
      bool_decide (iv_providerPaymentId r = None) && forallb (in_state AttemptREJECTED) attempts)
    (status_only "CANCELLED");
  if negb (updated =? 1)%nat then mret None else
  invoice ← load_row TInvoice (of_tenant id tenantId)
              (JsError "Cancelled invoice could not be reloaded");
  _ ← post_event now (Some tenantId)
        (EvBilling (InvoiceCancelledEvent (iv_id invoice) (iv_invoiceNumber invoice) tenantId))
        None;
  mret (Some invoice).
Definition cancelPendingInvoice (now : Date) (tenantId id : string) : GFlow InvoiceRow :=
  invoice ← call (findInvoiceById id tenantId);
  match invoice with
  | None => throw (NotFoundException "Invoice not found")
  | Some invoice =>
      if negb (has_status "PENDING" invoice)
      then throw (ConflictException "Only pending invoices can be cancelled")
      else if truthy (iv_providerPaymentRequestId invoice) || truthy (iv_providerPaymentId invoice)
      then throw (ConflictException "Invoice cannot be cancelled while a provider payment is active")
      else
        cancelled ← call (cancel_tx now id tenantId);
        match cancelled with
        | None => throw (ConflictException
                    "Invoice has an active or unresolved provider payment attempt")
        | Some _ =>
            reloaded ← call (findInvoiceById id tenantId);
            match reloaded with
            | None => throw (NotFoundException "Cancelled invoice could not be reloaded")
            | Some invoice => mret invoice
            end
        end
  end.

(** ** Billing a period *)

(** [getBillingPeriod]: the month, and its last millisecond. *)
Definition getBillingPeriod (reference : Date) (monthOffset : Z) : Date * Date :=
  let year := getFullYear reference in
  let month := (getMonth reference + monthOffset)%Z in
  (newDate year month 1 0 0 0 0, newDate year (month + 1) 0 23 59 59 999)%Z.
Definition billing_period_key (subscriptionId : string) (start : Date) : string :=
  (subscriptionId ++ ":" ++ pretty (getFullYear start) ++ "-" ++
   padStart 2 (pretty (getMonth start + 1)%Z))%string.

Record InvoiceCreateData := {
  icd_tenantId : string; icd_subscriptionId : string; icd_amountCents : number;
  icd_currency : string; icd_status : string; icd_dueAt : Date; icd_billingPeriodKey : string;
}.
(** [insertInvoice]: the global counter numbers the invoices. *)
Definition insertInvoice (now : Date) (d : InvoiceCreateData) : Tx Db InvoiceRow :=
  _ ← update_many TCounter (has_id TCounter "global")
        (λ c, {| nc_key := nc_key c; nc_value := (nc_value c + 1)%Z |});
  counters ← select TCounter (has_id TCounter "global");
  match counters with
  | [c] =>
      let number := ("INV-" ++ yearMonth now ++ "-" ++ padStart 6 (pretty (nc_value c)))%string in
      _ ← assert_unique TInvoice (λ r,
            bool_decide (iv_invoiceNumber r = number) ||
            bool_decide (iv_billingPeriodKey r = Some (icd_billingPeriodKey d)));
      insert TInvoice (λ i, {| iv_id := i; iv_tenantId := icd_tenantId d;
        iv_subscriptionId := Some (icd_subscriptionId d); iv_invoiceNumber := number;
        iv_amountCents := icd_amountCents d; iv_currency := icd_currency d;
        iv_status := icd_status d; iv_providerReferenceId := None;
        iv_providerPaymentRequestId := None; iv_providerPaymentId := None;
        iv_providerStatus := None; iv_billingPeriodKey := Some (icd_billingPeriodKey d);
        iv_dueAt := Some (icd_dueAt d); iv_paidAt := None; iv_createdAt := now;
        iv_deletedAt := None |})
  | _ => tx_throw (JsError "Global invoice number counter is not initialized")
  end.

Definition for_period (key : string) (r : InvoiceRow) : bool :=
  bool_decide (iv_billingPeriodKey r = Some key).
(** The transaction only reads before it inserts, and other transactions can commit
    before the insert: the two parts are two steps. *)
Definition createInvoiceForBillingPeriod (now : Date) (d : InvoiceCreateData)
    (publishEvents : InvoiceRow → Tx Db unit) : GFlow (InvoiceRow * bool) :=
  let find := call (select_first TInvoice (for_period (icd_billingPeriodKey d))) in
  existing ← find;
  match existing with
  | Some r => mret (r, false)
  | None =>
      catch (λ e,
          if bool_decide (e = PrismaError "P2002") then
            existing ← find;
            match existing with Some r => mret (r, false) | None => throw e end
          else throw e)
        (call (invoice ← insertInvoice now d;
               _ ← publishEvents invoice;
               mret (invoice, true)))
  end.

Definition created_events (now : Date) (tenantId subscriptionId : string) (amountCents : number)
    (period : Date * Date) (invoice : InvoiceRow) : Tx Db unit :=
  _ ← publish now (EvBilling (InvoiceCreatedEvent (iv_id invoice) (iv_invoiceNumber invoice)
        tenantId (Some subscriptionId) (iv_amountCents invoice) (iv_currency invoice)));
  publish now (EvBilling (PaymentRequiredEvent subscriptionId tenantId amountCents
    (toISOString (fst period) ++ "/" ++ toISOString (snd period)))).
Definition createInvoiceForPeriod (now : Date) (a : Subscription.t) (tenantId : string)
    (period : Date * Date) : GFlow (option (InvoiceRow * bool)) :=
  let subscriptionId := Subscription.id (Subscription.sub (props a)) in
  let amountCents := Subscription.plan_priceCents (Subscription.plan (props a)) in
  if leb amountCents (of_Z 0) then mret None else
  r ← createInvoiceForBillingPeriod now
        {| icd_tenantId := tenantId; icd_subscriptionId := subscriptionId;
           icd_amountCents := amountCents; icd_currency := "IDR"; icd_status := "PENDING";
           icd_dueAt := snd period;
           icd_billingPeriodKey := billing_period_key subscriptionId (fst period) |}
        (created_events now tenantId subscriptionId amountCents period);
  mret (Some r).

Definition executeBilling (now : Date) (tenantId subscriptionId : string)
  : GFlow (option (InvoiceRow * bool)) :=
  subscription ← call (SubscriptionService.findById subscriptionId tenantId);
  match subscription with
  | None => throw (NotFoundException "Subscription not found for billing")
  | Some a =>
      if negb (Subscription.isActive now a)
      then throw (BadRequestException "Cannot bill a non-active subscription")
      else createInvoiceForPeriod now a tenantId (getBillingPeriod now 0)
  end.

Definition renewSubscription (now : Date) (userId : option string)
    (tenantId subscriptionId : string) : GFlow (option (InvoiceRow * bool)) :=
  subscription ← call (SubscriptionService.findById subscriptionId tenantId);
  match subscription with
  | None => throw (NotFoundException "Subscription not found for renewal")
  | Some a =>
      let period := getBillingPeriod now 1 in
      match Subscription.renew (fst period) (snd period) a with
      | Err e => throw e
      | Ok a =>
          a ← on_gateway (SubscriptionService.save now userId a);
          createInvoiceForPeriod now a tenantId period
      end
  end.
End service.
End Billing.
