(* ===== verification/PaymentFacts.v ===== *)
(** Payment requests under concurrency: however many requests to pay an invoice run at
    once, with whatever else commits in between and whichever of them die, the gateway
    is asked at most once in a way it did not reject.

    The proof gives the process that holds the claim on the invoice a token: [valid t f]
    says that the flow [f], holding the token or not, only charges with it. *)

From stdpp Require Import base list strings option relations.
From Stdlib Require Import ZArith Lia.
From S2P Require Import Prelude Flows JsNumber JsString DomainEvents CoreDomain MasterData.
From S2P Require Import Lifecycles PurchaseOrderAggregate Subscriptions Decimal Database Outbox.
From S2P Require Import SubscriptionService Billing.
Import Gateway Billing.

Section charges.
Context {dec : Decimal} {plat : Platform}.
(** The invoice, by its id and by its number. *)
Context (I N : string).

Definition for_invoice (a : AttemptRow) : bool := bool_decide (xa_invoiceId a = I).
Definition attempts (db : Db) : list AttemptRow := List.filter for_invoice (rows db TAttempt).
Definition attempt_state (db : Db) : option AttemptState := xa_state <$> head (attempts db).
(** Only this invoice has the number, and it has at most one attempt. *)
Definition numbered (db : Db) : Prop :=
  Forall (λ r, iv_id r = I ↔ iv_invoiceNumber r = N) (rows db TInvoice) ∧
  length (attempts db) <= 1.

(** A request for this invoice, and one that the gateway did not reject. *)
Definition about (q : Request) : bool := bool_decide (rq_reference_id q = N).
Definition accepted (a : Answer) : bool :=
  match read_answer a with
  | inl e => bool_decide (ce_outcome e = OutcomeUNKNOWN)
  | inr _ => true
  end.
Definition charges (l : list (Request * Answer)) : nat :=
  length (List.filter (λ x, about (fst x) && accepted (snd x)) l).

(** What a transaction may do to the attempt and the token. *)
Definition claimable (s : option AttemptState) : Prop :=
  s = None ∨ s = Some AttemptREJECTED.
Inductive moves : bool → option AttemptState → bool → option AttemptState → Prop :=
| moves_none t s : moves t s t s
| moves_claim s : claimable s → moves false s true (Some AttemptIN_PROGRESS)
| moves_reject : moves true (Some AttemptIN_PROGRESS) false (Some AttemptREJECTED)
| moves_close t s s' :
    s ∈ [AttemptIN_PROGRESS; AttemptUNKNOWN] → s' ∈ [AttemptUNKNOWN; AttemptCOMPLETED] →
    moves t (Some s) t (Some s').

Fixpoint valid {A} (t : bool) (f : Flow Db Request Answer A) : Prop :=
  match f with
  | Return _ => True
  | Ask q k =>
      if about q then t = true ∧ ∀ a, valid (negb (accepted a)) (k a)
      else ∀ a, valid t (k a)
  | Transact X m k => ∀ db r db',
      numbered db → transaction m db = (r, db') →
      numbered db' ∧ ∃ t', moves t (attempt_state db) t' (attempt_state db') ∧ valid t' (k r)
  end.

Lemma valid_transact {A B} t (m : Tx Db A) (k : result A → Flow Db Request Answer B) :
  (∀ db r db', numbered db → transaction m db = (r, db') →
     numbered db' ∧ ∃ t', moves t (attempt_state db) t' (attempt_state db') ∧ valid t' (k r)) →
  valid t (Transact A m k).
Proof. done. Qed.

Lemma valid_bind {A B} (f : A → Flow Db Request Answer B) m t :
  valid t m → (∀ t a, valid t (f a)) → valid t (m ≫= f).
Proof.
  intros Hm Hf. revert t Hm. induction m as [r|X x k IH|q k IH]; simpl; intros t Hm.
  - destruct r; [apply Hf|done].
  - intros db r db' Hn Ht. destruct (Hm db r db' Hn Ht) as (Hn' & t' & Hmv & Hv).
    split; [done|]. exists t'. split; [done|]. by apply IH.
  - destruct (about q); [destruct Hm as [-> Hm]; split; [done|]|]; intros a; by apply IH.
Qed.

(** A call that reads, or that leaves the attempts of the invoice alone. *)
Lemma valid_frame {A B} t (m : Tx Db A) (k : result A → Flow Db Request Answer B) :
  (∀ db a db', numbered db → m db = Ok (a, db') →
     numbered db' ∧ attempt_state db' = attempt_state db ∧ valid t (k (Ok a))) →
  (∀ e, valid t (k (Err e))) → valid t (Transact A m k).
Proof.
  intros Hok Herr db r db' Hn Ht. unfold transaction in Ht.
  destruct (m db) as [[a s]|e] eqn:E; injection Ht as <- <-.
  - destruct (Hok _ _ _ Hn E) as (Hn' & Hs & Hv). split; [done|]. exists t.
    rewrite Hs. split; [constructor|done].
  - split; [done|]. exists t. split; [constructor|done].
Qed.

(** *** The transactions *)

Lemma attempts_update p st v db :
  attempts (on TAttempt (map_where p (set_attempt st v)) db) =
    map_where p (set_attempt st v) (attempts db).
Proof. unfold attempts. rewrite rows_on_same. by apply filter_map_where. Qed.
Lemma state_update p st v db :
  length (attempts db) <= 1 →
  attempt_state (on TAttempt (map_where p (set_attempt st v)) db) =
    (λ a, if p a then st else xa_state a) <$> head (attempts db).
Proof.
  intros Hl. unfold attempt_state. rewrite attempts_update.
  destruct (attempts db) as [|a l]; simpl; [done|]. by destruct (p a).
Qed.
Lemma numbered_attempts f db :
  (∀ l, List.filter for_invoice (f l) = [] ∨
        length (List.filter for_invoice (f l)) <= length (List.filter for_invoice l)) →
  numbered db → numbered (on TAttempt f db).
Proof.
  unfold numbered, attempts. intros Hf [Hn Hl].
  rewrite rows_on_same, rows_on_other by done. split; [done|].
  destruct (Hf (rows db TAttempt)) as [->|H]; simpl; lia.
Qed.
Lemma numbered_update p st v db :
  numbered db → numbered (on TAttempt (map_where p (set_attempt st v)) db).
Proof.
  apply numbered_attempts. intros l. right. rewrite filter_map_where by done.
  unfold map_where. by rewrite length_map.
Qed.
Lemma numbered_invoice p d db :
  numbered db → numbered (on TInvoice (map_where p (set_invoice d)) db).
Proof.
  unfold numbered, attempts. intros [Hn Hl].
  rewrite rows_on_same, rows_on_other by done. split; [|done].
  unfold map_where. apply Forall_map. eapply Forall_impl; [exact Hn|].
  intros r Hr. simpl. by destruct (p r).
Qed.
Lemma state_other t f db : t ≠ TAttempt → attempt_state (on t f db) = attempt_state db.
Proof. intros Ht. unfold attempt_state, attempts. by rewrite rows_on_other. Qed.

Lemma complete_inv i T ref pid db u db' :
  completeXenditPaymentRequest i T ref pid db = Ok (u, db') →
  ∃ p d q v, db' = on TAttempt (map_where q (set_attempt AttemptCOMPLETED v))
                    (on TInvoice (map_where p (set_invoice d)) db) ∧
    ∀ a, q a = true → xa_state a ∈ [AttemptIN_PROGRESS; AttemptUNKNOWN].
Proof.
  unfold completeXenditPaymentRequest, update_invoice, update_attempt. intros H.
  apply tx_bind_ok in H as (n & d1 & E & H). apply update_unique_inv in E as [-> ->].
  apply tx_bind_ok in H as ([] & d2 & E & H).
  unfold tx_throw_if, tx_lift, throw_if in E. destruct (negb _); [done|]. injection E as <-.
  apply tx_bind_ok in H as (n & d3 & E & H). apply update_unique_inv in E as [-> ->].
  unfold tx_throw_if, tx_lift, throw_if in H. destruct (negb _); [done|]. injection H as _ <-.
  do 4 eexists. split; [reflexivity|]. intros a Ha. cbv beta in Ha. by bool_hyps.
Qed.
Lemma record_inv i T st v db n db' :
  recordXenditPaymentRequestOutcome i T st v db = Ok (n, db') →
  ∃ p w, db' = on TAttempt (map_where p (set_attempt st w)) db ∧
    ∀ a, p a = true → xa_invoiceId a = i ∧ xa_state a = AttemptIN_PROGRESS.
Proof.
  unfold recordXenditPaymentRequestOutcome, update_attempt. intros H.
  apply update_unique_inv in H as [_ ->]. do 2 eexists. split; [reflexivity|].
  intros a Ha. cbv beta in Ha. unfold attempt_of, in_state in Ha. by bool_hyps.
Qed.

(** Attempts of other invoices do not matter, one of this invoice is claimed. *)
Lemma claim_inv i T db c db' :
  numbered db → claimXenditPaymentRequest i T db = Ok (c, db') →
  numbered db' ∧
  if cl_claimed c && bool_decide (i = I)
  then claimable (attempt_state db) ∧ attempt_state db' = Some AttemptIN_PROGRESS
  else attempt_state db' = attempt_state db.
Proof.
  intros Hn H. unfold claimXenditPaymentRequest in H.
  apply tx_bind_ok in H as (n & d1 & [= <- <-] & H).
  destruct (negb _); [by injection H as <- <-|].
  apply tx_bind_ok in H as (ins & d1 & E & H). unfold create_attempt in E.
  apply tx_bind_ok in E as (n & d2 & [= <- <-] & E). destruct (_ =? 0)%nat eqn:Hz.
  - apply tx_bind_ok in E as (r & d2 & E & [= <- <-]). injection H as <- <-.
    pose proof (only_insert TAttempt [TAttempt] _ _ _ _ ltac:(set_solver) E TInvoice
                  ltac:(set_solver)) as Hinv.
    apply insert_rows in E as [-> Hr]. simpl. apply Nat.eqb_eq, length_zero_iff_nil in Hz.
    destruct Hn as [Hn Hl]. unfold numbered, attempt_state, attempts in *.
    rewrite Hr, Hinv, List.filter_app. simpl. change (for_invoice _) with (bool_decide (i = I)).
    case_bool_decide as Hi; [subst i; fold for_invoice in Hz; rewrite Hz|].
    + split_and!; [done|done|by left|done].
    + rewrite app_nil_r. by split_and!.
  - injection E as <- <-. apply tx_bind_ok in H as (o & d1 & [= <- <-] & H).
    destruct (List.find _ _) as [a|] eqn:Hf; [|by injection H as <- <-].
    destruct (in_state AttemptREJECTED a) eqn:Hr; [|by injection H as <- <-].
    apply tx_bind_ok in H as (n & d2 & E & [= <- <-]). injection E as <- <-.
    split; [by apply numbered_update|]. rewrite state_update by apply Hn.
    destruct (decide (i = I)) as [->|Hi].
    + rewrite bool_decide_true, andb_true_r by done.
      apply find_some_in in Hf as [Hin Ha]. unfold attempt_of in Ha. bool_hyps.
      assert (Hat : attempts db = [a]).
      { assert (Hm : a ∈ attempts db).
        { unfold attempts. apply list_elem_of_In, filter_In. split; [by apply list_elem_of_In|].
          by apply bool_decide_true. }
        destruct Hn as [_ Hl]. destruct (attempts db) as [|b [|]]; simpl in *;
          [by apply elem_of_nil in Hm| |lia]. by apply list_elem_of_singleton in Hm as ->. }
      unfold attempt_state. rewrite Hat. simpl.
      unfold attempt_of at 2. rewrite !bool_decide_true, Hr by done. simpl.
      destruct (_ =? 1)%nat eqn:Hone; simpl.
      * split; [|done]. right. unfold in_state in Hr. bool_hyps. by f_equal.
      * exfalso. apply Nat.eqb_neq in Hone. apply Hone.
        rewrite (List.filter_ext _ (λ r, for_invoice r &&
          (bool_decide (xa_tenantId r = T) && in_state AttemptREJECTED r)))
          by (intros b; by rewrite andb_assoc).
        rewrite filter_and. fold (attempts db). rewrite Hat. simpl.
        by rewrite bool_decide_true, Hr by done.
    + rewrite bool_decide_false, andb_false_r by done. unfold attempt_state.
      destruct (attempts db) as [|b l] eqn:Hb; [done|]. simpl.
      assert (Hbi : xa_invoiceId b = I).
      { assert (b ∈ attempts db) as Hm by (rewrite Hb; left).
        unfold attempts in Hm. apply list_elem_of_In, filter_In in Hm as [_ Hm].
        by apply bool_decide_eq_true in Hm. }
      unfold attempt_of. rewrite (bool_decide_false (xa_invoiceId b = i)) by congruence. done.
Qed.

(** *** The flows *)

Lemma attempt_mine db a : head (attempts db) = Some a → xa_invoiceId a = I.
Proof.
  unfold attempts. rewrite <- find_head. intros [_ H]%find_some_in. by apply bool_decide_eq_true in H.
Qed.

Lemma valid_find_invoice {B} t i T (k : option InvoiceRow → Flow Db Request Answer B) :
  (∀ o, (∀ r, o = Some r → iv_id r = i ∧ (iv_id r = I ↔ iv_invoiceNumber r = N)) →
     valid t (k o)) →
  valid t (o ← call (findInvoiceById i T); k o).
Proof.
  intros Hk. apply valid_frame; [|done]. intros db o db' Hn [= <- <-]. split_and!; [done..|].
  apply Hk. intros r [Hin Hr]%find_some_in. unfold of_tenant in Hr. bool_hyps.
  split; [done|]. destruct Hn as [Hn _]. by eapply Forall_forall in Hn.
Qed.
Lemma valid_find_attempt {B} t i T (k : option AttemptRow → Flow Db Request Answer B) :
  (∀ o, valid t (k o)) → valid t (o ← call (findXenditPaymentRequestAttempt i T); k o).
Proof.
  intros Hk. apply valid_frame; [|done]. intros db o db' Hn [= <- <-]. by split_and!.
Qed.

Lemma valid_complete {B} t i T ref pid (k : result unit → Flow Db Request Answer B) :
  (∀ r, valid t (k r)) →
  valid t (Transact unit (completeXenditPaymentRequest i T ref pid) k).
Proof.
  intros Hk db r db' Hn Ht. unfold transaction in Ht.
  destruct (completeXenditPaymentRequest _ _ _ _ db) as [[u s]|e] eqn:E; injection Ht as <- <-;
    [|by split; [done|]; exists t; split; [constructor|]].
  apply complete_inv in E as (p & d & q & v & -> & Hq).
  assert (Hn' : numbered (on TInvoice (map_where p (set_invoice d)) db)) by by apply numbered_invoice.
  split; [by apply numbered_update|]. exists t. split; [|done].
  rewrite state_update by apply Hn'.
  rewrite <- (state_other TInvoice (map_where p (set_invoice d))) by done.
  unfold attempt_state. destruct (head _) as [a|]; simpl; [|constructor].
  destruct (q a) eqn:Ha; [|constructor]. constructor; [by apply Hq|]. right. left.
Qed.

Lemma valid_record t i T st v :
  st = AttemptUNKNOWN ∨ st = AttemptREJECTED ∧ (i = I → t = true) →
  valid t (recordPaymentRequestOutcome i T st v).
Proof.
  intros Hst db r db' Hn Ht. unfold transaction in Ht.
  destruct (recordXenditPaymentRequestOutcome _ _ _ _ db) as [[u s]|e] eqn:E;
    injection Ht as <- <-; [|by split; [done|]; exists t; split; [constructor|]].
  apply record_inv in E as (p & w & -> & Hp). split; [by apply numbered_update|].
  rewrite state_update by apply Hn. pose proof (attempt_mine db) as Hm. unfold attempt_state.
  destruct (head _) as [a|]; simpl; [|by exists t; split; [constructor|]].
  specialize (Hm a eq_refl).
  destruct (p a) eqn:Ha; [|by exists t; split; [constructor|]].
  apply Hp in Ha as [Hi ->]. destruct Hst as [->|[-> Htok]].
  - exists t. split; [|done]. constructor; left.
  - rewrite (Htok ltac:(congruence)). exists false. split; [constructor|done].
Qed.

Definition rejected (res : ChargeError + ChargeResult) : bool :=
  match res with inl e => bool_decide (ce_outcome e = OutcomeREJECTED) | inr _ => false end.

Lemma valid_settle t inv T res :
  (rejected res = true → iv_id inv = I → t = true) → valid t (settle_charge inv T res).
Proof.
  intros Ht. destruct res as [[m o]|r]; unfold settle_charge; cbv beta iota.
  - apply valid_bind; [|done]. apply valid_record. destruct o; [right|by left]. split; [done|].
    by apply Ht.
  - assert (Hu : ∀ v, valid t (recordPaymentRequestOutcome (iv_id inv) T AttemptUNKNOWN v))
      by (intros; apply valid_record; by left).
    destruct (cr_paymentRequestId r) as [i|]; [|apply valid_bind; [apply Hu|done]].
    destruct (is_empty i); [apply valid_bind; [apply Hu|done]|].
    apply valid_complete. intros [u|e]; [done|].
    apply valid_bind; [|done]. apply valid_bind; [apply Hu|done].
Qed.

Lemma valid_charge apiKey t inv T ch :
  (iv_id inv = I ↔ iv_invoiceNumber inv = N) → (iv_id inv = I → t = true) →
  valid t (charge_claimed apiKey inv T ch).
Proof.
  intros Hnum Ht. unfold charge_claimed, charge.
  destruct (check_input _ _) as [e|q] eqn:E; [by apply valid_settle|].
  assert (Hq : rq_reference_id q = iv_invoiceNumber inv).
  { unfold check_input in E. repeat (destruct (_ || _) in E; [done|]).
    destruct (negb _) in E; [done|]. by injection E as <-. }
  simpl. unfold about. rewrite Hq. case_bool_decide as HN.
  - apply Hnum in HN. split; [by apply Ht|]. intros a. apply valid_settle.
    intros Hr _. unfold accepted, rejected in *. destruct (read_answer a) as [e|]; [|done].
    bool_hyps. by rewrite Hr.
  - intros a. apply valid_settle. intros _ Hi. exfalso. by apply HN, Hnum.
Qed.

Lemma valid_recover t inv T o (rest : Flow Db Request Answer (string * PaymentState)) :
  valid t rest → valid t (recover_or inv T o rest).
Proof.
  intros Hr. unfold recover_or. destruct o as [a|]; [|done]. destruct (truthy _); [|done].
  apply valid_complete. by intros [u|e].
Qed.

Lemma valid_follow inv T : valid false (follow_claim inv T).
Proof.
  apply valid_find_invoice. intros o _.
  assert (Hf : valid false
    (attempt ← call (findXenditPaymentRequestAttempt (iv_id inv) T);
     recover_or inv T attempt (throw (paymentRequestAttemptConflict (xa_state <$> attempt)))))
    by (apply valid_find_attempt; intros a; by apply valid_recover).
  destruct o as [r|]; [|exact Hf]. destruct (truthy _); [done|exact Hf].
Qed.

Lemma valid_claim apiKey inv T ch :
  (iv_id inv = I ↔ iv_invoiceNumber inv = N) → valid false (claim_and_charge apiKey inv T ch).
Proof.
  intros Hnum. apply valid_transact. intros db r db' Hn Ht. unfold transaction in Ht.
  destruct (claimXenditPaymentRequest _ _ db) as [[c s]|e] eqn:E; injection Ht as <- <-;
    [|by split; [done|]; exists false; split; [constructor|]].
  apply claim_inv in E as [Hn' Hs]; [|done]. split; [done|].
  destruct (cl_claimed c) eqn:Hc; simpl in Hs.
  - case_bool_decide as Hi.
    + destruct Hs as [Hcl ->]. exists true. split; [by constructor|].
      cbv beta iota. by apply valid_charge.
    + rewrite Hs. exists false. split; [constructor|]. cbv beta iota.
      by apply valid_charge.
  - rewrite Hs. exists false. split; [constructor|]. cbv beta iota. apply valid_follow.
Qed.

Lemma valid_create apiKey gateway T i ch :
  valid false (createXenditPaymentRequest apiKey gateway T i ch).
Proof.
  apply valid_find_invoice. intros o Ho. destruct o as [inv|]; [|done].
  destruct (Ho inv eq_refl) as [_ Hnum].
  destruct (negb _); [done|]. destruct (truthy _); [done|]. destruct (negb gateway); [done|].
  apply valid_find_attempt. intros a. apply valid_recover.
  destruct a as [a|]; [|by apply valid_claim]. destruct (in_state _ _); [by apply valid_claim|done].
Qed.

(** *** The pool *)

Definition tokens (ts : list bool) : nat := length (List.filter id ts).

(** The requests of all processes, and what everyone else may do: anything but touch
    the attempts of the invoice or give its number away. *)
Definition payment_request (f : Flow Db Request Answer (string * PaymentState)) : Prop :=
  ∃ apiKey gateway T i ch, f = createXenditPaymentRequest apiKey gateway T i ch.
Definition others (db db' : Db) : Prop :=
  attempts db' = attempts db ∧ (numbered db → numbered db').
Definition steps : relation (Pool Db Request Answer (string * PaymentState)) :=
  rtc (pool_step others payment_request).

Definition charge_inv (p : Pool Db Request Answer (string * PaymentState)) : Prop :=
  numbered (store p) ∧ ∃ ts, Forall2 valid ts (running p) ∧
    tokens ts + charges (log p) <= 1 ∧
    (claimable (attempt_state (store p)) → tokens ts = 0 ∧ charges (log p) = 0).

Lemma tokens_insert ts i t t' :
  ts !! i = Some t → tokens (<[i := t']> ts) + Nat.b2n t = tokens ts + Nat.b2n t'.
Proof.
  unfold tokens. revert i. induction ts as [|b ts IH]; intros [|i] H; simplify_eq/=.
  - destruct t, t'; simpl; lia.
  - specialize (IH _ H). destruct b; simpl; lia.
Qed.
Lemma tokens_delete ts i : tokens (delete i ts) <= tokens ts.
Proof.
  unfold tokens. revert i. induction ts as [|b ts IH]; intros [|i]; simpl; [lia..| |].
  - destruct b; simpl; lia.
  - specialize (IH i). destruct b; simpl; lia.
Qed.
Lemma charges_snoc l x :
  charges (l ++ [x]) = charges l + Nat.b2n (about (fst x) && accepted (snd x)).
Proof. unfold charges. rewrite List.filter_app, length_app. simpl. by destruct (_ && _). Qed.

Lemma others_state db db' : others db db' → attempt_state db' = attempt_state db.
Proof. intros [H _]. unfold attempt_state. by rewrite H. Qed.

Lemma charge_inv_step p p' :
  charge_inv p → pool_step others payment_request p p' → charge_inv p'.
Proof.
  intros (Hn & ts & Hv & Hle & Hcl) Hs. destruct Hs as [i X m k r s Hi Ht|i q k a Hi|s Hs|f Hf|i].
  - destruct (Forall2_lookup_r _ _ _ _ _ Hv Hi) as (t & Hti & Hval).
    destruct (Hval _ _ _ Hn Ht) as (Hn' & t' & Hm & Hval').
    split; [done|]. exists (<[i := t']> ts). split; [by apply Forall2_insert|]. simpl.
    pose proof (tokens_insert ts i t t' Hti) as Htok.
    inversion Hm as [b c E1 E2 E3 E4|c Hc E1 E2 E3|E1 E2 E3|b c c' Hc Hc' E1 E2 E3]; subst; simpl in *.
    + split; [lia|]. intros H. apply Hcl in H. lia.
    + apply Hcl in Hc. split; [lia|]. by intros [|].
    + split; [lia|]. intros _. lia.
    + split; [lia|]. intros Hcc. exfalso. set_unfold. destruct Hcc; naive_solver.
  - destruct (Forall2_lookup_r _ _ _ _ _ Hv Hi) as (t & Hti & Hval). simpl in Hval.
    split; [done|]. simpl. rewrite charges_snoc. simpl. destruct (about q); simpl.
    + destruct Hval as [-> Hval]. exists (<[i := negb (accepted a)]> ts).
      split; [by apply Forall2_insert|].
      pose proof (tokens_insert ts i true (negb (accepted a)) Hti) as Htok.
      destruct (accepted a); simpl in *; (split; [lia|]); intros H; apply Hcl in H; lia.
    + exists (<[i := t]> ts). split; [by apply Forall2_insert|].
      pose proof (tokens_insert ts i t t Hti) as Htok. split; [lia|].
      intros H. apply Hcl in H. lia.
  - simpl. split; [by apply Hs|]. exists ts. simpl. by rewrite (others_state _ _ Hs).
  - simpl. split; [done|]. exists (ts ++ [false]). simpl. unfold tokens in *.
    rewrite List.filter_app, length_app. simpl. rewrite Nat.add_0_r.
    split; [|done]. apply Forall2_app; [done|]. constructor; [|done].
    destruct Hf as (apiKey & gateway & T & j & ch & ->). apply valid_create.
  - simpl. split; [done|]. exists (delete i ts). simpl. split; [by apply Forall2_delete|].
    pose proof (tokens_delete ts i). split; [lia|]. intros H'. apply Hcl in H'. lia.
Qed.
End charges.

(** C1: An invoice is charged at most once.  From a store where the invoice has no payment
    attempt yet, let any number of requests to pay any invoices run at once, in any
    interleaving of their transactions and calls to the gateway, with any answers, let
    any of them die at any point, and let the rest of the program commit in between
    whatever leaves the attempts of this invoice alone: of all the requests to the
    gateway for the invoice at most one got an answer that does not reject it, and once
    one did no further attempt can be claimed. *)
Theorem no_double_charge {dec : Decimal} {plat : Platform} (I N : string)
    (p p' : Pool Db Request Answer (string * PaymentState)) :
  numbered I N (store p) → attempts I (store p) = [] → running p = [] → log p = [] →
  steps I N p p' →
  charges N (log p') <= 1 ∧
  (charges N (log p') = 1 → ¬ claimable (attempt_state I (store p'))).
Proof.
  intros Hn Ha Hr Hl Hs.
  assert (Hp : charge_inv I N p).
  { split; [done|]. exists []. rewrite Hr, Hl. split; [constructor|]. unfold tokens, charges.
    simpl. split; [lia|done]. }
  clear Hn Ha Hr Hl. induction Hs as [p|p q p' Hstep Hs IH].
  - destruct Hp as (_ & ts & _ & Hle & Hcl). split; [lia|]. intros H1 Hc. apply Hcl in Hc. lia.
  - apply IH. by eapply charge_inv_step.
Qed.

(** * A concrete run, for the witness *)

Module PaymentExamples.
Import SamplePlatform FixedPoint.
Local Open Scope string_scope.

Definition invoice : InvoiceRow :=
  {| iv_id := "i-1"; iv_tenantId := "t-1"; iv_subscriptionId := Some "s-1";
     iv_invoiceNumber := "INV-202501-000001"; iv_amountCents := of_Z 499000;
     iv_currency := "IDR"; iv_status := "PENDING"; iv_providerReferenceId := None;
     iv_providerPaymentRequestId := None; iv_providerPaymentId := None;
     iv_providerStatus := None; iv_billingPeriodKey := Some "s-1:2025-01"; iv_dueAt := None;
     iv_paidAt := None; iv_createdAt := 0%Z; iv_deletedAt := None |}.
Definition store0 : Db := on TInvoice (λ _, [invoice]) emptyDb.
Definition pool0 : Pool Db Request Answer (string * PaymentState) :=
  {| store := store0; running := []; log := [] |}.
Definition answer : Answer :=
  Some {| rs_status := 201%Z;
          rs_data := Some {| dt_payment_request_id := Some "pr-1"; dt_status := Some "PENDING";
                             dt_latest_payment_id := None; dt_message := None |} |}.

Definition request : Flow Db Request Answer (string * PaymentState) :=
  createXenditPaymentRequest (Some "key") true "t-1" "i-1" "QRIS".
(** Two requests at once: the second finds the claim of the first. *)
Definition schedule : list (action Db Request Answer (string * PaymentState)) :=
  [Start request; Start request; GoOn 0 None; GoOn 1 None; GoOn 0 None; GoOn 1 None;
   GoOn 0 None; GoOn 1 None; GoOn 0 answer; GoOn 1 None; GoOn 1 None; GoOn 0 None].

Lemma no_double_charge_witness :
  ∃ p, steps "i-1" "INV-202501-000001" pool0 p ∧
    charges "INV-202501-000001" (log p) = 1 ∧ charges "INV-202501-000001" (log p) <= 1.
Proof.
  assert (E : (charges "INV-202501-000001" ∘ log) <$> act_all pool0 schedule = Some 1)
    by (vm_compute; reflexivity).
  destruct (act_all pool0 schedule) as [p|] eqn:Hp; [|discriminate E].
  assert (Hs : steps "i-1" "INV-202501-000001" pool0 p).
  { refine (act_all_steps _ _ pool0 schedule p _ Hp).
    repeat (constructor; [first [exact Logic.I|exists (Some "key"), true, "t-1", "i-1", "QRIS"; reflexivity]|]).
    constructor. }
  exists p. split; [exact Hs|]. split; [by injection E|].
  refine (proj1 (no_double_charge "i-1" "INV-202501-000001" pool0 p _ _ _ _ Hs));
    [|reflexivity..].
  split; [repeat constructor; done|simpl; lia].
Defined.
End PaymentExamples.
