(* ===== verification/BillingFacts.v ===== *)
(** Billing: what the provider's webhooks, the settling, failing and cancelling of
    invoices by hand, and the billing runs do to the invoices. *)

From stdpp Require Import base list strings option relations.
From Stdlib Require Import ZArith Lia.
From S2P Require Import Prelude Flows JsNumber JsString DomainEvents CoreDomain MasterData.
From S2P Require Import Lifecycles PurchaseOrderAggregate Subscriptions Decimal Database Outbox.
From S2P Require Import SubscriptionService Billing.
Import Gateway Billing.

Section facts.
Context {dec : Decimal} {plat : Platform}.

(** * Frames *)

Lemma writes_update_unique ts t p taken f : t ∈ ts → writes ts (update_unique t p taken f).
Proof. intros. unfold update_unique, assert_unique. solve_writes. Qed.
Lemma writes_update_invoice ts i p d : TInvoice ∈ ts → writes ts (update_invoice i p d).
Proof. apply writes_update_unique. Qed.
Lemma writes_post ts now T e o : TOutbox ∈ ts → writes ts (post_event now T e o).
Proof. intros. unfold post_event. solve_writes. Qed.
Lemma writes_create_receipt ts input key : TWebhook ∈ ts → writes ts (create_receipt input key).
Proof. intros. unfold create_receipt. solve_writes. Qed.
Lemma writes_close ts now key o : TWebhook ∈ ts → writes ts (close_receipt now key o).
Proof. intros. unfold close_receipt. solve_writes. Qed.
Lemma writes_find_by ts c v : writes ts (find_by c v).
Proof. unfold find_by. solve_writes. Qed.
Lemma writes_correlate ts input : writes ts (correlate input).
Proof. unfold correlate. repeat (apply writes_bind; [auto using writes_find_by with writes|intros]). solve_writes. Qed.
Lemma writes_subscribed ts invoice f :
  (∀ i, writes ts (f i)) → writes ts (when_subscribed invoice f).
Proof. intros. unfold when_subscribed. solve_writes. Qed.
Lemma writes_paid ts now invoice :
  TSubscription ∈ ts → TOutbox ∈ ts → writes ts (webhook_paid now invoice).
Proof.
  intros. apply writes_bind; [|intros; by apply writes_post].
  apply writes_subscribed. intros. unfold update_subscription. solve_writes.
Qed.
Lemma writes_failed ts now invoice s :
  TSubscription ∈ ts → TOutbox ∈ ts → writes ts (webhook_failed now invoice s).
Proof.
  intros. apply writes_bind; [by apply writes_post|]. intros _. apply writes_subscribed. intros i.
  apply writes_bind; [auto with writes|]. intros [r|]; [|auto with writes].
  apply writes_bind; [unfold update_subscription; solve_writes|]. intros. by apply writes_post.
Qed.

(** * Webhooks *)

(** A receipt with the key is there. *)
Definition received (key : string) (db : Db) : bool :=
  existsb (A := row TWebhook) (by_key key) (rows db TWebhook).

Lemma receipt_duplicate now input key db :
  received key db = true →
  process_tx now input key db = Ok (WebhookDUPLICATE, db).
Proof.
  intros He. unfold process_tx, create_receipt, count, mbind, tx_bind.
  rewrite filter_length_zero. unfold received in He. rewrite He. reflexivity.
Qed.

Lemma received_rows key db db' :
  rows db' TWebhook = rows db TWebhook → received key db' = received key db.
Proof. unfold received. by intros ->. Qed.

(** The receipt is there whatever the outcome. *)
Lemma create_receipt_inv input key db n db' :
  create_receipt input key db = Ok (n, db') →
  (n = 0 ∧ db' = db ∧ received key db = true) ∨
  (n = 1 ∧ only [TWebhook] db db' ∧ received key db' = true ∧
   received key db = false).
Proof.
  intros H. pose proof (writes_create_receipt [TWebhook] input key ltac:(set_solver) _ _ _ H) as Ho.
  unfold create_receipt in H. apply tx_bind_ok in H as (c & d & [= <- <-] & H).
  rewrite (filter_length_zero (A := row TWebhook)) in H.
  change (existsb _ _) with (received key db) in H.
  destruct (received key db) eqn:E; simpl in H.
  - injection H as <- <-. by left.
  - apply tx_bind_ok in H as (r & d & Hi & [= <- <-]). apply (insert_rows TWebhook) in Hi as [-> Hr].
    right. split_and!; [done|done| |done]. unfold received. rewrite Hr, existsb_app. simpl.
    unfold by_key at 2. simpl. rewrite bool_decide_true by done. by rewrite orb_true_r.
Qed.
Lemma existsb_outcome now key key' o l :
  existsb (by_key key) (map_where (by_key key') (set_outcome now o) l) = existsb (by_key key) l.
Proof.
  unfold map_where. induction l as [|r l IH]; [done|]. cbn. f_equal; [|exact IH].
  by destruct (by_key key' r) eqn:E.
Qed.
Lemma close_receipt_inv now key' o db u db' :
  close_receipt now key' o db = Ok (u, db') →
  only [TWebhook] db db' ∧ ∀ key, received key db' = received key db.
Proof.
  intros H. split; [by eapply (writes_close [TWebhook]); [set_solver|]|].
  unfold close_receipt in H. apply tx_bind_ok in H as (n & d & [= <- <-] & H).
  apply tx_lift_ok in H as [_ ->]. intros key.
  unfold received. rewrite rows_on_same. apply existsb_outcome.
Qed.

(** Receipts are never lost. *)
Definition keeps_receipts (db db' : Db) : Prop :=
  ∀ key, received key db = true → received key db' = true.
#[local] Instance keeps_receipts_preorder : PreOrder keeps_receipts.
Proof. split; [by intros db key|]. intros a b c H1 H2 key H. auto. Qed.
Lemma receipts_writes {A} ts (m : Tx Db A) : writes ts m → TWebhook ∉ ts → respects keeps_receipts m.
Proof. intros Hm Ht. eapply respects_writes; [done|]. intros db db' Ho key. by rewrite (received_rows _ _ _ (Ho _ Ht)). Qed.
Lemma receipts_close now key o : respects keeps_receipts (close_receipt now key o).
Proof. intros db u db' [_ H]%close_receipt_inv k. by rewrite H. Qed.
Lemma receipts_create input key : respects keeps_receipts (create_receipt input key).
Proof.
  unfold create_receipt. apply respects_bind; [typeclasses eauto|by apply (receipts_writes []); [auto with writes|set_solver]|].
  intros n. destruct (n =? 0); [|intros db a db' [= _ <-]; reflexivity].
  intros db a db' H k Hk. apply tx_bind_ok in H as (r & d & [_ Hr]%(insert_rows TWebhook) & [= _ <-]).
  unfold received in *. by rewrite Hr, existsb_app, Hk.
Qed.

Lemma find_by_inv c v db o db' :
  find_by c v db = Ok (o, db') →
  db' = db ∧ ∀ r, o = Some r → r ∈ rows db TInvoice ∧ live r = true ∧ c r = v ∧ v ≠ None.
Proof.
  unfold find_by. destruct v as [s|]; [destruct (is_empty s)|]; intros H;
    [by injection H as <- <-| |by injection H as <- <-].
  injection H as <- <-. split; [done|]. intros r [Hin Hr]%find_some_in. by bool_hyps.
Qed.
(** The invoice of an event holds one of the provider's ids of the event. *)
Definition correlated (input : XenditWebhookInput) (r : InvoiceRow) : Prop :=
  wi_paymentRequestId input ≠ None ∧
    iv_providerPaymentRequestId r = wi_paymentRequestId input ∨
  iv_providerPaymentId r = Some (wi_paymentId input).
Lemma correlate_inv input db r db' :
  correlate input db = Ok (r, db') →
  db' = db ∧ r ∈ rows db TInvoice ∧ live r = true ∧ correlated input r.
Proof.
  unfold correlate. intros H.
  apply tx_bind_ok in H as (a & d & Ea & H). apply find_by_inv in Ea as [-> Ha].
  apply tx_bind_ok in H as (b & d & [= Eb <-] & H).
  apply tx_bind_ok in H as (c & d & Ec & H). apply find_by_inv in Ec as [-> Hc].
  apply tx_bind_ok in H as (e & d & Ee & H). apply find_by_inv in Ee as [-> He].
  apply tx_bind_ok in H as ([] & d & E & H). unfold tx_throw_if in E.
  apply tx_lift_ok in E as [E ->]. apply throw_if_ok, bool_decide_eq_false in E.
  apply tx_bind_ok in H as ([] & d & E' & H). apply tx_lift_ok in E' as [_ ->].
  destruct a as [a|].
  - injection H as <- <-. destruct (Ha a eq_refl) as (? & ? & Hid & Hn).
    split_and!; [done..|]. by left.
  - destruct b as [b|]; [|naive_solver]. injection H as <- <-.
    apply find_some_in in Eb as [? Hb]. bool_hyps. split_and!; [done..|]. by right.
Qed.

Lemma post_event_ok now T e o db u db' :
  post_event now T e o db = Ok (u, db') →
  only [TOutbox] db db' ∧
  ∃ row, rows db' TOutbox = rows db TOutbox ++ [row] ∧ ob_type row = event_type e.
Proof.
  intros H. split; [by eapply (writes_post [TOutbox]); [set_solver|]|].
  unfold post_event in H. apply tx_bind_ok in H as (r & d & E & [= _ <-]).
  apply (insert_rows TOutbox) in E as [-> Er]. eauto.
Qed.

(** What a payment that succeeds or fails does to the subscription of the invoice. *)
Definition owes (invoice : InvoiceRow) (r : SubscriptionRow) : bool :=
  match iv_subscriptionId invoice with
  | Some i => negb (is_empty i) && subscription_of i (iv_tenantId invoice) r
  | None => false
  end.
Definition overdue (invoice : InvoiceRow) (l : list SubscriptionRow) : bool :=
  existsb (λ r, owes invoice r && bool_decide (sb_deletedAt r = None)) l.
Definition pay (t : Transition) (invoice : InvoiceRow) (l : list SubscriptionRow)
  : list SubscriptionRow :=
  match t with
  | ToPAID => map_where (owes invoice) (set_subscription_status SubscriptionACTIVE) l
  | _ => if overdue invoice l
         then map_where (owes invoice) (set_subscription_status PAST_DUE) l else l
  end.
Definition notices (t : Transition) (invoice : InvoiceRow) (l : list SubscriptionRow)
  : list string :=
  match t with
  | ToPAID => ["invoice.paid"%string]
  | _ => "invoice.failed"%string ::
         (if overdue invoice l then ["subscription.past-due"%string] else [])
  end.

Lemma owes_nobody invoice l :
  match iv_subscriptionId invoice with Some i => is_empty i | None => true end = true →
  overdue invoice l = false ∧ ∀ f, map_where (owes invoice) f l = l.
Proof.
  intros H. assert (Ho : ∀ r, owes invoice r = false).
  { intros r. unfold owes. destruct (iv_subscriptionId invoice); [by rewrite H|done]. }
  split; [|intros f; apply map_where_id; intros; congruence].
  unfold overdue. induction l as [|r l IH]; simpl; [done|]. by rewrite Ho.
Qed.
Lemma owes_subscription invoice i :
  iv_subscriptionId invoice = Some i → is_empty i = false →
  ∀ r, owes invoice r = subscription_of i (iv_tenantId invoice) r.
Proof. intros E He r. unfold owes. by rewrite E, He. Qed.
Lemma map_where_ext {A} (p q : A → bool) f (l : list A) :
  (∀ x, p x = q x) → map_where p f l = map_where q f l.
Proof. intros H. unfold map_where. apply map_ext. intros x. by rewrite H. Qed.

Lemma find_ext {A} (p q : A → bool) l : (∀ x, p x = q x) → List.find p l = List.find q l.
Proof. intros H. induction l as [|x l IH]; simpl; [done|]. rewrite H. by destruct (q x). Qed.
Lemma existsb_find {A} (p : A → bool) l :
  existsb p l = match List.find p l with Some _ => true | None => false end.
Proof. induction l as [|x l IH]; simpl; [done|]. by destruct (p x). Qed.

(** A step of the settlement: the subscriptions after it, and the events it adds. *)
Definition effect (subs : list SubscriptionRow) (names : list string) (db db' : Db) : Prop :=
  only [TSubscription; TOutbox] db db' ∧ rows db' TSubscription = subs ∧
  ∃ evs : list OutboxRow, rows db' TOutbox = rows db TOutbox ++ evs ∧ map ob_type evs = names.
Lemma effect_event now T e o db u db' :
  post_event now T e o db = Ok (u, db') → effect (rows db TSubscription) [event_type e] db db'.
Proof.
  intros (Ho & r & Hr & Ht)%post_event_ok. split_and!.
  - eapply only_weaken; [|done]. set_solver.
  - apply Ho. set_solver.
  - exists [r]. by rewrite <- Ht.
Qed.
Lemma effect_update i T st db n db' :
  update_subscription i T st db = Ok (n, db') →
  effect (map_where (subscription_of i T) (set_subscription_status st) (rows db TSubscription))
    [] db db'.
Proof.
  intros [= _ <-]. split_and!.
  - apply only_on. set_solver.
  - apply rows_on_same.
  - exists []. rewrite rows_on_other by done. by rewrite app_nil_r.
Qed.
Lemma effect_skip db : effect (rows db TSubscription) [] db db.
Proof. split_and!; [done..|]. exists []. by rewrite app_nil_r. Qed.
Lemma effect_trans subs subs' l l' db1 db2 db3 :
  effect subs l db1 db2 → effect subs' l' db2 db3 → effect subs' (l ++ l') db1 db3.
Proof.
  intros (O1 & _ & e1 & E1 & N1) (O2 & S2 & e2 & E2 & N2). split_and!.
  - by eapply only_trans.
  - done.
  - exists (e1 ++ e2). rewrite E2, E1, map_app, N1, N2. split; [by rewrite app_assoc|done].
Qed.

Lemma effect_subs subs l db db' : effect subs l db db' → rows db' TSubscription = subs.
Proof. by intros (_ & ? & _). Qed.
Lemma effect_then_event subs l now T e o db d u db' :
  effect subs l db d → post_event now T e o d = Ok (u, db') →
  effect subs (l ++ [event_type e]) db db'.
Proof.
  intros H1 H2%effect_event. rewrite (effect_subs _ _ _ _ H1) in H2. by eapply effect_trans.
Qed.

Lemma webhook_paid_effect now r db u db' :
  webhook_paid now r db = Ok (u, db') →
  effect (pay ToPAID r (rows db TSubscription)) (notices ToPAID r (rows db TSubscription)) db db'.
Proof.
  unfold webhook_paid. intros H. apply tx_bind_ok in H as ([] & d & E & H).
  refine (effect_then_event _ [] _ _ _ _ _ _ _ _ _ H). clear H.
  unfold when_subscribed in E. unfold pay. pose proof (owes_nobody r (rows db TSubscription)) as Hn.
  destruct (iv_subscriptionId r) as [i|] eqn:Ei.
  - destruct (is_empty i) eqn:He.
    + injection E as <-. rewrite (proj2 (Hn eq_refl)). apply effect_skip.
    + apply tx_bind_ok in E as (n & d' & E & [= <-]). apply effect_update in E.
      by rewrite (map_where_ext _ _ _ _ (owes_subscription r i Ei He)).
  - injection E as <-. rewrite (proj2 (Hn eq_refl)). apply effect_skip.
Qed.

Lemma webhook_failed_effect now r s db u db' :
  webhook_failed now r s db = Ok (u, db') →
  effect (pay ToFAILED r (rows db TSubscription)) (notices ToFAILED r (rows db TSubscription))
    db db'.
Proof.
  unfold webhook_failed. intros H. apply tx_bind_ok in H as ([] & d & E & H).
  apply effect_event in E. pose proof (effect_subs _ _ _ _ E) as Es.
  unfold when_subscribed in H. unfold pay, notices. pose proof (owes_nobody r (rows db TSubscription)) as Hn.
  destruct (iv_subscriptionId r) as [i|] eqn:Ei; [destruct (is_empty i) eqn:He|].
  - injection H as _ <-. by rewrite (proj1 (Hn eq_refl)).
  - clear Hn. pose proof (owes_subscription r i Ei He) as Ho.
    apply tx_bind_ok in H as (f & d' & [= Ef <-] & H). rewrite Es in Ef.
    assert (overdue r (rows db TSubscription) = match f with Some _ => true | None => false end)
      as ->.
    { unfold overdue. rewrite existsb_find, <- Ef. erewrite find_ext; [done|].
      intros x. simpl. by rewrite Ho. }
    destruct f as [x|]; [|by injection H as _ <-].
    pose proof (proj2 (find_some_in (A := SubscriptionRow) _ _ _ Ef)) as Hx.
    simpl in Hx. bool_hyps.
    assert (Hid : sb_id x = i).
    { match goal with H : subscription_of _ _ _ = true |- _ => unfold subscription_of in H end.
      by bool_hyps. }
    rewrite Hid in H. apply tx_bind_ok in H as (n & d'' & E' & H). apply effect_update in E'.
    rewrite Es in E'.
    rewrite <- (map_where_ext _ _ _ _ Ho) in E'.
    refine (effect_then_event _ ["invoice.failed"%string] _ _ _ _ _ _ _ _ _ H).
    exact (effect_trans _ _ _ _ _ _ _ E E').
  - injection H as _ <-. by rewrite (proj1 (Hn eq_refl)).
Qed.

Lemma update_invoice_inv i p d db n db' :
  update_invoice i p d db = Ok (n, db') →
  n = length (List.filter (A := row TInvoice) p (rows db TInvoice)) ∧
  db' = on TInvoice (map_where p (set_invoice d)) db.
Proof. apply update_unique_inv. Qed.
Lemma pending_of_self r :
  live r = true → iv_status r = "PENDING"%string →
  pending_of (iv_id r) (iv_tenantId r) r = true.
Proof.
  intros Hl Hs. unfold pending_of, of_tenant, has_status.
  by rewrite Hl, Hs, !bool_decide_true.
Qed.
Lemma pending_of_id i T r : pending_of i T r = true → iv_id r = i.
Proof. unfold pending_of, of_tenant. intros. by bool_hyps. Qed.

Lemma check_webhook_ok input r status :
  check_webhook input r = Ok status →
  wi_status input = Some status ∧ wi_currency input = Some (iv_currency r) ∧
  ∃ amount, wi_amount input = Some amount ∧ isFinite amount = true ∧
    eqb (iv_amountCents r) amount = true.
Proof.
  unfold check_webhook. intros H. inv_ok H. subst. bool_hyps. subst.
  split_and!; [done|done|]. eexists. split_and!; [reflexivity|assumption|assumption].
Qed.

(** The transaction on the invoice and the event it is about. *)
Definition answers (input : XenditWebhookInput) (db : Db) (r : InvoiceRow) (t : Transition)
  : Prop :=
  r ∈ rows db TInvoice ∧ live r = true ∧ correlated input r ∧
  ∃ status amount, wi_status input = Some status ∧ wi_currency input = Some (iv_currency r) ∧
    wi_amount input = Some amount ∧ eqb (iv_amountCents r) amount = true ∧
    transition_of (wi_eventType input) status = Ok t.
Definition processed (now : Date) (input : XenditWebhookInput) (key : string) (db db' : Db)
    (out : WebhookOutcome) : Prop :=
  match out with
  | WebhookDUPLICATE => received key db = true ∧ db' = db
  | WebhookIGNORED =>
      received key db = false ∧ received key db' = true ∧ only [TWebhook] db db' ∧
      ∃ r t, answers input db r t ∧ (t = ToNONE ∨ iv_status r ≠ "PENDING"%string)
  | WebhookPROCESSED =>
      received key db = false ∧ received key db' = true ∧
      only [TWebhook; TInvoice; TSubscription; TOutbox] db db' ∧
      ∃ r t, answers input db r t ∧ iv_status r = "PENDING"%string ∧ t ≠ ToNONE ∧
        rows db' TInvoice =
          map_where (has_id TInvoice (iv_id r)) (set_invoice (webhook_data now input t))
            (rows db TInvoice) ∧
        rows db' TSubscription = pay t r (rows db TSubscription) ∧
        ∃ evs : list OutboxRow, rows db' TOutbox = rows db TOutbox ++ evs ∧
          map ob_type evs = notices t r (rows db TSubscription)
  end.

(** The part of the transaction after the receipt is made. *)
Lemma ignored_inv now input key r t db0 db out db' :
  received key db0 = false → only [TWebhook] db0 db → received key db = true →
  answers input db0 r t → t = ToNONE ∨ iv_status r ≠ "PENDING"%string →
  (_ ← close_receipt now key "IGNORED"; mret WebhookIGNORED) db = Ok (out, db') →
  processed now input key db0 db' out.
Proof.
  intros H0 Ho H1 Ha Ht H. apply tx_bind_ok in H as (u & d & [E1 E2]%close_receipt_inv & [= <- <-]).
  simpl. split_and!; [done|by rewrite E2|by eapply only_trans|eauto].
Qed.

Lemma process_inv now input key db out db' :
  keyed TInvoice db → process_tx now input key db = Ok (out, db') →
  processed now input key db db' out.
Proof.
  intros Hk H. unfold process_tx in H. apply tx_bind_ok in H as (n & d & E & H).
  apply create_receipt_inv in E as [(-> & -> & Hr)|(-> & Ho & Hr & Hf)].
  { simpl in H. by injection H as <- <-. }
  simpl in H. apply tx_bind_ok in H as (r & d' & (-> & Hin & Hl & Hc)%correlate_inv & H).
  apply tx_bind_ok in H as (status & d' & [Hst ->]%tx_lift_ok & H).
  apply tx_bind_ok in H as (t & d' & [Ht ->]%tx_lift_ok & H).
  apply check_webhook_ok in Hst as (Hws & Hwc & a & Hwa & _ & Ha).
  assert (HoI : rows d TInvoice = rows db TInvoice) by (apply Ho; set_solver).
  assert (HoS : rows d TSubscription = rows db TSubscription) by (apply Ho; set_solver).
  assert (HoO : rows d TOutbox = rows db TOutbox) by (apply Ho; set_solver).
  rewrite HoI in Hin.
  assert (Hans : answers input db r t) by (split_and!; [done..|]; by exists status, a).
  destruct (bool_decide (t = ToNONE) || negb (has_status "PENDING" r)) eqn:Eb.
  { eapply ignored_inv; [done..| |done]. apply orb_true_iff in Eb as [Eb|Eb]; bool_hyps; auto.
    right. by unfold has_status in Eb; bool_hyps. }
  bool_hyps. unfold has_status in *. bool_hyps.
  apply tx_bind_ok in H as (n & d' & [-> ->]%update_invoice_inv & H).
  assert (Hp : pending_of (iv_id r) (iv_tenantId r) r = true) by by apply pending_of_self.
  rewrite HoI in H.
  rewrite (keyed_filter TInvoice _ r db Hk Hin Hp (pending_of_id _ _)) in H. simpl in H.
  apply tx_bind_ok in H as (u & d' & E & H).
  apply tx_bind_ok in H as ([] & d'' & [Eo Er]%close_receipt_inv & [= <- <-]).
  set (d1 := on TInvoice _ d) in *.
  assert (HeS : effect (pay t r (rows db TSubscription)) (notices t r (rows db TSubscription)) d1 d').
  { replace (rows db TSubscription) with (rows d1 TSubscription)
      by (unfold d1; by rewrite rows_on_other).
    destruct t; [by eapply webhook_paid_effect|by eapply webhook_failed_effect|done]. }
  destruct HeS as (He & Hs & evs & Hev & Hn).
  assert (Hd1 : only [TInvoice] d d1) by (apply only_on; set_solver).
  assert (Hall : only [TWebhook; TInvoice; TSubscription; TOutbox] d d'').
  { eapply only_trans; [eapply only_weaken; [|exact Hd1]; set_solver|].
    eapply only_trans; [eapply only_weaken; [|exact He]; set_solver|].
    eapply only_weaken; [|exact Eo]. set_solver. }
  simpl. split_and!; [done| | |exists r, t; split_and!; [done..| | |exists evs; split; [|done]]].
  - rewrite Er, (received_rows _ _ _ (He TWebhook ltac:(set_solver))). unfold d1.
    by rewrite (received_rows _ _ _ (rows_on_other TInvoice TWebhook _ d ltac:(done))).
  - eapply only_trans; [eapply only_weaken; [|exact Ho]; set_solver|done].
  - rewrite (Eo TInvoice), (He TInvoice) by set_solver. unfold d1. rewrite rows_on_same, HoI.
    exact (keyed_map_where TInvoice _ _ r db Hk Hin Hp (pending_of_id _ _)).
  - by rewrite (Eo TSubscription) by set_solver.
  - rewrite (Eo TOutbox), Hev by set_solver. unfold d1. rewrite rows_on_other by done.
    by rewrite HoO.
Qed.

(** ** Deliveries, one after the other *)

(** The deliveries of the provider, in the order their transactions commit; [rs] are
    the outcomes so far. *)
Fixpoint deliver_all (rs : list (result WebhookOutcome)) (l : list (Date * XenditWebhookInput))
  : Flow Db Request Answer (list (result WebhookOutcome)) :=
  match l with
  | [] => mret rs
  | (now, input) :: l =>
      r ← catch (λ e, mret (Err e)) (o ← handleXenditWebhookEvent now input; mret (Ok o));
      deliver_all (rs ++ [r]) l
  end.
(** A delivery with the key that was taken up. *)
Definition takes (key : string) (x : Date * XenditWebhookInput) (r : result WebhookOutcome)
  : bool :=
  bool_decide (idempotency_key (snd x) = key) &&
  bool_decide (r ∈ [Ok WebhookPROCESSED; Ok WebhookIGNORED]).
Definition taken (key : string) (l : list (Date * XenditWebhookInput))
    (rs : list (result WebhookOutcome)) : nat :=
  length (List.filter (λ x, takes key (fst x) (snd x)) (zip l rs)).

Lemma deliver_all_cons {W} env (answer : Request → W → Answer * W) n rs now input l db w :
  exec env answer n (deliver_all rs ((now, input) :: l)) db w =
    let '(r, db1) := transaction (process_tx now input (idempotency_key input)) (env n db) in
    exec env answer (Datatypes.S n) (deliver_all (rs ++ [r]) l) db1 w.
Proof. simpl. by destruct (transaction _ _) as [[o|e] db1]. Qed.

(** What a delivery does to the receipts of a key. *)
Lemma receipts_new now input key : respects keeps_receipts (process_new now input key).
Proof.
  assert (Hignored : respects keeps_receipts (_ ← close_receipt now key "IGNORED"; mret WebhookIGNORED)).
  { apply respects_bind; [exact _|apply receipts_close|].
    intros _. by apply (receipts_writes []); [auto with writes|set_solver]. }
  unfold process_new. apply respects_bind; [exact _| |intros r].
  { apply (receipts_writes []); [apply writes_correlate|set_solver]. }
  apply respects_bind; [exact _|apply (receipts_writes []); [auto with writes|set_solver]|intros status].
  apply respects_bind; [exact _|apply (receipts_writes []); [auto with writes|set_solver]|intros t].
  case_match; [done|]. apply respects_bind; [exact _| |intros n].
  { apply (receipts_writes [TInvoice]); [apply writes_update_invoice; set_solver|set_solver]. }
  case_match; [done|]. apply respects_bind; [exact _| |intros _].
  { apply (receipts_writes [TSubscription; TOutbox]); [|set_solver].
    destruct t; (apply writes_paid || apply writes_failed); set_solver. }
  apply respects_bind; [exact _|apply receipts_close|intros _].
  apply (receipts_writes []); [auto with writes|set_solver].
Qed.

(** What a delivery does to the receipts of a key. *)
Lemma process_receipts now input db r db' key :
  transaction (process_tx now input (idempotency_key input)) db = (r, db') →
  (received key db = true → received key db' = true ∧ takes key (now, input) r = false) ∧
  (takes key (now, input) r = true → received key db' = true).
Proof.
  set (k := idempotency_key input). unfold transaction.
  destruct (process_tx now input k db) as [[out d]|e] eqn:E; intros [= <- <-].
  2: { unfold takes. rewrite andb_comm. done. }
  unfold process_tx in E. apply tx_bind_ok in E as (n & d1 & Ec & E).
  pose proof (receipts_create _ _ _ _ _ Ec) as Hc.
  apply create_receipt_inv in Ec as [(-> & -> & Hr)|(-> & _ & Hr & Hf)]; simpl in E.
  { injection E as <- <-. split; [|unfold takes; rewrite andb_comm; done].
    intros Hk. split; [done|]. unfold takes. by rewrite andb_comm. }
  pose proof (receipts_new _ _ _ _ _ _ E) as Hn. unfold takes; simpl.
  destruct (bool_decide (k = key)) eqn:Ek; fold k; rewrite Ek; simpl.
  - apply bool_decide_eq_true in Ek as <-. split; [congruence|]. auto.
  - split; [|done]. auto.
Qed.

Lemma deliver_all_run {W} env (answer : Request → W → Answer * W) key l :
  (∀ n db, received key db = true → received key (env n db) = true) →
  ∀ rs n db w, ∃ rs' db', exec env answer n (deliver_all rs l) db w = (Ok (rs ++ rs'), db', w) ∧
    length rs' = length l ∧ taken key l rs' <= (if received key (env n db) then 0 else 1).
Proof.
  intros He. induction l as [|[now input] l IH]; intros rs n db w.
  { exists [], db. simpl. rewrite app_nil_r. split_and!; [done..|]. unfold taken. simpl. lia. }
  rewrite deliver_all_cons. destruct (transaction _ (env n db)) as [r db1] eqn:Et.
  destruct (IH (rs ++ [r]) (Datatypes.S n) db1 w) as (rs' & db' & E & Hl & Ht).
  exists (r :: rs'), db'. rewrite E, <- app_assoc. split_and!; [done|simpl; by rewrite Hl|].
  apply (process_receipts _ _ _ _ _ key) in Et as [Hr Hk].
  unfold taken in *. cbn [zip zip_with List.filter fst snd].
  destruct (received key (env n db)) eqn:En.
  - destruct Hr as [Hr ->]; [done|]. rewrite (He _ _ Hr) in Ht. done.
  - destruct (takes key (now, input) r) eqn:Er; simpl; [|case_match; lia].
    rewrite (He _ _ (Hk eq_refl)) in Ht. lia.
Qed.

End facts.

(** * Theorems *)

(** C4: What a payment event of the provider does.  An event that was taken before changes
    nothing.  One that is taken up is about an invoice that holds a payment id of the
    event and agrees with it in amount and currency.  When the invoice is pending and the
    event settles it, that invoice alone becomes paid or failed, the subscription it bills
    becomes active or past due, and exactly the events of the outcome are recorded;
    otherwise nothing but the receipt is written.  An event that is refused leaves
    the store as it was. *)
Theorem webhook_settles {dec : Decimal} {plat : Platform} {W} (answer : Request → W → Answer * W)
    now input db w r db' w' :
  keyed TInvoice db →
  exec (λ _ s, s) answer 0 (handleXenditWebhookEvent now input) db w = (r, db', w') →
  match r with
  | Ok out => processed now input (idempotency_key input) db db' out
  | Err _ => db' = db
  end.
Proof.
  intros Hk. simpl. unfold transaction.
  destruct (process_tx now input (idempotency_key input) db) as [[out d]|e] eqn:E;
    intros [= <- <- _]; [by apply process_inv|done].
Qed.

(** C5: Redelivery is harmless.  Of all deliveries of events with one fingerprint, in
    whatever order they commit and with any other transactions in between that keep the
    receipts, at most one is taken up, and none is when its receipt was there. *)
Theorem webhook_once {dec : Decimal} {plat : Platform} {W} env (answer : Request → W → Answer * W)
    key l n db w :
  (∀ n db, received key db = true → received key (env n db) = true) →
  ∃ rs db', exec env answer n (deliver_all [] l) db w = (Ok rs, db', w) ∧
    length rs = length l ∧ taken key l rs <= (if received key (env n db) then 0 else 1).
Proof. intros He. by apply (deliver_all_run env answer key l He []). Qed.

(** * Concrete runs, for the witnesses *)

Module BillingExamples.
Import SamplePlatform FixedPoint.
Local Open Scope string_scope.

Definition invoice : InvoiceRow :=
  {| iv_id := "i-1"; iv_tenantId := "t-1"; iv_subscriptionId := Some "s-1";
     iv_invoiceNumber := "INV-202501-000001"; iv_amountCents := of_Z 499000;
     iv_currency := "IDR"; iv_status := "PENDING";
     iv_providerReferenceId := Some "INV-202501-000001";
     iv_providerPaymentRequestId := Some "pr-1"; iv_providerPaymentId := None;
     iv_providerStatus := Some "PENDING"; iv_billingPeriodKey := Some "s-1:2025-01";
     iv_dueAt := None; iv_paidAt := None; iv_createdAt := 0%Z; iv_deletedAt := None |}.
Definition subscription : SubscriptionRow :=
  {| sb_id := "s-1"; sb_tenantId := "t-1"; sb_planId := "p-1"; sb_pendingPlanId := None;
     sb_status := PAST_DUE; sb_startedAt := 0%Z; sb_endedAt := None; sb_createdAt := 0%Z;
     sb_deletedAt := None |}.
Definition store : Db :=
  on TSubscription (λ _, [subscription]) (on TInvoice (λ _, [invoice]) emptyDb).
Definition capture : XenditWebhookInput :=
  {| wi_eventType := "payment.capture"; wi_paymentRequestId := Some "pr-1";
     wi_referenceId := Some "INV-202501-000001"; wi_paymentId := "py-1";
     wi_amount := Some (of_Z 499000); wi_currency := Some "IDR";
     wi_status := Some "SUCCEEDED"; wi_captureIds := ["c-1"] |}.
Definition nobody : Request → unit → Answer * unit := λ _ w, (None, w).

Lemma webhook_settles_witness :
  ∃ db', exec (λ _ s, s) nobody 0 (handleXenditWebhookEvent 5%Z capture) store tt =
           (Ok WebhookPROCESSED, db', tt) ∧
         processed 5%Z capture (idempotency_key capture) store db' WebhookPROCESSED.
Proof.
  assert (Hk : keyed TInvoice store) by (unfold keyed; simpl; repeat constructor; set_solver).
  assert (Ho : fst (fst (exec (λ _ s, s) nobody 0 (handleXenditWebhookEvent 5%Z capture) store tt))
               = Ok WebhookPROCESSED) by (vm_compute; reflexivity).
  destruct (exec (λ _ s, s) nobody 0 (handleXenditWebhookEvent 5%Z capture) store tt)
    as [[r db'] w'] eqn:E. simpl in Ho. subst r. destruct w'.
  exists db'. split; [reflexivity|].
  exact (webhook_settles nobody 5%Z capture store tt _ db' tt Hk E).
Defined.

Lemma webhook_once_witness :
  ∃ rs db', exec (λ _ s, s) nobody 0 (deliver_all [] [(5%Z, capture); (6%Z, capture)]) store tt =
              (Ok rs, db', tt) ∧
            length rs = 2 ∧
            taken (idempotency_key capture) [(5%Z, capture); (6%Z, capture)] rs <= 1.
Proof.
  exact (webhook_once (λ _ s, s) nobody (idempotency_key capture)
           [(5%Z, capture); (6%Z, capture)] 0 store tt (λ _ _ H, H)).
Defined.
End BillingExamples.
