(* ===== verification/InvoiceFacts.v ===== *)
(** Invoices over time: however many billing operations run at once, whichever of them
    die and whatever the provider answers, invoices are settled at most once, keep what
    they bill, and a billing period is billed at most once. *)

From stdpp Require Import base list strings option relations.
From Stdlib Require Import ZArith Lia.
From S2P Require Import Prelude Flows JsNumber JsString DomainEvents CoreDomain MasterData.
From S2P Require Import Lifecycles PurchaseOrderAggregate Subscriptions Decimal Database Outbox.
From S2P Require Import SubscriptionService Billing BillingFacts.
Import Gateway Billing.

Section invoices.
Context {dec : Decimal} {plat : Platform}.

(** * Invoices over time

    [goes r r']: what may become of an invoice.  One that is no longer pending stays as
    it is; a pending one keeps what it bills and is settled at most once. *)
Definition final : list string := ["PAID"; "FAILED"; "CANCELLED"]%string.
Record same_bill (r r' : InvoiceRow) : Prop := {
  same_id : iv_id r' = iv_id r;
  same_tenant : iv_tenantId r' = iv_tenantId r;
  same_subscription : iv_subscriptionId r' = iv_subscriptionId r;
  same_number : iv_invoiceNumber r' = iv_invoiceNumber r;
  same_amount : iv_amountCents r' = iv_amountCents r;
  same_currency : iv_currency r' = iv_currency r;
  same_period : iv_billingPeriodKey r' = iv_billingPeriodKey r;
  same_due : iv_dueAt r' = iv_dueAt r;
  same_deleted : iv_deletedAt r' = iv_deletedAt r;
}.
Definition goes (r r' : InvoiceRow) : Prop :=
  r' = r ∨
  iv_status r = "PENDING"%string ∧ same_bill r r' ∧ iv_status r' ∈ "PENDING"%string :: final ∧
  (iv_status r' = "PAID"%string → iv_paidAt r' ≠ None).
#[local] Instance goes_preorder : PreOrder goes.
Proof.
  split; [by left|]. intros r1 r2 r3 [->|(H1 & S1 & F1 & P1)]; [done|].
  intros [->|(H2 & S2 & F2 & P2)]; [by right|]. right. split_and!; [done| |done..].
  destruct S1, S2. split; congruence.
Qed.
(** The invoices for a billing period. *)
Definition billed (key : string) (l : list (row TInvoice)) : list string :=
  map iv_id (List.filter (for_period key) l).
(** The invoices of a store stay, and new ones come after them; a period that is billed
    is not billed again. *)
Definition bills (key : string) (before after : list string) : Prop :=
  after = before ∨ before = [] ∧ ∃ i, after = [i].
Definition evolves (db db' : Db) : Prop :=
  (∃ old new, rows db' TInvoice = old ++ new ∧ Forall2 goes (rows db TInvoice) old) ∧
  ∀ key, bills key (billed key (rows db TInvoice)) (billed key (rows db' TInvoice)).
Lemma evolves_rows db db' : rows db' TInvoice = rows db TInvoice → evolves db db'.
Proof.
  intros E. split; [|intros key; rewrite E; by left].
  exists (rows db TInvoice), []. by rewrite app_nil_r.
Qed.
#[local] Instance evolves_preorder : PreOrder evolves.
Proof.
  split; [intros db; by apply evolves_rows|].
  intros d1 d2 d3 [(o1 & n1 & E1 & H1) B1] [(o2 & n2 & E2 & H2) B2]. split.
  - rewrite E1 in H2. apply Forall2_app_inv_l in H2 as (o3 & n3 & Ho & Hn & ->).
    exists o3, (n3 ++ n2). rewrite E2. split; [by rewrite <- app_assoc|]. by transitivity o1.
  - intros key. destruct (B2 key) as [->|[E [i ->]]]; [apply B1|].
    destruct (B1 key) as [<-|[_ [j Ej]]]; [|congruence]. rewrite E. right. eauto.
Qed.

Lemma evolves_writes {A} ts (m : Tx Db A) :
  writes ts m → TInvoice ∉ ts → respects evolves m.
Proof. intros Hm Ht. eapply respects_writes; [done|]. intros db db' Ho. by apply evolves_rows, Ho. Qed.
(** A new invoice for a period that is not billed yet. *)
Lemma evolves_insert (mk : string → row TInvoice) key db r db' :
  (∀ i, iv_billingPeriodKey (mk i) = Some key) → billed key (rows db TInvoice) = [] →
  insert TInvoice mk db = Ok (r, db') → evolves db db'.
Proof.
  intros Hk Hn [-> E]%(insert_rows TInvoice). split.
  - exists (rows db TInvoice), [mk (cuid (serial db))]. done.
  - intros k. unfold billed. rewrite E, List.filter_app, map_app. simpl. unfold for_period at 3.
    rewrite Hk. destruct (decide (k = key)) as [->|Hne].
    + rewrite bool_decide_true by done. right. unfold billed in Hn. rewrite Hn. split; [done|].
      simpl. eauto.
    + rewrite bool_decide_false by congruence. simpl. rewrite app_nil_r. by left.
Qed.

(** An update of invoices that are pending. *)
Definition settling (d : InvoiceData) : Prop :=
  match ivd_status d with
  | None => True
  | Some s => s ∈ final ∧ (s = "PAID"%string → ivd_paidAt d ≠ None)
  end.
Lemma goes_set d r : iv_status r = "PENDING"%string → settling d → goes r (set_invoice d r).
Proof.
  intros Hs Hd. right. unfold settling in Hd. split_and!; [done|by split|..]; simpl;
    destruct (ivd_status d) as [s|]; simpl; rewrite ?Hs; try done; [set_solver|set_solver|].
  intros Hp. apply proj2 in Hd. specialize (Hd Hp). by destruct (ivd_paidAt d).
Qed.
Lemma evolves_update i p d :
  (∀ r, p r = true → iv_status r = "PENDING"%string) → settling d →
  respects evolves (update_invoice i p d).
Proof.
  intros Hp Hd db n db' [_ ->]%update_invoice_inv. split.
  2: { intros key. left. unfold billed. rewrite rows_on_same.
       rewrite (filter_map_where (A := row TInvoice)) by done. by apply map_where_keys. }
  exists (map_where p (set_invoice d) (rows db TInvoice)), [].
  rewrite rows_on_same, app_nil_r. split; [done|].
  apply Forall2_fmap_r, Forall_Forall2_diag, Forall_forall. intros r _. simpl.
  destruct (p r) eqn:E; [|reflexivity]. by apply goes_set; [apply Hp|].
Qed.

(** *** Each transaction *)

Ltac respect_next := apply respects_bind; [exact _| |intros ?].
Ltac respect_frame ts :=
  apply (evolves_writes ts); [by (auto with writes || solve_writes)|set_solver].

Lemma writes_update_attempt ts i p st v : TAttempt ∈ ts → writes ts (update_attempt i p st v).
Proof. apply writes_update_unique. Qed.
Lemma writes_claim i T : writes [TAttempt] (claimXenditPaymentRequest i T).
Proof. unfold claimXenditPaymentRequest, create_attempt, findXenditPaymentRequestAttempt. solve_writes. Qed.
Lemma writes_publish ctx o now e : writes [TOutbox] (publish ctx o now e).
Proof. unfold publish, Outbox.outbox_publish. solve_writes. Qed.
Lemma writes_toAggregate r : writes [] (SubscriptionService.toAggregate r).
Proof. unfold SubscriptionService.toAggregate. solve_writes. Qed.
Lemma writes_findById i T : writes [] (SubscriptionService.findById i T).
Proof.
  unfold SubscriptionService.findById. apply writes_bind; [auto with writes|].
  intros [r|]; [|auto with writes]. apply writes_bind; [apply writes_toAggregate|auto with writes].
Qed.
Lemma writes_save now u a :
  writes [TSubscription; THistory; TOutbox] (SubscriptionService.save_tx now u a).
Proof.
  unfold SubscriptionService.save_tx, SubscriptionService.upsert, assert_unique. cbv zeta.
  apply writes_bind; [solve_writes|intros _]. apply writes_bind; [solve_writes|intros _].
  apply writes_for_each. intros e. apply writes_post. set_solver.
Qed.

Lemma pending_of_pending i T r : pending_of i T r = true → iv_status r = "PENDING"%string.
Proof. unfold pending_of, has_status. intros. by bool_hyps. Qed.

Lemma evolves_complete i T n v : respects evolves (completeXenditPaymentRequest i T n v).
Proof.
  unfold completeXenditPaymentRequest. respect_next.
  { apply evolves_update; [|done]. intros r Hr. bool_hyps. by eapply pending_of_pending. }
  respect_next; [respect_frame (@nil table)|].
  respect_next; [|respect_frame (@nil table)].
  apply (evolves_writes [TAttempt]); [apply writes_update_attempt; set_solver|set_solver].
Qed.
Lemma evolves_process now input key : respects evolves (process_tx now input key).
Proof.
  assert (Hclose : ∀ o out, respects evolves (_ ← close_receipt now key o; mret (M := Tx Db) (A := WebhookOutcome) out)).
  { intros. apply (evolves_writes [TWebhook]); [|set_solver].
    apply writes_bind; [apply writes_close; set_solver|auto with writes]. }
  unfold process_tx, process_new. respect_next.
  { apply (evolves_writes [TWebhook]); [apply writes_create_receipt; set_solver|set_solver]. }
  case_match; [respect_frame (@nil table)|]. respect_next.
  { apply (evolves_writes []); [apply writes_correlate|set_solver]. }
  respect_next; [respect_frame (@nil table)|].
  apply respects_bind; [exact _|respect_frame (@nil table)|intros t].
  destruct (bool_decide (t = ToNONE)) eqn:Et; [apply Hclose|]. simpl.
  case_match; [apply Hclose|]. respect_next.
  { apply evolves_update; [by apply pending_of_pending|].
    destruct t; [..|done]; (split; [simpl; set_solver|by intros]). }
  case_match; [apply Hclose|]. respect_next; [|apply Hclose].
  apply (evolves_writes [TSubscription; TOutbox]); [|set_solver].
  destruct t; (apply writes_paid || apply writes_failed); set_solver.
Qed.
Lemma evolves_settle now i T paidAt : respects evolves (settle_tx now i T paidAt).
Proof.
  unfold settle_tx. respect_next; [respect_frame (@nil table)|].
  case_match; [|respect_frame (@nil table)]. respect_next.
  { apply evolves_update; [by apply pending_of_pending|]. split; [simpl; set_solver|by intros]. }
  case_match; [respect_frame (@nil table)|]. respect_next.
  { apply (evolves_writes [TSubscription]); [|set_solver]. apply writes_subscribed. intros.
    unfold update_subscription. solve_writes. }
  respect_next; [|unfold findInvoiceById; respect_frame (@nil table)].
  apply (evolves_writes [TOutbox]); [apply writes_post; set_solver|set_solver].
Qed.
Lemma settling_status s : s ∈ ["FAILED"; "CANCELLED"]%string → settling (status_only s).
Proof. intros H. split; simpl; [set_solver|]. intros ->. set_solver. Qed.
Lemma evolves_cancel now i T : respects evolves (cancel_tx now i T).
Proof.
  unfold cancel_tx. respect_next; [respect_frame (@nil table)|]. respect_next.
  { apply evolves_update; [|apply settling_status; set_solver].
    intros r Hr. bool_hyps. by eapply pending_of_pending. }
  case_match; [respect_frame (@nil table)|]. respect_next; [respect_frame (@nil table)|].
  respect_next; [|respect_frame (@nil table)].
  apply (evolves_writes [TOutbox]); [apply writes_post; set_solver|set_solver].
Qed.
Lemma unbilled key db :
  existsb (for_period key) (rows db TInvoice) = false → billed key (rows db TInvoice) = [].
Proof.
  intros H. unfold billed. rewrite filter_none; [done|]. apply Forall_forall. intros r Hr.
  destruct (for_period key r) eqn:E; [|done]. rewrite <- H. symmetry.
  apply existsb_exists. exists r. by rewrite <- list_elem_of_In.
Qed.
Lemma evolves_insertInvoice now d : respects evolves (insertInvoice now d).
Proof.
  unfold insertInvoice. respect_next; [respect_frame [TCounter]|].
  respect_next; [respect_frame (@nil table)|].
  case_match; [respect_frame (@nil table)|]. case_match; [|respect_frame (@nil table)].
  cbv zeta. intros db r db' H'. apply tx_bind_ok in H' as ([] & d1 & E & Hi).
  unfold assert_unique in E. apply tx_bind_ok in E as (n & d2 & [= <- <-] & E).
  unfold tx_throw_if in E. apply tx_lift_ok in E as [E ->]. apply throw_if_ok in E.
  rewrite (filter_length_zero (A := row TInvoice)) in E. bool_hyps.
  refine (evolves_insert _ (icd_billingPeriodKey d) db r db' _ _ Hi); [done|].
  apply unbilled. destruct (existsb (for_period _) _) eqn:Ex; [|done]. rewrite <- E.
  apply existsb_exists in Ex as (x & Hx & Hk). symmetry. apply existsb_exists. exists x.
  split; [done|]. unfold for_period in Hk. by rewrite Hk, orb_true_r.
Qed.

(** *** Each operation *)

(** What billing is asked to do: its endpoints, the provider's webhook and the jobs. *)
Inductive BillingCall :=
| CreatePayment (apiKey : option string) (gateway : bool) (tenantId invoiceId channel : string)
| Webhook (now : Date) (input : XenditWebhookInput)
| PaymentSuccess (now : Date) (tenantId invoiceId : string) (paidAt : Date)
| PaymentFailure (ctx : Outbox.Context_) (observability : json) (now : Date)
    (userId : option string) (tenantId invoiceId : string) (reason : option string)
| CancelInvoice (now : Date) (tenantId id : string)
| ExecuteBilling (ctx : Outbox.Context_) (observability : json) (now : Date)
    (tenantId subscriptionId : string)
| RenewSubscription (ctx : Outbox.Context_) (observability : json) (now : Date)
    (userId : option string) (tenantId subscriptionId : string).
Definition serve (c : BillingCall) : Flow Db Request Answer unit :=
  match c with
  | CreatePayment k g T i ch => _ ← createXenditPaymentRequest k g T i ch; mret tt
  | Webhook now input => _ ← handleXenditWebhookEvent now input; mret tt
  | PaymentSuccess now T i p => handlePaymentSuccess now T i p
  | PaymentFailure ctx o now u T i r => handlePaymentFailure ctx o now u T i r
  | CancelInvoice now T i => _ ← cancelPendingInvoice now T i; mret tt
  | ExecuteBilling ctx o now T i => _ ← executeBilling ctx o now T i; mret tt
  | RenewSubscription ctx o now u T i => _ ← renewSubscription ctx o now u T i; mret tt
  end.

Abbreviation kept := (keeping evolves).
Lemma kept_call {A} (m : Tx Db A) : respects evolves m → kept (call (Q := Request) (R := Answer) m).
Proof. by intros. Qed.
Lemma kept_read {A} (m : Tx Db A) : writes [] m → kept (call (Q := Request) (R := Answer) m).
Proof. intros. apply kept_call. apply (evolves_writes []); [done|set_solver]. Qed.
Lemma kept_on_gateway {A} (f : DbFlow A) : kept f → kept (on_gateway f).
Proof.
  induction f as [r|X m k IH|q]; simpl; [done| |done]. intros [Hm Hk]. split; [done|].
  intros r. by apply IH.
Qed.
Lemma kept_save now u a : kept (on_gateway (SubscriptionService.save now u a)).
Proof.
  apply kept_on_gateway. split; [|by intros []]. intros db x db' E.
  refine (evolves_writes _ _ (writes_save now u a) _ _ _ _ E). set_solver.
Qed.
Lemma kept_record i T st v : kept (recordPaymentRequestOutcome i T st v).
Proof.
  apply keeping_catch; [|done]. apply keeping_bind; [|done]. apply kept_call.
  apply (evolves_writes [TAttempt]); [apply writes_update_attempt; set_solver|set_solver].
Qed.
Lemma kept_settle_charge r T x : kept (settle_charge r T x).
Proof.
  unfold settle_charge. destruct x as [e|x].
  - apply keeping_bind; [apply kept_record|done].
  - destruct (cr_paymentRequestId x) as [i|].
    + case_match; (apply keeping_bind; [|done]); [apply kept_record|].
      apply keeping_catch; [apply kept_call, evolves_complete|]. intros e.
      apply keeping_bind; [apply kept_record|done].
    + apply keeping_bind; [apply kept_record|done].
Qed.
Lemma kept_recover r T a f : kept f → kept (recover_or r T a f).
Proof.
  intros Hf. unfold recover_or. destruct a as [a|]; [|done]. case_match; [|done].
  apply keeping_bind; [|done]. apply keeping_catch; [apply kept_call, evolves_complete|done].
Qed.
Lemma kept_invoice i T : kept (call (Q := Request) (R := Answer) (findInvoiceById i T)).
Proof. apply kept_read. unfold findInvoiceById. solve_writes. Qed.
Lemma kept_attempt i T : kept (call (Q := Request) (R := Answer) (findXenditPaymentRequestAttempt i T)).
Proof. apply kept_read. unfold findXenditPaymentRequestAttempt. solve_writes. Qed.
Lemma kept_claim k r T ch : kept (claim_and_charge k r T ch).
Proof.
  apply keeping_bind.
  { apply kept_call. apply (evolves_writes [TAttempt]); [apply writes_claim|set_solver]. }
  intros c. destruct (cl_claimed c).
  - apply keeping_bind; [|intros; apply kept_settle_charge].
    unfold charge. by destruct (check_input _ _).
  - assert (Hrest : kept (a ← call (findXenditPaymentRequestAttempt (iv_id r) T);
      recover_or r T a (throw (paymentRequestAttemptConflict (xa_state <$> a))))).
    { apply keeping_bind; [apply kept_attempt|]. intros a. by apply kept_recover. }
    apply keeping_bind; [apply kept_invoice|].
    intros [x|]; [case_match; [done|]|]; exact Hrest.
Qed.
Lemma kept_create k g T i ch : kept (createXenditPaymentRequest k g T i ch).
Proof.
  apply keeping_bind; [apply kept_invoice|].
  intros [r|]; [|done]. do 3 (case_match; [done|]).
  apply keeping_bind; [apply kept_attempt|].
  intros [a|]; apply kept_recover; [|apply kept_claim]. case_match; [apply kept_claim|done].
Qed.
Lemma kept_failure ctx o now u T i reason : kept (handlePaymentFailure ctx o now u T i reason).
Proof.
  apply keeping_bind; [apply kept_invoice|].
  intros [r|]; [|done]. apply keeping_bind.
  { apply keeping_bind.
    - apply kept_call, evolves_update; [|apply settling_status; set_solver].
      unfold has_status. intros x Hx. by bool_hyps.
    - intros n. case_match; [done|apply kept_invoice]. }
  intros [x|]; [|done]. apply keeping_bind.
  { apply kept_call, (evolves_writes [TOutbox]); [apply writes_publish|set_solver]. }
  intros _. destruct (iv_subscriptionId r) as [s|]; [|done]. case_match; [done|].
  apply keeping_bind; [apply kept_read, writes_findById|].
  intros [a|]; [|done]. apply keeping_bind; [apply kept_save|done].
Qed.
Lemma kept_cancel now T i : kept (cancelPendingInvoice now T i).
Proof.
  apply keeping_bind; [apply kept_invoice|].
  intros [r|]; [|done]. do 2 (case_match; [done|]).
  apply keeping_bind; [apply kept_call, evolves_cancel|]. intros [x|]; [|done].
  apply keeping_bind; [apply kept_invoice|]. by intros [y|].
Qed.
Lemma kept_period ctx o now a T period : kept (createInvoiceForPeriod ctx o now a T period).
Proof.
  unfold createInvoiceForPeriod. cbv zeta. case_match; [done|]. apply keeping_bind; [|done].
  apply keeping_bind; [apply kept_read; solve_writes|]. intros [r|]; [done|].
  apply keeping_catch.
  - apply kept_call. respect_next; [apply evolves_insertInvoice|].
    respect_next; [|respect_frame (@nil table)].
    apply (evolves_writes [TOutbox]); [|set_solver].
    unfold created_events. apply writes_bind; intros; apply writes_publish.
  - intros e. case_match; [|done]. apply keeping_bind; [apply kept_read; solve_writes|].
    by intros [r|].
Qed.
Lemma kept_serve c : kept (serve c).
Proof.
  destruct c; unfold serve.
  - apply keeping_bind; [apply kept_create|done].
  - apply keeping_bind; [apply kept_call, evolves_process|done].
  - apply keeping_bind; [apply kept_invoice|].
    intros [r|]; [|done]. case_match; [done|].
    apply keeping_bind; [apply kept_call, evolves_settle|done].
  - apply kept_failure.
  - apply keeping_bind; [apply kept_cancel|done].
  - apply keeping_bind; [|done]. apply keeping_bind; [apply kept_read, writes_findById|].
    intros [a|]; [|done]. case_match; [done|]. apply kept_period.
  - apply keeping_bind; [|done]. apply keeping_bind; [apply kept_read, writes_findById|].
    intros [a|]; [|done]. cbv zeta. destruct (Subscription.renew _ _ a); [|done].
    apply keeping_bind; [apply kept_save|]. intros b. apply kept_period.
Qed.

(** Billing operations that run at once, among others that respect it. *)
Definition billing_steps : relation (Pool Db Request Answer unit) :=
  rtc (pool_step evolves (λ f, ∃ c, f = serve c)).
Lemma billing_evolves p p' : running p = [] → billing_steps p p' → evolves (store p) (store p').
Proof.
  intros Hr Hs. refine (pool_keeps evolves _ _ p p' _ _ _ Hs); [done| |by rewrite Hr].
  intros f [c ->]. apply kept_serve.
Qed.
End invoices.

(** * Theorems *)

(** C2: The life of an invoice.  However many billing operations run at once among others
    that respect it, an invoice is never lost, never changes what it bills (tenant,
    subscription, number, amount, currency, period, due date), goes from pending to paid,
    failed or cancelled at most once, has a time of payment when that makes it paid, and
    is never touched again after. *)
Theorem invoice_history {dec : Decimal} {plat : Platform} (p p' : Pool Db Request Answer unit) r :
  running p = [] → billing_steps p p' →
  r ∈ rows (store p) TInvoice →
  ∃ r', r' ∈ rows (store p') TInvoice ∧ same_bill r r' ∧
    (iv_status r ≠ "PENDING"%string → r' = r) ∧
    (iv_status r = "PENDING"%string → iv_status r' ∈ "PENDING"%string :: final ∧
       (iv_status r' = "PAID"%string → iv_paidAt r' ≠ None)).
Proof.
  intros Hr Hs Hin.
  assert (evolves (store p) (store p')) as [(old & new & E & Hf) _].
  { by apply billing_evolves. }
  apply list_elem_of_lookup in Hin as (i & Hi).
  destruct (Forall2_lookup_l _ _ _ _ _ Hf Hi) as (r' & Hi' & Hg).
  exists r'. split; [rewrite E; apply elem_of_app; left; by eapply list_elem_of_lookup_2|].
  destruct Hg as [->|(H1 & H2 & H3 & H4)]; split_and!; [by split|done| |done..].
  intros ->. split; [set_solver|done].
Qed.

(** C3: A billing period is billed at most once.  However many billing runs and renewals run
    at once, among others that respect it, a period has the invoices it had, or had none
    and has one. *)
Theorem billed_once {dec : Decimal} {plat : Platform} (p p' : Pool Db Request Answer unit) key :
  running p = [] → billing_steps p p' →
  bills key (billed key (rows (store p) TInvoice)) (billed key (rows (store p') TInvoice)).
Proof.
  intros Hr Hs. assert (evolves (store p) (store p')) as [_ Hb]; [|done].
  by apply billing_evolves.
Qed.

(** * A concrete run, for the witnesses *)

Module InvoiceExamples.
Import SamplePlatform FixedPoint.
Local Open Scope string_scope.

Definition plan : PlanRow :=
  {| pn_id := "p-1"; pn_type := STARTER; pn_name := "Starter"; pn_priceCents := of_Z 499000;
     pn_deletedAt := None |}.
Definition subscription : SubscriptionRow :=
  {| sb_id := "s-1"; sb_tenantId := "t-1"; sb_planId := "p-1"; sb_pendingPlanId := None;
     sb_status := SubscriptionACTIVE; sb_startedAt := 0%Z; sb_endedAt := None;
     sb_createdAt := 0%Z; sb_deletedAt := None |}.
Definition december : InvoiceRow :=
  {| iv_id := "i-1"; iv_tenantId := "t-1"; iv_subscriptionId := Some "s-1";
     iv_invoiceNumber := "INV-202412-000001"; iv_amountCents := of_Z 499000;
     iv_currency := "IDR"; iv_status := "PENDING"; iv_providerReferenceId := None;
     iv_providerPaymentRequestId := None; iv_providerPaymentId := None;
     iv_providerStatus := None; iv_billingPeriodKey := Some "s-1:2024-12"; iv_dueAt := None;
     iv_paidAt := None; iv_createdAt := 0%Z; iv_deletedAt := None |}.
Definition store0 : Db :=
  on TPlan (λ _, [plan]) (on TSubscription (λ _, [subscription])
    (on TCounter (λ _, [{| nc_key := "global"; nc_value := 1%Z |}])
      (on TInvoice (λ _, [december]) emptyDb))).
Definition pool0 : Pool Db Request Answer unit :=
  {| Flows.store := store0; running := []; log := [] |}.

(** 15 January 2025. *)
Definition today : Date := 1736899200000%Z.
Definition ctx : Outbox.Context_ :=
  {| Outbox.cx_tenantId := Some "t-1"; Outbox.cx_outletId := None |}.
Definition bill : Flow Db Request Answer unit := serve (ExecuteBilling ctx JNull today "t-1" "s-1").
Definition settle : Flow Db Request Answer unit :=
  serve (PaymentSuccess today "t-1" "i-1" today).
(** Two billing runs that both find the period unbilled, and a payment. *)
Definition schedule : list (action Db Request Answer unit) :=
  [Start bill; Start bill; Start settle; GoOn 0 None; GoOn 1 None; GoOn 0 None; GoOn 1 None;
   GoOn 2 None; GoOn 0 None; GoOn 2 None; GoOn 1 None; GoOn 1 None].
Definition end_pool : option (Pool Db Request Answer unit) := act_all pool0 schedule.
Definition seen (p : Pool Db Request Answer unit) : list (string * string) :=
  map (λ r, (iv_invoiceNumber r, iv_status r)) (rows (Flows.store p) TInvoice).

Lemma schedule_steps p : end_pool = Some p → billing_steps pool0 p.
Proof.
  intros Hp. refine (act_all_steps _ _ pool0 schedule p _ Hp).
  repeat (constructor; [first
    [ exact Logic.I
    | exists (ExecuteBilling ctx JNull today "t-1" "s-1"); reflexivity
    | exists (PaymentSuccess today "t-1" "i-1" today); reflexivity ]|]).
  constructor.
Qed.

Lemma invoice_history_witness :
  ∃ p r', billing_steps pool0 p ∧ r' ∈ rows (Flows.store p) TInvoice ∧
    same_bill december r' ∧
    seen p = [("INV-202412-000001", "PAID"); ("INV-202501-000002", "PENDING")].
Proof.
  assert (E : seen <$> end_pool =
              Some [("INV-202412-000001", "PAID"); ("INV-202501-000002", "PENDING")])
    by (vm_compute; reflexivity).
  destruct end_pool as [p|] eqn:Hp; [|discriminate E]. injection E as Es.
  destruct (invoice_history pool0 p december eq_refl (schedule_steps p Hp)) as (r' & Hin & Hs & _).
  { simpl. apply list_elem_of_here. }
  exists p, r'. split; [exact (schedule_steps p Hp)|]. split; [exact Hin|]. split; [exact Hs|exact Es].
Defined.

Lemma billed_once_witness :
  ∃ p, billing_steps pool0 p ∧ length (billed "s-1:2025-01" (rows (Flows.store p) TInvoice)) = 1 ∧
    bills "s-1:2025-01" [] (billed "s-1:2025-01" (rows (Flows.store p) TInvoice)).
Proof.
  assert (E : (λ p, length (billed "s-1:2025-01" (rows (Flows.store p) TInvoice))) <$> end_pool =
              Some 1) by (vm_compute; reflexivity).
  destruct end_pool as [p|] eqn:Hp; [|discriminate E]. injection E as Es.
  exists p. split; [exact (schedule_steps p Hp)|]. split; [exact Es|].
  exact (billed_once pool0 p "s-1:2025-01" eq_refl (schedule_steps p Hp)).
Defined.
End InvoiceExamples.
