(* ===== verification/InvoiceExport.v ===== *)
(** The CSV export of invoices: modules/billing/invoice-export.ts,
    [findInvoiceExportPage] of modules/billing/billing.repository.ts and
    [exportInvoices] of modules/billing/billing.service.ts.

    The generator is a flow: it fetches a page by a query of its own and yields the lines
    of the page, so other transactions commit between pages.  The result is the list of
    the chunks it yields; [None] stands for a loop that is still running when the fuel is
    used up.  The export with the name of the tenant differs by one column; the query
    modelled is the one without it. *)

From stdpp Require Import base list strings option pretty sorting.
From Stdlib Require Import ZArith Lia Ascii.
From S2P Require Import Prelude Flows JsNumber JsString DomainEvents CoreDomain MasterData.
From S2P Require Import Lifecycles PurchaseOrderAggregate Subscriptions Decimal Database Outbox.
From S2P Require Import Costing SubscriptionService Billing.
Import Billing.

(** * Cells and lines *)

Module Csv.

(** The double quote; a carriage return and a line feed. *)
Definition dquote : ascii := "034"%char.
Definition crlf : string := String "013"%char (String "010"%char EmptyString).

Inductive cell := CText (s : string) | CNumber (n : number) | CNull.

(** [/^[\s]*[=+\-@\t\r]/]. *)
Definition formula_char (c : ascii) : bool :=
  bool_decide (c ∈ ["="; "+"; "-"; "@"; "009"; "013"]%char).
Fixpoint is_formula (s : string) : bool :=
  match s with
  | EmptyString => false
  | String c s => formula_char c || is_space c && is_formula s
  end.
(** [replaceAll] of a quote by two. *)
Fixpoint double_quotes (s : string) : string :=
  match s with
  | EmptyString => EmptyString
  | String c s => if Ascii.eqb c dquote then String c (String c (double_quotes s))
                  else String c (double_quotes s)
  end.
(** The text of a cell; the numbers exported are integers. *)
Definition cell_text (v : cell) : string :=
  match v with
  | CNull => EmptyString
  | CNumber n => pretty (to_Z n)
  | CText s => if is_formula s then String "'"%char s else s
  end.
Definition csvCell (v : cell) : string :=
  String dquote (double_quotes (cell_text v) +:+ String dquote EmptyString).
Definition csv_line (cells : list cell) : string := join "," (map csvCell cells) +:+ crlf.

Record InvoiceExportRow := {
  er_id : string; er_invoiceNumber : string; er_status : string; er_amountCents : number;
  er_currency : string; er_dueAt : option Date; er_paidAt : option Date; er_createdAt : Date;
  er_tenantName : option string;
}.
Definition date_cell (d : option Date) : cell :=
  match d with Some d => CText (toISOString d) | None => CNull end.
Definition invoice_cells (includeTenant : bool) (r : InvoiceExportRow) : list cell :=
  [CText (er_invoiceNumber r)] ++
  (if includeTenant then [CText (default EmptyString (er_tenantName r))] else []) ++
  [CText (er_status r); CNumber (er_amountCents r); CText (er_currency r);
   date_cell (er_dueAt r); date_cell (er_paidAt r); CText (toISOString (er_createdAt r))].
Definition invoiceCsvRow (includeTenant : bool) (r : InvoiceExportRow) : string :=
  csv_line (invoice_cells includeTenant r).
Definition headers (includeTenant : bool) : list cell :=
  map CText (["Invoice number"%string] ++ (if includeTenant then ["Tenant"%string] else []) ++
             ["Status"; "Amount (minor units)"; "Currency"; "Due at"; "Paid at";
              "Created at"]%string).

(** * The stream *)

Record Cursor := { cu_id : string; cu_createdAt : Date }.

Section stream.
Context {S Q R : Type} (fetchPage : option Cursor → nat → Flow S Q R (list InvoiceExportRow)).

Definition pageSize : nat := 500.
(** The [while] loop: the chunks after [cursor]. *)
Fixpoint pages (fuel : nat) (includeTenant : bool) (cursor : option Cursor)
  : Flow S Q R (option (list string)) :=
  match fuel with
  | 0 => mret None
  | Datatypes.S fuel =>
      page ← fetchPage cursor pageSize;
      let lines := map (invoiceCsvRow includeTenant) page in
      if length page <? pageSize then mret (Some lines) else
      match last page with
      | None => mret (Some lines)
      | Some r =>
          rest ← pages fuel includeTenant
                   (Some {| cu_id := er_id r; cu_createdAt := er_createdAt r |});
          mret (option_map (app lines) rest)
      end
  end.
Definition createInvoiceCsvStream (fuel : nat) (includeTenant : bool)
  : Flow S Q R (option (list string)) :=
  rest ← pages fuel includeTenant None;
  mret (option_map (cons (csv_line (headers includeTenant))) rest).
End stream.
End Csv.
Import Csv.

(** * The invoices to export *)

Module InvoiceExports.
Section export.
Context {dec : Decimal} {plat : Platform}.
Context (parseDate : string → option Date).

Record Filters := { fl_from : option string; fl_to : option string; fl_status : option string }.

Definition is_digit (c : ascii) : bool :=
  let n := nat_of_ascii c in (48 <=? n) && (n <=? 57).
(** [/^\d{4}-\d{2}-\d{2}$/]. *)
Definition is_day (s : string) : bool :=
  match String.list_ascii_of_string s with
  | [a; b; c; d; e; f; g; h; i; j] =>
      forallb is_digit [a; b; c; d; f; g; i; j] && Ascii.eqb e "-" && Ascii.eqb h "-"
  | _ => false
  end.
(** [setUTCHours(23, 59, 59, 999)]. *)
Definition end_of_day (d : Date) : Date := (d - d mod 86400000 + 86399999)%Z.
Definition parse_filter (v : option string) (e : exn) : result (option Date) :=
  if truthy v then
    match parseDate (default EmptyString v) with Some d => Ok (Some d) | None => Err e end
  else Ok None.
Definition invoiceExportDateBounds (f : Filters) : result (option Date * option Date) :=
  from ← parse_filter (fl_from f) (BadRequestException "Invalid export start date");
  to ← parse_filter (fl_to f) (BadRequestException "Invalid export end date");
  let to := if is_day (default EmptyString (fl_to f)) then end_of_day <$> to else to in
  match from, to with
  | Some a, Some b =>
      if (b <? a)%Z then Err (BadRequestException "Export start date must precede end date")
      else Ok (from, to)
  | _, _ => Ok (from, to)
  end.

(** The [where] of the export. *)
Definition exported (tenantId : string) (status : option string) (bounds : option Date * option Date)
    (r : InvoiceRow) : bool :=
  bool_decide (iv_tenantId r = tenantId) && live r &&
  (negb (truthy status) || bool_decide (Some (iv_status r) = status)) &&
  match fst bounds with Some d => (d <=? iv_createdAt r)%Z | None => true end &&
  match snd bounds with Some d => (iv_createdAt r <=? d)%Z | None => true end.
(** [orderBy: [{ createdAt: 'asc' }, { id: 'asc' }]]. *)
Definition earlier (a b : InvoiceRow) : bool :=
  Costing.lex Z.eqb Z.leb (iv_createdAt a) (iv_createdAt b) (collateLe (iv_id a) (iv_id b)).
Definition after (c : Cursor) (r : InvoiceRow) : bool :=
  (cu_createdAt c <? iv_createdAt r)%Z ||
  bool_decide (iv_createdAt r = cu_createdAt c) && negb (collateLe (iv_id r) (cu_id c)).
Definition export_row (r : InvoiceRow) : InvoiceExportRow :=
  {| er_id := iv_id r; er_invoiceNumber := iv_invoiceNumber r; er_status := iv_status r;
     er_amountCents := iv_amountCents r; er_currency := iv_currency r;
     er_dueAt := iv_dueAt r; er_paidAt := iv_paidAt r; er_createdAt := iv_createdAt r;
     er_tenantName := None |}.
Definition findInvoiceExportPage (p : InvoiceRow → bool) (cursor : option Cursor) (take : nat)
  : Tx Db (list InvoiceExportRow) :=
  rs ← select TInvoice (λ r, p r && match cursor with Some c => after c r | None => true end);
  mret (map export_row (firstn take (sort_by earlier rs))).

Definition exportInvoices (fuel : nat) (tenantId : string) (f : Filters)
  : DbFlow (option (list string)) :=
  match invoiceExportDateBounds f with
  | Err e => throw e
  | Ok bounds =>
      createInvoiceCsvStream
        (λ cursor take, call (findInvoiceExportPage (exported tenantId (fl_status f) bounds)
                                cursor take))
        fuel false
  end.
End export.
End InvoiceExports.
