(* ===== verification/ExportFacts.v ===== *)
(** The invoice export: its pages add up to all the invoices in order, it repeats none
    whatever commits between the pages, and a reader of the CSV gets the cells back. *)

From stdpp Require Import base list strings option pretty sorting.
From Stdlib Require Import ZArith Lia Ascii.
From S2P Require Import Prelude Flows JsNumber JsString DomainEvents CoreDomain MasterData.
From S2P Require Import Lifecycles PurchaseOrderAggregate Subscriptions Decimal Database Outbox.
From S2P Require Import Costing SubscriptionService Billing InvoiceExport.
Import Billing Csv InvoiceExports.

(** * Reading CSV back

    A reader of the format of RFC 4180 in which every cell is quoted: outside a cell,
    inside one, after a quote inside one, and after a carriage return. *)

Inductive mode := Outside | Inside | Closed | Return_.
Fixpoint read_csv (m : mode) (cell : string) (line : list string) (s : string)
  : option (list (list string)) :=
  match s with
  | EmptyString => match m, line with Outside, [] => Some [] | _, _ => None end
  | String c s =>
      match m with
      | Outside => if Ascii.eqb c dquote then read_csv Inside EmptyString line s else None
      | Inside => if Ascii.eqb c dquote then read_csv Closed cell line s
                  else read_csv Inside (cell +:+ String c EmptyString) line s
      | Closed =>
          if Ascii.eqb c dquote then read_csv Inside (cell +:+ String c EmptyString) line s
          else if Ascii.eqb c "," then read_csv Outside EmptyString (line ++ [cell]) s
          else if Ascii.eqb c "013" then read_csv Return_ cell line s
          else None
      | Return_ =>
          if Ascii.eqb c "010"
          then option_map (cons (line ++ [cell])) (read_csv Outside EmptyString [] s) else None
      end
  end.
Definition parse_csv (s : string) : option (list (list string)) :=
  read_csv Outside EmptyString [] s.

Lemma append_cons c (a b : string) : String c a +:+ b = String c (a +:+ b).
Proof. done. Qed.
Lemma append_assoc (a b c : string) : (a +:+ b) +:+ c = a +:+ (b +:+ c).
Proof. induction a as [|x a IH]; [done|]. rewrite !append_cons. by f_equal. Qed.
Lemma append_nil (a : string) : a +:+ EmptyString = a.
Proof. induction a as [|x a IH]; [done|]. rewrite append_cons. by f_equal. Qed.

Lemma read_inside t cell line s :
  read_csv Inside cell line (double_quotes t +:+ String dquote s) =
    read_csv Closed (cell +:+ t) line s.
Proof.
  revert cell. induction t as [|c t IH]; intros cell; simpl.
  { by rewrite append_nil. }
  destruct (Ascii.eqb c dquote) eqn:E; rewrite !append_cons; simpl; rewrite E; simpl;
    rewrite ?E, IH, append_assoc; done.
Qed.
Lemma read_cell v line s :
  read_csv Outside EmptyString line (csvCell v +:+ s) = read_csv Closed (cell_text v) line s.
Proof.
  unfold csvCell. rewrite append_cons, append_assoc. simpl. apply read_inside.
Qed.
Lemma read_comma cell line s :
  read_csv Closed cell line (String "," s) = read_csv Outside EmptyString (line ++ [cell]) s.
Proof. done. Qed.
Lemma read_line v cells line s :
  read_csv Outside EmptyString line (join "," (map csvCell (v :: cells)) +:+ (crlf +:+ s)) =
    option_map (cons (line ++ map cell_text (v :: cells))) (read_csv Outside EmptyString [] s).
Proof.
  revert v line. induction cells as [|v' cells IH]; intros v line.
  - simpl map. unfold join. rewrite read_cell. done.
  - change (join "," (map csvCell (v :: v' :: cells)))
      with (csvCell v +:+ String "," (join "," (map csvCell (v' :: cells)))).
    rewrite append_assoc, append_cons, read_cell, read_comma.
    rewrite IH. f_equal. simpl. by rewrite <- app_assoc.
Qed.

(** The chunks of the stream, one after the other. *)
Definition document (lines : list (list cell)) : string := foldr String.append EmptyString (map csv_line lines).

(** What a reader sees of a cell: its text, behind an apostrophe when a spreadsheet would
    take it for a formula. *)
Lemma cell_text_safe s : is_formula (cell_text (CText s)) = false.
Proof. simpl. by destruct (is_formula s) eqn:E. Qed.

(** C39: The export can be read back.  Whatever the cells hold (quotes, commas, line breaks),
    a reader of the document gets the texts of the cells line by line, and no text cell
    reads as a formula to a spreadsheet. *)
Theorem csv_roundtrip (lines : list (list cell)) :
  Forall (λ l, l ≠ []) lines →
  parse_csv (document lines) = Some (map (map cell_text) lines) ∧
  Forall (Forall (λ v, match v with CText _ => is_formula (cell_text v) = false | _ => True end))
    lines.
Proof.
  intros Hl. split.
  - unfold parse_csv, document. induction Hl as [|l lines Hne _ IH]; [done|].
    destruct l as [|v cells]; [done|]. simpl map at 1. cbn [foldr]. unfold csv_line at 1.
    rewrite append_assoc, read_line, IH. done.
  - apply Forall_forall. intros l _. apply Forall_forall. intros [s|n|] _; [|done..].
    apply cell_text_safe.
Qed.

(** * Filtering and sorting *)

Section sorting.
Context {A : Type} (le : A → A → bool).
Context (le_total : ∀ a b, le a b = false → le b a = true)
        (le_trans : ∀ a b c, le a b = true → le b c = true → le a c = true).
Abbreviation sorted := (StronglySorted (λ a b, le a b = true)).

Lemma sort_by_strong l : sorted (sort_by le l).
Proof.
  apply Sorted_StronglySorted; [intros a b c; apply le_trans|]. by apply sort_by_sorted.
Qed.
Lemma filter_insert_by p x l :
  sorted l →
  List.filter p (insert_by le x l) =
    if p x then insert_by le x (List.filter p l) else List.filter p l.
Proof.
  induction 1 as [|y l Hl IH Hy]; simpl; [by destruct (p x)|].
  destruct (le x y) eqn:E; simpl.
  - destruct (p x) eqn:Ex; [|done]. destruct (p y); simpl; [by rewrite E|].
    destruct (List.filter p l) as [|z k] eqn:Ek; [done|]. simpl.
    assert (z ∈ l) as Hz.
    { apply list_elem_of_In. eapply proj1, filter_In. rewrite Ek. by left. }
    rewrite Forall_forall in Hy. by rewrite (le_trans x y z E (Hy z Hz)).
  - rewrite IH. destruct (p y), (p x); simpl; rewrite ?E; done.
Qed.
Lemma filter_sort_by p l : List.filter p (sort_by le l) = sort_by le (List.filter p l).
Proof.
  induction l as [|x l IH]; simpl; [done|].
  rewrite filter_insert_by by apply sort_by_strong. rewrite IH. by destruct (p x).
Qed.
End sorting.

(** * Pages *)

(** The order of the id column: the collation of the database is a total order. *)
Class Collation `{Platform} : Prop := {
  collate_total a b : collateLe a b = false → collateLe b a = true;
  collate_trans a b c : collateLe a b = true → collateLe b c = true → collateLe a c = true;
  collate_antisym a b : collateLe a b = true → collateLe b a = true → a = b;
}.

Section pages.
Context {dec : Decimal} {plat : Platform} {coll : Collation}.

Lemma earlier_total a b : earlier a b = false → earlier b a = true.
Proof.
  unfold earlier, Costing.lex. destruct (Z.eqb_spec (iv_createdAt a) (iv_createdAt b)) as [->|Hne].
  - rewrite Z.eqb_refl. apply collate_total.
  - rewrite (proj2 (Z.eqb_neq _ _)) by done. rewrite Z.leb_gt, Z.leb_le. lia.
Qed.
Lemma earlier_trans a b c : earlier a b = true → earlier b c = true → earlier a c = true.
Proof.
  unfold earlier, Costing.lex.
  destruct (Z.eqb_spec (iv_createdAt a) (iv_createdAt b)) as [Hab|Hab],
    (Z.eqb_spec (iv_createdAt b) (iv_createdAt c)) as [Hbc|Hbc],
    (Z.eqb_spec (iv_createdAt a) (iv_createdAt c)) as [Hac|Hac];
    rewrite ?Z.leb_le; try lia. apply collate_trans.
Qed.
Definition cursor_of (r : InvoiceRow) : Cursor := {| cu_id := iv_id r; cu_createdAt := iv_createdAt r |}.
(** [b] comes after the cursor made of [a]. *)
Definition follows (a b : InvoiceRow) : Prop := after (cursor_of a) b = true.
Lemma after_earlier a b : after (cursor_of a) b = negb (earlier b a).
Proof.
  unfold after, earlier, Costing.lex. simpl.
  destruct (Z.eqb_spec (iv_createdAt b) (iv_createdAt a)) as [->|Hne].
  - rewrite Z.ltb_irrefl, bool_decide_true by done. done.
  - rewrite bool_decide_false by done. rewrite orb_false_r.
    destruct (Z.ltb_spec (iv_createdAt a) (iv_createdAt b)), (Z.leb_spec (iv_createdAt b) (iv_createdAt a));
      simpl; lia.
Qed.
Lemma earlier_follows a b : earlier a b = true → iv_id a ≠ iv_id b → follows a b.
Proof.
  intros H Hne. unfold follows. rewrite after_earlier. destruct (earlier b a) eqn:E; [|done].
  exfalso. unfold earlier, Costing.lex in *.
  destruct (Z.eqb_spec (iv_createdAt a) (iv_createdAt b)) as [Ht|Ht].
  - rewrite Ht, Z.eqb_refl in E. apply Hne. by apply collate_antisym.
  - rewrite (proj2 (Z.eqb_neq _ _)) in E by done. rewrite Z.leb_le in *. lia.
Qed.
Lemma follows_trans a b c : follows a b → follows b c → follows a c.
Proof.
  unfold follows. rewrite !after_earlier, !negb_true_iff. intros H1 H2.
  destruct (earlier c a) eqn:E; [|done]. apply earlier_total in H1.
  by rewrite (earlier_trans _ _ _ E H1) in H2.
Qed.

(** The invoices after the cursor, in order. *)
Definition past (c : option Cursor) (r : InvoiceRow) : bool :=
  match c with Some c => after c r | None => true end.
Definition listed (p : InvoiceRow → bool) (db : Db) : list InvoiceRow :=
  sort_by earlier (List.filter p (rows db TInvoice)).
Lemma page_run p c n db :
  findInvoiceExportPage p c n db =
    Ok (map export_row (firstn n (List.filter (past c) (listed p db))), db).
Proof.
  unfold findInvoiceExportPage, select, listed, mbind, tx_bind, mret, tx_ret.
  rewrite (filter_sort_by earlier earlier_total earlier_trans), <- filter_and. done.
Qed.

Lemma listed_follows p db : keyed TInvoice db → StronglySorted follows (listed p db).
Proof.
  intros Hk. pose proof (sort_by_strong earlier earlier_total earlier_trans
    (List.filter p (rows db TInvoice))) as Hs.
  assert (Hn : NoDup (map iv_id (listed p db))).
  { unfold listed. rewrite (fmap_Permutation iv_id _ _ (sort_by_perm earlier _)).
    by apply filter_keys. }
  unfold listed in *. induction Hs as [|x l Hs IH Hx]; [constructor|]. simpl in Hn.
  apply NoDup_cons in Hn as [Hin Hn]. constructor; [by apply IH|].
  rewrite Forall_forall in *. intros y Hy. apply earlier_follows; [by apply Hx|].
  intros E. apply Hin. rewrite E. by apply list_elem_of_fmap_2.
Qed.

Lemma not_after_self x : after (cursor_of x) x = false.
Proof.
  rewrite after_earlier. destruct (earlier x x) eqn:E; [done|].
  pose proof (earlier_total _ _ E). congruence.
Qed.
Lemma not_after y x : follows y x → after (cursor_of x) y = false.
Proof.
  unfold follows. rewrite !after_earlier, negb_true_iff, negb_false_iff. apply earlier_total.
Qed.
Lemma past_split pre x post :
  StronglySorted follows (pre ++ x :: post) →
  List.filter (past (Some (cursor_of x))) (pre ++ x :: post) = post.
Proof.
  rewrite StronglySorted_app, StronglySorted_cons. intros (Hpre & _ & Hpost & _).
  rewrite List.filter_app. simpl. rewrite not_after_self.
  rewrite (filter_none _ pre), (filter_every _ post); [done| |].
  - exact Hpost.
  - apply Forall_forall. intros y Hy. apply not_after. apply Hpre; [done|]. apply list_elem_of_here.
Qed.

Context {W : Type} (answer : Empty_set → W → Empty_set * W) (p : InvoiceRow → bool) (inc : bool).
Abbreviation fetch := (λ cursor take, call (findInvoiceExportPage p cursor take)).
Abbreviation line := (λ r, invoiceCsvRow inc (export_row r)).

Lemma pageSize_pos : 0 < pageSize.
Proof. unfold pageSize. lia. Qed.
Opaque pageSize.

(** What is left of a page. *)
Lemma full_page (l : list InvoiceRow) :
  length (firstn pageSize l) = pageSize →
  ∃ q x, firstn pageSize l = q ++ [x] ∧ l = q ++ x :: skipn pageSize l.
Proof.
  intros Hl. destruct (firstn pageSize l) as [|x q _] eqn:E using rev_ind.
  { pose proof pageSize_pos. simpl in Hl. lia. }
  exists q, x. split; [done|]. rewrite <- (firstn_skipn pageSize l) at 1. rewrite E.
  by rewrite <- app_assoc.
Qed.
Lemma pages_step env fuel c n (db : Db) (w : W) :
  let rest := List.filter (past c) (listed p (env n db)) in
  let page := firstn pageSize rest in
  (length page < pageSize ∧
   exec env answer n (pages fetch (S fuel) inc c) db w = (Ok (Some (map line page)), env n db, w)) ∨
  (∃ q x, pageSize <= length rest ∧ page = q ++ [x] ∧ rest = q ++ x :: skipn pageSize rest ∧
   exec env answer n (pages fetch (S fuel) inc c) db w =
     let '(r, db', w') := exec env answer (S n) (pages fetch fuel inc (Some (cursor_of x))) (env n db) w in
     (option_map (app (map line page)) <$> r, db', w')).
Proof.
  intros rest page.
  assert (Hl : length page <= pageSize) by (unfold page; rewrite length_firstn; lia).
  assert (Hrun : transaction (findInvoiceExportPage p c pageSize) (env n db) =
                 (Ok (map export_row page), env n db)).
  { unfold transaction. by rewrite page_run. }
  cbn [pages]. rewrite bind_call. cbn [exec]. rewrite Hrun. cbv zeta. rewrite length_map.
  destruct (length page <? pageSize) eqn:E.
  - left. apply Nat.ltb_lt in E. split; [done|]. simpl. by rewrite map_map.
  - right. apply Nat.ltb_ge in E. destruct (full_page rest) as (q & x & Hq & Hr).
    { change (length page = pageSize). lia. }
    exists q, x. fold page in Hq. unfold page in E. rewrite length_firstn in E.
    split_and!; [lia|done|done|].
    rewrite map_map.
    assert (last (map export_row page) = Some (export_row x)) as ->
      by (rewrite Hq, map_app; apply last_snoc). simpl.
    destruct (exec_bind env answer (pages fetch fuel inc (Some (cursor_of x)))
      (λ r, mret (option_map (app (map line page)) r)) (S n) (env n db) w) as [n' Eb].
    etrans; [exact Eb|].
    by destruct (exec env answer (S n) (pages fetch fuel inc (Some (cursor_of x))) (env n db) w)
      as [[[o|e] db'] w'].
Qed.

(** Alone, the loop yields all that is past the cursor. *)
Lemma pages_all fuel : ∀ n c pre rest (db : Db) (w : W),
  StronglySorted follows (listed p db) →
  listed p db = pre ++ rest → List.filter (past c) (listed p db) = rest →
  length rest < fuel * pageSize →
  exec (λ _ s, s) answer n (pages fetch fuel inc c) db w = (Ok (Some (map line rest)), db, w).
Proof.
  induction fuel as [|fuel IH]; intros n c pre rest db w Hs Hl Hr Hf; [lia|].
  pose proof pageSize_pos.
  destruct (pages_step (λ _ s, s) fuel c n db w) as [[Hp ->]|(q & x & Hge & Hq & Hx & ->)];
    rewrite Hr in *.
  - rewrite firstn_all2; [done|]. rewrite length_firstn in Hp. lia.
  - assert (Hl' : listed p db = (pre ++ q) ++ x :: drop pageSize rest)
      by (rewrite Hl, Hx at 1; by rewrite <- app_assoc).
    rewrite (IH (S n) (Some (cursor_of x)) (pre ++ q ++ [x]) (drop pageSize rest)); [|done|..].
    + simpl. by rewrite <- map_app, firstn_skipn.
    + rewrite Hl'. by rewrite <- !app_assoc.
    + rewrite Hl'. apply past_split. by rewrite <- Hl'.
    + rewrite length_skipn. simpl in Hf. lia.
Qed.

Lemma sorted_filter (q : InvoiceRow → bool) l :
  StronglySorted follows l → StronglySorted follows (List.filter q l).
Proof.
  induction 1 as [|x l Hl IH Hx]; simpl; [constructor|]. destruct (q x); [|done].
  constructor; [done|]. rewrite Forall_forall in *. intros y [Hy _]%list_elem_of_In%filter_In.
  by apply Hx, list_elem_of_In.
Qed.
Lemma sorted_firstn n (l : list InvoiceRow) :
  StronglySorted follows l → StronglySorted follows (firstn n l).
Proof. rewrite <- (firstn_skipn n l) at 1. apply StronglySorted_app_1_l. Qed.
Lemma listed_elem r db : r ∈ listed p db → p r = true.
Proof.
  unfold listed. rewrite (sort_by_perm earlier). by intros [_ ?]%list_elem_of_In%filter_In.
Qed.

(** Among others, what it yields is in order, and past the cursor. *)
Lemma pages_follow env fuel : ∀ n c db (w : W) lines db' w',
  (∀ n s, keyed TInvoice (env n s)) →
  exec env answer n (pages fetch fuel inc (cursor_of <$> c)) db w = (Ok (Some lines), db', w') →
  ∃ l, lines = map line l ∧ StronglySorted follows l ∧
       Forall (λ r, p r = true ∧ past (cursor_of <$> c) r = true) l.
Proof.
  induction fuel as [|fuel IH]; intros n c db w lines db' w' He E; [done|].
  set (rest := List.filter (past (cursor_of <$> c)) (listed p (env n db))).
  assert (Hpage : StronglySorted follows (firstn pageSize rest)).
  { by apply sorted_firstn, sorted_filter, listed_follows. }
  assert (Hin : Forall (λ r, p r = true ∧ past (cursor_of <$> c) r = true) (firstn pageSize rest)).
  { apply Forall_take, Forall_forall. intros r [Hr Hc]%list_elem_of_In%filter_In.
    split; [|done]. apply (listed_elem _ (env n db)). by apply list_elem_of_In. }
  destruct (pages_step env fuel (cursor_of <$> c) n db w)
    as [[Hp E']|(q & x & _ & Hq & Hx & E')]; rewrite E' in E.
  - injection E as <- _ _. by eexists.
  - fold rest in Hq, E. rewrite Hq in *.
    destruct (exec env answer (S n) (pages fetch fuel inc (Some (cursor_of x))) (env n db) w)
      as [[[[ls|]|e] d] v] eqn:Er; try discriminate E.
    injection E as <- _ _. apply (IH (S n) (Some x)) in Er as (l & -> & Hs & Hf); [|done].
    exists ((q ++ [x]) ++ l). split_and!; [by rewrite (map_app _ (q ++ [x]))| |].
    + apply StronglySorted_app_2; [|done|done]. intros y r Hy Hr.
      pose proof (proj2 (proj1 (Forall_forall _ _) Hf r Hr)) as Hxr. simpl in Hxr.
      apply StronglySorted_app in Hpage as (Hqx & _ & _).
      apply elem_of_app in Hy as [Hy|Hy%list_elem_of_singleton]; [|by subst].
      eapply follows_trans; [|exact Hxr]. apply Hqx; [done|]. apply list_elem_of_here.
    + apply Forall_app. split; [done|]. apply Forall_app in Hin as [_ [[_ Hc] _]%Forall_cons].
      eapply Forall_impl; [exact Hf|]. intros r [Hpr Hr]. split; [done|].
      destruct c as [c|]; [|done]. exact (follows_trans c x r Hc Hr).
Qed.

Lemma stream_run env fuel n (db : Db) (w : W) :
  exec env answer n (createInvoiceCsvStream fetch fuel inc) db w =
    let '(r, db', w') := exec env answer n (pages fetch fuel inc None) db w in
    (option_map (cons (csv_line (headers inc))) <$> r, db', w').
Proof.
  destruct (exec_bind env answer (pages fetch fuel inc None)
    (λ r, mret (option_map (cons (csv_line (headers inc))) r)) n db w) as [n' Eb].
  etrans; [exact Eb|].
  by destruct (exec env answer n (pages fetch fuel inc None) db w) as [[[o|e] db'] w'].
Qed.
End pages.

(** ** Theorems *)

(** C38: The export is complete.  On a database that nothing else writes, with more fuel than
    pages, the loop ends and yields the header and one line for each invoice of the
    tenant that the filters select, in the order of creation and then of ids: the pages
    of 500 make no difference. *)
Theorem export_complete {dec : Decimal} {plat : Platform} {coll : Collation}
    (parseDate : string → option Date) {W} (answer : Empty_set → W → Empty_set * W)
    fuel tenantId f bounds n db w :
  keyed TInvoice db → invoiceExportDateBounds parseDate f = Ok bounds →
  length (rows db TInvoice) < fuel * 500 →
  exec (λ _ s, s) answer n (exportInvoices parseDate fuel tenantId f) db w =
    (Ok (Some (csv_line (headers false) ::
       map (λ r, invoiceCsvRow false (export_row r))
         (sort_by earlier
            (List.filter (exported tenantId (fl_status f) bounds) (rows db TInvoice))))), db, w).
Proof.
  intros Hk Hb Hf. unfold exportInvoices. rewrite Hb.
  set (p := exported tenantId (fl_status f) bounds). rewrite (stream_run answer p false).
  rewrite (pages_all answer p false fuel n None [] (listed p db) db w); [done|..].
  - by apply listed_follows.
  - done.
  - apply filter_every. by apply Forall_forall.
  - unfold listed. rewrite (Permutation_length (sort_by_perm earlier _)).
    pose proof (List.filter_length_le p (rows db TInvoice)) as Hle.
    change pageSize with 500. eapply Nat.le_lt_trans; [exact Hle|exact Hf].
Qed.

(** The export repeats nothing.  Whatever other transactions commit between its pages, the
    lines of an export are those of invoices the filters select, strictly increasing in
    time of creation and id, so that none appears twice. *)
Theorem export_no_repeat {dec : Decimal} {plat : Platform} {coll : Collation}
    (parseDate : string → option Date) {W} env (answer : Empty_set → W → Empty_set * W)
    fuel tenantId f n db w lines db' w' :
  (∀ n s, keyed TInvoice (env n s)) →
  exec env answer n (exportInvoices parseDate fuel tenantId f) db w = (Ok (Some lines), db', w') →
  ∃ bounds l, invoiceExportDateBounds parseDate f = Ok bounds ∧
    lines = csv_line (headers false) :: map (λ r, invoiceCsvRow false (export_row r)) l ∧
    StronglySorted follows l ∧ NoDup l ∧
    Forall (λ r, exported tenantId (fl_status f) bounds r = true) l.
Proof.
  intros He. unfold exportInvoices. destruct (invoiceExportDateBounds parseDate f) as [b|] eqn:Hb;
    [|done].
  set (p := exported tenantId (fl_status f) b). rewrite (stream_run answer p false).
  destruct (exec env answer n (pages (λ c t, call (findInvoiceExportPage p c t)) fuel false None) db w) as [[[[ls|]|e] d] v] eqn:E;
    try discriminate. simpl. intros [= <- <- <-].
  apply (pages_follow answer p false env fuel n None) in E as (l & -> & Hs & Hf); [|done].
  exists b, l. split_and!; [done..| |].
  - clear Hf. induction Hs as [|x l Hs IH Hx]; constructor; [|done]. intros Hin.
    rewrite Forall_forall in Hx. apply Hx in Hin. unfold follows in Hin.
    by rewrite not_after_self in Hin.
  - eapply Forall_impl; [exact Hf|]. by intros r [? _].
Qed.

(** * Concrete runs, for the witnesses *)

Module ExportExamples.
Import SamplePlatform FixedPoint.

Lemma compare_le_trans a b c : String.leb a b = true → String.leb b c = true → String.leb a c = true.
Proof.
  unfold String.leb. revert b c. induction a as [|x a IH]; intros [|y b] [|z c]; simpl; try done.
  unfold Ascii.compare.
  destruct (N.compare_spec (N_of_ascii x) (N_of_ascii y)) as [E|E|E]; [|clear IH|done].
  - rewrite E. destruct (N.compare_spec (N_of_ascii y) (N_of_ascii z)); [apply IH|done|done].
  - intros _. destruct (N.compare_spec (N_of_ascii y) (N_of_ascii z)) as [E'|E'|E']; [| |done];
      intros _; rewrite (proj2 (N.compare_lt_iff _ _)) by lia; done.
Qed.
#[export] Instance collation : Collation.
Proof.
  split; simpl.
  - intros a b H. destruct (String.leb_total a b); [congruence|done].
  - apply compare_le_trans.
  - apply String.leb_antisym.
Qed.

Definition invoice (i status : string) (t : Date) : InvoiceRow :=
  {| iv_id := i; iv_tenantId := "t-1"; iv_subscriptionId := None; iv_invoiceNumber := i;
     iv_amountCents := of_Z 499000; iv_currency := "IDR"; iv_status := status;
     iv_providerReferenceId := None; iv_providerPaymentRequestId := None;
     iv_providerPaymentId := None; iv_providerStatus := None; iv_billingPeriodKey := None;
     iv_dueAt := None; iv_paidAt := None; iv_createdAt := t; iv_deletedAt := None |}.
Definition store : Db :=
  on TInvoice (λ _, [invoice "b" "PAID" 5; invoice "c" "PENDING" 1; invoice "a" "PAID" 5]%Z) emptyDb.
Definition filters : Filters :=
  {| fl_from := None; fl_to := None; fl_status := Some "PAID"%string |}.
Definition nobody : Empty_set → unit → Empty_set * unit := λ q _, match q with end.
Lemma export_store_keyed : keyed TInvoice store.
Proof. apply (bool_decide_unpack _). vm_compute. exact Logic.I. Qed.

Lemma csv_roundtrip_witness :
  let lines := [[CText "=1+1"; CText (String dquote ",")]; [CNull]] in
  parse_csv (document lines) = Some (map (map cell_text) lines) ∧
  Forall (Forall (λ v, match v with CText _ => is_formula (cell_text v) = false | _ => True end))
    lines.
Proof. intros lines. apply csv_roundtrip. repeat constructor; discriminate. Defined.

Lemma export_complete_witness :
  exec (λ _ s, s) nobody 0 (exportInvoices (λ _, None) 1 "t-1" filters) store tt =
    (Ok (Some (csv_line (headers false) ::
       map (λ r, invoiceCsvRow false (export_row r))
         (sort_by earlier
            (List.filter (exported "t-1" (fl_status filters) (None, None)) (rows store TInvoice))))),
     store, tt) ∧
  map iv_id (sort_by earlier
    (List.filter (exported "t-1" (fl_status filters) (None, None)) (rows store TInvoice))) =
    ["a"; "b"]%string.
Proof.
  split; [|vm_compute; reflexivity].
  apply (export_complete (λ _, None) nobody 1 "t-1" filters (None, None) 0 store tt);
    [exact export_store_keyed|reflexivity|apply Nat.leb_le; reflexivity].
Defined.

(** An invoice is added before each page. *)
Definition busy (n : nat) (_ : Db) : Db :=
  on TInvoice (λ _, [invoice "b" "PAID" 5; invoice "a" "PAID" 5]%Z) emptyDb.
Lemma export_no_repeat_witness :
  ∃ lines db', exec busy nobody 0 (exportInvoices (λ _, None) 1 "t-1" filters) store tt =
                 (Ok (Some lines), db', tt) ∧ length lines = 3 ∧
  ∃ l, lines = csv_line (headers false) :: map (λ r, invoiceCsvRow false (export_row r)) l ∧ NoDup l.
Proof.
  assert (Ho : (λ x, match fst (fst x) with Ok (Some l) => length l | _ => 0 end)
                 (exec busy nobody 0 (exportInvoices (λ _, None) 1 "t-1" filters) store tt) = 3)
    by (vm_compute; reflexivity).
  destruct (exec busy nobody 0 (exportInvoices (λ _, None) 1 "t-1" filters) store tt)
    as [[[[lines|]|e] db'] []] eqn:E; [|discriminate Ho..].
  exists lines, db'. split; [reflexivity|]. split; [exact Ho|].
  destruct (export_no_repeat (λ _, None) busy nobody 1 "t-1" filters 0 store tt lines db' tt)
    as (b & l & _ & El & _ & Hn & _); [|exact E|exists l; split; [exact El|exact Hn]].
  intros n s. apply (bool_decide_unpack _). vm_compute. exact Logic.I.
Defined.
End ExportExamples.
