(* ===== verification/Historical.v ===== *)
(** The FIFO valuation of stock that was booked before costing was switched on
    ([reconstructHistoricalFifo] and [historicalMovementCosts] of
    modules/inventory/inventory-costing.service.ts): the movements of an item are played
    back warehouse by warehouse, and what is left are the layers to open with.

    A map of the code is a lookup in the list it is built from (the last entry of a key
    wins) or a [gmap]; a loop that breaks off is a function that returns nothing. *)

From stdpp Require Import base list strings option gmap.
From Stdlib Require Import ZArith.
From S2P Require Import Prelude JsNumber JsString DomainEvents CoreDomain MasterData Lifecycles.
From S2P Require Import PurchaseOrderAggregate Decimal Database Costing.

Local Open Scope string_scope.

Module Historical.
Section service.
Context {dec : Decimal} {plat : Platform}.

Record Part := {
  hp_quantity : D; hp_unitCost : D; hp_sourceMovementId : option string;
  hp_sourceType : option string;
}.
Record MovementCost := { hc_parts : list Part; hc_unitCost : option D }.
Record Layer := {
  hl_warehouseId : option string; hl_receivedQuantity : D; hl_quantity : D;
  hl_unitCost : option D; hl_sourceMovementId : option string;
  hl_sourceReferenceId : option string; hl_sourceType : string; hl_createdAt : Date;
}.
Record Balance := {
  hb_warehouseId : option string; hb_currentQuantity : number; hb_layers : list Layer;
  hb_openingCostQuantity : D; hb_reconciled : bool;
}.
Definition set_layer_quantity (q : D) (l : Layer) : Layer :=
  {| hl_warehouseId := hl_warehouseId l; hl_receivedQuantity := hl_receivedQuantity l;
     hl_quantity := q; hl_unitCost := hl_unitCost l;
     hl_sourceMovementId := hl_sourceMovementId l;
     hl_sourceReferenceId := hl_sourceReferenceId l; hl_sourceType := hl_sourceType l;
     hl_createdAt := hl_createdAt l |}.

(** [x.eq(y)], [x.lte(0)], [x.gt(0)]. *)
Definition d_eq (x y : D) : bool := d_lte x y && d_gte x y.
Definition nonpositive (x : D) : bool := d_lte x d_zero.
Definition positive (x : D) : bool := d_gt x d_zero.

(** [LEGACY_${movement.type}] with the name of the type. *)
Definition type_name (t : InventoryMovementType) : string :=
  match t with
  | STOCK_IN => "STOCK_IN" | SALE => "SALE" | WASTE => "WASTE" | ADJUSTMENT => "ADJUSTMENT"
  | RETURN => "RETURN" | STOCK_OUT => "STOCK_OUT" | PURCHASE => "PURCHASE"
  | CONSUMPTION => "CONSUMPTION" | PRODUCTION => "PRODUCTION" | TRANSFER => "TRANSFER"
  end.
Definition has_reference (r : string) (m : MovementRow) : bool :=
  bool_decide (mv_referenceType m = Some r).

(** ** What the movements cost *)

(** [normalizedParts]: the parts of the first [quantity] units. *)
Fixpoint take_parts (remaining : D) (parts : list Part) : list Part * D :=
  match parts with
  | [] => ([], remaining)
  | p :: parts =>
      if nonpositive remaining then ([], remaining) else
      let q := d_min (hp_quantity p) remaining in
      if nonpositive q then take_parts remaining parts else
      let '(ps, rest) := take_parts (d_sub remaining q) parts in
      ({| hp_quantity := q; hp_unitCost := hp_unitCost p;
          hp_sourceMovementId := hp_sourceMovementId p; hp_sourceType := hp_sourceType p |} :: ps,
       rest)
  end.
Definition normalizedParts (parts : list Part) (quantity : number) : MovementCost :=
  let target := d_of_number quantity in
  let '(ps, remaining) := take_parts target parts in
  let covered := d_sub target remaining in
  {| hc_parts := ps;
     hc_unitCost :=
       if d_eq remaining d_zero && positive covered
       then Some (d_div (d_total (map (λ p, (hp_quantity p, hp_unitCost p)) ps)) target)
       else None |}.

(** The parts from [offset] on, up to [remaining] units. *)
Fixpoint slice_parts (offset remaining : D) (parts : list Part) : list Part :=
  match parts with
  | [] => []
  | p :: parts =>
      if nonpositive remaining then [] else
      if d_gte offset (hp_quantity p) then slice_parts (d_sub offset (hp_quantity p)) remaining parts
      else
        let copied := d_min (d_sub (hp_quantity p) offset) remaining in
        {| hp_quantity := copied; hp_unitCost := hp_unitCost p; hp_sourceMovementId := None;
           hp_sourceType := None |} :: slice_parts d_zero (d_sub remaining copied) parts
  end.

Definition Costs := gmap string MovementCost.
Definition moved (m : MovementRow) : number :=
  JsNumber.abs (default (mv_quantity m) (Costing.movementQuantityDelta m)).

(** The allocations of a movement, with the source of the layer they took from. *)
Definition part_of (db : Db) (a : AllocationRow) : Part :=
  let layer := al_costLayerId a ≫= λ i, List.find (has_id TLayer i) (rows db TLayer) in
  {| hp_quantity := al_quantity a; hp_unitCost := al_unitCost a;
     hp_sourceMovementId := layer ≫= ly_sourceMovementId;
     hp_sourceType := ly_sourceType <$> layer |}.
Definition allocations_of (db : Db) (m : MovementRow) : list Part :=
  map (part_of db)
    (sort_by (λ a b, collateLe (al_id a) (al_id b))
       (List.filter (λ a, bool_decide (al_movementId a = mv_id m)) (rows db TAllocation))).
Definition allocated_costs (db : Db) (ms : list MovementRow) : Costs :=
  fold_left (λ costs m,
    match allocations_of db m with
    | [] => costs
    | ps => <[mv_id m := normalizedParts ps (moved m)]> costs
    end) ms ∅.

(** [map.get(sourceKey(referenceId, inventoryItemId, warehouseId))] in a map filled from
    the movements of a kind. *)
Definition keyed_by (referenceId : option string) (itemId : string) (warehouseId : option string)
    (m : MovementRow) : bool :=
  truthy (mv_referenceId m) && bool_decide (mv_referenceId m = referenceId) &&
  bool_decide (mv_inventoryItemId m = itemId) && bool_decide (mv_warehouseId m = warehouseId).
Definition last_such (p : MovementRow → bool) (ms : list MovementRow) : option MovementRow :=
  List.find p (rev ms).
Definition settled_reservation (m : MovementRow) : bool :=
  bool_decide (default "" (mv_referenceType m) ∈
    ["ORDER_RESERVATION_RELEASED"; "ORDER_RESERVATION_CANCELLED"; "ORDER_RESERVATION_EXPIRED"]).
(** The reservation a key stands for, unless several share it. *)
Definition reservation_source (m : MovementRow) (ms : list MovementRow) : option MovementRow :=
  match List.filter (λ s, settled_reservation s &&
          keyed_by (mv_referenceId m) (mv_inventoryItemId m) (mv_warehouseId m) s) ms with
  | [s] => Some s
  | _ => None
  end.

(** One line of a transfer receipt: its share of the cost of the shipment. *)
Definition receipt_line (ms : list MovementRow) (transfer : TransferRow)
    (receipt : TransferReceiptRow)
    (st : Costs * gmap (string * string) D) (line : TransferReceiptItemRow)
  : Costs * gmap (string * string) D :=
  let '(costs, received) := st in
  let item := tj_inventoryItemId line in
  let source := last_such (λ m, has_reference "WAREHOUSE_TRANSFER_SHIPMENT" m &&
    keyed_by (Some (tc_transferId receipt)) item (Some (tr_sourceWarehouseId transfer)) m) ms in
  let target := last_such (λ m, has_reference "WAREHOUSE_TRANSFER_RECEIPT" m &&
    keyed_by (Some (tc_id receipt)) item (Some (tr_destinationWarehouseId transfer)) m) ms in
  match source, target with
  | Some source, Some target =>
      let sourceCost := costs !! mv_id source in
      let skip := default d_zero (received !! (tc_transferId receipt, item)) in
      let quantity := d_of_number (tj_receivedQuantity line) in
      let parts := default [] (hc_parts <$> sourceCost) in
      let normalized := normalizedParts (slice_parts skip quantity parts)
                          (tj_receivedQuantity line) in
      let unitCost := match hc_unitCost normalized with
                      | Some c => Some c
                      | None => match parts with [] => mv_unitCost source | _ => None end
                      end in
      (<[mv_id target := {| hc_parts := hc_parts normalized; hc_unitCost := unitCost |}]> costs,
       <[(tc_transferId receipt, item) := d_add skip quantity]> received)
  | _, _ => st
  end.

(** The receipts the movements name, oldest first. *)
Definition receipt_order (a b : TransferReceiptRow) : bool :=
  Costing.lex Z.eqb Z.leb (tc_createdAt a) (tc_createdAt b) (collateLe (tc_id a) (tc_id b)).
Definition transfer_receipts (db : Db) (tenantId : string) (ms : list MovementRow)
  : list TransferReceiptRow :=
  let ids := omap mv_referenceId
    (List.filter (λ m, has_reference "WAREHOUSE_TRANSFER_RECEIPT" m && truthy (mv_referenceId m)) ms)
  in
  sort_by receipt_order
    (List.filter (λ r, bool_decide (tc_tenantId r = tenantId) && bool_decide (tc_id r ∈ ids))
       (rows db TTransferReceipt)).
Definition receipt_costs (ms : list MovementRow) (db : Db)
    (st : Costs * gmap (string * string) D) (receipt : TransferReceiptRow)
  : Costs * gmap (string * string) D :=
  match List.find (has_id TTransfer (tc_transferId receipt)) (rows db TTransfer) with
  | None => st
  | Some transfer =>
      fold_left (receipt_line ms transfer receipt)
        (List.filter (λ l, bool_decide (tj_receiptId l = tc_id receipt))
           (rows db TTransferReceiptItem)) st
  end.

(** A released reservation costs what the reservation took. *)
Definition release_costs (ms : list MovementRow) (costs : Costs) (m : MovementRow) : Costs :=
  if negb (has_reference "ORDER_RESERVATION_RELEASE" m) ||
     bool_decide (is_Some (costs !! mv_id m ≫= hc_unitCost))
  then costs
  else
    match reservation_source m ms ≫= λ s, costs !! mv_id s with
    | Some cost => <[mv_id m := normalizedParts (hc_parts cost) (moved m)]> costs
    | None => costs
    end.
Definition historicalMovementCosts (db : Db) (tenantId : string) (ms : list MovementRow) : Costs :=
  let costs := allocated_costs db ms in
  let '(costs, _) := fold_left (receipt_costs ms db) (transfer_receipts db tenantId ms) (costs, ∅) in
  fold_left (release_costs ms) ms costs.

(** ** Playing the movements back *)

Definition tolerance : number := of_ratio 1 1000000.
Definition differ (x y : number) : bool := gtb (JsNumber.abs (sub x y)) tolerance.

Record ReceiptCost := { rk_warehouseId : option string; rk_unitCost : D }.

Section replay.
Context (inventoryItemId : string) (costs : Costs) (purchases : string → option ReceiptCost)
  (warehouseId : option string).

(** [costParts]. *)
Definition cost_parts (m : MovementRow) (delta : number) : list Part :=
  let whole c := [{| hp_quantity := d_of_number delta; hp_unitCost := c;
                     hp_sourceMovementId := None; hp_sourceType := None |}] in
  let receiptCost :=
    if has_reference "PURCHASE_ORDER_RECEIPT" m && truthy (mv_referenceId m)
    then mv_referenceId m ≫= purchases else None in
  match costs !! mv_id m with
  | Some c => hc_parts c
  | None =>
      let by_receipt := match receiptCost with
        | Some r => if bool_decide (rk_warehouseId r = warehouseId) then whole (rk_unitCost r) else []
        | None => []
        end in
      if has_reference "WAREHOUSE_TRANSFER_RECEIPT" m || has_reference "ORDER_RESERVATION_RELEASE" m
      then by_receipt
      else match mv_unitCost m with Some c => whole c | None => by_receipt end
  end.

Definition layer (m : MovementRow) (sourceType : string) (q : D) (unitCost : option D) : Layer :=
  {| hl_warehouseId := warehouseId; hl_receivedQuantity := q; hl_quantity := q;
     hl_unitCost := unitCost; hl_sourceMovementId := Some (mv_id m);
     hl_sourceReferenceId := mv_referenceId m; hl_sourceType := sourceType;
     hl_createdAt := mv_createdAt m |}.
Definition opening (quantity : number) (createdAt : Date) : Layer :=
  {| hl_warehouseId := warehouseId; hl_receivedQuantity := d_of_number quantity;
     hl_quantity := d_of_number quantity; hl_unitCost := None; hl_sourceMovementId := None;
     hl_sourceReferenceId := Some inventoryItemId; hl_sourceType := "LEGACY_OPENING_BALANCE";
     hl_createdAt := createdAt |}.

(** The loop over the parts of a receipt of [delta], of which [covered] is covered, and
    the rest at unknown cost. *)
Fixpoint receive_parts (m : MovementRow) (sourceType : string) (delta covered : D)
    (parts : list Part) : list Layer :=
  let rest := d_sub delta covered in
  let unknown := if positive rest then [layer m sourceType rest None] else [] in
  match parts with
  | [] => unknown
  | p :: parts =>
      let q := d_min (hp_quantity p) rest in
      if nonpositive q then unknown
      else layer m sourceType q (Some (hp_unitCost p)) ::
           receive_parts m sourceType delta (d_add covered q) parts
  end.

(** [layers.find(...)] for a part that names the movement it came from. *)
Definition is_source (p : Part) (l : Layer) : bool :=
  bool_decide (hl_sourceMovementId l = hp_sourceMovementId p) &&
  match hl_unitCost l with Some c => d_eq c (hp_unitCost p) | None => false end.
Fixpoint put_back (p : Part) (q : D) (layers : list Layer) : option (list Layer) :=
  match layers with
  | [] => None
  | l :: layers =>
      if is_source p l then Some (set_layer_quantity (d_add (hl_quantity l) q) l :: layers)
      else cons l <$> put_back p q layers
  end.
(** The loop of a release of [delta], of which [restored] is restored. *)
Fixpoint restore_parts (delta restored : D) (parts : list Part) (layers : list Layer)
  : D * list Layer :=
  match parts with
  | [] => (restored, layers)
  | p :: parts =>
      if negb (truthy (hp_sourceMovementId p)) then restore_parts delta restored parts layers else
      let q := d_min (hp_quantity p) (d_sub delta restored) in
      match put_back p q layers with
      | None => restore_parts delta restored parts layers
      | Some layers' =>
          if nonpositive q then (restored, layers)
          else restore_parts delta (d_add restored q) parts layers'
      end
  end.
Definition release (m : MovementRow) (delta : number) (layers : list Layer) : list Layer :=
  let '(restored, layers) := restore_parts (d_of_number delta) d_zero (cost_parts m delta) layers in
  let untraceable := d_sub (d_of_number delta) restored in
  if positive untraceable
  then (layers ++ [layer m "LEGACY_RESERVATION_RELEASE" untraceable None])%list else layers.

(** The loop of an issue: what is left to consume, and the layers. *)
Fixpoint consume (toConsume : D) (layers : list Layer) : D * list Layer :=
  match layers with
  | [] => (toConsume, [])
  | l :: layers =>
      if nonpositive toConsume then (toConsume, l :: layers) else
      let c := d_min (hl_quantity l) toConsume in
      let '(rest, layers) := consume (d_sub toConsume c) layers in
      (rest, set_layer_quantity (d_sub (hl_quantity l) c) l :: layers)
  end.

(** What a movement does to the layers; [None] when they do not cover it. *)
Definition apply_delta (m : MovementRow) (delta : number) (layers : list Layer)
  : option (list Layer) :=
  if gtb delta (of_Z 0) then
    Some (if has_reference "ORDER_RESERVATION_RELEASE" m then release m delta layers
          else (layers ++ receive_parts m
                 (default ("LEGACY_" +:+ type_name (mv_type m)) (mv_referenceType m))
                 (d_of_number delta) d_zero (cost_parts m delta))%list)
  else if ltb delta (of_Z 0) then
    let '(rest, layers) := consume (d_of_number (JsNumber.abs delta)) layers in
    if positive rest then None else Some layers
  else Some layers.
Definition replay_one (m : MovementRow) (layers : list Layer) (ledger : number)
  : option (list Layer * number) :=
  if match mv_beforeQuantity m with Some b => differ ledger b | None => false end then None else
  match Costing.movementQuantityDelta m with
  | None => None
  | Some delta =>
      if match mv_afterQuantity m with Some a => differ (add ledger delta) a | None => false end
      then None
      else
        match apply_delta m delta layers with
        | None => None
        | Some layers => Some (layers, default (add ledger delta) (mv_afterQuantity m))
        end
  end.
Fixpoint replay (ms : list MovementRow) (layers : list Layer) (ledger : number)
  : option (list Layer * number) :=
  match ms with
  | [] => Some (layers, ledger)
  | m :: ms =>
      match replay_one m layers ledger with
      | Some (layers, ledger) => replay ms layers ledger
      | None => None
      end
  end.

(** The layers a warehouse is reconstructed to, when its movements reconcile. *)
Definition reconcile (now : Date) (ms : list MovementRow) (currentQuantity : number)
  : option (list Layer) :=
  match ms with
  | [] => Some (if gtb currentQuantity (of_Z 0) then [opening currentQuantity now] else [])
  | first :: _ =>
      match mv_beforeQuantity first with
      | None => None
      | Some before =>
          match replay ms (if gtb before (of_Z 0)
                           then [opening before (mv_createdAt first - 1)%Z] else []) before with
          | None => None
          | Some (layers, ledger) =>
              if differ ledger currentQuantity || ltb ledger (of_Z 0) then None else Some layers
          end
      end
  end.
Definition balance (now : Date) (ms : list MovementRow) (currentQuantity : number) : Balance :=
  let reconciled := reconcile now ms currentQuantity in
  let layers := match reconciled with
    | Some layers => List.filter (λ l, positive (hl_quantity l)) layers
    | None => if gtb currentQuantity (of_Z 0) then [opening currentQuantity now] else []
    end in
  {| hb_warehouseId := warehouseId; hb_currentQuantity := currentQuantity; hb_layers := layers;
     hb_openingCostQuantity :=
       fold_left (λ total l, d_add total (hl_quantity l))
         (List.filter (λ l, bool_decide (hl_unitCost l = None)) layers) d_zero;
     hb_reconciled := bool_decide (is_Some reconciled) |}.
End replay.

(** ** The item *)

(** The price each receipt line was ordered at; a later line of a receipt wins. *)
Definition purchase_cost (db : Db) (tenantId itemId receiptId : string) : option ReceiptCost :=
  r ← List.find (λ r, bool_decide (ri_tenantId r = tenantId) &&
                      bool_decide (ri_inventoryItemId r = itemId) &&
                      bool_decide (ri_receiptId r = receiptId)) (rev (rows db TReceiptItem));
  i ← List.find (has_id TOrderItem (ri_purchaseOrderItemId r)) (rows db TOrderItem);
  o ← List.find (has_id TOrder (oi_purchaseOrderId i)) (rows db TOrder);
  Some {| rk_warehouseId := po_warehouseId o; rk_unitCost := d_of_number (oi_unitPrice i) |}.
Definition movement_order (a b : MovementRow) : bool :=
  Costing.lex Z.eqb Z.leb (mv_createdAt a) (mv_createdAt b) (collateLe (mv_id a) (mv_id b)).
Definition movements_of (db : Db) (tenantId itemId : string) : list MovementRow :=
  List.filter (λ m, negb (has_reference "ORDER_RESERVATION" m))
    (sort_by movement_order
       (List.filter (λ m, bool_decide (mv_tenantId m = tenantId) &&
                          bool_decide (mv_inventoryItemId m = itemId)) (rows db TMovement))).

Definition location (w : option string) : string := default "" w.
(** [new Set(...)] in the order of insertion. *)
Fixpoint distinct (seen l : list string) : list string :=
  match l with
  | [] => []
  | x :: l => if bool_decide (x ∈ seen) then distinct seen l else x :: distinct (x :: seen) l
  end.
Definition reconstructHistoricalFifo (now : Date) (tenantId itemId : string)
    (stocks : list (option string * number)) : Tx Db (list Balance) :=
  db ← tx_get;
  let ms := movements_of db tenantId itemId in
  let costs := historicalMovementCosts db tenantId ms in
  let purchases := purchase_cost db tenantId itemId in
  let keys := distinct [] (map (location ∘ fst) stocks ++ map (location ∘ mv_warehouseId) ms)%list in
  mret (map (λ key,
    let current := default (of_Z 0)
      (snd <$> List.find (λ s, bool_decide (location (fst s) = key)) (rev stocks)) in
    balance itemId costs purchases (if is_empty key then None else Some key) now
      (List.filter (λ m, bool_decide (location (mv_warehouseId m) = key)) ms) current) keys).
End service.
End Historical.
