(* ===== verification/HistoricalFacts.v ===== *)
(** The historical FIFO reconstruction: the layers a warehouse is opened with add up to
    its stock, and are what the receipts brought less what was issued, oldest first. *)

From stdpp Require Import base list strings option gmap.
From Stdlib Require Import ZArith Lia.
From S2P Require Import Prelude JsNumber JsString DomainEvents CoreDomain MasterData Lifecycles.
From S2P Require Import PurchaseOrderAggregate Decimal Database Costing Historical.
Import Historical.

Local Open Scope Z_scope.

(** * Whole quantities *)

(** Quantities below this bound are exact as numbers and as decimals. *)
Definition bound : Z := 10 ^ 11.
Ltac bounds := unfold bound in *; change (10 ^ 11) with 100000000000 in *; literals; unfold max_exact in *.

Lemma tolerance_small : ∃ t, tolerance = Fin t ∧ 0 <= t < one_units.
Proof.
  assert (E : match tolerance with Fin t => (0 <=? t) && (t <? one_units) | _ => false end = true)
    by (vm_compute; reflexivity).
  destruct tolerance as [t| | |]; [|discriminate E..]. exists t.
  apply andb_true_iff in E as [?%Z.leb_le ?%Z.ltb_lt]. done.
Qed.
Lemma abs_of_Z a : Z.abs a <= max_exact → JsNumber.abs (of_Z a) = of_Z (Z.abs a).
Proof.
  intros Ha. unfold JsNumber.abs. change (Fin 0) with (of_Z 0).
  rewrite ltb_of_Z; [|done|by vm_compute].
  destruct (Z.ltb_spec a 0); [rewrite neg_of_Z by done|]; f_equal; lia.
Qed.
Lemma differ_of_Z a b :
  Z.abs a <= max_exact → Z.abs b <= max_exact → Z.abs (a - b) <= max_exact →
  differ (of_Z a) (of_Z b) = negb (a =? b).
Proof.
  intros Ha Hb Hab. unfold differ. rewrite sub_of_Z, abs_of_Z, of_Z_exact by lia.
  destruct tolerance_small as (t & -> & Ht). unfold gtb. simpl.
  destruct (Z.eqb_spec a b) as [->|Hne]; simpl.
  - rewrite Z.sub_diag. simpl. apply Z.ltb_ge. lia.
  - apply Z.ltb_lt. nia.
Qed.

Section facts.
Context {dec : Decimal} {laws : DecimalLaws dec} {plat : Platform}.

(** A decimal on the grid of the columns. *)
Definition fine (d : D) : Prop := ∃ a, d = micro a ∧ 0 <= a < micro_max.
Definition fine_parts (ps : list Part) : Prop := Forall (λ p, fine (hp_quantity p)) ps.

(** Layers with the millionths they hold. *)
Definition Queue := list (Layer * Z).
Definition tag (x : Layer * Z) : Layer := set_layer_quantity (micro (snd x)) (fst x).
Definition filled (q : Queue) : Prop := Forall (λ x, 0 <= snd x) q.
Definition total (q : Queue) : Z := fold_right (λ x t, snd x + t) 0 q.

Lemma queue_total_app q q' : total (q ++ q') = total q + total q'.
Proof. induction q as [|x q IH]; simpl; [done|]. rewrite IH. ring. Qed.
Lemma total_nonneg q : filled q → 0 <= total q.
Proof. induction 1; simpl; lia. Qed.

(** The queue after [c] millionths are taken from its front. *)
Fixpoint drain (c : Z) (q : Queue) : Queue :=
  match q with
  | [] => []
  | (l, a) :: q => (l, a - Z.min a c) :: drain (c - Z.min a c) q
  end.
Lemma drain_zero q : filled q → drain 0 q = q.
Proof.
  induction 1 as [|[l a] q Ha _ IH]; simpl in *; [done|]. rewrite Z.min_r by done.
  by rewrite !Z.sub_0_r, IH.
Qed.
Lemma drain_filled c q : filled q → filled (drain c q).
Proof.
  intros H. revert c. induction H as [|[l a] q Ha _ IH]; simpl in *; intros c; [constructor|].
  constructor; [simpl; lia|apply IH].
Qed.
Lemma drain_total c q : 0 <= c → filled q → total (drain c q) = total q - Z.min c (total q).
Proof.
  intros Hc H. revert c Hc. induction H as [|[l a] q Ha Hq IH]; simpl in *; intros c Hc; [lia|].
  rewrite IH by lia. pose proof (total_nonneg q Hq). lia.
Qed.
Lemma drain_app c q q' :
  0 <= c → filled q → filled q' → c <= total q → drain c (q ++ q') = drain c q ++ q'.
Proof.
  intros Hc H Hq'. revert c Hc. induction H as [|[l a] q Ha Hq IH]; simpl in *; intros c Hc Ht.
  - replace c with 0 by lia. by apply drain_zero.
  - pose proof (total_nonneg q Hq). f_equal. apply IH; lia.
Qed.
Lemma drain_drain b c q : 0 <= b → 0 <= c → filled q → drain b (drain c q) = drain (c + b) q.
Proof.
  intros Hb Hc H. revert b c Hb Hc. induction H as [|[l a] q Ha _ IH]; simpl in *; intros b c Hb Hc;
    [done|].
  rewrite IH by lia. f_equal; [f_equal; lia|f_equal; lia].
Qed.

(** * The steps *)

Lemma positive_micro a : Z.abs a < micro_max → positive (micro a) = (0 <? a).
Proof. intros. unfold positive. rewrite d_zero_micro. apply micro_gt; [done|literals; lia]. Qed.
Lemma nonpositive_micro a : Z.abs a < micro_max → nonpositive (micro a) = (a <=? 0).
Proof. intros. unfold nonpositive. rewrite d_zero_micro. apply micro_lte; [done|literals; lia]. Qed.

Lemma consume_drain q c :
  filled q → total q < micro_max → 0 <= c < micro_max →
  consume (micro c) (map tag q) = (micro (c - Z.min c (total q)), map tag (drain c q)).
Proof.
  intros H. revert c. induction H as [|[l a] q Ha Hq IH]; intros c Ht Hc; simpl in *.
  { by rewrite Z.min_r, Z.sub_0_r by lia. }
  pose proof (total_nonneg q Hq). rewrite nonpositive_micro by lia.
  destruct (Z.leb_spec c 0).
  - replace c with 0 by lia. rewrite Z.min_l by lia. rewrite Z.min_r by lia.
    rewrite !Z.sub_0_r, drain_zero by done. done.
  - unfold tag at 1 3. simpl. rewrite micro_min, !micro_sub by lia.
    rewrite IH by lia. f_equal. f_equal. lia.
Qed.

Section steps.
Context (warehouseId : option string).

Fixpoint received_parts (m : MovementRow) (sourceType : string) (left : Z) (parts : list Part)
  : Queue :=
  let unknown := if 0 <? left then [(layer warehouseId m sourceType (micro left) None, left)] else [] in
  match parts with
  | [] => unknown
  | p :: parts =>
      let q := Z.min (unmicro (hp_quantity p)) left in
      if q <=? 0 then unknown
      else (layer warehouseId m sourceType (micro q) (Some (hp_unitCost p)), q) ::
           received_parts m sourceType (left - q) parts
  end.
Lemma tag_layer m s a u :
  tag (layer warehouseId m s (micro a) u, a) = layer warehouseId m s (micro a) u.
Proof. done. Qed.
Lemma receive_parts_queue m s n c parts :
  fine_parts parts → 0 <= c <= n → n < micro_max →
  receive_parts warehouseId m s (micro n) (micro c) parts =
    map tag (received_parts m s (n - c) parts) ∧
  filled (received_parts m s (n - c) parts) ∧ total (received_parts m s (n - c) parts) = n - c.
Proof.
  intros H. revert c. induction H as [|p parts (a & Ea & Ha) _ IH]; intros c Hc Hn; simpl.
  - rewrite micro_sub, positive_micro by lia. destruct (Z.ltb_spec 0 (n - c)); simpl.
    + split_and!; [done|repeat constructor; simpl; lia|lia].
    + split_and!; [done|constructor|lia].
  - rewrite Ea, unmicro_micro, micro_sub, micro_min, nonpositive_micro, positive_micro by lia.
    destruct (Z.leb_spec (Z.min a (n - c)) 0).
    + destruct (Z.ltb_spec 0 (n - c)); simpl.
      * split_and!; [done|repeat constructor; simpl; lia|lia].
      * split_and!; [done|constructor|lia].
    + rewrite micro_add by lia. destruct (IH (c + Z.min a (n - c))) as (E & Hf & Ht); [lia|done|].
      replace (n - c - Z.min a (n - c)) with (n - (c + Z.min a (n - c))) by lia.
      rewrite E. simpl. split_and!; [done|constructor; [simpl; lia|done]|]. rewrite Ht. lia.
Qed.

(** A release puts back what the receipt says, one way or the other. *)
Lemma put_back_queue p a q layers :
  filled q → total q + a < micro_max → 0 <= a → put_back p (micro a) (map tag q) = Some layers →
  ∃ q', layers = map tag q' ∧ filled q' ∧ total q' = total q + a.
Proof.
  intros H. revert layers. induction H as [|[l b] q Hb Hq IH]; simpl in *; intros layers Ht Ha E;
    [done|].
  pose proof (total_nonneg q Hq). destruct (is_source p (tag (l, b))).
  - injection E as <-. exists ((l, b + a) :: q). simpl. rewrite micro_add by lia.
    split_and!; [done|constructor; [simpl; lia|done]|lia].
  - destruct (put_back p (micro a) (map tag q)) as [layers'|] eqn:E'; [|done].
    injection E as <-. destruct (IH layers') as (q' & -> & Hf & Ht'); [lia|done|done|].
    exists ((l, b) :: q'). simpl. split_and!; [done|by constructor|lia].
Qed.
Lemma restore_parts_queue n parts : fine_parts parts → ∀ r q,
  0 <= r <= n → n < micro_max → filled q → total q + (n - r) < micro_max →
  ∃ r' q', restore_parts (micro n) (micro r) parts (map tag q) = (micro r', map tag q') ∧
    r <= r' <= n ∧ filled q' ∧ total q' = total q + (r' - r).
Proof.
  induction 1 as [|p parts (a & Ea & Ha) _ IH]; intros r q Hr Hn Hq Ht; simpl.
  { exists r, q. split_and!; [done|lia|lia|done|lia]. }
  destruct (negb (truthy (hp_sourceMovementId p))); [by apply IH|].
  rewrite Ea, micro_sub, micro_min by lia. set (k := Z.min a (n - r)).
  destruct (put_back p (micro k) (map tag q)) as [layers|] eqn:E; [|by apply IH].
  rewrite nonpositive_micro by lia. destruct (Z.leb_spec k 0).
  { exists r, q. split_and!; [done|lia|lia|done|lia]. }
  apply put_back_queue in E as (q' & -> & Hf & Ht'); [|done|lia|lia].
  rewrite micro_add by lia.
  destruct (IH (r + k) q') as (r' & q'' & -> & Hr' & Hf' & Ht''); [lia|done|done|lia|].
  exists r', q''. split_and!; [done|lia|lia|done|lia].
Qed.

(** ** The movements *)

Context (itemId : string) (costs : Costs) (purchases : string → option ReceiptCost).
Context (costs_fine : ∀ i c, costs !! i = Some c → fine_parts (hc_parts c)).

(** A movement of a whole quantity, booked with whole balances. *)
Definition whole (x : number) : Prop := ∃ k, x = of_Z k ∧ Z.abs k < bound.
Definition moves (m : MovementRow) (n : Z) : Prop :=
  Costing.movementQuantityDelta m = Some (of_Z n) ∧
  ∀ a, mv_afterQuantity m = Some a → whole a.

Lemma of_whole n : Z.abs n < bound → d_of_number (of_Z n) = micro (n * million).
Proof. intros. apply of_number_int. bounds. lia. Qed.
Lemma cost_parts_fine m n :
  0 < n < bound → fine_parts (cost_parts costs purchases warehouseId m (of_Z n)).
Proof.
  intros Hn. assert (Hw : ∀ c, fine_parts [{| hp_quantity := d_of_number (of_Z n);
      hp_unitCost := c; hp_sourceMovementId := None; hp_sourceType := None |}]).
  { intros c. constructor; [|constructor]. exists (n * million). simpl.
    split; [apply of_whole; lia|bounds; lia]. }
  unfold cost_parts. destruct (costs !! mv_id m) as [c|] eqn:E; [by eapply costs_fine|].
  repeat case_match; apply Hw || constructor.
Qed.

(** The layers a movement brings. *)
Definition brought (m : MovementRow) (n : Z) : Queue :=
  if 0 <? n
  then received_parts m (default ("LEGACY_" +:+ type_name (mv_type m)) (mv_referenceType m))
         (n * million) (cost_parts costs purchases warehouseId m (of_Z n))
  else [].
Abbreviation is_release := (has_reference "ORDER_RESERVATION_RELEASE").

Lemma apply_delta_queue m n q g layers :
  Z.abs n < bound → filled q → total q = g * million → g < bound →
  apply_delta costs purchases warehouseId m (of_Z n) (map tag q) = Some layers →
  ∃ q', layers = map tag q' ∧ filled q' ∧ total q' = (g + n) * million ∧
    (is_release m = false → - n <= g ∧ filled (brought m n) ∧
     q' = drain (Z.max (- n) 0 * million) q ++ brought m n).
Proof.
  intros Hn Hq Ht Hg. pose proof (total_nonneg q Hq) as Hpos.
  assert (0 <= g) by (bounds; lia).
  assert (Hz : Z.abs 0 <= max_exact) by by vm_compute.
  assert (Hm : Z.abs n <= max_exact) by (bounds; lia).
  unfold apply_delta, gtb, brought. rewrite !ltb_of_Z, of_whole by done.
  destruct (Z.ltb_spec 0 n) as [Hlt|Hge].
  - intros [= <-]. assert (Hp : fine_parts (cost_parts costs purchases warehouseId m (of_Z n)))
      by (apply cost_parts_fine; lia).
    destruct (is_release m).
    + unfold release. rewrite of_whole, d_zero_micro by done.
      destruct (restore_parts_queue (n * million) _ Hp 0 q) as (r & q' & -> & Hr & Hf & Ht');
        [bounds; lia|bounds; lia|done|bounds; lia|].
      rewrite micro_sub, positive_micro by (bounds; lia).
      destruct (Z.ltb_spec 0 (n * million - r)).
      * exists (q' ++ [(layer warehouseId m "LEGACY_RESERVATION_RELEASE"
                          (micro (n * million - r)) None, n * million - r)]).
        split_and!; [by rewrite map_app| |rewrite queue_total_app; simpl; lia|done].
        apply Forall_app. split; [done|]. repeat constructor. simpl. lia.
      * exists q'. split_and!; [done..|lia|done].
    + rewrite d_zero_micro.
      destruct (receive_parts_queue m
        (default ("LEGACY_" +:+ type_name (mv_type m)) (mv_referenceType m)) (n * million) 0 _ Hp)
        as (E & Hf & Ht'); [bounds; lia..|].
      rewrite Z.sub_0_r in *. rewrite E, <- map_app. eexists. split; [done|].
      split; [by apply Forall_app|]. split; [rewrite queue_total_app, Ht'; lia|].
      intros _. split_and!; [lia|done|]. rewrite Z.max_r by lia. by rewrite drain_zero.
  - destruct (Z.ltb_spec n 0) as [Hlt|Hge'].
    + rewrite abs_of_Z, of_whole by (bounds; lia).
      rewrite consume_drain by (done || bounds; lia).
      rewrite positive_micro by (bounds; lia).
      destruct (Z.ltb_spec 0 (Z.abs n * million - Z.min (Z.abs n * million) (total q)));
        intros [= <-].
      eexists. split; [done|]. split; [by apply drain_filled|].
      rewrite drain_total by (done || bounds; lia). split; [bounds; lia|].
      intros _. split_and!; [bounds; lia|constructor|]. rewrite app_nil_r. f_equal. lia.
    + assert (n = 0) as -> by lia. intros [= <-]. exists q. split_and!; [done..|lia|].
      intros _. split_and!; [lia|constructor|]. simpl. by rewrite drain_zero, app_nil_r.
Qed.

Definition net (ns : list Z) : Z := fold_right Z.add 0 ns.
Definition gross (ns : list Z) : Z := fold_right (λ n t, Z.abs n + t) 0 ns.
Definition issued (ns : list Z) : Z := fold_right (λ n t, Z.max (- n) 0 * million + t) 0 ns.
Definition all_brought (ms : list MovementRow) (ns : list Z) : Queue :=
  concat (zip_with brought ms ns).
Lemma gross_nonneg ns : 0 <= gross ns.
Proof. induction ns; simpl; lia. Qed.
Lemma issued_nonneg ns : 0 <= issued ns.
Proof. induction ns; simpl; [lia|]. unfold million. lia. Qed.

Lemma replay_step m n q g layers ledger :
  moves m n → Z.abs n < bound → Z.abs g < bound → Z.abs (g + n) < bound →
  replay_one costs purchases warehouseId m (map tag q) (of_Z g) = Some (layers, ledger) →
  apply_delta costs purchases warehouseId m (of_Z n) (map tag q) = Some layers ∧
  ledger = of_Z (g + n).
Proof.
  intros [Hd Ha] Hn Hg Hgn. unfold replay_one. rewrite Hd.
  case_match; [done|]. rewrite add_of_Z by (bounds; lia).
  destruct (mv_afterQuantity m) as [a|].
  - destruct (Ha a eq_refl) as (k & -> & Hk). rewrite differ_of_Z by (bounds; lia).
    destruct (Z.eqb_spec (g + n) k) as [->|]; [|done]. simpl.
    destruct (apply_delta _ _ _ _ _ _); [|done]. by intros [= -> <-].
  - destruct (apply_delta _ _ _ _ _ _); [|done]. by intros [= -> <-].
Qed.

Lemma replay_queue ms ns : Forall2 moves ms ns → ∀ q g layers ledger,
  filled q → total q = g * million → g + gross ns < bound →
  replay costs purchases warehouseId ms (map tag q) (of_Z g) = Some (layers, ledger) →
  ∃ q', layers = map tag q' ∧ filled q' ∧ total q' = (g + net ns) * million ∧
    ledger = of_Z (g + net ns) ∧
    (Forall (λ m, is_release m = false) ms →
     ∀ c r, filled r → 0 <= c <= total r → q = drain c r →
       filled (r ++ all_brought ms ns) ∧ q' = drain (c + issued ns) (r ++ all_brought ms ns)).
Proof.
  induction 1 as [|m n ms ns Hm _ IH]; intros q g layers ledger Hq Ht Hg E.
  { simpl in E. injection E as <- <-. exists q. simpl. rewrite Z.add_0_r.
    split_and!; [done..|]. intros _ c r Hr Hc ->. rewrite Z.add_0_r, app_nil_r. done. }
  pose proof (gross_nonneg ns). pose proof (total_nonneg q Hq). cbn [gross fold_right] in Hg.
  change (fold_right _ 0 ns) with (gross ns) in Hg.
  assert (0 <= g) by (bounds; lia). cbn [replay] in E.
  destruct (replay_one costs purchases warehouseId m (map tag q) (of_Z g)) as [[l1 led1]|] eqn:E1;
    [|done].
  apply (replay_step m n q g) in E1 as [Ea ->]; [|done|lia..].
  apply (apply_delta_queue m n q g) in Ea as (q1 & -> & Hq1 & Ht1 & Hfifo); [|lia|done|done|lia].
  apply (IH q1 (g + n)) in E as (q' & -> & Hq' & Ht' & -> & Hrest); [|done|done|lia].
  exists q'. cbn [net fold_right]. change (fold_right Z.add 0 ns) with (net ns).
  rewrite Z.add_assoc. split_and!; [done..|].
  intros [Hm' Hms]%Forall_cons c r Hr Hc ->.
  destruct (Hfifo Hm') as (Hle & Hb & ->). rewrite drain_total in Ht by (done || lia).
  unfold all_brought. cbn [zip_with concat issued fold_right].
  change (concat (zip_with brought ms ns)) with (all_brought ms ns).
  change (fold_right _ 0 ns) with (issued ns).
  destruct (Hrest Hms (c + Z.max (- n) 0 * million) (r ++ brought m n)) as [Hf ->].
  - by apply Forall_app.
  - rewrite queue_total_app. pose proof (total_nonneg _ Hb). bounds. lia.
  - rewrite drain_drain by (done || bounds; lia). symmetry. apply drain_app; [bounds; lia|done..|].
    bounds. lia.
  - rewrite <- !app_assoc in *. split; [done|]. f_equal. lia.
Qed.

(** ** A warehouse *)

(** The layers a warehouse opens with, and all it received. *)
Definition opening_queue (o : Z) (createdAt : Date) : Queue :=
  if 0 <? o then [(opening itemId warehouseId (of_Z o) createdAt, o * million)] else [].
Lemma opening_tag o t :
  Z.abs o < bound →
  (if gtb (of_Z o) (of_Z 0) then [opening itemId warehouseId (of_Z o) t] else []) =
    map tag (opening_queue o t).
Proof.
  intros Ho. unfold gtb, opening_queue. rewrite ltb_of_Z; [|by vm_compute|bounds; lia].
  destruct (0 <? o); [|done]. unfold tag, opening, set_layer_quantity. simpl.
  by rewrite of_whole.
Qed.
Lemma opening_filled o t : filled (opening_queue o t).
Proof.
  unfold opening_queue. destruct (Z.ltb_spec 0 o); repeat constructor. simpl. bounds. lia.
Qed.
Lemma opening_total o t : total (opening_queue o t) = Z.max o 0 * million.
Proof. unfold opening_queue. destruct (Z.ltb_spec 0 o); simpl; bounds; lia. Qed.

(** The books of a warehouse: its movements, what each moves, and its stock before the
    first, which is not negative. *)
Definition books (ms : list MovementRow) (ns : list Z) : Prop :=
  Forall2 moves ms ns ∧ gross ns < bound ∧
  match ms with
  | [] => True
  | m :: _ => ∀ b, mv_beforeQuantity m = Some b →
                ∃ o, b = of_Z o ∧ 0 <= o ∧ o + gross ns < bound
  end.

Lemma reconcile_queue now ms ns c layers :
  books ms ns → Z.abs c < bound →
  reconcile itemId costs purchases warehouseId now ms (of_Z c) = Some layers →
  ∃ q, layers = map tag q ∧ filled q ∧ total q = Z.max c 0 * million ∧
    (Forall (λ m, is_release m = false) ms →
     match ms with
     | [] => True
     | m :: _ => ∃ o, mv_beforeQuantity m = Some (of_Z o) ∧
         q = drain (issued ns) (opening_queue o (mv_createdAt m - 1) ++ all_brought ms ns)
     end).
Proof.
  intros (Hm & Hg & Ho) Hc. unfold reconcile. destruct ms as [|m ms].
  { intros [= <-]. rewrite opening_tag by done. exists (opening_queue c now).
    split_and!; [done|apply opening_filled|apply opening_total|done]. }
  destruct (mv_beforeQuantity m) as [b|] eqn:Eb; [|done].
  destruct (Ho b eq_refl) as (o & -> & Hpos & Hbound). pose proof (gross_nonneg ns).
  rewrite opening_tag by lia. set (q0 := opening_queue o (mv_createdAt m - 1)).
  pose proof (opening_filled o (mv_createdAt m - 1)) as Hq0. fold q0 in Hq0.
  pose proof (opening_total o (mv_createdAt m - 1)) as Ht0. fold q0 in Ht0.
  destruct (replay costs purchases warehouseId (m :: ms) (map tag q0) (of_Z o))
    as [[ls led]|] eqn:E; [|done].
  apply (replay_queue (m :: ms) ns Hm q0 o) in E as (q & -> & Hq & Ht & -> & Hfifo);
    [|done|lia|done].
  pose proof (total_nonneg q Hq) as Hpq.
  assert (Hnet : net ns <= gross ns) by (clear; induction ns; simpl; lia).
  rewrite differ_of_Z by (bounds; lia).
  destruct (Z.eqb_spec (o + net ns) c) as [<-|]; [|done]. simpl.
  case_match; [done|]. intros [= <-]. exists q. split_and!; [done|done|bounds; lia|].
  intros Hr. exists o. split; [done|].
  destruct (Hfifo Hr 0 q0) as [_ ->]; [done|pose proof (total_nonneg q0 Hq0); lia| |done].
  by rewrite drain_zero.
Qed.

(** What is left of a queue when the empty layers are dropped. *)
Lemma filter_positive q :
  filled q → total q < micro_max →
  List.filter (λ l, positive (hl_quantity l)) (map tag q) =
    map tag (List.filter (λ x, 0 <? snd x) q).
Proof.
  induction 1 as [|[l a] q Ha Hq IH]; simpl in *; intros Ht; [done|].
  pose proof (total_nonneg q Hq). rewrite positive_micro by lia. rewrite IH by lia.
  by destruct (0 <? a).
Qed.
Lemma total_filter q : filled q → total (List.filter (λ x, 0 <? snd x) q) = total q.
Proof.
  induction 1 as [|[l a] q Ha Hq IH]; simpl in *; [done|].
  destruct (Z.ltb_spec 0 a); simpl; lia.
Qed.
Definition unknown (x : Layer * Z) : bool := bool_decide (hl_unitCost (fst x) = None).
Lemma opening_cost q t :
  filled q → 0 <= t → t + total q < micro_max →
  fold_left (λ total l, d_add total (hl_quantity l))
    (List.filter (λ l, bool_decide (hl_unitCost l = None)) (map tag q)) (micro t) =
    micro (t + total (List.filter unknown q)).
Proof.
  intros H. revert t. induction H as [|[l a] q Ha Hq IH]; intros t Ht Hb; simpl in *.
  { by rewrite Z.add_0_r. }
  pose proof (total_nonneg q Hq). unfold unknown at 1. simpl.
  destruct (bool_decide (hl_unitCost l = None)); simpl.
  - rewrite micro_add by lia. rewrite IH by lia. f_equal. lia.
  - apply IH; lia.
Qed.

Lemma nonempty_filled q : Forall (λ x, 0 < snd x) q → filled q.
Proof. intros H. apply (Forall_impl _ _ _ H). intros x. lia. Qed.
(** The layers of a warehouse, reconciled or not. *)
Lemma balance_queue now ms ns c :
  books ms ns → Z.abs c < bound →
  ∃ q, hb_layers (balance itemId costs purchases warehouseId now ms (of_Z c)) = map tag q ∧
    Forall (λ x, 0 < snd x) q ∧ total q = Z.max c 0 * million.
Proof.
  intros Hb Hc. unfold balance. cbn [hb_layers].
  assert (∃ q, filled q ∧ total q = Z.max c 0 * million ∧
    match reconcile itemId costs purchases warehouseId now ms (of_Z c) with
    | Some layers => List.filter (λ l, positive (hl_quantity l)) layers
    | None => if gtb (of_Z c) (of_Z 0) then [opening itemId warehouseId (of_Z c) now] else []
    end = map tag (List.filter (λ x, 0 <? snd x) q)) as (q & Hq & Ht & ->).
  { destruct (reconcile _ _ _ _ _ _ _) as [layers|] eqn:E.
    - apply (reconcile_queue now ms ns) in E as (q & -> & Hq & Ht & _); [|done..].
      exists q. split_and!; [done..|]. apply filter_positive; [done|]. bounds. lia.
    - exists (opening_queue c now).
      split_and!; [apply opening_filled|apply opening_total|].
      rewrite opening_tag by done. unfold opening_queue.
      destruct (Z.ltb_spec 0 c); [|done]. simpl.
      destruct (Z.ltb_spec 0 (c * million)); [done|bounds; lia]. }
  exists (List.filter (λ x, 0 <? snd x) q). split_and!; [done| |by rewrite total_filter].
  apply Forall_forall. intros x [_ Hx]%list_elem_of_In%filter_In. by apply Z.ltb_lt.
Qed.
End steps.
End facts.

(** * Theorems *)

(** Reconstruction never invents or loses stock.  For a warehouse whose books hold whole
    quantities and open with no negative stock, whether or not its movements reconcile,
    the layers it is opened with are not empty and add up exactly to its current stock (to
    nothing when that is negative), and the quantity reported as lacking a cost is the sum
    of the layers without one. *)
Theorem historical_fifo_total {dec : Decimal} {laws : DecimalLaws dec} {plat : Platform}
    warehouseId itemId costs purchases now ms ns c :
  (∀ i cost, costs !! i = Some cost → fine_parts (hc_parts cost)) →
  books ms ns → Z.abs c < bound →
  let b := balance itemId costs purchases warehouseId now ms (of_Z c) in
  ∃ q : Queue, hb_layers b = map tag q ∧ Forall (λ x, 0 < snd x) q ∧
    total q = Z.max c 0 * million ∧
    hb_openingCostQuantity b = micro (total (List.filter unknown q)).
Proof.
  intros Hf Hb Hc b. destruct (balance_queue warehouseId itemId costs purchases Hf now ms ns c Hb Hc)
    as (q & E & Hq & Ht). exists q. split_and!; [exact E|done..|]. unfold b, balance in *.
  cbn [hb_layers hb_openingCostQuantity] in *. rewrite E, d_zero_micro, opening_cost;
    [done|by apply nonempty_filled|done|bounds; lia].
Qed.

(** C27: Reconstruction is first in, first out.  When the movements of a warehouse, of whole
    and bounded quantities and with costs that fit their columns, reconcile and none gives
    a reservation back, its layers are the opening stock and everything it
    received, in order, less everything it issued, taken from the front. *)
Theorem historical_fifo_queue {dec : Decimal} {laws : DecimalLaws dec} {plat : Platform}
    warehouseId itemId costs purchases now m ms ns c :
  (∀ i cost, costs !! i = Some cost → fine_parts (hc_parts cost)) →
  books (m :: ms) ns → Z.abs c < bound →
  Forall (λ m, has_reference "ORDER_RESERVATION_RELEASE" m = false) (m :: ms) →
  let b := balance itemId costs purchases warehouseId now (m :: ms) (of_Z c) in
  hb_reconciled b = true →
  ∃ o, mv_beforeQuantity m = Some (of_Z o) ∧
    hb_layers b = map tag (List.filter (λ x, 0 <? snd x)
      (drain (issued ns) (opening_queue warehouseId itemId o (mv_createdAt m - 1) ++
         all_brought warehouseId costs purchases (m :: ms) ns))).
Proof.
  intros Hf Hb Hc Hr b. unfold b, balance. cbn [hb_layers hb_reconciled].
  destruct (reconcile _ _ _ _ _ _ _) as [layers|] eqn:E; [|intros H; by bool_hyps; destruct H].
  apply (reconcile_queue warehouseId itemId costs purchases Hf now (m :: ms) ns) in E
    as (q & -> & Hq & Ht & Hfifo); [|done..].
  intros _. destruct (Hfifo Hr) as (o & Ho & Eq). exists o. split; [done|].
  rewrite <- Eq. apply filter_positive; [done|]. bounds. lia.
Qed.

(** * Concrete books, for the witnesses *)

Module HistoricalExamples.
Import SamplePlatform FixedPoint.
Local Open Scope string_scope.

Definition movement (i : string) (reference : option string) (t : Date) (before after cost : Z)
  : MovementRow :=
  {| mv_id := i; mv_tenantId := "t-1"; mv_type := ADJUSTMENT;
     mv_quantity := of_Z (after - before); mv_note := None; mv_createdAt := t;
     mv_beforeQuantity := Some (of_Z before); mv_afterQuantity := Some (of_Z after);
     mv_createdById := None; mv_inventoryItemId := "flour"; mv_referenceId := Some "o-1";
     mv_referenceType := reference; mv_warehouseId := Some "w-1";
     mv_unitCost := if (0 <? cost)%Z then Some (d_of_number (of_Z cost)) else None;
     mv_totalCost := None |}.
(** Five units at the start, ten more, seven issued. *)
Definition ledger : list MovementRow :=
  [movement "m1" None 10 5 15 40; movement "m2" None 20 15 8 0]%Z.
Definition reconstructed : Balance :=
  balance "flour" ∅ (λ _, None) (Some "w-1") 99%Z ledger (of_Z 8).
Definition quantities (b : Balance) : list (option string * Z) :=
  map (λ l, (hl_sourceMovementId l, unmicro (hl_quantity l))) (hb_layers b).

Lemma no_costs i (cost : MovementCost) : (∅ : Costs) !! i = Some cost → fine_parts (hc_parts cost).
Proof. intros H. discriminate H. Qed.
Lemma moves_ledger m n a :
  Costing.movementQuantityDelta m = Some (of_Z n) → mv_afterQuantity m = Some (of_Z a) →
  (Z.abs a < bound)%Z → moves m n.
Proof. intros Hd Ha Hb. split; [done|]. intros x Hx. exists a. split; [congruence|done]. Qed.
Lemma ledger_books : books ledger [10; -7]%Z.
Proof.
  split; [|split].
  - apply Forall2_cons_2; [|apply Forall2_cons_2; [|constructor]];
      [apply (moves_ledger _ _ 15)|apply (moves_ledger _ _ 8)]; vm_compute; reflexivity.
  - vm_compute. reflexivity.
  - intros b Hb. exists 5%Z. split; [symmetry; exact (inj Some _ _ Hb)|].
    split; [lia|vm_compute; reflexivity].
Qed.

Lemma historical_fifo_total_witness :
  ∃ q : Queue, hb_layers reconstructed = map tag q ∧ Forall (λ x, 0 < snd x)%Z q ∧
    total q = (Z.max 8 0 * million)%Z ∧
    hb_openingCostQuantity reconstructed = micro (total (List.filter unknown q)).
Proof.
  refine (historical_fifo_total (Some "w-1") "flour" ∅ (λ _, None) 99 ledger [10; -7]%Z 8 _ _ _);
    [exact no_costs|exact ledger_books|vm_compute; reflexivity].
Defined.
Lemma historical_fifo_queue_witness :
  quantities reconstructed = [(Some "m1", 8 * million)%Z] ∧
  ∃ o, mv_beforeQuantity (movement "m1" None 10 5 15 40) = Some (of_Z o) ∧
    hb_layers reconstructed = map tag (List.filter (λ x, 0 <? snd x)%Z
      (drain (issued [10; -7]%Z) (opening_queue (Some "w-1") "flour" o (10 - 1) ++
         all_brought (Some "w-1") ∅ (λ _, None) ledger [10; -7]%Z)%list)).
Proof.
  split; [vm_compute; reflexivity|].
  refine (historical_fifo_queue (Some "w-1") "flour" ∅ (λ _, None) 99
    (movement "m1" None 10 5 15 40) [movement "m2" None 20 15 8 0] [10; -7]%Z 8 _ _ _ _ _);
    [exact no_costs|exact ledger_books|vm_compute; reflexivity|repeat constructor|
     vm_compute; reflexivity].
Defined.

(** ** Two corners *)

(** A warehouse whose books open below zero is taken as reconciled with more layers than
    stock: from -3, a receipt of 5 leaves 2 in stock and a layer of 5. *)
Example negative_opening_overstates :
  let b := balance "flour" ∅ (λ _, None) (Some "w-1") 99%Z
             [movement "m1" None 10 (-3) 2 40] (of_Z 2) in
  hb_reconciled b = true ∧ quantities b = [(Some "m1", 5 * million)%Z].
Proof. split; vm_compute; reflexivity. Qed.

(** A release of units that had been taken from the opening balance does not go back to
    it, but to the end of the queue: a part without a source movement is passed over. *)
Example opening_release_requeued :
  let part := {| hp_quantity := d_of_number (of_Z 2); hp_unitCost := d_of_number (of_Z 40);
                 hp_sourceMovementId := None; hp_sourceType := Some "OPENING_BALANCE" |} in
  let b := balance "flour" {["m2" := {| hc_parts := [part]; hc_unitCost := None |}]} (λ _, None)
             (Some "w-1") 99%Z
             [movement "m1" (Some "ORDER_RESERVATION_RELEASED") 10 5 3 0;
              movement "m2" (Some "ORDER_RESERVATION_RELEASE") 20 3 5 0] (of_Z 5) in
  hb_reconciled b = true ∧
  quantities b = [(None, 3 * million)%Z; (Some "m2", 2 * million)%Z].
Proof. split; vm_compute; reflexivity. Qed.
End HistoricalExamples.
