(* ===== verification/Averages.v ===== *)
(** The moving averages of stock that was booked before costing was switched on
    ([reconstructHistoricalMovingAverage] of
    modules/inventory/inventory-costing.service.ts): the movements of an item are played
    back in one pass that keeps the quantity and the average cost of every warehouse and
    of the item as a whole. *)

From stdpp Require Import base list strings option gmap.
From Stdlib Require Import ZArith.
From S2P Require Import Prelude JsNumber JsString DomainEvents CoreDomain MasterData Lifecycles.
From S2P Require Import PurchaseOrderAggregate Decimal Database Costing Historical.

Local Open Scope string_scope.

Module Averages.
Import Historical.
Section service.
Context {dec : Decimal} {plat : Platform}.

(** The state of a warehouse, or of the item. *)
Record State := { sa_quantity : D; sa_averageUnitCost : option D }.
Record AverageBalance := {
  ab_warehouseId : option string; ab_currentQuantity : number;
  ab_warehouseAverageUnitCost : option D; ab_warehouseReconciled : bool;
  ab_itemOpeningCostQuantity : D; ab_warehouseOpeningCostQuantity : D;
}.
Record HistoricalMovingAverage := {
  ha_itemAverageUnitCost : option D; ha_itemReconciled : bool;
  ha_balances : list AverageBalance;
}.
(** The variables of the loop; [rp_gaps] are the warehouses whose [warehouseReconciled]
    is false. *)
Record Replay := {
  rp_states : gmap string State; rp_item : State; rp_itemReconciled : bool;
  rp_gaps : gset string;
}.

Definition negative (x : D) : bool := d_gt d_zero x.
(** [Math.max(quantity, 0)]. *)
Definition stock_left (quantity : number) : D := d_of_number (JsNumber.max quantity (of_Z 0)).

(** ** The pass *)

Section replay.
Context (costs : Costs) (purchases : string → option ReceiptCost).

(** [replayUnitCost]. *)
Definition replay_cost (m : MovementRow) : option D :=
  match costs !! mv_id m ≫= hc_unitCost with
  | Some c => Some c
  | None =>
      match mv_unitCost m with
      | Some c => Some c
      | None =>
          if has_reference "PURCHASE_ORDER_RECEIPT" m && truthy (mv_referenceId m) then
            r ← mv_referenceId m ≫= purchases;
            if bool_decide (rk_warehouseId r = mv_warehouseId m) then Some (rk_unitCost r) else None
          else None
      end
  end.
(** A receipt of [delta] at a cost, or at an unknown one. *)
Definition blend (cost : D) (delta : number) (s : State) : State :=
  {| sa_quantity := sa_quantity s;
     sa_averageUnitCost :=
       if d_eq (sa_quantity s) d_zero then Some cost
       else (λ average,
         d_div (d_add (d_mul (sa_quantity s) average) (d_mul (d_of_number delta) cost))
           (d_add (sa_quantity s) (d_of_number delta))) <$> sa_averageUnitCost s |}.
Definition forget (s : State) : State :=
  {| sa_quantity := sa_quantity s; sa_averageUnitCost := None |}.
Definition received (m : MovementRow) (delta : number) (s : State) : State :=
  if gtb delta (of_Z 0) then
    match replay_cost m with Some c => blend c delta s | None => forget s end
  else s.
(** The quantity afterwards; what is empty has no average. *)
Definition moved_by (delta : number) (s : State) : State :=
  let q := d_add (sa_quantity s) (d_of_number delta) in
  {| sa_quantity := q;
     sa_averageUnitCost := if d_eq q d_zero then None else sa_averageUnitCost s |}.

(** A movement that does not fit: the loop goes on with the next one. *)
Definition mismatch (key : string) (r : Replay) : Replay :=
  {| rp_states := rp_states r; rp_item := rp_item r; rp_itemReconciled := false;
     rp_gaps := {[ key ]} ∪ rp_gaps r |}.
Definition set_states (key : string) (s item : State) (r : Replay) : Replay :=
  {| rp_states := <[key := s]> (rp_states r); rp_item := item;
     rp_itemReconciled := rp_itemReconciled r; rp_gaps := rp_gaps r |}.
Definition fits (m : MovementRow) (delta : number) (s : State) : bool :=
  let quantity := d_to_number (sa_quantity s) in
  negb (match mv_beforeQuantity m with Some b => differ quantity b | None => false end ||
        match mv_afterQuantity m with Some a => differ (add quantity delta) a | None => false end).
Definition replay_movement (r : Replay) (m : MovementRow) : Replay :=
  let key := location (mv_warehouseId m) in
  match rp_states r !! key, Costing.movementQuantityDelta m with
  | Some s, Some delta =>
      if negb (fits m delta s) then mismatch key r else
      let s := received m delta s in
      let item := received m delta (rp_item r) in
      if negative (d_add (sa_quantity s) (d_of_number delta)) ||
         negative (d_add (sa_quantity item) (d_of_number delta))
      then mismatch key (set_states key s item r)
      else set_states key (moved_by delta s) (moved_by delta item) r
  | _, _ => mismatch key r
  end.
End replay.

(** ** Before and after the pass *)

(** The quantity a warehouse starts with, unless its first movement does not say. *)
Definition start_location (stock : string → number) (ms : list MovementRow) (r : Replay)
    (key : string) : Replay :=
  let initial :=
    match List.filter (λ m, bool_decide (location (mv_warehouseId m) = key)) ms with
    | first :: _ => mv_beforeQuantity first
    | [] => Some (stock key)
    end in
  match initial with
  | None =>
      {| rp_states := <[key := {| sa_quantity := d_of_number (stock key);
                                  sa_averageUnitCost := None |}]> (rp_states r);
         rp_item := rp_item r; rp_itemReconciled := false; rp_gaps := rp_gaps r |}
  | Some q =>
      set_states key {| sa_quantity := d_of_number q; sa_averageUnitCost := None |}
        {| sa_quantity := d_add (sa_quantity (rp_item r)) (d_of_number q);
           sa_averageUnitCost := sa_averageUnitCost (rp_item r) |} r
  end.
Definition start (stock : string → number) (ms : list MovementRow) (keys : list string) : Replay :=
  fold_left (start_location stock ms) keys
    {| rp_states := ∅; rp_item := {| sa_quantity := d_zero; sa_averageUnitCost := None |};
       rp_itemReconciled := true; rp_gaps := ∅ |}.

Definition within (x y : number) : bool := leb (JsNumber.abs (sub x y)) tolerance.
Definition ledger_matches (stock : string → number) (r : Replay) (key : string) : bool :=
  match rp_states r !! key with
  | Some s => within (d_to_number (sa_quantity s)) (stock key)
  | None => false
  end.
Definition average_of (r : Replay) (key : string) : option D :=
  rp_states r !! key ≫= sa_averageUnitCost.
Definition can_replay (stock : string → number) (r : Replay) (key : string) : bool :=
  let hasMovementGap :=
    gtb (stock key) (of_Z 0) && bool_decide (key ∈ rp_gaps r) || negb (ledger_matches stock r key) in
  let hasUnknownWarehouseCost :=
    gtb (stock key) (of_Z 0) && bool_decide (average_of r key = None) in
  negb hasMovementGap && negb hasUnknownWarehouseCost.
Definition average_balance (stock : string → number) (r : Replay) (itemCanReplay : bool)
    (key : string) : AverageBalance :=
  {| ab_warehouseId := if is_empty key then None else Some key;
     ab_currentQuantity := stock key;
     ab_warehouseAverageUnitCost := if can_replay stock r key then average_of r key else None;
     ab_warehouseReconciled := can_replay stock r key;
     ab_itemOpeningCostQuantity := if itemCanReplay then d_zero else stock_left (stock key);
     ab_warehouseOpeningCostQuantity :=
       if can_replay stock r key then d_zero else stock_left (stock key) |}.
Definition item_can_replay (stock : string → number) (total : number) (r : Replay)
    (keys : list string) : bool :=
  rp_itemReconciled r && forallb (ledger_matches stock r) keys &&
  within (d_to_number (sa_quantity (rp_item r))) total &&
  (leb total (of_Z 0) || bool_decide (is_Some (sa_averageUnitCost (rp_item r)))).

Definition stock_at (stocks : list (option string * number)) (key : string) : number :=
  default (of_Z 0) (snd <$> List.find (λ s, bool_decide (location (fst s) = key)) (rev stocks)).
(** All movements, active reservations included; [movements_of] leaves those out. *)
Definition all_movements (db : Db) (tenantId itemId : string) : list MovementRow :=
  sort_by movement_order
    (List.filter (λ m, bool_decide (mv_tenantId m = tenantId) &&
                       bool_decide (mv_inventoryItemId m = itemId)) (rows db TMovement)).
Definition reconstructHistoricalMovingAverage (tenantId itemId : string)
    (stocks : list (option string * number)) : Tx Db HistoricalMovingAverage :=
  db ← tx_get;
  let historicalMovements := movements_of db tenantId itemId in
  let costs := historicalMovementCosts db tenantId historicalMovements in
  let stock := stock_at stocks in
  let keys := distinct [] (map (location ∘ fst) stocks ++
                           map (location ∘ mv_warehouseId) historicalMovements)%list in
  let r := fold_left (replay_movement costs (purchase_cost db tenantId itemId))
             (all_movements db tenantId itemId) (start stock historicalMovements keys) in
  let total := fold_left (λ total s, add total (snd s)) stocks (of_Z 0) in
  let itemCanReplay := item_can_replay stock total r keys in
  mret {| ha_itemAverageUnitCost :=
            if itemCanReplay then sa_averageUnitCost (rp_item r) else None;
          ha_itemReconciled := itemCanReplay;
          ha_balances := map (average_balance stock r itemCanReplay) keys |}.
End service.
End Averages.
