(* ===== verification/AverageFacts.v ===== *)
(** The replayed moving averages: however the movements go, an average lies between the
    lowest and the highest cost of what was received. *)

From stdpp Require Import base list strings option gmap.
From Stdlib Require Import ZArith Lia.
From S2P Require Import Prelude JsNumber JsString DomainEvents CoreDomain MasterData Lifecycles.
From S2P Require Import PurchaseOrderAggregate Decimal Database Costing Historical HistoricalFacts.
From S2P Require Import Averages.
Import Historical Averages.

Local Open Scope Z_scope.

Section facts.
Context {dec : Decimal} {laws : DecimalLaws dec} {plat : Platform}.
Context (lo hi : Z).

(** A cost between the bounds. *)
Definition between (c : D) : Prop := d_lte (micro lo) c = true ∧ d_lte c (micro hi) = true.
(** A whole quantity of at most [g] units, and an average between the bounds. *)
Definition fair (g : Z) (s : State) : Prop :=
  ∃ q, sa_quantity s = micro (q * million) ∧ 0 <= q <= g ∧
    ∀ c, sa_averageUnitCost s = Some c → between c.
Definition fair_replay (g : Z) (r : Replay) : Prop :=
  fair g (rp_item r) ∧ ∀ k s, rp_states r !! k = Some s → fair g s.

Lemma fair_le g g' s : g <= g' → fair g s → fair g' s.
Proof. intros Hg (q & E & Hq & Hc). exists q. split; [done|]. split; [lia|done]. Qed.
Lemma fair_replay_le g g' r : g <= g' → fair_replay g r → fair_replay g' r.
Proof. intros Hg [Hi Hs]. split; [by eapply fair_le|]. intros k s Hk. eapply fair_le; [done|by eapply Hs]. Qed.

(** The whole ledger stays below [top] units. *)
Context (top : Z) (Hlo : 0 <= lo) (Hhi : lo <= hi < micro_max).
Context (Htop : 0 <= top < 10 ^ 11) (Hdigits : top * million * hi < digits20).

Lemma whole_micro q : 0 <= q <= top → 0 <= q * million < micro_max.
Proof. change (10 ^ 11) with 100000000000 in Htop. literals. lia. Qed.
Lemma of_number_whole n : - top <= n <= top → d_of_number (of_Z n) = micro (n * million).
Proof. change (10 ^ 11) with 100000000000 in Htop. intros. apply of_number_int. lia. Qed.

(** Blending keeps the bounds. *)
Lemma weigh q c : 0 <= q <= top → between c →
  d_lte (pico (q * million * lo)) (d_mul (micro (q * million)) c) = true ∧
  d_lte (d_mul (micro (q * million)) c) (pico (q * million * hi)) = true.
Proof.
  intros Hq [H1 H2]. pose proof (whole_micro q Hq).
  apply mul_between; [done..|lia| |done|done]. unfold million in *. nia.
Qed.
Lemma blend_between q n a c :
  0 <= q → 0 < n → q + n <= top → between a → between c →
  between (d_div (d_add (d_mul (micro (q * million)) a) (d_mul (d_of_number (of_Z n)) c))
             (d_add (micro (q * million)) (d_of_number (of_Z n)))).
Proof.
  intros Hq Hn Ht Ha Hc. rewrite of_number_whole by lia.
  destruct (weigh q a) as [A1 A2]; [lia|done|]. destruct (weigh n c) as [C1 C2]; [lia|done|].
  pose proof (whole_micro (q + n)) as Hqn. pose proof (whole_micro q) as Hqm.
  pose proof (whole_micro n) as Hnm.
  rewrite micro_add by lia. rewrite <- Z.mul_add_distr_r.
  assert (Hd : (q + n) * million * hi < digits20) by (unfold million in *; nia).
  destruct (add_between (d_mul (micro (q * million)) a) (d_mul (micro (n * million)) c)
    (q * million * lo) (q * million * hi) (n * million * lo) (n * million * hi)) as [S1 S2];
    [unfold million; nia|unfold million; nia| |done..|].
  { rewrite <- !Z.mul_add_distr_r. done. }
  rewrite <- !Z.mul_add_distr_r in S1, S2.
  apply div_between; [unfold million in *; lia|lia|lia|done|done|done].
Qed.

Section movement.
Context (costs : Costs) (purchases : string → option ReceiptCost).

(** A movement of [n] units, whose cost is between the bounds if it is known. *)
Definition moves_by (m : MovementRow) (n : Z) : Prop :=
  (Costing.movementQuantityDelta m = Some (of_Z n) ∨ Costing.movementQuantityDelta m = None) ∧
  ∀ c, replay_cost costs purchases m = Some c → between c.

Lemma received_fair g m n s :
  moves_by m n → g + Z.max n 0 <= top → - top <= n → fair g s → fair g (received costs purchases m (of_Z n) s).
Proof.
  intros [_ Hm] Hg Hn (q & E & Hq & Hc). unfold received, gtb.
  assert (Hx : top <= max_exact) by (change (10 ^ 11) with 100000000000 in Htop; unfold max_exact; lia).
  rewrite ltb_of_Z by (unfold max_exact in *; lia). destruct (Z.ltb_spec 0 n) as [Hpos|]; [|by exists q].
  destruct (replay_cost costs purchases m) as [c|]; [|exists q; by split].
  specialize (Hm c eq_refl). exists q. unfold blend. cbn [sa_quantity sa_averageUnitCost].
  split; [done|]. split; [done|]. intros x. destruct (d_eq _ d_zero); [by intros [= <-]|].
  destruct (sa_averageUnitCost s) as [a|]; [|done]. cbn. intros [= <-]. rewrite E.
  apply blend_between; [lia..|by apply Hc|done].
Qed.
Lemma moved_fair g n s :
  g + Z.max n 0 <= top → - top <= n → fair g s →
  negative (d_add (sa_quantity s) (d_of_number (of_Z n))) = false →
  fair (g + Z.max n 0) (moved_by (of_Z n) s).
Proof.
  intros Hg Hn (q & E & Hq & Hc) Hneg. unfold moved_by. rewrite E in *.
  rewrite of_number_whole in * by lia. change (10 ^ 11) with 100000000000 in Htop.
  assert (Hb : ∀ z, - top <= z <= top → Z.abs (z * million) < micro_max) by (literals; lia).
  rewrite micro_add in * by (apply Hb; lia). rewrite <- Z.mul_add_distr_r in *.
  unfold negative in Hneg. rewrite d_zero_micro, micro_gt in Hneg by (apply Hb || literals; lia).
  apply Z.ltb_ge in Hneg. assert (0 <= q + n) by (unfold million in *; lia).
  exists (q + n). cbn. split; [done|]. split; [lia|]. intros c. destruct (d_eq _ _); [done|apply Hc].
Qed.
Lemma replay_movement_fair g r m n :
  moves_by m n → - top <= n → 0 <= g → g + Z.max n 0 <= top → fair_replay g r →
  fair_replay (g + Z.max n 0) (replay_movement costs purchases r m).
Proof.
  intros Hm Hn Hg0 Hg Hr. assert (Hr' : fair_replay (g + Z.max n 0) r)
    by (eapply fair_replay_le; [|done]; lia).
  unfold replay_movement. destruct (rp_states r !! location (mv_warehouseId m)) as [s|] eqn:Es; [|done].
  destruct (Costing.movementQuantityDelta m) as [d|] eqn:Ed; [|done].
  destruct (proj1 Hm) as [E|E]; rewrite Ed in E; [|done]. injection E as ->.
  destruct (negb (fits m (of_Z n) s)); [done|]. destruct Hr as [Hi Hs].
  pose proof (received_fair g m n s Hm Hg Hn (Hs _ _ Es)) as H1.
  pose proof (received_fair g m n (rp_item r) Hm Hg Hn Hi) as H2. cbv zeta.
  assert (Hset : ∀ k a b, fair (g + Z.max n 0) a → fair (g + Z.max n 0) b →
    fair_replay (g + Z.max n 0) (set_states k a b r)).
  { intros k a b Ha Hb. split; [done|]. intros k' x. cbn. intros Hx.
    apply lookup_insert_Some in Hx as [[_ <-]|[_ Hx]]; [done|]. by apply (proj2 Hr' k'). }
  destruct (_ || _) eqn:Eneg.
  - apply Hset; (eapply fair_le; [|done]; lia).
  - bool_hyps. apply Hset; by apply moved_fair.
Qed.

Definition inflow (ns : list Z) : Z := fold_right (λ n t, Z.max n 0 + t) 0 ns.
Lemma inflow_nonneg ns : 0 <= inflow ns.
Proof. induction ns; simpl; lia. Qed.
Lemma replay_fair ms ns :
  Forall2 moves_by ms ns → Forall (λ n, - top <= n) ns → ∀ g r,
  0 <= g → g + inflow ns <= top → fair_replay g r →
  fair_replay (g + inflow ns) (fold_left (replay_movement costs purchases) ms r).
Proof.
  induction 1 as [|m n ms ns Hm _ IH]; intros Hns g r Hg Ht Hr; cbn [inflow fold_right fold_left] in *.
  { by rewrite Z.add_0_r. }
  change (fold_right _ 0 ns) with (inflow ns) in *. pose proof (inflow_nonneg ns).
  apply Forall_cons in Hns as [Hn Hns]. rewrite Z.add_assoc. apply IH; [done|lia|lia|].
  apply replay_movement_fair; [done|done|done|lia|done].
Qed.
End movement.

(** ** The start *)

Definition upto (b : Z) (x : number) : Prop := ∃ k, x = of_Z k ∧ 0 <= k <= b.
Section start.
Context (b : Z) (stock : string → number) (ms : list MovementRow).
Context (Hstock : ∀ key, upto b (stock key)).
Context (Hms : Forall (λ m, ∀ q, mv_beforeQuantity m = Some q → upto b q) ms).

Lemma start_location_fair g key r :
  0 <= g → g + b <= top → fair_replay g r → fair_replay (g + b) (start_location stock ms r key).
Proof.
  intros Hg Hb Hr. destruct (Hstock key) as (k0 & E0 & Hk0).
  assert (Hr' : fair_replay (g + b) r) by (eapply fair_replay_le; [|done]; lia).
  assert (Hnew : ∀ k x, x = of_Z k → 0 <= k <= b →
    fair (g + b) {| sa_quantity := d_of_number x; sa_averageUnitCost := None |}).
  { intros k x -> Hk. exists k. cbn. split; [apply of_number_whole; lia|]. split; [lia|done]. }
  assert (Hset : ∀ s, fair (g + b) s → ∀ k x, <[key := s]> (rp_states r) !! k = Some x → fair (g + b) x).
  { intros s Hs k x Hx. apply lookup_insert_Some in Hx as [[_ <-]|[_ Hx]]; [done|].
    by apply (proj2 Hr' k). }
  unfold start_location.
  destruct (match List.filter _ ms with [] => _ | first :: _ => _ end) as [q|] eqn:E.
  2: { split; [apply Hr'|]. cbn. apply Hset. by apply (Hnew k0). }
  assert (Hq : upto b q).
  { destruct (List.filter _ ms) as [|m l] eqn:El; [by injection E as <-; exists k0|].
    rewrite Forall_forall in Hms. apply (Hms m); [|done]. apply list_elem_of_In.
    assert (Hm : In m (m :: l)) by by left. rewrite <- El in Hm. by apply filter_In in Hm as [Hm _]. }
  destruct Hq as (k & Eq & Hk). cbv zeta. split; [|cbn; apply Hset; by apply (Hnew k)].
  cbn. destruct (proj1 Hr) as (qi & Ei & Hqi & Hc). exists (qi + k). cbn.
  rewrite Ei, Eq, of_number_whole by lia. split; [|split; [lia|done]].
  change (10 ^ 11) with 100000000000 in Htop.
  rewrite micro_add by (literals; lia). f_equal. ring.
Qed.
Lemma start_fair keys :
  0 <= b → b * Z.of_nat (length keys) <= top → fair_replay (b * Z.of_nat (length keys)) (start stock ms keys).
Proof.
  intros Hb. unfold start.
  assert (H : ∀ g r, 0 <= g → g + b * Z.of_nat (length keys) <= top → fair_replay g r →
    fair_replay (g + b * Z.of_nat (length keys)) (fold_left (start_location stock ms) keys r)).
  { induction keys as [|key keys IH]; intros g r Hg Ht Hr; cbn [fold_left length] in *.
    - eapply fair_replay_le; [|done]. lia.
    - eapply fair_replay_le; [|apply (IH (g + b)); [lia|lia|]]; [lia|].
      apply start_location_fair; [done|nia|done]. }
  intros Ht. apply (H 0); [lia|done|]. split.
  - exists 0. cbn. split; [apply d_zero_micro|]. split; [lia|done].
  - intros k s Hk. cbn in Hk. by rewrite lookup_empty in Hk.
Qed.
End start.
End facts.

(** The reconstruction only reads. *)
Lemma average_reads {dec : Decimal} {plat : Platform} tn i ps db :
  ∃ a, reconstructHistoricalMovingAverage tn i ps db = Ok (a, db).
Proof. unfold reconstructHistoricalMovingAverage, tx_get, mbind, tx_bind, mret, tx_ret. by eexists. Qed.
Lemma read_result {S A} (m : Tx S A) (d : A) s :
  (∃ a, m s = Ok (a, s)) → m s = Ok (match m s with Ok (a, _) => a | Err _ => d end, s).
Proof. by intros [a ->]. Qed.

(** * Theorem *)

(** The units that are moved, in or out. *)
Definition throughput (ns : list Z) : Z := fold_right (λ n t, Z.abs n + t) 0 ns.
Lemma throughput_inflow ns :
  inflow ns <= throughput ns ∧ Forall (λ n, - throughput ns <= n) ns.
Proof.
  induction ns as [|n ns [IH1 IH2]]; simpl; [done|]. split; [lia|].
  assert (0 <= throughput ns) by (clear; induction ns; simpl; lia). constructor; [lia|].
  apply (Forall_impl _ _ _ IH2). intros x. simpl. lia.
Qed.
Lemma distinct_length l : ∀ seen, (length (distinct seen l) <= length l)%nat.
Proof. induction l as [|x l IH]; intros seen; simpl; [lia|]. case_bool_decide; simpl; [specialize (IH seen)|specialize (IH (x :: seen))]; lia. Qed.
Lemma stock_at_upto b stocks key :
  0 <= b → Forall (λ s, upto b (snd s)) stocks → upto b (stock_at stocks key).
Proof.
  intros Hb Hs. unfold stock_at. destruct (List.find _ _) as [s|] eqn:E; cbn; [|by exists 0].
  apply find_some_in in E as [E _]. apply list_elem_of_In, in_rev, list_elem_of_In in E.
  rewrite Forall_forall in Hs. by apply Hs.
Qed.

(** C31: The reconstruction never invents a cost.  When what an item received cost between
    [lo] and [hi] wherever the cost is known, every average that is reconstructed for a
    warehouse or for the item lies between [lo] and [hi], whatever the movements are, in
    which order they come and whether or not they reconcile; quantities are whole, and
    the amounts fit the twenty digits of a decimal. *)
Theorem replay_average_between {dec : Decimal} {laws : DecimalLaws dec} {plat : Platform}
    (lo hi b : Z) (ns : list Z) (tenantId itemId : string)
    (stocks : list (option string * number)) (db db' : Db) (a : HistoricalMovingAverage) :
  let ms := movements_of db tenantId itemId in
  let top := b * Z.of_nat (length stocks + length ms) + throughput ns in
  0 <= lo → lo <= hi < micro_max → 0 <= b → top < 10 ^ 11 → top * million * hi < digits20 →
  Forall (λ s, upto b (snd s)) stocks →
  Forall (λ m, ∀ q, mv_beforeQuantity m = Some q → upto b q) ms →
  Forall2 (moves_by lo hi (historicalMovementCosts db tenantId ms)
             (purchase_cost db tenantId itemId)) (all_movements db tenantId itemId) ns →
  reconstructHistoricalMovingAverage tenantId itemId stocks db = Ok (a, db') →
  db' = db ∧ (∀ c, ha_itemAverageUnitCost a = Some c → between lo hi c) ∧
  Forall (λ w, ∀ c, ab_warehouseAverageUnitCost w = Some c → between lo hi c) (ha_balances a).
Proof.
  intros ms top Hlo Hhi Hb Htop Hd Hstocks Hms Hns E.
  unfold reconstructHistoricalMovingAverage, tx_get, mbind, tx_bind, mret, tx_ret in E.
  injection E as <- <-. split; [done|]. fold ms.
  set (keys := distinct [] _). set (r0 := start (stock_at stocks) ms keys).
  set (r := fold_left _ _ r0).
  destruct (throughput_inflow ns) as [Hi Hall].
  assert (Hin : 0 <= inflow ns) by apply inflow_nonneg.
  assert (Hk : b * Z.of_nat (length keys) <= b * Z.of_nat (length stocks + length ms)).
  { apply Z.mul_le_mono_nonneg_l; [done|]. apply Nat2Z.inj_le. unfold keys.
    etrans; [apply distinct_length|]. by rewrite length_app, !length_map. }
  assert (H0 : 0 <= b * Z.of_nat (length keys)) by lia.
  assert (Hr : fair_replay lo hi (b * Z.of_nat (length keys) + inflow ns) r).
  { apply (replay_fair lo hi top Hlo Hhi ltac:(lia) Hd _ _ _ ns Hns); [|done|unfold top; lia|].
    - apply (Forall_impl _ _ _ Hall). intros n. unfold top. simpl. lia.
    - apply (start_fair lo hi top ltac:(lia) b); [|done|done|unfold top; lia].
      intros key. by apply stock_at_upto. }
  cbn [ha_itemAverageUnitCost ha_balances]. split.
  - intros c. destruct (item_can_replay _ _ _ _); [|done]. destruct (proj1 Hr) as (q & _ & _ & H).
    apply H.
  - apply Forall_map, Forall_forall. intros key _ c. cbn.
    destruct (can_replay _ _ _); [|done]. unfold average_of.
    destruct (rp_states r !! key) as [s|] eqn:Es; [|done]. cbn. intros Hc.
    destruct (proj2 Hr _ _ Es) as (q & _ & _ & H). by apply H.
Qed.

(** * A concrete ledger, for the witness *)

Module AverageExamples.
Import SamplePlatform FixedPoint HistoricalExamples.
Local Open Scope string_scope.

(** Five units at 40, five at 60, then four go out. *)
Definition moved_in_out : list MovementRow :=
  [movement "m1" None 10 0 5 40; movement "m2" None 20 5 10 60; movement "m3" None 30 10 6 0]%Z.
Definition books_of (ms : list MovementRow) : Db := on TMovement (λ _, ms) emptyDb.
Definition nothing : HistoricalMovingAverage :=
  {| ha_itemAverageUnitCost := None; ha_itemReconciled := false; ha_balances := [] |}.
Definition averages (ms : list MovementRow) (quantity : Z) : HistoricalMovingAverage :=
  match reconstructHistoricalMovingAverage "t-1" "flour" [(Some "w-1", of_Z quantity)] (books_of ms)
  with Ok (a, _) => a | Err _ => nothing end.
(** What is reconciled, and the averages, in millionths. *)
Definition summary (a : HistoricalMovingAverage) :=
  (ha_itemReconciled a, unmicro <$> ha_itemAverageUnitCost a,
   map (λ b, (ab_warehouseReconciled b, unmicro <$> ab_warehouseAverageUnitCost b)) (ha_balances a)).

Lemma upto_of b k : (0 <= k <= b)%Z → upto b (of_Z k).
Proof. intros H. by exists k. Qed.
Lemma opens_with b m k :
  mv_beforeQuantity m = Some (of_Z k) → (0 <= k <= b)%Z →
  ∀ q, mv_beforeQuantity m = Some q → upto b q.
Proof. intros E Hk q Eq. exists k. split; [congruence|done]. Qed.
Lemma moves_by_of m n :
  Costing.movementQuantityDelta m = Some (of_Z n) →
  match replay_cost ∅ (λ _, None) m with
  | Some c => d_lte (micro (40 * million)) c && d_lte c (micro (60 * million))
  | None => true
  end = true →
  moves_by (40 * million) (60 * million) ∅ (λ _, None) m n.
Proof.
  intros Hd Hc. split; [by left|]. intros c E. rewrite E in Hc. by apply andb_true_iff in Hc.
Qed.

Lemma replay_average_between_witness :
  summary (averages moved_in_out 6) = (true, Some (50 * million)%Z, [(true, Some (50 * million)%Z)]) ∧
  ∀ c, ha_itemAverageUnitCost (averages moved_in_out 6) = Some c →
    between (40 * million) (60 * million) c.
Proof.
  split; [vm_compute; reflexivity|].
  refine (proj1 (proj2 (replay_average_between (40 * million) (60 * million) 10 [5; 5; -4]%Z
    "t-1" "flour" [(Some "w-1", of_Z 6)] (books_of moved_in_out) (books_of moved_in_out)
    (averages moved_in_out 6) _ _ _ _ _ _ _ _ _)));
    [by vm_compute|by vm_compute|by vm_compute|vm_compute; reflexivity|vm_compute; reflexivity
    | | | |].
  - constructor; [|constructor]. by apply upto_of.
  - constructor; [apply (opens_with _ _ 0)|constructor; [apply (opens_with _ _ 5)|
      constructor; [apply (opens_with _ _ 10)|constructor]]]; [reflexivity|lia|reflexivity|lia|
      reflexivity|lia].
  - apply Forall2_cons_2; [|apply Forall2_cons_2; [|apply Forall2_cons_2; [|constructor]]];
      apply moves_by_of; vm_compute; reflexivity.
  - exact (read_result _ nothing _ (average_reads "t-1" "flour" _ _)).
Defined.

(** The pass goes over active reservations too, which everything before it leaves out: an
    item with stock on hold never reconciles, and its known average is lost, while FIFO
    reconciles.  Six units, of which one is reserved: *)
Example active_reservation_blocks :
  let held := movement "m4" (Some "ORDER_RESERVATION") 40 6 5 0 in
  summary (averages (moved_in_out ++ [held]) 6) = (false, None, [(false, None)]) ∧
  match reconstructHistoricalFifo 99 "t-1" "flour" [(Some "w-1", of_Z 6)]
          (books_of (moved_in_out ++ [held])) with
  | Ok (bs, _) => map hb_reconciled bs = [true]
  | Err _ => False
  end.
Proof. split; vm_compute; reflexivity. Qed.
End AverageExamples.
