(* ===== verification/Valuation.v ===== *)
(** The valuation of an inventory item (modules/inventory/inventory.repository.ts:
    getValuation, configureValuation): choosing a method opens the books - cost layers,
    or averages - for the stock at hand, as far as its history tells what it cost, and
    with opening costs for the rest. *)

From stdpp Require Import base list strings option gmap.
From Stdlib Require Import ZArith.
From S2P Require Import Prelude Flows JsNumber JsString DomainEvents CoreDomain MasterData.
From S2P Require Import Lifecycles PurchaseOrderAggregate Decimal Database Costing Receipts.
From S2P Require Import Reservations Historical Averages.

Local Open Scope string_scope.

Module Valuation.
Import Historical Averages.
Section service.
Context {dec : Decimal} {plat : Platform}.

(** ** Stock with what is reserved of it *)

Definition active_for (tenantId itemId : string) (m : MovementRow) : bool :=
  bool_decide (mv_tenantId m = tenantId) && bool_decide (mv_inventoryItemId m = itemId) &&
  bool_decide (mv_referenceType m = Some Reservations.ACTIVE_RESERVATION_REF).
(** [reservedQuantityByWarehouse.get(key) ?? 0]. *)
Definition reserved_at (reservations : list MovementRow) (key : string) : number :=
  fold_left (λ q m, if bool_decide (location (mv_warehouseId m) = key)
                    then add q (mv_quantity m) else q) reservations (of_Z 0).
Definition with_reserved (reservations : list MovementRow) (s : StockRow) : StockRow :=
  set_stock_quantity
    (add (st_quantity s) (reserved_at reservations (location (st_warehouseId s))))
    (st_updatedAt s) s.
Definition places (stocks : list StockRow) : list (option string * number) :=
  map (λ s, (st_warehouseId s, st_quantity s)) stocks.

(** ** getValuation *)

Record BalanceValue := {
  bv_warehouseId : option string; bv_quantity : number; bv_inventoryValue : option D;
  bv_averageUnitCost : option D; bv_fifoLayerQuantity : D; bv_fifoLayerValue : D;
  bv_traceableFifoQuantity : D; bv_fifoOpeningCostQuantity : D;
  bv_fifoHistoryReconciled : bool; bv_movingAverageWarehouseUnitCost : option D;
  bv_movingAverageWarehouseOpeningCostQuantity : D;
  bv_movingAverageWarehouseHistoryReconciled : bool;
  bv_movingAverageItemOpeningCostQuantity : D;
}.
Inductive ValuationStatus := SETUP_REQUIRED | VALUED | OPENING_COST_REQUIRED.
Record ItemValuation := {
  vl_inventoryItemId : string; vl_valuationMethod : option InventoryValuationMethod;
  vl_movingAverageScope : option MovingAverageScope; vl_standardCost : option D;
  vl_averageUnitCost : option D; vl_movingAverageItemUnitCost : option D;
  vl_movingAverageItemHistoryReconciled : bool; vl_lockedAt : option Date;
  vl_currencyCode : option string; vl_status : ValuationStatus; vl_totalQuantity : number;
  vl_totalValue : option D; vl_balances : list BalanceValue;
}.

Definition d_sum (l : list D) : D := fold_left d_add l d_zero.
(** [quantity * unitCost], or nothing to value. *)
Definition priced (quantity : number) (unitCost : option D) : option D :=
  match unitCost with
  | Some c => Some (d_mul (d_of_number quantity) c)
  | None => if eqb quantity (of_Z 0) then Some d_zero else None
  end.
Definition average_cost (item : ItemRow) (s : StockRow) : option D :=
  if bool_decide (it_movingAverageScope item = Some PER_ITEM) then it_averageUnitCost item
  else st_averageUnitCost s.
Definition inventory_value (item : ItemRow) (s : StockRow) (layerQuantity layerValue : D)
  : option D :=
  match it_valuationMethod item with
  | Some FIFO =>
      if d_eq layerQuantity (d_of_number (st_quantity s)) then Some layerValue else None
  | Some MOVING_WEIGHTED_AVERAGE => priced (st_quantity s) (average_cost item s)
  | Some STANDARD_COST => priced (st_quantity s) (it_standardCost item)
  | None => None
  end.
Definition balance_value (item : ItemRow) (layers : list LayerRow) (fifo : list Balance)
    (average : HistoricalMovingAverage) (s : StockRow) : BalanceValue :=
  let historicalBalance :=
    List.find (λ b, bool_decide (hb_warehouseId b = st_warehouseId s)) fifo in
  let historicalAverageBalance :=
    List.find (λ b, bool_decide (ab_warehouseId b = st_warehouseId s)) (ha_balances average) in
  let remainingLayers :=
    List.filter (λ l, bool_decide (ly_warehouseId l = st_warehouseId s)) layers in
  let layerValue := d_total (map (λ l, (ly_remainingQuantity l, ly_unitCost l)) remainingLayers) in
  let layerQuantity := d_sum (map ly_remainingQuantity remainingLayers) in
  {| bv_warehouseId := st_warehouseId s; bv_quantity := st_quantity s;
     bv_inventoryValue := inventory_value item s layerQuantity layerValue;
     bv_averageUnitCost := average_cost item s;
     bv_fifoLayerQuantity := layerQuantity; bv_fifoLayerValue := layerValue;
     bv_traceableFifoQuantity :=
       match historicalBalance with
       | Some b => d_sum (map hl_quantity
                     (List.filter (λ l, bool_decide (is_Some (hl_unitCost l))) (hb_layers b)))
       | None => d_zero
       end;
     bv_fifoOpeningCostQuantity := default d_zero (hb_openingCostQuantity <$> historicalBalance);
     bv_fifoHistoryReconciled := default true (hb_reconciled <$> historicalBalance);
     bv_movingAverageWarehouseUnitCost :=
       historicalAverageBalance ≫= ab_warehouseAverageUnitCost;
     bv_movingAverageWarehouseOpeningCostQuantity :=
       default (stock_left (st_quantity s))
         (ab_warehouseOpeningCostQuantity <$> historicalAverageBalance);
     bv_movingAverageWarehouseHistoryReconciled :=
       default false (ab_warehouseReconciled <$> historicalAverageBalance);
     bv_movingAverageItemOpeningCostQuantity :=
       default (stock_left (st_quantity s))
         (ab_itemOpeningCostQuantity <$> historicalAverageBalance) |}.
Definition item_valuation (item : ItemRow) (average : HistoricalMovingAverage)
    (currencyCode : option string) (balances : list BalanceValue) : ItemValuation :=
  let isConfigured := bool_decide (is_Some (it_valuationMethod item)) in
  let isFullyValued :=
    isConfigured && forallb (λ b, bool_decide (is_Some (bv_inventoryValue b))) balances in
  {| vl_inventoryItemId := it_id item; vl_valuationMethod := it_valuationMethod item;
     vl_movingAverageScope := it_movingAverageScope item;
     vl_standardCost := it_standardCost item; vl_averageUnitCost := it_averageUnitCost item;
     vl_movingAverageItemUnitCost := ha_itemAverageUnitCost average;
     vl_movingAverageItemHistoryReconciled := ha_itemReconciled average;
     vl_lockedAt := it_valuationLockedAt item; vl_currencyCode := currencyCode;
     vl_status := if negb isConfigured then SETUP_REQUIRED
                  else if isFullyValued then VALUED else OPENING_COST_REQUIRED;
     vl_totalQuantity := fold_left (λ total b, add total (bv_quantity b)) balances (of_Z 0);
     vl_totalValue :=
       if isFullyValued
       then Some (d_sum (map (λ b, default d_zero (bv_inventoryValue b)) balances)) else None;
     vl_balances := balances |}.

Definition not_found : exn := NotFoundException "Inventory item not found".
Definition item_in (tenantId itemId : string) (r : ItemRow) : bool :=
  bool_decide (it_id r = itemId) && bool_decide (it_tenantId r = tenantId).
(** The item with its stock rows. *)
Definition item_with_stock (tenantId itemId : string) : Tx Db (ItemRow * list StockRow) :=
  item ← select_first TItem (item_in tenantId itemId);
  match item with
  | None => tx_throw not_found
  | Some item => stocks ← select TStock (Costing.stocks_of itemId); mret (item, stocks)
  end.
Definition layer_order (a b : LayerRow) : bool :=
  Costing.lex Z.eqb Z.leb (ly_createdAt a) (ly_createdAt b) (collateLe (ly_id a) (ly_id b)).
Definition layers_for (tenantId itemId : string) : Tx Db (list LayerRow) :=
  layers ← select TLayer (λ l, bool_decide (ly_tenantId l = tenantId) &&
                               bool_decide (ly_inventoryItemId l = itemId));
  mret (sort_by layer_order layers).
Definition getValuation {Q R : Type} (now : Date) (tenantId itemId : string)
  : Flow Db Q R ItemValuation :=
  found ← call (item_with_stock tenantId itemId);
  let '(item, stockRows) := found in
  activeReservations ← call (select TMovement (active_for tenantId itemId));
  let stocks := map (with_reserved activeReservations) stockRows in
  layers ← call (layers_for tenantId itemId);
  fifo ← call (reconstructHistoricalFifo now tenantId itemId (places stocks));
  average ← call (reconstructHistoricalMovingAverage tenantId itemId (places stocks));
  tenant ← call (find_id TTenant tenantId);
  mret (item_valuation item average (tenant ≫= tn_currencyCode)
          (map (balance_value item layers fifo average) stocks)).

(** ** configureValuation *)

(** Null and missing are the same but for [standardCost]. *)
Record InventoryOpeningCostDto := { oc_warehouseId : option string; oc_unitCost : number }.
Record ConfigureInventoryValuationDto := {
  cv_method : InventoryValuationMethod; cv_movingAverageScope : option MovingAverageScope;
  cv_standardCost : opt number; cv_openingCosts : option (list InventoryOpeningCostDto);
}.

(** Reservations of completed orders are settled. *)
Definition settle_completed (b : BusinessType) (m : MovementRow) : MovementRow :=
  {| mv_id := mv_id m; mv_tenantId := mv_tenantId m;
     mv_type := match b with CAFE => CONSUMPTION | _ => SALE end;
     mv_quantity := mv_quantity m; mv_note := Some "Reconciled completed order stock reservation";
     mv_createdAt := mv_createdAt m; mv_beforeQuantity := mv_beforeQuantity m;
     mv_afterQuantity := mv_afterQuantity m; mv_createdById := mv_createdById m;
     mv_inventoryItemId := mv_inventoryItemId m; mv_referenceId := mv_referenceId m;
     mv_referenceType := Some Reservations.COMMITTED_RESERVATION_REF;
     mv_warehouseId := mv_warehouseId m; mv_unitCost := mv_unitCost m;
     mv_totalCost := mv_totalCost m |}.
(** The completed orders with their tenant, a required relation. *)
Definition completed_orders (tenantId : string) (ids : list string)
  : Tx Db (list (SalesOrderRow * BusinessType)) :=
  orders ← select TSalesOrder (λ o, bool_decide (so_id o ∈ ids) &&
    bool_decide (so_tenantId o = tenantId) && bool_decide (so_status o = OrderCOMPLETED));
  tenants ← select TTenant (λ _, true);
  tx_lift (map_result (λ o,
    match List.find (λ t, bool_decide (tn_id t = so_tenantId o)) tenants with
    | Some t => Ok (o, tn_businessType t)
    | None => Err (JsError
        "Inconsistent query result: Field Tenant is required to return data, got `null` instead.")
    end) orders).
Definition reconcile_completed (tenantId itemId : string) : Tx Db unit :=
  completedReservations ← select TMovement
    (λ m, active_for tenantId itemId m && bool_decide (is_Some (mv_referenceId m)));
  let completedOrderIds := omap mv_referenceId completedReservations in
  tx_when (negb (length completedOrderIds =? 0)%nat)
    (completedOrders ← completed_orders tenantId completedOrderIds;
     tx_for_each (λ x : SalesOrderRow * BusinessType,
       let staleReservationIds := map mv_id
         (List.filter (λ m, bool_decide (mv_referenceId m = Some (so_id (fst x))))
            completedReservations) in
       _ ← update_many TMovement
             (λ m, bool_decide (mv_id m ∈ staleReservationIds) &&
                   bool_decide (mv_tenantId m = tenantId) &&
                   bool_decide (mv_referenceType m = Some Reservations.ACTIVE_RESERVATION_REF))
             (settle_completed (snd x));
       mret tt) completedOrders).

Definition by_average (dto : ConfigureInventoryValuationDto) : bool :=
  bool_decide (cv_method dto = MOVING_WEIGHTED_AVERAGE).
Definition by_standard (dto : ConfigureInventoryValuationDto) : bool :=
  bool_decide (cv_method dto = STANDARD_COST).
Definition with_scope (scope : MovingAverageScope) (dto : ConfigureInventoryValuationDto) : bool :=
  by_average dto && bool_decide (cv_movingAverageScope dto = Some scope).
Definition check_method (dto : ConfigureInventoryValuationDto) : result unit :=
  _ ← throw_if (by_average dto && bool_decide (cv_movingAverageScope dto = None))
        (BadRequestException "Choose a moving average scope for this inventory item");
  _ ← throw_if (negb (by_average dto) && bool_decide (is_Some (cv_movingAverageScope dto)))
        (BadRequestException "Moving average scope is only valid for moving weighted average");
  _ ← throw_if (by_standard dto && bool_decide (cv_standardCost dto = Undefined))
        (BadRequestException "Standard cost is required for standard cost valuation");
  throw_if (negb (by_standard dto) && negb (bool_decide (cv_standardCost dto = Undefined)))
    (BadRequestException "Standard cost is only valid for standard cost valuation").

(** [costByWarehouse]: keys are unique. *)
Fixpoint cost_map (costs : list InventoryOpeningCostDto) (m : gmap string number)
  : result (gmap string number) :=
  match costs with
  | [] => Ok m
  | c :: costs =>
      let key := location (oc_warehouseId c) in
      match m !! key with
      | Some _ => Err (BadRequestException "Opening cost must be provided once per warehouse")
      | None => cost_map costs (<[key := oc_unitCost c]> m)
      end
  end.
(** The warehouses of the stock rows, which may be null, belong to the tenant. *)
Definition foreign_stock (warehouses : list WarehouseRow) (tenantId : string) (s : StockRow)
  : bool :=
  match st_warehouseId s ≫= λ i, List.find (λ w, bool_decide (wh_id w = i)) warehouses with
  | Some w => negb (bool_decide (wh_tenantId w = tenantId))
  | None => false
  end.

(** What the history of the item tells; empty for the methods that do not ask. *)
Section history.
Context (dto : ConfigureInventoryValuationDto) (fifo : list Balance)
  (average : option HistoricalMovingAverage).

Definition fifo_at (key : string) : option Balance :=
  List.find (λ b, bool_decide (location (hb_warehouseId b) = key)) fifo.
Definition average_at (key : string) : option AverageBalance :=
  a ← average; List.find (λ b, bool_decide (location (ab_warehouseId b) = key)) (ha_balances a).
(** The quantity of a warehouse whose cost the history does not tell, if it was asked. *)
Definition untraced (key : string) : option D :=
  match cv_method dto with
  | FIFO => hb_openingCostQuantity <$> fifo_at key
  | MOVING_WEIGHTED_AVERAGE =>
      (if bool_decide (cv_movingAverageScope dto = Some PER_ITEM)
       then ab_itemOpeningCostQuantity else ab_warehouseOpeningCostQuantity) <$> average_at key
  | STANDARD_COST => None
  end.
Definition needs_cost (costs : gmap string number) (s : StockRow) : bool :=
  let key := location (st_warehouseId s) in
  let quantity := match untraced key with Some q => d_to_number q | None => st_quantity s end in
  negb (by_standard dto) && gtb quantity epsilon && bool_decide (costs !! key = None).
Definition takes_cost (c : InventoryOpeningCostDto) (s : StockRow) : bool :=
  bool_decide (location (st_warehouseId s) = location (oc_warehouseId c)) &&
  match untraced (location (st_warehouseId s)) with Some q => positive q | None => true end.
Definition check_costs (costs : gmap string number) (activeStocks : list StockRow) : result unit :=
  _ ← throw_if (existsb (needs_cost costs) activeStocks)
        (BadRequestException (if bool_decide (cv_method dto = FIFO)
          then "Opening cost is required for untraceable remaining stock in each warehouse"
          else "Opening cost is required for every warehouse with positive stock"));
  throw_if (existsb (λ c, negb (existsb (takes_cost c) activeStocks))
              (default [] (cv_openingCosts dto)))
    (BadRequestException "Opening cost references a warehouse without positive stock").

(** [new Prisma.Decimal(costByWarehouse.get(key)!)]. *)
Definition given_cost (costs : gmap string number) (key : string) : Tx Db D :=
  match costs !! key with
  | Some c => mret (d_of_number c)
  | None => tx_throw (JsError "[DecimalError] Invalid argument: undefined")
  end.
Definition open_layer (tenantId itemId : string) (costs : gmap string number)
    (warehouseId : option string) (l : Layer) : Tx Db unit :=
  unitCost ← match hl_unitCost l with
             | Some c => mret c
             | None => given_cost costs (location warehouseId)
             end;
  received ← to_column (hl_receivedQuantity l);
  remaining ← to_column (hl_quantity l);
  unitCost ← to_column unitCost;
  _ ← insert TLayer (λ i,
    {| ly_id := i; ly_tenantId := tenantId; ly_inventoryItemId := itemId;
       ly_warehouseId := warehouseId; ly_sourceMovementId := hl_sourceMovementId l;
       ly_sourceType := match hl_unitCost l with
                        | None => "LEGACY_OPENING_COST"
                        | Some _ => "HISTORICAL_RECONSTRUCTION"
                        end;
       ly_sourceReferenceId := hl_sourceReferenceId l; ly_receivedQuantity := received;
       ly_remainingQuantity := remaining; ly_unitCost := unitCost;
       ly_createdAt := hl_createdAt l |});
  mret tt.
Definition open_average (costs : gmap string number) (s : StockRow) : Tx Db unit :=
  let key := location (st_warehouseId s) in
  unitCost ← match average_at key with
             | Some {| ab_warehouseReconciled := true; ab_warehouseAverageUnitCost := Some c |} =>
                 mret c
             | _ => given_cost costs key
             end;
  unitCost ← to_column unitCost;
  update_id TStock (st_id s) (set_stock_average unitCost).
(** The cost a unit of a warehouse counts with in the average of the item. *)
Definition opening_cost_at (costs : gmap string number) (key : string) : D :=
  let given := d_of_number (default (of_Z 0) (costs !! key)) in
  if with_scope PER_ITEM dto && default false (ha_itemReconciled <$> average)
  then default d_zero (average ≫= ha_itemAverageUnitCost)
  else if with_scope PER_WAREHOUSE dto &&
          default false (ab_warehouseReconciled <$> average_at key)
  then default d_zero (average_at key ≫= ab_warehouseAverageUnitCost)
  else given.
Definition opening_value (costs : gmap string number) (activeStocks : list StockRow) : D :=
  d_total (map (λ s, (d_of_number (st_quantity s),
                      opening_cost_at costs (location (st_warehouseId s)))) activeStocks).
Definition total_quantity (stocks : list StockRow) : number :=
  fold_left (λ total s, add total (st_quantity s)) stocks (of_Z 0).
Definition item_average (costs : gmap string number) (activeStocks : list StockRow) : option D :=
  if with_scope PER_ITEM dto && gtb (total_quantity activeStocks) (of_Z 0)
  then Some (d_div (opening_value costs activeStocks) (d_of_number (total_quantity activeStocks)))
  else None.
Definition open_books (tenantId itemId : string) (costs : gmap string number)
    (activeStocks : list StockRow) : Tx Db unit :=
  match cv_method dto with
  | FIFO =>
      tx_for_each (λ b, tx_for_each (open_layer tenantId itemId costs (hb_warehouseId b))
                          (hb_layers b)) fifo
  | MOVING_WEIGHTED_AVERAGE =>
      tx_for_each (λ s, tx_when (with_scope PER_WAREHOUSE dto) (open_average costs s)) activeStocks
  | STANDARD_COST => mret tt
  end.
End history.

(** Nullable columns. *)
Definition to_nullable (d : option D) : Tx Db (option D) :=
  match d with Some d => c ← to_column d; mret (Some c) | None => mret None end.
Definition opened (itemId : string) (l : LayerRow) : bool :=
  bool_decide (ly_inventoryItemId l = itemId) &&
  bool_decide (ly_sourceType l ∈
    ["OPENING_BALANCE"; "HISTORICAL_RECONSTRUCTION"; "LEGACY_OPENING_COST"]).
Definition clear_stock_average (s : StockRow) : StockRow :=
  {| st_id := st_id s; st_warehouseId := st_warehouseId s;
     st_inventoryItemId := st_inventoryItemId s; st_quantity := st_quantity s;
     st_averageUnitCost := None; st_createdAt := st_createdAt s;
     st_updatedAt := st_updatedAt s |}.
Definition set_valuation (dto : ConfigureInventoryValuationDto) (standardCost average : option D)
    (lockedAt : option Date) (i : ItemRow) : ItemRow :=
  {| it_id := it_id i; it_tenantId := it_tenantId i;
     it_valuationMethod := Some (cv_method dto);
     it_movingAverageScope := cv_movingAverageScope dto; it_standardCost := standardCost;
     it_averageUnitCost := average; it_valuationLockedAt := lockedAt |}.

(** Deleting a layer leaves the allocations from it without one. *)
Definition unlink (i : AllocationRow) : AllocationRow :=
  {| al_id := al_id i; al_movementId := al_movementId i; al_costLayerId := None;
     al_quantity := al_quantity i; al_unitCost := al_unitCost i |}.
Definition delete_opened (itemId : string) : Tx Db unit :=
  layers ← select TLayer (opened itemId);
  _ ← update_many TAllocation
        (λ a, match al_costLayerId a with
              | Some i => bool_decide (i ∈ map ly_id layers)
              | None => false
              end) unlink;
  _ ← delete_many TLayer (opened itemId); mret tt.

(** What the history is asked for. *)
Definition fifo_history (now : Date) (tenantId itemId : string)
    (dto : ConfigureInventoryValuationDto) (stocks : list StockRow) : Tx Db (list Balance) :=
  if bool_decide (cv_method dto = FIFO)
  then reconstructHistoricalFifo now tenantId itemId (places stocks) else mret [].
Definition average_history (tenantId itemId : string) (dto : ConfigureInventoryValuationDto)
    (stocks : list StockRow) : Tx Db (option HistoricalMovingAverage) :=
  if by_average dto
  then a ← reconstructHistoricalMovingAverage tenantId itemId (places stocks); mret (Some a)
  else mret None.
(** The second half: writing the new valuation. *)
Definition write_valuation (now : Date) (tenantId itemId : string)
    (dto : ConfigureInventoryValuationDto) (fifo : list Balance)
    (average : option HistoricalMovingAverage) (costs : gmap string number)
    (activeStocks : list StockRow) : Tx Db unit :=
  _ ← delete_opened itemId;
  _ ← update_many TStock (Costing.stocks_of itemId) clear_stock_average;
  _ ← open_books dto fifo average tenantId itemId costs activeStocks;
  standardCost ← to_nullable (d_of_number <$> opt_nullable (cv_standardCost dto));
  averageUnitCost ← to_nullable (item_average dto average costs activeStocks);
  update_id TItem itemId (set_valuation dto standardCost averageUnitCost
    (match activeStocks with [] => None | _ => Some now end)).
Definition configure_tx (now : Date) (tenantId itemId : string)
    (dto : ConfigureInventoryValuationDto) : Tx Db unit :=
  found ← select_first TItem (item_in tenantId itemId);
  match found with
  | None => tx_throw not_found
  | Some item =>
      _ ← reconcile_completed tenantId itemId;
      _ ← tx_throw_if (bool_decide (is_Some (it_valuationLockedAt item)))
            (ConflictException
      "Inventory valuation method is locked after the first costed stock transaction");
      activeReservations ← select TMovement (active_for tenantId itemId);
      _ ← tx_lift (check_method dto);
      stockRows ← select TStock (Costing.stocks_of itemId);
      warehouses ← select TWarehouse (λ _, true);
      let stocks := map (with_reserved activeReservations) stockRows in
      let activeStocks := List.filter (λ s, gtb (st_quantity s) (of_Z 0)) stocks in
      fifo ← fifo_history now tenantId itemId dto stocks;
      average ← average_history tenantId itemId dto stocks;
      let costs := default [] (cv_openingCosts dto) in
      _ ← tx_throw_if (by_standard dto && negb (length costs =? 0)%nat)
            (BadRequestException "Opening costs are not used by standard cost valuation");
      costByWarehouse ← tx_lift (cost_map costs ∅);
      _ ← tx_throw_if (existsb (foreign_stock warehouses tenantId) stocks)
            (BadRequestException "Inventory stock references a warehouse outside this tenant");
      _ ← tx_lift (check_costs dto fifo average costByWarehouse activeStocks);
      write_valuation now tenantId itemId dto fifo average costByWarehouse activeStocks
  end.
Definition configureValuation {Q R : Type} (now : Date) (tenantId itemId : string)
    (dto : ConfigureInventoryValuationDto) : Flow Db Q R ItemValuation :=
  _ ← call (configure_tx now tenantId itemId dto); getValuation now tenantId itemId.

End service.
End Valuation.
