(* ===== verification/ValuationFacts.v ===== *)
(** The valuation of an item: configuring FIFO opens the books balanced, balanced books
    are valued in full, and the choice is made once. *)

From stdpp Require Import base list strings option gmap sets.
From Stdlib Require Import ZArith Lia.
From S2P Require Import Prelude Flows JsNumber JsString DomainEvents CoreDomain MasterData.
From S2P Require Import Lifecycles PurchaseOrderAggregate Decimal Database Costing CostingFacts.
From S2P Require Import Receipts Reservations StockFacts Historical HistoricalFacts Averages.
From S2P Require Import AverageFacts Valuation.
Import Historical Averages Valuation.

Local Open Scope Z_scope.

(** * What the reconstructed layers cost *)

Section costs.
Context {dec : Decimal} {laws : DecimalLaws dec} {plat : Platform}.

(** An amount that is not negative. *)
Definition nonneg (d : D) : Prop := d_lte (micro 0) d = true.
Definition known_nonneg (c : option D) : Prop := ∀ d, c = Some d → nonneg d.
Definition costed (l : Layer) : Prop := known_nonneg (hl_unitCost l).
Definition costed_parts (ps : list Part) : Prop := Forall (λ p, nonneg (hp_unitCost p)) ps.

Lemma costed_unknown l : hl_unitCost l = None → costed l.
Proof. intros E d. by rewrite E. Qed.

Section replayed.
Context (warehouseId : option string) (itemId : string) (costs : Costs)
  (purchases : string → option ReceiptCost).
Context (costs_nonneg : ∀ i c, costs !! i = Some c → costed_parts (hc_parts c)).
Context (purchases_nonneg : ∀ i r, purchases i = Some r → nonneg (rk_unitCost r)).

Lemma costed_receive m s delta parts :
  costed_parts parts → ∀ covered, Forall costed (receive_parts warehouseId m s delta covered parts).
Proof.
  induction 1 as [|p parts Hp _ IH]; intros covered; simpl.
  - case_match; repeat constructor. by apply costed_unknown.
  - destruct (nonpositive _); [case_match; repeat constructor; by apply costed_unknown|].
    constructor; [|apply IH]. intros d [= <-]. done.
Qed.
Lemma costed_put_back p q ls ls' : Forall costed ls → put_back p q ls = Some ls' → Forall costed ls'.
Proof.
  intros H. revert ls'. induction H as [|l ls Hl Hls IH]; simpl; intros ls' E; [done|].
  destruct (is_source p l); [injection E as <-; by constructor|].
  destruct (put_back p q ls) as [ls1|]; [|done]. injection E as <-. constructor; [done|by apply IH].
Qed.
Lemma costed_restore delta parts : ∀ r ls,
  Forall costed ls → Forall costed (snd (restore_parts delta r parts ls)).
Proof.
  induction parts as [|p parts IH]; intros r ls H; simpl; [done|].
  destruct (negb _); [by apply IH|].
  destruct (put_back _ _ _) as [ls'|] eqn:E; [|by apply IH].
  apply costed_put_back in E; [|done]. destruct (nonpositive _); [done|by apply IH].
Qed.
Lemma costed_consume ls : ∀ c, Forall costed ls → Forall costed (snd (consume c ls)).
Proof.
  induction ls as [|l ls IH]; intros c H; simpl; [constructor|].
  apply Forall_cons in H as [Hl H]. destruct (nonpositive c); [by constructor|].
  destruct (consume _ ls) as [rest ls'] eqn:E. simpl. constructor; [done|].
  specialize (IH (d_sub c (d_min (hl_quantity l) c)) H). by rewrite E in IH.
Qed.
Lemma costed_movement m delta :
  known_nonneg (mv_unitCost m) → costed_parts (cost_parts costs purchases warehouseId m delta).
Proof.
  intros Hm. unfold cost_parts. destruct (costs !! mv_id m) as [c|] eqn:E; [by eapply costs_nonneg|].
  assert (Hr : costed_parts (match (if has_reference "PURCHASE_ORDER_RECEIPT" m &&
      truthy (mv_referenceId m) then mv_referenceId m ≫= purchases else None) with
    | Some r => if bool_decide (rk_warehouseId r = warehouseId) then
        [{| hp_quantity := d_of_number delta; hp_unitCost := rk_unitCost r;
            hp_sourceMovementId := None; hp_sourceType := None |}] else []
    | None => [] end)).
  { destruct (_ && _); [|constructor]. destruct (mv_referenceId m) as [i|]; simpl; [|constructor].
    destruct (purchases i) as [r|] eqn:Ei; [|constructor]. case_bool_decide; repeat constructor.
    by eapply purchases_nonneg. }
  destruct (_ || _); [exact Hr|].
  destruct (mv_unitCost m) as [c|]; [|exact Hr]. repeat constructor. by apply Hm.
Qed.
Lemma costed_apply m delta ls ls' :
  known_nonneg (mv_unitCost m) → Forall costed ls →
  apply_delta costs purchases warehouseId m delta ls = Some ls' → Forall costed ls'.
Proof.
  intros Hm H. unfold apply_delta. destruct (gtb delta (of_Z 0)).
  { intros [= <-]. pose proof (costed_movement m delta Hm) as Hp. destruct (has_reference _ m).
    - unfold release. pose proof (costed_restore (d_of_number delta)
        (cost_parts costs purchases warehouseId m delta) d_zero ls H) as Hr.
      destruct (restore_parts _ _ _ _) as [r ls1]. simpl in Hr. destruct (positive _); [|done].
      apply Forall_app. split; [done|]. repeat constructor. by apply costed_unknown.
    - apply Forall_app. split; [done|]. by apply costed_receive. }
  destruct (ltb delta (of_Z 0)); [|by intros [= <-]].
  pose proof (costed_consume ls (d_of_number (JsNumber.abs delta)) H) as Hc.
  destruct (consume _ _) as [rest ls1]. simpl in Hc. destruct (positive rest); [done|].
  by intros [= <-].
Qed.
Lemma costed_replay ms : Forall (λ m, known_nonneg (mv_unitCost m)) ms → ∀ ls ledger ls' ledger',
  Forall costed ls → replay costs purchases warehouseId ms ls ledger = Some (ls', ledger') →
  Forall costed ls'.
Proof.
  induction 1 as [|m ms Hm _ IH]; intros ls ledger ls' ledger' H E; simpl in E.
  { by injection E as <- _. }
  destruct (replay_one costs purchases warehouseId m ls ledger) as [[ls1 l1]|] eqn:E1; [|done].
  refine (IH ls1 l1 ls' ledger' _ E). unfold replay_one in E1.
  repeat inv_ok_step E1.
  injection E1 as <- _. by eapply costed_apply.
Qed.
Lemma costed_balance now ms current :
  Forall (λ m, known_nonneg (mv_unitCost m)) ms →
  Forall costed (hb_layers (balance itemId costs purchases warehouseId now ms current)).
Proof.
  intros Hms. unfold balance. cbn [hb_layers].
  assert (Ho : ∀ q t, Forall costed (if gtb q (of_Z 0) then [opening itemId warehouseId q t] else [])).
  { intros q t. case_match; repeat constructor. by apply costed_unknown. }
  destruct (reconcile _ _ _ _ _ _ _) as [ls|] eqn:E; [|apply Ho].
  assert (H : Forall costed ls).
  { unfold reconcile in E. destruct ms as [|m ms]; [injection E as <-; apply Ho|].
    destruct (mv_beforeQuantity m) as [b|]; [|done].
    destruct (replay _ _ _ _ _ _) as [[ls1 l1]|] eqn:E1; [|done].
    apply costed_replay in E1; [|done|apply Ho]. case_match; [done|]. by injection E as <-. }
  apply Forall_forall. intros l [Hl _]%list_elem_of_In%filter_In.
  apply list_elem_of_In in Hl. rewrite Forall_forall in H. by apply H.
Qed.
End replayed.
End costs.

(** * The layers an item is opened with *)

Section opening.
Context {dec : Decimal} {plat : Platform} {laws : DecimalLaws dec} {uniq : UniqueIds}.

(** Opening adds what is placed where. *)
Definition placed (tenantId itemId : string) (ps : list (option string * Z)) (db db' : Db) : Prop :=
  Forall on_grid (rows db' TLayer) ∧ only [TLayer] db db' ∧
  ∀ t i w, layer_sum t i w db' =
    layer_sum t i w db + sumZ (map (λ p, at_place tenantId itemId (fst p) t i w (snd p)) ps).

Lemma placed_nil tn i db : Forall on_grid (rows db TLayer) → placed tn i [] db db.
Proof. intros H. split; [done|]. split; [apply only_refl|]. intros. simpl. lia. Qed.
Lemma placed_trans tn i ps ps' db1 db2 db3 :
  placed tn i ps db1 db2 → placed tn i ps' db2 db3 → placed tn i (ps ++ ps') db1 db3.
Proof.
  intros (_ & O1 & S1) (Hg & O2 & S2). split; [done|]. split; [by eapply only_trans|].
  intros t i' w. rewrite S2, S1, map_app, sumZ_app. lia.
Qed.

Lemma given_cost_ok costs key db r db' :
  given_cost costs key db = Ok (r, db') →
  db' = db ∧ ∃ c, costs !! key = Some c ∧ r = d_of_number c.
Proof.
  unfold given_cost. destruct (costs !! key) as [c|]; [|done]. intros [= <- <-]. split; [done|].
  by exists c.
Qed.
Lemma column_ok d db r db' :
  to_column d db = Ok (r, db') → db' = db ∧
  ∃ c, r = micro c ∧ Z.abs c < micro_max ∧ (nonneg d → 0 <= c).
Proof.
  unfold to_column. intros E. apply tx_lift_ok in E as [E ->]. split; [done|].
  destruct (d_column d) as [r'|] eqn:Ed; [|done]. injection E as ->. by apply column_range.
Qed.

Lemma open_layer_placed tn i costs w l a db u db' :
  Forall on_grid (rows db TLayer) → hl_quantity l = micro a → 0 <= a < micro_max →
  costed l → (∀ c, costs !! location w = Some c → nonneg (d_of_number c)) →
  open_layer tn i costs w l db = Ok (u, db') → placed tn i [(w, a)] db db'.
Proof.
  intros Hg Hq Ha Hl Hc E. unfold open_layer in E. rewrite Hq in E.
  apply tx_bind_ok in E as (d & db1 & E1 & E).
  assert (db1 = db ∧ nonneg d) as [-> Hd].
  { destruct (hl_unitCost l) as [c|] eqn:El; [injection E1 as <- <-; split; [done|by apply Hl]|].
    apply given_cost_ok in E1 as (-> & c & Ec & ->). split; [done|by apply Hc]. }
  clear E1.
  apply tx_bind_ok in E as (r & db1 & E1 & E). apply column_ok in E1 as [-> _].
  apply tx_bind_ok in E as (q & db1 & E1 & E). apply to_column_inv in E1 as [-> ->]; [|lia].
  apply tx_bind_ok in E as (c & db1 & E1 & E).
  apply column_ok in E1 as (-> & k & -> & Hk & Hk0). specialize (Hk0 Hd).
  apply tx_bind_ok in E as (row & db1 & E1 & E). injection E as _ <-.
  pose proof (only_insert TLayer [TLayer] _ _ _ _ ltac:(by left) E1) as O.
  apply insert_rows in E1 as [Er R].
  assert (Hrow : on_grid row).
  { rewrite Er. unfold on_grid, rem_of, cost_of, layer_at. simpl.
    rewrite !unmicro_micro by lia. split_and!; (done || lia). }
  split; [rewrite R; apply Forall_app; split; [done|by constructor]|]. split; [done|].
  intros t i' w'. unfold layer_sum. rewrite R. etrans; [exact (weighted_app _ _ [row])|]. f_equal.
  unfold weighted, rem_of, layer_of, at_place. rewrite Er. simpl.
  rewrite unmicro_micro by lia. destruct (_ && _ && _); simpl; lia.
Qed.
Lemma open_layers_placed tn i costs w q : ∀ db u db',
  Forall on_grid (rows db TLayer) → filled q → total q < micro_max → Forall costed (map tag q) →
  (∀ c, costs !! location w = Some c → nonneg (d_of_number c)) →
  tx_for_each (open_layer tn i costs w) (map tag q) db = Ok (u, db') →
  placed tn i (map (λ x, (w, snd x)) q) db db'.
Proof.
  induction q as [|[l a] q IH]; intros db u db' Hg Hf Ht Hl Hc E.
  { injection E as _ <-. by apply placed_nil. }
  apply Forall_cons in Hf as [Ha Hf]. cbn [total fold_right snd] in *.
  change (fold_right (λ x t, snd x + t) 0 q) with (total q) in Ht.
  pose proof (total_nonneg q Hf). cbn [map] in Hl. apply Forall_cons in Hl as [Hl1 Hl].
  cbn [map tx_for_each] in E. apply tx_bind_ok in E as (v & db1 & E1 & E).
  apply (open_layer_placed tn i costs w _ a) in E1; [|done|done|lia|done|done].
  change (map _ ((l, a) :: q)) with ([(w, a)] ++ map (λ x : Layer * Z, (w, snd x)) q).
  eapply placed_trans; [exact E1|]. eapply IH; [apply E1|done|lia|done|done|exact E].
Qed.
Lemma sum_places tn i t i' w' w q :
  sumZ (map (λ p, at_place tn i (fst p) t i' w' (snd p)) (map (λ x : Layer * Z, (w, snd x)) q)) =
    at_place tn i w t i' w' (total q).
Proof.
  rewrite map_map. cbn [fst snd]. unfold at_place. destruct (_ && _ && _).
  - induction q as [|x q IH]; simpl in *; lia.
  - induction q as [|x q IH]; simpl in *; lia.
Qed.

(** The millionths the layers of a balance hold. *)
Definition held (b : Balance) : Z := sumZ (map (λ l, unmicro (hl_quantity l)) (hb_layers b)).
Definition weighs (b : Balance) : Prop :=
  ∃ q, hb_layers b = map tag q ∧ filled q ∧ total q = held b ∧ held b < micro_max.
Lemma weighs_queue b q :
  hb_layers b = map tag q → filled q → total q < micro_max → weighs b ∧ held b = total q.
Proof.
  intros E Hf Ht. assert (H : held b = total q).
  { unfold held. rewrite E. clear E. induction Hf as [|[l a] q Ha Hf IH]; simpl in *; [done|].
    pose proof (total_nonneg q Hf). rewrite unmicro_micro by lia. rewrite IH by lia. done. }
  split; [|done]. exists q. rewrite H. done.
Qed.
Lemma open_balances_placed tn i costs bs :
  Forall weighs bs → Forall (λ b, Forall costed (hb_layers b)) bs →
  (∀ k c, costs !! k = Some c → nonneg (d_of_number c)) → ∀ db u db',
  Forall on_grid (rows db TLayer) →
  tx_for_each (λ b, tx_for_each (open_layer tn i costs (hb_warehouseId b)) (hb_layers b)) bs db =
    Ok (u, db') →
  placed tn i (map (λ b, (hb_warehouseId b, held b)) bs) db db'.
Proof.
  intros H Hl Hc. induction H as [|b bs (q & Eq & Hf & Ht & Hb) _ IH]; intros db u db' Hg E.
  { injection E as _ <-. by apply placed_nil. }
  apply Forall_cons in Hl as [Hl1 Hl].
  cbn [tx_for_each] in E. apply tx_bind_ok in E as (v & db1 & E1 & E). rewrite Eq in *.
  apply open_layers_placed in E1; [|done|done|lia|done|by intros c; apply Hc].
  cbn [map]. change (?p :: ?l) with ([p] ++ l).
  eapply placed_trans; [|apply (IH Hl _ u); [apply E1|exact E]].
  destruct E1 as (Hg1 & O1 & S1). split; [done|]. split; [done|]. intros t i' w'.
  rewrite S1, sum_places, Ht. cbn [map fst snd sumZ fold_right]. lia.
Qed.
End opening.

(** * Places and keys *)

Section places.
Local Open Scope Z_scope.

Lemma distinct_spec l : ∀ seen,
  NoDup (distinct seen l) ∧ ∀ x, x ∈ distinct seen l ↔ x ∈ l ∧ x ∉ seen.
Proof.
  induction l as [|y l IH]; intros seen; cbn [distinct].
  - split; [constructor|]. set_solver.
  - case_bool_decide as Hy.
    + destruct (IH seen) as [Hn H]. split; [done|]. intros x. rewrite H. set_solver.
    + destruct (IH (y :: seen)) as [Hn H]. split.
      * apply NoDup_cons. rewrite H. set_solver.
      * intros x. rewrite elem_of_cons, H. destruct (decide (x = y)); set_solver.
Qed.

(** A sum over the members with a key is the value of the one member. *)
Lemma sum_keyed {A K} `{!EqDecision K} (key : A → K) (f : A → Z) (k : K) l :
  NoDup (map key l) →
  sumZ (map (λ x, if bool_decide (key x = k) then f x else 0) l) =
    match List.find (λ x, bool_decide (key x = k)) l with Some x => f x | None => 0 end.
Proof.
  induction l as [|y l IH]; simpl; intros Hn; [done|]. apply NoDup_cons in Hn as [Hy Hn].
  rewrite IH by done. case_bool_decide as E; [|lia].
  destruct (List.find _ l) as [z|] eqn:Hz; [|lia].
  apply find_some_in in Hz as [Hz Ez]. apply bool_decide_eq_true_1 in Ez.
  exfalso. apply Hy. rewrite E, <- Ez. by apply list_elem_of_fmap_2.
Qed.
Lemma sumZ_cons x l : sumZ (x :: l) = x + sumZ l.
Proof. done. Qed.
Lemma sumZ_perm l l' : l ≡ₚ l' → sumZ l = sumZ l'.
Proof. induction 1; simpl in *; lia. Qed.

Lemma sum_zero {A} (f : A → Z) l : (∀ x, x ∈ l → f x = 0) → sumZ (map f l) = 0.
Proof.
  induction l as [|x l IH]; simpl; intros H; [done|].
  rewrite (H x) by (by left). rewrite IH; [done|]. intros y Hy. apply H. by right.
Qed.
Lemma location_inj w w' : w ≠ Some "" → w' ≠ Some "" → location w = location w' → w = w'.
Proof.
  unfold location. destruct w as [w|], w' as [w'|]; simpl; intros H H' E; try congruence.
Qed.
(** The warehouse a key stands for. *)
Definition key_place (k : string) : option string := if is_empty k then None else Some k.
Lemma key_place_spec k : key_place k ≠ Some "" ∧ location (key_place k) = k.
Proof. unfold key_place. by destruct k. Qed.

Context {dec : Decimal} {plat : Platform}.
(** The key of a stock row. *)
Definition place_key (s : StockRow) : string := location (st_warehouseId s).
Definition named (s : StockRow) : Prop := st_warehouseId s ≠ Some "".
Definition units_at (k : string) (l : list StockRow) : Z :=
  match List.find (λ s, bool_decide (place_key s = k)) (rev l) with Some s => units s | None => 0 end.

Lemma sum_stocks itemId w l :
  Forall named (List.filter (Costing.stocks_of itemId) l) → w ≠ Some "" →
  sumZ (map (λ s, if place_of itemId w (stock_place s) then units s else 0) l) =
    sumZ (map (λ s, if bool_decide (place_key s = location w) then units s else 0)
      (List.filter (Costing.stocks_of itemId) l)).
Proof.
  intros Hf Hw. induction l as [|s l IH]; [done|].
  cbn [List.filter map] in *. change (place_of itemId w (stock_place s))
    with (bool_decide (w = st_warehouseId s) && bool_decide (itemId = st_inventoryItemId s)).
  unfold Costing.stocks_of at 1 in Hf. unfold Costing.stocks_of at 1.
  rewrite (bool_decide_ext (itemId = _) (st_inventoryItemId s = itemId)) by done.
  case_bool_decide as E.
  - apply Forall_cons in Hf as [Hs Hf]. cbn [map]. rewrite !sumZ_cons, andb_true_r, IH by done.
    rewrite (bool_decide_ext (w = _) (place_key s = location w)); [done|].
    unfold place_key. split; [by intros ->|]. intros E'. symmetry. by apply location_inj.
  - rewrite sumZ_cons, andb_false_r, IH by done. done.
Qed.
(** The stock of an item in a place is what its one row there holds. *)
Lemma stock_sum_at itemId w db :
  let ss := List.filter (Costing.stocks_of itemId) (rows db TStock) in
  Forall named ss → NoDup (map place_key ss) → w ≠ Some "" →
  stock_sum itemId w db = units_at (location w) ss.
Proof.
  intros ss Hf Hn Hw. etrans; [by apply sum_stocks|]. fold ss.
  rewrite <- (sumZ_perm _ _ (Permutation_map _ (Permutation_sym (Permutation_rev ss)))).
  apply (sum_keyed place_key units). by rewrite map_rev, <- Permutation_rev.
Qed.
Lemma stock_sum_unnamed itemId db :
  Forall named (List.filter (Costing.stocks_of itemId) (rows db TStock)) →
  stock_sum itemId (Some "") db = 0.
Proof.
  intros Hf. apply sum_zero. intros s Hs. cbn [row] in *. unfold place_of, stock_place. cbn [fst snd].
  repeat case_bool_decide; try done. subst. exfalso.
  rewrite Forall_forall in Hf. apply (Hf s); [|done].
  apply list_elem_of_In, filter_In. split; [by apply list_elem_of_In|].
  unfold Costing.stocks_of. by apply bool_decide_true.
Qed.
(** The quantities of the places, as the reconstruction looks them up. *)
Lemma places_at n k ss :
  Forall (holds n) ss → n <= max_exact →
  default (of_Z 0) (snd <$> List.find (λ s, bool_decide (location (fst s) = k))
    (rev (places (map (with_reserved []) ss)))) = of_Z (units_at k ss).
Proof.
  intros Hh Hn. unfold places, units_at. rewrite map_map, <- map_rev. unfold place_key.
  assert (H : Forall (holds n) (rev ss)) by by rewrite <- Permutation_rev.
  induction H as [|s l Hs _ IH]; [done|]. cbn [map List.find fst snd].
  change (st_warehouseId (with_reserved [] s)) with (st_warehouseId s).
  case_bool_decide; [|exact IH]. cbn [fmap option_fmap option_map default snd].
  destruct (holds_units n s) as [E Hu]; [done..|]. cbn. unfold reserved_at. cbn.
  rewrite E at 1. rewrite add_of_Z by (done || lia). by rewrite Z.add_0_r.
Qed.
Lemma units_at_bound n k ss :
  Forall (holds n) ss → n <= max_exact → 0 <= n → 0 <= units_at k ss <= n.
Proof.
  intros Hh Hn H0. unfold units_at. destruct (List.find _ _) as [s|] eqn:E; [|lia].
  apply find_some_in in E as [E _]. apply list_elem_of_In, in_rev, list_elem_of_In in E.
  rewrite Forall_forall in Hh. by apply (holds_units n s), Hh.
Qed.
End places.

(** * Configuring FIFO *)

Section configure.
Context {dec : Decimal} {plat : Platform} {laws : DecimalLaws dec} {uniq : UniqueIds}.
Local Open Scope Z_scope.

(** The history of an item is sound: in every place its movements are books of whole
    quantities, and no cost that is known is negative. *)
Definition in_place (key : string) (m : MovementRow) : bool :=
  bool_decide (location (mv_warehouseId m) = key).
Record traced (tenantId itemId : string) (db : Db) : Prop := {
  td_books key : ∃ ns,
    HistoricalFacts.books (List.filter (in_place key) (movements_of db tenantId itemId)) ns;
  td_parts i c : historicalMovementCosts db tenantId (movements_of db tenantId itemId) !! i = Some c →
    fine_parts (hc_parts c) ∧ costed_parts (hc_parts c);
  td_units : Forall (λ m, known_nonneg (mv_unitCost m)) (movements_of db tenantId itemId);
  td_purchases i r : purchase_cost db tenantId itemId i = Some r → nonneg (rk_unitCost r);
}.

(** The places of an item: one row each. *)
Definition stocked (itemId : string) (db : Db) : Prop :=
  let ss := List.filter (Costing.stocks_of itemId) (rows db TStock) in
  Forall named ss ∧ NoDup (map place_key ss).

Section reconstructed.
Context (now : Date) (tenantId itemId : string) (n : Z) (db : Db).
Context (Htraced : traced tenantId itemId db) (Hstocked : stocked itemId db).
Context (Hholds : Forall (holds n) (rows db TStock)) (Hn : 0 <= n < HistoricalFacts.bound).
Let ss := List.filter (Costing.stocks_of itemId) (rows db TStock).
Let ms := movements_of db tenantId itemId.

Definition reconstruction (key : string) : Balance :=
  balance itemId (historicalMovementCosts db tenantId ms) (purchase_cost db tenantId itemId)
    (key_place key) now (List.filter (in_place key) ms) (of_Z (units_at key ss)).
Definition reconstructed_keys : list string :=
  distinct [] (map (location ∘ fst) (places (map (with_reserved []) ss)) ++
               map (location ∘ mv_warehouseId) ms).

Lemma n_exact : n <= max_exact.
Proof. unfold HistoricalFacts.bound in Hn. change (10 ^ 11) with 100000000000 in Hn. unfold max_exact. lia. Qed.
Lemma holds_some : Forall (holds n) ss.
Proof.
  apply Forall_forall. intros s [Hs _]%list_elem_of_In%filter_In. apply list_elem_of_In in Hs.
  rewrite Forall_forall in Hholds. by apply Hholds.
Qed.
Lemma reconstruct_run :
  reconstructHistoricalFifo now tenantId itemId (places (map (with_reserved []) ss)) db =
    Ok (map reconstruction reconstructed_keys, db).
Proof.
  unfold reconstructHistoricalFifo, tx_get, mbind, tx_bind, mret, tx_ret.
  refine (f_equal (λ bs, Ok (bs, db)) _). apply map_ext. intros key.
  unfold reconstruction. rewrite <- (places_at n key ss holds_some n_exact). done.
Qed.
Lemma reconstruction_weighs key :
  weighs (reconstruction key) ∧ held (reconstruction key) = units_at key ss * million ∧
  Forall costed (hb_layers (reconstruction key)).
Proof.
  pose proof (units_at_bound n key ss holds_some n_exact ltac:(lia)) as Hu.
  destruct Htraced as [Hb Hp Hc Hr]. destruct (Hb key) as [ns Hns].
  destruct (balance_queue (key_place key) itemId (historicalMovementCosts db tenantId ms)
    (purchase_cost db tenantId itemId) (λ i c Hi, proj1 (Hp i c Hi)) now _ ns
    (units_at key ss) Hns) as (q & Eq & Hq & Ht); [lia|].
  rewrite Z.max_l in Ht by lia.
  destruct (weighs_queue (reconstruction key) q Eq (nonempty_filled q Hq)) as [Hw Hh].
  { rewrite Ht. unfold HistoricalFacts.bound in Hn. change (10 ^ 11) with 100000000000 in Hn.
    literals. lia. }
  split; [done|]. split; [congruence|]. apply costed_balance; [by intros i c [_ H]%Hp|done|].
  apply Forall_forall. intros m [Hm _]%list_elem_of_In%filter_In. apply list_elem_of_In in Hm.
  rewrite Forall_forall in Hc. by apply Hc.
Qed.
(** What the layers of the item hold in a place is its stock there. *)
Lemma reconstruction_sum w :
  sumZ (map (λ b, at_place tenantId itemId (hb_warehouseId b) tenantId itemId w (held b))
    (map reconstruction reconstructed_keys)) = million * stock_sum itemId w db.
Proof.
  destruct Hstocked as [Hnamed Hkeys]. rewrite map_map.
  destruct (distinct_spec (map (location ∘ fst) (places (map (with_reserved []) ss)) ++
               map (location ∘ mv_warehouseId) ms) []) as [Hd Hin].
  destruct (decide (w = Some "")) as [->|Hw].
  { rewrite stock_sum_unnamed by done. rewrite sum_zero; [lia|]. intros k _.
    unfold at_place. rewrite (bool_decide_false (_ = Some "")); [by rewrite andb_false_r|].
    apply key_place_spec. }
  rewrite stock_sum_at by done. fold ss.
  rewrite (map_ext _ (λ k, if bool_decide (k = location w) then units_at k ss * million else 0)).
  2: { intros k. destruct (reconstruction_weighs k) as (_ & -> & _). unfold at_place.
       rewrite !(bool_decide_true (_ = _)) by done. cbn [andb].
       destruct (key_place_spec k) as [Hk Ek].
       rewrite (bool_decide_ext _ (k = location w)); [done|].
       change (hb_warehouseId (reconstruction k)) with (key_place k). split; [by intros <-|].
       intros E. apply location_inj; [done..|congruence]. }
  rewrite (sum_keyed id (λ k, units_at k ss * million)) by by rewrite map_id.
  destruct (List.find _ reconstructed_keys) as [k|] eqn:E.
  { apply find_some_in in E as [_ Ek%bool_decide_eq_true_1]. unfold id in Ek. subst k. lia. }
  unfold units_at. destruct (List.find _ (rev ss)) as [s|] eqn:Es; [|lia].
  apply find_some_in in Es as [Hs Ek%bool_decide_eq_true_1].
  apply list_elem_of_In, in_rev in Hs. exfalso.
  assert (Hk : location w ∈ reconstructed_keys).
  { apply Hin. split; [|set_solver]. apply elem_of_app. left. rewrite <- Ek. unfold places.
    rewrite !map_map. apply list_elem_of_In. by apply (in_map (λ s, location (st_warehouseId s))). }
  apply list_elem_of_In in Hk. apply (find_none _ _ E) in Hk.
  by apply bool_decide_eq_false_1 in Hk.
Qed.
End reconstructed.

(** ** The parts of a configuration *)

Lemma writes_reconcile tn i : writes [TMovement] (reconcile_completed tn i).
Proof. unfold reconcile_completed, completed_orders. solve_writes. Qed.
Lemma ids_reconcile tn i : respects keeps_ids (reconcile_completed tn i).
Proof. unfold reconcile_completed, completed_orders. solve_ids. Qed.
Lemma sound_filter t p db : sound db → sound (on t (List.filter p) db).
Proof.
  intros Hs t'. unfold keyed, fresh. destruct (decide (t = t')) as [<-|Hn].
  - rewrite rows_on_same. destruct (Hs t) as [Hk Hf]. split; [by apply filter_keys|].
    intros k Hle Hin. apply (Hf k Hle). apply list_elem_of_fmap in Hin as (r & -> & Hr).
    apply list_elem_of_In, filter_In in Hr as [Hr _]. apply list_elem_of_fmap_2.
    by apply list_elem_of_In.
  - rewrite rows_on_other by done. apply Hs.
Qed.
Lemma delete_opened_effect i db u db' :
  delete_opened i db = Ok (u, db') →
  only [TLayer; TAllocation] db db' ∧
  rows db' TLayer = List.filter (λ l, negb (opened i l)) (rows db TLayer) ∧ (sound db → sound db').
Proof.
  intros E. pose proof E as O. unfold delete_opened in O. framed O [TLayer; TAllocation].
  split; [done|]. unfold delete_opened in E.
  apply tx_bind_ok in E as (ls & d & E1 & E). unfold select in E1. injection E1 as <- <-.
  apply tx_bind_ok in E as (k & d & E1 & E). unfold update_many in E1. injection E1 as _ <-.
  apply tx_bind_ok in E as (k' & d & E1 & E). unfold delete_many in E1. injection E1 as _ <-.
  injection E as _ <-. split.
  - by rewrite rows_on_same, rows_on_other by done.
  - intros Hs. apply sound_filter, sound_on; [|done]. by apply map_where_keys.
Qed.
Lemma layer_sum_kept i t i' w db db' :
  rows db' TLayer = List.filter (λ l, negb (opened i l)) (rows db TLayer) →
  Forall (λ l, ly_inventoryItemId l = i → opened i l = true) (rows db TLayer) →
  layer_sum t i' w db' = if bool_decide (i' = i) then 0 else layer_sum t i' w db.
Proof.
  unfold layer_sum, weighted. intros ->. cbn [row] in *. induction 1 as [|l ls Hl _ IH].
  { simpl. by case_bool_decide. }
  cbn [List.filter map]. rewrite sumZ_cons. destruct (opened i l) eqn:E; cbn [negb map].
  - rewrite IH. case_bool_decide as Ei; [done|]. unfold layer_of at 2.
    unfold opened in E. bool_hyps. rewrite (bool_decide_false (ly_inventoryItemId l = i')) by congruence.
    rewrite andb_false_r. simpl. lia.
  - rewrite sumZ_cons, IH. case_bool_decide as Ei; [|done]. subst i'. unfold layer_of at 1.
    rewrite (bool_decide_false (ly_inventoryItemId l = i)) by (by intros ?%Hl).
    rewrite andb_false_r. simpl. lia.
Qed.
Lemma cost_map_in dtos : ∀ m m' k c,
  cost_map dtos m = Ok m' → m' !! k = Some c →
  m !! k = Some c ∨ ∃ d, d ∈ dtos ∧ oc_unitCost d = c.
Proof.
  induction dtos as [|d dtos IH]; simpl; intros m m' k c E Hk; [injection E as ->; by left|].
  destruct (m !! location (oc_warehouseId d)) eqn:Em; [done|].
  apply (IH _ _ k c E) in Hk as [Hk|(d' & ? & ?)].
  - apply lookup_insert_Some in Hk as [[_ <-]|[_ Hk]]; [|by left].
    right. exists d. split; [by left|done].
  - right. exists d'. split; [by right|done].
Qed.

(** A configuration that succeeds. *)
Definition active_stocks (itemId : string) (db : Db) : list StockRow :=
  List.filter (λ s, gtb (st_quantity s) (of_Z 0))
    (map (with_reserved []) (List.filter (Costing.stocks_of itemId) (rows db TStock))).
Lemma configure_fifo_inv now tn i dto db db1 u db2 :
  configure_tx now tn i dto db = Ok (u, db2) → cv_method dto = FIFO →
  reconcile_completed tn i db = Ok (tt, db1) →
  List.filter (active_for tn i) (rows db1 TMovement) = [] →
  ∃ item fifo costs, item ∈ rows db TItem ∧ it_id item = i ∧ it_tenantId item = tn ∧
    reconstructHistoricalFifo now tn i
      (places (map (with_reserved []) (List.filter (Costing.stocks_of i) (rows db1 TStock)))) db1 =
      Ok (fifo, db1) ∧
    cost_map (default [] (cv_openingCosts dto)) ∅ = Ok costs ∧
    write_valuation now tn i dto fifo None costs (active_stocks i db1) db1 = Ok (u, db2).
Proof.
  intros E Hm Er Ha. unfold configure_tx in E.
  apply tx_bind_ok in E as (found & d & E1 & E). unfold select_first in E1. injection E1 as <- <-.
  destruct (List.find (item_in tn i) (rows db TItem)) as [item|] eqn:Ei; [|done].
  apply find_some_in in Ei as [Hin Hi]. unfold item_in in Hi. bool_hyps.
  rewrite (tx_bind_run _ _ _ _ _ Er) in E.
  apply tx_bind_ok in E as (v & d & E1 & E). apply tx_lift_ok in E1 as [_ ->].
  apply tx_bind_ok in E as (rs & d & E1 & E). unfold select in E1. injection E1 as <- <-.
  cbn [row] in *. rewrite Ha in E.
  apply tx_bind_ok in E as (v' & d & E1 & E). apply tx_lift_ok in E1 as [_ ->].
  apply tx_bind_ok in E as (ss & d & E1 & E). unfold select in E1. injection E1 as <- <-.
  apply tx_bind_ok in E as (whs & d & E1 & E). unfold select in E1. injection E1 as <- <-.
  cbv zeta in E. apply tx_bind_ok in E as (fifo & d & E1 & E). unfold fifo_history in E1.
  rewrite bool_decide_true in E1 by done.
  assert (d = db1) as -> by by injection E1.
  apply tx_bind_ok in E as (avg & d & E2 & E). unfold average_history, by_average in E2.
  rewrite Hm in E2. injection E2 as <- <-.
  apply tx_bind_ok in E as (v2 & d & E2 & E). apply tx_lift_ok in E2 as [_ ->].
  apply tx_bind_ok in E as (costs & d & E2 & E). apply tx_lift_ok in E2 as [E2 ->].
  apply tx_bind_ok in E as (v3 & d & E3 & E). apply tx_lift_ok in E3 as [_ ->].
  apply tx_bind_ok in E as (v4 & d & E3 & E). apply tx_lift_ok in E3 as [_ ->].
  exists item, fifo, costs. done.
Qed.

(** Writing the valuation: the layers are replaced by what the balances hold, and the item
    is FIFO. *)
Lemma ids_open_layer tn i costs w l : respects keeps_ids (open_layer tn i costs w l).
Proof. unfold open_layer, given_cost, to_column. solve_ids. Qed.
Lemma ids_open_books dto fifo avg tn i costs ss :
  cv_method dto = FIFO → respects keeps_ids (open_books dto fifo avg tn i costs ss).
Proof.
  intros Hm. unfold open_books. rewrite Hm. apply respects_for_each; [exact _|]. intros b.
  apply respects_for_each; [exact _|]. intros l. apply ids_open_layer.
Qed.
Lemma to_nullable_reads d db r db' : to_nullable d db = Ok (r, db') → db' = db.
Proof.
  unfold to_nullable. destruct d as [d|]; [|by intros [= _ <-]]. intros E.
  apply tx_bind_ok in E as (c & d1 & E1 & [= _ <-]). by apply column_ok in E1 as [-> _].
Qed.
Definition locked_at (now : Date) (ss : list StockRow) : option Date :=
  match ss with [] => None | _ => Some now end.
Lemma write_fifo now tn i dto fifo costs active db u db' :
  cv_method dto = FIFO → sound db → Forall on_grid (rows db TLayer) →
  Forall weighs fifo → Forall (λ b, Forall costed (hb_layers b)) fifo →
  (∀ k c, costs !! k = Some c → nonneg (d_of_number c)) →
  Forall (λ l, ly_inventoryItemId l = i → opened i l = true) (rows db TLayer) →
  write_valuation now tn i dto fifo None costs active db = Ok (u, db') →
  sound db' ∧ Forall on_grid (rows db' TLayer) ∧ stock_view db' = stock_view db ∧
  (∃ standard average, rows db' TItem =
    map_where (has_id TItem i) (set_valuation dto standard average (locked_at now active))
      (rows db TItem)) ∧
  ∀ t i' w, layer_sum t i' w db' =
    (if bool_decide (i' = i) then 0 else layer_sum t i' w db) +
    sumZ (map (λ b, at_place tn i (hb_warehouseId b) t i' w (held b)) fifo).
Proof.
  intros Hm Hs Hg Hw Hl Hc Ho E. unfold write_valuation in E.
  apply tx_bind_ok in E as (v1 & db1 & E1 & E). apply delete_opened_effect in E1 as (O1 & R1 & S1).
  apply tx_bind_ok in E as (v2 & db2 & E2 & E). unfold update_many in E2. injection E2 as _ <-.
  apply tx_bind_ok in E as (v3 & db3 & E3 & E).
  pose proof (ids_open_books _ _ _ _ _ _ _ Hm _ _ _ E3) as S3. unfold open_books in E3.
  rewrite Hm in E3.
  apply (open_balances_placed tn i costs fifo Hw Hl Hc) in E3 as (Hg3 & O3 & L3).
  2: { rewrite rows_on_other, R1 by done. apply Forall_forall.
       intros l [Hin _]%list_elem_of_In%filter_In. apply list_elem_of_In in Hin.
       rewrite Forall_forall in Hg. by apply Hg. }
  apply tx_bind_ok in E as (sc & d & E4 & E).
  apply to_nullable_reads in E4 as ->.
  apply tx_bind_ok in E as (av & d & E5 & E).
  apply to_nullable_reads in E5 as ->.
  apply update_id_inv in E as [_ ->]. set (db2 := on TStock _ db1) in *.
  assert (V : stock_view db3 = stock_view db).
  { transitivity (stock_view db2); [by apply (view_only [TLayer] db2 db3); [|set_solver..]|].
    transitivity (stock_view db1); [by apply (view_stock (Costing.stocks_of i))|].
    unfold stock_view. by rewrite O1 by set_solver. }
  assert (S : sound db3).
  { apply S3. unfold db2. apply sound_on; [by apply map_where_keys|by apply S1]. }
  split_and!.
  - apply sound_on; [by apply map_where_keys|done].
  - by rewrite rows_on_other.
  - unfold stock_view. rewrite rows_on_other by done. exact V.
  - exists sc, av. rewrite rows_on_same. f_equal.
    rewrite O3 by set_solver. unfold db2. rewrite rows_on_other by done. apply O1. set_solver.
  - intros t i' w. rewrite (layer_sum_rows t i' w db3) by by rewrite rows_on_other.
    rewrite L3, map_map. f_equal.
    apply (layer_sum_kept i); [|done]. unfold db2. by rewrite rows_on_other.
Qed.

(** The item is locked exactly when it has stock. *)
Definition has_stock (itemId : string) (db : Db) : Prop :=
  ∃ s, s ∈ rows db TStock ∧ st_inventoryItemId s = itemId ∧ 0 < units s.
Lemma active_has_stock n i db :
  Forall (holds n) (rows db TStock) → n <= max_exact →
  (active_stocks i db ≠ [] ↔ has_stock i db).
Proof.
  intros Hh Hn. rewrite Forall_forall in Hh.
  assert (Hq : ∀ s, s ∈ rows db TStock →
    gtb (st_quantity (with_reserved [] s)) (of_Z 0) = (0 <? units s)).
  { intros s Hs. destruct (holds_units n s Hn (Hh s Hs)) as [E Hu]. unfold with_reserved, gtb. cbn.
    unfold reserved_at. cbn. rewrite E at 1. rewrite add_of_Z, Z.add_0_r by (done || lia).
    by rewrite ltb_of_Z by (done || lia). }
  assert (Hi : ∀ x, x ∈ active_stocks i db ↔ ∃ s, s ∈ rows db TStock ∧
    st_inventoryItemId s = i ∧ 0 < units s ∧ x = with_reserved [] s).
  { intros x. unfold active_stocks. rewrite list_elem_of_In, filter_In, in_map_iff. split.
    - intros [(s & <- & Hs) Hx]. apply filter_In in Hs as [Hs Hk]. apply list_elem_of_In in Hs.
      unfold Costing.stocks_of in Hk. bool_hyps. rewrite Hq in Hx by done.
      apply Z.ltb_lt in Hx. by exists s.
    - intros (s & Hs & Hk & Hu & ->). rewrite Hq by done. split; [|by apply Z.ltb_lt].
      exists s. split; [done|]. apply filter_In. split; [by apply list_elem_of_In|].
      unfold Costing.stocks_of. by apply bool_decide_true. }
  split.
  - intros H. destruct (active_stocks i db) as [|x l]; [done|].
    destruct (proj1 (Hi x)) as (s & Hs & Hk & Hu & _); [by left|]. by exists s.
  - intros (s & Hs & Hk & Hu) E. destruct (proj2 (Hi (with_reserved [] s))); [by exists s|..];
      by rewrite E in *.
Qed.
Lemma sum_elsewhere tn i t i' w bs :
  i' ≠ i → sumZ (map (λ b, at_place tn i (hb_warehouseId b) t i' w (held b)) bs) = 0.
Proof.
  intros Hn. apply sum_zero. intros b _. unfold at_place.
  rewrite (bool_decide_false (i = i')) by done. by rewrite andb_false_r.
Qed.
End configure.

(** * Valuing balanced books *)

Section valued.
Context {dec : Decimal} {plat : Platform} {laws : DecimalLaws dec}.
Local Open Scope Z_scope.

Lemma sum_filter {A} (p : A → bool) (f : A → Z) l :
  sumZ (map f (List.filter p l)) = sumZ (map (λ x, if p x then f x else 0) l).
Proof. induction l as [|x l IH]; simpl; [done|]. destruct (p x); simpl; rewrite <- IH; lia. Qed.
Lemma d_sum_micro ls :
  Forall on_grid ls → sumZ (map rem_of ls) < micro_max →
  d_sum (map ly_remainingQuantity ls) = micro (sumZ (map rem_of ls)).
Proof.
  unfold d_sum. rewrite d_zero_micro. intros Hg.
  assert (H : ∀ t, 0 <= t → t + sumZ (map rem_of ls) < micro_max →
    fold_left d_add (map ly_remainingQuantity ls) (micro t) = micro (t + sumZ (map rem_of ls))).
  { induction Hg as [|l ls Hl Hg IH]; intros t Ht Hb; simpl in *; [by rewrite Z.add_0_r|].
    pose proof (sumZ_nonneg _ (rem_nonneg _ Hg)). destruct (on_grid_rem l Hl).
    destruct Hl as [-> _]. cbn [fst]. rewrite micro_add, IH by lia. f_equal. lia. }
  intros Hb. rewrite H by lia. f_equal.
Qed.
Lemma d_total_layers ls :
  Forall on_grid ls → worth ls < digits20 →
  d_total (map (λ l, (ly_remainingQuantity l, ly_unitCost l)) ls) = pico (worth ls).
Proof.
  intros Hg Hw. set (ps := map (λ l, (rem_of l, cost_of l)) ls).
  assert (Ev : value ps = worth ls).
  { unfold ps, worth, weighted. clear. induction ls as [|l ls IH]; simpl in *; [done|]. by rewrite IH. }
  rewrite <- Ev in *. rewrite <- d_total_exact.
  - f_equal. unfold ps. rewrite map_map. apply map_ext_Forall. apply (Forall_impl _ _ _ Hg).
    intros l (Hr & Hc & _). unfold prod_map. simpl in *. by rewrite Hr, Hc.
  - unfold ps, amounts. apply Forall_map. apply (Forall_impl _ _ _ Hg). by intros l (_ & _ & ? & ?).
  - done.
Qed.
Lemma d_sum_pico xs :
  Forall (λ x, 0 <= x) xs → sumZ xs < digits20 → d_sum (map pico xs) = pico (sumZ xs).
Proof.
  unfold d_sum. rewrite d_zero_pico. intros Hx.
  assert (H : ∀ t, 0 <= t → t + sumZ xs < digits20 →
    fold_left d_add (map pico xs) (pico t) = pico (t + sumZ xs)).
  { induction Hx as [|x xs Hx1 Hx IH]; intros t Ht Hb; simpl in *; [by rewrite Z.add_0_r|].
    pose proof (sumZ_nonneg _ Hx). rewrite pico_add, IH by lia. f_equal. lia. }
  intros Hb. rewrite H by lia. f_equal.
Qed.
(** Every member that counts falls into exactly one of the places. *)
Lemma sum_partition {A B K} `{!EqDecision K} (key : A → K) (place : B → K) (f : A → Z) ls bs :
  NoDup (map place bs) → (∀ l, l ∈ ls → f l ≠ 0 → key l ∈ map place bs) →
  sumZ (map (λ b, sumZ (map f (List.filter (λ l, bool_decide (key l = place b)) ls))) bs) =
    sumZ (map f ls).
Proof.
  intros Hn Hk. induction ls as [|l ls IH].
  { rewrite sum_zero; [done|]. done. }
  cbn [map]. rewrite sumZ_cons, <- IH by (intros x Hx; apply Hk; by right).
  rewrite (map_ext _ (λ b, (if bool_decide (place b = key l) then f l else 0) +
    sumZ (map f (List.filter (λ l, bool_decide (key l = place b)) ls)))).
  2: { intros b. cbn [List.filter]. rewrite (bool_decide_ext (place b = _) (key l = place b)) by done.
       case_bool_decide; cbn [map]; rewrite ?sumZ_cons; lia. }
  assert (Hs : ∀ g h : B → Z, sumZ (map (λ b, g b + h b) bs) = sumZ (map g bs) + sumZ (map h bs)).
  { intros g h. clear. induction bs as [|b bs IH]; simpl in *; lia. }
  rewrite Hs. f_equal. rewrite sum_keyed by done.
  destruct (List.find _ bs) as [b|] eqn:E; [done|]. destruct (decide (f l = 0)) as [->|Hf]; [done|].
  exfalso. pose proof (Hk l ltac:(by left) Hf) as Hin.
  apply list_elem_of_fmap in Hin as (b & Eb & Hb). apply list_elem_of_In in Hb.
  apply (find_none _ _ E) in Hb. by apply bool_decide_eq_false_1 in Hb.
Qed.

(** The layers of an item. *)
Definition item_layers (tenantId itemId : string) (db : Db) : list LayerRow :=
  List.filter (λ l, bool_decide (ly_tenantId l = tenantId) &&
                    bool_decide (ly_inventoryItemId l = itemId)) (rows db TLayer).
Lemma layers_for_run tn i db :
  layers_for tn i db = Ok (sort_by layer_order (item_layers tn i db), db).
Proof. done. Qed.
Definition at_warehouse (w : option string) (l : LayerRow) : bool :=
  bool_decide (ly_warehouseId l = w).
Lemma filter_perm {A} (p : A → bool) l l' : l ≡ₚ l' → List.filter p l ≡ₚ List.filter p l'.
Proof.
  induction 1 as [|x l l' _ IH|x y l|l1 l2 l3 _ IH1 _ IH2]; simpl; [done| | |by etrans].
  - by destruct (p x); rewrite IH.
  - destruct (p x), (p y); try done. constructor.
Qed.
Lemma layer_sum_item tn i w db :
  sumZ (map rem_of (List.filter (at_warehouse w) (sort_by layer_order (item_layers tn i db)))) =
    layer_sum tn i w db.
Proof.
  rewrite (sumZ_perm _ _ (Permutation_map _ (filter_perm _ _ _ (sort_by_perm _ _)))).
  unfold item_layers. rewrite <- filter_and, sum_filter. unfold layer_sum, weighted. f_equal.
  apply map_ext. intros l. unfold layer_of, at_warehouse. destruct (_ && _); simpl; lia.
Qed.
Lemma item_grid tn i db :
  Forall on_grid (rows db TLayer) → Forall on_grid (sort_by layer_order (item_layers tn i db)).
Proof.
  intros Hg. rewrite sort_by_perm. apply Forall_forall. intros l [Hl _]%list_elem_of_In%filter_In.
  rewrite Forall_forall in Hg. by apply Hg, list_elem_of_In.
Qed.
Lemma filter_grid p ls : Forall on_grid ls → Forall on_grid (List.filter p ls).
Proof.
  intros Hg. apply Forall_forall. intros l [Hl _]%list_elem_of_In%filter_In.
  rewrite Forall_forall in Hg. by apply Hg, list_elem_of_In.
Qed.
(** The stock of an item in a warehouse that has one row for it. *)
Lemma stock_sum_one i s db :
  let ss := List.filter (Costing.stocks_of i) (rows db TStock) in
  NoDup (map st_warehouseId ss) → s ∈ ss → stock_sum i (st_warehouseId s) db = units s.
Proof.
  intros ss Hn Hs.
  assert (E : stock_sum i (st_warehouseId s) db =
    sumZ (map (λ x, if bool_decide (st_warehouseId x = st_warehouseId s) then units x else 0) ss)).
  { unfold stock_sum, stock_in, ss. rewrite sum_filter. f_equal. apply map_ext. intros x.
    unfold place_of, stock_place, Costing.stocks_of. cbn [fst snd].
    rewrite (bool_decide_ext (i = _) (st_inventoryItemId x = i)) by done.
    rewrite (bool_decide_ext (st_warehouseId s = _) (st_warehouseId x = st_warehouseId s)) by done.
    by repeat case_bool_decide. }
  rewrite E, sum_keyed by done.
  destruct (List.find _ ss) as [x|] eqn:Ex.
  - apply find_some_in in Ex as [Hx Ex%bool_decide_eq_true_1]. f_equal.
    by apply (same_key st_warehouseId ss).
  - apply list_elem_of_In in Hs. apply (find_none _ _ Ex) in Hs. by rewrite bool_decide_true in Hs.
Qed.
Lemma stock_sum_none i w db :
  w ∉ map st_warehouseId (List.filter (Costing.stocks_of i) (rows db TStock)) →
  stock_sum i w db = 0.
Proof.
  intros Hw. apply sum_zero. intros s Hs. unfold place_of, stock_place. cbn [fst snd].
  repeat case_bool_decide; try done. subst. exfalso. apply Hw. apply list_elem_of_fmap_2.
  apply list_elem_of_In, filter_In. split; [by apply list_elem_of_In|].
  unfold Costing.stocks_of. by apply bool_decide_true.
Qed.

Lemma fifo_reads now tn i ps db : ∃ bs, reconstructHistoricalFifo now tn i ps db = Ok (bs, db).
Proof. unfold reconstructHistoricalFifo, tx_get, mbind, tx_bind, mret, tx_ret. by eexists. Qed.
Lemma with_none n s : holds n s → n <= max_exact → with_reserved [] s = s.
Proof.
  intros Hh Hn. destruct (holds_units n s Hn Hh) as [E Hu]. unfold with_reserved, reserved_at. cbn.
  rewrite E, add_of_Z, Z.add_0_r, <- E by (done || lia). by destruct s.
Qed.
Lemma item_with_stock_run tn i item db :
  keyed TItem db → item ∈ rows db TItem → it_id item = i → it_tenantId item = tn →
  item_with_stock tn i db = Ok ((item, List.filter (Costing.stocks_of i) (rows db TStock)), db).
Proof.
  intros Hk Hin <- <-. unfold item_with_stock, select_first, select, mbind, tx_bind.
  destruct (List.find _ _) as [x|] eqn:E.
  - apply find_some_in in E as [Hx Ex]. unfold item_in in Ex. bool_hyps.
    by rewrite (same_key it_id (rows db TItem) x item).
  - apply list_elem_of_In in Hin. apply (find_none _ _ E) in Hin. unfold item_in in Hin.
    by rewrite !bool_decide_true in Hin.
Qed.

(** What a balanced FIFO item holds in a warehouse with one row. *)
Context (n : Z) (db : Db) (item : ItemRow).
Context (Hbal : balanced n db) (Hn : 0 <= n < HistoricalFacts.bound).
Context (Hin : item ∈ rows db TItem) (Hfifo : fifo_item item).
Let i := it_id item.
Let tn := it_tenantId item.
Let ss := List.filter (Costing.stocks_of i) (rows db TStock).
Let layers := sort_by layer_order (item_layers tn i db).
Context (Hone : NoDup (map st_warehouseId ss)) (Hworth : worth (item_layers tn i db) < digits20).

Definition layer_worth (w : option string) : Z :=
  worth (List.filter (λ l, bool_decide (ly_warehouseId l = w)) layers).
Lemma worth_layers : worth layers = worth (item_layers tn i db).
Proof. unfold worth, weighted. apply sumZ_perm, Permutation_map, sort_by_perm. Qed.
Lemma worth_partition : sumZ (map (λ s, layer_worth (st_warehouseId s)) ss) = worth layers.
Proof.
  apply (sum_partition ly_warehouseId st_warehouseId); [done|].
  intros l Hl Hne. destruct (decide (ly_warehouseId l ∈ map st_warehouseId ss)) as [|Hw]; [done|].
  exfalso. apply Hne. pose proof (item_grid tn i db (bk_layers _ _ Hbal)) as Hg. fold layers in Hg.
  assert (H0 : sumZ (map rem_of (List.filter (at_warehouse (ly_warehouseId l)) layers)) = 0).
  { unfold layers. rewrite layer_sum_item. unfold tn, i. rewrite (bk_agree _ _ Hbal item) by done.
    rewrite stock_sum_none by done. lia. }
  assert (Hr : rem_of l = 0); [|rewrite Hr; lia].
  assert (Hf : l ∈ List.filter (at_warehouse (ly_warehouseId l)) layers).
  { apply list_elem_of_In, filter_In. split; [by apply list_elem_of_In|].
    unfold at_warehouse. by apply bool_decide_true. }
  pose proof (filter_grid (at_warehouse (ly_warehouseId l)) layers Hg) as Hgf.
  revert Hf H0 Hgf. generalize (List.filter (at_warehouse (ly_warehouseId l)) layers).
  intros ls Hf H0 Hgf. induction Hgf as [|x ls Hx Hgf IH]; [by apply elem_of_nil in Hf|].
  cbn [map] in H0. rewrite sumZ_cons in H0. pose proof (sumZ_nonneg _ (rem_nonneg _ Hgf)).
  pose proof (on_grid_rem x Hx). apply elem_of_cons in Hf as [->|Hf]; [lia|apply IH; [done|lia]].
Qed.
Lemma layer_worth_bounds s : s ∈ ss → 0 <= layer_worth (st_warehouseId s) < digits20.
Proof.
  intros Hs. pose proof worth_partition as Hp. rewrite worth_layers in Hp.
  assert (H0 : ∀ w, 0 <= layer_worth w).
  { intros w. apply worth_nonneg, filter_grid, item_grid, (bk_layers _ _ Hbal). }
  split; [apply H0|]. revert Hs Hp. generalize ss. intros l Hs Hp.
  assert (layer_worth (st_warehouseId s) <= sumZ (map (λ s, layer_worth (st_warehouseId s)) l)); [|lia].
  clear Hp. induction l as [|x l IH]; [by apply elem_of_nil in Hs|]. cbn [map]. rewrite sumZ_cons.
  assert (0 <= sumZ (map (λ s, layer_worth (st_warehouseId s)) l)).
  { apply sumZ_nonneg, Forall_map, Forall_forall. intros y _. apply H0. }
  pose proof (H0 (st_warehouseId x)). apply elem_of_cons in Hs as [->|Hs]; [lia|].
  specialize (IH Hs). lia.
Qed.
Lemma balance_valued fifo average s :
  s ∈ ss →
  let b := balance_value item layers fifo average s in
  bv_fifoLayerQuantity b = d_of_number (st_quantity s) ∧
  bv_inventoryValue b = Some (bv_fifoLayerValue b) ∧
  bv_fifoLayerValue b = pico (layer_worth (st_warehouseId s)).
Proof.
  intros Hs b. pose proof (item_grid tn i db (bk_layers _ _ Hbal)) as Hg. fold layers in Hg.
  assert (Hsum : sumZ (map rem_of (List.filter (at_warehouse (st_warehouseId s)) layers)) =
    units s * million).
  { unfold layers. rewrite layer_sum_item. unfold tn, i. rewrite (bk_agree _ _ Hbal item) by done.
    rewrite (stock_sum_one (it_id item) s db Hone Hs). lia. }
  assert (Hu : st_quantity s = of_Z (units s) ∧ 0 <= units s <= n).
  { apply (steady_units n db); [by apply balanced_steady|by apply n_exact|].
    by apply list_elem_of_In, filter_In, proj1, list_elem_of_In in Hs. }
  destruct Hu as [Eu Hu]. unfold HistoricalFacts.bound in Hn.
  assert (Eq : d_sum (map ly_remainingQuantity
    (List.filter (at_warehouse (st_warehouseId s)) layers)) = micro (units s * million)).
  { rewrite d_sum_micro, Hsum; [done|by apply filter_grid|rewrite Hsum; literals; lia]. }
  assert (Ed : d_of_number (st_quantity s) = micro (units s * million)).
  { rewrite Eu. apply of_number_int. lia. }
  unfold at_warehouse in Eq. unfold b, balance_value. cbn [bv_fifoLayerQuantity bv_inventoryValue bv_fifoLayerValue].
  rewrite Eq, Ed. split; [done|]. unfold inventory_value. rewrite Hfifo, Ed.
  unfold d_eq. rewrite micro_lte, micro_gte, Z.leb_refl by (literals; lia). split; [done|].
  apply d_total_layers; [by apply filter_grid|]. by apply layer_worth_bounds.
Qed.
End valued.

(** * What a configuration leaves alone *)

Section spares.
Context {dec : Decimal} {plat : Platform} {laws : DecimalLaws dec} {uniq : UniqueIds}.

(** The rows of the other items are what they were, and no stock moves. *)
Record spares (itemId : string) (db db' : Db) : Prop := {
  sp_items : List.filter (λ r, negb (bool_decide (it_id r = itemId))) (rows db' TItem) =
             List.filter (λ r, negb (bool_decide (it_id r = itemId))) (rows db TItem);
  sp_stock : List.filter (λ s, negb (Costing.stocks_of itemId s)) (rows db' TStock) =
             List.filter (λ s, negb (Costing.stocks_of itemId s)) (rows db TStock);
  sp_layers : List.filter (λ l, negb (bool_decide (ly_inventoryItemId l = itemId))) (rows db' TLayer) =
              List.filter (λ l, negb (bool_decide (ly_inventoryItemId l = itemId))) (rows db TLayer);
  sp_view : stock_view db' = stock_view db;
}.
#[export] Instance spares_preorder i : PreOrder (spares i).
Proof.
  split; [by intros db; split|]. intros d1 d2 d3 [A1 A2 A3 A4] [B1 B2 B3 B4].
  split; congruence.
Qed.
Lemma spares_only i ts db db' :
  only ts db db' → TItem ∉ ts → TStock ∉ ts → TLayer ∉ ts → spares i db db'.
Proof. intros O ? ? ?. split; unfold stock_view; by rewrite O. Qed.

Lemma filter_where {A} (q p : A → bool) f l :
  (∀ x, x ∈ l → p x = true → q x = false ∧ q (f x) = false) →
  List.filter q (map_where p f l) = List.filter q l.
Proof.
  intros H. unfold map_where. induction l as [|x l IH]; simpl; [done|].
  rewrite IH by (intros y Hy; apply H; by right). destruct (p x) eqn:E; [|done].
  destruct (H x ltac:(by left) E) as [-> ->]. done.
Qed.
Lemma filter_filter_id {A} (q p : A → bool) l :
  (∀ x, q x = true → p x = true) → List.filter q (List.filter p l) = List.filter q l.
Proof.
  intros H. induction l as [|x l IH]; simpl; [done|]. destruct (p x) eqn:E; simpl; rewrite IH; [done|].
  destruct (q x) eqn:Eq; [|done]. by rewrite H in E.
Qed.
Lemma spares_delete i u db db' : delete_opened i db = Ok (u, db') → spares i db db'.
Proof.
  intros E. apply delete_opened_effect in E as (O & R & _).
  split; unfold stock_view; try (by rewrite O by set_solver). rewrite R.
  apply filter_filter_id. intros l Hl. unfold opened. bool_hyps.
  by rewrite (bool_decide_false (_ = i)).
Qed.
(** An update of stock rows of the item that keeps their quantities. *)
Lemma spares_stock i p f db :
  (∀ s, s ∈ rows db TStock → p s = true → st_inventoryItemId s = i) →
  (∀ s, (st_id (f s), st_warehouseId (f s), st_inventoryItemId (f s), st_quantity (f s)) =
        (st_id s, st_warehouseId s, st_inventoryItemId s, st_quantity s)) →
  spares i db (on TStock (map_where p f) db).
Proof.
  intros Hp Hf. split; [by rewrite rows_on_other| |by rewrite rows_on_other|].
  - rewrite rows_on_same. apply (filter_where (A := StockRow)). intros s Hs Hps.
    specialize (Hp s Hs Hps). specialize (Hf s). injection Hf as _ _ Ei _. unfold Costing.stocks_of.
    rewrite !bool_decide_true by congruence. done.
  - unfold stock_view. rewrite rows_on_same. by apply (view_where (A := StockRow)).
Qed.

Lemma spares_layer tn i costs w l u db db' :
  open_layer tn i costs w l db = Ok (u, db') → spares i db db'.
Proof.
  intros E. pose proof E as O. unfold open_layer, given_cost in O. framed O [TLayer].
  split; unfold stock_view; try (by rewrite O by set_solver).
  unfold open_layer in E. apply tx_bind_ok in E as (d & db1 & E1 & E).
  assert (db1 = db) as ->.
  { destruct (hl_unitCost l); [by injection E1 as _ <-|]. by apply given_cost_ok in E1 as [-> _]. }
  clear E1. apply tx_bind_ok in E as (r & db1 & E1 & E). apply column_ok in E1 as [-> _].
  apply tx_bind_ok in E as (q & db1 & E1 & E). apply column_ok in E1 as [-> _].
  apply tx_bind_ok in E as (c & db1 & E1 & E). apply column_ok in E1 as [-> _].
  apply tx_bind_ok in E as (row & db1 & E1 & E). injection E as _ <-.
  apply insert_rows in E1 as [Er ->]. etrans; [exact (List.filter_app _ _ [row])|].
  cbn [List.filter]. rewrite Er. cbn [ly_inventoryItemId]. rewrite bool_decide_true by done.
  apply app_nil_r.
Qed.
Lemma spares_for_each {A} i (body : A → Tx Db unit) l u : ∀ db db',
  (∀ x d d', x ∈ l → spares i db d → body x d = Ok (tt, d') → spares i d d') →
  tx_for_each body l db = Ok (u, db') → spares i db db'.
Proof.
  induction l as [|x l IH]; intros db db' Hb E; [injection E as _ <-; reflexivity|].
  cbn [tx_for_each] in E. apply tx_bind_ok in E as ([] & d & E1 & E).
  pose proof (Hb x db d ltac:(by left) ltac:(reflexivity) E1) as H1. etrans; [exact H1|].
  apply (IH d db'); [|exact E]. intros y d1 d2 Hy H2. apply Hb; [by right|by etrans].
Qed.
(** A row of the item, told by its id. *)
Definition owned (itemId stockId : string) (db : Db) : Prop :=
  ∀ s, s ∈ rows db TStock → st_id s = stockId → st_inventoryItemId s = itemId.
Lemma owned_view i k db db' : stock_view db' = stock_view db → owned i k db → owned i k db'.
Proof.
  intros V H s Hs Hk.
  pose proof (list_elem_of_fmap_2 (λ s, (st_id s, st_warehouseId s, st_inventoryItemId s, st_quantity s))
    _ _ Hs) as Hin. cbn [row] in Hin. change (_ <$> rows db' TStock) with (stock_view db') in Hin.
  rewrite V in Hin. apply list_elem_of_fmap in Hin as (s0 & E & H0). injection E as E1 E2 E3 E4.
  rewrite E3. apply (H s0 H0). congruence.
Qed.
Lemma spares_books dto fifo avg tn i costs active u db db' :
  Forall (λ s, owned i (st_id s) db) active →
  open_books dto fifo avg tn i costs active db = Ok (u, db') → spares i db db'.
Proof.
  intros Ho E. unfold open_books in E. destruct (cv_method dto).
  - eapply spares_for_each; [|exact E]. intros b d d' _ _. apply spares_for_each.
    intros l d1 d2 _ _. apply spares_layer.
  - eapply spares_for_each; [|exact E]. intros s d d' Hs Hd E1. cbn beta in E1.
    unfold tx_when in E1. destruct (with_scope PER_WAREHOUSE dto); [|by injection E1 as <-].
    unfold open_average in E1. apply tx_bind_ok in E1 as (c & d1 & E2 & E1).
    assert (d1 = d) as ->.
    { destruct (average_at avg _) as [[? ? [?|] [|] ? ?]|]; try (by apply given_cost_ok in E2 as [-> _]).
      by injection E2 as _ <-. }
    clear E2. apply tx_bind_ok in E1 as (k & d1 & E2 & E1). apply column_ok in E2 as [-> _].
    apply update_id_inv in E1 as [_ ->]. apply spares_stock; [|done].
    intros x Hx Hid. apply bool_decide_eq_true_1 in Hid.
    rewrite Forall_forall in Ho. apply (owned_view i (st_id s) db d) in Hid; [done|apply Hd|by apply Ho|done].
  - injection E as _ <-. reflexivity.
Qed.
Lemma writes_books dto fifo avg tn i costs active :
  writes [TLayer; TStock] (open_books dto fifo avg tn i costs active).
Proof. unfold open_books, open_layer, open_average, given_cost. solve_writes. Qed.
Lemma spares_write now tn i dto fifo avg costs active u db db' :
  Forall (λ s, owned i (st_id s) db) active →
  write_valuation now tn i dto fifo avg costs active db = Ok (u, db') →
  spares i db db' ∧ ∃ standard average, rows db' TItem =
    map_where (has_id TItem i) (set_valuation dto standard average (locked_at now active))
      (rows db TItem).
Proof.
  intros Ho E. unfold write_valuation in E.
  apply tx_bind_ok in E as (v1 & db1 & E1 & E). apply spares_delete in E1 as S1.
  apply delete_opened_effect in E1 as (O1 & _).
  apply tx_bind_ok in E as (v2 & db2 & E2 & E). unfold update_many in E2. injection E2 as _ <-.
  assert (S2 : spares i db1 (on TStock (map_where (Costing.stocks_of i) clear_stock_average) db1)).
  { apply spares_stock; [|done]. by intros s _ ?%bool_decide_eq_true_1. }
  set (db2 := on TStock _ db1) in *.
  apply tx_bind_ok in E as (v3 & db3 & E3 & E).
  assert (S3 : spares i db2 db3).
  { apply spares_books in E3; [done|]. apply (Forall_impl _ _ _ Ho). intros s Hs.
    eapply owned_view; [apply S2|]. eapply owned_view; [apply S1|done]. }
  assert (O3 : only [TLayer; TStock] db2 db3).
  { by apply writes_books in E3. }
  apply tx_bind_ok in E as (sc & d & E4 & E). apply to_nullable_reads in E4 as ->.
  apply tx_bind_ok in E as (av & d & E5 & E). apply to_nullable_reads in E5 as ->.
  apply update_id_inv in E as [_ ->].
  assert (R : rows db3 TItem = rows db TItem).
  { rewrite O3 by set_solver. unfold db2. rewrite rows_on_other by done. apply O1. set_solver. }
  split.
  - etrans; [exact S1|]. etrans; [exact S2|]. etrans; [exact S3|].
    split; try (by rewrite rows_on_other); [|unfold stock_view; by rewrite rows_on_other].
    rewrite rows_on_same. apply (filter_where (A := ItemRow)). intros r _ Hr.
    apply bool_decide_eq_true_1 in Hr. cbn [set_valuation it_id].
    change (it_id r = i) in Hr. rewrite bool_decide_true by done. done.
  - exists sc, av. by rewrite rows_on_same, R.
Qed.

Lemma item_found tn i db :
  match List.find (item_in tn i) (rows db TItem) with
  | Some item => item ∈ rows db TItem ∧ it_id item = i ∧ it_tenantId item = tn
  | None => True
  end.
Proof.
  destruct (List.find _ _) as [item|] eqn:E; [|done]. apply find_some_in in E as [Hin H].
  unfold item_in in H. by bool_hyps.
Qed.
(** A configuration that succeeds, whatever the method. *)
Lemma configure_inv now tn i dto db u db' :
  configure_tx now tn i dto db = Ok (u, db') →
  check_method dto = Ok tt ∧ ∃ item db1 reserved fifo avg costs active,
    item ∈ rows db TItem ∧ it_id item = i ∧ it_tenantId item = tn ∧
    it_valuationLockedAt item = None ∧ reconcile_completed tn i db = Ok (tt, db1) ∧
    active = List.filter (λ s, gtb (st_quantity s) (of_Z 0))
      (map (with_reserved reserved) (List.filter (Costing.stocks_of i) (rows db1 TStock))) ∧
    write_valuation now tn i dto fifo avg costs active db1 = Ok (u, db').
Proof.
  intros E. unfold configure_tx in E.
  apply tx_bind_ok in E as (found & d & E1 & E). unfold select_first in E1. injection E1 as <- <-.
  pose proof (item_found tn i db) as Hf. cbn [row] in *.
  destruct (List.find (item_in tn i) (rows db TItem)) as [item|]; [|done].
  destruct Hf as (Hin & Hid & Htn). apply tx_bind_ok in E as ([] & db1 & Er & E).
  apply tx_bind_ok in E as (v & d & E1 & E). apply tx_lift_ok in E1 as [Hl ->].
  apply throw_if_ok, bool_decide_eq_false_1, eq_None_not_Some in Hl.
  apply tx_bind_ok in E as (rs & d & E1 & E). unfold select in E1. injection E1 as <- <-.
  apply tx_bind_ok in E as ([] & d & E1 & E). apply tx_lift_ok in E1 as [Hm ->].
  apply tx_bind_ok in E as (ss & d & E1 & E). unfold select in E1. injection E1 as <- <-.
  apply tx_bind_ok in E as (whs & d & E1 & E). unfold select in E1. injection E1 as <- <-.
  cbv zeta in E. apply tx_bind_ok in E as (fifo & d & E1 & E).
  assert (d = db1) as ->.
  { unfold fifo_history in E1. case_match; by injection E1 as _ <-. }
  clear E1. apply tx_bind_ok in E as (avg & d & E2 & E).
  assert (d = db1) as ->.
  { unfold average_history in E2. case_match; by injection E2 as _ <-. }
  clear E2. apply tx_bind_ok in E as (v2 & d & E2 & E). apply tx_lift_ok in E2 as [_ ->].
  apply tx_bind_ok in E as (costs & d & E2 & E). apply tx_lift_ok in E2 as [_ ->].
  apply tx_bind_ok in E as (v3 & d & E3 & E). apply tx_lift_ok in E3 as [_ ->].
  apply tx_bind_ok in E as (v4 & d & E3 & E). apply tx_lift_ok in E3 as [_ ->].
  split; [done|]. eexists item, db1, _, fifo, avg, costs, _. split_and!; [done..|exact E].
Qed.
(** A locked item is not configured again. *)
Lemma configure_locked now tn i dto db item :
  keyed TItem db → item ∈ rows db TItem → it_id item = i → is_Some (it_valuationLockedAt item) →
  ∃ e, configure_tx now tn i dto db = Err e.
Proof.
  intros Hk Hin Hid [t Ht]. destruct (configure_tx now tn i dto db) as [[u db']|e] eqn:E; [|by exists e].
  exfalso. apply configure_inv in E as (_ & x & db1 & rs & fifo & avg & costs & active & Hx & Hxi & _ & Hl & _).
  assert (x = item) as -> by (apply (same_key it_id (rows db TItem)); [exact Hk|done..|congruence]).
  congruence.
Qed.
End spares.

(** * Theorems *)

(** C28: Choosing FIFO opens balanced books.  For an item that is not yet locked, whose
    history holds whole quantities and no negative cost, and none of whose stock is
    reserved, a successful configuration leaves every FIFO item's open layers holding
    exactly its stock in each warehouse, the chosen item included; it changes no quantity,
    and the item is locked exactly when it has stock. *)
Theorem fifo_opens_books {dec : Decimal} {laws : DecimalLaws dec} {plat : Platform}
    {uniq : UniqueIds} (now : Date) (tenantId itemId : string)
    (dto : ConfigureInventoryValuationDto) (n : Z) (db db1 db2 : Db) :
  balanced n db → 0 <= n < HistoricalFacts.bound →
  reconcile_completed tenantId itemId db = Ok (tt, db1) →
  List.filter (active_for tenantId itemId) (rows db1 TMovement) = [] →
  traced tenantId itemId db1 → stocked itemId db →
  Forall (λ l, ly_inventoryItemId l = itemId → opened itemId l = true) (rows db TLayer) →
  cv_method dto = FIFO →
  Forall (λ c, nonneg (d_of_number (oc_unitCost c))) (default [] (cv_openingCosts dto)) →
  configure_tx now tenantId itemId dto db = Ok (tt, db2) →
  balanced n db2 ∧ stock_view db2 = stock_view db ∧
  ∃ item, item ∈ rows db2 TItem ∧ it_id item = itemId ∧ it_tenantId item = tenantId ∧
    fifo_item item ∧ (is_Some (it_valuationLockedAt item) ↔ has_stock itemId db).
Proof.
  intros [Hs Hg Hh Ha] Hn Er Hact Htr Hst Hop Hm Hc E.
  pose proof (writes_reconcile _ _ _ _ _ Er) as O1. pose proof (ids_reconcile _ _ _ _ _ Er Hs) as Hs1.
  assert (RS : rows db1 TStock = rows db TStock) by (apply O1; set_solver).
  assert (RL : rows db1 TLayer = rows db TLayer) by (apply O1; set_solver).
  assert (RI : rows db1 TItem = rows db TItem) by (apply O1; set_solver).
  assert (Hst1 : stocked itemId db1) by (unfold stocked; by rewrite RS).
  destruct (configure_fifo_inv now tenantId itemId dto db db1 tt db2 E Hm Er Hact)
    as (item & fifo & costs & Hin & Hid & Htn & Ef & Ec & Ew).
  rewrite (reconstruct_run now tenantId itemId n db1) in Ef by (done || by rewrite RS).
  injection Ef as Ef.
  assert (Hw : ∀ key, weighs (reconstruction now tenantId itemId db1 key) ∧ _ ∧ _)
    by (intros key; apply (reconstruction_weighs now tenantId itemId n db1); (done || by rewrite RS)).
  apply (write_fifo now tenantId itemId dto fifo costs) in Ew
    as (Hs2 & Hg2 & V & (sc & av & RI2) & L); [|done|done|by rewrite RL| | | |by rewrite RL].
  2,3: rewrite <- Ef; apply Forall_map, Forall_forall; intros key _; apply Hw.
  2: { intros k c Hk. apply (cost_map_in _ _ _ k c Ec) in Hk as [Hk|(d & Hd & <-)]; [done|].
       rewrite Forall_forall in Hc. by apply Hc. }
  assert (V2 : stock_view db2 = stock_view db) by (rewrite V; unfold stock_view; by rewrite RS).
  set (f := set_valuation dto sc av (locked_at now (active_stocks itemId db1))) in *.
  assert (Hi : ∀ x, x ∈ rows db2 TItem → ∃ x0, x0 ∈ rows db TItem ∧
    x = if bool_decide (it_id x0 = itemId) then f x0 else x0).
  { intros x Hx. rewrite RI2, RI in Hx. unfold map_where in Hx.
    apply list_elem_of_fmap in Hx as (x0 & -> & Hx0). by exists x0. }
  split; [split; [done|done|by apply (holds_same n db)|]|split; [done|]].
  - intros x w Hx Hf. destruct (Hi x Hx) as (x0 & Hx0 & ->).
    unfold stock_sum. rewrite (stock_in_same _ db) by done. rewrite L.
    case_bool_decide as Ex.
    + assert (x0 = item) as -> by (apply (same_key it_id (rows db TItem)); [apply (Hs TItem)|done..|congruence]).
      cbn [f set_valuation it_id it_tenantId]. rewrite bool_decide_true, <- Ef, Htn, Hid by done.
      pose proof (reconstruction_sum now tenantId itemId n db1 Htr Hst1 ltac:(by rewrite RS) Hn w) as S.
      unfold stock_sum in S. rewrite (stock_in_same _ db) in S; [exact S|].
      unfold stock_view. by rewrite RS.
    + rewrite bool_decide_false, sum_elsewhere, (layer_sum_rows _ _ _ db), Z.add_0_r by done.
      by apply Ha.
  - exists (f item). split.
    { rewrite RI2, RI. unfold map_where. apply list_elem_of_fmap. exists item.
      unfold has_id. split; [|done]. by rewrite bool_decide_true. }
    split_and!; [done|done|by unfold fifo_item; cbn; rewrite Hm|].
    rewrite <- (active_has_stock n itemId db Hh) by (apply (n_exact n Hn)).
    cbn [f set_valuation it_valuationLockedAt]. unfold active_stocks. rewrite RS.
    unfold locked_at. destruct (List.filter _ (map _ _)); by split.
Qed.

(** C29: Balanced books are valued in full.  For a FIFO item of a store whose books balance,
    with one stock row per warehouse and none of its stock reserved, [getValuation] answers
    VALUED: in every warehouse the open layers hold exactly the stock, and the total value
    is the exact sum of what remains of each layer at its cost. *)
Theorem balanced_valued {dec : Decimal} {laws : DecimalLaws dec} {plat : Platform}
    {Q R W : Type} (answer : Q → W → R * W) (now : Date) (item : ItemRow) (n : Z) (db : Db) (w : W) :
  let tenantId := it_tenantId item in
  let ss := List.filter (Costing.stocks_of (it_id item)) (rows db TStock) in
  balanced n db → 0 <= n < HistoricalFacts.bound → item ∈ rows db TItem → fifo_item item →
  List.filter (active_for tenantId (it_id item)) (rows db TMovement) = [] →
  NoDup (map st_warehouseId ss) → worth (item_layers tenantId (it_id item) db) < digits20 →
  ∃ v, alone answer (getValuation now tenantId (it_id item)) db w = (Ok v, db, w) ∧
    vl_status v = VALUED ∧
    vl_totalValue v = Some (pico (worth (item_layers tenantId (it_id item) db))) ∧
    Forall2 (λ s b, bv_warehouseId b = st_warehouseId s ∧ bv_quantity b = st_quantity s ∧
      bv_fifoLayerQuantity b = d_of_number (st_quantity s) ∧
      bv_inventoryValue b = Some (bv_fifoLayerValue b)) ss (vl_balances v).
Proof.
  intros tn ss Hb Hn Hin Hf Hact Hone Hw. unfold getValuation. rewrite alone_step.
  rewrite (item_with_stock_run tn (it_id item) item) by (done || apply (bk_sound _ _ Hb TItem)).
  fold ss. rewrite alone_step. unfold select. cbn [row] in *. rewrite Hact. cbv zeta.
  assert (Ess : map (with_reserved []) ss = ss).
  { rewrite <- (map_id ss) at 2. apply map_ext_in. intros s Hs. apply filter_In in Hs as [Hs _].
    apply (with_none n); [|by apply n_exact]. pose proof (bk_stock _ _ Hb) as H.
    rewrite Forall_forall in H. by apply H, list_elem_of_In. }
  rewrite Ess, alone_step, layers_for_run, alone_step.
  destruct (fifo_reads now tn (it_id item) (places ss) db) as [bs ->]. rewrite alone_step.
  destruct (average_reads tn (it_id item) (places ss) db) as [a ->]. rewrite alone_step.
  unfold find_id, select_first. generalize (List.find (has_id TTenant tn) (rows db TTenant)).
  intros tenant. cbn [row] in *.
  pose proof (balance_valued n db item Hb Hn Hin Hf Hone Hw bs a) as Hv.
  cbv zeta in Hv. fold tn in Hv.
  eexists. split; [done|].
  assert (Hcfg : bool_decide (is_Some (it_valuationMethod item)) = true).
  { apply bool_decide_true. by rewrite Hf. }
  assert (Hall : forallb (λ b, bool_decide (is_Some (bv_inventoryValue b)))
    (map (balance_value item (sort_by layer_order (item_layers tn (it_id item) db)) bs a) ss) = true).
  { apply forallb_forall. intros b (s & <- & Hs)%in_map_iff. apply list_elem_of_In in Hs.
    apply bool_decide_true. destruct (Hv s Hs) as (_ & -> & _). by eexists. }
  unfold item_valuation. cbn [vl_status vl_totalValue vl_balances]. rewrite Hcfg, Hall.
  split; [done|]. cbn [andb]. split.
  - f_equal. rewrite map_map.
    rewrite (map_ext_in _ (λ s, pico (layer_worth db item (st_warehouseId s)))).
    2: { intros s Hs%list_elem_of_In. destruct (Hv s Hs) as (_ & -> & ->). done. }
    rewrite <- (map_map (λ s, layer_worth db item (st_warehouseId s)) pico).
    pose proof (worth_partition n db item Hb Hin Hf Hone) as Hp.
    rewrite (worth_layers db item) in Hp. fold tn in Hp. fold ss in Hp.
    rewrite d_sum_pico; [by rewrite Hp| |by rewrite Hp].
    apply Forall_map, Forall_forall. intros s Hs.
    by apply (layer_worth_bounds n db item Hb Hin Hf Hone Hw).
  - apply Forall2_fmap_r, Forall_Forall2_diag, Forall_forall. intros s Hs.
    destruct (Hv s Hs) as (E1 & E2 & _). done.
Qed.

(** C30: The valuation of an item is chosen once.  A successful configuration is of an item of
    the tenant that was not locked, and of a request whose scope and standard cost fit its
    method; the item then has the method and the scope that were asked for, no quantity
    moves, and the items, the stock and the layers of other items are untouched.  Once the
    item is locked - as it is when it has stock - no further configuration succeeds. *)
Theorem configured_once {dec : Decimal} {laws : DecimalLaws dec} {plat : Platform}
    {uniq : UniqueIds} (now : Date) (tenantId itemId : string)
    (dto : ConfigureInventoryValuationDto) (db db' : Db) :
  keyed TItem db → keyed TStock db → configure_tx now tenantId itemId dto db = Ok (tt, db') →
  check_method dto = Ok tt ∧ spares itemId db db' ∧
  ∃ item item', item ∈ rows db TItem ∧ it_id item = itemId ∧ it_tenantId item = tenantId ∧
    it_valuationLockedAt item = None ∧ item' ∈ rows db' TItem ∧ it_id item' = itemId ∧
    it_valuationMethod item' = Some (cv_method dto) ∧
    it_movingAverageScope item' = cv_movingAverageScope dto ∧
    (is_Some (it_valuationLockedAt item') →
     ∀ now' tenantId' dto', ∃ e, configure_tx now' tenantId' itemId dto' db' = Err e).
Proof.
  intros Hk Hks E. apply configure_inv in E
    as (Hm & item & db1 & rs & fifo & avg & costs & active & Hin & Hid & Htn & Hl & Er & Ea & Ew).
  pose proof (writes_reconcile _ _ _ _ _ Er) as O1.
  assert (S1 : spares itemId db db1) by (apply (spares_only _ [TMovement]); [done|set_solver..]).
  apply spares_write in Ew as (S2 & sc & av & R).
  2: { subst active. apply Forall_forall. intros s Hs. apply list_elem_of_In, filter_In in Hs as [Hs _].
       apply in_map_iff in Hs as (s0 & <- & Hs). apply filter_In in Hs as [Hs Hi].
       rewrite O1 in Hs by set_solver. apply list_elem_of_In in Hs. apply bool_decide_eq_true_1 in Hi.
       intros x Hx Exid. rewrite O1 in Hx by set_solver.
       by assert (x = s0) as -> by (apply (same_key st_id (rows db TStock)); [exact Hks|done..]). }
  split; [done|]. split; [by etrans|].
  rewrite O1 in R by set_solver. set (f := set_valuation dto sc av _) in *.
  exists item, (f item). split_and!; try done.
  - rewrite R. unfold map_where. apply list_elem_of_fmap. exists item. split; [|done].
    unfold has_id. by rewrite bool_decide_true.
  - intros Hlk now' tn' dto'. apply (configure_locked _ _ _ _ _ (f item)); [| |done|done].
    + unfold keyed. rewrite R, map_where_keys; [exact Hk|done].
    + rewrite R. unfold map_where. apply list_elem_of_fmap. exists item. split; [|done].
      unfold has_id. by rewrite bool_decide_true.
Qed.

(** * A concrete item, for the witnesses *)

Module ValuationExamples.
Import SamplePlatform FixedPoint HistoricalExamples AverageExamples.
Local Open Scope string_scope.

Definition flour : ItemRow :=
  {| it_id := "flour"; it_tenantId := "t-1"; it_valuationMethod := None;
     it_movingAverageScope := None; it_standardCost := None; it_averageUnitCost := None;
     it_valuationLockedAt := None |}.
Definition stock : StockRow :=
  {| st_id := "s1"; st_warehouseId := Some "w-1"; st_inventoryItemId := "flour";
     st_quantity := of_Z 6; st_averageUnitCost := None; st_createdAt := 1; st_updatedAt := 1 |}.
(** Six units, of a history that tells what they cost. *)
Definition store : Db :=
  on TItem (λ _, [flour]) (on TStock (λ _, [stock]) (on TMovement (λ _, moved_in_out)
    (on TWarehouse (λ _, [{| wh_id := "w-1"; wh_tenantId := "t-1"; wh_outletId := None;
                             wh_isActive := true |}]) emptyDb))).
Definition fifo : ConfigureInventoryValuationDto :=
  {| cv_method := FIFO; cv_movingAverageScope := None; cv_standardCost := Undefined;
     cv_openingCosts := None |}.
Definition configured : Db :=
  snd (transaction (configure_tx 50 "t-1" "flour" fifo) store).
Lemma configured_run : configure_tx 50 "t-1" "flour" fifo store = Ok (tt, configured).
Proof.
  assert (C : match configure_tx 50 "t-1" "flour" fifo store with Ok _ => true | Err _ => false end =
    true) by (vm_compute; reflexivity).
  unfold configured, transaction. destruct (configure_tx 50 "t-1" "flour" fifo store) as [[[] db]|e];
    [reflexivity|discriminate C].
Qed.

Lemma unvalued_sound : sound store.
Proof. sample_sound. Qed.
Lemma unvalued_balanced : balanced 10 store.
Proof.
  split; [exact unvalued_sound|constructor|repeat constructor; exists 6%Z; split; [reflexivity|lia]|].
  intros i w Hi%list_elem_of_singleton Hf. subst i. discriminate Hf.
Qed.
Lemma store_movements : movements_of store "t-1" "flour" = moved_in_out.
Proof. reflexivity. Qed.
Lemma store_costs : historicalMovementCosts store "t-1" moved_in_out = ∅.
Proof. reflexivity. Qed.
Lemma unvalued_books : HistoricalFacts.books moved_in_out [5; 5; -4]%Z.
Proof.
  split; [|split].
  - apply Forall2_cons_2; [|apply Forall2_cons_2; [|apply Forall2_cons_2; [|constructor]]];
      [apply (moves_ledger _ _ 5)|apply (moves_ledger _ _ 10)|apply (moves_ledger _ _ 6)];
      vm_compute; reflexivity.
  - vm_compute. reflexivity.
  - intros b Hb. exists 0%Z. split; [symmetry; exact (inj Some _ _ Hb)|].
    split; [lia|vm_compute; reflexivity].
Qed.
Lemma cost_known m d :
  mv_unitCost m = Some d → d_lte (micro 0) d = true → known_nonneg (mv_unitCost m).
Proof. intros E H c. rewrite E. by intros [= <-]. Qed.
Lemma store_traced : traced "t-1" "flour" store.
Proof.
  split; rewrite ?store_movements, ?store_costs.
  - intros key. destruct (decide (key = "w-1")) as [->|Hk].
    + exists [5; 5; -4]%Z. exact unvalued_books.
    + exists []. rewrite (filter_none (in_place key)); [repeat constructor|].
      repeat constructor; apply bool_decide_false; intros E; by apply Hk.
  - intros i c H. discriminate H.
  - constructor; [eapply cost_known; [reflexivity|vm_compute; reflexivity]|].
    constructor; [eapply cost_known; [reflexivity|vm_compute; reflexivity]|].
    constructor; [|constructor]. intros d E. discriminate E.
  - intros i r E. discriminate E.
Qed.
Lemma store_stocked : stocked "flour" store.
Proof. split; [repeat constructor; discriminate|apply (bool_decide_unpack _); vm_compute; exact I]. Qed.

Lemma fifo_opens_books_witness :
  balanced 10 configured ∧ ∃ item, item ∈ rows configured TItem ∧ fifo_item item.
Proof.
  assert (Er : reconcile_completed "t-1" "flour" store = Ok (tt, store)) by reflexivity.
  destruct (fifo_opens_books 50 "t-1" "flour" fifo 10 store store configured unvalued_balanced
    ltac:(vm_compute; split; [discriminate|reflexivity]) Er eq_refl store_traced store_stocked
    ltac:(constructor) eq_refl ltac:(constructor) configured_run)
    as (Hb & _ & item & Hin & _ & _ & Hf & _).
  split; [exact Hb|]. by exists item.
Defined.

Lemma configured_locked : Forall (λ i, is_Some (it_valuationLockedAt i)) (rows configured TItem).
Proof. apply (bool_decide_unpack _). vm_compute. exact I. Qed.
Lemma configured_once_witness :
  spares "flour" store configured ∧
  ∃ e, configure_tx 60 "t-1" "flour" fifo configured = Err e.
Proof.
  destruct (configured_once 50 "t-1" "flour" fifo store configured (proj1 (unvalued_sound TItem))
    (proj1 (unvalued_sound TStock)) configured_run)
    as (_ & Hs & item & item' & _ & _ & _ & _ & Hin & _ & _ & _ & H).
  split; [exact Hs|]. apply H. exact (proj1 (Forall_forall _ _) configured_locked item' Hin).
Defined.

(** A layer of four units at 2 and one of two at 5, for six units of stock. *)
Definition costed_layer (i : string) (q c : Z) : LayerRow :=
  {| ly_id := i; ly_tenantId := "t-1"; ly_inventoryItemId := "sugar";
     ly_warehouseId := Some "w-1"; ly_sourceMovementId := None; ly_sourceType := "PURCHASE";
     ly_sourceReferenceId := None; ly_receivedQuantity := micro (q * million);
     ly_remainingQuantity := micro (q * million); ly_unitCost := micro (c * million);
     ly_createdAt := 1 |}.
Definition sugar : ItemRow :=
  {| it_id := "sugar"; it_tenantId := "t-1"; it_valuationMethod := Some FIFO;
     it_movingAverageScope := None; it_standardCost := None; it_averageUnitCost := None;
     it_valuationLockedAt := Some 1%Z |}.
Definition sugar_stock : StockRow :=
  {| st_id := "s1"; st_warehouseId := Some "w-1"; st_inventoryItemId := "sugar";
     st_quantity := of_Z 6; st_averageUnitCost := None; st_createdAt := 1; st_updatedAt := 1 |}.
Definition valued : Db :=
  on TItem (λ _, [sugar]) (on TStock (λ _, [sugar_stock])
    (on TLayer (λ _, [costed_layer "l1" 4 2; costed_layer "l2" 2 5]) emptyDb)).
Lemma valued_balanced : balanced 10 valued.
Proof.
  split.
  - intros t. split.
    + destruct t; apply (bool_decide_unpack _); vm_compute; exact I.
    + intros n _ Hin. destruct t; simpl in Hin;
        repeat (apply elem_of_cons in Hin as [Hin|Hin]; [discriminate Hin|]);
        by apply elem_of_nil in Hin.
  - repeat constructor; vm_compute; discriminate.
  - repeat constructor; exists 6%Z; split; [reflexivity|lia].
  - intros i w Hi%list_elem_of_singleton _. subst i.
    unfold layer_sum, stock_sum, stock_in, weighted, layer_of, place_of. simpl.
    destruct (decide (w = Some "w-1")) as [->|Hn]; [vm_compute; reflexivity|].
    rewrite (bool_decide_false (Some "w-1" = w)), (bool_decide_false (w = Some "w-1")) by congruence.
    vm_compute. reflexivity.
Qed.
Lemma balanced_valued_witness :
  ∃ v, alone (λ (q : unit) (w : unit), (tt, w)) (getValuation 7 "t-1" "sugar") valued tt =
      (Ok v, valued, tt) ∧
    vl_status v = VALUED ∧ vl_totalValue v = Some (pico (18 * million * million)).
Proof.
  assert (Hw : worth (item_layers "t-1" "sugar" valued) = (18 * million * million)%Z)
    by (vm_compute; reflexivity).
  destruct (balanced_valued (λ (q : unit) (w : unit), (tt, w)) 7 sugar 10 valued tt valued_balanced
    ltac:(vm_compute; split; [discriminate|reflexivity]) ltac:(by left) eq_refl eq_refl)
    as (v & E & Hs & Ht & _).
  - apply (bool_decide_unpack _). vm_compute. exact I.
  - change (worth (item_layers "t-1" "sugar" valued) < digits20)%Z. rewrite Hw. reflexivity.
  - exists v. split; [exact E|]. split; [exact Hs|].
    change (vl_totalValue v = Some (pico (worth (item_layers "t-1" "sugar" valued)))) in Ht.
    by rewrite Hw in Ht.
Defined.

(** A standard cost of null passes for one that was given: the item is locked without a
    cost, and every movement of its stock fails from then on. *)
Definition fails {A} (r : result A) : bool := match r with Ok _ => false | Err _ => true end.
Example null_standard_cost :
  let dto := {| cv_method := STANDARD_COST; cv_movingAverageScope := None;
                cv_standardCost := Null; cv_openingCosts := None |} in
  match configure_tx 50 "t-1" "flour" dto store with
  | Ok (_, db) =>
      forallb (λ i, bool_decide (it_standardCost i = None) &&
                    bool_decide (it_valuationLockedAt i = Some 50%Z)) (rows db TItem) &&
      fails (configure_tx 60 "t-1" "flour" fifo db) && fails (Costing.lockItem "t-1" "flour" db)
  | Err _ => false
  end = true.
Proof. vm_compute. reflexivity. Qed.
End ValuationExamples.
