(* ===== verification/Expiry.v ===== *)
(** The repository of stock reservations (modules/inventory/reservation.repository.ts) and
    the job that expires them (apps/worker/src/queues/expire-reservations.processor.ts).

    The repository repeats the operations of the reservation service with errors of its
    own, and adds the two other ends of a reservation: cancelled and expired. *)

From stdpp Require Import base list strings option.
From Stdlib Require Import ZArith.
From S2P Require Import Prelude Flows JsNumber JsString DomainEvents CoreDomain MasterData.
From S2P Require Import Lifecycles PurchaseOrderAggregate Decimal Database Costing Receipts.
From S2P Require Import Reservations.

Local Open Scope string_scope.

Module Expiry.
Import Reservations.

Definition EXPIRED_RESERVATION_REF : string := "ORDER_RESERVATION_EXPIRED".
Definition CANCELLED_RESERVATION_REF : string := "ORDER_RESERVATION_CANCELLED".

Section repository.
Local Open Scope nat_scope.
Context {dec : Decimal} {plat : Platform}.

Definition order_not_found : exn := JsError "Order not found".
Definition required (field : string) : exn :=
  JsError ("Inconsistent query result: Field " ++ field ++
           " is required to return data, got `null` instead.").

(** ** Reserving *)

(** [findOrderWithRelations]; the [Product] of a line is a required relation. *)
Definition findOrderWithRelations (orderId tenantId : string)
  : Tx Db (option (SalesOrderRow * TenantRow * list (OrderLine * ProductRow))) :=
  order ← select_first TSalesOrder (of_tenant orderId tenantId);
  match order with
  | None => mret None
  | Some o =>
      tenant ← find_id TTenant (so_tenantId o);
      products ← select TProduct (λ _, true);
      match tenant with
      | None => tx_throw (required "Tenant")
      | Some t =>
          lines ← tx_lift (map_result (λ l,
            match List.find (has_id TProduct (line_productId l)) products with
            | Some p => Ok (l, p)
            | None => Err (required "Product")
            end) (so_SalesOrderItem o));
          mret (Some (o, t, lines))
      end
  end.
(** A retail order of an inactive product is refused. *)
Definition repo_buildRequirements (businessType : BusinessType)
    (lines : list (OrderLine * ProductRow)) : result (list StockRequirement) :=
  _ ← match businessType with
      | RETAIL => check_all (λ x : OrderLine * ProductRow,
          throw_if (negb (pd_isActive (snd x)))
            (JsError ("Product " ++ pd_name (snd x) ++ " is inactive"))) lines
      | _ => Ok tt
      end;
  Ok (buildRequirements businessType (map fst lines)).

Definition repo_reserve_from (now : Date) (tenantId orderId itemId : string) (stock : StockRow)
    (quantityToReserve : number) : Tx Db unit :=
  ws ← select TWarehouse (λ _, true);
  n ← update_many TStock (λ s, bool_decide (st_id s = st_id stock) &&
          geb (st_quantity s) quantityToReserve &&
          warehouse_serves tenantId None ws (st_warehouseId s))
        (decrement quantityToReserve);
  _ ← tx_throw_if (negb (n =? 1)) (JsError "Stock changed while reserving inventory");
  _ ← create_movement now
    {| md_tenantId := tenantId; md_warehouseId := st_warehouseId stock;
       md_inventoryItemId := itemId; md_type := STOCK_OUT; md_quantity := quantityToReserve;
       md_before := Some (st_quantity stock);
       md_after := Some (sub (st_quantity stock) quantityToReserve);
       md_note := Some "Reserved stock for order"; md_createdById := None;
       md_referenceType := ACTIVE_RESERVATION_REF; md_referenceId := orderId |};
  mret tt.
Fixpoint repo_reserve_stocks (now : Date) (tenantId orderId itemId : string)
    (remaining : number) (stocks : list StockRow) : Tx Db number :=
  match stocks with
  | [] => mret remaining
  | stock :: stocks =>
      if leb remaining (of_Z 0) then mret remaining else
      let quantityToReserve := min (st_quantity stock) remaining in
      _ ← repo_reserve_from now tenantId orderId itemId stock quantityToReserve;
      repo_reserve_stocks now tenantId orderId itemId (sub remaining quantityToReserve) stocks
  end.
Definition repo_reserveRequirement (now : Date) (tenantId : string) (o : SalesOrderRow)
    (r : StockRequirement) : Tx Db unit :=
  n ← count TItem (item_of_tenant tenantId (fst r));
  _ ← tx_throw_if (n =? 0) (JsError "Inventory item not found");
  ws ← select TWarehouse (λ _, true);
  found ← select TStock (reservable tenantId (fst r) (so_outletId o) ws);
  remaining ← repo_reserve_stocks now tenantId (so_id o) (fst r) (snd r)
                (sort_by oldest_first found);
  tx_throw_if (gtb remaining (of_Z 0)) (JsError "Insufficient stock for order reservation").
Definition repo_reserve_tx (now : Date) (orderId tenantId : string) : Tx Db bool :=
  n ← count TSalesOrder (of_tenant orderId tenantId);
  _ ← tx_throw_if (n =? 0) order_not_found;
  existing ← select_first TMovement (has_reservation tenantId orderId);
  match existing with
  | Some _ => mret true
  | None =>
      found ← findOrderWithRelations orderId tenantId;
      match found with
      | None => tx_throw order_not_found
      | Some (o, t, lines) =>
          _ ← tx_lift (Reservation.reserve
                (Reservation.create now (so_id o) tenantId (opt_of_nullable (so_outletId o))));
          requirements ← tx_lift (repo_buildRequirements (tn_businessType t) lines);
          _ ← tx_for_each (repo_reserveRequirement now tenantId o) requirements;
          mret true
      end
  end.

(** ** Giving back *)

(** [updateMany] of the reservations that were read, and its check; [q] is the [where] of
    the update, given the ids. *)
Definition repo_claim (p : MovementRow → bool) (q : list string → MovementRow → bool)
    (f : MovementRow → MovementRow) : Tx Db (option (list MovementRow)) :=
  reservations ← select TMovement p;
  if length reservations =? 0 then mret None else
  n ← update_many TMovement (q (map mv_id reservations)) f;
  if n =? 0 then mret None else
  _ ← tx_throw_if (negb (n =? length reservations)) (JsError "Reservation already processed");
  mret (Some reservations).
Definition active (m : MovementRow) : bool :=
  bool_decide (mv_referenceType m = Some ACTIVE_RESERVATION_REF).
Definition claim_order (tenantId orderId : string) (f : MovementRow → MovementRow)
  : Tx Db (option (list MovementRow)) :=
  repo_claim (refers tenantId orderId ACTIVE_RESERVATION_REF)
    (λ ids m, bool_decide (mv_id m ∈ ids) && bool_decide (mv_tenantId m = tenantId) && active m) f.

(** The movement that takes a reservation back. *)
Definition reversal (now : Date) (m : MovementRow) (warehouseId : string) (before : number)
    (referenceId : option string) (note : string) (i : string) : MovementRow :=
  {| mv_id := i; mv_tenantId := mv_tenantId m; mv_type := RETURN; mv_quantity := mv_quantity m;
     mv_note := Some note; mv_createdAt := now; mv_beforeQuantity := Some before;
     mv_afterQuantity := Some (add before (mv_quantity m)); mv_createdById := None;
     mv_inventoryItemId := mv_inventoryItemId m; mv_referenceId := referenceId;
     mv_referenceType := Some RELEASE_MOVEMENT_REF; mv_warehouseId := Some warehouseId;
     mv_unitCost := None; mv_totalCost := None |}.
Definition restoreReservationMovement (now : Date) (referenceId : option string) (note : string)
    (m : MovementRow) : Tx Db unit :=
  let warehouseId := default "" (mv_warehouseId m) in
  _ ← tx_throw_if (is_empty warehouseId) (JsError "Reservation has no warehouse");
  costAllocationCount ← allocation_count (mv_id m);
  let costed := negb (costAllocationCount =? 0) in
  _ ← tx_when costed
        (_ ← Costing.lockItem (mv_tenantId m) (mv_inventoryItemId m); mret tt);
  stock ← select_first TStock (stock_key warehouseId (mv_inventoryItemId m));
  let beforeQuantity := match stock with Some s => st_quantity s | None => of_Z 0 end in
  _ ← match stock with
      | Some s => update_id TStock (st_id s) (increment (mv_quantity m))
      | None => _ ← insert TStock (λ i, {| st_id := i; st_warehouseId := Some warehouseId;
                      st_inventoryItemId := mv_inventoryItemId m;
                      st_quantity := mv_quantity m; st_averageUnitCost := None;
                      st_createdAt := now; st_updatedAt := now |});
                mret tt
      end;
  reversalMovement ← insert TMovement (reversal now m warehouseId beforeQuantity referenceId note);
  tx_when costed
    (Costing.restore
       {| Costing.rs_tenantId := mv_tenantId m; Costing.rs_inventoryItemId := mv_inventoryItemId m;
          Costing.rs_warehouseId := Some warehouseId; Costing.rs_quantity := mv_quantity m;
          Costing.rs_sourceMovementId := mv_id m;
          Costing.rs_reversalMovementId := mv_id reversalMovement |}).

(** [releaseReservation] and [cancelReservation]. *)
Definition give_back (now : Date) (orderId tenantId reference note : string) : Tx Db bool :=
  claimed ← claim_order tenantId orderId (set_reference reference);
  match claimed with
  | None => mret false
  | Some reservations =>
      _ ← tx_for_each (restoreReservationMovement now (Some orderId) note) reservations; mret true
  end.
Definition repo_release_tx (now : Date) (orderId tenantId : string) : Tx Db bool :=
  give_back now orderId tenantId RELEASED_RESERVATION_REF "Released order stock reservation".
Definition repo_cancel_tx (now : Date) (orderId tenantId : string) : Tx Db bool :=
  give_back now orderId tenantId CANCELLED_RESERVATION_REF "Cancelled order stock reservation".

Definition repo_commit_tx (now : Date) (orderId tenantId : string) : Tx Db bool :=
  found ← findOrderWithRelations orderId tenantId;
  match found with
  | None => tx_throw order_not_found
  | Some (_, t, _) =>
      claimed ← claim_order tenantId orderId
                  (commit_movement (getCommittedMovementType (tn_businessType t)));
      match claimed with
      | None => mret false
      | Some reservations => _ ← tx_for_each (commit_cost now tenantId) reservations; mret true
      end
  end.

(** ** Expiring *)

Definition stale (cutoff : Date) (m : MovementRow) : bool :=
  active m && (mv_createdAt m <? cutoff)%Z.
Definition nullable (s : option string) : json :=
  match s with Some s => JString s | None => JNull end.
Definition expired_event (now : Date) (m : MovementRow) : Tx Db unit :=
  _ ← insert TOutbox (λ i, {| ob_id := i; ob_tenantId := Some (mv_tenantId m);
        ob_outletId := None; ob_type := "order.reservation.expired";
        ob_payload := JSON_stringify (JObject
          [("type", JString "order.reservation.expired");
           ("payload", JObject [("orderId", nullable (mv_referenceId m));
                                ("tenantId", JString (mv_tenantId m))]);
           ("occurredAt", JDate now)]);
        ob_status := OutboxPENDING; ob_error := None; ob_createdAt := now;
        ob_processedAt := None |});
  mret tt.
Definition expire_tx (now cutoff : Date) : Tx Db nat :=
  claimed ← repo_claim (stale cutoff) (λ ids m, bool_decide (mv_id m ∈ ids) && active m)
              (set_reference EXPIRED_RESERVATION_REF);
  match claimed with
  | None => mret 0
  | Some reservations =>
      _ ← tx_for_each (λ m, restoreReservationMovement now (mv_referenceId m)
                              "Expired order stock reservation" m) reservations;
      _ ← tx_for_each (expired_event now) reservations;
      mret (length reservations)
  end.
Definition expireReservations (now cutoff : Date) (db : Db) : result nat * Db :=
  transaction (expire_tx now cutoff) db.

(** The worker's job: reservations older than a day. *)
Definition DAY : Z := 1000 * 60 * 60 * 24.
Definition process {Q R : Type} (now : Date) : Flow Db Q R unit :=
  _ ← call (expire_tx now (now - DAY)%Z); mret tt.

End repository.
End Expiry.
