(* ===== verification/OutboxFacts.v ===== *)
(** What the outbox guarantees: every event that was written comes back as it was
    written; a dispatch settles each event of its batch once, in order, and one
    that fails does not hold up the others. *)

From stdpp Require Import base list strings option sets sorting.
From Stdlib Require Import ZArith Lia.
From S2P Require Import Prelude JsNumber JsString DomainEvents CoreDomain MasterData Lifecycles.
From S2P Require Import PurchaseOrderAggregate Subscriptions Decimal Database Costing Receipts.
From S2P Require Import Outbox Reservations Expiry SubscriptionService.

Section bus.
Import Outbox.
Context {W : Type}.
Implicit Types (bus : Bus) (h : nat).

Lemma handlers_of_set bus name hs name' :
  handlers_of (set_handlers bus name hs) name' =
    if bool_decide (name = name') then hs else handlers_of bus name'.
Proof.
  unfold handlers_of. induction bus as [|[n old] bus IH]; simpl.
  { by case_bool_decide. }
  repeat (case_bool_decide; simpl); subst; try done.
Qed.

(** the bus keeps, for each event name, the handlers in the order in which they
    first subscribed, each once: subscribing again changes nothing, the function
    that subscribing returns removes exactly its handler, and neither touches the
    handlers of another name. *)
Theorem bus_subscriptions bus (name : string) (h : nat) :
  NoDup (handlers_of bus name) →
  (∀ name', handlers_of (subscribe bus name h) name' =
     if bool_decide (name = name') then
       (if bool_decide (h ∈ handlers_of bus name) then handlers_of bus name
        else handlers_of bus name ++ [h])
     else handlers_of bus name') ∧
  NoDup (handlers_of (subscribe bus name h) name) ∧
  (h ∉ handlers_of bus name →
   ∀ name', handlers_of (unsubscribe (subscribe bus name h) name h) name' = handlers_of bus name').
Proof.
  intros Hnd. assert (Hsub : ∀ name', handlers_of (subscribe bus name h) name' =
     if bool_decide (name = name') then
       (if bool_decide (h ∈ handlers_of bus name) then handlers_of bus name
        else handlers_of bus name ++ [h])
     else handlers_of bus name').
  { intros name'. unfold subscribe. by rewrite handlers_of_set. }
  split; [done|]. split.
  - rewrite Hsub, bool_decide_true by done. case_bool_decide as Hin; [done|].
    apply NoDup_app. split_and!; [done| |apply NoDup_singleton].
    intros x Hx ->%list_elem_of_singleton. done.
  - intros Hn name'. unfold unsubscribe. rewrite handlers_of_set, !Hsub.
    rewrite (bool_decide_true (name = name)) by done. rewrite (bool_decide_false (h ∈ _)) by done.
    destruct (decide (name = name')) as [E|E]; [|by rewrite !bool_decide_false by done].
    rewrite !bool_decide_true by done. subst name'.
    rewrite List.filter_app, filter_every; simpl.
    + by rewrite Nat.eqb_refl, app_nil_r.
    + apply Forall_forall. intros x Hx. apply negb_true_iff, Nat.eqb_neq. by intros ->.
Qed.

End bus.

(** * Round trip *)

Section roundtrip.
Import Outbox.
Context {dec : Decimal} {plat : Platform}.

(** The code that writes events to the outbox - the publisher, the inventory services, the
    expiry of reservations, and the billing, the subscriptions and the registry - with the
    type, the payload, the time and the tenant of the event it writes. *)
Inductive writes_event
  : Tx Db unit → string → list (string * json) → option Date → option string → Prop :=
| by_publisher now ctx observability e payload occurredAt :
    writes_event (outbox_publish now ctx observability (event_type e) payload occurredAt)
      (event_type e) payload (Some (default now occurredAt)) (cx_tenantId ctx)
| by_inventory now tenantId e payload :
    writes_event (write_outbox now tenantId (event_type e) payload)
      (event_type e) (map (λ p, (fst p, JString (snd p))) payload) (Some now) (Some tenantId)
| by_expiry now m :
    writes_event (Expiry.expired_event now m) "order.reservation.expired"
      [("orderId"%string, JNullable (mv_referenceId m)); ("tenantId"%string, JString (mv_tenantId m))]
      (Some now) (Some (mv_tenantId m))
| by_billing now tenantId e occurredAt :
    writes_event (post_event now tenantId e occurredAt)
      (event_type e) (payload_json e) occurredAt tenantId.

(** The tenant of an event: the one it is written for, or the one its payload names. *)
Definition event_tenant (payload : list (string * json)) (tenantId : option string) : option string :=
  t ← match tenantId with
      | Some t => Some t
      | None => match stringified <$> field "tenantId" payload with
                | Some (JString t) => Some t
                | _ => None
                end
      end;
  if is_empty t then None else Some t.

Lemma field_stringified name l :
  field name (map (λ p, (fst p, stringified (snd p))) l) = stringified <$> field name l.
Proof.
  unfold field. rewrite <- map_rev. induction (rev l) as [|[k v] ps IH]; [done|]. simpl.
  case_bool_decide; [done|exact IH].
Qed.
(** What a text column is read back as. *)
Lemma read_text parseDate parse_error o type payload occurredAt more :
  ob_payload o = JSON_stringify (JObject
    ([("type"%string, JString type); ("payload"%string, JObject payload)] ++
     (match occurredAt with Some d => [("occurredAt"%string, JDate d)] | None => [] end ++ more))) →
  type ∈ DOMAIN_EVENTS → (∀ d, occurredAt = Some d → parseDate (toISOString d) = Some d) →
  more = [] ∨ (∃ x, more = [("_observability"%string, x)]) →
  match event_tenant payload (ob_tenantId o) with
  | Some t => ∃ e, read_event parseDate parse_error o = Ok (e, t) ∧ ev_type e = type ∧
      ev_payload e = stringified (JObject payload) ∧ ev_occurredAt e = occurredAt
  | None => read_event parseDate parse_error o = Err (JsError "OUTBOX_TENANT_CONTEXT_MISSING")
  end.
Proof.
  intros Ho Hreg Hd Hmore.
  assert (N : ∃ e, normalizeDomainEvent parseDate (stringified (JObject
      ([("type"%string, JString type); ("payload"%string, JObject payload)] ++
       (match occurredAt with Some d => [("occurredAt"%string, JDate d)] | None => [] end ++ more))))
      = Ok e ∧ ev_type e = type ∧ ev_payload e = stringified (JObject payload) ∧
      ev_occurredAt e = occurredAt).
  { destruct occurredAt as [d|], Hmore as [->|[x ->]]; unfold normalizeDomainEvent; simpl;
      (rewrite bool_decide_true by done); simpl; rewrite ?(Hd d eq_refl); by eexists. }
  destruct N as (e & N & Ht & Hp & Ha). unfold read_event, event_tenant. rewrite Ho.
  unfold JSON_stringify. unfold mbind, result_bind, option_bind. rewrite N.
  assert (T : getEventTenantId e = match stringified <$> field "tenantId" payload with
              | Some (JString t) => if is_empty t then None else Some t | _ => None end).
  { unfold getEventTenantId. rewrite Hp. simpl. by rewrite field_stringified. }
  destruct (ob_tenantId o) as [t|].
  - destruct (is_empty t) eqn:Et; [done|]. by exists e.
  - rewrite T. destruct (stringified <$> field "tenantId" payload) as [[]|]; try done.
    destruct (is_empty s) eqn:Es; [done|]. rewrite Es. by exists e.
Qed.

(** The row a writer adds. *)
Lemma writes_row writer type payload occurredAt tenantId u db db' :
  writes_event writer type payload occurredAt tenantId → writer db = Ok (u, db') →
  type ∈ DOMAIN_EVENTS ∧ ∃ o more, rows db' TOutbox = rows db TOutbox ++ [o] ∧
    only [TOutbox] db db' ∧ pending o = true ∧ ob_type o = type ∧
    event_tenant payload (ob_tenantId o) = event_tenant payload tenantId ∧
    ob_payload o = JSON_stringify (JObject
      ([("type"%string, JString type); ("payload"%string, JObject payload)] ++
       (match occurredAt with Some d => [("occurredAt"%string, JDate d)] | None => [] end ++ more))) ∧
    (more = [] ∨ (∃ x, more = [("_observability"%string, x)])).
Proof.
  intros Hw H.
  assert (Hreg : type ∈ DOMAIN_EVENTS).
  { destruct Hw; try apply event_type_registered. apply (bool_decide_unpack _). vm_compute. exact I. }
  split; [done|]. destruct Hw as [now ctx obs e payload occurredAt|now t e payload|now m|now t e occurredAt].
  - unfold outbox_publish in H. cbv zeta in H. apply tx_bind_ok in H as ([] & d & E & H).
    apply tx_lift_ok in E as [E ->]. apply throw_if_ok, negb_false_iff in E.
    apply tx_bind_ok in H as (o & d & Ei & [= _ ->]).
    pose proof (only_insert TOutbox [TOutbox] _ _ _ _ ltac:(by left) Ei) as O.
    apply (insert_rows TOutbox) in Ei as [-> R]. eexists _, [_].
    split_and!; [exact R|exact O|done|done| |reflexivity|by eauto].
    cbn [ob_tenantId]. destruct (cx_tenantId ctx) as [t|]; [done|]. unfold event_tenant.
    by destruct (field "tenantId" payload) as [[]|].
  - unfold write_outbox in H. apply tx_bind_ok in H as (o & d & Ei & [= _ ->]).
    pose proof (only_insert TOutbox [TOutbox] _ _ _ _ ltac:(by left) Ei) as O.
    apply (insert_rows TOutbox) in Ei as [-> R]. eexists _, [].
    split_and!; [exact R|exact O|done|done|done|reflexivity|by left].
  - unfold Expiry.expired_event in H. apply tx_bind_ok in H as (o & d & Ei & [= _ ->]).
    pose proof (only_insert TOutbox [TOutbox] _ _ _ _ ltac:(by left) Ei) as O.
    apply (insert_rows TOutbox) in Ei as [-> R]. eexists _, [].
    split_and!; [exact R|exact O|done|done|done|reflexivity|by left].
  - unfold post_event in H. apply tx_bind_ok in H as (o & d & Ei & [= _ ->]).
    pose proof (only_insert TOutbox [TOutbox] _ _ _ _ ltac:(by left) Ei) as O.
    apply (insert_rows TOutbox) in Ei as [-> R]. eexists _, [].
    split_and!; [exact R|exact O|done|done|done|by rewrite app_nil_r|by left].
Qed.

(** C25: an event that the code writes to the outbox is read back by the dispatcher.
    Whichever of the publisher, the inventory services, the expiry, the billing, the
    subscriptions and the registry writes it, it is added as one pending row, and nothing
    else changes.  Where the row or the payload names the tenant, the row is read back as an
    event of that tenant with the type it was written with, the payload as JSON gives it
    back, and the time it was written with, or none where it was written with none; else
    it is refused.  ([new Date(text)] reads the ISO text of that time back.) *)
Theorem outbox_roundtrip (parseDate : string → option Date) (parse_error : string)
    (writer : Tx Db unit) (type : string) (payload : list (string * json))
    (occurredAt : option Date) (tenantId : option string) (db db' : Db) :
  writes_event writer type payload occurredAt tenantId →
  (∀ d, occurredAt = Some d → parseDate (toISOString d) = Some d) →
  writer db = Ok (tt, db') →
  only [TOutbox] db db' ∧
  ∃ o, rows db' TOutbox = rows db TOutbox ++ [o] ∧ pending o = true ∧
    match event_tenant payload tenantId with
    | Some t => ∃ e, read_event parseDate parse_error o = Ok (e, t) ∧ ev_type e = type ∧
        ev_payload e = stringified (JObject payload) ∧ ev_occurredAt e = occurredAt
    | None => read_event parseDate parse_error o = Err (JsError "OUTBOX_TENANT_CONTEXT_MISSING")
    end.
Proof.
  intros Hw Hd H. destruct (writes_row _ _ _ _ _ _ _ _ Hw H) as
    (Hreg & o & more & R & O & Hp & _ & Ht & Hpay & Hmore).
  split; [done|]. exists o. split_and!; [done..|]. rewrite <- Ht. by eapply read_text.
Qed.

End roundtrip.

(** * Dispatching *)

Section dispatching.
Import Outbox.
Context {dec : Decimal} {plat : Platform} {W : Type}.
Context (parseDate : string → option Date) (now : Date) (run : nat → Handler (W := W)).
Context (bus : Bus) (parse_error : string).
Local Abbreviation deliver := (deliver parseDate now run bus parse_error).
Local Abbreviation dispatch_all := (dispatch_all parseDate now run bus parse_error).
Local Abbreviation dispatchBatch := (dispatchBatch parseDate now run bus parse_error).

(** What becomes of each event of a batch, delivered one after the other. *)
Fixpoint fates (w : W) (os : list OutboxRow) : list (OutboxRow * option string) :=
  match os with
  | [] => []
  | o :: os => (o, fst (deliver o w)) :: fates (snd (deliver o w)) os
  end.
Definition settled_row (fs : list (OutboxRow * option string)) (o : OutboxRow) : OutboxRow :=
  match List.find (λ f, bool_decide (ob_id (fst f) = ob_id o)) fs with
  | Some f => settle now (snd f) o
  | None => o
  end.
(** The state of the handlers after all events were delivered. *)
Definition deliver_all (w : W) (os : list OutboxRow) : W :=
  fold_left (λ w o, snd (deliver o w)) os w.

Lemma settle_id f o : ob_id (settle now f o) = ob_id o.
Proof. by destruct f. Qed.
Lemma settled_row_id fs o : ob_id (settled_row fs o) = ob_id o.
Proof. unfold settled_row. case_match; [apply settle_id|done]. Qed.
Lemma fates_fst w os : map fst (fates w os) = os.
Proof. revert w. induction os as [|o os IH]; intros w; simpl; [done|]. by rewrite IH. Qed.

Lemma settled_row_absent fs o :
  ob_id o ∉ map ob_id (map fst fs) → settled_row fs o = o.
Proof.
  intros Hn. unfold settled_row. destruct (List.find _ fs) as [f|] eqn:E; [|done].
  apply find_some_in in E as [Hin Hb]. bool_hyps. exfalso. apply Hn. rewrite <- Hb.
  rewrite map_map. by apply (list_elem_of_fmap_2 (λ f, ob_id (fst f))).
Qed.

Lemma dispatch_all_ok os : ∀ w db,
  NoDup (map ob_id os) →
  Forall (λ o, existsb (has_id TOutbox (ob_id o)) (rows db TOutbox) = true) os →
  ∃ db', dispatch_all w os db = Ok (deliver_all w os, db') ∧
    rows db' TOutbox = map (settled_row (fates w os)) (rows db TOutbox) ∧ only [TOutbox] db db'.
Proof.
  induction os as [|o os IH]; intros w db Hnd Hex; simpl.
  { exists db. split; [done|]. split; [|apply only_refl].
    rewrite <- (map_id (rows db TOutbox)) at 1. by apply map_ext. }
  apply NoDup_cons in Hnd as [Hn Hnd]. apply Forall_cons in Hex as [Ho Hex].
  set (f := fst (deliver o w)). set (w1 := snd (deliver o w)).
  set (db1 := on TOutbox (map_where (has_id TOutbox (ob_id o)) (settle now f)) db).
  assert (E : dispatch_one parseDate now run bus parse_error w o db = Ok (w1, db1)).
  { unfold dispatch_one. subst f w1 db1. destruct (deliver o w) as [f w1]. simpl.
    by rewrite (tx_bind_run _ _ _ _ _ (update_id_ok TOutbox _ _ _ Ho)). }
  rewrite (tx_bind_run _ _ _ _ _ E).
  destruct (IH w1 db1 Hnd) as (db2 & E2 & Hr & Hon).
  { apply (Forall_impl _ _ _ Hex). intros x Hx. subst db1. rewrite rows_on_same.
    apply existsb_exists in Hx as (r & Hr & Hid). apply existsb_exists.
    exists (if has_id TOutbox (ob_id o) r then settle now f r else r).
    split; [apply in_map_iff; by exists r|]. unfold has_id in *. cbn [row_id] in *.
    destruct (bool_decide (ob_id r = ob_id o)); [by rewrite settle_id|done]. }
  exists db2. split; [done|]. split.
  - rewrite Hr. subst db1. rewrite rows_on_same. unfold map_where. rewrite map_map.
    apply map_ext. intros r. unfold has_id. cbn [row_id]. case_bool_decide as E1.
    + rewrite settled_row_absent by (rewrite settle_id, fates_fst, E1; exact Hn).
      unfold settled_row. simpl. by rewrite bool_decide_true by congruence.
    + unfold settled_row at 2. simpl. by rewrite bool_decide_false by congruence.
  - eapply only_trans; [|exact Hon]. apply only_on. set_solver.
Qed.

Lemma Sorted_firstn {A} (R : relation A) n l : Sorted R l → Sorted R (firstn n l).
Proof.
  revert n. induction l as [|x l IH]; intros [|n] H; simpl; try constructor.
  - inversion H; subst. by apply IH.
  - inversion H as [|? ? ? Hd]; subst. destruct l, n; simpl; constructor. by inversion Hd.
Qed.

Lemma batch_members limit db o :
  o ∈ batch limit db → o ∈ rows db TOutbox ∧ ob_status o = OutboxPENDING.
Proof.
  unfold batch. intros (j & Hj & _)%elem_of_take. apply list_elem_of_lookup_2 in Hj.
  rewrite sort_by_perm in Hj. apply list_elem_of_In, filter_In in Hj as [Hj Hp].
  unfold pending in Hp. bool_hyps. split; [by apply list_elem_of_In|done].
Qed.
Lemma batch_keys limit db : keyed TOutbox db → NoDup (map ob_id (batch limit db)).
Proof.
  intros Hk. unfold batch. rewrite <- firstn_map.
  apply (sublist_NoDup _ (map ob_id (sort_by (λ a b, (ob_createdAt a <=? ob_createdAt b)%Z)
    (List.filter pending (rows db TOutbox))))); [|apply sublist_take].
  rewrite sort_by_perm. by apply filter_keys.
Qed.

(** C24: a dispatch never fails, and settles exactly its batch, the oldest pending
    events up to the limit.  The events are delivered once each, in the order of
    their creation, also after one of them fails; each becomes processed, or failed
    with the message of what was thrown, and every other row and table stays as it
    was.  No later dispatch delivers an event of the batch again. *)
Theorem dispatch_settles (limit : nat) (w : W) (db : Db) :
  keyed TOutbox db →
  ∃ db', dispatchBatch limit w db = Ok (deliver_all w (batch limit db), db') ∧
    rows db' TOutbox = map (settled_row (fates w (batch limit db))) (rows db TOutbox) ∧
    only [TOutbox] db db' ∧
    Sorted (λ a b, (ob_createdAt a <=? ob_createdAt b)%Z = true) (batch limit db) ∧
    length (batch limit db) =
      Nat.min limit (length (List.filter pending (rows db TOutbox))) ∧
    (∀ o, o ∈ rows db' TOutbox → ob_id o ∈ map ob_id (batch limit db) →
       ob_status o = PROCESSED ∨ (ob_status o = OutboxFAILED ∧ is_Some (ob_error o))) ∧
    (∀ limit' o, o ∈ batch limit' db' → ob_id o ∉ map ob_id (batch limit db)).
Proof.
  intros Hk. destruct (dispatch_all_ok (batch limit db) w db) as (db' & E & Hr & Ho).
  { by apply batch_keys. }
  { apply Forall_forall. intros o Hin. apply (has_id_in TOutbox).
    by apply batch_members in Hin as [? _]. }
  assert (Hdone : ∀ o, o ∈ rows db' TOutbox → ob_id o ∈ map ob_id (batch limit db) →
    ob_status o = PROCESSED ∨ (ob_status o = OutboxFAILED ∧ is_Some (ob_error o))).
  { intros o Hin Hid. rewrite Hr in Hin. apply list_elem_of_fmap in Hin as (r & -> & Hin).
    rewrite settled_row_id in Hid. unfold settled_row. destruct (List.find _ _) as [f|] eqn:Ef.
    - destruct (snd f); simpl; [right; by split|by left].
    - exfalso. rewrite <- (fates_fst w (batch limit db)), map_map in Hid.
      apply list_elem_of_fmap in Hid as (f & Hf & Hin').
      apply (find_none _ _ Ef) in Hin' || (apply list_elem_of_In in Hin';
        apply (find_none _ _ Ef) in Hin'). by rewrite bool_decide_true in Hin' by done. }
  exists db'. split; [exact E|]. split_and!; [done|done| | |done|].
  - unfold batch. apply Sorted_firstn. apply sort_by_sorted. intros a b H.
    apply Z.leb_gt in H. apply Z.leb_le. lia.
  - unfold batch. rewrite length_take. f_equal. apply Permutation_length, sort_by_perm.
  - intros limit' o Hin Hid. apply batch_members in Hin as [Hin Hs].
    destruct (Hdone o Hin Hid) as [?|[? _]]; congruence.
Qed.

End dispatching.

(** * Examples

    Two events and a malformed one; the handler records the types it sees and throws
    on the first. *)
Module OutboxExamples.

Import Outbox FixedPoint SamplePlatform.
Local Open Scope string_scope.

Definition recorder : Handler (W := list string) := λ tenantId outletId e log,
  (if bool_decide (ev_type e = "stock.adjusted") then Some (ThrownError "boom") else None,
   app log [ev_type e]).
Definition bus : Bus :=
  subscribe (subscribe [] "stock.adjusted" 1) "warehouse-transfer.shipped" 1.
Definition row (i type : string) (at_ : Z) : OutboxRow :=
  {| ob_id := i; ob_tenantId := Some "t1"; ob_outletId := None; ob_type := type;
     ob_payload := PayloadText (Some (JObject [("type", JString type); ("payload", JObject [])]));
     ob_status := OutboxPENDING; ob_error := None; ob_createdAt := at_;
     ob_processedAt := None |}.
Definition store : Db :=
  on TOutbox (λ _, [row "e2" "warehouse-transfer.shipped" 2; row "e1" "stock.adjusted" 1;
                    row "e3" "no.such.event" 3]) emptyDb.

Lemma bus_subscriptions_witness :
  handlers_of (unsubscribe (subscribe bus "stock.adjusted" 2) "stock.adjusted" 2)
    "stock.adjusted" = handlers_of bus "stock.adjusted".
Proof.
  apply (bus_subscriptions bus "stock.adjusted" 2).
  - apply (bool_decide_unpack _). vm_compute. exact I.
  - apply (bool_decide_unpack _). vm_compute. exact I.
Defined.

Definition adjusted : DomainEvent := EvInventory (StockAdjustedEvent "i1" "t1" Undefined).

(** The event of an adjustment made at the epoch. *)
Definition epoch (s : string) : option Date :=
  if bool_decide (s = "1970-01-01T00:00:00.000Z") then Some 0%Z else None.
Lemma outbox_roundtrip_witness :
  ∃ db' r event, rows db' TOutbox = [r] ∧ read_event epoch "" r = Ok (event, "t1") ∧
    ev_type event = "stock.adjusted" ∧ ev_occurredAt event = Some 0%Z.
Proof.
  pose (cx := {| cx_tenantId := Some "t1"; cx_outletId := None |}).
  assert (H : ∃ db', outbox_publish 0%Z cx JNull (event_type adjusted) [] None emptyDb = Ok (tt, db'))
    by (eexists; reflexivity).
  destruct H as [db' H].
  destruct (outbox_roundtrip epoch "" _ _ _ _ _ emptyDb db' (by_publisher 0%Z cx JNull adjusted [] None)
    ltac:(intros d [= <-]; reflexivity) H) as (_ & r & Hr & _ & event & Hread & Ht & _ & Ha).
  exists db', r, event. split; [exact Hr|]. split; [exact Hread|]. split; [exact Ht|exact Ha].
Defined.

Lemma dispatch_settles_witness :
  ∃ db', dispatchBatch (λ _, None) 9%Z (λ _, recorder) bus "" 50 [] store =
      Ok (["stock.adjusted"; "warehouse-transfer.shipped"], db') ∧
    map ob_status (rows db' TOutbox) = [PROCESSED; OutboxFAILED; OutboxFAILED].
Proof.
  assert (Hk : keyed TOutbox store) by (apply (bool_decide_unpack _); vm_compute; exact I).
  destruct (dispatch_settles (λ _, None) 9%Z (λ _, recorder) bus "" 50 [] store Hk)
    as (db' & E & Hr & _).
  exists db'. split; [exact E|]. rewrite Hr. vm_compute. reflexivity.
Defined.

End OutboxExamples.
