(* ===== verification/ExpiryFacts.v ===== *)
(** What the expiry of reservations guarantees, and that the repository settles
    reservations the way the service does. *)

From stdpp Require Import base list strings option sets.
From Stdlib Require Import ZArith Lia.
From S2P Require Import Prelude Flows JsNumber JsString DomainEvents CoreDomain MasterData.
From S2P Require Import Lifecycles PurchaseOrderAggregate Decimal Database Costing CostingFacts.
From S2P Require Import Receipts Reservations ReservationFacts InventoryStock StockFacts.
From S2P Require Import FulfillmentFacts Expiry.

Import Costing Reservations Expiry.

(** * What [restore] leaves alone *)

Section restores.
Context {dec : Decimal} {plat : Platform}.

Lemma view_change_layer op l q : respects same_view (change_layer op l q).
Proof. unfold change_layer. apply (view_writes [TLayer]); [solve_writes|set_solver..]. Qed.
Lemma view_write_cost i u v : respects same_view (write_cost i u v).
Proof. unfold write_cost. apply (view_writes [TMovement]); [solve_writes|set_solver..]. Qed.
Lemma view_restoreMovingAverage item w q v : respects same_view (restoreMovingAverage item w q v).
Proof.
  unfold restoreMovingAverage. case_match.
  - apply respects_bind; [exact _| |intros stocks]; [by apply (view_writes []); [solve_writes|set_solver..]|].
    cbv zeta. apply respects_bind; [exact _| |intros a]; [by apply (view_writes []); [solve_writes|set_solver..]|].
    by apply view_update_item.
  - apply respects_bind; [exact _| |intros stock]; [by apply (view_writes []); [solve_writes|set_solver..]|].
    repeat (case_match; [|by apply (view_writes []); [solve_writes|set_solver..]] ||
            (case_match; [by apply (view_writes []); [solve_writes|set_solver..]|])).
    cbv zeta. apply respects_bind; [exact _| |intros a]; [by apply (view_writes []); [solve_writes|set_solver..]|].
    apply respects_bind; [exact _| |intros k]; [|by apply (view_writes []); [solve_writes|set_solver..]].
    intros db x db' [= _ <-]. by apply view_stock.
Qed.
Lemma view_restore input : respects same_view (restore input).
Proof.
  unfold restore. apply respects_bind; [exact _|by apply (view_writes []); [solve_writes|set_solver..]|].
  intros item. apply respects_bind; [exact _|by apply (view_writes []); [solve_writes|set_solver..]|].
  intros found. cbv zeta.
  apply respects_bind; [exact _|by apply (view_writes []); [solve_writes|set_solver..]|intros _].
  apply respects_bind; [exact _| |intros _].
  { case_match.
    - apply respects_for_each; [exact _|]. intros a. unfold restore_layer.
      repeat case_match; [by apply (view_writes []); [solve_writes|set_solver..]| |
        by apply (view_writes []); [solve_writes|set_solver..]]. apply view_change_layer.
    - apply respects_when; [exact _|]. apply view_restoreMovingAverage. }
  apply respects_bind; [exact _| |intros _; apply view_write_cost].
  unfold write_allocations. apply (view_writes [TAllocation]); [solve_writes|set_solver..].
Qed.
Lemma ids_restored {uniq : UniqueIds} input : respects keeps_ids (restore input).
Proof.
  unfold restore, restore_layer, change_layer, restoreMovingAverage, write_allocations,
    write_cost, to_column, column_result.
  apply respects_bind; [exact _|apply ids_lockItem|]. intros item. cbv zeta. solve_ids.
Qed.
(** Columns of the movements that costing does not write. *)
Section views.
Context {B : Type} (g : MovementRow → B) (Hg : ∀ u t m, g (set_cost u t m) = g m).
Definition same_columns (db db' : Db) : Prop :=
  map g (rows db' TMovement) = map g (rows db TMovement).
#[export] Instance same_columns_preorder : PreOrder same_columns.
Proof. unfold same_columns. split; [by intros db|intros d1 d2 d3; congruence]. Qed.
Lemma columns_writes {A} ts (m : Tx Db A) :
  writes ts m → TMovement ∉ ts → respects same_columns m.
Proof.
  intros Hm Hn. eapply respects_writes; [exact Hm|]. intros db db' O.
  unfold same_columns. by rewrite O.
Qed.
Lemma columns_write_cost i u v : respects same_columns (write_cost i u v).
Proof.
  unfold write_cost.
  apply respects_bind; [exact _| |intros a]; [by apply (columns_writes []); [solve_writes|set_solver]|].
  apply respects_bind; [exact _| |intros b]; [by apply (columns_writes []); [solve_writes|set_solver]|].
  intros db c db' [_ ->]%update_id_inv. unfold same_columns.
  rewrite rows_on_same. apply (view_where (A := MovementRow)). apply Hg.
Qed.
Lemma columns_restore input : respects same_columns (restore input).
Proof.
  unfold restore. apply respects_bind; [exact _|by apply (columns_writes []); [solve_writes|set_solver]|].
  intros item. apply respects_bind; [exact _|by apply (columns_writes []); [solve_writes|set_solver]|].
  intros found. cbv zeta.
  apply respects_bind; [exact _|by apply (columns_writes []); [solve_writes|set_solver]|intros _].
  apply respects_bind; [exact _| |intros _].
  { unfold restore_layer, change_layer, restoreMovingAverage.
    apply (columns_writes [TLayer; TItem; TStock]); [solve_writes|set_solver]. }
  apply respects_bind; [exact _| |intros _; apply columns_write_cost].
  unfold write_allocations. apply (columns_writes [TAllocation]); [solve_writes|set_solver].
Qed.
End views.
Lemma writes_restored input : writes fulfillment_tables (restore input).
Proof.
  unfold restore, restore_layer, change_layer, restoreMovingAverage, write_allocations,
    write_cost, fulfillment_tables. solve_writes.
Qed.
End restores.

(** * One reservation taken back *)

Section expiry.
Context {dec : Decimal} {plat : Platform} {uniq : UniqueIds}.
Local Open Scope Z_scope.

(** What a movement says, its cost and the balances apart. *)
Definition seen (m : MovementRow) :=
  (moved m, (mv_warehouseId m, mv_note m, mv_createdAt m)).
Definition history (db : Db) := map seen (rows db TMovement).
(** The movement that takes back [m]. *)
Definition reversed (now : Date) (ref : option string) (note : string) (m : MovementRow) :=
  ((mv_tenantId m, RETURN, mv_inventoryItemId m, mv_quantity m,
    (Some RELEASE_MOVEMENT_REF, ref)),
   (Some (default ""%string (mv_warehouseId m)), Some note, now)).
(** A whole quantity of at least zero. *)
Definition whole_units (m : MovementRow) : Prop :=
  ∃ q, mv_quantity m = of_Z q ∧ 0 <= q <= max_exact.
Definition amount (m : MovementRow) : Z := to_Z (mv_quantity m).
Lemma whole_amount m : whole_units m → mv_quantity m = of_Z (amount m) ∧ 0 <= amount m.
Proof.
  intros (q & E & Hq). unfold amount. rewrite E, to_Z_of_Z by lia. split; [done|lia].
Qed.

(** The stock row of the place, or a new one, gets the units. *)
Lemma give_units n q i w now (s : option StockRow) db u db1 :
  steady n db → 0 <= q → 0 <= n → n + q <= max_exact →
  (∀ r, s = Some r → r ∈ rows db TStock ∧ st_warehouseId r = Some w ∧ st_inventoryItemId r = i) →
  (match s with
   | Some s => update_id TStock (st_id s) (increment (of_Z q))
   | None => _ ← insert TStock (λ x, {| st_id := x; st_warehouseId := Some w;
                   st_inventoryItemId := i; st_quantity := of_Z q; st_averageUnitCost := None;
                   st_createdAt := now; st_updatedAt := now |}); mret tt
   end) db = Ok (u, db1) →
  steady (n + q) db1 ∧ only [TStock] db db1 ∧ moves_stock i (Some w) q db db1.
Proof.
  intros Hst Hq Hn Hb Hs E. destruct s as [s|].
  - destruct (Hs s eq_refl) as (Hin & Hw & Hi). apply update_id_inv in E as [_ ->].
    destruct (steady_units n db s Hst ltac:(lia) Hin) as [Eu Hu].
    destruct (write_stock n (n + q) (has_id TStock (st_id s)) (increment (of_Z q)) s q db)
      as (S1 & _ & _ & M & H1); [done|lia|done|by apply bool_decide_true| | | |lia|].
    + intros y Hy. by apply bool_decide_eq_true in Hy.
    + done.
    + simpl. rewrite Eu at 1. apply add_of_Z; lia.
    + rewrite Hw, Hi in M. split; [by split|]. split; [|done]. apply only_on. set_solver.
  - apply tx_bind_ok in E as (r & d & E & [= _ <-]).
    pose proof (insert_stock n (n + q) _ i (Some w) q db r d Hst ltac:(lia) E
      ltac:(done) ltac:(lia)) as (S1 & _ & _ & M & H1).
    split; [by split|]. split; [|done]. eapply only_insert; [by left|done].
Qed.

Lemma restored_one n now ref note m db u db' :
  steady n db → whole_units m → 0 <= n → n + amount m <= max_exact →
  restoreReservationMovement now ref note m db = Ok (u, db') →
  steady (n + amount m) db' ∧ only fulfillment_tables db db' ∧
  (∀ i, on_hand i db' = on_hand i db + if bool_decide (mv_inventoryItemId m = i) then amount m else 0) ∧
  history db' = history db ++ [reversed now ref note m].
Proof.
  intros Hst Hw Hn Hb E. destruct (whole_amount m Hw) as [Eq Hq].
  set (q := amount m) in *. clearbody q. unfold restoreReservationMovement in E. cbv zeta in E.
  apply tx_bind_ok in E as ([] & d & E0 & E). apply tx_lift_ok in E0 as [_ ->].
  apply tx_bind_ok in E as (c & d & [= <- <-] & E).
  apply tx_bind_ok in E as ([] & d & E0 & E).
  assert (d = db) as ->.
  { unfold tx_when in E0. case_match; [|by injection E0].
    apply tx_bind_ok in E0 as (it & d1 & E1 & [= <-]). by apply lockItem_ok in E1 as [-> _]. }
  apply tx_bind_ok in E as (s & d & [= <- <-] & E).
  apply tx_bind_ok in E as ([] & db1 & E1 & E). rewrite Eq in E1.
  apply (give_units n q (mv_inventoryItemId m)) in E1 as (S1 & O1 & M1); [|done..|].
  2: { intros r Hr. apply find_some_in in Hr as [Hr Hp]. unfold stock_key in Hp. by bool_hyps. }
  apply tx_bind_ok in E as (rv & db2 & E2 & E).
  pose proof (insert_rows TMovement _ _ _ _ E2) as [Erv R].
  pose proof (only_insert TMovement [TMovement] _ _ _ _ ltac:(by left) E2) as O2.
  assert (S2 : sound db2) by (refine (sound_insert TMovement _ _ _ _ _ E2 (proj1 S1)); done).
  assert (V2 : same_view db1 db2) by (apply (view_only [TMovement]); [done|set_solver..]).
  assert (H3 : same_view db2 db' ∧ (sound db2 → sound db') ∧ same_columns seen db2 db' ∧
               only fulfillment_tables db2 db').
  { unfold tx_when in E. destruct (negb _).
    - split_and!; [by apply view_restore in E|by apply ids_restored in E|
        by eapply columns_restore in E|by apply writes_restored in E].
    - injection E as _ <-. split_and!; [reflexivity|done|reflexivity|apply only_refl]. }
  destruct H3 as (V3 & S3 & M3 & O3). split_and!.
  - split; [auto|]. eapply holds_view; [exact V3|]. eapply holds_view; [exact V2|]. apply S1.
  - unfold fulfillment_tables in *. eapply only_trans; [|exact O3].
    eapply only_trans; (eapply only_weaken; [|eassumption]); set_solver.
  - intros i. unfold on_hand. rewrite (stock_in_view _ db2), (stock_in_view _ db1), M1 by done.
    reflexivity.
  - unfold same_columns in M3. unfold history. rewrite M3, R, map_app, Erv. cbn [map]. f_equal.
    by rewrite O1 by set_solver.
Qed.

(** The units of an item that movements hold. *)
Definition units_of (i : string) (ms : list MovementRow) : Z :=
  sumZ (map (λ m, if bool_decide (mv_inventoryItemId m = i) then amount m else 0) ms).
Definition amounts_of (ms : list MovementRow) : Z := sumZ (map amount ms).
Lemma amounts_nonneg ms : Forall whole_units ms → 0 <= amounts_of ms.
Proof.
  induction 1 as [|m ms Hm _ IH]; [done|]. apply whole_amount in Hm as [_ Hm].
  unfold amounts_of in *. simpl. lia.
Qed.

Lemma restored_all (ref : MovementRow → option string) note now ms : ∀ n db u db',
  steady n db → Forall whole_units ms → 0 <= n → n + amounts_of ms <= max_exact →
  tx_for_each (λ m, restoreReservationMovement now (ref m) note m) ms db = Ok (u, db') →
  steady (n + amounts_of ms) db' ∧ only fulfillment_tables db db' ∧
  (∀ i, on_hand i db' = on_hand i db + units_of i ms) ∧
  history db' = history db ++ map (λ m, reversed now (ref m) note m) ms.
Proof.
  induction ms as [|m ms IH]; intros n db u db' Hst Hw Hn Hb E.
  { injection E as _ <-. unfold amounts_of, units_of. simpl. rewrite Z.add_0_r, app_nil_r.
    split; [done|]. split; [apply only_refl|]. split; [intros i; lia|done]. }
  apply Forall_cons in Hw as [Hm Hw]. pose proof (amounts_nonneg ms Hw) as Ha.
  pose proof (whole_amount m Hm) as [_ Hq]. unfold amounts_of in *. simpl in Hb |- *.
  simpl in E. apply tx_bind_ok in E as ([] & d & E1 & E).
  apply (restored_one n) in E1 as (S1 & O1 & H1 & M1); [|done..|lia].
  apply (IH (n + amount m)) in E as (S2 & O2 & H2 & M2); [|done..|lia|lia]. split_and!.
  - by rewrite Z.add_assoc.
  - by eapply only_trans.
  - intros i. rewrite H2, H1. unfold units_of. simpl. lia.
  - rewrite M2, M1. by rewrite <- app_assoc.
Qed.

(** * The expiry *)

(** What [updateMany] claims is what was read. *)
Lemma repo_claim_run p q f db :
  keyed TMovement db → (∀ m, p m = true → q m = true) →
  let ms : list MovementRow := List.filter p (rows db TMovement) in
  ∃ db', repo_claim p (λ ids m, bool_decide (mv_id m ∈ ids) && q m) f db = Ok (if (length ms =? 0)%nat then None else Some ms, db') ∧
    rows db' TMovement = map_where p f (rows db TMovement) ∧ only [TMovement] db db' ∧
    (sound db → (∀ m, mv_id (f m) = mv_id m) → sound db').
Proof.
  intros Hk Hpq ms. unfold repo_claim. rewrite (tx_bind_run _ _ _ ms db eq_refl).
  destruct (length ms =? 0)%nat eqn:El.
  { exists db. split; [done|]. split; [|split; [apply only_refl|done]].
    apply Nat.eqb_eq, nil_length_inv in El. symmetry. apply (map_where_id (A := MovementRow)).
    intros m Hm Hp. assert (H : m ∈ ms) by (by apply list_elem_of_In, filter_In; rewrite <- list_elem_of_In).
    rewrite El in H. by apply elem_of_nil in H. }
  set (r := λ m : MovementRow, bool_decide (mv_id m ∈ map mv_id ms) && q m).
  assert (Hr : ∀ m, m ∈ rows db TMovement → r m = p m).
  { intros m Hm. unfold r. destruct (p m) eqn:Hp.
    - rewrite Hpq by done. rewrite bool_decide_true; [done|]. apply list_elem_of_fmap_2.
      by apply list_elem_of_In, filter_In; rewrite <- list_elem_of_In.
    - rewrite bool_decide_false; [done|]. intros (m' & E & Hin)%list_elem_of_fmap.
      apply list_elem_of_In, filter_In in Hin as [Hin Hp']. apply list_elem_of_In in Hin.
      assert (m' = m) as -> by (by apply (same_key mv_id (rows db TMovement))). congruence. }
  assert (Hc : List.filter r (rows db TMovement) = ms).
  { apply List.filter_ext_in. intros m Hm%list_elem_of_In. by apply Hr. }
  exists (on TMovement (map_where r f) db).
  rewrite (tx_bind_run _ _ _ (length ms) (on TMovement (map_where r f) db)).
  2: { exact (f_equal (λ l, Ok (length l, on TMovement (map_where r f) db)) Hc). }
  rewrite El, Nat.eqb_refl. split; [done|]. rewrite rows_on_same. split; [|split].
  - apply map_ext_in. intros m Hm%list_elem_of_In. by rewrite Hr.
  - apply only_on. set_solver.
  - intros Hs Hf. apply sound_on; [|done]. by apply map_where_keys.
Qed.

(** The columns of an outbox row, its id apart. *)
Definition told (o : OutboxRow) :=
  (ob_tenantId o, ob_outletId o, ob_type o, ob_payload o, (ob_status o, ob_createdAt o)).
Definition announced (now : Date) (m : MovementRow) :=
  (Some (mv_tenantId m), None : option string, "order.reservation.expired"%string,
   JSON_stringify (JObject
     [("type"%string, JString "order.reservation.expired");
      ("payload"%string, JObject [("orderId"%string, nullable (mv_referenceId m));
                                  ("tenantId"%string, JString (mv_tenantId m))]);
      ("occurredAt"%string, JDate now)]), (OutboxPENDING, now)).
Lemma announced_all now ms : ∀ db u db',
  tx_for_each (expired_event now) ms db = Ok (u, db') →
  map told (rows db' TOutbox) = map told (rows db TOutbox) ++ map (announced now) ms ∧
  only [TOutbox] db db'.
Proof.
  induction ms as [|m ms IH]; intros db u db' E.
  { injection E as _ <-. rewrite app_nil_r. split; [done|apply only_refl]. }
  simpl in E. apply tx_bind_ok in E as (v & d & E1 & E).
  unfold expired_event in E1. apply tx_bind_ok in E1 as (r & d1 & E1 & [= _ ->]).
  pose proof (insert_rows TOutbox _ _ _ _ E1) as [Er R].
  pose proof (only_insert TOutbox [TOutbox] _ _ _ _ ltac:(by left) E1) as O1.
  apply IH in E as [-> O2]. split; [|by eapply only_trans].
  cbn [row] in *. rewrite R, map_app, <- app_assoc, Er. done.
Qed.

(** The reservations that are due. *)
Definition due (cutoff : Date) (db : Db) : list MovementRow :=
  List.filter (stale cutoff) (rows db TMovement).
Definition stale_seen (cutoff : Date) 
    (v : string * InventoryMovementType * string * number * (option string * option string) *
         (option string * option string * Date)) : bool :=
  bool_decide (v.1.2.1 = Some ACTIVE_RESERVATION_REF) && (v.2.2 <? cutoff).
Lemma stale_history cutoff db :
  Forall (λ v, stale_seen cutoff v = false) (history db) → due cutoff db = [].
Proof. intros H. unfold history in H. apply Forall_map in H. by apply filter_none. Qed.
Lemma none_due now cutoff db : due cutoff db = [] → expireReservations now cutoff db = (Ok 0%nat, db).
Proof.
  intros H. unfold expireReservations, transaction, expire_tx.
  rewrite (tx_bind_run _ _ _ None db); [done|]. unfold repo_claim.
  rewrite (tx_bind_run _ _ _ [] db); [done|]. exact (f_equal (λ l, Ok (l, db)) H).
Qed.

(** C35: The expiry gives back exactly what is due.  When [expireReservations] succeeds, it
    answers how many active reservations are older than the cutoff; each of these, of
    every tenant, is marked expired and nothing else of it changes; one movement returns
    its quantity to its warehouse, so that every item has exactly the units more that were
    reserved; one pending event tells of it; nothing else is written.  A further run with
    that cutoff, or an earlier one, finds nothing and changes nothing. *)
Theorem expiry_exact (n : Z) (now cutoff : Date) (db db' : Db) (count : nat) :
  steady n db → 0 <= n → Forall whole_units (due cutoff db) →
  n + amounts_of (due cutoff db) <= max_exact →
  expireReservations now cutoff db = (Ok count, db') →
  count = length (due cutoff db) ∧
  history db' =
    map seen (map_where (stale cutoff) (set_reference EXPIRED_RESERVATION_REF) (rows db TMovement)) ++
    map (λ m, reversed now (mv_referenceId m) "Expired order stock reservation" m) (due cutoff db) ∧
  (∀ i, on_hand i db' = on_hand i db + units_of i (due cutoff db)) ∧
  map told (rows db' TOutbox) = map told (rows db TOutbox) ++ map (announced now) (due cutoff db) ∧
  only (TOutbox :: fulfillment_tables) db db' ∧
  ∀ now' cutoff', cutoff' <= cutoff → expireReservations now' cutoff' db' = (Ok 0%nat, db').
Proof.
  intros Hst Hn Hw Hb E. unfold expireReservations, transaction in E.
  destruct (expire_tx now cutoff db) as [[k d]|e] eqn:Ex; [|done]. injection E as <- <-.
  unfold expire_tx in Ex.
  destruct (repo_claim_run (stale cutoff) active (set_reference EXPIRED_RESERVATION_REF) db)
    as (db1 & Ec & R1 & O1 & S1); [apply Hst|by intros m [? _]%andb_true_iff|].
  rewrite (tx_bind_run _ _ _ _ _ Ec) in Ex. change (List.filter _ _) with (due cutoff db) in Ex.
  set (ms := due cutoff db) in *.
  assert (H : k = length ms ∧ history d = history db1 ++
      map (λ m, reversed now (mv_referenceId m) "Expired order stock reservation" m) ms ∧
    (∀ i, on_hand i d = on_hand i db1 + units_of i ms) ∧
    map told (rows d TOutbox) = map told (rows db1 TOutbox) ++ map (announced now) ms ∧
    only (TOutbox :: fulfillment_tables) db1 d).
  { destruct (length ms =? 0)%nat eqn:El.
    - injection Ex as <- <-. apply Nat.eqb_eq, nil_length_inv in El. rewrite El. simpl.
      rewrite !app_nil_r. split_and!; [done..| |done|apply only_refl].
      intros i. unfold units_of. simpl. lia.
    - apply tx_bind_ok in Ex as (u & d1 & E1 & Ex).
      apply (restored_all _ _ _ _ n) in E1 as (S2 & O2 & H2 & M2); [|split|done..].
      + apply tx_bind_ok in Ex as (v & d2 & E2 & [= <- <-]).
        apply announced_all in E2 as [A2 O3]. split_and!; [done| | | |].
        * rewrite <- M2. unfold history. by rewrite O3 by set_solver.
        * intros i. rewrite <- H2. unfold on_hand, stock_in. by rewrite O3 by set_solver.
        * rewrite A2. by rewrite O2 by (unfold fulfillment_tables; set_solver).
        * eapply only_trans; (eapply only_weaken; [|eassumption]); set_solver.
      + apply S1; [apply Hst|done].
      + rewrite O1 by set_solver. apply Hst. }
  destruct H as (-> & Hh & Hi & Ho & Honly).
  assert (Hh1 : history db1 = map seen (map_where (stale cutoff)
    (set_reference EXPIRED_RESERVATION_REF) (rows db TMovement))).
  { unfold history. cbn [row] in *. by rewrite R1. }
  split_and!; [done|by rewrite Hh, Hh1| | | |].
  - intros i. rewrite Hi. unfold on_hand, stock_in. by rewrite O1 by set_solver.
  - rewrite Ho. by rewrite O1 by set_solver.
  - eapply only_trans; [|exact Honly]. eapply only_weaken; [|exact O1].
    unfold fulfillment_tables. set_solver.
  - intros now' cutoff' Hc. apply none_due, stale_history. rewrite Hh, Hh1. apply Forall_app. split.
    + unfold map_where. rewrite map_map. apply Forall_map, Forall_forall. intros m _.
      destruct (stale cutoff m) eqn:Es; [done|]. unfold stale_seen. simpl.
      unfold stale, active in Es. destruct (bool_decide _); [|done]. simpl in *.
        apply Z.ltb_ge in Es. apply Z.ltb_ge. lia.
    + apply Forall_map, Forall_forall. intros m _. done.
Qed.
End expiry.

(** * The repository and the service *)

Section agreement.
Context {dec : Decimal} {plat : Platform}.

(** Two methods that return the same and leave the same store, or both throw. *)
Definition same_outcome {A} (m m' : Tx Db A) (db : Db) : Prop :=
  match m db, m' db with
  | Ok x, Ok y => x = y
  | Err _, Err _ => True
  | _, _ => False
  end.
Definition agree {A} (m m' : Tx Db A) : Prop := ∀ db, same_outcome m m' db.
Lemma agree_refl {A} (m : Tx Db A) : agree m m.
Proof. intros db. unfold same_outcome. by destruct (m db). Qed.
Lemma agree_throw_if c e e' : agree (tx_throw_if c e) (tx_throw_if c e').
Proof. intros db. by destruct c. Qed.
Lemma agree_bind {A B} (m m' : Tx Db A) (f f' : A → Tx Db B) :
  agree m m' → (∀ a, agree (f a) (f' a)) → agree (m ≫= f) (m' ≫= f').
Proof.
  intros Hm Hf db. specialize (Hm db). unfold same_outcome in *.
  destruct (m db) as [[a s]|e] eqn:E, (m' db) as [[a' s']|e'] eqn:E'; try done.
  - injection Hm as <- <-. rewrite (tx_bind_run _ _ _ _ _ E), (tx_bind_run _ _ _ _ _ E').
    apply Hf.
  - by rewrite (tx_bind_err _ _ _ _ E), (tx_bind_err _ _ _ _ E').
Qed.
Lemma agree_for_each {A} (body body' : A → Tx Db unit) l :
  (∀ x, x ∈ l → agree (body x) (body' x)) → agree (tx_for_each body l) (tx_for_each body' l).
Proof.
  induction l as [|x l IH]; intros H; simpl; [apply agree_refl|].
  apply agree_bind; [apply H; by left|intros _]. apply IH. intros y Hy. apply H. by right.
Qed.
(** After steps that succeed without a change. *)
Lemma outcome_run {A B} (m : Tx Db A) (f : A → Tx Db B) m' a db :
  m db = Ok (a, db) → same_outcome (f a) m' db → same_outcome (m ≫= f) m' db.
Proof. intros E. unfold same_outcome. by rewrite (tx_bind_run _ _ _ _ _ E). Qed.
Lemma outcome_run_r {A B} (m : Tx Db A) (f : A → Tx Db B) m' a db :
  m db = Ok (a, db) → same_outcome m' (f a) db → same_outcome m' (m ≫= f) db.
Proof. intros E. unfold same_outcome. by rewrite (tx_bind_run _ _ _ _ _ E). Qed.

Lemma claim_agrees t o f :
  agree (claim_order t o f) (claim t o f) ∧
  ∀ db ms db', claim_order t o f db = Ok (Some ms, db') → Forall (λ m, mv_tenantId m = t) ms.
Proof.
  split.
  - apply agree_bind; [apply agree_refl|intros ms]. case_match; [apply agree_refl|].
    apply agree_bind; [apply agree_refl|intros n]. case_match; [apply agree_refl|].
    apply agree_bind; [apply agree_throw_if|intros _]. apply agree_refl.
  - intros db ms db' E. unfold claim_order, repo_claim in E.
    apply tx_bind_ok in E as (rs & d & [= <- <-] & E). set (rs := List.filter _ _) in E.
    assert (H : Forall (λ m, mv_tenantId m = t) rs).
    { apply Forall_forall. intros m Hm. apply list_elem_of_In, filter_In in Hm as [_ Hm].
      unfold refers in Hm. by bool_hyps. }
    destruct (length rs =? 0); [done|]. apply tx_bind_ok in E as (n & d1 & _ & E).
    destruct (n =? 0); [done|]. apply tx_bind_ok in E as (v & d2 & _ & [= <- _]). done.
Qed.

(** [releaseReservation]. *)
Lemma release_agrees now o t : agree (repo_release_tx now o t) (releaseReservationInTransaction now o t).
Proof.
  unfold repo_release_tx, give_back, releaseReservationInTransaction. intros db.
  destruct (claim_agrees t o (set_reference RELEASED_RESERVATION_REF)) as [Hc Ht].
  specialize (Hc db). specialize (Ht db). unfold same_outcome in *.
  destruct (claim_order _ _ _ db) as [[c s]|e] eqn:E, (claim _ _ _ db) as [[c' s']|e'] eqn:E'; try done.
  2: { by rewrite (tx_bind_err _ _ _ _ E), (tx_bind_err _ _ _ _ E'). }
  injection Hc as <- <-. rewrite (tx_bind_run _ _ _ _ _ E), (tx_bind_run _ _ _ _ _ E').
  destruct c as [ms|]; [|done]. specialize (Ht ms s eq_refl). rewrite Forall_forall in Ht.
  refine (agree_bind _ _ _ _ _ _ s); [|intros u; apply agree_refl].
  apply agree_for_each. intros m Hm. specialize (Ht m Hm). subst t.
  unfold restoreReservationMovement, release_movement. cbv zeta.
  apply agree_bind; [apply agree_throw_if|intros _]. apply agree_refl.
Qed.

(** The order with its relations is what the service loads, where the products of its
    lines are known. *)
Definition products_known (o t : string) (db : Db) : Prop :=
  ∀ ord, ord ∈ rows db TSalesOrder → of_tenant o t ord = true →
  Forall (λ l, ∃ p, p ∈ rows db TProduct ∧ pd_id p = line_productId l) (so_SalesOrderItem ord).
Lemma load_order_cases o t db :
  load_order o t db =
  match List.find (of_tenant o t) (rows db TSalesOrder) with
  | None => Err not_found
  | Some ord =>
      match List.find (has_id TTenant (so_tenantId ord)) (rows db TTenant) with
      | Some tn => Ok ((ord, tn), db)
      | None => Err (JsError
          "Inconsistent query result: Field Tenant is required to return data, got `null` instead.")
      end
  end.
Proof.
  unfold load_order, load_row, find_id, select_first, mbind, tx_bind. cbn [row].
  destruct (List.find (of_tenant o t) _) as [ord|]; [|reflexivity].
  cbn. by destruct (List.find (A := TenantRow) _ _).
Qed.
Lemma map_result_run {A B} (f : A → result B) (P : A → B → Prop) l :
  Forall (λ x, ∃ y, f x = Ok y ∧ P x y) l → ∃ ys, map_result f l = Ok ys ∧ Forall2 P l ys.
Proof.
  induction 1 as [|x l (y & E & Hy) _ (ys & IH & Hys)]; [by exists []|].
  exists (y :: ys). simpl. rewrite E. simpl. rewrite IH. auto.
Qed.
Lemma relations_run o t db ord tn :
  products_known o t db → load_order o t db = Ok ((ord, tn), db) →
  ∃ lines, findOrderWithRelations o t db = Ok (Some (ord, tn, lines), db) ∧
    map fst lines = so_SalesOrderItem ord ∧
    Forall (λ x, snd x ∈ rows db TProduct ∧ pd_id (snd x) = line_productId (fst x)) lines.
Proof.
  intros Hp. rewrite load_order_cases. unfold findOrderWithRelations, find_id, select_first, select.
  destruct (List.find (of_tenant o t) _) as [ord'|] eqn:Ef; [|done].
  destruct (List.find (has_id TTenant _) _) as [tn'|] eqn:Et; [|done]. intros [= -> ->].
  apply find_some_in in Ef as Ho. destruct Ho as [Hin Hof].
  destruct (map_result_run (λ l, match List.find (has_id TProduct (line_productId l)) (rows db TProduct) with
      | Some p => Ok (l, p) | None => Err (required "Product") end)
    (λ l x, fst x = l ∧ snd x ∈ rows db TProduct ∧ pd_id (snd x) = line_productId l)
    (so_SalesOrderItem ord)) as (lines & El & Hl).
  { apply (Forall_impl _ _ _ (Hp ord Hin Hof)). intros l (p & Hpin & Hpid).
    destruct (List.find (has_id TProduct (line_productId l)) (rows db TProduct)) as [p'|] eqn:E.
    - exists (l, p'). apply find_some_in in E as [? E]. by apply bool_decide_eq_true in E.
    - pose proof (find_none _ _ E p (proj1 (list_elem_of_In _ _) Hpin)) as Hn.
      by apply bool_decide_eq_false in Hn. }
  exists lines. split.
  - unfold mbind, tx_bind. cbn [row] in *. rewrite Ef. cbn. cbn in Et. rewrite Et.
    rewrite (filter_every (A := ProductRow)) by (by apply Forall_forall). cbn in El |- *.
    unfold tx_lift. by rewrite El.
  - clear - Hl. split; induction Hl as [|l x ls xs (E & H1 & H2) _ IH]; simpl;
      [done|by f_equal|constructor|]. constructor; [by subst|done].
Qed.

Lemma relations_missing o t db e :
  load_order o t db = Err e →
  findOrderWithRelations o t db = Ok (None, db) ∨ ∃ e', findOrderWithRelations o t db = Err e'.
Proof.
  rewrite load_order_cases. unfold findOrderWithRelations, select_first, find_id, select, mbind, tx_bind.
  intros E. cbn [row] in *. destruct (List.find (of_tenant o t) _) as [ord|]; [right|by left].
  cbn in E |- *. destruct (List.find (A := TenantRow) _ _); [done|]. by eexists.
Qed.

(** What the repository requires of the order in addition: it sells active products. *)
Definition sells_active (o t : string) (db : Db) : Prop :=
  ∀ ord tn, load_order o t db = Ok ((ord, tn), db) → tn_businessType tn = RETAIL →
  Forall (λ l, ∀ p, p ∈ rows db TProduct → pd_id p = line_productId l → pd_isActive p = true)
    (so_SalesOrderItem ord).

(** The methods after the order is loaded. *)
Lemma after_order {A} (f g : _ → Tx Db A) o t db :
  products_known o t db →
  (∀ ord tn lines, load_order o t db = Ok ((ord, tn), db) →
     map fst lines = so_SalesOrderItem ord →
     Forall (λ x, snd x ∈ rows db TProduct ∧ pd_id (snd x) = line_productId (fst x)) lines →
     same_outcome (f (ord, tn, lines)) (g (ord, tn)) db) →
  same_outcome
    (found ← findOrderWithRelations o t;
     match found with None => tx_throw order_not_found | Some x => f x end)
    (load_order o t ≫= g) db.
Proof.
  intros Hp H. destruct (load_order o t db) as [[[ord tn] d]|e] eqn:E.
  - assert (d = db) as ->.
    { rewrite load_order_cases in E. repeat case_match; try done. by injection E. }
    destruct (relations_run o t db ord tn Hp E) as (lines & E' & Hl & Hx).
    eapply outcome_run; [exact E'|]. eapply outcome_run_r; [exact E|]. by apply H.
  - unfold same_outcome. rewrite (tx_bind_err _ _ _ _ E).
    apply relations_missing in E as [E|[e' E]].
    + by rewrite (tx_bind_run _ _ _ _ _ E).
    + by rewrite (tx_bind_err _ _ _ _ E).
Qed.

Lemma reserveRequirement_agrees now t ord r :
  agree (repo_reserveRequirement now t ord r) (reserveRequirement now t ord r).
Proof.
  unfold repo_reserveRequirement, reserveRequirement.
  apply agree_bind; [apply agree_refl|intros n]. apply agree_bind; [apply agree_throw_if|intros _].
  apply agree_bind; [apply agree_refl|intros ws]. apply agree_bind; [apply agree_refl|intros found].
  apply agree_bind; [|intros remaining; apply agree_throw_if].
  generalize (snd r). induction (sort_by oldest_first found) as [|s ss IH]; intros q; simpl;
    [apply agree_refl|].
  case_match; [apply agree_refl|]. apply agree_bind; [|intros _; apply IH].
  unfold repo_reserve_from, reserve_from. apply agree_bind; [apply agree_refl|intros ws'].
  apply agree_bind; [apply agree_refl|intros n']. apply agree_bind; [apply agree_throw_if|intros _].
  apply agree_refl.
Qed.

Lemma active_requirements b (db : Db) lines :
  Forall (λ x : OrderLine * ProductRow,
    snd x ∈ rows db TProduct ∧ pd_id (snd x) = line_productId (fst x)) lines →
  (b = RETAIL → Forall (λ l, ∀ p, p ∈ rows db TProduct → pd_id p = line_productId l →
                        pd_isActive p = true) (map fst lines)) →
  repo_buildRequirements b lines = Ok (buildRequirements b (map fst lines)).
Proof.
  intros Hx Ha. unfold repo_buildRequirements. destruct b; try reflexivity.
  assert (E : check_all (λ x : OrderLine * ProductRow, throw_if (negb (pd_isActive (snd x)))
    (JsError ("Product " ++ pd_name (snd x) ++ " is inactive"))) lines = Ok tt); [|by rewrite E].
  apply check_all_ok, Forall_forall. intros x Hin. apply throw_if_ok.
  specialize (Ha eq_refl). rewrite Forall_map in Ha. rewrite Forall_forall in Hx, Ha.
  destruct (Hx x Hin) as [H1 H2]. by rewrite (Ha x Hin (snd x)).
Qed.

(** C36: The repository settles reservations the way the service does.  For every order whose
    products are known, [releaseReservation] and [commitReservation] of the repository
    return what those of the service return and leave the same store, or both throw; so
    does [reserveStock] where a retail order sells active products only, while for an order
    with no reservation yet that sells an inactive one the repository refuses. *)
Theorem repository_agrees (now : Date) (o t : string) (db : Db) :
  products_known o t db →
  same_outcome (repo_release_tx now o t) (releaseReservationInTransaction now o t) db ∧
  same_outcome (repo_commit_tx now o t) (commit_tx now o t) db ∧
  (sells_active o t db →
   same_outcome (repo_reserve_tx now o t) (reserve_tx now o t) db) ∧
  (List.find (has_reservation t o) (rows db TMovement) = None →
   ∀ ord tn l p, load_order o t db = Ok ((ord, tn), db) → tn_businessType tn = RETAIL →
   l ∈ so_SalesOrderItem ord → NoDup (map pd_id (rows db TProduct)) →
   p ∈ rows db TProduct → pd_id p = line_productId l → pd_isActive p = false →
   ∃ e, repo_reserve_tx now o t db = Err e).
Proof.
  intros Hp. split; [apply release_agrees|]. split; [|split].
  - unfold repo_commit_tx, commit_tx.
    apply (after_order (λ x, _) (λ x, _) o t db Hp). intros ord tn lines _ _ _.
    refine (agree_bind _ _ _ _ _ _ db); [apply claim_agrees|intros c; apply agree_refl].
  - intros Ha. unfold repo_reserve_tx, reserve_tx.
    eapply outcome_run; [reflexivity|]. eapply outcome_run_r; [reflexivity|].
    destruct (_ =? 0); [done|].
    eapply outcome_run; [reflexivity|]. eapply outcome_run_r; [reflexivity|].
    eapply outcome_run; [reflexivity|]. eapply outcome_run_r; [reflexivity|].
    destruct (List.find _ _); [done|].
    apply (after_order (λ x, _) (λ x, _) o t db Hp). intros ord tn lines E Hl Hx.
    eapply outcome_run; [reflexivity|].
    eapply outcome_run; [|refine (agree_bind _ _ _ _ _ _ db); [|intros u; apply agree_refl]].
    { unfold tx_lift. rewrite (active_requirements _ db lines Hx); [reflexivity|].
      intros Hb. rewrite Hl. by eapply Ha. }
    rewrite Hl. apply agree_for_each. intros r _. apply reserveRequirement_agrees.
  - intros Hf ord tn l p E Hb Hin Hnd Hpin Hpid Hpa.
    destruct (repo_reserve_tx now o t db) as [[b d]|e] eqn:R; [exfalso|by exists e].
    unfold repo_reserve_tx in R. apply tx_bind_ok in R as (n & d1 & [= <- <-] & R).
    apply tx_bind_ok in R as (u & d1 & R1 & R). apply tx_lift_ok in R1 as [_ ->].
    apply tx_bind_ok in R as (ex & d1 & [= <- <-] & R). cbn [row] in *. rewrite Hf in R.
    destruct (relations_run o t db ord tn Hp E) as (lines & E' & Hl & Hx).
    rewrite (tx_bind_run _ _ _ _ _ E') in R. rewrite (tx_bind_run _ _ _ _ db eq_refl) in R.
    apply tx_bind_ok in R as (rs & d1 & R1 & _). apply tx_lift_ok in R1 as [R1 _].
    unfold repo_buildRequirements in R1. rewrite Hb in R1.
    destruct (check_all _ lines) as [u'|] eqn:C; [|done].
    assert (C' : check_all (λ x : OrderLine * ProductRow, throw_if (negb (pd_isActive (snd x)))
      (JsError ("Product " ++ pd_name (snd x) ++ " is inactive"))) lines = Ok tt) by (by destruct u').
    apply check_all_ok in C'. rewrite <- Hl in Hin. apply list_elem_of_fmap in Hin as (x & -> & Hin).
    rewrite Forall_forall in Hx, C'. destruct (Hx x Hin) as [Hxp Hxi].
    specialize (C' x Hin). apply throw_if_ok, negb_false_iff in C'.
    assert (snd x = p) by (apply (same_key pd_id (rows db TProduct)); [done..|congruence]).
    congruence.
Qed.
End agreement.

(** * Examples *)

Module ExpiryExamples.

Import FixedPoint SamplePlatform ReservationExamples.
Local Open Scope Z_scope.

(** Two units of flour are on hold since 1, one since 100. *)
Definition held (i : string) (q : Z) (at_ : Date) : MovementRow :=
  {| mv_id := i; mv_tenantId := "t1"; mv_type := STOCK_OUT; mv_quantity := of_Z q;
     mv_note := None; mv_createdAt := at_; mv_beforeQuantity := None; mv_afterQuantity := None;
     mv_createdById := None; mv_inventoryItemId := "flour"; mv_referenceId := Some "o1"%string;
     mv_referenceType := Some ACTIVE_RESERVATION_REF; mv_warehouseId := Some "w1"%string;
     mv_unitCost := None; mv_totalCost := None |}.
Definition loaf (active : bool) : ProductRow :=
  {| pd_id := "p1"; pd_tenantId := "t1"; pd_name := "bread"; pd_price := of_Z 300;
     pd_isActive := active; pd_inventoryItemId := Some "flour"%string; pd_Recipe := None |}.
Definition shelf : Db := on TMovement (λ _, [held "m1" 2 1; held "m2" 1 100]) store.
Definition counter (active : bool) : Db := on TProduct (λ _, [loaf active]) shelf.
Definition due_on_shelf : list MovementRow := [held "m1" 2 1].

Lemma shelf_sound : sound shelf.
Proof. sample_sound. Qed.

Lemma expiry_exact_witness :
  ∃ db', expireReservations 200 50 shelf = (Ok 1%nat, db') ∧
    on_hand "flour" db' = on_hand "flour" shelf + 2 ∧
    expireReservations 300 50 db' = (Ok 0%nat, db').
Proof.
  destruct (expireReservations 200 50 shelf) as [r db'] eqn:E.
  assert (C : fst (expireReservations 200 50 shelf) = Ok 1%nat) by (vm_compute; reflexivity).
  rewrite E in C. cbn [fst] in C. subst r.
  assert (D : due 50 shelf = due_on_shelf) by reflexivity.
  assert (W : Forall whole_units (due 50 shelf)).
  { rewrite D. repeat constructor. exists 2. split; [reflexivity|unfold max_exact; lia]. }
  assert (A : amounts_of (due 50 shelf) = 2) by (rewrite D; vm_compute; reflexivity).
  assert (S : steady 4 shelf).
  { split; [exact shelf_sound|]. repeat constructor; [exists 4|exists 3]; (split; [reflexivity|lia]). }
  destruct (expiry_exact 4 200 50 shelf db' 1 S ltac:(lia) W) as (_ & _ & H & _ & _ & H2);
    [rewrite A; unfold max_exact; lia|exact E|].
  exists db'. split; [reflexivity|]. split; [|apply H2; lia].
  rewrite (H "flour"%string), D. f_equal.
Defined.

Lemma repository_agrees_witness :
  same_outcome (repo_reserve_tx 200 "o1" "t1") (reserve_tx 200 "o1" "t1") (counter true) ∧
  same_outcome (repo_commit_tx 200 "o1" "t1") (commit_tx 200 "o1" "t1") (counter true).
Proof.
  assert (P : products_known "o1" "t1" (counter true)).
  { intros ord Hin _. apply list_elem_of_singleton in Hin as ->.
    repeat constructor; exists (loaf true); (split; [by left|reflexivity]). }
  destruct (repository_agrees 200 "o1" "t1" (counter true) P) as (_ & H1 & H2 & _).
  split; [|exact H1]. apply H2. intros ord tn E _. apply Forall_forall. intros l _ p Hp _.
  apply list_elem_of_singleton in Hp. rewrite Hp. reflexivity.
Defined.

(** An inactive product cannot be reserved through the repository; the service takes its
    stock all the same. *)
Definition unreserved (active : bool) : Db := on TMovement (λ _, []) (counter active).
Example inactive_product_reserved :
  is_ok (fst (transaction (repo_reserve_tx 200 "o1" "t1") (unreserved false))) = false ∧
  is_ok (fst (reserveStock 200 "o1" "t1" (unreserved false))) = true.
Proof. split; vm_compute; reflexivity. Qed.

(** One reservation without a warehouse, of any tenant, keeps all others from expiring. *)
Definition no_warehouse : MovementRow :=
  {| mv_id := "m3"; mv_tenantId := "t2"; mv_type := STOCK_OUT; mv_quantity := of_Z 1;
     mv_note := None; mv_createdAt := 2; mv_beforeQuantity := None; mv_afterQuantity := None;
     mv_createdById := None; mv_inventoryItemId := "sugar"; mv_referenceId := Some "o9"%string;
     mv_referenceType := Some ACTIVE_RESERVATION_REF; mv_warehouseId := None;
     mv_unitCost := None; mv_totalCost := None |}.
Example one_bad_reservation_blocks_all :
  fst (expireReservations 200 50 (on TMovement (λ ms, ms ++ [no_warehouse]) shelf)) =
    Err (JsError "Reservation has no warehouse").
Proof. vm_compute. reflexivity. Qed.

End ExpiryExamples.
