(* ===== verification/FeatureFlags.v ===== *)
(** Feature flags: the aggregate (modules/feature-flags/domain/feature-flag.aggregate.ts),
    its repository (feature-flag.repository.ts) and the service
    (feature-flag.service.ts) with its cache in Redis and its events on the bus. *)

From stdpp Require Import base list strings option gmap.
From Stdlib Require Import ZArith Ascii.
From S2P Require Import Prelude Flows JsNumber JsString DomainEvents CoreDomain MasterData.
From S2P Require Import Lifecycles PurchaseOrderAggregate Subscriptions Decimal Database Outbox.
From S2P Require Import SubscriptionService.

Local Open Scope string_scope.

(** * The aggregate *)

Module FeatureFlag.

Inductive RuleOperator := OpEq | OpNeq | OpIn | OpContains.
Inductive RuleValue := Text (s : string) | Texts (l : list string).
(** [value] is [None] when it is undefined. *)
Record TargetingRule := {
  rule_field : string; rule_operator : RuleOperator; rule_value : option RuleValue
}.
Record Override := {
  ov_outletId : option string; ov_userId : option string; ov_enabled : bool
}.
(** [Record<string, unknown>]: own fields. *)
Definition Payload : Type := list (string * json).

Record State := {
  id : string; key : string; tenantId : string; enabled : bool; payload : option Payload;
  targetingRules : list TargetingRule; overrides : list Override; deletedAt : option Date;
}.
Record Context_ := {
  cx_tenantId : string; cx_outletId : opt string; cx_userId : option string
}.

Definition create (id key tenantId : string) (enabled : bool) (payload : option Payload) : State :=
  {| id := id; key := key; tenantId := tenantId; enabled := enabled; payload := payload;
     targetingRules := []; overrides := []; deletedAt := None |}.
Definition deleted (s : State) : bool := negb (bool_decide (deletedAt s = None)).

Definition set_enabled (b : bool) (s : State) : State :=
  {| id := id s; key := key s; tenantId := tenantId s; enabled := b; payload := payload s;
     targetingRules := targetingRules s; overrides := overrides s; deletedAt := deletedAt s |}.
Definition set_deletedAt (d : option Date) (s : State) : State :=
  {| id := id s; key := key s; tenantId := tenantId s; enabled := enabled s;
     payload := payload s; targetingRules := targetingRules s; overrides := overrides s;
     deletedAt := d |}.
Definition set_rules (rs : list TargetingRule) (s : State) : State :=
  {| id := id s; key := key s; tenantId := tenantId s; enabled := enabled s;
     payload := payload s; targetingRules := rs; overrides := overrides s;
     deletedAt := deletedAt s |}.
Definition set_overrides (os : list Override) (s : State) : State :=
  {| id := id s; key := key s; tenantId := tenantId s; enabled := enabled s;
     payload := payload s; targetingRules := targetingRules s; overrides := os;
     deletedAt := deletedAt s |}.

Definition enable (s : State) : result State :=
  _ ← throw_if (deleted s) (JsError "Cannot enable an archived feature flag");
  Ok (if enabled s then s else set_enabled true s).
Definition disable (s : State) : result State :=
  _ ← throw_if (deleted s) (JsError "Cannot disable an archived feature flag");
  Ok (if negb (enabled s) then s else set_enabled false s).
Definition archive (now : Date) (s : State) : result State :=
  _ ← throw_if (deleted s) (JsError "Feature flag is already archived");
  Ok (set_deletedAt (Some now) s).
Definition restore (s : State) : State :=
  if negb (deleted s) then s else set_deletedAt None s.

Definition updateTargeting (rules : list TargetingRule) (s : State) : result State :=
  _ ← throw_if (deleted s) (JsError "Cannot update targeting on an archived feature flag");
  _ ← check_all (λ r, throw_if (is_empty (rule_field r) ||
                                match rule_value r with None => true | Some _ => false end)
        (JsError "Invalid targeting rule: missing required fields")) rules;
  Ok (set_rules rules s).

Definition same_target (outletId userId : option string) (o : Override) : bool :=
  bool_decide (ov_outletId o = outletId) && bool_decide (ov_userId o = userId).
(** The first override of the target is replaced; a new one goes to the end. *)
Fixpoint replace_first (p : Override → bool) (o : Override) (l : list Override) : list Override :=
  match l with
  | [] => []
  | x :: l => if p x then o :: l else x :: replace_first p o l
  end.
Definition addOverride (o : Override) (s : State) : result State :=
  _ ← throw_if (deleted s) (JsError "Cannot add override on an archived feature flag");
  let p := same_target (ov_outletId o) (ov_userId o) in
  Ok (set_overrides (if existsb p (overrides s) then replace_first p o (overrides s)
                     else overrides s ++ [o]) s).
Definition removeOverride (outletId userId : option string) (s : State) : State :=
  set_overrides (List.filter (λ o, negb (same_target outletId userId o)) (overrides s)) s.

(** [undefined] is [None]. *)
Definition resolveContextValue (field : string) (context : Context_) (payload : option Payload)
  : option json :=
  if bool_decide (field = "tenantId") then Some (JString (cx_tenantId context))
  else if bool_decide (field = "outletId") then
    match cx_outletId context with
    | Undefined => None | Null => Some JNull | Value o => Some (JString o)
    end
  else if bool_decide (field = "userId") then JString <$> cx_userId context
  else match payload with
       | Some fields =>
           if startsWith field "payload." then Outbox.field (slice 8 field) fields else None
       | None => None
       end.
(** A value of the context and the value of a rule are the same only as texts: an array
    is an object of its own. *)
Definition same_text (v : json) (r : option RuleValue) : bool :=
  match v, r with JString s, Some (Text t) => bool_decide (s = t) | _, _ => false end.
Definition satisfies (context : Context_) (payload : option Payload) (r : TargetingRule) : bool :=
  match resolveContextValue (rule_field r) context payload with
  | None => false
  | Some v =>
      match rule_operator r with
      | OpEq => same_text v (rule_value r)
      | OpNeq => negb (same_text v (rule_value r))
      | OpIn => match rule_value r, v with
                | Some (Texts l), JString s => bool_decide (s ∈ l)
                | _, _ => false
                end
      | OpContains => match rule_value r, v with
                      | Some (Text t), JString s => includes s t
                      | _, _ => false
                      end
      end
  end.
Definition evaluateTargetingRules (context : Context_) (payload : option Payload) (s : State)
  : bool := forallb (satisfies context payload) (targetingRules s).

(** [o.outletId === context.outletId]: an override has no null. *)
Definition same_outlet (a : option string) (b : opt string) : bool :=
  match a, b with
  | Some a, Value b => bool_decide (a = b)
  | None, Undefined => true
  | _, _ => false
  end.
Definition evaluate (context : Context_) (p : option Payload) (s : State) : bool :=
  if deleted s then false
  else if negb (bool_decide (tenantId s = cx_tenantId context)) then false
  else match List.find (λ o, bool_decide (ov_userId o = cx_userId context) &&
                             negb (truthy (ov_outletId o))) (overrides s) with
       | Some o => ov_enabled o
       | None =>
           match List.find (λ o, same_outlet (ov_outletId o) (cx_outletId context) &&
                                 negb (truthy (ov_userId o))) (overrides s) with
           | Some o => ov_enabled o
           | None =>
               if (0 <? length (targetingRules s))%nat then evaluateTargetingRules context p s
               else enabled s
           end
       end.
Definition isEnabled (s : State) : bool := enabled s && negb (deleted s).
Definition isDeleted (s : State) : bool := deleted s.

End FeatureFlag.

(** * The repository and the service *)

Module FeatureFlags.
Import FeatureFlag.

(** What the service asks of Redis, and the event it publishes; a reply, or what was
    thrown. *)
Inductive Question :=
| RedisGet (k : string)
| RedisSetex (k : string) (seconds : Z) (v : string)
| RedisDel (k : string)
| Publish (e : DomainEvent).
Inductive Answer := Reply (v : option string) | Threw (e : exn).
Abbreviation FlagFlow A := (Flow Db Question Answer A).

Section service.
Context {dec : Decimal} {plat : Platform}.

(** ** The repository *)

Definition toAggregate (r : FlagRow) : State :=
  {| id := ff_id r; key := ff_key r; tenantId := ff_tenantId r; enabled := ff_enabled r;
     payload := match ff_payload r with Some (JObject fields) => Some fields | _ => None end;
     targetingRules := []; overrides := []; deletedAt := ff_deletedAt r |}.
Definition live (r : FlagRow) : bool := bool_decide (ff_deletedAt r = None).
Definition of_id (id tenantId : string) (r : FlagRow) : bool :=
  bool_decide (ff_id r = id) && bool_decide (ff_tenantId r = tenantId).
Definition of_key (key tenantId : string) (r : FlagRow) : bool :=
  bool_decide (ff_key r = key) && bool_decide (ff_tenantId r = tenantId).
Definition repo_findById (id tenantId : string) : Tx Db (option State) :=
  r ← select_first TFlag (λ r, of_id id tenantId r && live r); mret (toAggregate <$> r).
Definition findByIdIncludingArchived (id tenantId : string) : Tx Db (option State) :=
  r ← select_first TFlag (of_id id tenantId); mret (toAggregate <$> r).
Definition repo_findByKey (key tenantId : string) : Tx Db (option State) :=
  r ← select_first TFlag (λ r, of_key key tenantId r && live r); mret (toAggregate <$> r).

(** [undefined] leaves the column as it is. *)
Definition update_row (s : State) (r : FlagRow) : FlagRow :=
  {| ff_id := ff_id r; ff_tenantId := ff_tenantId r; ff_key := ff_key r;
     ff_enabled := enabled s;
     ff_payload := match payload s with Some p => Some (JObject p) | None => ff_payload r end;
     ff_createdAt := ff_createdAt r; ff_deletedAt := deletedAt s |}.
Definition create_row (now : Date) (s : State) : FlagRow :=
  {| ff_id := id s; ff_tenantId := tenantId s; ff_key := key s; ff_enabled := enabled s;
     ff_payload := JObject <$> payload s; ff_createdAt := now; ff_deletedAt := deletedAt s |}.
Definition save (now : Date) (s : State) : Tx Db unit :=
  n ← update_many TFlag (has_id TFlag (id s)) (update_row s);
  tx_when (n =? 0)%nat
    (_ ← assert_unique TFlag (of_key (key s) (tenantId s));
     _ ← insert TFlag (λ _, create_row now s); mret tt).

Record ListOptions := {
  lo_page : nat; lo_limit : nat; lo_search : option string; lo_includeArchived : bool
}.
Definition listed (tenantId : string) (o : ListOptions) (r : FlagRow) : bool :=
  bool_decide (ff_tenantId r = tenantId) && (lo_includeArchived o || live r) &&
  match lo_search o with
  | Some s => is_empty s || includes (ff_key r) s
  | None => true
  end.
Definition newest_first (a b : FlagRow) : bool := (ff_createdAt b <=? ff_createdAt a)%Z.
(** The two queries run side by side. *)
Definition repo_findAll (tenantId : string) (o : ListOptions) : FlagFlow (list State * nat) :=
  records ← call (select TFlag (listed tenantId o));
  total ← call (count TFlag (listed tenantId o));
  mret (map toAggregate (firstn (lo_limit o)
          (skipn ((lo_page o - 1) * lo_limit o)%nat (sort_by newest_first records))), total).
Definition softDelete (now : Date) (id tenantId : string) : Tx Db unit :=
  _ ← update_many TFlag (of_id id tenantId)
        (λ r, update_row (set_deletedAt (Some now) (toAggregate r)) r);
  mret tt.
Definition repo_hardDelete (id tenantId : string) : Tx Db unit :=
  _ ← delete_many TFlag (of_id id tenantId); mret tt.
Definition existsByKey (key tenantId : string) : Tx Db bool :=
  n ← count TFlag (λ r, of_key key tenantId r && live r); mret (negb (n =? 0)%nat).

(** ** The service *)

Definition quoted (s : string) : string :=
  let q := String (Ascii.ascii_of_nat 34) EmptyString in q ++ s ++ q.
Definition cacheKey (tenantId key : string) : string :=
  "feature-flag:" ++ tenantId ++ ":" ++ key.
Definition publish (e : DomainEvent) : FlagFlow unit :=
  a ← ask (Publish e); match a with Reply _ => mret tt | Threw e => throw e end.
(** What Redis throws is logged. *)
Definition invalidateCache (tenantId key : string) : FlagFlow unit :=
  _ ← ask (RedisDel (cacheKey tenantId key)); mret tt.
(** The end of every change. *)
Definition announce (e : DomainEvent) (tenantId key : string) : FlagFlow unit :=
  _ ← publish e; invalidateCache tenantId key.
Definition lift {A} (r : result A) : FlagFlow A := Return r.

(** [newId] is the random id. *)
Definition create (now : Date) (newId tenantId key : string) (enabled : bool)
    (payload : option Payload) : FlagFlow State :=
  exists_ ← call (existsByKey key tenantId);
  if (exists_ : bool) then
    throw (ConflictException ("Feature flag with key " ++ quoted key ++
                              " already exists for this tenant"))
  else
    let aggregate := FeatureFlag.create newId key tenantId enabled payload in
    _ ← call (save now aggregate);
    _ ← announce (EvFeatureFlag (FeatureFlagCreatedEvent newId key tenantId enabled)) tenantId key;
    mret aggregate.
Definition id_not_found (id : string) : exn :=
  NotFoundException ("Feature flag with id " ++ quoted id ++ " not found").
Definition found_or (e : exn) (s : option State) : FlagFlow State :=
  match s with Some s => mret s | None => throw e end.
Definition findById (id tenantId : string) : FlagFlow State :=
  s ← call (repo_findById id tenantId); found_or (id_not_found id) s.
Definition findByKey (key tenantId : string) : FlagFlow State :=
  s ← call (repo_findByKey key tenantId);
  found_or (NotFoundException ("Feature flag with key " ++ quoted key ++ " not found")) s.

(** Load, change, save, announce. *)
Definition changed (now : Date) (tenantId : string) (load : FlagFlow State)
    (act : State → result State) (event : string → DomainEvent) : FlagFlow State :=
  before ← load;
  aggregate ← lift (act before);
  _ ← call (save now aggregate);
  _ ← announce (event (key aggregate)) tenantId (key aggregate);
  mret aggregate.
Definition enable (now : Date) (id tenantId : string) : FlagFlow State :=
  changed now tenantId (findById id tenantId) FeatureFlag.enable
    (λ key, EvFeatureFlag (FeatureFlagEnabledEvent id key tenantId)).
Definition disable (now : Date) (id tenantId : string) : FlagFlow State :=
  changed now tenantId (findById id tenantId) FeatureFlag.disable
    (λ key, EvFeatureFlag (FeatureFlagDisabledEvent id key tenantId)).
(** [changes] names the payload, which stays what it was. *)
Definition update (now : Date) (id tenantId : string) (new_enabled : option bool)
    (new_payload : option Payload) : FlagFlow State :=
  changed now tenantId (findById id tenantId)
    (match new_enabled with
     | Some true => FeatureFlag.enable
     | Some false => FeatureFlag.disable
     | None => λ s, Ok s
     end)
    (λ key, EvFeatureFlag (FeatureFlagUpdatedEvent id key tenantId
       (match new_enabled with Some _ => ["enabled"] | None => [] end ++
        match new_payload with Some _ => ["payload"] | None => [] end))).
Definition archive (now : Date) (id tenantId : string) : FlagFlow unit :=
  _ ← changed now tenantId (findById id tenantId) (FeatureFlag.archive now)
        (λ key, EvFeatureFlag (FeatureFlagArchivedEvent id key tenantId));
  mret tt.
Definition restore (now : Date) (id tenantId : string) : FlagFlow State :=
  changed now tenantId
    (s ← call (findByIdIncludingArchived id tenantId); found_or (id_not_found id) s)
    (λ s, Ok (FeatureFlag.restore s))
    (λ key, EvFeatureFlag (FeatureFlagRestoredEvent id key tenantId)).
Definition hardDelete (id tenantId : string) : FlagFlow unit := call (repo_hardDelete id tenantId).

Definition toString (b : bool) : string := if b then "true" else "false".
(** [context] is the outlet and the user, where they are given.  A failure of Redis is
    logged, and one of the database answers false. *)
Definition evaluate (tenantId key : string) (outletId : opt string) (userId : option string)
    (p : option Payload) : FlagFlow bool :=
  cached ← ask (RedisGet (cacheKey tenantId key));
  match cached with
  | Reply (Some v) => mret (bool_decide (v = "true"))
  | _ =>
      catch (λ _, mret false)
        (aggregate ← call (repo_findByKey key tenantId);
         match aggregate with
         | None => mret false
         | Some a =>
             let result := FeatureFlag.evaluate
               {| cx_tenantId := tenantId; cx_outletId := outletId; cx_userId := userId |} p a in
             _ ← ask (RedisSetex (cacheKey tenantId key) 300 (toString result));
             mret result
         end)
  end.

End service.
End FeatureFlags.
