(* ===== verification/FeatureFlagFacts.v ===== *)
(** What the feature flags guarantee: of which flags the cache of the evaluations may be
    wrong, and that it is right about the others. *)

From stdpp Require Import base list strings option gmap relations.
From Stdlib Require Import ZArith Ascii Lia.
From S2P Require Import Prelude Flows JsNumber JsString DomainEvents CoreDomain MasterData.
From S2P Require Import Lifecycles PurchaseOrderAggregate Subscriptions Decimal Database Outbox.
From S2P Require Import SubscriptionService FeatureFlags.

Import FeatureFlag FeatureFlags.

Local Open Scope string_scope.

(** * The keys of the cache *)

Fixpoint colon_free (s : string) : bool :=
  match s with
  | EmptyString => true
  | String c s => negb (Ascii.eqb c ":"%char) && colon_free s
  end.
Lemma cut_at_colon s t a b :
  colon_free s = true → colon_free t = true →
  s ++ String ":" a = t ++ String ":" b → s = t ∧ a = b.
Proof.
  revert t. induction s as [|c s IH]; intros [|d t] Hs Ht E; simpl in *.
  - injection E as ->. done.
  - injection E as <- _. done.
  - injection E as -> _. done.
  - injection E as -> E. apply andb_true_iff in Hs as [_ Hs]. apply andb_true_iff in Ht as [_ Ht].
    destruct (IH t Hs Ht E) as [-> ->]. done.
Qed.
(** Tenants without a colon in their id do not share keys. *)
Lemma cacheKey_inj t k t' k' :
  colon_free t = true → colon_free t' = true → cacheKey t k = cacheKey t' k' → t = t' ∧ k = k'.
Proof.
  unfold cacheKey. intros Ht Ht' E. apply (inj (String.append "feature-flag:")) in E.
  by apply cut_at_colon in E.
Qed.

(** * A cache that may forget *)

(** The texts Redis holds. *)
Abbreviation Cache := (gmap string string).

Section cache.
Context {dec : Decimal} {plat : Platform}.

(** Redis may lose entries, fail to answer and fail to store; what it answers it holds,
    and a key that is deleted is gone.  A subscriber may throw. *)
Definition honest (answer : Question → Cache → Answer * Cache) : Prop :=
  ∀ q w, let '(a, w') := answer q w in
  match q with
  | RedisGet k => w' ⊆ w ∧ ∀ s, a = Reply (Some s) → w !! k = Some s
  | RedisSetex k _ v => w' ⊆ <[k := v]> w
  | RedisDel k => w' ⊆ delete k w
  | Publish _ => w' ⊆ w
  end.
(** No subscriber throws. *)
Definition quiet (answer : Question → Cache → Answer * Cache) : Prop :=
  ∀ e w, ∃ v, fst (answer (Publish e) w) = Reply v.

(** The value of a flag in the database. *)
Definition stored (db : Db) (tenantId key : string) : bool :=
  match List.find (λ r, of_key key tenantId r && live r) (rows db TFlag) with
  | Some r => ff_enabled r
  | None => false
  end.
(** The tenants and keys of the flags whose entries may be out of date. *)
Abbreviation Keys := (gset (string * string)).
(** The entries of the other flags are the values in the database. *)
Definition coherent (S : Keys) (db : Db) (w : Cache) : Prop :=
  ∀ t k v, colon_free t = true → (t, k) ∉ S →
    w !! cacheKey t k = Some v → v = toString (stored db t k).
Lemma coherent_forget S db w w' : w' ⊆ w → coherent S db w → coherent S db w'.
Proof. intros Hw Hc t k v Ht Hs Hv. eapply Hc; [done..|]. by eapply lookup_weaken. Qed.

(** The unique keys of the table. *)
Definition flag_key (r : FlagRow) : string * string := (ff_tenantId r, ff_key r).
Definition flags_keyed (db : Db) : Prop :=
  keyed TFlag db ∧ NoDup (map flag_key (rows db TFlag)).

(** ** Operations *)

Inductive FlagOp :=
| FCreate (now : Date) (newId tenantId key : string) (enabled : bool) (payload : option Payload)
| FEnable (now : Date) (id tenantId : string)
| FDisable (now : Date) (id tenantId : string)
| FUpdate (now : Date) (id tenantId : string) (enabled : option bool) (payload : option Payload)
| FArchive (now : Date) (id tenantId : string)
| FRestore (now : Date) (id tenantId : string)
| FHardDelete (id tenantId : string)
| FEvaluate (tenantId key : string) (outletId : opt string) (userId : option string)
    (payload : option Payload).
Definition ignore {A} (f : FlagFlow A) : FlagFlow unit := _ ← f; mret tt.
Definition perform (op : FlagOp) : FlagFlow unit :=
  match op with
  | FCreate now i t k e p => ignore (create now i t k e p)
  | FEnable now i t => ignore (enable now i t)
  | FDisable now i t => ignore (disable now i t)
  | FUpdate now i t e p => ignore (update now i t e p)
  | FArchive now i t => archive now i t
  | FRestore now i t => ignore (restore now i t)
  | FHardDelete i t => hardDelete i t
  | FEvaluate t k o u p => ignore (evaluate t k o u p)
  end.
(** A new id is new, and a tenant whose flags are evaluated has no colon in its id. *)
Definition flag_op_ok (op : FlagOp) (db : Db) : Prop :=
  match op with
  | FCreate _ i _ _ _ _ => i ∉ map ff_id (rows db TFlag)
  | FEvaluate t _ _ _ _ => colon_free t = true
  | _ => True
  end.

(** The flag a call changes, if it does. *)
Definition subject (op : FlagOp) (db : Db) : option (string * string) :=
  match op with
  | FCreate _ _ t k _ _ => Some (t, k)
  | FEnable _ i t | FDisable _ i t | FUpdate _ i t _ _ | FArchive _ i t | FRestore _ i t
  | FHardDelete i t => flag_key <$> List.find (of_id i t) (rows db TFlag)
  | FEvaluate _ _ _ _ _ => None
  end.
Definition is_delete (op : FlagOp) : bool :=
  match op with FHardDelete _ _ => true | _ => false end.
(** A call that succeeds brings the entry of its flag up to date.  A deletion does not, and
    neither does a call that fails: where it has changed the value of its flag all the
    same, the entry may be out of date. *)
Definition stale_after (op : FlagOp) (r : result unit) (db db' : Db) (S : Keys) : Keys :=
  match subject op db with
  | None => S
  | Some (t, k) =>
      if is_ok r && negb (is_delete op) then S ∖ {[(t, k)]}
      else if Bool.eqb (stored db' t k) (stored db t k) then S else {[(t, k)]} ∪ S
  end.

(** A history of calls with whatever outcomes, among entries of the cache that expire (an
    entry that is gone is not out of date) and changes of other tables. *)
Abbreviation FlagState := (Db * Cache * Keys)%type.
Inductive history (answer : Question → Cache → Answer * Cache)
  : list FlagOp → FlagState → FlagState → Prop :=
| history_end s : history answer [] s s
| history_call op ops db w S r db' w' s :
    flag_op_ok op db → alone answer (perform op) db w = (r, db', w') →
    history answer ops (db', w', stale_after op r db db' S) s →
    history answer (op :: ops) (db, w, S) s
| history_expire ops db w w' S S' s :
    w' ⊆ w → S' ⊆ S → (∀ t k, (t, k) ∈ S → (t, k) ∉ S' → w' !! cacheKey t k = None) →
    history answer ops (db, w', S') s → history answer ops (db, w, S) s
| history_other ops db db' w S s :
    rows db' TFlag = rows db TFlag →
    history answer ops (db', w, S) s → history answer ops (db, w, S) s.

(** ** A change of one flag *)

Lemma find_map_other {A} (p q : A → bool) (f : A → A) l :
  (∀ x, x ∈ l → q x = true → p x = false ∧ p (f x) = false) →
  List.find p (map_where q f l) = List.find p l.
Proof.
  unfold map_where. induction l as [|x l IH]; simpl; intros H; [done|].
  rewrite IH by (intros y Hy; apply H; by right). destruct (q x) eqn:Q; [|done].
  destruct (H x) as [-> ->]; [by left|done..].
Qed.

(** The aggregate keeps what identifies the row. *)
Definition same_flag (s : State) (r : FlagRow) : Prop :=
  id s = ff_id r ∧ key s = ff_key r ∧ tenantId s = ff_tenantId r.
Lemma enable_same a s r : FeatureFlag.enable a = Ok s → same_flag a r → same_flag s r.
Proof.
  unfold FeatureFlag.enable, throw_if. destruct (deleted a); [done|]. simpl.
  by destruct (enabled a); intros [= <-].
Qed.
Lemma disable_same a s r : FeatureFlag.disable a = Ok s → same_flag a r → same_flag s r.
Proof.
  unfold FeatureFlag.disable, throw_if. destruct (deleted a); [done|]. simpl.
  by destruct (enabled a); intros [= <-].
Qed.
Lemma archive_same now a s r : FeatureFlag.archive now a = Ok s → same_flag a r → same_flag s r.
Proof. unfold FeatureFlag.archive, throw_if. destruct (deleted a); [done|]. by intros [= <-]. Qed.
Lemma restore_same a r : same_flag a r → same_flag (FeatureFlag.restore a) r.
Proof. unfold FeatureFlag.restore. by destruct (negb (deleted a)). Qed.

Definition saved (s : State) (db : Db) : Db :=
  on TFlag (map_where (has_id TFlag (id s)) (update_row s)) db.
Lemma save_run now s r db :
  r ∈ rows db TFlag → same_flag s r → save now s db = Ok (tt, saved s db).
Proof.
  intros Hin (Hi & _ & _). unfold save.
  rewrite (tx_bind_run _ _ _ _ (saved s db) eq_refl).
  assert (E : (length (List.filter (has_id TFlag (id s)) (rows db TFlag)) =? 0)%nat = false).
  { rewrite filter_length_zero, Hi. apply negb_false_iff. exact (has_id_in TFlag r db Hin). }
  by rewrite E.
Qed.
Lemma saved_keyed s db : flags_keyed db → flags_keyed (saved s db).
Proof.
  intros [H1 H2]. unfold flags_keyed, keyed, saved. rewrite rows_on_same. split.
  - rewrite map_where_keys; [done|]. done.
  - unfold map_where. rewrite map_map. rewrite (map_ext _ flag_key); [done|].
    intros x. by destruct (has_id TFlag (id s) x).
Qed.
Lemma saved_stored s r db t k :
  flags_keyed db → r ∈ rows db TFlag → same_flag s r → (t, k) ≠ flag_key r →
  stored (saved s db) t k = stored db t k.
Proof.
  intros [Hk _] Hin (Hi & _ & _) Hn. unfold stored, saved. rewrite rows_on_same.
  cbn [row]. rewrite (find_map_other (A := FlagRow)); [done|]. intros x Hx Q.
  apply bool_decide_eq_true in Q. cbn in Q.
  assert (x = r) as -> by (apply (same_key ff_id (rows db TFlag)); [done..|congruence]).
  assert (H : of_key k t r = false).
  { unfold of_key. apply andb_false_iff.
    destruct (bool_decide_reflect (ff_key r = k)); [|by left].
    right. apply bool_decide_false. intros Ht. apply Hn. unfold flag_key. by rewrite Ht, e. }
  split; [by rewrite H|]. change (of_key k t (update_row s r)) with (of_key k t r). by rewrite H.
Qed.

Section reliable.
Context (answer : Question → Cache → Answer * Cache) (Hhonest : honest answer).

(** The entry is dropped, or a subscriber has thrown. *)
Lemma announce_run e t k db w :
  ∃ o w', alone answer (announce e t k) db w = (o, db, w') ∧
    (o = Ok tt ∧ w' ⊆ delete (cacheKey t k) w ∨ is_ok o = false ∧ ¬ quiet answer ∧ w' ⊆ w).
Proof.
  unfold announce, publish, invalidateCache. rewrite !alone_bind, alone_ask.
  pose proof (Hhonest (Publish e) w) as Hp. pose proof (λ Q : quiet answer, Q e w) as Hq.
  destruct (answer (Publish e) w) as [a w1]. destruct a as [v|x].
  - change (alone answer _ db w1) with (Ok tt : result unit, db, w1).
    cbv iota. rewrite alone_bind, alone_ask.
    pose proof (Hhonest (RedisDel (cacheKey t k)) w1) as Hd.
    destruct (answer (RedisDel (cacheKey t k)) w1) as [b w2]. exists (Ok tt), w2. split; [done|].
    left. split; [done|]. etrans; [exact Hd|]. by apply delete_mono.
  - exists (Err x), w1. split; [done|]. right. split_and!; [done| |exact Hp].
    intros Q. destruct (Hq Q) as [v Hv]. discriminate.
Qed.

Definition good (s : FlagState) : Prop :=
  coherent (snd s) (fst (fst s)) (snd (fst s)) ∧ flags_keyed (fst (fst s)).

(** The cache after a change of the one flag whose key is dropped from it. *)
Lemma dropped_coherent S db db' w w' t k :
  coherent S db w → w' ⊆ delete (cacheKey t k) w →
  (∀ t' k', (t', k') ≠ (t, k) → stored db' t' k' = stored db t' k') →
  coherent (S ∖ {[(t, k)]}) db' w'.
Proof.
  intros Hc Hw Hs t' k' v Ht Hn Hv. apply (lookup_weaken _ _ _ _ Hv) in Hw.
  apply lookup_delete_Some in Hw as [Hk Hv'].
  assert (Hne : (t', k') ≠ (t, k)) by (by intros [= -> ->]).
  rewrite Hs by done. eapply Hc; [done| |done]. set_solver.
Qed.
(** The cache after a change of the one flag whose entry it keeps. *)
Lemma kept_coherent S db db' w w' t k :
  coherent S db w → w' ⊆ w →
  (∀ t' k', (t', k') ≠ (t, k) → stored db' t' k' = stored db t' k') →
  coherent (if Bool.eqb (stored db' t k) (stored db t k) then S else {[(t, k)]} ∪ S) db' w'.
Proof.
  intros Hc Hw Hs t' k' v Ht Hn Hv. apply (lookup_weaken _ _ _ _ Hv) in Hw.
  destruct (decide ((t', k') = (t, k))) as [[= -> ->]|Hne].
  - destruct (Bool.eqb _ _) eqn:E; [|set_solver]. apply eqb_prop in E. rewrite E. by eapply Hc.
  - rewrite Hs by done. eapply Hc; [done| |done]. destruct (Bool.eqb _ _); set_solver.
Qed.

Lemma subject_found i t f db :
  keyed TFlag db → f ∈ rows db TFlag → ff_id f = i → ff_tenantId f = t →
  List.find (of_id i t) (rows db TFlag) = Some f.
Proof.
  intros Hk Hin <- <-. destruct (List.find (of_id _ _) _) as [g|] eqn:E.
  - apply find_some_in in E as [Hg E]. unfold of_id in E. bool_hyps. f_equal.
    by apply (same_key ff_id (rows db TFlag)).
  - apply list_elem_of_In in Hin. apply (find_none _ _ E) in Hin. unfold of_id in Hin.
    by rewrite !bool_decide_true in Hin.
Qed.

(** What a call leaves: the invariant, and no flag out of date for want of an announcement
    where no subscriber throws. *)
Definition fine (op : FlagOp) (db : Db) (S : Keys) (x : result unit * Db * Cache) : Prop :=
  let '(r, db', w') := x in
  good (db', w', stale_after op r db db' S) ∧
  (quiet answer → is_delete op = false → stale_after op r db db' S ⊆ S).

Lemma unchanged_fine op db w S r :
  good (db, w, S) → is_ok r = false → fine op db S (r, db, w).
Proof.
  intros Hg Hr. assert (E : stale_after op r db db S = S).
  { unfold stale_after. rewrite Hr. destruct (subject op db) as [[t k]|]; [|done].
    by rewrite Bool.eqb_reflx. }
  unfold fine. by rewrite E.
Qed.
(** A flag was saved and is announced. *)
Lemma announced_fine op db db' w w' S (o : result unit) t k :
  good (db, w, S) → subject op db = Some (t, k) → is_delete op = false → flags_keyed db' →
  (∀ t' k', (t', k') ≠ (t, k) → stored db' t' k' = stored db t' k') →
  (o = Ok tt ∧ w' ⊆ delete (cacheKey t k) w ∨ is_ok o = false ∧ ¬ quiet answer ∧ w' ⊆ w) →
  fine op db S (o, db', w').
Proof.
  intros [Hc _] Hs Hd Hk Hst Ho. simpl in Hc. unfold fine, good, stale_after. rewrite Hs, Hd.
  destruct Ho as [[-> Hw]|(Hr & Hq & Hw)].
  - cbn [is_ok andb negb]. split; [|intros _ _; set_solver]. split; [|done]. by eapply dropped_coherent.
  - rewrite Hr. cbn [andb]. split; [|by intros Q; destruct (Hq Q)]. split; [|done]. by eapply kept_coherent.
Qed.

Lemma changed_fine op now i t (load : FlagFlow State) act event db w S :
  good (db, w, S) → is_delete op = false →
  subject op db = flag_key <$> List.find (of_id i t) (rows db TFlag) →
  (∃ o, alone answer load db w = (o, db, w) ∧
     ∀ s, o = Ok s → ∃ f, f ∈ rows db TFlag ∧ same_flag s f ∧ ff_id f = i ∧ ff_tenantId f = t) →
  (∀ a s f, act a = Ok s → same_flag a f → same_flag s f) →
  fine op db S (alone answer (ignore (changed now t load act event)) db w).
Proof.
  intros Hg Hd Hsub (o & El & Hl) Hact. unfold ignore, changed. rewrite !alone_bind, El.
  destruct o as [a|e]; [|by apply unchanged_fine].
  destruct (Hl a eq_refl) as (f & Hin & Hf & Hi & Ht).
  unfold lift. rewrite alone_bind, alone_return.
  destruct (act a) as [s|e] eqn:Ea; [|by apply unchanged_fine].
  pose proof (Hact _ _ _ Ea Hf) as Hs. rewrite alone_step, (save_run now s f db Hin Hs).
  rewrite alone_bind.
  destruct (announce_run (event (key s)) t (key s) (saved s db) w) as (o & w1 & Ew & Ho).
  rewrite Ew. destruct Hg as [Hc Hk]. simpl in Hc, Hk.
  rewrite (subject_found i t f db) in Hsub by (try done; apply Hk).
  assert (Hkey : flag_key f = (t, key s)).
  { destruct Hs as (_ & Hkey & _). unfold flag_key. congruence. }
  cbn in Hsub. rewrite Hkey in Hsub.
  assert (Hfine : fine op db S (o, saved s db, w1)).
  { apply (announced_fine _ _ _ w w1 _ _ t (key s)); [done|done|done|by apply saved_keyed| |done].
    intros t' k' Hn. apply (saved_stored s f); [done..|]. congruence. }
  destruct o as [[]|e]; exact Hfine.
Qed.

(** What the queries find. *)
Lemma findById_run i t db w :
  ∃ o, alone answer (findById i t) db w = (o, db, w) ∧
    ∀ s, o = Ok s → ∃ f, f ∈ rows db TFlag ∧ same_flag s f ∧ ff_id f = i ∧ ff_tenantId f = t.
Proof.
  unfold findById. rewrite alone_step. unfold repo_findById.
  rewrite (tx_bind_run _ _ _ _ db eq_refl).
  destruct (List.find (λ r, of_id i t r && live r) (rows db TFlag)) as [f|] eqn:E;
    cbn [row] in *; rewrite E; [|by eexists].
  eexists. split; [reflexivity|]. intros s [= <-]. apply find_some_in in E as [Hin E].
  exists f. unfold of_id in E. bool_hyps. done.
Qed.
Lemma findArchived_run i t db w :
  ∃ o, alone answer (s ← call (findByIdIncludingArchived i t); found_or (id_not_found i) s) db w =
    (o, db, w) ∧
    ∀ s, o = Ok s → ∃ f, f ∈ rows db TFlag ∧ same_flag s f ∧ ff_id f = i ∧ ff_tenantId f = t.
Proof.
  rewrite alone_step. unfold findByIdIncludingArchived.
  rewrite (tx_bind_run _ _ _ _ db eq_refl).
  destruct (List.find (of_id i t) (rows db TFlag)) as [f|] eqn:E;
    cbn [row] in *; rewrite E; [|by eexists].
  eexists. split; [reflexivity|]. intros s [= <-]. apply find_some_in in E as [Hin E].
  exists f. unfold of_id in E. bool_hyps. done.
Qed.

(** ** A new flag *)

Lemma save_new_run now i k t e p db u d :
  i ∉ map ff_id (rows db TFlag) → save now (FeatureFlag.create i k t e p) db = Ok (u, d) →
  rows d TFlag = (rows db TFlag ++ [create_row now (FeatureFlag.create i k t e p)])%list ∧
  (t, k) ∉ map flag_key (rows db TFlag).
Proof.
  intros Hi Es. unfold save in Es. apply tx_bind_ok in Es as (n & d1 & [= <- <-] & Es).
  assert (Hz : Forall (λ r, has_id TFlag i r = false) (rows db TFlag)).
  { apply Forall_forall. intros r Hr. apply bool_decide_false. intros <-. apply Hi.
    by apply list_elem_of_fmap_2. }
  rewrite filter_none in Es by exact Hz. cbn in Es.
  apply tx_bind_ok in Es as (u1 & d2 & Ea & Es).
  unfold assert_unique in Ea. apply tx_bind_ok in Ea as (c & d3 & [= <- <-] & Ea).
  apply tx_lift_ok in Ea as [Ea ->]. apply throw_if_ok, negb_false_iff in Ea.
  apply tx_bind_ok in Es as (r & d3 & Ei & [= _ <-]).
  pose proof (insert_rows TFlag _ _ _ _ Ei) as [-> R]. rewrite rows_on_same in R.
  assert (Hm : map_where (has_id TFlag i) (update_row (FeatureFlag.create i k t e p))
                 (rows db TFlag) = rows db TFlag).
  { apply (map_where_id (A := FlagRow)). rewrite Forall_forall in Hz. intros x Hx H.
    by rewrite Hz in H. }
  cbn [FeatureFlag.id FeatureFlag.create] in *. cbn [row] in *. rewrite Hm in R. split; [done|].
  cbn [row] in *. rewrite (filter_length_zero (A := FlagRow)), Hm in Ea.
  apply negb_true_iff in Ea. intros (x & Ex & Hx)%list_elem_of_fmap.
  assert (Ht : existsb (of_key k t) (rows db TFlag) = true); [|congruence].
  apply existsb_exists. exists x. split; [by apply list_elem_of_In|]. unfold flag_key in Ex.
  injection Ex as -> ->. unfold of_key. by rewrite !bool_decide_true.
Qed.
Lemma create_fine now i t k e p db w S :
  good (db, w, S) → i ∉ map ff_id (rows db TFlag) →
  fine (FCreate now i t k e p) db S (alone answer (ignore (create now i t k e p)) db w).
Proof.
  intros Hg Hi. unfold ignore, create. rewrite alone_bind, alone_step.
  destruct (existsByKey k t db) as [[b d]|ex] eqn:Ex; [|by apply unchanged_fine].
  injection Ex as <- <-. destruct (negb _); [by apply unchanged_fine|]. rewrite alone_step.
  destruct (save now (FeatureFlag.create i k t e p) db) as [[u d]|ex] eqn:Es;
    [|by apply unchanged_fine].
  apply (save_new_run now i k t e p db u d Hi) in Es as [R Hn]. rewrite alone_bind.
  destruct (announce_run (EvFeatureFlag (FeatureFlagCreatedEvent i k t e)) t k d w)
    as (o & w1 & Ew & Ho).
  rewrite Ew. destruct Hg as [Hc [Hk Hu]]. simpl in Hc, Hk, Hu.
  assert (Hf : fine (FCreate now i t k e p) db S (o, d, w1)).
  { apply (announced_fine _ _ _ w w1 _ _ t k); [done|done|done| | |done].
    - unfold flags_keyed, keyed. cbn [row] in *. rewrite R, !map_app. split; apply NoDup_app.
      + split; [done|]. split; [|repeat constructor; set_solver]. intros x Hx Hx'.
        apply list_elem_of_singleton in Hx'. by subst x.
      + split; [done|]. split; [|repeat constructor; set_solver]. intros x Hx Hx'.
        apply list_elem_of_singleton in Hx'. by subst x.
    - intros t' k' Hne. unfold stored. cbn [row] in *. rewrite R, find_app.
      destruct (List.find (A := FlagRow) _ _); [done|]. simpl. unfold of_key. simpl.
      rewrite andb_true_r.
      destruct (bool_decide_reflect (k = k')), (bool_decide_reflect (t = t')); simpl; congruence. }
  destruct o as [[]|ex]; exact Hf.
Qed.

(** ** A deletion *)

Lemma find_filtered_other {A} (p q : A → bool) l :
  (∀ x, x ∈ l → q x = true → p x = false) →
  List.find p (List.filter (λ x, negb (q x)) l) = List.find p l.
Proof.
  induction l as [|x l IH]; simpl; intros H; [done|].
  destruct (q x) eqn:Q; simpl; [rewrite (H x) by (done || by left)|destruct (p x); [done|]];
    apply IH; intros y Hy; apply H; by right.
Qed.
Lemma NoDup_map_filter {A B} (g : A → B) (q : A → bool) l :
  NoDup (map g l) → NoDup (map g (List.filter q l)).
Proof.
  induction l as [|x l IH]; simpl; [done|]. intros [Hn Hd]%NoDup_cons.
  destruct (q x); simpl; [|by apply IH]. apply NoDup_cons. split; [|by apply IH].
  intros (y & Ey & Hy)%list_elem_of_fmap. apply Hn. rewrite Ey. apply list_elem_of_fmap_2.
  apply list_elem_of_In in Hy. apply filter_In in Hy as [Hy _]. by apply list_elem_of_In.
Qed.
Lemma delete_fine i t db w S :
  good (db, w, S) → fine (FHardDelete i t) db S (alone answer (hardDelete i t) db w).
Proof.
  intros [Hc [Hk Hu]]. simpl in Hc, Hk, Hu. unfold hardDelete. rewrite alone_call.
  change (transaction (repo_hardDelete i t) db)
    with (Ok tt : result unit, on TFlag (List.filter (λ r, negb (of_id i t r))) db).
  set (d := on TFlag _ db). split; [|by intros _ [=]].
  assert (R : rows d TFlag = List.filter (λ r, negb (of_id i t r)) (rows db TFlag))
    by apply rows_on_same.
  assert (Hd : flags_keyed d).
  { unfold flags_keyed, keyed. cbn [row] in *. rewrite R. split; by apply NoDup_map_filter. }
  split; [|done]. simpl. unfold stale_after. cbn [subject is_ok is_delete negb andb].
  assert (Hs : ∀ t' k', (∀ f, f ∈ rows db TFlag → of_id i t f = true → flag_key f ≠ (t', k')) →
                 stored d t' k' = stored db t' k').
  { intros t' k' H. unfold stored. cbn [row] in *.
    rewrite R, (find_filtered_other (A := FlagRow)); [done|]. intros x Hx Q.
    apply andb_false_iff. left. specialize (H x Hx Q). unfold of_key, flag_key in *.
    apply andb_false_iff. destruct (bool_decide_reflect (ff_key x = k')); [|by left].
    right. apply bool_decide_false. congruence. }
  destruct (List.find (of_id i t) (rows db TFlag)) as [f|] eqn:E; cbn [row] in *; cbn.
  - unfold flag_key. apply (kept_coherent S db d w w); [done|done|]. intros t' k' Hne. apply Hs.
    intros g Hg Qg Ek. apply Hne. rewrite <- Ek. apply find_some_in in E as [Hf Qf].
    unfold of_id in *. bool_hyps. unfold flag_key.
    assert (g = f) as ->; [|done]. apply (same_key ff_id (rows db TFlag)); [done..|congruence].
  - intros t' k' v Ht Hn Hv. rewrite Hs; [by eapply Hc|]. intros g Hg Qg.
    apply list_elem_of_In in Hg. pose proof (find_none _ _ E _ Hg). congruence.
Qed.

(** ** An evaluation *)

Lemma stored_value t k o u p f :
  of_key k t f && live f = true →
  FeatureFlag.evaluate {| cx_tenantId := t; cx_outletId := o; cx_userId := u |} p (toAggregate f) =
    ff_enabled f.
Proof.
  intros H. unfold of_key, live in H. bool_hyps. unfold FeatureFlag.evaluate, deleted.
  cbn [deletedAt toAggregate tenantId overrides targetingRules cx_tenantId].
  rewrite bool_decide_true by done. rewrite bool_decide_true by done. done.
Qed.
Lemma evaluate_run t k o u p S db w :
  coherent S db w → colon_free t = true →
  ∃ r w', alone answer (evaluate t k o u p) db w = (Ok r, db, w') ∧ coherent S db w' ∧
    ((t, k) ∉ S ∨ w !! cacheKey t k = None → r = stored db t k).
Proof.
  intros Hc Ht. unfold evaluate. rewrite alone_bind, alone_ask.
  pose proof (Hhonest (RedisGet (cacheKey t k)) w) as Hg.
  destruct (answer (RedisGet (cacheKey t k)) w) as [a w1]. destruct Hg as [Hw Hg].
  assert (Hc1 : coherent S db w1) by (by eapply coherent_forget).
  assert (R : ∃ w', alone answer (catch (λ _, mret false)
        (aggregate ← call (repo_findByKey k t);
         match aggregate with
         | None => mret false
         | Some a =>
             let result := FeatureFlag.evaluate
               {| cx_tenantId := t; cx_outletId := o; cx_userId := u |} p a in
             _ ← ask (RedisSetex (cacheKey t k) 300 (toString result));
             mret result
         end)) db w1 = (Ok (stored db t k), db, w') ∧ coherent S db w').
  { rewrite alone_catch, alone_step. unfold repo_findByKey.
    rewrite (tx_bind_run _ _ _ _ db eq_refl). unfold stored.
    destruct (List.find (λ r, of_key k t r && live r) (rows db TFlag)) as [f|] eqn:E;
      cbn [row] in *; rewrite E; [|by exists w1].
    cbn [mret tx_ret fmap option_fmap option_map]. apply find_some_in in E as H. destruct H as [_ H].
    rewrite (stored_value t k) by exact H. rewrite alone_bind, alone_ask.
    pose proof (Hhonest (RedisSetex (cacheKey t k) 300 (toString (ff_enabled f))) w1) as Hs.
    destruct (answer _ w1) as [b w2]. exists w2. split; [done|].
    eapply coherent_forget; [exact Hs|]. intros t' k' v Ht' Hn Hv.
    destruct (decide (cacheKey t k = cacheKey t' k')) as [Ek|Ek].
    - apply cacheKey_inj in Ek as [<- <-]; [|done..]. rewrite (lookup_insert_eq) in Hv.
      injection Hv as <-. unfold stored. cbn [row] in *. by rewrite E.
    - rewrite (lookup_insert_ne) in Hv by done. by eapply Hc1. }
  destruct R as (w' & R & Hw'). destruct a as [[v|]|e]; [|by eexists _, _..].
  eexists _, w1. split; [reflexivity|]. split; [done|]. specialize (Hg v eq_refl).
  intros [Hn|Hn]; [|congruence]. rewrite (Hc t k v Ht Hn Hg). by destruct (stored db t k).
Qed.
Lemma evaluate_fine t k o u p db w S :
  good (db, w, S) → colon_free t = true →
  fine (FEvaluate t k o u p) db S (alone answer (ignore (evaluate t k o u p)) db w).
Proof.
  intros [Hc Hk] Ht. simpl in Hc, Hk. unfold ignore. rewrite alone_bind.
  destruct (evaluate_run t k o u p S db w Hc Ht) as (r & w1 & E & H1 & _). rewrite E.
  split; [by split|done].
Qed.

(** ** Histories *)

Lemma perform_fine op db w S :
  good (db, w, S) → flag_op_ok op db → fine op db S (alone answer (perform op) db w).
Proof.
  intros Hg Hop. destruct op; cbn [perform flag_op_ok] in Hop |- *.
  - by apply create_fine.
  - eapply changed_fine; [done..|apply findById_run|apply enable_same].
  - eapply changed_fine; [done..|apply findById_run|apply disable_same].
  - eapply changed_fine; [done..|apply findById_run|]. intros a s f.
    destruct enabled0 as [[|]|]; [apply enable_same|apply disable_same|]. by intros [= <-].
  - eapply (changed_fine (FArchive now id0 tenantId0));
      [done..|apply findById_run|apply archive_same].
  - eapply changed_fine; [done..|apply findArchived_run|]. intros a s f [= <-]. apply restore_same.
  - by apply delete_fine.
  - by apply evaluate_fine.
Qed.
Lemma history_good ops s s' :
  history answer ops s s' → good s →
  good s' ∧ (quiet answer → Forall (λ op, is_delete op = false) ops → snd s' ⊆ snd s).
Proof.
  induction 1 as [s|op ops db w S r db' w' s Hop E _ IH|ops db w w' S S' s Hw HS Hgone _ IH
                 |ops db db' w S s R _ IH]; intros Hg.
  - done.
  - pose proof (perform_fine op db w S Hg Hop) as Hf. rewrite E in Hf. destruct Hf as [Hg' Hq].
    destruct (IH Hg') as [H1 H2]. split; [done|]. intros Q [Hd Hds]%Forall_cons.
    etrans; [by apply H2|]. by apply Hq.
  - destruct IH as [H1 H2].
    + destruct Hg as [Hc Hk]. split; [|done]. simpl in *. intros t k v Ht Hn Hv.
      destruct (decide ((t, k) ∈ S)) as [Hin|Hout].
      * rewrite Hgone in Hv by done. discriminate.
      * apply (lookup_weaken _ _ _ _ Hv) in Hw. by eapply Hc.
    + split; [done|]. intros Q Hd. etrans; [by apply H2|done].
  - apply IH. destruct Hg as [Hc [Hk Hu]]. unfold good, coherent, stored, flags_keyed, keyed in *.
    simpl in *. cbn [row] in *. by rewrite R.
Qed.
End reliable.

(** C37: The cache of the feature flags is wrong only about flags whose deletion or whose
    failed announcement has left their entry behind.  After any history of calls, one after
    the other, that create, enable, disable, update, archive, restore, delete for good and
    evaluate flags, whatever their outcomes, where subscribers may throw and Redis may lose
    entries and fail to answer or to store, as long as it deletes what it is told to: let
    [S'] be the flags of [S], about which the cache may be wrong to begin with, and those
    whose value was changed by a deletion for good or by a call that failed, less those that
    a later call brought up to date or whose entry expired.  Of
    every other flag, and of every flag that has no entry, an evaluation answers exactly
    what the database holds, false for a flag that is missing or archived, whatever its
    outlet, user and payload are.  Where no subscriber throws and no flag is deleted for
    good, no flag joins [S'].  (Ids of tenants have no colon.) *)
Theorem flag_cache_coherent (answer : Question → Cache → Answer * Cache) (ops : list FlagOp)
    (db db' : Db) (w w' : Cache) (S S' : Keys) (t k : string) (o : opt string)
    (u : option string) (p : option Payload) :
  honest answer → coherent S db w → flags_keyed db →
  history answer ops (db, w, S) (db', w', S') → colon_free t = true →
  ((t, k) ∉ S' ∨ w' !! cacheKey t k = None →
     fst (fst (alone answer (evaluate t k o u p) db' w')) = Ok (stored db' t k)) ∧
  coherent S' db' w' ∧ flags_keyed db' ∧
  (quiet answer → Forall (λ op, is_delete op = false) ops → S' ⊆ S).
Proof.
  intros Ha Hc Hk Hs Ht. destruct (history_good answer Ha _ _ _ Hs) as [[Hc' Hk'] Hq]; [done|].
  simpl in *. destruct (evaluate_run answer Ha t k o u p S' db' w' Hc' Ht) as (r & w1 & E & _ & Hr).
  rewrite E. split_and!; [|done..]. intros H. cbn. by rewrite Hr.
Qed.
End cache.

(** * Examples *)

Module FlagExamples.
Import FixedPoint SamplePlatform.

(** A Redis that works. *)
Definition redis (q : Question) (w : Cache) : Answer * Cache :=
  match q with
  | RedisGet k => (Reply (w !! k), w)
  | RedisSetex k _ v => (Reply (Some "OK"), <[k := v]> w)
  | RedisDel k => (Reply (Some "1"), delete k w)
  | Publish _ => (Reply None, w)
  end.
Lemma redis_honest : honest redis.
Proof. intros q w. destruct q; simpl; [split; [done|congruence]|done..]. Qed.

(** A flag is created, evaluated, disabled and evaluated again. *)
Definition after {A} (f : FlagFlow A) (s : Db * Cache) : Db * Cache :=
  let '(_, db, w) := alone redis f (fst s) (snd s) in (db, w).
Definition start : Db * Cache := (emptyDb, ∅).
Definition created := after (perform (FCreate 1%Z "f1" "t1" "beta" true None)) start.
Definition evaluated := after (perform (FEvaluate "t1" "beta" Undefined None None)) created.
Definition disabled := after (perform (FDisable 2%Z "f1" "t1")) evaluated.
Lemma call_step op ops s S s' :
  flag_op_ok op (fst s) →
  (let '(r, db, w) := alone redis (perform op) (fst s) (snd s) in
   history redis ops (db, w, stale_after op r (fst s) db S) s') →
  history redis (op :: ops) (s, S) s'.
Proof.
  intros H. destruct s as [db w]. simpl in *.
  destruct (alone redis (perform op) db w) as [[r db'] w'] eqn:E. by eapply history_call.
Qed.
(** The three calls, and a deletion for good. *)
Definition calls : list FlagOp :=
  [FCreate 1%Z "f1" "t1" "beta" true None; FEvaluate "t1" "beta" Undefined None None;
   FDisable 2%Z "f1" "t1"].
Lemma called : ∃ S, history redis calls (start, ∅) (disabled, S) ∧ S = ∅.
Proof.
  eexists. split.
  - apply call_step; [intros H; by apply elem_of_nil in H|].
    apply (call_step _ _ created); [reflexivity|]. apply (call_step _ _ evaluated); [exact I|].
    apply history_end.
  - apply (bool_decide_unpack _). vm_compute. exact I.
Qed.
Lemma flag_cache_coherent_witness :
  fst (fst (alone redis (evaluate "t1" "beta" Undefined None None) (fst disabled) (snd disabled)))
    = Ok false.
Proof.
  destruct called as (S & H & E).
  assert (C : coherent ∅ emptyDb (∅ : Cache)).
  { intros t k v _ _ Hv. by rewrite lookup_empty in Hv. }
  assert (K : flags_keyed emptyDb) by (split; constructor).
  assert (H' : history redis calls (emptyDb, ∅, ∅) (fst disabled, snd disabled, S)).
  { rewrite <- surjective_pairing. exact H. }
  destruct (flag_cache_coherent redis calls emptyDb (fst disabled) ∅ (snd disabled) ∅ S "t1" "beta"
    Undefined None None redis_honest C K H' eq_refl) as [R _].
  rewrite R; [reflexivity|]. left. subst S. apply not_elem_of_empty.
Defined.

Definition answered (s : Db * Cache) : result bool :=
  fst (fst (alone redis (evaluate "t1" "beta" Undefined None None) (fst s) (snd s))).
(** A flag deleted for good is still on until its entry expires, and is known to be out of
    date. *)
Example deleted_flag_is_on :
  let s := after (hardDelete "f1" "t1") evaluated in
  answered s = Ok true ∧
  stale_after (FHardDelete "f1" "t1") (Ok tt) (fst evaluated) (fst s) ∅ = {[("t1", "beta")]}.
Proof. split; vm_compute; reflexivity. Qed.
(** So is a flag that was disabled while a subscriber failed: the flag is saved, the
    cache is left as it was, and the call throws. *)
Definition failing (q : Question) (w : Cache) : Answer * Cache :=
  match q with Publish _ => (Threw (JsError "subscriber"), w) | _ => redis q w end.
Example disabled_flag_is_on :
  let '(r, db, w) := alone failing (disable 2%Z "f1" "t1") (fst evaluated) (snd evaluated) in
  is_ok r = false ∧ map ff_enabled (rows db TFlag) = [false] ∧ answered (db, w) = Ok true.
Proof. vm_compute. auto. Qed.
(** The payload of an update is announced and dropped. *)
Example payload_not_updated :
  map ff_payload (rows (fst (after (update 2%Z "f1" "t1" None (Some [("limit", JBool true)])) created)) TFlag)
    = [None].
Proof. vm_compute. reflexivity. Qed.
(** The key of an archived flag passes the check of [create] and fails in the database. *)
Example archived_key_taken :
  fst (fst (alone redis (create 3%Z "f2" "t1" "beta" true None)
    (fst (after (archive 2%Z "f1" "t1") created)) ∅)) = Err (PrismaError "P2002").
Proof. vm_compute. reflexivity. Qed.

End FlagExamples.
