(* ===== verification/Tenants.v ===== *)
(** Tenants and the business registry: the repository and the service of the tenants
    (modules/tenants), and the aggregate, the repository and the service of the registry
    (modules/business-registry), which is another view of the same table. *)

From stdpp Require Import base list strings option.
From Stdlib Require Import ZArith.
From S2P Require Import Prelude Flows JsNumber JsString DomainEvents CoreDomain MasterData.
From S2P Require Import Lifecycles PurchaseOrderAggregate Subscriptions Decimal Database.
From S2P Require Import SubscriptionService.

Local Open Scope string_scope.

(** [requireTenant()]: the tenant of the request context. *)
Definition requireTenant (contextTenantId : option string) : result string :=
  _ ← throw_if (negb (truthy contextTenantId)) (JsError "TENANT_CONTEXT_MISSING");
  Ok (default "" contextTenantId).

Definition BusinessType_name (b : BusinessType) : string :=
  match b with
  | CAFE => "CAFE" | RETAIL => "RETAIL" | LAUNDRY => "LAUNDRY" | GYM => "GYM"
  | HOTEL => "HOTEL" | MANUFACTURING => "MANUFACTURING"
  end.

(** * The registry: the aggregate *)

Inductive BusinessStatus := BusinessACTIVE | BusinessSUSPENDED | BusinessARCHIVED.
#[export] Instance BusinessStatus_eq_dec : EqDecision BusinessStatus.
Proof. solve_decision. Defined.

Module BusinessRegistry.

Record BusinessRegistryProps := {
  id : string; tenantId : string; name : string; businessType : BusinessType;
  contactEmail : option string; contactPhone : option string; address : option string;
  status : BusinessStatus; deletedAt : option Date;
}.
Abbreviation t := (aggregate BusinessRegistryProps).

Definition emit (e : BusinessEvent) (a : t) : t := addDomainEvent (EvBusiness e) a.

Definition create (id tenantId name : string) (businessType : BusinessType)
    (contactEmail contactPhone address : option string) : t :=
  let a := newAggregate {| id := id; tenantId := tenantId; name := name;
             businessType := businessType; contactEmail := contactEmail;
             contactPhone := contactPhone; address := address; status := BusinessACTIVE;
             deletedAt := None |} in
  emit (BusinessActivatedEvent tenantId id)
    (emit (BusinessCreatedEvent tenantId id name (BusinessType_name businessType)) a).
Definition reconstitute (p : BusinessRegistryProps) : t := newAggregate p.

Definition deleted (p : BusinessRegistryProps) : bool := negb (bool_decide (deletedAt p = None)).
Definition isActive (a : t) : bool :=
  bool_decide (status (props a) = BusinessACTIVE) && negb (deleted (props a)).
Definition isArchived (a : t) : bool :=
  bool_decide (status (props a) = BusinessARCHIVED) || deleted (props a).

Definition with_status (s : BusinessStatus) (d : option Date) (a : t) : t :=
  let p := props a in
  setProps {| id := id p; tenantId := tenantId p; name := name p;
              businessType := businessType p; contactEmail := contactEmail p;
              contactPhone := contactPhone p; address := address p; status := s;
              deletedAt := d |} a.
Definition with_type (b : BusinessType) (a : t) : t :=
  let p := props a in
  setProps {| id := id p; tenantId := tenantId p; name := name p; businessType := b;
              contactEmail := contactEmail p; contactPhone := contactPhone p;
              address := address p; status := status p; deletedAt := deletedAt p |} a.
Definition with_details (n : string) (email phone addr : option string) (a : t) : t :=
  let p := props a in
  setProps {| id := id p; tenantId := tenantId p; name := n; businessType := businessType p;
              contactEmail := email; contactPhone := phone; address := addr;
              status := status p; deletedAt := deletedAt p |} a.

(** The fields of an update; [undefined] leaves a field as it is. *)
Record UpdateData := {
  up_name : option string; up_businessType : option BusinessType;
  up_contactEmail : opt string; up_contactPhone : opt string; up_address : opt string
}.
Definition type_changed (old new : BusinessType) (a : t) : t :=
  let p := props a in
  emit (BusinessTypeChangedEvent (tenantId p) (id p) (BusinessType_name old)
          (BusinessType_name new)) a.
Definition given {A} (x : opt A) : bool := match x with Undefined => false | _ => true end.
Definition assign {A} (x : opt A) (old : option A) : option A :=
  match x with Undefined => old | Null => None | Value v => Some v end.
Definition update (d : UpdateData) (a : t) : result t :=
  _ ← throw_if (isArchived a) (JsError "Cannot update an archived business");
  let renamed := match up_name d with
                 | Some n => negb (bool_decide (n = name (props a)))
                 | None => false
                 end in
  let n := default (name (props a)) (up_name d) in
  _ ← throw_if (renamed && blank n) (JsError "Business name cannot be empty");
  let a1 := with_details n (contactEmail (props a)) (contactPhone (props a)) (address (props a)) a in
  let retyped := match up_businessType d with
                 | Some b => negb (bool_decide (b = businessType (props a)))
                 | None => false
                 end in
  let a2 := match up_businessType d with
            | Some b => if retyped then type_changed (businessType (props a)) b (with_type b a1)
                        else a1
            | None => a1
            end in
  let a3 := with_details n (assign (up_contactEmail d) (contactEmail (props a)))
              (assign (up_contactPhone d) (contactPhone (props a)))
              (assign (up_address d) (address (props a))) a2 in
  let changes := ((if renamed then ["name"] else []) ++ (if retyped then ["businessType"] else [])
    ++ (if given (up_contactEmail d) then ["contactEmail"] else [])
    ++ (if given (up_contactPhone d) then ["contactPhone"] else [])
    ++ (if given (up_address d) then ["address"] else []))%list in
  Ok (if (0 <? length changes)%nat
      then emit (BusinessUpdatedEvent (tenantId (props a)) (id (props a)) changes) a3 else a3).

Definition activate (a : t) : result t :=
  let p := props a in
  if bool_decide (status p = BusinessACTIVE) then Ok a else
  _ ← throw_if (deleted p) (JsError "Cannot activate an archived business");
  Ok (emit (BusinessActivatedEvent (tenantId p) (id p)) (with_status BusinessACTIVE (deletedAt p) a)).
Definition suspend (reason : option string) (a : t) : result t :=
  let p := props a in
  if bool_decide (status p = BusinessSUSPENDED) then Ok a else
  _ ← throw_if (deleted p) (JsError "Cannot suspend an archived business");
  Ok (emit (BusinessSuspendedEvent (tenantId p) (id p) reason)
        (with_status BusinessSUSPENDED (deletedAt p) a)).
Definition archive (now : Date) (a : t) : result t :=
  let p := props a in
  if deleted p then Ok a else
  Ok (emit (BusinessArchivedEvent (tenantId p) (id p)) (with_status BusinessARCHIVED (Some now) a)).
Definition restore (a : t) : result t :=
  let p := props a in
  if negb (deleted p) then Ok a else
  Ok (emit (BusinessRestoredEvent (tenantId p) (id p)) (with_status BusinessACTIVE None a)).
Definition changeBusinessType (b : BusinessType) (a : t) : result t :=
  let p := props a in
  _ ← throw_if (isArchived a) (JsError "Cannot change business type on an archived business");
  if bool_decide (b = businessType p) then Ok a else
  Ok (type_changed (businessType p) b (with_type b a)).

End BusinessRegistry.

(** * The registry: the repository and the service *)

Module Businesses.
Import BusinessRegistry.

Section service.
Context {dec : Decimal} {plat : Platform}.

Definition toAggregate (r : TenantRow) : t :=
  reconstitute
    {| id := tn_id r; tenantId := tn_id r; name := tn_name r; businessType := tn_businessType r;
       contactEmail := tn_contactEmail r; contactPhone := tn_contactPhone r;
       address := tn_address r;
       status := match tn_status r with
                 | TenantSUSPENDED => BusinessSUSPENDED
                 | TenantDEACTIVATED => BusinessARCHIVED
                 | TenantACTIVE => BusinessACTIVE
                 end;
       deletedAt := tn_deletedAt r |}.
(** The tenant is the registry's record. *)
Definition repo_findById (id tenantId : string) : Tx Db (option t) :=
  if negb (bool_decide (id = tenantId)) then mret None else
  r ← find_id TTenant id; mret (toAggregate <$> r).

Record QueryOptions := {
  qo_page : nat; qo_limit : nat; qo_search : option string;
  qo_businessType : option BusinessType; qo_includeArchived : bool
}.
Definition found (tenantId : string) (q : QueryOptions) (r : TenantRow) : bool :=
  bool_decide (tn_id r = tenantId) &&
  (qo_includeArchived q || bool_decide (tn_deletedAt r = None)) &&
  match qo_businessType q with Some b => bool_decide (tn_businessType r = b) | None => true end &&
  match qo_search q with
  | Some s => is_empty s || includes (toUpperCase (tn_name r)) (toUpperCase s)
  | None => true
  end.
Definition newest_first (a b : TenantRow) : bool := (tn_createdAt b <=? tn_createdAt a)%Z.
Definition repo_findAll (tenantId : string) (q : QueryOptions) : DbFlow (list t * nat) :=
  records ← call (select TTenant (found tenantId q));
  total ← call (count TTenant (found tenantId q));
  mret (map toAggregate (firstn (qo_limit q)
          (skipn ((qo_page q - 1) * qo_limit q)%nat (sort_by newest_first records))), total).

Definition status_column (s : BusinessStatus) : TenantStatus :=
  match s with
  | BusinessSUSPENDED => TenantSUSPENDED
  | BusinessARCHIVED => TenantDEACTIVATED
  | BusinessACTIVE => TenantACTIVE
  end.
Definition update_row (a : t) (r : TenantRow) : TenantRow :=
  let p := props a in
  {| tn_id := tn_id r; tn_name := name p; tn_contactEmail := contactEmail p;
     tn_contactPhone := contactPhone p; tn_address := address p;
     tn_createdAt := tn_createdAt r; tn_businessType := businessType p;
     tn_kitchenWaitThresholdMinutes := tn_kitchenWaitThresholdMinutes r;
     tn_currencyCode := tn_currencyCode r; tn_status := status_column (status p);
     tn_deletedAt := deletedAt p |}.
(** The columns that are not given have their defaults. *)
Definition create_row (now : Date) (a : t) : TenantRow :=
  let p := props a in
  {| tn_id := id p; tn_name := name p; tn_contactEmail := contactEmail p;
     tn_contactPhone := contactPhone p; tn_address := address p; tn_createdAt := now;
     tn_businessType := businessType p; tn_kitchenWaitThresholdMinutes := of_Z 15;
     tn_currencyCode := None; tn_status := status_column (status p);
     tn_deletedAt := deletedAt p |}.
Definition save_tx (now : Date) (a : t) : Tx Db unit :=
  n ← update_many TTenant (has_id TTenant (id (props a))) (update_row a);
  _ ← tx_when (n =? 0)%nat (_ ← insert TTenant (λ _, create_row now a); mret tt);
  tx_for_each (λ e, post_event now (Some (tenantId (props a))) e (Some now))
    (fst (pullDomainEvents a)).
Definition save (now : Date) (a : t) : DbFlow unit := call (save_tx now a).
Definition softDelete (now : Date) (id tenantId : string) : Tx Db unit :=
  if negb (bool_decide (id = tenantId)) then mret tt else
  _ ← update_many TTenant (has_id TTenant id) (λ r,
        update_row (with_status BusinessARCHIVED (Some now) (toAggregate r)) r);
  mret tt.
(** Rows that refer to the tenant would keep the database from deleting it. *)
Definition hardDelete (id tenantId : string) : Tx Db unit :=
  if negb (bool_decide (id = tenantId)) then mret tt else
  _ ← delete_many TTenant (has_id TTenant id); mret tt.

(** ** The service *)

Definition lift {A} (r : result A) : Flow Db Empty_set Empty_set A := Return r.
Definition business_not_found : exn := NotFoundException "Business not found".
Definition loadAggregate (id tenantId : string) : DbFlow t :=
  a ← call (repo_findById id tenantId);
  match a with Some a => mret a | None => throw business_not_found end.
Definition findAll (ctx : option string) (q : QueryOptions) : DbFlow (list t * nat) :=
  tenantId ← lift (requireTenant ctx); repo_findAll tenantId q.
Definition findById (ctx : option string) (id : string) : DbFlow BusinessRegistryProps :=
  tenantId ← lift (requireTenant ctx); a ← loadAggregate id tenantId; mret (props a).
Definition create (ctx : option string) (now : Date) (name : string) (businessType : BusinessType)
    (contactEmail contactPhone address : opt string) : DbFlow BusinessRegistryProps :=
  tenantId ← lift (requireTenant ctx);
  existing ← call (repo_findById tenantId tenantId);
  match existing with
  | Some _ => throw (ConflictException "Business already exists for this tenant")
  | None =>
      let a := BusinessRegistry.create tenantId tenantId name businessType
                 (opt_nullable contactEmail) (opt_nullable contactPhone) (opt_nullable address) in
      _ ← save now a; mret (props a)
  end.
(** Load, change, save. *)
Definition changed (ctx : option string) (now : Date) (id : string) (act : t → result t)
  : DbFlow BusinessRegistryProps :=
  tenantId ← lift (requireTenant ctx);
  before ← loadAggregate id tenantId;
  a ← lift (act before);
  _ ← save now a;
  mret (props a).
Definition update (ctx : option string) (now : Date) (id : string) (d : UpdateData) :=
  changed ctx now id (BusinessRegistry.update d).
Definition activate (ctx : option string) (now : Date) (id : string) :=
  changed ctx now id BusinessRegistry.activate.
Definition suspend (ctx : option string) (now : Date) (id : string) (reason : option string) :=
  changed ctx now id (BusinessRegistry.suspend reason).
Definition archive (ctx : option string) (now : Date) (id : string) :=
  changed ctx now id (BusinessRegistry.archive now).
Definition restore (ctx : option string) (now : Date) (id : string) :=
  changed ctx now id BusinessRegistry.restore.
Definition changeBusinessType (ctx : option string) (now : Date) (id : string) (b : BusinessType) :=
  changed ctx now id (BusinessRegistry.changeBusinessType b).

End service.
End Businesses.

(** * Tenants *)

Module Tenants.

Section service.
Context {dec : Decimal} {plat : Platform}.
Import Businesses.

Definition live (id : string) (r : TenantRow) : bool :=
  bool_decide (tn_id r = id) && bool_decide (tn_deletedAt r = None).
Definition repo_findAll (tenantId : string) : Tx Db (list TenantRow) :=
  rs ← select TTenant (live tenantId); mret (sort_by newest_first rs).
Definition repo_findOne (id : string) : Tx Db (option TenantRow) := select_first TTenant (live id).

Definition set_tenant (name : option string) (businessType : option BusinessType)
    (currencyCode : option string) (r : TenantRow) : TenantRow :=
  {| tn_id := tn_id r;
     tn_name := match name with
                | Some n => if is_empty n then tn_name r else n
                | None => tn_name r
                end;
     tn_contactEmail := tn_contactEmail r; tn_contactPhone := tn_contactPhone r;
     tn_address := tn_address r; tn_createdAt := tn_createdAt r;
     tn_businessType := default (tn_businessType r) businessType;
     tn_kitchenWaitThresholdMinutes := tn_kitchenWaitThresholdMinutes r;
     tn_currencyCode := match currencyCode with Some c => Some c | None => tn_currencyCode r end;
     tn_status := tn_status r; tn_deletedAt := tn_deletedAt r |}.
(** The base currency is fixed by the first financial transaction. *)
Definition check_currency (id : string) (old new : option string) : Tx Db unit :=
  match new, old with
  | Some c, Some d =>
      if bool_decide (c = d) then mret tt else
      orders ← count TSalesOrder (λ o, bool_decide (so_tenantId o = id));
      purchaseOrders ← count TOrder (λ o, bool_decide (po_tenantId o = id));
      payments ← count TPayment (λ p, bool_decide (py_tenantId p = id));
      tx_throw_if (0 <? orders + purchaseOrders + payments)%nat
        (ConflictException "Base currency cannot be changed after the first financial transaction")
  | _, _ => mret tt
  end.
Definition update_tx (id : string) (name : option string) (businessType : option BusinessType)
    (currencyCode : option string) : Tx Db TenantRow :=
  tenant ← load_row TTenant (live id) (NotFoundException "Tenant not found");
  _ ← check_currency id (tn_currencyCode tenant) currencyCode;
  _ ← update_id TTenant id (set_tenant name businessType currencyCode);
  load_row TTenant (has_id TTenant id) (PrismaError "P2025").

Definition tenant_not_found : exn := BadRequestException "Tenant not found".
Definition own_tenant (ctx : option string) (id : string) : DbFlow unit :=
  tenantId ← lift (requireTenant ctx);
  if negb (bool_decide (id = tenantId)) then throw tenant_not_found else mret tt.
Definition findAll (ctx : option string) : DbFlow (list TenantRow) :=
  tenantId ← lift (requireTenant ctx); call (repo_findAll tenantId).
Definition findOne (ctx : option string) (id : string) : DbFlow (option TenantRow) :=
  _ ← own_tenant ctx id; call (repo_findOne id).
Definition update (ctx : option string) (id : string) (name : option string)
    (businessType : option BusinessType) (currencyCode : option string) : DbFlow TenantRow :=
  _ ← own_tenant ctx id; call (update_tx id name businessType currencyCode).
Definition softDelete (ctx : option string) (now : Date) (id : string)
  : DbFlow BusinessRegistry.BusinessRegistryProps :=
  _ ← own_tenant ctx id; archive ctx now id.

End service.
End Tenants.
