(* ===== verification/SuperAdmin.v ===== *)
(** Platform administration: the platform audit log
    (modules/audit-logs/platform-audit-log.service.ts), the aggregate, the repository and
    the service of the administration (modules/super-admin), and the platform settings
    (platform-settings.service.ts). *)

From stdpp Require Import base list strings option.
From Stdlib Require Import ZArith Ascii.
From S2P Require Import Prelude Flows JsNumber JsString DomainEvents CoreDomain MasterData.
From S2P Require Import Lifecycles PurchaseOrderAggregate Subscriptions Decimal Database Outbox.
From S2P Require Import SubscriptionService Tenants.

Local Open Scope string_scope.

(** * The platform audit log *)

Module PlatformAuditLog.
Section service.
Context {dec : Decimal} {plat : Platform}.

Record CreateInput := {
  ci_actor : string; ci_action : string; ci_resourceType : string; ci_resourceId : string;
  ci_targetTenantId : option string; ci_metadata : option (list (string * json));
  ci_outcome : option string
}.
(** The ids of the request, from its context. *)
Record RequestIds := { rq_requestId : option string; rq_correlationId : option string }.

Definition create (now : Date) (ids : RequestIds) (i : CreateInput) : Tx Db PlatformAuditRow :=
  insert TPlatformAudit (λ x,
    {| pl_id := x; pl_actorPlatformIdentityId := Some (ci_actor i);
       pl_actorType := "PLATFORM_IDENTITY"; pl_action := ci_action i;
       pl_resourceType := ci_resourceType i; pl_resourceId := ci_resourceId i;
       pl_targetTenantId := ci_targetTenantId i; pl_requestId := rq_requestId ids;
       pl_correlationId := rq_correlationId ids; pl_metadata := JObject <$> ci_metadata i;
       pl_outcome := default "SUCCESS" (ci_outcome i); pl_createdAt := now |}).

(** The filters that are given and not empty. *)
Record ListQuery := {
  lq_page : nat; lq_limit : nat; lq_action : option string; lq_resourceType : option string;
  lq_resourceId : option string; lq_actorUserId : option string;
  lq_actorPlatformIdentityId : option string; lq_targetTenantId : option string
}.
Definition wanted (filter_ : option string) (value : option string) : bool :=
  negb (truthy filter_) || bool_decide (filter_ = value).
Definition listed (q : ListQuery) (r : PlatformAuditRow) : bool :=
  wanted (lq_action q) (Some (pl_action r)) &&
  wanted (lq_resourceType q) (Some (pl_resourceType r)) &&
  wanted (lq_resourceId q) (Some (pl_resourceId r)) &&
  (* no entry has a user of a tenant as its actor *)
  wanted (lq_actorUserId q) None &&
  wanted (lq_actorPlatformIdentityId q) (pl_actorPlatformIdentityId r) &&
  wanted (lq_targetTenantId q) (pl_targetTenantId r).
Definition newest_first (a b : PlatformAuditRow) : bool :=
  (pl_createdAt b <? pl_createdAt a)%Z ||
  ((pl_createdAt b =? pl_createdAt a)%Z && collateLe (pl_id b) (pl_id a)).
Definition list (q : ListQuery) : DbFlow (list PlatformAuditRow * nat) :=
  let limit := Nat.min (lq_limit q) 100 in
  records ← call (select TPlatformAudit (listed q));
  total ← call (count TPlatformAudit (listed q));
  mret (firstn limit (skipn ((lq_page q - 1) * limit)%nat (sort_by newest_first records)), total).
Definition getById (id : string) : DbFlow PlatformAuditRow :=
  r ← call (find_id TPlatformAudit id);
  match r with
  | Some r => mret r
  | None => throw (NotFoundException "Platform audit log not found")
  end.

End service.
End PlatformAuditLog.

(** * The aggregate *)

Module SuperAdminAggregate.

(** The target and who acts on it. *)
Record Target := { tenantId : string; status : TenantStatus; deletedAt : option Date }.
Record Props := { actionedBy : string; target : Target }.
Abbreviation t := (aggregate Props).

Definition forTarget (actor : string) (x : Target) : t :=
  newAggregate {| actionedBy := actor; target := x |}.
Definition deleted (x : Target) : bool := negb (bool_decide (deletedAt x = None)).
Definition isTargetActive (x : Target) : bool :=
  bool_decide (status x = TenantACTIVE) && negb (deleted x).
Definition isTargetSuspended (x : Target) : bool := bool_decide (status x = TenantSUSPENDED).
Definition isTargetDeactivated (x : Target) : bool :=
  bool_decide (status x = TenantDEACTIVATED) || deleted x.

Definition set_target (s : TenantStatus) (d : option Date) (e : SuperAdminEvent) (a : t) : t :=
  let x := target (props a) in
  addDomainEvent (EvSuperAdmin e)
    (setProps {| actionedBy := actionedBy (props a);
                 target := {| tenantId := tenantId x; status := s; deletedAt := d |} |} a).
Definition activate (a : t) : result t :=
  let x := target (props a) in
  _ ← throw_if (isTargetActive x) (JsError "Target tenant is already active");
  Ok (set_target TenantACTIVE None
        (SuperAdminTenantActivatedEvent (tenantId x) (tenantId x) (actionedBy (props a))) a).
Definition suspend (reason : option string) (a : t) : result t :=
  let x := target (props a) in
  _ ← throw_if (isTargetSuspended x) (JsError "Target tenant is already suspended");
  Ok (set_target TenantSUSPENDED (deletedAt x)
        (SuperAdminTenantSuspendedEvent (tenantId x) (tenantId x) (actionedBy (props a)) reason) a).
Definition deactivate (now : Date) (reason : option string) (a : t) : result t :=
  let x := target (props a) in
  _ ← throw_if (isTargetDeactivated x) (JsError "Target tenant is already deactivated");
  Ok (set_target TenantDEACTIVATED (Some now)
        (SuperAdminTenantDeactivatedEvent (tenantId x) (tenantId x) (actionedBy (props a)) reason) a).
Definition restore (a : t) : result t :=
  let x := target (props a) in
  _ ← throw_if (negb (isTargetDeactivated x)) (JsError "Target tenant is not deactivated");
  Ok (set_target TenantACTIVE None
        (SuperAdminTenantRestoredEvent (tenantId x) (tenantId x) (actionedBy (props a))) a).
(** [changePlan] is told the ids of the plans. *)
Definition changePlan (newPlanId oldPlanId : string) (a : t) : result t :=
  let x := target (props a) in
  _ ← throw_if (bool_decide (oldPlanId = newPlanId)) (JsError "Target tenant is already on this plan");
  Ok (addDomainEvent (EvSuperAdmin (SuperAdminPlanChangeScheduledEvent (tenantId x) (tenantId x)
        oldPlanId newPlanId (actionedBy (props a)))) a).
Definition changeSubscription (subscriptionId : string) (reason : option string) (a : t) : t :=
  let x := target (props a) in
  addDomainEvent (EvSuperAdmin (SuperAdminSubscriptionChangedEvent (tenantId x) (tenantId x)
    subscriptionId (actionedBy (props a)) reason)) a.

End SuperAdminAggregate.

(** * The service *)

Module SuperAdmin.
Section service.
Context {dec : Decimal} {plat : Platform}.
(** The context of the request. *)
Context (ctx : Outbox.Context_) (observability : json) (ids : PlatformAuditLog.RequestIds).
Import SuperAdminAggregate.

(** ** The repository *)

Definition findTenantById (tenantId : string) : Tx Db (option TenantRow) := find_id TTenant tenantId.
Definition plan_live (p : PlanRow) : bool := bool_decide (pn_deletedAt p = None).
Definition findAllPlans : Tx Db (list PlanRow) :=
  ps ← select TPlan plan_live; mret (sort_by (λ a b, leb (pn_priceCents a) (pn_priceCents b)) ps).
Definition findPlanById (id : string) : Tx Db (option PlanRow) :=
  select_first TPlan (λ p, bool_decide (pn_id p = id) && plan_live p).
Definition findPlanByType (type : PlanType) : Tx Db (option PlanRow) :=
  select_first TPlan (λ p, bool_decide (pn_type p = type) && plan_live p).
(** The type of a plan is unique, deleted or not. *)
Definition repo_createPlan (type : PlanType) (name : string) (priceCents : number) : Tx Db PlanRow :=
  _ ← assert_unique TPlan (λ p, bool_decide (pn_type p = type));
  insert TPlan (λ i, {| pn_id := i; pn_type := type; pn_name := name;
                        pn_priceCents := priceCents; pn_deletedAt := None |}).
Definition repo_updatePlan (id : string) (name : option string) (priceCents : option number)
  : Tx Db PlanRow :=
  _ ← update_id TPlan id (λ p, {| pn_id := pn_id p; pn_type := pn_type p;
        pn_name := default (pn_name p) name;
        pn_priceCents := default (pn_priceCents p) priceCents; pn_deletedAt := pn_deletedAt p |});
  load_row TPlan (has_id TPlan id) (PrismaError "P2025").
Definition repo_softDeletePlan (now : Date) (id : string) : Tx Db PlanRow :=
  _ ← update_id TPlan id (λ p, {| pn_id := pn_id p; pn_type := pn_type p; pn_name := pn_name p;
        pn_priceCents := pn_priceCents p; pn_deletedAt := Some now |});
  load_row TPlan (has_id TPlan id) (PrismaError "P2025").
(** The latest subscription of the tenant, with its plan. *)
Definition findSubscriptionByTenantId (tenantId : string)
  : Tx Db (option (SubscriptionRow * PlanRow)) :=
  ss ← select TSubscription (λ s, bool_decide (sb_tenantId s = tenantId) &&
                                  bool_decide (sb_deletedAt s = None));
  match head (sort_by (λ a b, (sb_createdAt b <=? sb_createdAt a)%Z) ss) with
  | None => mret None
  | Some s =>
      p ← load_row TPlan (has_id TPlan (sb_planId s)) (PrismaError "P2025");
      mret (Some (s, p))
  end.

(** ** Tenants *)

Definition tenant_not_found : exn := NotFoundException "Tenant not found".
Definition getTenant (tenantId : string) : DbFlow TenantRow :=
  t ← call (findTenantById tenantId);
  match t with Some t => mret t | None => throw tenant_not_found end.

Definition persistAggregateEvents (now : Date) (a : SuperAdminAggregate.t) : Tx Db unit :=
  tx_for_each (λ e, Outbox.outbox_publish now ctx observability (event_type e) (payload_json e) None)
    (fst (pullDomainEvents a)).
Definition set_status (s : TenantStatus) (d : option Date) (r : TenantRow) : TenantRow :=
  {| tn_id := tn_id r; tn_name := tn_name r; tn_contactEmail := tn_contactEmail r;
     tn_contactPhone := tn_contactPhone r; tn_address := tn_address r;
     tn_createdAt := tn_createdAt r; tn_businessType := tn_businessType r;
     tn_kitchenWaitThresholdMinutes := tn_kitchenWaitThresholdMinutes r;
     tn_currencyCode := tn_currencyCode r; tn_status := s; tn_deletedAt := d |}.

(** The transaction of an action: the aggregate decides on the tenant that was read, the
    row is updated if it is still in the state, the action is audited and announced. *)
Definition action_tx (now : Date) (actor tenantId : string) (read : TenantRow)
    (act : SuperAdminAggregate.t → result SuperAdminAggregate.t) (guard : TenantRow → bool)
    (data : TenantRow → TenantRow) (action : string) (to : string) (reason : option string)
  : Tx Db string :=
  a ← tx_lift (act (forTarget actor {| SuperAdminAggregate.tenantId := tenantId;
                                       status := tn_status read; deletedAt := tn_deletedAt read |}));
  n ← update_many TTenant (λ r, bool_decide (tn_id r = tenantId) && guard r) data;
  _ ← tx_throw_if (negb (n =? 1)%nat) (ConflictException "Tenant state changed; retry the action");
  _ ← PlatformAuditLog.create now ids
        {| PlatformAuditLog.ci_actor := actor; PlatformAuditLog.ci_action := action;
           PlatformAuditLog.ci_resourceType := "TENANT";
           PlatformAuditLog.ci_resourceId := tenantId;
           PlatformAuditLog.ci_targetTenantId := Some tenantId;
           PlatformAuditLog.ci_metadata := Some ([("to", JString to)] ++
             (if truthy reason then defined "reason" reason else []))%list;
           PlatformAuditLog.ci_outcome := None |};
  _ ← persistAggregateEvents now a;
  mret to.
Definition act_on (now : Date) (actor tenantId : string) (refusal : string)
    (act : SuperAdminAggregate.t → result SuperAdminAggregate.t) (guard : TenantRow → bool)
    (data : TenantRow → TenantRow) (action : string) (to : string) (reason : option string)
  : DbFlow string :=
  tenant ← call (findTenantById tenantId);
  match tenant with
  | None => throw tenant_not_found
  | Some t =>
      if negb (guard t) then throw (ConflictException refusal)
      else call (action_tx now actor tenantId t act guard data action to reason)
  end.

Definition undeleted (r : TenantRow) : bool := bool_decide (tn_deletedAt r = None).
Definition in_status (ss : list TenantStatus) (r : TenantRow) : bool :=
  bool_decide (tn_status r ∈ ss).
Definition activateTenant (now : Date) (actor tenantId : string) : DbFlow string :=
  act_on now actor tenantId "Only suspended tenants can be activated" activate
    (λ r, in_status [TenantSUSPENDED] r && undeleted r)
    (λ r, set_status TenantACTIVE (tn_deletedAt r) r)
    "super-admin.tenant.activated" "ACTIVE" None.
Definition suspendTenant (now : Date) (actor tenantId : string) (reason : option string)
  : DbFlow string :=
  act_on now actor tenantId "Only active tenants can be suspended" (suspend reason)
    (λ r, in_status [TenantACTIVE] r && undeleted r)
    (λ r, set_status TenantSUSPENDED (tn_deletedAt r) r)
    "super-admin.tenant.suspended" "SUSPENDED" reason.
Definition deactivateTenant (now : Date) (actor tenantId : string) (reason : option string)
  : DbFlow string :=
  act_on now actor tenantId "Only operational tenants can be deactivated" (deactivate now reason)
    (λ r, in_status [TenantACTIVE; TenantSUSPENDED] r && undeleted r)
    (set_status TenantDEACTIVATED (Some now))
    "super-admin.tenant.deactivated" "DEACTIVATED" reason.
Definition restoreTenant (now : Date) (actor tenantId : string) : DbFlow string :=
  act_on now actor tenantId "Only deactivated tenants can be restored" restore
    (λ r, in_status [TenantDEACTIVATED] r && negb (undeleted r))
    (set_status TenantACTIVE None)
    "super-admin.tenant.restored" "ACTIVE" None.

(** ** Plans *)

Definition plan_not_found : exn := NotFoundException "Plan not found".
Definition createPlan (type : PlanType) (name : string) (priceCents : number) : DbFlow PlanRow :=
  existing ← call (findPlanByType type);
  match existing with
  | Some _ => throw (ConflictException "A plan with this type already exists")
  | None => call (repo_createPlan type name priceCents)
  end.
Definition updatePlan (id : string) (name : option string) (priceCents : option number)
  : DbFlow PlanRow :=
  plan ← call (findPlanById id);
  match plan with
  | None => throw plan_not_found
  | Some _ => call (repo_updatePlan id name priceCents)
  end.
Definition deletePlan (now : Date) (id : string) : DbFlow PlanRow :=
  plan ← call (findPlanById id);
  match plan with
  | None => throw plan_not_found
  | Some _ => call (repo_softDeletePlan now id)
  end.

(** ** The plan of a tenant *)

Definition set_pending (p : option string) (s : SubscriptionRow) : SubscriptionRow :=
  {| sb_id := sb_id s; sb_tenantId := sb_tenantId s; sb_planId := sb_planId s;
     sb_pendingPlanId := p; sb_status := sb_status s; sb_startedAt := sb_startedAt s;
     sb_endedAt := sb_endedAt s; sb_createdAt := sb_createdAt s; sb_deletedAt := sb_deletedAt s |}.
Definition SCHEDULED : string := "subscription.plan-change.scheduled".
(** What the outbox, the audit log and the history are told. *)
Definition schedule_metadata (oldPlanId : string) (previous pending : option string)
  : list (string * json) :=
  [("currentPlanId", JString oldPlanId); ("previousPendingPlanId", JNullable previous);
   ("pendingPlanId", JNullable pending); ("effectiveAt", JString "NEXT_RENEWAL")].
Definition change_plan_tx (now : Date) (actor tenantId : string) (s : SubscriptionRow)
    (oldPlan newPlan : PlanRow) (pending : option string) : Tx Db (option string) :=
  let a0 := forTarget actor {| SuperAdminAggregate.tenantId := tenantId; status := TenantACTIVE;
                               deletedAt := None |} in
  a ← tx_lift (if negb (bool_decide (pn_id newPlan = pn_id oldPlan))
               then changePlan (pn_id newPlan) (pn_id oldPlan) a0 else Ok a0);
  n ← update_many TSubscription (λ r, bool_decide (sb_id r = sb_id s) &&
          bool_decide (sb_planId r = pn_id oldPlan) &&
          bool_decide (sb_pendingPlanId r = sb_pendingPlanId s)) (set_pending pending);
  _ ← tx_throw_if (negb (n =? 1)%nat)
        (ConflictException "Subscription plan changed; retry the action");
  let metadata := schedule_metadata (pn_id oldPlan) (sb_pendingPlanId s) pending in
  _ ← Outbox.outbox_publish now ctx observability SCHEDULED
        ([("subscriptionId", JString (sb_id s)); ("tenantId", JString tenantId)] ++ metadata)%list
        None;
  _ ← PlatformAuditLog.create now ids
        {| PlatformAuditLog.ci_actor := actor;
           PlatformAuditLog.ci_action := "super-admin.plan.change-scheduled";
           PlatformAuditLog.ci_resourceType := "SUBSCRIPTION";
           PlatformAuditLog.ci_resourceId := sb_id s;
           PlatformAuditLog.ci_targetTenantId := Some tenantId;
           PlatformAuditLog.ci_metadata := Some metadata; PlatformAuditLog.ci_outcome := None |};
  _ ← insert THistory (λ i, {| sh_id := i; sh_subscriptionId := sb_id s; sh_tenantId := tenantId;
        sh_eventType := SCHEDULED; sh_actorUserId := None;
        sh_actorPlatformIdentityId := Some actor; sh_actorType := "PLATFORM_IDENTITY";
        sh_metadata := JObject metadata; sh_createdAt := now |});
  _ ← persistAggregateEvents now a;
  mret pending.
(** The result is the plan that is pending. *)
Definition changeTenantPlan (now : Date) (actor tenantId newPlanId : string)
  : DbFlow (option string) :=
  subscription ← call (findSubscriptionByTenantId tenantId);
  match subscription with
  | None => throw (NotFoundException "No active subscription for this tenant")
  | Some (s, oldPlan) =>
      if is_empty (sb_planId s) then throw (NotFoundException "Subscription has no plan") else
      newPlan ← call (findPlanById newPlanId);
      match newPlan with
      | None => throw (NotFoundException "Target plan not found")
      | Some newPlan =>
          let pending := if bool_decide (pn_id newPlan = pn_id oldPlan) then None
                         else Some (pn_id newPlan) in
          if bool_decide (pending = sb_pendingPlanId s) then mret pending
          else call (change_plan_tx now actor tenantId s oldPlan newPlan pending)
      end
  end.

End service.
End SuperAdmin.

(** * Platform settings *)

Module PlatformSettings.
Section service.
Context {dec : Decimal} {plat : Platform}.
(** [new URL(s)], as far as it is read: whether it is https, without user and password;
    [None] when it throws.  Whether the time zone is known. *)
Context (parseUrl : string → option bool) (knownTimezone : string → bool).
Context (ids : PlatformAuditLog.RequestIds).

(** Key, label and default. *)
Definition PLATFORM_SETTINGS : list (string * (string * string)) :=
  [("platformName", ("Platform name", "ERP Multi Business"));
   ("supportEmail", ("Support email", ""));
   ("supportUrl", ("Support URL", ""));
   ("defaultTimezone", ("Default timezone", "Asia/Jakarta"));
   ("defaultCurrency", ("Default display currency", "IDR"))].
Definition setting (key : string) : option (string * string) :=
  snd <$> List.find (λ x, bool_decide (fst x = key)) PLATFORM_SETTINGS.
Definition isSettingKey (key : string) : bool :=
  match setting key with Some _ => true | None => false end.

Record SettingView := {
  sv_key : string; sv_label : string; sv_value : string; sv_version : number;
  sv_updatedAt : option Date
}.
Definition list_ : Tx Db (list SettingView) :=
  records ← select TSetting (λ _, true);
  mret (map (λ x : string * (string * string),
    let '(key, (label, dflt)) := x in
    match List.find (has_id TSetting key) records with
    | Some r => {| sv_key := key; sv_label := label; sv_value := ps_value r;
                   sv_version := ps_version r; sv_updatedAt := Some (ps_updatedAt r) |}
    | None => {| sv_key := key; sv_label := label; sv_value := dflt; sv_version := of_Z 0;
                 sv_updatedAt := None |}
    end) PLATFORM_SETTINGS).

(** [/^[^\s@]+@[^\s@]+\.[^\s@]+$/]: text of neither spaces nor at-signs around one at-sign,
    with a dot inside the second part. *)
Fixpoint plain (s : string) : bool :=
  match s with
  | EmptyString => true
  | String c s => negb (is_space c) && negb (Ascii.eqb c "@"%char) && plain s
  end.
Fixpoint dotted (s : string) : bool :=
  match s with
  | String c (String "." (String d s)) => true
  | String c s => dotted s
  | EmptyString => false
  end.
Fixpoint email_after (seen : bool) (s : string) : bool :=
  match s with
  | EmptyString => false
  | String c s => if Ascii.eqb c "@"%char then seen && plain s && dotted s
                  else negb (is_space c) && email_after true s
  end.
Definition valid_email (s : string) : bool := email_after false s.

Definition CURRENCIES : list string := ["IDR"; "USD"; "SGD"; "MYR"; "PHP"; "THB"; "VND"].
Definition validateValue (key value : string) : result unit :=
  let normalized := trim value in
  _ ← throw_if (bool_decide (key = "platformName") &&
                (is_empty normalized || (100 <? String.length normalized)%nat))
        (BadRequestException "Platform name must contain between 1 and 100 characters");
  _ ← throw_if (bool_decide (key = "supportEmail") && negb (is_empty normalized) &&
                ((254 <? String.length normalized)%nat || negb (valid_email normalized)))
        (BadRequestException "Support email is invalid");
  _ ← (if bool_decide (key = "supportUrl") && negb (is_empty normalized) then
         match parseUrl normalized with
         | None => Err (BadRequestException "Support URL must be a valid HTTPS URL")
         | Some https => throw_if (negb https) (BadRequestException "Support URL must use HTTPS")
         end
       else Ok tt);
  _ ← throw_if (bool_decide (key = "defaultTimezone") && negb (knownTimezone normalized))
        (BadRequestException "Default timezone is invalid");
  throw_if (bool_decide (key = "defaultCurrency") && negb (bool_decide (normalized ∈ CURRENCIES)))
    (BadRequestException "Default display currency is unsupported").

Definition changed : exn := ConflictException "Platform setting changed; reload before updating".
Definition write_setting (now : Date) (value : string) (version : number) (r : SettingRow)
  : SettingRow :=
  {| ps_key := ps_key r; ps_value := value; ps_version := version; ps_updatedAt := now |}.
Definition update_tx (now : Date) (actor key value : string) (expectedVersion : number)
  : Tx Db number :=
  current ← find_id TSetting key;
  let currentVersion := match current with Some r => ps_version r | None => of_Z 0 end in
  _ ← tx_throw_if (negb (eqb currentVersion expectedVersion)) changed;
  let nextVersion := add currentVersion (of_Z 1) in
  _ ← match current with
      | Some _ =>
          n ← update_many TSetting (λ r, bool_decide (ps_key r = key) &&
                                         eqb (ps_version r) currentVersion)
                (write_setting now value nextVersion);
          tx_throw_if (negb (n =? 1)%nat) changed
      | None =>
          (* createMany with skipDuplicates: a key that exists is skipped *)
          n ← count TSetting (has_id TSetting key);
          _ ← tx_throw_if (negb (n =? 0)%nat) changed;
          _ ← insert TSetting (λ _, {| ps_key := key; ps_value := value;
                                       ps_version := nextVersion; ps_updatedAt := now |});
          mret tt
      end;
  _ ← PlatformAuditLog.create now ids
        {| PlatformAuditLog.ci_actor := actor;
           PlatformAuditLog.ci_action := "super-admin.platform-setting.updated";
           PlatformAuditLog.ci_resourceType := "PLATFORM_SETTING";
           PlatformAuditLog.ci_resourceId := key; PlatformAuditLog.ci_targetTenantId := None;
           PlatformAuditLog.ci_metadata := Some
             [("settingKey", JString key); ("previousVersion", JNumber currentVersion);
              ("newVersion", JNumber nextVersion)];
           PlatformAuditLog.ci_outcome := None |};
  mret nextVersion.
(** The result is the new version. *)
Definition update (now : Date) (actor key value : string) (expectedVersion : number)
  : DbFlow number :=
  if negb (isSettingKey key) then throw (BadRequestException "Unsupported platform setting") else
  let normalizedValue := trim value in
  match validateValue key normalizedValue with
  | Err e => throw e
  | Ok _ => call (update_tx now actor key normalizedValue expectedVersion)
  end.

End service.
End PlatformSettings.
