(* ===== verification/TenantFacts.v ===== *)
(** What the tenants guarantee, whatever the registry and the administration do at once. *)

From stdpp Require Import base list strings option relations sets.
From Stdlib Require Import ZArith Lia.
From S2P Require Import Prelude Flows JsNumber JsString DomainEvents CoreDomain MasterData.
From S2P Require Import Lifecycles PurchaseOrderAggregate Subscriptions Decimal Database Outbox.
From S2P Require Import SubscriptionService Tenants SuperAdmin.

(** * The calls *)

Section calls.
Context {dec : Decimal} {plat : Platform}.

(** The calls of the registry, of the tenants and of the administration, by the tenant of
    their request, or by the context of the request and the actor. *)
Inductive TenantOp :=
| Register (ctx : option string) (now : Date) (name : string) (b : BusinessType)
    (email phone address : opt string)
| Edit (ctx : option string) (now : Date) (id : string) (d : BusinessRegistry.UpdateData)
| Activate (ctx : option string) (now : Date) (id : string)
| Suspend (ctx : option string) (now : Date) (id : string) (reason : option string)
| Archive (ctx : option string) (now : Date) (id : string)
| Restore (ctx : option string) (now : Date) (id : string)
| Retype (ctx : option string) (now : Date) (id : string) (b : BusinessType)
| UpdateTenant (ctx : option string) (id : string) (name : option string)
    (b : option BusinessType) (currency : option string)
| DeleteTenant (ctx : option string) (now : Date) (id : string).
Inductive AdminAction :=
| AdminActivate
| AdminSuspend (reason : option string)
| AdminDeactivate (reason : option string)
| AdminRestore.
Record Request := {
  rq_ctx : Outbox.Context_; rq_observability : json; rq_ids : PlatformAuditLog.RequestIds;
  rq_now : Date; rq_actor : string
}.

Abbreviation TFlow A := (Flow Db Empty_set Empty_set A).
Definition drop {A} (f : TFlow A) : TFlow unit := _ ← f; mret tt.
Definition perform (op : TenantOp) : TFlow unit :=
  match op with
  | Register ctx now n b e p a => drop (Businesses.create ctx now n b e p a)
  | Edit ctx now i d => drop (Businesses.update ctx now i d)
  | Activate ctx now i => drop (Businesses.activate ctx now i)
  | Suspend ctx now i r => drop (Businesses.suspend ctx now i r)
  | Archive ctx now i => drop (Businesses.archive ctx now i)
  | Restore ctx now i => drop (Businesses.restore ctx now i)
  | Retype ctx now i b => drop (Businesses.changeBusinessType ctx now i b)
  | UpdateTenant ctx i n b c => drop (Tenants.update ctx i n b c)
  | DeleteTenant ctx now i => drop (Tenants.softDelete ctx now i)
  end.
Definition administer (q : Request) (tenantId : string) (x : AdminAction) : TFlow unit :=
  match x with
  | AdminActivate => drop (SuperAdmin.activateTenant (rq_ctx q) (rq_observability q) (rq_ids q)
                             (rq_now q) (rq_actor q) tenantId)
  | AdminSuspend r => drop (SuperAdmin.suspendTenant (rq_ctx q) (rq_observability q) (rq_ids q)
                              (rq_now q) (rq_actor q) tenantId r)
  | AdminDeactivate r => drop (SuperAdmin.deactivateTenant (rq_ctx q) (rq_observability q)
                                 (rq_ids q) (rq_now q) (rq_actor q) tenantId r)
  | AdminRestore => drop (SuperAdmin.restoreTenant (rq_ctx q) (rq_observability q) (rq_ids q)
                            (rq_now q) (rq_actor q) tenantId)
  end.
Definition change_plan (q : Request) (tenantId planId : string) : TFlow unit :=
  drop (SuperAdmin.changeTenantPlan (rq_ctx q) (rq_observability q) (rq_ids q) (rq_now q)
          (rq_actor q) tenantId planId).

(** * A tenant is deactivated exactly when it is deleted *)

Definition consistent (r : TenantRow) : Prop :=
  tn_status r = TenantDEACTIVATED ↔ tn_deletedAt r ≠ None.
Definition tenants_consistent (db : Db) : Prop := Forall consistent (rows db TTenant).

Lemma consistent_where p f db :
  (∀ r, r ∈ rows db TTenant → p r = true → consistent (f r)) →
  tenants_consistent db → tenants_consistent (on TTenant (map_where p f) db).
Proof.
  intros Hf H. unfold tenants_consistent. rewrite rows_on_same. apply Forall_map, Forall_forall.
  unfold tenants_consistent in H. rewrite Forall_forall in H. intros r Hr.
  destruct (p r) eqn:E; [by apply Hf|by apply H].
Qed.
Lemma consistent_rows db db' :
  rows db' TTenant = rows db TTenant → tenants_consistent db → tenants_consistent db'.
Proof. unfold tenants_consistent. by intros ->. Qed.
Lemma consistent_writes {A} ts (m : Tx Db A) db a db' :
  writes ts m → TTenant ∉ ts → m db = Ok (a, db') → tenants_consistent db → tenants_consistent db'.
Proof. intros Hw Hn E. apply consistent_rows. by apply Hw in E as ->. Qed.

(** ** The registry *)

Import BusinessRegistry.
(** The same of an aggregate. *)
Definition sound_business (a : BusinessRegistry.t) : Prop :=
  status (props a) = BusinessARCHIVED ↔ deletedAt (props a) ≠ None.
Lemma business_row r : consistent r → sound_business (Businesses.toAggregate r).
Proof. unfold consistent, sound_business. simpl. destruct (tn_status r); naive_solver. Qed.
Lemma business_saved a r : sound_business a → consistent (Businesses.update_row a r).
Proof. unfold consistent, sound_business. simpl. destruct (status (props a)); naive_solver. Qed.
Lemma business_created now a : sound_business a → consistent (Businesses.create_row now a).
Proof. unfold consistent, sound_business. simpl. destruct (status (props a)); naive_solver. Qed.

(** Every method keeps it. *)
Definition keeps_sound (act : BusinessRegistry.t → result BusinessRegistry.t) : Prop :=
  ∀ a b, act a = Ok b → sound_business a → sound_business b.
Lemma activate_sound : keeps_sound BusinessRegistry.activate.
Proof.
  intros a b E H. unfold BusinessRegistry.activate, throw_if, deleted in E.
  destruct (bool_decide _) in E; [by injection E as <-|].
  destruct (bool_decide_reflect (deletedAt (props a) = None)) as [e|]; [|done].
  injection E as <-. unfold sound_business. simpl. rewrite e. naive_solver.
Qed.
Lemma suspend_sound r : keeps_sound (BusinessRegistry.suspend r).
Proof.
  intros a b E H. unfold BusinessRegistry.suspend, throw_if, deleted in E.
  destruct (bool_decide _) in E; [by injection E as <-|].
  destruct (bool_decide_reflect (deletedAt (props a) = None)) as [e|]; [|done].
  injection E as <-. unfold sound_business. simpl. rewrite e. naive_solver.
Qed.
Lemma archive_sound now : keeps_sound (BusinessRegistry.archive now).
Proof.
  intros a b E H. unfold BusinessRegistry.archive in E.
  destruct (deleted (props a)); injection E as <-; [done|]. unfold sound_business. simpl. naive_solver.
Qed.
Lemma restore_sound : keeps_sound BusinessRegistry.restore.
Proof.
  intros a b E H. unfold BusinessRegistry.restore in E.
  destruct (negb _); injection E as <-; [done|]. unfold sound_business. simpl. naive_solver.
Qed.
Lemma retype_sound b : keeps_sound (BusinessRegistry.changeBusinessType b).
Proof.
  intros a c E H. unfold BusinessRegistry.changeBusinessType, throw_if in E.
  destruct (isArchived a); [done|]. simpl in E. by destruct (bool_decide _); injection E as <-.
Qed.
Lemma edit_sound d : keeps_sound (BusinessRegistry.update d).
Proof.
  intros a b E H. unfold BusinessRegistry.update, throw_if in E. cbv zeta in E.
  destruct (isArchived a); [done|]. simpl in E. destruct (_ && blank _); [done|]. simpl in E.
  injection E as <-. unfold sound_business in *.
  destruct (0 <? _)%nat; destruct (up_businessType d) as [b|]; [destruct (negb _)| |destruct (negb _)|]; exact H.
Qed.

(** ** Transactions *)

Lemma writes_post_event now t e o : writes [TOutbox] (post_event now t e o).
Proof. unfold post_event. solve_writes. Qed.
Lemma writes_outbox_event now cx obs ty p o : writes [TOutbox] (Outbox.outbox_publish now cx obs ty p o).
Proof. unfold Outbox.outbox_publish. cbv zeta. solve_writes. Qed.
Lemma writes_audit now ids i : writes [TPlatformAudit] (PlatformAuditLog.create now ids i).
Proof. unfold PlatformAuditLog.create. solve_writes. Qed.

Lemma save_consistent now a db u db' :
  sound_business a → Businesses.save_tx now a db = Ok (u, db') →
  tenants_consistent db → tenants_consistent db'.
Proof.
  intros Ha E H. unfold Businesses.save_tx in E.
  apply tx_bind_ok in E as (n & d1 & [= <- <-] & E). set (d1 := on TTenant _ db) in E.
  assert (H1 : tenants_consistent d1).
  { apply consistent_where; [|done]. intros r _ _. by apply business_saved. }
  apply tx_bind_ok in E as (v & d2 & E2 & E).
  assert (H2 : tenants_consistent d2).
  { unfold tx_when in E2. destruct (_ =? 0); [|by injection E2 as _ <-].
    apply tx_bind_ok in E2 as (r & d3 & E2 & [= _ <-]).
    pose proof (insert_rows TTenant _ _ _ _ E2) as [-> R]. unfold tenants_consistent.
    cbn [row] in *. rewrite R. apply Forall_app. split; [done|].
    repeat constructor; by apply business_created. }
  refine (consistent_writes [TOutbox] _ _ _ _ _ _ E H2); [|set_solver].
  apply writes_for_each. intros e. apply writes_post_event.
Qed.
Lemma business_found i t db :
  ∃ o, Businesses.repo_findById i t db = Ok (o, db) ∧
    ∀ a, o = Some a → ∃ r, r ∈ rows db TTenant ∧ a = Businesses.toAggregate r.
Proof.
  unfold Businesses.repo_findById. destruct (negb _); [by exists None|].
  eexists. split; [reflexivity|]. intros a Ha.
  destruct (List.find (has_id TTenant i) (rows db TTenant)) as [r|] eqn:E; [|done]. injection Ha as <-. apply find_some_in in E as [E _]. by exists r.
Qed.

Lemma drop_safe {A} I (f : TFlow A) : safe I f → safe I (drop f).
Proof. intros H. apply safe_bind; [done|by intros a]. Qed.
(** Code between two database calls. *)
Lemma safe_lift {A B} I (r : result A) (f : A → TFlow B) :
  (∀ a, r = Ok a → safe I (f a)) → safe I (Businesses.lift r ≫= f).
Proof. intros H. destruct r; [by apply H|done]. Qed.

Lemma changed_safe ctx now i act :
  keeps_sound act → safe tenants_consistent (Businesses.changed ctx now i act).
Proof.
  intros Ha. unfold Businesses.changed. apply safe_lift. intros t _.
  unfold Businesses.loadAggregate. intros s r s' Hs E.
  destruct (business_found i t s) as (o & Eo & Ho). unfold transaction in E. rewrite Eo in E.
  injection E as <- <-. split; [done|]. destruct o as [a|]; [|done].
  destruct (Ho a eq_refl) as (x & Hx & ->). apply (safe_lift _ (act _)). intros b Eb.
  apply safe_bind; [|done]. apply safe_call. intros d u d' Hd E. eapply save_consistent; [|exact E|done].
  eapply Ha; [exact Eb|]. apply business_row.
  unfold tenants_consistent in Hs. rewrite Forall_forall in Hs. by apply Hs.
Qed.
Lemma create_safe ctx now n b e p a :
  safe tenants_consistent (Businesses.create ctx now n b e p a).
Proof.
  unfold Businesses.create. apply safe_lift. intros t _. apply safe_call_bind. intros s o s' Hs E.
  destruct (business_found t t s) as (o' & Eo & _). rewrite Eo in E. injection E as <- <-.
  split; [done|]. destruct o'; [done|]. apply safe_bind; [|done]. apply safe_call.
  intros d u d' Hd E. by eapply save_consistent; [|exact E|done].
Qed.
Lemma update_tenant_safe ctx i n b c : safe tenants_consistent (Tenants.update ctx i n b c).
Proof.
  unfold Tenants.update, Tenants.own_tenant. apply safe_bind.
  { apply safe_lift. intros t _. by destruct (negb _). }
  intros _. apply safe_call. intros s r s' Hs E. unfold Tenants.update_tx in E.
  apply tx_bind_ok in E as (t & d1 & E1 & E).
  assert (R1 : rows d1 TTenant = rows s TTenant).
  { assert (W : writes [] (load_row TTenant (Tenants.live i) (NotFoundException "Tenant not found"%string)))
      by solve_writes. apply W in E1. apply E1. set_solver. }
  apply tx_bind_ok in E as (u & d2 & E2 & E).
  assert (R2 : rows d2 TTenant = rows d1 TTenant).
  { assert (W : writes [] (Tenants.check_currency i (tn_currencyCode t) c))
      by (unfold Tenants.check_currency; solve_writes). apply W in E2. apply E2. set_solver. }
  apply tx_bind_ok in E as (v & d3 & E3 & E). apply update_id_inv in E3 as [_ ->].
  assert (R4 : rows s' TTenant = rows (on TTenant (map_where (has_id TTenant i) (Tenants.set_tenant n b c)) d2) TTenant).
  { assert (W : writes [] (load_row TTenant (has_id TTenant i) (PrismaError "P2025"%string))) by solve_writes.
    apply W in E. apply E. set_solver. }
  apply (consistent_rows _ _ R4). apply consistent_where.
  - intros x Hx _. rewrite R2, R1 in Hx. unfold tenants_consistent in Hs. rewrite Forall_forall in Hs.
    exact (Hs x Hx).
  - eapply consistent_rows; [|exact Hs]. by rewrite R2, R1.
Qed.

(** ** The administration *)

Lemma published now cx obs ty payload o db u db' :
  Outbox.outbox_publish now cx obs ty payload o db = Ok (u, db') →
  (∃ e, rows db' TOutbox = rows db TOutbox ++ [e] ∧ ob_type e = ty) ∧ only [TOutbox] db db'.
Proof.
  intros E. split; [|by apply writes_outbox_event in E].
  unfold Outbox.outbox_publish in E. cbv zeta in E.
  apply tx_bind_ok in E as (v & d & E1 & E). apply tx_lift_ok in E1 as [_ ->].
  apply tx_bind_ok in E as (e & d & E & [= _ ->]).
  pose proof (insert_rows TOutbox _ _ _ _ E) as [-> R]. eexists. split; [exact R|done].
Qed.
Lemma published_all now cx obs es : ∀ db u db',
  tx_for_each (λ e, Outbox.outbox_publish now cx obs (event_type e) (payload_json e) None) es db =
    Ok (u, db') →
  (∃ os, rows db' TOutbox = rows db TOutbox ++ os ∧ map ob_type os = map event_type es) ∧
  only [TOutbox] db db'.
Proof.
  induction es as [|e es IH]; intros db u db' E.
  { injection E as _ <-. split; [exists []; by rewrite app_nil_r|apply only_refl]. }
  simpl in E. apply tx_bind_ok in E as (v & d & E1 & E).
  apply published in E1 as [(o & R1 & T1) O1]. apply IH in E as [(os & R2 & T2) O2].
  split; [|by eapply only_trans]. exists (o :: os). rewrite R2, R1, <- app_assoc. simpl.
  by rewrite T1, T2.
Qed.

(** What a guarded update of a tenant, with its audit and its event, leaves. *)
Lemma action_run cx obs ids now actor t read act guard data action to reason db out db' :
  SuperAdmin.action_tx cx obs ids now actor t read act guard data action to reason db = Ok (out, db') →
  let p := λ r, bool_decide (tn_id r = t) && guard r in
  length (List.filter p (rows db TTenant)) = 1 ∧
  rows db' TTenant = map_where p data (rows db TTenant) ∧
  (∃ a, rows db' TPlatformAudit = (rows db TPlatformAudit ++ [a]) ∧
        pl_action a = action ∧ pl_resourceType a = "TENANT"%string ∧ pl_resourceId a = t) ∧
  (∃ a es, act (SuperAdminAggregate.forTarget actor {| SuperAdminAggregate.tenantId := t;
        SuperAdminAggregate.status := tn_status read;
        SuperAdminAggregate.deletedAt := tn_deletedAt read |}) = Ok a ∧
     rows db' TOutbox = (rows db TOutbox ++ es) ∧
     map ob_type es = map event_type (domainEvents a)) ∧
  only [TTenant; TPlatformAudit; TOutbox] db db'.
Proof.
  intros E p. unfold SuperAdmin.action_tx in E.
  apply tx_bind_ok in E as (a & d0 & E0 & E). apply tx_lift_ok in E0 as [Ea ->].
  apply tx_bind_ok in E as (n & d1 & [= <- <-] & E).
  apply tx_bind_ok in E as (v & d1 & E1 & E). apply tx_lift_ok in E1 as [E1 ->].
  apply throw_if_ok, negb_false_iff, Nat.eqb_eq in E1.
  set (d1 := on TTenant _ db) in E.
  assert (O1 : only [TTenant] db d1) by (apply only_on; set_solver).
  apply tx_bind_ok in E as (l & d2 & E2 & E).
  pose proof (insert_rows TPlatformAudit _ _ _ _ E2) as [El R2].
  pose proof (only_insert TPlatformAudit [TPlatformAudit] _ _ _ _ ltac:(by left) E2) as O2.
  apply tx_bind_ok in E as (w & d3 & E3 & [= _ <-]).
  apply published_all in E3 as [(es & R3 & T3) O3]. split_and!.
  - exact E1.
  - rewrite O3, O2 by set_solver. apply rows_on_same.
  - exists l. rewrite O3 by set_solver. cbn [row] in *. rewrite R2, O1 by set_solver.
    by rewrite El.
  - exists a, es. split; [done|]. split; [|done]. by rewrite R3, O2, O1 by set_solver.
  - eapply only_trans; [eapply only_weaken; [|exact O1]; set_solver|].
    eapply only_trans; (eapply only_weaken; [|eassumption]); set_solver.
Qed.

(** The four actions, as data: the states they act on, the state they lead to, the
    action as it is audited and the event. *)
Definition action_name (x : AdminAction) : string :=
  match x with
  | AdminActivate => "super-admin.tenant.activated"%string
  | AdminSuspend _ => "super-admin.tenant.suspended"%string
  | AdminDeactivate _ => "super-admin.tenant.deactivated"%string
  | AdminRestore => "super-admin.tenant.restored"%string
  end.
Definition action_from (x : AdminAction) : list TenantStatus :=
  match x with
  | AdminActivate => [TenantSUSPENDED]
  | AdminSuspend _ => [TenantACTIVE]
  | AdminDeactivate _ => [TenantACTIVE; TenantSUSPENDED]
  | AdminRestore => [TenantDEACTIVATED]
  end.
Definition action_to (x : AdminAction) : TenantStatus :=
  match x with
  | AdminActivate | AdminRestore => TenantACTIVE
  | AdminSuspend _ => TenantSUSPENDED
  | AdminDeactivate _ => TenantDEACTIVATED
  end.
(** What one transaction of an action does. *)
Record acted (t : string) (x : AdminAction) (db db' : Db) : Prop := {
  ac_tenants : ∃ p data,
    rows db' TTenant = map_where p data (rows db TTenant) ∧
    length (List.filter p (rows db TTenant)) = 1 ∧
    (∀ r, p r = true → tn_id r = t ∧ tn_status r ∈ action_from x ∧
          (tn_deletedAt r = None ↔ x ≠ AdminRestore)) ∧
    (∀ r, tn_id (data r) = tn_id r ∧ tn_status (data r) = action_to x ∧
          (p r = true → tn_deletedAt (data r) = None ↔ tn_status (data r) ≠ TenantDEACTIVATED));
  ac_audit : ∃ a, rows db' TPlatformAudit = rows db TPlatformAudit ++ [a] ∧
    pl_action a = action_name x ∧ pl_resourceType a = "TENANT"%string ∧ pl_resourceId a = t;
  ac_outbox : ∃ e, rows db' TOutbox = rows db TOutbox ++ [e] ∧ ob_type e = action_name x;
  ac_only : only [TTenant; TPlatformAudit; TOutbox] db db';
}.
(** The flow reads the tenant, and stops or runs one transaction that is one of [P]. *)
Definition reads_then_acts (t : string) (P : Db → Db → Prop) (f : TFlow unit) : Prop :=
  ∃ k, f = Transact _ (SuperAdmin.findTenantById t) k ∧
  ∀ o, (∃ r, k o = Return r) ∨
       ∃ (m : Tx Db string) k', k o = Transact _ m k' ∧ (∀ r, ∃ r', k' r = Return r') ∧
         ∀ db out db', m db = Ok (out, db') → P db db'.
Lemma act_on_flow cx obs ids now actor t refusal act guard data action to reason x :
  action = action_name x →
  (∀ y a, act (SuperAdminAggregate.forTarget actor y) = Ok a →
     map event_type (domainEvents a) = [action_name x]) →
  (∀ r, guard r = true → tn_status r ∈ action_from x ∧ (tn_deletedAt r = None ↔ x ≠ AdminRestore)) →
  (∀ r, tn_id (data r) = tn_id r ∧ tn_status (data r) = action_to x ∧
     (guard r = true → tn_deletedAt (data r) = None ↔ tn_status (data r) ≠ TenantDEACTIVATED)) →
  reads_then_acts t (acted t x)
    (drop (SuperAdmin.act_on cx obs ids now actor t refusal act guard data action to reason)).
Proof.
  intros -> Hev Hg Hd. unfold SuperAdmin.act_on, drop. eexists. split; [reflexivity|].
  intros [[r|]|e]; [|left; by eexists..]. simpl. destruct (guard r); [right|left; by eexists].
  simpl. eexists _, _. split; [reflexivity|]. split; [intros [out|e]; by eexists|].
  intros db out db' E. apply action_run in E as (H1 & H2 & H3 & (a & es & Ea & Ro & To) & H5).
  apply Hev in Ea. rewrite Ea in To. split; [|done| |done].
  - eexists _, _. split; [exact H2|]. split; [exact H1|]. split.
    + intros y Hy. apply andb_true_iff in Hy as [Hi Hy]. apply bool_decide_eq_true in Hi.
      specialize (Hg y Hy). tauto.
    + intros y. destruct (Hd y) as (? & ? & H). split_and!; [done..|].
      intros Hy. apply H. by apply andb_true_iff in Hy as [_ ?].
  - destruct es as [|o [|o' es]]; [done| |done]. exists o. split; [done|]. by injection To.
Qed.
Lemma administer_flow q t x : reads_then_acts t (acted t x) (administer q t x).
Proof.
  destruct x as [|reason|reason|]; cbn [administer]; unfold SuperAdmin.activateTenant,
    SuperAdmin.suspendTenant, SuperAdmin.deactivateTenant, SuperAdmin.restoreTenant;
    apply act_on_flow; try reflexivity;
    unfold SuperAdmin.in_status, SuperAdmin.undeleted; simpl.
  (* the events *)
  1, 4, 7, 10: intros y a E; unfold SuperAdminAggregate.activate, SuperAdminAggregate.suspend,
    SuperAdminAggregate.deactivate, SuperAdminAggregate.restore in E; cbv zeta in E;
    destruct (throw_if _ _) as [u|e] in E; [by injection E as <-|discriminate E].
  (* the guards and the data *)
  all: intros r; rewrite ?andb_true_iff, ?negb_true_iff, ?bool_decide_eq_true, ?bool_decide_eq_false;
    naive_solver.
Qed.

Lemma find_tenant_run t db : ∃ o, SuperAdmin.findTenantById t db = Ok (o, db).
Proof. by eexists. Qed.
(** Both kinds of invariants, for such a flow. *)
Lemma reads_then_acts_safe t P I f :
  reads_then_acts t P f → (∀ s s', P s s' → I s → I s') → safe I f.
Proof.
  intros (k & -> & Hk) HP s r s' Hs E. destruct (find_tenant_run t s) as [o Eo].
  unfold transaction in E. rewrite Eo in E. injection E as <- <-. split; [done|].
  destruct (Hk (Ok o)) as [[r ->]|(m & k' & -> & Hr & Hm)]; [done|]. intros d r d' Hd E.
  unfold transaction in E. destruct (m d) as [[out d1]|e] eqn:Em; injection E as <- <-.
  - split; [by eapply HP, Hd; eapply Hm|]. by destruct (Hr (Ok out)) as [r' ->].
  - split; [done|]. by destruct (Hr (Err e)) as [r' ->].
Qed.
Lemma reads_then_acts_keeping t P K f :
  PreOrder K → reads_then_acts t P f → (∀ s s', P s s' → K s s') → keeping K f.
Proof.
  intros HK (k & -> & Hk) HP. split.
  - intros s a s' E. destruct (find_tenant_run t s) as [o Eo]. rewrite Eo in E.
    injection E as _ <-. reflexivity.
  - intros o. destruct (Hk o) as [[r ->]|(m & k' & -> & Hr & Hm)]; [done|]. split.
    + intros d out d' E. by eapply HP, Hm.
    + intros r. by destruct (Hr r) as [r' ->].
Qed.

Lemma acted_consistent t x db db' : acted t x db db' → tenants_consistent db → tenants_consistent db'.
Proof.
  intros [(p & data & R & _ & _ & Hd) _ _ _] H. unfold tenants_consistent in *.
  cbn [row] in *. rewrite R.
  apply Forall_map, Forall_forall. intros r Hr. rewrite Forall_forall in H.
  destruct (p r) eqn:E; [|by apply H]. destruct (Hd r) as (_ & _ & Hc). specialize (Hc E).
  unfold consistent. destruct (decide (tn_status (data r) = TenantDEACTIVATED)); tauto.
Qed.

(** ** The plan of a tenant *)

Lemma change_plan_run cx obs ids now actor t sub old new pending db out db' :
  SuperAdmin.change_plan_tx cx obs ids now actor t sub old new pending db = Ok (out, db') →
  rows db' TTenant = rows db TTenant ∧
  (∃ a, rows db' TPlatformAudit = rows db TPlatformAudit ++ [a] ∧
        pl_resourceType a = "SUBSCRIPTION"%string) ∧
  ∃ os, rows db' TOutbox = rows db TOutbox ++ os ∧
        Forall (λ o, ob_type o = SuperAdmin.SCHEDULED ∨
                     ob_type o = "super-admin.plan-change.scheduled"%string) os.
Proof.
  intros E. unfold SuperAdmin.change_plan_tx in E. cbv zeta in E.
  apply tx_bind_ok in E as (a & d0 & E0 & E). apply tx_lift_ok in E0 as [Ea ->].
  apply tx_bind_ok in E as (n & d1 & [= <- <-] & E).
  apply tx_bind_ok in E as (v & d1 & E1 & E). apply tx_lift_ok in E1 as [E1 ->].
  set (d1 := on TSubscription _ db) in E.
  assert (O1 : only [TSubscription] db d1) by (apply only_on; set_solver).
  apply tx_bind_ok in E as (u2 & d2 & E2 & E). apply published in E2 as [(o & R2 & T2) O2].
  apply tx_bind_ok in E as (l & d3 & E3 & E).
  pose proof (insert_rows TPlatformAudit _ _ _ _ E3) as [El R3].
  pose proof (only_insert TPlatformAudit [TPlatformAudit] _ _ _ _ ltac:(by left) E3) as O3.
  apply tx_bind_ok in E as (h & d4 & E4 & E).
  pose proof (only_insert THistory [THistory] _ _ _ _ ltac:(by left) E4) as O4.
  apply tx_bind_ok in E as (w & d5 & E5 & [= _ <-]).
  apply published_all in E5 as [(os & R5 & T5) O5]. split_and!.
  - by rewrite O5, O4, O3, O2, O1 by set_solver.
  - exists l. rewrite O5, O4 by set_solver. cbn [row] in *. rewrite R3, O2, O1 by set_solver.
    by rewrite El.
  - exists (o :: os). rewrite R5, O4, O3, R2, O1 by set_solver. rewrite <- app_assoc.
    split; [done|]. constructor; [by left|].
    destruct (negb _) in Ea.
    + unfold SuperAdminAggregate.changePlan in Ea. cbv zeta in Ea.
      destruct (throw_if _ _) as [u|e] in Ea; [|discriminate Ea]. injection Ea as <-.
      destruct os as [|o' [|o'' os]]; [constructor| |discriminate T5].
      injection T5 as T5. constructor; [by right|constructor].
    + injection Ea as <-. destruct os; [constructor|discriminate T5].
Qed.
(** What a change of the plan leaves: nothing of a tenant and its log. *)
Record planned (db db' : Db) : Prop := {
  pd_tenants : rows db' TTenant = rows db TTenant;
  pd_audit : ∃ l, rows db' TPlatformAudit = rows db TPlatformAudit ++ l ∧
    Forall (λ a, pl_resourceType a = "SUBSCRIPTION"%string) l;
  pd_outbox : ∃ os, rows db' TOutbox = rows db TOutbox ++ os ∧
    Forall (λ o, ob_type o = SuperAdmin.SCHEDULED ∨
                 ob_type o = "super-admin.plan-change.scheduled"%string) os;
}.
#[export] Instance planned_preorder : PreOrder planned.
Proof.
  split.
  - intros db. split; [done|exists []; by rewrite app_nil_r..].
  - intros d1 d2 d3 [T1 (l1 & A1 & F1) (o1 & B1 & G1)] [T2 (l2 & A2 & F2) (o2 & B2 & G2)].
    split; [congruence|exists (l1 ++ l2)|exists (o1 ++ o2)]; (split; [|by apply Forall_app]).
    + by rewrite A2, A1, app_assoc.
    + by rewrite B2, B1, app_assoc.
Qed.
Lemma planned_reads {A} (m : Tx Db A) : writes [] m → ∀ s a s', m s = Ok (a, s') → planned s s'.
Proof.
  intros W s a s' E. apply W in E.
  split; [by rewrite E by set_solver|exists []; rewrite app_nil_r..];
    (split; [by rewrite E by set_solver|constructor]).
Qed.
Lemma change_plan_keeping q t i : keeping planned (change_plan q t i).
Proof.
  unfold change_plan, drop. apply keeping_bind; [|done].
  unfold SuperAdmin.changeTenantPlan. apply keeping_bind; [|intros [[s old]|]; [|done]].
  { apply keeping_call. apply planned_reads. unfold SuperAdmin.findSubscriptionByTenantId. solve_writes. }
  destruct (is_empty _); [done|]. apply keeping_bind; [|intros [new|]; [|done]].
  { apply keeping_call. apply planned_reads. unfold SuperAdmin.findPlanById. solve_writes. }
  cbv zeta. destruct (bool_decide (_ = sb_pendingPlanId s)); [done|]. apply keeping_call.
  intros d out d' E. apply change_plan_run in E as (H1 & (a & H2 & H3) & H4). split; [done| |done].
  exists [a]. split; [done|]. repeat constructor; done.
Qed.

(** * Everything at once *)

(** A call of the registry, of the tenants or of the administration. *)
Definition tenant_call (f : TFlow unit) : Prop :=
  (∃ op, f = perform op) ∨ (∃ q t x, f = administer q t x) ∨ (∃ q t i, f = change_plan q t i).
Lemma keeping_safe K I (f : TFlow unit) :
  PreOrder K → keeping K f → (∀ s s', K s s' → I s → I s') → safe I f.
Proof.
  intros HK Hf HI. induction f as [r|X m k IH|q k IH]; [done| |intros a; by apply IH].
  destruct Hf as [Hm Hk]. intros s r s' Hs E. split; [|by apply IH].
  eapply HI; [|exact Hs]. by eapply transaction_keeps.
Qed.
Lemma tenant_call_safe f : tenant_call f → safe tenants_consistent f.
Proof.
  intros [[op ->]|[(q & t & x & ->)|(q & t & i & ->)]].
  - destruct op; cbn [perform]; apply drop_safe.
    + apply create_safe.
    + apply changed_safe, edit_sound.
    + apply changed_safe, activate_sound.
    + apply changed_safe, suspend_sound.
    + apply changed_safe, archive_sound.
    + apply changed_safe, restore_sound.
    + apply changed_safe, retype_sound.
    + apply update_tenant_safe.
    + unfold Tenants.softDelete, Tenants.own_tenant. apply safe_bind.
      * apply safe_lift. intros t _. by destruct (negb _).
      * intros _. apply changed_safe, archive_sound.
  - eapply reads_then_acts_safe; [apply administer_flow|]. intros s s'. apply acted_consistent.
  - apply (keeping_safe planned); [exact _|apply change_plan_keeping|].
    intros s s' [R _ _]. by apply consistent_rows.
Qed.

(** C34: A tenant is deactivated exactly when it is deleted.  However many calls of the
    business registry, of the tenants and of the platform administration run at once, in
    any interleaving, with crashes and among others that keep it: where every tenant is
    DEACTIVATED exactly when it has a deletion date, every tenant still is, although the
    registry writes back what it read before. *)
Theorem tenants_stay_consistent (rely : Db → Db → Prop)
    (p p' : Pool Db Empty_set Empty_set unit) :
  (∀ s s', rely s s' → tenants_consistent s → tenants_consistent s') →
  Forall tenant_call (running p) → rtc (pool_step rely tenant_call) p p' →
  tenants_consistent (store p) → tenants_consistent (store p').
Proof.
  intros Hrely Hr Hs Hc. eapply pool_safe; [exact Hrely|apply tenant_call_safe|done| |exact Hs].
  apply (Forall_impl _ _ _ Hr). apply tenant_call_safe.
Qed.

(** ** The audit log replays *)

Definition status_of (db : Db) (t : string) : option TenantStatus :=
  tn_status <$> List.find (has_id TTenant t) (rows db TTenant).
Definition actions : list AdminAction :=
  [AdminActivate; AdminSuspend None; AdminDeactivate None; AdminRestore].
(** What the entries about a tenant tell, from a status on; [None] where an entry cannot
    have happened in the status before it. *)
Definition replay_entry (s : option TenantStatus) (action : string) : option TenantStatus :=
  s ← s;
  x ← List.find (λ x, bool_decide (action_name x = action)) actions;
  if bool_decide (s ∈ action_from x) then Some (action_to x) else None.
Definition is_entry (a : PlatformAuditRow) : bool :=
  bool_decide (pl_resourceType a = "TENANT"%string).
Definition entries (t : string) (l : list PlatformAuditRow) : list string :=
  map pl_action (List.filter (λ a, is_entry a && bool_decide (pl_resourceId a = t)) l).
Definition replay (s : TenantStatus) (es : list string) : option TenantStatus :=
  fold_left replay_entry es (Some s).
(** The tenant events of the outbox. *)
Definition is_action (type : string) : bool := bool_decide (type ∈ map action_name actions).
Definition announced (os : list OutboxRow) : list string :=
  List.filter is_action (map ob_type os).
Definition logged (l : list PlatformAuditRow) : list string :=
  map pl_action (List.filter is_entry l).
Lemma announced_app os os' : announced (os ++ os') = announced os ++ announced os'.
Proof. unfold announced. by rewrite map_app, List.filter_app. Qed.
Lemma logged_app l l' : logged (l ++ l') = logged l ++ logged l'.
Proof. unfold logged. by rewrite List.filter_app, map_app. Qed.
Lemma entries_app t l l' : entries t (l ++ l') = entries t l ++ entries t l'.
Proof. unfold entries. by rewrite List.filter_app, map_app. Qed.

(** From one store to the other, the audit log and the outbox have only grown, they tell of
    the same actions on tenants in the same order, and the entries of each tenant lead
    from its status before to its status after. *)
Definition audited (db db' : Db) : Prop :=
  ∃ more os, rows db' TPlatformAudit = rows db TPlatformAudit ++ more ∧
    rows db' TOutbox = rows db TOutbox ++ os ∧
    announced os = logged more ∧
    (keyed TTenant db → keyed TTenant db' ∧
     ∀ t s, status_of db t = Some s →
       ∃ s', status_of db' t = Some s' ∧ replay s (entries t more) = Some s').
#[export] Instance audited_preorder : PreOrder audited.
Proof.
  split.
  - intros db. exists [], []. rewrite !app_nil_r. split_and!; [done..|]. intros Hk. split; [done|].
    intros t s E. by exists s.
  - intros d1 d2 d3 (m1 & o1 & A1 & B1 & C1 & S1) (m2 & o2 & A2 & B2 & C2 & S2).
    exists (m1 ++ m2), (o1 ++ o2). rewrite A2, A1, B2, B1, !app_assoc. split_and!; [done..| |].
    + by rewrite announced_app, logged_app, C1, C2.
    + intros Hk. destruct (S1 Hk) as [Hk2 H1]. destruct (S2 Hk2) as [Hk3 H2]. split; [done|].
      intros t s E. destruct (H1 t s E) as (s2 & E2 & R2). destruct (H2 t s2 E2) as (s3 & E3 & R3).
      exists s3. split; [done|]. unfold replay in *.
      by rewrite entries_app, fold_left_app, R2.
Qed.

Lemma replay_action x s : s ∈ action_from x → replay s [action_name x] = Some (action_to x).
Proof.
  intros H. unfold replay, replay_entry. simpl.
  destruct x; simpl; rewrite ?bool_decide_true by done; done.
Qed.
Lemma acted_audited t x db db' : acted t x db db' → audited db db'.
Proof.
  intros [(p & data & R & Hl & Hp & Hd) (a & Ra & Ea1 & Ea2 & Ea3) (e & Re & Ee) _].
  exists [a], [e]. split; [done|]. split; [done|]. split.
  { unfold announced, logged, is_entry. simpl. rewrite Ea2, bool_decide_true, Ee by done. simpl.
    rewrite Ea1. by destruct x. }
  intros Hk. split.
  { unfold keyed. cbn [row] in *. rewrite R, map_where_keys; [done|]. intros r. apply Hd. }
  intros t' s E. unfold status_of in *. cbn [row] in *. rewrite R.
  rewrite find_map_where by (intros r; unfold has_id; cbn; by destruct (Hd r) as [-> _]).
  destruct (@List.find TenantRow (has_id TTenant t') (rows db TTenant)) as [r|] eqn:Ef; [|done].
  injection E as <-. apply find_some_in in Ef as [Hin Hi]. apply bool_decide_eq_true in Hi. cbn in Hi.
  assert (Hen : entries t' [a] = if bool_decide (t = t') then [action_name x] else []).
  { unfold entries, is_entry. simpl. rewrite Ea2, Ea3, bool_decide_true by done. simpl.
    case_bool_decide; simpl; by rewrite ?Ea1. }
  rewrite Hen. simpl.
  assert (Hone : ∃ r0, r0 ∈ rows db TTenant ∧ p r0 = true).
  { destruct (List.filter p (rows db TTenant)) as [|r0 l] eqn:El; [done|]. exists r0.
    assert (H : In r0 (List.filter p (rows db TTenant))) by (rewrite El; by left).
    apply filter_In in H as [H ?]. split; [by apply list_elem_of_In|done]. }
  destruct Hone as (r0 & Hin0 & Hp0). destruct (Hp r0 Hp0) as (Hi0 & Hs0 & _).
  destruct (bool_decide_reflect (t = t')) as [->|Hn].
  - assert (r0 = r) as -> by (apply (same_key tn_id (rows db TTenant)); [done..|congruence]).
    rewrite Hp0. eexists. split; [reflexivity|]. destruct (Hd r) as (_ & -> & _).
    by apply replay_action.
  - destruct (p r) eqn:Ep; [|by eexists]. exfalso. apply Hn. destruct (Hp r Ep) as [<- _]. done.
Qed.
Lemma planned_audited db db' : planned db db' → audited db db'.
Proof.
  intros [T (l & A & F) (os & B & G)]. exists l, os. split; [done|]. split; [done|].
  assert (L : List.filter is_entry l = []).
  { apply filter_none. apply (Forall_impl _ _ _ F). intros a Ea. unfold is_entry.
    rewrite Ea. done. }
  split.
  - unfold logged. rewrite L. unfold announced. apply filter_none. apply Forall_map.
    apply (Forall_impl _ _ _ G). intros o [->| ->]; done.
  - intros Hk. split; [unfold keyed in *; by rewrite T|]. intros t s E. exists s.
    unfold status_of in *. cbn [row] in *. rewrite T. split; [done|].
    assert (En : entries t l = []); [|by rewrite En].
    unfold entries. rewrite filter_none; [done|]. apply (Forall_impl _ _ _ F). intros a Ea.
    unfold is_entry. by rewrite Ea.
Qed.

(** C33: The audit log of the platform is the history of the tenants.  However many actions of
    platform administrators run at once, in any interleaving, with crashes and among
    others that change no tenant's status unaudited: the audit log and the outbox only
    grow, both tell of the same actions on tenants in the same order, and replaying the
    new entries of a tenant from the status it had, each entry possible where it stands,
    gives the status it has.  In particular no two actions are taken from one state. *)
Theorem audit_log_replays (rely : Db → Db → Prop) (p p' : Pool Db Empty_set Empty_set unit) :
  let admin_call f := (∃ q t x, f = administer q t x) ∨ ∃ q t i, f = change_plan q t i in
  (∀ s s', rely s s' → audited s s') → Forall admin_call (running p) →
  rtc (pool_step rely admin_call) p p' → audited (store p) (store p').
Proof.
  intros admin_call Hrely Hr Hs.
  assert (Hk : ∀ f, admin_call f → keeping audited f).
  { intros f [(q & t & x & ->)|(q & t & i & ->)].
    - eapply reads_then_acts_keeping; [exact _|apply administer_flow|]. intros s s'.
      apply acted_audited.
    - eapply keeping_mono; [|apply change_plan_keeping]. apply planned_audited. }
  eapply pool_keeps; [exact _|exact Hrely|exact Hk| |exact Hs].
  apply (Forall_impl _ _ _ Hr). exact Hk.
Qed.
End calls.

(** * Examples *)

Module TenantExamples.
Import FixedPoint SamplePlatform.
Local Open Scope string_scope.

Definition tenant (s : TenantStatus) (d : option Date) : TenantRow :=
  {| tn_id := "t1"; tn_name := "Acme"; tn_contactEmail := None; tn_contactPhone := None;
     tn_address := None; tn_createdAt := 0%Z; tn_status := s; tn_currencyCode := Some "USD";
     tn_businessType := RETAIL; tn_deletedAt := d; tn_kitchenWaitThresholdMinutes := of_Z 15 |}.
Definition active : Db := on TTenant (λ _, [tenant TenantACTIVE None]) emptyDb.
Definition request : Request :=
  {| rq_ctx := {| Outbox.cx_tenantId := None; Outbox.cx_outletId := None |};
     rq_observability := JNull;
     rq_ids := {| PlatformAuditLog.rq_requestId := None; PlatformAuditLog.rq_correlationId := None |};
     rq_now := 5%Z; rq_actor := "admin" |}.
Definition suspension : Flow Db Empty_set Empty_set unit :=
  administer request "t1" (AdminSuspend (Some "unpaid")).
Definition renaming : Flow Db Empty_set Empty_set unit :=
  perform (Edit (Some "t1") 6%Z "t1"
    {| BusinessRegistry.up_name := Some "Acme Ltd"; BusinessRegistry.up_businessType := None;
       BusinessRegistry.up_contactEmail := Undefined; BusinessRegistry.up_contactPhone := Undefined;
       BusinessRegistry.up_address := Undefined |}).
(** The calls take turns: one database call of the numbered one, each time. *)
Abbreviation TPool := (Pool Db Empty_set Empty_set unit).
Definition turn (p : TPool) (i : nat) : option TPool :=
  match running p !! i with
  | Some (Transact X m k) =>
      let '(r, s) := transaction m (Flows.store p) in
      Some {| Flows.store := s; running := <[i := k r]> (running p); log := log p |}
  | _ => None
  end.
Fixpoint turns (p : TPool) (l : list nat) : option TPool :=
  match l with [] => Some p | i :: l => p' ← turn p i; turns p' l end.
Lemma turns_steps starts l : ∀ p p', turns p l = Some p' → rtc (pool_step eq starts) p p'.
Proof.
  induction l as [|i l IH]; simpl; intros p p' E; [by injection E as ->|].
  unfold turn in E. destruct (running p !! i) as [[r|X m k|q k]|] eqn:Hi; simpl in E; try done.
  destruct (transaction m (Flows.store p)) as [r s] eqn:Ht. simpl in E.
  eapply rtc_l; [by eapply pool_transact|by apply IH].
Qed.
Definition together (fs : list (Flow Db Empty_set Empty_set unit)) : TPool :=
  {| Flows.store := active; running := fs; log := [] |}.

(** A suspension and a deletion by the tenant, both of which read the active tenant. *)
Definition deletion : Flow Db Empty_set Empty_set unit :=
  perform (DeleteTenant (Some "t1") 7%Z "t1").
Definition both : option TPool := turns (together [suspension; deletion]) [0; 1; 0; 1]%nat.
Lemma tenants_stay_consistent_witness :
  ∃ p, both = Some p ∧ tenants_consistent (Flows.store p) ∧
    map (λ r, (tn_status r, tn_deletedAt r)) (rows (Flows.store p) TTenant) =
      [(TenantDEACTIVATED, Some 7%Z)].
Proof.
  assert (E : (λ p, map (λ r, (tn_status r, tn_deletedAt r)) (rows (Flows.store p) TTenant)) <$> both =
              Some [(TenantDEACTIVATED, Some 7%Z)]) by (vm_compute; reflexivity).
  destruct both as [p|] eqn:Hp; [|discriminate E]. injection E as E. exists p.
  split; [reflexivity|]. split; [|exact E].
  refine (tenants_stay_consistent eq (together [suspension; deletion]) p _ _
    (turns_steps tenant_call _ _ _ Hp) _).
  - intros s s' <-. exact id.
  - constructor; [right; left; by eexists _, _, _|]. constructor; [left; by eexists|constructor].
  - constructor; [|constructor]. unfold consistent. simpl. naive_solver.
Defined.

(** Two administrators who both suspend, and one who reactivates: one suspension counts. *)
Definition activation : Flow Db Empty_set Empty_set unit := administer request "t1" AdminActivate.
Definition actions_pool : TPool := together [suspension; suspension; activation].
Definition acted_on : option TPool := turns actions_pool [0; 1; 0; 1; 2; 2]%nat.
Lemma audit_log_replays_witness :
  ∃ p, acted_on = Some p ∧ audited active (Flows.store p) ∧
    entries "t1" (rows (Flows.store p) TPlatformAudit) =
      ["super-admin.tenant.suspended"; "super-admin.tenant.activated"].
Proof.
  assert (E : (λ p, entries "t1" (rows (Flows.store p) TPlatformAudit)) <$> acted_on =
              Some ["super-admin.tenant.suspended"; "super-admin.tenant.activated"])
    by (vm_compute; reflexivity).
  destruct acted_on as [p|] eqn:Hp; [|discriminate E]. injection E as E. exists p.
  split; [reflexivity|]. split; [|exact E].
  refine (audit_log_replays eq actions_pool p _ _ (turns_steps _ _ _ _ Hp)).
  - intros s s' <-. reflexivity.
  - repeat constructor; by eexists _, _, _.
Defined.

(** The registry writes back every column of what it loaded: a tenant that is renamed while
    an administrator suspends it is active again, with the suspension audited. *)
Example suspension_undone :
  (λ p, (map (λ r, (tn_name r, tn_status r)) (rows (Flows.store p) TTenant),
         map pl_action (rows (Flows.store p) TPlatformAudit))) <$>
    turns (together [renaming; suspension]) [0; 1; 1; 0]%nat =
  Some ([("Acme Ltd", TenantACTIVE)], ["super-admin.tenant.suspended"]).
Proof. vm_compute. reflexivity. Qed.

(** The type of a deleted plan is not free: to create it again fails with the database's
    error, and not with the conflict of a type that exists. *)
Definition deleted_plan : Db :=
  on TPlan (λ _, [{| pn_id := "p1"; pn_type := STARTER; pn_name := "Starter";
                     pn_priceCents := of_Z 10; pn_deletedAt := Some 3%Z |}]) emptyDb.
Definition quiet (q : Empty_set) (w : unit) : Empty_set * unit := match q with end.
Example deleted_plan_type_taken :
  fst (fst (alone quiet (SuperAdmin.createPlan STARTER "Starter" (of_Z 20)) deleted_plan tt)) =
    Err (PrismaError "P2002").
Proof. vm_compute. reflexivity. Qed.
End TenantExamples.
